(* ===== verification/_CoqProject ===== *)
-Q . S2P
Prelude.v
Kstring.v
Spinlock.v
Kalloc.v
Vm.v
Bytes.v
Blk.v
Log.v
Sleeplock.v
Bio.v
Fs.v
FsInv.v
FsAlloc.v
FsGrow.v
FsDir.v
Proc.v
Sched.v
ProcInv.v
ProcSpec.v
Syscall.v
SyscallRuns.v
Pipe.v
File.v
FileInv.v
Kernel.v
Exec.v
Sysfile.v
SysfileInv.v
Ulib.v
Grep.v
Umalloc.v
Console.v
ConsoleInv.v
Kbd.v
Ide.v
Usys.v
Sh.v
Shspec.v
Shparse.v
Shrun.v
Uprogs.v
Forktest.v
Usertests.v
Trap.v
TrapInv.v
Procinfo.v
Mkfs.v
MkfsInv.v
MkfsRead.v
Mp.v
Rtc.v
KernelInv.v
Asm.v
AsmInv.v
AsmRuns.v
Seg.v
Boot.v
VmSpace.v
VmLife.v
Lapic.v
Interrupts.v
Start.v
Main.v
MainInv.v
KernelTests.v
