(* ===== verification/Prelude.v ===== *)
(** * xv6, the operating systems lab edition: a verification development

    The program is a teaching kernel for the x86, its user programs and the tool that
    builds its disk image, all under [src/].  The lab edition adds to xv6 a console line
    editor, a three-level scheduler, a barrier, a reentrant lock, a search path for
    [exec] and a few system calls.

    ** How the code is translated

    C functions are Rocq functions with the names of the source.  Code that changes
    state is written in the monad [M S A := S -> res A * S] of this file, [S] being the
    state of the component; its outcomes are a return, a panic, going to sleep on a
    channel, waiting for ever ([Spin]) and behaviour C does not define ([UB]).  A [zoom]
    runs a component inside the state of one that contains it.  Integers are numbers of
    [Z] brought back to their width with [u32], [s32], [u16], [s16] and [u8] where the C
    type would wrap.  Memory is a function from addresses to bytes; disk blocks and the
    structures in them are lists of bytes.  A pointer into a static table is an index.

    On the one processor the kernel is configured for, a spin lock is a flag
    ([acquire_flag], [release_flag]); [Spinlock] proves that of the real code.  A context
    switch cuts a function in two: [x_enter] is what runs before it and [x_exit] or
    [x_resume] what runs after it.

    ** The files

    Memory and locks.
    - [Kstring]: [string.c] on byte-addressed memory.
    - [Spinlock]: [spinlock.c] with [mycpu] and [myproc]; module [Interleaved] cuts
      [acquire] and [release] into their accesses to the lock, runs these on any number
      of processors in any order and proves mutual exclusion.
    - [Kalloc]: [kalloc.c], the free list threaded through the pages.
    - [Vm]: [vm.c], page tables as words in memory, read as a map by [entry].
      [VmSpace]: an address space as the pages it owns, and each routine of [vm.c] on it;
      [VmLife]: all address spaces together, over any sequence of operations.

    Disk and file system.
    - [Bytes]: little-endian fields in blocks.
    - [Blk]: what the buffer cache promises; [Log] and [Fs] are written against it.
    - [Bio]: [bio.c] with its linked list, and [memide.c]; it implements [Blk] over any
      instance of the class [Driver].  [Ide]: [ide.c] with a model of the controller.
    - [Log]: [log.c], with crashes as prefixes of the list of disk writes.
    - [Sleeplock]: [sleeplock.c].
    - [Fs]: [fs.c]; [FsInv]: reading files, and inodes on disk; [FsAlloc]: the bitmap;
      [FsGrow]: writing, with the blocks a file takes as it grows; [FsDir]: directories
      and path names.
    - [Mkfs]: [mkfs.c]; [MkfsInv]: the layout of the image it builds; [MkfsRead]: the
      kernel's code of [Fs] reads that image back.

    Processes and system calls.
    - [Proc]: [proc.c] over the interface [Env], the calls it makes to the rest of the
      kernel; [Sched]: the scheduler and its three policies; [ProcInv]: the invariant of
      the process table over all sequences of steps; [ProcSpec]: the contracts of the
      calls; [Procinfo]: the process listing.
    - [Pipe], [File], [FileInv]: [pipe.c] and [file.c].
    - [Kernel]: the instance of [Env] made of [Kalloc], [Vm], [Fs], [File] and [Pipe].
    - [Exec]: [exec.c]; [Sysfile], [SysfileInv]: [sysfile.c]; [Syscall], [SyscallRuns]:
      [syscall.c] and [sysproc.c].
    - [Trap], [TrapInv]: [trap.c]; [KernelInv]: all system calls together.  [Interrupts]
      (behind the devices): traps with the interrupt routines of the disk, the keyboard
      and the serial port over any state of these devices.

    Devices.
    - [Console], [ConsoleInv]: [console.c] and [uart.c], an abstract line editor, and the
      proof that the console implements it for any source of keys (class [key_source]).
    - [Kbd]: [kbd.c], an instance of that class.
    - [Mp]: [mp.c]; [Rtc]: the clock of [lapic.c], and [ioapic.c]; [Lapic]: the rest of
      [lapic.c], and [picirq.c].

    The processor and the start of the system.
    - [Asm]: registers, segments, stack, [int] and [iret] of the processor, and on it the
      assembly files as lists of instructions: [swtch.S], [trapasm.S], [vectors.pl],
      [initcode.S], [entry.S], [bootasm.S], [entryother.S].  [AsmInv]: context switches
      and traps; [AsmRuns]: runs of them.
    - [Seg]: the segment descriptors of [mmu.h], [seginit], [switchuvm], [switchkvm] and
      [idtinit], with the processor's reading of the tables.
    - [Boot]: [bootmain.c], over the disk controller of [Ide].
    - [Start]: the boot page table and [startothers] of [main.c], with [entry.S] and
      [entryother.S] run to their ends.
    - [Main]: [main], [mpmain] and [mpenter] of [main.c] over the state of every
      component; [MainInv]: what [main] leaves behind.

    User programs.
    - [Ulib]: [ulib.c] and [printf.c]; [Umalloc]: [umalloc.c]; [Grep]: [grep.c].
    - [Usys]: programs as trees of system calls ([usys.S], [user.h]) and their meaning
      over any system, [fork] included.
    - [Sh]: [sh.c]; [Shspec]: its grammar; [Shparse]: the parser decides the grammar;
      [Shrun]: what a session of commands does.
    - [Uprogs]: the small programs, from [cat.c] to [zhi.c].
    - [Forktest]: [forktest.c] and [stressfs.c]; [Usertests]: [usertests.c].
    - [KernelTests]: the kernel as a system for these programs, through [syscall] and user
      memory, runs of the tests on it, and a run of [exit] and [wait].

    ** What is proved

    - Safety under concurrency and crashes: mutual exclusion of both kinds of lock, a
      pipe loses and reorders nothing, a transaction is on disk whole or not at all.
    - Conservation: pages, address spaces, file references, descriptors and heap units are
      neither lost nor duplicated by any sequence of calls, error paths included.
    - The system starts: the boot loader loads the kernel, the other processors arrive in
      [mpenter], and [main] reaches the scheduler with every page accounted for and one
      runnable process that holds the code of [initcode.S].
    - Assembly: [swtch] is a coroutine switch, a trap is invisible to the code it
      interrupts, a new process enters user mode in the state of its trap frame.  These
      are the boundaries at which the functions of [Proc] and [Trap] are cut.
    - Typing: every selector and gate the kernel loads names a segment of its kind.
    - Every trap, resumed or not, keeps the process table, and none returns to a process
      that has been killed.
    - Refinement: the buffer cache implements the block layer, the disk driver a queue,
      the console an abstract editor, the shell's parser its grammar and the shell the
      meaning of its commands, with failing calls and programs that read its input.
    - Round trips: the contents of files that grow, inodes, directory entries, and the
      image of [mkfs].
    - Contracts of [fork], [exit], [wait], [sleep], [wakeup], the barrier, the
      scheduling levels, page mapping, argument checking, traps, and the allocators.
    - Runs of single programs ([KernelTests]): the tests of [usertests.c] that need one
      process, on the image [mkfs] builds.
    - A few theorems show what the code does where it does not do what it means to:
      [get_time] stores past the end of a process, typing ahead of the reader loops.

    ** Hypotheses to know of

    - [Log.log_group_commit]: the log has room for the reservations of all transactions;
      [begin_op] reserves as if it had [LOGSIZE] blocks behind its header, and [mkfs]
      makes one fewer, so on its image a transaction may log nine blocks, not ten.
    - [FsGrow.writei_readi], [FsDir.dirlink_dirlookup]: the blocks below the size of the
      file are there; the room in the log is counted without the writes it absorbs.
    - [MkfsRead.mkfs_image_readable]: the entries of the root directory do not end at a
      block boundary, where [mkfs] counts a block it has not allocated.
    - [Shrun.shell_session]: lines of at most 98 bytes, the longest [gets] reads whole.
    - [Grep.grep_selects]: lines of at most 1022 bytes, and a reader that ends inside a
      line only when it has filled the request or nothing follows.
    - [Umalloc.malloc_contract]: requests below [2^31 - 16] bytes.
    - [ConsoleInv.console_edits_line]: not the keys that end or list ([^P], enter), not
      [^U], which leaves the size of the line, and the end key only below index 128.

    ** Bounds and fuel

    Loops on a count are structural.  Others take a fuel; running out of it is [Spin] (or
    [None]), never a result.  The definitions that are called by others fix a fuel that
    is enough: the list of buffers has [NBUF] nodes, a transfer of [n] bytes takes at
    most [n / BSIZE + 3] turns ([FsInv.enough_start]), a directory as many as it has
    entries, [mkfs] at most one turn per byte.  Where the caller chooses, the theorems
    say how much is enough and prove that the code then returns: the parser of the shell
    ([Shspec.ref_total]), the walks of [Umalloc], the keys waiting at the console, the
    reads of [cat], [wc] and [grep], the turns of the clock ([Rtc.cmostime_date]), the polls
    of the disk ([Boot.bootmain_loads]) and of the interrupt controller, the other
    processors' answers ([MainInv.main_boots]).  Code of [Asm] takes as much as the
    instructions it runs.  Loops that wait for another process are given as the turns
    between two sleeps.

    ** Parameters

    What is not under [src/] is a parameter: the host of [mkfs], the chips behind the
    ports, the system under a user program, [sbrk] for [malloc], the work a process does
    between two switches for the scheduler.  Each theorem names what it assumes of them,
    and has an instance in which the assumptions hold.

    ** Not modelled

    - The messages [main] and [mpmain] print, the multiboot header of [entry.S], and the
      declarations of the headers ([defs.h] and the like), which have no effect of their
      own.
    - The tests of [usertests.c] that fork are modelled as programs but not run on the
      kernel: a [system] of [Usys] runs a child to its end before its parent goes on.
    - Segment limits and page permissions during the instructions of [Asm]; instructions
      the assembly files do not use.
    - Caches, the store buffer and the timing of devices. *)

From Stdlib Require Import ZArith Lia.
From stdpp Require Import base list strings gmap.
Local Open Scope Z_scope.

(** ** Outcomes of kernel code

    A C function of the kernel either returns, panics with a message, puts the
    calling process to sleep on a channel, busy-waits for something only another
    processor or a device can change, or does something the C language gives no
    meaning to (an out-of-range index, a null dereference, a division by zero). *)

(** Wait channels: the address passed to [sleep]/[wakeup].  Distinct objects
    have distinct addresses, so a channel is the object it points to. *)
Inductive chan :=
| CNull
| CTicks
| CBarrier
| CLog
| CInput
| CProc (slot : nat)
| CBuf (b : nat)
| CSleeplock (l : nat)
| CPipeRead (p : Z)
| CPipeWrite (p : Z).

#[export] Instance chan_eq_dec : EqDecision chan.
Proof. solve_decision. Defined.

Inductive res (A : Type) :=
| Ok (a : A)
| Panic (m : string)
| Sleep (c : chan)
| Spin
| UB (m : string).
Arguments Ok {A} a.
Arguments Panic {A} m.
Arguments Sleep {A} c.
Arguments Spin {A}.
Arguments UB {A} m.

(** Stateful kernel code: state passing with an outcome. *)
Definition M (S A : Type) : Type := S -> res A * S.

Definition ret {S A} (a : A) : M S A := fun s => (Ok a, s).

Definition bind {S A B} (m : M S A) (k : A -> M S B) : M S B :=
  fun s =>
    match m s with
    | (Ok a, s') => k a s'
    | (Panic e, s') => (Panic e, s')
    | (Sleep c, s') => (Sleep c, s')
    | (Spin, s') => (Spin, s')
    | (UB e, s') => (UB e, s')
    end.

Definition get {S} : M S S := fun s => (Ok s, s).
Definition gets {S A} (f : S -> A) : M S A := fun s => (Ok (f s), s).
Definition modify {S} (f : S -> S) : M S unit := fun s => (Ok tt, f s).
Definition panic {S A} (m : string) : M S A := fun s => (Panic m, s).
Definition ub {S A} (m : string) : M S A := fun s => (UB m, s).
Definition spin {S A} : M S A := fun s => (Spin, s).
Definition block_on {S A} (c : chan) : M S A := fun s => (Sleep c, s).

(** Run code of a component inside a state that embeds the component's. *)
Definition zoom {S T A} (proj : S -> T) (inj : T -> S -> S) (m : M T A) : M S A :=
  fun s => let '(r, t) := m (proj s) in (r, inj t s).

Declare Scope kernel_scope.
Delimit Scope kernel_scope with kernel.
Notation "x <- m ;; k" := (bind m (fun x => k))
  (at level 100, m at next level, k at level 200, right associativity) : kernel_scope.
Notation "m ;; k" := (bind m (fun _ => k))
  (at level 100, k at level 200, right associativity) : kernel_scope.
Open Scope kernel_scope.

(** ** C integers

    [int] and [uint] are 32 bits wide; arithmetic is computed in [Z] and
    brought back to the width. *)

Definition u32 (z : Z) : Z := z mod 2 ^ 32.
Definition s32 (z : Z) : Z := (z + 2 ^ 31) mod 2 ^ 32 - 2 ^ 31.
Definition u16 (z : Z) : Z := z mod 2 ^ 16.
Definition s16 (z : Z) : Z := (z + 2 ^ 15) mod 2 ^ 16 - 2 ^ 15.
Definition u8 (z : Z) : Z := z mod 2 ^ 8.

Lemma u32_range z : 0 <= u32 z < 2 ^ 32.
Proof. apply Z.mod_pos_bound; lia. Qed.

Lemma s32_range z : - 2 ^ 31 <= s32 z < 2 ^ 31.
Proof. unfold s32. pose proof (Z.mod_pos_bound (z + 2 ^ 31) (2 ^ 32)). lia. Qed.

Lemma u8_range z : 0 <= u8 z < 256.
Proof. apply (Z.mod_pos_bound z 256). lia. Qed.

Lemma u32_id z : 0 <= z < 2 ^ 32 -> u32 z = z.
Proof. apply Z.mod_small. Qed.

Lemma s32_id z : - 2 ^ 31 <= z < 2 ^ 31 -> s32 z = z.
Proof. intros H. unfold s32. rewrite Z.mod_small; lia. Qed.

Lemma u8_id z : 0 <= z < 256 -> u8 z = z.
Proof. apply Z.mod_small. Qed.

Lemma u8_u8 z : u8 (u8 z) = u8 z.
Proof. apply Z.mod_mod. lia. Qed.

(** Truth of a C condition that is a number. *)
Definition nz (z : Z) : bool := negb (z =? 0).

(** ** Byte-addressed memory *)

Definition mem := Z -> Z.

Definition upd (m : mem) (a v : Z) : mem := fun x => if x =? a then v else m x.

Lemma upd_eq m a v : upd m a v a = v.
Proof. unfold upd. by rewrite Z.eqb_refl. Qed.

Lemma upd_ne m a v x : x <> a -> upd m a v x = m x.
Proof. intros H. unfold upd. by rewrite (proj2 (Z.eqb_neq x a) H). Qed.

(** Case analysis on every boolean comparison of integers in sight. *)
Ltac zcases :=
  repeat match goal with
  | |- context [?a =? ?b] => destruct (Z.eqb_spec a b)
  | |- context [?a <? ?b] => destruct (Z.ltb_spec a b)
  | |- context [?a <=? ?b] => destruct (Z.leb_spec a b)
  | H : context [?a =? ?b] |- _ => destruct (Z.eqb_spec a b)
  | H : context [?a <? ?b] |- _ => destruct (Z.ltb_spec a b)
  | H : context [?a <=? ?b] |- _ => destruct (Z.leb_spec a b)
  end.

(** Bit [n] of a number cut to width [w]. *)
Lemma testbit_mod_pow2 z w n :
  0 <= w -> 0 <= n -> Z.testbit (z mod 2 ^ w) n = (n <? w) && Z.testbit z n.
Proof.
  intros Hw Hn. destruct (Z.ltb_spec n w); simpl.
  - by rewrite Z.mod_pow2_bits_low by lia.
  - by rewrite Z.mod_pow2_bits_high by lia.
Qed.

(** Testing one bit with a mask. *)
Lemma land_pow2 f k : 0 <= k -> (Z.land f (2 ^ k) =? 0) = negb (Z.testbit f k).
Proof.
  intros Hk. destruct (Z.testbit f k) eqn:E; simpl.
  - apply Z.eqb_neq. intros H. apply (f_equal (fun z => Z.testbit z k)) in H.
    by rewrite Z.land_spec, E, Z.pow2_bits_true, Z.bits_0 in H by lia.
  - apply Z.eqb_eq. apply Z.bits_inj'. intros i Hi. rewrite Z.land_spec, Z.bits_0.
    destruct (Z.eqb_spec i k) as [->|Hne]; [by rewrite E|].
    rewrite Z.pow2_bits_false by done. apply andb_false_r.
Qed.

(** ** Locks of a component

    On the one processor this kernel is configured for ([NCPU] is 1) a spin lock
    is a flag: [acquire] panics when it is set and [release] when it is not
    ([Spinlock.acquire_refines_flag] and [Spinlock.release_refines_flag] prove it
    of the real code).  A component's lock is a flag of the component's state. *)
Section Flags.
Context {S : Type} (get_flag : S -> bool) (set_flag : bool -> S -> S).

Definition acquire_flag : M S unit :=
  s <- get ;;
  if get_flag s then panic "acquire" else modify (set_flag true).

Definition release_flag : M S unit :=
  s <- get ;;
  if get_flag s then modify (set_flag false) else panic "release".

Lemma acquire_flag_run s :
  get_flag s = false -> acquire_flag s = (Ok tt, set_flag true s).
Proof. intros H. unfold acquire_flag, bind, get. by rewrite H. Qed.

Lemma release_flag_run s :
  get_flag s = true -> release_flag s = (Ok tt, set_flag false s).
Proof. intros H. unfold release_flag, bind, get. by rewrite H. Qed.
End Flags.

(** Clearing the low [n] bits of a 32-bit number. *)
Lemma land_clear_low a n :
  0 <= n <= 32 -> 0 <= a < 2 ^ 32 ->
  Z.land a (u32 (Z.lnot (2 ^ n - 1))) = a - a mod 2 ^ n.
Proof.
  intros Hn Ha. unfold u32. rewrite <- Z.land_ones by lia.
  rewrite (Z.land_comm (Z.lnot _)), Z.land_assoc, Z.land_ones by lia.
  rewrite (Z.mod_small a) by lia.
  replace (2 ^ n - 1) with (Z.ones n) by (rewrite Z.ones_equiv; lia).
  rewrite <- Z.ldiff_land, Z.ldiff_ones_r by lia.
  rewrite Z.shiftl_mul_pow2, Z.shiftr_div_pow2 by lia.
  pose proof (Z.div_mod a (2 ^ n) ltac:(lia)). lia.
Qed.

(** Symbolic execution of the monad's own combinators. *)
Ltac mrun :=
  cbv beta iota zeta delta [bind ret get gets modify panic ub spin block_on zoom
                            acquire_flag release_flag].
Ltac mrun_in H :=
  cbv beta iota zeta delta [bind ret get gets modify panic ub spin block_on zoom
                            acquire_flag release_flag] in H.

Lemma s32_u32 z : s32 (u32 z) = s32 z.
Proof. unfold s32, u32. by rewrite Zplus_mod_idemp_l. Qed.

Lemma bind_ok {S A B} (m : M S A) (k : A -> M S B) s s' a :
  m s = (Ok a, s') -> bind m k s = k a s'.
Proof. intros H. unfold bind. by rewrite H. Qed.

Lemma bind_bind {S A B C} (m : M S A) (f : A -> M S B) (k : B -> M S C) s :
  bind (bind m f) k s = bind m (fun x => bind (f x) k) s.
Proof. unfold bind. by destruct (m s) as [[] ?]. Qed.

(** Partial correctness: if [m] returns from [s], its result and state satisfy [Q]. *)
Definition wp {S A} (m : M S A) (s : S) (Q : A -> S -> Prop) : Prop :=
  match m s with (Ok a, s') => Q a s' | _ => True end.

Lemma wp_bind {S A B} (m : M S A) (k : A -> M S B) s Q :
  wp m s (fun a s1 => wp (k a) s1 Q) -> wp (bind m k) s Q.
Proof. unfold wp, bind. by destruct (m s) as [[] ?]. Qed.

Lemma wp_run {S A} (m : M S A) s a s' Q : m s = (Ok a, s') -> Q a s' -> wp m s Q.
Proof. unfold wp. by intros ->. Qed.

Lemma wp_elim {S A} (m : M S A) s Q a s' : wp m s Q -> m s = (Ok a, s') -> Q a s'.
Proof. unfold wp. by intros H E; rewrite E in H. Qed.

Lemma wp_weaken {S A} (m : M S A) s (Q Q' : A -> S -> Prop) : wp m s Q -> (forall a s', Q a s' -> Q' a s') -> wp m s Q'.
Proof. unfold wp. intros H HQ. destruct (m s) as [[] ?]; auto. Qed.

Lemma wp_zoom {S T A} (proj : S -> T) (inj : T -> S -> S) (m : M T A) s Q :
  (forall a t, m (proj s) = (Ok a, t) -> Q a (inj t s)) -> wp (zoom proj inj m) s Q.
Proof. unfold wp, zoom. intros H. destruct (m (proj s)) as [[] ?] eqn:E; try done. by apply H. Qed.
