(* ===== verification/Kstring.v ===== *)
(** The kernel's string routines, [src/string.c], on byte-addressed memory.

    Memory is a total function from addresses to bytes; every routine takes the
    memory and returns the memory it leaves.  The byte count of a loop is the
    natural number the recursion is on, so every routine terminates.
    [strlen], whose loop has no count, runs with fuel. *)

From Stdlib Require Import ZArith Lia.
From stdpp Require Import base list strings.
From S2P Require Import Prelude.
Local Open Scope Z_scope.

(** [rep stosb] and [rep stosl] of [x86.h]. *)
Fixpoint stosb (m : mem) (addr data : Z) (cnt : nat) : mem :=
  match cnt with
  | O => m
  | S k => stosb (upd m addr (u8 data)) (addr + 1) data k
  end.

Definition store32 (m : mem) (a w : Z) : mem :=
  upd (upd (upd (upd m a (u8 w))
                (a + 1) (u8 (Z.shiftr w 8)))
           (a + 2) (u8 (Z.shiftr w 16)))
      (a + 3) (u8 (Z.shiftr w 24)).

Definition load32 (m : mem) (a : Z) : Z :=
  Z.lor (m a) (Z.lor (Z.shiftl (m (a + 1)) 8)
        (Z.lor (Z.shiftl (m (a + 2)) 16) (Z.shiftl (m (a + 3)) 24))).

Fixpoint stosl (m : mem) (addr data : Z) (cnt : nat) : mem :=
  match cnt with
  | O => m
  | S k => stosl (store32 m addr data) (addr + 4) data k
  end.

(** [memset]: words when pointer and count are multiples of four. *)
Definition memset (m : mem) (dst c n : Z) : mem :=
  if (Z.rem (s32 dst) 4 =? 0) && (n mod 4 =? 0) then
    let c := Z.land c 255 in
    stosl m dst (Z.lor (Z.lor (Z.lor (Z.shiftl c 24) (Z.shiftl c 16)) (Z.shiftl c 8)) c)
          (Z.to_nat (n / 4))
  else stosb m dst c (Z.to_nat n).

Fixpoint memcmp_loop (m : mem) (s1 s2 : Z) (n : nat) : Z :=
  match n with
  | O => 0
  | S k => if negb (m s1 =? m s2) then m s1 - m s2
           else memcmp_loop m (s1 + 1) (s2 + 1) k
  end.

Definition memcmp (m : mem) (v1 v2 n : Z) : Z := memcmp_loop m v1 v2 (Z.to_nat n).

(** The two loops of [memmove]: from the top when the regions overlap with the
    destination above, from the bottom otherwise. *)
Fixpoint copy_down (m : mem) (d s : Z) (n : nat) : mem :=
  match n with
  | O => m
  | S k => copy_down (upd m (d - 1) (m (s - 1))) (d - 1) (s - 1) k
  end.

Fixpoint copy_up (m : mem) (d s : Z) (n : nat) : mem :=
  match n with
  | O => m
  | S k => copy_up (upd m d (m s)) (d + 1) (s + 1) k
  end.

Definition memmove (m : mem) (dst src n : Z) : mem :=
  if (src <? dst) && (dst <? src + n)
  then copy_down m (dst + n) (src + n) (Z.to_nat n)
  else copy_up m dst src (Z.to_nat n).

Definition memcpy (m : mem) (dst src n : Z) : mem := memmove m dst src n.

Fixpoint strncmp_loop (m : mem) (p q : Z) (n : nat) : Z :=
  match n with
  | O => 0
  | S k => if nz (m p) && (m p =? m q) then strncmp_loop m (p + 1) (q + 1) k
           else m p - m q
  end.

Definition strncmp (m : mem) (p q n : Z) : Z := strncmp_loop m p q (Z.to_nat n).

Fixpoint zero_fill (m : mem) (s : Z) (n : nat) : mem :=
  match n with
  | O => m
  | S k => zero_fill (upd m s 0) (s + 1) k
  end.

Fixpoint strncpy_loop (m : mem) (s t : Z) (n : nat) : mem :=
  match n with
  | O => m
  | S k => let m1 := upd m s (m t) in
           if nz (m t) then strncpy_loop m1 (s + 1) (t + 1) k
           else zero_fill m1 (s + 1) k
  end.

Definition strncpy (m : mem) (s t n : Z) : mem := strncpy_loop m s t (Z.to_nat n).

(** The copying loop of [safestrcpy]; [n] counts the iterations [--n > 0]
    allows.  The final [*s = 0] is where the loop stops. *)
Fixpoint safestrcpy_loop (m : mem) (s t : Z) (n : nat) : mem :=
  match n with
  | O => upd m s 0
  | S k => let m1 := upd m s (m t) in
           if nz (m t) then safestrcpy_loop m1 (s + 1) (t + 1) k
           else upd m1 (s + 1) 0
  end.

Definition safestrcpy (m : mem) (s t n : Z) : mem :=
  if n <=? 0 then m else safestrcpy_loop m s t (Z.to_nat (n - 1)).

Fixpoint strlen (fuel : nat) (m : mem) (s n : Z) : option Z :=
  match fuel with
  | O => None
  | S k => if nz (m (s + n)) then strlen k m s (n + 1) else Some n
  end.

(** ** Words in memory *)

(** A word read back is the word stored, cut to 32 bits. *)
Lemma load32_store32 m a w : load32 (store32 m a w) a = u32 w.
Proof.
  unfold load32, store32.
  repeat first [rewrite upd_eq | rewrite upd_ne by lia].
  apply Z.bits_inj'; intros n Hn. unfold u8, u32.
  rewrite testbit_mod_pow2, !Z.lor_spec, !Z.shiftl_spec by lia.
  rewrite testbit_mod_pow2 by lia.
  destruct (Z.ltb_spec n 8), (Z.ltb_spec n 16), (Z.ltb_spec n 24), (Z.ltb_spec n 32);
    try lia; simpl;
    repeat match goal with
    | |- context [Z.testbit (_ mod 2 ^ 8) (n - ?k)] =>
        first [ rewrite (Z.testbit_neg_r _ (n - k)) by lia
              | rewrite testbit_mod_pow2, Z.shiftr_spec by lia;
                replace (n - k + k) with n by lia;
                destruct (Z.ltb_spec (n - k) 8); try lia; simpl ]
    end; rewrite ?orb_false_r; done.
Qed.

Lemma store32_other m a w x : ~ (a <= x < a + 4) -> store32 m a w x = m x.
Proof. intros H. unfold store32. rewrite !upd_ne by lia. done. Qed.

(** ** Filling *)

Lemma stosb_spec n : forall m a c x,
  stosb m a c n x = if (a <=? x) && (x <? a + Z.of_nat n) then u8 c else m x.
Proof.
  induction n as [|n IH]; intros m a c x; simpl stosb.
  - zcases; simpl; done || lia.
  - rewrite IH. unfold upd. zcases; simpl; done || lia.
Qed.

(** The word [memset] stores holds its byte four times. *)
Lemma splat_bytes c i :
  0 <= c < 256 -> i = 0 \/ i = 8 \/ i = 16 \/ i = 24 ->
  u8 (Z.shiftr (Z.lor (Z.lor (Z.lor (Z.shiftl c 24) (Z.shiftl c 16)) (Z.shiftl c 8)) c) i) = c.
Proof.
  intros Hc Hi.
  assert (Hall : forallb (fun k =>
     let c := Z.of_nat k in
     let w := Z.lor (Z.lor (Z.lor (Z.shiftl c 24) (Z.shiftl c 16)) (Z.shiftl c 8)) c in
     (u8 (Z.shiftr w 0) =? c) && (u8 (Z.shiftr w 8) =? c)
     && (u8 (Z.shiftr w 16) =? c) && (u8 (Z.shiftr w 24) =? c)) (seq 0 256) = true)
    by (vm_compute; reflexivity).
  rewrite forallb_forall in Hall.
  specialize (Hall (Z.to_nat c)). cbv zeta in Hall. rewrite Z2Nat.id in Hall by lia.
  assert (Hin : In (Z.to_nat c) (seq 0 256)) by (apply in_seq; lia).
  specialize (Hall Hin). rewrite !andb_true_iff, !Z.eqb_eq in Hall.
  destruct Hall as [[[? ?] ?] ?].
  destruct Hi as [-> | [-> | [-> | ->]]]; assumption.
Qed.

Lemma stosl_splat n : forall m a c x,
  0 <= c < 256 ->
  stosl m a (Z.lor (Z.lor (Z.lor (Z.shiftl c 24) (Z.shiftl c 16)) (Z.shiftl c 8)) c) n x
  = if (a <=? x) && (x <? a + 4 * Z.of_nat n) then c else m x.
Proof.
  induction n as [|n IH]; intros m a c x Hc; simpl stosl.
  - zcases; simpl; done || lia.
  - rewrite IH by done. unfold store32, upd.
    pose proof (splat_bytes c 0 Hc ltac:(lia)) as H0. rewrite Z.shiftr_0_r in H0.
    rewrite H0, !splat_bytes by lia.
    zcases; simpl; done || lia.
Qed.

Lemma rem4_mod4 z : (Z.rem (s32 z) 4 =? 0) = (z mod 4 =? 0).
Proof.
  unfold s32. pose proof (Z.mod_pos_bound (z + 2 ^ 31) (2 ^ 32) ltac:(lia)) as Hr.
  pose proof (Z.div_mod (z + 2 ^ 31) (2 ^ 32) ltac:(lia)) as Hd.
  set (r := (z + 2 ^ 31) mod 2 ^ 32) in *. set (q := (z + 2 ^ 31) / 2 ^ 32) in *.
  apply eq_true_iff_eq. rewrite !Z.eqb_eq.
  rewrite Z.rem_divide by lia. rewrite Z.mod_divide by lia.
  split; intros [k Hk].
  - exists (k + 2 ^ 30 * q). lia.
  - exists (k - 2 ^ 30 * q). lia.
Qed.

(** Both paths of [memset] write the low byte of [c] to [dst, dst+n) and touch
    nothing else. *)
Theorem memset_spec m dst c n x :
  0 <= n ->
  memset m dst c n x = if (dst <=? x) && (x <? dst + n) then u8 c else m x.
Proof.
  intros Hn. unfold memset.
  destruct ((Z.rem (s32 dst) 4 =? 0) && (n mod 4 =? 0)) eqn:E.
  - apply andb_true_iff in E as [_ Hn4]. apply Z.eqb_eq in Hn4.
    assert (Hc : Z.land c 255 = u8 c) by apply (Z.land_ones c 8 ltac:(lia)).
    rewrite Hc, stosl_splat by apply u8_range.
    pose proof (Z.div_mod n 4 ltac:(lia)).
    rewrite Z2Nat.id by (apply Z.div_pos; lia).
    zcases; simpl; done || lia.
  - rewrite stosb_spec, Z2Nat.id by lia. done.
Qed.

(** ** Copying *)

(** What a copy of [n] bytes must do: every byte of the destination is the byte
    the source held before the copy. *)
Definition copied (m : mem) (d s n : Z) : mem :=
  fun x => if (d <=? x) && (x <? d + n) then m (s + (x - d)) else m x.

Lemma copy_up_spec n : forall m d s x,
  d <= s \/ s + Z.of_nat n <= d ->
  copy_up m d s n x = copied m d s (Z.of_nat n) x.
Proof.
  unfold copied. induction n as [|n IH]; intros m d s x H; cbn [copy_up].
  - zcases; simpl; done || lia.
  - rewrite IH by lia. unfold upd.
    zcases; simpl; try lia; try (f_equal; lia).
Qed.

Lemma copy_down_spec n : forall m d s x,
  s <= d ->
  copy_down m (d + Z.of_nat n) (s + Z.of_nat n) n x = copied m d s (Z.of_nat n) x.
Proof.
  unfold copied. induction n as [|n IH]; intros m d s x H; cbn [copy_down].
  - zcases; simpl; done || lia.
  - replace (d + Z.of_nat (S n) - 1) with (d + Z.of_nat n) by lia.
    replace (s + Z.of_nat (S n) - 1) with (s + Z.of_nat n) by lia.
    rewrite IH by lia. unfold upd.
    zcases; simpl; try lia; try (f_equal; lia).
Qed.

Lemma memmove_copied m dst src n x :
  0 <= n -> memmove m dst src n x = copied m dst src n x.
Proof.
  intros Hn. unfold memmove.
  destruct (Z.ltb_spec src dst), (Z.ltb_spec dst (src + n)); simpl;
    rewrite <- (Z2Nat.id n Hn) at 1 2 3 || rewrite <- (Z2Nat.id n Hn) at 1;
    rewrite ?Nat2Z.id;
    first [ rewrite copy_down_spec by lia | rewrite copy_up_spec by lia ];
    rewrite ?Z2Nat.id by lia; done.
Qed.

(** [memmove] is a simultaneous copy, whichever way source and destination
    overlap: after it every byte of the destination is the byte the source held
    before the call, and no other byte has changed. *)
Theorem memmove_correct m dst src n x :
  0 <= n -> memmove m dst src n x = copied m dst src n x.
Proof. apply memmove_copied. Qed.

(** ** Comparing and copying strings *)

(** [memcmp] is zero exactly when the two regions hold the same bytes. *)
Lemma memcmp_zero m v1 v2 n :
  0 <= n ->
  memcmp m v1 v2 n = 0 <-> (forall i, 0 <= i < n -> m (v1 + i) = m (v2 + i)).
Proof.
  intros Hn. unfold memcmp. remember (Z.to_nat n) as k eqn:Hk.
  assert (n = Z.of_nat k) as -> by lia. clear Hn Hk. rename k into n.
  revert v1 v2; induction n as [|n IH]; intros v1 v2; cbn [memcmp_loop].
  - split; [lia | done].
  - destruct (Z.eqb_spec (m v1) (m v2)) as [E|E]; simpl.
    + rewrite IH. split; intros H i Hi.
      * destruct (Z.eq_dec i 0) as [->|]; [by rewrite !Z.add_0_r|].
        replace (v1 + i) with (v1 + 1 + (i - 1)) by lia.
        replace (v2 + i) with (v2 + 1 + (i - 1)) by lia. apply H; lia.
      * replace (v1 + 1 + i) with (v1 + (i + 1)) by lia.
        replace (v2 + 1 + i) with (v2 + (i + 1)) by lia. apply H; lia.
    + split; [lia|]. intros H. specialize (H 0 ltac:(lia)).
      rewrite !Z.add_0_r in H. done.
Qed.

(** The bytes a bounded C string compares by: those up to and including the
    first NUL, at most [n]. *)
Fixpoint strn (m : mem) (p : Z) (n : nat) : list Z :=
  match n with
  | O => []
  | S k => if nz (m p) then m p :: strn m (p + 1) k else []
  end.

Lemma strncmp_zero m p q n :
  strncmp m p q n = 0 <-> strn m p (Z.to_nat n) = strn m q (Z.to_nat n).
Proof.
  unfold strncmp. generalize (Z.to_nat n); clear n; intros n.
  revert p q; induction n as [|n IH]; intros p q; simpl; [done|].
  unfold nz. destruct (Z.eqb_spec (m p) 0), (Z.eqb_spec (m q) 0); simpl.
  - split; [done | lia].
  - split; [lia | done].
  - destruct (Z.eqb_spec (m p) (m q)); simpl; [lia|]. split; [lia | done].
  - destruct (Z.eqb_spec (m p) (m q)) as [E|E]; simpl.
    + rewrite IH, E. split; [by intros -> | by intros [=]].
    + split; [lia | by intros [=]].
Qed.

Lemma zero_fill_spec n : forall m s x,
  zero_fill m s n x = if (s <=? x) && (x <? s + Z.of_nat n) then 0 else m x.
Proof.
  induction n as [|n IH]; intros m s x; simpl zero_fill.
  - zcases; simpl; done || lia.
  - rewrite IH. unfold upd. zcases; simpl; done || lia.
Qed.

Lemma strn_upd m a v : forall n p,
  ~ (p <= a < p + Z.of_nat n) -> strn (upd m a v) p n = strn m p n.
Proof.
  induction n as [|n IH]; intros p H; simpl; [done|].
  rewrite upd_ne by lia. rewrite IH by lia. done.
Qed.

Lemma strn_le_length m n : forall p, (length (strn m p n) <= n)%nat.
Proof. induction n; intros p; simpl; [lia|]. destruct (nz (m p)); simpl; [specialize (IHn (p + 1)); lia | lia]. Qed.

(** [strncpy] writes exactly its [n] bytes: the source string cut to [n], then
    zeros. *)
Lemma strncpy_loop_spec n : forall m s t x,
  t + Z.of_nat n <= s \/ s + Z.of_nat n <= t ->
  strncpy_loop m s t n x =
  if (s <=? x) && (x <? s + Z.of_nat n)
  then default 0 (strn m t n !! Z.to_nat (x - s)) else m x.
Proof.
  induction n as [|n IH]; intros m s t x H; cbn [strncpy_loop].
  - zcases; simpl; done || lia.
  - cbn [strn]. unfold nz. destruct (Z.eqb_spec (m t) 0) as [E|E]; simpl.
    + rewrite zero_fill_spec. unfold upd.
      destruct (Z.eqb_spec x s) as [->|]; zcases; simpl; done || lia.
    + rewrite IH by lia. rewrite strn_upd by lia. unfold upd.
      destruct (Z.eqb_spec x s) as [->|].
      * rewrite Z.sub_diag. zcases; simpl; done || lia.
      * zcases; simpl; try done; try lia.
        replace (Z.to_nat (x - s)) with (S (Z.to_nat (x - (s + 1)))) by lia. done.
Qed.

Lemma safestrcpy_loop_outside n : forall m s t x,
  ~ (s <= x <= s + Z.of_nat n) -> safestrcpy_loop m s t n x = m x.
Proof.
  induction n as [|n IH]; intros m s t x H; cbn [safestrcpy_loop].
  - rewrite upd_ne by lia. done.
  - destruct (nz (m t)); [rewrite IH by lia | rewrite upd_ne by lia];
      rewrite upd_ne by lia; done.
Qed.

Lemma strn_S m p n :
  strn m p (S n) = if nz (m p) then m p :: strn m (p + 1) n else [].
Proof. done. Qed.

Lemma safestrcpy_loop_spec n : forall m s t,
  t + Z.of_nat n < s \/ s + Z.of_nat n < t ->
  strn (safestrcpy_loop m s t n) s (S n) = strn m t n
  /\ safestrcpy_loop m s t n (s + Z.of_nat (length (strn m t n))) = 0.
Proof.
  induction n as [|n IH]; intros m s t H.
  - simpl. rewrite !Z.add_0_r, upd_eq. done.
  - rewrite (strn_S m t). cbn [safestrcpy_loop]. unfold nz at 1 2 3 4.
    destruct (Z.eqb_spec (m t) 0) as [E|E]; cbn [negb].
    + rewrite strn_S, upd_ne, upd_eq, E by lia. simpl.
      rewrite Z.add_0_r, upd_ne, upd_eq by lia. done.
    + destruct (IH (upd m s (m t)) (s + 1) (t + 1) ltac:(lia)) as [IH1 IH2].
      rewrite strn_upd in IH1, IH2 by lia.
      set (m' := safestrcpy_loop _ _ _ _) in *.
      assert (Hs : m' s = m t).
      { unfold m'. rewrite safestrcpy_loop_outside by lia. apply upd_eq. }
      rewrite strn_S, Hs, IH1. unfold nz. rewrite (proj2 (Z.eqb_neq _ _) E). split; [done|].
      cbn [length]. replace (s + Z.of_nat (S (length (strn m (t + 1) n))))
        with (s + 1 + Z.of_nat (length (strn m (t + 1) n))) by lia. done.
Qed.

(** [safestrcpy] into [n > 0] bytes: it writes only those bytes, and leaves there
    the source string cut to [n - 1] characters, NUL-terminated. *)
Theorem safestrcpy_correct m s t n :
  0 < n -> t + n <= s \/ s + n <= t ->
  (forall x, ~ (s <= x < s + n) -> safestrcpy m s t n x = m x)
  /\ strn (safestrcpy m s t n) s (Z.to_nat n) = strn m t (Z.to_nat (n - 1))
  /\ safestrcpy m s t n (s + Z.of_nat (length (strn m t (Z.to_nat (n - 1))))) = 0.
Proof.
  intros Hn Hd. unfold safestrcpy. rewrite (proj2 (Z.leb_gt n 0) Hn).
  replace (Z.to_nat n) with (S (Z.to_nat (n - 1))) by lia.
  split; [intros x Hx; apply safestrcpy_loop_outside; lia|].
  apply safestrcpy_loop_spec; lia.
Qed.

(** An overlapping move up by one, and a string cut to fit. *)
Definition abc : mem := fun a => if a =? 100 then 97 else if a =? 101 then 98 else if a =? 102 then 99 else 0.

Lemma memmove_correct_witness :
  memmove abc 101 100 3 101 = 97 /\ memmove abc 101 100 3 103 = copied abc 101 100 3 103.
Proof.
  split; [rewrite (memmove_correct abc 101 100 3 101); [reflexivity|discriminate]|].
  apply (memmove_correct abc 101 100 3 103). discriminate.
Defined.

Lemma safestrcpy_correct_witness : strn (safestrcpy abc 0 100 3) 0 3 = [97; 98].
Proof.
  assert (H : 100 + 3 <= 0 \/ 0 + 3 <= 100) by (right; discriminate).
  destruct (safestrcpy_correct abc 0 100 3 ltac:(reflexivity) H) as (_ & H2 & _). exact H2.
Defined.

(** A NUL-terminated string [cs] at address [p]. *)
Definition cstring (m : mem) (p : Z) (cs : list Z) : Prop :=
  Forall (fun c => c <> 0) cs
  /\ (forall i c, cs !! i = Some c -> m (p + Z.of_nat i) = c)
  /\ m (p + Z.of_nat (length cs)) = 0.

(** With a terminator in reach [strlen] returns the length of the string. *)
Lemma strlen_correct m p cs fuel :
  cstring m p cs -> (length cs < fuel)%nat ->
  strlen fuel m p 0 = Some (Z.of_nat (length cs)).
Proof.
  intros (Hnz & Hbytes & Hend) Hf.
  assert (Hgen : forall k fuel, (k <= length cs)%nat -> (length cs - k < fuel)%nat ->
    strlen fuel m p (Z.of_nat k) = Some (Z.of_nat (length cs))).
  { clear fuel Hf. intros k fuel. remember (length cs - k)%nat as d eqn:Ed.
    revert k fuel Ed. induction d as [|d IH]; intros k [|fuel] Ed Hk Hf; try lia; cbn [strlen].
    - replace k with (length cs) by lia. rewrite Hend. done.
    - destruct (lookup_lt_is_Some_2 cs k ltac:(lia)) as [c Hc].
      rewrite (Hbytes _ _ Hc). rewrite Forall_lookup in Hnz. specialize (Hnz _ _ Hc).
      unfold nz. rewrite (proj2 (Z.eqb_neq _ _) Hnz). simpl.
      replace (Z.of_nat k + 1) with (Z.of_nat (S k)) by lia. apply IH; lia. }
  apply (Hgen 0%nat); lia.
Qed.
