(* ===== verification/Spinlock.v ===== *)
(** Spin locks and interrupt nesting: [src/spinlock.c], with [mycpu], [cpuid]
    and [myproc] of [src/proc.c].

    The state an operation sees is the machine (the executing processor's
    interrupt flag and local APIC id, and the table of processors) together with
    the lock it works on.  The stack that [getcallerpcs] walks is a memory. *)

From Stdlib Require Import ZArith Lia.
From stdpp Require Import base list strings relations.
From S2P Require Import Prelude Kstring.
Local Open Scope Z_scope.

(** The fields of [struct cpu] the lock code uses; [proc] is the pid of the
    process running on the processor, if any. *)
Record cpu := mkCpu {
  apicid : Z;
  ncli : Z;
  intena : bool;
  proc : option Z;
}.

(** [struct spinlock]; [lkcpu] is the index of the processor, [None] for 0. *)
Record spinlock := mkLock {
  locked : bool;
  lkcpu : option nat;
  pcs : list Z;
  lkpid : Z;
}.

Record machine := mkMach {
  ifl : bool;            (* FL_IF in eflags *)
  lapicid : Z;
  cpus : list cpu;       (* cpus[0 .. ncpu-1] *)
  lk : spinlock;
}.

Definition set_if (b : bool) (s : machine) : machine :=
  mkMach b (lapicid s) (cpus s) (lk s).
Definition set_cpus (l : list cpu) (s : machine) : machine :=
  mkMach (ifl s) (lapicid s) l (lk s).
Definition set_lk (l : spinlock) (s : machine) : machine :=
  mkMach (ifl s) (lapicid s) (cpus s) l.

Definition cli : M machine unit := modify (set_if false).
Definition sti : M machine unit := modify (set_if true).

Definition KERNBASE : Z := 0x80000000.

(** [initlock] leaves the pid and the saved call stack alone. *)
Definition initlock : M machine unit :=
  modify (fun s => set_lk (mkLock false None (pcs (lk s)) (lkpid (lk s))) s).

(** The loop of [mycpu] over [cpus]. *)
Fixpoint find_apicid (l : list cpu) (id : Z) (i : nat) : option nat :=
  match l with
  | [] => None
  | c :: l' => if apicid c =? id then Some i else find_apicid l' id (S i)
  end.

Definition mycpu : M machine nat :=
  s <- get ;;
  if ifl s then panic "mycpu called with interrupts enabled" else
  match find_apicid (cpus s) (lapicid s) 0 with
  | Some i => ret i
  | None => panic "unknown apicid"
  end.

Definition cpuid : M machine nat := mycpu.

Definition cpu_at (i : nat) : M machine cpu :=
  s <- get ;;
  match cpus s !! i with Some c => ret c | None => ub "cpus index" end.

Definition set_cpu (i : nat) (c : cpu) : M machine unit :=
  modify (fun s => set_cpus (<[i := c]> (cpus s)) s).

Definition pushcli : M machine unit :=
  eflags <- gets ifl ;;
  cli ;;
  i <- mycpu ;;
  c <- cpu_at i ;;
  (if ncli c =? 0 then set_cpu i (mkCpu (apicid c) (ncli c) eflags (proc c)) else ret tt) ;;
  i <- mycpu ;;
  c <- cpu_at i ;;
  set_cpu i (mkCpu (apicid c) (ncli c + 1) (intena c) (proc c)).

Definition popcli : M machine unit :=
  eflags <- gets ifl ;;
  if (eflags : bool) then panic "popcli - interruptible" else
  i <- mycpu ;;
  c <- cpu_at i ;;
  set_cpu i (mkCpu (apicid c) (ncli c - 1) (intena c) (proc c)) ;;
  c <- cpu_at i ;;
  if ncli c <? 0 then panic "popcli" else
  if (ncli c =? 0) && intena c then sti else ret tt.

Definition myproc : M machine (option Z) :=
  pushcli ;;
  i <- mycpu ;;
  c <- cpu_at i ;;
  popcli ;;
  ret (proc c).

Definition holding : M machine bool :=
  pushcli ;;
  l <- gets lk ;;
  i <- mycpu ;;
  popcli ;;
  ret (locked l && bool_decide (lkcpu l = Some i)).

(** [getcallerpcs]: follow the chain of saved frame pointers from the word two
    below [v]; ten program counters, zeros once the chain leaves the kernel. *)
Fixpoint walk_ebp (stack : mem) (ebp : Z) (n : nat) : list Z :=
  match n with
  | O => []
  | S k =>
      if (ebp =? 0) || (ebp <? KERNBASE) || (ebp =? 0xffffffff)
      then replicate n 0
      else load32 stack (u32 (ebp + 4)) :: walk_ebp stack (load32 stack ebp) k
  end.

Definition getcallerpcs (stack : mem) (v : Z) : list Z :=
  walk_ebp stack (u32 (v - 8)) 10.

Section Acquire.
(** The kernel stack and the address of the parameter [lk] on it. *)
Context (stack : mem) (v : Z).

(** [while(xchg(&lk->locked, 1) != 0);] on one processor: it wins the lock when
    it is free; when it is taken, only another processor can end the loop. *)
Definition xchg_locked : M machine unit :=
  l <- gets lk ;;
  modify (set_lk (mkLock true (lkcpu l) (pcs l) (lkpid l))) ;;
  if locked l then spin else ret tt.

Definition acquire : M machine unit :=
  pushcli ;;
  h <- holding ;;
  if (h : bool) then panic "acquire" else
  xchg_locked ;;
  i <- mycpu ;;
  modify (fun s => set_lk (mkLock (locked (lk s)) (Some i) (getcallerpcs stack v) (lkpid (lk s))) s).

(** [myproc()->pid] with a null [myproc()] is undefined. *)
Definition mypid : M machine Z :=
  p <- myproc ;;
  match p with Some pid => ret pid | None => ub "myproc() is null" end.

Definition acquire_reentrant : M machine unit :=
  pushcli ;;
  h <- holding ;;
  if (h : bool) then
    l <- gets lk ;;
    pid <- mypid ;;
    if lkpid l =? pid then popcli else panic "acquire"
  else
  xchg_locked ;;
  i <- mycpu ;;
  modify (fun s => set_lk (mkLock (locked (lk s)) (Some i) (pcs (lk s)) (lkpid (lk s))) s) ;;
  pid <- mypid ;;
  modify (fun s => set_lk (mkLock (locked (lk s)) (lkcpu (lk s)) (getcallerpcs stack v) pid) s).

Definition release : M machine unit :=
  h <- holding ;;
  if negb h then panic "release" else
  modify (fun s => set_lk (mkLock (locked (lk s)) None (<[0%nat := 0]> (pcs (lk s))) 0) s) ;;
  modify (fun s => set_lk (mkLock false (lkcpu (lk s)) (pcs (lk s)) (lkpid (lk s))) s) ;;
  popcli.

(** [reentrant_spinlock_test] of [src/proc.c]: two nested acquisitions, one
    release. *)
Definition reentrant_spinlock_test : M machine unit :=
  initlock ;;
  acquire_reentrant ;;
  acquire_reentrant ;;
  release.

End Acquire.

(** ** Interrupt nesting *)

(** The executing processor is number [me], its record is [c]. *)
Definition at_cpu (me : nat) (c : cpu) (s : machine) : Prop :=
  find_apicid (cpus s) (lapicid s) 0 = Some me /\ cpus s !! me = Some c.

(** Nesting discipline: the depth is never negative, and interrupts are off
    whenever it is positive. *)
Definition cli_ok (c : cpu) (s : machine) : Prop :=
  0 <= ncli c /\ (0 < ncli c -> ifl s = false).

Lemma find_apicid_insert l id i c c' : forall k,
  l !! i = Some c -> apicid c' = apicid c ->
  find_apicid (<[i := c']> l) id k = find_apicid l id k.
Proof.
  revert i; induction l as [|a l IH]; intros [|i] k Hl Ha; simplify_eq/=; [done..| |].
  - by rewrite Ha.
  - destruct (apicid a =? id); [done|]. by apply IH.
Qed.

Lemma at_cpu_insert me c c' b s l :
  at_cpu me c s -> apicid c' = apicid c ->
  at_cpu me c' (mkMach b (lapicid s) (<[me := c']> (cpus s)) l).
Proof.
  intros [Hf Hl] Ha. split; simpl.
  - by rewrite (find_apicid_insert _ _ _ c).
  - apply list_lookup_insert_eq. by eapply lookup_lt_Some.
Qed.

(** The state with interrupt flag, own record and lock replaced. *)
Definition here (me : nat) (b : bool) (c : cpu) (l : spinlock) (s : machine) : machine :=
  mkMach b (lapicid s) (<[me := c]> (cpus s)) l.

Lemma here_here me b c l b' c' l' s :
  here me b c l (here me b' c' l' s) = here me b c l s.
Proof. unfold here; simpl. by rewrite list_insert_insert_eq. Qed.

Lemma here_id me c s : at_cpu me c s -> here me (ifl s) c (lk s) s = s.
Proof. intros [_ H]. unfold here. rewrite list_insert_id by done. by destruct s. Qed.

Lemma at_here me b c c0 l s :
  at_cpu me c0 s -> apicid c = apicid c0 -> at_cpu me c (here me b c l s).
Proof. apply at_cpu_insert. Qed.

Lemma mycpu_run me c s : at_cpu me c s -> ifl s = false -> mycpu s = (Ok me, s).
Proof. intros [Hf _] Hi. unfold mycpu, bind, get. rewrite Hi, Hf. done. Qed.

Lemma cpu_at_run me c s : at_cpu me c s -> cpu_at me s = (Ok c, s).
Proof. intros [_ Hl]. unfold cpu_at, bind, get. rewrite Hl. done. Qed.

Definition pushed (eflags : bool) (c : cpu) : cpu :=
  mkCpu (apicid c) (ncli c + 1) (if ncli c =? 0 then eflags else intena c) (proc c).

Definition popped (c : cpu) : cpu :=
  mkCpu (apicid c) (ncli c - 1) (intena c) (proc c).

Lemma pushcli_run me c s :
  at_cpu me c s -> pushcli s = (Ok tt, here me false (pushed (ifl s) c) (lk s) s).
Proof.
  intros H. unfold pushcli, cli, gets, modify, bind at 1 2 3 4.
  set (s0 := set_if false s).
  assert (H0 : at_cpu me c s0) by exact H.
  rewrite (mycpu_run me c s0 H0 eq_refl), (cpu_at_run me c s0 H0).
  unfold bind at 1. destruct (ncli c =? 0) eqn:E.
  - unfold set_cpu at 1, modify. unfold set_cpus.
    set (c1 := mkCpu _ _ _ _). set (s1 := mkMach _ _ _ _).
    assert (H1 : at_cpu me c1 s1) by (by apply (at_cpu_insert me c)).
    unfold bind at 1. rewrite (mycpu_run me c1 s1 H1 eq_refl).
    unfold bind. rewrite (cpu_at_run me c1 s1 H1).
    unfold set_cpu, modify, set_cpus, here, pushed, s1; simpl.
    rewrite list_insert_insert_eq, E. done.
  - simpl. unfold bind at 1. rewrite (mycpu_run me c s0 H0 eq_refl).
    unfold bind. rewrite (cpu_at_run me c s0 H0).
    unfold set_cpu, modify, set_cpus, here, pushed, s0; simpl. by rewrite E.
Qed.

Lemma popcli_run me c s :
  at_cpu me c s -> ifl s = false -> 0 < ncli c ->
  popcli s = (Ok tt, here me ((ncli c =? 1) && intena c) (popped c) (lk s) s).
Proof.
  intros H Hi Hn. unfold popcli, gets, bind at 1. rewrite Hi.
  unfold bind at 1. rewrite (mycpu_run me c s H Hi).
  unfold bind at 1. rewrite (cpu_at_run me c s H).
  unfold bind at 1, set_cpu, modify, set_cpus. set (s1 := mkMach _ _ _ _).
  assert (H1 : at_cpu me (popped c) s1) by (by apply (at_cpu_insert me c)).
  unfold bind. rewrite (cpu_at_run me (popped c) s1 H1). simpl.
  replace (ncli c - 1 <? 0) with false by (symmetry; apply Z.ltb_ge; lia).
  replace (ncli c - 1 =? 0) with (ncli c =? 1) by (apply eq_true_iff_eq; rewrite !Z.eqb_eq; lia).
  destruct ((ncli c =? 1) && intena c); unfold sti, modify, ret, set_if, here, popped, s1; simpl; by rewrite ?Hi.
Qed.

(** Outside its preconditions [popcli] panics, each time with its own message. *)
Lemma popcli_interruptible s :
  ifl s = true -> fst (popcli s) = Panic "popcli - interruptible".
Proof. intros H. unfold popcli, gets, bind. by rewrite H. Qed.

Lemma popcli_underflow me c s :
  at_cpu me c s -> ifl s = false -> ncli c <= 0 -> fst (popcli s) = Panic "popcli".
Proof.
  intros H Hi Hn. unfold popcli, gets, bind at 1. rewrite Hi.
  unfold bind at 1. rewrite (mycpu_run me c s H Hi).
  unfold bind at 1. rewrite (cpu_at_run me c s H).
  unfold bind at 1, set_cpu, modify, set_cpus. set (s1 := mkMach _ _ _ _).
  assert (H1 : at_cpu me (popped c) s1) by (by apply (at_cpu_insert me c)).
  unfold bind. rewrite (cpu_at_run me (popped c) s1 H1). simpl.
  replace (ncli c - 1 <? 0) with true by (symmetry; apply Z.ltb_lt; lia). done.
Qed.

Fixpoint repeat_m {S} (n : nat) (m : M S unit) : M S unit :=
  match n with O => ret tt | S k => m ;; repeat_m k m end.

Lemma pushcli_repeat n : forall me c s,
  at_cpu me c s -> cli_ok c s ->
  exists c', repeat_m n pushcli s = (Ok tt, here me (if decide (n = 0)%nat then ifl s else false) c' (lk s) s)
    /\ apicid c' = apicid c /\ proc c' = proc c /\ ncli c' = ncli c + Z.of_nat n
    /\ (n = 0%nat -> c' = c)
    /\ (n <> 0%nat -> intena c' = if ncli c =? 0 then ifl s else intena c).
Proof.
  induction n as [|n IH]; intros me c s H Hok.
  - exists c. simpl. unfold ret. rewrite here_id by done. repeat split; try done; lia.
  - simpl. unfold bind. rewrite (pushcli_run me c s H).
    destruct (IH me (pushed (ifl s) c) (here me false (pushed (ifl s) c) (lk s) s))
      as (c' & Hrun & Ha & Hp & Hn & H0 & H1).
    { by eapply at_here. }
    { destruct Hok. split; simpl; [lia | done]. }
    exists c'. rewrite Hrun. rewrite here_here. simpl.
    destruct Hok as [Hok1 Hok2].
    repeat split; [by destruct (decide _) | done | done | simpl in Hn; lia | done |].
    intros _. destruct n as [|n].
    + rewrite (H0 eq_refl). done.
    + rewrite H1 by done. simpl. rewrite (proj2 (Z.eqb_neq (ncli c + 1) 0)); [done | lia].
Qed.

Lemma popcli_repeat n : forall me c s,
  at_cpu me c s -> ifl s = false -> Z.of_nat n <= ncli c -> (0 < n)%nat ->
  exists c', repeat_m n popcli s =
      (Ok tt, here me ((ncli c =? Z.of_nat n) && intena c) c' (lk s) s)
    /\ apicid c' = apicid c /\ proc c' = proc c /\ ncli c' = ncli c - Z.of_nat n
    /\ intena c' = intena c.
Proof.
  induction n as [|n IH]; intros me c s H Hi Hle Hn; [lia|].
  cbn [repeat_m]. unfold bind. rewrite (popcli_run me c s H Hi) by lia.
  destruct n as [|n].
  - exists (popped c). simpl. unfold ret. repeat split; simpl; lia || done.
  - replace (ncli c =? 1) with false by (symmetry; apply Z.eqb_neq; lia). simpl andb.
    destruct (IH me (popped c) (here me false (popped c) (lk s) s))
      as (c' & Hrun & Ha & Hp & Hc & He).
    { by eapply at_here. } { done. } { simpl; lia. } { lia. }
    exists c'. rewrite Hrun, here_here. cbn [popped ncli intena apicid proc lk here] in *.
    replace (ncli c - 1 =? Z.of_nat (S n)) with (ncli c =? Z.of_nat (S (S n)))
      by (apply eq_true_iff_eq; rewrite !Z.eqb_eq; lia).
    repeat split; try done. lia.
Qed.

(** [pushcli]/[popcli] nest: it takes as many [popcli] as [pushcli], and the
    balanced sequence leaves the interrupt flag, the depth and the running
    process as they were, whatever they were; in between interrupts are off. *)
Theorem pushcli_popcli_balanced n me c s :
  at_cpu me c s -> cli_ok c s -> (0 < n)%nat ->
  exists s1 c', repeat_m n pushcli s = (Ok tt, s1) /\ ifl s1 = false
    /\ repeat_m n popcli s1 = (Ok tt, here me (ifl s) c' (lk s) s)
    /\ ncli c' = ncli c /\ proc c' = proc c /\ apicid c' = apicid c.
Proof.
  intros H Hok Hn.
  destruct (pushcli_repeat n me c s H Hok) as (c1 & Hrun & Ha & Hp & Hc & _ & Hi).
  specialize (Hi ltac:(lia)). destruct Hok as [Hok1 Hok2].
  rewrite decide_False in Hrun by lia.
  eexists. edestruct (popcli_repeat n me c1 (here me false c1 (lk s) s)) as (c2 & Hrun2 & Ha2 & Hp2 & Hc2 & He).
  { by eapply at_here. } { done. } { lia. } { done. }
  exists c2. split; [exact Hrun|]. split; [done|].
  rewrite Hrun2, here_here. split; [|split; [lia|split; congruence]].
  do 2 f_equal. rewrite Hc. destruct (Z.eqb_spec (ncli c) 0) as [E|E].
  - rewrite E, Hi. rewrite Z.eqb_refl. simpl. by destruct (ifl s).
  - rewrite (proj2 (Z.eqb_neq (ncli c + Z.of_nat n) (Z.of_nat n))) by lia. simpl.
    by rewrite Hok2 by lia.
Qed.

(** ** The lock operations *)

(** What a balanced [pushcli]/[popcli] does to the processor's record. *)
Definition settle (b : bool) (c : cpu) : cpu :=
  mkCpu (apicid c) (ncli c) (if ncli c =? 0 then b else intena c) (proc c).

Lemma popped_pushed b c : popped (pushed b c) = settle b c.
Proof. unfold popped, pushed, settle; simpl. f_equal. lia. Qed.

Lemma settle_nested b c : 0 < ncli c -> settle b c = c.
Proof. intros H. unfold settle. rewrite (proj2 (Z.eqb_neq _ _)) by lia. by destruct c. Qed.

Lemma pop_flag_settle c s :
  cli_ok c s ->
  (ncli (pushed (ifl s) c) =? 1) && intena (pushed (ifl s) c) = ifl s.
Proof.
  intros [H1 H2]. simpl. destruct (Z.eqb_spec (ncli c) 0) as [E|E].
  - rewrite E. simpl. done.
  - rewrite (proj2 (Z.eqb_neq (ncli c + 1) 1)) by lia. simpl. by rewrite H2 by lia.
Qed.

(** Code that runs between a [pushcli] and its [popcli] and only reads. *)
Lemma bracket_run {A} (f : machine -> nat -> A) me c s :
  at_cpu me c s -> cli_ok c s ->
  (pushcli ;; x <- get ;; i <- mycpu ;; popcli ;; ret (f x i)) s
  = (Ok (f (here me false (pushed (ifl s) c) (lk s) s) me),
     here me (ifl s) (settle (ifl s) c) (lk s) s).
Proof.
  intros H Hok. unfold bind at 1. rewrite (pushcli_run me c s H).
  set (s1 := here _ _ _ _ _).
  assert (H1 : at_cpu me (pushed (ifl s) c) s1) by (by eapply at_here).
  unfold bind at 1, get. unfold bind at 1. rewrite (mycpu_run _ _ _ H1 eq_refl).
  unfold bind. rewrite (popcli_run _ _ _ H1 eq_refl) by (destruct Hok; simpl; lia).
  unfold ret, s1. rewrite here_here, popped_pushed, pop_flag_settle by done. done.
Qed.

Lemma holding_run me c s :
  at_cpu me c s -> cli_ok c s ->
  holding s = (Ok (locked (lk s) && bool_decide (lkcpu (lk s) = Some me)),
               here me (ifl s) (settle (ifl s) c) (lk s) s).
Proof.
  intros H Hok.
  exact (bracket_run (fun x i => locked (lk x) && bool_decide (lkcpu (lk x) = Some i)) me c s H Hok).
Qed.

Lemma myproc_run me c s :
  at_cpu me c s -> cli_ok c s ->
  myproc s = (Ok (proc c), here me (ifl s) (settle (ifl s) c) (lk s) s).
Proof.
  intros H Hok. unfold myproc, bind at 1. rewrite (pushcli_run me c s H).
  set (s1 := here _ _ _ _ _).
  assert (H1 : at_cpu me (pushed (ifl s) c) s1) by (by eapply at_here).
  unfold bind at 1. rewrite (mycpu_run _ _ _ H1 eq_refl).
  unfold bind at 1. rewrite (cpu_at_run _ _ _ H1).
  unfold bind. rewrite (popcli_run _ _ _ H1 eq_refl) by (destruct Hok; simpl; lia).
  unfold ret, s1. rewrite here_here, popped_pushed, pop_flag_settle by done. done.
Qed.

Section AcquireLemmas.
Context (stack : mem) (v : Z).

(** The state right after the opening [pushcli]; [holding] and [myproc] leave it
    alone. *)
Lemma entered me c s :
  at_cpu me c s -> cli_ok c s ->
  let s1 := here me false (pushed (ifl s) c) (lk s) s in
  at_cpu me (pushed (ifl s) c) s1 /\ cli_ok (pushed (ifl s) c) s1
  /\ here me (ifl s1) (settle (ifl s1) (pushed (ifl s) c)) (lk s1) s1 = s1.
Proof.
  intros H [Hok1 Hok2] s1. assert (H1 : at_cpu me (pushed (ifl s) c) s1) by (by eapply at_here).
  split; [done|]. split; [split; simpl; [lia|done]|].
  rewrite settle_nested by (simpl; lia). by apply here_id.
Qed.

Lemma acquire_free me c s :
  at_cpu me c s -> cli_ok c s -> locked (lk s) = false ->
  acquire stack v s =
  (Ok tt, here me false (pushed (ifl s) c)
            (mkLock true (Some me) (getcallerpcs stack v) (lkpid (lk s))) s).
Proof.
  intros H Hok Hl. unfold acquire, bind at 1. rewrite (pushcli_run me c s H).
  destruct (entered me c s H Hok) as (H1 & Hok1 & Hid). set (s1 := here _ _ _ _ _) in *.
  unfold bind at 1. rewrite (holding_run _ _ _ H1 Hok1), Hid. simpl. rewrite Hl. simpl.
  unfold bind at 1, xchg_locked, bind at 1 2, gets, modify. simpl. rewrite Hl. unfold ret.
  unfold bind. erewrite mycpu_run; [|exact H1|done]. done.
Qed.

Lemma acquire_held me c s :
  at_cpu me c s -> cli_ok c s -> locked (lk s) = true -> lkcpu (lk s) = Some me ->
  fst (acquire stack v s) = Panic "acquire".
Proof.
  intros H Hok Hl Hc. unfold acquire, bind at 1. rewrite (pushcli_run me c s H).
  destruct (entered me c s H Hok) as (H1 & Hok1 & Hid). set (s1 := here _ _ _ _ _) in *.
  unfold bind. rewrite (holding_run _ _ _ H1 Hok1). simpl.
  rewrite Hl, Hc, bool_decide_eq_true_2 by done. done.
Qed.

Lemma acquire_spins me c s :
  at_cpu me c s -> cli_ok c s -> locked (lk s) = true -> lkcpu (lk s) <> Some me ->
  fst (acquire stack v s) = Spin.
Proof.
  intros H Hok Hl Hc. unfold acquire, bind at 1. rewrite (pushcli_run me c s H).
  destruct (entered me c s H Hok) as (H1 & Hok1 & Hid). set (s1 := here _ _ _ _ _) in *.
  unfold bind at 1. rewrite (holding_run _ _ _ H1 Hok1). simpl.
  rewrite Hl, bool_decide_eq_false_2 by done. simpl.
  unfold bind at 1, xchg_locked, bind at 1 2, gets, modify. simpl. rewrite Hl. done.
Qed.

Lemma release_held me c s :
  at_cpu me c s -> ifl s = false -> 0 < ncli c ->
  locked (lk s) = true -> lkcpu (lk s) = Some me ->
  release s = (Ok tt, here me ((ncli c =? 1) && intena c) (popped c)
                       (mkLock false None (<[0%nat := 0]> (pcs (lk s))) 0) s).
Proof.
  intros H Hi Hn Hl Hc. assert (Hok : cli_ok c s) by (split; [lia|done]).
  unfold release, bind at 1. rewrite (holding_run me c s H Hok), Hl, Hc, bool_decide_eq_true_2 by done.
  rewrite settle_nested, here_id by done. simpl.
  unfold bind at 1, modify. unfold bind at 1. simpl.
  erewrite popcli_run; [|exact H|done|done]. done.
Qed.

Lemma release_unheld me c s :
  at_cpu me c s -> cli_ok c s -> locked (lk s) = false \/ lkcpu (lk s) <> Some me ->
  fst (release s) = Panic "release".
Proof.
  intros H Hok Hl. unfold release, bind. rewrite (holding_run me c s H Hok).
  destruct Hl as [-> | Hl]; [done|].
  rewrite bool_decide_eq_false_2 by done. by rewrite andb_false_r.
Qed.

(** taking a free lock and releasing it gives back the interrupt flag, the
    nesting depth and a free lock, and in between this processor holds the lock
    with interrupts off. *)
Theorem acquire_release_balanced me c s :
  at_cpu me c s -> cli_ok c s -> locked (lk s) = false ->
  exists s1 c' l',
    acquire stack v s = (Ok tt, s1)
    /\ ifl s1 = false /\ fst (holding s1) = Ok true
    /\ release s1 = (Ok tt, here me (ifl s) c' l' s)
    /\ ncli c' = ncli c /\ proc c' = proc c /\ locked l' = false /\ lkcpu l' = None.
Proof.
  intros H Hok Hl. rewrite (acquire_free me c s H Hok Hl).
  set (l1 := mkLock _ _ _ _).
  assert (H1 : at_cpu me (pushed (ifl s) c) (here me false (pushed (ifl s) c) l1 s))
    by (by eapply at_here).
  assert (Hn : 0 < ncli (pushed (ifl s) c)) by (destruct Hok; simpl; lia).
  do 3 eexists. split; [reflexivity|]. split; [done|].
  split. { erewrite holding_run; [|exact H1|split; [lia|done]]. simpl.
           by rewrite bool_decide_eq_true_2. }
  split. { erewrite release_held; [|exact H1|done|done|done|done].
           rewrite here_here, popped_pushed, pop_flag_settle by done. reflexivity. }
  simpl. done.
Qed.

End AcquireLemmas.

(** ** The reentrant variant *)

Section Reentrant.
Context (stack : mem) (v : Z).

Lemma mypid_run me c s pid :
  at_cpu me c s -> cli_ok c s -> proc c = Some pid ->
  mypid s = (Ok pid, here me (ifl s) (settle (ifl s) c) (lk s) s).
Proof. intros H Hok Hp. unfold mypid, bind. rewrite (myproc_run me c s H Hok), Hp. done. Qed.

Lemma acquire_reentrant_free me c s pid :
  at_cpu me c s -> cli_ok c s -> proc c = Some pid -> locked (lk s) = false ->
  acquire_reentrant stack v s =
  (Ok tt, here me false (pushed (ifl s) c)
            (mkLock true (Some me) (getcallerpcs stack v) pid) s).
Proof.
  intros H Hok Hp Hl. unfold acquire_reentrant, bind at 1. rewrite (pushcli_run me c s H).
  destruct (entered me c s H Hok) as (H1 & Hok1 & Hid). set (s1 := here _ _ _ _ _) in *.
  unfold bind at 1. rewrite (holding_run _ _ _ H1 Hok1), Hid. simpl. rewrite Hl. simpl.
  unfold bind at 1, xchg_locked, bind at 1 2, gets, modify. simpl. rewrite Hl. unfold ret.
  unfold bind at 1. erewrite mycpu_run; [|exact H1|done].
  unfold bind at 1. unfold bind. set (s2 := set_lk _ _).
  assert (H2 : at_cpu me (pushed (ifl s) c) s2) by exact H1.
  rewrite (mypid_run _ _ _ pid H2 Hok1 Hp).
  rewrite settle_nested, here_id by (done || (destruct Hok; simpl; lia)). done.
Qed.

(** Acquiring again in the same process changes nothing but the [intena] note. *)
Lemma acquire_reentrant_again me c s pid :
  at_cpu me c s -> cli_ok c s -> proc c = Some pid ->
  locked (lk s) = true -> lkcpu (lk s) = Some me -> lkpid (lk s) = pid ->
  acquire_reentrant stack v s = (Ok tt, here me (ifl s) (settle (ifl s) c) (lk s) s).
Proof.
  intros H Hok Hp Hl Hc Hpid. unfold acquire_reentrant, bind at 1. rewrite (pushcli_run me c s H).
  destruct (entered me c s H Hok) as (H1 & Hok1 & Hid). set (s1 := here _ _ _ _ _) in *.
  unfold bind at 1. rewrite (holding_run _ _ _ H1 Hok1), Hid. simpl.
  rewrite Hl, Hc, bool_decide_eq_true_2 by done. simpl. unfold bind at 1, gets.
  unfold bind. rewrite (mypid_run _ _ _ pid H1 Hok1 Hp), Hid. simpl.
  rewrite Hpid, Z.eqb_refl.
  erewrite popcli_run; [|exact H1|done|destruct Hok; simpl; lia].
  unfold s1. rewrite here_here, popped_pushed, pop_flag_settle by done. done.
Qed.

(** nested acquisitions are not counted: after two [acquire_reentrant] in
    one process a single [release] leaves the lock free and the interrupt state
    as before the first acquisition, so the outer critical section goes on
    without the lock. *)
Theorem reentrant_release_frees me c s pid :
  at_cpu me c s -> cli_ok c s -> proc c = Some pid ->
  exists c' l',
    reentrant_spinlock_test stack v s = (Ok tt, here me (ifl s) c' l' s)
    /\ locked l' = false /\ lkcpu l' = None /\ ncli c' = ncli c.
Proof.
  intros H Hok Hp. unfold reentrant_spinlock_test, initlock, modify, bind at 1.
  set (s0 := set_lk _ s).
  assert (H0 : at_cpu me c s0) by exact H. assert (Hok0 : cli_ok c s0) by exact Hok.
  unfold bind at 1. rewrite (acquire_reentrant_free me c s0 pid H0 Hok0 Hp eq_refl).
  set (s1 := here _ _ _ _ _).
  assert (H1 : at_cpu me (pushed (ifl s) c) s1) by (by eapply at_here).
  assert (Hn : 0 < ncli (pushed (ifl s) c)) by (destruct Hok; simpl; lia).
  assert (Hok1 : cli_ok (pushed (ifl s) c) s1) by (split; [lia|done]).
  unfold bind. rewrite (acquire_reentrant_again me _ s1 pid H1 Hok1 Hp eq_refl eq_refl eq_refl).
  rewrite settle_nested, here_id by done.
  rewrite (release_held me _ s1 H1 eq_refl Hn eq_refl eq_refl).
  unfold s1. rewrite here_here, popped_pushed, pop_flag_settle by done.
  do 2 eexists. split; [reflexivity|]. done.
Qed.

End Reentrant.

(** ** Mutual exclusion between processors

    [acquire] and [release] as the sequences of their accesses to the shared
    lock (the theorem below states that they are), and the steps of several
    processors that run them, interleaved freely.  An access gets the local
    variable [r] of [holding] and returns it; a failed [xchg] is tried again. *)
Module Interleaved.
Section Processors.
Context (stack : mem) (v : Z).

Definition access := bool -> M machine bool.

Definition holding_steps : list access :=
  [ (fun r : bool => pushcli ;; ret r);
    (fun _ : bool => gets (fun s => locked (lk s)));
    (fun r : bool => i <- mycpu ;; gets (fun s => r && bool_decide (lkcpu (lk s) = Some i)));
    (fun r : bool => popcli ;; ret r) ].

Definition acquire_steps : list access :=
  (fun r : bool => pushcli ;; ret r) :: holding_steps ++
  [ (fun r : bool => if r then panic "acquire" else ret r);
    (fun r : bool => xchg_locked ;; ret r);
    (fun r : bool => i <- mycpu ;;
              modify (fun s => set_lk (mkLock (locked (lk s)) (Some i) (getcallerpcs stack v) (lkpid (lk s))) s) ;;
              ret r) ].

Definition release_steps : list access :=
  holding_steps ++
  [ (fun r : bool => if negb r then panic "release" else ret r);
    (fun r : bool => modify (fun s => set_lk (mkLock (locked (lk s)) None (<[0%nat := 0]> (pcs (lk s))) 0) s) ;; ret r);
    (fun r : bool => modify (fun s => set_lk (mkLock false (lkcpu (lk s)) (pcs (lk s)) (lkpid (lk s))) s) ;; ret r);
    (fun r : bool => popcli ;; ret r) ].

Fixpoint in_turn (l : list access) (r : bool) : M machine unit :=
  match l with [] => ret tt | a :: l' => r' <- a r ;; in_turn l' r' end.

(** Where a processor is: the number of the next access, and [r]. *)
Inductive pc :=
| Idle
| Acquiring (k : nat) (r : bool)
| Inside
| Releasing (k : nat) (r : bool)
| Panicked.

(** The processors' records and the lock are shared; each processor has its
    interrupt flag and its program point. *)
Record state := mkState {
  procs : list cpu;
  lock : spinlock;
  flag : nat -> bool;
  at_pc : nat -> pc;
}.

Definition goto {A} (i : nat) (p : A) (f : nat -> A) : nat -> A :=
  fun j => if decide (j = i) then p else f j.

(** The machine as processor [i] sees it, and the state after it ran. *)
Definition view (i : nat) (c : cpu) (s : state) : machine :=
  mkMach (flag s i) (apicid c) (procs s) (lock s).
Definition put (i : nat) (p : pc) (m : machine) (s : state) : state :=
  mkState (cpus m) (lk m) (goto i (ifl m) (flag s)) (goto i p (at_pc s)).

(** One access of processor [i], which then is at [next]. *)
Definition perform (i : nat) (c : cpu) (a : access) (r : bool) (next : bool -> pc) (s : state) : state :=
  match a r (view i c s) with
  | (Ok r', m) => put i (next r') m s
  | (Spin, m) => put i (at_pc s i) m s
  | (_, m) => put i Panicked m s
  end.

Definition move (i : nat) (c : cpu) (s : state) : state :=
  let jump p := put i p (view i c s) s in
  match at_pc s i with
  | Idle => jump (Acquiring 0 false)
  | Acquiring k r =>
      match acquire_steps !! k with
      | Some a => perform i c a r (Acquiring (S k)) s
      | None => jump Inside
      end
  | Inside => jump (Releasing 0 false)
  | Releasing k r =>
      match release_steps !! k with
      | Some a => perform i c a r (Releasing (S k)) s
      | None => jump Idle
      end
  | Panicked => s
  end.

Inductive step : state -> state -> Prop :=
| step_move i c s : procs s !! i = Some c -> step s (move i c s).

(** At the start nobody is in a critical section, the lock is free, and the
    processors have different APIC ids and keep the nesting discipline. *)
Record idle (s : state) : Prop := mkIdle {
  idle_pc : forall i, at_pc s i = Idle;
  idle_free : locked (lock s) = false;
  idle_cpu : lkcpu (lock s) = None;
  idle_ids : NoDup (map apicid (procs s));
  idle_cli : forall i c, procs s !! i = Some c -> 0 <= ncli c /\ (0 < ncli c -> flag s i = false);
}.

(** *** What holds at each program point *)

Definition well (p : pc) : Prop :=
  match p with
  | Acquiring k r => (k <= 8)%nat /\ ((4 <= k <= 5)%nat -> r = false)
  | Releasing k r => (k <= 8)%nat /\ ((2 <= k <= 4)%nat -> r = true)
  | Panicked => False
  | _ => True
  end.

(** How many of its own [pushcli] the processor has to undo. *)
Definition depth (p : pc) : Z :=
  match p with
  | Acquiring 0 _ | Idle | Releasing 8 _ | Panicked => 0
  | Acquiring (2 | 3 | 4) _ | Releasing (1 | 2 | 3) _ => 2
  | _ => 1
  end.

(** From its successful [xchg] to the store of 0 a processor owns the lock; it
    is recorded in [lk->cpu] for a part of that time. *)
Definition owns (p : pc) : bool :=
  match p with
  | Acquiring k _ => bool_decide (7 <= k)%nat
  | Inside => true
  | Releasing k _ => bool_decide (k <= 6)%nat
  | _ => false
  end.
Definition recorded (p : pc) : bool :=
  match p with
  | Acquiring k _ => bool_decide (8 <= k)%nat
  | Inside => true
  | Releasing k _ => bool_decide (k <= 5)%nat
  | _ => false
  end.

Definition local (p : pc) (b : bool) (c : cpu) : Prop :=
  well p /\ depth p <= ncli c /\ (0 < ncli c -> b = false).

Record inv (s : state) : Prop := mkInv {
  inv_ids : NoDup (map apicid (procs s));
  inv_local : forall i c, procs s !! i = Some c -> local (at_pc s i) (flag s i) c;
  inv_out : forall i, procs s !! i = None -> at_pc s i = Idle;
  inv_unique : forall i j, owns (at_pc s i) = true -> owns (at_pc s j) = true -> i = j;
  inv_locked : locked (lock s) = true <-> exists i, owns (at_pc s i) = true;
  inv_cpu : forall i, lkcpu (lock s) = Some i <-> recorded (at_pc s i) = true;
}.

Lemma idle_inv s : idle s -> inv s.
Proof.
  intros [Hp Hf Hc Hn Hl]. split; [done|..].
  - intros i c Hi. rewrite Hp. destruct (Hl i c Hi). by repeat split.
  - done.
  - intros i j. by rewrite Hp.
  - rewrite Hf. split; [done|]. intros [i Hi]. by rewrite Hp in Hi.
  - intros i. by rewrite Hp, Hc.
Qed.

Lemma goto_eq {A} i (p : A) f : goto i p f i = p.
Proof. unfold goto. by rewrite decide_True. Qed.

Lemma goto_ne {A} i j (p : A) f : j <> i -> goto i p f j = f j.
Proof. intros H. unfold goto. by rewrite decide_False. Qed.

Lemma recorded_owns p : recorded p = true -> owns p = true.
Proof. destruct p; simpl; try done; rewrite !bool_decide_eq_true; lia. Qed.

Lemma find_apicid_nodup l : forall k i c,
  NoDup (map apicid l) -> l !! i = Some c -> find_apicid l (apicid c) k = Some (k + i)%nat.
Proof.
  induction l as [|a l IH]; intros k [|i] c Hn Hi; simplify_eq/=.
  - rewrite Z.eqb_refl. f_equal; lia.
  - apply NoDup_cons in Hn as [Ha Hn]. rewrite (proj2 (Z.eqb_neq _ _)).
    + rewrite (IH _ i c) by done. f_equal; lia.
    + intros E. apply Ha. rewrite E. apply (list_elem_of_fmap_2 apicid l c).
      by eapply list_elem_of_lookup_2.
Qed.

Lemma view_at i c s : inv s -> procs s !! i = Some c -> at_cpu i c (view i c s).
Proof. intros I Hi. split; [|done]. simpl. by rewrite (find_apicid_nodup _ 0 i c (inv_ids s I) Hi). Qed.

(** A processor that changes its own record, the lock and its program point
    keeps the invariant when the lock still says who owns it. *)
Lemma inv_put i c0 c b l p s :
  inv s -> procs s !! i = Some c0 -> apicid c = apicid c0 -> local p b c ->
  (owns p = true -> forall j, j <> i -> owns (at_pc s j) = false) ->
  (locked l = true <-> owns p = true \/ exists j, j <> i /\ owns (at_pc s j) = true) ->
  (forall j, lkcpu l = Some j <-> recorded (goto i p (at_pc s) j) = true) ->
  inv (put i p (here i b c l (view i c0 s)) s).
Proof.
  intros [N L O U K R] Hi Ha Hl Hown Hk Hr.
  assert (Hlt : (i < length (procs s))%nat) by (by eapply lookup_lt_Some).
  split; simpl; [..|exact Hr].
  - rewrite list_fmap_insert, Ha, list_insert_id; [done|]. by rewrite list_lookup_fmap, Hi.
  - intros j d. destruct (decide (j = i)) as [->|Hj].
    + rewrite list_lookup_insert_eq, !goto_eq by done. by intros [= <-].
    + rewrite list_lookup_insert_ne, !goto_ne by done. apply L.
  - intros j. destruct (decide (j = i)) as [->|Hj].
    + by rewrite list_lookup_insert_eq.
    + rewrite list_lookup_insert_ne, !goto_ne by done. apply O.
  - intros j k. destruct (decide (j = i)) as [->|Hj], (decide (k = i)) as [->|Hk'];
      rewrite ?goto_eq, ?goto_ne by done; intros H1 H2; [done|..|by apply U].
    + rewrite Hown in H2; done.
    + rewrite Hown in H1; done.
  - rewrite Hk. split.
    + intros [H|(j & Hj & H)]; [exists i; by rewrite goto_eq | exists j; by rewrite goto_ne].
    + intros [j H]. destruct (decide (j = i)) as [->|Hj]; [left; by rewrite goto_eq in H|].
      right; exists j. by rewrite goto_ne in H.
Qed.

(** The accesses that leave the lock alone. *)
Lemma inv_quiet i c0 c b p s :
  inv s -> procs s !! i = Some c0 -> apicid c = apicid c0 -> local p b c ->
  owns p = owns (at_pc s i) -> recorded p = recorded (at_pc s i) ->
  inv (put i p (here i b c (lock s) (view i c0 s)) s).
Proof.
  intros I Hi Ha Hl Ho Hr. pose proof I as [N L O U K R]. apply inv_put; [done..|idtac| |].
  - rewrite Ho. intros H j Hj. destruct (owns (at_pc s j)) eqn:E; [|done]. by destruct (Hj (U _ _ E H)).
  - rewrite K, Ho. split.
    + intros [j Hj]. destruct (decide (j = i)) as [->|]; eauto.
    + intros [?|(j & ? & ?)]; eauto.
  - intros j. rewrite R. destruct (decide (j = i)) as [->|]; [by rewrite goto_eq, Hr | by rewrite goto_ne].
Qed.

(** An access that does not even change the processor's record. *)
Lemma inv_stay i c p s :
  inv s -> procs s !! i = Some c -> local p (flag s i) c ->
  owns p = owns (at_pc s i) -> recorded p = recorded (at_pc s i) ->
  inv (put i p (view i c s) s).
Proof.
  intros I Hi Hl Ho Hr. rewrite <- (here_id i c (view i c s)) by by apply view_at.
  by apply inv_quiet.
Qed.

(** *** The accesses one by one *)

Section Access.
Context (i : nat) (c : cpu) (s : state) (p : pc).
Hypothesis (I : inv s) (Hi : procs s !! i = Some c) (Hp : at_pc s i = p).

Definition same_side (p' : pc) : Prop :=
  well p' /\ owns p' = owns p /\ recorded p' = recorded p.

Lemma here_local : local p (flag s i) c.
Proof. rewrite <- Hp. by apply inv_local. Qed.

Lemma push_step r next :
  same_side (next r) -> depth (next r) = depth p + 1 -> 0 <= depth p ->
  inv (perform i c (fun r => pushcli ;; ret r) r next s).
Proof.
  intros (Hw & Ho & Hr) Hd H0. destruct here_local as (W & D & F).
  unfold perform, bind. rewrite (pushcli_run i c _ (view_at i c s I Hi)). simpl.
  apply inv_quiet; rewrite ?Hp; try done. split; [done|]. simpl. split; [lia|done].
Qed.

Lemma pop_step r next :
  same_side (next r) -> depth (next r) = depth p - 1 -> 0 < depth p ->
  inv (perform i c (fun r => popcli ;; ret r) r next s).
Proof.
  intros (Hw & Ho & Hr) Hd H0. destruct here_local as (W & D & F).
  unfold perform, bind.
  rewrite (popcli_run i c _ (view_at i c s I Hi)); [|apply F; lia|lia].
  apply inv_quiet; rewrite ?Hp; try done. split; [done|]. simpl. split; [lia|].
  intros H. by rewrite (proj2 (Z.eqb_neq (ncli c) 1)) by lia.
Qed.

(** An access that only computes the next value of [r]. *)
Lemma quiet_step (a : access) r r' next :
  a r (view i c s) = (Ok r', view i c s) ->
  same_side (next r') -> depth (next r') = depth p ->
  inv (perform i c a r next s).
Proof.
  intros Ha (Hw & Ho & Hr) Hd. destruct here_local as (W & D & F).
  unfold perform. rewrite Ha. apply inv_stay; rewrite ?Hp; try done. split; [done|]. by rewrite Hd.
Qed.

Lemma quiet_jump p' : same_side p' -> depth p' = depth p -> inv (put i p' (view i c s) s).
Proof.
  intros (Hw & Ho & Hr) Hd. destruct here_local as (W & D & F).
  apply inv_stay; rewrite ?Hp; try done. split; [done|]. by rewrite Hd.
Qed.

Lemma flag_off : 0 < depth p -> ifl (view i c s) = false.
Proof. destruct here_local as (W & D & F). intros H. apply F. lia. Qed.

Lemma mycpu_view : 0 < depth p -> mycpu (view i c s) = (Ok i, view i c s).
Proof. intros H. exact (mycpu_run i c _ (view_at i c s I Hi) (flag_off H)). Qed.

(** The two reads of [holding]. *)
Lemma locked_read : owns p = true -> locked (lock s) = true.
Proof. intros H. apply (inv_locked s I). exists i. by rewrite Hp. Qed.

Lemma cpu_read : bool_decide (lkcpu (lock s) = Some i) = recorded p.
Proof. rewrite <- Hp. apply eq_true_iff_eq. rewrite bool_decide_eq_true. apply (inv_cpu s I). Qed.

Lemma mycpu_step r next :
  0 < depth p -> same_side (next (r && recorded p)) -> depth (next (r && recorded p)) = depth p ->
  inv (perform i c (fun r => x <- mycpu ;; gets (fun m => r && bool_decide (lkcpu (lk m) = Some x))) r next s).
Proof.
  intros Hd Hs Hn. eapply quiet_step; [|exact Hs|exact Hn].
  unfold bind. rewrite mycpu_view by done. unfold gets. simpl. by rewrite cpu_read.
Qed.

Lemma others_idle j : owns p = true -> j <> i -> owns (at_pc s j) = false.
Proof.
  intros H Hj. destruct (owns (at_pc s j)) eqn:E; [|done].
  destruct Hj. apply (inv_unique s I); [done|by rewrite Hp].
Qed.

Lemma cpu_elsewhere j :
  owns p = true -> j <> i -> lkcpu (lock s) <> Some j.
Proof.
  intros H Hj E. apply (inv_cpu s I), recorded_owns in E. rewrite (others_idle j H Hj) in E. done.
Qed.

Lemma no_cpu : locked (lock s) = false -> lkcpu (lock s) = None.
Proof.
  intros Hl. destruct (lkcpu (lock s)) as [j|] eqn:E; [|done].
  apply (inv_cpu s I), recorded_owns in E. by rewrite (proj2 (inv_locked s I)) in Hl by eauto.
Qed.

(** An access that writes the lock, of which it is the owner afterwards or was
    before. *)
Lemma write_step (a : access) r l next :
  a r (view i c s) = (Ok r, set_lk l (view i c s)) ->
  well (next r) -> depth (next r) = depth p ->
  owns p = true \/ locked (lock s) = false ->
  (locked l = owns (next r)) ->
  (lkcpu l = if recorded (next r) then Some i else None) ->
  inv (perform i c a r next s).
Proof.
  intros Ha Hw Hd Hown Hk Hc. destruct here_local as (W & D & F).
  assert (Ho : forall j, j <> i -> owns (at_pc s j) = false).
  { intros j Hj. destruct Hown as [Hown|Hown]; [by apply others_idle|].
    destruct (owns (at_pc s j)) eqn:E; [|done].
    rewrite (proj2 (inv_locked s I)) in Hown by eauto. done. }
  unfold perform. rewrite Ha.
  replace (set_lk l (view i c s)) with (here i (flag s i) c l (view i c s))
    by (unfold here, set_lk; simpl; by rewrite list_insert_id).
  apply inv_put; [done..| | | |].
  - split; [done|]. by rewrite Hd.
  - auto.
  - rewrite Hk. split; [by left|]. intros [?|(j & Hj & E)]; [done|]. by rewrite Ho in E.
  - intros j. rewrite Hc. destruct (decide (j = i)) as [->|Hj].
    + rewrite goto_eq. by destruct (recorded (next r)).
    + rewrite goto_ne by done. split; [destruct (recorded (next r)); congruence|].
      intros E%recorded_owns. by rewrite Ho in E.
Qed.
End Access.

Ltac side := repeat split; simpl; try done; try lia; intros; try lia.

Lemma acquiring_step i c s k r a :
  inv s -> procs s !! i = Some c -> at_pc s i = Acquiring k r -> acquire_steps !! k = Some a ->
  inv (perform i c a r (Acquiring (S k)) s).
Proof.
  intros I Hi Hp Ha. destruct (here_local i c s _ I Hi Hp) as ([Wk Wr] & D & F).
  destruct k as [|[|[|[|[|[|[|[|k]]]]]]]]; simplify_eq/=.
  - apply (push_step i c s _ I Hi Hp); side.
  - apply (push_step i c s _ I Hi Hp); side.
  - by eapply (quiet_step i c s _ I Hi Hp); [reflexivity|side..].
  - apply (mycpu_step i c s _ I Hi Hp); side; by rewrite andb_false_r.
  - apply (pop_step i c s _ I Hi Hp); side; apply Wr; lia.
  - rewrite Wr by lia. by eapply (quiet_step i c s _ I Hi Hp); [reflexivity|side..].
  - destruct (locked (lock s)) eqn:El.
    + unfold perform, bind, xchg_locked, bind, gets, modify. simpl. rewrite El. simpl.
      replace (set_lk _ _) with (view i c s).
      * rewrite Hp. apply (quiet_jump i c s _ I Hi Hp); side.
      * unfold view, set_lk. simpl. f_equal. destruct (lock s). simpl in *. by subst.
    + eapply (write_step i c s _ I Hi Hp).
      { unfold xchg_locked, bind, gets, modify. simpl. rewrite El. reflexivity. }
      all: side; rewrite ?(no_cpu s I El); try done; by right.
  - eapply (write_step i c s _ I Hi Hp).
    { unfold bind. rewrite (mycpu_view i c s _ I Hi Hp) by done. reflexivity. }
    all: side; (by left) || by apply (locked_read i s _ I Hp).
Qed.

Lemma releasing_step i c s k r a :
  inv s -> procs s !! i = Some c -> at_pc s i = Releasing k r -> release_steps !! k = Some a ->
  inv (perform i c a r (Releasing (S k)) s).
Proof.
  intros I Hi Hp Ha. destruct (here_local i c s _ I Hi Hp) as ([Wk Wr] & D & F).
  destruct k as [|[|[|[|[|[|[|[|k]]]]]]]]; simplify_eq/=.
  - apply (push_step i c s _ I Hi Hp); side.
  - eapply (quiet_step i c s _ I Hi Hp); [reflexivity|side..]; by apply (locked_read i s _ I Hp).
  - apply (mycpu_step i c s _ I Hi Hp); side; by rewrite Wr by lia.
  - apply (pop_step i c s _ I Hi Hp); side; apply Wr; lia.
  - rewrite Wr by lia. by eapply (quiet_step i c s _ I Hi Hp); [reflexivity|side..].
  - eapply (write_step i c s _ I Hi Hp); [reflexivity|side..]; (by left) || by apply (locked_read i s _ I Hp).
  - eapply (write_step i c s _ I Hi Hp); [reflexivity|side..]; try (by left).
    destruct (lkcpu (lock s)) as [j|] eqn:E; [|done].
    destruct (decide (j = i)) as [->|Hj].
    + apply (inv_cpu s I) in E. by rewrite Hp in E.
    + by destruct (cpu_elsewhere i s _ I Hp j eq_refl Hj).
  - apply (pop_step i c s _ I Hi Hp); side.
Qed.

Lemma inv_step s s' : inv s -> step s s' -> inv s'.
Proof.
  intros I Hs. destruct Hs as [i c s0 Hi]. unfold move. destruct (at_pc s0 i) as [|k r| |k r|] eqn:Hp.
  - apply (quiet_jump i c s0 _ I Hi Hp); side.
  - destruct (acquire_steps !! k) as [a|] eqn:Ha; [by apply acquiring_step|].
    apply lookup_ge_None in Ha. simpl in Ha.
    destruct (here_local i c s0 _ I Hi Hp) as ([Wk Wr] & D & F).
    assert (k = 8)%nat as -> by lia. apply (quiet_jump i c s0 _ I Hi Hp); side.
  - apply (quiet_jump i c s0 _ I Hi Hp); side.
  - destruct (release_steps !! k) as [a|] eqn:Ha; [by apply releasing_step|].
    apply lookup_ge_None in Ha. simpl in Ha.
    destruct (here_local i c s0 _ I Hi Hp) as ([Wk Wr] & D & F).
    assert (k = 8)%nat as -> by lia. apply (quiet_jump i c s0 _ I Hi Hp); side.
  - done.
Qed.

Lemma inv_reachable s0 s : idle s0 -> rtc step s0 s -> inv s.
Proof. intros H0%idle_inv Hr. induction Hr; [done|]. eauto using inv_step. Qed.

(** The operations are the sequences of their accesses. *)
Lemma mycpu_reads m : snd (mycpu m) = m.
Proof.
  unfold mycpu, bind, get. destruct (ifl m); [done|]. by destruct (find_apicid _ _ _).
Qed.

Lemma holding_in_turn l r m :
  in_turn (holding_steps ++ l) r m = (h <- holding ;; in_turn l h) m.
Proof.
  unfold holding. simpl. unfold bind, gets, ret. destruct (pushcli m) as [[[]| | | |] m1]; try done.
  pose proof (mycpu_reads m1) as E. destruct (mycpu m1) as [[i| | | |] m2]; simplify_eq/=; try done;
    by destruct (popcli _) as [[] m3].
Qed.

Lemma acquire_in_turn m : acquire stack v m = in_turn acquire_steps false m.
Proof.
  unfold acquire, acquire_steps. cbn [in_turn]. unfold bind, ret.
  destruct (pushcli m) as [[[]| | | |] m1]; try done.
  rewrite holding_in_turn. unfold bind, modify. destruct (holding m1) as [[[]| | | |] m2]; try done.
  simpl. unfold bind. destruct (xchg_locked m2) as [[[]| | | |] m3]; try done.
  simpl. by destruct (mycpu m3) as [[] m4].
Qed.

Lemma release_in_turn m : release m = in_turn release_steps false m.
Proof.
  unfold release, release_steps. rewrite holding_in_turn. unfold bind.
  destruct (holding m) as [[[]| | | |] m1]; try done. simpl. unfold bind. simpl.
  by destruct (popcli _) as [[[]| | | |] m2].
Qed.

(** C14: [acquire] and [release] are the sequences of their accesses to the
    shared lock, and in every interleaving of these accesses on any number of
    processors at most one processor is between winning the [xchg] and storing
    0, the others find the lock taken there, no [holding] test panics (nor any
    other check), and a processor inside runs with interrupts off. *)
Theorem mutual_exclusion s0 s :
  idle s0 -> rtc step s0 s ->
  (forall m, acquire stack v m = in_turn acquire_steps false m /\ release m = in_turn release_steps false m)
  /\ (forall i j, at_pc s i = Inside -> at_pc s j = Inside -> i = j)
  /\ (forall i j, owns (at_pc s i) = true -> owns (at_pc s j) = true -> i = j)
  /\ (locked (lock s) = true <-> exists i, owns (at_pc s i) = true)
  /\ (forall i, at_pc s i <> Panicked)
  /\ (forall i, at_pc s i = Inside -> lkcpu (lock s) = Some i /\ flag s i = false).
Proof.
  intros H0 Hr. pose proof (inv_reachable s0 s H0 Hr) as I. pose proof I as [N L O U K R].
  assert (Hin : forall i p, at_pc s i = p -> p <> Idle -> exists c, local p (flag s i) c).
  { intros i p Hp Hn. destruct (procs s !! i) as [c|] eqn:E.
    - exists c. rewrite <- Hp. by apply L.
    - apply O in E. congruence. }
  split; [intros m; split; [apply acquire_in_turn | apply release_in_turn]|].
  split; [intros i j Hi Hj; apply U; [by rewrite Hi | by rewrite Hj]|].
  split; [exact U|]. split; [exact K|]. split.
  - intros i Hp. destruct (Hin i _ Hp) as (c & [] & _); done.
  - intros i Hp. split; [apply R; by rewrite Hp|].
    destruct (Hin i _ Hp) as (c & _ & D & F); [done|]. apply F. simpl in D. lia.
Qed.
End Processors.

(** Two processors race for the lock: processor 0 wins and is inside, processor
    1 has passed its [holding] test and tries its [xchg] in vain. *)
Definition race_start : state :=
  mkState [mkCpu 4 0 false (Some 3); mkCpu 9 0 false (Some 5)] (mkLock false None (replicate 10 0) 0)
    (fun _ => true) (fun _ => Idle).

Lemma race_start_idle : idle race_start.
Proof.
  split; try done.
  - simpl. repeat constructor; set_solver.
  - intros [|[|i]] c Hc; simplify_eq/=; lia.
Qed.

Definition moves (sched : list nat) (s : state) : state :=
  foldl (fun s i => match procs s !! i with Some c => move (fun _ => 0) 0x80001000 i c s | None => s end) s sched.

Lemma moves_steps sched : forall s, rtc (step (fun _ => 0) 0x80001000) s (moves sched s).
Proof.
  induction sched as [|i l IH]; intros s; [apply rtc_refl|].
  unfold moves. simpl. destruct (procs s !! i) as [c|] eqn:E; [|apply IH].
  eapply rtc_l; [by apply step_move|]. apply IH.
Qed.

Definition race : state := moves [0;1;0;1;0;1;0;1;0;1;0;1;0;1;0;1;0;1;0;1;1]%nat race_start.

Example mutual_exclusion_witness :
  at_pc race 0%nat = Inside /\ at_pc race 1%nat = Acquiring 6 false
  /\ (forall i j, at_pc race i = Inside -> at_pc race j = Inside -> i = j).
Proof.
  split; [done|]. split; [done|].
  apply (mutual_exclusion (fun _ => 0) 0x80001000 race_start race race_start_idle).
  apply moves_steps.
Defined.
End Interleaved.

(** A uniprocessor running process 3 with interrupts on and the lock free. *)
Definition boot_cpu : cpu := mkCpu 0 0 false (Some 3).
Definition boot : machine := mkMach true 0 [boot_cpu] (mkLock false None (replicate 10 0) 0).

Lemma boot_at : at_cpu 0 boot_cpu boot.
Proof. done. Qed.
Lemma boot_ok : cli_ok boot_cpu boot.
Proof. done. Qed.

Example pushcli_popcli_balanced_witness :
  exists s1 c', repeat_m 3 pushcli boot = (Ok tt, s1) /\ ifl s1 = false
    /\ repeat_m 3 popcli s1 = (Ok tt, here 0 true c' (lk boot) boot)
    /\ ncli c' = 0 /\ proc c' = Some 3 /\ apicid c' = 0.
Proof. apply (pushcli_popcli_balanced 3 0 boot_cpu boot boot_at boot_ok). lia. Defined.

Example acquire_release_balanced_witness :
  exists s1 c' l',
    acquire (fun _ => 0) 0x80001000 boot = (Ok tt, s1)
    /\ ifl s1 = false /\ fst (holding s1) = Ok true
    /\ release s1 = (Ok tt, here 0 true c' l' boot)
    /\ ncli c' = 0 /\ proc c' = Some 3 /\ locked l' = false /\ lkcpu l' = None.
Proof. apply (acquire_release_balanced (fun _ => 0) 0x80001000 0 boot_cpu boot boot_at boot_ok). reflexivity. Defined.

Example reentrant_release_frees_witness :
  exists c' l',
    reentrant_spinlock_test (fun _ => 0) 0x80001000 boot = (Ok tt, here 0 true c' l' boot)
    /\ locked l' = false /\ lkcpu l' = None /\ ncli c' = 0.
Proof. apply (reentrant_release_frees (fun _ => 0) 0x80001000 0 boot_cpu boot 3 boot_at boot_ok). reflexivity. Defined.

(** ** A lock on one processor is a flag

    When there is one processor, a taken lock is taken by it, and the real
    [acquire] and [release] behave as the flag operations of the prelude. *)
Section Uniprocessor.
Context (stack : mem) (v : Z).

Definition uni (c : cpu) (s : machine) : Prop :=
  at_cpu 0 c s /\ cli_ok c s /\ length (cpus s) = 1%nat
  /\ (locked (lk s) = true -> lkcpu (lk s) = Some 0%nat).

Definition flag_acquire : M bool unit := acquire_flag (fun b => b) (fun b _ => b).
Definition flag_release : M bool unit := release_flag (fun b => b) (fun b _ => b).

(** with one processor, [acquire] returns exactly when the lock's flag is
    clear, leaving it set, and otherwise panics; it never spins. *)
Theorem acquire_refines_flag c s :
  uni c s ->
  fst (acquire stack v s) = fst (flag_acquire (locked (lk s)))
  /\ (forall b, flag_acquire (locked (lk s)) = (Ok tt, b) ->
        exists c' s', acquire stack v s = (Ok tt, s') /\ uni c' s'
          /\ locked (lk s') = b /\ ncli c' = ncli c + 1).
Proof.
  intros (H & Hok & Hlen & Hown). destruct (locked (lk s)) eqn:El.
  - rewrite (acquire_held stack v 0 c s H Hok El (Hown eq_refl)). split; [done|]. by intros b [=].
  - rewrite (acquire_free stack v 0 c s H Hok El). split; [done|].
    intros b [= <-]. exists (pushed (ifl s) c). eexists. split; [done|].
    split; [|done]. split; [by eapply at_here|]. destruct Hok as [Hok1 _].
    split; [split; simpl; [lia|done]|]. split; [|done].
    simpl. by rewrite length_insert.
Qed.

(** [release] with one processor: it returns exactly when the flag is set and
    the caller is inside a [pushcli], leaving the flag clear. *)
Theorem release_refines_flag c s :
  uni c s -> (locked (lk s) = true -> 0 < ncli c) ->
  fst (release s) = fst (flag_release (locked (lk s)))
  /\ (forall b, flag_release (locked (lk s)) = (Ok tt, b) ->
        exists c' s', release s = (Ok tt, s') /\ uni c' s'
          /\ locked (lk s') = b /\ ncli c' = ncli c - 1).
Proof.
  intros (H & Hok & Hlen & Hown) Hn. destruct (locked (lk s)) eqn:El.
  - specialize (Hn eq_refl). destruct Hok as [Hok1 Hok2].
    rewrite (release_held 0 c s H (Hok2 Hn) Hn El (Hown eq_refl)). split; [done|].
    intros b [= <-]. exists (popped c). eexists. split; [done|].
    split; [|done]. split; [by eapply at_here|].
    split; [split; simpl; [lia|]|].
    { intros Hp. rewrite (proj2 (Z.eqb_neq (ncli c) 1)) by lia. done. }
    split; [|done]. simpl. by rewrite length_insert.
  - rewrite (release_unheld 0 c s H Hok) by auto. split; [done|]. by intros b [=].
Qed.
End Uniprocessor.

Lemma boot_uni : uni boot_cpu boot.
Proof. done. Qed.

Example acquire_refines_flag_witness :
  fst (acquire (fun _ => 0) 0x80001000 boot) = Ok tt.
Proof. exact (proj1 (acquire_refines_flag (fun _ => 0) 0x80001000 boot_cpu boot boot_uni)). Defined.

Definition boot_taken : machine :=
  mkMach false 0 [mkCpu 0 1 true (Some 3)] (mkLock true (Some 0%nat) (replicate 10 0) 0).

Example release_refines_flag_witness : fst (release boot_taken) = Ok tt.
Proof.
  refine (proj1 (release_refines_flag (mkCpu 0 1 true (Some 3)) boot_taken _ _)).
  - repeat split; done.
  - intros _; simpl; lia.
Defined.
