(* ===== verification/Kalloc.v ===== *)
(** The physical page allocator: [src/kalloc.c].

    Free pages form a linked list threaded through the pages themselves: the
    first word of a free page is the address of the next one.  The state is the
    kernel's memory with the [kmem] structure. *)

From Stdlib Require Import ZArith Lia.
From stdpp Require Import base list strings relations.
From S2P Require Import Prelude Kstring Spinlock.
Local Open Scope Z_scope.

Definition PGSIZE : Z := 4096.
Definition PHYSTOP : Z := 0xE000000.
Definition V2P (a : Z) : Z := u32 (a - KERNBASE).
Definition P2V (a : Z) : Z := u32 (a + KERNBASE).
Definition PGROUNDUP (sz : Z) : Z := Z.land (u32 (sz + PGSIZE - 1)) (u32 (Z.lnot (PGSIZE - 1))).
Definition PGROUNDDOWN (a : Z) : Z := Z.land a (u32 (Z.lnot (PGSIZE - 1))).

Record kmem := mkKmem {
  memory : mem;
  klock : bool;
  use_lock : bool;
  freelist : Z;
}.

Definition set_memory (m : mem) (k : kmem) : kmem := mkKmem m (klock k) (use_lock k) (freelist k).
Definition set_klock (b : bool) (k : kmem) : kmem := mkKmem (memory k) b (use_lock k) (freelist k).
Definition set_use_lock (b : bool) (k : kmem) : kmem := mkKmem (memory k) (klock k) b (freelist k).
Definition set_freelist (p : Z) (k : kmem) : kmem := mkKmem (memory k) (klock k) (use_lock k) p.

Section Kalloc.
(** [end]: the first address after the kernel image, set by the linker. *)
Context (kend : Z).

(** [if(kmem.use_lock) acquire(&kmem.lock)] and its counterpart. *)
Definition kmem_acquire : M kmem unit :=
  u <- gets use_lock ;;
  if (u : bool) then acquire_flag klock set_klock else ret tt.
Definition kmem_release : M kmem unit :=
  u <- gets use_lock ;;
  if (u : bool) then release_flag klock set_klock else ret tt.

Definition kfree (v : Z) : M kmem unit :=
  if nz (v mod PGSIZE) || (v <? kend) || (PHYSTOP <=? V2P v) then panic "kfree" else
  modify (fun k => set_memory (memset (memory k) v 1 PGSIZE) k) ;;
  kmem_acquire ;;
  modify (fun k => set_memory (store32 (memory k) v (freelist k)) k) ;;
  modify (set_freelist v) ;;
  kmem_release.

Definition kalloc : M kmem Z :=
  kmem_acquire ;;
  r <- gets freelist ;;
  (if nz r then modify (fun k => set_freelist (load32 (memory k) r) k) else ret tt) ;;
  kmem_release ;;
  ret r.

(** The loop of [freerange], at most [fuel] iterations. *)
Fixpoint freerange_loop (fuel : nat) (p vend : Z) : M kmem unit :=
  match fuel with
  | O => spin
  | S n =>
      if p + PGSIZE <=? vend then
        kfree p ;; freerange_loop n (p + PGSIZE) vend
      else ret tt
  end.

Definition freerange (vstart vend : Z) : M kmem unit :=
  freerange_loop (S (Z.to_nat (vend / PGSIZE))) (PGROUNDUP vstart) vend.

Definition kinit1 (vstart vend : Z) : M kmem unit :=
  modify (set_klock false) ;;
  modify (set_use_lock false) ;;
  freerange vstart vend.

Definition kinit2 (vstart vend : Z) : M kmem unit :=
  freerange vstart vend ;;
  modify (set_use_lock true).

(** ** The free list *)

(** Pages the allocator deals in. *)
Definition page_ok (v : Z) : Prop :=
  v mod PGSIZE = 0 /\ kend <= v /\ KERNBASE <= v < KERNBASE + PHYSTOP.

Fixpoint chain (m : mem) (p : Z) (l : list Z) : Prop :=
  match l with
  | [] => p = 0
  | a :: l' => p = a /\ chain m (load32 m a) l'
  end.

(** The allocator's invariant: the chain from [freelist] visits the pages [l],
    each a proper page and none twice, and the lock is free. *)
Record kmem_ok (k : kmem) (l : list Z) : Prop := mkKmemOk {
  ok_chain : chain (memory k) (freelist k) l;
  ok_pages : Forall page_ok l;
  ok_nodup : NoDup l;
  ok_lock : klock k = false;
}.

(** Two distinct pages share no byte. *)
Lemma pages_apart a b x :
  page_ok a -> page_ok b -> a <> b -> a <= x < a + PGSIZE -> ~ (b <= x < b + PGSIZE).
Proof.
  unfold page_ok, PGSIZE. intros [Ha _] [Hb _] Hne Hx Hx'.
  apply Z.mod_divide in Ha as [i ->]; [|lia]. apply Z.mod_divide in Hb as [j ->]; [|lia]. lia.
Qed.

Lemma load32_ext m m' a :
  (forall x, a <= x < a + 4 -> m' x = m x) -> load32 m' a = load32 m a.
Proof. intros H. unfold load32. rewrite !H by lia. done. Qed.

Lemma chain_ext m m' l : forall p,
  (forall a x, a ∈ l -> a <= x < a + 4 -> m' x = m x) ->
  chain m p l -> chain m' p l.
Proof.
  induction l as [|a l IH]; intros p Hm H; simpl in *; [done|].
  destruct H as [-> H]. split; [done|].
  rewrite (load32_ext m m') by (intros; apply (Hm a); [left|done]).
  apply IH; [|done]. intros b x Hb. apply (Hm b). by right.
Qed.

Lemma page_nonzero v : page_ok v -> nz v = true.
Proof. unfold page_ok, nz, KERNBASE. intros (_ & _ & H). zcases; simpl; [lia|done]. Qed.

Lemma kfree_guard v :
  page_ok v -> nz (v mod PGSIZE) || (v <? kend) || (PHYSTOP <=? V2P v) = false.
Proof.
  unfold page_ok, nz, V2P, PHYSTOP, KERNBASE. intros (-> & H1 & H2). rewrite u32_id by lia.
  zcases; simpl; try lia; done.
Qed.

Definition link_page (v : Z) (k : kmem) : kmem :=
  set_freelist v (set_memory (store32 (memory k) v (freelist k)) k).

Lemma kfree_run v k :
  page_ok v -> klock k = false ->
  kfree v k = (Ok tt, link_page v (set_memory (memset (memory k) v 1 PGSIZE) k)).
Proof.
  intros Hv Hl. unfold kfree. rewrite kfree_guard by done.
  unfold kmem_acquire, kmem_release, gets, bind, modify.
  destruct k as [m lkd u f]; simpl in *; subst lkd. destruct u; done.
Qed.

(** Freeing a page that is not free puts it at the head of the list; the page is
    filled with ones behind the link, and no byte outside it changes. *)
Lemma kfree_ok v k l :
  kmem_ok k l -> page_ok v -> v ∉ l ->
  exists k', kfree v k = (Ok tt, k') /\ kmem_ok k' (v :: l) /\ use_lock k' = use_lock k
    /\ (forall x, ~ (v <= x < v + PGSIZE) -> memory k' x = memory k x)
    /\ (forall x, v + 4 <= x < v + PGSIZE -> memory k' x = 1).
Proof.
  intros [Hc Hp Hn Hl] Hv Hnot. rewrite (kfree_run v k Hv Hl). eexists. split; [done|].
  assert (Hmem : forall x, ~ (v <= x < v + PGSIZE) ->
            store32 (memset (memory k) v 1 PGSIZE) v (freelist k) x = memory k x).
  { intros x Hx. rewrite store32_other by (unfold PGSIZE in *; lia).
    rewrite memset_spec by (unfold PGSIZE; lia). zcases; simpl; try lia; done. }
  split; [split|split; [done|split]].
  - simpl. split; [done|]. rewrite load32_store32.
    assert (Hf : u32 (freelist k) = freelist k).
    { apply u32_id. destruct l as [|a l]; simpl in Hc; [lia|].
      destruct Hc as [-> _]. apply Forall_cons_1 in Hp as [(_ & _ & ?) _].
      unfold KERNBASE, PHYSTOP in *. lia. }
    rewrite Hf. apply (chain_ext (memory k)); [|done].
    intros a x Ha Hx. apply Hmem. rewrite Forall_forall in Hp.
    apply (pages_apart a v); [by apply Hp|done|by intros ->|]. unfold PGSIZE; lia.
  - by constructor.
  - by constructor.
  - done.
  - exact Hmem.
  - intros x Hx. simpl. rewrite store32_other by lia.
    rewrite memset_spec by (unfold PGSIZE; lia). unfold PGSIZE in *. zcases; simpl; try lia; done.
Qed.

Lemma kalloc_run k :
  klock k = false ->
  kalloc k = (Ok (freelist k),
    if nz (freelist k) then set_freelist (load32 (memory k) (freelist k)) k else k).
Proof.
  intros Hl. unfold kalloc, kmem_acquire, kmem_release, gets, bind.
  destruct k as [m lkd u f]; simpl in *; subst lkd.
  destruct u, (nz f) eqn:E; simpl; rewrite ?E; done.
Qed.

(** Allocation takes the head of the list and answers 0 exactly when the list is
    empty; memory is not touched. *)
Lemma kalloc_ok k l :
  kmem_ok k l ->
  exists k', kalloc k = (Ok (default 0 (head l)), k') /\ kmem_ok k' (tail l)
    /\ memory k' = memory k /\ use_lock k' = use_lock k.
Proof.
  intros [Hc Hp Hn Hl]. rewrite (kalloc_run k Hl).
  destruct l as [|a l]; simpl in *.
  - rewrite Hc. simpl. exists k. done.
  - destruct Hc as [Ef Hc]. apply Forall_cons_1 in Hp as [Ha Hp]. apply NoDup_cons in Hn as [Hna Hn].
    rewrite Ef, (page_nonzero a Ha). eexists. split; [done|]. done.
Qed.

(** The error branch: a pointer [kalloc] cannot have returned is refused before
    anything changes. *)
Lemma kfree_bad v k :
  v mod PGSIZE <> 0 \/ v < kend \/ PHYSTOP <= V2P v -> kfree v k = (Panic "kfree", k).
Proof.
  intros H. unfold kfree, nz.
  replace (negb (v mod PGSIZE =? 0) || (v <? kend) || (PHYSTOP <=? V2P v)) with true; [done|].
  symmetry. destruct H as [H|[H|H]].
  - by rewrite (proj2 (Z.eqb_neq _ _) H).
  - rewrite (proj2 (Z.ltb_lt _ _) H). by rewrite orb_true_r.
  - rewrite (proj2 (Z.leb_le _ _) H). by rewrite !orb_true_r.
Qed.

(** ** Initialisation *)

Lemma PGROUNDUP_spec sz :
  0 <= sz -> sz + PGSIZE - 1 < 2 ^ 32 ->
  PGROUNDUP sz mod PGSIZE = 0 /\ sz <= PGROUNDUP sz < sz + PGSIZE.
Proof.
  intros H1 H2. unfold PGROUNDUP, PGSIZE in *.
  rewrite (u32_id (sz + 4096 - 1)) by lia.
  rewrite (land_clear_low _ 12) by lia. change (2 ^ 12) with 4096.
  pose proof (Z.mod_pos_bound (sz + 4096 - 1) 4096 ltac:(lia)).
  rewrite Zminus_mod_idemp_r, Z.sub_diag. split; [done|lia].
Qed.

Fixpoint pages_from (p : Z) (n : nat) : list Z :=
  match n with O => [] | S k => p :: pages_from (p + PGSIZE) k end.

Lemma pages_from_spec n : forall p v,
  v ∈ pages_from p n <-> exists i, 0 <= i < Z.of_nat n /\ v = p + i * PGSIZE.
Proof.
  induction n as [|n IH]; intros p v; cbn [pages_from].
  - split; [by intros ?%elem_of_nil | intros (i & ? & _); lia].
  - rewrite elem_of_cons, IH. split.
    + intros [-> | (i & Hi & ->)]; [exists 0; lia | exists (i + 1); lia].
    + intros (i & Hi & ->). destruct (Z.eq_dec i 0) as [->|]; [left; lia|].
      right. exists (i - 1). lia.
Qed.

Lemma freerange_loop_ok n : forall fuel p vend k l,
  (n < fuel)%nat -> kmem_ok k l ->
  p + Z.of_nat n * PGSIZE <= vend < p + Z.of_nat n * PGSIZE + PGSIZE ->
  Forall page_ok (pages_from p n) -> (forall v, v ∈ pages_from p n -> v ∉ l) ->
  exists k', freerange_loop fuel p vend k = (Ok tt, k')
    /\ kmem_ok k' (rev (pages_from p n) ++ l) /\ use_lock k' = use_lock k
    /\ (forall x, x < p \/ vend <= x -> memory k' x = memory k x).
Proof.
  induction n as [|n IH]; intros [|fuel] p vend k l Hf Hk Hv Hp Hnew; try lia.
  - exists k. cbn [freerange_loop]. rewrite (proj2 (Z.leb_gt _ _)) by lia. done.
  - cbn [freerange_loop pages_from] in *. rewrite (proj2 (Z.leb_le _ _)) by (unfold PGSIZE in *; lia).
    apply Forall_cons_1 in Hp as [Hp1 Hp].
    destruct (kfree_ok p k l Hk Hp1) as (k1 & Hrun & Hk1 & Hu & Hm1 & _).
    { apply Hnew. left. }
    unfold bind. rewrite Hrun.
    destruct (IH fuel (p + PGSIZE) vend k1 (p :: l)) as (k2 & Hrun2 & Hk2 & Hu2 & Hm2);
      [lia|done|lia|done| |].
    { intros v Hvin. rewrite not_elem_of_cons. split.
      - apply pages_from_spec in Hvin as (i & Hi & ->). unfold PGSIZE. lia.
      - apply Hnew. by right. }
    exists k2. rewrite Hrun2. split; [done|]. split; [|split; [congruence|]].
    + simpl. by rewrite <- app_assoc.
    + intros x Hx. rewrite Hm2, Hm1; [done|unfold PGSIZE in *; lia..].
Qed.

(** [freerange] puts exactly the whole pages of [vstart, vend) on the free
    list, lowest first, so that they come back highest first, and it terminates
    within the fuel the model gives it. *)
Theorem freerange_ok vstart vend k l :
  kmem_ok k l ->
  kend <= vstart -> KERNBASE <= vstart -> vstart <= vend -> vend <= KERNBASE + PHYSTOP ->
  (forall v, v ∈ l -> v + PGSIZE <= vstart \/ vend <= v) ->
  let P := PGROUNDUP vstart in
  exists k', freerange vstart vend k = (Ok tt, k')
    /\ kmem_ok k' (rev (pages_from P (Z.to_nat ((vend - P) / PGSIZE))) ++ l)
    /\ use_lock k' = use_lock k /\ (forall x, x < vstart \/ vend <= x -> memory k' x = memory k x).
Proof.
  intros Hk Hend Hkb Hle Hphys Hl P.
  destruct (PGROUNDUP_spec vstart) as [Hmod HP]; [unfold KERNBASE in *; lia|unfold KERNBASE, PHYSTOP, PGSIZE in *; lia|].
  fold P in Hmod, HP.
  destruct (Z.le_gt_cases P vend) as [HPv|HPv].
  - set (n := Z.to_nat ((vend - P) / PGSIZE)).
    assert (Hn : Z.of_nat n = (vend - P) / PGSIZE).
    { unfold n. rewrite Z2Nat.id; [done|]. apply Z.div_pos; unfold PGSIZE; lia. }
    pose proof (Z.div_mod (vend - P) PGSIZE ltac:(unfold PGSIZE; lia)) as Hdm.
    pose proof (Z.mod_pos_bound (vend - P) PGSIZE ltac:(unfold PGSIZE; lia)) as Hmb.
    assert (Hin : forall v, v ∈ pages_from P n -> vstart <= v /\ v + PGSIZE <= vend /\ v mod PGSIZE = 0).
    { intros v Hv. apply pages_from_spec in Hv as (i & Hi & ->).
      split; [unfold PGSIZE; lia|]. split; [unfold PGSIZE in *; nia|].
      rewrite Z_mod_plus_full. done. }
    destruct (freerange_loop_ok n (S (Z.to_nat (vend / PGSIZE))) P vend k l) as (k' & Hrun & Hk' & Hu & Hm').
    + unfold n. apply Nat.lt_succ_r, Z2Nat.inj_le;
        [apply Z.div_pos; unfold PGSIZE; lia | apply Z.div_pos; unfold PGSIZE, KERNBASE in *; lia |].
      apply Z.div_le_mono; [unfold PGSIZE; lia|]. unfold KERNBASE in *; lia.
    + done.
    + rewrite Hn. unfold PGSIZE in *; lia.
    + rewrite Forall_forall. intros v Hv. destruct (Hin v Hv) as (? & ? & ?).
      split; [done|]. split; [lia|]. unfold PGSIZE in *; lia.
    + intros v Hv Hvl. destruct (Hin v Hv) as (? & ? & _).
      destruct (Hl v Hvl); unfold PGSIZE in *; lia.
    + exists k'. do 3 (split; [done|]). intros x Hx. apply Hm'. lia.
  - exists k. unfold freerange. fold P. cbn [freerange_loop].
    rewrite (proj2 (Z.leb_gt _ _)) by (unfold PGSIZE; lia).
    rewrite (Z2Nat.nonpos ((vend - P) / PGSIZE)); [done|].
    assert ((vend - P) / PGSIZE < 0) by (apply Z.div_lt_upper_bound; unfold PGSIZE; lia). lia.
Qed.

(** ** The allocator and its clients

    A client may allocate, write anything into the pages it owns, and free a page
    it owns. *)
Inductive kstep : kmem * list Z -> kmem * list Z -> Prop :=
| kstep_alloc k A p k' :
    kalloc k = (Ok p, k') -> kstep (k, A) (k', if nz p then p :: A else A)
| kstep_free k A B v k' :
    A ≡ₚ v :: B -> kfree v k = (Ok tt, k') -> kstep (k, A) (k', B)
| kstep_write k A a x b :
    a ∈ A -> a <= x < a + PGSIZE -> kstep (k, A) (set_memory (upd (memory k) x b) k, A).

Lemma kstep_inv k A k' A' l0 :
  (exists l, kmem_ok k l /\ l ++ A ≡ₚ l0) -> Forall page_ok l0 -> NoDup l0 ->
  kstep (k, A) (k', A') -> exists l, kmem_ok k' l /\ l ++ A' ≡ₚ l0.
Proof.
  intros (l & Hk & Hp) Hok Hnd Hs. inversion Hs as [? ? p ? Hrun|? ? B v ? HA Hrun|? ? a x b Ha Hx]; subst.
  - destruct (kalloc_ok k l Hk) as (k1 & Hrun1 & Hk1 & _).
    rewrite Hrun in Hrun1. simplify_eq. exists (tail l). split; [done|].
    destruct l as [|p l]; simpl in *; [done|].
    rewrite page_nonzero; [by rewrite <- Permutation_middle|].
    destruct Hk as [_ Hpages _ _]. by apply Forall_cons_1 in Hpages as [? _].
  - assert (Hperm : v :: l ++ A' ≡ₚ l0) by (rewrite Permutation_middle, <- HA; done).
    assert (Hv : page_ok v).
    { rewrite Forall_forall in Hok. apply Hok. rewrite <- Hperm. left. }
    assert (Hnot : v ∉ l).
    { rewrite <- Hperm in Hnd. apply NoDup_cons in Hnd as [Hnd _]. rewrite elem_of_app in Hnd. tauto. }
    destruct (kfree_ok v k l Hk Hv Hnot) as (k1 & Hrun1 & Hk1 & _).
    rewrite Hrun in Hrun1. simplify_eq. exists (v :: l). done.
  - exists l. split; [|done]. destruct Hk as [Hc Hpg Hn Hl]. split; try done. simpl.
    apply (chain_ext (memory k)); [|done]. intros c y Hc' Hy. apply upd_ne. intros ->.
    rewrite <- Hp in Hok, Hnd. apply Forall_app in Hok as [_ HokA]. rewrite Forall_forall in Hpg, HokA.
    apply NoDup_app in Hnd as (_ & Hdis & _).
    apply (pages_apart c a x); [by apply Hpg|by apply HokA| |unfold PGSIZE; lia|done].
    intros ->. by apply (Hdis a).
Qed.

(** C10: conservation of pages: whatever the kernel allocates, writes into its
    pages and frees, the free pages together with the pages handed out are at all
    times exactly the initial pages, so no page is ever handed out twice, lost, or
    free while in use, and no write into an owned page damages the free list. *)
Theorem kalloc_conserves k0 l0 k A :
  kmem_ok k0 l0 -> rtc kstep (k0, []) (k, A) ->
  exists l, kmem_ok k l /\ l ++ A ≡ₚ l0 /\ NoDup (l ++ A).
Proof.
  intros Hk0 Hr. pose proof (ok_nodup _ _ Hk0) as Hnd. pose proof (ok_pages _ _ Hk0) as Hpg.
  assert (Hinv : forall x y, rtc kstep x y ->
    (exists l, kmem_ok (fst x) l /\ l ++ snd x ≡ₚ l0) -> exists l, kmem_ok (fst y) l /\ l ++ snd y ≡ₚ l0).
  { induction 1 as [|[k1 A1] [k2 A2] z Hs _ IH]; [done|]. intros Hx. apply IH. by eapply kstep_inv. }
  destruct (Hinv _ _ Hr) as (l & Hk & Hp); [exists l0; simpl; by rewrite app_nil_r|].
  exists l. split; [done|]. split; [done|]. by rewrite Hp.
Qed.
End Kalloc.

(** A kernel ending at 0x80115000, with no free page and with one. *)
Definition demo_end : Z := 0x80115000.
Definition no_pages : kmem := mkKmem (fun _ => 0) false false 0.
Definition one_page : kmem := mkKmem (fun _ => 0) false true 0x80116000.

Lemma no_pages_ok : kmem_ok demo_end no_pages [].
Proof. split; simpl; [done|constructor|constructor|done]. Qed.

Lemma one_page_ok : kmem_ok demo_end one_page [0x80116000].
Proof.
  split; simpl; [done| |apply NoDup_singleton|done].
  repeat constructor; unfold demo_end, KERNBASE, PHYSTOP; lia.
Qed.

Example freerange_ok_witness :
  exists k', freerange demo_end 0x80115005 0x80118000 no_pages = (Ok tt, k')
    /\ kmem_ok demo_end k' [0x80117000; 0x80116000].
Proof.
  destruct (freerange_ok demo_end 0x80115005 0x80118000 no_pages [] no_pages_ok) as (k' & Hrun & Hk' & _);
    try (unfold demo_end, KERNBASE, PHYSTOP; lia).
  { intros v Hv. by apply elem_of_nil in Hv. }
  exists k'. split; [exact Hrun|exact Hk'].
Defined.

Example kalloc_conserves_witness :
  exists l, kmem_ok demo_end (set_freelist 0 one_page) l
    /\ l ++ [0x80116000] ≡ₚ [0x80116000] /\ NoDup (l ++ [0x80116000]).
Proof.
  apply (kalloc_conserves demo_end one_page [0x80116000] _ _ one_page_ok).
  apply rtc_once. exact (kstep_alloc demo_end one_page [] 0x80116000 _ eq_refl).
Defined.
