(* ===== verification/Vm.v ===== *)
(** Page tables: [src/vm.c].

    The state is that of the page allocator ([Kalloc.kmem]): kernel memory, in
    which the page directories and page tables live as the words the hardware
    walks, and the free list.  A pointer to a page table entry is its address.
    Messages to the console are left out.  [entry] reads the table as a map from
    virtual addresses to entries, and the theorems are about that map. *)

From Stdlib Require Import ZArith Lia.
From stdpp Require Import base list strings.
From S2P Require Import Prelude Kstring Spinlock Kalloc.
Local Open Scope Z_scope.

Definition PDX (va : Z) : Z := Z.land (Z.shiftr va 22) 0x3FF.
Definition PTX (va : Z) : Z := Z.land (Z.shiftr va 12) 0x3FF.
Definition PGADDR (d t o : Z) : Z := u32 (Z.lor (Z.lor (Z.shiftl d 22) (Z.shiftl t 12)) o).
Definition PTE_P : Z := 1.
Definition PTE_W : Z := 2.
Definition PTE_U : Z := 4.
Definition PTE_ADDR (pte : Z) : Z := Z.land pte (u32 (Z.lnot 0xFFF)).
Definition PTE_FLAGS (pte : Z) : Z := Z.land pte 0xFFF.
Definition NPDENTRIES : nat := 1024.
Definition EXTMEM : Z := 0x100000.
Definition DEVSPACE : Z := 0xFE000000.
Definition KERNLINK : Z := KERNBASE + EXTMEM.

Section Vm.
(** [end] and [data] of the kernel image, set by the linker. *)
Context (kend data : Z).

(** [*p] and [*p = w] for a pointer to a word. *)
Definition load (p : Z) : M kmem Z := gets (fun k => load32 (memory k) p).
Definition store (p w : Z) : M kmem unit := modify (fun k => set_memory (store32 (memory k) p w) k).
Definition fill (p c n : Z) : M kmem unit := modify (fun k => set_memory (memset (memory k) p c n) k).
Definition move (dst src n : Z) : M kmem unit := modify (fun k => set_memory (memmove (memory k) dst src n) k).

Definition walkpgdir (pgdir va : Z) (alloc : bool) : M kmem Z :=
  let pde := pgdir + 4 * PDX va in
  e <- load pde ;;
  if nz (Z.land e PTE_P) then ret (P2V (PTE_ADDR e) + 4 * PTX va)
  else if negb alloc then ret 0
  else
    pgtab <- kalloc ;;
    if pgtab =? 0 then ret 0 else
    fill pgtab 0 PGSIZE ;;
    store pde (Z.lor (Z.lor (Z.lor (V2P pgtab) PTE_P) PTE_W) PTE_U) ;;
    ret (pgtab + 4 * PTX va).

(** The loop of [mappages]; from [a] it reaches [last] in as many steps as there are
    pages between them. *)
Fixpoint mappages_loop (fuel : nat) (pgdir a last pa perm : Z) : M kmem Z :=
  match fuel with
  | O => spin
  | S n =>
      pte <- walkpgdir pgdir a true ;;
      if pte =? 0 then ret (-1) else
      e <- load pte ;;
      if nz (Z.land e PTE_P) then panic "remap" else
      store pte (Z.lor (Z.lor pa perm) PTE_P) ;;
      if a =? last then ret 0
      else mappages_loop n pgdir (u32 (a + PGSIZE)) last (u32 (pa + PGSIZE)) perm
  end.

Definition mappages (pgdir va size pa perm : Z) : M kmem Z :=
  let a := PGROUNDDOWN va in
  let last := PGROUNDDOWN (u32 (va + size - 1)) in
  mappages_loop (S (Z.to_nat (u32 (last - a) / PGSIZE))) pgdir a last pa perm.

(** The loop of [deallocuvm] from [a]. *)
Fixpoint deallocuvm_loop (fuel : nat) (pgdir a oldsz : Z) : M kmem unit :=
  match fuel with
  | O => spin
  | S n =>
      if a <? oldsz then
        pte <- walkpgdir pgdir a false ;;
        if pte =? 0 then deallocuvm_loop n pgdir (u32 (u32 (PGADDR (PDX a + 1) 0 0 - PGSIZE) + PGSIZE)) oldsz
        else
          e <- load pte ;;
          (if nz (Z.land e PTE_P) then
             let pa := PTE_ADDR e in
             if pa =? 0 then panic "kfree" else
             kfree kend (P2V pa) ;; store pte 0
           else ret tt) ;;
          deallocuvm_loop n pgdir (u32 (a + PGSIZE)) oldsz
      else ret tt
  end.

Definition deallocuvm (pgdir oldsz newsz : Z) : M kmem Z :=
  if oldsz <=? newsz then ret oldsz else
  let a := PGROUNDUP newsz in
  deallocuvm_loop (S (S (Z.to_nat ((oldsz - a) / PGSIZE)))) pgdir a oldsz ;;
  ret newsz.

(** [for(i = 0; i < NPDENTRIES; i++) ...] of [freevm], [n] entries from [i] on. *)
Fixpoint free_tables (pgdir i : Z) (n : nat) : M kmem unit :=
  match n with
  | O => ret tt
  | S k =>
      e <- load (pgdir + 4 * i) ;;
      (if nz (Z.land e PTE_P) then kfree kend (P2V (PTE_ADDR e)) else ret tt) ;;
      free_tables pgdir (i + 1) k
  end.

Definition freevm (pgdir : Z) : M kmem unit :=
  if pgdir =? 0 then panic "freevm: no pgdir" else
  deallocuvm pgdir KERNBASE 0 ;;
  free_tables pgdir 0 NPDENTRIES ;;
  kfree kend pgdir.

Record kmap := mkKmap { virt : Z; phys_start : Z; phys_end : Z; kperm : Z }.
Definition kmap_table : list kmap :=
  [mkKmap KERNBASE 0 EXTMEM PTE_W;
   mkKmap KERNLINK (V2P KERNLINK) (V2P data) 0;
   mkKmap data (V2P data) PHYSTOP PTE_W;
   mkKmap DEVSPACE DEVSPACE 0 PTE_W].

Fixpoint map_kernel (pgdir : Z) (l : list kmap) : M kmem Z :=
  match l with
  | [] => ret pgdir
  | k :: l' =>
      r <- mappages pgdir (virt k) (u32 (phys_end k - phys_start k)) (phys_start k) (kperm k) ;;
      if r <? 0 then freevm pgdir ;; ret 0 else map_kernel pgdir l'
  end.

Definition setupkvm : M kmem Z :=
  pgdir <- kalloc ;;
  if pgdir =? 0 then ret 0 else
  fill pgdir 0 PGSIZE ;;
  if DEVSPACE <? P2V PHYSTOP then panic "PHYSTOP too high" else
  map_kernel pgdir kmap_table.

(** [kvmalloc]: the kernel's own page table, which [switchkvm] loads. *)
Definition kvmalloc : M kmem (Z * Z) :=
  kpgdir <- setupkvm ;; ret (kpgdir, V2P kpgdir).

Definition inituvm (pgdir init sz : Z) : M kmem unit :=
  if PGSIZE <=? sz then panic "inituvm: more than a page" else
  page <- kalloc ;;
  fill page 0 PGSIZE ;;
  mappages pgdir 0 PGSIZE (V2P page) (Z.lor PTE_W PTE_U) ;;
  move page init sz.

(** [readi(ip, dst, off, n)] is the parameter [rd], on a state [S] of which the memory
    is a part. *)
Fixpoint loaduvm_loop {S} (onmem : forall A, M kmem A -> M S A) (fuel : nat) (rd : Z -> Z -> Z -> M S Z)
    (pgdir addr offset sz i : Z) : M S Z :=
  match fuel with
  | O => spin
  | Datatypes.S k =>
      if i <? sz then
        pte <- onmem _ (walkpgdir pgdir (u32 (addr + i)) false) ;;
        if pte =? 0 then panic "loaduvm: address should exist" else
        e <- onmem _ (load pte) ;;
        let pa := PTE_ADDR e in
        let n := if sz - i <? PGSIZE then sz - i else PGSIZE in
        r <- rd (P2V pa) (u32 (offset + i)) n ;;
        if negb (r =? n) then ret (-1) else loaduvm_loop onmem k rd pgdir addr offset sz (u32 (i + PGSIZE))
      else ret 0
  end.
Definition loaduvm {S} (onmem : forall A, M kmem A -> M S A) (rd : Z -> Z -> Z -> M S Z) (pgdir addr offset sz : Z) : M S Z :=
  if nz (addr mod PGSIZE) then panic "loaduvm: addr must be page aligned" else
  loaduvm_loop onmem (Datatypes.S (Datatypes.S (Z.to_nat (sz / PGSIZE)))) rd pgdir addr offset sz 0.

Fixpoint allocuvm_loop (fuel : nat) (pgdir oldsz newsz a : Z) : M kmem Z :=
  match fuel with
  | O => spin
  | S k =>
      if a <? newsz then
        page <- kalloc ;;
        if page =? 0 then deallocuvm pgdir newsz oldsz ;; ret 0 else
        fill page 0 PGSIZE ;;
        r <- mappages pgdir a PGSIZE (V2P page) (Z.lor PTE_W PTE_U) ;;
        if r <? 0 then deallocuvm pgdir newsz oldsz ;; kfree kend page ;; ret 0
        else allocuvm_loop k pgdir oldsz newsz (u32 (a + PGSIZE))
      else ret newsz
  end.
Definition allocuvm (pgdir oldsz newsz : Z) : M kmem Z :=
  if KERNBASE <=? newsz then ret 0 else
  if newsz <? oldsz then ret oldsz else
  let a := PGROUNDUP oldsz in
  allocuvm_loop (S (S (Z.to_nat ((newsz - a) / PGSIZE)))) pgdir oldsz newsz a.

Definition clearpteu (pgdir uva : Z) : M kmem unit :=
  pte <- walkpgdir pgdir uva false ;;
  if pte =? 0 then panic "clearpteu" else
  e <- load pte ;;
  store pte (Z.land e (u32 (Z.lnot PTE_U))).

Fixpoint copyuvm_loop (fuel : nat) (pgdir d sz i : Z) : M kmem Z :=
  match fuel with
  | O => spin
  | S k =>
      if i <? sz then
        pte <- walkpgdir pgdir i false ;;
        if pte =? 0 then panic "copyuvm: pte should exist" else
        e <- load pte ;;
        if negb (nz (Z.land e PTE_P)) then panic "copyuvm: page not present" else
        let pa := PTE_ADDR e in
        let flags := PTE_FLAGS e in
        page <- kalloc ;;
        if page =? 0 then freevm d ;; ret 0 else
        move page (P2V pa) PGSIZE ;;
        r <- mappages d i PGSIZE (V2P page) flags ;;
        if r <? 0 then kfree kend page ;; freevm d ;; ret 0
        else copyuvm_loop k pgdir d sz (u32 (i + PGSIZE))
      else ret d
  end.
Definition copyuvm (pgdir sz : Z) : M kmem Z :=
  d <- setupkvm ;;
  if d =? 0 then ret 0 else
  copyuvm_loop (S (S (Z.to_nat (sz / PGSIZE)))) pgdir d sz 0.

(** [uva2ka] follows the pointer [walkpgdir] returns without a test. *)
Definition uva2ka (pgdir uva : Z) : M kmem Z :=
  pte <- walkpgdir pgdir uva false ;;
  if pte =? 0 then ub "null page table entry" else
  e <- load pte ;;
  if negb (nz (Z.land e PTE_P)) then ret 0 else
  if negb (nz (Z.land e PTE_U)) then ret 0 else
  ret (P2V (PTE_ADDR e)).

Fixpoint copyout_loop (fuel : nat) (pgdir va buf len : Z) : M kmem Z :=
  match fuel with
  | O => spin
  | S k =>
      if 0 <? len then
        let va0 := PGROUNDDOWN va in
        pa0 <- uva2ka pgdir va0 ;;
        if pa0 =? 0 then ret (-1) else
        let n := PGSIZE - (va - va0) in
        let n := if len <? n then len else n in
        move (pa0 + (va - va0)) buf n ;;
        copyout_loop k pgdir (u32 (va0 + PGSIZE)) (buf + n) (len - n)
      else ret 0
  end.
Definition copyout (pgdir va p len : Z) : M kmem Z :=
  copyout_loop (S (S (S (Z.to_nat (len / PGSIZE))))) pgdir va p len.
End Vm.

(** ** Arithmetic of virtual addresses and entries *)

Definition vaddr (va : Z) : Prop := 0 <= va < 2 ^ 32.

Lemma PDX_div va : vaddr va -> PDX va = va / 2 ^ 22 /\ 0 <= PDX va < 1024.
Proof.
  unfold vaddr. intros H. unfold PDX. rewrite Z.shiftr_div_pow2 by lia.
  change 0x3FF with (Z.ones 10). rewrite Z.land_ones by lia.
  assert (0 <= va / 2 ^ 22 < 2 ^ 10) by (split; [apply Z.div_pos; lia|apply Z.div_lt_upper_bound; lia]).
  rewrite Z.mod_small by lia. lia.
Qed.

Lemma PTX_div va : PTX va = (va / 4096) mod 1024 /\ 0 <= PTX va < 1024.
Proof.
  unfold PTX. rewrite Z.shiftr_div_pow2 by lia. change 0x3FF with (Z.ones 10). rewrite Z.land_ones by lia.
  change (2 ^ 12) with 4096. change (2 ^ 10) with 1024. pose proof (Z.mod_pos_bound (va / 4096) 1024 ltac:(lia)). lia.
Qed.

(** An entry is determined by the page. *)
Lemma same_page va va' : vaddr va -> vaddr va' ->
  (PDX va = PDX va' /\ PTX va = PTX va') <-> va / 4096 = va' / 4096.
Proof.
  intros H H'. destruct (PDX_div va H) as [-> _], (PDX_div va' H') as [-> _], (PTX_div va) as [-> _], (PTX_div va') as [-> _].
  change (2 ^ 22) with (4096 * 1024). rewrite <- !Z.div_div by lia.
  pose proof (Z.div_mod (va / 4096) 1024 ltac:(lia)). pose proof (Z.div_mod (va' / 4096) 1024 ltac:(lia)).
  split; [lia|intros ->; done].
Qed.

Lemma lor_low a f : a mod 4096 = 0 -> 0 <= f < 4096 -> Z.lor a f = a + f.
Proof.
  intros Ha Hf. symmetry. apply Z.add_nocarry_lor. apply Z.bits_inj'. intros n Hn. rewrite Z.land_spec, Z.bits_0.
  destruct (Z.ltb_spec n 12).
  - replace (Z.testbit a n) with false; [done|]. apply Z.mod_divide in Ha as [q ->]; [|lia].
    change 4096 with (2 ^ 12). symmetry. apply Z.mul_pow2_bits_low. lia.
  - replace (Z.testbit f n) with false; [apply andb_false_r|]. symmetry.
    destruct (Z.eqb_spec f 0) as [->|]; [apply Z.bits_0|]. apply Z.bits_above_log2; [lia|].
    apply Z.log2_lt_pow2; [lia|]. assert (2 ^ 12 <= 2 ^ n) by (apply Z.pow_le_mono_r; lia). lia.
Qed.

Lemma PTE_ADDR_clear e : 0 <= e < 2 ^ 32 -> PTE_ADDR e = e - e mod 4096.
Proof. intros H. unfold PTE_ADDR. change 0xFFF with (2 ^ 12 - 1). by rewrite (land_clear_low _ 12) by lia. Qed.

Lemma PTE_ADDR_make a f : a mod 4096 = 0 -> 0 <= f < 4096 -> 0 <= a + f < 2 ^ 32 -> PTE_ADDR (a + f) = a.
Proof.
  intros Ha Hf Hr. rewrite PTE_ADDR_clear by done. apply Z.mod_divide in Ha as [q ->]; [|lia].
  rewrite Z.add_comm, Z_mod_plus_full, (Z.mod_small f) by lia. lia.
Qed.

Lemma present_odd e : nz (Z.land e PTE_P) = Z.odd e.
Proof.
  unfold nz, PTE_P. change 1 with (2 ^ 0) at 1. rewrite land_pow2 by lia. rewrite negb_involutive. apply Z.bit0_odd.
Qed.

(** ** The table as a map *)

Definition present (k : kmem) (pgdir i : Z) : bool := nz (Z.land (load32 (memory k) (pgdir + 4 * i)) PTE_P).
Definition tab (k : kmem) (pgdir i : Z) : Z := P2V (PTE_ADDR (load32 (memory k) (pgdir + 4 * i))).

(** The entry for an address; 0 when there is no page table for it. *)
Definition entry (k : kmem) (pgdir va : Z) : Z :=
  if present k pgdir (PDX va) then load32 (memory k) (tab k pgdir (PDX va) + 4 * PTX va) else 0.

Section Tables.
Context (kend : Z).

Definition in_page (p x : Z) : Prop := p <= x < p + PGSIZE.

(** The directory and the tables it points to are pages of their own, not free
    and not shared. *)
Record pt_ok (k : kmem) (pgdir : Z) (l : list Z) : Prop := mkPtOk {
  pt_mem : kmem_ok kend k l;
  pt_dir : page_ok kend pgdir;
  pt_used : pgdir ∉ l;
  pt_tab : forall i, 0 <= i < 1024 -> present k pgdir i = true ->
             page_ok kend (tab k pgdir i) /\ tab k pgdir i <> pgdir /\ (tab k pgdir i ∉ l);
  pt_inj : forall i j, 0 <= i < 1024 -> 0 <= j < 1024 -> present k pgdir i = true -> present k pgdir j = true ->
             tab k pgdir i = tab k pgdir j -> i = j;
}.

Lemma in_word p i x : 0 <= i < 1024 -> p + 4 * i <= x < p + 4 * i + 4 -> in_page p x.
Proof. unfold in_page, PGSIZE. lia. Qed.

Lemma apart a b x : page_ok kend a -> page_ok kend b -> a <> b -> in_page a x -> ~ in_page b x.
Proof. apply pages_apart. Qed.

(** Entries read the same when the directory's words and the tables' bytes do. *)
Lemma entry_ext k k' pgdir va : vaddr va ->
  load32 (memory k') (pgdir + 4 * PDX va) = load32 (memory k) (pgdir + 4 * PDX va) ->
  (present k pgdir (PDX va) = true -> forall x, in_page (tab k pgdir (PDX va)) x -> memory k' x = memory k x) ->
  entry k' pgdir va = entry k pgdir va.
Proof.
  intros Hva Hd Ht. unfold entry, present, tab in *. rewrite Hd. destruct (nz _); [|done].
  apply load32_ext. intros x Hx. apply Ht; [done|]. eapply in_word; [|exact Hx]. apply PTX_div.
Qed.

Lemma kmem_ok_ext k k' l :
  kmem_ok kend k l -> freelist k' = freelist k -> klock k' = klock k ->
  (forall a x, a ∈ l -> in_page a x -> memory k' x = memory k x) -> kmem_ok kend k' l.
Proof.
  intros [Hc Hp Hn Hl] Hf Hk Hm. split; [|done|done|congruence]. rewrite Hf. apply (chain_ext (memory k)); [|done].
  intros a x Ha Hx. apply (Hm a); [done|]. unfold in_page, PGSIZE. lia.
Qed.

(** *** Walking the table *)

Lemma walk_present k pgdir va alloc :
  present k pgdir (PDX va) = true ->
  walkpgdir pgdir va alloc k = (Ok (tab k pgdir (PDX va) + 4 * PTX va), k).
Proof. intros H. unfold walkpgdir, load. mrun. unfold present in H. rewrite H. done. Qed.

Lemma walk_absent k pgdir va : present k pgdir (PDX va) = false -> walkpgdir pgdir va false k = (Ok 0, k).
Proof. intros H. unfold walkpgdir, load. mrun. unfold present in H. by rewrite H. Qed.

Definition pde_of (t : Z) : Z := Z.lor (Z.lor (Z.lor (V2P t) PTE_P) PTE_W) PTE_U.

Lemma pde_of_page t : page_ok kend t -> pde_of t = V2P t + 7 /\ 0 <= pde_of t < 2 ^ 32
  /\ nz (Z.land (pde_of t) PTE_P) = true /\ P2V (PTE_ADDR (pde_of t)) = t.
Proof.
  intros (Hm & _ & Hr). unfold KERNBASE, PHYSTOP, PGSIZE in *.
  assert (HV : V2P t = t - 0x80000000) by (unfold V2P, KERNBASE; apply u32_id; lia).
  assert (HVm : V2P t mod 4096 = 0).
  { rewrite HV. apply Z.mod_divide in Hm as [q ->]; [|lia]. replace (q * 4096 - 0x80000000) with ((q - 0x80000) * 4096) by lia.
    apply Z.mod_mul. lia. }
  assert (E : pde_of t = V2P t + 7).
  { unfold pde_of. rewrite <- !Z.lor_assoc. change (Z.lor PTE_P (Z.lor PTE_W PTE_U)) with 7. apply lor_low; lia. }
  rewrite E. split; [done|]. split; [lia|]. split.
  - rewrite present_odd, Z.odd_add. replace (Z.odd (V2P t)) with false; [done|].
    apply Z.mod_divide in HVm as [q ->]; [|lia]. by rewrite Z.odd_mul, andb_false_r.
  - rewrite PTE_ADDR_make by lia. unfold P2V, KERNBASE. rewrite HV, u32_id; lia.
Qed.

(** A zeroed page [t] becomes the table for directory index [i]. *)
Definition installed (k : kmem) (pgdir i t : Z) : kmem :=
  set_memory (store32 (memset (memory k) t 0 PGSIZE) (pgdir + 4 * i) (pde_of t)) k.

Lemma installed_other k pgdir i t x : 0 <= i < 1024 ->
  ~ in_page pgdir x -> ~ in_page t x -> memory (installed k pgdir i t) x = memory k x.
Proof.
  unfold in_page, PGSIZE. intros Hi H1 H2. cbn. rewrite store32_other by lia. rewrite memset_spec by (unfold PGSIZE; lia).
  unfold PGSIZE. zcases; cbn; lia || done.
Qed.

Lemma installed_dir k pgdir i t j : page_ok kend pgdir -> page_ok kend t -> pgdir <> t -> 0 <= i < 1024 -> 0 <= j < 1024 ->
  load32 (memory (installed k pgdir i t)) (pgdir + 4 * j) = if i =? j then pde_of t else load32 (memory k) (pgdir + 4 * j).
Proof.
  intros Hp Ht Hne Hi Hj. destruct (pde_of_page t Ht) as (_ & Hr & _). cbn. destruct (Z.eqb_spec i j) as [->|Hij].
  - by rewrite load32_store32, u32_id.
  - apply load32_ext. intros x Hx. rewrite store32_other by lia. rewrite memset_spec by (unfold PGSIZE; lia).
    pose proof (apart pgdir t x Hp Ht Hne ltac:(eapply in_word; [exact Hj|lia])) as Hn. unfold in_page, PGSIZE in *.
    zcases; cbn; lia || done.
Qed.

Lemma installed_zero k pgdir i t x : page_ok kend pgdir -> page_ok kend t -> pgdir <> t -> 0 <= i < 1024 ->
  in_page t x -> memory (installed k pgdir i t) x = 0.
Proof.
  intros Hp Ht Hne Hi Hx. pose proof (apart t pgdir x Ht Hp (not_eq_sym Hne) Hx) as Hn. cbn.
  unfold in_page, PGSIZE in *. rewrite store32_other by lia. rewrite memset_spec by (unfold PGSIZE; lia).
  unfold PGSIZE. zcases; cbn; lia || done.
Qed.

Lemma installed_ok k pgdir i t l : 0 <= i < 1024 ->
  pt_ok k pgdir l -> t ∉ l -> page_ok kend t -> t <> pgdir -> present k pgdir i = false ->
  (forall j, 0 <= j < 1024 -> present k pgdir j = true -> tab k pgdir j <> t) ->
  let k' := installed k pgdir i t in
  pt_ok k' pgdir l /\ present k' pgdir i = true /\ tab k' pgdir i = t
  /\ (forall va, vaddr va -> entry k' pgdir va = entry k pgdir va).
Proof.
  intros Hi [Hk Hd Hu Htb Hinj] Htl Ht Hne Habs Hfresh k'.
  assert (Hdir := fun j => installed_dir k pgdir i t j Hd Ht (not_eq_sym Hne) Hi).
  destruct (pde_of_page t Ht) as (_ & _ & Hpres & Haddr).
  assert (Hpi : present k' pgdir i = true) by (unfold present, k'; rewrite Hdir, Z.eqb_refl by lia; done).
  assert (Hti : tab k' pgdir i = t) by (unfold tab, k'; rewrite Hdir, Z.eqb_refl by lia; done).
  assert (Hpj : forall j, 0 <= j < 1024 -> j <> i -> present k' pgdir j = present k pgdir j)
    by (intros j Hj Hji; unfold present, k'; rewrite Hdir, (proj2 (Z.eqb_neq i j)) by lia; done).
  assert (Htj : forall j, 0 <= j < 1024 -> j <> i -> tab k' pgdir j = tab k pgdir j)
    by (intros j Hj Hji; unfold tab, k'; rewrite Hdir, (proj2 (Z.eqb_neq i j)) by lia; done).
  split; [split|split; [done|split; [done|]]].
  - apply (kmem_ok_ext k); [done|done|done|]. intros a x Ha Hx.
    assert (Hpa : page_ok kend a) by (pose proof (ok_pages _ _ _ Hk) as HF; rewrite Forall_forall in HF; by apply HF).
    apply installed_other; [done|apply (apart a); [done|done|by intros ->|done]|apply (apart a); [done|done|by intros ->|done]].
  - done.
  - done.
  - intros j Hj Hp. destruct (Z.eq_dec j i) as [->|Hji]; [by rewrite Hti|].
    rewrite Htj by done. rewrite Hpj in Hp by done. by apply Htb.
  - intros j j' Hj Hj' Hp Hp' Heq. destruct (Z.eq_dec j i) as [->|Hji], (Z.eq_dec j' i) as [->|Hji']; [done| | |].
    + rewrite Hti, Htj in Heq by done. rewrite Hpj in Hp' by done. exfalso. by apply (Hfresh j').
    + rewrite Hti, Htj in Heq by done. rewrite Hpj in Hp by done. exfalso. by apply (Hfresh j).
    + rewrite !Htj in Heq by done. rewrite Hpj in Hp by done. rewrite Hpj in Hp' by done. by apply Hinj.
  - intros va Hva. destruct (PDX_div va Hva) as [_ Hpdx]. destruct (Z.eq_dec (PDX va) i) as [E|E].
    + unfold entry. rewrite E, Hpi, Hti, Habs. unfold load32.
      assert (Hz : forall x, t + 4 * PTX va <= x < t + 4 * PTX va + 4 -> memory k' x = 0).
      { intros x Hx. apply installed_zero; [done|done|congruence|done|]. eapply in_word; [apply PTX_div|exact Hx]. }
      by rewrite !Hz by lia.
    + apply entry_ext; [done| |].
      * unfold k'. by rewrite Hdir, (proj2 (Z.eqb_neq i (PDX va))) by lia.
      * intros Hp x Hx. destruct (Htb (PDX va) Hpdx Hp) as (H1 & H2 & H3).
        apply installed_other; [done|by apply (apart (tab k pgdir (PDX va)))|]. apply (apart (tab k pgdir (PDX va))); [done|done|by apply Hfresh|done].
Qed.

(** [walkpgdir] with [alloc]: it may use the head of the free list for a table, and
    the map does not change. *)
Lemma walk_alloc k pgdir va l : pt_ok k pgdir l -> vaddr va ->
  exists r k' l', walkpgdir pgdir va true k = (Ok r, k') /\ pt_ok k' pgdir l' /\ (exists u, l = u ++ l')
    /\ (forall va', vaddr va' -> entry k' pgdir va' = entry k pgdir va')
    /\ (forall x, ~ in_page pgdir x -> (forall t, t ∈ l -> ~ in_page t x) -> memory k' x = memory k x)
    /\ ((r = 0 /\ l' = []) \/ (r <> 0 /\ present k' pgdir (PDX va) = true /\ r = tab k' pgdir (PDX va) + 4 * PTX va)).
Proof.
  intros Hpt Hva. destruct (PDX_div va Hva) as [_ Hpdx]. destruct (PTX_div va) as [_ Hptx].
  destruct (present k pgdir (PDX va)) eqn:Hp.
  - exists (tab k pgdir (PDX va) + 4 * PTX va), k, l. split; [by apply walk_present|]. split; [done|].
    split; [by exists []|]. split; [done|]. split; [done|]. right. split; [|done].
    destruct (pt_tab _ _ _ Hpt _ Hpdx Hp) as ((_ & _ & Hr) & _). unfold KERNBASE in Hr. lia.
  - assert (Hrun : forall a k1, kalloc k = (Ok a, k1) -> walkpgdir pgdir va true k =
              if a =? 0 then (Ok 0, k1) else (Ok (a + 4 * PTX va), installed k1 pgdir (PDX va) a)).
    { intros a k1 Ha. unfold walkpgdir, load. unfold bind at 1, gets. unfold present in Hp. rewrite Hp. cbn [negb].
      rewrite (bind_ok _ _ _ _ _ Ha). by destruct (a =? 0). }
    destruct (kalloc_ok kend k l (pt_mem _ _ _ Hpt)) as (k1 & Ha & Hk1 & Hm1 & _). specialize (Hrun _ _ Ha).
    assert (He : forall va', entry k1 pgdir va' = entry k pgdir va') by (intros va'; unfold entry, present, tab; by rewrite Hm1).
    assert (Hpt1 : forall l', (forall t, t ∈ l' -> t ∈ l) -> kmem_ok kend k1 l' -> pt_ok k1 pgdir l').
    { intros l' Hsub Hk'. destruct Hpt as [_ Hd Hu Htb Hinj]. split; try done.
      - intros Hin. by apply Hu, Hsub.
      - intros i Hi Hpi. unfold present, tab in *. rewrite Hm1 in *. destruct (Htb i Hi Hpi) as (? & ? & Hn).
        split; [done|]. split; [done|]. intros Hin. by apply Hn, Hsub.
      - intros i j. unfold present, tab. rewrite Hm1. apply Hinj. }
    destruct l as [|t l]; cbn in Ha, Hk1, Hrun.
    + exists 0, k1, []. split; [exact Hrun|]. split; [by apply Hpt1|]. split; [by exists []|]. split; [done|].
      split; [by rewrite Hm1|]. left. done.
    + pose proof (ok_pages _ _ _ (pt_mem _ _ _ Hpt)) as HF. apply Forall_cons_1 in HF as [Ht _].
      pose proof (ok_nodup _ _ _ (pt_mem _ _ _ Hpt)) as Hnd. apply NoDup_cons in Hnd as [Htl _].
      assert (Ht0 : 0 < t) by (destruct Ht as (_ & _ & Hr); unfold KERNBASE in Hr; lia).
      rewrite (proj2 (Z.eqb_neq t 0)) in Hrun by lia.
      destruct (installed_ok k1 pgdir (PDX va) t l Hpdx) as (H1 & H2 & H3 & H4); [|done|done| | | |].
      * apply Hpt1; [by intros; right|done].
      * intros ->. apply (pt_used _ _ _ Hpt). left.
      * unfold present in *. by rewrite Hm1.
      * intros j Hj Hpj. unfold present, tab in *. rewrite Hm1 in *. intros Heq.
        destruct (pt_tab _ _ _ Hpt j Hj Hpj) as (_ & _ & Hn). apply Hn. unfold tab. rewrite Heq. left.
      * exists (t + 4 * PTX va), (installed k1 pgdir (PDX va) t), l. split; [exact Hrun|]. split; [done|].
        split; [by exists [t]|]. split; [intros va' Hva'; by rewrite H4, He|]. split.
        -- intros x Hx1 Hx2. rewrite installed_other; [by rewrite Hm1|done|done|]. apply Hx2. left.
        -- right. split; [lia|]. split; [done|]. by rewrite H3.
Qed.

(** Storing an entry changes that entry. *)
Definition with_entry (k : kmem) (pgdir va w : Z) : kmem :=
  set_memory (store32 (memory k) (tab k pgdir (PDX va) + 4 * PTX va) w) k.

Lemma with_entry_ok k pgdir va l w :
  pt_ok k pgdir l -> vaddr va -> present k pgdir (PDX va) = true ->
  let k' := with_entry k pgdir va w in
  pt_ok k' pgdir l
  /\ (forall va', vaddr va' -> entry k' pgdir va' = if va' / 4096 =? va / 4096 then u32 w else entry k pgdir va')
  /\ (forall x, ~ in_page (tab k pgdir (PDX va)) x -> memory k' x = memory k x).
Proof.
  intros Hpt Hva Hp k'. destruct (PDX_div va Hva) as [_ Hpdx]. destruct (PTX_div va) as [_ Hptx].
  destruct (pt_tab _ _ _ Hpt _ Hpdx Hp) as (Htp & Htd & Htl). set (t := tab k pgdir (PDX va)) in *.
  assert (Hout : forall x, ~ in_page t x -> memory k' x = memory k x).
  { intros x Hx. cbn. apply store32_other. fold t. intros Hin. apply Hx. by eapply in_word. }
  assert (Hdir : forall j, 0 <= j < 1024 -> load32 (memory k') (pgdir + 4 * j) = load32 (memory k) (pgdir + 4 * j)).
  { intros j Hj. apply load32_ext. intros x Hx. apply Hout, (apart pgdir); [apply Hpt|done|congruence|by eapply in_word]. }
  assert (Hpj : forall j, 0 <= j < 1024 -> present k' pgdir j = present k pgdir j) by (intros j Hj; unfold present; by rewrite Hdir).
  assert (Htj : forall j, 0 <= j < 1024 -> tab k' pgdir j = tab k pgdir j) by (intros j Hj; unfold tab; by rewrite Hdir).
  split; [|split; [|done]].
  - destruct Hpt as [Hk Hd Hu Htb Hinj]. split; [|done|done| |].
    + apply (kmem_ok_ext k); [done|done|done|]. intros a x Ha Hx. apply Hout, (apart a); [|done|by intros ->|done].
      pose proof (ok_pages _ _ _ Hk) as HF. rewrite Forall_forall in HF. by apply HF.
    + intros j Hj Hpr. rewrite Hpj in Hpr by done. rewrite Htj by done. by apply Htb.
    + intros i j Hi Hj H1 H2. rewrite !Htj by done. rewrite Hpj in H1, H2 by done. by apply Hinj.
  - intros va' Hva'. destruct (PDX_div va' Hva') as [_ Hpdx']. destruct (PTX_div va') as [_ Hptx'].
    destruct (Z.eqb_spec (va' / 4096) (va / 4096)) as [E|E].
    + apply same_page in E as [E1 E2]; [|done|done]. unfold entry. rewrite E1, E2, Hpj, Hp, Htj by done. fold t.
      cbn. fold t. apply load32_store32.
    + unfold entry. rewrite Hpj by done. destruct (present k pgdir (PDX va')) eqn:Hp'; [|done]. rewrite Htj by done.
      apply load32_ext. intros x Hx. cbn. apply store32_other. fold t. intros Hin.
      destruct (Z.eq_dec (PDX va') (PDX va)) as [E1|E1].
      * apply E, same_page; [done|done|]. rewrite E1 in Hx. fold t in Hx. split; [done|]. lia.
      * assert (Hne : tab k pgdir (PDX va') <> t) by (intros Heq; apply E1, (pt_inj _ _ _ Hpt); done).
        destruct (pt_tab _ _ _ Hpt _ Hpdx' Hp') as (Htp' & _).
        apply (apart (tab k pgdir (PDX va')) t x Htp' Htp Hne); [eapply in_word; [exact Hptx'|exact Hx]|eapply in_word; [exact Hptx|exact Hin]].
Qed.

(** *** Mapping a range *)

Definition pte_of (pa perm : Z) : Z := Z.lor (Z.lor pa perm) PTE_P.

(** The map after [m] pages from [a] have been mapped to physical pages from [pa]. *)
Definition mapped_to (k : kmem) (pgdir a pa perm m va : Z) : Z :=
  let i := va / 4096 - a / 4096 in
  if (0 <=? i) && (i <? m) then u32 (pte_of (pa + i * 4096) perm) else entry k pgdir va.

Lemma mapped_to_step k k2 pgdir a pa perm m va : 0 <= m -> vaddr va ->
  (forall v, vaddr v -> entry k2 pgdir v = if v / 4096 =? a / 4096 then u32 (pte_of pa perm) else entry k pgdir v) ->
  mapped_to k2 pgdir (a + PGSIZE) (pa + PGSIZE) perm m va = mapped_to k pgdir a pa perm (m + 1) va.
Proof.
  intros Hm Hv He. unfold mapped_to. assert (Ha' : (a + PGSIZE) / 4096 = a / 4096 + 1) by (unfold PGSIZE; replace (a + 4096) with (a + 1 * 4096) by lia; apply Z.div_add; lia).
  rewrite Ha', He by done. destruct (Z.eqb_spec (va / 4096) (a / 4096)) as [E|E].
  - rewrite E. rewrite (proj2 (Z.leb_gt 0 (a / 4096 - (a / 4096 + 1)))) by lia. cbn [andb].
    rewrite Z.sub_diag, (proj2 (Z.leb_le 0 0)), (proj2 (Z.ltb_lt 0 (m + 1))) by lia. cbn [andb]. by rewrite Z.mul_0_l, Z.add_0_r.
  - set (d := va / 4096 - a / 4096). replace (va / 4096 - (a / 4096 + 1)) with (d - 1) by lia.
    replace (0 <=? d - 1) with (0 <=? d) by (destruct (Z.leb_spec 0 d), (Z.leb_spec 0 (d - 1)); lia || done).
    replace (d - 1 <? m) with (d <? m + 1) by (destruct (Z.ltb_spec d (m + 1)), (Z.ltb_spec (d - 1) m); lia || done).
    destruct ((0 <=? d) && (d <? m + 1)); [|done]. f_equal. f_equal. unfold PGSIZE. lia.
Qed.

Lemma mapped_to_one k k2 pgdir a pa perm va :
  entry k2 pgdir va = (if va / 4096 =? a / 4096 then u32 (pte_of pa perm) else entry k pgdir va) ->
  entry k2 pgdir va = mapped_to k pgdir a pa perm 1 va.
Proof.
  intros ->. unfold mapped_to. destruct (Z.eqb_spec (va / 4096) (a / 4096)) as [E|E].
  - rewrite (proj2 (Z.leb_le _ _)), (proj2 (Z.ltb_lt _ _)) by lia. cbn [andb]. rewrite E, Z.sub_diag, Z.mul_0_l, Z.add_0_r. done.
  - destruct (Z.leb_spec 0 (va / 4096 - a / 4096)); cbn [andb]; [|done]. by rewrite (proj2 (Z.ltb_ge _ _)) by lia.
Qed.

Lemma mappages_loop_ok perm pgdir : forall n fuel k l a pa,
  pt_ok k pgdir l -> a mod 4096 = 0 -> 0 <= a -> (0 < n <= fuel)%nat ->
  a + Z.of_nat n * 4096 <= 2 ^ 32 -> 0 <= pa -> pa + Z.of_nat n * 4096 <= 2 ^ 32 ->
  (forall i, 0 <= i < Z.of_nat n -> Z.odd (entry k pgdir (a + i * 4096)) = false) ->
  exists r k' l' m, mappages_loop fuel pgdir a (a + (Z.of_nat n - 1) * 4096) pa perm k = (Ok r, k')
    /\ pt_ok k' pgdir l' /\ (exists u, l = u ++ l')
    /\ ((r = 0 /\ m = Z.of_nat n) \/ (r = -1 /\ l' = [] /\ 0 <= m < Z.of_nat n))
    /\ (forall va, vaddr va -> entry k' pgdir va = mapped_to k pgdir a pa perm m va).
Proof.
  induction n as [|n IH]; intros [|fuel] k l a pa Hpt Ham Ha Hn Hend Hpa Hpend Hfree; try lia. cbn [mappages_loop].
  assert (Hva : vaddr a) by (unfold vaddr; lia).
  destruct (walk_alloc k pgdir a l Hpt Hva) as (r & k1 & l1 & Hrun & Hpt1 & [u Hu] & He1 & _ & Hr).
  rewrite (bind_ok _ _ _ _ _ Hrun). destruct Hr as [[-> ->]|(Hr0 & Hp1 & Hr)].
  { exists (-1), k1, [], 0. split; [done|]. split; [done|]. split; [by exists u|]. split; [right; split; [done|]; split; [done|lia]|].
    intros va Hv. rewrite He1 by done. unfold mapped_to. destruct (0 <=? _) eqn:E; cbn [andb]; [|done].
    rewrite (proj2 (Z.ltb_ge _ _)) by lia. done. }
  rewrite (proj2 (Z.eqb_neq r 0) Hr0). unfold load. unfold bind at 1, gets.
  assert (Hload : load32 (memory k1) r = entry k1 pgdir a) by (unfold entry; rewrite Hp1, Hr; done).
  rewrite Hload, He1, present_odd by done.
  pose proof (Hfree 0 ltac:(lia)) as H0. rewrite Z.mul_0_l, Z.add_0_r in H0. rewrite H0. clear H0.
  unfold store. unfold bind at 1, modify. rewrite Hr. fold (pte_of pa perm). fold (with_entry k1 pgdir a (pte_of pa perm)).
  destruct (with_entry_ok k1 pgdir a l1 (pte_of pa perm) Hpt1 Hva Hp1) as (Hpt2 & He2 & _).
  set (k2 := with_entry k1 pgdir a (pte_of pa perm)) in *.
  assert (Hdm : forall j, (a + j * 4096) / 4096 = a / 4096 + j) by (intros j; apply Z.div_add; lia).
  destruct (Z.eqb_spec a (a + (Z.of_nat (S n) - 1) * 4096)) as [Elast|Elast].
  - assert (n = 0%nat) as -> by lia. exists 0, k2, l1, 1. split; [done|]. split; [done|]. split; [by exists u|]. split; [left; lia|].
    intros va Hv. apply mapped_to_one. by rewrite He2, He1.
  - rewrite !u32_id by (unfold PGSIZE; lia). replace (a + (Z.of_nat (S n) - 1) * 4096) with (a + PGSIZE + (Z.of_nat n - 1) * 4096) by (unfold PGSIZE; lia).
    destruct (IH fuel k2 l1 (a + PGSIZE) (pa + PGSIZE)) as (r' & k3 & l3 & m & Hrun3 & Hpt3 & [u3 Hu3] & Hres & He3);
      [done| |unfold PGSIZE; lia|lia|unfold PGSIZE; lia|unfold PGSIZE; lia|unfold PGSIZE; lia| |].
    + unfold PGSIZE. replace (a + 4096) with (a + 1 * 4096) by lia. by rewrite Z_mod_plus_full.
    + intros i Hi. rewrite He2, He1 by (unfold vaddr, PGSIZE; lia).
      replace (a + PGSIZE + i * 4096) with (a + (i + 1) * 4096) by (unfold PGSIZE; lia).
      rewrite Hdm, (proj2 (Z.eqb_neq _ _)) by lia. apply Hfree. lia.
    + exists r', k3, l3, (m + 1). split; [done|]. split; [done|]. split; [exists (u ++ u3); by rewrite <- app_assoc, <- Hu3|].
      split; [destruct Hres as [[-> ->]|(-> & -> & ?)]; [left; lia|right; split; [done|]; split; [done|lia]]|].
      intros va Hv. rewrite He3 by done. apply mapped_to_step; [destruct Hres as [[_ ->]|(_ & _ & ?)]; lia|done|]. intros v Hv'. by rewrite He2, He1.
Qed.

Lemma PGROUNDDOWN_div a : 0 <= a < 2 ^ 32 -> PGROUNDDOWN a = a / 4096 * 4096.
Proof.
  intros H. unfold PGROUNDDOWN, PGSIZE. change 4096 with (2 ^ 12) at 1. rewrite (land_clear_low _ 12) by lia.
  change (2 ^ 12) with 4096. pose proof (Z.div_mod a 4096 ltac:(lia)). lia.
Qed.
End Tables.

(** [mappages] on a range of virtual addresses none of which is mapped.  It
    returns; when it returns 0 the entry of every page of the range is the physical
    page at the same offset with the permissions asked for, and no other entry
    has changed; when it returns -1 the allocator is out of pages and a prefix of
    the range has been mapped.  The directory and its tables stay pages of
    their own that are neither free nor shared. *)
Theorem mappages_maps kend k pgdir l va size pa perm :
  pt_ok kend k pgdir l -> 0 <= va -> 0 < size -> va + size <= 2 ^ 32 -> 0 <= pa ->
  let n := (va + size - 1) / 4096 - va / 4096 + 1 in
  pa + n * 4096 <= 2 ^ 32 ->
  (forall v, va / 4096 <= v / 4096 <= (va + size - 1) / 4096 -> Z.odd (entry k pgdir v) = false) ->
  exists r k' l' m, mappages pgdir va size pa perm k = (Ok r, k')
    /\ pt_ok kend k' pgdir l' /\ (exists u, l = u ++ l')
    /\ ((r = 0 /\ m = n) \/ (r = -1 /\ l' = [] /\ 0 <= m < n))
    /\ (forall v, vaddr v -> entry k' pgdir v = mapped_to k pgdir va pa perm m v).
Proof.
  intros Hpt Hva Hsz Hend Hpa n Hpend Hfree. unfold mappages.
  rewrite (u32_id (va + size - 1)), !PGROUNDDOWN_div by lia.
  assert (Hle : va / 4096 <= (va + size - 1) / 4096) by (apply Z.div_le_mono; lia).
  assert (Htop : (va + size - 1) / 4096 < 2 ^ 20) by (apply Z.div_lt_upper_bound; lia).
  assert (Hlo : 0 <= va / 4096) by (apply Z.div_pos; lia).
  set (a := va / 4096 * 4096). assert (Ha : a / 4096 = va / 4096) by (unfold a; apply Z.div_mul; lia).
  replace ((va + size - 1) / 4096 * 4096) with (a + (Z.of_nat (Z.to_nat n) - 1) * 4096) by (unfold n, a; lia).
  rewrite u32_id by (unfold n, a; lia).
  destruct (mappages_loop_ok kend perm pgdir (Z.to_nat n)
              (S (Z.to_nat ((a + (Z.of_nat (Z.to_nat n) - 1) * 4096 - a) / PGSIZE))) k l a pa)
    as (r & k' & l' & m & Hrun & Hpt' & Hu & Hres & He); [done|unfold a; apply Z.mod_mul; lia|unfold a; lia| |unfold n, a; lia|done|unfold n; lia| |].
  - split; [unfold n; lia|]. replace (a + (Z.of_nat (Z.to_nat n) - 1) * 4096 - a) with ((n - 1) * PGSIZE) by (unfold PGSIZE, n; lia).
    rewrite Z.div_mul by (unfold PGSIZE; lia). unfold n. lia.
  - intros i Hi. apply Hfree. rewrite Z.div_add by lia. unfold n in Hi. lia.
  - exists r, k', l', m. split; [done|]. split; [done|]. split; [done|]. 
    split; [destruct Hres as [[-> ->]|(-> & -> & ?)]; [left; lia|right; split; [done|]; split; [done|lia]]|].
    intros v Hv. rewrite He by done. unfold mapped_to. by rewrite Ha.
Qed.

(** ** User memory *)

Section User.
Context (kend : Z).

(** A user address: present and open to user mode. *)
Definition accessible (k : kmem) (pgdir va : Z) : Prop :=
  present k pgdir (PDX va) = true /\ nz (Z.land (entry k pgdir va) PTE_P) = true /\ nz (Z.land (entry k pgdir va) PTE_U) = true.
Definition dpage (k : kmem) (pgdir va : Z) : Z := P2V (PTE_ADDR (entry k pgdir va)).

(** The byte a user address denotes. *)
Definition ubyte (k : kmem) (pgdir va : Z) : Z := memory k (dpage k pgdir va + va mod 4096).

(** The pages of user memory are pages of their own: no two addresses of different
    pages share one, and none is free or part of the table. *)
Record user_ok (k : kmem) (pgdir : Z) (l : list Z) : Prop := mkUserOk {
  us_pt : pt_ok kend k pgdir l;
  us_page : forall va, vaddr va -> accessible k pgdir va ->
              page_ok kend (dpage k pgdir va) /\ dpage k pgdir va <> pgdir /\ (dpage k pgdir va ∉ l)
              /\ forall i, 0 <= i < 1024 -> present k pgdir i = true -> dpage k pgdir va <> tab k pgdir i;
  us_inj : forall va va', vaddr va -> vaddr va' -> accessible k pgdir va -> accessible k pgdir va' ->
              dpage k pgdir va = dpage k pgdir va' -> va / 4096 = va' / 4096;
}.

(** Writing inside the user page of [va]. *)
Lemma user_write k pgdir l va k' :
  user_ok k pgdir l -> vaddr va -> accessible k pgdir va ->
  freelist k' = freelist k -> klock k' = klock k ->
  (forall x, ~ in_page (dpage k pgdir va) x -> memory k' x = memory k x) ->
  (forall i, 0 <= i < 1024 -> present k' pgdir i = present k pgdir i /\ tab k' pgdir i = tab k pgdir i)
  /\ (forall v, vaddr v -> entry k' pgdir v = entry k pgdir v) /\ user_ok k' pgdir l.
Proof.
  intros Hus Hva Hacc Hf Hl Hm. pose proof (us_pt _ _ _ Hus) as Hpt.
  destruct (us_page _ _ _ Hus va Hva Hacc) as (Hd & Hdp & Hdl & Hdt). set (d := dpage k pgdir va) in *.
  assert (Hdir : forall i, 0 <= i < 1024 -> load32 (memory k') (pgdir + 4 * i) = load32 (memory k) (pgdir + 4 * i)).
  { intros i Hi. apply load32_ext. intros x Hx. apply Hm, (apart kend pgdir); [apply Hpt|done|congruence|by eapply in_word]. }
  assert (Hpi : forall i, 0 <= i < 1024 -> present k' pgdir i = present k pgdir i /\ tab k' pgdir i = tab k pgdir i)
    by (intros i Hi; unfold present, tab; by rewrite Hdir).
  assert (He : forall v, vaddr v -> entry k' pgdir v = entry k pgdir v).
  { intros v Hv. destruct (PDX_div v Hv) as [_ Hpdx]. apply entry_ext; [done|by apply Hdir|]. intros Hp x Hx.
    destruct (pt_tab _ _ _ _ Hpt _ Hpdx Hp) as (Ht & _). apply Hm, (apart kend (tab k pgdir (PDX v))); [done|done|by apply not_eq_sym, Hdt|done]. }
  split; [done|]. split; [done|].
  assert (Ha : forall v, vaddr v -> accessible k' pgdir v <-> accessible k pgdir v).
  { intros v Hv. unfold accessible. rewrite He by done. destruct (PDX_div v Hv) as [_ Hpdx]. by destruct (Hpi _ Hpdx) as [-> _]. }
  split.
  - destruct Hpt as [Hk Hpg Hu Htb Hinj]. split; [|done|done| |].
    + apply (kmem_ok_ext kend k); [done|done|done|]. intros a x Ha' Hx. apply Hm, (apart kend a); [|done|by intros ->|done].
      pose proof (ok_pages _ _ _ Hk) as HF. rewrite Forall_forall in HF. by apply HF.
    + intros i Hi. destruct (Hpi i Hi) as [-> ->]. by apply Htb.
    + intros i j Hi Hj. destruct (Hpi i Hi) as [-> ->], (Hpi j Hj) as [-> ->]. by apply Hinj.
  - intros v Hv Hv'. apply Ha in Hv'; [|done]. unfold dpage. rewrite He by done.
    destruct (us_page _ _ _ Hus v Hv Hv') as (H1 & H2 & H3 & H4). repeat split; try done; try apply H1.
    intros i Hi. destruct (Hpi i Hi) as [-> ->]. by apply H4.
  - intros v v' Hv Hv' Hav Hav'. apply Ha in Hav; [|done]. apply Ha in Hav'; [|done]. unfold dpage. rewrite !He by done.
    by apply (us_inj _ _ _ Hus).
Qed.

Lemma uva2ka_run k pgdir va l : user_ok k pgdir l -> vaddr va -> accessible k pgdir va ->
  uva2ka pgdir va k = (Ok (dpage k pgdir va), k) /\ dpage k pgdir va <> 0.
Proof.
  intros Hus Hva (Hp & H1 & H2). destruct (us_page _ _ _ Hus va Hva (conj Hp (conj H1 H2))) as ((_ & _ & Hr) & _).
  unfold KERNBASE in Hr. split; [|lia]. unfold uva2ka. rewrite (bind_ok _ _ _ _ _ (walk_present k pgdir va false Hp)).
  destruct (PDX_div va Hva) as [_ Hpdx]. destruct (pt_tab _ _ _ _ (us_pt _ _ _ Hus) _ Hpdx Hp) as ((_ & _ & Ht) & _).
  destruct (PTX_div va) as [_ Hptx]. unfold KERNBASE in Ht. rewrite (proj2 (Z.eqb_neq _ 0)) by lia.
  unfold load. unfold bind, gets. unfold entry in H1, H2. rewrite Hp in H1, H2. rewrite H1, H2. cbn [negb].
  unfold dpage, entry. by rewrite Hp.
Qed.

Lemma page_entry k pgdir va va' : vaddr va -> vaddr va' -> va / 4096 = va' / 4096 ->
  entry k pgdir va = entry k pgdir va' /\ PDX va = PDX va'.
Proof. intros H H' E. apply same_page in E as [E1 E2]; [|done|done]. unfold entry. by rewrite E1, E2. Qed.

Lemma page_accessible k pgdir va va' : vaddr va -> vaddr va' -> va / 4096 = va' / 4096 ->
  accessible k pgdir va -> accessible k pgdir va' /\ dpage k pgdir va' = dpage k pgdir va.
Proof. intros H H' E. destruct (page_entry k pgdir va va' H H' E) as [E1 E2]. unfold accessible, dpage. by rewrite E1, E2. Qed.

(** One piece of [copyout], within a page. *)
Lemma copy_piece k pgdir l va buf n :
  user_ok k pgdir l -> vaddr va -> accessible k pgdir va -> 0 <= n -> va mod 4096 + n <= 4096 ->
  let k' := set_memory (memmove (memory k) (dpage k pgdir va + va mod 4096) buf n) k in
  user_ok k' pgdir l
  /\ (forall x, ~ in_page (dpage k pgdir va) x -> memory k' x = memory k x)
  /\ (forall v, vaddr v -> entry k' pgdir v = entry k pgdir v)
  /\ (forall v, vaddr v -> accessible k' pgdir v <-> accessible k pgdir v)
  /\ (forall v, vaddr v -> accessible k pgdir v ->
        ubyte k' pgdir v = if (va <=? v) && (v <? va + n) then memory k (buf + (v - va)) else ubyte k pgdir v).
Proof.
  intros Hus Hva Hacc Hn Hfit k'. pose proof (Z.mod_pos_bound va 4096 ltac:(lia)) as Hb.
  set (d := dpage k pgdir va) in *.
  assert (Hout : forall x, ~ in_page d x -> memory k' x = memory k x).
  { intros x Hx. cbn. rewrite memmove_copied by done. unfold copied, in_page, PGSIZE in *. zcases; cbn; lia || done. }
  destruct (user_write k pgdir l va k' Hus Hva Hacc eq_refl eq_refl Hout) as (Hpi & He & Hus').
  split; [done|]. split; [done|]. split; [done|]. split.
  { intros v Hv. unfold accessible. rewrite He by done. destruct (PDX_div v Hv) as [_ Hpdx]. by destruct (Hpi _ Hpdx) as [-> _]. }
  intros v Hv Hav. unfold ubyte at 1, dpage. rewrite He by done. fold (dpage k pgdir v).
  destruct (Z.eq_dec (v / 4096) (va / 4096)) as [E|E].
  - destruct (page_accessible k pgdir va v Hva Hv (eq_sym E) Hacc) as [_ Hd]. rewrite Hd. fold d.
    cbn. rewrite memmove_copied by done. unfold copied, ubyte. rewrite Hd. fold d.
    pose proof (Z.div_mod v 4096 ltac:(lia)). pose proof (Z.div_mod va 4096 ltac:(lia)).
    destruct (Z.leb_spec va v), (Z.ltb_spec v (va + n)), (Z.leb_spec (d + va mod 4096) (d + v mod 4096)),
      (Z.ltb_spec (d + v mod 4096) (d + va mod 4096 + n)); cbn; try lia; try done. f_equal. lia.
  - assert (Hne : dpage k pgdir v <> d) by (intros Heq; apply E, (us_inj _ _ _ Hus); done).
    destruct (us_page _ _ _ Hus v Hv Hav) as (Hdv & _). destruct (us_page _ _ _ Hus va Hva Hacc) as (Hda & _).
    pose proof (Z.mod_pos_bound v 4096 ltac:(lia)) as Hbv.
    rewrite Hout by (apply (apart kend (dpage k pgdir v)); [done|done|done|unfold in_page, PGSIZE; lia]).
    fold (ubyte k pgdir v). pose proof (Z.div_mod v 4096 ltac:(lia)). pose proof (Z.div_mod va 4096 ltac:(lia)).
    destruct (Z.leb_spec va v), (Z.ltb_spec v (va + n)); cbn; try done. exfalso. apply E. symmetry.
    apply (Z.div_unique v 4096 (va / 4096) (v - va / 4096 * 4096)); lia.
Qed.

Lemma copyout_loop_ok pgdir l : forall fuel k va buf len,
  user_ok k pgdir l -> 0 <= va -> 0 <= len -> va + len <= KERNBASE -> (0 < len -> len <= 4096 * (Z.of_nat fuel - 2) + (4096 - va mod 4096)) -> (0 < fuel)%nat ->
  (forall v, va <= v < va + len -> accessible k pgdir v) ->
  (forall v x, vaddr v -> accessible k pgdir v -> buf <= x < buf + len -> ~ in_page (dpage k pgdir v) x) ->
  exists k', copyout_loop fuel pgdir va buf len k = (Ok 0, k') /\ user_ok k' pgdir l
    /\ (forall v, vaddr v -> entry k' pgdir v = entry k pgdir v)
    /\ (forall v, vaddr v -> accessible k pgdir v ->
          ubyte k' pgdir v = if (va <=? v) && (v <? va + len) then memory k (buf + (v - va)) else ubyte k pgdir v).
Proof.
  induction fuel as [|fuel IH]; intros k va buf len Hus Hva Hlen Hend Hfuel Hf Hacc Hbuf; [lia|]. cbn [copyout_loop].
  unfold KERNBASE in Hend. destruct (Z.ltb_spec 0 len) as [Hpos|Hz].
  2:{ assert (len = 0) as -> by lia. exists k. split; [done|]. split; [done|]. split; [done|].
      intros v Hv _. destruct (Z.leb_spec va v), (Z.ltb_spec v (va + 0)); cbn; lia || done. }
  rewrite PGROUNDDOWN_div by lia. pose proof (Z.div_mod va 4096 ltac:(lia)) as Hdm.
  pose proof (Z.mod_pos_bound va 4096 ltac:(lia)) as Hmb. assert (Hq : 0 <= va / 4096) by (apply Z.div_pos; lia).
  set (va0 := va / 4096 * 4096).
  assert (Hv0 : vaddr va0) by (unfold vaddr, va0; lia). assert (Hv : vaddr va) by (unfold vaddr; lia).
  destruct (page_accessible k pgdir va va0 Hv Hv0) as [Hacc0 Hd0]; [unfold va0; by rewrite Z.div_mul by lia|by apply Hacc; lia|].
  destruct (uva2ka_run k pgdir va0 l Hus Hv0 Hacc0) as [Hka Hnz]. rewrite (bind_ok _ _ _ _ _ Hka).
  rewrite (proj2 (Z.eqb_neq _ _) Hnz), Hd0. replace (va - va0) with (va mod 4096) by (unfold va0; lia).
  set (n := if len <? PGSIZE - va mod 4096 then len else PGSIZE - va mod 4096).
  assert (Hn : 0 < n <= len /\ va mod 4096 + n <= 4096 /\ (n = len \/ va mod 4096 + n = 4096))
    by (unfold n, PGSIZE; destruct (Z.ltb_spec len (4096 - va mod 4096)); lia).
  destruct (copy_piece k pgdir l va buf n Hus Hv) as (Hus1 & Hm1 & He1 & Ha1 & Hu1); [by apply Hacc; lia|lia|lia|].
  unfold move. unfold bind at 1, modify. set (k1 := set_memory _ k) in *. rewrite (u32_id (va0 + PGSIZE)) by (unfold va0, PGSIZE; lia).
  destruct (Z.eq_dec n len) as [Enl|Enl].
  - rewrite Enl in *. rewrite Z.sub_diag. destruct fuel as [|fuel]; [lia|]. cbn [copyout_loop]. exists k1. done.
  - replace (va0 + PGSIZE) with (va + n) by (unfold va0, PGSIZE; lia).
    assert (Hvn : (va + n) mod 4096 = 0).
    { replace (va + n) with ((va / 4096 + 1) * 4096) by lia. apply Z.mod_mul. lia. }
    destruct (IH k1 (va + n) (buf + n) (len - n)) as (k2 & Hrun & Hus2 & He2 & Hu2); [done|lia|lia|unfold KERNBASE; lia|lia|lia| | |].
    + intros v Hvr. apply Ha1; [unfold vaddr; lia|]. apply Hacc. lia.
    + intros v x Hvv Hav Hx. apply Ha1 in Hav; [|done]. unfold dpage. rewrite He1 by done. apply Hbuf; [done|done|lia].
    + exists k2. split; [done|]. split; [done|]. split; [intros v Hvv; by rewrite He2, He1|].
      intros v Hvv Hav. rewrite Hu2, Hu1 by (done || by apply Ha1). 
      destruct (Z.leb_spec (va + n) v), (Z.ltb_spec v (va + n + (len - n))), (Z.leb_spec va v), (Z.ltb_spec v (va + len)), (Z.ltb_spec v (va + n));
        cbn [andb]; try lia; try done.
      rewrite Hm1; [f_equal; lia|]. apply Hbuf; [done|by apply Hacc; lia|lia].
Qed.
End User.

(** C33: [copyout] into pages the user may access: it returns 0 and stores the bytes of
    the buffer at exactly the user addresses from [va] on; every other user
    byte, and every entry of the page table, is as before. *)
Theorem copyout_writes kend k pgdir l va p len :
  user_ok kend k pgdir l -> 0 <= va -> 0 <= len -> va + len <= KERNBASE ->
  (forall v, va <= v < va + len -> accessible k pgdir v) ->
  (forall v x, vaddr v -> accessible k pgdir v -> p <= x < p + len -> ~ in_page (dpage k pgdir v) x) ->
  exists k', copyout pgdir va p len k = (Ok 0, k') /\ user_ok kend k' pgdir l
    /\ (forall v, vaddr v -> entry k' pgdir v = entry k pgdir v)
    /\ (forall v, vaddr v -> accessible k pgdir v ->
          ubyte k' pgdir v = if (va <=? v) && (v <? va + len) then memory k (p + (v - va)) else ubyte k pgdir v).
Proof.
  intros Hus Hva Hlen Hend Hacc Hbuf. unfold copyout. apply copyout_loop_ok with (kend := kend); try done; [|lia].
  pose proof (Z.div_mod len PGSIZE ltac:(unfold PGSIZE; lia)). pose proof (Z.mod_pos_bound len PGSIZE ltac:(unfold PGSIZE; lia)).
  pose proof (Z.mod_pos_bound va 4096 ltac:(lia)). assert (0 <= len / PGSIZE) by (apply Z.div_pos; unfold PGSIZE; lia).
  unfold PGSIZE in *. lia.
Qed.

(** An empty directory and one free page. *)
Definition fresh_vm : kmem := mkKmem (fun _ => 0) false true 0x80117000.

Lemma fresh_vm_ok : pt_ok 0x80115000 fresh_vm 0x80116000 [0x80117000].
Proof.
  assert (P : forall a, a mod PGSIZE = 0 -> 0x80115000 <= a < 0x80200000 -> page_ok 0x80115000 a)
    by (unfold page_ok, KERNBASE, PHYSTOP; intros a H1 H2; split; [done|lia]).
  split; [split| | | |].
  - done.
  - constructor; [apply P; [done|lia]|constructor].
  - constructor; [apply not_elem_of_nil|constructor].
  - done.
  - apply P; [done|lia].
  - by intros ?%list_elem_of_singleton.
  - intros i Hi H. unfold present, load32 in H. cbn in H. done.
  - intros i j Hi Hj H. unfold present, load32 in H. cbn in H. done.
Qed.

(** A page at address 0x3ff000. *)
Lemma mappages_maps_witness :
  exists r k' l' m, mappages 0x80116000 0x3ff000 4096 0x200000 6 fresh_vm = (Ok r, k')
    /\ pt_ok 0x80115000 k' 0x80116000 l' /\ (exists u, [0x80117000] = u ++ l')
    /\ ((r = 0 /\ m = 1) \/ (r = -1 /\ l' = [] /\ 0 <= m < 1))
    /\ (forall v, vaddr v -> entry k' 0x80116000 v = mapped_to fresh_vm 0x80116000 0x3ff000 0x200000 6 m v).
Proof.
  apply (mappages_maps 0x80115000 fresh_vm 0x80116000 [0x80117000] 0x3ff000 4096 0x200000 6 fresh_vm_ok);
    [discriminate|reflexivity|discriminate|discriminate|vm_compute; discriminate|].
  intros v Hv. unfold entry, present, load32. reflexivity.
Defined.

(** One user page at address 0, for the directory of [fresh_vm]. *)
Definition one_table : kmem := installed (mkKmem (fun _ => 0) false true 0) 0x80116000 0 0x80117000.
Definition one_user_page : kmem := with_entry one_table 0x80116000 0 0x118007.

Lemma low_page a : a mod PGSIZE = 0 -> 0x80115000 <= a < 0x80200000 -> page_ok 0x80115000 a.
Proof. unfold page_ok, KERNBASE, PHYSTOP. intros H1 H2. split; [done|lia]. Qed.

Lemma one_table_ok : pt_ok 0x80115000 one_table 0x80116000 [] /\ present one_table 0x80116000 0 = true
  /\ tab one_table 0x80116000 0 = 0x80117000 /\ forall va, vaddr va -> entry one_table 0x80116000 va = 0.
Proof.
  assert (Hz : pt_ok 0x80115000 (mkKmem (fun _ => 0) false true 0) 0x80116000 []).
  { split; [split; [done|constructor|constructor|done]|apply low_page; [done|lia]|apply not_elem_of_nil| |].
    - intros i Hi H. unfold present, load32 in H. cbn in H. done.
    - intros i j Hi Hj H. unfold present, load32 in H. cbn in H. done. }
  destruct (installed_ok 0x80115000 (mkKmem (fun _ => 0) false true 0) 0x80116000 0 0x80117000 [])
    as (H1 & H2 & H3 & H4); try done; try lia; try apply not_elem_of_nil; try (apply low_page; [done|lia]).
Qed.

Lemma one_user_entry v : vaddr v -> accessible one_user_page 0x80116000 v ->
  v / 4096 = 0 /\ dpage one_user_page 0x80116000 v = 0x80118000.
Proof.
  destruct one_table_ok as (H1 & H2 & H3 & H4).
  destruct (with_entry_ok 0x80115000 one_table 0x80116000 0 [] 0x118007 H1 ltac:(done) H2) as (_ & H6 & _).
  fold one_user_page in H6. intros Hv (_ & Ha & _). unfold dpage. rewrite H6 in Ha |- * by done.
  change (0 / 4096) with 0 in *. destruct (Z.eqb_spec (v / 4096) 0); [done|by rewrite H4 in Ha].
Qed.

Lemma one_user_page_ok : user_ok 0x80115000 one_user_page 0x80116000 [].
Proof.
  destruct one_table_ok as (H1 & H2 & H3 & H4).
  destruct (with_entry_ok 0x80115000 one_table 0x80116000 0 [] 0x118007 H1 ltac:(done) H2) as (H5 & H6 & H7).
  fold one_user_page in H5, H6, H7.
  assert (Htab : forall i, 0 <= i < 1024 -> present one_user_page 0x80116000 i = true -> tab one_user_page 0x80116000 i = 0x80117000).
  { intros i Hi. unfold present, tab.
    replace (load32 (memory one_user_page) (0x80116000 + 4 * i)) with (load32 (memory one_table) (0x80116000 + 4 * i)).
    - unfold one_table. rewrite (installed_dir 0x80115000) by (done || lia || (apply low_page; [done|lia])).
      by destruct (0 =? i).
    - symmetry. apply load32_ext. intros x Hx. apply H7. change (PDX 0) with 0. rewrite H3. unfold in_page, PGSIZE. lia. }
  split; [done| |].
  - intros v Hv Ha. destruct (one_user_entry v Hv Ha) as [_ ->]. split; [apply low_page; [done|lia]|]. split; [done|].
    split; [apply not_elem_of_nil|]. intros i Hi Hp. by rewrite Htab.
  - intros v v' Hv Hv' Ha Ha' _. destruct (one_user_entry v Hv Ha) as [-> _]. by destruct (one_user_entry v' Hv' Ha') as [-> _].
Qed.

Lemma copyout_writes_witness :
  exists k', copyout 0x80116000 100 0x80150000 50 one_user_page = (Ok 0, k') /\ user_ok 0x80115000 k' 0x80116000 []
    /\ (forall v, vaddr v -> entry k' 0x80116000 v = entry one_user_page 0x80116000 v)
    /\ (forall v, vaddr v -> accessible one_user_page 0x80116000 v ->
          ubyte k' 0x80116000 v = if (100 <=? v) && (v <? 150) then memory one_user_page (0x80150000 + (v - 100))
                                  else ubyte one_user_page 0x80116000 v).
Proof.
  apply (copyout_writes 0x80115000 one_user_page 0x80116000 [] 100 0x80150000 50 one_user_page_ok);
    [discriminate|discriminate|discriminate| |].
  - intros v Hv. assert (Hva : vaddr 0) by (split; [discriminate|reflexivity]).
    apply (page_accessible one_user_page 0x80116000 0 v Hva).
    + unfold vaddr. lia.
    + rewrite (Z.div_small v) by lia. reflexivity.
    + repeat split; vm_compute; reflexivity.
  - intros v x Hv Ha Hx. destruct (one_user_entry v Hv Ha) as [_ ->]. unfold in_page, PGSIZE. lia.
Defined.
