(* ===== verification/Bytes.v ===== *)
(** Little-endian fields in byte arrays: how the on-disk structures of
    [src/fs.h] and [src/log.c] lie in a block. *)

From Stdlib Require Import ZArith Lia.
From stdpp Require Import base list.
From S2P Require Import Prelude.
Local Open Scope Z_scope.

(** [n] little-endian bytes of [z], and back. *)
Fixpoint le_bytes (n : nat) (z : Z) : list Z :=
  match n with
  | O => []
  | S k => z mod 256 :: le_bytes k (z / 256)
  end.

Fixpoint le_value (l : list Z) : Z :=
  match l with
  | [] => 0
  | b :: l' => b + 256 * le_value l'
  end.

Lemma length_le_bytes n : forall z, length (le_bytes n z) = n.
Proof. induction n; intros z; simpl; [done | by rewrite IHn]. Qed.

Lemma le_value_bytes n : forall z, le_value (le_bytes n z) = z mod 256 ^ Z.of_nat n.
Proof.
  induction n as [|n IH]; intros z; cbn [le_bytes le_value].
  - by rewrite Z.pow_0_r, Z.mod_1_r.
  - rewrite IH, Nat2Z.inj_succ, Z.pow_succ_r by lia.
    rewrite Z.rem_mul_r by (try lia; apply Z.pow_nonzero; lia). done.
Qed.

Definition byte_ok (b : Z) : Prop := 0 <= b < 256.

Lemma le_bytes_ok n : forall z, Forall byte_ok (le_bytes n z).
Proof.
  induction n; intros z; simpl; constructor; [|apply IHn]. apply Z.mod_pos_bound; lia.
Qed.

(** Overwrite part of a list in place. *)
Definition splice (l : list Z) (off : nat) (x : list Z) : list Z :=
  take off l ++ x ++ drop (off + length x) l.

(** Read part of a list. *)
Definition slice (l : list Z) (off n : nat) : list Z := take n (drop off l).

Lemma length_splice l off x :
  (off + length x <= length l)%nat -> length (splice l off x) = length l.
Proof. intros H. unfold splice. rewrite !length_app, length_take, length_drop. lia. Qed.

Lemma length_slice l off n : (off + n <= length l)%nat -> length (slice l off n) = n.
Proof. intros H. unfold slice. rewrite length_take, length_drop. lia. Qed.

Lemma slice_splice_eq l off x :
  (off + length x <= length l)%nat -> slice (splice l off x) off (length x) = x.
Proof.
  intros H. unfold slice, splice. rewrite drop_app_length', take_app_length; [done|].
  rewrite length_take. lia.
Qed.

Lemma lookup_splice_ne l off x i :
  (off + length x <= length l)%nat -> (i < off \/ off + length x <= i)%nat ->
  splice l off x !! i = l !! i.
Proof.
  intros H Hi. unfold splice. destruct (decide (i < off)%nat).
  - rewrite lookup_app_l by (rewrite length_take; lia). by rewrite lookup_take_lt.
  - rewrite lookup_app_r by (rewrite length_take; lia). rewrite length_take, Nat.min_l by lia.
    rewrite lookup_app_r by lia. rewrite lookup_drop. f_equal. lia.
Qed.

Lemma lookup_splice_eq l off x i :
  (off + length x <= length l)%nat -> (off <= i < off + length x)%nat ->
  splice l off x !! i = x !! (i - off)%nat.
Proof.
  intros H Hi. unfold splice. rewrite lookup_app_r by (rewrite length_take; lia).
  rewrite length_take, Nat.min_l by lia. rewrite lookup_app_l by lia. done.
Qed.

Lemma lookup_slice l off n i :
  slice l off n !! i = if decide (i < n)%nat then l !! (off + i)%nat else None.
Proof.
  unfold slice. case_decide.
  - by rewrite lookup_take_lt, lookup_drop by done.
  - apply lookup_take_ge. lia.
Qed.

(** Reading clear of the bytes that were overwritten. *)
Lemma slice_splice_ne l off x off' n :
  (off + length x <= length l)%nat -> (off' + n <= off \/ off + length x <= off')%nat ->
  slice (splice l off x) off' n = slice l off' n.
Proof.
  intros H Ho. apply list_eq. intros i. rewrite !lookup_slice. case_decide; [|done].
  apply lookup_splice_ne; lia.
Qed.

Lemma splice_ok l off x :
  Forall byte_ok l -> Forall byte_ok x -> Forall byte_ok (splice l off x).
Proof.
  intros Hl Hx. unfold splice. apply Forall_app_2; [by apply Forall_take|].
  apply Forall_app_2; [done|]. by apply Forall_drop.
Qed.

(** The [uint], [short] and [ushort] fields. *)
Definition get32 (l : list Z) (off : nat) : Z := le_value (slice l off 4).
Definition put32 (l : list Z) (off : nat) (v : Z) : list Z := splice l off (le_bytes 4 v).
Definition get16 (l : list Z) (off : nat) : Z := le_value (slice l off 2).
Definition put16 (l : list Z) (off : nat) (v : Z) : list Z := splice l off (le_bytes 2 v).

Lemma length_put32 l off v : (off + 4 <= length l)%nat -> length (put32 l off v) = length l.
Proof. intros H. apply length_splice. by rewrite length_le_bytes. Qed.

Lemma length_put16 l off v : (off + 2 <= length l)%nat -> length (put16 l off v) = length l.
Proof. intros H. apply length_splice. by rewrite length_le_bytes. Qed.

Lemma get32_put32 l off v : (off + 4 <= length l)%nat -> get32 (put32 l off v) off = u32 v.
Proof.
  intros H. unfold get32, put32. pose proof (slice_splice_eq l off (le_bytes 4 v)) as Hs.
  rewrite length_le_bytes in Hs. rewrite Hs by done. apply le_value_bytes.
Qed.

Lemma get16_put16 l off v : (off + 2 <= length l)%nat -> get16 (put16 l off v) off = u16 v.
Proof.
  intros H. unfold get16, put16. pose proof (slice_splice_eq l off (le_bytes 2 v)) as Hs.
  rewrite length_le_bytes in Hs. rewrite Hs by done. apply le_value_bytes.
Qed.

Lemma get32_put32_ne l off off' v :
  (off + 4 <= length l)%nat -> (off' + 4 <= off \/ off + 4 <= off')%nat ->
  get32 (put32 l off v) off' = get32 l off'.
Proof.
  intros H Ho. unfold get32, put32. rewrite slice_splice_ne; [done|..]; by rewrite length_le_bytes.
Qed.

Lemma get16_put32_ne l off off' v :
  (off + 4 <= length l)%nat -> (off' + 2 <= off \/ off + 4 <= off')%nat ->
  get16 (put32 l off v) off' = get16 l off'.
Proof.
  intros H Ho. unfold get16, put32. rewrite slice_splice_ne; [done|..]; by rewrite length_le_bytes.
Qed.

Lemma get32_put16_ne l off off' v :
  (off + 2 <= length l)%nat -> (off' + 4 <= off \/ off + 2 <= off')%nat ->
  get32 (put16 l off v) off' = get32 l off'.
Proof.
  intros H Ho. unfold get32, put16. rewrite slice_splice_ne; [done|..]; by rewrite length_le_bytes.
Qed.

Lemma get16_put16_ne l off off' v :
  (off + 2 <= length l)%nat -> (off' + 2 <= off \/ off + 2 <= off')%nat ->
  get16 (put16 l off v) off' = get16 l off'.
Proof.
  intros H Ho. unfold get16, put16. rewrite slice_splice_ne; [done|..]; by rewrite length_le_bytes.
Qed.

Create Rewrite HintDb bytes.
#[export] Hint Rewrite length_put32 length_put16 length_splice using (rewrite ?length_put32, ?length_put16; lia) : bytes.

(** Blocks of zeros. *)
Lemma le_value_zero n : le_value (replicate n 0) = 0.
Proof. induction n as [|n IH]; cbn [replicate le_value]; [done|]. rewrite IH. done. Qed.

Lemma get32_zero n o : get32 (replicate n 0) o = 0.
Proof. unfold get32, slice. rewrite drop_replicate, take_replicate. apply le_value_zero. Qed.
