(* ===== verification/Blk.v ===== *)
(** What the buffer cache promises to its clients, the log and the file system.

    A block has a current contents in memory ([view]) and a contents on the disk
    ([disk]); [bread] locks a block and gives access to its view, [bwrite] makes
    the disk agree with the view, [brelse] unlocks.  [writes] records the disk
    writes in the order they reach the disk.  [Bio] proves that the real cache,
    with its recycling of buffers, implements these operations. *)

From Stdlib Require Import ZArith Lia.
From stdpp Require Import base list strings.
From S2P Require Import Prelude Bytes.
Local Open Scope Z_scope.

Definition BSIZE : nat := 512.
Definition ROOTDEV : Z := 1.

Abbreviation block := (list Z).
Definition blockmap := Z -> block.

Definition bupd (d : blockmap) (n : Z) (x : block) : blockmap :=
  fun m => if m =? n then x else d m.

Lemma bupd_eq d n x : bupd d n x n = x.
Proof. unfold bupd. by rewrite Z.eqb_refl. Qed.

Lemma bupd_ne d n x m : m <> n -> bupd d n x m = d m.
Proof. intros H. unfold bupd. by rewrite (proj2 (Z.eqb_neq _ _) H). Qed.

Record blk := mkBlk {
  view : blockmap;
  disk : blockmap;
  writes : list (Z * block);
  bheld : list Z;
}.

Definition set_view (v : blockmap) (s : blk) : blk := mkBlk v (disk s) (writes s) (bheld s).
Definition set_bheld (l : list Z) (s : blk) : blk := mkBlk (view s) (disk s) (writes s) l.

(** [bread]: the buffer's sleep lock is taken; a block locked already, here by
    the calling process itself, makes it sleep. *)
Definition bread (dev n : Z) : M blk Z :=
  s <- get ;;
  if negb (dev =? ROOTDEV) then panic "iderw: request not for disk 1" else
  if bool_decide (n ∈ bheld s) then block_on (CBuf (Z.to_nat n)) else
  modify (set_bheld (n :: bheld s)) ;;
  ret n.

(** Reading and updating [bp->data] of a locked buffer in place. *)
Definition bdata (n : Z) : M blk block := gets (fun s => view s n).
Definition bset (n : Z) (x : block) : M blk unit :=
  modify (fun s => set_view (bupd (view s) n x) s).

Definition bwrite (n : Z) : M blk unit :=
  s <- get ;;
  if bool_decide (n ∈ bheld s) then
    modify (fun s => mkBlk (view s) (bupd (disk s) n (view s n)) (writes s ++ [(n, view s n)]) (bheld s))
  else panic "bwrite".

Definition brelse (n : Z) : M blk unit :=
  s <- get ;;
  if bool_decide (n ∈ bheld s) then modify (set_bheld (filter (fun m => m <> n) (bheld s)))
  else panic "brelse".

(** Disk writes applied to a disk, oldest first. *)
Definition apply_writes (w : list (Z * block)) (d : blockmap) : blockmap :=
  fold_left (fun d '(n, x) => bupd d n x) w d.

Lemma apply_writes_app w1 w2 d : apply_writes (w1 ++ w2) d = apply_writes w2 (apply_writes w1 d).
Proof. apply fold_left_app. Qed.

Lemma apply_writes_notin w : forall d n,
  n ∉ map fst w -> apply_writes w d n = d n.
Proof.
  induction w as [|[m x] w IH]; intros d n Hn; simpl in *; [done|].
  rewrite not_elem_of_cons in Hn. destruct Hn as [Hne Hn].
  rewrite IH by done. by apply bupd_ne.
Qed.

(** ** Running the operations *)

Lemma bread_run n s :
  n ∉ bheld s -> bread ROOTDEV n s = (Ok n, set_bheld (n :: bheld s) s).
Proof. intros H. unfold bread. mrun. by rewrite bool_decide_eq_false_2. Qed.

Lemma bwrite_run n s :
  n ∈ bheld s ->
  bwrite n s = (Ok tt, mkBlk (view s) (bupd (disk s) n (view s n)) (writes s ++ [(n, view s n)]) (bheld s)).
Proof. intros H. unfold bwrite. mrun. by rewrite bool_decide_eq_true_2. Qed.

Lemma filter_ne_notin n (l : list Z) : n ∉ l -> filter (fun m => m <> n) l = l.
Proof.
  induction l as [|a l IH]; intros H; [done|].
  rewrite not_elem_of_cons in H. destruct H as [H1 H2].
  rewrite filter_cons_True by auto. by rewrite IH.
Qed.

Lemma brelse_run n l s :
  bheld s = n :: l -> n ∉ l -> brelse n s = (Ok tt, set_bheld l s).
Proof.
  intros H Hn. unfold brelse. mrun. rewrite H, bool_decide_eq_true_2 by left.
  rewrite filter_cons_False by auto. by rewrite filter_ne_notin.
Qed.

(** Writes override what was there: the result at a written block does not depend
    on the disk written to. *)
Lemma apply_writes_agree w : forall d d' n,
  (n ∉ map fst w -> d n = d' n) -> apply_writes w d n = apply_writes w d' n.
Proof.
  induction w as [|[m x] w IH]; intros d d' n H; simpl in *; [apply H, not_elem_of_nil|].
  apply IH. intros Hn. unfold bupd. destruct (Z.eqb_spec n m); [done|].
  apply H. by rewrite not_elem_of_cons.
Qed.

(** With distinct targets every write is found where it went. *)
Lemma apply_writes_in w : forall d n x,
  NoDup (map fst w) -> (n, x) ∈ w -> apply_writes w d n = x.
Proof.
  induction w as [|[m y] w IH]; intros d n x Hd Hin; [by apply elem_of_nil in Hin|].
  simpl in *. apply NoDup_cons in Hd as [Hm Hd]. apply elem_of_cons in Hin as [[= -> ->]|Hin].
  - rewrite apply_writes_notin by done. apply bupd_eq.
  - by apply IH.
Qed.

Lemma brelse_run_filter n s :
  n ∈ bheld s -> brelse n s = (Ok tt, set_bheld (filter (fun m => m <> n) (bheld s)) s).
Proof. intros H. unfold brelse. mrun. by rewrite bool_decide_eq_true_2. Qed.

(** Copy the view of block [src] to block [dst] and write it out. *)
Definition copy_write (src dst : Z) (b : blk) : blk :=
  mkBlk (bupd (view b) dst (view b src)) (bupd (disk b) dst (view b src))
        (writes b ++ [(dst, view b src)]) (bheld b).
