(* ===== verification/Log.v ===== *)
(** The write-ahead log: [src/log.c].

    The log is written against the block operations of [Blk].  The header block
    is the byte array the code casts to [struct logheader]: the count and the
    block numbers as little-endian words. *)

From Stdlib Require Import ZArith Lia.
From stdpp Require Import base list strings relations.
From S2P Require Import Prelude Bytes Blk.
Local Open Scope Z_scope.

Definition MAXOPBLOCKS : Z := 10.
Definition LOGSIZE : Z := MAXOPBLOCKS * 3.

(** [struct log], with [struct logheader] as [lhn] and [lhblock]. *)
Record log := mkLog {
  llock : bool;
  lstart : Z;
  lsize : Z;
  outstanding : Z;
  committing : bool;
  ldev : Z;
  lhn : Z;
  lhblock : list Z;
}.

(** The log, the blocks below it, and the channels it has woken. *)
Record lstate := mkL { lg : log; lb : blk; lwoken : list chan }.

Definition set_lg (l : log) (s : lstate) : lstate := mkL l (lb s) (lwoken s).
Definition set_lb (b : blk) (s : lstate) : lstate := mkL (lg s) b (lwoken s).
Definition set_llock (b : bool) (s : lstate) : lstate :=
  set_lg (mkLog b (lstart (lg s)) (lsize (lg s)) (outstanding (lg s)) (committing (lg s))
                (ldev (lg s)) (lhn (lg s)) (lhblock (lg s))) s.
Definition set_outstanding (z : Z) (s : lstate) : lstate :=
  set_lg (mkLog (llock (lg s)) (lstart (lg s)) (lsize (lg s)) z (committing (lg s))
                (ldev (lg s)) (lhn (lg s)) (lhblock (lg s))) s.
Definition set_committing (b : bool) (s : lstate) : lstate :=
  set_lg (mkLog (llock (lg s)) (lstart (lg s)) (lsize (lg s)) (outstanding (lg s)) b
                (ldev (lg s)) (lhn (lg s)) (lhblock (lg s))) s.
Definition set_lhn (n : Z) (s : lstate) : lstate :=
  set_lg (mkLog (llock (lg s)) (lstart (lg s)) (lsize (lg s)) (outstanding (lg s)) (committing (lg s))
                (ldev (lg s)) n (lhblock (lg s))) s.
Definition set_lhblock (l : list Z) (s : lstate) : lstate :=
  set_lg (mkLog (llock (lg s)) (lstart (lg s)) (lsize (lg s)) (outstanding (lg s)) (committing (lg s))
                (ldev (lg s)) (lhn (lg s)) l) s.

Definition acquire_l : M lstate unit := acquire_flag (fun s => llock (lg s)) set_llock.
Definition release_l : M lstate unit := release_flag (fun s => llock (lg s)) set_llock.
Definition wakeup_l (c : chan) : M lstate unit :=
  modify (fun s => mkL (lg s) (lb s) (lwoken s ++ [c])).
Definition onblk {A} (m : M blk A) : M lstate A := zoom lb set_lb m.

(** [log.lh.block[i]]: an index outside the array is undefined. *)
Definition lh_block (i : Z) : M lstate Z :=
  l <- gets (fun s => lhblock (lg s)) ;;
  match l !! Z.to_nat i with Some b => ret b | None => ub "log.lh.block index" end.
Definition set_lh_block (i b : Z) : M lstate unit :=
  l <- gets (fun s => lhblock (lg s)) ;;
  if bool_decide (is_Some (l !! Z.to_nat i)) then modify (set_lhblock (<[Z.to_nat i := b]> l))
  else ub "log.lh.block index".

(** One iteration of the loops of [install_trans] and [write_log]; the loops run
    over [tail = 0 .. n-1]. *)
Fixpoint log_loop (body : Z -> M lstate unit) (tail : Z) (n : nat) : M lstate unit :=
  match n with
  | O => ret tt
  | S k => body tail ;; log_loop body (tail + 1) k
  end.

Definition install_body (tail : Z) : M lstate unit :=
  l <- gets lg ;;
  lbuf <- onblk (bread (ldev l) (lstart l + tail + 1)) ;;
  dst <- lh_block tail ;;
  dbuf <- onblk (bread (ldev l) dst) ;;
  x <- onblk (bdata lbuf) ;;
  onblk (bset dbuf x) ;;
  onblk (bwrite dbuf) ;;
  onblk (brelse lbuf) ;;
  onblk (brelse dbuf).

Definition install_trans : M lstate unit :=
  n <- gets (fun s => lhn (lg s)) ;;
  log_loop install_body 0 (Z.to_nat n).

(** [lh->block[i]] for [i = 0 .. n-1], read from and written to the header. *)
Fixpoint read_entries (x : block) (i : Z) (n : nat) : M lstate unit :=
  match n with
  | O => ret tt
  | S k =>
      set_lh_block i (s32 (get32 x (4 + 4 * Z.to_nat i))) ;;
      read_entries x (i + 1) k
  end.

Definition read_head : M lstate unit :=
  l <- gets lg ;;
  b <- onblk (bread (ldev l) (lstart l)) ;;
  x <- onblk (bdata b) ;;
  modify (set_lhn (s32 (get32 x 0))) ;;
  n <- gets (fun s => lhn (lg s)) ;;
  read_entries x 0 (Z.to_nat n) ;;
  onblk (brelse b).

Fixpoint put_entries (x : block) (l : list Z) (i : nat) (n : nat) : block :=
  match n with
  | O => x
  | S k => put_entries (put32 x (4 + 4 * i) (nth i l 0)) l (S i) k
  end.

Definition write_head : M lstate unit :=
  l <- gets lg ;;
  b <- onblk (bread (ldev l) (lstart l)) ;;
  x <- onblk (bdata b) ;;
  onblk (bset b (put_entries (put32 x 0 (lhn l)) (lhblock l) 0 (Z.to_nat (lhn l)))) ;;
  onblk (bwrite b) ;;
  onblk (brelse b).

Definition recover_from_log : M lstate unit :=
  read_head ;;
  install_trans ;;
  modify (set_lhn 0) ;;
  write_head.

(** [readsb] of [src/fs.c] as far as [initlog] uses it: the [nlog] and
    [logstart] fields of the super block. *)
Definition sizeof_logheader : Z := 4 + 4 * LOGSIZE.

Definition initlog (dev : Z) : M lstate unit :=
  if Z.of_nat BSIZE <=? sizeof_logheader then panic "initlog: too big logheader" else
  modify (set_llock false) ;;
  b <- onblk (bread dev 1) ;;
  x <- onblk (bdata b) ;;
  onblk (brelse b) ;;
  modify (fun s => set_lg (mkLog (llock (lg s)) (s32 (get32 x 16)) (s32 (get32 x 12)) (outstanding (lg s))
                                 (committing (lg s)) dev (lhn (lg s)) (lhblock (lg s))) s) ;;
  recover_from_log.

(** [begin_op] either enters or sleeps on [&log]; woken, it runs again. *)
Definition begin_op : M lstate unit :=
  acquire_l ;;
  l <- gets lg ;;
  if committing l then release_l ;; block_on CLog
  else if LOGSIZE <? lhn l + (outstanding l + 1) * MAXOPBLOCKS then release_l ;; block_on CLog
  else
    modify (fun s => set_outstanding (outstanding (lg s) + 1) s) ;;
    release_l.

Definition write_log_body (tail : Z) : M lstate unit :=
  l <- gets lg ;;
  to <- onblk (bread (ldev l) (lstart l + tail + 1)) ;;
  src <- lh_block tail ;;
  from <- onblk (bread (ldev l) src) ;;
  x <- onblk (bdata from) ;;
  onblk (bset to x) ;;
  onblk (bwrite to) ;;
  onblk (brelse from) ;;
  onblk (brelse to).

Definition write_log : M lstate unit :=
  n <- gets (fun s => lhn (lg s)) ;;
  log_loop write_log_body 0 (Z.to_nat n).

Definition commit : M lstate unit :=
  n <- gets (fun s => lhn (lg s)) ;;
  if 0 <? n then
    write_log ;;
    write_head ;;
    install_trans ;;
    modify (set_lhn 0) ;;
    write_head
  else ret tt.

Definition end_op : M lstate unit :=
  acquire_l ;;
  modify (fun s => set_outstanding (outstanding (lg s) - 1) s) ;;
  l <- gets lg ;;
  if committing l then panic "log.committing" else
  do_commit <- (if outstanding l =? 0
                then modify (set_committing true) ;; ret true
                else wakeup_l CLog ;; ret false) ;;
  release_l ;;
  if (do_commit : bool) then
    commit ;;
    acquire_l ;;
    modify (set_committing false) ;;
    wakeup_l CLog ;;
    release_l
  else ret tt.

(** The search of [log_write] for an entry to absorb the write into. *)
Fixpoint find_block (l : list Z) (b : Z) (i : Z) (n : nat) : Z :=
  match n with
  | O => i
  | S k => if nth (Z.to_nat i) l 0 =? b then i else find_block l b (i + 1) k
  end.

(** [log_write] on the locked buffer of block [b].  B_DIRTY, which it sets, pins
    the buffer; it is part of the cache, not of the view ([Bio]). *)
Definition log_write (b : Z) : M lstate unit :=
  l <- gets lg ;;
  if (LOGSIZE <=? lhn l) || (lsize l - 1 <=? lhn l) then panic "too big a transaction" else
  if outstanding l <? 1 then panic "log_write outside of trans" else
  acquire_l ;;
  l <- gets lg ;;
  let i := find_block (lhblock l) b 0 (Z.to_nat (lhn l)) in
  set_lh_block i b ;;
  (if i =? lhn l then modify (fun s => set_lhn (lhn (lg s) + 1) s) else ret tt) ;;
  release_l.

(** ** The header block *)

Lemma length_put_entries n : forall x l i,
  length x = BSIZE -> (i + n <= 30)%nat -> length (put_entries x l i n) = BSIZE.
Proof.
  induction n as [|n IH]; intros x l i Hx Hi; cbn [put_entries]; [done|].
  apply IH; [|lia]. rewrite length_put32; [done|]. rewrite Hx. unfold BSIZE. lia.
Qed.

Lemma get32_put_entries n : forall x l i j,
  length x = BSIZE -> (i + n <= 30)%nat -> (j < 30)%nat ->
  get32 (put_entries x l i n) (4 + 4 * j) =
  if decide (i <= j < i + n)%nat then u32 (nth j l 0) else get32 x (4 + 4 * j).
Proof.
  induction n as [|n IH]; intros x l i j Hx Hi Hj; cbn [put_entries].
  - rewrite decide_False by lia. done.
  - assert (Hb : (4 + 4 * i + 4 <= length x)%nat) by (rewrite Hx; unfold BSIZE; lia).
    rewrite IH by (rewrite ?length_put32; lia).
    destruct (decide (j = i)) as [->|Hne].
    + rewrite decide_False, decide_True by lia. by rewrite get32_put32.
    + rewrite get32_put32_ne by lia. do 2 case_decide; lia || done.
Qed.

Lemma get32_put_entries_0 n : forall x l i,
  length x = BSIZE -> (i + n <= 30)%nat -> get32 (put_entries x l i n) 0 = get32 x 0.
Proof.
  induction n as [|n IH]; intros x l i Hx Hi; cbn [put_entries]; [done|].
  assert (Hb : (4 + 4 * i + 4 <= length x)%nat) by (rewrite Hx; unfold BSIZE; lia).
  rewrite IH by (rewrite ?length_put32; lia). apply get32_put32_ne; lia.
Qed.

(** What a header block says: the count and the block numbers. *)
Definition head_n (x : block) : Z := s32 (get32 x 0).
Definition head_entry (x : block) (i : nat) : Z := s32 (get32 x (4 + 4 * i)).
Definition head_entries (x : block) : list Z := map (head_entry x) (seq 0 (Z.to_nat (head_n x))).

Definition entry_ok (e : Z) : Prop := 0 <= e < 2 ^ 31.

(** The header [write_head] leaves for the entries [E]. *)
Definition header (x : block) (lh : list Z) (n : nat) : block :=
  put_entries (put32 x 0 (Z.of_nat n)) lh 0 n.

Lemma length_header x lh n : length x = BSIZE -> (n <= 30)%nat -> length (header x lh n) = BSIZE.
Proof.
  intros Hx Hn. apply length_put_entries; [|lia]. rewrite length_put32; [done|]. rewrite Hx. unfold BSIZE. lia.
Qed.

Lemma head_n_header x lh n :
  length x = BSIZE -> (n <= 30)%nat -> head_n (header x lh n) = Z.of_nat n.
Proof.
  intros Hx Hn. unfold head_n, header.
  assert (Hl : length (put32 x 0 (Z.of_nat n)) = BSIZE)
    by (rewrite length_put32; [done|]; rewrite Hx; unfold BSIZE; lia).
  rewrite get32_put_entries_0 by (done || lia).
  rewrite get32_put32, s32_u32, s32_id by (rewrite ?Hx; unfold BSIZE; lia). done.
Qed.

(** Round trip: the header that [write_head] writes decodes to the entries of the
    log in memory. *)
Lemma head_entries_header x lh n :
  length x = BSIZE -> (n <= 30)%nat -> (n <= length lh)%nat -> Forall entry_ok (take n lh) ->
  head_entries (header x lh n) = take n lh.
Proof.
  intros Hx Hn Hlen Hok. unfold head_entries. rewrite head_n_header, Nat2Z.id by done.
  apply list_eq. intros i. rewrite list_lookup_fmap.
  destruct (decide (i < n)%nat) as [Hi|Hi].
  - rewrite lookup_seq_lt by done. simpl.
    destruct (lookup_lt_is_Some_2 lh i ltac:(lia)) as [e He].
    rewrite lookup_take_lt, He by done. f_equal.
    unfold head_entry, header.
    assert (Hl : length (put32 x 0 (Z.of_nat n)) = BSIZE)
      by (rewrite length_put32; [done|]; rewrite Hx; unfold BSIZE; lia).
    rewrite get32_put_entries by (done || lia). rewrite decide_True by lia.
    rewrite s32_u32, (nth_lookup_Some _ _ _ _ He).
    rewrite Forall_lookup in Hok. specialize (Hok i e). rewrite lookup_take_lt in Hok by done.
    apply s32_id. specialize (Hok He). unfold entry_ok in Hok. lia.
  - rewrite lookup_seq_ge by lia. rewrite lookup_take_ge by lia. done.
Qed.

(** ** What the disk means after a crash

    [logical start d] is the file system a disk [d] stands for: its home blocks
    with the transaction recorded in the log, if any, replayed. *)
Fixpoint replay_from (start : Z) (d : blockmap) (t : Z) (E : list Z) : list (Z * block) :=
  match E with
  | [] => []
  | e :: E' => (e, d (start + t + 1)) :: replay_from start d (t + 1) E'
  end.

Definition replay_writes (start : Z) (d : blockmap) : list (Z * block) :=
  replay_from start d 0 (head_entries (d start)).

Definition logical (start : Z) (d : blockmap) : blockmap :=
  apply_writes (replay_writes start d) d.

(** Blocks outside the log area, for a log of at most [cap] blocks behind its
    header. *)
Definition home (cap start n : Z) : Prop := n < start \/ start + cap < n.
Definition home_eq (cap start : Z) (d d' : blockmap) : Prop := forall n, home cap start n -> d n = d' n.

(** The writes of a commit of entries [E] with contents [V]: the log blocks, the
    header, the home blocks, the cleared header. *)
Fixpoint log_writes (start : Z) (V : blockmap) (t : Z) (E : list Z) : list (Z * block) :=
  match E with
  | [] => []
  | e :: E' => (start + t + 1, V e) :: log_writes start V (t + 1) E'
  end.

Definition home_writes (V : blockmap) (E : list Z) : list (Z * block) := map (fun e => (e, V e)) E.

Definition commit_writes (start : Z) (V : blockmap) (lh : list Z) (n : nat) : list (Z * block) :=
  let E := take n lh in
  let H1 := header (V start) lh n in
  log_writes start V 0 E ++ [(start, H1)] ++ home_writes V E ++ [(start, put32 H1 0 0)].

(** A transaction that may be committed. *)
Record trans_ok (cap start : Z) (E : list Z) : Prop := mkTransOk {
  trans_nodup : NoDup E;
  trans_home : Forall (home cap start) E;
  trans_range : Forall entry_ok E;
  trans_fits : Z.of_nat (length E) <= cap <= LOGSIZE;
}.

Lemma fst_home_writes V E : map fst (home_writes V E) = E.
Proof. unfold home_writes. rewrite map_map. simpl. apply map_id. Qed.

Lemma log_writes_area start V E : forall t m,
  m ∈ map fst (log_writes start V t E) <-> start + t + 1 <= m < start + t + 1 + Z.of_nat (length E).
Proof.
  induction E as [|e E IH]; intros t m; simpl log_writes; simpl length.
  - simpl. split; [by intros ?%elem_of_nil|lia].
  - simpl map. rewrite elem_of_cons, IH. simpl. lia.
Qed.

Lemma log_writes_lookup start V E : forall t d i e,
  E !! i = Some e -> apply_writes (log_writes start V t E) d (start + t + 1 + Z.of_nat i) = V e.
Proof.
  induction E as [|a E IH]; intros t d i e Hi; [done|]. simpl.
  destruct i as [|i]; simpl in Hi.
  - injection Hi as ->. rewrite apply_writes_notin.
    + rewrite Z.add_0_r. apply bupd_eq.
    + rewrite log_writes_area. lia.
  - replace (start + t + 1 + Z.of_nat (S i)) with (start + (t + 1) + 1 + Z.of_nat i) by lia.
    by apply IH.
Qed.

(** When the log blocks hold the contents of the entries, replay writes them home. *)
Lemma replay_from_filled start d V E : forall t,
  (forall i e, E !! i = Some e -> d (start + t + 1 + Z.of_nat i) = V e) ->
  replay_from start d t E = home_writes V E.
Proof.
  induction E as [|e E IH]; intros t H; simpl; [done|]. f_equal.
  - f_equal. specialize (H 0%nat e eq_refl). by rewrite Z.add_0_r in H.
  - apply IH. intros i a Hi. specialize (H (S i) a Hi).
    rewrite <- H. f_equal. lia.
Qed.

Lemma head_entries_cleared x : (4 <= length x)%nat -> head_entries (put32 x 0 0) = [].
Proof. intros H. unfold head_entries, head_n. by rewrite get32_put32. Qed.

Lemma logical_clean start d : head_entries (d start) = [] -> logical start d = d.
Proof. intros H. unfold logical, replay_writes. by rewrite H. Qed.

(** A prefix of a concatenation ends in one of its parts. *)
Lemma prefix_app_inv {A} (P l1 l2 : list A) :
  P `prefix_of` l1 ++ l2 -> P `prefix_of` l1 \/ exists Q, P = l1 ++ Q /\ Q `prefix_of` l2.
Proof.
  revert P. induction l1 as [|a l1 IH]; intros P H; simpl in *.
  - right. exists P. done.
  - destruct P as [|b P]; [left; apply prefix_nil|].
    apply prefix_cons_inv_1 in H as Hb. apply prefix_cons_inv_2 in H. subst b.
    destruct (IH P H) as [H1|(Q & -> & HQ)]; [left; by apply prefix_cons|right].
    exists Q. done.
Qed.

Lemma prefix_fst_subset (P w : list (Z * block)) n :
  P `prefix_of` w -> n ∈ map fst P -> n ∈ map fst w.
Proof. intros [k ->] H. rewrite map_app, elem_of_app. by left. Qed.

Lemma start_not_home cap start : 0 <= cap -> ~ home cap start start.
Proof. unfold home. lia. Qed.

Lemma start_not_entry cap start E : trans_ok cap start E -> start ∉ E.
Proof.
  intros [_ Hh _ Hf] H. rewrite Forall_forall in Hh. eapply start_not_home; [|by apply Hh]. lia.
Qed.

Section Crash.
Context (cap start : Z) (V D0 : blockmap) (lh : list Z) (n : nat).
Context (Hlen : (n <= length lh)%nat) (Hn : (n <= 30)%nat).
Context (HV : length (V start) = BSIZE).
Context (Hok : trans_ok cap start (take n lh)).
Context (Hclean : head_entries (D0 start) = []).

Abbreviation E := (take n lh).
Abbreviation H1 := (header (V start) lh n).
Abbreviation D1 := (apply_writes (home_writes V E) D0).

(** The disk once the log blocks and the header are written. *)
Abbreviation logged := (bupd (apply_writes (log_writes start V 0 E) D0) start H1).

Lemma home_not_logged m : home cap start m -> m <> start /\ m ∉ map fst (log_writes start V 0 E).
Proof.
  intros Hm. destruct Hok as [_ _ _ Hf]. rewrite log_writes_area.
  unfold home, LOGSIZE, MAXOPBLOCKS in *. lia.
Qed.

Lemma crash_logging P :
  P `prefix_of` log_writes start V 0 E -> home_eq cap start (logical start (apply_writes P D0)) D0.
Proof.
  intros HP m Hm.
  assert (Hnot : forall k, k ∉ map fst (log_writes start V 0 E) -> apply_writes P D0 k = D0 k).
  { intros k Hk. apply apply_writes_notin. intros Hin. apply Hk. by eapply prefix_fst_subset. }
  rewrite logical_clean.
  - apply Hnot, home_not_logged, Hm.
  - rewrite Hnot; [done|]. rewrite log_writes_area. lia.
Qed.

Lemma logged_home m : home cap start m -> logged m = D0 m.
Proof.
  intros Hm. destruct (home_not_logged m Hm) as [Hne Hnot].
  rewrite bupd_ne by done. by apply apply_writes_notin.
Qed.

Lemma crash_installing R :
  R `prefix_of` home_writes V E -> home_eq cap start (logical start (apply_writes R logged)) D1.
Proof.
  intros HR m Hm.
  assert (Hnot : forall k, k ∉ E -> apply_writes R logged k = logged k).
  { intros k Hk. apply apply_writes_notin. intros Hin. apply Hk.
    rewrite <- (fst_home_writes V E). by eapply prefix_fst_subset. }
  unfold logical, replay_writes. rewrite (Hnot start (start_not_entry _ _ _ Hok)), bupd_eq.
  rewrite head_entries_header by (try done; by destruct Hok).
  rewrite (replay_from_filled start _ V).
  - apply apply_writes_agree. rewrite fst_home_writes. intros Hk.
    rewrite Hnot by done. by apply logged_home.
  - intros i e Hi. rewrite Hnot.
    + rewrite bupd_ne by lia. rewrite (log_writes_lookup start V E 0 D0 i e Hi). done.
    + intros Hin. destruct Hok as [_ Hh _ Hf]. rewrite Forall_forall in Hh. specialize (Hh _ Hin).
      apply lookup_lt_Some in Hi. unfold home, LOGSIZE, MAXOPBLOCKS in *. lia.
Qed.

Lemma crash_done : home_eq cap start
  (logical start (bupd (apply_writes (home_writes V E) logged) start (put32 H1 0 0))) D1.
Proof.
  intros m Hm. rewrite logical_clean.
  - rewrite bupd_ne by (intros ->; destruct Hok as [_ _ _ Hf]; eapply start_not_home; [|done]; lia). apply apply_writes_agree.
    intros _. by apply logged_home.
  - rewrite bupd_eq. apply head_entries_cleared. rewrite length_header by done. unfold BSIZE. lia.
Qed.

(** A crash after any number of the commit's disk writes leaves a disk that
    stands for the file system before the transaction or after it. *)
Lemma commit_atomic P :
  P `prefix_of` commit_writes start V lh n ->
  home_eq cap start (logical start (apply_writes P D0)) D0
  \/ home_eq cap start (logical start (apply_writes P D0)) D1.
Proof.
  intros HP. unfold commit_writes in HP.
  apply prefix_app_inv in HP as [HP|(Q & -> & HQ)]; [left; by apply crash_logging|].
  apply prefix_app_inv in HQ as [HQ|(R & -> & HR)].
  { destruct Q as [|q Q]; [left; rewrite app_nil_r; by apply crash_logging|].
    apply prefix_cons_inv_1 in HQ as Hq. apply prefix_cons_inv_2 in HQ. subst q.
    apply prefix_nil_inv in HQ. subst Q. right. rewrite apply_writes_app. apply (crash_installing []). apply prefix_nil. }
  right. rewrite apply_writes_app. simpl. fold (apply_writes R logged).
  apply prefix_app_inv in HR as [HR|(S & -> & HS)]; [by apply crash_installing|].
  rewrite apply_writes_app.
  destruct S as [|x S]; [by apply crash_installing|].
  apply prefix_cons_inv_1 in HS as Hx. apply prefix_cons_inv_2 in HS. subst x.
  apply prefix_nil_inv in HS. subst S. apply crash_done.
Qed.

(** And when all of them have reached the disk, it is the one after. *)
Lemma commit_durable :
  home_eq cap start (logical start (apply_writes (commit_writes start V lh n) D0)) D1.
Proof.
  unfold commit_writes. rewrite !apply_writes_app. apply crash_done.
Qed.
End Crash.

(** ** Running the log's code *)

Definition no_held (s : lstate) : Prop := ldev (lg s) = ROOTDEV /\ bheld (lb s) = [].

Lemma onblk_run {A} (m : M blk A) s r b :
  m (lb s) = (r, b) -> onblk m s = (r, set_lb b s).
Proof. intros H. unfold onblk, zoom. by rewrite H. Qed.

Lemma set_lb_lb b b' s : set_lb b (set_lb b' s) = set_lb b s.
Proof. done. Qed.

Lemma set_lb_id s : set_lb (lb s) s = s.
Proof. by destruct s. Qed.

Ltac held :=
  cbn [bheld set_bheld set_view lb set_lb];
  rewrite ?not_elem_of_cons, ?elem_of_cons; auto 6 using not_elem_of_nil.

Ltac blk_step :=
  match goal with
  | |- context [bind (onblk (bread ROOTDEV ?n)) ?k ?s] =>
      unfold bind at 1; rewrite (onblk_run _ s _ _ (bread_run n (lb s) ltac:(held)))
  | |- context [bind (onblk (bdata ?n)) ?k ?s] =>
      unfold bind at 1; rewrite (onblk_run (bdata n) s _ _ eq_refl)
  | |- context [bind (onblk (bset ?n ?x)) ?k ?s] =>
      unfold bind at 1; rewrite (onblk_run (bset n x) s _ _ eq_refl)
  | |- context [bind (onblk (bwrite ?n)) ?k ?s] =>
      unfold bind at 1; rewrite (onblk_run _ s _ _ (bwrite_run n (lb s) ltac:(held)))
  | |- context [bind (onblk (brelse ?n)) ?k ?s] =>
      unfold bind at 1; rewrite (onblk_run _ s _ _ (brelse_run_filter n (lb s) ltac:(held)))
  | |- context [onblk (brelse ?n) ?s] =>
      rewrite (onblk_run _ s _ _ (brelse_run_filter n (lb s) ltac:(held)))
  end; cbn [lb set_lb view disk writes bheld set_bheld set_view].

Lemma filter_pair_fst (a b : Z) : a <> b -> filter (fun m => m <> a) [a; b] = [b].
Proof. intros H. rewrite filter_cons_False by auto. by rewrite filter_cons_True by auto. Qed.

Lemma filter_pair_snd (a b : Z) : a <> b -> filter (fun m => m <> b) [a; b] = [a].
Proof. intros H. rewrite filter_cons_True by auto. by rewrite filter_cons_False by auto. Qed.

Lemma filter_one (a : Z) : filter (fun m => m <> a) [a] = [].
Proof. by rewrite filter_cons_False by auto. Qed.

Lemma lh_block_run s t e : lhblock (lg s) !! Z.to_nat t = Some e -> lh_block t s = (Ok e, s).
Proof. intros H. unfold lh_block. mrun. by rewrite H. Qed.

Lemma write_log_body_run s t e :
  no_held s -> lhblock (lg s) !! Z.to_nat t = Some e -> lstart (lg s) + t + 1 <> e ->
  write_log_body t s = (Ok tt, set_lb (copy_write e (lstart (lg s) + t + 1) (lb s)) s).
Proof.
  intros [Hdev Hheld] He Hne. unfold write_log_body. unfold bind at 1, gets. rewrite Hdev.
  destruct s as [l [v d w h] wk]. simpl in *. subst h.
  blk_step. unfold bind at 1. erewrite (lh_block_run _ t e); [|exact He].
  do 5 blk_step. rewrite filter_pair_fst by auto. blk_step. rewrite filter_one, !bupd_eq. done.
Qed.

Lemma install_body_run s t e :
  no_held s -> lhblock (lg s) !! Z.to_nat t = Some e -> lstart (lg s) + t + 1 <> e ->
  install_body t s = (Ok tt, set_lb (copy_write (lstart (lg s) + t + 1) e (lb s)) s).
Proof.
  intros [Hdev Hheld] He Hne. unfold install_body. unfold bind at 1, gets. rewrite Hdev.
  destruct s as [l [v d w h] wk]. simpl in *. subst h.
  blk_step. unfold bind at 1. erewrite (lh_block_run _ t e); [|exact He].
  do 5 blk_step. rewrite filter_pair_snd by auto. blk_step. rewrite filter_one, !bupd_eq. done.
Qed.

(** The loops as sequences of copies. *)
Fixpoint log_copies (start t : Z) (E : list Z) (b : blk) : blk :=
  match E with
  | [] => b
  | e :: E' => log_copies start (t + 1) E' (copy_write e (start + t + 1) b)
  end.

Fixpoint install_copies (start t : Z) (E : list Z) (b : blk) : blk :=
  match E with
  | [] => b
  | e :: E' => install_copies start (t + 1) E' (copy_write (start + t + 1) e b)
  end.

(** The entries from index [t] on are [E]. *)
Definition entries_at (lh : list Z) (t : Z) (E : list Z) : Prop :=
  forall i e, E !! i = Some e -> lh !! Z.to_nat (t + Z.of_nat i) = Some e.

Lemma entries_at_tail lh t e E : 0 <= t -> entries_at lh t (e :: E) -> entries_at lh (t + 1) E.
Proof.
  intros Ht H i a Hi. specialize (H (S i) a Hi). rewrite <- H. f_equal. lia.
Qed.

Lemma entries_at_take lh n : entries_at lh 0 (take n lh).
Proof.
  intros i e Hi. rewrite Z.add_0_l, Nat2Z.id. by apply lookup_take_Some in Hi as [Hi _].
Qed.

Lemma no_held_copy s src dst : no_held s -> no_held (set_lb (copy_write src dst (lb s)) s).
Proof. done. Qed.

Lemma log_loop_write cap E : forall t s,
  0 <= t -> no_held s -> entries_at (lhblock (lg s)) t E -> Forall (home cap (lstart (lg s))) E ->
  t + Z.of_nat (length E) <= cap ->
  log_loop write_log_body t (length E) s
  = (Ok tt, set_lb (log_copies (lstart (lg s)) t E (lb s)) s).
Proof.
  induction E as [|e E IH]; intros t s Ht Hh He Hhome Hfit; cbn [log_loop log_copies length].
  - unfold ret. by rewrite set_lb_id.
  - apply Forall_cons_1 in Hhome as [Hhe Hhome]. unfold bind.
    pose proof (He 0%nat e eq_refl) as He0. rewrite Z.add_0_r in He0.
    rewrite (write_log_body_run s t e Hh He0);
      [|unfold home, LOGSIZE, MAXOPBLOCKS in *; simpl in *; lia].
    rewrite IH; try done; [lia|by eapply entries_at_tail|simpl in *; lia].
Qed.

Lemma log_loop_install cap E : forall t s,
  0 <= t -> no_held s -> entries_at (lhblock (lg s)) t E -> Forall (home cap (lstart (lg s))) E ->
  t + Z.of_nat (length E) <= cap ->
  log_loop install_body t (length E) s
  = (Ok tt, set_lb (install_copies (lstart (lg s)) t E (lb s)) s).
Proof.
  induction E as [|e E IH]; intros t s Ht Hh He Hhome Hfit; cbn [log_loop install_copies length].
  - unfold ret. by rewrite set_lb_id.
  - apply Forall_cons_1 in Hhome as [Hhe Hhome]. unfold bind.
    pose proof (He 0%nat e eq_refl) as He0. rewrite Z.add_0_r in He0.
    rewrite (install_body_run s t e Hh He0);
      [|unfold home, LOGSIZE, MAXOPBLOCKS in *; simpl in *; lia].
    rewrite IH; try done; [lia|by eapply entries_at_tail|simpl in *; lia].
Qed.

(** A run of copies as a sequence of disk writes. *)
Definition after_writes (w : list (Z * block)) (b b' : blk) : Prop :=
  writes b' = writes b ++ w /\ disk b' = apply_writes w (disk b)
  /\ view b' = apply_writes w (view b) /\ bheld b' = bheld b.

Lemma after_nil b : after_writes [] b b.
Proof. unfold after_writes. by rewrite app_nil_r. Qed.

Lemma after_app w1 w2 b b1 b2 :
  after_writes w1 b b1 -> after_writes w2 b1 b2 -> after_writes (w1 ++ w2) b b2.
Proof.
  intros (H1 & H2 & H3 & H4) (G1 & G2 & G3 & G4). unfold after_writes.
  rewrite G1, H1, G2, H2, G3, H3, G4, H4, !apply_writes_app, app_assoc. done.
Qed.

Lemma after_copy src dst b : after_writes [(dst, view b src)] b (copy_write src dst b).
Proof. done. Qed.

Lemma log_writes_ext start V V' E : forall t,
  (forall e, e ∈ E -> V' e = V e) -> log_writes start V' t E = log_writes start V t E.
Proof.
  induction E as [|e E IH]; intros t H; simpl; [done|]. f_equal; [f_equal; apply H; left|].
  apply IH. intros a Ha. apply H. by right.
Qed.

Lemma log_copies_writes cap start E : forall t b,
  0 <= t -> Forall (home cap start) E -> t + Z.of_nat (length E) <= cap ->
  after_writes (log_writes start (view b) t E) b (log_copies start t E b).
Proof.
  induction E as [|e E IH]; intros t b Ht Hh Hf; cbn [log_writes log_copies]; [apply after_nil|].
  apply Forall_cons_1 in Hh as [He Hh].
  change ((start + t + 1, view b e) :: log_writes start (view b) (t + 1) E)
    with ([(start + t + 1, view b e)] ++ log_writes start (view b) (t + 1) E).
  eapply after_app; [apply after_copy|].
  rewrite <- (log_writes_ext start (view b) (view (copy_write e (start + t + 1) b))).
  - apply IH; [lia|done|simpl in *; lia].
  - intros a Ha. rewrite Forall_forall in Hh. specialize (Hh a Ha).
    simpl. apply bupd_ne. unfold home, LOGSIZE, MAXOPBLOCKS in *. simpl in *. lia.
Qed.

Lemma replay_from_ext cap start d d' E : forall t,
  0 <= t -> t + Z.of_nat (length E) <= cap ->
  (forall m, start < m <= start + cap -> d' m = d m) ->
  replay_from start d' t E = replay_from start d t E.
Proof.
  induction E as [|e E IH]; intros t Ht Hf H; simpl in *; [done|]. f_equal.
  - f_equal. apply H. lia.
  - apply IH; [lia|lia|done].
Qed.

Lemma install_copies_writes cap start E : forall t b,
  0 <= t -> Forall (home cap start) E -> t + Z.of_nat (length E) <= cap ->
  after_writes (replay_from start (view b) t E) b (install_copies start t E b).
Proof.
  induction E as [|e E IH]; intros t b Ht Hh Hf; cbn [replay_from install_copies]; [apply after_nil|].
  apply Forall_cons_1 in Hh as [He Hh].
  change ((e, view b (start + t + 1)) :: replay_from start (view b) (t + 1) E)
    with ([(e, view b (start + t + 1))] ++ replay_from start (view b) (t + 1) E).
  eapply after_app; [apply after_copy|].
  rewrite <- (replay_from_ext cap start (view b) (view (copy_write (start + t + 1) e b))).
  - apply IH; [lia|done|simpl in *; lia].
  - lia.
  - simpl in *; lia.
  - intros m Hm. simpl. apply bupd_ne. unfold home in He. lia.
Qed.

Lemma write_head_run s :
  no_held s ->
  write_head s = (Ok tt,
    set_lb (let x := put_entries (put32 (view (lb s) (lstart (lg s))) 0 (lhn (lg s)))
                                 (lhblock (lg s)) 0 (Z.to_nat (lhn (lg s))) in
            mkBlk (bupd (view (lb s)) (lstart (lg s)) x) (bupd (disk (lb s)) (lstart (lg s)) x)
                  (writes (lb s) ++ [(lstart (lg s), x)]) []) s).
Proof.
  intros [Hdev Hheld]. unfold write_head. unfold bind at 1, gets. rewrite Hdev.
  destruct s as [l [v d w h] wk]. simpl in *. subst h.
  do 5 blk_step. rewrite filter_one, !bupd_eq. done.
Qed.

Lemma write_head_writes s :
  no_held s ->
  exists b', write_head s = (Ok tt, set_lb b' s)
    /\ after_writes [(lstart (lg s),
         put_entries (put32 (view (lb s) (lstart (lg s))) 0 (lhn (lg s)))
                     (lhblock (lg s)) 0 (Z.to_nat (lhn (lg s))))] (lb s) b'.
Proof.
  intros H. rewrite (write_head_run s H). eexists. split; [done|].
  destruct H as [_ Hh]. unfold after_writes; simpl. by rewrite Hh.
Qed.

(** ** Commit *)

(** The log holds a transaction that may be committed. *)
Record log_ready (cap : Z) (s : lstate) : Prop := mkLogReady {
  ready_idle : no_held s;
  ready_n : 0 <= lhn (lg s) <= cap /\ cap <= LOGSIZE;
  ready_len : length (lhblock (lg s)) = Z.to_nat LOGSIZE;
  ready_trans : trans_ok cap (lstart (lg s)) (take (Z.to_nat (lhn (lg s))) (lhblock (lg s)));
  ready_head : length (view (lb s) (lstart (lg s))) = BSIZE;
}.

Lemma log_ready_set_lb cap b s :
  bheld b = bheld (lb s) -> length (view b (lstart (lg s))) = BSIZE ->
  log_ready cap s -> log_ready cap (set_lb b s).
Proof. intros Hb Hv [[H1 H1'] H2 H3 H4 H5]. split; try done. split; simpl; congruence. Qed.

Lemma entries_length cap s : log_ready cap s ->
  length (take (Z.to_nat (lhn (lg s))) (lhblock (lg s))) = Z.to_nat (lhn (lg s)).
Proof. intros [_ Hn Hl _ _]. rewrite length_take. lia. Qed.

Lemma write_log_run cap s : log_ready cap s ->
  exists b', write_log s = (Ok tt, set_lb b' s)
    /\ after_writes (log_writes (lstart (lg s)) (view (lb s)) 0
                                (take (Z.to_nat (lhn (lg s))) (lhblock (lg s)))) (lb s) b'.
Proof.
  intros Hr. pose proof (entries_length cap s Hr) as Hl. destruct Hr as [Hi Hn _ [_ Hh _ Hf] _].
  eexists. split.
  - unfold write_log. mrun. rewrite <- Hl at 1.
    apply (log_loop_write cap); [done|done|apply entries_at_take|done|lia].
  - apply (log_copies_writes cap); [done|done|lia].
Qed.

Lemma install_trans_run cap s : log_ready cap s ->
  exists b', install_trans s = (Ok tt, set_lb b' s)
    /\ after_writes (replay_from (lstart (lg s)) (view (lb s)) 0
                                 (take (Z.to_nat (lhn (lg s))) (lhblock (lg s)))) (lb s) b'.
Proof.
  intros Hr. pose proof (entries_length cap s Hr) as Hl. destruct Hr as [Hi Hn _ [_ Hh _ Hf] _].
  eexists. split.
  - unfold install_trans. mrun. rewrite <- Hl at 1.
    apply (log_loop_install cap); [done|done|apply entries_at_take|done|lia].
  - apply (install_copies_writes cap); [done|done|lia].
Qed.

(** The commit point: the log blocks, then the header that names them. *)
Lemma commit_point cap s : log_ready cap s ->
  exists b1 b2, write_log s = (Ok tt, set_lb b1 s)
    /\ write_head (set_lb b1 s) = (Ok tt, set_lb b2 s)
    /\ after_writes (log_writes (lstart (lg s)) (view (lb s)) 0
                                (take (Z.to_nat (lhn (lg s))) (lhblock (lg s)))
                    ++ [(lstart (lg s), header (view (lb s) (lstart (lg s))) (lhblock (lg s))
                                               (Z.to_nat (lhn (lg s))))]) (lb s) b2.
Proof.
  intros Hr. destruct (write_log_run cap s Hr) as (b1 & E1 & A1).
  pose proof A1 as (_ & _ & V1 & B1). pose proof Hr as [[Hdev Hheld] Hn _ _ _].
  destruct (write_head_writes (set_lb b1 s)) as (b2 & E2 & A2).
  { split; [done|]. simpl. congruence. }
  exists b1, b2. split; [done|]. split; [done|]. eapply after_app; [exact A1|].
  cbn [lg lb set_lb set_lg] in A2. unfold header. rewrite Z2Nat.id by lia.
  rewrite V1, apply_writes_notin in A2; [done|]. rewrite log_writes_area. lia.
Qed.

(** The commit point leaves the log ready to install, with the contents of every
    entry in its log block. *)
Lemma commit_point_ready cap s b2 : log_ready cap s ->
  after_writes (log_writes (lstart (lg s)) (view (lb s)) 0
                           (take (Z.to_nat (lhn (lg s))) (lhblock (lg s)))
                ++ [(lstart (lg s), header (view (lb s) (lstart (lg s))) (lhblock (lg s))
                                           (Z.to_nat (lhn (lg s))))]) (lb s) b2 ->
  log_ready cap (set_lb b2 s)
  /\ replay_from (lstart (lg s)) (view b2) 0 (take (Z.to_nat (lhn (lg s))) (lhblock (lg s)))
     = home_writes (view (lb s)) (take (Z.to_nat (lhn (lg s))) (lhblock (lg s))).
Proof.
  intros Hr (_ & _ & V2 & B2). rewrite apply_writes_app in V2. simpl in V2. split.
  - apply log_ready_set_lb; [done| |done]. rewrite V2, bupd_eq. destruct Hr as [_ Hn _ _ Hh].
    apply length_header; [done|]. unfold LOGSIZE, MAXOPBLOCKS in *. lia.
  - apply replay_from_filled. intros i e Hi. rewrite V2, bupd_ne by lia.
    by apply (log_writes_lookup _ _ _ 0).
Qed.

Lemma commit_run cap s : log_ready cap s -> 0 < lhn (lg s) ->
  exists b', commit s = (Ok tt, set_lhn 0 (set_lb b' s))
    /\ after_writes (commit_writes (lstart (lg s)) (view (lb s)) (lhblock (lg s))
                                   (Z.to_nat (lhn (lg s)))) (lb s) b'.
Proof.
  intros Hr Hpos. unfold commit. unfold bind at 1, gets.
  rewrite (proj2 (Z.ltb_lt _ _) Hpos).
  destruct (commit_point cap s Hr) as (b1 & b2 & E1 & E2 & A2).
  destruct (commit_point_ready cap s b2 Hr A2) as [R2 Hrep].
  destruct (install_trans_run cap (set_lb b2 s) R2) as (b3 & E3 & A3).
  cbn [lg lb set_lb set_lg] in A3. rewrite Hrep in A3.
  rewrite (bind_ok _ _ _ _ _ E1), (bind_ok _ _ _ _ _ E2), (bind_ok _ _ _ _ _ E3).
  pose proof (after_app _ _ _ _ _ A2 A3) as A4.
  destruct (write_head_writes (set_lhn 0 (set_lb b3 s))) as (b4 & E4 & A5).
  { destruct Hr as [[Hd Hh] _ _ _ _]. destruct A4 as (_ & _ & _ & B4). split; [done|]. simpl. congruence. }
  exists b4. split; [done|]. cbn [lg lb set_lb set_lg set_lhn lstart lhn lhblock Z.to_nat put_entries] in A5.
  pose proof (after_app _ _ _ _ _ A4 A5) as A6. unfold commit_writes.
  rewrite <- !app_assoc in A6. replace (view b3 (lstart (lg s))) with
    (header (view (lb s) (lstart (lg s))) (lhblock (lg s)) (Z.to_nat (lhn (lg s)))) in A6; [done|].
  destruct A4 as (_ & _ & -> & _). rewrite apply_writes_app, apply_writes_notin.
  - rewrite apply_writes_app. simpl. by rewrite bupd_eq.
  - rewrite fst_home_writes. eapply start_not_entry, Hr.
Qed.

(** The disk the committed transaction leads to. *)
Definition committed_disk (s : lstate) : blockmap :=
  apply_writes (home_writes (view (lb s)) (take (Z.to_nat (lhn (lg s))) (lhblock (lg s)))) (disk (lb s)).

(** C2: commit is atomic with respect to crashes: from a log with a
    transaction and a clean header on the disk, [commit] returns, and after any
    prefix of the disk writes it makes the disk stands, once recovery has replayed
    the log, either for the file system before the transaction or for the one
    after it; after all of them for the one after it, with the log empty.  The
    file system is every block outside the header and the [cap] blocks behind it,
    [cap] being any bound on the transaction's size. *)
Theorem commit_crash_safe (cap : Z) (s : lstate) :
  log_ready cap s -> 0 < lhn (lg s) -> head_entries (disk (lb s) (lstart (lg s))) = [] ->
  exists s' w, commit s = (Ok tt, s') /\ writes (lb s') = writes (lb s) ++ w
    /\ (forall P, P `prefix_of` w ->
          home_eq cap (lstart (lg s)) (logical (lstart (lg s)) (apply_writes P (disk (lb s)))) (disk (lb s))
          \/ home_eq cap (lstart (lg s)) (logical (lstart (lg s)) (apply_writes P (disk (lb s)))) (committed_disk s))
    /\ home_eq cap (lstart (lg s)) (logical (lstart (lg s)) (disk (lb s'))) (committed_disk s)
    /\ head_entries (disk (lb s') (lstart (lg s))) = [] /\ lhn (lg s') = 0.
Proof.
  intros Hr Hpos Hclean. destruct (commit_run cap s Hr Hpos) as (b' & E & W & D & _).
  pose proof Hr as [_ Hn Hl Ht Hv].
  assert (Hn30 : (Z.to_nat (lhn (lg s)) <= 30)%nat) by (unfold LOGSIZE, MAXOPBLOCKS in *; lia).
  exists (set_lhn 0 (set_lb b' s)), (commit_writes (lstart (lg s)) (view (lb s)) (lhblock (lg s)) (Z.to_nat (lhn (lg s)))).
  cbn [lb set_lb set_lhn set_lg]. rewrite D. split; [done|]. split; [done|]. split.
  { intros P HP. apply commit_atomic with (lh := lhblock (lg s)) (n := Z.to_nat (lhn (lg s))) (V := view (lb s));
      [lia|done|done|done|done|done]. }
  split; [apply commit_durable; [lia|done|done|done]|]. split; [|done].
  unfold commit_writes. rewrite !apply_writes_app. simpl. rewrite bupd_eq.
  apply head_entries_cleared. rewrite length_header by done. unfold BSIZE. lia.
Qed.

(** ** Recovery *)

Lemma set_lh_block_run i b s :
  (i < length (lhblock (lg s)))%nat ->
  set_lh_block (Z.of_nat i) b s = (Ok tt, set_lhblock (<[i := b]> (lhblock (lg s))) s).
Proof.
  intros H. unfold set_lh_block. mrun. rewrite Nat2Z.id.
  rewrite bool_decide_eq_true_2; [done|]. by apply lookup_lt_is_Some_2.
Qed.

Lemma read_entries_run x n : forall i s,
  (i + n <= length (lhblock (lg s)))%nat ->
  exists l', read_entries x (Z.of_nat i) n s = (Ok tt, set_lhblock l' s)
    /\ length l' = length (lhblock (lg s))
    /\ forall j, l' !! j = if decide (i <= j < i + n)%nat then Some (head_entry x j)
                           else lhblock (lg s) !! j.
Proof.
  induction n as [|n IH]; intros i s Hi; cbn [read_entries].
  - exists (lhblock (lg s)). split; [by destruct s as [[] ? ?]|]. split; [done|].
    intros j. by rewrite decide_False by lia.
  - rewrite (bind_ok _ _ _ _ _ (set_lh_block_run i _ s ltac:(lia))).
    replace (Z.of_nat i + 1) with (Z.of_nat (S i)) by lia.
    destruct (IH (S i) (set_lhblock (<[i:=s32 (get32 x (4 + 4 * Z.to_nat (Z.of_nat i)))]> (lhblock (lg s))) s))
      as (l' & E & L & HL).
    { simpl. rewrite length_insert. lia. }
    exists l'. split; [exact E|]. simpl in L, HL. rewrite length_insert in L. split; [done|].
    intros j. rewrite HL, Nat2Z.id. destruct (decide (j = i)) as [->|Hne].
    + rewrite decide_False, decide_True by lia. rewrite list_lookup_insert_eq by lia. done.
    + rewrite list_lookup_insert_ne by done. do 2 case_decide; lia || done.
Qed.

Lemma read_head_run s :
  let x := view (lb s) (lstart (lg s)) in
  no_held s -> 0 <= head_n x -> (Z.to_nat (head_n x) <= length (lhblock (lg s)))%nat ->
  exists l', read_head s = (Ok tt, set_lhblock l' (set_lhn (head_n x) s))
    /\ length l' = length (lhblock (lg s))
    /\ take (Z.to_nat (head_n x)) l' = head_entries x.
Proof.
  intros x [Hdev Hheld] Hn Hlen. unfold read_head. unfold bind at 1, gets. rewrite Hdev.
  destruct s as [l [v d w h] wk]. simpl in *. subst h. do 2 blk_step.
  unfold bind at 1, modify. unfold bind at 1, gets. cbn [lg set_lg set_lhn lhn].
  destruct (read_entries_run x (Z.to_nat (head_n x)) 0
    (set_lhn (head_n x) (set_lb (mkBlk v d w [lstart l]) (mkL l (mkBlk v d w []) wk))) Hlen) as (l' & E & L & HL).
  exists l'. split; [|split; [done|]].
  - erewrite bind_ok; [|exact E].
    erewrite onblk_run; [|apply brelse_run_filter; simpl; left].
    cbn [bheld lb set_lb set_lhblock set_lhn set_lg lg set_bheld]. by rewrite filter_one.
  - unfold head_entries. apply list_eq. intros j. rewrite list_lookup_fmap.
    destruct (decide (j < Z.to_nat (head_n x))%nat).
    + rewrite lookup_take_lt, HL, decide_True by lia. by rewrite lookup_seq_lt by lia.
    + rewrite lookup_take_ge, lookup_seq_ge by lia. done.
Qed.

(** A disk whose log can be recovered: the header is one that [write_head] may
    have left, at any point of a commit. *)
Record recoverable (cap start : Z) (d : blockmap) : Prop := mkRecoverable {
  rec_len : length (d start) = BSIZE;
  rec_n : 0 <= head_n (d start) <= cap /\ cap <= LOGSIZE;
  rec_home : Forall (home cap start) (head_entries (d start));
}.

Definition recovery_writes (start : Z) (d : blockmap) : list (Z * block) :=
  replay_writes start d ++ [(start, put32 (d start) 0 0)].

Lemma length_head_entries x : length (head_entries x) = Z.to_nat (head_n x).
Proof. unfold head_entries. by rewrite length_map, length_seq. Qed.

Lemma fst_replay_from start d E : forall t, map fst (replay_from start d t E) = E.
Proof. induction E as [|e E IH]; intros t; simpl; [done|]. by rewrite IH. Qed.

Lemma recover_run cap s :
  no_held s -> length (lhblock (lg s)) = Z.to_nat LOGSIZE -> recoverable cap (lstart (lg s)) (view (lb s)) ->
  exists l' b', recover_from_log s = (Ok tt, set_lhblock l' (set_lhn 0 (set_lb b' s)))
    /\ length l' = length (lhblock (lg s))
    /\ after_writes (recovery_writes (lstart (lg s)) (view (lb s))) (lb s) b'.
Proof.
  intros Hh Hl [Rl Rn Rh]. set (x := view (lb s) (lstart (lg s))) in *.
  destruct (read_head_run s Hh (proj1 (proj1 Rn)) ltac:(fold x; lia)) as (l' & E1 & L1 & T1). fold x in E1, T1.
  unfold recover_from_log. rewrite (bind_ok _ _ _ _ _ E1).
  set (s1 := set_lhblock l' (set_lhn (head_n x) s)).
  assert (Hfit : 0 + Z.of_nat (length (head_entries x)) <= cap) by (rewrite length_head_entries; lia).
  assert (E2 : install_trans s1 = (Ok tt, set_lb (install_copies (lstart (lg s)) 0 (head_entries x) (lb s)) s1)).
  { unfold install_trans. mrun. change (lhn (lg s1)) with (head_n x). rewrite <- length_head_entries.
    apply (log_loop_install cap (head_entries x) 0 s1); [done|done| |done|done]. rewrite <- T1. apply entries_at_take. }
  rewrite (bind_ok _ _ _ _ _ E2).
  pose proof (install_copies_writes cap (lstart (lg s)) (head_entries x) 0 (lb s) ltac:(done) Rh Hfit) as A2.
  set (b2 := install_copies _ _ _ _) in *.
  destruct (write_head_writes (set_lhn 0 (set_lb b2 s1))) as (b3 & E3 & A3).
  { destruct Hh as [Hd Hb]. destruct A2 as (_ & _ & _ & B2). split; [done|]. simpl. congruence. }
  exists l', b3. split; [|split; [done|]].
  - unfold bind at 1, modify. exact E3.
  - eapply after_app; [exact A2|].
    cbn [lg lb set_lb set_lg set_lhn lstart lhn lhblock Z.to_nat put_entries set_lhblock s1] in A3.
    destruct A2 as (_ & _ & V2 & _). rewrite V2, apply_writes_notin in A3; [done|].
    rewrite fst_replay_from. intros Hin. rewrite Forall_forall in Rh. eapply start_not_home; [|by apply Rh]. lia.
Qed.

(** A crash during recovery loses nothing: every prefix of its writes leaves a
    recoverable disk that stands for the same file system. *)
Lemma replay_prefix cap start d P :
  recoverable cap start d -> P `prefix_of` replay_writes start d ->
  recoverable cap start (apply_writes P d)
  /\ home_eq cap start (logical start (apply_writes P d)) (logical start d).
Proof.
  intros [Rl Rn Rh] HP.
  assert (Hnot : forall k, ~ home cap start k -> apply_writes P d k = d k).
  { intros k Hk. apply apply_writes_notin. intros Hin. apply Hk.
    eapply prefix_fst_subset in Hin; [|done]. unfold replay_writes in Hin. rewrite fst_replay_from in Hin.
    rewrite Forall_forall in Rh. by apply Rh. }
  split; [split; rewrite Hnot by (apply start_not_home; lia); done|].
  intros m Hm. unfold logical at 1, replay_writes. rewrite Hnot by (apply start_not_home; lia).
  rewrite (replay_from_ext cap start d); [|done|rewrite length_head_entries; lia|].
  - apply apply_writes_agree. intros Hk. apply apply_writes_notin. intros Hin. apply Hk.
    by eapply prefix_fst_subset.
  - intros k Hk. apply Hnot. unfold home. lia.
Qed.

Lemma recovery_complete cap start d :
  recoverable cap start d ->
  recoverable cap start (apply_writes (recovery_writes start d) d)
  /\ head_entries (apply_writes (recovery_writes start d) d start) = []
  /\ home_eq cap start (apply_writes (recovery_writes start d) d) (logical start d).
Proof.
  intros [Rl Rn Rh]. unfold recovery_writes. rewrite apply_writes_app. simpl. fold (logical start d).
  assert (Hb : (4 <= length (d start))%nat) by (rewrite Rl; unfold BSIZE; lia).
  split; [split|split]; rewrite ?bupd_eq.
  - by rewrite length_put32.
  - unfold head_n. rewrite get32_put32 by done. change (s32 _) with 0. lia.
  - by rewrite head_entries_cleared.
  - by apply head_entries_cleared.
  - intros m Hm. apply bupd_ne. intros ->. eapply start_not_home; [|done]. lia.
Qed.

Lemma prefix_snoc_inv {A} (P l : list A) a :
  P `prefix_of` l ++ [a] -> P `prefix_of` l \/ P = l ++ [a].
Proof.
  intros H. apply prefix_app_inv in H as [H|(Q & -> & HQ)]; [by left|].
  destruct Q as [|q Q]; [left; by rewrite app_nil_r|right].
  apply prefix_cons_inv_1 in HQ as Hq. apply prefix_cons_inv_2, prefix_nil_inv in HQ. by subst.
Qed.

(** C8: recovery restores the file system the disk stands for, and may itself be
    interrupted: on a freshly booted machine (the cache shows the disk)
    [recover_from_log] returns with the home blocks as replay makes them and an
    empty log, and after any prefix of its own disk writes the disk is again
    recoverable and stands for the same file system. *)
Theorem recover_from_log_correct (cap : Z) (s : lstate) :
  no_held s -> length (lhblock (lg s)) = Z.to_nat LOGSIZE -> view (lb s) = disk (lb s) ->
  recoverable cap (lstart (lg s)) (disk (lb s)) ->
  exists s' w, recover_from_log s = (Ok tt, s') /\ writes (lb s') = writes (lb s) ++ w
    /\ home_eq cap (lstart (lg s)) (disk (lb s')) (logical (lstart (lg s)) (disk (lb s)))
    /\ head_entries (disk (lb s') (lstart (lg s))) = []
    /\ view (lb s') = disk (lb s') /\ lhn (lg s') = 0 /\ no_held s'
    /\ (forall P, P `prefix_of` w ->
          recoverable cap (lstart (lg s)) (apply_writes P (disk (lb s)))
          /\ home_eq cap (lstart (lg s)) (logical (lstart (lg s)) (apply_writes P (disk (lb s))))
                                     (logical (lstart (lg s)) (disk (lb s)))).
Proof.
  intros Hh Hl Hv Hr. destruct (recover_run cap s Hh Hl) as (l' & b' & E & L & W & D & V & B); [by rewrite Hv|].
  rewrite Hv in *. exists (set_lhblock l' (set_lhn 0 (set_lb b' s))), (recovery_writes (lstart (lg s)) (disk (lb s))).
  destruct (recovery_complete _ _ _ Hr) as (R1 & R2 & R3).
  cbn [lg lb set_lb set_lg set_lhn lstart lhn set_lhblock]. rewrite D. do 4 (split; [done|]).
  split; [congruence|]. split; [done|]. split; [split; [apply Hh|]; simpl; rewrite B; apply Hh|].
  intros P HP. apply prefix_snoc_inv in HP as [HP| ->]; [by apply replay_prefix|].
  split; [done|]. fold (recovery_writes (lstart (lg s)) (disk (lb s))). by rewrite logical_clean by done.
Qed.

(** A log of 30 blocks at block 2, as [mkfs] lays it out: block 32 is the first
    one behind it.  A transaction of two blocks in memory. *)
Definition zero_block : block := repeat 0 BSIZE.
Definition demo_log (n : Z) : lstate :=
  mkL (mkLog false 2 30 0 false ROOTDEV n (<[1%nat := 32]> (<[0%nat := 40]> (repeat 0 30))))
      (mkBlk (fun b => if b =? 40 then repeat 7 BSIZE else zero_block) (fun _ => zero_block) [] []) [].

Lemma demo_log_ready : log_ready 29 (demo_log 2).
Proof.
  split; [done|done|done| |done].
  change (trans_ok 29 2 [40; 32]). split.
  - rewrite NoDup_cons, list_elem_of_singleton. split; [done|apply NoDup_singleton].
  - unfold home, LOGSIZE, MAXOPBLOCKS. repeat constructor; lia.
  - unfold entry_ok. repeat constructor; lia.
  - unfold LOGSIZE, MAXOPBLOCKS. simpl. lia.
Qed.

Lemma commit_crash_safe_witness :
  exists s' w, commit (demo_log 2) = (Ok tt, s') /\ writes (lb s') = writes (lb (demo_log 2)) ++ w
    /\ (forall P, P `prefix_of` w ->
          home_eq 29 2 (logical 2 (apply_writes P (disk (lb (demo_log 2))))) (disk (lb (demo_log 2)))
          \/ home_eq 29 2 (logical 2 (apply_writes P (disk (lb (demo_log 2))))) (committed_disk (demo_log 2)))
    /\ home_eq 29 2 (logical 2 (disk (lb s'))) (committed_disk (demo_log 2))
    /\ head_entries (disk (lb s') 2) = [] /\ lhn (lg s') = 0.
Proof. apply (commit_crash_safe 29 (demo_log 2)); [apply demo_log_ready|reflexivity|reflexivity]. Defined.

(** A disk caught between the commit point and the installation. *)
Definition demo_crashed : lstate :=
  let d := bupd (bupd (fun _ => zero_block) 2 (header zero_block [40] 1)) 3 (repeat 7 BSIZE) in
  mkL (mkLog false 2 30 0 false ROOTDEV 0 (repeat 0 30)) (mkBlk d d [] []) [].

Lemma recover_from_log_correct_witness :
  exists s' w, recover_from_log demo_crashed = (Ok tt, s') /\ writes (lb s') = [] ++ w
    /\ home_eq 29 2 (disk (lb s')) (logical 2 (disk (lb demo_crashed)))
    /\ head_entries (disk (lb s') 2) = []
    /\ view (lb s') = disk (lb s') /\ lhn (lg s') = 0 /\ no_held s'
    /\ (forall P, P `prefix_of` w ->
          recoverable 29 2 (apply_writes P (disk (lb demo_crashed)))
          /\ home_eq 29 2 (logical 2 (apply_writes P (disk (lb demo_crashed))))
                       (logical 2 (disk (lb demo_crashed)))).
Proof.
  apply (recover_from_log_correct 29 demo_crashed); [done|done|done|].
  split; [reflexivity|vm_compute; done|].
  change (Forall (home 29 2) [40]). unfold home, LOGSIZE, MAXOPBLOCKS. repeat constructor; lia.
Defined.

(** ** Transactions: begin_op, log_write and end_op together *)

Lemma find_block_spec l b n : forall i,
  (i + n <= length l)%nat ->
  exists j, find_block l b (Z.of_nat i) n = Z.of_nat j /\ (i <= j <= i + n)%nat
    /\ ((j < i + n)%nat -> l !! j = Some b)
    /\ (forall k, (i <= k < j)%nat -> l !! k <> Some b).
Proof.
  induction n as [|n IH]; intros i Hi; cbn [find_block].
  - exists i. split; [done|]. split; [lia|]. split; intros; lia.
  - rewrite Nat2Z.id. destruct (lookup_lt_is_Some_2 l i ltac:(lia)) as [a Ha].
    rewrite (nth_lookup_Some _ _ _ _ Ha). destruct (Z.eqb_spec a b) as [->|Hne].
    + exists i. split; [done|]. split; [lia|]. split; [done|]. intros; lia.
    + replace (Z.of_nat i + 1) with (Z.of_nat (S i)) by lia.
      destruct (IH (S i) ltac:(lia)) as (j & E & Hj & Hb & Hk). exists j. split; [done|].
      split; [lia|]. split; [intros; apply Hb; lia|]. intros k Hk'.
      destruct (decide (k = i)) as [->|]; [congruence|]. apply Hk. lia.
Qed.

(** The blocks of the transaction under way. *)
Definition pending (s : lstate) : list Z := take (Z.to_nat (lhn (lg s))) (lhblock (lg s)).

(** [log_write] of a block: absorbed when the block is pending, appended to the
    header otherwise. *)
Lemma log_write_run s b :
  llock (lg s) = false -> 0 <= lhn (lg s) < LOGSIZE -> lhn (lg s) < lsize (lg s) - 1 ->
  1 <= outstanding (lg s) -> length (lhblock (lg s)) = Z.to_nat LOGSIZE ->
  exists s', log_write b s = (Ok tt, s') /\ lb s' = lb s
    /\ lg s' = mkLog false (lstart (lg s)) (lsize (lg s)) (outstanding (lg s)) (committing (lg s))
                     (ldev (lg s)) (lhn (lg s')) (lhblock (lg s'))
    /\ length (lhblock (lg s')) = Z.to_nat LOGSIZE
    /\ ((b ∈ pending s /\ pending s' = pending s /\ lhn (lg s') = lhn (lg s))
        \/ ((b ∉ pending s) /\ pending s' = (pending s ++ [b]) /\ lhn (lg s') = lhn (lg s) + 1)).
Proof.
  intros Hk Hn Hs Ho Hl. unfold log_write, acquire_l, release_l. mrun.
  rewrite (proj2 (Z.leb_gt LOGSIZE _)), (proj2 (Z.leb_gt (_ - 1) _)), (proj2 (Z.ltb_ge _ 1)) by lia.
  cbn [orb]. rewrite Hk. cbn [lg set_llock set_lg lhblock lhn].
  destruct (find_block_spec (lhblock (lg s)) b (Z.to_nat (lhn (lg s))) 0 ltac:(lia)) as (j & E & Hj & Hb & Hnot).
  change (Z.of_nat 0) with 0 in E. rewrite E.
  rewrite set_lh_block_run by (simpl; lia). cbn [lg set_llock set_lg lhblock lhn set_lhblock].
  unfold pending. destruct (Z.eqb_spec (Z.of_nat j) (lhn (lg s))) as [Hjn|Hjn]; eexists; (split; [reflexivity|]);
    cbn [lg lb set_llock set_lg lhblock lhn set_lhblock set_lhn lstart lsize outstanding committing ldev];
    rewrite length_insert; (split; [done|]; split; [done|]; split; [done|]).
  - right. split.
    + intros [k [Hk1 Hk2]%lookup_take_Some]%list_elem_of_lookup. eapply (Hnot k); [lia|done].
    + split; [|done]. rewrite <- Hjn. replace (Z.to_nat (Z.of_nat j + 1)) with (S j) by lia.
      rewrite Nat2Z.id, (take_S_r _ _ b) by (rewrite list_lookup_insert_eq; [done|lia]).
      by rewrite take_insert_ge.
  - left. specialize (Hb ltac:(lia)). rewrite list_insert_id by done. split; [|done].
    apply list_elem_of_lookup. exists j. rewrite lookup_take_lt; [done|lia].
Qed.

(** The way the file system changes a block inside a transaction. *)
Definition update (b : Z) (x : block) : M lstate unit :=
  buf <- onblk (bread ROOTDEV b) ;;
  onblk (bset buf x) ;;
  log_write buf ;;
  onblk (brelse buf).

(** The log, the number of blocks each operation under way has logged, and the
    contents of the blocks when the last group was committed. *)
Record lworld := mkW { wl : lstate; wused : list Z; wsnap : blockmap }.

(** The number of blocks that [log_write] accepts: at most [LOGSIZE], and fewer
    than [log.size] because of the header. *)
Definition log_cap (s : lstate) : Z := Z.min LOGSIZE (lsize (lg s) - 1).

Section Transactions.
(** No operation logs more than [m] blocks. *)
Context (m : Z).

Inductive lstep : lworld -> lworld -> Prop :=
  | step_begin w s' : begin_op (wl w) = (Ok tt, s') -> lstep w (mkW s' (wused w ++ [0]) (wsnap w))
  | step_wait w c s' : begin_op (wl w) = (Sleep c, s') -> lstep w (mkW s' (wused w) (wsnap w))
  | step_update w i u b x s' :
      wused w !! i = Some u -> u < m -> home (log_cap (wl w)) (lstart (lg (wl w))) b -> entry_ok b ->
      update b x (wl w) = (Ok tt, s') -> lstep w (mkW s' (<[i := u + 1]> (wused w)) (wsnap w))
  | step_end w i u s' :
      wused w !! i = Some u -> end_op (wl w) = (Ok tt, s') ->
      lstep w (mkW s' (delete i (wused w))
                   (if outstanding (lg (wl w)) =? 1 then view (lb (wl w)) else wsnap w)).

Definition reserved (used : list Z) : Z := foldr (fun u a => MAXOPBLOCKS - u + a) 0 used.

Record log_inv (w : lworld) : Prop := mkLogInv {
  inv_lock : llock (lg (wl w)) = false /\ committing (lg (wl w)) = false;
  inv_size : 0 <= m <= MAXOPBLOCKS /\ LOGSIZE - MAXOPBLOCKS + m < lsize (lg (wl w));
  inv_out : outstanding (lg (wl w)) = Z.of_nat (length (wused w));
  inv_used : Forall (fun u => 0 <= u <= m) (wused w);
  inv_room : lhn (lg (wl w)) + reserved (wused w) <= LOGSIZE;
  inv_ready : log_ready (log_cap (wl w)) (wl w);
  inv_clean : head_entries (disk (lb (wl w)) (lstart (lg (wl w)))) = [];
  inv_snap : home_eq (log_cap (wl w)) (lstart (lg (wl w))) (disk (lb (wl w))) (wsnap w);
  inv_view : forall n, home (log_cap (wl w)) (lstart (lg (wl w))) n -> n ∉ pending (wl w) ->
               view (lb (wl w)) n = disk (lb (wl w)) n;
  inv_idle : wused w = [] -> lhn (lg (wl w)) = 0;
}.

Lemma reserved_app l1 l2 : reserved (l1 ++ l2) = reserved l1 + reserved l2.
Proof. induction l1 as [|u l1 IH]; simpl in *; [done|]. fold reserved in *. unfold reserved in *. lia. Qed.

Lemma reserved_split l i u : l !! i = Some u ->
  reserved l = MAXOPBLOCKS - u + reserved (delete i l)
  /\ reserved (<[i := u + 1]> l) = reserved l - 1.
Proof.
  intros Hi. apply list_elem_of_split_length in Hi as (l1 & l2 & -> & ->).
  rewrite delete_middle, insert_app_r_alt, Nat.sub_diag, !reserved_app by lia. simpl. lia.
Qed.

Lemma reserved_bound l : m <= MAXOPBLOCKS -> Forall (fun u => 0 <= u <= m) l ->
  0 <= reserved l <= MAXOPBLOCKS * Z.of_nat (length l).
Proof. intros Hm. induction 1 as [|u l Hu _ IH]; cbn [reserved foldr length]; [lia|]. fold (reserved l). lia. Qed.

Lemma begin_op_inv w : log_inv w ->
  (exists s', begin_op (wl w) = (Ok tt, s') /\ log_inv (mkW s' (wused w ++ [0]) (wsnap w)))
  \/ begin_op (wl w) = (Sleep CLog, wl w).
Proof.
  destruct w as [[l b wk] used snap].
  intros [[Hk Hc] Hs Ho Hu Hr Hd Hcl Hsn Hv Hi]. cbn [wl wused wsnap lg lb] in *.
  unfold begin_op, acquire_l, release_l. mrun. cbn [lg]. rewrite Hk. cbn [lg set_llock set_lg committing llock].
  rewrite Hc. cbn [lhn outstanding]. case_match eqn:Hg.
  - right. f_equal. destruct l; simpl in *. by rewrite Hk.
  - left. eexists. split; [reflexivity|]. apply Z.ltb_ge in Hg. split; try done.
    + simpl. rewrite length_app. simpl. lia.
    + simpl. apply Forall_app. split; [done|]. repeat constructor; unfold MAXOPBLOCKS; lia.
    + simpl. rewrite reserved_app. simpl. pose proof (reserved_bound used ltac:(lia) Hu). rewrite Ho in Hg. lia.
    + by destruct Hd as [? ? ? ? ?].
    + simpl. intros H. by apply app_nil in H as [_ ?].
Qed.

Lemma pending_grow cap start s1 s2 b :
  trans_ok cap start (pending s1) -> home cap start b -> entry_ok b -> Z.of_nat (length (pending s1)) < cap ->
  (b ∈ pending s1 /\ pending s2 = pending s1) \/ ((b ∉ pending s1) /\ pending s2 = (pending s1 ++ [b])) ->
  trans_ok cap start (pending s2) /\ forall n, n ∉ pending s2 -> (n ∉ pending s1) /\ n <> b.
Proof.
  intros [T1 T2 T3 T4] Hb Hb' Hlt [[Hin ->]|[Hni ->]].
  - split; [done|]. intros n Hn. split; [done|]. by intros ->.
  - split; [split|].
    + apply NoDup_app. split; [done|]. split; [|apply NoDup_singleton].
      by intros k Hk1 ->%list_elem_of_singleton.
    + apply Forall_app. auto.
    + apply Forall_app. auto.
    + rewrite length_app. simpl. lia.
    + intros n. rewrite not_elem_of_app, not_elem_of_cons. tauto.
Qed.

(** The state an update leaves, and that the invariant holds of it. *)
Lemma update_inv w i u b x :
  log_inv w -> wused w !! i = Some u -> u < m -> home (log_cap (wl w)) (lstart (lg (wl w))) b -> entry_ok b ->
  exists s', update b x (wl w) = (Ok tt, s') /\ log_inv (mkW s' (<[i := u + 1]> (wused w)) (wsnap w)).
Proof.
  destruct w as [[l [v d ws h] wk] used snap]. intros [[Hk Hc] Hs Ho Hu Hr Hd Hcl Hsn Hv Hi] Hiu Hub Hb Hb'.
  cbn [wl wused wsnap lg lb] in *. pose proof (reserved_split _ _ _ Hiu) as [R1 R2].
  pose proof (reserved_bound (delete i used) ltac:(lia) (Forall_delete _ _ _ Hu)) as Rb.
  destruct Hd as [[Hdev Hheld] Hn Hlen Ht Hhead]. cbn [lg lb bheld view] in *. subst h.
  set (s1 := mkL l (mkBlk (bupd v b x) d ws [b]) wk).
  assert (Hlt : (i < length used)%nat) by by eapply lookup_lt_Some.
  set (cap := log_cap _) in *.
  assert (Hcap : cap = Z.min LOGSIZE (lsize l - 1)) by done.
  destruct (log_write_run s1 b) as (s2 & E & Eb & El & L & Hp); [done|simpl; lia|simpl; lia|simpl; lia|done|].
  exists (set_lb (mkBlk (bupd v b x) d ws []) s2). split.
  - unfold update. do 2 blk_step. erewrite bind_ok; [|exact E].
    erewrite onblk_run; [|apply brelse_run_filter; rewrite Eb; left].
    rewrite Eb. cbn [bheld s1 lb set_bheld view disk writes]. by rewrite filter_one.
  - assert (Hst : lstart (lg s2) = lstart l) by by rewrite El.
    assert (Hn' : lhn (lg s2) = lhn l \/ lhn (lg s2) = lhn l + 1) by (destruct Hp as [(_&_&->)|(_&_&->)]; auto).
    destruct (pending_grow cap (lstart l) s1 s2 b) as [Ht' Hsub]; [done|done|done| |tauto|].
    { unfold pending. rewrite length_take. simpl. lia. }
    assert (Hcap2 : log_cap (set_lb (mkBlk (bupd v b x) d ws []) s2) = cap) by (unfold log_cap; simpl; by rewrite El).
    split; cbn [wl wused wsnap lg lb set_lb view disk]; rewrite ?Hcap2, ?Hst; try done.
    + by rewrite El.
    + rewrite El. simpl. lia.
    + rewrite El, length_insert. simpl. lia.
    + apply Forall_insert; [done|]. rewrite Forall_lookup in Hu. specialize (Hu _ _ Hiu). lia.
    + rewrite R2. lia.
    + split; cbn [lg lb set_lb view]; rewrite ?Hst; try done.
      * split; simpl; [by rewrite El|done].
      * lia.
      * rewrite bupd_ne; [done|]. intros Heq. subst b. eapply start_not_home; [|done]. lia.
    + intros n Hn0 Hnp. change (n ∉ pending s2) in Hnp. destruct (Hsub n Hnp) as [Hp1 Hp2].
      rewrite bupd_ne by done. by apply Hv.
    + intros Hnil%(f_equal length). rewrite length_insert in Hnil. simpl in Hnil. lia.
Qed.

Lemma apply_home_writes V E d n :
  apply_writes (home_writes V E) d n = if decide (n ∈ E) then V n else d n.
Proof.
  revert d. induction E as [|e E IH]; intros d; simpl; [done|]. rewrite IH.
  destruct (decide (n ∈ E)) as [Hin|Hin].
  - rewrite decide_True; [done|]. by right.
  - destruct (decide (n = e)) as [->|Hne].
    + rewrite bupd_eq, decide_True; [done|]. left.
    + rewrite bupd_ne, decide_False; [done| |done]. rewrite elem_of_cons. tauto.
Qed.

(** What all the writes of a commit do to a disk. *)
Lemma commit_writes_effect cap s d : log_ready cap s ->
  let d' := apply_writes (commit_writes (lstart (lg s)) (view (lb s)) (lhblock (lg s))
                                        (Z.to_nat (lhn (lg s)))) d in
  length (d' (lstart (lg s))) = BSIZE /\ head_entries (d' (lstart (lg s))) = []
  /\ forall n, home cap (lstart (lg s)) n ->
       d' n = if decide (n ∈ pending s) then view (lb s) n else d n.
Proof.
  intros [_ Hn Hl Ht Hv] d'.
  assert (Hn30 : (Z.to_nat (lhn (lg s)) <= 30)%nat) by (unfold LOGSIZE, MAXOPBLOCKS in *; lia).
  assert (Hd' : d' (lstart (lg s)) = put32 (header (view (lb s) (lstart (lg s))) (lhblock (lg s)) (Z.to_nat (lhn (lg s)))) 0 0).
  { unfold d', commit_writes. rewrite !apply_writes_app. simpl. by rewrite bupd_eq. }
  assert (Hlen : length (header (view (lb s) (lstart (lg s))) (lhblock (lg s)) (Z.to_nat (lhn (lg s)))) = BSIZE)
    by by apply length_header.
  assert (Hcl : head_entries (d' (lstart (lg s))) = []).
  { rewrite Hd'. apply head_entries_cleared. rewrite Hlen. unfold BSIZE. lia. }
  split; [rewrite Hd', length_put32; [done|rewrite Hlen; unfold BSIZE; lia]|]. split; [done|].
  intros n Hhome. unfold pending. rewrite <- apply_home_writes.
  rewrite <- (commit_durable cap (lstart (lg s)) (view (lb s)) d (lhblock (lg s)) (Z.to_nat (lhn (lg s)))) by (done || lia).
  by rewrite logical_clean.
Qed.

Lemma commit_inv cap s : log_ready cap s -> head_entries (disk (lb s) (lstart (lg s))) = [] ->
  (forall n, home cap (lstart (lg s)) n -> n ∉ pending s -> view (lb s) n = disk (lb s) n) ->
  exists b', commit s = (Ok tt, set_lhn 0 (set_lb b' s)) /\ bheld b' = bheld (lb s)
    /\ length (view b' (lstart (lg s))) = BSIZE /\ head_entries (disk b' (lstart (lg s))) = []
    /\ home_eq cap (lstart (lg s)) (disk b') (view (lb s))
    /\ home_eq cap (lstart (lg s)) (view b') (view (lb s)).
Proof.
  intros Hr Hc Hv. destruct (decide (0 < lhn (lg s))) as [Hpos|Hz].
  - destruct (commit_run cap s Hr Hpos) as (b' & E & _ & Hd & Hvw & Hb). exists b'.
    destruct (commit_writes_effect cap s (disk (lb s)) Hr) as (_ & D2 & D3).
    destruct (commit_writes_effect cap s (view (lb s)) Hr) as (V1 & _ & V3).
    rewrite Hd, Hvw. repeat (split; [done|]). split; intros n Hn.
    + rewrite D3 by done. case_decide; [done|]. symmetry. by apply Hv.
    + rewrite V3 by done. by case_decide.
  - assert (Hn0 : lhn (lg s) = 0) by (destruct Hr as [_ ? _ _ _]; lia).
    exists (lb s). unfold commit. mrun. rewrite Hn0. cbn [Z.ltb Z.compare].
    split; [destruct s as [[] ? ?]; simpl in *; by subst|]. destruct Hr as [_ _ _ _ Hh].
    do 3 (split; [done|]). split; [|done]. intros n Hn. symmetry. apply Hv; [done|].
    unfold pending. rewrite Hn0. simpl. apply not_elem_of_nil.
Qed.

Lemma trans_ok_nil cap start : 0 <= cap <= LOGSIZE -> trans_ok cap start [].
Proof. split; try constructor; simpl; lia. Qed.

Lemma end_op_inv w i u : log_inv w -> wused w !! i = Some u ->
  exists s', end_op (wl w) = (Ok tt, s')
    /\ log_inv (mkW s' (delete i (wused w)) (if outstanding (lg (wl w)) =? 1 then view (lb (wl w)) else wsnap w)).
Proof.
  destruct w as [[l b wk] used snap]. intros [[Hk Hc] Hs Ho Hu Hr Hd Hcl Hsn Hv Hi] Hiu.
  cbn [wl wused wsnap lg lb] in *. destruct (reserved_split _ _ _ Hiu) as [R1 _].
  pose proof (Forall_delete _ _ i Hu) as Hu'.
  rewrite Forall_lookup in Hu. specialize (Hu _ _ Hiu) as Hu0.
  assert (Hdel : length (delete i used) = (length used - 1)%nat) by (apply length_delete; by eexists).
  assert (Hlt : (i < length used)%nat) by by eapply lookup_lt_Some.
  unfold end_op, acquire_l, release_l, wakeup_l. mrun. cbn [lg]. rewrite Hk.
  cbn [lg lb lwoken set_llock set_lg set_outstanding set_committing llock outstanding committing]. rewrite Hc.
  replace (outstanding l =? 1) with (outstanding l - 1 =? 0) by lia.
  destruct (Z.eqb_spec (outstanding l - 1) 0) as [Ho0|Ho0]; mrun; cbn [lg lb lwoken set_llock set_lg set_outstanding set_committing llock outstanding committing lstart lsize ldev lhn lhblock].
  - match goal with |- context [commit ?s] => set (s1 := s) end.
    destruct (commit_inv (log_cap (mkL l b wk)) s1) as (b' & E & Hb & B1 & B2 & B3 & B4); [|done|done|].
    { by destruct Hd. }
    rewrite E. cbn [s1 lg lb lwoken set_lhn set_lb set_llock set_lg set_committing llock outstanding committing lstart lsize ldev lhn lhblock].
    eexists. split; [reflexivity|]. split; cbn [wl wused wsnap lg lb view disk]; try done.
    + simpl. lia.
    + change (0 + reserved (delete i used) <= LOGSIZE). pose proof (reserved_bound _ ltac:(lia) Hu').
      unfold LOGSIZE, MAXOPBLOCKS in *. lia.
    + destruct Hd as [[Hd1 Hd2] _ Hd3 _ _]. split; try done.
      * split; [done|]. simpl. rewrite Hb. done.
      * split; [split; [done|]|]; unfold log_cap, LOGSIZE, MAXOPBLOCKS in *; simpl; lia.
      * apply trans_ok_nil. unfold log_cap, LOGSIZE, MAXOPBLOCKS in *; simpl; lia.
    + intros n Hn _. rewrite B3, B4 by done. done.
  - eexists. split; [reflexivity|]. split; cbn [wl wused wsnap lg lb view disk]; try done.
    + simpl. lia.
    + simpl. lia.
    + by destruct Hd.
    + intros Hnil. apply (f_equal length) in Hnil. simpl in *. lia.
Qed.

Lemma lstep_inv w w' : log_inv w -> lstep w w' -> log_inv w'.
Proof.
  intros Hi Hs. destruct Hs as [w s' E|w c s' E|w i u b x s' Hu Hb Hh He E|w i u s' Hu E].
  - destruct (begin_op_inv w Hi) as [(s1 & E1 & H1)|E1]; congruence.
  - destruct (begin_op_inv w Hi) as [(s1 & E1 & H1)|E1]; [congruence|].
    destruct w. simpl in *. congruence.
  - destruct (update_inv w i u b x Hi Hu Hb Hh He) as (s1 & E1 & H1). congruence.
  - destruct (end_op_inv w i u Hi Hu) as (s1 & E1 & H1). congruence.
Qed.

(** A log as [initlog] leaves it: nothing pending, the cache shows the disk. *)
Record fresh_log (w : lworld) : Prop := mkFresh {
  fresh_lock : llock (lg (wl w)) = false /\ committing (lg (wl w)) = false;
  fresh_idle : no_held (wl w) /\ outstanding (lg (wl w)) = 0 /\ lhn (lg (wl w)) = 0;
  fresh_len : length (lhblock (lg (wl w))) = Z.to_nat LOGSIZE;
  fresh_head : length (disk (lb (wl w)) (lstart (lg (wl w)))) = BSIZE
               /\ head_entries (disk (lb (wl w)) (lstart (lg (wl w)))) = [];
  fresh_view : view (lb (wl w)) = disk (lb (wl w));
  fresh_ghost : wused w = [] /\ wsnap w = disk (lb (wl w));
}.

Lemma fresh_inv w :
  0 <= m <= MAXOPBLOCKS -> LOGSIZE - MAXOPBLOCKS + m < lsize (lg (wl w)) -> fresh_log w -> log_inv w.
Proof.
  intros Hm Hs [Hk (Hh & Ho & Hn) Hl [Hd Hc] Hv [Hu Hg]].
  split; rewrite ?Hu, ?Hn, ?Hg, ?Hv; try done.
  assert (Hcap : 0 <= log_cap (wl w) <= LOGSIZE) by (unfold log_cap, LOGSIZE, MAXOPBLOCKS in *; lia).
  split; rewrite ?Hn, ?Hv; try done; [lia|]. by apply trans_ok_nil.
Qed.

(** C6: the transactions of the file system.  Let no operation log more than [m]
    blocks, where [m] is at most [MAXOPBLOCKS] and the log has more than
    [LOGSIZE - MAXOPBLOCKS + m] blocks: for a log of more than [LOGSIZE] blocks
    [m] is [MAXOPBLOCKS], for the log of [LOGSIZE] blocks that mkfs makes [m] is
    [MAXOPBLOCKS - 1].  Then in every reachable state [begin_op] succeeds or
    waits, the updates and the [end_op]s of the operations under way return (no
    panic, no index outside the header); the disk always stands for the blocks
    as they were when the last group of operations ended, and when no operation
    is under way nothing is outside the disk. *)
Theorem log_group_commit (w0 w : lworld) :
  0 <= m <= MAXOPBLOCKS -> LOGSIZE - MAXOPBLOCKS + m < lsize (lg (wl w0)) ->
  fresh_log w0 -> rtc lstep w0 w ->
  ((exists s', begin_op (wl w) = (Ok tt, s')) \/ begin_op (wl w) = (Sleep CLog, wl w))
  /\ (forall i u b x, wused w !! i = Some u -> u < m -> home (log_cap (wl w)) (lstart (lg (wl w))) b ->
        entry_ok b -> exists s', update b x (wl w) = (Ok tt, s'))
  /\ (forall i u, wused w !! i = Some u -> exists s', end_op (wl w) = (Ok tt, s'))
  /\ home_eq (log_cap (wl w)) (lstart (lg (wl w))) (logical (lstart (lg (wl w))) (disk (lb (wl w)))) (wsnap w)
  /\ (wused w = [] -> home_eq (log_cap (wl w)) (lstart (lg (wl w))) (view (lb (wl w))) (wsnap w)).
Proof.
  intros Hm Hs Hf Hr. assert (Hi : log_inv w).
  { pose proof (fresh_inv w0 Hm Hs Hf) as H0. clear Hm Hs Hf. induction Hr; [done|]. eauto using lstep_inv. }
  split; [|split; [|split; [|split]]].
  - destruct (begin_op_inv w Hi) as [(s1 & E1 & H1)|E1]; eauto.
  - intros i u b x Hu Hb Hh He. destruct (update_inv w i u b x Hi Hu Hb Hh He) as (s1 & E1 & _). eauto.
  - intros i u Hu. destruct (end_op_inv w i u Hi Hu) as (s1 & E1 & _). eauto.
  - rewrite logical_clean by apply Hi. apply Hi.
  - intros Hu n Hn. rewrite (inv_view _ Hi), (inv_snap _ Hi); [done|done|done|].
    unfold pending. rewrite (inv_idle _ Hi Hu). apply not_elem_of_nil.
Qed.

End Transactions.

(** The log of the image of [mkfs]: [LOGSIZE] blocks from block 2 on. *)
Definition demo_world : lworld :=
  mkW (mkL (mkLog false 2 30 0 false ROOTDEV 0 (repeat 0 30))
           (mkBlk (fun _ => zero_block) (fun _ => zero_block) [] []) []) [] (fun _ => zero_block).

Lemma log_group_commit_witness :
  exists w, rtc (lstep 9) demo_world w /\ wused w = [0] /\ home (log_cap (wl w)) (lstart (lg (wl w))) 32
    /\ (forall i u b x, wused w !! i = Some u -> u < 9 -> home (log_cap (wl w)) (lstart (lg (wl w))) b ->
        entry_ok b -> exists s', update b x (wl w) = (Ok tt, s')).
Proof.
  assert (Hr : rtc (lstep 9) demo_world (mkW (snd (begin_op (wl demo_world))) [0] (fun _ => zero_block))).
  { apply rtc_once. apply (step_begin 9 demo_world). reflexivity. }
  eexists.
  split; [exact Hr|]. split; [reflexivity|]. split; [right; reflexivity|].
  apply (log_group_commit 9 demo_world); [done|reflexivity| |exact Hr].
  repeat split; reflexivity.
Defined.

Fixpoint updates (l : list Z) : M lstate unit :=
  match l with [] => ret tt | b :: l' => update b zero_block ;; updates l' end.

(** with the log [mkfs] makes, of [LOGSIZE] blocks, the reservation of
    [begin_op] admits three operations, and when each of them logs its
    [MAXOPBLOCKS] blocks the last one is refused: [begin_op] counts [LOGSIZE]
    blocks of room where [log_write] allows [log.size - 1]. *)
Theorem log_capacity_panic :
  lsize (lg (demo_log 0)) = LOGSIZE /\ MAXOPBLOCKS * 3 = LOGSIZE
  /\ fst ((begin_op ;; begin_op ;; begin_op ;; updates (map Z.of_nat (seq 40 29))) (demo_log 0)) = Ok tt
  /\ fst ((begin_op ;; begin_op ;; begin_op ;; updates (map Z.of_nat (seq 40 30))) (demo_log 0))
     = Panic "too big a transaction".
Proof. split; [reflexivity|]. split; [reflexivity|]. split; vm_compute; reflexivity. Qed.
