(* ===== verification/Sleeplock.v ===== *)
(** Sleep locks: [src/sleeplock.c].

    The state is the lock, the pid of the running process and the channels woken.
    [Interleaved] runs the operations of several processes in any order. *)

From Stdlib Require Import ZArith Lia.
From stdpp Require Import base list strings relations.
From S2P Require Import Prelude.
Local Open Scope Z_scope.

(** [struct sleeplock]; the inner spin lock is a flag. *)
Record sleeplock := mkSleeplock { slk : bool; slocked : bool; slpid : Z }.

Record slstate := mkSl { sl : sleeplock; slcur : Z; slwoken : list chan }.

Definition set_sl (l : sleeplock) (s : slstate) : slstate := mkSl l (slcur s) (slwoken s).
Definition set_slk (b : bool) (s : slstate) : slstate :=
  set_sl (mkSleeplock b (slocked (sl s)) (slpid (sl s))) s.

Definition sl_acquire : M slstate unit := acquire_flag (fun s => slk (sl s)) set_slk.
Definition sl_release : M slstate unit := release_flag (fun s => slk (sl s)) set_slk.

Definition initsleeplock : M slstate unit :=
  modify (set_sl (mkSleeplock false false 0)).

Section Chan.
(** The address of the lock, on which its waiters sleep. *)
Context (lk : chan).

(** [sleep] gives up the inner lock and takes it again when the process is woken,
    after which the loop tests [locked] again: the woken process runs
    [acquiresleep] again. *)
Definition acquiresleep : M slstate unit :=
  sl_acquire ;;
  l <- gets sl ;;
  if slocked l then sl_release ;; block_on lk else
  cur <- gets slcur ;;
  modify (set_sl (mkSleeplock (slk l) true cur)) ;;
  sl_release.

Definition releasesleep : M slstate unit :=
  sl_acquire ;;
  l <- gets sl ;;
  modify (set_sl (mkSleeplock (slk l) false 0)) ;;
  modify (fun s => mkSl (sl s) (slcur s) (slwoken s ++ [lk])) ;;
  sl_release.

Definition holdingsleep : M slstate bool :=
  sl_acquire ;;
  l <- gets sl ;;
  cur <- gets slcur ;;
  sl_release ;;
  ret (slocked l && (slpid l =? cur)).
End Chan.

Lemma acquiresleep_free lk s :
  slk (sl s) = false -> slocked (sl s) = false ->
  acquiresleep lk s = (Ok tt, set_sl (mkSleeplock false true (slcur s)) s).
Proof. intros H1 H2. unfold acquiresleep, sl_acquire, sl_release. mrun. rewrite H1. simpl. by rewrite H2. Qed.

Lemma acquiresleep_taken lk s :
  slk (sl s) = false -> slocked (sl s) = true -> acquiresleep lk s = (Sleep lk, s).
Proof.
  intros H1 H2. unfold acquiresleep, sl_acquire, sl_release. mrun. rewrite H1. simpl. rewrite H2.
  destruct s as [[] ? ?]. simpl in *. by subst.
Qed.

Lemma releasesleep_run lk s :
  slk (sl s) = false ->
  releasesleep lk s = (Ok tt, mkSl (mkSleeplock false false 0) (slcur s) (slwoken s ++ [lk])).
Proof. intros H1. unfold releasesleep, sl_acquire, sl_release. mrun. rewrite H1. done. Qed.

Lemma holdingsleep_run s :
  slk (sl s) = false -> holdingsleep s = (Ok (slocked (sl s) && (slpid (sl s) =? slcur s)), s).
Proof.
  intros H1. unfold holdingsleep, sl_acquire, sl_release. mrun. rewrite H1. simpl.
  destruct s as [[] ? ?]. simpl in *. by subst.
Qed.

(** ** Several processes *)
Module Interleaved.

(** The lock with the processes inside their critical sections and those asleep
    in [acquiresleep]. *)
Record world := mkWorld { lock : sleeplock; inside : list Z; asleep : list Z }.

(** A step of process [p]: it calls [acquiresleep] (for the first time or after
    waking up) or leaves its critical section with [releasesleep], which wakes
    every process asleep on the lock. *)
Inductive step : world -> world -> Prop :=
| step_enter w p s' :
    0 < p -> p ∉ inside w -> p ∉ asleep w ->
    acquiresleep (CSleeplock 0) (mkSl (lock w) p []) = (Ok tt, s') ->
    step w (mkWorld (sl s') (p :: inside w) (asleep w))
| step_sleep w p s' :
    0 < p -> p ∉ inside w -> p ∉ asleep w ->
    acquiresleep (CSleeplock 0) (mkSl (lock w) p []) = (Sleep (CSleeplock 0), s') ->
    step w (mkWorld (sl s') (inside w) (p :: asleep w))
| step_leave w p s' :
    p ∈ inside w ->
    releasesleep (CSleeplock 0) (mkSl (lock w) p []) = (Ok tt, s') ->
    step w (mkWorld (sl s') (filter (fun q => q <> p) (inside w))
                    (if bool_decide (CSleeplock 0 ∈ slwoken s') then [] else asleep w)).

Definition start : world := mkWorld (mkSleeplock false false 0) [] [].

Definition ok (w : world) : Prop :=
  slk (lock w) = false
  /\ ((slocked (lock w) = false /\ inside w = [] /\ asleep w = [])
      \/ (slocked (lock w) = true /\ 0 < slpid (lock w) /\ inside w = [slpid (lock w)])).

Lemma step_ok w w' : ok w -> step w w' -> ok w'.
Proof.
  intros [Hk H] Hs. destruct Hs as [w p s' Hp Hi Ha E|w p s' Hp Hi Ha E|w p s' Hi E];
    destruct H as [(Hl & Hin & Has)|(Hl & Hpos & Hin)].
  - rewrite acquiresleep_free in E by done. injection E as <-.
    split; [done|]. right. simpl. by rewrite Hin.
  - by rewrite acquiresleep_taken in E.
  - by rewrite acquiresleep_free in E.
  - rewrite acquiresleep_taken in E by done. injection E as <-. split; [done|]. right. done.
  - rewrite Hin in Hi. by apply elem_of_nil in Hi.
  - rewrite releasesleep_run in E by done. injection E as <-. split; [done|]. left. simpl.
    rewrite Hin in *. apply list_elem_of_singleton in Hi. subst p.
    by rewrite filter_cons_False by auto.
Qed.

(** C38: in every interleaving of the processes at most one is inside its critical
    section, it is the one whose pid the lock records (so [holdingsleep] answers
    true exactly for it), and no process is left asleep when the lock is free. *)
Theorem sleeplock_exclusive (w : world) :
  rtc step start w ->
  (length (inside w) <= 1)%nat
  /\ (slocked (lock w) = false -> inside w = [] /\ asleep w = [])
  /\ (forall p, 0 < p -> fst (holdingsleep (mkSl (lock w) p [])) = Ok (bool_decide (p ∈ inside w))).
Proof.
  intros Hr. assert (Hok : ok w).
  { assert (H0 : ok start) by (split; [done|]; by left).
    revert H0. generalize start Hr. clear Hr. intros w0. induction 1; eauto using step_ok. }
  destruct Hok as [Hk H]. destruct H as [(Hl & Hin & Has)|(Hl & Hpos & Hin)]; rewrite Hin.
  - split; [simpl; lia|]. split; [done|]. intros p Hp. rewrite holdingsleep_run by done.
    cbn [sl slcur fst]. rewrite Hl. by rewrite bool_decide_eq_false_2 by apply not_elem_of_nil.
  - split; [simpl; lia|]. split; [by rewrite Hl|]. intros p Hp. rewrite holdingsleep_run by done.
    cbn [sl slcur fst]. rewrite Hl. cbn [andb]. f_equal. destruct (Z.eqb_spec (slpid (lock w)) p) as [->|Hne].
    + rewrite bool_decide_eq_true_2; [done|]. apply list_elem_of_here.
    + rewrite bool_decide_eq_false_2; [done|]. intros ->%list_elem_of_singleton. done.
Qed.

Lemma sleeplock_exclusive_witness :
  exists w, rtc step start w /\ inside w = [3] /\ asleep w = [4] /\ (length (inside w) <= 1)%nat.
Proof.
  assert (Hr : rtc step start (mkWorld (mkSleeplock false true 3) [3] [4])).
  { eapply rtc_l; [apply (step_enter start 3); [lia|apply not_elem_of_nil|apply not_elem_of_nil|reflexivity]|].
    apply rtc_once. apply (step_sleep (mkWorld (mkSleeplock false true 3) [3] []) 4 (mkSl (mkSleeplock false true 3) 4 []));
      [lia|by intros ?%list_elem_of_singleton|apply not_elem_of_nil|reflexivity]. }
  eexists. split; [exact Hr|]. split; [reflexivity|]. split; [reflexivity|].
  apply (sleeplock_exclusive _ Hr).
Defined.
End Interleaved.
