(* ===== verification/Bio.v ===== *)
(** The buffer cache: [src/bio.c], [src/buf.h], and the memory disk of
    [src/memide.c].

    A buffer pointer is the index of the buffer in [bcache.buf]; the list head
    [bcache.head] has index [NBUF].  The MRU list is kept as the code keeps it,
    through the [prev] and [next] pointers of the buffers.  The disk driver is an
    interface ([Driver]) which the memory disk implements; the theorems show that
    the cache implements the block operations of [Blk]. *)

From Stdlib Require Import ZArith Lia FunctionalExtensionality.
From stdpp Require Import base list strings.
From S2P Require Import Prelude Bytes Blk Sleeplock.
Local Open Scope Z_scope.

Definition NBUF : nat := 30.
Definition head : nat := NBUF.
Definition B_VALID : Z := 2.
Definition B_DIRTY : Z := 4.

(** [struct buf]. *)
Record buf := mkBuf {
  flags : Z;
  bdev : Z;
  blockno : Z;
  block_lock : sleeplock;
  refcnt : Z;
  prev : nat;
  next : nat;
  bufdata : block;
}.

(** The cache, the running process, the disk below and the writes made to it. *)
Record bcache := mkCache {
  bclock : bool;
  barr : nat -> buf;
  bcur : Z;
  bdisk : blockmap;
  bdwrites : list (Z * block);
  bwoken : list chan;
}.

Definition set_bclock (b : bool) (s : bcache) : bcache :=
  mkCache b (barr s) (bcur s) (bdisk s) (bdwrites s) (bwoken s).
Definition set_barr (f : nat -> buf) (s : bcache) : bcache :=
  mkCache (bclock s) f (bcur s) (bdisk s) (bdwrites s) (bwoken s).
Definition set_disk (d : blockmap) (w : list (Z * block)) (s : bcache) : bcache :=
  mkCache (bclock s) (barr s) (bcur s) d w (bwoken s).
Definition set_bwoken (l : list chan) (s : bcache) : bcache :=
  mkCache (bclock s) (barr s) (bcur s) (bdisk s) (bdwrites s) l.

Definition aupd {A} (f : nat -> A) (i : nat) (x : A) : nat -> A :=
  fun j => if decide (j = i) then x else f j.

Definition set_flags (z : Z) (b : buf) : buf :=
  mkBuf z (bdev b) (blockno b) (block_lock b) (refcnt b) (prev b) (next b) (bufdata b).
Definition set_lock (l : sleeplock) (b : buf) : buf :=
  mkBuf (flags b) (bdev b) (blockno b) l (refcnt b) (prev b) (next b) (bufdata b).
Definition set_refcnt (z : Z) (b : buf) : buf :=
  mkBuf (flags b) (bdev b) (blockno b) (block_lock b) z (prev b) (next b) (bufdata b).
Definition set_prev (p : nat) (b : buf) : buf :=
  mkBuf (flags b) (bdev b) (blockno b) (block_lock b) (refcnt b) p (next b) (bufdata b).
Definition set_next (p : nat) (b : buf) : buf :=
  mkBuf (flags b) (bdev b) (blockno b) (block_lock b) (refcnt b) (prev b) p (bufdata b).
Definition set_bufdata (x : block) (b : buf) : buf :=
  mkBuf (flags b) (bdev b) (blockno b) (block_lock b) (refcnt b) (prev b) (next b) x.

Definition getb (i : nat) : M bcache buf := gets (fun s => barr s i).
Definition updb (i : nat) (f : buf -> buf) : M bcache unit :=
  modify (fun s => set_barr (aupd (barr s) i (f (barr s i))) s).

Definition acquire_bc : M bcache unit := acquire_flag bclock set_bclock.
Definition release_bc : M bcache unit := release_flag bclock set_bclock.

(** Code of [Sleeplock] on the lock of buffer [i]. *)
Definition on_lock {A} (i : nat) (m : M slstate A) : M bcache A :=
  zoom (fun s => mkSl (block_lock (barr s i)) (bcur s) (bwoken s))
       (fun t s => set_bwoken (slwoken t) (set_barr (aupd (barr s) i (set_lock (sl t) (barr s i))) s)) m.

(** The body of the loop of [binit], then the loop. *)
Definition binit_one (b : nat) : M bcache unit :=
  h <- getb head ;;
  updb b (set_next (next h)) ;;
  updb b (set_prev head) ;;
  on_lock b initsleeplock ;;
  h <- getb head ;;
  updb (next h) (set_prev b) ;;
  updb head (set_next b).

Fixpoint binit_loop (b n : nat) : M bcache unit :=
  match n with
  | O => ret tt
  | S k => binit_one b ;; binit_loop (S b) k
  end.

Definition binit : M bcache unit :=
  modify (set_bclock false) ;;
  updb head (set_prev head) ;;
  updb head (set_next head) ;;
  binit_loop 0 NBUF.

(** The two loops of [bget].  [fuel] bounds the walk; the list has [NBUF]
    elements, so [NBUF + 1] tests suffice. *)
Fixpoint find_cached (fuel : nat) (b : nat) (dev n : Z) : M bcache (option nat) :=
  match fuel with
  | O => spin
  | S k =>
      if bool_decide (b = head) then ret None else
      x <- getb b ;;
      if (bdev x =? dev) && (blockno x =? n) then ret (Some b)
      else find_cached k (next x) dev n
  end.

Fixpoint find_unused (fuel : nat) (b : nat) : M bcache (option nat) :=
  match fuel with
  | O => spin
  | S k =>
      if bool_decide (b = head) then ret None else
      x <- getb b ;;
      if (refcnt x =? 0) && (Z.land (flags x) B_DIRTY =? 0) then ret (Some b)
      else find_unused k (prev x)
  end.

(** The part of [bget] under [bcache.lock]: a reference to the buffer of block [n]
    of [dev]. *)
Definition bget_ref (dev n : Z) : M bcache nat :=
  acquire_bc ;;
  h <- getb head ;;
  r <- find_cached (S NBUF) (next h) dev n ;;
  match r with
  | Some b =>
      updb b (fun x => set_refcnt (refcnt x + 1) x) ;;
      release_bc ;;
      ret b
  | None =>
      r <- find_unused (S NBUF) (prev h) ;;
      match r with
      | Some b =>
          updb b (fun x => mkBuf 0 dev n (block_lock x) 1 (prev x) (next x) (bufdata x)) ;;
          release_bc ;;
          ret b
      | None => panic "bget: no buffers"
      end
  end.

(** [bget]; a process that sleeps in it resumes with [acquiresleep]. *)
Definition bget (dev n : Z) : M bcache nat :=
  b <- bget_ref dev n ;;
  on_lock b (acquiresleep (CSleeplock b)) ;;
  ret b.

(** What a disk driver does with a locked buffer that is dirty or not valid: the
    reference behaviour of [iderw]. *)
Definition sync (b : nat) (s : bcache) : bcache :=
  let x := barr s b in
  if negb (Z.land (flags x) B_DIRTY =? 0) then
    set_disk (bupd (bdisk s) (blockno x) (bufdata x)) (bdwrites s ++ [(blockno x, bufdata x)])
      (set_barr (aupd (barr s) b (set_flags (Z.lor (Z.land (flags x) (Z.lnot B_DIRTY)) B_VALID) x)) s)
  else
    set_barr (aupd (barr s) b (set_flags (Z.lor (flags x) B_VALID) (set_bufdata (bdisk s (blockno x)) x))) s.

(** The running process holds the sleep lock of [x]. *)
Definition held_by (cur : Z) (x : buf) : Prop :=
  slk (block_lock x) = false /\ slocked (block_lock x) = true /\ slpid (block_lock x) = cur.

Class Driver := {
  iderw : nat -> M bcache unit;
  disksize : Z;
  iderw_sync : forall b s,
    held_by (bcur s) (barr s b) ->
    Z.land (flags (barr s b)) (Z.lor B_VALID B_DIRTY) <> B_VALID ->
    bdev (barr s b) = ROOTDEV -> 0 <= blockno (barr s b) < disksize ->
    exists wk, iderw b s = (Ok tt, set_bwoken wk (sync b s));
}.

Section Cache.
Context {drv : Driver}.

Definition bread_fill (b : nat) : M bcache nat :=
  x <- getb b ;;
  (if Z.land (flags x) B_VALID =? 0 then iderw b else ret tt) ;;
  ret b.

Definition bread (dev n : Z) : M bcache nat :=
  b <- bget dev n ;;
  bread_fill b.

Definition bwrite (b : nat) : M bcache unit :=
  h <- on_lock b holdingsleep ;;
  if negb h then panic "bwrite" else
  updb b (fun x => set_flags (Z.lor (flags x) B_DIRTY) x) ;;
  iderw b.
End Cache.

(** Unlink [b] and put it at the front of the MRU list. *)
Definition mru_front (b : nat) : M bcache unit :=
  x <- getb b ;;
  updb (next x) (set_prev (prev x)) ;;
  x <- getb b ;;
  updb (prev x) (set_next (next x)) ;;
  h <- getb head ;;
  updb b (set_next (next h)) ;;
  updb b (set_prev head) ;;
  h <- getb head ;;
  updb (next h) (set_prev b) ;;
  updb head (set_next b).

Definition brelse (b : nat) : M bcache unit :=
  h <- on_lock b holdingsleep ;;
  if negb h then panic "brelse" else
  on_lock b (releasesleep (CSleeplock b)) ;;
  acquire_bc ;;
  updb b (fun x => set_refcnt (refcnt x - 1) x) ;;
  x <- getb b ;;
  (if refcnt x =? 0 then mru_front b else ret tt) ;;
  release_bc.

(** ** The memory disk *)
Definition memide_rw (size : Z) (b : nat) : M bcache unit :=
  h <- on_lock b holdingsleep ;;
  if negb h then panic "iderw: buf not locked" else
  x <- getb b ;;
  if Z.land (flags x) (Z.lor B_VALID B_DIRTY) =? B_VALID then panic "iderw: nothing to do" else
  if negb (bdev x =? 1) then panic "iderw: request not for disk 1" else
  if size <=? blockno x then panic "iderw: block out of range" else
  (if negb (Z.land (flags x) B_DIRTY =? 0) then
     updb b (set_flags (Z.land (flags x) (Z.lnot B_DIRTY))) ;;
     modify (fun s => set_disk (bupd (bdisk s) (blockno x) (bufdata x))
                               (bdwrites s ++ [(blockno x, bufdata x)]) s)
   else
     modify (fun s => set_barr (aupd (barr s) b (set_bufdata (bdisk s (blockno x)) (barr s b))) s)) ;;
  updb b (fun x => set_flags (Z.lor (flags x) B_VALID) x).

(** ** Arrays and locks *)

Lemma aupd_eq {A} (f : nat -> A) i x : aupd f i x i = x.
Proof. unfold aupd. by rewrite decide_True. Qed.

Lemma aupd_ne {A} (f : nat -> A) i x j : j <> i -> aupd f i x j = f j.
Proof. intros H. unfold aupd. by rewrite decide_False. Qed.

Lemma aupd_aupd {A} (f : nat -> A) i x y : aupd (aupd f i x) i y = aupd f i y.
Proof. extensionality j. unfold aupd. by case_decide. Qed.

Lemma aupd_id {A} (f : nat -> A) i : aupd f i (f i) = f.
Proof. extensionality j. unfold aupd. case_decide; by subst. Qed.

Lemma on_lock_run {A} i (m : M slstate A) s r t :
  m (mkSl (block_lock (barr s i)) (bcur s) (bwoken s)) = (r, t) ->
  on_lock i m s = (r, set_bwoken (slwoken t) (set_barr (aupd (barr s) i (set_lock (sl t) (barr s i))) s)).
Proof. intros H. unfold on_lock, zoom. by rewrite H. Qed.

Lemma holdingsleep_at i s :
  slk (block_lock (barr s i)) = false ->
  on_lock i holdingsleep s
  = (Ok (slocked (block_lock (barr s i)) && (slpid (block_lock (barr s i)) =? bcur s)), s).
Proof.
  intros H. erewrite on_lock_run; [|by apply holdingsleep_run]. cbn [sl slwoken slcur].
  replace (set_lock (block_lock (barr s i)) (barr s i)) with (barr s i) by by destruct (barr s i).
  rewrite aupd_id. by destruct s.
Qed.

Lemma holdingsleep_held i s :
  held_by (bcur s) (barr s i) -> on_lock i holdingsleep s = (Ok true, s).
Proof. intros (H1 & H2 & H3). rewrite holdingsleep_at, H2, H3, Z.eqb_refl by done. done. Qed.

Ltac cget := cbn [bclock barr bcur bdisk bdwrites bwoken set_bclock set_barr set_disk set_bwoken
                  flags bdev blockno block_lock refcnt prev next bufdata
                  set_flags set_lock set_refcnt set_prev set_next set_bufdata].

(** The memory disk implements the driver interface. *)
#[export] Program Instance memide (size : Z) : Driver := {
  iderw := memide_rw size;
  disksize := size;
}.
Next Obligation.
  intros size b s Hh Hf Hd Hn. exists (bwoken s). unfold memide_rw. unfold bind at 1.
  rewrite holdingsleep_held by done. cbn [negb]. unfold getb, updb. mrun.
  rewrite (proj2 (Z.eqb_neq _ _) Hf), Hd. cbn [negb Z.eqb Pos.eqb ROOTDEV].
  rewrite (proj2 (Z.leb_gt _ _)) by lia. unfold sync.
  destruct (negb (Z.land (flags (barr s b)) B_DIRTY =? 0)); cget; rewrite aupd_eq, aupd_aupd; by destruct s.
Qed.

(** ** The MRU list *)

(** [c] is threaded: each element's [next] is its successor, whose [prev] is it. *)
Fixpoint chain (nx pv : nat -> nat) (c : list nat) : Prop :=
  match c with
  | x :: (y :: _) as r => nx x = y /\ pv y = x /\ chain nx pv r
  | _ => True
  end.

Lemma chain_app nx pv u x v :
  chain nx pv (u ++ x :: v) <-> chain nx pv (u ++ [x]) /\ chain nx pv (x :: v).
Proof.
  induction u as [|a u IH]; [cbn [app chain]; tauto|].
  destruct u as [|b u]; [cbn [app] in *; destruct v; simpl; tauto|].
  change (nx a = b /\ pv b = a /\ chain nx pv ((b :: u) ++ x :: v) <->
          (nx a = b /\ pv b = a /\ chain nx pv ((b :: u) ++ [x])) /\ chain nx pv (x :: v)).
  rewrite IH. tauto.
Qed.

Lemma thread_ext nx pv nx' pv' c :
  (forall x, x ∈ removelast c -> nx' x = nx x) -> (forall y, y ∈ tail c -> pv' y = pv y) ->
  chain nx pv c -> chain nx' pv' c.
Proof.
  induction c as [|x [|y c] IH]; [done|done|]. intros Hn Hp (H1 & H2 & H3).
  change (nx' x = y /\ pv' y = x /\ chain nx' pv' (y :: c)).
  rewrite Hn, Hp by (rewrite ?elem_of_cons; auto; left). split; [done|]. split; [done|].
  apply IH; [| |done]; intros z Hz.
  - apply Hn. change (removelast (x :: y :: c)) with (x :: removelast (y :: c)). by right.
  - apply Hp. simpl in *. by right.
Qed.

(** The ring of the list [l] from the head back to it. *)
Definition ring (nx pv : nat -> nat) (l : list nat) : Prop := chain nx pv (head :: l ++ [head]).

Lemma removelast_snoc {A} (l : list A) x : removelast (l ++ [x]) = l.
Proof. rewrite removelast_app by done. simpl. by rewrite app_nil_r. Qed.

(** Taking [b] out of the ring: two pointers change. *)
Lemma ring_unlink nx pv nx' pv' l1 b l2 :
  NoDup (head :: l1 ++ b :: l2) -> ring nx pv (l1 ++ b :: l2) ->
  (forall x, nx' x = if decide (x = pv b) then nx b else nx x) ->
  (forall x, pv' x = if decide (x = nx b) then pv b else pv x) ->
  ring nx' pv' (l1 ++ l2).
Proof.
  intros Hd Hr Hnx Hpv. unfold ring in *.
  destruct (exists_last (l := head :: l1) ltac:(done)) as (u & p & Hu).
  destruct (l2 ++ [head]) as [|q v] eqn:Hq; [by destruct l2|].
  assert (Hl1 : l1 = tail (u ++ [p])) by by rewrite <- Hu.
  assert (Hl2 : l2 = removelast (q :: v)) by by rewrite <- Hq, removelast_snoc.
  replace (head :: (l1 ++ b :: l2) ++ [head]) with (u ++ p :: b :: q :: v) in Hr.
  2:{ rewrite <- app_assoc. cbn [app]. rewrite Hq. change (head :: l1 ++ b :: q :: v) with ((head :: l1) ++ b :: q :: v).
      rewrite Hu, <- app_assoc. done. }
  replace (head :: (l1 ++ l2) ++ [head]) with (u ++ p :: q :: v).
  2:{ rewrite <- app_assoc, Hq. change (head :: l1 ++ q :: v) with ((head :: l1) ++ q :: v).
      rewrite Hu, <- app_assoc. done. }
  apply chain_app in Hr as [H1 H2]. destruct H2 as (E1 & E2 & E3 & E4 & H3).
  rewrite E2, E3 in *.
  change (head :: l1 ++ b :: l2) with ((head :: l1) ++ b :: l2) in Hd.
  apply NoDup_app in Hd as (Hd1 & Hd12 & Hd2). apply NoDup_cons in Hd2 as [Hb2 Hd2].
  assert (Hpu : p ∉ u) by (rewrite Hu in Hd1; apply NoDup_app in Hd1 as (_ & Hx & _); intros Hin; apply (Hx p Hin); left).
  assert (Hp : p ∈ head :: l1) by (rewrite Hu; apply elem_of_app; right; left).
  assert (Hqv : q ∉ v).
  { destruct l2 as [|c l2]; [by injection Hq as <- <-; apply not_elem_of_nil|].
    injection Hq as -> <-. rewrite not_elem_of_app. apply NoDup_cons in Hd2 as [? _]. split; [done|].
    intros ->%list_elem_of_singleton. apply (Hd12 head); [left|]. right. left. }
  apply chain_app. split; [|split; [|split]].
  - eapply thread_ext; [| |exact H1].
    + rewrite removelast_snoc. intros x Hx. rewrite Hnx, decide_False; [done|congruence].
    + rewrite <- Hl1. intros y Hy. rewrite Hpv, decide_False; [done|]. intros ->.
      apply NoDup_cons in Hd1 as [Hd1 _]. destruct l2 as [|c l2]; injection Hq as Hq1 Hq2; [congruence|].
      apply (Hd12 q); [by right|]. rewrite Hq1. right. left.
  - by rewrite Hnx, decide_True.
  - by rewrite Hpv, decide_True.
  - eapply thread_ext; [| |exact H3].
    + rewrite <- Hl2. intros x Hx. rewrite Hnx, decide_False; [done|]. intros ->.
      apply (Hd12 p Hp). by right.
    + intros y Hy. rewrite Hpv, decide_False; [done|]. simpl in Hy. congruence.
Qed.

(** Putting [b] right after the head. *)
Lemma ring_insert nx pv nx' pv' b l :
  b ∉ head :: l -> NoDup (head :: l) -> ring nx pv l ->
  (forall x, nx' x = if decide (x = head) then b else if decide (x = b) then nx head else nx x) ->
  (forall x, pv' x = if decide (x = nx head) then b else if decide (x = b) then head else pv x) ->
  ring nx' pv' (b :: l).
Proof.
  intros Hb Hd Hr Hnx Hpv. unfold ring in *. cbn [app].
  apply not_elem_of_cons in Hb as [Hbh Hbl]. apply NoDup_cons in Hd as [Hh Hd].
  destruct (l ++ [head]) as [|f v] eqn:Hf; [by destruct l|].
  assert (Hl : l = removelast (f :: v)) by by rewrite <- Hf, removelast_snoc.
  destruct Hr as (E1 & E2 & H3). rewrite E1 in *.
  assert (Hbf : b <> f) by (intros ->; destruct l as [|c l]; injection Hf as Hf1 Hf2; [congruence|]; apply Hbl; rewrite Hf1; left).
  assert (Hfv : f ∉ v).
  { destruct l as [|c l]; [by injection Hf as <- <-; apply not_elem_of_nil|]. injection Hf as -> <-.
    apply NoDup_cons in Hd as [Hd _]. rewrite not_elem_of_app. split; [done|].
    intros ->%list_elem_of_singleton. apply Hh. left. }
  assert (Hbv : b ∉ v).
  { intros Hin. assert (Hin' : b ∈ l ++ [head]) by (rewrite Hf; by right).
    apply elem_of_app in Hin' as [?|?%list_elem_of_singleton]; done. }
  split; [by rewrite Hnx, decide_True|]. split; [by rewrite Hpv, decide_False, decide_True|].
  split; [by rewrite Hnx, decide_False, decide_True|]. split; [by rewrite Hpv, decide_True|].
  eapply thread_ext; [| |exact H3].
  - rewrite <- Hl. intros x Hx. rewrite Hnx, !decide_False; congruence.
  - intros y Hy. simpl in Hy. rewrite Hpv, !decide_False; congruence.
Qed.

(** ** Walking the list *)

Definition nexts (s : bcache) : nat -> nat := fun i => next (barr s i).
Definition prevs (s : bcache) : nat -> nat := fun i => prev (barr s i).

Lemma find_cached_walk dev n s l2 : forall l1 fuel p,
  ring (nexts s) (prevs s) (l1 ++ l2) -> last (head :: l1) = Some p ->
  NoDup (head :: l1 ++ l2) -> (length l2 < fuel)%nat ->
  exists r, find_cached fuel (nexts s p) dev n s = (Ok r, s)
    /\ match r with
       | Some b => b ∈ l2 /\ bdev (barr s b) = dev /\ blockno (barr s b) = n
       | None => forall b, b ∈ l2 -> ~ (bdev (barr s b) = dev /\ blockno (barr s b) = n)
       end.
Proof.
  induction l2 as [|b l2 IH]; intros l1 fuel p Hr Hp Hd Hf; (destruct fuel as [|k]; [lia|]).
  - apply last_Some in Hp as [u Hu]. rewrite app_nil_r in Hr. unfold ring in Hr.
    change (head :: l1 ++ [head]) with ((head :: l1) ++ [head]) in Hr.
    rewrite Hu, <- app_assoc in Hr. apply chain_app in Hr as [_ (Hn & _ & _)].
    exists None. cbn [find_cached]. rewrite Hn, bool_decide_eq_true_2 by done. split; [done|].
    by intros b ?%elem_of_nil.
  - apply last_Some in Hp as [u Hu].
    assert (Hn : nexts s p = b).
    { unfold ring in Hr. change (head :: (l1 ++ b :: l2) ++ [head]) with (((head :: l1) ++ b :: l2) ++ [head]) in Hr.
      rewrite Hu, <- !app_assoc in Hr. by apply chain_app in Hr as [_ (Hn & _ & _)]. }
    assert (Hbh : b <> head).
    { intros ->. apply NoDup_cons in Hd as [Hd _]. apply Hd, elem_of_app. right. left. }
    cbn [find_cached]. rewrite Hn, bool_decide_eq_false_2 by done. unfold getb. mrun.
    destruct ((bdev (barr s b) =? dev) && (blockno (barr s b) =? n)) eqn:E.
    + exists (Some b). split; [done|]. split; [left|]. apply andb_true_iff in E. lia.
    + destruct (IH (l1 ++ [b]) k b) as (r & Er & Hr').
      * by rewrite <- app_assoc.
      * by rewrite app_comm_cons, last_snoc.
      * by rewrite <- app_assoc.
      * simpl in Hf. lia.
      * exists r. split; [exact Er|]. destruct r as [c|].
        -- destruct Hr' as [Hc Hr']. split; [by right|done].
        -- intros c [->|Hc]%elem_of_cons; [|by apply Hr']. apply andb_false_iff in E. lia.
Qed.

Lemma find_unused_walk s l1 : forall l2 fuel q,
  ring (nexts s) (prevs s) (l1 ++ l2) -> hd_error (l2 ++ [head]) = Some q ->
  NoDup (head :: l1 ++ l2) -> (length l1 < fuel)%nat ->
  exists r, find_unused fuel (prevs s q) s = (Ok r, s)
    /\ match r with
       | Some b => b ∈ l1 /\ refcnt (barr s b) = 0 /\ Z.land (flags (barr s b)) B_DIRTY = 0
       | None => forall b, b ∈ l1 -> ~ (refcnt (barr s b) = 0 /\ Z.land (flags (barr s b)) B_DIRTY = 0)
       end.
Proof.
  induction l1 as [|b l1 IH] using rev_ind; intros l2 fuel q Hr Hq Hd Hf; (destruct fuel as [|k]; [lia|]);
    (destruct (l2 ++ [head]) as [|q' v] eqn:Hv; [by destruct l2|]); simpl in Hq; injection Hq as ->;
    unfold ring in Hr; rewrite <- app_assoc in Hr.
  - cbn [app] in Hr. rewrite Hv in Hr. destruct Hr as (_ & Hp & _).
    exists None. cbn [find_unused]. rewrite Hp, bool_decide_eq_true_2 by done. split; [done|].
    by intros b ?%elem_of_nil.
  - assert (Hp : prevs s q = b).
    { rewrite Hv, <- app_assoc, app_comm_cons in Hr. apply chain_app in Hr as [_ (_ & Hp & _)]. done. }
    assert (Hbh : b <> head).
    { intros ->. apply NoDup_cons in Hd as [Hd _]. apply Hd. rewrite !elem_of_app. left. right. left. }
    cbn [find_unused]. rewrite Hp, bool_decide_eq_false_2 by done. unfold getb. mrun.
    destruct ((refcnt (barr s b) =? 0) && (Z.land (flags (barr s b)) B_DIRTY =? 0)) eqn:E.
    + exists (Some b). split; [done|]. apply andb_true_iff in E. rewrite elem_of_app, elem_of_cons. lia || (split; [tauto|lia]).
    + destruct (IH (b :: l2) k b) as (r & Er & Hr').
      * unfold ring. rewrite <- !app_assoc. by rewrite <- app_assoc in Hr.
      * done.
      * by rewrite <- app_assoc in Hd.
      * rewrite length_app in Hf. simpl in Hf. lia.
      * exists r. split; [exact Er|]. destruct r as [c|].
        -- destruct Hr' as [Hc Hr']. split; [|done]. apply elem_of_app. by left.
        -- intros c [Hc| ->%list_elem_of_singleton]%elem_of_app; [by apply Hr'|]. apply andb_false_iff in E. lia.
Qed.

(** ** The cache implements the block operations *)

Definition valid (x : buf) : bool := negb (Z.land (flags x) B_VALID =? 0).
Definition dirty (x : buf) : bool := negb (Z.land (flags x) B_DIRTY =? 0).

(** What a buffer owes to the abstract state [a]: it shows the current contents of
    its block, an unlocked clean buffer agrees with the disk (so it may be
    recycled), a locked one has a reference. *)
Record buf_ok (size : Z) (a : blk) (x : buf) : Prop := mkBufOk {
  bok_slk : slk (block_lock x) = false;
  bok_ref : 0 <= refcnt x /\ (slocked (block_lock x) = true -> 1 <= refcnt x);
  bok_dirty : dirty x = true -> valid x = true;
  bok_range : bdev x = ROOTDEV -> 0 <= blockno x < size;
  bok_view : bdev x = ROOTDEV -> view a (blockno x) = if valid x then bufdata x else disk a (blockno x);
  bok_clean : bdev x = ROOTDEV -> valid x = true -> dirty x = false ->
              slocked (block_lock x) = false -> bufdata x = disk a (blockno x);
  bok_held : bdev x = ROOTDEV -> slocked (block_lock x) = true <-> blockno x ∈ bheld a;
}.

Definition uncached (s : bcache) (n : Z) : Prop :=
  forall b, (b < NBUF)%nat -> bdev (barr s b) = ROOTDEV -> blockno (barr s b) <> n.

Definition mru (s : bcache) (l : list nat) : Prop :=
  ring (nexts s) (prevs s) l /\ l ≡ₚ seq 0 NBUF.

Record rel (size : Z) (s : bcache) (a : blk) : Prop := mkRel {
  rel_lock : bclock s = false;
  rel_mru : exists l, mru s l;
  rel_disk : disk a = bdisk s;
  rel_writes : writes a = bdwrites s;
  rel_uniq : forall b b', (b < NBUF)%nat -> (b' < NBUF)%nat ->
               bdev (barr s b) = ROOTDEV -> bdev (barr s b') = ROOTDEV ->
               blockno (barr s b) = blockno (barr s b') -> b = b';
  rel_buf : forall b, (b < NBUF)%nat -> buf_ok size a (barr s b);
  rel_out : forall n, uncached s n -> view a n = disk a n /\ n ∉ bheld a;
}.

Lemma mru_in s l b : mru s l -> b ∈ l <-> (b < NBUF)%nat.
Proof. intros [_ Hp]. rewrite Hp, elem_of_seq. lia. Qed.

Lemma mru_nodup s l : mru s l -> NoDup (head :: l).
Proof.
  intros Hm. apply NoDup_cons. split.
  - rewrite (mru_in s l) by done. unfold head. lia.
  - destruct Hm as [_ ->]. apply NoDup_seq.
Qed.

(** The fields of a buffer other than the list pointers. *)
Definition strip (x : buf) : buf := set_prev 0 (set_next 0 x).

Lemma buf_ok_strip size a x y : strip x = strip y -> buf_ok size a x -> buf_ok size a y.
Proof.
  intros Hs [H1 H2 H3 H4 H5 H6 H7]. destruct x, y. unfold strip in Hs. simpl in Hs.
  injection Hs as -> -> -> -> -> ->. by split.
Qed.

(** Abstract states that agree except at block [n]. *)
Definition agree_off (n : Z) (a a' : blk) : Prop :=
  forall m, m <> n -> view a' m = view a m /\ disk a' m = disk a m /\ (m ∈ bheld a' <-> m ∈ bheld a).

Lemma buf_ok_agree size n a a' x :
  agree_off n a a' -> (bdev x = ROOTDEV -> blockno x <> n) -> buf_ok size a x -> buf_ok size a' x.
Proof.
  intros Hag Hne [H1 H2 H3 H4 H5 H6 H7]. split; try done; intros Hd;
    destruct (Hag (blockno x) (Hne Hd)) as (Ev & Ed & Eh); rewrite ?Ev, ?Ed, ?Eh; auto.
Qed.

(** One buffer changes, for the block [n] it now holds; every operation of the
    cache is an instance.  Either it held [n] before, or its old block needs no
    buffer and [n] had none. *)
Lemma rel_change size s s' a a' b n :
  rel size s a -> (b < NBUF)%nat -> bclock s' = false -> (exists l, mru s' l) ->
  disk a' = bdisk s' -> writes a' = bdwrites s' ->
  (forall i, i <> b -> strip (barr s' i) = strip (barr s i)) ->
  bdev (barr s' b) = ROOTDEV -> blockno (barr s' b) = n ->
  agree_off n a a' -> buf_ok size a' (barr s' b) ->
  (bdev (barr s b) = ROOTDEV /\ blockno (barr s b) = n)
  \/ (uncached s n /\ (bdev (barr s b) = ROOTDEV -> blockno (barr s b) <> n ->
        view a (blockno (barr s b)) = disk a (blockno (barr s b)) /\ blockno (barr s b) ∉ bheld a)) ->
  rel size s' a'.
Proof.
  intros [Rl Rm Rd Rw Ru Rb Ro] Hb Hl Hm Hd Hw Hi Hdev Hno Hag Hbok Hkey.
  assert (Hf : forall i, i <> b -> bdev (barr s' i) = bdev (barr s i) /\ blockno (barr s' i) = blockno (barr s i)).
  { intros i Hne. specialize (Hi i Hne). apply (f_equal bdev) in Hi as H1. by apply (f_equal blockno) in Hi as H2. }
  assert (Hother : forall i, (i < NBUF)%nat -> i <> b -> bdev (barr s i) = ROOTDEV -> blockno (barr s i) <> n).
  { intros i Hin Hne Hdi Hni. destruct Hkey as [[Hk1 Hk2]|[Hk _]]; [|by apply (Hk i)].
    apply Hne, Ru; congruence. }
  split; try done.
  - intros i j Hin Hj Hdi Hdj He. destruct (decide (i = b)) as [->|Hib], (decide (j = b)) as [->|Hjb]; [done| | |].
    + destruct (Hf j Hjb) as [F1 F2]. exfalso. apply (Hother j Hj Hjb); congruence.
    + destruct (Hf i Hib) as [F1 F2]. exfalso. apply (Hother i Hin Hib); congruence.
    + destruct (Hf i Hib) as [F1 F2], (Hf j Hjb) as [F3 F4]. apply Ru; congruence.
  - intros i Hin. destruct (decide (i = b)) as [->|Hib]; [done|].
    eapply buf_ok_strip; [symmetry; by apply Hi|]. eapply buf_ok_agree; [exact Hag| |by apply Rb].
    by apply Hother.
  - intros m Hm'. assert (Hmn : m <> n) by (intros ->; by apply (Hm' b)).
    destruct (Hag m Hmn) as (Ev & Ed & Eh). rewrite Ev, Ed, Eh.
    destruct (decide (bdev (barr s b) = ROOTDEV /\ blockno (barr s b) = m)) as [[K1 <-]|Hnk].
    + destruct Hkey as [[_ ?]|[_ Hk]]; [congruence|]. by apply Hk.
    + apply Ro. intros i Hin Hdi Hni. destruct (decide (i = b)) as [->|Hib]; [by apply Hnk|].
      destruct (Hf i Hib) as [F1 F2]. apply (Hm' i); congruence.
Qed.

(** ** Flags and fields *)

Lemma valid_bit x : valid x = Z.testbit (flags x) 1.
Proof. unfold valid. change B_VALID with (2 ^ 1). by rewrite land_pow2, negb_involutive by lia. Qed.

Lemma dirty_bit x : dirty x = Z.testbit (flags x) 2.
Proof. unfold dirty. change B_DIRTY with (2 ^ 2). by rewrite land_pow2, negb_involutive by lia. Qed.

Ltac flag_bits :=
  rewrite ?valid_bit, ?dirty_bit; cget;
  repeat first [rewrite Z.lor_spec | rewrite Z.land_spec | rewrite Z.lnot_spec by lia];
  rewrite ?orb_true_r, ?orb_false_r, ?andb_true_r, ?andb_false_r.

(** A driver may be called on a buffer that is dirty or not valid. *)
Lemma driver_may x : valid x = false \/ dirty x = true -> Z.land (flags x) (Z.lor B_VALID B_DIRTY) <> B_VALID.
Proof.
  rewrite valid_bit, dirty_bit. intros H E.
  apply (f_equal (fun z => (Z.testbit z 1, Z.testbit z 2))) in E. rewrite !Z.land_spec in E.
  destruct (Z.testbit (flags x) 1), (Z.testbit (flags x) 2); simpl in E; destruct H; congruence.
Qed.

(** Changes that leave the pointers alone keep the list. *)
Lemma mru_links s s' l :
  (forall i, next (barr s' i) = next (barr s i) /\ prev (barr s' i) = prev (barr s i)) ->
  mru s l -> mru s' l.
Proof.
  intros H [Hr Hp]. split; [|done]. eapply thread_ext; [| |exact Hr]; intros x _; apply H.
Qed.

Lemma mru_aupd s l b x :
  next x = next (barr s b) -> prev x = prev (barr s b) -> mru s l ->
  mru (set_barr (aupd (barr s) b x) s) l.
Proof.
  intros H1 H2. apply mru_links. intros i. cget. destruct (decide (i = b)) as [->|Hne].
  - by rewrite aupd_eq.
  - by rewrite aupd_ne.
Qed.

(** ** Pointer updates *)

Definition link_prev (f : nat -> buf) (i p : nat) : nat -> buf := aupd f i (set_prev p (f i)).
Definition link_next (f : nat -> buf) (i p : nat) : nat -> buf := aupd f i (set_next p (f i)).

Lemma prev_link_prev f i p j : prev (link_prev f i p j) = if decide (j = i) then p else prev (f j).
Proof. unfold link_prev, aupd. by case_decide. Qed.
Lemma next_link_prev f i p j : next (link_prev f i p j) = next (f j).
Proof. unfold link_prev, aupd. case_decide; by subst. Qed.
Lemma prev_link_next f i p j : prev (link_next f i p j) = prev (f j).
Proof. unfold link_next, aupd. case_decide; by subst. Qed.
Lemma next_link_next f i p j : next (link_next f i p j) = if decide (j = i) then p else next (f j).
Proof. unfold link_next, aupd. by case_decide. Qed.
Lemma strip_link_prev f i p j : strip (link_prev f i p j) = strip (f j).
Proof. unfold link_prev, aupd. case_decide; by subst. Qed.
Lemma strip_link_next f i p j : strip (link_next f i p j) = strip (f j).
Proof. unfold link_next, aupd. case_decide; by subst. Qed.

Create Rewrite HintDb links.
#[export] Hint Rewrite prev_link_prev next_link_prev prev_link_next next_link_next
  strip_link_prev strip_link_next : links.

Lemma updb_prev i p s : updb i (set_prev p) s = (Ok tt, set_barr (link_prev (barr s) i p) s).
Proof. done. Qed.
Lemma updb_next i p s : updb i (set_next p) s = (Ok tt, set_barr (link_next (barr s) i p) s).
Proof. done. Qed.

(** Neither neighbour of an element of the list is the element itself. *)
Lemma ring_next_ne nx pv l1 b l2 :
  NoDup (head :: l1 ++ b :: l2) -> ring nx pv (l1 ++ b :: l2) -> nx b <> b.
Proof.
  intros Hd Hr. unfold ring in Hr. rewrite <- app_assoc, app_comm_cons in Hr.
  change ((b :: l2) ++ [head]) with (b :: l2 ++ [head]) in Hr.
  apply chain_app in Hr as [_ Hr]. apply NoDup_cons in Hd as [Hh Hd].
  apply NoDup_app in Hd as (_ & _ & Hd). apply NoDup_cons in Hd as [Hb _].
  destruct l2 as [|c l2]; cbn [app] in Hr; destruct Hr as (-> & _ & _).
  - intros <-. apply Hh, elem_of_app. right. left.
  - intros ->. apply Hb. left.
Qed.

(** [brelse] of the last reference moves the buffer to the front of the list and
    changes nothing but the list. *)
Lemma mru_front_run s l1 b l2 :
  mru s (l1 ++ b :: l2) ->
  exists f, mru_front b s = (Ok tt, set_barr f s) /\ (forall i, strip (f i) = strip (barr s i))
    /\ mru (set_barr f s) (b :: l1 ++ l2).
Proof.
  intros Hm. pose proof (mru_nodup _ _ Hm) as Hd. destruct Hm as [Hr Hp].
  pose proof (ring_next_ne _ _ _ _ _ Hd Hr) as Hne.
  assert (Hbh : b <> head) by (intros ->; apply NoDup_cons in Hd as [Hd _]; apply Hd, elem_of_app; right; left).
  eexists. split; [|split].
  - unfold mru_front, getb, bind, gets. repeat (rewrite updb_prev || rewrite updb_next). cget. reflexivity.
  - intros i. by autorewrite with links.
  - split; [|by rewrite <- Hp, Permutation_middle].
    eapply (ring_insert
      (nexts (set_barr (link_next (link_prev (barr s) (nexts s b) (prevs s b)) (prevs s b) (nexts s b)) s))
      (prevs (set_barr (link_next (link_prev (barr s) (nexts s b) (prevs s b)) (prevs s b) (nexts s b)) s))).
    + rewrite not_elem_of_cons. apply NoDup_cons in Hd as [_ Hd]. rewrite <- Permutation_middle in Hd.
      apply NoDup_cons in Hd as [Hd _]. done.
    + rewrite <- Permutation_middle, Permutation_swap in Hd. by apply NoDup_cons in Hd as [_ Hd].
    + eapply ring_unlink; [exact Hd|exact Hr| |]; intros x; unfold nexts, prevs; cget; by autorewrite with links.
    + intros x. unfold nexts, prevs in *. cget. autorewrite with links. repeat case_decide; congruence.
    + intros x. unfold nexts, prevs in *. cget. autorewrite with links. repeat case_decide; congruence.
Qed.

Section Refine.
Context {drv : Driver}.
Abbreviation rels := (rel disksize).

(** The buffer once [bread] has filled it. *)
Definition filled (d : blockmap) (x : buf) : buf :=
  if valid x then x else set_flags (Z.lor (flags x) B_VALID) (set_bufdata (d (blockno x)) x).

Lemma bread_fill_run b s :
  held_by (bcur s) (barr s b) -> bdev (barr s b) = ROOTDEV -> 0 <= blockno (barr s b) < disksize ->
  (dirty (barr s b) = true -> valid (barr s b) = true) ->
  exists wk, bread_fill b s
    = (Ok b, set_bwoken wk (set_barr (aupd (barr s) b (filled (bdisk s) (barr s b))) s)).
Proof.
  intros Hh Hd Hr Hdv. unfold bread_fill, getb, filled. mrun.
  destruct (Z.land (flags (barr s b)) B_VALID =? 0) eqn:Hv;
    assert (Hv' : valid (barr s b) = negb (Z.land (flags (barr s b)) B_VALID =? 0)) by done; rewrite Hv in Hv'; rewrite Hv'.
  - destruct (iderw_sync b s Hh) as (wk & ->); [by apply driver_may; left|done|done|].
    exists wk. unfold sync. fold (dirty (barr s b)).
    destruct (dirty (barr s b)); [|done]. specialize (Hdv eq_refl). by rewrite Hv' in Hdv.
  - exists (bwoken s). cbn [negb]. rewrite aupd_id. by destruct s.
Qed.

(** [bget] after the reference is taken, and the read. *)
Lemma bread_lock_run b s :
  slk (block_lock (barr s b)) = false -> slocked (block_lock (barr s b)) = false ->
  bdev (barr s b) = ROOTDEV -> 0 <= blockno (barr s b) < disksize ->
  (dirty (barr s b) = true -> valid (barr s b) = true) ->
  exists wk, (on_lock b (acquiresleep (CSleeplock b)) ;; bread_fill b) s
    = (Ok b, set_bwoken wk (set_barr (aupd (barr s) b
               (filled (bdisk s) (set_lock (mkSleeplock false true (bcur s)) (barr s b)))) s)).
Proof.
  intros Hk Hl Hd Hr Hdv. unfold bind. erewrite on_lock_run; [|by apply acquiresleep_free].
  cbn [sl set_sl slcur slwoken].
  set (s1 := set_bwoken _ _). destruct (bread_fill_run b s1) as (wk & E); unfold s1; cget; rewrite ?aupd_eq; try done.
  exists wk. fold s1. rewrite E. unfold s1. cget. by rewrite aupd_eq, aupd_aupd.
Qed.

Lemma bread_split dev n s b s1 :
  bget_ref dev n s = (Ok b, s1) ->
  bread dev n s = (on_lock b (acquiresleep (CSleeplock b)) ;; bread_fill b) s1.
Proof.
  intros H. unfold bread, bget. unfold bind. rewrite H.
  by destruct (on_lock b (acquiresleep (CSleeplock b)) s1) as [[] ?].
Qed.

Lemma bget_ref_cached a n b s :
  rels s a -> (b < NBUF)%nat -> bdev (barr s b) = ROOTDEV -> blockno (barr s b) = n ->
  bget_ref ROOTDEV n s
  = (Ok b, set_barr (aupd (barr s) b (set_refcnt (refcnt (barr s b) + 1) (barr s b))) s).
Proof.
  intros [Hl [l Hm] _ _ Hu _ _] Hb Hd Hn. unfold bget_ref, acquire_bc, release_bc. mrun. rewrite Hl.
  unfold getb. mrun. cget. set (s1 := set_bclock true s).
  destruct (find_cached_walk ROOTDEV n s1 l [] (S NBUF) head) as (r & E & Hr).
  - apply Hm.
  - done.
  - by eapply mru_nodup.
  - destruct Hm as [_ ->]. rewrite length_seq. lia.
  - change (next (barr s head)) with (nexts s1 head). rewrite E. destruct r as [c|].
    + destruct Hr as (Hc & Hc1 & Hc2). apply (mru_in s l) in Hc; [|done].
      rewrite (Hu c b Hc Hb Hc1 Hd); [|exact (eq_trans Hc2 (eq_sym Hn))].
      unfold s1, updb. cget. mrun. cget. destruct s. simpl in *. by subst.
    + exfalso. apply (Hr b); [by eapply mru_in|done].
Qed.

Lemma bget_ref_recycled a n s :
  rels s a -> uncached s n ->
  (exists b, (b < NBUF)%nat /\ refcnt (barr s b) = 0 /\ dirty (barr s b) = false) ->
  exists b, (b < NBUF)%nat /\ refcnt (barr s b) = 0 /\ dirty (barr s b) = false
    /\ bget_ref ROOTDEV n s
       = (Ok b, set_barr (aupd (barr s) b (mkBuf 0 ROOTDEV n (block_lock (barr s b)) 1
                  (prev (barr s b)) (next (barr s b)) (bufdata (barr s b)))) s).
Proof.
  intros [Hl [l Hm] _ _ Hu _ _] Hunc (b0 & Hb0 & Hr0 & Hd0).
  unfold bget_ref, acquire_bc, release_bc. mrun. rewrite Hl.
  unfold getb. mrun. cget. set (s1 := set_bclock true s).
  assert (Hlen : length l = NBUF) by (destruct Hm as [_ ->]; apply length_seq).
  destruct (find_cached_walk ROOTDEV n s1 l [] (S NBUF) head) as (r & E & Hr); [apply Hm|done|by eapply mru_nodup|lia|].
  change (next (barr s head)) with (nexts s1 head). rewrite E. destruct r as [c|].
  { destruct Hr as (Hc & Hc1 & Hc2). exfalso. apply (mru_in s l) in Hc; [|done]. by apply (Hunc c). }
  destruct (find_unused_walk s1 l [] (S NBUF) head) as (r & E' & Hr'); rewrite ?app_nil_r; [apply Hm|done|by eapply mru_nodup|lia|].
  change (prev (barr s head)) with (prevs s1 head). rewrite E'. destruct r as [c|].
  - destruct Hr' as (Hc & Hc1 & Hc2). apply (mru_in s l) in Hc; [|done]. exists c.
    split; [done|]. split; [done|]. split; [apply negb_false_iff, Z.eqb_eq; exact Hc2|].
    unfold s1, updb. cget. mrun. cget. destruct s. simpl in *. by subst.
  - exfalso. apply (Hr' b0); [by eapply mru_in|]. split; [done|]. unfold dirty in Hd0.
    apply negb_false_iff in Hd0. by apply Z.eqb_eq in Hd0.
Qed.

Lemma filled_valid d x : valid (filled d x) = true.
Proof.
  unfold filled. destruct (valid x) eqn:E; [done|]. flag_bits. done.
Qed.

Lemma filled_fields d x :
  bdev (filled d x) = bdev x /\ blockno (filled d x) = blockno x /\ block_lock (filled d x) = block_lock x
  /\ refcnt (filled d x) = refcnt x /\ next (filled d x) = next x /\ prev (filled d x) = prev x
  /\ bufdata (filled d x) = if valid x then bufdata x else d (blockno x).
Proof. unfold filled. by destruct (valid x). Qed.

(** The buffer a [bread] leaves. *)
Lemma bread_buf_ok size a n x cur :
  slk (block_lock x) = false -> 0 <= refcnt x -> bdev x = ROOTDEV -> blockno x = n -> 0 <= n < size ->
  (dirty x = true -> valid x = true) ->
  view a n = (if valid x then bufdata x else disk a n) ->
  buf_ok size (set_bheld (n :: bheld a) a)
         (filled (disk a) (set_lock (mkSleeplock false true cur) (set_refcnt (refcnt x + 1) x))).
Proof.
  intros Hk Hr Hd Hn Hs Hdv Hv.
  set (y := set_lock _ _). destruct (filled_fields (disk a) y) as (F1 & F2 & F3 & F4 & _ & _ & F7).
  pose proof (filled_valid (disk a) y) as Fv. assert (Hvy : valid y = valid x) by done.
  split; rewrite ?F1, ?F2, ?F3, ?F4, ?F7, ?Fv; unfold y; cget; try done.
  - split; [lia|]. intros _. lia.
  - by rewrite Hn.
  - intros _. rewrite Hn. cbn [view set_bheld]. fold y. rewrite Hv, Hvy. done.
  - intros _. rewrite Hn. split; [|done]. intros _. left.
Qed.

(** The process holds buffer [b] of block [n], as [bread] returns it. *)
Definition holds (s : bcache) (b : nat) (n : Z) : Prop :=
  (b < NBUF)%nat /\ bdev (barr s b) = ROOTDEV /\ blockno (barr s b) = n
  /\ held_by (bcur s) (barr s b) /\ valid (barr s b) = true.

(** [bread] from the buffer [x] that [bget_ref] chose. *)
Lemma bread_from_ref s a n b x :
  rels s a -> (b < NBUF)%nat -> 0 <= n < disksize -> n ∉ bheld a ->
  bget_ref ROOTDEV n s = (Ok b, set_barr (aupd (barr s) b (set_refcnt (refcnt x + 1) x)) s) ->
  next x = next (barr s b) -> prev x = prev (barr s b) ->
  slk (block_lock x) = false -> slocked (block_lock x) = false -> 0 <= refcnt x ->
  bdev x = ROOTDEV -> blockno x = n -> (dirty x = true -> valid x = true) ->
  view a n = (if valid x then bufdata x else disk a n) ->
  (bdev (barr s b) = ROOTDEV /\ blockno (barr s b) = n)
  \/ (uncached s n /\ (bdev (barr s b) = ROOTDEV -> blockno (barr s b) <> n ->
        view a (blockno (barr s b)) = disk a (blockno (barr s b)) /\ blockno (barr s b) ∉ bheld a)) ->
  exists s', bread ROOTDEV n s = (Ok b, s') /\ rels s' (set_bheld (n :: bheld a) a)
    /\ holds s' b n /\ bufdata (barr s' b) = view a n.
Proof.
  intros Hr Hb Hn Hh Hg Hnx Hpv Hk Hl Hrc Hd Hno Hdv Hv Hkey.
  rewrite (bread_split _ _ _ _ _ Hg).
  match goal with |- exists _, _ ?s1 = _ /\ _ => destruct (bread_lock_run b s1) as (wk & E) end;
    cget; rewrite ?aupd_eq; cget; rewrite ?Hno; try done.
  eexists. split; [exact E|]. clear E. cget. rewrite aupd_eq, aupd_aupd, aupd_eq. cget.
  set (y := set_lock _ _). destruct (filled_fields (bdisk s) y) as (F1 & F2 & F3 & F4 & F5 & F6 & F7).
  pose proof Hr as [Rl [l Rm] Rd Rw _ _ _]. unfold holds. cget. rewrite aupd_eq, F1, F2, F7. split.
  - eapply (rel_change _ s _ a _ b n); cget; rewrite ?aupd_eq, ?F1, ?F2; try done.
    + exists l. apply (mru_aupd s l b); [by rewrite F5|by rewrite F6|done].
    + intros i Hi. by rewrite aupd_ne.
    + intros m Hm. cbn [view disk bheld set_bheld]. split; [done|]. split; [done|].
      rewrite elem_of_cons. intuition congruence.
    + rewrite <- Rd. by apply bread_buf_ok.
  - split; [split; [done|]; split; [done|]; split; [exact Hno|]; split; [unfold held_by; by rewrite F3|apply filled_valid]|].
    rewrite Hv, Rd. change (valid y) with (valid x). change (blockno y) with (blockno x). by rewrite Hno.
Qed.

Definition cached (s : bcache) (n : Z) : Prop :=
  exists b, (b < NBUF)%nat /\ bdev (barr s b) = ROOTDEV /\ blockno (barr s b) = n.

Definition recyclable (s : bcache) : Prop :=
  exists b, (b < NBUF)%nat /\ refcnt (barr s b) = 0 /\ dirty (barr s b) = false.

(** [bread] of a block nobody holds. *)
Lemma bread_free (s : bcache) (a : blk) (n : Z) :
  rels s a -> 0 <= n < disksize -> n ∉ bheld a ->
  cached s n \/ (uncached s n /\ recyclable s) ->
  exists b s' a', bread ROOTDEV n s = (Ok b, s') /\ Blk.bread ROOTDEV n a = (Ok n, a')
    /\ rels s' a' /\ holds s' b n /\ bufdata (barr s' b) = view a n.
Proof.
  intros Hr Hn Hh Havail. pose proof Hr as [_ _ _ _ _ Rb _].
  assert (exists b s', bread ROOTDEV n s = (Ok b, s') /\ rels s' (set_bheld (n :: bheld a) a)
    /\ holds s' b n /\ bufdata (barr s' b) = view a n) as (b & s' & E & H).
  { destruct Havail as [(b & Hb & Hd & Hno)|[Hunc Hrec]].
    - pose proof (Rb b Hb) as [B1 [B2 B2'] B3 B4 B5 B6 B7]. exists b.
      assert (Hl : slocked (block_lock (barr s b)) = false).
      { destruct (slocked _); [|done]. exfalso. apply Hh. rewrite <- Hno. by apply B7. }
      destruct (bread_from_ref s a n b (barr s b)) as (s' & H1 & H2 & H3); try done.
      + by apply (bget_ref_cached a).
      + rewrite <- Hno. by apply B5.
      + by left.
      + eauto.
    - destruct (bget_ref_recycled a n s Hr Hunc Hrec) as (b & Hb & Hrc & Hdy & Hg). exists b.
      pose proof (Rb b Hb) as [B1 [B2 B2'] B3 B4 B5 B6 B7].
      assert (Hl : slocked (block_lock (barr s b)) = false) by (destruct (slocked _); [lia|done]).
      destruct (bread_from_ref s a n b (mkBuf 0 ROOTDEV n (block_lock (barr s b)) 0 (prev (barr s b))
                  (next (barr s b)) (bufdata (barr s b)))) as (s' & H1 & H2 & H3); try done.
      + cget. change (valid _) with false. apply Hr. done.
      + right. split; [done|]. intros Hd0 Hn0. split.
        * rewrite B5 by done. destruct (valid (barr s b)) eqn:Hvb; [|done]. by apply B6.
        * intros Hin. apply B7 in Hin; congruence.
      + eauto. }
  exists b, s', (set_bheld (n :: bheld a) a). split; [done|]. split; [|done].
  by apply Blk.bread_run.
Qed.

(** [bread] of a block somebody holds waits for it, with a reference taken. *)
Lemma bread_waits s a n :
  rels s a -> n ∈ bheld a -> cached s n ->
  exists b s', bread ROOTDEV n s = (Sleep (CSleeplock b), s') /\ rels s' a.
Proof.
  intros Hr Hh (b & Hb & Hd & Hno). pose proof Hr as [Rl [l Rm] Rd Rw _ Rb _].
  destruct (Rb b Hb) as [B1 [B2 B2'] B3 B4 B5 B6 B7]. subst n.
  exists b. eexists. split.
  - rewrite (bread_split _ _ _ _ _ (bget_ref_cached a _ b s Hr Hb Hd eq_refl)).
    unfold bind. erewrite on_lock_run; [|apply acquiresleep_taken]; [reflexivity| |]; cget; rewrite aupd_eq; [done|].
    by apply B7.
  - cget. rewrite aupd_eq, aupd_aupd. cbn [sl slwoken]. cget.
    eapply (rel_change _ s _ a _ b (blockno (barr s b))); cget; rewrite ?aupd_eq; cget; try done.
    + exists l. by apply (mru_aupd s l b).
    + intros i Hi. by rewrite aupd_ne.
    + split; cget; try done. lia.
    + by left.
Qed.

(** Changing the data of a buffer one holds, as the clients do in place. *)
Lemma bset_refines s a b n x :
  rels s a -> (b < NBUF)%nat -> bdev (barr s b) = ROOTDEV -> blockno (barr s b) = n ->
  slocked (block_lock (barr s b)) = true -> valid (barr s b) = true ->
  rels (set_barr (aupd (barr s) b (set_bufdata x (barr s b))) s) (set_view (bupd (view a) n x) a).
Proof.
  intros Hr Hb Hd Hn Hl Hv. pose proof Hr as [Rl [l Rm] Rd Rw _ Rb _].
  destruct (Rb b Hb) as [B1 [B2 B2'] B3 B4 B5 B6 B7].
  eapply (rel_change _ s _ a _ b n); cget; rewrite ?aupd_eq; cget; try done.
  - exists l. by apply (mru_aupd s l b).
  - intros i Hi. by rewrite aupd_ne.
  - intros m Hm. cbn [view disk bheld set_view]. by rewrite bupd_ne.
  - split; cget; try done.
    + intros _. cbn [view set_view]. rewrite Hn, bupd_eq. change (valid (set_bufdata x (barr s b))) with (valid (barr s b)). by rewrite Hv.
    + congruence.
  - by left.
Qed.

(** [bwrite] of a buffer the process holds. *)
Lemma bwrite_held (s : bcache) (a : blk) (b : nat) (n : Z) :
  rels s a -> holds s b n ->
  exists s' a', bwrite b s = (Ok tt, s') /\ Blk.bwrite n a = (Ok tt, a') /\ rels s' a' /\ holds s' b n
    /\ bdisk s' n = bufdata (barr s b) /\ dirty (barr s' b) = false.
Proof.
  intros Hr (Hb & Hd & Hn & (Hk & Hl & Hp) & Hv). pose proof Hr as [Rl [l Rm] Rd Rw _ Rb _].
  destruct (Rb b Hb) as [B1 [B2 B2'] B3 B4 B5 B6 B7].
  unfold bwrite. unfold bind at 1. rewrite holdingsleep_held by done. cbn [negb]. unfold updb. mrun.
  set (s1 := set_barr _ s).
  assert (Hx : barr s1 b = set_flags (Z.lor (flags (barr s b)) B_DIRTY) (barr s b)) by apply aupd_eq.
  assert (Hdy : dirty (barr s1 b) = true) by (rewrite Hx; flag_bits; done).
  destruct (iderw_sync b s1) as (wk & E); rewrite ?Hx; try done.
  { rewrite <- Hx. apply driver_may. by right. }
  { apply B4. exact Hd. }
  exists (set_bwoken wk (sync b s1)). rewrite Blk.bwrite_run by (rewrite <- Hn; by apply B7). eexists.
  split; [exact E|]. split; [reflexivity|].
  unfold sync. fold (dirty (barr s1 b)). rewrite Hdy, Hx. unfold s1. cget. rewrite aupd_aupd.
  unfold holds. cget. rewrite aupd_eq. cget. rewrite Hn, bupd_eq.
  assert (Hview : view a n = bufdata (barr s b)) by (rewrite <- Hn, B5, Hv by done; done).
  split; [|repeat split; try done; flag_bits; done].
  eapply (rel_change _ s _ a _ b n); cget; rewrite ?aupd_eq; cget; try done.
  - exists l. by apply (mru_aupd s l b).
  - cbn [disk]. by rewrite Rd, Hview.
  - cbn [writes]. by rewrite Rw, Hview.
  - intros i Hi. by rewrite aupd_ne.
  - intros m Hm. cbn [view disk bheld]. by rewrite bupd_ne.
  - split; cget; cbn [view disk bheld]; try done.
    + flag_bits. done.
    + intros _. rewrite Hn. replace (valid _) with true by (flag_bits; done). done.
    + congruence.
  - by left.
Qed.

Lemma filter_ne_middle (l1 : list nat) b l2 :
  NoDup (l1 ++ b :: l2) -> filter (fun c => c <> b) (l1 ++ b :: l2) = l1 ++ l2.
Proof.
  intros Hd. assert (Hf : forall l : list nat, b ∉ l -> filter (fun c => c <> b) l = l).
  { induction l as [|c l IH]; [done|]. rewrite not_elem_of_cons. intros [H1 H2].
    rewrite filter_cons_True by auto. by rewrite IH. }
  rewrite <- Permutation_middle in Hd. apply NoDup_cons in Hd as [Hb _]. rewrite not_elem_of_app in Hb.
  rewrite filter_app, filter_cons_False by auto. by rewrite !Hf by tauto.
Qed.

(** The state [brelse] has reached when it decides whether to move the buffer. *)
Definition released (b : nat) (s : bcache) : bcache :=
  set_bwoken (bwoken s ++ [CSleeplock b])
    (set_barr (aupd (barr s) b (set_refcnt (refcnt (barr s b) - 1)
                                  (set_lock (mkSleeplock false false 0) (barr s b)))) s).

Lemma released_rel s a b n :
  rels s a -> holds s b n -> (dirty (barr s b) = true \/ bufdata (barr s b) = bdisk s n) ->
  rels (released b s) (set_bheld (filter (fun m => m <> n) (bheld a)) a).
Proof.
  intros Hr (Hb & Hd & Hn & (Hk & Hl & Hp) & Hv) Hc. pose proof Hr as [Rl [l Rm] Rd Rw _ Rb _].
  destruct (Rb b Hb) as [B1 [B2 B2'] B3 B4 B5 B6 B7]. unfold released.
  eapply (rel_change _ s _ a _ b n); cget; rewrite ?aupd_eq; cget; try done.
  - exists l. by apply (mru_aupd s l b).
  - intros i Hi. by rewrite aupd_ne.
  - intros m Hm. cbn [view disk bheld set_bheld]. rewrite list_elem_of_filter. tauto.
  - split; cget; cbn [view disk bheld set_bheld slocked]; try done.
    + split; [|done]. specialize (B2' Hl). lia.
    + intros _ _ Hdy _. rewrite Hn, Rd. destruct Hc as [Hc|Hc]; [|done].
      change (dirty (barr s b) = false) in Hdy. congruence.
    + intros _. rewrite Hn, list_elem_of_filter. split; [done|]. tauto.
  - by left.
Qed.

(** Only the list pointers change. *)
Lemma rel_links s a f l :
  rels s a -> (forall i, strip (f i) = strip (barr s i)) -> mru (set_barr f s) l -> rels (set_barr f s) a.
Proof.
  intros [S1 _ S3 S4 S5 S6 S7] Hf Hm.
  assert (F : forall i, bdev (f i) = bdev (barr s i) /\ blockno (f i) = blockno (barr s i)).
  { intros i. specialize (Hf i). apply (f_equal bdev) in Hf as F1. by apply (f_equal blockno) in Hf as F2. }
  split; cget; try done.
  - by exists l.
  - intros i j Hi Hj. destruct (F i) as [-> ->], (F j) as [-> ->]. by apply S5.
  - intros i Hi. eapply buf_ok_strip; [symmetry; apply Hf|]. by apply S6.
  - intros m Hm'. apply S7. intros i Hi. specialize (Hm' i Hi). cbn [barr set_barr] in Hm'.
    destruct (F i) as [F1 F2]. by rewrite <- F1, <- F2.
Qed.

(** [brelse] up to the decision. *)
Lemma brelse_split s b :
  held_by (bcur s) (barr s b) -> bclock s = false ->
  brelse b s = ((if refcnt (barr s b) - 1 =? 0 then mru_front b else ret tt) ;; release_bc)
                 (set_bclock true (released b s)).
Proof.
  intros Hh Hl. unfold brelse. unfold bind at 1. rewrite holdingsleep_held by done. cbn [negb].
  unfold bind at 1. erewrite on_lock_run; [|apply releasesleep_run; apply Hh].
  unfold acquire_bc, updb, getb. mrun. cget. rewrite Hl. cbn [sl slwoken slcur]. cget.
  by rewrite !aupd_eq, aupd_aupd.
Qed.

(** [brelse] of a buffer the process holds. *)
Lemma brelse_held (s : bcache) (a : blk) (b : nat) (n : Z) (l : list nat) :
  rels s a -> mru s l -> holds s b n ->
  (dirty (barr s b) = true \/ bufdata (barr s b) = bdisk s n) ->
  exists s' a', brelse b s = (Ok tt, s') /\ Blk.brelse n a = (Ok tt, a') /\ rels s' a'
    /\ slocked (block_lock (barr s' b)) = false
    /\ (refcnt (barr s b) = 1 -> mru s' (b :: filter (fun c => c <> b) l)).
Proof.
  intros Hr Rm Hh Hc. pose proof (released_rel s a b n Hr Hh Hc) as Hr1.
  destruct Hh as (Hb & Hd & Hn & Hheld & Hv). pose proof Hr as [Rl _ Rd Rw _ Rb _].
  rewrite Blk.brelse_run_filter by (rewrite <- Hn; apply (Rb b Hb); [done|apply Hheld]).
  set (t := set_bclock true (released b s)). rewrite (brelse_split s b Hheld Rl). fold t.
  assert (Hmt : mru t l).
  { eapply (mru_links s); [|exact Rm]. intros i. unfold t, released, aupd. cget. case_decide; by subst. }
  destruct (list_elem_of_split l b) as (l1 & l2 & ->); [by eapply mru_in|].
  destruct (Z.eqb_spec (refcnt (barr s b) - 1) 0) as [Hz|Hz].
  - destruct (mru_front_run t l1 b l2 Hmt) as (f & E & Hf & Hm').
    exists (set_barr f (released b s)). eexists. split.
    { unfold bind. rewrite E. destruct s. simpl in *. by subst. }
    split; [reflexivity|]. split; [by eapply rel_links|]. split.
    + specialize (Hf b). apply (f_equal block_lock) in Hf.
      change (block_lock (f b) = block_lock (barr (released b s) b)) in Hf. cget. rewrite Hf.
      unfold released. cget. by rewrite aupd_eq.
    + intros _. rewrite filter_ne_middle; [done|]. apply mru_nodup in Rm. by apply NoDup_cons in Rm as [_ Rm].
  - exists (released b s). eexists. split.
    { destruct s. simpl in *. by subst. }
    split; [reflexivity|]. split; [done|]. split; [|intros; lia]. unfold released. cget. by rewrite aupd_eq.
Qed.
End Refine.

(** ** Initialisation *)

(** The cache as the kernel is loaded: the static array is zero. *)
Definition cold (s : bcache) : Prop :=
  forall b, (b < NBUF)%nat -> flags (barr s b) = 0 /\ bdev (barr s b) = 0 /\ refcnt (barr s b) = 0.

(** The fields [binit] leaves alone. *)
Definition core (x : buf) : Z * Z * Z := (flags x, bdev x, refcnt x).

(** What the loop of [binit] has done when it reaches buffer [k]. *)
Record binit_inv (s0 s : bcache) (k : nat) : Prop := mkBinitInv {
  bi_ring : ring (nexts s) (prevs s) (rev (seq 0 k));
  bi_lock : forall b, (b < k)%nat -> block_lock (barr s b) = mkSleeplock false false 0;
  bi_same : forall b, (b < NBUF)%nat -> core (barr s b) = core (barr s0 b);
  bi_rest : bclock s = false /\ bdisk s = bdisk s0 /\ bdwrites s = bdwrites s0;
}.

Definition init_lock (f : nat -> buf) (b : nat) : nat -> buf := aupd f b (set_lock (mkSleeplock false false 0) (f b)).

Lemma next_init_lock f b i : next (init_lock f b i) = next (f i).
Proof. unfold init_lock, aupd. case_decide; by subst. Qed.
Lemma prev_init_lock f b i : prev (init_lock f b i) = prev (f i).
Proof. unfold init_lock, aupd. case_decide; by subst. Qed.
#[export] Hint Rewrite next_init_lock prev_init_lock : links.

Lemma binit_one_run s b :
  binit_one b s = (Ok tt,
    let f := init_lock (link_prev (link_next (barr s) b (next (barr s head))) b head) b in
    let g := link_prev f (next (f head)) b in
    set_barr (link_next g head b) s).
Proof. destruct s. reflexivity. Qed.

Lemma lock_link_prev f i p j : block_lock (link_prev f i p j) = block_lock (f j).
Proof. unfold link_prev, aupd. case_decide; by subst. Qed.
Lemma lock_link_next f i p j : block_lock (link_next f i p j) = block_lock (f j).
Proof. unfold link_next, aupd. case_decide; by subst. Qed.
Lemma lock_init_lock f b j :
  block_lock (init_lock f b j) = if decide (j = b) then mkSleeplock false false 0 else block_lock (f j).
Proof. unfold init_lock, aupd. by case_decide. Qed.
Lemma core_link_prev f i p j : core (link_prev f i p j) = core (f j).
Proof. unfold link_prev, aupd. case_decide; by subst. Qed.
Lemma core_link_next f i p j : core (link_next f i p j) = core (f j).
Proof. unfold link_next, aupd. case_decide; by subst. Qed.
Lemma core_init_lock f b j : core (init_lock f b j) = core (f j).
Proof. unfold init_lock, aupd. case_decide; by subst. Qed.

#[export] Hint Rewrite lock_link_prev lock_link_next lock_init_lock
  core_link_prev core_link_next core_init_lock : links.

Lemma binit_one_inv s0 s k :
  (k < NBUF)%nat -> binit_inv s0 s k ->
  exists s', binit_one k s = (Ok tt, s') /\ binit_inv s0 s' (S k).
Proof.
  intros Hk [Hr Hl Hs Hrest]. rewrite binit_one_run. eexists. split; [reflexivity|].
  assert (Hkh : k <> head) by (unfold head; lia).
  split; cget.
  - rewrite seq_S, rev_app_distr, Nat.add_0_l. cbn [rev app].
    eapply (ring_insert (nexts s) (prevs s)); [| |exact Hr| |].
    + rewrite not_elem_of_cons, <- Permutation_rev, elem_of_seq. lia.
    + apply NoDup_cons. rewrite <- Permutation_rev, elem_of_seq. unfold head, NBUF in *. split; [lia|apply NoDup_seq].
    + intros x. unfold nexts. cget. autorewrite with links. repeat case_decide; congruence.
    + intros x. unfold nexts, prevs. cget. autorewrite with links. repeat case_decide; congruence.
  - intros b Hb. cbn zeta. autorewrite with links. case_decide; [done|]. apply Hl. lia.
  - intros b Hb. cbn zeta. autorewrite with links. by apply Hs.
  - done.
Qed.

Lemma binit_loop_inv s0 n : forall k s,
  (k + n <= NBUF)%nat -> binit_inv s0 s k ->
  exists s', binit_loop k n s = (Ok tt, s') /\ binit_inv s0 s' (k + n).
Proof.
  induction n as [|n IH]; intros k s Hk Hi; cbn [binit_loop].
  - exists s. by rewrite Nat.add_0_r.
  - destruct (binit_one_inv s0 s k ltac:(lia) Hi) as (s1 & E & H1). unfold bind. rewrite E.
    destruct (IH (S k) s1 ltac:(lia) H1) as (s' & E' & H'). exists s'. by rewrite <- Nat.add_succ_comm.
Qed.

(** The cache [binit] makes. *)
Lemma binit_rel (s : bcache) (size : Z) :
  cold s ->
  exists s', binit s = (Ok tt, s') /\ rel size s' (mkBlk (bdisk s) (bdisk s) (bdwrites s) [])
    /\ mru s' (rev (seq 0 NBUF)) /\ recyclable s'.
Proof.
  intros Hc. unfold binit. unfold bind at 1, modify. unfold bind at 1. rewrite updb_prev.
  unfold bind at 1. rewrite updb_next. cget. set (s1 := set_barr _ _).
  destruct (binit_loop_inv s NBUF 0 s1) as (s' & E & [Hr Hl Hs (Hlk & Hd & Hw)]).
  - lia.
  - split; [|intros; lia| |done].
    + unfold ring, s1, nexts, prevs. cget. cbn [seq rev app chain]. autorewrite with links. by rewrite !decide_True.
    + intros b Hb. unfold s1. cget. by autorewrite with links.
  - exists s'. split; [exact E|]. rewrite Nat.add_0_l in *.
    assert (Hm : mru s' (rev (seq 0 NBUF))) by (split; [done|]; by rewrite <- Permutation_rev).
    assert (Hz : forall b, (b < NBUF)%nat -> flags (barr s' b) = 0 /\ bdev (barr s' b) = 0 /\ refcnt (barr s' b) = 0).
    { intros b Hb. specialize (Hs b Hb). injection Hs as -> -> ->. by apply Hc. }
    split; [|split; [done|]].
    + split; [done|by eexists|by rewrite Hd|by rewrite Hw| | |].
      * intros b b' Hb _ Hd0. destruct (Hz b Hb) as (_ & F & _). unfold ROOTDEV in Hd0. congruence.
      * intros b Hb. destruct (Hz b Hb) as (F1 & F2 & F3). specialize (Hl b Hb). clear - F1 F2 F3 Hl.
        split; rewrite ?Hl, ?F2, ?F3, ?dirty_bit, ?F1; unfold ROOTDEV; done || lia.
      * intros m _. split; [done|]. apply not_elem_of_nil.
    + exists 0%nat. destruct (Hz 0%nat ltac:(unfold NBUF; lia)) as (F1 & F2 & F3).
      split; [unfold NBUF; lia|]. split; [done|]. by rewrite dirty_bit, F1.
Qed.

(** ** The operations on every branch *)

Section Operations.
Context {drv : Driver}.
Abbreviation rels := (rel disksize).

Lemma cached_or_not s n : cached s n \/ uncached s n.
Proof.
  destruct (decide (Exists (fun b => bdev (barr s b) = ROOTDEV /\ blockno (barr s b) = n) (seq 0 NBUF))) as [H|H].
  - left. apply Exists_exists in H as (b & Hb & H). exists b. apply elem_of_seq in Hb. split; [lia|done].
  - right. intros b Hb Hd Hn. apply H, Exists_exists. exists b. rewrite elem_of_seq. split; [lia|done].
Qed.

(** When every buffer is referenced or dirty and the block is not cached. *)
Lemma bget_ref_full a n s :
  rels s a -> uncached s n -> ~ recyclable s ->
  bget_ref ROOTDEV n s = (Panic "bget: no buffers", set_bclock true s).
Proof.
  intros [Hl [l Hm] _ _ Hu _ _] Hunc Hrec.
  unfold bget_ref, acquire_bc, release_bc. mrun. rewrite Hl.
  unfold getb. mrun. cget. set (s1 := set_bclock true s).
  assert (Hlen : length l = NBUF) by (destruct Hm as [_ ->]; apply length_seq).
  destruct (find_cached_walk ROOTDEV n s1 l [] (S NBUF) head) as (r & E & Hr); [apply Hm|done|by eapply mru_nodup|lia|].
  change (next (barr s head)) with (nexts s1 head). rewrite E. destruct r as [c|].
  { destruct Hr as (Hc & Hc1 & Hc2). exfalso. apply (mru_in s l) in Hc; [|done]. by apply (Hunc c). }
  destruct (find_unused_walk s1 l [] (S NBUF) head) as (r & E' & Hr'); rewrite ?app_nil_r; [apply Hm|done|by eapply mru_nodup|lia|].
  change (prev (barr s head)) with (prevs s1 head). rewrite E'. destruct r as [c|]; [|done].
  destruct Hr' as (Hc & Hc1 & Hc2). exfalso. apply Hrec. exists c. split; [by apply (mru_in s l)|].
  split; [done|]. apply negb_false_iff, Z.eqb_eq. exact Hc2.
Qed.

(** C5: [bread] of a block of the disk, on every branch.  A block nobody holds is
    returned in a locked buffer that shows its current contents, as the [bread] of
    the block layer does, when it is cached or some buffer can be recycled; a
    block in use makes the caller sleep on that buffer's lock; and when every
    buffer is referenced or dirty, it panics.  The walks along the list end. *)
Theorem bread_refines (s : bcache) (a : blk) (n : Z) :
  rels s a -> 0 <= n < disksize ->
  (n ∉ bheld a -> cached s n \/ recyclable s ->
     exists b s' a', bread ROOTDEV n s = (Ok b, s') /\ Blk.bread ROOTDEV n a = (Ok n, a')
       /\ rels s' a' /\ holds s' b n /\ bufdata (barr s' b) = view a n)
  /\ (n ∈ bheld a -> exists b s', bread ROOTDEV n s = (Sleep (CSleeplock b), s') /\ rels s' a)
  /\ (uncached s n -> ~ recyclable s ->
       exists s', bread ROOTDEV n s = (Panic "bget: no buffers", s')).
Proof.
  intros Hr Hn. split; [|split].
  - intros Hh Hav. apply (bread_free s a n Hr Hn Hh).
    destruct (cached_or_not s n); [by left|]. right. split; [done|]. destruct Hav as [(b & Hb & Hd & Hno)|]; [|done].
    exfalso. by eapply (H b).
  - intros Hh. apply (bread_waits s a n Hr Hh). destruct (cached_or_not s n) as [|Hu]; [done|].
    by destruct (rel_out _ _ _ Hr n Hu).
  - intros Hu Hrec. exists (set_bclock true s). unfold bread, bget. unfold bind.
    by rewrite (bget_ref_full a n s Hr Hu Hrec).
Qed.

(** [bwrite], on every branch.  When the process holds the buffer the disk
    shows the buffer's contents afterwards, as with the [bwrite] of the block
    layer, and the buffer is clean; when it does not, [bwrite] panics and nothing
    changes. *)
Theorem bwrite_refines (s : bcache) (a : blk) (b : nat) (n : Z) :
  rels s a ->
  (holds s b n ->
     exists s' a', bwrite b s = (Ok tt, s') /\ Blk.bwrite n a = (Ok tt, a') /\ rels s' a' /\ holds s' b n
       /\ bdisk s' n = bufdata (barr s b) /\ dirty (barr s' b) = false)
  /\ ((b < NBUF)%nat -> ~ held_by (bcur s) (barr s b) -> bwrite b s = (Panic "bwrite", s)).
Proof.
  intros Hr. split; [by apply bwrite_held|]. intros Hb Hh.
  destruct (rel_buf _ _ _ Hr b Hb) as [Hk _ _ _ _ _ _].
  unfold bwrite. unfold bind at 1. rewrite holdingsleep_at by done.
  destruct (slocked (block_lock (barr s b)) && (slpid (block_lock (barr s b)) =? bcur s)) eqn:E; [|done].
  exfalso. apply Hh. apply andb_true_iff in E as [E1 E2%Z.eqb_eq]. done.
Qed.

(** [brelse], on every branch.  For a buffer the process holds, whose contents
    are on the disk or pinned by the dirty flag, it is the [brelse] of the block
    layer, and the last reference moves the buffer to the front of the list and
    keeps the order of the others, so that the list is in the order of last use;
    when the process does not hold the buffer it panics and nothing changes. *)
Theorem brelse_refines (s : bcache) (a : blk) (b : nat) (n : Z) (l : list nat) :
  rels s a -> mru s l ->
  (holds s b n -> (dirty (barr s b) = true \/ bufdata (barr s b) = bdisk s n) ->
     exists s' a', brelse b s = (Ok tt, s') /\ Blk.brelse n a = (Ok tt, a') /\ rels s' a'
       /\ slocked (block_lock (barr s' b)) = false
       /\ (refcnt (barr s b) = 1 -> mru s' (b :: filter (fun c => c <> b) l)))
  /\ ((b < NBUF)%nat -> ~ held_by (bcur s) (barr s b) -> brelse b s = (Panic "brelse", s)).
Proof.
  intros Hr Hm. split; [by apply brelse_held|]. intros Hb Hh.
  destruct (rel_buf _ _ _ Hr b Hb) as [Hk _ _ _ _ _ _].
  unfold brelse. unfold bind at 1. rewrite holdingsleep_at by done.
  destruct (slocked (block_lock (barr s b)) && (slpid (block_lock (barr s b)) =? bcur s)) eqn:E; [|done].
  exfalso. apply Hh. apply andb_true_iff in E as [E1 E2%Z.eqb_eq]. done.
Qed.
End Operations.

(** after [binit] on the zeroed array the cache is empty and usable: every
    block of the disk reads as the disk has it, through the driver. *)
Theorem binit_refines {drv : Driver} (s : bcache) (n : Z) :
  cold s -> 0 <= n < disksize ->
  exists s' b s'', binit s = (Ok tt, s') /\ mru s' (rev (seq 0 NBUF))
    /\ rel disksize s' (mkBlk (bdisk s) (bdisk s) (bdwrites s) [])
    /\ bread ROOTDEV n s' = (Ok b, s'') /\ bufdata (barr s'' b) = bdisk s n.
Proof.
  intros Hc Hn. destruct (binit_rel s disksize Hc) as (s' & E & Hr & Hm & Hrec). exists s'.
  destruct (bread_free s' _ n Hr Hn) as (b & s'' & a' & Eb & _ & _ & _ & Hd).
  - apply not_elem_of_nil.
  - destruct (cached_or_not s' n); auto.
  - exists b, s''. repeat (split; [eassumption|]). exact Hd.
Qed.

(** ** A concrete run *)

Definition cold_cache : bcache :=
  mkCache false (fun _ => mkBuf 0 0 0 (mkSleeplock false false 0) 0 0 0 []) 7
          (fun n => repeat (n mod 256) BSIZE) [] [].

Definition warm_cache : bcache := snd (binit cold_cache).
Definition warm_blk : blk := mkBlk (bdisk cold_cache) (bdisk cold_cache) [] [].

Lemma warm_cache_rel : rel 1000 warm_cache warm_blk /\ mru warm_cache (rev (seq 0 NBUF)) /\ recyclable warm_cache.
Proof.
  destruct (binit_rel cold_cache 1000) as (s' & E & H); [by intros b _|]. unfold warm_cache. rewrite E. exact H.
Qed.

(** The cache once block 5 has been read. *)
Definition read_cache : bcache := snd (@bread (memide 1000) ROOTDEV 5 warm_cache).
Definition read_blk : blk := set_bheld [5] warm_blk.

Lemma read_cache_ok : rel 1000 read_cache read_blk /\ exists b, holds read_cache b 5 /\ bufdata (barr read_cache b) = bdisk read_cache 5.
Proof.
  destruct warm_cache_rel as (Hr & _ & Hrec).
  destruct (@bread_free (memide 1000) warm_cache warm_blk 5 Hr) as (b & s' & a' & E & Ea & Hr' & Hh & Hd).
  - cbn. lia.
  - apply not_elem_of_nil.
  - destruct (cached_or_not warm_cache 5); auto.
  - rewrite Blk.bread_run in Ea by apply not_elem_of_nil. injection Ea as <-.
    unfold read_cache. rewrite E. cbn [snd]. split; [exact Hr'|]. exists b. split; [exact Hh|].
    rewrite Hd. by rewrite <- (rel_disk _ _ _ Hr').
Qed.

Lemma binit_refines_witness :
  exists s' b s'', binit cold_cache = (Ok tt, s') /\ mru s' (rev (seq 0 NBUF))
    /\ rel 1000 s' warm_blk
    /\ @bread (memide 1000) ROOTDEV 5 s' = (Ok b, s'') /\ bufdata (barr s'' b) = bdisk cold_cache 5.
Proof. apply (@binit_refines (memide 1000) cold_cache 5); [by intros b _|cbn; lia]. Defined.

Lemma bread_refines_witness :
  exists b s' a', @bread (memide 1000) ROOTDEV 5 warm_cache = (Ok b, s')
    /\ Blk.bread ROOTDEV 5 warm_blk = (Ok 5, a')
    /\ rel 1000 s' a' /\ holds s' b 5 /\ bufdata (barr s' b) = view warm_blk 5.
Proof.
  apply (@bread_refines (memide 1000) warm_cache warm_blk 5 (proj1 warm_cache_rel)).
  - cbn. lia.
  - apply not_elem_of_nil.
  - right. apply warm_cache_rel.
Defined.

Lemma bwrite_refines_witness :
  exists b s' a', @bwrite (memide 1000) b read_cache = (Ok tt, s') /\ Blk.bwrite 5 read_blk = (Ok tt, a')
    /\ rel 1000 s' a' /\ holds s' b 5 /\ bdisk s' 5 = bufdata (barr read_cache b) /\ dirty (barr s' b) = false.
Proof.
  destruct read_cache_ok as (Hr & b & Hh & _). exists b.
  exact (proj1 (@bwrite_refines (memide 1000) read_cache read_blk b 5 Hr) Hh).
Defined.

Lemma brelse_refines_witness :
  exists b s' a', brelse b read_cache = (Ok tt, s') /\ Blk.brelse 5 read_blk = (Ok tt, a') /\ rel 1000 s' a'.
Proof.
  destruct read_cache_ok as (Hr & b & Hh & Hd). destruct (rel_mru _ _ _ Hr) as [l Hm].
  destruct (proj1 (@brelse_refines (memide 1000) read_cache read_blk b 5 l Hr Hm) Hh (or_intror Hd))
    as (s' & a' & E1 & E2 & Hr' & _).
  exists b, s', a'. split; [exact E1|]. split; [exact E2|]. exact Hr'.
Defined.
