(* ===== verification/Fs.v ===== *)
(** The file system below system calls: [src/fs.c] and [src/fs.h].

    The state is the super block, the inode cache, and the log and blocks of
    [Log].  A pointer into the inode cache is an index.  Blocks, inodes on disk and
    directory entries are the byte arrays the code casts them from.  A buffer the
    caller passes in to be filled is a list the function returns. *)

From Stdlib Require Import ZArith Lia.
From stdpp Require Import base list strings pretty.
From S2P Require Import Prelude Bytes Blk Log Sleeplock.
Local Open Scope Z_scope.

Definition ROOTINO : Z := 1.
Definition NINODE : nat := 50.
Definition NDEV : Z := 10.
Definition NDIRECT : Z := 12.
Definition NINDIRECT : Z := 128.
Definition MAXFILE : Z := NDIRECT + NINDIRECT.
Definition IPB : Z := 8.
Definition BPB : Z := 4096.
Definition DIRSIZ : nat := 14.
Definition T_DIR : Z := 1.
Definition T_FILE : Z := 2.
Definition T_DEV : Z := 3.
Definition bsize : Z := Z.of_nat BSIZE.

Record superblock := mkSb {
  sb_size : Z; sb_nblocks : Z; sb_ninodes : Z; sb_nlog : Z; sb_logstart : Z; sb_inodestart : Z; sb_bmapstart : Z;
}.

Record inode := mkInode {
  i_dev : Z; i_inum : Z; i_ref : Z; i_lock : sleeplock; i_valid : bool;
  i_type : Z; i_major : Z; i_minor : Z; i_nlink : Z; i_size : Z; i_addrs : list Z;
}.

(** [fpid] is the pid of the running process, which owns the sleep locks it takes. *)
Record fstate := mkF {
  sb : superblock;
  iclock : bool;
  icache : list inode;
  fl : lstate;
  fpid : Z;
  fwoken : list chan;
  fout : list string;
}.

Definition set_sb x s := mkF x (iclock s) (icache s) (fl s) (fpid s) (fwoken s) (fout s).
Definition set_iclock x s := mkF (sb s) x (icache s) (fl s) (fpid s) (fwoken s) (fout s).
Definition set_icache x s := mkF (sb s) (iclock s) x (fl s) (fpid s) (fwoken s) (fout s).
Definition set_fl x s := mkF (sb s) (iclock s) (icache s) x (fpid s) (fwoken s) (fout s).
Definition set_fwoken x s := mkF (sb s) (iclock s) (icache s) (fl s) (fpid s) x (fout s).
Definition set_fout x s := mkF (sb s) (iclock s) (icache s) (fl s) (fpid s) (fwoken s) x.

Definition set_dev x i := mkInode x (i_inum i) (i_ref i) (i_lock i) (i_valid i) (i_type i) (i_major i) (i_minor i) (i_nlink i) (i_size i) (i_addrs i).
Definition set_inum x i := mkInode (i_dev i) x (i_ref i) (i_lock i) (i_valid i) (i_type i) (i_major i) (i_minor i) (i_nlink i) (i_size i) (i_addrs i).
Definition set_ref x i := mkInode (i_dev i) (i_inum i) x (i_lock i) (i_valid i) (i_type i) (i_major i) (i_minor i) (i_nlink i) (i_size i) (i_addrs i).
Definition set_ilock x i := mkInode (i_dev i) (i_inum i) (i_ref i) x (i_valid i) (i_type i) (i_major i) (i_minor i) (i_nlink i) (i_size i) (i_addrs i).
Definition set_valid x i := mkInode (i_dev i) (i_inum i) (i_ref i) (i_lock i) x (i_type i) (i_major i) (i_minor i) (i_nlink i) (i_size i) (i_addrs i).
Definition set_type x i := mkInode (i_dev i) (i_inum i) (i_ref i) (i_lock i) (i_valid i) x (i_major i) (i_minor i) (i_nlink i) (i_size i) (i_addrs i).
Definition set_major x i := mkInode (i_dev i) (i_inum i) (i_ref i) (i_lock i) (i_valid i) (i_type i) x (i_minor i) (i_nlink i) (i_size i) (i_addrs i).
Definition set_minor x i := mkInode (i_dev i) (i_inum i) (i_ref i) (i_lock i) (i_valid i) (i_type i) (i_major i) x (i_nlink i) (i_size i) (i_addrs i).
Definition set_nlink x i := mkInode (i_dev i) (i_inum i) (i_ref i) (i_lock i) (i_valid i) (i_type i) (i_major i) (i_minor i) x (i_size i) (i_addrs i).
Definition set_size x i := mkInode (i_dev i) (i_inum i) (i_ref i) (i_lock i) (i_valid i) (i_type i) (i_major i) (i_minor i) (i_nlink i) x (i_addrs i).
Definition set_addrs x i := mkInode (i_dev i) (i_inum i) (i_ref i) (i_lock i) (i_valid i) (i_type i) (i_major i) (i_minor i) (i_nlink i) (i_size i) x.

Abbreviation FM := (M fstate).

Definition onlog {A} (m : M lstate A) : FM A := zoom fl set_fl m.
Definition ondisk {A} (m : M blk A) : FM A := onlog (onblk m).

Definition geti (i : nat) : FM inode :=
  l <- gets icache ;;
  match l !! i with Some x => ret x | None => ub "icache index" end.
Definition updi (i : nat) (f : inode -> inode) : FM unit :=
  l <- gets icache ;;
  match l !! i with Some x => modify (set_icache (<[i := f x]> l)) | None => ub "icache index" end.

Definition acquire_ic : FM unit := acquire_flag iclock set_iclock.
Definition release_ic : FM unit := release_flag iclock set_iclock.

(** Code of [Sleeplock] on the lock of cache entry [i]. *)
Definition on_ilock {A} (i : nat) (m : M slstate A) : FM A :=
  x <- geti i ;;
  zoom (fun s => mkSl (i_lock x) (fpid s) (fwoken s))
       (fun t s => set_fwoken (slwoken t) (set_icache (<[i := set_ilock (sl t) x]> (icache s)) s)) m.

Definition sizeof_superblock : nat := 28.
Definition superblock_of (x : block) : superblock :=
  mkSb (get32 x 0) (get32 x 4) (get32 x 8) (get32 x 12) (get32 x 16) (get32 x 20) (get32 x 24).

Definition readsb (dev : Z) : FM superblock :=
  b <- ondisk (bread dev 1) ;;
  x <- ondisk (bdata b) ;;
  ondisk (brelse b) ;;
  ret (superblock_of x).

Definition bzero (dev bno : Z) : FM unit :=
  b <- ondisk (bread dev bno) ;;
  ondisk (bset b (replicate BSIZE 0)) ;;
  onlog (log_write b) ;;
  ondisk (brelse b).

(** ** Blocks *)

Definition BBLOCK (b : Z) (s : superblock) : Z := b / BPB + sb_bmapstart s.
Definition IBLOCK (i : Z) (s : superblock) : Z := i / IPB + sb_inodestart s.

(** Bit [bi] of a bitmap block. *)
Definition bit_mask (bi : Z) : Z := Z.shiftl 1 (bi mod 8).
Definition bit_byte (x : block) (bi : Z) : Z := nth (Z.to_nat (bi / 8)) x 0.

(** The inner loop of [balloc], [n] bits from [bi] on. *)
Fixpoint find_bit (x : block) (size b bi : Z) (n : nat) : option Z :=
  match n with
  | O => None
  | S k =>
      if b + bi <? size then
        if Z.land (bit_byte x bi) (bit_mask bi) =? 0 then Some bi
        else find_bit x size b (bi + 1) k
      else None
  end.

Fixpoint balloc_loop (fuel : nat) (dev b : Z) : FM Z :=
  match fuel with
  | O => spin
  | S k =>
      s <- gets sb ;;
      if b <? sb_size s then
        bp <- ondisk (bread dev (BBLOCK b s)) ;;
        x <- ondisk (bdata bp) ;;
        match find_bit x (sb_size s) b 0 (Z.to_nat BPB) with
        | Some bi =>
            ondisk (bset bp (<[Z.to_nat (bi / 8) := Z.lor (bit_byte x bi) (bit_mask bi)]> x)) ;;
            onlog (log_write bp) ;;
            ondisk (brelse bp) ;;
            bzero dev (b + bi) ;;
            ret (b + bi)
        | None => ondisk (brelse bp) ;; balloc_loop k dev (b + BPB)
        end
      else panic "balloc: out of blocks"
  end.
Definition balloc (dev : Z) : FM Z :=
  s <- gets sb ;; balloc_loop (S (S (Z.to_nat (sb_size s / BPB)))) dev 0.

Definition bfree (dev b : Z) : FM unit :=
  s <- gets sb ;;
  bp <- ondisk (bread dev (BBLOCK b s)) ;;
  let bi := b mod BPB in
  x <- ondisk (bdata bp) ;;
  if Z.land (bit_byte x bi) (bit_mask bi) =? 0 then panic "freeing free block" else
  ondisk (bset bp (<[Z.to_nat (bi / 8) := Z.land (bit_byte x bi) (Z.lnot (bit_mask bi))]> x)) ;;
  onlog (log_write bp) ;;
  ondisk (brelse bp).

(** ** Inodes *)

Fixpoint init_locks (i n : nat) : FM unit :=
  match n with
  | O => ret tt
  | S k => on_ilock i initsleeplock ;; init_locks (S i) k
  end.

Definition iinit (dev : Z) : FM unit :=
  modify (set_iclock false) ;;
  init_locks 0 NINODE ;;
  s <- readsb dev ;;
  modify (set_sb s) ;;
  modify (fun st => set_fout (fout st ++ [("sb: size " +:+ pretty (s32 (sb_size s)) +:+ " nblocks " +:+ pretty (s32 (sb_nblocks s))
    +:+ " ninodes " +:+ pretty (s32 (sb_ninodes s)) +:+ " nlog " +:+ pretty (s32 (sb_nlog s)) +:+ " logstart " +:+ pretty (s32 (sb_logstart s))
    +:+ " inodestart " +:+ pretty (s32 (sb_inodestart s)) +:+ " bmap start " +:+ pretty (s32 (sb_bmapstart s)) +:+ "\n")%string]) st).

(** [struct dinode]: where inode [inum] lies in its block, and its fields. *)
Definition sizeof_dinode : nat := 64.
Definition dip (inum : Z) : nat := (Z.to_nat (inum mod IPB) * sizeof_dinode)%nat.
Definition dinode_type (x : block) (o : nat) : Z := s16 (get16 x o).
Definition dinode_addrs (x : block) (o : nat) : list Z :=
  map (fun j => get32 x (o + 12 + 4 * j)) (seq 0 13).

(** [iget]: the cached entry, or the first free one. *)
Fixpoint find_inode (l : list inode) (dev inum : Z) (i : nat) (empty : option nat) : (option nat) * (option nat) :=
  match l with
  | [] => (None, empty)
  | x :: l' =>
      if (0 <? i_ref x) && (i_dev x =? dev) && (i_inum x =? inum) then (Some i, empty)
      else find_inode l' dev inum (S i)
             (match empty with None => if i_ref x =? 0 then Some i else None | Some e => Some e end)
  end.

Definition iget (dev inum : Z) : FM nat :=
  acquire_ic ;;
  l <- gets icache ;;
  match find_inode l dev inum 0 None with
  | (Some i, _) =>
      updi i (fun x => set_ref (s32 (i_ref x + 1)) x) ;;
      release_ic ;;
      ret i
  | (None, None) => panic "iget: no inodes"
  | (None, Some i) =>
      updi i (fun x => set_valid false (set_ref 1 (set_inum inum (set_dev dev x)))) ;;
      release_ic ;;
      ret i
  end.

Fixpoint ialloc_loop (fuel : nat) (dev type inum : Z) : FM nat :=
  match fuel with
  | O => spin
  | S k =>
      s <- gets sb ;;
      if inum <? sb_ninodes s then
        bp <- ondisk (bread dev (IBLOCK inum s)) ;;
        x <- ondisk (bdata bp) ;;
        let o := dip inum in
        if dinode_type x o =? 0 then
          ondisk (bset bp (put16 (splice x o (replicate sizeof_dinode 0)) o type)) ;;
          onlog (log_write bp) ;;
          ondisk (brelse bp) ;;
          iget dev inum
        else ondisk (brelse bp) ;; ialloc_loop k dev type (inum + 1)
      else panic "ialloc: no inodes"
  end.
Definition ialloc (dev type : Z) : FM nat :=
  s <- gets sb ;; ialloc_loop (S (Z.to_nat (sb_ninodes s))) dev type 1.

(** [memmove(dip->addrs, ip->addrs, sizeof(ip->addrs))]. *)
Fixpoint put_addrs (x : block) (o : nat) (l : list Z) : block :=
  match l with
  | [] => x
  | a :: l' => put_addrs (put32 x o a) (o + 4) l'
  end.

(** The inode's fields written over the [struct dinode] at [o]. *)
Definition dinode_put (x : block) (o : nat) (i : inode) : block :=
  let x := put16 x o (i_type i) in
  let x := put16 x (o + 2) (i_major i) in
  let x := put16 x (o + 4) (i_minor i) in
  let x := put16 x (o + 6) (i_nlink i) in
  let x := put32 x (o + 8) (i_size i) in
  put_addrs x (o + 12) (i_addrs i).

Definition iupdate (ip : nat) : FM unit :=
  s <- gets sb ;;
  i <- geti ip ;;
  bp <- ondisk (bread (i_dev i) (IBLOCK (i_inum i) s)) ;;
  x <- ondisk (bdata bp) ;;
  ondisk (bset bp (dinode_put x (dip (i_inum i)) i)) ;;
  onlog (log_write bp) ;;
  ondisk (brelse bp).

Definition idup (ip : nat) : FM nat :=
  acquire_ic ;;
  updi ip (fun x => set_ref (s32 (i_ref x + 1)) x) ;;
  release_ic ;;
  ret ip.

(** The fields of the [struct dinode] at [o] read into the inode. *)
Definition dinode_get (x : block) (o : nat) (i : inode) : inode :=
  mkInode (i_dev i) (i_inum i) (i_ref i) (i_lock i) (i_valid i)
    (s16 (get16 x o)) (s16 (get16 x (o + 2))) (s16 (get16 x (o + 4))) (s16 (get16 x (o + 6)))
    (get32 x (o + 8)) (dinode_addrs x o).

Definition ilock (ip : nat) : FM unit :=
  i <- geti ip ;;
  if i_ref i <? 1 then panic "ilock" else
  on_ilock ip (acquiresleep (CSleeplock ip)) ;;
  i <- geti ip ;;
  if negb (i_valid i) then
    s <- gets sb ;;
    bp <- ondisk (bread (i_dev i) (IBLOCK (i_inum i) s)) ;;
    x <- ondisk (bdata bp) ;;
    updi ip (dinode_get x (dip (i_inum i))) ;;
    ondisk (brelse bp) ;;
    updi ip (set_valid true) ;;
    i <- geti ip ;;
    if i_type i =? 0 then panic "ilock: no type" else ret tt
  else ret tt.

Definition iunlock (ip : nat) : FM unit :=
  h <- on_ilock ip holdingsleep ;;
  i <- geti ip ;;
  if negb h || (i_ref i <? 1) then panic "iunlock" else
  on_ilock ip (releasesleep (CSleeplock ip)).

(** ** Inode content *)

(** [ip->addrs[j]]. *)
Definition addr_of (i : inode) (j : Z) : Z := nth (Z.to_nat j) (i_addrs i) 0.
Definition set_addr (j a : Z) (i : inode) : inode := set_addrs (<[Z.to_nat j := a]> (i_addrs i)) i.

(** [if((addr = ip->addrs[j]) == 0) ip->addrs[j] = addr = balloc(ip->dev)]. *)
Definition addr_alloc (ip : nat) (j : Z) : FM Z :=
  i <- geti ip ;;
  let addr := addr_of i j in
  if addr =? 0 then
    addr <- balloc (i_dev i) ;;
    updi ip (set_addr j addr) ;;
    ret addr
  else ret addr.

Definition bmap (ip : nat) (bn : Z) : FM Z :=
  if bn <? NDIRECT then addr_alloc ip bn else
  let bn := bn - NDIRECT in
  if bn <? NINDIRECT then
    addr <- addr_alloc ip NDIRECT ;;
    i <- geti ip ;;
    bp <- ondisk (bread (i_dev i) addr) ;;
    a <- ondisk (bdata bp) ;;
    let o := (4 * Z.to_nat bn)%nat in
    addr <- (if get32 a o =? 0 then
               addr <- balloc (i_dev i) ;;
               a <- ondisk (bdata bp) ;;
               ondisk (bset bp (put32 a o addr)) ;;
               onlog (log_write bp) ;;
               ret addr
             else ret (get32 a o)) ;;
    ondisk (brelse bp) ;;
    ret addr
  else panic "bmap: out of range".

(** The loop of [itrunc] over the direct blocks, and the one over the indirect block. *)
Fixpoint trunc_direct (ip : nat) (i : Z) (n : nat) : FM unit :=
  match n with
  | O => ret tt
  | S k =>
      x <- geti ip ;;
      (if nz (addr_of x i) then bfree (i_dev x) (addr_of x i) ;; updi ip (set_addr i 0) else ret tt) ;;
      trunc_direct ip (i + 1) k
  end.
Fixpoint trunc_indirect (dev : Z) (a : block) (j n : nat) : FM unit :=
  match n with
  | O => ret tt
  | S k =>
      (if nz (get32 a (4 * j)) then bfree dev (get32 a (4 * j)) else ret tt) ;;
      trunc_indirect dev a (S j) k
  end.

Definition itrunc (ip : nat) : FM unit :=
  trunc_direct ip 0 (Z.to_nat NDIRECT) ;;
  x <- geti ip ;;
  (if nz (addr_of x NDIRECT) then
     bp <- ondisk (bread (i_dev x) (addr_of x NDIRECT)) ;;
     a <- ondisk (bdata bp) ;;
     trunc_indirect (i_dev x) a 0 (Z.to_nat NINDIRECT) ;;
     ondisk (brelse bp) ;;
     bfree (i_dev x) (addr_of x NDIRECT) ;;
     updi ip (set_addr NDIRECT 0)
   else ret tt) ;;
  updi ip (set_size 0) ;;
  iupdate ip.

Definition iput (ip : nat) : FM unit :=
  on_ilock ip (acquiresleep (CSleeplock ip)) ;;
  i <- geti ip ;;
  (if i_valid i && (i_nlink i =? 0) then
     acquire_ic ;;
     x <- geti ip ;;
     let r := i_ref x in
     release_ic ;;
     if r =? 1 then
       itrunc ip ;;
       updi ip (set_type 0) ;;
       iupdate ip ;;
       updi ip (set_valid false)
     else ret tt
   else ret tt) ;;
  on_ilock ip (releasesleep (CSleeplock ip)) ;;
  acquire_ic ;;
  updi ip (fun x => set_ref (s32 (i_ref x - 1)) x) ;;
  release_ic.

Definition iunlockput (ip : nat) : FM unit := iunlock ip ;; iput ip.

(** [struct stat]. *)
Record stat := mkStat { st_type : Z; st_dev : Z; st_ino : Z; st_nlink : Z; st_size : Z }.
Definition stati (ip : nat) : FM stat :=
  i <- geti ip ;;
  ret (mkStat (i_type i) (s32 (i_dev i)) (i_inum i) (i_nlink i) (i_size i)).

(** [devsw]: the read and write functions of the devices, by major number. *)
Section Devices.
Context (dev_read : Z -> option (nat -> Z -> FM (Z * list Z)))
        (dev_write : Z -> option (nat -> list Z -> FM Z)).

(** The loop of [readi]: [n] bytes from [off], at most one block a turn. *)
Fixpoint readi_loop (fuel : nat) (ip : nat) (off n : Z) (acc : list Z) : FM (list Z) :=
  match fuel with
  | O => spin
  | S k =>
      if 0 <? n then
        i <- geti ip ;;
        addr <- bmap ip (off / bsize) ;;
        bp <- ondisk (bread (i_dev i) addr) ;;
        let m := Z.min n (bsize - off mod bsize) in
        x <- ondisk (bdata bp) ;;
        ondisk (brelse bp) ;;
        readi_loop k ip (u32 (off + m)) (n - m) (acc ++ slice x (Z.to_nat (off mod bsize)) (Z.to_nat m))
      else ret acc
  end.

(** The return value and the bytes put into the caller's buffer. *)
Definition readi (ip : nat) (off n : Z) : FM (Z * list Z) :=
  i <- geti ip ;;
  if i_type i =? T_DEV then
    if (i_major i <? 0) || (NDEV <=? i_major i) then ret (-1, []) else
    match dev_read (i_major i) with
    | None => ret (-1, [])
    | Some rd => rd ip n
    end
  else if (i_size i <? off) || (u32 (off + n) <? off) then ret (-1, [])
  else
    let n := if i_size i <? u32 (off + n) then i_size i - off else n in
    l <- readi_loop (S (S (S (Z.to_nat (n / bsize))))) ip off n [] ;;
    ret (s32 n, l).

Fixpoint writei_loop (fuel : nat) (ip : nat) (src : list Z) (off : Z) : FM Z :=
  match fuel with
  | O => spin
  | S k =>
      let n := Z.of_nat (length src) in
      if 0 <? n then
        i <- geti ip ;;
        addr <- bmap ip (off / bsize) ;;
        bp <- ondisk (bread (i_dev i) addr) ;;
        let m := Z.min n (bsize - off mod bsize) in
        x <- ondisk (bdata bp) ;;
        ondisk (bset bp (splice x (Z.to_nat (off mod bsize)) (take (Z.to_nat m) src))) ;;
        onlog (log_write bp) ;;
        ondisk (brelse bp) ;;
        writei_loop k ip (drop (Z.to_nat m) src) (u32 (off + m))
      else ret off
  end.

Definition writei (ip : nat) (src : list Z) (off : Z) : FM Z :=
  let n := Z.of_nat (length src) in
  i <- geti ip ;;
  if i_type i =? T_DEV then
    if (i_major i <? 0) || (NDEV <=? i_major i) then ret (-1) else
    match dev_write (i_major i) with
    | None => ret (-1)
    | Some wr => wr ip src
    end
  else if (i_size i <? off) || (u32 (off + n) <? off) then ret (-1)
  else if MAXFILE * bsize <? u32 (off + n) then ret (-1)
  else
    off <- writei_loop (S (S (S (Z.to_nat (n / bsize))))) ip src off ;;
    i <- geti ip ;;
    (if (0 <? n) && (i_size i <? off) then updi ip (set_size off) ;; iupdate ip else ret tt) ;;
    ret (s32 n).

(** ** Directories *)

(** [strncmp] on byte arrays; past its end an array reads as NUL. *)
Fixpoint strncmp (n : nat) (p q : list Z) : Z :=
  match n with
  | O => 0
  | S k =>
      if nz (hd 0 p) && (hd 0 p =? hd 0 q) then strncmp k (tl p) (tl q)
      else u8 (hd 0 p) - u8 (hd 0 q)
  end.
Definition namecmp (s t : list Z) : Z := strncmp DIRSIZ s t.

Definition sizeof_dirent : Z := 16.
Definition de_inum (de : list Z) : Z := get16 de 0.
Definition de_name (de : list Z) : list Z := drop 2 de.

(** The loop of [dirlookup] from [off]: the entry's inode number and offset. *)
Fixpoint dirlookup_loop (fuel : nat) (dp : nat) (name : list Z) (off : Z) : FM (option (Z * Z)) :=
  match fuel with
  | O => spin
  | S k =>
      d <- geti dp ;;
      if off <? i_size d then
        r <- readi dp off sizeof_dirent ;;
        let '(c, de) := r in
        if negb (c =? sizeof_dirent) then panic "dirlookup read" else
        if de_inum de =? 0 then dirlookup_loop k dp name (off + sizeof_dirent)
        else if namecmp name (de_name de) =? 0 then ret (Some (de_inum de, off))
        else dirlookup_loop k dp name (off + sizeof_dirent)
      else ret None
  end.

Definition dirlookup (dp : nat) (name : list Z) : FM (option (nat * Z)) :=
  d <- geti dp ;;
  if negb (i_type d =? T_DIR) then panic "dirlookup not DIR" else
  r <- dirlookup_loop (S (S (Z.to_nat (i_size d / sizeof_dirent)))) dp name 0 ;;
  match r with
  | None => ret None
  | Some (inum, off) =>
      d <- geti dp ;;
      ip <- iget (i_dev d) inum ;;
      ret (Some (ip, off))
  end.

(** The search of [dirlink] for a free entry. *)
Fixpoint dirlink_loop (fuel : nat) (dp : nat) (off : Z) : FM Z :=
  match fuel with
  | O => spin
  | S k =>
      d <- geti dp ;;
      if off <? i_size d then
        r <- readi dp off sizeof_dirent ;;
        let '(c, de) := r in
        if negb (c =? sizeof_dirent) then panic "dirlink read" else
        if de_inum de =? 0 then ret off else dirlink_loop k dp (off + sizeof_dirent)
      else ret off
  end.

(** [strncpy(de.name, name, DIRSIZ)]: the name cut or padded with NULs. *)
Fixpoint strncpy (n : nat) (t : list Z) : list Z :=
  match n with
  | O => []
  | S k => let c := hd 0 t in if c =? 0 then replicate (S k) 0 else c :: strncpy k (tl t)
  end.

Definition dirlink (dp : nat) (name : list Z) (inum : Z) : FM Z :=
  o <- dirlookup dp name ;;
  match o with
  | Some (ip, _) => iput ip ;; ret (-1)
  | None =>
      d <- geti dp ;;
      off <- dirlink_loop (S (S (Z.to_nat (i_size d / sizeof_dirent)))) dp 0 ;;
      c <- writei dp (le_bytes 2 inum ++ strncpy DIRSIZ name) off ;;
      if negb (c =? sizeof_dirent) then panic "dirlink" else ret 0
  end.

(** ** Paths *)

Fixpoint skip_slashes (path : list Z) : list Z :=
  match path with
  | c :: path' => if c =? 47 then skip_slashes path' else path
  | [] => []
  end.

(** The bytes before the next slash or the end, and the rest. *)
Fixpoint take_elem (path : list Z) : list Z * list Z :=
  match path with
  | c :: path' => if (c =? 47) || (c =? 0) then ([], path) else let '(e, r) := take_elem path' in (c :: e, r)
  | [] => ([], [])
  end.

(** [skipelem(path, name)]: the rest of the path and the new contents of [name];
    [None] is the null pointer. *)
Definition skipelem (path name : list Z) : option (list Z * list Z) :=
  let path := skip_slashes path in
  if (match path with [] => true | c :: _ => c =? 0 end) then None else
  let '(s, path) := take_elem path in
  let name := if (DIRSIZ <=? length s)%nat then take DIRSIZ s
              else s ++ 0 :: drop (S (length s)) name in
  Some (skip_slashes path, name).

Fixpoint namex_loop (fuel : nat) (ip : nat) (path : list Z) (nameiparent : bool) (name : list Z)
  : FM (option (nat * list Z)) :=
  match fuel with
  | O => spin
  | S k =>
      match skipelem path name with
      | None => if nameiparent then iput ip ;; ret None else ret (Some (ip, name))
      | Some (path, name) =>
          ilock ip ;;
          i <- geti ip ;;
          if negb (i_type i =? T_DIR) then iunlockput ip ;; ret None else
          if nameiparent && (match path with [] => true | c :: _ => c =? 0 end) then
            iunlock ip ;; ret (Some (ip, name))
          else
            o <- dirlookup ip name ;;
            match o with
            | None => iunlockput ip ;; ret None
            | Some (next, _) => iunlockput ip ;; namex_loop k next path nameiparent name
            end
      end
  end.

(** [cwd] is [myproc()->cwd]. *)
Definition namex (cwd : nat) (path : list Z) (nameiparent : bool) (name : list Z) : FM (option (nat * list Z)) :=
  ip <- (match path with
         | c :: _ => if c =? 47 then iget ROOTDEV ROOTINO else idup cwd
         | [] => idup cwd
         end) ;;
  namex_loop (S (length path)) ip path nameiparent name.

Definition namei (cwd : nat) (path : list Z) : FM (option nat) :=
  o <- namex cwd path false (replicate DIRSIZ 0) ;; ret (fst <$> o).
Definition nameiparent (cwd : nat) (path : list Z) (name : list Z) : FM (option (nat * list Z)) :=
  namex cwd path true name.
End Devices.
