(* ===== verification/FsInv.v ===== *)
(** The file system of [Fs]: running its block operations, reading the contents of a
    file, and the codec of inodes on disk. *)

From Stdlib Require Import ZArith Lia.
From stdpp Require Import base list strings.
From S2P Require Import Prelude Bytes Blk Log Sleeplock Fs.
Local Open Scope Z_scope.

(** ** Running block operations *)

Definition fview (s : fstate) (n : Z) : block := view (lb (fl s)) n.
Definition fheld (s : fstate) : list Z := bheld (lb (fl s)).
Definition hold (l : list Z) (s : fstate) : fstate := set_fl (set_lb (set_bheld l (lb (fl s))) (fl s)) s.
Definition fset (n : Z) (x : block) (s : fstate) : fstate :=
  set_fl (set_lb (set_view (bupd (view (lb (fl s))) n x) (lb (fl s))) (fl s)) s.

Lemma hold_id s : hold (fheld s) s = s.
Proof. by destruct s as [? ? ? [? [? ? ? ?] ?] ? ? ?]. Qed.

Lemma hold_hold l l' s : hold l (hold l' s) = hold l s.
Proof. done. Qed.

Lemma ondisk_run {A} (m : M blk A) s a b :
  m (lb (fl s)) = (Ok a, b) -> ondisk m s = (Ok a, set_fl (set_lb b (fl s)) s).
Proof. intros H. unfold ondisk, onlog, onblk, zoom. by rewrite H. Qed.

Lemma fread_run n s : n ∉ fheld s -> ondisk (bread ROOTDEV n) s = (Ok n, hold (n :: fheld s) s).
Proof. intros H. by rewrite (ondisk_run _ _ _ _ (bread_run n _ H)). Qed.

Lemma fdata_run n s : ondisk (bdata n) s = (Ok (fview s n), s).
Proof. by destruct s as [? ? ? [? [? ? ? ?] ?] ? ? ?]. Qed.

Lemma fset_run n x s : ondisk (bset n x) s = (Ok tt, fset n x s).
Proof. done. Qed.

Lemma frelse_run n l s : fheld s = n :: l -> n ∉ l -> ondisk (brelse n) s = (Ok tt, hold l s).
Proof. intros H Hn. by rewrite (ondisk_run _ _ _ _ (brelse_run n l _ H Hn)). Qed.

Lemma geti_run s ip i : icache s !! ip = Some i -> geti ip s = (Ok i, s).
Proof. intros H. unfold geti. mrun. by rewrite H. Qed.

Lemma updi_run s ip i f : icache s !! ip = Some i -> updi ip f s = (Ok tt, set_icache (<[ip := f i]> (icache s)) s).
Proof. intros H. unfold updi. mrun. by rewrite H. Qed.

(** The log takes [k] more blocks of the running transaction. *)
Record log_can (s : fstate) (k : Z) : Prop := mkLogCan {
  lc_lock : llock (lg (fl s)) = false;
  lc_out : 1 <= outstanding (lg (fl s));
  lc_n : 0 <= lhn (lg (fl s));
  lc_room : lhn (lg (fl s)) + k <= LOGSIZE;
  lc_size : lhn (lg (fl s)) + k <= lsize (lg (fl s)) - 1;
  lc_blocks : length (lhblock (lg (fl s))) = Z.to_nat LOGSIZE;
}.

(** [s'] differs from [s] at most in the log's bookkeeping. *)
Record log_only (s s' : fstate) : Prop := mkLogOnly {
  lo_sb : sb s' = sb s;
  lo_icl : iclock s' = iclock s;
  lo_ic : icache s' = icache s;
  lo_lb : lb (fl s') = lb (fl s);
  lo_pid : fpid s' = fpid s;
  lo_wok : fwoken s' = fwoken s;
}.

Lemma find_block_range l b n : forall i, i <= find_block l b i n <= i + Z.of_nat n.
Proof.
  induction n as [|n IH]; intros i; cbn [find_block]; [lia|]. destruct (_ =? b); [lia|]. specialize (IH (i + 1)). lia.
Qed.

Lemma flog_write_run s k b : log_can s k -> 0 < k ->
  exists s', onlog (log_write b) s = (Ok tt, s') /\ log_can s' (k - 1) /\ log_only s s'.
Proof.
  intros [H1 H2 H3 H4 H5 H6] Hk. unfold LOGSIZE, MAXOPBLOCKS in *.
  destruct s as [sb' icl ic [[lk st sz out com dev n bl] bb wk] pid wok ou]. cbn in *. subst lk.
  unfold onlog, zoom, log_write, acquire_l, release_l, set_lh_block. mrun. cbn.
  rewrite (proj2 (Z.leb_gt _ _)), (proj2 (Z.leb_gt _ _)), (proj2 (Z.ltb_ge _ _)) by (unfold LOGSIZE, MAXOPBLOCKS; lia). cbn.
  set (i := find_block bl b 0 (Z.to_nat n)). pose proof (find_block_range bl b (Z.to_nat n) 0) as Hi. fold i in Hi.
  rewrite bool_decide_eq_true_2 by (apply lookup_lt_is_Some_2; lia). cbn.
  destruct (Z.eqb_spec i n); cbn; eexists; (split; [reflexivity|]); (split; [|by split]);
    split; cbn; rewrite ?length_insert; unfold LOGSIZE, MAXOPBLOCKS; lia || done.
Qed.

(** [s'] is [s] after one block was changed to [x] in the running transaction. *)
Record wrote (s : fstate) (n : Z) (x : block) (s' : fstate) : Prop := mkWrote {
  wr_sb : sb s' = sb s;
  wr_icl : iclock s' = iclock s;
  wr_ic : icache s' = icache s;
  wr_pid : fpid s' = fpid s;
  wr_held : fheld s' = fheld s;
  wr_view : forall m, fview s' m = bupd (fview s) n x m;
}.

(** The end of every update of a block: set the data, log it, release it. *)
Lemma update_run {A} s n x k (K : FM A) :
  n ∉ fheld s -> log_can s k -> 0 < k ->
  exists s', (ondisk (bset n x) ;; onlog (log_write n) ;; ondisk (brelse n) ;; K) (hold (n :: fheld s) s) = K s'
    /\ (ondisk (bset n x) ;; onlog (log_write n) ;; ondisk (brelse n)) (hold (n :: fheld s) s) = (Ok tt, s')
    /\ log_can s' (k - 1) /\ wrote s n x s'.
Proof.
  intros Hn Hlog Hk. set (s1 := fset n x (hold (n :: fheld s) s)).
  destruct (flog_write_run s1 k n) as (s2 & Hrun & Hlog2 & [E1 E2 E3 E4 E5 E6]); [by destruct Hlog; split|done|].
  assert (Hh2 : fheld s2 = n :: fheld s) by (unfold fheld; by rewrite E4).
  assert (Hrel : ondisk (brelse n) s2 = (Ok tt, hold (fheld s) s2)) by by apply frelse_run.
  exists (hold (fheld s) s2).
  rewrite !(bind_ok _ _ _ _ _ (fset_run _ _ _)). fold s1. rewrite !(bind_ok _ _ _ _ _ Hrun), (bind_ok _ _ _ _ _ Hrel).
  split; [done|]. split; [done|]. split; [by destruct Hlog2; split|].
  split; try done. intros m. unfold fview, hold. cbn. by rewrite E4.
Qed.

(** ** The contents of a file *)

(** The address of block [bn] of a file, read through the indirect block; 0 is none. *)
Definition faddr (s : fstate) (i : inode) (bn : Z) : Z :=
  if bn <? NDIRECT then addr_of i bn else get32 (fview s (addr_of i NDIRECT)) (4 * Z.to_nat (bn - NDIRECT)).

(** Byte [off] of a file. *)
Definition fbyte (s : fstate) (i : inode) (off : Z) : Z :=
  nth (Z.to_nat (off mod bsize)) (fview s (faddr s i (off / bsize))) 0.

Definition fbytes (s : fstate) (i : inode) (off : Z) (n : nat) : list Z :=
  map (fun k => fbyte s i (off + Z.of_nat k)) (seq 0 n).

(** A file in slot [ip] all of whose first [nb] blocks are there, each a block of its
    own; nothing is locked in the buffer cache. *)
Record file_ok (s : fstate) (ip : nat) (i : inode) (nb : Z) : Prop := mkFileOk {
  fo_slot : icache s !! ip = Some i;
  fo_dev : i_dev i = ROOTDEV;
  fo_free : fheld s = [];
  fo_max : nb <= MAXFILE;
  fo_ind : NDIRECT < nb -> addr_of i NDIRECT <> 0;
  fo_addr : forall bn, 0 <= bn < nb -> faddr s i bn <> 0;
  fo_inj : forall bn bn', 0 <= bn < nb -> 0 <= bn' < nb -> faddr s i bn = faddr s i bn' -> bn = bn';
  fo_not_ind : forall bn, 0 <= bn < nb -> faddr s i bn <> addr_of i NDIRECT;
  fo_len : forall bn, 0 <= bn < nb -> length (fview s (faddr s i bn)) = BSIZE;
}.

Lemma hold_restore l s : fheld s = [] -> hold [] (hold l s) = s.
Proof. intros H. rewrite hold_hold, <- H. apply hold_id. Qed.

Lemma bmap_run s ip i nb bn :
  file_ok s ip i nb -> 0 <= bn < nb -> bmap ip bn s = (Ok (faddr s i bn), s).
Proof.
  intros Hf Hbn. pose proof (fo_addr _ _ _ _ Hf bn Hbn) as Ha. unfold bmap, faddr in *.
  assert (Hall : forall j, addr_of i j <> 0 -> addr_alloc ip j s = (Ok (addr_of i j), s)).
  { intros j Hj. unfold addr_alloc. rewrite (bind_ok _ _ _ _ _ (geti_run s ip i (fo_slot _ _ _ _ Hf))).
    by rewrite (proj2 (Z.eqb_neq _ _) Hj). }
  destruct (Z.ltb_spec bn NDIRECT); [by apply Hall|].
  pose proof (fo_max _ _ _ _ Hf) as Hmax. unfold MAXFILE, NDIRECT, NINDIRECT in *.
  rewrite (proj2 (Z.ltb_lt _ _)) by lia.
  assert (Hi : addr_of i 12 <> 0) by (apply (fo_ind _ _ _ _ Hf); unfold NDIRECT; lia).
  rewrite (bind_ok _ _ _ _ _ (Hall 12 Hi)), (bind_ok _ _ _ _ _ (geti_run s ip i (fo_slot _ _ _ _ Hf))).
  rewrite (fo_dev _ _ _ _ Hf). pose proof (fo_free _ _ _ _ Hf) as Hh.
  rewrite (bind_ok _ _ _ _ _ (fread_run (addr_of i 12) s ltac:(rewrite Hh; apply not_elem_of_nil))).
  rewrite (bind_ok _ _ _ _ _ (fdata_run _ _)). change (fview (hold _ s) ?n) with (fview s n).
  rewrite (proj2 (Z.eqb_neq _ _) Ha). unfold bind at 1, ret at 1.
  rewrite Hh. erewrite (bind_ok (ondisk (brelse _))); [|apply (frelse_run _ []); [done|apply not_elem_of_nil]].
  by rewrite hold_restore.
Qed.

Lemma slice_fbytes s i off m :
  0 <= off -> 0 <= m -> off mod bsize + m <= bsize -> length (fview s (faddr s i (off / bsize))) = BSIZE ->
  slice (fview s (faddr s i (off / bsize))) (Z.to_nat (off mod bsize)) (Z.to_nat m) = fbytes s i off (Z.to_nat m).
Proof.
  intros Ho Hm Hfit Hl. unfold bsize, BSIZE in *. pose proof (Z.mod_pos_bound off 512 ltac:(lia)) as Hb.
  apply list_eq. intros k. unfold fbytes. rewrite lookup_slice, list_lookup_fmap. case_decide as Hk.
  - rewrite lookup_seq_lt by lia. cbn [fmap option_fmap option_map]. unfold fbyte, bsize, BSIZE.
    pose proof (Z.div_mod off 512 ltac:(lia)) as Hdm.
    assert (Hd : (off + Z.of_nat k) / 512 = off / 512) by (symmetry; apply (Z.div_unique _ _ _ (off mod 512 + Z.of_nat k)); lia).
    assert (Hmo : (off + Z.of_nat k) mod 512 = off mod 512 + Z.of_nat k) by (symmetry; apply (Z.mod_unique _ _ (off / 512)); lia).
    cbn [Nat.add]. change (Z.of_nat 512) with 512. rewrite Hd, Hmo.
    rewrite Z2Nat.inj_add, Nat2Z.id by lia. set (x := fview s _) in *.
    destruct (lookup_lt_is_Some_2 x (Z.to_nat (off mod 512) + k)%nat) as [b Hbk]; [change (Z.of_nat 512) with 512 in *; lia|].
    change (Z.of_nat 512) with 512 in *. rewrite Hbk. by rewrite (nth_lookup_Some _ _ _ _ Hbk).
  - by rewrite lookup_seq_ge by lia.
Qed.

Lemma fbytes_app s i off a b : fbytes s i off (a + b) = fbytes s i off a ++ fbytes s i (off + Z.of_nat a) b.
Proof.
  unfold fbytes. rewrite seq_app, map_app. f_equal. cbn [Nat.add]. apply list_eq. intros k. rewrite !list_lookup_fmap.
  destruct (decide (k < b)%nat).
  - rewrite !lookup_seq_lt by lia. cbn. f_equal. f_equal. lia.
  - by rewrite !lookup_seq_ge by lia.
Qed.

(** The turns the loops of [readi] and [writei] need for [n] bytes from [off]. *)
Lemma turn_bounds off n : 0 <= off -> 0 < n ->
  let m := Z.min n (bsize - off mod bsize) in
  0 < m <= n /\ off mod bsize + m <= bsize /\ (m = n \/ (off + m) mod bsize = 0 /\ off mod bsize + m = bsize).
Proof.
  intros Ho Hn m. unfold m, bsize, BSIZE. change (Z.of_nat 512) with 512. pose proof (Z.mod_pos_bound off 512 ltac:(lia)).
  pose proof (Z.div_mod off 512 ltac:(lia)) as Hdm. split; [lia|]. split; [lia|].
  destruct (Z.min_spec n (512 - off mod 512)) as [[_ ->]|[_ ->]]; [by left|]. right. split; [|lia].
  replace (off + (512 - off mod 512)) with ((off / 512 + 1) * 512) by lia. apply Z.mod_mul. lia.
Qed.

Definition enough (fuel : nat) (off n : Z) : Prop :=
  (0 < fuel)%nat /\ (0 < n -> n <= bsize * (Z.of_nat fuel - 2) + (bsize - off mod bsize)).

Lemma enough_step fuel off n : 0 <= off -> 0 < n -> enough (S fuel) off n ->
  let m := Z.min n (bsize - off mod bsize) in enough fuel (off + m) (n - m).
Proof.
  intros Ho Hn [_ He] m. destruct (turn_bounds off n Ho Hn) as (Hm & Hfit & Hor). fold m in Hm, Hfit, Hor.
  specialize (He Hn). unfold enough. unfold bsize, BSIZE in *. change (Z.of_nat 512) with 512 in *.
  pose proof (Z.mod_pos_bound off 512 ltac:(lia)). destruct Hor as [->|[-> H2]]; lia.
Qed.

Lemma enough_start off n : 0 <= off -> 0 <= n -> enough (S (S (S (Z.to_nat (n / bsize))))) off n.
Proof.
  intros Ho Hn. unfold enough, bsize, BSIZE. change (Z.of_nat 512) with 512.
  pose proof (Z.div_mod n 512 ltac:(lia)). pose proof (Z.mod_pos_bound n 512 ltac:(lia)). pose proof (Z.mod_pos_bound off 512 ltac:(lia)).
  assert (0 <= n / 512) by (apply Z.div_pos; lia). split; [lia|]. intros _. lia.
Qed.

Lemma block_in_range off nb : 0 <= off -> off < nb * bsize -> 0 <= off / bsize < nb.
Proof.
  unfold bsize, BSIZE. change (Z.of_nat 512) with 512. intros H1 H2.
  split; [apply Z.div_pos; lia|apply Z.div_lt_upper_bound; lia].
Qed.

Lemma readi_loop_run ip i nb : forall fuel s off n acc,
  file_ok s ip i nb -> 0 <= off -> 0 <= n -> off + n <= nb * bsize -> enough fuel off n ->
  readi_loop fuel ip off n acc s = (Ok (acc ++ fbytes s i off (Z.to_nat n)), s).
Proof.
  induction fuel as [|fuel IH]; intros s off n acc Hf Ho Hn Hend He; [destruct He; lia|]. cbn [readi_loop].
  destruct (Z.ltb_spec 0 n) as [Hpos|Hz].
  2:{ replace n with 0 by lia. cbn. by rewrite app_nil_r. }
  destruct (turn_bounds off n Ho Hpos) as (Hm & Hfit & _). pose proof (enough_step fuel off n Ho Hpos He) as He'.
  set (m := Z.min n (bsize - off mod bsize)) in *.
  pose proof (block_in_range off nb Ho ltac:(lia)) as Hb.
  assert (Hmax : off + m <= MAXFILE * bsize).
  { pose proof (fo_max _ _ _ _ Hf). assert (nb * bsize <= MAXFILE * bsize) by (apply Z.mul_le_mono_nonneg_r; [unfold bsize; lia|done]). lia. }
  rewrite (bind_ok _ _ _ _ _ (geti_run s ip i (fo_slot _ _ _ _ Hf))).
  rewrite (bind_ok _ _ _ _ _ (bmap_run s ip i nb _ Hf Hb)), (fo_dev _ _ _ _ Hf).
  pose proof (fo_free _ _ _ _ Hf) as Hh. set (a := faddr s i (off / bsize)).
  rewrite (bind_ok _ _ _ _ _ (fread_run a s ltac:(rewrite Hh; apply not_elem_of_nil))).
  rewrite (bind_ok _ _ _ _ _ (fdata_run _ _)). change (fview (hold _ s) ?n) with (fview s n). rewrite Hh.
  erewrite (bind_ok (ondisk (brelse _))); [|apply (frelse_run _ []); [done|apply not_elem_of_nil]].
  rewrite hold_restore by done. rewrite u32_id by (unfold MAXFILE, NDIRECT, NINDIRECT, bsize, BSIZE in *; lia).
  rewrite IH; [|done|lia|lia|lia|done].
  unfold a. rewrite slice_fbytes; [|done|lia|done|by apply (fo_len _ _ _ _ Hf)].
  rewrite <- app_assoc. do 3 f_equal.
  replace (Z.to_nat n) with (Z.to_nat m + Z.to_nat (n - m))%nat by lia. rewrite fbytes_app. do 2 f_equal. lia.
Qed.

(** ** Inodes on disk *)

(** The fields of an inode are in the range of their C types. *)
Record inode_fits (i : inode) : Prop := mkFits {
  if_type : - 2 ^ 15 <= i_type i < 2 ^ 15;
  if_major : - 2 ^ 15 <= i_major i < 2 ^ 15;
  if_minor : - 2 ^ 15 <= i_minor i < 2 ^ 15;
  if_nlink : - 2 ^ 15 <= i_nlink i < 2 ^ 15;
  if_size : 0 <= i_size i < 2 ^ 32;
  if_addrs : Forall (fun a => 0 <= a < 2 ^ 32) (i_addrs i);
  if_length : length (i_addrs i) = 13%nat;
}.

Lemma length_put_addrs l : forall x o, (o + 4 * length l <= length x)%nat -> length (put_addrs x o l) = length x.
Proof.
  induction l as [|a l IH]; intros x o H; cbn [put_addrs length] in *; [done|].
  rewrite IH; rewrite length_put32; lia.
Qed.

Lemma slice_put_addrs l : forall x o o' n, (o + 4 * length l <= length x)%nat -> (o' + n <= o \/ o + 4 * length l <= o')%nat ->
  slice (put_addrs x o l) o' n = slice x o' n.
Proof.
  induction l as [|a l IH]; intros x o o' n H Ho; cbn [put_addrs length] in *; [done|].
  rewrite IH by (rewrite ?length_put32; lia). apply slice_splice_ne; rewrite length_le_bytes; lia.
Qed.

Lemma get32_put_addrs l : forall x o j, (o + 4 * length l <= length x)%nat -> (j < length l)%nat ->
  get32 (put_addrs x o l) (o + 4 * j) = u32 (nth j l 0).
Proof.
  induction l as [|a l IH]; intros x o j H Hj; cbn [put_addrs length] in *; [lia|]. destruct j as [|j]; cbn [nth].
  - rewrite Nat.mul_0_r, Nat.add_0_r. unfold get32 at 1. rewrite slice_put_addrs by (rewrite ?length_put32; lia).
    apply get32_put32. lia.
  - replace (o + 4 * S j)%nat with (o + 4 + 4 * j)%nat by lia. apply IH; rewrite ?length_put32; lia.
Qed.

Lemma s16_u16 z : - 2 ^ 15 <= z < 2 ^ 15 -> s16 (u16 z) = z.
Proof.
  intros H. unfold s16, u16. rewrite Z.add_mod_idemp_l by lia. rewrite Z.mod_small by lia. lia.
Qed.

(** Lengths of blocks under updates of fields. *)
Ltac flen := first [ lia | rewrite length_put16; flen | rewrite length_put32; flen | rewrite length_put_addrs; flen | rewrite length_le_bytes; flen ].

(** The fields [ilock] does not read from the disk are those of [j]. *)
Definition same_dinode (i j : inode) : inode :=
  mkInode (i_dev j) (i_inum j) (i_ref j) (i_lock j) (i_valid j)
    (i_type i) (i_major i) (i_minor i) (i_nlink i) (i_size i) (i_addrs i).

Lemma length_dinode_put x o i :
  (o + sizeof_dinode <= length x)%nat -> length (i_addrs i) = 13%nat -> length (dinode_put x o i) = length x.
Proof. intros Ho Hl. unfold sizeof_dinode, dinode_put in *. flen. Qed.

Lemma slice_dinode_put x o i o' n :
  (o + sizeof_dinode <= length x)%nat -> length (i_addrs i) = 13%nat -> (o' + n <= o \/ o + sizeof_dinode <= o')%nat ->
  slice (dinode_put x o i) o' n = slice x o' n.
Proof.
  intros Ho Hl Ho'. unfold sizeof_dinode, dinode_put in *. rewrite slice_put_addrs by flen.
  unfold put32 at 1. rewrite slice_splice_ne by flen.
  do 3 (unfold put16 at 1; rewrite slice_splice_ne by flen). unfold put16. by rewrite slice_splice_ne by flen.
Qed.

Lemma dinode_get_put x o i j :
  (o + sizeof_dinode <= length x)%nat -> inode_fits i -> dinode_get (dinode_put x o i) o j = same_dinode i j.
Proof.
  intros Ho [F1 F2 F3 F4 F5 F6 F7]. unfold dinode_get, same_dinode, dinode_put, sizeof_dinode in *.
  assert (Hshort : forall y o', (o' + 2 <= o + 12)%nat -> length y = length x ->
    get16 (put_addrs y (o + 12) (i_addrs i)) o' = get16 y o').
  { intros y o' H Hy. unfold get16. by rewrite slice_put_addrs by flen. }
  rewrite !Hshort by flen. do 4 (rewrite get16_put32_ne by flen).
  repeat first [rewrite get16_put16 by flen | rewrite get16_put16_ne by flen].
  f_equal; try by apply s16_u16.
  - unfold get32 at 1. rewrite slice_put_addrs by flen. change (le_value (slice ?b ?n 4)) with (get32 b n).
    rewrite get32_put32 by flen. by apply u32_id.
  - apply list_eq. intros k. unfold dinode_addrs. rewrite list_lookup_fmap. destruct (decide (k < 13)%nat) as [Hk|Hk].
    + rewrite lookup_seq_lt by done. cbn [fmap option_fmap option_map Nat.add]. rewrite get32_put_addrs by flen.
      destruct (lookup_lt_is_Some_2 (i_addrs i) k ltac:(lia)) as [a Ha]. rewrite Ha, (nth_lookup_Some _ _ _ _ Ha).
      rewrite u32_id; [done|]. by eapply (proj1 (Forall_lookup _ _) F6).
    + rewrite lookup_seq_ge, lookup_ge_None_2 by lia. done.
Qed.

(** The inode at [o] depends on its own bytes only. *)
Lemma dinode_get_slice x y o j :
  slice x o sizeof_dinode = slice y o sizeof_dinode -> dinode_get x o j = dinode_get y o j.
Proof.
  intros H. assert (Hsub : forall a n, (a + n <= sizeof_dinode)%nat -> slice x (o + a) n = slice y (o + a) n).
  { intros a n Ha. assert (Hin : forall z, slice z (o + a) n = slice (slice z o sizeof_dinode) a n); [|by rewrite !Hin, H].
    intros z. apply list_eq. intros k. rewrite !lookup_slice. case_decide; [|done]. rewrite decide_True by lia. f_equal. lia. }
  unfold dinode_get, dinode_addrs, get16, get32. unfold sizeof_dinode in Hsub.
  pose proof (Hsub 0%nat 2%nat ltac:(lia)) as H0. rewrite Nat.add_0_r in H0. rewrite H0, !Hsub by lia. f_equal.
  apply map_ext_in. intros k Hk%in_seq. rewrite <- Nat.add_assoc, Hsub by lia. done.
Qed.

Lemma dip_fits inum : (dip inum + sizeof_dinode <= BSIZE)%nat.
Proof. unfold dip, sizeof_dinode, BSIZE, IPB. pose proof (Z.mod_pos_bound inum 8 ltac:(lia)). lia. Qed.

Lemma iupdate_run s ip i k :
  icache s !! ip = Some i -> i_dev i = ROOTDEV -> fheld s = [] -> log_can s k -> 0 < k ->
  let b := IBLOCK (i_inum i) (sb s) in
  exists s', iupdate ip s = (Ok tt, s') /\ log_can s' (k - 1)
    /\ wrote s b (dinode_put (fview s b) (dip (i_inum i)) i) s'.
Proof.
  intros Hi Hd Hh Hlog Hk b. unfold iupdate. rewrite (bind_ok (gets sb) _ s s (sb s) eq_refl).
  rewrite (bind_ok _ _ _ _ _ (geti_run s ip i Hi)), Hd. fold b.
  assert (Hn : b ∉ fheld s) by (rewrite Hh; apply not_elem_of_nil).
  rewrite (bind_ok _ _ _ _ _ (fread_run b s Hn)), (bind_ok _ _ _ _ _ (fdata_run _ _)).
  change (fview (hold _ s) ?n) with (fview s n).
  destruct (update_run s b (dinode_put (fview s b) (dip (i_inum i)) i) k (ret tt) Hn Hlog Hk) as (s' & _ & E & ? & ?). eauto.
Qed.

(** ** Reading files *)


Lemma readi_run dev_read s ip i nb off n :
  file_ok s ip i nb -> i_type i <> T_DEV -> 0 <= off -> 0 <= n -> off + n <= i_size i -> i_size i <= nb * bsize ->
  readi dev_read ip off n s = (Ok (n, fbytes s i off (Z.to_nat n)), s).
Proof.
  intros Hf Ht Ho Hn Hend Hsz. unfold readi. rewrite (bind_ok _ _ _ _ _ (geti_run s ip i (fo_slot _ _ _ _ Hf))).
  rewrite (proj2 (Z.eqb_neq _ _) Ht).
  assert (Hmax : nb * bsize <= 71680).
  { pose proof (fo_max _ _ _ _ Hf). unfold MAXFILE, NDIRECT, NINDIRECT, bsize, BSIZE in *. lia. }
  rewrite (proj2 (Z.ltb_ge _ _)), u32_id, (proj2 (Z.ltb_ge _ _)), (proj2 (Z.ltb_ge _ _)) by lia. cbn [orb].
  rewrite (bind_ok _ _ _ _ _ (readi_loop_run ip i nb _ s off n [] Hf Ho Hn ltac:(lia) (enough_start off n Ho Hn))).
  unfold ret. rewrite s32_id by lia. done.
Qed.

Lemma set_size_id i : set_size (i_size i) i = i.
Proof. by destruct i. Qed.

(** ** Inodes survive their cache entry *)

(** An entry [iget] has recycled for inode [inum]: referenced, not yet read, unlocked. *)
Definition fresh_entry (j : inode) (inum : Z) : Prop :=
  i_dev j = ROOTDEV /\ i_inum j = inum /\ i_valid j = false /\ 1 <= i_ref j
  /\ slk (i_lock j) = false /\ slocked (i_lock j) = false.

Lemma on_ilock_run {A} s ip i (m : M slstate A) a t :
  icache s !! ip = Some i -> m (mkSl (i_lock i) (fpid s) (fwoken s)) = (Ok a, t) ->
  on_ilock ip m s = (Ok a, set_fwoken (slwoken t) (set_icache (<[ip := set_ilock (sl t) i]> (icache s)) s)).
Proof. intros Hi Hm. unfold on_ilock. rewrite (bind_ok _ _ _ _ _ (geti_run s ip i Hi)). unfold zoom. by rewrite Hm. Qed.

Lemma ilock_fresh s jp j inum :
  icache s !! jp = Some j -> fresh_entry j inum -> fheld s = [] ->
  let i' := set_valid true (dinode_get (fview s (IBLOCK inum (sb s))) (dip inum) (set_ilock (mkSleeplock false true (fpid s)) j)) in
  i_type i' <> 0 ->
  exists s', ilock jp s = (Ok tt, s') /\ icache s' = <[jp := i']> (icache s) /\ sb s' = sb s /\ fl s' = fl s.
Proof.
  intros Hj (Hd & Hn & Hv & Hr & Hk & Hl) Hh i' Ht. unfold ilock.
  rewrite (bind_ok _ _ _ _ _ (geti_run s jp j Hj)), (proj2 (Z.ltb_ge _ _)) by lia.
  set (j1 := set_ilock (mkSleeplock false true (fpid s)) j).
  assert (Hacq : on_ilock jp (acquiresleep (CSleeplock jp)) s = (Ok tt, set_fwoken (fwoken s) (set_icache (<[jp := j1]> (icache s)) s))).
  { apply (on_ilock_run s jp j _ tt (mkSl (mkSleeplock false true (fpid s)) (fpid s) (fwoken s)) Hj).
    destruct (i_lock j) as [lk lo pd]. cbn in Hk, Hl. by subst. }
  rewrite (bind_ok _ _ _ _ _ Hacq). set (s1 := set_fwoken _ _).
  pose proof (lookup_lt_Some _ _ _ Hj) as Hlt.
  assert (Hs1 : icache s1 !! jp = Some j1) by by apply list_lookup_insert_eq.
  rewrite (bind_ok _ _ _ _ _ (geti_run s1 jp j1 Hs1)). change (i_valid j1) with (i_valid j). rewrite Hv. cbn [negb].
  rewrite (bind_ok (gets sb) _ s1 s1 (sb s) eq_refl). change (i_dev j1) with (i_dev j). change (i_inum j1) with (i_inum j).
  rewrite Hd, Hn. set (b := IBLOCK inum (sb s)) in *. assert (Hh1 : fheld s1 = []) by done.
  rewrite (bind_ok _ _ _ _ _ (fread_run b s1 ltac:(rewrite Hh1; apply not_elem_of_nil))), (bind_ok _ _ _ _ _ (fdata_run _ _)), Hh1.
  change (fview (hold _ s1) b) with (fview s b). rewrite (bind_ok _ _ _ _ _ (updi_run (hold [b] s1) jp j1 _ Hs1)).
  set (j2 := dinode_get _ _ j1). set (s2 := set_icache _ _).
  rewrite (bind_ok _ _ _ _ _ (frelse_run b [] s2 eq_refl ltac:(apply not_elem_of_nil))).
  assert (Hs2 : icache (hold [] s2) !! jp = Some j2) by (apply list_lookup_insert_eq; cbn; by rewrite length_insert).
  rewrite (bind_ok _ _ _ _ _ (updi_run (hold [] s2) jp j2 _ Hs2)). set (s3 := set_icache _ _).
  rewrite (bind_ok _ _ _ _ _ (geti_run s3 jp i' ltac:(apply list_lookup_insert_eq; cbn; by rewrite !length_insert))).
  rewrite (proj2 (Z.eqb_neq _ _) Ht). exists s3. split; [done|]. split; [|split; [done|]].
  - unfold s3, s2, s1. cbn. by rewrite !list_insert_insert_eq.
  - unfold s3, s2, s1. unfold fheld in Hh. cbn. destruct s as [? ? ? [? [? ? ? ?] ?] ? ? ?]. cbn in *. by subst.
Qed.

(** C20: an inode written by [iupdate] is read back by [ilock] into any entry of the
    cache that has been recycled for it: type, device numbers, link count, size and all
    thirteen addresses are the same, and the inodes that share its block are not
    touched. *)
Theorem iupdate_ilock s ip i k :
  icache s !! ip = Some i -> i_dev i = ROOTDEV -> fheld s = [] -> log_can s k -> 0 < k ->
  inode_fits i -> i_type i <> 0 -> length (fview s (IBLOCK (i_inum i) (sb s))) = BSIZE ->
  let b := IBLOCK (i_inum i) (sb s) in
  exists s', iupdate ip s = (Ok tt, s')
    /\ (forall s1 jp j, sb s1 = sb s -> fview s1 b = fview s' b -> fheld s1 = [] ->
         icache s1 !! jp = Some j -> fresh_entry j (i_inum i) ->
         exists s2, ilock jp s1 = (Ok tt, s2) /\ icache s2 !! jp =
           Some (mkInode ROOTDEV (i_inum i) (i_ref j) (mkSleeplock false true (fpid s1)) true
                   (i_type i) (i_major i) (i_minor i) (i_nlink i) (i_size i) (i_addrs i)))
    /\ (forall n j, 0 <= n < IPB -> n <> i_inum i mod IPB -> dinode_get (fview s' b) (dip n) j = dinode_get (fview s b) (dip n) j).
Proof.
  intros Hi Hd Hh Hlog Hk Hfit Ht Hlen b. destruct (iupdate_run s ip i k Hi Hd Hh Hlog Hk) as (s' & Hrun & _ & Hw).
  fold b in Hw, Hlen. pose proof (dip_fits (i_inum i)) as Hdip.
  assert (Hv : fview s' b = dinode_put (fview s b) (dip (i_inum i)) i) by by rewrite (wr_view _ _ _ _ Hw), bupd_eq.
  exists s'. split; [done|]. split.
  - intros s1 jp j Hsb Hv1 Hh1 Hj Hfr. destruct (ilock_fresh s1 jp j (i_inum i) Hj Hfr Hh1) as (s2 & Hl & Hic & _).
    + rewrite Hsb. fold b. rewrite Hv1, Hv, dinode_get_put by (done || by rewrite Hlen). done.
    + exists s2. split; [done|]. rewrite Hic, list_lookup_insert_eq by by eapply lookup_lt_Some. f_equal.
      rewrite Hsb. fold b. rewrite Hv1, Hv, dinode_get_put by (done || by rewrite Hlen).
      destruct Hfr as (H1 & H2 & _). unfold same_dinode, set_valid. cbn. by rewrite H1, H2.
  - intros n j Hn Hne. rewrite Hv. apply dinode_get_slice, slice_dinode_put; [by rewrite Hlen|by destruct Hfit|].
    pose proof (Z.mod_pos_bound (i_inum i) IPB eq_refl) as Hm. unfold dip, sizeof_dinode. rewrite (Z.mod_small n) by done. lia.
Qed.

(** ** A file system to run on *)

Module Runs.
(** A file of 6100 bytes with twelve direct blocks from block 100 on, the indirect
    block 120 and two blocks, 200 and 201, behind it; its inode is number 9. *)
Definition super : superblock := mkSb 1000 900 200 30 2 32 58.
Definition zeros : block := replicate BSIZE 0.
Definition blocks (n : Z) : block := if n =? 120 then put32 (put32 zeros 0 200) 4 201 else zeros.
Definition file : inode :=
  mkInode ROOTDEV 9 1 (mkSleeplock false true 5) true T_FILE 0 0 1 6100 (map (fun k => 100 + Z.of_nat k) (seq 0 12) ++ [120]).
Definition fresh : inode := mkInode ROOTDEV 9 1 (mkSleeplock false false 0) false 0 0 0 0 0 (replicate 13 0).
Definition fs : fstate :=
  mkF super false [file] (mkL (mkLog false 2 30 1 false ROOTDEV 0 (replicate 30 0)) (mkBlk blocks blocks [] []) []) 5 [] [].

Lemma blocks_length n : length (blocks n) = BSIZE.
Proof. unfold blocks. destruct (n =? 120); vm_compute; reflexivity. Qed.

Lemma fs_log_can k : k <= 29 -> log_can fs k.
Proof. intros H. split; try done; cbn; unfold LOGSIZE, MAXOPBLOCKS; lia. Qed.

Lemma file_fits : inode_fits file.
Proof. split; cbn; try lia; try done. repeat constructor; lia. Qed.
End Runs.

Lemma iupdate_ilock_witness : exists s', iupdate 0 Runs.fs = (Ok tt, s')
  /\ forall s1, sb s1 = Runs.super -> fview s1 33 = fview s' 33 -> fheld s1 = [] -> icache s1 = [Runs.fresh] ->
     exists s2, ilock 0 s1 = (Ok tt, s2) /\ (fun i => (i_type i, i_size i, i_addrs i)) <$> (icache s2 !! 0%nat)
       = Some (T_FILE, 6100, map (fun k => 100 + Z.of_nat k) (seq 0 12) ++ [120]).
Proof.
  destruct (iupdate_ilock Runs.fs 0 Runs.file 1 eq_refl eq_refl eq_refl (Runs.fs_log_can 1 ltac:(lia)) ltac:(lia)
    Runs.file_fits ltac:(done) (Runs.blocks_length _)) as (s' & H1 & H2 & _).
  exists s'. split; [exact H1|]. intros s1 E1 E2 E3 E4.
  destruct (H2 s1 0%nat Runs.fresh E1 E2 E3) as (s2 & H3 & H4); [by rewrite E4|by repeat split|].
  exists s2. split; [exact H3|]. by rewrite H4.
Defined.
