(* ===== verification/FsAlloc.v ===== *)
(** The block allocator of [Fs]: [balloc] and [bfree] against the set of used blocks. *)

From Stdlib Require Import ZArith Lia.
From stdpp Require Import base list strings.
From S2P Require Import Prelude Bytes Blk Log Fs FsInv.
Local Open Scope Z_scope.

(** Bit [bi] of a bitmap block, and whether block [b] is in use. *)
Definition bit (x : block) (bi : Z) : bool := Z.testbit (bit_byte x bi) (bi mod 8).
Definition used (s : fstate) (b : Z) : bool := bit (fview s (BBLOCK b (sb s))) (b mod BPB).

Lemma mask_test z bi : (Z.land z (bit_mask bi) =? 0) = negb (Z.testbit z (bi mod 8)).
Proof.
  unfold bit_mask. pose proof (Z.mod_pos_bound bi 8 ltac:(lia)) as Hm. set (k := bi mod 8) in *.
  rewrite Z.shiftl_1_l. destruct (Z.testbit z k) eqn:E; cbn [negb].
  - apply Z.eqb_neq. intros H. assert (Ht : Z.testbit (Z.land z (2 ^ k)) k = false) by (rewrite H; apply Z.bits_0).
    rewrite Z.land_spec, Z.pow2_bits_true, E in Ht by lia. done.
  - apply Z.eqb_eq, Z.bits_inj'. intros n Hn. rewrite Z.land_spec, Z.bits_0.
    destruct (Z.eq_dec n k) as [->|Hne]; [by rewrite E|]. rewrite Z.pow2_bits_false by lia. apply andb_false_r.
Qed.

(** Writing one bit of a bitmap block. *)
Definition set_bit (x : block) (bi : Z) : block := <[Z.to_nat (bi / 8) := Z.lor (bit_byte x bi) (bit_mask bi)]> x.
Definition clear_bit (x : block) (bi : Z) : block := <[Z.to_nat (bi / 8) := Z.land (bit_byte x bi) (Z.lnot (bit_mask bi))]> x.

Lemma bit_byte_insert x bi bj v :
  0 <= bi < BPB -> 0 <= bj -> length x = BSIZE ->
  bit_byte (<[Z.to_nat (bi / 8) := v]> x) bj = if bj / 8 =? bi / 8 then v else bit_byte x bj.
Proof.
  intros Hi Hj Hl. unfold bit_byte, BPB, BSIZE in *.
  assert (0 <= bi / 8 < 512) by (split; [apply Z.div_pos; lia|apply Z.div_lt_upper_bound; lia]).
  assert (0 <= bj / 8) by (apply Z.div_pos; lia). rewrite !nth_lookup.
  destruct (Z.eqb_spec (bj / 8) (bi / 8)) as [->|Hne].
  - rewrite list_lookup_insert_eq by lia. done.
  - rewrite list_lookup_insert_ne by lia. done.
Qed.

Lemma same_bit bi bj : bj / 8 = bi / 8 -> bj mod 8 = bi mod 8 -> bj = bi.
Proof. intros H1 H2. rewrite (Z.div_mod bj 8), (Z.div_mod bi 8), H1, H2 by lia. done. Qed.

Lemma bit_set_bit x bi bj : 0 <= bi < BPB -> 0 <= bj -> length x = BSIZE -> bit (set_bit x bi) bj = (bj =? bi) || bit x bj.
Proof.
  intros Hi Hj Hl. unfold bit, set_bit. rewrite bit_byte_insert by done.
  pose proof (Z.mod_pos_bound bi 8 ltac:(lia)). pose proof (Z.mod_pos_bound bj 8 ltac:(lia)).
  destruct (Z.eqb_spec (bj / 8) (bi / 8)) as [E|Hne].
  - assert (Hb : bit_byte x bj = bit_byte x bi) by (unfold bit_byte; by rewrite E). rewrite Hb, Z.lor_spec. unfold bit_mask.
    rewrite Z.shiftl_1_l. destruct (Z.eqb_spec bj bi) as [->|Hne]; [by rewrite Z.pow2_bits_true, orb_true_r by lia|].
    rewrite Z.pow2_bits_false, orb_false_r; [done|]. intros E2. by apply Hne, same_bit.
  - destruct (Z.eqb_spec bj bi) as [->|]; done.
Qed.

Lemma bit_clear_bit x bi bj : 0 <= bi < BPB -> 0 <= bj -> length x = BSIZE -> bit (clear_bit x bi) bj = negb (bj =? bi) && bit x bj.
Proof.
  intros Hi Hj Hl. unfold bit, clear_bit. rewrite bit_byte_insert by done.
  pose proof (Z.mod_pos_bound bi 8 ltac:(lia)). pose proof (Z.mod_pos_bound bj 8 ltac:(lia)).
  destruct (Z.eqb_spec (bj / 8) (bi / 8)) as [E|Hne].
  - assert (Hb : bit_byte x bj = bit_byte x bi) by (unfold bit_byte; by rewrite E). rewrite Hb, Z.land_spec, Z.lnot_spec by lia. unfold bit_mask.
    rewrite Z.shiftl_1_l. destruct (Z.eqb_spec bj bi) as [->|Hne]; cbn [negb andb]; [by rewrite Z.pow2_bits_true, andb_false_r by lia|].
    rewrite Z.pow2_bits_false, andb_true_r; [done|]. intros E2. by apply Hne, same_bit.
  - destruct (Z.eqb_spec bj bi) as [->|]; done.
Qed.

(** The scan of one bitmap block finds the first free bit below [size]. *)
Lemma find_bit_spec x size b : forall n bi,
  match find_bit x size b bi n with
  | Some r => bi <= r < bi + Z.of_nat n /\ b + r < size /\ bit x r = false /\ forall k, bi <= k < r -> bit x k = true
  | None => forall k, bi <= k < bi + Z.of_nat n -> b + k < size -> bit x k = true
  end.
Proof.
  induction n as [|n IH]; intros bi; cbn [find_bit]; [lia|].
  destruct (Z.ltb_spec (b + bi) size) as [Hs|Hs]; [|intros k Hk Hl; lia].
  rewrite mask_test. change (Z.testbit _ _) with (bit x bi). destruct (bit x bi) eqn:E; cbn [negb].
  - specialize (IH (bi + 1)). destruct (find_bit x size b (bi + 1) n) as [r|].
    + destruct IH as (H1 & H2 & H3 & H4). split; [lia|]. split; [done|]. split; [done|]. intros k Hk.
      destruct (Z.eq_dec k bi) as [->|]; [done|]. apply H4. lia.
    + intros k Hk Hl. destruct (Z.eq_dec k bi) as [->|]; [done|]. apply IH; lia.
  - split; [lia|]. split; [done|]. split; [done|]. intros k Hk. lia.
Qed.

(** The bitmap is whole, its own blocks are in use, and no buffer is locked. *)
Record bitmap_ok (s : fstate) : Prop := mkBitmapOk {
  bm_size : 0 <= sb_size (sb s);
  bm_start : 0 <= sb_bmapstart (sb s);
  bm_length : forall b, 0 <= b < sb_size (sb s) -> length (fview s (BBLOCK b (sb s))) = BSIZE;
  bm_used : forall b, 0 <= b < sb_size (sb s) -> BBLOCK b (sb s) < sb_size (sb s) /\ used s (BBLOCK b (sb s)) = true;
  bm_free : fheld s = [];
}.

Definition zero_block : block := replicate BSIZE 0.

Lemma bzero_run s b k : b ∉ fheld s -> log_can s k -> 0 < k ->
  exists s', bzero ROOTDEV b s = (Ok tt, s') /\ log_can s' (k - 1) /\ wrote s b zero_block s'.
Proof.
  intros Hn Hlog Hk. unfold bzero. rewrite (bind_ok _ _ _ _ _ (fread_run b s Hn)).
  destruct (update_run s b zero_block k (ret tt) Hn Hlog Hk) as (s' & _ & E & ? & ?). eauto.
Qed.

(** [s'] is [s] with block [r] marked in the bitmap, and zeroed. *)
Record allocated (s : fstate) (r : Z) (s' : fstate) : Prop := mkAllocated {
  al_sb : sb s' = sb s;
  al_icl : iclock s' = iclock s;
  al_ic : icache s' = icache s;
  al_pid : fpid s' = fpid s;
  al_held : fheld s' = fheld s;
  al_view : forall m, fview s' m =
    bupd (bupd (fview s) (BBLOCK r (sb s)) (set_bit (fview s (BBLOCK r (sb s))) (r mod BPB))) r zero_block m;
}.

(** The least free block below [size]. *)
Definition first_free (s : fstate) (r : Z) : Prop :=
  0 <= r < sb_size (sb s) /\ used s r = false /\ forall b, 0 <= b < r -> used s b = true.

Lemma group_block j bi s : 0 <= bi < BPB -> BBLOCK (j * BPB + bi) s = j + sb_bmapstart s /\ (j * BPB + bi) mod BPB = bi.
Proof.
  intros H. unfold BBLOCK, BPB in *. split.
  - f_equal. symmetry. apply (Z.div_unique _ _ _ bi); lia.
  - symmetry. apply (Z.mod_unique _ _ j); lia.
Qed.

Lemma used_group s j bi : 0 <= bi < BPB -> used s (j * BPB + bi) = bit (fview s (j + sb_bmapstart (sb s))) bi.
Proof. intros H. destruct (group_block j bi (sb s) H) as [H1 H2]. unfold used. by rewrite H1, H2. Qed.

Lemma in_group b : exists bi, b = b / BPB * BPB + bi /\ 0 <= bi < BPB.
Proof. exists (b mod BPB). unfold BPB. pose proof (Z.div_mod b 4096 ltac:(lia)). pose proof (Z.mod_pos_bound b 4096 ltac:(lia)). lia. Qed.

(** The buffers [balloc] wants are free: the caller holds others. *)
Definition not_held (s : fstate) : Prop :=
  (forall b, 0 <= b < sb_size (sb s) -> BBLOCK b (sb s) ∉ fheld s)
  /\ forall b, 0 <= b < sb_size (sb s) -> used s b = false -> b ∉ fheld s.

Lemma not_held_none s : fheld s = [] -> not_held s.
Proof. intros H. split; intros; rewrite H; apply not_elem_of_nil. Qed.

(** From the group [j] of blocks on, everything before it being in use. *)
Lemma balloc_loop_run s k : bitmap_ok (hold [] s) -> not_held s -> log_can s k -> 2 <= k -> forall fuel j,
  0 <= j -> (j = 0 \/ (j - 1) * BPB < sb_size (sb s)) -> (forall b, 0 <= b < j * BPB -> b < sb_size (sb s) -> used s b = true) -> sb_size (sb s) < (j + Z.of_nat fuel - 1) * BPB ->
  match balloc_loop fuel ROOTDEV (j * BPB) s with
  | (Ok r, s') => first_free s r /\ allocated s r s' /\ log_can s' (k - 2)
  | (Panic m, s') => m = "balloc: out of blocks"%string /\ s' = s /\ forall b, 0 <= b < sb_size (sb s) -> used s b = true
  | _ => False
  end.
Proof.
  intros Hbm [Hnb Hnf] Hlog Hk. pose proof Hbm as [Hsz Hst Hlen Hus _]. change (sb (hold [] s)) with (sb s) in *.
  induction fuel as [|fuel IH]; intros j Hj Hprev Hall Hfuel; [unfold BPB in *; lia|]. cbn [balloc_loop].
  rewrite (bind_ok (gets sb) _ s s (sb s) eq_refl). destruct (Z.ltb_spec (j * BPB) (sb_size (sb s))) as [Hlt|Hge].
  2:{ cbn. split; [done|]. split; [done|]. intros b Hb. apply Hall; lia. }
  destruct (group_block j 0 (sb s) ltac:(unfold BPB; lia)) as [Hblk _]. rewrite Z.add_0_r in Hblk.
  assert (Hn : BBLOCK (j * BPB) (sb s) ∉ fheld s) by (apply Hnb; unfold BPB in *; lia). rewrite Hblk in *.
  set (n := j + sb_bmapstart (sb s)) in *.
  rewrite (bind_ok _ _ _ _ _ (fread_run n s Hn)), (bind_ok _ _ _ _ _ (fdata_run _ _)). change (fview (hold _ s) n) with (fview s n).
  pose proof (find_bit_spec (fview s n) (sb_size (sb s)) (j * BPB) (Z.to_nat BPB) 0) as Hfb.
  destruct (find_bit _ _ _ _ _) as [bi|].
  - destruct Hfb as (H1 & H2 & H3 & H4). assert (Hbi : 0 <= bi < BPB) by (unfold BPB in *; lia).
    change (<[Z.to_nat (bi / 8) := _]> (fview s n)) with (set_bit (fview s n) bi).
    destruct (update_run s n (set_bit (fview s n) bi) k (bzero ROOTDEV (j * BPB + bi) ;; ret (j * BPB + bi)) Hn Hlog ltac:(lia))
      as (s1 & -> & _ & Hlog1 & Hw1).
    destruct (bzero_run s1 (j * BPB + bi) (k - 1)) as (s2 & Hz & Hlog2 & Hw2); [|done|lia|].
    { rewrite (wr_held _ _ _ _ Hw1). apply Hnf; [unfold BPB in *; lia|by rewrite used_group]. }
    rewrite (bind_ok _ _ _ _ _ Hz). unfold ret. destruct (group_block j bi (sb s) Hbi) as [G1 G2].
    split; [|split; [|by replace (k - 2) with (k - 1 - 1) by lia]].
    + split; [unfold BPB in *; lia|]. split; [by rewrite used_group|]. intros b Hb.
      destruct (Z.lt_ge_cases b (j * BPB)) as [Hlow|Hhi]; [apply Hall; lia|].
      replace b with (j * BPB + (b - j * BPB)) by lia. rewrite used_group by lia. apply H4. lia.
    + destruct Hw1 as [A1 A2 A3 A4 A5 A6], Hw2 as [B1 B2 B3 B4 B5 B6]. split; try congruence.
      intros m. rewrite G1, G2. fold n. rewrite B6. unfold bupd. destruct (m =? j * BPB + bi); [done|]. apply A6.
  - erewrite (bind_ok (ondisk (brelse _))); [|by apply (frelse_run _ (fheld s))].
    rewrite hold_hold, hold_id. replace (j * BPB + BPB) with ((j + 1) * BPB) by lia. apply IH; [lia|lia| |lia].
    intros b Hb Hs. destruct (Z.lt_ge_cases b (j * BPB)) as [Hlow|Hhi]; [apply Hall; lia|].
    replace b with (j * BPB + (b - j * BPB)) by lia. rewrite used_group by lia. apply Hfb; unfold BPB in *; lia.
Qed.

Lemma balloc_held_run s k : bitmap_ok (hold [] s) -> not_held s -> log_can s k -> 2 <= k ->
  match balloc ROOTDEV s with
  | (Ok r, s') => first_free s r /\ allocated s r s' /\ log_can s' (k - 2)
  | (Panic m, s') => m = "balloc: out of blocks"%string /\ s' = s /\ forall b, 0 <= b < sb_size (sb s) -> used s b = true
  | _ => False
  end.
Proof.
  intros Hbm Hnh Hlog Hk. unfold balloc. rewrite (bind_ok (gets sb) _ s s (sb s) eq_refl).
  apply (balloc_loop_run s k Hbm Hnh Hlog Hk _ 0); [lia|by left|lia|].
  pose proof (bm_size _ Hbm). change (sb (hold [] s)) with (sb s) in *. assert (0 <= sb_size (sb s) / BPB) by (apply Z.div_pos; unfold BPB; lia).
  unfold BPB in *. pose proof (Z.div_mod (sb_size (sb s)) 4096 ltac:(lia)). pose proof (Z.mod_pos_bound (sb_size (sb s)) 4096 ltac:(lia)). lia.
Qed.

Lemma balloc_run s k : bitmap_ok s -> log_can s k -> 2 <= k ->
  match balloc ROOTDEV s with
  | (Ok r, s') => first_free s r /\ allocated s r s' /\ log_can s' (k - 2)
  | (Panic m, s') => m = "balloc: out of blocks"%string /\ s' = s /\ forall b, 0 <= b < sb_size (sb s) -> used s b = true
  | _ => False
  end.
Proof.
  intros Hbm Hlog Hk. pose proof (bm_free _ Hbm) as Hh. apply balloc_held_run; [|by apply not_held_none|done|done].
  rewrite <- Hh, hold_id. done.
Qed.

Lemma block_bit b : 0 <= b mod BPB < BPB.
Proof. apply Z.mod_pos_bound. by unfold BPB. Qed.

Lemma same_block b c s : BBLOCK b s = BBLOCK c s -> b mod BPB = c mod BPB -> b = c.
Proof.
  unfold BBLOCK, BPB. intros H1 H2. rewrite (Z.div_mod b 4096), (Z.div_mod c 4096), H2 by lia.
  assert (E : b / 4096 = c / 4096) by lia. by rewrite E.
Qed.

(** Writing one bit of the bitmap changes the state of one block. *)
Lemma used_update s s' r x f :
  sb s' = sb s -> (forall c, 0 <= c < sb_size (sb s) -> fview s' (BBLOCK c (sb s)) = bupd (fview s) (BBLOCK r (sb s)) x (BBLOCK c (sb s))) ->
  (forall bj, 0 <= bj -> bit x bj = f (bj =? r mod BPB) (bit (fview s (BBLOCK r (sb s))) bj)) -> (forall v, f false v = v) ->
  forall c, 0 <= c < sb_size (sb s) -> used s' c = f (c =? r) (used s c).
Proof.
  intros Hsb Hv Hx Hf c Hc. unfold used. rewrite Hsb, Hv by done. unfold bupd.
  destruct (Z.eqb_spec (BBLOCK c (sb s)) (BBLOCK r (sb s))) as [E|Hne].
  - rewrite Hx by apply block_bit. rewrite <- E. f_equal.
    destruct (Z.eqb_spec (c mod BPB) (r mod BPB)), (Z.eqb_spec c r); subst; try done. exfalso. by eapply n, same_block.
  - destruct (Z.eqb_spec c r) as [->|]; [done|by rewrite Hf].
Qed.

Lemma bitmap_not_free s r c : bitmap_ok s -> used s r = false -> 0 <= c < sb_size (sb s) -> BBLOCK c (sb s) <> r.
Proof. intros Hbm Hr Hc <-. destruct (bm_used _ Hbm c Hc) as [_ H]. congruence. Qed.

Lemma block_nonneg s c : bitmap_ok s -> 0 <= c < sb_size (sb s) -> 0 <= BBLOCK c (sb s) < sb_size (sb s).
Proof.
  intros Hbm Hc. split; [|by apply (bm_used _ Hbm)]. unfold BBLOCK. pose proof (bm_start _ Hbm).
  assert (0 <= c / BPB) by (apply Z.div_pos; unfold BPB; lia). lia.
Qed.

Lemma allocated_used s r s' : bitmap_ok s -> first_free s r -> allocated s r s' ->
  (forall c, 0 <= c < sb_size (sb s) -> used s' c = (c =? r) || used s c) /\ bitmap_ok s'.
Proof.
  intros Hbm (Hr & Hfree & _) [A1 A2 A3 A4 A5 A6].
  assert (Hl : length (fview s (BBLOCK r (sb s))) = BSIZE) by by apply (bm_length _ Hbm).
  assert (Hu : forall c, 0 <= c < sb_size (sb s) -> used s' c = (c =? r) || used s c).
  { apply (used_update s s' r (set_bit (fview s (BBLOCK r (sb s))) (r mod BPB)) orb); [done| | |done].
    - intros c Hc. rewrite A6. apply bupd_ne. by apply bitmap_not_free.
    - intros bj Hbj. apply bit_set_bit; [apply block_bit|done|done]. }
  split; [done|]. split; rewrite ?A1.
  - apply (bm_size _ Hbm).
  - apply (bm_start _ Hbm).
  - intros c Hc. rewrite A6, bupd_ne by by apply bitmap_not_free. unfold bupd.
    destruct (_ =? _); [|by apply (bm_length _ Hbm)]. unfold set_bit. by rewrite length_insert.
  - intros c Hc. destruct (bm_used _ Hbm c Hc) as [H1 H2]. split; [done|].
    rewrite Hu, H2 by by apply block_nonneg. apply orb_true_r.
  - by rewrite A5, (bm_free _ Hbm).
Qed.

Lemma bfree_run s b k : bitmap_ok s -> 0 <= b < sb_size (sb s) -> used s b = true -> log_can s k -> 0 < k ->
  exists s', bfree ROOTDEV b s = (Ok tt, s') /\ log_can s' (k - 1)
    /\ wrote s (BBLOCK b (sb s)) (clear_bit (fview s (BBLOCK b (sb s))) (b mod BPB)) s'
    /\ forall c, 0 <= c < sb_size (sb s) -> used s' c = negb (c =? b) && used s c.
Proof.
  intros Hbm Hb Hu Hlog Hk. unfold bfree. rewrite (bind_ok (gets sb) _ s s (sb s) eq_refl).
  set (n := BBLOCK b (sb s)). assert (Hn : n ∉ fheld s) by (rewrite (bm_free _ Hbm); apply not_elem_of_nil).
  rewrite (bind_ok _ _ _ _ _ (fread_run n s Hn)), (bind_ok _ _ _ _ _ (fdata_run _ _)). change (fview (hold _ s) n) with (fview s n).
  rewrite mask_test. change (Z.testbit _ _) with (used s b). rewrite Hu. cbn [negb].
  destruct (update_run s n (clear_bit (fview s n) (b mod BPB)) k (ret tt) Hn Hlog Hk) as (s' & _ & E & Hlog' & Hw).
  exists s'. split; [exact E|]. split; [done|]. split; [done|].
  apply (used_update s s' b (clear_bit (fview s n) (b mod BPB)) (fun e v => negb e && v)); [apply (wr_sb _ _ _ _ Hw)| | |done].
  - intros c Hc. apply (wr_view _ _ _ _ Hw).
  - intros bj Hbj. apply bit_clear_bit; [apply block_bit|done|by apply (bm_length _ Hbm)].
Qed.

(** Freeing a block that is not part of the bitmap keeps the bitmap whole. *)
Lemma bfree_bitmap_ok s s' b : bitmap_ok s -> 0 <= b < sb_size (sb s) -> (forall c, 0 <= c < sb_size (sb s) -> BBLOCK c (sb s) <> b) ->
  wrote s (BBLOCK b (sb s)) (clear_bit (fview s (BBLOCK b (sb s))) (b mod BPB)) s' ->
  (forall c, 0 <= c < sb_size (sb s) -> used s' c = negb (c =? b) && used s c) -> bitmap_ok s'.
Proof.
  intros Hbm Hb Hap [W1 _ _ _ W5 W6] Hu. split; rewrite ?W1; try by destruct Hbm.
  - intros c Hc. rewrite W6. unfold bupd. destruct (_ =? _); [|by apply (bm_length _ Hbm)].
    unfold clear_bit. rewrite length_insert. by apply (bm_length _ Hbm).
  - intros c Hc. destruct (bm_used _ Hbm c Hc) as [H1 H2]. split; [done|].
    rewrite Hu, H2 by by apply block_nonneg. by rewrite (proj2 (Z.eqb_neq _ _) (Hap c Hc)).
  - by rewrite W5, (bm_free _ Hbm).
Qed.

Lemma bfree_free_panics s b : bitmap_ok s -> used s b = false -> fst (bfree ROOTDEV b s) = Panic "freeing free block".
Proof.
  intros Hbm Hu. unfold bfree. rewrite (bind_ok (gets sb) _ s s (sb s) eq_refl).
  set (n := BBLOCK b (sb s)). assert (Hn : n ∉ fheld s) by (rewrite (bm_free _ Hbm); apply not_elem_of_nil).
  rewrite (bind_ok _ _ _ _ _ (fread_run n s Hn)), (bind_ok _ _ _ _ _ (fdata_run _ _)). change (fview (hold _ s) n) with (fview s n).
  rewrite mask_test. change (Z.testbit _ _) with (used s b). by rewrite Hu.
Qed.

(** C18: the block allocator.  [balloc] always ends: it returns the lowest free block
    of the disk, zeroed, having marked that block and no other as used and changed no
    other block than the bitmap block of it, or it panics because every block is used.
    [bfree] of the block then brings back the old set of used blocks, and freeing it a
    second time panics. *)
Theorem balloc_bfree s k : bitmap_ok s -> log_can s k -> 3 <= k ->
  match balloc ROOTDEV s with
  | (Ok r, s') =>
      first_free s r /\ fview s' r = zero_block
      /\ (forall b, 0 <= b < sb_size (sb s) -> used s' b = (b =? r) || used s b)
      /\ (forall n, n <> r -> n <> BBLOCK r (sb s) -> fview s' n = fview s n) /\ bitmap_ok s'
      /\ exists s'', bfree ROOTDEV r s' = (Ok tt, s'')
         /\ (forall b, 0 <= b < sb_size (sb s) -> used s'' b = used s b)
         /\ bitmap_ok s'' /\ fst (bfree ROOTDEV r s'') = Panic "freeing free block"
  | (Panic m, s') => m = "balloc: out of blocks"%string /\ s' = s /\ forall b, 0 <= b < sb_size (sb s) -> used s b = true
  | _ => False
  end.
Proof.
  intros Hbm Hlog Hk. pose proof (balloc_run s k Hbm Hlog ltac:(lia)) as H.
  destruct (balloc ROOTDEV s) as [[r|m| | |] s']; try done. destruct H as (Hff & Hal & Hlog').
  destruct (allocated_used s r s' Hbm Hff Hal) as [Hu Hbm']. pose proof Hal as [A1 A2 A3 A4 A5 A6]. pose proof Hff as (Hr & Hrf & _).
  destruct (bfree_run s' r (k - 2)) as (s'' & Hfr & _ & Hw & Hu'); [done|by rewrite A1|by rewrite Hu, Z.eqb_refl|done|lia|].
  assert (Hback : forall b, 0 <= b < sb_size (sb s) -> used s'' b = used s b).
  { intros b Hb. rewrite Hu', Hu by (by rewrite ?A1). destruct (Z.eqb_spec b r) as [->|]; [by rewrite Hrf|done]. }
  split; [done|]. split; [by rewrite A6, bupd_eq|]. split; [done|]. split.
  { intros n H1 H2. rewrite A6, !bupd_ne by done. done. }
  split; [done|]. exists s''. split; [done|]. 
  assert (Hbm'' : bitmap_ok s'').
  { apply (bfree_bitmap_ok s' s'' r Hbm' ltac:(by rewrite A1)); [|done|done]. rewrite A1. intros c Hc. by apply bitmap_not_free. }
  split; [done|]. split; [done|]. apply bfree_free_panics; [done|]. by rewrite Hback.
Qed.

(** A disk of 1000 blocks, the first 60 of them in use. *)
Definition small_map : block := replicate 7 255 ++ 15 :: replicate 504 0.
Definition small_fs : fstate :=
  set_fl (mkL (lg (fl Runs.fs)) (mkBlk (fun n => if n =? 58 then small_map else zero_block) (fun _ => zero_block) [] []) []) Runs.fs.

Lemma small_fs_ok : bitmap_ok small_fs.
Proof.
  assert (Hb : forall b, 0 <= b < 1000 -> BBLOCK b Runs.super = 58).
  { intros b H. unfold BBLOCK, BPB. by rewrite Z.div_small by lia. }
  change (sb_size (sb small_fs)) with 1000.
  split; change (sb_size (sb small_fs)) with 1000; change (sb small_fs) with Runs.super; try done.
  - intros b H. rewrite Hb by done. vm_compute. reflexivity.
  - intros b H. rewrite Hb by done. split; [lia|]. vm_compute. reflexivity.
Qed.

Lemma balloc_bfree_witness : exists s', balloc ROOTDEV small_fs = (Ok 60, s')
  /\ (forall b, 0 <= b < 1000 -> used s' b = (b =? 60) || used small_fs b)
  /\ exists s'', bfree ROOTDEV 60 s' = (Ok tt, s'') /\ (forall b, 0 <= b < 1000 -> used s'' b = used small_fs b).
Proof.
  assert (Hlog : log_can small_fs 3) by (split; try done; vm_compute; congruence).
  pose proof (balloc_bfree small_fs 3 small_fs_ok Hlog ltac:(lia)) as H.
  assert (Hr : fst (balloc ROOTDEV small_fs) = Ok 60) by (vm_compute; reflexivity).
  destruct (balloc ROOTDEV small_fs) as [r s']. cbn [fst] in Hr. subst r.
  destruct H as (_ & _ & H1 & _ & _ & s'' & H2 & H3 & _). exists s'. split; [done|]. split; [exact H1|]. exists s''. done.
Defined.
