(* ===== verification/FsGrow.v ===== *)
(** Files that grow: [bmap] with the blocks and the indirect block it allocates, and
    [writei] over it, against the blocks and bytes of the file. *)

From Stdlib Require Import ZArith Lia.
From stdpp Require Import base list sets strings.
From S2P Require Import Prelude Bytes Blk Log Sleeplock Fs FsInv FsAlloc.
Local Open Scope Z_scope.

(** ** Free blocks *)

Definition nfree (s : fstate) : nat := length (filter (fun b => used s b = false) (seqZ 0 (sb_size (sb s)))).

Lemma length_filter_same (f g : Z -> bool) l : (forall c, c ∈ l -> g c = f c) ->
  length (filter (fun b => f b = false) l) = length (filter (fun b => g b = false) l).
Proof.
  induction l as [|c l IH]; intros H; [done|]. rewrite !filter_cons, (H c (list_elem_of_here _ _)).
  case_decide; cbn [length]; rewrite IH by set_solver; done.
Qed.

Lemma length_filter_mark (f g : Z -> bool) r : forall l, NoDup l -> r ∈ l -> f r = false ->
  (forall c, c ∈ l -> g c = (c =? r) || f c) ->
  length (filter (fun b => f b = false) l) = S (length (filter (fun b => g b = false) l)).
Proof.
  induction l as [|c l IH]; intros Hnd Hin Hr H; [by destruct (not_elem_of_nil r)|].
  apply NoDup_cons in Hnd as [Hc Hnd]. rewrite !filter_cons. pose proof (H c (list_elem_of_here _ _)) as Hgc.
  destruct (Z.eqb_spec c r) as [->|Hne].
  - rewrite Hr, Hgc. cbn [orb]. rewrite decide_True, decide_False by done. cbn [length]. f_equal. apply length_filter_same.
    intros d Hd. rewrite (H d (list_elem_of_further _ _ _ Hd)). assert (d <> r) as ->%Z.eqb_neq by congruence. done.
  - apply elem_of_cons in Hin as [?|Hin]; [done|]. rewrite Hgc. cbn [orb].
    case_decide; cbn [length]; rewrite IH by set_solver; done.
Qed.

Lemma nfree_take s r s' : sb s' = sb s -> 0 <= r < sb_size (sb s) -> used s r = false ->
  (forall c, 0 <= c < sb_size (sb s) -> used s' c = (c =? r) || used s c) -> nfree s = S (nfree s').
Proof.
  intros Hsb Hr Hf Hu. unfold nfree. rewrite Hsb. apply (length_filter_mark (used s) (used s') r); [apply NoDup_seqZ|by apply elem_of_seqZ|done|].
  intros c Hc%elem_of_seqZ. by apply Hu.
Qed.

Lemma nfree_zero s : (forall b, 0 <= b < sb_size (sb s) -> used s b = true) -> nfree s = 0%nat.
Proof.
  intros H. unfold nfree. cut (filter (fun b => used s b = false) (seqZ 0 (sb_size (sb s))) = []); [by intros ->|].
  apply elem_of_nil_inv. intros b Hb. apply list_elem_of_filter in Hb as [Hf Hb%elem_of_seqZ]. by rewrite H in Hf.
Qed.

Lemma nfree_some s r : 0 <= r < sb_size (sb s) -> used s r = false -> (0 < nfree s)%nat.
Proof.
  intros Hr Hf. unfold nfree. assert (Hin : r ∈ filter (fun b => used s b = false) (seqZ 0 (sb_size (sb s))))
    by (apply list_elem_of_filter; split; [done|by apply elem_of_seqZ]).
  destruct (filter _ _); [by apply not_elem_of_nil in Hin|cbn; lia].
Qed.

(** ** The blocks of a file *)

(** Block [bn] of a file, the indirect block being number -1; 0 is none. *)
Definition fblock (s : fstate) (i : inode) (bn : Z) : Z :=
  if bn <? 0 then addr_of i NDIRECT
  else if bn <? NDIRECT then addr_of i bn
  else if addr_of i NDIRECT =? 0 then 0
  else get32 (fview s (addr_of i NDIRECT)) (4 * Z.to_nat (bn - NDIRECT)).

(** Byte [o] of a file. *)
Definition gbyte (s : fstate) (i : inode) (o : Z) : Z :=
  nth (Z.to_nat (o mod bsize)) (fview s (fblock s i (o / bsize))) 0.

(** [a] is a block in use, whole, and neither part of the bitmap nor the one of the
    inode. *)
Record data_block (s : fstate) (i : inode) (a : Z) : Prop := mkData {
  db_range : 0 <= a < sb_size (sb s);
  db_used : used s a = true;
  db_len : length (fview s a) = BSIZE;
  db_inode : a <> IBLOCK (i_inum i) (sb s);
  db_bitmap : forall c, 0 <= c < sb_size (sb s) -> BBLOCK c (sb s) <> a;
}.

(** A file in slot [ip], as it is between two system calls: the bitmap is whole, the
    blocks of the file are its own, and every block below the size is there.  The blocks
    behind it are not there, in general. *)
Record file_wf (s : fstate) (ip : nat) (i : inode) : Prop := mkWf {
  w_slot : icache s !! ip = Some i;
  w_dev : i_dev i = ROOTDEV;
  w_addrs : length (i_addrs i) = 13%nat;
  w_bitmap : bitmap_ok s;
  w_disk : sb_size (sb s) < 2 ^ 32;
  w_boot : 0 < sb_size (sb s) /\ used s 0 = true;
  w_iblock : 0 <= IBLOCK (i_inum i) (sb s) < sb_size (sb s) /\ used s (IBLOCK (i_inum i) (sb s)) = true
    /\ length (fview s (IBLOCK (i_inum i) (sb s))) = BSIZE
    /\ forall c, 0 <= c < sb_size (sb s) -> BBLOCK c (sb s) <> IBLOCK (i_inum i) (sb s);
  w_block : forall bn, -1 <= bn < MAXFILE -> fblock s i bn <> 0 -> data_block s i (fblock s i bn);
  w_inj : forall bn bn', -1 <= bn < MAXFILE -> -1 <= bn' < MAXFILE -> fblock s i bn <> 0 ->
    fblock s i bn = fblock s i bn' -> bn = bn';
  w_size : 0 <= i_size i <= MAXFILE * bsize;
  w_full : forall bn, 0 <= bn -> bn * bsize < i_size i -> fblock s i bn <> 0;
}.

Lemma fblock_faddr s i bn : 0 <= bn -> (NDIRECT <= bn -> addr_of i NDIRECT <> 0) -> fblock s i bn = faddr s i bn.
Proof.
  intros H Hi. unfold fblock, faddr. rewrite (proj2 (Z.ltb_ge _ _)) by lia. destruct (Z.ltb_spec bn NDIRECT); [done|].
  by rewrite (proj2 (Z.eqb_neq _ _)) by auto.
Qed.

Lemma fblock_ind s i bn : NDIRECT <= bn -> fblock s i bn <> 0 -> addr_of i NDIRECT <> 0.
Proof.
  unfold fblock, NDIRECT. intros H. rewrite (proj2 (Z.ltb_ge _ _)), (proj2 (Z.ltb_ge _ _)) by lia. by destruct (Z.eqb_spec (addr_of i 12) 0).
Qed.

Lemma fblock_direct s i bn : 0 <= bn < NDIRECT -> fblock s i bn = addr_of i bn.
Proof. intros H. unfold fblock. by rewrite (proj2 (Z.ltb_ge _ _)), (proj2 (Z.ltb_lt _ _)) by lia. Qed.

Lemma fblock_indirect s i bn : NDIRECT <= bn -> addr_of i NDIRECT <> 0 ->
  fblock s i bn = get32 (fview s (addr_of i NDIRECT)) (4 * Z.to_nat (bn - NDIRECT)).
Proof.
  intros H Hi. unfold fblock. by rewrite (proj2 (Z.ltb_ge bn 0)), (proj2 (Z.ltb_ge _ _)), (proj2 (Z.eqb_neq _ _) Hi) by (unfold NDIRECT in *; lia).
Qed.

Lemma fblock_faddr' s i bn : 0 <= bn -> fblock s i bn <> 0 -> fblock s i bn = faddr s i bn.
Proof. intros H Hn. apply fblock_faddr; [done|]. intros Hb. by eapply fblock_ind. Qed.

(** The reading half of [FsInv] applies to the blocks that are there. *)
Lemma file_wf_ok s ip i nb : file_wf s ip i -> nb <= MAXFILE -> (forall bn, 0 <= bn < nb -> fblock s i bn <> 0) -> file_ok s ip i nb.
Proof.
  intros Hw Hnb Hall. assert (He : forall bn, 0 <= bn < nb -> faddr s i bn = fblock s i bn).
  { intros bn Hb. symmetry. apply fblock_faddr'; [lia|by apply Hall]. }
  split.
  - apply (w_slot _ _ _ Hw).
  - apply (w_dev _ _ _ Hw).
  - apply (bm_free _ (w_bitmap _ _ _ Hw)).
  - done.
  - intros Hd. apply (fblock_ind s i NDIRECT); [lia|]. apply Hall. unfold NDIRECT in *. lia.
  - intros bn Hb. rewrite He by done. by apply Hall.
  - intros bn bn' Hb Hb'. rewrite !He by done. intros E. apply (w_inj _ _ _ Hw); [lia|lia|by apply Hall|done].
  - intros bn Hb. rewrite He by done. intros E. assert (bn = -1); [|lia].
    apply (w_inj _ _ _ Hw); [lia|unfold MAXFILE, NDIRECT, NINDIRECT; lia|by apply Hall|done].
  - intros bn Hb. rewrite He by done. apply (w_block _ _ _ Hw); [lia|by apply Hall].
Qed.

(** The number of blocks the bytes of a file take. *)
Definition nblk (n : Z) : Z := (n + bsize - 1) / bsize.

Lemma nblk_spec n bn : bn < nblk n <-> bn * bsize < n.
Proof.
  unfold nblk, bsize, BSIZE. change (Z.of_nat 512) with 512. pose proof (Z.div_mod (n + 512 - 1) 512 ltac:(lia)).
  pose proof (Z.mod_pos_bound (n + 512 - 1) 512 ltac:(lia)). lia.
Qed.

Lemma file_wf_size s ip i : file_wf s ip i -> file_ok s ip i (nblk (i_size i)) /\ i_size i <= nblk (i_size i) * bsize.
Proof.
  intros Hw. pose proof (w_size _ _ _ Hw) as Hs. split.
  - apply file_wf_ok; [done| |].
    + destruct (Z.le_gt_cases (nblk (i_size i)) MAXFILE) as [|Hgt]; [done|]. apply nblk_spec in Hgt. lia.
    + intros bn [Hb Hlt]. apply (w_full _ _ _ Hw); [done|]. by apply nblk_spec.
  - pose proof (nblk_spec (i_size i) (nblk (i_size i))). lia.
Qed.

Lemma gbyte_fbyte s i o : 0 <= o -> fblock s i (o / bsize) <> 0 -> gbyte s i o = fbyte s i o.
Proof. intros Ho Hn. unfold gbyte, fbyte. rewrite fblock_faddr'; [done|apply Z.div_pos; [lia|done]|done]. Qed.

(** ** Taking a block *)

(** A free block is none of the blocks in use. *)
Lemma free_ne s r n : used s n = true -> used s r = false -> n <> r.
Proof. congruence. Qed.

(** Writing a block that is not part of the bitmap keeps the set of used blocks. *)
Lemma wrote_used s n x s' : bitmap_ok s -> wrote s n x s' -> (forall c, 0 <= c < sb_size (sb s) -> BBLOCK c (sb s) <> n) ->
  (forall c, 0 <= c < sb_size (sb s) -> used s' c = used s c) /\ bitmap_ok s'.
Proof.
  intros Hbm [W1 W2 W3 W4 W5 W6] Hn.
  assert (Hu : forall c, 0 <= c < sb_size (sb s) -> used s' c = used s c) by (intros c Hc; unfold used; by rewrite W1, W6, bupd_ne by by apply Hn).
  split; [done|]. pose proof Hbm as [B1 B2 B3 B4 B5]. split; rewrite ?W1, ?W5; try done.
  - intros c Hc. rewrite W6, bupd_ne by by apply Hn. by apply B3.
  - intros c Hc. destruct (B4 c Hc). split; [done|]. by rewrite Hu by by apply block_nonneg.
Qed.

(** [s'] and [i'] are [s] and [i] with the free block [r] made block [bn] of the file. *)
Record taken (s : fstate) (ip : nat) (i : inode) (r bn : Z) (s' : fstate) (i' : inode) : Prop := mkTaken {
  tk_sb : sb s' = sb s;
  tk_pid : fpid s' = fpid s;
  tk_icl : iclock s' = iclock s;
  tk_ic : icache s' = <[ip := i']> (icache s);
  tk_inode : i' = set_addrs (i_addrs i') i;
  tk_len : length (i_addrs i') = 13%nat;
  tk_bitmap : bitmap_ok s';
  tk_used : forall c, 0 <= c < sb_size (sb s) -> used s' c = (c =? r) || used s c;
  tk_view : forall n, n <> r -> n <> BBLOCK r (sb s) -> n = 0 \/ n <> addr_of i NDIRECT -> fview s' n = fview s n;
  tk_whole : forall n, n <> r -> length (fview s n) = BSIZE -> length (fview s' n) = BSIZE;
  tk_new : fview s' r = zero_block;
  tk_block : forall b, -1 <= b < MAXFILE -> fblock s' i' b = if b =? bn then r else fblock s i b;
}.

Lemma taken_wf s ip i r bn s' i' : file_wf s ip i -> first_free s r -> fblock s i bn = 0 -> -1 <= bn < MAXFILE ->
  taken s ip i r bn s' i' -> file_wf s' ip i'.
Proof.
  intros Hw (Hr & Hf & _) H0 Hbn [T1 T2 T3 T4 T5 T6 T7 T8 T9 T10 T11 T12].
  pose proof Hw as [W1 W2 W3 W4 W5 [W6 W6'] (W7 & W8 & W9 & W10) W11 W12 W13 W14].
  assert (Hu : forall c, 0 <= c < sb_size (sb s) -> used s c = true -> used s' c = true) by (intros c Hc E; rewrite T8, E by done; apply orb_true_r).
  assert (Hin : i_inum i' = i_inum i) by by rewrite T5.
  assert (Hr0 : r <> 0) by (intros ->; congruence).
  split; rewrite ?T1, ?Hin; try done.
  - rewrite T4. apply list_lookup_insert_eq. by eapply lookup_lt_Some.
  - rewrite T5. done.
  - split; [done|]. by apply Hu.
  - split; [done|]. split; [by apply Hu|]. split; [apply T10; [by eapply free_ne|done]|done].
  - intros b Hb. rewrite T12 by done. destruct (Z.eqb_spec b bn) as [->|Hne].
    + intros _. split; rewrite ?T1, ?Hin; [done| | | |].
      * by rewrite T8, Z.eqb_refl.
      * by rewrite T11.
      * intros ->. congruence.
      * intros c Hc. by apply bitmap_not_free.
    + intros Hnz. destruct (W11 b Hb Hnz) as [D1 D2 D3 D4 D5]. split; rewrite ?T1, ?Hin; [done|by apply Hu| |done|done].
      apply T10; [by eapply free_ne|done].
  - intros b b' Hb Hb'. rewrite !T12 by done.
    assert (Hnr : forall c, -1 <= c < MAXFILE -> fblock s i c <> r).
    { intros c Hc E. destruct (W11 c Hc ltac:(congruence)). congruence. }
    destruct (Z.eqb_spec b bn) as [->|], (Z.eqb_spec b' bn) as [->|]; [done| | |by apply W12].
    + intros _ E. by destruct (Hnr b' Hb').
    + intros _ E. by destruct (Hnr b Hb).
  - rewrite T5. apply W13.
  - intros b Hb Hlt. assert (Hbm : b < MAXFILE).
    { rewrite T5 in Hlt. cbn in Hlt. unfold bsize, BSIZE in *. lia. }
    rewrite T12 by lia. destruct (b =? bn); [done|]. apply W14; [done|]. by rewrite T5 in Hlt.
Qed.

Lemma addr_set i j r b : length (i_addrs i) = 13%nat -> 0 <= j <= 12 -> 0 <= b ->
  addr_of (set_addr j r i) b = if b =? j then r else addr_of i b.
Proof.
  intros Hl Hj Hb. unfold addr_of. change (i_addrs (set_addr j r i)) with (<[Z.to_nat j := r]> (i_addrs i)). rewrite !nth_lookup.
  destruct (Z.eqb_spec b j) as [->|]; [by rewrite list_lookup_insert_eq by lia|by rewrite list_lookup_insert_ne by lia].
Qed.

(** A direct block, or the indirect block when [j] is 12. *)
Lemma direct_taken s ip i j r s1 : file_wf s ip i -> 0 <= j <= 12 -> addr_of i j = 0 -> first_free s r -> allocated s r s1 ->
  taken s ip i r (if j =? 12 then -1 else j) (set_icache (<[ip := set_addr j r i]> (icache s1)) s1) (set_addr j r i).
Proof.
  intros Hw Hj Ha Hff Hal. pose proof Hff as (Hr & Hf & _). destruct (allocated_used s r s1 (w_bitmap _ _ _ Hw) Hff Hal) as [Hu Hbm].
  pose proof Hal as [A1 A2 A3 A4 A5 A6]. pose proof (w_addrs _ _ _ Hw) as Hl.
  assert (Hr0 : r <> 0) by (intros ->; by destruct (w_boot _ _ _ Hw); congruence).
  split; try done.
  - cbn. by rewrite A3.
  - cbn. by rewrite length_insert.
  - by destruct Hbm; split.
  - intros n H1 H2 _. change (fview (set_icache _ s1) n) with (fview s1 n). by rewrite A6, !bupd_ne.
  - intros n H1 H2. change (fview (set_icache _ s1) n) with (fview s1 n). rewrite A6, bupd_ne by done. unfold bupd.
    destruct (Z.eqb_spec n (BBLOCK r (sb s))) as [->|]; [|done]. unfold set_bit. by rewrite length_insert.
  - change (fview (set_icache _ s1) r) with (fview s1 r). by rewrite A6, bupd_eq.
  - intros b Hb. unfold fblock. rewrite !addr_set by (done || unfold NDIRECT; lia). unfold NDIRECT in *.
    change (fview (set_icache _ s1)) with (fview s1).
    destruct (Z.ltb_spec b 0), (Z.eqb_spec j 12) as [->|Hj12]; try (rewrite ?Z.eqb_refl).
    + by rewrite (proj2 (Z.eqb_eq b (-1))) by lia.
    + rewrite (proj2 (Z.eqb_neq 12 j)), (proj2 (Z.eqb_neq b j)) by lia. done.
    + rewrite (proj2 (Z.eqb_neq b (-1))) by lia. destruct (Z.ltb_spec b 12).
      * rewrite addr_set by lia. by rewrite (proj2 (Z.eqb_neq b 12)) by lia.
      * rewrite (proj2 (Z.eqb_neq _ _) Hr0), Ha, A6, bupd_eq. apply get32_zero.
    + rewrite (proj2 (Z.eqb_neq 12 j)) by lia. destruct (Z.ltb_spec b 12); [by rewrite addr_set by lia|].
      rewrite (proj2 (Z.eqb_neq b j)) by lia. destruct (Z.eqb_spec (addr_of i 12) 0) as [|Hi]; [done|].
      destruct (w_block _ _ _ Hw (-1) ltac:(done) Hi) as [D1 D2 D3 D4 D5]. change (fblock s i (-1)) with (addr_of i 12) in *.
      rewrite A6, !bupd_ne; [done|by apply not_eq_sym, D5|by eapply free_ne].
Qed.

(** A block entered in the indirect block. *)
Lemma indirect_taken s ip i b r s2 s3 : file_wf s ip i -> NDIRECT <= b < MAXFILE -> addr_of i NDIRECT <> 0 ->
  first_free s r -> allocated s r s2 ->
  wrote s2 (addr_of i NDIRECT) (put32 (fview s2 (addr_of i NDIRECT)) (4 * Z.to_nat (b - NDIRECT)) r) s3 ->
  taken s ip i r b s3 i.
Proof.
  intros Hw Hb Hi Hff Hal Hwr. pose proof Hff as (Hr & Hf & _). unfold MAXFILE, NDIRECT, NINDIRECT in *.
  destruct (allocated_used s r s2 (w_bitmap _ _ _ Hw) Hff Hal) as [Hu Hbm].
  pose proof Hal as [A1 A2 A3 A4 A5 A6]. set (ind := addr_of i 12) in *.
  destruct (w_block _ _ _ Hw (-1) ltac:(done) Hi) as [D1 D2 D3 D4 D5]. change (fblock s i (-1)) with ind in *.
  assert (Hne : ind <> r) by by eapply free_ne. assert (Hnb : ind <> BBLOCK r (sb s)) by by apply not_eq_sym, D5.
  destruct (wrote_used s2 _ _ s3 Hbm Hwr) as [Hu3 Hbm3]; [by rewrite A1|].
  assert (Hind : fview s2 ind = fview s ind) by by rewrite A6, !bupd_ne. rewrite Hind in Hwr.
  pose proof Hwr as [B1 B2 B3 B4 B5 B6]. split; try congruence.
  - rewrite B3, A3, list_insert_id; [done|]. apply (w_slot _ _ _ Hw).
  - by destruct i.
  - apply (w_addrs _ _ _ Hw).
  - intros c Hc. rewrite Hu3, Hu by (by rewrite ?A1). done.
  - intros n H1 H2 H3. rewrite B6, bupd_ne, A6, !bupd_ne; [done|done|done|]. change (addr_of i NDIRECT) with ind in H3. destruct H3; congruence.
  - intros n H1 H2. rewrite B6. unfold bupd at 1. destruct (Z.eqb_spec n ind) as [->|].
    + rewrite length_put32; [done|]. rewrite D3. unfold BSIZE. lia.
    + rewrite A6, bupd_ne by done. unfold bupd. destruct (Z.eqb_spec n (BBLOCK r (sb s))) as [->|]; [|done].
      unfold set_bit. by rewrite length_insert.
  - rewrite B6, bupd_ne, A6, bupd_eq; done.
  - intros c Hc. unfold fblock, NDIRECT. fold ind. rewrite B6, bupd_eq, (proj2 (Z.eqb_neq _ _) Hi).
    destruct (Z.ltb_spec c 0); [by rewrite (proj2 (Z.eqb_neq c b)) by lia|].
    destruct (Z.ltb_spec c 12); [by rewrite (proj2 (Z.eqb_neq c b)) by lia|].
    destruct (Z.eqb_spec c b) as [->|].
    + rewrite get32_put32 by (rewrite D3; unfold BSIZE; lia). apply u32_id. pose proof (w_disk _ _ _ Hw). lia.
    + apply get32_put32_ne; [rewrite D3; unfold BSIZE; lia|lia].
Qed.

Lemma set_log_run {A} s n x k (K : FM A) : log_can s k -> 0 < k ->
  exists s', (ondisk (bset n x) ;; onlog (log_write n) ;; K) s = K s' /\ log_can s' (k - 1) /\ wrote s n x s'.
Proof.
  intros Hlog Hk. destruct (flog_write_run (fset n x s) k n) as (s' & Hrun & Hlog' & [E1 E2 E3 E4 E5 E6]); [by destruct Hlog; split|done|].
  exists s'. rewrite (bind_ok _ _ _ _ _ (fset_run _ _ _)), (bind_ok _ _ _ _ _ Hrun). split; [done|]. split; [done|].
  split; try done; [unfold fheld; by rewrite E4|]. intros m. unfold fview. by rewrite E4.
Qed.

Definition out_of_blocks {A} (r : res A * fstate) : Prop := exists s', r = (Panic "balloc: out of blocks", s').

Lemma out_bind {A B} (m : FM A) (k : A -> FM B) s : out_of_blocks (m s) -> out_of_blocks (bind m k s).
Proof. intros [s' H]. exists s'. unfold bind. by rewrite H. Qed.

(** [balloc] while the buffers [l] are held. *)
Lemma balloc_file s ip i k l : file_wf s ip i -> log_can s k -> 2 <= k ->
  (forall n, n ∈ l -> data_block s i n) ->
  if (nfree s =? 0)%nat then out_of_blocks (balloc ROOTDEV (hold l s))
  else exists r s', balloc ROOTDEV (hold l s) = (Ok r, s') /\ first_free s r /\ allocated (hold l s) r s' /\ log_can s' (k - 2).
Proof.
  intros Hw Hlog Hk Hl. pose proof (w_bitmap _ _ _ Hw) as Hbm. pose proof (bm_free _ Hbm) as Hh.
  pose proof (balloc_held_run (hold l s) k) as H.
  destruct (balloc ROOTDEV (hold l s)) as [r s'] eqn:E. specialize (H ltac:(rewrite hold_hold, <- Hh, hold_id; done)).
  assert (Hnh : not_held (hold l s)).
  { split; intros b Hb; [|intros Hf]; intros Hin; destruct (Hl _ Hin) as [D1 D2 D3 D4 D5].
    - by apply (D5 b Hb).
    - change (used (hold l s)) with (used s) in Hf. congruence. }
  specialize (H Hnh ltac:(by destruct Hlog; split) Hk).
  destruct r as [r|m| | |]; try done.
  - destruct H as (Hff & Hal & Hlog'). pose proof Hff as (Hr & Hf & _). pose proof (nfree_some s r Hr Hf).
    rewrite (proj2 (Nat.eqb_neq _ _)) by lia. eauto 10.
  - destruct H as (-> & -> & Hall). rewrite (nfree_zero s Hall). by eexists.
Qed.

(** What is left of [bmap] when the indirect block is there. *)
Definition bmap_indirect (ip : nat) (bn addr : Z) : FM Z :=
  i <- geti ip ;;
  bp <- ondisk (bread (i_dev i) addr) ;;
  a <- ondisk (bdata bp) ;;
  let o := (4 * Z.to_nat bn)%nat in
  addr <- (if get32 a o =? 0 then
             addr <- balloc (i_dev i) ;;
             a <- ondisk (bdata bp) ;;
             ondisk (bset bp (put32 a o addr)) ;;
             onlog (log_write bp) ;;
             ret addr
           else ret (get32 a o)) ;;
  ondisk (brelse bp) ;;
  ret addr.

Lemma bmap_unfold ip bn : 0 <= bn < MAXFILE ->
  bmap ip bn = if bn <? NDIRECT then addr_alloc ip bn else addr <- addr_alloc ip NDIRECT ;; bmap_indirect ip (bn - NDIRECT) addr.
Proof.
  intros H. unfold bmap. destruct (Z.ltb_spec bn NDIRECT); [done|].
  by rewrite (proj2 (Z.ltb_lt _ _)) by (unfold MAXFILE, NDIRECT, NINDIRECT in *; lia).
Qed.

Lemma bmap_indirect_run s ip i b k : file_wf s ip i -> NDIRECT <= b < MAXFILE -> addr_of i NDIRECT <> 0 ->
  log_can s k -> 3 <= k -> fblock s i b = 0 ->
  if (nfree s =? 0)%nat then out_of_blocks (bmap_indirect ip (b - NDIRECT) (addr_of i NDIRECT) s)
  else exists r s', bmap_indirect ip (b - NDIRECT) (addr_of i NDIRECT) s = (Ok r, s')
    /\ first_free s r /\ taken s ip i r b s' i /\ log_can s' (k - 3).
Proof.
  intros Hw Hb Hi Hlog Hk H0. set (ind := addr_of i NDIRECT) in *. pose proof (bm_free _ (w_bitmap _ _ _ Hw)) as Hh.
  pose proof (w_block _ _ _ Hw (-1) ltac:(done) Hi) as Hdb. change (fblock s i (-1)) with ind in Hdb.
  unfold bmap_indirect. rewrite (bind_ok _ _ _ _ _ (geti_run s ip i (w_slot _ _ _ Hw))), (w_dev _ _ _ Hw).
  rewrite (bind_ok _ _ _ _ _ (fread_run ind s ltac:(rewrite Hh; apply not_elem_of_nil))), (bind_ok _ _ _ _ _ (fdata_run _ _)).
  rewrite Hh. change (fview (hold _ s) ?n) with (fview s n).
  assert (Hg : get32 (fview s ind) (4 * Z.to_nat (b - NDIRECT)) = 0).
  { rewrite <- H0. symmetry. apply fblock_indirect; [lia|done]. }
  rewrite Hg, Z.eqb_refl. pose proof (balloc_file s ip i k [ind] Hw Hlog ltac:(lia) ltac:(by intros n ->%list_elem_of_singleton)) as Hba.
  destruct (nfree s =? 0)%nat; [by do 2 apply out_bind|].
  destruct Hba as (r & s2 & Hrun & Hff & Hal & Hlog2).
  destruct (set_log_run s2 ind (put32 (fview s2 ind) (4 * Z.to_nat (b - NDIRECT)) r) (k - 2) (ret r) Hlog2 ltac:(lia)) as (s3 & Hset & Hlog3 & Hwr).
  rewrite (bind_ok _ _ _ s3 r); [|by rewrite (bind_ok _ _ _ _ _ Hrun), (bind_ok _ _ _ _ _ (fdata_run _ _)), Hset].
  assert (Hh3 : fheld s3 = [ind]) by by rewrite (wr_held _ _ _ _ Hwr), (al_held _ _ _ Hal).
  rewrite (bind_ok _ _ _ _ _ (frelse_run ind [] s3 Hh3 ltac:(apply not_elem_of_nil))).
  exists r, (hold [] s3). split; [done|]. split; [done|].
  split; [|replace (k - 3) with (k - 2 - 1) by lia; by destruct Hlog3; split].
  apply (indirect_taken s ip i b r (hold [] s2)); try done.
  - destruct Hal as [A1 A2 A3 A4 A5 A6]. by split.
  - destruct Hwr as [B1 B2 B3 B4 B5 B6]. by split.
Qed.

Lemma addr_alloc_run s ip i j k : file_wf s ip i -> 0 <= j <= 12 -> log_can s k -> 2 <= k -> addr_of i j = 0 ->
  if (nfree s =? 0)%nat then out_of_blocks (addr_alloc ip j s)
  else exists r s', addr_alloc ip j s = (Ok r, s') /\ first_free s r
    /\ taken s ip i r (if j =? 12 then -1 else j) s' (set_addr j r i) /\ log_can s' (k - 2).
Proof.
  intros Hw Hj Hlog Hk H0. unfold addr_alloc. rewrite (bind_ok _ _ _ _ _ (geti_run s ip i (w_slot _ _ _ Hw))), H0, Z.eqb_refl, (w_dev _ _ _ Hw).
  pose proof (balloc_file s ip i k [] Hw Hlog Hk ltac:(by intros n Hn%not_elem_of_nil)) as Hba.
  replace (hold [] s) with s in Hba by by rewrite <- (bm_free _ (w_bitmap _ _ _ Hw)), hold_id.
  destruct (nfree s =? 0)%nat; [by apply out_bind|]. destruct Hba as (r & s1 & Hrun & Hff & Hal & Hlog1).
  rewrite (bind_ok _ _ _ _ _ Hrun). exists r. eexists. split.
  { rewrite (bind_ok _ _ _ _ _ (updi_run s1 ip i _ ltac:(rewrite (al_ic _ _ _ Hal); apply (w_slot _ _ _ Hw)))). reflexivity. }
  split; [done|]. split; [by apply direct_taken|]. by destruct Hlog1; split.
Qed.

Lemma addr_alloc_there s ip i j : file_wf s ip i -> addr_of i j <> 0 -> addr_alloc ip j s = (Ok (addr_of i j), s).
Proof.
  intros Hw Hn. unfold addr_alloc. rewrite (bind_ok _ _ _ _ _ (geti_run s ip i (w_slot _ _ _ Hw))).
  by rewrite (proj2 (Z.eqb_neq _ _) Hn).
Qed.

Lemma bmap_there s ip i b : file_wf s ip i -> 0 <= b < MAXFILE -> fblock s i b <> 0 -> bmap ip b s = (Ok (fblock s i b), s).
Proof.
  intros Hw Hb Hn. rewrite bmap_unfold by done. destruct (Z.ltb_spec b NDIRECT) as [Hd|Hd].
  - pose proof (fblock_direct s i b ltac:(lia)) as E.
    rewrite E in *. by apply addr_alloc_there.
  - pose proof (fblock_ind s i b Hd Hn) as Hi. rewrite (bind_ok _ _ _ _ _ (addr_alloc_there s ip i NDIRECT Hw Hi)).
    pose proof (fblock_indirect s i b Hd Hi) as E.
    rewrite E in *. pose proof (bm_free _ (w_bitmap _ _ _ Hw)) as Hh. set (ind := addr_of i NDIRECT) in *.
    unfold bmap_indirect. rewrite (bind_ok _ _ _ _ _ (geti_run s ip i (w_slot _ _ _ Hw))), (w_dev _ _ _ Hw).
    rewrite (bind_ok _ _ _ _ _ (fread_run ind s ltac:(rewrite Hh; apply not_elem_of_nil))), (bind_ok _ _ _ _ _ (fdata_run _ _)).
    rewrite Hh. change (fview (hold _ s) ?n) with (fview s n). rewrite (proj2 (Z.eqb_neq _ _) Hn). unfold bind at 1, ret at 1.
    erewrite (bind_ok (ondisk (brelse _))); [|apply (frelse_run _ []); [done|apply not_elem_of_nil]].
    by rewrite hold_restore.
Qed.

(** ** Growing *)

(** [s'] and [i'] are [s] and [i] with blocks taken for the numbers from [lo] below [hi]
    of the file (and for the indirect block), and with nothing changed outside the file,
    the bitmap and the blocks that were free. *)
Record ext (s : fstate) (ip : nat) (i : inode) (lo hi : Z) (s' : fstate) (i' : inode) : Prop := mkExt {
  ex_wf : file_wf s' ip i';
  ex_sb : sb s' = sb s;
  ex_pid : fpid s' = fpid s;
  ex_icl : iclock s' = iclock s;
  ex_ic : icache s' = <[ip := i']> (icache s);
  ex_inode : i' = set_addrs (i_addrs i') i;
  ex_used : forall c, 0 <= c < sb_size (sb s) -> used s c = true -> used s' c = true;
  ex_keep : forall b, -1 <= b < MAXFILE -> fblock s i b <> 0 -> fblock s' i' b = fblock s i b;
  ex_other : forall b, 0 <= b < MAXFILE -> b < lo \/ hi <= b -> fblock s' i' b = fblock s i b;
  ex_fresh : forall b, -1 <= b < MAXFILE -> fblock s i b = 0 -> fblock s' i' b <> 0 -> used s (fblock s' i' b) = false;
  ex_none : (forall b, lo <= b < hi -> fblock s i b <> 0) -> i' = i;
  ex_view : forall n, 0 <= n < sb_size (sb s) -> used s n = true -> (forall c, 0 <= c < sb_size (sb s) -> BBLOCK c (sb s) <> n) ->
    (forall b, -1 <= b < MAXFILE -> fblock s i b = n -> n = 0) -> fview s' n = fview s n;
}.

Lemma ext_refl s ip i lo hi : file_wf s ip i -> ext s ip i lo hi s i.
Proof. intros Hw. split; try done; [by rewrite list_insert_id by apply (w_slot _ _ _ Hw)|by destruct i]. Qed.

Lemma ext_trans s ip i lo hi s1 i1 lo1 hi1 s2 i2 lo2 hi2 : 0 <= lo -> hi <= MAXFILE -> lo <= lo1 -> hi1 <= hi -> lo <= lo2 -> hi2 <= hi ->
  ext s ip i lo1 hi1 s1 i1 -> ext s1 ip i1 lo2 hi2 s2 i2 -> ext s ip i lo hi s2 i2.
Proof.
  intros Hlo Hhi L1 L2 L3 L4 [A1 A2 A3 A4 A5 A6 A7 A8 A9 A10 A11 A12] [B1 B2 B3 B4 B5 B6 B7 B8 B9 B10 B11 B12].
  assert (Hkeep : forall b, -1 <= b < MAXFILE -> fblock s i b <> 0 -> fblock s2 i2 b = fblock s i b).
  { intros b Hb Hn. rewrite B8, A8; [done|done|done|done|]. by rewrite A8. }
  split; try congruence; try done.
  - rewrite B5, A5. apply list_insert_insert_eq.
  - rewrite B6, A6. done.
  - intros c Hc Hu. apply B7; [by rewrite A2|by apply A7].
  - intros b Hb Hout. rewrite B9, A9; [done|done|lia|done|lia].
  - intros b Hb H0 Hn. destruct (decide (fblock s1 i1 b = 0)) as [E|E].
    + pose proof (B10 b Hb E Hn) as Hf. destruct (w_block _ _ _ B1 b Hb Hn) as [D1 _ _ _ _]. rewrite B2, A2 in D1.
      destruct (used s (fblock s2 i2 b)) eqn:Eu; [|done]. rewrite A7 in Hf by done. done.
    + rewrite B8 by done. by apply A10.
  - intros Hall. rewrite B11; [apply A11; intros b Hb; apply Hall; lia|]. intros b Hb. specialize (Hall b ltac:(lia)).
    rewrite A8; [done|lia|done].
  - intros n Hn Hu Hnb Hnf. rewrite B12; [by apply A12|by rewrite A2|by apply A7|by rewrite A2|].
    intros b Hb E. destruct (decide (fblock s i b = 0)) as [E0|E0]; [|apply (Hnf b Hb); by rewrite <- A8].
    destruct (decide (n = 0)) as [|Hne]; [done|]. pose proof (A10 b Hb E0 ltac:(congruence)) as Hf. congruence.
Qed.

(** The contents of the blocks the file has are not touched. *)
Definition quiet (s : fstate) (i : inode) (s' : fstate) : Prop :=
  forall b, 0 <= b < MAXFILE -> fblock s i b <> 0 -> fview s' (fblock s i b) = fview s (fblock s i b).

Lemma taken_ext s ip i r bn s' i' lo hi m : file_wf s ip i -> first_free s r -> fblock s i bn = 0 -> -1 <= bn < MAXFILE ->
  taken s ip i r bn s' i' -> bn = -1 \/ lo <= bn < hi -> lo <= m < hi -> fblock s i m = 0 ->
  ext s ip i lo hi s' i' /\ quiet s i s' /\ nfree s = S (nfree s').
Proof.
  intros Hw Hff H0 Hbn Ht Hin Hm Hm0. pose proof Hff as (Hr & Hf & _). pose proof Ht as [T1 T2 T3 T4 T5 T6 T7 T8 T9 T10 T11 T12].
  assert (Hsame : forall b, -1 <= b < MAXFILE -> b <> bn -> fblock s' i' b = fblock s i b).
  { intros b Hb Hne. rewrite T12 by done. by rewrite (proj2 (Z.eqb_neq _ _) Hne). }
  split; [|split]; [split; try done| |].
  - by apply (taken_wf s ip i r bn).
  - intros c Hc E. rewrite T8, E by done. apply orb_true_r.
  - intros b Hb Hn. apply Hsame; [done|]. congruence.
  - intros b Hb Hout. apply Hsame; lia.
  - intros b Hb Hz. rewrite T12 by done. destruct (Z.eqb_spec b bn); congruence.
  - intros Hall. by destruct (Hall m Hm).
  - intros n Hn Hu Hnb Hnf. apply T9; [by eapply free_ne|by apply not_eq_sym, Hnb|].
    destruct (decide (n = 0)) as [|Hne]; [by left|]. right. intros ->. by apply Hne, (Hnf (-1)).
  - intros b Hb Hn. destruct (w_block _ _ _ Hw b ltac:(lia) Hn) as [D1 D2 D3 D4 D5].
    apply T9; [by eapply free_ne|by apply not_eq_sym, D5|]. right. intros E. assert (b = -1); [|lia].
    apply (w_inj _ _ _ Hw); [lia|done|done|done].
  - by apply (nfree_take s r).
Qed.

(** The blocks [bmap] takes for block [bn]. *)
Definition cost (s : fstate) (i : inode) (bn : Z) : nat :=
  if negb (fblock s i bn =? 0) then 0%nat else if (bn <? NDIRECT) || negb (addr_of i NDIRECT =? 0) then 1%nat else 2%nat.

(** What [bmap] of block [bn] leaves. *)
Record mapped (s : fstate) (ip : nat) (i : inode) (bn k : Z) (s' : fstate) (i' : inode) : Prop := mkMapped {
  mp_ext : ext s ip i bn (bn + 1) s' i';
  mp_there : fblock s' i' bn <> 0;
  mp_quiet : quiet s i s';
  mp_log : log_can s' (k - 3 * Z.of_nat (cost s i bn));
  mp_free : (nfree s' + cost s i bn = nfree s)%nat;
  mp_ind : addr_of i' NDIRECT = 0 <-> addr_of i NDIRECT = 0 /\ (fblock s i bn <> 0 \/ bn < NDIRECT);
}.

Lemma log_can_less s k k' : log_can s k -> k' <= k -> log_can s k'.
Proof. intros [H1 H2 H3 H4 H5 H6] H. split; try done; lia. Qed.

Lemma bmap_direct s ip i bn k : file_wf s ip i -> 0 <= bn < NDIRECT -> fblock s i bn = 0 -> log_can s k -> 3 <= k ->
  if (1 <=? nfree s)%nat then exists s' i', bmap ip bn s = (Ok (fblock s' i' bn), s') /\ mapped s ip i bn k s' i'
  else out_of_blocks (bmap ip bn s).
Proof.
  intros Hw Hb H0 Hlog Hk. rewrite bmap_unfold, (proj2 (Z.ltb_lt _ _)) by (unfold MAXFILE, NDIRECT, NINDIRECT in *; lia).
  unfold NDIRECT in Hb. pose proof (fblock_direct s i bn Hb) as E.
  pose proof (addr_alloc_run s ip i bn k Hw ltac:(lia) Hlog ltac:(lia) ltac:(congruence)) as H.
  destruct (nfree s =? 0)%nat eqn:En; [apply Nat.eqb_eq in En; by rewrite En|]. apply Nat.eqb_neq in En. rewrite (proj2 (Nat.leb_le _ _)) by lia.
  destruct H as (r & s' & Hrun & Hff & Ht & Hlog'). rewrite (proj2 (Z.eqb_neq bn 12)) in Ht by lia.
  assert (Hm : -1 <= bn < MAXFILE) by (unfold MAXFILE, NDIRECT, NINDIRECT; lia).
  destruct (taken_ext s ip i r bn s' _ bn (bn + 1) bn Hw Hff H0 Hm Ht ltac:(lia) ltac:(lia) H0) as (Hx & Hq & Hn).
  assert (Hr : fblock s' (set_addr bn r i) bn = r) by by rewrite (tk_block _ _ _ _ _ _ _ Ht), Z.eqb_refl.
  assert (Hc : cost s i bn = 1%nat) by (unfold cost, NDIRECT; by rewrite H0, (proj2 (Z.ltb_lt _ _)) by lia).
  exists s', (set_addr bn r i). rewrite Hr. split; [done|]. split; rewrite ?Hc; try done.
  - rewrite Hr. intros ->. destruct (w_boot _ _ _ Hw), Hff as (_ & ? & _). congruence.
  - apply (log_can_less _ (k - 2)); [done|lia].
  - lia.
  - rewrite addr_set by (apply (w_addrs _ _ _ Hw) || unfold NDIRECT; lia). unfold NDIRECT. rewrite (proj2 (Z.eqb_neq 12 bn)) by lia.
    split; [intros ?; split; [done|right; lia]|by intros [? _]].
Qed.

Lemma bmap_ind_there s ip i bn k : file_wf s ip i -> NDIRECT <= bn < MAXFILE -> addr_of i NDIRECT <> 0 -> fblock s i bn = 0 ->
  log_can s k -> 3 <= k ->
  if (1 <=? nfree s)%nat then exists s' i', bmap_indirect ip (bn - NDIRECT) (addr_of i NDIRECT) s = (Ok (fblock s' i' bn), s') /\ mapped s ip i bn k s' i'
  else out_of_blocks (bmap_indirect ip (bn - NDIRECT) (addr_of i NDIRECT) s).
Proof.
  intros Hw Hb Hi H0 Hlog Hk. pose proof (bmap_indirect_run s ip i bn k Hw Hb Hi Hlog Hk H0) as H.
  destruct (nfree s =? 0)%nat eqn:En; [apply Nat.eqb_eq in En; by rewrite En|]. apply Nat.eqb_neq in En. rewrite (proj2 (Nat.leb_le _ _)) by lia.
  destruct H as (r & s' & Hrun & Hff & Ht & Hlog').
  assert (Hm : -1 <= bn < MAXFILE) by (unfold NDIRECT in *; lia).
  destruct (taken_ext s ip i r bn s' _ bn (bn + 1) bn Hw Hff H0 Hm Ht ltac:(lia) ltac:(lia) H0) as (Hx & Hq & Hn).
  assert (Hr : fblock s' i bn = r) by by rewrite (tk_block _ _ _ _ _ _ _ Ht), Z.eqb_refl.
  assert (Hc : cost s i bn = 1%nat) by (unfold cost; rewrite H0, (proj2 (Z.eqb_neq _ _) Hi), orb_true_r; done).
  exists s', i. rewrite Hr. split; [done|]. split; rewrite ?Hc; try done.
  - rewrite Hr. intros ->. destruct (w_boot _ _ _ Hw), Hff as (_ & ? & _). congruence.
  - lia.
  - split; [done|by intros [? _]].
Qed.

(** Every block of a file can be mapped, as long as there are free blocks. *)
Lemma bmap_grow s ip i bn k : file_wf s ip i -> 0 <= bn < MAXFILE -> log_can s k -> 3 * Z.of_nat (cost s i bn) <= k ->
  if (cost s i bn <=? nfree s)%nat then exists s' i', bmap ip bn s = (Ok (fblock s' i' bn), s') /\ mapped s ip i bn k s' i'
  else out_of_blocks (bmap ip bn s).
Proof.
  intros Hw Hb Hlog Hk. destruct (decide (fblock s i bn = 0)) as [H0|Hn].
  2:{ assert (Hc : cost s i bn = 0%nat) by (unfold cost; by rewrite (proj2 (Z.eqb_neq _ _) Hn)). rewrite Hc. cbn [Nat.leb].
      exists s, i. split; [by apply bmap_there|]. split; rewrite ?Hc; first [done | by apply ext_refl | apply (log_can_less _ k); [done|lia] | lia | tauto]. }
  destruct (Z.lt_ge_cases bn NDIRECT) as [Hd|Hd].
  { assert (Hc : cost s i bn = 1%nat) by (unfold cost; by rewrite H0, (proj2 (Z.ltb_lt _ _) Hd)). rewrite Hc in *. apply bmap_direct; lia || done. }
  destruct (decide (addr_of i NDIRECT = 0)) as [Hi|Hi]; rewrite bmap_unfold, (proj2 (Z.ltb_ge _ _) Hd) by done.
  2:{ assert (Hc : cost s i bn = 1%nat) by (unfold cost; by rewrite H0, (proj2 (Z.eqb_neq _ _) Hi), orb_true_r).
      rewrite Hc in *. rewrite (bind_ok _ _ _ _ _ (addr_alloc_there s ip i NDIRECT Hw Hi)). apply bmap_ind_there; lia || done. }
  assert (Hc : cost s i bn = 2%nat) by (unfold cost; by rewrite H0, Hi, (proj2 (Z.ltb_ge _ _) Hd)). rewrite Hc in *.
  pose proof (addr_alloc_run s ip i NDIRECT k Hw ltac:(done) Hlog ltac:(lia) Hi) as H.
  destruct (nfree s =? 0)%nat eqn:En; [apply Nat.eqb_eq in En; rewrite En; by apply out_bind|]. apply Nat.eqb_neq in En.
  destruct H as (r & s1 & Hrun & Hff & Ht & Hlog'). change (if NDIRECT =? 12 then -1 else NDIRECT) with (-1) in Ht.
  set (i1 := set_addr NDIRECT r i) in *.
  destruct (taken_ext s ip i r (-1) s1 _ bn (bn + 1) bn Hw Hff Hi ltac:(done) Ht ltac:(by left) ltac:(lia) H0) as (Hx & Hq & Hf).
  assert (Hr : addr_of i1 NDIRECT = r) by (unfold i1; rewrite addr_set by (apply (w_addrs _ _ _ Hw) || done); done).
  assert (Hr0 : r <> 0). { intros ->. destruct (w_boot _ _ _ Hw), Hff as (_ & ? & _). congruence. }
  assert (H1 : fblock s1 i1 bn = 0) by (rewrite (tk_block _ _ _ _ _ _ _ Ht) by lia; by rewrite (proj2 (Z.eqb_neq bn (-1))) by lia).
  assert (Hc1 : cost s1 i1 bn = 1%nat) by (unfold cost; by rewrite H1, Hr, (proj2 (Z.eqb_neq _ _) Hr0), orb_true_r).
  rewrite (bind_ok _ _ _ _ _ Hrun).
  pose proof (bmap_ind_there s1 ip i1 bn (k - 2) (ex_wf _ _ _ _ _ _ _ Hx) ltac:(lia) ltac:(congruence) H1 Hlog' ltac:(lia)) as H.
  rewrite Hr in H. destruct (1 <=? nfree s1)%nat eqn:E1; [apply Nat.leb_le in E1|apply Nat.leb_gt in E1].
  2:{ by rewrite (proj2 (Nat.leb_gt _ _)) by lia. }
  rewrite (proj2 (Nat.leb_le _ _)) by lia. destruct H as (s2 & i2 & Hrun2 & [M1 M2 M3 M4 M5 M6]). rewrite Hc1 in *.
  exists s2, i2. split; [done|]. split; rewrite ?Hc; try done.
  - apply (ext_trans s ip i bn (bn + 1) s1 i1 bn (bn + 1) s2 i2 bn (bn + 1)); lia || done.
  - intros b Hbb Hne. assert (E : fblock s1 i1 b = fblock s i b) by (apply (ex_keep _ _ _ _ _ _ _ Hx); [lia|done]).
    rewrite <- (Hq b Hbb Hne), <- E. apply M3; [done|congruence].
  - apply (log_can_less _ _ _ M4). lia.
  - lia.
  - rewrite M6, Hr. split; [by intros [? _]|intros [_ [?|?]]; [done|lia]].
Qed.

(** ** Writing *)

(** Changing the contents of a data block. *)
Lemma write_keeps s ip i bn x s' : file_wf s ip i -> 0 <= bn < MAXFILE -> fblock s i bn <> 0 -> length x = BSIZE ->
  wrote s (fblock s i bn) x s' ->
  (forall b, -1 <= b < MAXFILE -> fblock s' i b = fblock s i b) /\ (forall c, 0 <= c < sb_size (sb s) -> used s' c = used s c)
  /\ file_wf s' ip i.
Proof.
  intros Hw Hb Hn Hx Hwr. destruct (w_block _ _ _ Hw bn ltac:(lia) Hn) as [D1 D2 D3 D4 D5].
  destruct (wrote_used _ _ _ _ (w_bitmap _ _ _ Hw) Hwr D5) as [Hu Hbm]. pose proof Hwr as [W1 W2 W3 W4 W5 W6].
  assert (Hind : addr_of i NDIRECT <> 0 -> fview s' (addr_of i NDIRECT) = fview s (addr_of i NDIRECT)).
  { intros Hi. rewrite W6. apply bupd_ne. intros E. assert (-1 = bn); [|lia]. by apply (w_inj _ _ _ Hw); [|lia|..]. }
  assert (Hf : forall b, fblock s' i b = fblock s i b).
  { intros b. unfold fblock. destruct (b <? 0), (b <? NDIRECT); try done. destruct (Z.eqb_spec (addr_of i NDIRECT) 0); [done|]. by rewrite Hind. }
  assert (Hl : forall n, length (fview s n) = BSIZE -> length (fview s' n) = BSIZE).
  { intros n Hl. rewrite W6. unfold bupd. by destruct (_ =? _). }
  split; [done|]. split; [done|]. pose proof Hw as [A1 A2 A3 A4 A5 [A6 A6'] (A7 & A8 & A9 & A10) A11 A12 A13 A14].
  split; rewrite ?W1, ?W3; try done.
  - split; [done|]. by rewrite Hu by lia.
  - split; [done|]. split; [by rewrite Hu|]. split; [by apply Hl|done].
  - intros b Hbb. rewrite Hf. intros Hne. destruct (A11 b Hbb Hne) as [E1 E2 E3 E4 E5]. split; rewrite ?W1; [done|by rewrite Hu|by apply Hl|done|done].
  - intros b b' Hbb Hbb'. rewrite !Hf. by apply A12.
  - intros b H1 H2. rewrite Hf. by apply A14.
Qed.

Lemma write_ext s ip i bn x s' lo hi : file_wf s ip i -> 0 <= bn < MAXFILE -> fblock s i bn <> 0 -> length x = BSIZE ->
  wrote s (fblock s i bn) x s' -> ext s ip i lo hi s' i.
Proof.
  intros Hw Hb Hn Hx Hwr. destruct (write_keeps s ip i bn x s' Hw Hb Hn Hx Hwr) as (Hf & Hu & Hw').
  pose proof Hwr as [W1 W2 W3 W4 W5 W6]. split; try done.
  - rewrite W3, list_insert_id; [done|]. apply (w_slot _ _ _ Hw).
  - by destruct i.
  - intros c Hc. by rewrite Hu.
  - intros b Hbb _. by apply Hf.
  - intros b Hbb _. apply Hf. lia.
  - intros b Hbb H0. by rewrite Hf.
  - intros n H1 H2 H3 H4. rewrite W6. apply bupd_ne. intros ->. by apply Hn, (H4 bn); [lia|].
Qed.

(** [s'] and [i'] are [s] and [i] with the bytes [src] at [off] of the file. *)
Record grew (s : fstate) (ip : nat) (i : inode) (off : Z) (src : list Z) (s' : fstate) (i' : inode) : Prop := mkGrew {
  gr_ext : ext s ip i (off / bsize) (nblk (off + Z.of_nat (length src))) s' i';
  gr_there : forall o, off <= o < off + Z.of_nat (length src) -> fblock s' i' (o / bsize) <> 0;
  gr_new : forall o, off <= o < off + Z.of_nat (length src) -> gbyte s' i' o = nth (Z.to_nat (o - off)) src 0;
  gr_old : forall o, 0 <= o < MAXFILE * bsize -> o < off \/ off + Z.of_nat (length src) <= o ->
    fblock s i (o / bsize) <> 0 -> gbyte s' i' o = gbyte s i o;
}.

Lemma block_bound o : 0 <= o < MAXFILE * bsize -> 0 <= o / bsize < MAXFILE.
Proof. intros H. apply block_in_range; lia. Qed.

Lemma nblk_max n : n <= MAXFILE * bsize -> nblk n <= MAXFILE.
Proof. intros H. destruct (Z.le_gt_cases (nblk n) MAXFILE) as [|Hgt]; [done|]. apply nblk_spec in Hgt. lia. Qed.

Lemma nblk_mono a b : a <= b -> nblk a <= nblk b.
Proof. intros H. unfold nblk. apply Z.div_le_mono; [done|lia]. Qed.

Lemma grew_none s ip i off : file_wf s ip i -> grew s ip i off [] s i.
Proof.
  intros Hw. split; [by apply ext_refl|cbn; lia|cbn; lia|done].
Qed.

Lemma grew_app s ip i off x y s1 i1 s2 i2 : 0 <= off -> off + Z.of_nat (length x + length y) <= MAXFILE * bsize ->
  grew s ip i off x s1 i1 -> grew s1 ip i1 (off + Z.of_nat (length x)) y s2 i2 -> grew s ip i off (x ++ y) s2 i2.
Proof.
  intros Hoff Hmax [A1 A2 A3 A4] [B1 B2 B3 B4]. rewrite <- Z.add_assoc, <- Nat2Z.inj_add, <- length_app in B1.
  assert (Hpos : 0 <= off / bsize) by by apply Z.div_pos.
  assert (Hdiv : off / bsize <= (off + Z.of_nat (length x)) / bsize) by (apply Z.div_le_mono; [done|lia]).
  split.
  - eapply (ext_trans _ _ _ _ _ _ _ _ _ _ _ _ _ Hpos); [| | | | |exact A1|exact B1]; try lia.
    + apply nblk_max. rewrite length_app. lia.
    + apply nblk_mono. rewrite length_app. lia.
  - intros o Ho. rewrite length_app in Ho. destruct (Z.lt_ge_cases o (off + Z.of_nat (length x))); [|apply B2; lia].
    assert (E : fblock s1 i1 (o / bsize) <> 0) by (apply A2; lia). rewrite (ex_keep _ _ _ _ _ _ _ B1); [done| |done].
    pose proof (block_bound o ltac:(lia)). lia.
  - intros o Ho. rewrite length_app in Ho. pose proof (block_bound o ltac:(lia)).
    destruct (Z.lt_ge_cases o (off + Z.of_nat (length x))) as [Hlt|Hge].
    + rewrite B4, A3, app_nth1 by (lia || apply A2; lia). done.
    + rewrite B3, app_nth2 by lia. f_equal. lia.
  - intros o Ho Hout Hn. rewrite length_app in Hout. pose proof (block_bound o Ho).
    rewrite B4, A4; [done|done|lia|done|done|lia|]. rewrite (ex_keep _ _ _ _ _ _ _ A1); [done|lia|done].
Qed.

(** One turn of the loop of [writei], the block being mapped. *)
Lemma grew_turn s ip i off src s1 i1 k s2 : 0 <= off -> off mod bsize + Z.of_nat (length src) <= bsize ->
  0 < Z.of_nat (length src) -> off / bsize < MAXFILE -> mapped s ip i (off / bsize) k s1 i1 ->
  wrote s1 (fblock s1 i1 (off / bsize)) (splice (fview s1 (fblock s1 i1 (off / bsize))) (Z.to_nat (off mod bsize)) src) s2 ->
  grew s ip i off src s2 i1.
Proof.
  intros Ho Hfit Hpos Hmax [M1 M2 M3 M4 M5 M6] Hwr. set (bn := off / bsize) in *. set (a := fblock s1 i1 bn) in *.
  assert (Hb : 0 <= bn < MAXFILE) by (split; [by apply Z.div_pos|done]).
  pose proof (ex_wf _ _ _ _ _ _ _ M1) as Hw1. pose proof (db_len _ _ _ (w_block _ _ _ Hw1 bn ltac:(lia) M2)) as Hl. fold a in Hl.
  assert (Hm : 0 <= off mod bsize) by by apply Z.mod_pos_bound.
  assert (Hlx : length (splice (fview s1 a) (Z.to_nat (off mod bsize)) src) = BSIZE).
  { rewrite length_splice; [done|]. rewrite Hl. unfold bsize in *. lia. }
  destruct (write_keeps s1 ip i1 bn _ s2 Hw1 Hb M2 Hlx Hwr) as (Hf & _ & _).
  assert (Hdm : off = bn * bsize + off mod bsize) by (unfold bn; rewrite Z.mul_comm; by apply Z.div_mod).
  assert (Hnb : nblk (off + Z.of_nat (length src)) = bn + 1).
  { pose proof (nblk_spec (off + Z.of_nat (length src)) bn). pose proof (nblk_spec (off + Z.of_nat (length src)) (bn + 1)).
    unfold bsize, BSIZE in *. lia. }
  assert (Hin : forall o, bn * bsize <= o < (bn + 1) * bsize -> o / bsize = bn /\ o mod bsize = o - bn * bsize).
  { intros o Hoo. unfold bsize, BSIZE in *. change (Z.of_nat 512) with 512 in *.
    split; symmetry; [apply (Z.div_unique _ _ _ (o - bn * 512))|apply (Z.mod_unique _ _ bn)]; lia. }
  assert (Hv : fview s2 a = splice (fview s1 a) (Z.to_nat (off mod bsize)) src) by by rewrite (wr_view _ _ _ _ Hwr), bupd_eq.
  split.
  - rewrite Hnb. apply (ext_trans s ip i bn (bn + 1) s1 i1 bn (bn + 1) s2 i1 bn (bn + 1)); try lia; [done|].
    by apply (write_ext s1 ip i1 bn _ s2 bn (bn + 1) Hw1 Hb M2 Hlx).
  - intros o Hoo. destruct (Hin o) as [E _]; [lia|]. rewrite E, Hf by lia. done.
  - intros o Hoo. destruct (Hin o) as [E1 E2]; [lia|]. unfold gbyte. rewrite E1, E2, Hf by lia. fold a.
    rewrite Hv, !nth_lookup, lookup_splice_eq by (rewrite ?Hl; unfold bsize in *; lia). do 2 f_equal. lia.
  - intros o Hoo Hout Hn. unfold gbyte. destruct (Z.eq_dec (o / bsize) bn) as [E|E].
    + rewrite E in *. rewrite Hf by lia. fold a. assert (Ea : a = fblock s i bn) by (apply (ex_keep _ _ _ _ _ _ _ M1); [lia|done]).
      rewrite Hv, !nth_lookup, lookup_splice_ne; [by rewrite Ea, M3| |].
      * rewrite Hl. unfold bsize in *. lia.
      * pose proof (Z.div_mod o bsize ltac:(done)). pose proof (Z.mod_pos_bound o bsize ltac:(done)). rewrite E in *. lia.
    + pose proof (block_bound o Hoo) as Hob. rewrite Hf, (ex_keep _ _ _ _ _ _ _ M1) by (lia || done).
      rewrite (wr_view _ _ _ _ Hwr), bupd_ne; [by rewrite M3|]. intros Ea. apply E.
      apply (w_inj _ _ _ Hw1); [lia|lia| |]; by rewrite (ex_keep _ _ _ _ _ _ _ M1) by (lia || done).
Qed.

(** ** The blocks a write takes *)

(** The blocks taken for the block numbers [l]: those that are missing, and the indirect
    block with the first of them behind it, unless it is there. *)
Fixpoint need_list (f : Z -> Z) (ind : bool) (l : list Z) : nat :=
  match l with
  | [] => 0
  | b :: l' =>
      if negb (f b =? 0) then need_list f ind l'
      else if b <? NDIRECT then S (need_list f ind l')
      else if ind then S (need_list f true l')
      else S (S (need_list f true l'))
  end.

(** The numbers of the blocks with the bytes [off] to [off + n]. *)
Definition blocks_of (off n : Z) : list Z := if n <=? 0 then [] else seqZ (off / bsize) (nblk (off + n) - off / bsize).

Definition needs (s : fstate) (i : inode) (off n : Z) : nat :=
  need_list (fblock s i) (negb (addr_of i NDIRECT =? 0)) (blocks_of off n).

Lemma need_list_ext f g ind l : (forall b, b ∈ l -> f b = g b) -> need_list f ind l = need_list g ind l.
Proof.
  revert ind. induction l as [|b l IH]; intros ind H; cbn [need_list]; [done|]. rewrite (H b) by set_solver.
  rewrite !IH by set_solver. done.
Qed.

Lemma blocks_of_step off n : 0 <= off -> 0 < n ->
  let m := Z.min n (bsize - off mod bsize) in
  blocks_of off n = off / bsize :: blocks_of (off + m) (n - m) /\ off / bsize ∉ blocks_of (off + m) (n - m).
Proof.
  intros Ho Hn m. destruct (turn_bounds off n Ho Hn) as (Hm & Hfit & Hor). fold m in Hm, Hfit, Hor.
  assert (Hdm : off = off / bsize * bsize + off mod bsize) by (rewrite Z.mul_comm; by apply Z.div_mod).
  pose proof (nblk_spec (off + n) (off / bsize)) as Hb. pose proof (nblk_spec (off + n) (off / bsize + 1)) as Hb1.
  assert (Hmp : 0 <= off mod bsize < bsize) by by apply Z.mod_pos_bound.
  unfold blocks_of at 1. rewrite (proj2 (Z.leb_gt _ _)) by lia. unfold blocks_of. destruct Hor as [E|[E1 E2]].
  - rewrite E, Z.sub_diag. cbn [Z.leb]. replace (nblk (off + n)) with (off / bsize + 1) by (unfold bsize, BSIZE in *; lia).
    replace (off / bsize + 1 - off / bsize) with 1 by lia. split; [done|apply not_elem_of_nil].
  - assert (Hd : (off + m) / bsize = off / bsize + 1).
    { pose proof (Z.div_mod (off + m) bsize ltac:(done)). unfold bsize, BSIZE in *. lia. }
    destruct (Z.leb_spec (n - m) 0).
    + replace (nblk (off + n)) with (off / bsize + 1) by (unfold bsize, BSIZE in *; lia).
      replace (off / bsize + 1 - off / bsize) with 1 by lia. split; [done|apply not_elem_of_nil].
    + rewrite Hd. replace (off + m + (n - m)) with (off + n) by lia. split; [|rewrite elem_of_seqZ; lia].
      rewrite seqZ_cons by (unfold bsize, BSIZE in *; lia). unfold Z.succ, Z.pred. do 2 f_equal. lia.
Qed.

(** The first block of a write, and what the others take after it. *)
Lemma needs_step s ip i off n k s1 i1 s2 : 0 <= off -> 0 < n -> off + n <= MAXFILE * bsize ->
  mapped s ip i (off / bsize) k s1 i1 -> (forall b, -1 <= b < MAXFILE -> fblock s2 i1 b = fblock s1 i1 b) ->
  let m := Z.min n (bsize - off mod bsize) in
  needs s i off n = (cost s i (off / bsize) + needs s2 i1 (off + m) (n - m))%nat.
Proof.
  intros Ho Hn Hmax [M1 M2 M3 M4 M5 M6] Hf m. destruct (blocks_of_step off n Ho Hn) as [E Hni]. fold m in E, Hni.
  unfold needs. rewrite E. cbn [need_list]. set (bn := off / bsize) in *. set (l := blocks_of (off + m) (n - m)) in *.
  assert (Hb : 0 <= bn < MAXFILE) by (apply block_bound; lia).
  assert (Hl : forall b, b ∈ l -> 0 <= b < MAXFILE).
  { intros b Hin. assert (Hin' : b ∈ blocks_of off n) by (rewrite E; by apply list_elem_of_further). unfold blocks_of in Hin'.
    destruct (n <=? 0); [by apply not_elem_of_nil in Hin'|]. apply elem_of_seqZ in Hin'. pose proof (nblk_max _ Hmax). lia. }
  assert (Hext : forall ind, need_list (fblock s2 i1) ind l = need_list (fblock s i) ind l).
  { intros ind. apply need_list_ext. intros b Hin. pose proof (Hl b Hin). rewrite Hf by lia. apply (ex_other _ _ _ _ _ _ _ M1); [done|].
    assert (b <> bn) by congruence. lia. }
  rewrite Hext. unfold cost. destruct (Z.eqb_spec (fblock s i bn) 0) as [E0|E0], (Z.ltb_spec bn NDIRECT),
    (Z.eqb_spec (addr_of i NDIRECT) 0) as [Ei|Ei], (Z.eqb_spec (addr_of i1 NDIRECT) 0) as [Ei1|Ei1]; cbn; try done; exfalso; intuition lia.
Qed.

Lemma nfree_same s s' : sb s' = sb s -> (forall c, 0 <= c < sb_size (sb s) -> used s' c = used s c) -> nfree s' = nfree s.
Proof.
  intros Hsb Hu. unfold nfree. rewrite Hsb. symmetry. apply length_filter_same. intros c Hc%elem_of_seqZ. by rewrite Hu.
Qed.

(** One turn of [writei] over [n] bytes from [off], with the rest [K] of the loop. *)
Lemma writei_turn {A} s ip i off n src k (K : FM A) : file_wf s ip i -> 0 <= off -> 0 < n -> off + n <= MAXFILE * bsize ->
  let m := Z.min n (bsize - off mod bsize) in let bn := off / bsize in
  Z.of_nat (length src) = m -> log_can s k -> 3 * Z.of_nat (cost s i bn) < k ->
  let body := (i <- geti ip ;; addr <- bmap ip bn ;; bp <- ondisk (bread (i_dev i) addr) ;; x <- ondisk (bdata bp) ;;
    ondisk (bset bp (splice x (Z.to_nat (off mod bsize)) src)) ;; onlog (log_write bp) ;; ondisk (brelse bp) ;; K) in
  if (cost s i bn <=? nfree s)%nat then exists s2 i1, body s = K s2 /\ grew s ip i off src s2 i1
    /\ log_can s2 (k - 3 * Z.of_nat (cost s i bn) - 1) /\ (nfree s2 + cost s i bn = nfree s)%nat
    /\ needs s i off n = (cost s i bn + needs s2 i1 (off + m) (n - m))%nat
  else out_of_blocks (body s).
Proof.
  intros Hw Ho Hpos Hend m bn Hsrc Hlog Hk body. destruct (turn_bounds off n Ho Hpos) as (Hm & Hfit & _). fold m in Hm, Hfit.
  pose proof (block_bound off ltac:(lia)) as Hb. fold bn in Hb. unfold body.
  rewrite (bind_ok _ _ _ _ _ (geti_run s ip i (w_slot _ _ _ Hw))), (w_dev _ _ _ Hw).
  pose proof (bmap_grow s ip i bn k Hw Hb Hlog ltac:(lia)) as Hmap.
  destruct (cost s i bn <=? nfree s)%nat eqn:Ec; [|by apply out_bind].
  destruct Hmap as (s1 & i1 & Hrun & Hmp). rewrite (bind_ok _ _ _ _ _ Hrun). pose proof Hmp as [M1 M2 M3 M4 M5 M6].
  pose proof (ex_wf _ _ _ _ _ _ _ M1) as Hw1. pose proof (bm_free _ (w_bitmap _ _ _ Hw1)) as Hh.
  set (a := fblock s1 i1 bn) in *. assert (Hnot : a ∉ fheld s1) by (rewrite Hh; apply not_elem_of_nil).
  rewrite (bind_ok _ _ _ _ _ (fread_run a s1 Hnot)).
  rewrite (bind_ok _ _ _ _ _ (fdata_run _ _)). change (fview (hold _ s1) ?n) with (fview s1 n).
  destruct (update_run s1 a (splice (fview s1 a) (Z.to_nat (off mod bsize)) src) _ K Hnot M4 ltac:(lia)) as (s2 & -> & _ & Hlog2 & Hwr).
  assert (Hlx : length (splice (fview s1 a) (Z.to_nat (off mod bsize)) src) = BSIZE).
  { pose proof (db_len _ _ _ (w_block _ _ _ Hw1 bn ltac:(lia) M2)) as Hl. fold a in Hl.
    rewrite length_splice; [done|]. rewrite Hl. pose proof (Z.mod_pos_bound off bsize ltac:(done)). unfold bsize in *. lia. }
  destruct (write_keeps s1 ip i1 bn _ s2 Hw1 Hb M2 Hlx Hwr) as (Hf & Hu & Hw2).
  exists s2, i1. split; [done|]. split; [by apply (grew_turn s ip i off src s1 i1 k s2 Ho); [lia|lia|fold bn; lia| |]|].
  split; [done|]. split; [rewrite (nfree_same s1 s2); [done|apply (wr_sb _ _ _ _ Hwr)|done]|].
  exact (needs_step s ip i off n k s1 i1 s2 Ho Hpos Hend Hmp Hf).
Qed.

Lemma cost_needs s i off n : 0 <= off -> 0 < n -> (cost s i (off / bsize) <= needs s i off n)%nat.
Proof.
  intros Ho Hn. destruct (blocks_of_step off n Ho Hn) as [E _]. unfold needs. rewrite E. cbn [need_list]. unfold cost.
  destruct (fblock s i (off / bsize) =? 0), (off / bsize <? NDIRECT), (addr_of i NDIRECT =? 0); cbn; lia.
Qed.

Lemma writei_loop_grow ip : forall fuel s i src off k,
  file_wf s ip i -> 0 <= off -> off + Z.of_nat (length src) <= MAXFILE * bsize -> enough fuel off (Z.of_nat (length src)) ->
  log_can s k -> let n := needs s i off (Z.of_nat (length src)) in Z.of_nat fuel + 3 * Z.of_nat n <= k + 1 ->
  if (n <=? nfree s)%nat
  then exists s' i', writei_loop fuel ip src off s = (Ok (off + Z.of_nat (length src)), s') /\ grew s ip i off src s' i'
    /\ log_can s' (k + 1 - Z.of_nat fuel - 3 * Z.of_nat n) /\ (nfree s' + n = nfree s)%nat
  else out_of_blocks (writei_loop fuel ip src off s).
Proof.
  induction fuel as [|fuel IH]; intros s i src off k Hw Ho Hend He Hlog nd Hk; [destruct He; lia|]. cbn [writei_loop].
  unfold nd in *. clear nd. set (n := Z.of_nat (length src)) in *. destruct (Z.ltb_spec 0 n) as [Hpos|Hz].
  2:{ assert (Hnd : needs s i off n = 0%nat) by (unfold needs, blocks_of; by rewrite (proj2 (Z.leb_le _ _) Hz)).
      rewrite Hnd in *. cbn [Nat.leb]. exists s, i. destruct src; [|cbn in *; lia]. split; [unfold n; cbn; unfold ret; do 2 f_equal; lia|].
      split; [by apply grew_none|]. split; [apply (log_can_less _ k); [done|lia]|lia]. }
  destruct (turn_bounds off n Ho Hpos) as (Hm & Hfit & _). pose proof (enough_step fuel off n Ho Hpos He) as He'.
  pose proof (cost_needs s i off n Ho Hpos) as Hcn. set (m := Z.min n (bsize - off mod bsize)) in *. set (bn := off / bsize) in *.
  assert (Hfuel : (0 < fuel)%nat) by (destruct He'; lia).
  set (src1 := take (Z.to_nat m) src). set (src2 := drop (Z.to_nat m) src).
  assert (L1 : Z.of_nat (length src1) = m) by (unfold src1; rewrite length_take; lia).
  assert (L2 : Z.of_nat (length src2) = n - m) by (unfold src2; rewrite length_drop; lia).
  pose proof (writei_turn s ip i off n src1 k (writei_loop fuel ip src2 (u32 (off + m))) Hw Ho Hpos Hend L1 Hlog ltac:(fold bn; lia)) as Ht.
  fold bn in Ht. destruct (cost s i bn <=? nfree s)%nat eqn:Ec; [|apply Nat.leb_gt in Ec; rewrite (proj2 (Nat.leb_gt _ _)) by lia; exact Ht].
  destruct Ht as (s1 & i1 & Hrun & Hg1 & Hlog1 & Hfree1 & Hnd). apply Nat.leb_le in Ec. fold m in Hnd.
  assert (Hmax : u32 (off + m) = off + m) by (apply u32_id; unfold MAXFILE, NDIRECT, NINDIRECT, bsize, BSIZE in *; lia).
  rewrite Hrun, Hmax. cbn zeta in He'. rewrite <- L2 in He', Hnd.
  specialize (IH s1 i1 src2 (off + m) _ (ex_wf _ _ _ _ _ _ _ (gr_ext _ _ _ _ _ _ _ Hg1)) ltac:(lia) ltac:(lia) He' Hlog1 ltac:(cbn zeta; lia)).
  cbn zeta in IH. destruct (_ <=? nfree s1)%nat eqn:E1 in IH.
  - apply Nat.leb_le in E1. rewrite (proj2 (Nat.leb_le _ _)) by lia. destruct IH as (s' & i' & Hrun' & Hg' & Hlog' & Hfree').
    exists s', i'. split; [rewrite Hrun'; do 2 f_equal; lia|]. split; [|split; [apply (log_can_less _ _ _ Hlog'); lia|lia]].
    replace src with (src1 ++ src2) by apply take_drop. eapply grew_app; [done|lia|exact Hg1|by rewrite L1].
  - apply Nat.leb_gt in E1. rewrite (proj2 (Nat.leb_gt _ _)) by lia. exact IH.
Qed.

(** ** The size and the inode on disk *)

(** Changing the size of the inode and its block keeps the file. *)
Lemma sized s ip i n x s' : file_wf s ip i -> 0 <= n <= MAXFILE * bsize ->
  (forall bn, 0 <= bn -> bn * bsize < n -> fblock s i bn <> 0) -> length x = BSIZE ->
  wrote (set_icache (<[ip := set_size n i]> (icache s)) s) (IBLOCK (i_inum i) (sb s)) x s' ->
  file_wf s' ip (set_size n i) /\ (forall b, -1 <= b < MAXFILE -> fblock s' (set_size n i) b = fblock s i b)
  /\ (forall c, 0 <= c < sb_size (sb s) -> used s' c = used s c).
Proof.
  intros Hw Hn Hfull Hx Hwr. pose proof Hw as [A1 A2 A3 A4 A5 [A6 A6'] (A7 & A8 & A9 & A10) A11 A12 A13 A14].
  assert (Hbm0 : bitmap_ok (set_icache (<[ip := set_size n i]> (icache s)) s)) by by destruct A4; split.
  destruct (wrote_used _ _ _ _ Hbm0 Hwr) as [Hu Hbm]; [exact A10|]. pose proof Hwr as [W1 W2 W3 W4 W5 W6].
  change (sb (set_icache _ s)) with (sb s) in *. change (fview (set_icache _ s)) with (fview s) in *. change (used (set_icache _ s)) with (used s) in *.
  assert (Hf : forall b, fblock s' (set_size n i) b = fblock s i b).
  { intros b. unfold fblock. change (addr_of (set_size n i)) with (addr_of i). destruct (b <? 0), (b <? NDIRECT); try done.
    destruct (Z.eqb_spec (addr_of i NDIRECT) 0) as [|Hi]; [done|]. rewrite W6, bupd_ne; [done|].
    by apply (db_inode _ _ _ (A11 (-1) ltac:(done) Hi)). }
  assert (Hl : forall m, length (fview s m) = BSIZE -> length (fview s' m) = BSIZE).
  { intros m Hl. rewrite W6. unfold bupd. by destruct (_ =? _). }
  split; [|by split]. split; rewrite ?W1; change (i_inum (set_size n i)) with (i_inum i); try done.
  - rewrite W3. apply list_lookup_insert_eq. by eapply lookup_lt_Some.
  - split; [done|]. by rewrite Hu by lia.
  - split; [done|]. split; [by rewrite Hu|]. split; [by apply Hl|done].
  - intros b Hbb. rewrite Hf. intros Hne. destruct (A11 b Hbb Hne) as [E1 E2 E3 E4 E5].
    split; rewrite ?W1; [done|by rewrite Hu|by apply Hl|done|done].
  - intros b b' Hbb Hbb'. rewrite !Hf. by apply A12.
  - intros b H1 H2. rewrite Hf. by apply Hfull.
Qed.

(** What [writei] of [src] at [off] leaves. *)
Record grown (s : fstate) (ip : nat) (i : inode) (off : Z) (src : list Z) (s' : fstate) (i' : inode) : Prop := mkGrown {
  gn_wf : file_wf s' ip i';
  gn_sb : sb s' = sb s;
  gn_ic : icache s' = <[ip := i']> (icache s);
  gn_inode : i' = set_addrs (i_addrs i') (set_size (Z.max (i_size i) (off + Z.of_nat (length src))) i);
  gn_new : forall o, off <= o < off + Z.of_nat (length src) -> gbyte s' i' o = nth (Z.to_nat (o - off)) src 0;
  gn_old : forall o, 0 <= o < i_size i -> o < off \/ off + Z.of_nat (length src) <= o -> gbyte s' i' o = gbyte s i o;
  gn_same : off + Z.of_nat (length src) <= i_size i -> i' = i;
  gn_disk : i_size i < off + Z.of_nat (length src) -> inode_fits i ->
    dinode_get (fview s' (IBLOCK (i_inum i) (sb s))) (dip (i_inum i)) i = i';
  gn_inodes : forall m j, 0 <= m < IPB -> m <> i_inum i mod IPB ->
    dinode_get (fview s' (IBLOCK (i_inum i) (sb s))) (dip m) j = dinode_get (fview s (IBLOCK (i_inum i) (sb s))) (dip m) j;
  gn_used : forall c, 0 <= c < sb_size (sb s) -> used s c = true -> used s' c = true;
  gn_frame : forall n, 0 <= n < sb_size (sb s) -> used s n = true -> (forall c, 0 <= c < sb_size (sb s) -> BBLOCK c (sb s) <> n) ->
    n <> IBLOCK (i_inum i) (sb s) -> (forall b, -1 <= b < MAXFILE -> fblock s i b = n -> n = 0) -> fview s' n = fview s n;
}.

Lemma in_file o n : 0 <= o < n -> n <= MAXFILE * bsize -> 0 <= o / bsize < MAXFILE /\ o / bsize * bsize < n.
Proof.
  intros H1 H2. split; [apply block_bound; lia|]. pose proof (Z.div_mod o bsize ltac:(done)).
  pose proof (Z.mod_pos_bound o bsize ltac:(done)). lia.
Qed.

Lemma grew_iblock s ip i lo hi s' i' : file_wf s ip i -> ext s ip i lo hi s' i' ->
  fview s' (IBLOCK (i_inum i) (sb s)) = fview s (IBLOCK (i_inum i) (sb s)).
Proof.
  intros Hw Hx. destruct (w_iblock _ _ _ Hw) as (I1 & I2 & I3 & I4). apply (ex_view _ _ _ _ _ _ _ Hx); [done|done|done|].
  intros b Hb E. destruct (decide (fblock s i b = 0)) as [|Hne]; [congruence|]. by destruct (w_block _ _ _ Hw b Hb Hne).
Qed.

(** The file inside its old size: the inode is not touched. *)
Lemma grown_inside s ip i off src s' i' : file_wf s ip i -> 0 <= off -> off + Z.of_nat (length src) <= i_size i ->
  grew s ip i off src s' i' -> grown s ip i off src s' i'.
Proof.
  intros Hw Ho Hle [G1 G2 G3 G4]. pose proof G1 as [E1 E2 E3 E4 E5 E6 E7 E8 E9 E10 E11 E12]. pose proof (w_size _ _ _ Hw) as Hsz.
  split; try done.
  - rewrite Z.max_l, set_size_id by done. done.
  - intros o Hoo Hout. destruct (in_file o (i_size i) Hoo ltac:(lia)). apply G4; [lia|done|]. apply (w_full _ _ _ Hw); lia.
  - intros _. apply E11. intros b Hb. apply (w_full _ _ _ Hw); [pose proof (Z.div_pos off bsize ltac:(lia) ltac:(done)); lia|].
    destruct Hb as [_ Hb%nblk_spec]. lia.
  - lia.
  - intros m j _ _. by rewrite (grew_iblock _ _ _ _ _ _ _ Hw G1).
  - auto.
Qed.

Lemma grew_full s ip i off src s' i' bn : file_wf s ip i -> 0 <= off <= i_size i -> off + Z.of_nat (length src) <= MAXFILE * bsize ->
  grew s ip i off src s' i' -> 0 <= bn -> bn * bsize < off + Z.of_nat (length src) -> fblock s' i' bn <> 0.
Proof.
  intros Hw Ho Hmax [G1 G2 G3 G4] Hb Hlt. destruct (Z.lt_ge_cases (bn * bsize) off) as [Hin|Hin].
  - rewrite (ex_keep _ _ _ _ _ _ _ G1); [apply (w_full _ _ _ Hw); lia|unfold bsize, BSIZE in *; lia|apply (w_full _ _ _ Hw); lia].
  - replace bn with (bn * bsize / bsize) by (apply Z.div_mul; done). apply G2. lia.
Qed.

Lemma addrs_fit s ip i : file_wf s ip i -> Forall (fun a => 0 <= a < 2 ^ 32) (i_addrs i).
Proof.
  intros Hw. apply Forall_lookup. intros j a Hj. pose proof (lookup_lt_Some _ _ _ Hj) as Hl. rewrite (w_addrs _ _ _ Hw) in Hl.
  assert (Ha : addr_of i (Z.of_nat j) = a) by (unfold addr_of; rewrite Nat2Z.id; by apply nth_lookup_Some).
  destruct (decide (a = 0)) as [->|Hne]; [lia|]. pose proof (w_disk _ _ _ Hw).
  assert (exists b, -1 <= b < MAXFILE /\ fblock s i b = a) as (b & Hb & <-).
  { destruct (decide (j = 12%nat)) as [->|]; [by exists (-1)|]. exists (Z.of_nat j). unfold MAXFILE, NDIRECT, NINDIRECT.
    split; [lia|]. by rewrite fblock_direct by (unfold NDIRECT; lia). }
  pose proof (db_range _ _ _ (w_block _ _ _ Hw b Hb Hne)). lia.
Qed.

(** The file beyond its old size: the inode is written back. *)
Lemma grown_beyond s ip i off src s1 i1 s' : file_wf s ip i -> 0 <= off <= i_size i -> off + Z.of_nat (length src) <= MAXFILE * bsize ->
  i_size i < off + Z.of_nat (length src) -> grew s ip i off src s1 i1 ->
  let i' := set_size (off + Z.of_nat (length src)) i1 in
  let b := IBLOCK (i_inum i) (sb s) in
  wrote (set_icache (<[ip := i']> (icache s1)) s1) b (dinode_put (fview s1 b) (dip (i_inum i)) i') s' ->
  grown s ip i off src s' i' /\ nfree s' = nfree s1.
Proof.
  intros Hw Ho Hmax Hlt Hg i' b Hwr. pose proof Hg as [G1 G2 G3 G4]. pose proof G1 as [E1 E2 E3 E4 E5 E6 E7 E8 E9 E10 E11 E12]. set (n := off + _) in *.
  assert (Hin : i_inum i1 = i_inum i) by by rewrite E6.
  destruct (w_iblock _ _ _ E1) as (I1 & I2 & I3 & I4). rewrite Hin, E2 in I1, I2, I3, I4. fold b in I1, I2, I3, I4.
  pose proof (dip_fits (i_inum i)) as Hdip.
  destruct (sized s1 ip i1 n (dinode_put (fview s1 b) (dip (i_inum i)) i') s') as (Hw' & Hf & Hu); [done|lia| | |by rewrite Hin, E2|].
  { intros bn H1 H2. by apply (grew_full s ip i off src s1 i1 bn). }
  { rewrite length_dinode_put; [done|by rewrite I3|apply (w_addrs _ _ _ E1)]. }
  pose proof Hwr as [W1 W2 W3 W4 W5 W6]. change (fview (set_icache _ s1)) with (fview s1) in W6.
  assert (Hby : forall o, 0 <= o < MAXFILE * bsize -> fblock s1 i1 (o / bsize) <> 0 -> gbyte s' i' o = gbyte s1 i1 o).
  { intros o Hoo Hne. pose proof (block_bound o Hoo). unfold gbyte, i'. rewrite Hf by lia. rewrite W6, bupd_ne; [done|].
    pose proof (db_inode _ _ _ (w_block _ _ _ E1 (o / bsize) ltac:(lia) Hne)) as Hd. by rewrite Hin, E2 in Hd. }
  split; [|by apply nfree_same]. split; try done.
  - by rewrite W1.
  - rewrite W3. cbn. rewrite E5. apply list_insert_insert_eq.
  - rewrite Z.max_r by lia. unfold i'. rewrite E6. done.
  - intros o Hoo. rewrite Hby; [by apply G3|lia|by apply G2].
  - intros o Hoo Hout. destruct (in_file o (i_size i) Hoo ltac:(lia)) as [B1 B2]. assert (Hne : fblock s i (o / bsize) <> 0) by (apply (w_full _ _ _ Hw); lia).
    rewrite Hby, G4; [done|lia|done|done|lia|]. rewrite E8; [done|lia|done].
  - lia.
  - intros _ [F1 F2 F3 F4 F5 F6 F7]. rewrite W6, bupd_eq, dinode_get_put; [|by rewrite I3|].
    + unfold same_dinode, i'. rewrite E6. by destruct i.
    + unfold i'. rewrite E6. split; try done; cbn; [unfold n, MAXFILE, NDIRECT, NINDIRECT, bsize, BSIZE in *; lia|by eapply addrs_fit|apply (w_addrs _ _ _ E1)].
  - intros m j Hm Hne. rewrite W6, bupd_eq, <- (grew_iblock _ _ _ _ _ _ _ Hw G1). fold b.
    apply dinode_get_slice, slice_dinode_put; [by rewrite I3|apply (w_addrs _ _ _ E1)|].
    pose proof (Z.mod_pos_bound (i_inum i) IPB eq_refl). unfold dip, sizeof_dinode. rewrite (Z.mod_small m) by done. lia.
  - intros c Hc Huc. rewrite Hu by (by rewrite E2). by apply E7.
  - intros m H1 H2 H3 H4 H5. rewrite W6, bupd_ne by done. by apply E12.
Qed.

(** ** Writing and reading *)

Lemma fbyte_inside s ip i o : file_wf s ip i -> 0 <= o < i_size i -> fbyte s i o = gbyte s i o.
Proof.
  intros Hw Ho. pose proof (w_size _ _ _ Hw). destruct (in_file o (i_size i) Ho ltac:(lia)).
  symmetry. apply gbyte_fbyte; [lia|]. apply (w_full _ _ _ Hw); lia.
Qed.

Lemma grown_size s ip i off src s' i' : grown s ip i off src s' i' -> i_size i' = Z.max (i_size i) (off + Z.of_nat (length src)).
Proof. intros Hg. by rewrite (gn_inode _ _ _ _ _ _ _ Hg). Qed.

Lemma grown_same s ip i off src s' i' : 0 <= off -> grown s ip i off src s' i' -> fbytes s' i' off (length src) = src.
Proof.
  intros Ho Hg. pose proof (grown_size _ _ _ _ _ _ _ Hg) as Hs. unfold fbytes. apply list_eq. intros k. rewrite list_lookup_fmap.
  destruct (decide (k < length src)%nat) as [Hk|Hk]; [|by rewrite lookup_seq_ge, lookup_ge_None_2 by lia].
  rewrite lookup_seq_lt by done. cbn [fmap option_fmap option_map Nat.add].
  rewrite (fbyte_inside s' ip), (gn_new _ _ _ _ _ _ _ Hg) by (apply Hg || lia).
  destruct (lookup_lt_is_Some_2 src k Hk) as [c Hc]. rewrite Hc. f_equal. apply nth_lookup_Some. rewrite <- Hc. f_equal. lia.
Qed.

Lemma grown_other s ip i off src s' i' o n : file_wf s ip i -> grown s ip i off src s' i' -> 0 <= o -> o + Z.of_nat n <= i_size i ->
  o + Z.of_nat n <= off \/ off + Z.of_nat (length src) <= o -> fbytes s' i' o n = fbytes s i o n.
Proof.
  intros Hw Hg Ho Hend Hd. pose proof (grown_size _ _ _ _ _ _ _ Hg) as Hs. apply map_ext_in. intros k Hk. apply in_seq in Hk.
  rewrite (fbyte_inside s' ip i'), (fbyte_inside s ip i) by (apply Hg || done || lia). apply (gn_old _ _ _ _ _ _ _ Hg); lia.
Qed.

Section WriteRead.
Context (dev_read : Z -> option (nat -> Z -> FM (Z * list Z)))
        (dev_write : Z -> option (nat -> list Z -> FM Z)).
Local Abbreviation readi := (readi dev_read).
Local Abbreviation writei := (writei dev_write).

Lemma writei_grow s ip i off src : file_wf s ip i -> i_type i <> T_DEV ->
  0 <= off <= i_size i -> off + Z.of_nat (length src) <= MAXFILE * bsize ->
  let n := needs s i off (Z.of_nat (length src)) in
  log_can s (Z.of_nat (length src) / bsize + 3 + 3 * Z.of_nat n) ->
  if (n <=? nfree s)%nat
  then exists s' i', writei ip src off s = (Ok (Z.of_nat (length src)), s') /\ grown s ip i off src s' i' /\ (nfree s' + n = nfree s)%nat
  else out_of_blocks (writei ip src off s).
Proof.
  intros Hw Ht Ho Hend nd Hlog. unfold writei. set (n := Z.of_nat (length src)) in *.
  pose proof (w_slot _ _ _ Hw) as Hi. rewrite (bind_ok _ _ _ _ _ (geti_run s ip i Hi)), (proj2 (Z.eqb_neq _ _) Ht).
  assert (Hmax : MAXFILE * bsize = 71680) by done.
  rewrite (proj2 (Z.ltb_ge _ _)), u32_id, (proj2 (Z.ltb_ge _ _)), (proj2 (Z.ltb_ge _ _)) by lia. cbn [orb].
  assert (Hn : 0 <= n / bsize) by (apply Z.div_pos; unfold bsize, BSIZE; lia).
  pose proof (writei_loop_grow ip _ s i src off _ Hw ltac:(lia) Hend (enough_start off n ltac:(lia) ltac:(lia)) Hlog ltac:(cbn zeta; fold n nd; lia)) as H.
  cbn zeta in H. fold n nd in H. destruct (nd <=? nfree s)%nat; [|by apply out_bind].
  destruct H as (s1 & i1 & Hrun & Hg & Hlog1 & Hfree). pose proof (ex_wf _ _ _ _ _ _ _ (gr_ext _ _ _ _ _ _ _ Hg)) as Hw1.
  assert (Hi1 : i_size i1 = i_size i /\ i_inum i1 = i_inum i) by by rewrite (ex_inode _ _ _ _ _ _ _ (gr_ext _ _ _ _ _ _ _ Hg)).
  destruct Hi1 as [Hs1 Hn1]. rewrite (bind_ok _ _ _ _ _ Hrun), (bind_ok _ _ _ _ _ (geti_run s1 ip i1 (w_slot _ _ _ Hw1))), Hs1.
  assert (Hret : s32 n = n) by (apply s32_id; lia).
  destruct ((0 <? n) && (i_size i <? off + n)) eqn:Eb.
  2:{ exists s1, i1. unfold bind, ret. rewrite Hret. split; [done|]. split; [|done]. apply grown_inside; [done|lia| |done].
      fold n. destruct (Z.ltb_spec 0 n), (Z.ltb_spec (i_size i) (off + n)); done || lia. }
  apply andb_true_iff in Eb as [Hpos%Z.ltb_lt Hlt%Z.ltb_lt].
  set (i' := set_size (off + n) i1). set (s2 := set_icache (<[ip := i']> (icache s1)) s1).
  destruct (iupdate_run s2 ip i' 1) as (s3 & Hup & _ & Hw3).
  - apply list_lookup_insert_eq. eapply lookup_lt_Some, (w_slot _ _ _ Hw1).
  - apply (w_dev _ _ _ Hw1).
  - apply (bm_free _ (w_bitmap _ _ _ Hw1)).
  - apply (log_can_less s2 (n / bsize + 3 + 3 * Z.of_nat nd + 1 - Z.of_nat (S (S (S (Z.to_nat (n / bsize))))) - 3 * Z.of_nat nd)); [by destruct Hlog1; split|lia].
  - lia.
  - exists s3, i'. unfold bind, ret. rewrite (updi_run s1 ip i1 _ (w_slot _ _ _ Hw1)). fold i' s2. rewrite Hup, Hret.
    split; [done|]. change (i_inum i') with (i_inum i1) in Hw3. change (sb s2) with (sb s1) in Hw3.
    rewrite Hn1, (ex_sb _ _ _ _ _ _ _ (gr_ext _ _ _ _ _ _ _ Hg)) in Hw3.
    destruct (grown_beyond s ip i off src s1 i1 s3 Hw Ho Hend Hlt Hg Hw3) as [Hgr ->]. by split.
Qed.

Lemma readi_wf s ip i off n : file_wf s ip i -> i_type i <> T_DEV -> 0 <= off -> 0 <= n -> off + n <= i_size i ->
  readi ip off n s = (Ok (n, fbytes s i off (Z.to_nat n)), s).
Proof. intros Hw Ht H1 H2 H3. destruct (file_wf_size s ip i Hw). by apply (readi_run dev_read s ip i (nblk (i_size i))). Qed.

(** C17: what [writei] stores in a file, [readi] gives back, and files grow.  For a file
    of any size from 0 on, whose blocks below the size are there and whose other blocks
    need not be, a write of [src] that begins behind the end of the file or would make it
    longer than [MAXFILE] blocks returns -1 and changes nothing.  Otherwise it takes exactly the data blocks that are missing
    (and the indirect block, when the first block behind it is) from the free blocks and
    returns the number of bytes; when there are not that many free blocks it panics in
    [balloc].  A read of the range then returns exactly [src], a read of any range before
    or behind it returns what it returned before, the size is the larger one of the old
    size and the end of the write, a file that has grown has its new inode on disk, one
    that has not keeps its inode, the other inodes of the same block and every block in
    use that is neither of the file nor of the bitmap are as before, and the file is again
    as the next call needs it.  The log must have room for the blocks written, counted
    without the ones it absorbs. *)
Theorem writei_readi s ip i off src :
  let n := Z.of_nat (length src) in
  file_wf s ip i -> i_type i <> T_DEV -> 0 <= off -> off + n < 2 ^ 32 ->
  log_can s (n / bsize + 3 + 3 * Z.of_nat (needs s i off n)) ->
  if (i_size i <? off) || (MAXFILE * bsize <? off + n) then writei ip src off s = (Ok (-1), s)
  else if (needs s i off n <=? nfree s)%nat then
    exists s' i', writei ip src off s = (Ok n, s')
      /\ readi ip off n s' = (Ok (n, src), s')
      /\ (forall o m, 0 <= o -> 0 <= m -> o + m <= i_size i -> (o + m <= off \/ off + n <= o) ->
           exists l, readi ip o m s = (Ok (m, l), s) /\ readi ip o m s' = (Ok (m, l), s'))
      /\ i_size i' = Z.max (i_size i) (off + n) /\ (nfree s' + needs s i off n = nfree s)%nat
      /\ grown s ip i off src s' i'
  else out_of_blocks (writei ip src off s).
Proof.
  intros n Hw Ht Ho Hwrap Hlog. destruct (Z.ltb_spec (i_size i) off) as [Hbad|Hoff]; cbn [orb].
  { unfold writei. rewrite (bind_ok _ _ _ _ _ (geti_run s ip i (w_slot _ _ _ Hw))), (proj2 (Z.eqb_neq _ _) Ht). by rewrite (proj2 (Z.ltb_lt _ _) Hbad). }
  destruct (Z.ltb_spec (MAXFILE * bsize) (off + n)) as [Hbig|Hend].
  { unfold writei. rewrite (bind_ok _ _ _ _ _ (geti_run s ip i (w_slot _ _ _ Hw))), (proj2 (Z.eqb_neq _ _) Ht).
    fold n. rewrite u32_id, (proj2 (Z.ltb_ge _ _)), (proj2 (Z.ltb_ge _ _)), (proj2 (Z.ltb_lt _ _)) by lia. done. }
  pose proof (writei_grow s ip i off src Hw Ht ltac:(lia) Hend Hlog) as H. cbn zeta in H. fold n in H.
  destruct (_ <=? nfree s)%nat; [|done]. destruct H as (s' & i' & Hrun & Hg & Hfree). pose proof (grown_size _ _ _ _ _ _ _ Hg) as Hs.
  assert (Ht' : i_type i' <> T_DEV) by by rewrite (gn_inode _ _ _ _ _ _ _ Hg). fold n in Hs.
  exists s', i'. split; [done|]. split; [|split].
  - rewrite (readi_wf s' ip i') by (apply Hg || done || lia). unfold n. rewrite Nat2Z.id. by rewrite (grown_same s ip i off src s' i' Ho Hg).
  - intros o m H1 H2 H3 H4. exists (fbytes s i o (Z.to_nat m)). split; [by apply readi_wf|].
    rewrite (readi_wf s' ip i') by (apply Hg || done || lia). rewrite (grown_other s ip i off src s' i' o _ Hw Hg) by lia. done.
  - done.
Qed.
End WriteRead.

(** ** A file to grow *)

Module GrowRun.
(** A file of 6100 bytes in its twelve direct blocks, 60 to 71, without an indirect
    block, on a disk of 1000 blocks with the first 72 in use. *)
Definition bitmap : block := replicate 9 255 ++ replicate 503 0.
Definition file : inode :=
  mkInode ROOTDEV 9 1 (mkSleeplock false true 5) true T_FILE 0 0 1 6100 (map (fun k => 60 + Z.of_nat k) (seq 0 12) ++ [0]).
Definition disk (n : Z) : block := if n =? 58 then bitmap else zero_block.
Definition fs : fstate :=
  mkF Runs.super false [file] (mkL (mkLog false 2 30 1 false ROOTDEV 0 (replicate 30 0)) (mkBlk disk disk [] []) []) 5 [] [].

Lemma disk_length n : length (disk n) = BSIZE.
Proof. unfold disk. destruct (n =? 58); vm_compute; reflexivity. Qed.

Lemma bblock b : 0 <= b < 1000 -> BBLOCK b Runs.super = 58.
Proof. intros H. unfold BBLOCK, BPB. by rewrite Z.div_small by lia. Qed.

Lemma used_value b : 0 <= b < 72 -> used fs b = true.
Proof.
  intros H. assert (Hall : forallb (fun k => used fs (Z.of_nat k)) (seq 0 72) = true) by (vm_compute; reflexivity).
  rewrite forallb_forall in Hall. specialize (Hall (Z.to_nat b) ltac:(apply in_seq; lia)). by rewrite Z2Nat.id in Hall by lia.
Qed.

Lemma fblock_value b : -1 <= b < MAXFILE -> fblock fs file b = if (0 <=? b) && (b <? 12) then 60 + b else 0.
Proof.
  intros H. assert (Hall : forallb (fun k => fblock fs file (Z.of_nat k - 1) =?
    if (0 <=? Z.of_nat k - 1) && (Z.of_nat k - 1 <? 12) then 60 + (Z.of_nat k - 1) else 0) (seq 0 141) = true) by (vm_compute; reflexivity).
  rewrite forallb_forall in Hall. specialize (Hall (Z.to_nat (b + 1)) ltac:(apply in_seq; unfold MAXFILE, NDIRECT, NINDIRECT in *; lia)).
  rewrite Z2Nat.id, Z.add_simpl_r in Hall by lia. by apply Z.eqb_eq.
Qed.

Lemma fs_bitmap : bitmap_ok fs.
Proof.
  change (sb_size (sb fs)) with 1000. split; change (sb_size (sb fs)) with 1000; change (sb fs) with Runs.super; try done.
  - intros b H. apply disk_length.
  - intros b H. rewrite bblock by done. split; [lia|]. apply used_value. lia.
Qed.

Lemma fs_wf : file_wf fs 0 file.
Proof.
  split; change (sb_size (sb fs)) with 1000; change (sb fs) with Runs.super; change (IBLOCK (i_inum file) Runs.super) with 33; try done.
  - apply fs_bitmap.
  - split; [done|]. split; [apply used_value; lia|]. split; [apply disk_length|]. intros c Hc. by rewrite bblock.
  - intros b Hb. rewrite fblock_value by done. destruct (Z.leb_spec 0 b), (Z.ltb_spec b 12); cbn [andb]; intros Hne; try done.
    split; change (sb_size (sb fs)) with 1000; change (sb fs) with Runs.super; change (IBLOCK (i_inum file) Runs.super) with 33;
      [lia|apply used_value; lia|apply disk_length|lia|]. intros c Hc. rewrite bblock by done. lia.
  - intros b b' Hb Hb'. rewrite !fblock_value by done.
    destruct (Z.leb_spec 0 b), (Z.ltb_spec b 12), (Z.leb_spec 0 b'), (Z.ltb_spec b' 12); cbn [andb]; lia.
  - intros b Hb Hlt. change (i_size file) with 6100 in Hlt. change bsize with 512 in Hlt.
    rewrite fblock_value by (unfold MAXFILE, NDIRECT, NINDIRECT; lia). rewrite (proj2 (Z.leb_le _ _)), (proj2 (Z.ltb_lt _ _)) by lia. cbn [andb]. lia.
Qed.

Lemma fs_needs : needs fs file 6000 600 = 2%nat.
Proof. vm_compute. reflexivity. Qed.

Lemma fs_log k : k <= 29 -> log_can fs k.
Proof. intros H. split; try done; cbn; unfold LOGSIZE, MAXOPBLOCKS; lia. Qed.
End GrowRun.

Lemma writei_readi_witness : exists s' i',
  writei (fun _ => None) 0%nat (replicate 600 7) 6000 GrowRun.fs = (Ok 600, s')
  /\ readi (fun _ => None) 0%nat 6000 600 s' = (Ok (600, replicate 600 7), s')
  /\ i_size i' = 6600 /\ nfree s' = 926%nat.
Proof.
  pose proof (writei_readi (fun _ => None) (fun _ => None) GrowRun.fs 0%nat GrowRun.file 6000 (replicate 600 7) GrowRun.fs_wf
    ltac:(done) ltac:(done) ltac:(vm_compute; reflexivity) ltac:(apply GrowRun.fs_log; vm_compute; congruence)) as H.
  cbn zeta in H. change (Z.of_nat (length (replicate 600 7))) with 600 in H. rewrite GrowRun.fs_needs in H.
  assert (Hn : nfree GrowRun.fs = 928%nat) by (vm_compute; reflexivity). rewrite Hn in H.
  change ((i_size GrowRun.file <? 6000) || (MAXFILE * bsize <? 6000 + 600)) with false in H. cbn [Nat.leb] in H.
  destruct H as (s' & i' & H1 & H2 & _ & H3 & H4 & _). exists s', i'. split; [exact H1|]. split; [exact H2|]. split; [exact H3|lia].
Defined.
