(* ===== verification/FsDir.v ===== *)
(** Directories of [Fs]: [dirlookup] and [dirlink] against a directory read as a list
    of entries, and the splitting of path names by [skipelem]. *)

From Stdlib Require Import ZArith Lia.
From stdpp Require Import base list strings.
From S2P Require Import Prelude Bytes Blk Log Sleeplock Fs FsInv FsAlloc FsGrow.
Local Open Scope Z_scope.

(** ** Names *)

Definition bytes (l : list Z) : Prop := Forall byte_ok l.

Lemma hd_byte l : bytes l -> byte_ok (hd 0 l).
Proof. intros H. destruct l; [by split|by inversion H]. Qed.
Lemma tl_bytes l : bytes l -> bytes (tl l).
Proof. intros H. destruct l; [done|by inversion H]. Qed.

Lemma u8_byte c : byte_ok c -> u8 c = c.
Proof. unfold byte_ok, u8. intros H. apply Z.mod_small. lia. Qed.

(** Two names compare equal when they are stored the same. *)
Lemma strncmp_strncpy n : forall p q, bytes p -> bytes q -> strncmp n p q = 0 <-> strncpy n p = strncpy n q.
Proof.
  induction n as [|n IH]; intros p q Hp Hq; cbn [strncmp strncpy]; [done|].
  pose proof (hd_byte p Hp) as Bp. pose proof (hd_byte q Hq) as Bq. rewrite !u8_byte by done. unfold nz.
  destruct (Z.eqb_spec (hd 0 p) 0) as [E0|N0]; cbn [negb andb].
  - rewrite E0. destruct (Z.eqb_spec (hd 0 q) 0) as [E1|N1]; [rewrite E1; split; [done|lia]|].
    split; [lia|]. intros H. cbn in H. congruence.
  - destruct (Z.eqb_spec (hd 0 p) (hd 0 q)) as [E|N].
    + rewrite <- E. destruct (Z.eqb_spec (hd 0 p) 0); [done|]. rewrite IH by by apply tl_bytes. split; [congruence|]. by intros [= ?].
    + split; [lia|]. intros H. destruct (hd 0 q =? 0) eqn:Eq; cbn in H; [|congruence]. injection H as H _. done.
Qed.

Lemma length_strncpy n : forall t, length (strncpy n t) = n.
Proof. induction n as [|n IH]; intros t; cbn [strncpy]; [done|]. destruct (_ =? 0); cbn [length]; [by rewrite length_replicate|by rewrite IH]. Qed.

Lemma strncpy_bytes n : forall t, bytes t -> bytes (strncpy n t).
Proof.
  induction n as [|n IH]; intros t Ht; cbn [strncpy]; [constructor|]. destruct (_ =? 0).
  - change (bytes (replicate (S n) 0)). apply Forall_replicate. split; lia.
  - constructor; [by apply hd_byte|]. by apply IH, tl_bytes.
Qed.

Lemma strncpy_idem n : forall t, strncpy n (strncpy n t) = strncpy n t.
Proof.
  assert (Hz : forall n, strncpy n (replicate n 0) = replicate n 0) by (intros [|m]; done).
  induction n as [|n IH]; intros t; [done|]. cbn [strncpy]. destruct (hd 0 t =? 0) eqn:E; [apply (Hz (S n))|].
  cbn [hd tl]. by rewrite E, IH.
Qed.

(** ** Entries *)

(** The directory entry at [off], and the first one from [off] on for [name]. *)
Definition dir_entry (s : fstate) (i : inode) (off : Z) : list Z := fbytes s i off 16.
Definition entry_is (name de : list Z) : bool := negb (de_inum de =? 0) && (namecmp name (de_name de) =? 0).
Fixpoint dir_scan (s : fstate) (i : inode) (p : list Z -> bool) (off : Z) (n : nat) : option Z :=
  match n with
  | O => None
  | S k => if p (dir_entry s i off) then Some off else dir_scan s i p (off + 16) k
  end.

(** A directory: a file of whole entries. *)
Record dir_ok (s : fstate) (dp : nat) (i : inode) (nb : Z) (n : nat) : Prop := mkDirOk {
  do_file : file_ok s dp i nb;
  do_type : i_type i = T_DIR;
  do_size : i_size i = 16 * Z.of_nat n;
  do_blocks : i_size i <= nb * bsize;
}.

Section Dir.
Context (dev_read : Z -> option (nat -> Z -> FM (Z * list Z)))
        (dev_write : Z -> option (nat -> list Z -> FM Z)).
Local Abbreviation dirlookup := (dirlookup dev_read).
Local Abbreviation dirlink := (dirlink dev_read dev_write).

Lemma dir_read s dp i nb n off : dir_ok s dp i nb n -> 0 <= off -> off + 16 <= i_size i ->
  readi dev_read dp off sizeof_dirent s = (Ok (16, dir_entry s i off), s).
Proof.
  intros [Hf Ht Hs Hb] H1 H2. unfold sizeof_dirent. rewrite (readi_run dev_read s dp i nb off 16); try done; try lia.
  by rewrite Ht.
Qed.

Lemma dirlookup_loop_run s dp i nb name : forall n fuel k,
  dir_ok s dp i nb (k + n) -> (n < fuel)%nat ->
  dirlookup_loop dev_read fuel dp name (16 * Z.of_nat k) s =
  (Ok ((fun o => (de_inum (dir_entry s i o), o)) <$> dir_scan s i (entry_is name) (16 * Z.of_nat k) n), s).
Proof.
  induction n as [|n IH]; intros [|fuel] k Hd Hfuel; [lia| |lia|]; cbn [dirlookup_loop dir_scan];
    rewrite (bind_ok _ _ _ _ _ (geti_run s dp i (fo_slot _ _ _ _ (do_file _ _ _ _ _ Hd)))); pose proof (do_size _ _ _ _ _ Hd) as Hs.
  - rewrite (proj2 (Z.ltb_ge _ _)) by lia. done.
  - rewrite (proj2 (Z.ltb_lt _ _)) by lia. rewrite (bind_ok _ _ _ _ _ (dir_read _ _ _ _ _ (16 * Z.of_nat k) Hd ltac:(lia) ltac:(lia))).
    change (negb (16 =? sizeof_dirent)) with false. cbv iota beta zeta. set (de := dir_entry s i (16 * Z.of_nat k)).
    replace (16 * Z.of_nat k + sizeof_dirent) with (16 * Z.of_nat (S k)) by (unfold sizeof_dirent; lia).
    replace (16 * Z.of_nat k + 16) with (16 * Z.of_nat (S k)) by lia.
    replace (k + S n)%nat with (S k + n)%nat in Hd by lia. specialize (IH fuel (S k) Hd ltac:(lia)).
    unfold entry_is at 1. destruct (de_inum de =? 0); cbn [negb andb]; [done|]. by destruct (namecmp name (de_name de) =? 0).
Qed.

Lemma dirlink_loop_run s dp i nb : forall n fuel k,
  dir_ok s dp i nb (k + n) -> (n < fuel)%nat ->
  dirlink_loop dev_read fuel dp (16 * Z.of_nat k) s =
  (Ok (default (i_size i) (dir_scan s i (fun de => de_inum de =? 0) (16 * Z.of_nat k) n)), s).
Proof.
  induction n as [|n IH]; intros [|fuel] k Hd Hfuel; [lia| |lia|]; cbn [dirlink_loop dir_scan];
    rewrite (bind_ok _ _ _ _ _ (geti_run s dp i (fo_slot _ _ _ _ (do_file _ _ _ _ _ Hd)))); pose proof (do_size _ _ _ _ _ Hd) as Hs.
  - rewrite (proj2 (Z.ltb_ge _ _)) by lia. cbn. unfold ret. do 2 f_equal. lia.
  - rewrite (proj2 (Z.ltb_lt _ _)) by lia. rewrite (bind_ok _ _ _ _ _ (dir_read _ _ _ _ _ (16 * Z.of_nat k) Hd ltac:(lia) ltac:(lia))).
    change (negb (16 =? sizeof_dirent)) with false. cbv iota beta zeta.
    replace (16 * Z.of_nat k + sizeof_dirent) with (16 * Z.of_nat (S k)) by (unfold sizeof_dirent; lia).
    replace (16 * Z.of_nat k + 16) with (16 * Z.of_nat (S k)) by lia.
    replace (k + S n)%nat with (S k + n)%nat in Hd by lia. specialize (IH fuel (S k) Hd ltac:(lia)).
    by destruct (de_inum (dir_entry s i (16 * Z.of_nat k)) =? 0).
Qed.

Definition dir_find (s : fstate) (i : inode) (name : list Z) (n : nat) : option Z := dir_scan s i (entry_is name) 0 n.

Lemma entries_fuel n i : i_size i = 16 * Z.of_nat n -> (n < S (S (Z.to_nat (i_size i / sizeof_dirent))))%nat.
Proof. intros ->. unfold sizeof_dirent. rewrite Z.mul_comm, Z.div_mul by lia. lia. Qed.

Lemma dirlookup_run s dp i nb n name : dir_ok s dp i nb n ->
  dirlookup dp name s = match dir_find s i name n with
    | None => (Ok None, s)
    | Some off => (ip <- iget ROOTDEV (de_inum (dir_entry s i off)) ;; ret (Some (ip, off))) s
    end.
Proof.
  intros Hd. pose proof (geti_run s dp i (fo_slot _ _ _ _ (do_file _ _ _ _ _ Hd))) as Hg.
  unfold dirlookup. rewrite (bind_ok _ _ _ _ _ Hg), (do_type _ _ _ _ _ Hd). change (negb (T_DIR =? T_DIR)) with false. cbv iota.
  rewrite (bind_ok _ _ _ _ _ (dirlookup_loop_run s dp i nb name n _ 0 Hd (entries_fuel _ _ (do_size _ _ _ _ _ Hd)))).
  change (16 * Z.of_nat 0) with 0. fold (dir_find s i name n). destruct (dir_find s i name n) as [off|]; cbn [fmap option_fmap option_map]; [|done].
  rewrite (bind_ok _ _ _ _ _ Hg). by rewrite (fo_dev _ _ _ _ (do_file _ _ _ _ _ Hd)).
Qed.

(** Scans, entry by entry. *)
Lemma dir_scan_ext s s' i i' p p' n : forall off,
  (forall k, (k < n)%nat -> p (dir_entry s i (off + 16 * Z.of_nat k)) = p' (dir_entry s' i' (off + 16 * Z.of_nat k))) ->
  dir_scan s i p off n = dir_scan s' i' p' off n.
Proof.
  induction n as [|n IH]; intros off H; cbn [dir_scan]; [done|].
  pose proof (H O ltac:(lia)) as H0. change (16 * Z.of_nat 0) with 0 in H0. rewrite Z.add_0_r in H0. rewrite H0.
  rewrite (IH (off + 16)); [done|]. intros k Hk. specialize (H (S k) ltac:(lia)).
  by replace (off + 16 + 16 * Z.of_nat k) with (off + 16 * Z.of_nat (S k)) by lia.
Qed.

Lemma dir_scan_at s i p n : forall off k, (k < n)%nat ->
  (forall j, (j < k)%nat -> p (dir_entry s i (off + 16 * Z.of_nat j)) = false) -> p (dir_entry s i (off + 16 * Z.of_nat k)) = true ->
  dir_scan s i p off n = Some (off + 16 * Z.of_nat k).
Proof.
  induction n as [|n IH]; intros off k Hk Hb Hp; [lia|]. cbn [dir_scan]. destruct k as [|k].
  - change (16 * Z.of_nat 0) with 0 in *. rewrite Z.add_0_r in *. by rewrite Hp.
  - pose proof (Hb O ltac:(lia)) as H0. change (16 * Z.of_nat 0) with 0 in H0. rewrite Z.add_0_r in H0. rewrite H0.
    replace (off + 16 * Z.of_nat (S k)) with (off + 16 + 16 * Z.of_nat k) in * by lia. apply IH; [lia| |done].
    intros j Hj. specialize (Hb (S j) ltac:(lia)). by replace (off + 16 + 16 * Z.of_nat j) with (off + 16 * Z.of_nat (S j)) by lia.
Qed.

Lemma dir_scan_none s i p n : forall off, dir_scan s i p off n = None <->
  forall k, (k < n)%nat -> p (dir_entry s i (off + 16 * Z.of_nat k)) = false.
Proof.
  intros off. split.
  - revert off. induction n as [|n IH]; intros off H k Hk; [lia|]. cbn [dir_scan] in H. destruct (p (dir_entry s i off)) eqn:E; [done|].
    destruct k as [|k]; [change (16 * Z.of_nat 0) with 0; by rewrite Z.add_0_r|].
    replace (off + 16 * Z.of_nat (S k)) with (off + 16 + 16 * Z.of_nat k) by lia. apply IH; [done|lia].
  - intros H. rewrite (dir_scan_ext s s i i p (fun _ => false)) by done. clear H. revert off. by induction n as [|n IH]; intros off; cbn [dir_scan].
Qed.

Lemma dir_scan_first s i p n : forall off o, dir_scan s i p off n = Some o ->
  exists k, (k < n)%nat /\ o = off + 16 * Z.of_nat k /\ p (dir_entry s i o) = true
    /\ forall j, (j < k)%nat -> p (dir_entry s i (off + 16 * Z.of_nat j)) = false.
Proof.
  induction n as [|n IH]; intros off o H; cbn [dir_scan] in H; [done|]. destruct (p (dir_entry s i off)) eqn:E.
  - injection H as <-. exists O. change (16 * Z.of_nat 0) with 0. rewrite Z.add_0_r. repeat split; [lia|done|lia].
  - destruct (IH _ _ H) as (k & Hk & -> & Hp & Hb). exists (S k). replace (off + 16 * Z.of_nat (S k)) with (off + 16 + 16 * Z.of_nat k) by lia.
    repeat split; [lia|done|]. intros [|j] Hj; [change (16 * Z.of_nat 0) with 0; by rewrite Z.add_0_r|].
    replace (off + 16 * Z.of_nat (S j)) with (off + 16 + 16 * Z.of_nat j) by lia. apply Hb. lia.
Qed.

Lemma dir_scan_some s i p n off o : dir_scan s i p off n = Some o -> exists k, (k < n)%nat /\ o = off + 16 * Z.of_nat k /\ p (dir_entry s i o) = true.
Proof. intros H. destruct (dir_scan_first _ _ _ _ _ _ H) as (k & ? & ? & ? & _). eauto. Qed.

(** The entry [dirlink] writes. *)
Definition new_entry (name : list Z) (inum : Z) : list Z := le_bytes 2 inum ++ strncpy DIRSIZ name.

Lemma new_entry_is name inum name' : bytes name -> bytes name' -> 0 < inum < 2 ^ 16 ->
  entry_is name' (new_entry name inum) = bool_decide (strncpy DIRSIZ name' = strncpy DIRSIZ name).
Proof.
  intros Hn Hn' Hi. unfold entry_is, de_inum, de_name, new_entry.
  assert (Hg : get16 (le_bytes 2 inum ++ strncpy DIRSIZ name) 0 = inum).
  { unfold get16, slice. rewrite drop_0, take_app_length'; [|by rewrite length_le_bytes]. rewrite le_value_bytes. apply Z.mod_small. lia. }
  rewrite Hg, (proj2 (Z.eqb_neq _ _)) by lia. cbn [negb andb]. rewrite drop_app_length' by by rewrite length_le_bytes.
  pose proof (strncmp_strncpy DIRSIZ name' (strncpy DIRSIZ name) Hn' (strncpy_bytes _ _ Hn)) as H.
  rewrite strncpy_idem in H. fold (namecmp name' (strncpy DIRSIZ name)) in H.
  destruct (Z.eqb_spec (namecmp name' (strncpy DIRSIZ name)) 0); case_bool_decide; tauto.
Qed.

(** A directory of [n] entries, free ones included. *)
Record directory (s : fstate) (dp : nat) (i : inode) (n : nat) : Prop := mkDirectory {
  dy_file : file_wf s dp i;
  dy_type : i_type i = T_DIR;
  dy_size : i_size i = 16 * Z.of_nat n;
}.

Lemma directory_ok s dp i n : directory s dp i n -> dir_ok s dp i (nblk (i_size i)) n.
Proof. intros [Hw Ht Hs]. destruct (file_wf_size s dp i Hw). by split. Qed.

(** Where [dirlink] puts its entry: the first free one, or the end of the directory. *)
Definition free_slot (s : fstate) (i : inode) (n : nat) : Z := default (i_size i) (dir_scan s i (fun de => de_inum de =? 0) 0 n).

Lemma link_slot s dp i n : directory s dp i n -> exists k0, (k0 <= n)%nat /\ free_slot s i n = 16 * Z.of_nat k0
  /\ ((k0 < n)%nat -> de_inum (dir_entry s i (16 * Z.of_nat k0)) = 0).
Proof.
  intros [_ _ Hs]. unfold free_slot. destruct (dir_scan _ _ _ _ _) as [o|] eqn:E.
  - destruct (dir_scan_some _ _ _ _ _ _ E) as (k & Hk & -> & Hp). exists k. split; [lia|]. split; [done|]. intros _. by apply Z.eqb_eq.
  - exists n. split; [lia|]. split; [done|]. lia.
Qed.

(** The directory after its entry [k0] was written. *)
Lemma link_entries s dp i n k0 new s' i' : directory s dp i n -> (k0 <= n)%nat -> length new = 16%nat ->
  grown s dp i (16 * Z.of_nat k0) new s' i' ->
  directory s' dp i' (Nat.max n (S k0)) /\ dir_entry s' i' (16 * Z.of_nat k0) = new
  /\ forall k, (k < n)%nat -> k <> k0 -> dir_entry s' i' (16 * Z.of_nat k) = dir_entry s i (16 * Z.of_nat k).
Proof.
  intros [Hw Ht Hs] Hk0 Hnew Hg. pose proof (grown_size _ _ _ _ _ _ _ Hg) as Hsz. rewrite Hnew in Hsz.
  split; [split; [apply Hg|by rewrite (gn_inode _ _ _ _ _ _ _ Hg)|lia]|]. split.
  - unfold dir_entry. rewrite <- Hnew. apply (grown_same s dp i); [lia|done].
  - intros k Hk Hne. unfold dir_entry. apply (grown_other s dp i (16 * Z.of_nat k0) new s' i'); [done|done|lia|lia|rewrite Hnew; lia].
Qed.

Lemma new_entry_inum name inum : 0 < inum < 2 ^ 16 -> de_inum (new_entry name inum) = inum.
Proof.
  intros Hi. unfold de_inum, new_entry, get16, slice. rewrite drop_0, take_app_length'; [|by rewrite length_le_bytes].
  rewrite le_value_bytes. apply Z.mod_small. lia.
Qed.

Lemma length_new_entry name inum : length (new_entry name inum) = 16%nat.
Proof. unfold new_entry. by rewrite length_app, length_le_bytes, length_strncpy. Qed.

Lemma find_new s s' i i' n k0 name inum : bytes name -> 0 < inum < 2 ^ 16 -> (k0 <= n)%nat -> dir_find s i name n = None ->
  dir_entry s' i' (16 * Z.of_nat k0) = new_entry name inum ->
  (forall k, (k < n)%nat -> k <> k0 -> dir_entry s' i' (16 * Z.of_nat k) = dir_entry s i (16 * Z.of_nat k)) ->
  dir_find s' i' name (Nat.max n (S k0)) = Some (16 * Z.of_nat k0).
Proof.
  intros Hn Hi Hk Hnone Hnew Hold. pose proof (proj1 (dir_scan_none _ _ _ _ _) Hnone) as Hno.
  apply (dir_scan_at s' i' _ _ 0 k0); [lia| |].
  - intros j Hj. specialize (Hno j ltac:(lia)). rewrite ?Z.add_0_l in *. by rewrite Hold by lia.
  - rewrite ?Z.add_0_l. rewrite Hnew, new_entry_is by done. by apply bool_decide_eq_true_2.
Qed.

Lemma find_other s s' i i' n k0 name inum name' : bytes name -> bytes name' -> 0 < inum < 2 ^ 16 -> (k0 <= n)%nat ->
  strncpy DIRSIZ name' <> strncpy DIRSIZ name ->
  ((k0 < n)%nat -> de_inum (dir_entry s i (16 * Z.of_nat k0)) = 0) ->
  dir_entry s' i' (16 * Z.of_nat k0) = new_entry name inum ->
  (forall k, (k < n)%nat -> k <> k0 -> dir_entry s' i' (16 * Z.of_nat k) = dir_entry s i (16 * Z.of_nat k)) ->
  dir_find s' i' name' (Nat.max n (S k0)) = dir_find s i name' n.
Proof.
  intros Hn Hn' Hi Hk Hne Hfree Hnew Hold.
  assert (Hnot : entry_is name' (dir_entry s' i' (16 * Z.of_nat k0)) = false).
  { rewrite Hnew, new_entry_is by done. by apply bool_decide_eq_false_2. }
  assert (Hsame : forall k, (k < n)%nat -> entry_is name' (dir_entry s i (0 + 16 * Z.of_nat k)) = entry_is name' (dir_entry s' i' (0 + 16 * Z.of_nat k))).
  { intros k Hkn. rewrite ?Z.add_0_l. destruct (decide (k = k0)) as [->|Hd]; [|by rewrite Hold].
    rewrite Hnot. unfold entry_is. by rewrite Hfree. }
  destruct (decide (k0 < n)%nat).
  - rewrite Nat.max_l by lia. symmetry. by apply dir_scan_ext.
  - replace (Nat.max n (S k0)) with (S n) by lia. assert (k0 = n) as -> by lia. destruct (dir_find s i name' n) as [o|] eqn:E.
    + destruct (dir_scan_first _ _ _ _ _ _ E) as (k & Hkn & -> & Hp & Hb). apply (dir_scan_at s' i' _ _ 0 k); [lia| |].
      * intros j Hj. rewrite <- Hsame by lia. by apply Hb.
      * by rewrite <- Hsame.
    + apply dir_scan_none. intros k Hkn. destruct (decide (k = n)) as [->|Hd]; [by rewrite Z.add_0_l|].
      rewrite <- Hsame by lia. apply (proj1 (dir_scan_none _ _ _ _ _) E). lia.
Qed.

(** What [dirlookup] does with the entry it has found. *)
Definition found (s : fstate) (i : inode) (o : option Z) : FM (option (nat * Z)) :=
  match o with
  | None => ret None
  | Some off => ip <- iget ROOTDEV (de_inum (dir_entry s i off)) ;; ret (Some (ip, off))
  end.

Lemma dirlookup_found s dp i n name : directory s dp i n -> dirlookup dp name s = found s i (dir_find s i name n) s.
Proof. intros Hd. rewrite (dirlookup_run _ _ _ _ _ _ (directory_ok _ _ _ _ Hd)). by destruct (dir_find s i name n). Qed.

(** [dirlink] of a new name writes its entry at the free slot. *)
Lemma dirlink_run s dp i n name inum : directory s dp i n -> dir_find s i name n = None ->
  dirlink dp name inum s = (c <- writei dev_write dp (new_entry name inum) (free_slot s i n) ;;
    if negb (c =? sizeof_dirent) then panic "dirlink" else ret 0) s.
Proof.
  intros Hd Hnone. unfold dirlink. rewrite (bind_ok _ _ _ _ _ (eq_trans (dirlookup_found s dp i n name Hd) ltac:(by rewrite Hnone))).
  pose proof (directory_ok _ _ _ _ Hd) as Hok. rewrite (bind_ok _ _ _ _ _ (geti_run s dp i (w_slot _ _ _ (dy_file _ _ _ _ Hd)))).
  rewrite (bind_ok _ _ _ _ _ (dirlink_loop_run s dp i _ n _ 0 Hok (entries_fuel _ _ (dy_size _ _ _ _ Hd)))). done.
Qed.

(** C19: directories.  In a directory of whole entries, of any size from 0 on,
    [dirlookup] returns the first entry in use whose name agrees with the given one in
    its first fourteen bytes up to the NUL, or nothing when there is none.  When there is
    none, [dirlink] puts the entry into the first free one or behind the last, where the
    directory grows by a block when its last block is full: it panics when the directory
    has its full length or the disk no free block, and otherwise succeeds.  A lookup of
    the name then finds the new entry with the inode number linked, every name that is
    stored differently is found where it was, with the same inode number, or is still
    absent, and the directory is again one of whole entries. *)
Theorem dirlink_dirlookup s dp i n name inum :
  directory s dp i n -> bytes name -> 0 < inum < 2 ^ 16 -> dir_find s i name n = None ->
  log_can s (3 + 3 * Z.of_nat (needs s i (free_slot s i n) 16)) ->
  (forall name', dirlookup dp name' s = found s i (dir_find s i name' n) s) /\
  if MAXFILE * bsize <? free_slot s i n + 16 then dirlink dp name inum s = (Panic "dirlink", s)
  else if (needs s i (free_slot s i n) 16 <=? nfree s)%nat then
  exists s' i' n' off, dirlink dp name inum s = (Ok 0, s') /\ icache s' !! dp = Some i' /\ directory s' dp i' n'
    /\ (forall name', dirlookup dp name' s' = found s' i' (dir_find s' i' name' n') s')
    /\ dir_find s' i' name n' = Some off /\ de_inum (dir_entry s' i' off) = inum
    /\ forall name', bytes name' -> strncpy DIRSIZ name' <> strncpy DIRSIZ name ->
         dir_find s' i' name' n' = dir_find s i name' n
         /\ forall o, dir_find s i name' n = Some o -> de_inum (dir_entry s' i' o) = de_inum (dir_entry s i o)
  else out_of_blocks (dirlink dp name inum s).
Proof.
  intros Hd Hn Hi Hnone Hlog. split; [by intros name'; apply dirlookup_found|]. pose proof Hd as [Hw Ht Hs].
  rewrite (dirlink_run s dp i n name inum Hd Hnone). destruct (link_slot _ _ _ _ Hd) as (k0 & Hk0 & Hslot & Hfree). rewrite Hslot in *.
  pose proof (w_size _ _ _ Hw) as Hsz. assert (Hmax : MAXFILE * bsize = 71680) by done.
  destruct (Z.ltb_spec (MAXFILE * bsize) (16 * Z.of_nat k0 + 16)) as [Hbig|Hend].
  { assert (Hfull : writei dev_write dp (new_entry name inum) (16 * Z.of_nat k0) s = (Ok (-1), s)).
    { unfold writei. rewrite (bind_ok _ _ _ _ _ (geti_run s dp i (w_slot _ _ _ Hw))), Ht, length_new_entry. change (T_DIR =? T_DEV) with false. cbv iota.
      rewrite u32_id, (proj2 (Z.ltb_ge _ _)), (proj2 (Z.ltb_ge _ _)), (proj2 (Z.ltb_lt _ _)) by lia. done. }
    by rewrite (bind_ok _ _ _ _ _ Hfull). }
  pose proof (writei_grow dev_write s dp i (16 * Z.of_nat k0) (new_entry name inum) Hw ltac:(by rewrite Ht) ltac:(lia)
    ltac:(rewrite length_new_entry; lia) ltac:(by rewrite length_new_entry)) as H.
  cbn zeta in H. rewrite length_new_entry in H. change (Z.of_nat 16) with 16 in H. destruct (_ <=? nfree s)%nat; [|by apply out_bind].
  destruct H as (s' & i' & Hrun & Hg & _). rewrite (bind_ok _ _ _ _ _ Hrun).
  destruct (link_entries _ _ _ _ _ _ _ _ Hd Hk0 (length_new_entry _ _) Hg) as (Hd' & Hnew & Hold).
  exists s', i', (Nat.max n (S k0)), (16 * Z.of_nat k0). split; [done|]. split; [apply (w_slot _ _ _ (dy_file _ _ _ _ Hd'))|]. split; [done|].
  split; [by intros name'; apply dirlookup_found|]. split; [by apply (find_new s s' i i' n k0 name inum)|]. split; [by rewrite Hnew, new_entry_inum|].
  intros name' Hn' Hne. split; [by apply (find_other s s' i i' n k0 name inum)|].
  intros o Ho. destruct (dir_scan_some _ _ _ _ _ _ Ho) as (k & Hk & -> & Hp). rewrite ?Z.add_0_l in *.
  destruct (decide (k = k0)) as [->|]; [|by rewrite Hold]. exfalso. unfold entry_is in Hp. rewrite Hfree in Hp by done. done.
Qed.
End Dir.

Module DirRun.
(** A directory of 32 entries in block 60, which they fill, on a disk with the first 61
    blocks in use. *)
Definition bitmap : block := replicate 7 255 ++ 31 :: replicate 504 0.
Definition contents : block := new_entry [46] 1 ++ concat (replicate 31 (new_entry [97] 7)).
Definition root : inode := mkInode ROOTDEV 1 1 (mkSleeplock false true 5) true T_DIR 0 0 1 512 (60 :: replicate 12 0).
Definition disk (n : Z) : block := if n =? 58 then bitmap else if n =? 60 then contents else zero_block.
Definition fs : fstate :=
  mkF Runs.super false [root] (mkL (lg (fl Runs.fs)) (mkBlk disk disk [] []) []) 5 [] [].

Lemma dir_disk_length n : length (disk n) = BSIZE.
Proof. unfold disk. destruct (n =? 58); [vm_compute; reflexivity|]. destruct (n =? 60); vm_compute; reflexivity. Qed.

Lemma dir_block_value b : -1 <= b < MAXFILE -> fblock fs root b = if b =? 0 then 60 else 0.
Proof.
  intros H. assert (Hall : forallb (fun k => fblock fs root (Z.of_nat k - 1) =? if Z.of_nat k - 1 =? 0 then 60 else 0) (seq 0 141) = true)
    by (vm_compute; reflexivity).
  rewrite forallb_forall in Hall. specialize (Hall (Z.to_nat (b + 1)) ltac:(apply in_seq; unfold MAXFILE, NDIRECT, NINDIRECT in *; lia)).
  rewrite Z2Nat.id, Z.add_simpl_r in Hall by lia. by apply Z.eqb_eq.
Qed.

Lemma dir_bitmap : bitmap_ok fs.
Proof.
  change (sb_size (sb fs)) with 1000. split; change (sb_size (sb fs)) with 1000; change (sb fs) with Runs.super; try done.
  - intros b H. apply dir_disk_length.
  - intros b H. rewrite GrowRun.bblock by done. split; [lia|]. vm_compute. reflexivity.
Qed.

Lemma fs_directory : directory fs 0 root 32.
Proof.
  split; [|done|done].
  split; change (sb_size (sb fs)) with 1000; change (sb fs) with Runs.super; change (IBLOCK (i_inum root) Runs.super) with 32; try done.
  - apply dir_bitmap.
  - split; [done|]. split; [vm_compute; reflexivity|]. split; [apply dir_disk_length|]. intros c Hc. by rewrite GrowRun.bblock.
  - intros b Hb. rewrite dir_block_value by done. destruct (Z.eqb_spec b 0); intros Hne; try done.
    split; change (sb_size (sb fs)) with 1000; change (sb fs) with Runs.super; change (IBLOCK (i_inum root) Runs.super) with 32;
      [lia|vm_compute; reflexivity|apply dir_disk_length|lia|]. intros c Hc. by rewrite GrowRun.bblock.
  - intros b b' Hb Hb'. rewrite !dir_block_value by done. destruct (Z.eqb_spec b 0), (Z.eqb_spec b' 0); lia.
  - intros b Hb Hlt. change (i_size root) with 512 in Hlt. change bsize with 512 in Hlt. assert (b = 0) as -> by lia. by rewrite dir_block_value.
Qed.
End DirRun.

Lemma dirlink_dirlookup_witness : exists s' i' n' off,
  dirlink (fun _ => None) (fun _ => None) 0 [98; 99] 12 DirRun.fs = (Ok 0, s')
  /\ dir_find s' i' [98; 99] n' = Some off /\ de_inum (dir_entry s' i' off) = 12
  /\ dir_find s' i' [97] n' = Some 16.
Proof.
  assert (Hneed : needs DirRun.fs DirRun.root (free_slot DirRun.fs DirRun.root 32) 16 = 1%nat) by (vm_compute; reflexivity).
  pose proof (dirlink_dirlookup (fun _ => None) (fun _ => None) DirRun.fs 0 DirRun.root 32 [98; 99] 12 DirRun.fs_directory
    ltac:(repeat constructor; done) ltac:(done) ltac:(vm_compute; reflexivity)
    ltac:(rewrite Hneed; split; try done; cbn; unfold LOGSIZE, MAXOPBLOCKS; lia)) as [_ H].
  assert (Hfit : (MAXFILE * bsize <? free_slot DirRun.fs DirRun.root 32 + 16) = false) by (vm_compute; reflexivity).
  assert (Hfree : nfree DirRun.fs = 939%nat) by (vm_compute; reflexivity). rewrite Hfit, Hneed, Hfree in H. cbn [Nat.leb] in H.
  destruct H as (s' & i' & n' & off & H1 & _ & _ & _ & H2 & H3 & H4).
  exists s', i', n', off. split; [exact H1|]. split; [exact H2|]. split; [exact H3|].
  rewrite (proj1 (H4 [97] ltac:(repeat constructor; done) ltac:(by vm_compute))). vm_compute. reflexivity.
Defined.

(** ** Path names *)

(** The bytes of a C string. *)
Fixpoint cbytes (l : list Z) : list Z :=
  match l with
  | [] => []
  | c :: l' => if c =? 0 then [] else c :: cbytes l'
  end.

(** The elements of a path: the longest runs without a slash. *)
Fixpoint split_path (cur path : list Z) : list (list Z) :=
  match path with
  | [] => if decide (cur = []) then [] else [cur]
  | c :: path' =>
      if c =? 47 then (if decide (cur = []) then [] else [cur]) ++ split_path [] path'
      else split_path (cur ++ [c]) path'
  end.
Definition elems (path : list Z) : list (list Z) := split_path [] (cbytes path).

(** The names the loop of [namex] sees, one [skipelem] after the other. *)
Fixpoint path_names (fuel : nat) (path name : list Z) : option (list (list Z)) :=
  match fuel with
  | O => None
  | S k =>
      match skipelem path name with
      | None => Some []
      | Some (path', name') => cons (strncpy DIRSIZ name') <$> path_names k path' name'
      end
  end.

Lemma elems_skip_slashes path : elems (skip_slashes path) = elems path.
Proof.
  induction path as [|c path IH]; [done|]. cbn [skip_slashes]. destruct (Z.eqb_spec c 47) as [->|]; [|done]. rewrite IH. done.
Qed.

Lemma elems_take path : forall cur e r, take_elem path = (e, r) -> split_path cur (cbytes path) =
  (if decide (cur ++ e = []) then [] else [cur ++ e]) ++ elems r.
Proof.
  induction path as [|c path IH]; intros cur e r H; cbn [take_elem] in H.
  - injection H as <- <-. cbn. by rewrite !app_nil_r.
  - cbn [cbytes]. destruct (Z.eqb_spec c 47) as [->|Hc]; cbn [orb] in H.
    + injection H as <- <-. rewrite app_nil_r. cbn. done.
    + destruct (Z.eqb_spec c 0) as [->|H0].
      * injection H as <- <-. cbn. by rewrite !app_nil_r.
      * destruct (take_elem path) as [e' r'] eqn:E. injection H as <- <-. cbn [split_path].
        rewrite (proj2 (Z.eqb_neq _ _) Hc), (IH _ _ _ eq_refl). by rewrite <- !app_assoc.
Qed.

Lemma take_elem_length path : forall e r, take_elem path = (e, r) -> (length e + length r = length path)%nat.
Proof.
  induction path as [|c path IH]; intros e r H; cbn [take_elem] in H; [by injection H as <- <-|].
  destruct (_ || _); [by injection H as <- <-|]. destruct (take_elem path) as [e' r'] eqn:E. injection H as <- <-.
  cbn [length]. specialize (IH _ _ eq_refl). lia.
Qed.

Lemma take_elem_nonzero path : forall e r, take_elem path = (e, r) -> Forall (fun c => c <> 0) e.
Proof.
  induction path as [|c path IH]; intros e r H; cbn [take_elem] in H; [by injection H as <- <-|].
  destruct (Z.eqb_spec c 47); cbn [orb] in H; [by injection H as <- <-|].
  destruct (Z.eqb_spec c 0); [by injection H as <- <-|]. destruct (take_elem path) as [e' r'] eqn:E. injection H as <- <-.
  constructor; [done|]. by eapply IH.
Qed.

Lemma skip_slashes_length path : (length (skip_slashes path) <= length path)%nat.
Proof. induction path as [|c path IH]; cbn; [lia|]. destruct (c =? 47); cbn; lia. Qed.

Lemma strncpy_take n : forall l, Forall (fun c => c <> 0) l -> strncpy n (take n l) = strncpy n l.
Proof.
  induction n as [|n IH]; intros l H; [done|]. destruct H as [|c l Hc Hl]; [done|]. cbn [take strncpy hd tl].
  by rewrite (proj2 (Z.eqb_neq _ _) Hc), IH.
Qed.

Lemma strncpy_end n : forall l t, Forall (fun c => c <> 0) l -> strncpy n (l ++ 0 :: t) = strncpy n l.
Proof.
  induction n as [|n IH]; intros l t H; [done|]. destruct H as [|c l Hc Hl]; [done|]. cbn [app strncpy hd tl].
  by rewrite (proj2 (Z.eqb_neq _ _) Hc), IH.
Qed.

Lemma skipelem_spec path name :
  match elems path with
  | [] => skipelem path name = None
  | e :: es => exists path' name', skipelem path name = Some (path', name') /\ elems path' = es
      /\ strncpy DIRSIZ name' = strncpy DIRSIZ e /\ (length path' < length path)%nat
  end.
Proof.
  unfold skipelem. rewrite <- (elems_skip_slashes path). pose proof (skip_slashes_length path) as Hlen.
  assert (Hns : match skip_slashes path with [] => True | c :: _ => c <> 47 end).
  { clear. induction path as [|c path IH]; cbn; [done|]. by destruct (Z.eqb_spec c 47). }
  destruct (skip_slashes path) as [|c p]; [done|]. destruct (Z.eqb_spec c 0) as [->|H0]; [done|].
  destruct (take_elem (c :: p)) as [e r] eqn:E. pose proof (elems_take _ [] _ _ E) as He.
  pose proof (take_elem_length _ _ _ E) as Hl. pose proof (take_elem_nonzero _ _ _ E) as Hz.
  fold (elems (c :: p)) in He. cbn [app] in He. rewrite decide_False in He.
  2:{ cbn [take_elem] in E. rewrite (proj2 (Z.eqb_neq _ _) Hns), (proj2 (Z.eqb_neq _ _) H0) in E. cbn [orb] in E.
      destruct (take_elem p). by injection E as <- <-. }
  rewrite He. cbn [app]. eexists _, _. split; [reflexivity|]. split; [apply elems_skip_slashes|]. split.
  - destruct (_ <=? _)%nat; [by apply strncpy_take|by apply strncpy_end].
  - pose proof (skip_slashes_length r). destruct e; [|cbn [length] in *; lia].
    exfalso. cbn [take_elem] in E. rewrite (proj2 (Z.eqb_neq _ _) Hns), (proj2 (Z.eqb_neq _ _) H0) in E. cbn [orb] in E. by destruct (take_elem p).
Qed.

(** the loop of [namex] over [skipelem] ends for every path, and goes through the
    elements of the path in order: the runs between slashes, repeated, leading and
    trailing slashes ignored, each as it is stored in a directory entry, that is, cut to
    fourteen bytes.  The rounds [namex] allows are enough. *)
Theorem path_names_elems path name : path_names (S (length path)) path name = Some (map (strncpy DIRSIZ) (elems path)).
Proof.
  assert (H : forall fuel path name, (length path < fuel)%nat -> path_names fuel path name = Some (map (strncpy DIRSIZ) (elems path)));
    [|by apply H; lia].
  clear. induction fuel as [|fuel IH]; intros path name Hf; [lia|]. cbn [path_names].
  pose proof (skipelem_spec path name) as H. destruct (elems path) as [|e es]; [by rewrite H|].
  destruct H as (path' & name' & -> & He & Hs & Hl). rewrite IH by lia. cbn [map fmap option_fmap option_map]. by rewrite He, Hs.
Qed.
