(* ===== verification/Proc.v ===== *)
(** Processes: [src/proc.c] and [src/proc.h] (the scheduler is in [Sched]),
    [switchuvm] of [src/vm.c].

    A process pointer is the index of the process in [ptable.proc].  What the
    process code calls of the rest of the kernel (page tables, files, inodes, the
    log, the page allocator) is the interface [Env]; the state of the rest is its
    parameter type.  [swtch] cuts a function in two: [sleep_enter] and
    [sleep_exit] are what [sleep] does before and after it, and so on. *)

From Stdlib Require Import ZArith Lia.
From Stdlib Require Import Floats.SpecFloat.
From stdpp Require Import base list strings relations.
From S2P Require Import Prelude Kstring.
Local Open Scope Z_scope.

Definition NPROC : nat := 64.
Definition NOFILE : nat := 16.
Definition KSTACKSIZE : Z := 4096.
Definition PGSIZE : Z := 4096.

Inductive procstate := UNUSED | EMBRYO | SLEEPING | RUNNABLE | RUNNING | ZOMBIE.

#[export] Instance procstate_eq_dec : EqDecision procstate.
Proof. solve_decision. Defined.

(** The fields of [struct trapframe] the code uses. *)
Record trapframe := mkTf {
  tf_ebx : Z; tf_eax : Z; tf_es : Z; tf_ds : Z; tf_trapno : Z; tf_eip : Z;
  tf_cs : Z; tf_eflags : Z; tf_esp : Z; tf_ss : Z;
}.
Definition sizeof_trapframe : Z := 76.
Definition tf_zero : trapframe := mkTf 0 0 0 0 0 0 0 0 0 0.

(** [struct context] and the word above it on the kernel stack, the return
    address of the code the context starts. *)
Record context := mkCtx { edi : Z; esi : Z; ebx : Z; ebp : Z; eip : Z; ret_addr : Z }.
Definition sizeof_context : Z := 20.

(** Doubles, as IEEE binary64. *)
Definition double := spec_float.
Definition double_of_Z (z : Z) : double := binary_normalize 53 1024 z 0 false.
Definition double_add (a b : double) : double := SFadd 53 1024 a b.
Definition double_div (a b : double) : double := SFdiv 53 1024 a b.

(** [struct proc].  [tfp] and [ctxp] are the pointers [tf] and [context]; [tf] and
    [ctx] what they point to. *)
Record proc := mkProc {
  sz : Z; pgdir : Z; kstack : Z; state : procstate; pid : Z; parent : option nat;
  tfp : Z; tf : trapframe; ctxp : Z; ctx : context; pchan : chan; killed : bool;
  ofile : list (option nat); cwd : option nat; name : list Z;
  level : Z; ticket : Z; arrTime : Z; cycleNum : double; remaining_priority : Z;
}.

Definition set_sz v p := mkProc v (pgdir p) (kstack p) (state p) (pid p) (parent p) (tfp p) (tf p) (ctxp p) (ctx p) (pchan p) (killed p) (ofile p) (cwd p) (name p) (level p) (ticket p) (arrTime p) (cycleNum p) (remaining_priority p).
Definition set_pgdir v p := mkProc (sz p) v (kstack p) (state p) (pid p) (parent p) (tfp p) (tf p) (ctxp p) (ctx p) (pchan p) (killed p) (ofile p) (cwd p) (name p) (level p) (ticket p) (arrTime p) (cycleNum p) (remaining_priority p).
Definition set_kstack v p := mkProc (sz p) (pgdir p) v (state p) (pid p) (parent p) (tfp p) (tf p) (ctxp p) (ctx p) (pchan p) (killed p) (ofile p) (cwd p) (name p) (level p) (ticket p) (arrTime p) (cycleNum p) (remaining_priority p).
Definition set_state v p := mkProc (sz p) (pgdir p) (kstack p) v (pid p) (parent p) (tfp p) (tf p) (ctxp p) (ctx p) (pchan p) (killed p) (ofile p) (cwd p) (name p) (level p) (ticket p) (arrTime p) (cycleNum p) (remaining_priority p).
Definition set_pid v p := mkProc (sz p) (pgdir p) (kstack p) (state p) v (parent p) (tfp p) (tf p) (ctxp p) (ctx p) (pchan p) (killed p) (ofile p) (cwd p) (name p) (level p) (ticket p) (arrTime p) (cycleNum p) (remaining_priority p).
Definition set_parent v p := mkProc (sz p) (pgdir p) (kstack p) (state p) (pid p) v (tfp p) (tf p) (ctxp p) (ctx p) (pchan p) (killed p) (ofile p) (cwd p) (name p) (level p) (ticket p) (arrTime p) (cycleNum p) (remaining_priority p).
Definition set_tfp v p := mkProc (sz p) (pgdir p) (kstack p) (state p) (pid p) (parent p) v (tf p) (ctxp p) (ctx p) (pchan p) (killed p) (ofile p) (cwd p) (name p) (level p) (ticket p) (arrTime p) (cycleNum p) (remaining_priority p).
Definition set_tf v p := mkProc (sz p) (pgdir p) (kstack p) (state p) (pid p) (parent p) (tfp p) v (ctxp p) (ctx p) (pchan p) (killed p) (ofile p) (cwd p) (name p) (level p) (ticket p) (arrTime p) (cycleNum p) (remaining_priority p).
Definition set_ctx a v p := mkProc (sz p) (pgdir p) (kstack p) (state p) (pid p) (parent p) (tfp p) (tf p) a v (pchan p) (killed p) (ofile p) (cwd p) (name p) (level p) (ticket p) (arrTime p) (cycleNum p) (remaining_priority p).
Definition set_pchan v p := mkProc (sz p) (pgdir p) (kstack p) (state p) (pid p) (parent p) (tfp p) (tf p) (ctxp p) (ctx p) v (killed p) (ofile p) (cwd p) (name p) (level p) (ticket p) (arrTime p) (cycleNum p) (remaining_priority p).
Definition set_killed v p := mkProc (sz p) (pgdir p) (kstack p) (state p) (pid p) (parent p) (tfp p) (tf p) (ctxp p) (ctx p) (pchan p) v (ofile p) (cwd p) (name p) (level p) (ticket p) (arrTime p) (cycleNum p) (remaining_priority p).
Definition set_ofile v p := mkProc (sz p) (pgdir p) (kstack p) (state p) (pid p) (parent p) (tfp p) (tf p) (ctxp p) (ctx p) (pchan p) (killed p) v (cwd p) (name p) (level p) (ticket p) (arrTime p) (cycleNum p) (remaining_priority p).
Definition set_cwd v p := mkProc (sz p) (pgdir p) (kstack p) (state p) (pid p) (parent p) (tfp p) (tf p) (ctxp p) (ctx p) (pchan p) (killed p) (ofile p) v (name p) (level p) (ticket p) (arrTime p) (cycleNum p) (remaining_priority p).
Definition set_name v p := mkProc (sz p) (pgdir p) (kstack p) (state p) (pid p) (parent p) (tfp p) (tf p) (ctxp p) (ctx p) (pchan p) (killed p) (ofile p) (cwd p) v (level p) (ticket p) (arrTime p) (cycleNum p) (remaining_priority p).
Definition set_level v p := mkProc (sz p) (pgdir p) (kstack p) (state p) (pid p) (parent p) (tfp p) (tf p) (ctxp p) (ctx p) (pchan p) (killed p) (ofile p) (cwd p) (name p) v (ticket p) (arrTime p) (cycleNum p) (remaining_priority p).
Definition set_ticket v p := mkProc (sz p) (pgdir p) (kstack p) (state p) (pid p) (parent p) (tfp p) (tf p) (ctxp p) (ctx p) (pchan p) (killed p) (ofile p) (cwd p) (name p) (level p) v (arrTime p) (cycleNum p) (remaining_priority p).
Definition set_arrTime v p := mkProc (sz p) (pgdir p) (kstack p) (state p) (pid p) (parent p) (tfp p) (tf p) (ctxp p) (ctx p) (pchan p) (killed p) (ofile p) (cwd p) (name p) (level p) (ticket p) v (cycleNum p) (remaining_priority p).
Definition set_cycleNum v p := mkProc (sz p) (pgdir p) (kstack p) (state p) (pid p) (parent p) (tfp p) (tf p) (ctxp p) (ctx p) (pchan p) (killed p) (ofile p) (cwd p) (name p) (level p) (ticket p) (arrTime p) v (remaining_priority p).
Definition set_remaining_priority v p := mkProc (sz p) (pgdir p) (kstack p) (state p) (pid p) (parent p) (tfp p) (tf p) (ctxp p) (ctx p) (pchan p) (killed p) (ofile p) (cwd p) (name p) (level p) (ticket p) (arrTime p) (cycleNum p) v.

(** A process slot of the zeroed table. *)
Definition proc_zero : proc :=
  mkProc 0 0 0 UNUSED 0 None 0 tf_zero 0 (mkCtx 0 0 0 0 0 0) CNull false (replicate NOFILE None) None
         (replicate 16 0) 0 0 0 (S754_zero false) 0.

(** Spin locks by name; the locks held are those of the one processor, whose
    [ncli] counts them and whose interrupts are off while there are any
    ([Spinlock.acquire_release_balanced]). *)
Inductive lockid := LPtable | LTicks | LOther (n : nat).

#[export] Instance lockid_eq_dec : EqDecision lockid.
Proof. solve_decision. Defined.

(** What the process code calls of the rest of the kernel, whose state is [E]. *)
Class Env (E : Type) := {
  e_kalloc : M E Z;
  e_kfree : Z -> M E unit;
  e_setupkvm : M E Z;
  e_inituvm : Z -> M E unit;
  e_allocuvm : Z -> Z -> Z -> M E Z;
  e_deallocuvm : Z -> Z -> Z -> M E Z;
  e_copyuvm : Z -> Z -> M E Z;
  e_freevm : Z -> M E unit;
  e_filedup : nat -> M E nat;
  e_fileclose : nat -> M E unit;
  e_idup : nat -> M E nat;
  e_iput : nat -> M E unit;
  e_begin_op : M E unit;
  e_end_op : M E unit;
  e_namei_root : M E (option nat);
}.

Record pstate (E : Type) := mkP {
  ptable : list proc;
  held : list lockid;
  nextpid : Z;
  initproc : option nat;
  cpu_proc : option nat;
  ticks : Z;
  intena : bool;
  esp0 : Z;
  cr3 : Z;
  bar_max : Z;
  bar_counter : Z;
  out : list string;
  env : E;
}.
Arguments mkP {E}.
Arguments ptable {E}. Arguments held {E}. Arguments nextpid {E}. Arguments initproc {E}.
Arguments cpu_proc {E}. Arguments ticks {E}. Arguments intena {E}. Arguments esp0 {E}.
Arguments cr3 {E}. Arguments bar_max {E}. Arguments bar_counter {E}. Arguments out {E}. Arguments env {E}.

Section Process.
Context {E : Type} {ENV : Env E}.
Abbreviation PM := (M (pstate E)).
Implicit Types s : pstate E.

Definition set_ptable l s := mkP l (held s) (nextpid s) (initproc s) (cpu_proc s) (ticks s) (intena s) (esp0 s) (cr3 s) (bar_max s) (bar_counter s) (out s) (env s).
Definition set_held l s := mkP (ptable s) l (nextpid s) (initproc s) (cpu_proc s) (ticks s) (intena s) (esp0 s) (cr3 s) (bar_max s) (bar_counter s) (out s) (env s).
Definition set_nextpid z s := mkP (ptable s) (held s) z (initproc s) (cpu_proc s) (ticks s) (intena s) (esp0 s) (cr3 s) (bar_max s) (bar_counter s) (out s) (env s).
Definition set_initproc o s := mkP (ptable s) (held s) (nextpid s) o (cpu_proc s) (ticks s) (intena s) (esp0 s) (cr3 s) (bar_max s) (bar_counter s) (out s) (env s).
Definition set_cpu_proc o s := mkP (ptable s) (held s) (nextpid s) (initproc s) o (ticks s) (intena s) (esp0 s) (cr3 s) (bar_max s) (bar_counter s) (out s) (env s).
Definition set_ticks z s := mkP (ptable s) (held s) (nextpid s) (initproc s) (cpu_proc s) z (intena s) (esp0 s) (cr3 s) (bar_max s) (bar_counter s) (out s) (env s).
Definition set_intena b s := mkP (ptable s) (held s) (nextpid s) (initproc s) (cpu_proc s) (ticks s) b (esp0 s) (cr3 s) (bar_max s) (bar_counter s) (out s) (env s).
Definition set_mmu a b s := mkP (ptable s) (held s) (nextpid s) (initproc s) (cpu_proc s) (ticks s) (intena s) a b (bar_max s) (bar_counter s) (out s) (env s).
Definition set_barrier a b s := mkP (ptable s) (held s) (nextpid s) (initproc s) (cpu_proc s) (ticks s) (intena s) (esp0 s) (cr3 s) a b (out s) (env s).
Definition set_out l s := mkP (ptable s) (held s) (nextpid s) (initproc s) (cpu_proc s) (ticks s) (intena s) (esp0 s) (cr3 s) (bar_max s) (bar_counter s) l (env s).
Definition set_env (e : E) s := mkP (ptable s) (held s) (nextpid s) (initproc s) (cpu_proc s) (ticks s) (intena s) (esp0 s) (cr3 s) (bar_max s) (bar_counter s) (out s) e.

Definition call {A} (m : M E A) : PM A := zoom env set_env m.
Definition cprintf (m : string) : PM unit := modify (fun s => set_out (out s ++ [m]) s).

Definition acquire (l : lockid) : PM unit :=
  s <- get ;;
  if bool_decide (l ∈ held s) then panic "acquire" else modify (set_held (l :: held s)).
Definition release (l : lockid) : PM unit :=
  s <- get ;;
  if bool_decide (l ∈ held s) then modify (set_held (filter (fun m => m <> l) (held s)))
  else panic "release".

(** [ptable.proc[i]], and [p->f = v]. *)
Definition getp (i : nat) : PM proc :=
  l <- gets ptable ;;
  match l !! i with Some p => ret p | None => ub "ptable index" end.
Definition updp (i : nat) (f : proc -> proc) : PM unit :=
  l <- gets ptable ;;
  match l !! i with Some p => modify (set_ptable (<[i := f p]> l)) | None => ub "ptable index" end.

(** [myproc()] where the code follows the pointer. *)
Definition curproc : PM nat :=
  o <- gets cpu_proc ;;
  match o with Some p => ret p | None => ub "null process" end.

(** [for(p = ptable.proc; p < &ptable.proc[NPROC]; p++)]. *)
Fixpoint for_from (body : nat -> PM unit) (i n : nat) : PM unit :=
  match n with
  | O => ret tt
  | S k => body i ;; for_from body (S i) k
  end.
Definition for_procs (body : nat -> PM unit) : PM unit := for_from body 0 NPROC.

(** The first index from [i] on that satisfies [f]. *)
Fixpoint find_from (f : proc -> bool) (l : list proc) (i : nat) : option nat :=
  match l with
  | [] => None
  | p :: l' => if f p then Some i else find_from f l' (S i)
  end.

Definition is_state (st : procstate) (p : proc) : bool := bool_decide (state p = st).

(** ** Creation *)

(** Addresses of the assembly entry points, which the linker chooses. *)
Context (trapret forkret_addr : Z).

(** The [found:] part of [allocproc]. *)
Definition allocproc_found (p : nat) : PM unit :=
  updp p (set_level 0) ;;
  acquire LTicks ;;
  now <- gets ticks ;;
  release LTicks ;;
  updp p (set_arrTime (s32 now)) ;;
  updp p (set_ticket 10) ;;
  updp p (set_cycleNum (double_of_Z 1)) ;;
  updp p (set_remaining_priority 10) ;;
  updp p (set_state EMBRYO) ;;
  n <- gets nextpid ;;
  updp p (set_pid n) ;;
  modify (set_nextpid (s32 (n + 1))) ;;
  release LPtable.

Definition allocproc : PM (option nat) :=
  acquire LPtable ;;
  l <- gets ptable ;;
  match find_from (is_state UNUSED) l 0 with
  | None => release LPtable ;; ret None
  | Some p =>
      allocproc_found p ;;
      ks <- call e_kalloc ;;
      updp p (set_kstack ks) ;;
      if ks =? 0 then updp p (set_state UNUSED) ;; ret None else
      let sp := ks + KSTACKSIZE - sizeof_trapframe in
      updp p (set_tfp sp) ;;
      let sp := sp - 4 - sizeof_context in
      updp p (set_ctx sp (mkCtx 0 0 0 0 forkret_addr trapret)) ;;
      ret (Some p)
  end.

(** [safestrcpy(dst, src, 16)] between names. *)
Definition copy_name (dst src : list Z) : list Z :=
  let m := safestrcpy (fun a => if a <? 16 then nth (Z.to_nat a) dst 0 else nth (Z.to_nat (a - 16)) src 0) 0 16 16 in
  map (fun i => m (Z.of_nat i)) (seq 0 16).

Definition SEG_UCODE : Z := 3.
Definition SEG_UDATA : Z := 4.
Definition DPL_USER : Z := 3.
Definition FL_IF : Z := 0x200.
Definition initcode_name : list Z := [105; 110; 105; 116; 99; 111; 100; 101; 0].

Definition userinit : PM unit :=
  o <- allocproc ;;
  modify (set_initproc o) ;;
  match o with
  | None => ub "null process"
  | Some p =>
      pd <- call e_setupkvm ;;
      updp p (set_pgdir pd) ;;
      if pd =? 0 then panic "userinit: out of memory?" else
      call (e_inituvm pd) ;;
      updp p (set_sz PGSIZE) ;;
      let cs := Z.lor (Z.shiftl SEG_UCODE 3) DPL_USER in
      let ds := Z.lor (Z.shiftl SEG_UDATA 3) DPL_USER in
      updp p (set_tf (mkTf 0 0 ds ds 0 0 cs FL_IF PGSIZE ds)) ;;
      updp p (fun x => set_name (copy_name (name x) initcode_name) x) ;;
      dir <- call e_namei_root ;;
      updp p (set_cwd dir) ;;
      acquire LPtable ;;
      updp p (set_state RUNNABLE) ;;
      release LPtable
  end.

Definition V2P (a : Z) : Z := u32 (a - 0x80000000).

Definition switchuvm (p : nat) : PM unit :=
  x <- getp p ;;
  if kstack x =? 0 then panic "switchuvm: no kstack" else
  if pgdir x =? 0 then panic "switchuvm: no pgdir" else
  modify (set_mmu (u32 (kstack x + KSTACKSIZE)) (V2P (pgdir x))).

Definition growproc (n : Z) : PM Z :=
  cur <- curproc ;;
  x <- getp cur ;;
  if 0 <? n then
    r <- call (e_allocuvm (pgdir x) (sz x) (u32 (sz x + n))) ;;
    if r =? 0 then ret (-1) else
    updp cur (set_sz r) ;; switchuvm cur ;; ret 0
  else if n <? 0 then
    r <- call (e_deallocuvm (pgdir x) (sz x) (u32 (sz x + n))) ;;
    if r =? 0 then ret (-1) else
    updp cur (set_sz r) ;; switchuvm cur ;; ret 0
  else updp cur (set_sz (sz x)) ;; switchuvm cur ;; ret 0.

(** [for(i = 0; i < NOFILE; i++) if(curproc->ofile[i]) np->ofile[i] = filedup(...)]. *)
Fixpoint dup_files (np : nat) (fs : list (option nat)) (i : nat) : PM unit :=
  match fs with
  | [] => ret tt
  | None :: fs' => dup_files np fs' (S i)
  | Some f :: fs' =>
      g <- call (e_filedup f) ;;
      updp np (fun x => set_ofile (<[i := Some g]> (ofile x)) x) ;;
      dup_files np fs' (S i)
  end.

Definition fork : PM Z :=
  cur <- curproc ;;
  o <- allocproc ;;
  match o with
  | None => ret (-1)
  | Some np =>
      x <- getp cur ;;
      pd <- call (e_copyuvm (pgdir x) (sz x)) ;;
      updp np (set_pgdir pd) ;;
      if pd =? 0 then
        y <- getp np ;;
        call (e_kfree (kstack y)) ;;
        updp np (set_kstack 0) ;;
        updp np (set_state UNUSED) ;;
        ret (-1)
      else
        updp np (set_sz (sz x)) ;;
        updp np (set_parent (Some cur)) ;;
        let t := tf x in
        updp np (set_tf (mkTf (tf_ebx t) 0 (tf_es t) (tf_ds t) (tf_trapno t) (tf_eip t)
                              (tf_cs t) (tf_eflags t) (tf_esp t) (tf_ss t))) ;;
        dup_files np (ofile x) 0 ;;
        (match cwd x with
         | Some d => d' <- call (e_idup d) ;; updp np (set_cwd (Some d'))
         | None => ub "null inode"
         end) ;;
        updp np (fun y => set_name (copy_name (name y) (name x)) y) ;;
        y <- getp np ;;
        acquire LPtable ;;
        updp np (set_state RUNNABLE) ;;
        release LPtable ;;
        ret (pid y)
  end.

(** ** Sleeping and waking *)

(** [sched] up to [swtch]; [sched_resume] is what follows it. *)
Definition sched : PM bool :=
  s <- get ;;
  match cpu_proc s with
  | None => ub "null process"
  | Some p =>
      x <- getp p ;;
      if negb (bool_decide (LPtable ∈ held s)) then panic "sched ptable.lock" else
      if negb (bool_decide (length (held s) = 1%nat)) then panic "sched locks" else
      if bool_decide (state x = RUNNING) then panic "sched running" else
      if bool_decide (held s = []) then panic "sched interruptible" else
      ret (intena s)
  end.
Definition sched_resume (i : bool) : PM unit := modify (set_intena i).

Definition wakeup1 (c : chan) : PM unit :=
  for_procs (fun i =>
    p <- getp i ;;
    if is_state SLEEPING p && bool_decide (pchan p = c) then updp i (set_state RUNNABLE) else ret tt).

Definition wakeup (c : chan) : PM unit :=
  acquire LPtable ;; wakeup1 c ;; release LPtable.

(** [sleep] up to the switch; the result is the interrupt state [sched] saved. *)
Definition sleep_enter (c : chan) (lk : lockid) : PM bool :=
  o <- gets cpu_proc ;;
  match o with
  | None => panic "sleep"
  | Some p =>
      (if bool_decide (lk <> LPtable) then acquire LPtable ;; release lk else ret tt) ;;
      updp p (set_pchan c) ;;
      updp p (set_state SLEEPING) ;;
      sched
  end.

Definition sleep_exit (p : nat) (lk : lockid) (i : bool) : PM unit :=
  sched_resume i ;;
  updp p (set_pchan CNull) ;;
  if bool_decide (lk <> LPtable) then release LPtable ;; acquire lk else ret tt.

Definition yield_enter : PM bool :=
  acquire LPtable ;;
  p <- curproc ;;
  updp p (set_state RUNNABLE) ;;
  sched.
Definition yield_exit (i : bool) : PM unit := sched_resume i ;; release LPtable.

(** ** Exit, wait and kill *)

Fixpoint close_files (cur : nat) (fds : list nat) : PM unit :=
  match fds with
  | [] => ret tt
  | fd :: fds' =>
      x <- getp cur ;;
      (match ofile x !! fd with
       | Some (Some f) =>
           call (e_fileclose f) ;;
           updp cur (fun y => set_ofile (<[fd := None]> (ofile y)) y)
       | _ => ret tt
       end) ;;
      close_files cur fds'
  end.

(** [for(p...) if(p->parent == curproc) { p->parent = initproc; ... }]. *)
Definition reparent (cur : nat) : PM unit :=
  ini <- gets initproc ;;
  for_procs (fun i =>
    p <- getp i ;;
    if bool_decide (parent p = Some cur) then
      updp i (set_parent ini) ;;
      if is_state ZOMBIE p then
        wakeup1 (match ini with Some k => CProc k | None => CNull end)
      else ret tt
    else ret tt).

Definition chan_of (o : option nat) : chan :=
  match o with Some k => CProc k | None => CNull end.

(** [exit] up to the switch it does not come back from. *)
Definition exit : PM bool :=
  cur <- curproc ;;
  ini <- gets initproc ;;
  if bool_decide (ini = Some cur) then panic "init exiting" else
  close_files cur (seq 0 NOFILE) ;;
  call e_begin_op ;;
  x <- getp cur ;;
  (match cwd x with Some d => call (e_iput d) | None => ub "null inode" end) ;;
  call e_end_op ;;
  updp cur (set_cwd None) ;;
  acquire LPtable ;;
  x <- getp cur ;;
  wakeup1 (chan_of (parent x)) ;;
  reparent cur ;;
  updp cur (set_state ZOMBIE) ;;
  sched.

(** The scan of [wait] from index [i]: the zombie child found, if any, and
    whether there is a child at all. *)
Fixpoint scan_children (cur : nat) (l : list proc) (i : nat) (havekids : bool) : option nat * bool :=
  match l with
  | [] => (None, havekids)
  | p :: l' =>
      if negb (bool_decide (parent p = Some cur)) then scan_children cur l' (S i) havekids
      else if is_state ZOMBIE p then (Some i, true)
      else scan_children cur l' (S i) true
  end.

(** The reaping of child [i]. *)
Definition reap (i : nat) : PM Z :=
  p <- getp i ;;
  call (e_kfree (kstack p)) ;;
  updp i (set_kstack 0) ;;
  p' <- getp i ;;
  call (e_freevm (pgdir p')) ;;
  updp i (set_pid 0) ;;
  updp i (set_parent None) ;;
  updp i (fun x => set_name (<[0%nat := 0]> (name x)) x) ;;
  updp i (set_killed false) ;;
  updp i (set_state UNUSED) ;;
  ret (pid p).

Inductive wait_result := Reaped (pid : Z) | NoChildren | Waiting (intena : bool).

(** One turn of the loop of [wait], with [ptable.lock] held; a turn that sleeps
    ends in the switch, after which the process takes the next turn. *)
Definition wait_turn : PM wait_result :=
  cur <- curproc ;;
  l <- gets ptable ;;
  match scan_children cur l 0 false with
  | (Some i, _) => pid <- reap i ;; release LPtable ;; ret (Reaped pid)
  | (None, havekids) =>
      x <- getp cur ;;
      if negb havekids || killed x then release LPtable ;; ret NoChildren
      else i <- sleep_enter (CProc cur) LPtable ;; ret (Waiting i)
  end.

Definition wait : PM wait_result := acquire LPtable ;; wait_turn.

Definition kill (n : Z) : PM Z :=
  acquire LPtable ;;
  l <- gets ptable ;;
  match find_from (fun p => pid p =? n) l 0 with
  | Some i =>
      updp i (set_killed true) ;;
      p <- getp i ;;
      (if is_state SLEEPING p then updp i (set_state RUNNABLE) else ret tt) ;;
      release LPtable ;;
      ret 0
  | None => release LPtable ;; ret (-1)
  end.

(** ** The system calls of the labs *)

Definition change_process_level (n lev : Z) : PM unit :=
  for_procs (fun i => p <- getp i ;; if pid p =? n then updp i (set_level lev) else ret tt).
Definition set_process_ticket (n tk : Z) : PM unit :=
  for_procs (fun i => p <- getp i ;; if pid p =? n then updp i (set_ticket tk) else ret tt).
Definition set_process_remaining_priority (n pr : Z) : PM unit :=
  for_procs (fun i => p <- getp i ;; if pid p =? n then updp i (set_remaining_priority pr) else ret tt).

Definition barrier_init (n : Z) : PM unit :=
  modify (set_barrier n 0) ;;
  cprintf "Kernel: barrier initialized.\n".

(** [barrier_wait] up to the switch ([Some]) or to its return ([None]);
    [barrier_wake] is what the waiter does when it is switched back to. *)
Definition barrier_wait : PM (option bool) :=
  modify (fun s => set_barrier (bar_max s) (s32 (bar_counter s + 1)) s) ;;
  s <- get ;;
  if bar_counter s <? bar_max s then
    acquire LPtable ;;
    i <- sleep_enter CBarrier LPtable ;;
    ret (Some i)
  else
    cprintf "-------------------\nKernel: Barrier is broken!\n" ;;
    wakeup CBarrier ;;
    ret None.
Definition barrier_wake (p : nat) (i : bool) : PM unit :=
  sleep_exit p LPtable i ;; release LPtable.

(** [pow], in [int] arithmetic. *)
Fixpoint pow_loop (p a : Z) (n : nat) : Z :=
  match n with O => p | S k => pow_loop (s32 (p * a)) a k end.
Definition pow (a n : Z) : Z :=
  if n =? 0 then 1 else pow_loop a a (Z.to_nat (n - 1)).

(** The loop of [get_children_of].  [low] is the word that a null process
    pointer's [pid] field denotes in the current address space, which is what
    [p->parent->pid] reads for a process without a parent. *)
Fixpoint children_loop (low : Z) (tab : list proc) (l : list proc) (n concat num : Z) (has_zero : bool)
  : Z * bool :=
  match l with
  | [] => (concat, has_zero)
  | p :: l' =>
      let ppid := match parent p with
                  | Some k => match tab !! k with Some q => pid q | None => low end
                  | None => low
                  end in
      if ppid =? n then
        children_loop low tab l' n (s32 (concat + s32 (pid p * pow 10 num))) (num + 1)
                      (if pid p =? 0 then true else has_zero)
      else children_loop low tab l' n concat num has_zero
  end.

Definition get_children_of (low n : Z) : PM Z :=
  acquire LPtable ;;
  l <- gets ptable ;;
  let '(concat, has_zero) := children_loop low l l n 0 0 false in
  release LPtable ;;
  ret (if (concat =? 0) && negb has_zero then -1 else concat).
End Process.

(** ** Running the operations *)

Section Running.
Context {E : Type} {ENV : Env E}.
Implicit Types s : pstate E.

Lemma getp_run i x s : ptable s !! i = Some x -> getp i s = (Ok x, s).
Proof. intros H. unfold getp. mrun. by rewrite H. Qed.

Lemma updp_run i x f s :
  ptable s !! i = Some x -> updp i f s = (Ok tt, set_ptable (<[i := f x]> (ptable s)) s).
Proof. intros H. unfold updp. mrun. by rewrite H. Qed.

Lemma acquire_run l s : l ∉ held s -> acquire l s = (Ok tt, set_held (l :: held s) s).
Proof. intros H. unfold acquire. mrun. by rewrite bool_decide_eq_false_2. Qed.

Lemma release_run l h s :
  held s = l :: h -> l ∉ h -> release l s = (Ok tt, set_held h s).
Proof.
  intros Hh H. unfold release. mrun. rewrite Hh, bool_decide_eq_true_2 by left.
  rewrite filter_cons_False by auto. repeat f_equal.
  clear Hh. induction h as [|m h IH]; [done|]. apply not_elem_of_cons in H as [H1 H2].
  rewrite filter_cons_True by auto. by rewrite IH.
Qed.

(** A loop over the table that treats each slot by itself is a [map]. *)
Lemma for_from_map (f : proc -> bool) (g : proc -> proc) n : forall i s,
  length (ptable s) = (i + n)%nat ->
  for_from (fun i => p <- getp i ;; if f p then updp i g else ret tt) i n s
  = (Ok tt, set_ptable (take i (ptable s) ++ map (fun p => if f p then g p else p) (drop i (ptable s))) s).
Proof.
  induction n as [|n IH]; intros i s Hl; cbn [for_from].
  - rewrite drop_ge, take_ge by lia. simpl. rewrite app_nil_r. by destruct s.
  - destruct (lookup_lt_is_Some_2 (ptable s) i ltac:(lia)) as [x Hx].
    set (h := fun p => if f p then g p else p).
    assert (Hstep : (p <- getp i ;; if f p then updp i g else ret tt) s
                    = (Ok tt, set_ptable (<[i := h x]> (ptable s)) s)).
    { unfold bind. rewrite (getp_run i x s Hx). unfold h. destruct (f x); [by apply updp_run|].
      unfold ret. rewrite list_insert_id by done. by destruct s. }
    unfold bind at 1. rewrite Hstep. rewrite IH by (cbn [ptable set_ptable]; rewrite length_insert; lia).
    cbn [ptable set_ptable]. f_equal. unfold set_ptable. f_equal.
    rewrite (take_S_r _ i (h x)) by (rewrite list_lookup_insert_eq; [done|lia]).
    rewrite take_insert_ge, drop_insert_lt by lia. rewrite (drop_S (ptable s) x i) by done.
    rewrite <- app_assoc. done.
Qed.

Lemma for_procs_map (f : proc -> bool) (g : proc -> proc) s :
  length (ptable s) = NPROC ->
  for_procs (fun i => p <- getp i ;; if f p then updp i g else ret tt) s
  = (Ok tt, set_ptable (map (fun p => if f p then g p else p) (ptable s)) s).
Proof. intros H. unfold for_procs. rewrite for_from_map by done. done. Qed.

(** What [wakeup1] does to a process. *)
Definition woken (c : chan) (p : proc) : proc :=
  if is_state SLEEPING p && bool_decide (pchan p = c) then set_state RUNNABLE p else p.

Lemma wakeup1_run c s :
  length (ptable s) = NPROC -> wakeup1 c s = (Ok tt, set_ptable (map (woken c) (ptable s)) s).
Proof. intros H. unfold wakeup1. by rewrite for_procs_map. Qed.
End Running.

(** Step through a function whose state is an explicit record. *)
Ltac pcbn :=
  cbv beta iota delta [set_ptable set_held set_nextpid set_initproc set_cpu_proc set_ticks set_intena set_mmu
                       set_barrier set_out set_env];
  cbn [ptable held nextpid initproc cpu_proc ticks intena esp0 cr3 bar_max bar_counter out env].

Ltac solve_held := pcbn; rewrite ?not_elem_of_cons; repeat split; (done || by apply not_elem_of_nil || assumption).

Ltac solve_slot :=
  pcbn; first [eassumption
              | rewrite list_lookup_insert_eq; [reflexivity|eauto using lookup_lt_Some]
              | rewrite list_lookup_insert_ne by congruence; eassumption].

Ltac pstep1 :=
  match goal with
  | |- context [bind (updp ?i ?f) ?k ?s] => erewrite (bind_ok (updp i f) k s) by (apply updp_run; solve_slot)
  | |- context [bind (getp ?i) ?k ?s] => erewrite (bind_ok (getp i) k s) by (apply getp_run; solve_slot)
  | |- context [bind (acquire ?l) ?k ?s] => erewrite (bind_ok (acquire l) k s) by (apply acquire_run; solve_held)
  | |- context [bind (release ?l) ?k ?s] => erewrite (bind_ok (release l) k s) by (eapply release_run; [reflexivity|solve_held])
  | |- context [bind (gets ?f) ?k ?s] => rewrite (bind_ok (gets f) k s _ _ eq_refl)
  | |- context [bind (modify ?f) ?k ?s] => rewrite (bind_ok (modify f) k s _ _ eq_refl)
  end; pcbn; rewrite ?list_insert_insert_eq.

Lemma find_from_Some f l : forall k i, find_from f l k = Some i ->
  exists j p, i = (k + j)%nat /\ l !! j = Some p /\ f p = true
    /\ forall j' q, (j' < j)%nat -> l !! j' = Some q -> f q = false.
Proof.
  induction l as [|x l IH]; intros k i H; cbn [find_from] in H; [done|].
  destruct (f x) eqn:Hf.
  - injection H as <-. exists 0%nat, x. split; [lia|]. split; [done|]. split; [done|]. intros; lia.
  - destruct (IH _ _ H) as (j & p & -> & Hp & Hfp & Hmin). exists (S j), p. split; [lia|].
    split; [done|]. split; [done|]. intros [|j'] q Hj Hq; [simpl in Hq; congruence|].
    apply (Hmin j'); [lia|done].
Qed.

Lemma find_from_None f l : forall k, find_from f l k = None -> Forall (fun p => f p = false) l.
Proof.
  induction l as [|x l IH]; intros k H; cbn [find_from] in H; [done|].
  destruct (f x) eqn:Hf; [done|]. constructor; [done|]. by eapply IH.
Qed.

Section Table.
Context {E : Type} {ENV : Env E} (trapret forkret_addr : Z).
Implicit Types s : pstate E.

(** The slot [allocproc] initialises, without and with its kernel stack. *)
Definition embryo (now n : Z) (x : proc) : proc :=
  set_pid n (set_state EMBRYO (set_remaining_priority 10 (set_cycleNum (double_of_Z 1)
    (set_ticket 10 (set_arrTime (s32 now) (set_level 0 x)))))).

Definition new_proc (now n ks : Z) (x : proc) : proc :=
  set_ctx (ks + KSTACKSIZE - sizeof_trapframe - 4 - sizeof_context) (mkCtx 0 0 0 0 forkret_addr trapret)
    (set_tfp (ks + KSTACKSIZE - sizeof_trapframe) (set_kstack ks (embryo now n x))).

(** The three outcomes of [allocproc]. *)
Lemma allocproc_full s :
  held s = [] -> find_from (is_state UNUSED) (ptable s) 0 = None ->
  allocproc trapret forkret_addr s = (Ok None, s).
Proof.
  intros Hh Hf. destruct s. simpl in *. subst. unfold allocproc. do 2 pstep1. rewrite Hf. by pstep1.
Qed.

Lemma allocproc_slot s p x :
  held s = [] -> find_from (is_state UNUSED) (ptable s) 0 = Some p -> ptable s !! p = Some x ->
  forall k, (allocproc_found p ;; k)
    (set_held [LPtable] s) =
    (k : M (pstate E) (option nat)) (set_nextpid (s32 (nextpid s + 1))
       (set_ptable (<[p := embryo (ticks s) (nextpid s) x]> (ptable s)) s)).
Proof.
  intros Hh Hf Hx k. destruct s. simpl in *. subst. unfold allocproc_found.
  unfold bind at 1. do 12 pstep1. erewrite release_run; [|reflexivity|solve_held]. pcbn. done.
Qed.

Lemma allocproc_run s p x ks e' :
  held s = [] -> find_from (is_state UNUSED) (ptable s) 0 = Some p -> ptable s !! p = Some x ->
  e_kalloc (env s) = (Ok ks, e') ->
  allocproc trapret forkret_addr s =
    (if ks =? 0
     then (Ok None, set_env e' (set_nextpid (s32 (nextpid s + 1))
             (set_ptable (<[p := set_state UNUSED (set_kstack 0 (embryo (ticks s) (nextpid s) x))]> (ptable s)) s)))
     else (Ok (Some p), set_env e' (set_nextpid (s32 (nextpid s + 1))
             (set_ptable (<[p := new_proc (ticks s) (nextpid s) ks x]> (ptable s)) s)))).
Proof.
  intros Hh Hf Hx Hk. unfold allocproc. rewrite (bind_ok _ _ _ _ _ (acquire_run LPtable s ltac:(rewrite Hh; apply not_elem_of_nil))).
  pstep1. rewrite Hf, Hh. rewrite (allocproc_slot s p x Hh Hf Hx).
  destruct s. simpl in *. subst.
  erewrite (bind_ok (call e_kalloc)) by (unfold call, zoom; pcbn; by rewrite Hk). pcbn.
  pstep1. destruct (Z.eqb_spec ks 0) as [->|].
  - pstep1. unfold embryo. reflexivity.
  - do 2 pstep1. unfold new_proc, embryo. reflexivity.
Qed.

Lemma allocproc_ok s p x ks e' :
  held s = [] -> find_from (is_state UNUSED) (ptable s) 0 = Some p -> ptable s !! p = Some x ->
  e_kalloc (env s) = (Ok ks, e') -> ks <> 0 ->
  allocproc trapret forkret_addr s
  = (Ok (Some p), set_env e' (set_nextpid (s32 (nextpid s + 1))
       (set_ptable (<[p := new_proc (ticks s) (nextpid s) ks x]> (ptable s)) s))).
Proof.
  intros Hh Hf Hx Hk Hks. rewrite (allocproc_run s p x ks e' Hh Hf Hx Hk).
  by rewrite (proj2 (Z.eqb_neq _ _) Hks).
Qed.

(** The files of a fork, as calls to the environment. *)
Fixpoint dup_env (fs : list (option nat)) : M E (list (option nat)) :=
  match fs with
  | [] => ret []
  | None :: fs' => gs <- dup_env fs' ;; ret (None :: gs)
  | Some f :: fs' => g <- e_filedup f ;; gs <- dup_env fs' ;; ret (Some g :: gs)
  end.

(** [l] with the entries of [gs] written over it from index [i] on. *)
Fixpoint overlay (l gs : list (option nat)) (i : nat) : list (option nat) :=
  match gs with
  | [] => l
  | None :: gs' => overlay l gs' (S i)
  | Some g :: gs' => overlay (<[i := Some g]> l) gs' (S i)
  end.

Lemma dup_files_run fs : forall i np y gs e' s,
  ptable s !! np = Some y -> dup_env fs (env s) = (Ok gs, e') ->
  dup_files np fs i s =
    (Ok tt, set_env e' (set_ptable (<[np := set_ofile (overlay (ofile y) gs i) y]> (ptable s)) s)).
Proof.
  induction fs as [|[f|] fs IH]; intros i np y gs e' s Hy H; cbn [dup_files dup_env] in *.
  - mrun_in H. injection H as <- <-. cbn [overlay]. unfold ret.
    replace (set_ofile (ofile y) y) with y by by destruct y.
    rewrite list_insert_id by done. by destruct s.
  - mrun_in H. destruct (e_filedup f (env s)) as [[g| | | |] e1] eqn:Hf; try done.
    destruct (dup_env fs e1) as [[gs'| | | |] e2] eqn:Hg; try done. injection H as <- <-.
    erewrite (bind_ok (call (e_filedup f))) by (unfold call, zoom; by rewrite Hf).
    pstep1. erewrite (IH (S i) np _ gs' e2); [|pcbn; apply list_lookup_insert_eq; by eapply lookup_lt_Some|done].
    pcbn. rewrite list_insert_insert_eq. cbn [overlay]. destruct y. reflexivity.
  - mrun_in H. destruct (dup_env fs (env s)) as [[gs'| | | |] e2] eqn:Hg; try done. injection H as <- <-.
    cbn [overlay]. by apply IH.
Qed.

Lemma overlay_none gs : forall i l,
  length l = (i + length gs)%nat -> (forall j, (i <= j)%nat -> l !! j = None \/ l !! j = Some None) ->
  overlay l gs i = take i l ++ gs.
Proof.
  induction gs as [|g gs IH]; intros i l Hl Hn; cbn [overlay].
  - rewrite take_ge, app_nil_r by (simpl in *; lia). done.
  - assert (Hi : l !! i = Some None).
    { destruct (Hn i ltac:(lia)) as [H|H]; [|done]. apply lookup_ge_None in H. simpl in *. lia. }
    destruct g as [g|].
    + rewrite IH; [|rewrite length_insert; simpl in *; lia|].
      * rewrite (take_S_r _ i (Some g)) by (rewrite list_lookup_insert_eq; [done|by eapply lookup_lt_Some]).
        rewrite take_insert_ge by lia. by rewrite <- app_assoc.
      * intros j Hj. rewrite list_lookup_insert_ne by lia. apply Hn. lia.
    + rewrite IH; [|simpl in *; lia|intros j Hj; apply Hn; lia].
      rewrite (take_S_r _ i None) by done. by rewrite <- app_assoc.
Qed.

Definition tf_child (t : trapframe) : trapframe :=
  mkTf (tf_ebx t) 0 (tf_es t) (tf_ds t) (tf_trapno t) (tf_eip t) (tf_cs t) (tf_eflags t) (tf_esp t) (tf_ss t).

(** The slot of a new child: [x] the free slot, [c] the parent in slot [cur]. *)
Definition child_of (cur : nat) (c x : proc) (now n ks pd : Z) (gs : list (option nat)) (d : nat) : proc :=
  let y := new_proc now n ks x in
  set_state RUNNABLE (set_name (copy_name (name x) (name c)) (set_cwd (Some d)
    (set_ofile (overlay (ofile x) gs 0) (set_tf (tf_child (tf c)) (set_parent (Some cur)
      (set_sz (sz c) (set_pgdir pd y))))))).

Lemma fork_run s cur c p x ks pd gs d d' e1 e2 e3 e4 :
  held s = [] -> cpu_proc s = Some cur -> ptable s !! cur = Some c ->
  find_from (is_state UNUSED) (ptable s) 0 = Some p -> ptable s !! p = Some x -> p <> cur ->
  e_kalloc (env s) = (Ok ks, e1) -> ks <> 0 ->
  e_copyuvm (pgdir c) (sz c) e1 = (Ok pd, e2) -> pd <> 0 ->
  dup_env (ofile c) e2 = (Ok gs, e3) -> cwd c = Some d -> e_idup d e3 = (Ok d', e4) ->
  fork trapret forkret_addr s =
    (Ok (nextpid s),
     set_env e4 (set_nextpid (s32 (nextpid s + 1))
       (set_ptable (<[p := child_of cur c x (ticks s) (nextpid s) ks pd gs d']> (ptable s)) s))).
Proof.
  intros Hh Hc Hcur Hf Hx Hne Hk Hks Hcp Hpd Hdup Hd Hid. unfold fork, curproc.
  erewrite (bind_ok (bind _ _)) by (mrun; by rewrite Hc).
  rewrite (bind_ok _ _ _ _ _ (allocproc_ok s p x ks e1 Hh Hf Hx Hk Hks)).
  destruct s. simpl in *. subst. pcbn. pstep1.
  erewrite (bind_ok (call (e_copyuvm _ _))) by (unfold call, zoom; pcbn; by rewrite Hcp). pcbn.
  pstep1. rewrite (proj2 (Z.eqb_neq _ _) Hpd). do 3 pstep1.
  erewrite (bind_ok (dup_files _ _ _)) by (eapply dup_files_run; [solve_slot|eassumption]).
  pcbn. rewrite list_insert_insert_eq, Hd. unfold bind at 1.
  erewrite (bind_ok (call (e_idup d))) by (unfold call, zoom; pcbn; by rewrite Hid). pcbn.
  erewrite updp_run by solve_slot. pcbn. rewrite list_insert_insert_eq.
  do 5 pstep1. reflexivity.
Qed.

(** The failures of [fork]: no slot, no page for the stack, no memory for the copy. *)
Lemma fork_full s cur :
  held s = [] -> cpu_proc s = Some cur -> find_from (is_state UNUSED) (ptable s) 0 = None ->
  fork trapret forkret_addr s = (Ok (-1), s).
Proof.
  intros Hh Hc Hf. unfold fork, curproc. erewrite (bind_ok (bind _ _)) by (mrun; by rewrite Hc).
  by rewrite (bind_ok _ _ _ _ _ (allocproc_full s Hh Hf)).
Qed.

Lemma fork_no_stack s cur p x e1 :
  held s = [] -> cpu_proc s = Some cur ->
  find_from (is_state UNUSED) (ptable s) 0 = Some p -> ptable s !! p = Some x ->
  e_kalloc (env s) = (Ok 0, e1) ->
  fork trapret forkret_addr s = (Ok (-1), set_env e1 (set_nextpid (s32 (nextpid s + 1))
    (set_ptable (<[p := set_state UNUSED (set_kstack 0 (embryo (ticks s) (nextpid s) x))]> (ptable s)) s))).
Proof.
  intros Hh Hc Hf Hx Hk. unfold fork, curproc. erewrite (bind_ok (bind _ _)) by (mrun; by rewrite Hc).
  unfold bind. by rewrite (allocproc_run s p x 0 e1 Hh Hf Hx Hk).
Qed.

Lemma fork_no_copy s cur c p x ks e1 e2 e3 :
  held s = [] -> cpu_proc s = Some cur -> ptable s !! cur = Some c ->
  find_from (is_state UNUSED) (ptable s) 0 = Some p -> ptable s !! p = Some x -> p <> cur ->
  e_kalloc (env s) = (Ok ks, e1) -> ks <> 0 ->
  e_copyuvm (pgdir c) (sz c) e1 = (Ok 0, e2) -> e_kfree ks e2 = (Ok tt, e3) ->
  fork trapret forkret_addr s = (Ok (-1), set_env e3 (set_nextpid (s32 (nextpid s + 1))
    (set_ptable (<[p := set_state UNUSED (set_kstack 0 (set_pgdir 0 (new_proc (ticks s) (nextpid s) ks x)))]>
                 (ptable s)) s))).
Proof.
  intros Hh Hc Hcur Hf Hx Hne Hk Hks Hcp Hfree. unfold fork, curproc.
  erewrite (bind_ok (bind _ _)) by (mrun; by rewrite Hc).
  rewrite (bind_ok _ _ _ _ _ (allocproc_ok s p x ks e1 Hh Hf Hx Hk Hks)).
  destruct s. simpl in *. subst. pcbn. pstep1.
  erewrite (bind_ok (call (e_copyuvm _ _))) by (unfold call, zoom; pcbn; by rewrite Hcp). pcbn.
  pstep1. cbn [Z.eqb]. pstep1. change (kstack (set_pgdir 0 _)) with ks.
  erewrite (bind_ok (call (e_kfree _))) by (unfold call, zoom; pcbn; by rewrite Hfree). pcbn.
  do 2 pstep1. reflexivity.
Qed.

(** ** Sleeping *)

Lemma sched_run s p x :
  cpu_proc s = Some p -> ptable s !! p = Some x -> held s = [LPtable] -> state x <> RUNNING ->
  sched s = (Ok (intena s), s).
Proof.
  intros Hc Hx Hh Hst. unfold sched. unfold bind at 1, get. rewrite Hc.
  rewrite (bind_ok _ _ _ _ _ (getp_run p x s Hx)). rewrite Hh.
  rewrite bool_decide_eq_true_2 by left. cbn [negb length].
  rewrite bool_decide_eq_true_2 by done. rewrite bool_decide_eq_false_2 by done. done.
Qed.

(** [sleep] entered with the lock [lk] (only) held. *)
Lemma sleep_enter_run s p x c lk :
  cpu_proc s = Some p -> ptable s !! p = Some x -> held s = [lk] ->
  sleep_enter c lk s = (Ok (intena s),
    set_held [LPtable] (set_ptable (<[p := set_state SLEEPING (set_pchan c x)]> (ptable s)) s)).
Proof.
  intros Hc Hx Hh. unfold sleep_enter. unfold bind at 1, gets. rewrite Hc.
  assert (Hlk : (if bool_decide (lk <> LPtable) then acquire LPtable ;; release lk else ret tt) s
                = (Ok tt, set_held [LPtable] s)).
  { destruct s. simpl in *. subst. case_bool_decide as Hl.
    - pstep1. unfold release. mrun. pcbn. rewrite bool_decide_eq_true_2 by (right; left).
      rewrite filter_cons_True by auto. rewrite filter_cons_False by auto. done.
    - assert (lk = LPtable) as -> by (destruct lk; congruence). done. }
  rewrite (bind_ok _ _ _ _ _ Hlk). destruct s. simpl in *. subst. pcbn. do 2 pstep1.
  erewrite sched_run; [|reflexivity|solve_slot|reflexivity|done]. reflexivity.
Qed.

Lemma yield_enter_run s p x :
  cpu_proc s = Some p -> ptable s !! p = Some x -> held s = [] ->
  yield_enter s = (Ok (intena s),
    set_held [LPtable] (set_ptable (<[p := set_state RUNNABLE x]> (ptable s)) s)).
Proof.
  intros Hc Hx Hh. unfold yield_enter, curproc. destruct s. simpl in *. subst. pstep1.
  erewrite (bind_ok (bind _ _)) by (mrun; pcbn; reflexivity). pstep1.
  erewrite sched_run; [|reflexivity|solve_slot|reflexivity|done]. reflexivity.
Qed.

Lemma wakeup_run c s :
  held s = [] -> length (ptable s) = NPROC ->
  wakeup c s = (Ok tt, set_ptable (map (woken c) (ptable s)) s).
Proof.
  intros Hh Hl. unfold wakeup. destruct s. simpl in *. subst. pstep1.
  erewrite (bind_ok (wakeup1 c)) by by apply wakeup1_run. pcbn.
  erewrite release_run; [|reflexivity|apply not_elem_of_nil]. done.
Qed.

(** What [kill] does to the process it finds. *)
Definition slain (p : proc) : proc :=
  let p' := set_killed true p in if is_state SLEEPING p then set_state RUNNABLE p' else p'.

Lemma kill_found n s i p :
  held s = [] -> find_from (fun p => pid p =? n) (ptable s) 0 = Some i -> ptable s !! i = Some p ->
  kill n s = (Ok 0, set_ptable (<[i := slain p]> (ptable s)) s).
Proof.
  intros Hh Hf Hp. unfold kill, slain. destruct s. simpl in *. subst. do 2 pstep1. rewrite Hf. do 2 pstep1.
  change (is_state SLEEPING (set_killed true p)) with (is_state SLEEPING p).
  destruct (is_state SLEEPING p); [do 2 pstep1; done|]. unfold bind at 1, ret. by pstep1.
Qed.

Lemma kill_missing n s :
  held s = [] -> find_from (fun p => pid p =? n) (ptable s) 0 = None -> kill n s = (Ok (-1), s).
Proof.
  intros Hh Hf. unfold kill. destruct s. simpl in *. subst. do 2 pstep1. rewrite Hf. by pstep1.
Qed.

(** ** Exit *)

Fixpoint close_env (fs : list (option nat)) : M E unit :=
  match fs with
  | [] => ret tt
  | None :: fs' => close_env fs'
  | Some f :: fs' => e_fileclose f ;; close_env fs'
  end.

Lemma close_files_run n : forall i cur x e' s,
  ptable s !! cur = Some x -> length (ofile x) = (i + n)%nat ->
  close_env (drop i (ofile x)) (env s) = (Ok tt, e') ->
  close_files cur (seq i n) s = (Ok tt, set_env e'
    (set_ptable (<[cur := set_ofile (take i (ofile x) ++ replicate n None) x]> (ptable s)) s)).
Proof.
  induction n as [|n IH]; intros i cur x e' s Hx Hl H; cbn [seq close_files].
  - rewrite drop_ge in H by lia. injection H as <-. cbn [replicate]. rewrite app_nil_r, take_ge by lia.
    replace (set_ofile (ofile x) x) with x by by destruct x. rewrite list_insert_id by done. by destruct s.
  - destruct (lookup_lt_is_Some_2 (ofile x) i ltac:(lia)) as [o Ho].
    rewrite (drop_S _ o i) in H by done. rewrite (bind_ok _ _ _ _ _ (getp_run cur x s Hx)), Ho.
    set (y := set_ofile (<[i := None]> (ofile x)) x).
    assert (Hy : length (ofile y) = (S i + n)%nat) by (cbn [ofile set_ofile y]; rewrite length_insert; lia).
    assert (Hd : drop (S i) (ofile y) = drop (S i) (ofile x)) by (cbn [ofile set_ofile y]; by rewrite drop_insert_lt by lia).
    assert (Ht : take (S i) (ofile y) ++ replicate n None = take i (ofile x) ++ replicate (S n) None).
    { cbn [ofile set_ofile y]. rewrite (take_S_r _ i None) by (rewrite list_lookup_insert_eq; [done|lia]).
      rewrite take_insert_ge, <- app_assoc by lia. done. }
    destruct o as [f|]; cbn [close_env] in H.
    + mrun_in H. destruct (e_fileclose f (env s)) as [[[]| | | |] e1] eqn:Hf; try done.
      unfold bind at 1. erewrite (bind_ok (call (e_fileclose f))) by (unfold call, zoom; by rewrite Hf).
      erewrite updp_run by solve_slot. fold y.
      erewrite (IH (S i) cur y e'); [|pcbn; apply list_lookup_insert_eq; by eapply lookup_lt_Some|done|by rewrite Hd].
      pcbn. rewrite list_insert_insert_eq, Ht. done.
    + unfold bind at 1, ret. assert (Hxy : y = x).
      { unfold y. rewrite list_insert_id by done. by destruct x. }
      rewrite Hxy in *. erewrite (IH (S i) cur x e'); [|done|done|done]. by rewrite Ht.
Qed.

Definition is_child (cur : nat) (p : proc) : bool := bool_decide (parent p = Some cur).
Definition adopted (cur : nat) (ini : option nat) (p : proc) : proc :=
  if is_child cur p then set_parent ini p else p.
Definition zombie_child (cur : nat) (p : proc) : bool := is_child cur p && is_state ZOMBIE p.

Lemma woken_woken c p : woken c (woken c p) = woken c p.
Proof. unfold woken. destruct (is_state SLEEPING p && bool_decide (pchan p = c)) eqn:H; [done|by rewrite H]. Qed.

Lemma woken_fields c p :
  pid (woken c p) = pid p /\ parent (woken c p) = parent p /\ kstack (woken c p) = kstack p
  /\ pgdir (woken c p) = pgdir p /\ ofile (woken c p) = ofile p /\ killed (woken c p) = killed p
  /\ cwd (woken c p) = cwd p /\ pchan (woken c p) = pchan p.
Proof. unfold woken. by destruct (_ && _). Qed.

Lemma woken_state c p :
  state (woken c p) = if is_state SLEEPING p && bool_decide (pchan p = c) then RUNNABLE else state p.
Proof. unfold woken. by destruct (_ && _). Qed.

Lemma is_state_spec st p : is_state st p = true <-> state p = st.
Proof. unfold is_state. by rewrite bool_decide_eq_true. Qed.

Lemma woken_zombie c p : is_state ZOMBIE (woken c p) = is_state ZOMBIE p.
Proof.
  unfold is_state at 1. rewrite woken_state. destruct (is_state SLEEPING p) eqn:H; [|done].
  apply is_state_spec in H. unfold is_state. rewrite H. cbn [andb].
  by destruct (bool_decide (pchan p = c)).
Qed.

(** Waking when the flag is set. *)
Definition wake_if (w : bool) (c : chan) : list proc -> list proc :=
  if w then map (woken c) else id.
Definition wake1_if (w : bool) (c : chan) : proc -> proc := if w then woken c else id.

Lemma wake_if_length w c l : length (wake_if w c l) = length l.
Proof. destruct w; [apply length_map|done]. Qed.

Lemma wake_if_wake w c l : map (woken c) (wake_if w c l) = map (woken c) l.
Proof. destruct w; [|done]. simpl. rewrite map_map. apply map_ext, woken_woken. Qed.

Lemma wake_if_lookup w c l i :
  wake_if w c l !! i = wake1_if w c <$> (l !! i).
Proof. destruct w; simpl; [by rewrite list_lookup_fmap|by destruct (l !! i)]. Qed.

Lemma wake_if_insert w c l i p :
  <[i := wake1_if w c p]> (wake_if w c l) = wake_if w c (<[i := p]> l).
Proof. destruct w; simpl; [by rewrite list_fmap_insert|done]. Qed.

Lemma adopted_woken ini c p : set_parent ini (woken c p) = woken c (set_parent ini p).
Proof. unfold woken, is_state. cbn [state pchan set_parent]. by destruct (_ && _). Qed.

Definition reparent_body (cur : nat) (ini : option nat) (c : chan) (i : nat) : M (pstate E) unit :=
  p <- getp i ;;
  if bool_decide (parent p = Some cur) then
    updp i (set_parent ini) ;; if is_state ZOMBIE p then wakeup1 c else ret tt
  else ret tt.

Lemma reparent_body_run cur ini c i w A p s :
  ptable s = wake_if w c A -> length A = NPROC -> A !! i = Some p ->
  reparent_body cur ini c i s
  = (Ok tt, set_ptable (wake_if (w || zombie_child cur p) c (<[i := adopted cur ini p]> A)) s).
Proof.
  intros Hs Hl Hp. unfold reparent_body. set (W := wake1_if w c).
  assert (Hq : ptable s !! i = Some (W p)) by (rewrite Hs, wake_if_lookup, Hp; done).
  assert (Hpar : parent (W p) = parent p) by (unfold W; destruct w; [apply woken_fields|done]).
  assert (Hz : is_state ZOMBIE (W p) = is_state ZOMBIE p) by (unfold W; destruct w; [apply woken_zombie|done]).
  rewrite (bind_ok _ _ _ _ _ (getp_run i _ s Hq)), Hpar, Hz. unfold adopted, zombie_child, is_child.
  case_bool_decide; cbn [andb].
  - rewrite (bind_ok _ _ _ _ _ (updp_run i _ (set_parent ini) s Hq)).
    assert (Hset : set_parent ini (W p) = W (set_parent ini p)) by (unfold W; destruct w; [by apply adopted_woken|done]).
    rewrite Hset, Hs. unfold W. rewrite wake_if_insert. destruct (is_state ZOMBIE p).
    + rewrite wakeup1_run by (cbn [ptable set_ptable]; by rewrite wake_if_length, length_insert).
      rewrite orb_true_r. cbn [ptable set_ptable]. rewrite wake_if_wake. done.
    + rewrite orb_false_r. done.
  - rewrite orb_false_r, list_insert_id by done. unfold ret. rewrite <- Hs. by destruct s.
Qed.

Lemma reparent_loop cur ini c n : forall i w A s,
  ptable s = wake_if w c A -> length A = NPROC -> (i + n = NPROC)%nat ->
  for_from (reparent_body cur ini c) i n s
  = (Ok tt, set_ptable (wake_if (w || existsb (zombie_child cur) (drop i A)) c
                                (take i A ++ map (adopted cur ini) (drop i A))) s).
Proof.
  induction n as [|n IH]; intros i w A s Hs Hl Hi; cbn [for_from].
  - rewrite drop_ge, take_ge by lia. cbn [existsb map]. rewrite orb_false_r, app_nil_r, <- Hs. by destruct s.
  - destruct (lookup_lt_is_Some_2 A i ltac:(lia)) as [p Hp].
    rewrite (bind_ok _ _ _ _ _ (reparent_body_run cur ini c i w A p s Hs Hl Hp)).
    rewrite (IH (S i) (w || zombie_child cur p) (<[i := adopted cur ini p]> A));
      [|done|by rewrite length_insert|lia].
    rewrite drop_insert_lt, (take_S_r _ i (adopted cur ini p)), take_insert_ge by (lia || (rewrite list_lookup_insert_eq; [done|lia])).
    rewrite (drop_S A p i) by done. cbn [existsb map]. rewrite orb_assoc, <- app_assoc. done.
Qed.

Lemma reparent_run cur s :
  length (ptable s) = NPROC ->
  reparent cur s = (Ok tt, set_ptable (wake_if (existsb (zombie_child cur) (ptable s)) (chan_of (initproc s))
                                              (map (adopted cur (initproc s)) (ptable s))) s).
Proof.
  intros Hl. unfold reparent. unfold bind at 1, gets. unfold for_procs.
  apply (reparent_loop cur (initproc s) (chan_of (initproc s)) NPROC 0 false (ptable s)); done.
Qed.

(** The table [exit] leaves, from the table [l] at its call: [x] in slot [cur]
    exits, its parent is woken, its children go to [ini], who is woken when one of
    them is a zombie. *)
Definition exit_table (cur : nat) (ini : option nat) (x : proc) (l : list proc) : list proc :=
  let l1 := map (woken (chan_of (parent x))) (<[cur := set_cwd None (set_ofile (replicate NOFILE None) x)]> l) in
  let l2 := wake_if (existsb (zombie_child cur) l1) (chan_of ini) (map (adopted cur ini) l1) in
  match l2 !! cur with Some y => <[cur := set_state ZOMBIE y]> l2 | None => l2 end.

Lemma length_exit_table cur ini x l : length (exit_table cur ini x l) = length l.
Proof.
  unfold exit_table. destruct (_ !! cur); rewrite ?length_insert, wake_if_length, !length_map, length_insert; done.
Qed.

Lemma exit_run s cur x d e1 e2 e3 e4 :
  held s = [] -> cpu_proc s = Some cur -> ptable s !! cur = Some x -> length (ptable s) = NPROC ->
  initproc s <> Some cur -> length (ofile x) = NOFILE -> cwd x = Some d ->
  close_env (ofile x) (env s) = (Ok tt, e1) -> e_begin_op e1 = (Ok tt, e2) ->
  e_iput d e2 = (Ok tt, e3) -> e_end_op e3 = (Ok tt, e4) ->
  exit s = (Ok (intena s), set_held [LPtable] (set_env e4
             (set_ptable (exit_table cur (initproc s) x (ptable s)) s))).
Proof.
  intros Hh Hc Hx Hl Hi Hof Hd Hcl Hb Hp He. unfold exit, curproc.
  erewrite (bind_ok (bind _ _)) by (mrun; by rewrite Hc).
  destruct s as [l h n ini cp tk ie es cr bm bc ou ev]. cbn in Hh, Hc, Hx, Hl, Hi, Hcl. subst. pstep1.
  rewrite bool_decide_eq_false_2 by done.
  erewrite (bind_ok (close_files _ _)) by (apply (close_files_run NOFILE 0); [exact Hx|done|exact Hcl]).
  cbn [take app]. pcbn.
  erewrite (bind_ok (call e_begin_op)) by (unfold call, zoom; pcbn; by rewrite Hb). pcbn.
  pstep1. cbn [cwd set_ofile]. rewrite Hd.
  erewrite (bind_ok (call (e_iput d))) by (unfold call, zoom; pcbn; by rewrite Hp). pcbn.
  erewrite (bind_ok (call e_end_op)) by (unfold call, zoom; pcbn; by rewrite He). pcbn.
  pstep1. pstep1. pstep1. cbn [parent set_cwd set_ofile].
  set (l0 := <[cur := _]> l).
  erewrite (bind_ok (wakeup1 _)) by (apply wakeup1_run; pcbn; unfold l0; by rewrite length_insert). pcbn.
  erewrite (bind_ok (reparent _)) by (apply reparent_run; pcbn; unfold l0; by rewrite length_map, length_insert). pcbn.
  unfold exit_table. fold l0. set (l2 := wake_if _ _ _).
  assert (Hlt : (cur < length l2)%nat).
  { unfold l2, l0. rewrite wake_if_length, !length_map, length_insert. by eapply lookup_lt_Some. }
  destruct (lookup_lt_is_Some_2 _ _ Hlt) as [y Hy]. rewrite Hy. pstep1.
  erewrite sched_run; [|reflexivity|solve_slot|reflexivity|done]. reflexivity.
Qed.

(** ** Wait *)

Lemma scan_children_spec cur l : forall k hk,
  match scan_children cur l k hk with
  | (Some i, _) => exists j p, i = (k + j)%nat /\ l !! j = Some p /\ parent p = Some cur /\ state p = ZOMBIE
  | (None, r) => (forall p, p ∈ l -> parent p = Some cur -> state p <> ZOMBIE)
                 /\ r = hk || existsb (is_child cur) l
  end.
Proof.
  induction l as [|x l IH]; intros k hk; cbn [scan_children existsb].
  - split; [by intros p ?%elem_of_nil|]. by rewrite orb_false_r.
  - fold (is_child cur x). destruct (is_child cur x) eqn:Hc; cbn [negb].
    + apply bool_decide_eq_true in Hc. destruct (is_state ZOMBIE x) eqn:Hz.
      * exists 0%nat, x. apply is_state_spec in Hz. split; [lia|done].
      * specialize (IH (S k) true). destruct (scan_children cur l (S k) true) as [[i|] r].
        -- destruct IH as (j & p & -> & Hp). exists (S j), p. split; [lia|done].
        -- destruct IH as [IH1 IH2]. split; [|by rewrite IH2, orb_true_r].
           intros p [->|Hp]%elem_of_cons Hpar; [|by apply IH1]. intros H. apply is_state_spec in H. congruence.
    + specialize (IH (S k) hk). destruct (scan_children cur l (S k) hk) as [[i|] r].
      * destruct IH as (j & p & -> & Hp). exists (S j), p. split; [lia|done].
      * destruct IH as [IH1 IH2]. split; [|done].
        intros p [->|Hp]%elem_of_cons Hpar; [|by apply IH1]. unfold is_child in Hc.
        by rewrite bool_decide_eq_false in Hc.
Qed.

Definition reaped (p : proc) : proc :=
  set_state UNUSED (set_killed false (set_name (<[0%nat := 0]> (name p)) (set_parent None (set_pid 0 (set_kstack 0 p))))).

Lemma reap_run s i p e1 e2 :
  ptable s !! i = Some p -> e_kfree (kstack p) (env s) = (Ok tt, e1) -> e_freevm (pgdir p) e1 = (Ok tt, e2) ->
  reap i s = (Ok (pid p), set_env e2 (set_ptable (<[i := reaped p]> (ptable s)) s)).
Proof.
  intros Hp Hk Hf. unfold reap. destruct s. simpl in *. pstep1.
  erewrite (bind_ok (call (e_kfree _))) by (unfold call, zoom; pcbn; by rewrite Hk). pcbn.
  do 2 pstep1. cbn [pgdir set_kstack].
  erewrite (bind_ok (call (e_freevm _))) by (unfold call, zoom; pcbn; by rewrite Hf). pcbn.
  do 5 pstep1. unfold reaped. reflexivity.
Qed.

Lemma wait_acquire s :
  held s = [] -> wait s = wait_turn (set_held [LPtable] s).
Proof.
  intros Hh. unfold wait. erewrite bind_ok by (apply acquire_run; rewrite Hh; apply not_elem_of_nil).
  by rewrite Hh.
Qed.

Lemma wait_turn_reap s cur i b p e1 e2 :
  held s = [LPtable] -> cpu_proc s = Some cur -> scan_children cur (ptable s) 0 false = (Some i, b) ->
  ptable s !! i = Some p ->
  e_kfree (kstack p) (env s) = (Ok tt, e1) -> e_freevm (pgdir p) e1 = (Ok tt, e2) ->
  wait_turn s = (Ok (Reaped (pid p)),
    set_held [] (set_env e2 (set_ptable (<[i := reaped p]> (ptable s)) s))).
Proof.
  intros Hh Hc Hs Hp Hk Hf. unfold wait_turn, curproc.
  erewrite (bind_ok (bind _ _)) by (mrun; by rewrite Hc).
  rewrite (bind_ok (gets ptable) _ _ _ _ eq_refl), Hs.
  rewrite (bind_ok _ _ _ _ _ (reap_run s i p e1 e2 Hp Hk Hf)).
  erewrite (bind_ok (release _)); [|eapply release_run; [exact Hh|apply not_elem_of_nil]]. done.
Qed.

Lemma wait_turn_none s cur x b :
  held s = [LPtable] -> cpu_proc s = Some cur -> ptable s !! cur = Some x ->
  scan_children cur (ptable s) 0 false = (None, b) ->
  wait_turn s = if negb b || killed x then (Ok NoChildren, set_held [] s)
    else (Ok (Waiting (intena s)),
          set_held [LPtable] (set_ptable (<[cur := set_state SLEEPING (set_pchan (CProc cur) x)]> (ptable s)) s)).
Proof.
  intros Hh Hc Hx Hs. unfold wait_turn, curproc. erewrite (bind_ok (bind _ _)) by (mrun; by rewrite Hc).
  rewrite (bind_ok (gets ptable) _ _ _ _ eq_refl), Hs.
  rewrite (bind_ok _ _ _ _ _ (getp_run cur x s Hx)). destruct (negb b || killed x).
  - erewrite (bind_ok (release _)); [|eapply release_run; [exact Hh|apply not_elem_of_nil]]. done.
  - rewrite (bind_ok _ _ _ _ _ (sleep_enter_run s cur x (CProc cur) LPtable Hc Hx Hh)). done.
Qed.
End Table.
