(* ===== verification/Sched.v ===== *)
(** The multi-level scheduler: [scheduler], [run_p] and the three policies of
    [src/proc.c], with [switchkvm] of [src/vm.c].

    Level 0 is a lottery, level 1 highest response ratio next (HRRN, in IEEE
    double arithmetic), level 2 lowest remaining priority.  What a process does
    between the switch to it and its switch back is the parameter [run]. *)

From Stdlib Require Import ZArith Lia Floats.SpecFloat.
From stdpp Require Import base list strings.
From S2P Require Import Prelude Kstring Proc.
Local Open Scope Z_scope.

Section Scheduler.
Context {E : Type} {ENV : Env E}.
Abbreviation PM := (M (pstate E)).
Implicit Types s : pstate E.

(** The kernel page table, and the execution of process [p] until it switches
    back to the scheduler. *)
Context (kpgdir : Z) (run : nat -> PM unit).

Definition switchkvm : PM unit := modify (fun s => set_mmu (esp0 s) (V2P kpgdir) s).

(** [run_p] up to the switch ([true] when it switches) and after it. *)
Definition run_p_enter (p : nat) : PM bool :=
  updp p (fun x => set_cycleNum (double_add (cycleNum x) (double_of_Z 1)) x) ;;
  x <- getp p ;;
  if negb (is_state RUNNABLE x) then ret false else
  modify (set_cpu_proc (Some p)) ;;
  switchuvm p ;;
  updp p (set_state RUNNING) ;;
  ret true.
Definition run_p_exit : PM unit := switchkvm ;; modify (set_cpu_proc None).

Definition run_p (p : nat) : PM unit :=
  sw <- run_p_enter p ;;
  if (sw : bool) then run p ;; run_p_exit else ret tt.

(** The scan of [run_third_level_processes]. *)
Definition third_scan (l : list proc) : Z * Z :=
  fold_left (fun '(m, mp) p =>
    if (level p =? 2) && is_state RUNNABLE p && (remaining_priority p <? m)
    then (remaining_priority p, pid p) else (m, mp)) l (1000000000, -1).

Definition run_third_level_processes : PM unit :=
  l <- gets ptable ;;
  let mp := snd (third_scan l) in
  for_procs (fun i =>
    p <- getp i ;;
    if pid p =? mp then
      (if 0 <=? remaining_priority p - 1
       then updp i (set_remaining_priority (remaining_priority p - 1)) else ret tt) ;;
      run_p i
    else ret tt).

(** [waiting_time / p->cycleNum]; the subtraction is unsigned. *)
Definition hrrn (now : Z) (p : proc) : double :=
  double_div (double_of_Z (u32 (now - arrTime p))) (cycleNum p).

Definition second_scan (now : Z) (l : list proc) : double * Z :=
  fold_left (fun '(m, mp) p =>
    if (level p =? 1) && is_state RUNNABLE p && SFltb m (hrrn now p)
    then (hrrn now p, pid p) else (m, mp)) l (double_of_Z (-1), -1).

Definition run_second_level_processes : PM unit :=
  acquire LTicks ;;
  now <- gets ticks ;;
  release LTicks ;;
  l <- gets ptable ;;
  let mp := snd (second_scan now l) in
  for_procs (fun i => p <- getp i ;; if pid p =? mp then run_p i else ret tt).

(** The tickets of level 0, in [int] arithmetic. *)
Definition max_ticket_number (l : list proc) : Z :=
  fold_left (fun t p => if level p =? 0 then s32 (t + ticket p) else t) l 0.

(** [(rand * 11 + 13) % max_ticket_number + 1], computed unsigned. *)
Definition random_ticket (rand total : Z) : Z := s32 (u32 (rand * 11 + 13) mod u32 total + 1).

(** The loop that draws; [rc] is [random_counter]. *)
Fixpoint lottery (rt rc : Z) (i n : nat) : PM unit :=
  match n with
  | O => ret tt
  | S k =>
      p <- getp i ;;
      if level p =? 0 then
        let rc := s32 (rc + ticket p) in
        (if rt <=? rc then run_p i else ret tt) ;;
        lottery rt rc (S i) k
      else lottery rt rc (S i) k
  end.

Definition run_first_level_processes : PM unit :=
  l <- gets ptable ;;
  let total := max_ticket_number l in
  acquire LTicks ;;
  rand <- gets ticks ;;
  release LTicks ;;
  if u32 total =? 0 then ub "division by zero" else
  lottery (random_ticket rand total) 0 0 NPROC.

(** One pass over the table for a level: run the policy for every runnable
    process of that level met; the result is [ran]. *)
Fixpoint level_pass (lev : Z) (policy : PM unit) (i n : nat) (ran : bool) : PM bool :=
  match n with
  | O => ret ran
  | S k =>
      p <- getp i ;;
      if (level p =? lev) && is_state RUNNABLE p
      then policy ;; level_pass lev policy (S i) k true
      else level_pass lev policy (S i) k ran
  end.

(** The body of the loop of [scheduler], from [sti] to the release. *)
Definition scheduler_round : PM unit :=
  acquire LPtable ;;
  r0 <- level_pass 0 run_first_level_processes 0 NPROC false ;;
  if (r0 : bool) then release LPtable else
  r1 <- level_pass 1 run_second_level_processes 0 NPROC false ;;
  if (r1 : bool) then release LPtable else
  level_pass 2 run_third_level_processes 0 NPROC false ;;
  release LPtable.

Fixpoint scheduler_loop (n : nat) : PM unit :=
  match n with O => ret tt | S k => scheduler_round ;; scheduler_loop k end.

(** [scheduler], for [n] turns of its endless loop. *)
Definition scheduler (n : nat) : PM unit := modify (set_cpu_proc None) ;; scheduler_loop n.
End Scheduler.

(** ** Order on doubles *)

(** A position on the line for every double but NaN: the comparison of the
    specification is lexicographic in it. *)
Definition fkey (f : spec_float) : Z * Z * Z :=
  match f with
  | S754_nan => (-3, 0, 0)
  | S754_infinity true => (-2, 0, 0)
  | S754_finite true m e => (-1, - e, - Z.pos m)
  | S754_zero _ => (0, 0, 0)
  | S754_finite false m e => (1, e, Z.pos m)
  | S754_infinity false => (2, 0, 0)
  end.

Definition key_lt (a b : Z * Z * Z) : Prop :=
  let '(a1, a2, a3) := a in let '(b1, b2, b3) := b in
  a1 < b1 \/ (a1 = b1 /\ (a2 < b2 \/ (a2 = b2 /\ a3 < b3))).

Lemma SFltb_key f g :
  f <> S754_nan -> g <> S754_nan -> SFltb f g = true <-> key_lt (fkey f) (fkey g).
Proof.
  intros Hf Hg. unfold SFltb.
  destruct f as [sf|[]| |[] m e], g as [sg|[]| |[] m' e']; try congruence; simpl;
    try (split; [done|lia]); try (split; [lia|done]).
  all: change (Pos.compare_cont Eq m m') with (Pos.compare m m');
    destruct (Z.compare_spec e e'), (Pos.compare_spec m m'); simpl; split; (done || lia).
Qed.

Lemma SFltb_nan_l g : SFltb S754_nan g = false.
Proof. done. Qed.
Lemma SFltb_nan_r f : SFltb f S754_nan = false.
Proof. by destruct f as [|[]| |[]]. Qed.

Lemma SFltb_not_nan f g : SFltb f g = true -> f <> S754_nan /\ g <> S754_nan.
Proof. intros H. split; intros ->; [by rewrite SFltb_nan_l in H|by rewrite SFltb_nan_r in H]. Qed.

(** Raising the maximum never loses a comparison already made. *)
Lemma SFltb_raise f m1 m2 : SFltb m1 f = false -> SFltb m1 m2 = true -> SFltb m2 f = false.
Proof.
  intros H1 H2. destruct (SFltb m2 f) eqn:H3; [|done]. exfalso.
  destruct (SFltb_not_nan _ _ H2) as [N1 N2], (SFltb_not_nan _ _ H3) as [_ N3].
  apply SFltb_key in H2, H3; try done.
  assert (SFltb m1 f = true) as Hc; [|congruence]. apply SFltb_key; [done|done|].
  destruct (fkey m1) as [[a1 a2] a3], (fkey m2) as [[b1 b2] b3], (fkey f) as [[c1 c2] c3].
  unfold key_lt in *. lia.
Qed.

Lemma SFltb_irrefl f : SFltb f f = false.
Proof.
  destruct (SFltb f f) eqn:H; [|done]. exfalso. pose proof (SFltb_not_nan f f H) as [N _].
  apply SFltb_key in H; [|done|done]. destruct (fkey f) as [[a1 a2] a3]. unfold key_lt in H. lia.
Qed.

(** ** The choice of a level

    Both scans keep the best candidate so far and its pid; [better m k] says that
    the key [k] beats the best key [m]. *)
Section Scan.
Context {K : Type} (cand : proc -> bool) (key : proc -> K) (better : K -> K -> bool).

Definition scan (l : list proc) (a : K * Z) : K * Z :=
  fold_left (fun '(m, mp) p => if cand p && better m (key p) then (key p, pid p) else (m, mp)) l a.

Hypothesis better_irrefl : forall k, better k k = false.
Hypothesis better_raise : forall f m1 m2, better m1 f = false -> better m1 m2 = true -> better m2 f = false.

(** The scan ends with its start, which no candidate beats, or with a candidate
    that no candidate beats. *)
Lemma scan_best l : forall m mp,
  let r := scan l (m, mp) in
  (r = (m, mp) \/ exists i p, l !! i = Some p /\ cand p = true /\ r = (key p, pid p) /\ better m (key p) = true)
  /\ (forall q, q ∈ l -> cand q = true -> better (fst r) (key q) = false)
  /\ (forall f, better m f = false -> better (fst r) f = false).
Proof.
  induction l as [|x l IH]; intros m mp; cbn [scan fold_left].
  - split; [by left|]. split; [by intros q ?%elem_of_nil|done].
  - destruct (cand x && better m (key x)) eqn:Hx.
    + apply andb_true_iff in Hx as [Hc Hb]. destruct (IH (key x) (pid x)) as (H1 & H2 & H3).
      fold (scan l (key x, pid x)). split; [|split].
      * right. destruct H1 as [H1|(i & p & Hp & Hcp & H1 & H1')].
        -- exists 0%nat, x. rewrite H1. done.
        -- exists (S i), p. split; [done|]. split; [done|]. split; [done|].
           destruct (better m (key p)) eqn:Hm; [done|]. by rewrite (better_raise _ _ _ Hm Hb) in H1'.
      * intros q [->|Hq]%elem_of_cons Hcq; [|by apply H2]. by apply H3.
      * intros f Hf. apply H3. by eapply better_raise.
    + destruct (IH m mp) as (H1 & H2 & H3). fold (scan l (m, mp)). split; [|split].
      * destruct H1 as [H1|(i & p & Hp & H1)]; [by left|]. right. by exists (S i), p.
      * intros q [->|Hq]%elem_of_cons Hcq; [|by apply H2]. rewrite Hcq in Hx. by apply H3.
      * done.
Qed.
End Scan.

Definition level_cand (lev : Z) (p : proc) : bool := (level p =? lev) && is_state RUNNABLE p.

Lemma second_scan_scan now l :
  second_scan now l = scan (level_cand 1) (hrrn now) SFltb l (double_of_Z (-1), -1).
Proof. done. Qed.

Lemma third_scan_scan l :
  third_scan l = scan (level_cand 2) remaining_priority (fun m k => k <? m) l (1000000000, -1).
Proof. done. Qed.

(** Level 1 chooses by the highest response ratio. *)
Lemma hrrn_choice (now : Z) (l : list proc) :
  (exists q, q ∈ l /\ level_cand 1 q = true /\ SFltb (double_of_Z (-1)) (hrrn now q) = true) ->
  exists i p, l !! i = Some p /\ level p = 1 /\ state p = RUNNABLE
    /\ second_scan now l = (hrrn now p, pid p)
    /\ forall q, q ∈ l -> level_cand 1 q = true -> SFltb (hrrn now p) (hrrn now q) = false.
Proof.
  intros (q & Hq & Hcq & Hlt). rewrite second_scan_scan.
  destruct (scan_best (level_cand 1) (hrrn now) SFltb SFltb_irrefl SFltb_raise l (double_of_Z (-1)) (-1)) as (H1 & H2 & _).
  destruct H1 as [H1|(i & p & Hp & Hc & H1 & _)].
  - specialize (H2 q Hq Hcq). cbn zeta in H2. rewrite H1 in H2. cbn [fst] in H2. congruence.
  - apply andb_true_iff in Hc as Hc'. destruct Hc' as [Hl%Z.eqb_eq Hs%is_state_spec].
    exists i, p. rewrite H1 in *. done.
Qed.

(** Level 2 chooses by the least remaining priority. *)
Lemma priority_choice (l : list proc) :
  (exists q, q ∈ l /\ level_cand 2 q = true /\ remaining_priority q < 1000000000) ->
  exists i p, l !! i = Some p /\ level p = 2 /\ state p = RUNNABLE
    /\ third_scan l = (remaining_priority p, pid p)
    /\ forall q, q ∈ l -> level_cand 2 q = true -> remaining_priority p <= remaining_priority q.
Proof.
  intros (q & Hq & Hcq & Hlt). rewrite third_scan_scan.
  assert (Hr : forall f m1 m2 : Z, (f <? m1) = false -> (m2 <? m1) = true -> (f <? m2) = false) by (intros; lia).
  destruct (scan_best (level_cand 2) remaining_priority (fun m k => k <? m) Z.ltb_irrefl Hr l 1000000000 (-1)) as (H1 & H2 & _).
  destruct H1 as [H1|(i & p & Hp & Hc & H1 & _)].
  - specialize (H2 q Hq Hcq). rewrite H1 in H2. simpl in H2. lia.
  - apply andb_true_iff in Hc as Hc'. destruct Hc' as [Hl%Z.eqb_eq Hs%is_state_spec].
    exists i, p. rewrite H1 in *. split; [done|]. split; [done|]. split; [done|]. split; [done|].
    intros r Hr' Hcr. specialize (H2 r Hr' Hcr). simpl in H2. lia.
Qed.

(** ** What a policy runs *)
Section Policies.
Context {E : Type} {ENV : Env E} (kpgdir : Z) (run : nat -> M (pstate E) unit).
Implicit Types s : pstate E.

(** A loop that acts on the slots with pid [n] does nothing where there is none. *)
Lemma for_from_skip (act : nat -> proc -> M (pstate E) unit) n k : forall i s,
  (forall j p, (i <= j < i + k)%nat -> ptable s !! j = Some p -> pid p <> n) ->
  (i + k <= length (ptable s))%nat ->
  for_from (fun i => p <- getp i ;; if pid p =? n then act i p else ret tt) i k s = (Ok tt, s).
Proof.
  induction k as [|k IH]; intros i s Hno Hl; cbn [for_from]; [done|].
  destruct (lookup_lt_is_Some_2 (ptable s) i ltac:(lia)) as [p Hp].
  rewrite (bind_ok _ _ _ s tt).
  - apply IH; [|lia]. intros j q Hj. apply Hno. lia.
  - rewrite (bind_ok _ _ _ _ _ (getp_run i p s Hp)).
    rewrite (proj2 (Z.eqb_neq _ _) (Hno i p ltac:(lia) Hp)). done.
Qed.

Lemma for_from_split (body : nat -> M (pstate E) unit) a b : forall i s,
  for_from body i (a + b) s = (for_from body i a ;; for_from body (i + a) b) s.
Proof.
  induction a as [|a IH]; intros i s; cbn [for_from Nat.add].
  - unfold bind, ret. by rewrite Nat.add_0_r.
  - unfold bind. destruct (body i s) as [[[]| | | |] s1]; try done. rewrite IH. unfold bind.
    by rewrite <- Nat.add_succ_comm.
Qed.

(** It acts once where there is one, if the action leaves no other behind. *)
Lemma for_procs_one (act : nat -> proc -> M (pstate E) unit) n i p s s' :
  length (ptable s) = NPROC -> length (ptable s') = NPROC -> ptable s !! i = Some p -> pid p = n ->
  (forall j q, j <> i -> ptable s !! j = Some q -> pid q <> n) ->
  act i p s = (Ok tt, s') ->
  (forall j q, (i < j)%nat -> ptable s' !! j = Some q -> pid q <> n) ->
  for_procs (fun i => p <- getp i ;; if pid p =? n then act i p else ret tt) s = (Ok tt, s').
Proof.
  intros Hl Hl' Hp Hn Hother Hact Hafter. pose proof (lookup_lt_Some _ _ _ Hp) as Hi. rewrite Hl in Hi.
  unfold for_procs. replace NPROC with (i + S (NPROC - S i))%nat at 1 by lia. rewrite for_from_split.
  rewrite (bind_ok _ _ _ s tt); [|apply for_from_skip; [intros j q Hj; apply Hother; lia|lia]].
  cbn [for_from Nat.add]. rewrite (bind_ok _ _ _ s' tt).
  - apply for_from_skip; [|lia]. intros j q Hj. apply Hafter. lia.
  - rewrite (bind_ok _ _ _ _ _ (getp_run i p s Hp)). rewrite Hn, Z.eqb_refl. done.
Qed.

(** Reading the clock under its lock. *)
Lemma read_ticks {A} s (k : Z -> M (pstate E) A) :
  held s = [LPtable] ->
  (acquire LTicks ;; r <- gets ticks ;; release LTicks ;; k r) s = k (ticks s) s.
Proof. intros Hh. destruct s. simpl in *. subst. by do 3 pstep1. Qed.

(** No two slots have the same pid, apart from the free ones, whose pid is 0. *)
Definition pids_distinct (l : list proc) : Prop :=
  forall i j p q, l !! i = Some p -> l !! j = Some q -> pid p = pid q -> pid p <> 0 -> i = j.

(** a call of the level 1 policy runs exactly one process: a runnable process
    of the level whose response ratio, as a double, no runnable process of the
    level exceeds.  ([s'] is the state when that process has switched back; pids
    are not reused, so no later slot carries its pid.) *)
Theorem second_level_runs_best s :
  held s = [LPtable] -> length (ptable s) = NPROC -> pids_distinct (ptable s) ->
  (forall p, p ∈ ptable s -> state p = RUNNABLE -> 0 < pid p) ->
  (exists q, q ∈ ptable s /\ level_cand 1 q = true /\ SFltb (double_of_Z (-1)) (hrrn (ticks s) q) = true) ->
  exists i p, ptable s !! i = Some p /\ level p = 1 /\ state p = RUNNABLE
    /\ (forall q, q ∈ ptable s -> level_cand 1 q = true -> SFltb (hrrn (ticks s) p) (hrrn (ticks s) q) = false)
    /\ forall s', run_p kpgdir run i s = (Ok tt, s') -> length (ptable s') = NPROC ->
         (forall j q, (i < j)%nat -> ptable s' !! j = Some q -> pid q <> pid p) ->
         run_second_level_processes kpgdir run s = (Ok tt, s').
Proof.
  intros Hh Hl Hd Hpos Hex. destruct (hrrn_choice _ _ Hex) as (i & p & Hp & Hlev & Hst & Hscan & Hbest).
  exists i, p. do 4 (split; [done|]). intros s' Hrun Hl' Hafter.
  assert (Hpp : 0 < pid p) by (apply Hpos; [by eapply list_elem_of_lookup_2|done]).
  unfold run_second_level_processes.
  rewrite (read_ticks s (fun now => l <- gets ptable ;; for_procs (fun i => p <- getp i ;;
             if pid p =? snd (second_scan now l) then run_p kpgdir run i else ret tt))) by done.
  rewrite (bind_ok (gets ptable) _ s _ _ eq_refl), Hscan. cbn [snd].
  apply (for_procs_one (fun i _ => run_p kpgdir run i) (pid p) i p); try done.
  intros j q Hj Hq Heq. apply Hj. eapply Hd; [exact Hq|exact Hp|done|lia].
Qed.

(** The step of level 2: the priority goes down by one, not below zero, and the
    process runs. *)
Definition third_step (i : nat) (p : proc) : M (pstate E) unit :=
  (if 0 <=? remaining_priority p - 1
   then updp i (set_remaining_priority (remaining_priority p - 1)) else ret tt) ;;
  run_p kpgdir run i.

(** a call of the level 2 policy runs exactly one process, a runnable process
    of the level with the least remaining priority, after lowering that priority
    by one (but not below zero). *)
Theorem third_level_runs_least s :
  length (ptable s) = NPROC -> pids_distinct (ptable s) ->
  (forall p, p ∈ ptable s -> state p = RUNNABLE -> 0 < pid p) ->
  (exists q, q ∈ ptable s /\ level_cand 2 q = true /\ remaining_priority q < 1000000000) ->
  exists i p, ptable s !! i = Some p /\ level p = 2 /\ state p = RUNNABLE
    /\ (forall q, q ∈ ptable s -> level_cand 2 q = true -> remaining_priority p <= remaining_priority q)
    /\ forall s', third_step i p s = (Ok tt, s') -> length (ptable s') = NPROC ->
         (forall j q, (i < j)%nat -> ptable s' !! j = Some q -> pid q <> pid p) ->
         run_third_level_processes kpgdir run s = (Ok tt, s').
Proof.
  intros Hl Hd Hpos Hex. destruct (priority_choice _ Hex) as (i & p & Hp & Hlev & Hst & Hscan & Hbest).
  exists i, p. do 4 (split; [done|]). intros s' Hrun Hl' Hafter.
  assert (Hpp : 0 < pid p) by (apply Hpos; [by eapply list_elem_of_lookup_2|done]).
  unfold run_third_level_processes. rewrite (bind_ok (gets ptable) _ s _ _ eq_refl), Hscan. cbn [snd].
  apply (for_procs_one third_step (pid p) i p); try done.
  intros j q Hj Hq Heq. apply Hj. eapply Hd; [exact Hq|exact Hp|done|lia].
Qed.

(** *** The lottery *)

(** The tickets of the level 0 slots before slot [k]. *)
Definition tickets_before (l : list proc) (k : nat) : Z :=
  foldr (fun p t => (if level p =? 0 then ticket p else 0) + t) 0 (take k l).
Definition tickets (l : list proc) : Z := tickets_before l (length l).

Lemma tickets_before_S l k p :
  l !! k = Some p -> tickets_before l (S k) = tickets_before l k + (if level p =? 0 then ticket p else 0).
Proof.
  intros H. unfold tickets_before. rewrite (take_S_r _ _ p) by done. rewrite foldr_app. simpl.
  generalize (if level p =? 0 then ticket p else 0). intros t.
  induction (take k l) as [|x m IH]; simpl; [lia|]. rewrite IH. lia.
Qed.

Definition tickets_ok (l : list proc) : Prop :=
  Forall (fun p => level p = 0 -> 0 <= ticket p) l /\ tickets l < 2 ^ 31.

Lemma foldr_tickets_nonneg l :
  Forall (fun p => level p = 0 -> 0 <= ticket p) l ->
  0 <= foldr (fun p t => (if level p =? 0 then ticket p else 0) + t) 0 l.
Proof. induction 1 as [|p l Hp _ IH]; simpl; [lia|]. zcases; [specialize (Hp e)|]; lia. Qed.

Lemma tickets_before_mono l k k' :
  tickets_ok l -> (k <= k')%nat -> tickets_before l k <= tickets_before l k'.
Proof.
  intros [Hok _] Hk. induction Hk as [|k' Hk IH]; [lia|].
  destruct (l !! k') as [p|] eqn:Hp.
  - rewrite (tickets_before_S l k' p Hp). rewrite Forall_lookup in Hok. specialize (Hok _ _ Hp). zcases; [specialize (Hok e)|]; lia.
  - unfold tickets_before at 2. apply lookup_ge_None in Hp. rewrite take_ge by lia.
    unfold tickets_before in IH. rewrite (take_ge l k') in IH by lia. done.
Qed.

Lemma tickets_before_bounds l k : tickets_ok l -> 0 <= tickets_before l k < 2 ^ 31.
Proof.
  intros Hok. split; [apply (tickets_before_mono l 0 k Hok); lia|].
  destruct (decide (k <= length l)%nat) as [H|H].
  - pose proof (tickets_before_mono l k (length l) Hok H). destruct Hok as [_ ?]. unfold tickets in *. lia.
  - unfold tickets_before. rewrite take_ge by lia. destruct Hok as [_ Ht]. unfold tickets, tickets_before in Ht.
    by rewrite take_ge in Ht by lia.
Qed.

Lemma max_ticket_number_run l : forall t,
  0 <= t -> Forall (fun p => level p = 0 -> 0 <= ticket p) l ->
  t + foldr (fun p t => (if level p =? 0 then ticket p else 0) + t) 0 l < 2 ^ 31 ->
  fold_left (fun t p => if level p =? 0 then s32 (t + ticket p) else t) l t
  = t + foldr (fun p t => (if level p =? 0 then ticket p else 0) + t) 0 l.
Proof.
  induction l as [|p l IH]; intros t Ht Hok Hb; simpl in *; [lia|].
  apply Forall_cons_1 in Hok as [Hp Hok]. pose proof (foldr_tickets_nonneg l Hok) as Hn.
  destruct (Z.eqb_spec (level p) 0) as [Hl|Hl].
  - specialize (Hp Hl). rewrite s32_id by lia. rewrite IH; [lia|lia|done|lia].
  - rewrite IH; [lia|lia|done|lia].
Qed.

Lemma max_ticket_number_tickets l : tickets_ok l -> max_ticket_number l = tickets l.
Proof.
  intros [Hok Hb]. unfold max_ticket_number, tickets, tickets_before in *. rewrite take_ge in * by lia.
  rewrite max_ticket_number_run; [lia|lia|done|lia].
Qed.

Lemma random_ticket_range rand total :
  0 < total < 2 ^ 31 -> 1 <= random_ticket rand total <= total.
Proof.
  intros H. unfold random_ticket. rewrite (u32_id total) by lia.
  pose proof (Z.mod_pos_bound (u32 (rand * 11 + 13)) total). rewrite s32_id; lia.
Qed.

(** The draw skips the slots whose tickets end before [rt]. *)
Lemma lottery_skips rt n : forall i s,
  tickets_ok (ptable s) -> (i + n <= length (ptable s))%nat ->
  tickets_before (ptable s) i < rt <= tickets_before (ptable s) (i + n) ->
  exists w p, (i <= w < i + n)%nat /\ ptable s !! w = Some p /\ level p = 0
    /\ tickets_before (ptable s) w < rt <= tickets_before (ptable s) w + ticket p
    /\ lottery kpgdir run rt (tickets_before (ptable s) i) i n s
       = (run_p kpgdir run w ;;
          lottery kpgdir run rt (tickets_before (ptable s) (S w)) (S w) (i + n - S w)) s.
Proof.
  induction n as [|n IH]; intros i s Hok Hl Hrt; [rewrite Nat.add_0_r in Hrt; lia|].
  destruct (lookup_lt_is_Some_2 (ptable s) i ltac:(lia)) as [p Hp].
  pose proof (tickets_before_S _ _ _ Hp) as HS. cbn [lottery].
  rewrite (bind_ok _ _ _ _ _ (getp_run i p s Hp)).
  replace (i + S n)%nat with (S i + n)%nat in * by lia.
  pose proof (tickets_before_bounds _ (S i) Hok) as Hb.
  destruct (Z.eqb_spec (level p) 0) as [Hlev|Hlev].
  - rewrite <- HS, s32_id by lia. destruct (Z.leb_spec rt (tickets_before (ptable s) (S i))) as [Hle|Hgt].
    + exists i, p. replace (S i + n - S i)%nat with n by lia. split; [lia|]. split; [done|]. split; [done|]. split; [lia|done].
    + destruct (IH (S i) s Hok ltac:(lia) ltac:(lia)) as (w & q & Hw & Hq & Hq0 & Hrw & Hrun).
      exists w, q. split; [lia|]. split; [done|]. split; [done|]. split; [done|]. exact Hrun.
  - rewrite Z.add_0_r in HS. rewrite <- HS.
    destruct (IH (S i) s Hok ltac:(lia) ltac:(lia)) as (w & q & Hw & Hq & Hq0 & Hrw & Hrun).
    exists w, q. split; [lia|]. split; [done|]. split; [done|]. split; [done|]. exact Hrun.
Qed.

(** the draw of level 0.  With tickets that are not negative and do not
    overflow, and at least one of them, the number drawn is between 1 and the
    number of tickets, and the process that runs first is the one among whose
    tickets it falls: slot [w] wins for exactly [ticket] of the numbers, those
    between the tickets of the slots before it and its own.  (The slots after it
    are then tried too: the loop goes on.) *)
Theorem lottery_draw s :
  held s = [LPtable] -> length (ptable s) = NPROC -> tickets_ok (ptable s) -> 0 < tickets (ptable s) ->
  let rt := random_ticket (ticks s) (tickets (ptable s)) in
  1 <= rt <= tickets (ptable s)
  /\ exists w p, ptable s !! w = Some p /\ level p = 0
       /\ tickets_before (ptable s) w < rt <= tickets_before (ptable s) w + ticket p
       /\ run_first_level_processes kpgdir run s
          = (run_p kpgdir run w ;;
             lottery kpgdir run rt (tickets_before (ptable s) (S w)) (S w) (NPROC - S w)) s.
Proof.
  intros Hh Hl Hok Hpos rt. pose proof Hok as [_ Hb].
  assert (Hrt : 1 <= rt <= tickets (ptable s)) by (apply random_ticket_range; lia).
  split; [done|].
  destruct (lottery_skips rt NPROC 0 s Hok) as (w & p & Hw & Hp & Hp0 & Hrw & Hrun).
  - lia.
  - change (tickets_before (ptable s) 0) with 0. rewrite Nat.add_0_l, <- Hl. unfold tickets in Hrt. lia.
  - exists w, p. do 3 (split; [done|]). rewrite Nat.add_0_l in Hrun. rewrite <- Hrun.
    change (tickets_before (ptable s) 0) with 0. unfold run_first_level_processes, rt.
    rewrite (bind_ok (gets ptable) _ s _ _ eq_refl). rewrite max_ticket_number_tickets by done.
    rewrite (read_ticks s (fun r => if u32 (tickets (ptable s)) =? 0 then ub "division by zero" else
                              lottery kpgdir run (random_ticket r (tickets (ptable s))) 0 0 NPROC)) by done.
    by rewrite (proj2 (Z.eqb_neq (u32 (tickets (ptable s))) 0)) by (rewrite u32_id; lia).
Qed.

(** *** The levels *)

Lemma level_pass_ran lev pol n : forall i s b s',
  level_pass (E := E) lev pol i n true s = (Ok b, s') -> b = true.
Proof.
  induction n as [|n IH]; intros i s b s' H; cbn [level_pass] in H; [mrun_in H; congruence|].
  unfold bind at 1 in H. destruct (getp i s) as [[p| | | |] s1]; try done.
  destruct (_ && _); [|by eapply IH]. unfold bind at 1 in H.
  destruct (pol s1) as [[[]| | | |] s2]; try done. by eapply IH.
Qed.

Lemma level_pass_none lev pol n : forall i s b,
  (i + n <= length (ptable s))%nat ->
  (forall j p, (i <= j < i + n)%nat -> ptable s !! j = Some p -> level_cand lev p = false) ->
  level_pass lev pol i n b s = (Ok b, s).
Proof.
  induction n as [|n IH]; intros i s b Hl Hno; cbn [level_pass]; [done|].
  destruct (lookup_lt_is_Some_2 (ptable s) i ltac:(lia)) as [p Hp].
  rewrite (bind_ok _ _ _ _ _ (getp_run i p s Hp)). fold (level_cand lev p).
  rewrite (Hno i p ltac:(lia) Hp). apply IH; [lia|]. intros j q Hj. apply Hno. lia.
Qed.

Lemma level_pass_some lev pol n : forall i s b c s',
  (exists j p, (i <= j < i + n)%nat /\ ptable s !! j = Some p /\ level_cand lev p = true) ->
  (i + n <= length (ptable s))%nat ->
  level_pass lev pol i n b s = (Ok c, s') -> c = true.
Proof.
  induction n as [|n IH]; intros i s b c s' (j & p & Hj & Hp & Hc) Hl H; [lia|]. cbn [level_pass] in H.
  destruct (lookup_lt_is_Some_2 (ptable s) i ltac:(lia)) as [q Hq].
  rewrite (bind_ok _ _ _ _ _ (getp_run i q s Hq)) in H. fold (level_cand lev q) in H.
  destruct (level_cand lev q) eqn:Hcq.
  - unfold bind at 1 in H. destruct (pol s) as [[[]| | | |] s2]; try done. by eapply level_pass_ran.
  - apply (IH (S i) s b c s'); [|lia|exact H]. exists j, p. split; [|done].
    destruct (decide (j = i)) as [->|]; [congruence|lia].
Qed.

Definition has_cand (lev : Z) (l : list proc) : Prop := exists i p, l !! i = Some p /\ level_cand lev p = true.

Lemma no_cand lev l : ~ has_cand lev l -> forall i p, l !! i = Some p -> level_cand lev p = false.
Proof. intros H i p Hp. destruct (level_cand lev p) eqn:Hc; [|done]. exfalso. apply H. by exists i, p. Qed.

(** A pass that finds a candidate keeps the round at its level. *)
Lemma pass_then lev pol s (k : M (pstate E) unit) :
  length (ptable s) = NPROC -> has_cand lev (ptable s) ->
  (r <- level_pass lev pol 0 NPROC false ;; if (r : bool) then release LPtable else k) s
  = (level_pass lev pol 0 NPROC false ;; release LPtable) s.
Proof.
  intros Hl (i & p & Hp & Hc). unfold bind.
  destruct (level_pass lev pol 0 NPROC false s) as [[r| | | |] s1] eqn:Hr; try done.
  rewrite (level_pass_some lev pol NPROC 0 s false r s1); [done| |lia|done].
  exists i, p. split; [|done]. apply lookup_lt_Some in Hp. lia.
Qed.

(** C37: the levels are strict: a round of the scheduler runs the policy of the
    lowest-numbered level that has a runnable process when the round starts, and
    of no other level. *)
Theorem scheduler_levels s :
  held s = [] -> length (ptable s) = NPROC ->
  let locked := set_held [LPtable] s in
  (has_cand 0 (ptable s) ->
     scheduler_round kpgdir run s
     = (level_pass 0 (run_first_level_processes kpgdir run) 0 NPROC false ;; release LPtable) locked)
  /\ (~ has_cand 0 (ptable s) -> has_cand 1 (ptable s) ->
     scheduler_round kpgdir run s
     = (level_pass 1 (run_second_level_processes kpgdir run) 0 NPROC false ;; release LPtable) locked)
  /\ (~ has_cand 0 (ptable s) -> ~ has_cand 1 (ptable s) ->
     scheduler_round kpgdir run s
     = (level_pass 2 (run_third_level_processes kpgdir run) 0 NPROC false ;; release LPtable) locked).
Proof.
  intros Hh Hl locked.
  assert (Hround : scheduler_round kpgdir run s =
    (r0 <- level_pass 0 (run_first_level_processes kpgdir run) 0 NPROC false ;;
     if (r0 : bool) then release LPtable else
     r1 <- level_pass 1 (run_second_level_processes kpgdir run) 0 NPROC false ;;
     if (r1 : bool) then release LPtable else
     level_pass 2 (run_third_level_processes kpgdir run) 0 NPROC false ;; release LPtable) locked).
  { unfold scheduler_round. erewrite (bind_ok (acquire LPtable)); [|apply acquire_run; rewrite Hh; apply not_elem_of_nil].
    unfold locked. by rewrite Hh. }
  assert (Hll : length (ptable locked) = NPROC) by done. rewrite Hround. split; [|split].
  - intros H. by apply pass_then.
  - intros H0 H1. rewrite (bind_ok _ _ locked locked false).
    + by apply pass_then.
    + apply level_pass_none; [lia|]. intros j p _ Hp. by eapply no_cand.
  - intros H0 H1. rewrite (bind_ok _ _ locked locked false).
    + rewrite (bind_ok _ _ locked locked false); [done|].
      apply level_pass_none; [lia|]. intros j p _ Hp. by eapply no_cand.
    + apply level_pass_none; [lia|]. intros j p _ Hp. by eapply no_cand.
Qed.
End Policies.

(** ** Concrete tables *)
Module Demo.

(** An environment in which every call succeeds. *)
#[export] Instance env : Env unit := {|
  e_kalloc := ret 0x80400000; e_kfree _ := ret tt; e_setupkvm := ret 0x80401000; e_inituvm _ := ret tt;
  e_allocuvm _ _ n := ret n; e_deallocuvm _ _ n := ret n; e_copyuvm _ _ := ret 0x80402000;
  e_freevm _ := ret tt; e_filedup f := ret f; e_fileclose _ := ret tt; e_idup d := ret d; e_iput _ := ret tt;
  e_begin_op := ret tt; e_end_op := ret tt; e_namei_root := ret (Some 0%nat) |}.

(** A runnable process with the given pid, level, tickets and priority. *)
Definition ready (n lev tk pr : Z) : proc :=
  set_pid n (set_level lev (set_ticket tk (set_remaining_priority pr (set_state RUNNABLE
    (set_kstack 0x80400000 (set_pgdir 0x80401000 (set_cycleNum (double_of_Z 1) proc_zero))))))).

Definition table (l : list proc) : list proc := l ++ replicate (NPROC - length l) proc_zero.

Definition start (l : list proc) : pstate unit :=
  mkP (table l) [LPtable] 10 (Some 0%nat) None 0 true 0 0 0 0 [] tt.

Definition slot_name (i : nat) : string :=
  match i with 0%nat => "slot 0" | 1%nat => "slot 1" | 2%nat => "slot 2" | _ => "other" end.

(** A process that runs until the clock interrupts it. *)
Definition run (i : nat) : M (pstate unit) unit :=
  updp i (set_state RUNNABLE) ;; modify (fun s => set_out (out s ++ [slot_name i]) s).

Lemma elem_table l p : p ∈ l -> p ∈ table l.
Proof. intros H. apply elem_of_app. by left. Qed.

(** A closed statement about all slots is decided by evaluation. *)
Definition pids_distinct_b (l : list proc) : bool :=
  forallb (fun i => forallb (fun j =>
    match l !! i, l !! j with
    | Some p, Some q => negb (pid p =? pid q) || (pid p =? 0) || (i =? j)%nat
    | _, _ => true end) (seq 0 (length l))) (seq 0 (length l)).

Lemma pids_distinct_dec l : pids_distinct_b l = true -> pids_distinct l.
Proof.
  intros H i j p q Hi Hj Heq Hne. unfold pids_distinct_b in H. rewrite forallb_forall in H.
  pose proof (lookup_lt_Some _ _ _ Hi) as Li. pose proof (lookup_lt_Some _ _ _ Hj) as Lj.
  assert (Hi' : In i (seq 0 (length l))) by (apply in_seq; lia).
  assert (Hj' : In j (seq 0 (length l))) by (apply in_seq; lia).
  specialize (H i Hi'). rewrite forallb_forall in H. specialize (H j Hj'). rewrite Hi, Hj in H.
  rewrite Heq, Z.eqb_refl in H. simpl in H. rewrite Heq in Hne. apply orb_true_iff in H as [H|H].
  - apply Z.eqb_eq in H. congruence.
  - by apply Nat.eqb_eq in H.
Qed.

Lemma runnable_pid l :
  forallb (fun p => negb (is_state RUNNABLE p) || (0 <? pid p)) l = true ->
  forall p, p ∈ l -> state p = RUNNABLE -> 0 < pid p.
Proof.
  intros H p Hp Hs. rewrite forallb_forall in H. specialize (H p). rewrite <- list_elem_of_In in H. specialize (H Hp).
  apply is_state_spec in Hs. rewrite Hs in H. simpl in H. lia.
Qed.

Definition two_hrrn : pstate unit := set_ticks 100 (start [ready 1 1 10 10; set_arrTime 90 (ready 2 1 10 10)]).

Lemma second_level_runs_best_witness :
  exists i p, ptable two_hrrn !! i = Some p /\ level p = 1 /\ state p = RUNNABLE
    /\ (forall q, q ∈ ptable two_hrrn -> level_cand 1 q = true ->
          SFltb (hrrn (ticks two_hrrn) p) (hrrn (ticks two_hrrn) q) = false)
    /\ forall s', run_p 0 run i two_hrrn = (Ok tt, s') -> length (ptable s') = NPROC ->
         (forall j q, (i < j)%nat -> ptable s' !! j = Some q -> pid q <> pid p) ->
         run_second_level_processes 0 run two_hrrn = (Ok tt, s').
Proof.
  apply (second_level_runs_best 0 run two_hrrn); [reflexivity|reflexivity| | |].
  - apply pids_distinct_dec. vm_compute. reflexivity.
  - apply runnable_pid. vm_compute. reflexivity.
  - exists (ready 1 1 10 10). split; [apply elem_table; left|]. split; vm_compute; reflexivity.
Defined.

Definition two_prio : pstate unit := start [ready 1 2 10 7; ready 2 2 10 3].

Lemma third_level_runs_least_witness :
  exists i p, ptable two_prio !! i = Some p /\ level p = 2 /\ state p = RUNNABLE
    /\ (forall q, q ∈ ptable two_prio -> level_cand 2 q = true -> remaining_priority p <= remaining_priority q)
    /\ forall s', third_step 0 run i p two_prio = (Ok tt, s') -> length (ptable s') = NPROC ->
         (forall j q, (i < j)%nat -> ptable s' !! j = Some q -> pid q <> pid p) ->
         run_third_level_processes 0 run two_prio = (Ok tt, s').
Proof.
  apply (third_level_runs_least 0 run two_prio); [reflexivity| | |].
  - apply pids_distinct_dec. vm_compute. reflexivity.
  - apply runnable_pid. vm_compute. reflexivity.
  - exists (ready 1 2 10 7). split; [apply elem_table; left|]. split; [vm_compute; reflexivity|cbn; lia].
Defined.

Definition three_lots : pstate unit := start [ready 1 0 10 10; ready 2 0 10 10; ready 3 0 10 10].

Lemma three_lots_ok : tickets_ok (ptable three_lots).
Proof. split; [vm_compute; repeat constructor; discriminate|vm_compute; reflexivity]. Qed.

Lemma lottery_draw_witness :
  let rt := random_ticket (ticks three_lots) (tickets (ptable three_lots)) in
  1 <= rt <= tickets (ptable three_lots)
  /\ exists w p, ptable three_lots !! w = Some p /\ level p = 0
       /\ tickets_before (ptable three_lots) w < rt <= tickets_before (ptable three_lots) w + ticket p
       /\ run_first_level_processes 0 run three_lots
          = (run_p 0 run w ;;
             lottery 0 run rt (tickets_before (ptable three_lots) (S w)) (S w) (NPROC - S w)) three_lots.
Proof.
  apply (lottery_draw 0 run three_lots); [vm_compute; reflexivity|vm_compute; reflexivity|apply three_lots_ok|vm_compute; reflexivity].
Defined.

Lemma no_cand_dec lev l : forallb (fun p => negb (level_cand lev p)) l = true -> ~ has_cand lev l.
Proof.
  intros H (i & p & Hp & Hc). rewrite forallb_forall in H. specialize (H p). rewrite <- list_elem_of_In in H.
  rewrite Hc in H. by specialize (H (list_elem_of_lookup_2 _ _ _ Hp)).
Qed.

Lemma scheduler_levels_witness :
  scheduler_round 0 run (set_held [] two_prio)
  = (level_pass 2 (run_third_level_processes 0 run) 0 NPROC false ;; release LPtable) two_prio.
Proof.
  apply (scheduler_levels 0 run (set_held [] two_prio)); [reflexivity|reflexivity| |];
    apply no_cand_dec; vm_compute; reflexivity.
Defined.

(** one draw of the lottery runs losers too: with three runnable processes of
    ten tickets each the number drawn at tick 0 belongs to the second, and the
    third, which lost, runs in the same draw. *)
Theorem lottery_runs_losers :
  random_ticket (ticks three_lots) (tickets (ptable three_lots)) = 14
  /\ (exists s', run_first_level_processes 0 run three_lots = (Ok tt, s') /\ out s' = ["slot 1"; "slot 2"]).
Proof.
  split; [vm_compute; reflexivity|].
  exists (snd (run_first_level_processes 0 run three_lots)). split; vm_compute; reflexivity.
Qed.

(** tickets are set without a check: a process that sets the tickets of the
    only process of level 0 to zero makes the next draw divide by zero. *)
Theorem lottery_divides_by_zero :
  fst ((set_process_ticket 1 0 ;; run_first_level_processes 0 run) (start [ready 1 0 10 10]))
  = UB "division by zero".
Proof. vm_compute. reflexivity. Qed.
End Demo.
