(* ===== verification/ProcInv.v ===== *)
(** The process table invariant and the contracts of the process system calls.

    [table_ok] is what holds of the table whenever no process is inside the
    process code; [pstep] is a step of the running process or of the scheduler;
    the theorems are about every state reachable by such steps, and about each
    call on all its branches. *)

From Stdlib Require Import ZArith Lia.
From stdpp Require Import base list strings relations.
From S2P Require Import Prelude Kstring Proc Sched.
Local Open Scope Z_scope.

Definition active (p : proc) : Prop :=
  state p = SLEEPING \/ state p = RUNNABLE \/ state p = RUNNING.

Record table_ok (l : list proc) (n : Z) (cur ini : option nat) : Prop := mkTableOk {
  t_len : length l = NPROC;
  t_uniq : pids_distinct l;
  t_pid : forall i p, l !! i = Some p -> 0 <= pid p < n /\ (state p <> UNUSED -> 0 < pid p);
  t_run : forall i p, l !! i = Some p -> state p = RUNNING -> cur = Some i;
  t_stable : forall i p, l !! i = Some p -> state p <> EMBRYO;
  t_mem : forall i p, l !! i = Some p -> state p <> UNUSED -> kstack p <> 0 /\ pgdir p <> 0;
  t_parent : forall i p k, l !! i = Some p -> parent p = Some k ->
               state p <> UNUSED /\ exists q, l !! k = Some q /\ active q;
  t_files : forall i p, l !! i = Some p ->
               length (ofile p) = NOFILE /\ (~ active p -> ofile p = replicate NOFILE None);
  t_init : forall k, ini = Some k -> exists q, l !! k = Some q /\ active q;
}.

(** A change of one process that the invariant does not notice. *)
Record quiet (x y : proc) : Prop := mkQuiet {
  q_pid : pid y = pid x;
  q_parent : parent y = parent x;
  q_kstack : kstack y = kstack x;
  q_pgdir : pgdir y = pgdir x;
  q_ofile : ofile y = ofile x;
  q_state : state y = state x \/ (active x /\ (state y = SLEEPING \/ state y = RUNNABLE));
}.

Lemma quiet_refl x : quiet x x.
Proof. split; auto. Qed.

Lemma quiet_active x y : quiet x y -> active y <-> active x.
Proof. unfold active. intros [_ _ _ _ _ [->|[Ha Hs]]]; [done|]. unfold active in Ha. tauto. Qed.

Lemma quiet_state x y st : quiet x y -> st <> SLEEPING -> st <> RUNNABLE -> st <> RUNNING -> state y = st <-> state x = st.
Proof.
  intros [_ _ _ _ _ [->|[Ha Hs]]] H1 H2 H3; [done|]. unfold active in Ha. intuition congruence.
Qed.

Lemma table_ok_quiet l l' n cur ini :
  Forall2 quiet l l' -> table_ok l n cur ini -> table_ok l' n cur ini.
Proof.
  intros HF [Hlen Huq Hpid Hrun Hst Hmem Hpar Hfi Hini].
  assert (B : forall i y, l' !! i = Some y -> exists x, l !! i = Some x /\ quiet x y).
  { intros i y Hy. destruct (Forall2_lookup_r _ _ _ _ _ HF Hy) as (x & Hx & Hq). eauto. }
  assert (F : forall k q, l !! k = Some q -> active q -> exists q', l' !! k = Some q' /\ active q').
  { intros k q Hq Ha. destruct (Forall2_lookup_l _ _ _ _ _ HF Hq) as (q' & Hq' & Hqq). exists q'.
    split; [done|]. by apply (quiet_active q). }
  assert (U : forall x y, quiet x y -> state y <> UNUSED <-> state x <> UNUSED).
  { intros x y Hq. by rewrite (quiet_state x y UNUSED) by done. }
  split.
  - by rewrite <- (Forall2_length _ _ _ HF).
  - intros i j p q Hp Hq. destruct (B i p Hp) as (x & Hx & Qx), (B j q Hq) as (y & Hy & Qy).
    rewrite (q_pid _ _ Qx), (q_pid _ _ Qy). by apply Huq.
  - intros i p Hp. destruct (B i p Hp) as (x & Hx & Q). rewrite (q_pid _ _ Q), (U _ _ Q). by apply (Hpid i).
  - intros i p Hp Hr. destruct (B i p Hp) as (x & Hx & Q). apply (Hrun i x Hx).
    destruct (q_state _ _ Q) as [E|[_ [E|E]]]; congruence.
  - intros i p Hp. destruct (B i p Hp) as (x & Hx & Q). rewrite (quiet_state x p EMBRYO) by done. by apply (Hst i).
  - intros i p Hp. destruct (B i p Hp) as (x & Hx & Q). rewrite (q_kstack _ _ Q), (q_pgdir _ _ Q), (U _ _ Q). by apply (Hmem i).
  - intros i p k Hp. destruct (B i p Hp) as (x & Hx & Q). rewrite (q_parent _ _ Q), (U _ _ Q). intros Hk.
    destruct (Hpar i x k Hx Hk) as (H1 & q & Hq & Ha). split; [done|]. by apply (F k q).
  - intros i p Hp. destruct (B i p Hp) as (x & Hx & Q). rewrite (q_ofile _ _ Q), (quiet_active x p Q). by apply (Hfi i).
  - intros k Hk. destruct (Hini k Hk) as (q & Hq & Ha). by apply (F k q).
Qed.

Lemma Forall2_quiet_insert l : forall i x y,
  l !! i = Some x -> quiet x y -> Forall2 quiet l (<[i := y]> l).
Proof.
  induction l as [|a l IH]; intros [|i] x y Hx Hq; simplify_eq/=; constructor; auto using quiet_refl.
  - clear IH. induction l; constructor; auto using quiet_refl.
  - by eapply IH.
Qed.

Lemma Forall2_quiet_map l f : (forall x, quiet x (f x)) -> Forall2 quiet l (map f l).
Proof. intros H. induction l; constructor; auto. Qed.

Lemma quiet_woken c x : quiet x (woken c x).
Proof.
  destruct (woken_fields c x) as (H1 & H2 & H3 & H4 & H5 & _). split; try done.
  rewrite woken_state. destruct (is_state SLEEPING x) eqn:Hs; [|by left]. simpl.
  apply is_state_spec in Hs. case_bool_decide; [|by left]. right. unfold active. auto.
Qed.

Lemma quiet_slain x : quiet x (slain x).
Proof.
  unfold slain. destruct (is_state SLEEPING x) eqn:Hs; [|by split; auto].
  apply is_state_spec in Hs. split; try done. right. unfold active. auto.
Qed.

Create HintDb proc.
#[export] Hint Resolve quiet_refl quiet_woken quiet_slain Forall2_quiet_map : proc.

(** Switching a process out: nothing runs any more. *)
Lemma table_ok_switch l n cur ini :
  (forall i p, l !! i = Some p -> state p <> RUNNING) -> table_ok l n cur ini -> table_ok l n None ini.
Proof. intros H [? ? ? ? ? ? ? ? ?]. split; try done. intros i p Hp Hr. by destruct (H i p Hp). Qed.

(** A slot that becomes free. *)
Lemma table_ok_free l n cur ini i x y :
  table_ok l n cur ini -> l !! i = Some x -> ~ active x -> state y = UNUSED -> parent y = None ->
  0 <= pid y < n -> ofile y = replicate NOFILE None ->
  (pid y <> 0 -> forall j q, l !! j = Some q -> j <> i -> pid q <> pid y) ->
  table_ok (<[i := y]> l) n cur ini.
Proof.
  intros [Hlen Huq Hpid Hrun Hst Hmem Hpar Hfi Hini] Hx Hna Hs Hp Hn Ho Hu.
  assert (K : forall k q, l !! k = Some q -> active q -> <[i := y]> l !! k = Some q).
  { intros k q Hq Ha. rewrite list_lookup_insert_ne; [done|]. intros <-. congruence. }
  assert (C : forall j p, <[i := y]> l !! j = Some p -> (j = i /\ p = y) \/ (j <> i /\ l !! j = Some p)).
  { intros j p H. apply list_lookup_insert_Some in H as [(-> & -> & _)|[H1 H2]]; auto. }
  split.
  - by rewrite length_insert.
  - intros j k p q Hj Hk Heq Hne. destruct (C _ _ Hj) as [[-> ->]|[Hj1 Hj2]], (C _ _ Hk) as [[-> ->]|[Hk1 Hk2]]; [done| | |].
    + exfalso. by apply (Hu Hne k q Hk2 Hk1).
    + exfalso. apply (Hu ltac:(congruence) j p Hj2 Hj1). done.
    + by eapply Huq.
  - intros j p H. destruct (C _ _ H) as [[-> ->]|[_ H']]; [|by apply (Hpid j)]. split; [done|]. by rewrite Hs.
  - intros j p H Hr. destruct (C _ _ H) as [[-> ->]|[_ H']]; [congruence|by apply (Hrun j p)].
  - intros j p H. destruct (C _ _ H) as [[-> ->]|[_ H']]; [congruence|by apply (Hst j)].
  - intros j p H. destruct (C _ _ H) as [[-> ->]|[_ H']]; [congruence|by apply (Hmem j)].
  - intros j p k H Hk. destruct (C _ _ H) as [[-> ->]|[_ H']]; [congruence|].
    destruct (Hpar j p k H' Hk) as (H1 & q & Hq & Ha). split; [done|]. exists q. split; [by apply K|done].
  - intros j p H. destruct (C _ _ H) as [[-> ->]|[_ H']]; [|by apply (Hfi j)]. rewrite Ho. by rewrite length_replicate.
  - intros k Hk. destruct (Hini k Hk) as (q & Hq & Ha). exists q. split; [by apply K|done].
Qed.

Lemma table_ok_grow l n n' cur ini : n <= n' -> table_ok l n cur ini -> table_ok l n' cur ini.
Proof.
  intros Hn [? ? Hpid ? ? ? ? ? ?]. split; try done. intros i p Hp. destruct (Hpid i p Hp). split; [lia|done].
Qed.

(** A free slot that becomes a process with the next pid, the child of an active
    process if it has a parent. *)
Lemma table_ok_birth l n cur ini i x y :
  table_ok l n cur ini -> l !! i = Some x -> state x = UNUSED -> state y = RUNNABLE -> pid y = n -> 0 < n ->
  (forall k, parent y = Some k -> exists q, l !! k = Some q /\ active q) -> kstack y <> 0 -> pgdir y <> 0 -> length (ofile y) = NOFILE ->
  table_ok (<[i := y]> l) (n + 1) cur ini.
Proof.
  intros [Hlen Huq Hpid Hrun Hst Hmem Hpar Hfi Hini] Hx Hxs Hys Hn Hpos Hp Hk Hg Ho.
  assert (K : forall k q, l !! k = Some q -> active q -> <[i := y]> l !! k = Some q).
  { intros k' q' Hq' Ha'. rewrite list_lookup_insert_ne; [done|]. intros <-. unfold active in Ha'.
    simplify_eq. intuition congruence. }
  assert (C : forall j p, <[i := y]> l !! j = Some p -> (j = i /\ p = y) \/ (j <> i /\ l !! j = Some p)).
  { intros j p H. apply list_lookup_insert_Some in H as [(-> & -> & _)|[H1 H2]]; auto. }
  assert (Hay : active y) by (unfold active; auto).
  split.
  - by rewrite length_insert.
  - intros j m p r Hj Hm Heq Hne. destruct (C _ _ Hj) as [[-> ->]|[Hj1 Hj2]], (C _ _ Hm) as [[-> ->]|[Hm1 Hm2]]; [done| | |].
    + destruct (Hpid _ _ Hm2). lia.
    + destruct (Hpid _ _ Hj2). lia.
    + by eapply Huq.
  - intros j p H. destruct (C _ _ H) as [[-> ->]|[_ H']]; [lia|]. destruct (Hpid j p H'). split; [lia|done].
  - intros j p H Hr. destruct (C _ _ H) as [[-> ->]|[_ H']]; [congruence|by apply (Hrun j p)].
  - intros j p H. destruct (C _ _ H) as [[-> ->]|[_ H']]; [congruence|by apply (Hst j)].
  - intros j p H. destruct (C _ _ H) as [[-> ->]|[_ H']]; [done|by apply (Hmem j)].
  - intros j p k' H Hk'. destruct (C _ _ H) as [[-> ->]|[_ H']].
    + split; [congruence|]. destruct (Hp k' Hk') as (q' & Hq' & Ha'). exists q'. split; [by apply K|done].
    + destruct (Hpar j p k' H' Hk') as (H1 & q' & Hq' & Ha'). split; [done|]. exists q'. split; [by apply K|done].
  - intros j p H. destruct (C _ _ H) as [[-> ->]|[_ H']]; [|by apply (Hfi j)]. done.
  - intros k' Hk'. destruct (Hini k' Hk') as (q' & Hq' & Ha'). exists q'. split; [by apply K|done].
Qed.

Lemma table_ok_init l n cur ini k q :
  table_ok l n cur ini -> l !! k = Some q -> active q -> table_ok l n cur (Some k).
Proof. intros [? ? ? ? ? ? ? ? ?] Hq Ha. split; try done. intros j [= <-]. eauto. Qed.

(** An active process changes in the fields the invariant does not relate to
    other slots. *)
Lemma table_ok_replace l n cur ini i x y :
  table_ok l n cur ini -> l !! i = Some x -> active x -> active y -> (state y = RUNNING -> cur = Some i) ->
  pid y = pid x -> parent y = parent x -> kstack y = kstack x -> pgdir y <> 0 -> length (ofile y) = NOFILE ->
  table_ok (<[i := y]> l) n cur ini.
Proof.
  intros [Hlen Huq Hpid Hrun Hst Hmem Hpar Hfi Hini] Hx Ha Hay Hry Hp Hpa Hk Hg Ho.
  assert (N : forall q, active q -> state q <> UNUSED /\ state q <> EMBRYO)
    by (unfold active; intros q Hq; intuition congruence).
  assert (K : forall k q, l !! k = Some q -> active q -> exists q', <[i := y]> l !! k = Some q' /\ active q').
  { intros k q Hq Haq. destruct (decide (k = i)) as [->|Hne].
    - exists y. split; [|done]. apply list_lookup_insert_eq. by eapply lookup_lt_Some.
    - exists q. by rewrite list_lookup_insert_ne. }
  assert (C : forall j p, <[i := y]> l !! j = Some p -> (j = i /\ p = y) \/ (j <> i /\ l !! j = Some p)).
  { intros j p H. apply list_lookup_insert_Some in H as [(-> & -> & _)|[H1 H2]]; auto. }
  destruct (N x Ha) as [Hxu _], (N y Hay) as [Hyu Hye]. destruct (Hpid i x Hx) as [Hpx Hpx']. split.
  - by rewrite length_insert.
  - intros j m p r Hj Hm. destruct (C _ _ Hj) as [[-> ->]|[_ Hj2]], (C _ _ Hm) as [[-> ->]|[_ Hm2]]; rewrite ?Hp; by eapply Huq.
  - intros j p H. destruct (C _ _ H) as [[-> ->]|[_ H']]; [|by apply (Hpid j)]. rewrite Hp. auto.
  - intros j p H. destruct (C _ _ H) as [[-> ->]|[_ H']]; [done|by apply (Hrun j)].
  - intros j p H. destruct (C _ _ H) as [[-> ->]|[_ H']]; [done|by apply (Hst j)].
  - intros j p H. destruct (C _ _ H) as [[-> ->]|[_ H']]; [|by apply (Hmem j)]. rewrite Hk. intros _. split; [by apply (Hmem i x)|done].
  - intros j p k H Hk'. assert (exists p0, l !! j = Some p0 /\ parent p0 = Some k) as (p0 & Hp0 & Hk0).
    { destruct (C _ _ H) as [[-> ->]|[_ H']]; [exists x|exists p]; split; congruence. }
    destruct (Hpar j p0 k Hp0 Hk0) as (H1 & q & Hq & Haq). split; [|by apply (K k q)].
    destruct (C _ _ H) as [[-> ->]|[_ H']]; [done|congruence].
  - intros j p H. destruct (C _ _ H) as [[-> ->]|[_ H']]; [done|by apply (Hfi j)].
  - intros k Hk'. destruct (Hini k Hk') as (q & Hq & Haq). by apply (K k q).
Qed.

Lemma table_ok_edit l n cur ini i x y :
  table_ok l n cur ini -> l !! i = Some x -> active x -> active y -> (state y = RUNNING -> cur = Some i) ->
  pid y = pid x -> parent y = parent x -> kstack y = kstack x -> pgdir y = pgdir x -> length (ofile y) = NOFILE ->
  table_ok (<[i := y]> l) n cur ini.
Proof.
  intros Hok Hx Ha Hay Hr Hp Hpa Hk Hg. apply (table_ok_replace l n cur ini i x y); try done. rewrite Hg.
  apply (t_mem _ _ _ _ Hok i x Hx). unfold active in Ha. intuition congruence.
Qed.

Lemma adopted_fields cur ini p :
  pid (adopted cur ini p) = pid p /\ state (adopted cur ini p) = state p /\ kstack (adopted cur ini p) = kstack p
  /\ pgdir (adopted cur ini p) = pgdir p /\ ofile (adopted cur ini p) = ofile p
  /\ parent (adopted cur ini p) = (if decide (parent p = Some cur) then ini else parent p).
Proof. unfold adopted, is_child. case_bool_decide; case_decide; done. Qed.

Lemma table_ok_adopt l n cur c ini : table_ok l n c ini -> table_ok (map (adopted cur ini) l) n c ini.
Proof.
  intros [Hlen Huq Hpid Hrun Hst Hmem Hpar Hfi Hini].
  assert (C : forall j p, map (adopted cur ini) l !! j = Some p -> exists p0, l !! j = Some p0 /\ p = adopted cur ini p0).
  { intros j p H. apply list_lookup_fmap_Some in H as (p0 & -> & H). by exists p0. }
  assert (K : forall k q, l !! k = Some q -> active q -> exists q', map (adopted cur ini) l !! k = Some q' /\ active q').
  { intros k q Hq Ha. exists (adopted cur ini q). rewrite list_lookup_fmap, Hq. split; [done|].
    unfold active in *. by destruct (adopted_fields cur ini q) as (_ & -> & _). }
  split.
  - by rewrite length_map.
  - intros j m p r Hj Hm. destruct (C _ _ Hj) as (p0 & Hp0 & ->), (C _ _ Hm) as (r0 & Hr0 & ->).
    rewrite !(proj1 (adopted_fields _ _ _)). by eapply Huq.
  - intros j p H. destruct (C _ _ H) as (p0 & Hp0 & ->). destruct (adopted_fields cur ini p0) as (-> & -> & _). by apply (Hpid j).
  - intros j p H. destruct (C _ _ H) as (p0 & Hp0 & ->). destruct (adopted_fields cur ini p0) as (_ & -> & _). by apply (Hrun j).
  - intros j p H. destruct (C _ _ H) as (p0 & Hp0 & ->). destruct (adopted_fields cur ini p0) as (_ & -> & _). by apply (Hst j).
  - intros j p H. destruct (C _ _ H) as (p0 & Hp0 & ->). destruct (adopted_fields cur ini p0) as (_ & -> & -> & -> & _). by apply (Hmem j).
  - intros j p k H. destruct (C _ _ H) as (p0 & Hp0 & ->). destruct (adopted_fields cur ini p0) as (_ & -> & _ & _ & _ & ->).
    case_decide as Hd; intros Hk.
    + destruct (Hpar j p0 cur Hp0 Hd) as (H1 & _). split; [done|]. destruct (Hini k Hk) as (q & Hq & Ha). by apply (K k q).
    + destruct (Hpar j p0 k Hp0 Hk) as (H1 & q & Hq & Ha). split; [done|]. by apply (K k q).
  - intros j p H. destruct (C _ _ H) as (p0 & Hp0 & ->). unfold active. destruct (adopted_fields cur ini p0) as (_ & -> & _ & _ & -> & _). by apply (Hfi j).
  - intros k Hk. destruct (Hini k Hk) as (q & Hq & Ha). by apply (K k q).
Qed.

Lemma table_ok_zombie l n cur ini i x :
  table_ok l n cur ini -> l !! i = Some x -> active x -> ofile x = replicate NOFILE None ->
  ini <> Some i -> (forall j p, l !! j = Some p -> parent p <> Some i) ->
  table_ok (<[i := set_state ZOMBIE x]> l) n cur ini.
Proof.
  intros [Hlen Huq Hpid Hrun Hst Hmem Hpar Hfi Hini] Hx Ha Ho Hi Hno.
  assert (Hnu : state x <> UNUSED) by (unfold active in Ha; intuition congruence).
  assert (C : forall j p, <[i := set_state ZOMBIE x]> l !! j = Some p ->
             exists p0, l !! j = Some p0 /\ ((p = p0 /\ j <> i) \/ (p = set_state ZOMBIE x /\ p0 = x))).
  { intros j p H. apply list_lookup_insert_Some in H as [(-> & -> & _)|[H1 H2]]; [exists x|exists p]; repeat split; auto. }
  split.
  - by rewrite length_insert.
  - intros j m p r Hj Hm. destruct (C _ _ Hj) as (p0 & Hp0 & Hp1), (C _ _ Hm) as (r0 & Hr0 & Hr1).
    replace (pid p) with (pid p0) by (destruct Hp1 as [[-> _]|[-> ->]]; done).
    replace (pid r) with (pid r0) by (destruct Hr1 as [[-> _]|[-> ->]]; done). by eapply Huq.
  - intros j p H. destruct (C _ _ H) as (p0 & Hp0 & [[-> _]|[-> ->]]); [by apply (Hpid j)|].
    cbn [pid set_state state]. destruct (Hpid _ _ Hp0) as [H1 H2]. split; [done|]. intros _. by apply H2.
  - intros j p H Hr. destruct (C _ _ H) as (p0 & Hp0 & [[-> _]|[-> ->]]); [by apply (Hrun j p0)|done].
  - intros j p H. destruct (C _ _ H) as (p0 & Hp0 & [[-> _]|[-> ->]]); [by apply (Hst j)|done].
  - intros j p H. destruct (C _ _ H) as (p0 & Hp0 & [[-> _]|[-> ->]]); [by apply (Hmem j)|].
    intros _. by apply (Hmem _ _ Hp0).
  - intros j p k H Hk. destruct (C _ _ H) as (p0 & Hp0 & Hp1).
    assert (Hk0 : parent p0 = Some k) by (destruct Hp1 as [[<- _]|[-> ->]]; done).
    destruct (Hpar j p0 k Hp0 Hk0) as (H1 & q & Hq & Haq). split; [destruct Hp1 as [[-> _]|[-> _]]; done|].
    exists q. split; [|done]. rewrite list_lookup_insert_ne; [done|]. intros <-. by apply (Hno j p0).
  - intros j p H. destruct (C _ _ H) as (p0 & Hp0 & [[-> _]|[-> ->]]); [by apply (Hfi j)|].
    cbn [ofile set_state]. by rewrite Ho, length_replicate.
  - intros k Hk. destruct (Hini k Hk) as (q & Hq & Haq). exists q. split; [|done].
    rewrite list_lookup_insert_ne; congruence.
Qed.

Lemma exit_table_ok cur x l n c ini :
  table_ok l n c ini -> l !! cur = Some x -> active x -> ini <> Some cur ->
  table_ok (exit_table cur ini x l) n c ini.
Proof.
  intros Hok Hx Ha Hi. unfold exit_table.
  set (x1 := set_cwd None (set_ofile (replicate NOFILE None) x)).
  assert (H0 : table_ok (<[cur := x1]> l) n c ini) 
    by (apply (table_ok_edit l n c ini cur x); try done; intros Hs1; by apply (t_run _ _ _ _ Hok cur x)).
  set (l1 := map (woken (chan_of (parent x))) (<[cur := x1]> l)).
  assert (H1 : table_ok l1 n c ini) by (eapply table_ok_quiet; [apply Forall2_quiet_map; auto with proc|exact H0]).
  pose proof (table_ok_adopt l1 n cur c ini H1) as H2.
  set (l2 := wake_if (existsb (zombie_child cur) l1) (chan_of ini) (map (adopted cur ini) l1)).
  assert (H3 : table_ok l2 n c ini).
  { unfold l2, wake_if. destruct (existsb _ _); [|done]. eapply table_ok_quiet; [|exact H2]. apply Forall2_quiet_map. auto with proc. }
  assert (Hy : l2 !! cur = Some (wake1_if (existsb (zombie_child cur) l1) (chan_of ini)
                                  (adopted cur ini (woken (chan_of (parent x)) x1)))).
  { unfold l2. rewrite wake_if_lookup. unfold l1. rewrite !list_lookup_fmap, list_lookup_insert_eq; [done|].
    by eapply lookup_lt_Some. }
  rewrite Hy.
  assert (Hw : forall w d p, quiet p (wake1_if w d p)) by (intros [] d p; cbn; auto with proc).
  apply table_ok_zombie; try done.
  - apply (quiet_active _ _ (Hw _ _ _)). unfold active. destruct (adopted_fields cur ini (woken (chan_of (parent x)) x1)) as (_ & -> & _).
    by apply (quiet_active _ _ (quiet_woken (chan_of (parent x)) x1)).
  - rewrite (q_ofile _ _ (Hw _ _ _)). destruct (adopted_fields cur ini (woken (chan_of (parent x)) x1)) as (_ & _ & _ & _ & -> & _).
    by rewrite (q_ofile _ _ (quiet_woken (chan_of (parent x)) x1)).
  - intros j p Hp. unfold l2 in Hp. rewrite wake_if_lookup, list_lookup_fmap in Hp.
    destruct (l1 !! j) as [p0|]; [|done]. injection Hp as <-. rewrite (q_parent _ _ (Hw _ _ _)).
    destruct (adopted_fields cur ini p0) as (_ & _ & _ & _ & _ & ->). by case_decide.
Qed.

(** ** Stepping through code whose calls to the environment are unknown *)

Section Stepping.
Context {E : Type} {ENV : Env E}.
Implicit Types s : pstate E.

Lemma wp_call {A} (m : M E A) s Q : (forall a e', Q a (set_env e' s)) -> wp (call m) s Q.
Proof. intros H. apply wp_zoom. intros a e' _. apply H. Qed.

Lemma wp_getp i x s Q : ptable s !! i = Some x -> Q x s -> wp (getp i) s Q.
Proof. intros H. by apply wp_run, getp_run. Qed.

Lemma wp_updp i x f s Q :
  ptable s !! i = Some x -> Q tt (set_ptable (<[i := f x]> (ptable s)) s) -> wp (updp i f) s Q.
Proof. intros H. by apply wp_run, updp_run. Qed.

Lemma wp_dup_files fs : forall i np y s Q,
  ptable s !! np = Some y ->
  (forall gs e', length gs = length (ofile y) ->
     Q tt (set_env e' (set_ptable (<[np := set_ofile gs y]> (ptable s)) s))) ->
  wp (dup_files np fs i) s Q.
Proof.
  induction fs as [|[f|] fs IH]; intros i np y s Q Hy HQ; cbn [dup_files].
  - eapply wp_run; [reflexivity|]. specialize (HQ (ofile y) (env s) eq_refl).
    replace (set_ofile (ofile y) y) with y in HQ by by destruct y.
    rewrite list_insert_id in HQ by done. by destruct s.
  - apply wp_bind, wp_call. intros g e1. apply wp_bind. eapply wp_updp; [exact Hy|].
    eapply IH; [cbn; apply list_lookup_insert_eq; by eapply lookup_lt_Some|].
    intros gs e' Hg. cbn [ofile set_ofile] in Hg. rewrite length_insert in Hg. specialize (HQ gs e' Hg). pcbn.
    rewrite list_insert_insert_eq. exact HQ.
  - by apply (IH (S i) np y).
Qed.

Lemma wp_close_files cur fds : forall x s Q,
  ptable s !! cur = Some x ->
  (forall fs e', length fs = length (ofile x) -> (forall fd, fd ∈ fds -> fs !! fd <> None -> fs !! fd = Some None) ->
     (forall fd, ofile x !! fd = Some None -> fs !! fd = Some None) ->
     Q tt (set_env e' (set_ptable (<[cur := set_ofile fs x]> (ptable s)) s))) ->
  wp (close_files cur fds) s Q.
Proof.
  induction fds as [|fd fds IH]; intros x s Q Hx HQ; cbn [close_files].
  - eapply wp_run; [reflexivity|]. specialize (HQ (ofile x) (env s) eq_refl).
    replace (set_ofile (ofile x) x) with x in HQ by by destruct x.
    rewrite list_insert_id in HQ by done. destruct s. apply HQ; [by intros ? ?%elem_of_nil|done].
  - apply wp_bind. eapply wp_getp; [exact Hx|]. apply wp_bind.
    destruct (ofile x !! fd) as [[f|]|] eqn:Hf.
    + apply wp_bind, wp_call. intros [] e1. eapply wp_updp; [exact Hx|].
      assert (Hlt : (fd < length (ofile x))%nat) by by eapply lookup_lt_Some.
      eapply IH; [cbn; apply list_lookup_insert_eq; by eapply lookup_lt_Some|].
      cbn [ofile set_ofile]. rewrite length_insert. intros fs e' Hl Hc Hk. pcbn. rewrite list_insert_insert_eq. apply HQ; [done| |].
      * intros d [->|Hd]%elem_of_cons Hn; [|by apply Hc]. apply Hk. by apply list_lookup_insert_eq.
      * intros d Hd. apply Hk. destruct (decide (d = fd)) as [->|]; [by apply list_lookup_insert_eq|].
        by rewrite list_lookup_insert_ne.
    + eapply wp_run; [reflexivity|]. eapply IH; [exact Hx|]. intros fs e' Hl Hc Hk. apply HQ; [done| |done].
      intros d [->|Hd]%elem_of_cons Hn; [by apply Hk|by apply Hc].
    + eapply wp_run; [reflexivity|]. eapply IH; [exact Hx|]. intros fs e' Hl Hc Hk. apply HQ; [done| |done].
      intros d [->|Hd]%elem_of_cons Hn; [|by apply Hc]. exfalso. apply lookup_ge_None in Hf. apply Hn, lookup_ge_None. lia.
Qed.

End Stepping.

Ltac wstep :=
  match goal with
  | |- wp (bind _ _) _ _ => apply wp_bind
  | |- wp (updp _ _) _ _ => eapply wp_updp; [solve_slot|]; pcbn; rewrite ?list_insert_insert_eq
  | |- wp (getp _) _ _ => eapply wp_getp; [solve_slot|]
  | |- wp (call _) _ _ => apply wp_call; intros ? ?; pcbn
  | |- wp (acquire _) _ _ => eapply wp_run; [apply acquire_run; solve_held|]; pcbn
  | |- wp (release _) _ _ => eapply wp_run; [eapply release_run; [reflexivity|solve_held]|]; pcbn
  | |- wp (gets _) _ _ => eapply wp_run; [reflexivity|]; pcbn
  | |- wp (modify _) _ _ => eapply wp_run; [reflexivity|]; pcbn
  | |- wp (ret _) _ _ => eapply wp_run; [reflexivity|]; pcbn
  | |- wp (panic _) _ _ => exact I
  | |- wp (ub _) _ _ => exact I
  end.

Section Allocating.
Context {E : Type} {ENV : Env E} (trapret forkret_addr : Z).
Implicit Types s : pstate E.

(** [allocproc] leaves the table as it was, or frees the slot again, or leaves an
    embryo in it. *)
Lemma wp_allocproc s Q :
  held s = [] ->
  Q None s ->
  (forall p x e', ptable s !! p = Some x -> state x = UNUSED ->
     let y := set_kstack 0 (embryo (ticks s) (nextpid s) x) in
     Q None (set_env e' (set_nextpid (s32 (nextpid s + 1)) (set_ptable (<[p := set_state UNUSED y]> (ptable s)) s)))) ->
  (forall p x ks e', ptable s !! p = Some x -> state x = UNUSED -> ks <> 0 ->
     let y := new_proc trapret forkret_addr (ticks s) (nextpid s) ks x in
     Q (Some p) (set_env e' (set_nextpid (s32 (nextpid s + 1)) (set_ptable (<[p := y]> (ptable s)) s)))) ->
  wp (allocproc trapret forkret_addr) s Q.
Proof.
  intros Hh H1 H2 H3. destruct (find_from (is_state UNUSED) (ptable s) 0) as [p|] eqn:Hf.
  - destruct (find_from_Some _ _ _ _ Hf) as (j & x & -> & Hx & Hxs & _). rewrite Nat.add_0_l in *.
    apply is_state_spec in Hxs. unfold allocproc. wstep.
    eapply wp_run; [apply acquire_run; rewrite Hh; apply not_elem_of_nil|]. do 2 wstep.
    cbn [ptable set_held]. rewrite Hf, Hh. unfold wp. rewrite (allocproc_slot s j x Hh Hf Hx).
    specialize (H2 j x). specialize (H3 j x).
    destruct s as [l h n ini cp tk ie es cr bm bc ou ev]. cbn in Hx. pcbn. cbn zeta in H2, H3.
    match goal with |- match ?m ?s with _ => _ end => change (wp m s Q) end.
    do 2 wstep. do 2 wstep. destruct (Z.eqb_spec a 0) as [->|Hks].
    + do 3 wstep. by apply H2.
    + do 5 wstep. by apply (H3 a).
  - eapply wp_run; [by apply allocproc_full|done].
Qed.
End Allocating.

(** ** Steps of the system *)

Section Steps.
Context {E : Type} {ENV : Env E} (trapret forkret_addr : Z).
Implicit Types s : pstate E.

(** The system between two steps: no lock is held, and the process on the
    processor is the one that is running. *)
Record kstate_ok s : Prop := mkKOk {
  k_table : table_ok (ptable s) (nextpid s) (cpu_proc s) (initproc s);
  k_held : held s = [];
  k_cur : forall i, cpu_proc s = Some i -> exists p, ptable s !! i = Some p /\ state p = RUNNING;
  k_next : 0 < nextpid s;
}.

(** The processor back in the scheduler, which gives up the table's lock. *)
Definition switched s : pstate E := set_held [] (set_cpu_proc None s).

Inductive pstep : pstate E -> pstate E -> Prop :=
| p_fork s r s' : nextpid s < 2 ^ 31 - 1 -> fork trapret forkret_addr s = (Ok r, s') -> pstep s s'
| p_exit s i s' : exit s = (Ok i, s') -> pstep s (switched s')
| p_reap s n s' : wait s = (Ok (Reaped n), s') -> pstep s s'
| p_nowait s s' : wait s = (Ok NoChildren, s') -> pstep s s'
| p_wait s i s' : wait s = (Ok (Waiting i), s') -> pstep s (switched s')
| p_kill s n r s' : kill n s = (Ok r, s') -> pstep s s'
| p_sleep s c lk i s' : sleep_enter c lk (set_held [lk] s) = (Ok i, s') -> pstep s (switched s')
| p_wakeup s c s' : wakeup c s = (Ok tt, s') -> pstep s s'
| p_yield s i s' : yield_enter s = (Ok i, s') -> pstep s (switched s')
| p_run s i s' : cpu_proc s = None -> run_p_enter i (set_held [LPtable] s) = (Ok true, s') -> pstep s (set_held [] s')
| p_grow s n r s' : growproc n s = (Ok r, s') -> pstep s s'
| p_level s n v s' : change_process_level n v s = (Ok tt, s') -> pstep s s'
| p_ticket s n v s' : set_process_ticket n v s = (Ok tt, s') -> pstep s s'
| p_priority s n v s' : set_process_remaining_priority n v s = (Ok tt, s') -> pstep s s'
| p_tick s : pstep s (set_ticks (u32 (ticks s + 1)) s)
| p_env s e : pstep s (set_env e s).

(** A step that changes the table quietly, on the same processor. *)
Lemma kstate_quiet s l e :
  kstate_ok s -> Forall2 quiet (ptable s) l -> (forall i p, l !! i = Some p -> cpu_proc s = Some i -> state p = RUNNING) ->
  kstate_ok (set_env e (set_ptable l s)).
Proof.
  intros [Ht Hh Hc Hn] HF Hr. split; try done.
  - by eapply table_ok_quiet.
  - intros i Hi. destruct (Hc i Hi) as (p & Hp & _). destruct (Forall2_lookup_l _ _ _ _ _ HF Hp) as (q & Hq & _).
    exists q. split; [done|]. by apply (Hr i q).
Qed.

(** The running process leaves the processor, not running any more. *)
Lemma kstate_switch s cur x y e l :
  kstate_ok s -> cpu_proc s = Some cur -> ptable s !! cur = Some x ->
  table_ok l (nextpid s) (Some cur) (initproc s) -> l !! cur = Some y -> state y <> RUNNING ->
  kstate_ok (switched (set_env e (set_ptable l s))).
Proof.
  intros [Ht Hh Hc Hn] Hcur Hx Hl Hy Hyr. split; try done.
  cbn [switched ptable nextpid cpu_proc initproc set_held set_cpu_proc set_env set_ptable].
  eapply table_ok_switch; [|exact Hl]. intros i p Hp Hr. pose proof (t_run _ _ _ _ Hl i p Hp Hr). congruence.
Qed.

Lemma cur_active s cur : kstate_ok s -> cpu_proc s = Some cur -> exists x, ptable s !! cur = Some x /\ active x /\ state x = RUNNING.
Proof. intros Hk Hc. destruct (k_cur _ Hk cur Hc) as (x & Hx & Hs). exists x. unfold active. auto. Qed.

Lemma kstate_insert s p y n' e :
  kstate_ok s -> cpu_proc s <> Some p -> nextpid s <= n' ->
  table_ok (<[p := y]> (ptable s)) n' (cpu_proc s) (initproc s) ->
  kstate_ok (set_env e (set_nextpid n' (set_ptable (<[p := y]> (ptable s)) s))).
Proof.
  intros [Ht Hh Hr Hpos] Hne Hn Ht'. split; try done.
  - intros i Hi. change (cpu_proc s = Some i) in Hi. destruct (Hr i Hi) as (q & Hq & Hs). exists q. split; [|done].
    cbn. rewrite list_lookup_insert_ne; [done|]. congruence.
  - cbn. lia.
Qed.

(** A slot that stays free, with the pid it was given for a moment. *)
Lemma table_ok_unborn l n cur ini p x y :
  table_ok l n cur ini -> l !! p = Some x -> state x = UNUSED -> state y = UNUSED -> pid y = n -> 0 < n ->
  parent y = parent x -> ofile y = ofile x -> table_ok (<[p := y]> l) (n + 1) cur ini.
Proof.
  intros Ht Hx Hxs Hys Hpid Hpos Hpar Hof.
  assert (Hna : ~ active x) by (unfold active; intuition congruence).
  eapply table_ok_free; [eapply table_ok_grow; [|exact Ht]; lia|exact Hx|done|done| |lia| |].
  - rewrite Hpar. destruct (parent x) as [k|] eqn:Hk; [|done]. by destruct (t_parent _ _ _ _ Ht _ _ _ Hx Hk).
  - rewrite Hof. by apply (t_files _ _ _ _ Ht _ _ Hx).
  - intros _ j q Hq _. rewrite Hpid. destruct (t_pid _ _ _ _ Ht j q Hq). lia.
Qed.

Lemma fork_ok s : kstate_ok s -> nextpid s < 2 ^ 31 - 1 -> wp (fork trapret forkret_addr) s (fun _ s' => kstate_ok s').
Proof.
  intros Hk Hn. unfold fork, curproc. destruct (cpu_proc s) as [cur|] eqn:Hc.
  2:{ do 2 wstep. eapply wp_run; [reflexivity|]. rewrite Hc. exact I. }
  destruct (cur_active s cur Hk Hc) as (c & Hcur & Hca & Hcs). pose proof Hk as [Ht Hh Hr Hpos].
  assert (Hs32 : s32 (nextpid s + 1) = nextpid s + 1) by (apply s32_id; lia).
  do 2 wstep. eapply wp_run; [reflexivity|]. rewrite Hc. wstep. wstep.
  apply wp_allocproc; [done| | |].
  - by wstep.
  - intros p x e' Hx Hxs y. wstep. rewrite Hs32. assert (Hne : p <> cur) by (intros ->; congruence).
    apply (kstate_insert s p _ (nextpid s + 1) e'); [done|congruence|lia|]. by eapply table_ok_unborn.
  - intros p x ks e' Hx Hxs Hks y. rewrite Hs32. assert (Hne : p <> cur) by (intros ->; congruence).
    destruct (t_files _ _ _ _ Ht _ _ Hx) as [Hxf _].
    pose proof (fun y e => kstate_insert s p y (nextpid s + 1) e Hk ltac:(congruence) ltac:(lia)) as Hins.
    pose proof (fun y => table_ok_unborn _ _ _ _ p x y Ht Hx Hxs) as Hun.
    pose proof (fun y => table_ok_birth _ _ _ _ p x y Ht Hx Hxs) as Hbi.
    destruct s as [l h n ini cp tk ie es cr bm bc ou ev]. cbn in Hc, Hh, Hcur, Hx, Ht, Hpos, Hins, Hun, Hbi. subst. pcbn.
    do 6 wstep. destruct (Z.eqb_spec a 0) as [->|Hpd].
    + do 9 wstep. apply Hins, Hun; done.
    + do 6 wstep. wstep. eapply wp_dup_files; [solve_slot|]. intros gs e2 Hgs. pcbn. rewrite list_insert_insert_eq.
      wstep. destruct (cwd c) as [d|]; [|by wstep]. do 13 wstep. apply Hins, Hbi; try done.
      * intros k [= <-]. by exists c.
      * cbn in Hgs |- *. congruence.
Qed.

(** The current process of a call. *)
Lemma wp_curproc s Q : kstate_ok s ->
  (forall cur c, cpu_proc s = Some cur -> ptable s !! cur = Some c -> active c -> state c = RUNNING -> Q cur s) ->
  wp curproc s Q.
Proof.
  intros Hk H. unfold curproc. wstep. eapply wp_run; [reflexivity|]. destruct (cpu_proc s) as [cur|] eqn:Hc; [|exact I].
  destruct (cur_active s cur Hk Hc) as (c & Hcur & Hca & Hcs). eapply wp_run; [reflexivity|]. by eapply H.
Qed.

Lemma closed_files (fs : list (option nat)) :
  length fs = NOFILE -> (forall fd, fd ∈ seq 0 NOFILE -> fs !! fd <> None -> fs !! fd = Some None) ->
  fs = replicate NOFILE None.
Proof.
  intros Hl Hc. apply list_eq. intros i. destruct (decide (i < NOFILE)%nat) as [Hi|Hi].
  - rewrite lookup_replicate_2 by done. apply Hc; [apply elem_of_seq; lia|]. rewrite lookup_ge_None. lia.
  - rewrite !lookup_ge_None_2; [done|rewrite length_replicate; lia|lia].
Qed.

Lemma exit_ok s : kstate_ok s -> wp exit s (fun _ s' => kstate_ok (switched s')).
Proof.
  intros Hk. unfold exit. wstep. apply wp_curproc; [done|]. intros cur c Hc Hcur Hca Hcs.
  pose proof Hk as [Ht Hh _ _]. pose proof (fun l y e => kstate_switch s cur c y e l Hk Hc Hcur) as Hsw.
  destruct (t_files _ _ _ _ Ht _ _ Hcur) as [Hof _]. pose proof (t_len _ _ _ _ Ht) as Hlen.
  destruct s as [l h n ini cp tk ie es cr bm bc ou ev]. cbn in Hh, Hc, Hcur, Ht, Hsw, Hlen. subst.
  do 2 wstep. case_bool_decide as Hini; [by wstep|]. wstep. eapply wp_close_files; [exact Hcur|].
  intros fs e1 Hfs Hcl _. pcbn. apply closed_files in Hcl; [|congruence]. subst fs.
  do 2 wstep. do 2 wstep. wstep. cbn [cwd set_ofile]. destruct (cwd c) as [d|]; [|by wstep]. wstep.
  do 8 wstep. wstep. cbn [parent set_cwd set_ofile].
  eapply wp_run; [apply wakeup1_run; pcbn; by rewrite length_insert|]. pcbn.
  wstep. eapply wp_run; [apply reparent_run; pcbn; by rewrite length_map, length_insert|]. pcbn.
  wstep. pose proof (exit_table_ok cur c l n (Some cur) ini Ht Hcur Hca Hini) as Hx. unfold exit_table in Hx.
  set (l2 := wake_if _ _ _) in Hx |- *.
  assert (Hlt : (cur < length l2)%nat).
  { unfold l2. rewrite wake_if_length, !length_map, length_insert. by eapply lookup_lt_Some. }
  destruct (lookup_lt_is_Some_2 _ _ Hlt) as [y Hy]. rewrite Hy in Hx. wstep.
  eapply wp_run; [eapply sched_run; [reflexivity|solve_slot|reflexivity|done]|].
  eapply Hsw; [exact Hx|by apply list_lookup_insert_eq|done].
Qed.

Lemma wp_reap i p s Q :
  ptable s !! i = Some p ->
  (forall e, Q (pid p) (set_env e (set_ptable (<[i := reaped p]> (ptable s)) s))) -> wp (reap i) s Q.
Proof.
  intros Hp HQ. destruct s as [l h n ini cp tk ie es cr bm bc ou ev]. cbn in Hp, HQ. unfold reap.
  do 21 wstep. apply HQ.
Qed.

Lemma reaped_ok l n cur ini i p :
  table_ok l n cur ini -> 0 < n -> l !! i = Some p -> state p = ZOMBIE -> table_ok (<[i := reaped p]> l) n cur ini.
Proof.
  intros Ht Hn Hp Hz. assert (~ active p) by (unfold active; intuition congruence).
  eapply table_ok_free; try done. by apply (t_files _ _ _ _ Ht _ _ Hp).
Qed.

(** The running process goes to sleep or back to the queue. *)
Lemma leave_ok s cur c y e :
  kstate_ok s -> cpu_proc s = Some cur -> ptable s !! cur = Some c -> quiet c y -> state y <> RUNNING ->
  kstate_ok (switched (set_env e (set_ptable (<[cur := y]> (ptable s)) s))).
Proof.
  intros Hk Hc Hcur Hq Hy. pose proof (k_table _ Hk) as Ht. rewrite Hc in Ht.
  eapply kstate_switch; [done|done|done| |apply list_lookup_insert_eq; by eapply lookup_lt_Some|done].
  eapply table_ok_quiet; [|exact Ht]. by eapply Forall2_quiet_insert.
Qed.

Lemma wait_ok s : kstate_ok s -> wp wait s (fun r s' => match r with Waiting _ => kstate_ok (switched s') | _ => kstate_ok s' end).
Proof.
  intros Hk. pose proof Hk as [Ht Hh Hr Hpos]. unfold wait. wstep.
  eapply wp_run; [apply acquire_run; rewrite Hh; apply not_elem_of_nil|]. rewrite Hh. unfold wait_turn, curproc.
  wstep. wstep. eapply wp_run; [reflexivity|]. cbn [cpu_proc set_held].
  destruct (cpu_proc s) as [cur|] eqn:Hc; [|exact I].
  destruct (cur_active s cur Hk Hc) as (c & Hcur & Hca & Hcs). eapply wp_run; [reflexivity|]. wstep. wstep.
  pose proof (scan_children_spec cur (ptable s) 0 false) as Hsc.
  destruct (scan_children cur (ptable s) 0 false) as [[i|] hk].
  - destruct Hsc as (j & p & -> & Hp & Hpar & Hz). rewrite Nat.add_0_l. wstep. eapply wp_reap; [exact Hp|]. intros e.
    wstep. eapply wp_run; [eapply release_run; [reflexivity|apply not_elem_of_nil]|]. wstep.
    assert (Hne : cpu_proc s <> Some j) by congruence.
    pose proof (kstate_insert s j (reaped p) (nextpid s) e Hk Hne ltac:(lia)) as Hi. rewrite Hc in Hi.
    destruct s as [l h n ini cp tk ie es cr bm bc ou ev]. cbn in Hh, Hc, Hi, Ht, Hpos, Hp |- *. subst. apply Hi, reaped_ok; done.
  - wstep. eapply wp_getp; [exact Hcur|]. destruct (negb hk || killed c).
    + wstep. eapply wp_run; [eapply release_run; [reflexivity|apply not_elem_of_nil]|]. wstep.
      destruct s as [l h n ini cp tk ie es cr bm bc ou ev]. cbn in Hh. by subst.
    + wstep. eapply wp_run; [eapply (sleep_enter_run _ cur c); [done|exact Hcur|done]|]. wstep.
      eapply (leave_ok s cur c _ (env s)); [done|done|done| |done]. split; try done. right. split; [done|by left].
Qed.

Lemma kill_ok n s : kstate_ok s -> wp (kill n) s (fun _ s' => kstate_ok s').
Proof.
  intros Hk. pose proof Hk as [Ht Hh Hr Hpos].
  destruct (find_from (fun p => pid p =? n) (ptable s) 0) as [i|] eqn:Hf.
  - destruct (find_from_Some _ _ _ _ Hf) as (j & p & -> & Hp & _). rewrite Nat.add_0_l in *.
    eapply wp_run; [by eapply kill_found|]. apply (kstate_quiet s _ (env s) Hk).
    + eapply Forall2_quiet_insert; [exact Hp|auto with proc].
    + intros i q Hq Hi. apply list_lookup_insert_Some in Hq as [(<- & <- & _)|[_ Hq]].
      * destruct (Hr j Hi) as (p' & Hp' & Hs). simplify_eq. unfold slain, is_state. by rewrite Hs.
      * destruct (Hr i Hi) as (p' & Hp' & Hs). congruence.
  - eapply wp_run; [by apply kill_missing|done].
Qed.

Lemma sleep_ok s c lk : kstate_ok s -> wp (sleep_enter c lk) (set_held [lk] s) (fun _ s' => kstate_ok (switched s')).
Proof.
  intros Hk. destruct (cpu_proc s) as [cur|] eqn:Hc.
  - destruct (cur_active s cur Hk Hc) as (x & Hcur & Hca & Hcs).
    eapply wp_run; [eapply (sleep_enter_run _ cur x); done|].
    eapply (leave_ok s cur x _ (env s)); [done|done|done| |done]. split; try done. right. split; [done|by left].
  - unfold sleep_enter. wstep. eapply wp_run; [reflexivity|]. cbn. rewrite Hc. exact I.
Qed.

Lemma yield_ok s : kstate_ok s -> wp yield_enter s (fun _ s' => kstate_ok (switched s')).
Proof.
  intros Hk. pose proof (k_held _ Hk) as Hh. destruct (cpu_proc s) as [cur|] eqn:Hc.
  - destruct (cur_active s cur Hk Hc) as (x & Hcur & Hca & Hcs).
    eapply wp_run; [eapply (yield_enter_run _ cur x); done|].
    eapply (leave_ok s cur x _ (env s)); [done|done|done| |done]. split; try done. right. split; [done|by right].
  - unfold yield_enter, curproc. wstep. eapply wp_run; [apply acquire_run; rewrite Hh; apply not_elem_of_nil|].
    wstep. wstep. eapply wp_run; [reflexivity|]. cbn. rewrite Hc. exact I.
Qed.

(** A pass over the table that leaves each process as the invariant sees it and
    the running one running. *)
Lemma map_ok s f : kstate_ok s -> (forall x, quiet x (f x)) -> (forall x, state x = RUNNING -> state (f x) = RUNNING) ->
  kstate_ok (set_ptable (map f (ptable s)) s).
Proof.
  intros Hk Hf Hr. apply (kstate_quiet s _ (env s) Hk); [by apply Forall2_quiet_map|].
  intros i p Hp Hi. apply list_lookup_fmap_Some in Hp as (q & -> & Hq). apply Hr.
  destruct (k_cur _ Hk i Hi) as (q' & Hq' & Hs). congruence.
Qed.

Lemma wakeup_ok c s : kstate_ok s -> wp (wakeup c) s (fun _ s' => kstate_ok s').
Proof.
  intros Hk. eapply wp_run; [apply wakeup_run; [apply (k_held _ Hk)|apply (t_len _ _ _ _ (k_table _ Hk))]|].
  apply map_ok; [done|auto with proc|]. intros x Hx. rewrite woken_state. unfold is_state. by rewrite Hx.
Qed.

Lemma table_pass_ok s (f : proc -> bool) (g : proc -> proc) :
  kstate_ok s -> (forall x, quiet x (g x)) -> (forall x, state (g x) = state x) ->
  wp (for_procs (fun i => p <- getp i ;; if f p then updp i g else ret tt)) s (fun _ s' => kstate_ok s').
Proof.
  intros Hk Hq Hs. eapply wp_run; [apply for_procs_map, (t_len _ _ _ _ (k_table _ Hk))|].
  apply map_ok; [done| |]; intros x; destruct (f x); auto with proc. by rewrite Hs.
Qed.

(** The scheduler puts a process on the idle processor. *)
Lemma run_ok i s : kstate_ok s -> cpu_proc s = None ->
  wp (run_p_enter i) (set_held [LPtable] s) (fun b s' => b = true -> kstate_ok (set_held [] s')).
Proof.
  intros [Ht Hh Hr Hpos] Hc. unfold run_p_enter. destruct (ptable s !! i) as [x|] eqn:Hx.
  2:{ wstep. unfold wp, updp. mrun. cbn. by rewrite Hx. }
  destruct s as [l h n ini cp tk ie es cr bm bc ou ev]. cbn in Hh, Hc, Hx, Ht, Hpos. subst. pcbn.
  do 2 wstep. do 2 wstep. set (y := set_cycleNum _ x). destruct (is_state RUNNABLE y) eqn:Hs; cbn [negb]; [|by wstep].
  assert (Hxs : state x = RUNNABLE) by by apply is_state_spec in Hs.
  do 2 wstep. wstep. unfold switchuvm. wstep. wstep. case_match; [by wstep|]. case_match; [by wstep|].
  do 3 wstep. wstep. intros _. split; try done.
  - eapply (table_ok_edit l n (Some i) ini i x); try done.
    + destruct Ht as [? ? ? Hrun ? ? ? ? ?]. split; try done. intros j p Hp Hs'. by discriminate (Hrun j p Hp Hs').
    + unfold active. auto.
    + unfold active. auto.
    + by apply (t_files _ _ _ _ Ht i x).
  - intros j [= <-]. eexists. split; [apply list_lookup_insert_eq; by eapply lookup_lt_Some|done].
Qed.

Lemma set_mmu_ok a b s : kstate_ok s -> kstate_ok (set_mmu a b s).
Proof. by intros [Ht Hh Hr Hpos]. Qed.

(** The running process changes in fields that concern it alone. *)
Lemma edit_ok s cur c y e :
  kstate_ok s -> cpu_proc s = Some cur -> ptable s !! cur = Some c -> quiet c y -> state y = RUNNING ->
  kstate_ok (set_env e (set_ptable (<[cur := y]> (ptable s)) s)).
Proof.
  intros Hk Hc Hcur Hq Hy. apply kstate_quiet; [done|by eapply Forall2_quiet_insert|].
  intros i p Hp Hi. assert (i = cur) as -> by congruence.
  rewrite list_lookup_insert_eq in Hp by (by eapply lookup_lt_Some). by simplify_eq.
Qed.

Lemma resize_ok s cur c z e :
  kstate_ok s -> cpu_proc s = Some cur -> ptable s !! cur = Some c -> state c = RUNNING ->
  wp (updp cur (set_sz z) ;; switchuvm cur ;; ret 0) (set_env e s) (fun _ s' => kstate_ok s').
Proof.
  intros Hk Hc Hcur Hcs.
  assert (Hq : quiet c (set_sz z c)) by (split; auto).
  pose proof (edit_ok s cur c _ e Hk Hc Hcur Hq Hcs) as He.
  wstep. eapply wp_updp; [exact Hcur|]. wstep. unfold switchuvm. wstep.
  eapply wp_getp; [apply list_lookup_insert_eq; by eapply lookup_lt_Some|].
  case_match; [by wstep|]. case_match; [by wstep|]. do 2 wstep. by apply (set_mmu_ok _ _ _ He).
Qed.

Lemma growproc_ok n s : kstate_ok s -> wp (growproc n) s (fun _ s' => kstate_ok s').
Proof.
  intros Hk. unfold growproc. wstep. apply wp_curproc; [done|]. intros cur c Hc Hcur Hca Hcs.
  assert (He : forall e, kstate_ok (set_env e s)) by (intros e; by destruct Hk).
  wstep. eapply wp_getp; [exact Hcur|]. destruct (0 <? n); [|destruct (n <? 0)].
  - wstep. apply wp_call. intros r e. destruct (r =? 0); [by eapply wp_run; [reflexivity|]|by eapply resize_ok].
  - wstep. apply wp_call. intros r e. destruct (r =? 0); [by eapply wp_run; [reflexivity|]|by eapply resize_ok].
  - pose proof (resize_ok s cur c (sz c) (env s) Hk Hc Hcur Hcs) as H. by destruct s.
Qed.

(** ** Boot *)

Record boot_state s : Prop := mkBoot {
  b_table : ptable s = replicate NPROC proc_zero;
  b_held : held s = [];
  b_next : nextpid s = 1;
  b_init : initproc s = None;
  b_cur : cpu_proc s = None;
}.

Lemma boot_table_ok : table_ok (replicate NPROC proc_zero) 1 None None.
Proof.
  assert (H : forall i p, replicate NPROC proc_zero !! i = Some p -> p = proc_zero)
    by (intros i p Hp; by apply lookup_replicate_1 in Hp as [-> _]).
  split; try done.
  - intros i j p q Hp Hq _ Hne. by rewrite (H i p Hp) in Hne.
  - intros i p ->%H. split; [cbn; lia|done].
  - by intros i p ->%H.
  - by intros i p ->%H.
  - by intros i p ->%H.
  - by intros i p k ->%H.
  - intros i p ->%H. split; [done|]. done.
Qed.

Lemma userinit_ok s : boot_state s -> wp (userinit trapret forkret_addr) s (fun _ s' => kstate_ok s').
Proof.
  intros [Hl Hh Hn Hi Hc]. unfold userinit. wstep. apply wp_allocproc; [done| | |].
  - do 2 wstep. exact I.
  - intros p x e Hx Hxs y. do 2 wstep. exact I.
  - intros p x ks e Hx Hxs Hks y. pose proof boot_table_ok as Ht. rewrite <- Hl in Ht.
    pose proof (fun y => table_ok_birth _ _ _ _ p x y Ht Hx Hxs) as Hbi.
    destruct (t_files _ _ _ _ Ht _ _ Hx) as [Hxf _].
    assert (Hxz : x = proc_zero) by (rewrite Hl in Hx; by apply lookup_replicate_1 in Hx as [-> _]).
    destruct s as [l h n ini cp tk ie es cr bm bc ou ev]. cbn in Hh, Hn, Hi, Hc, Hx, Hbi. subst h n ini cp. pcbn.
    do 5 wstep. wstep. destruct (Z.eqb_spec a 0) as [->|Hpd]; [by wstep|]. do 17 wstep.
    match goal with |- kstate_ok (mkP (<[p := ?z]> l) _ _ _ _ _ _ _ _ _ _ _ _) => assert (Hz : table_ok (<[p := z]> l) 2 None None) end.
    { apply Hbi; try done. by subst x. }
    split; try done. eapply table_ok_init; [exact Hz|apply list_lookup_insert_eq; by eapply lookup_lt_Some|].
    unfold active. auto.
Qed.

Lemma pstep_ok s s' : pstep s s' -> kstate_ok s -> kstate_ok s'.
Proof.
  intros Hs Hk. destruct Hs.
  - by eapply (wp_elim _ _ _ _ _ (fork_ok _ Hk ltac:(eassumption))).
  - by eapply (wp_elim _ _ _ _ _ (exit_ok _ Hk)).
  - exact (wp_elim _ _ _ _ _ (wait_ok _ Hk) H).
  - exact (wp_elim _ _ _ _ _ (wait_ok _ Hk) H).
  - exact (wp_elim _ _ _ _ _ (wait_ok _ Hk) H).
  - by eapply (wp_elim _ _ _ _ _ (kill_ok n _ Hk)).
  - by eapply (wp_elim _ _ _ _ _ (sleep_ok _ c lk Hk)).
  - by eapply (wp_elim _ _ _ _ _ (wakeup_ok c _ Hk)).
  - by eapply (wp_elim _ _ _ _ _ (yield_ok _ Hk)).
  - exact (wp_elim _ _ _ _ _ (run_ok i _ Hk H) H0 eq_refl).
  - by eapply (wp_elim _ _ _ _ _ (growproc_ok n _ Hk)).
  - eapply (wp_elim _ _ _ _ _ (table_pass_ok s (fun p => pid p =? n) (set_level v) Hk _ _)). eassumption.
  - eapply (wp_elim _ _ _ _ _ (table_pass_ok s (fun p => pid p =? n) (set_ticket v) Hk _ _)). eassumption.
  - eapply (wp_elim _ _ _ _ _ (table_pass_ok s (fun p => pid p =? n) (set_remaining_priority v) Hk _ _)). eassumption.
  - by destruct Hk.
  - by destruct Hk.
  Unshelve. all: try (intros x; split; auto); intros x; reflexivity.
Qed.
End Steps.

(** C1: from the boot state, after [userinit], every sequence of calls of the
    process code (fork, exit, wait, kill, sleep, wakeup, yield, growproc, the
    scheduler's dispatch and the calls of the labs), with arbitrary results of the
    rest of the kernel, keeps the process table well formed: 64 slots, pids of
    used slots positive and pairwise distinct and below [nextpid], at most one process
    RUNNING and that one on the processor, no half made process left behind, a
    kernel stack and page directory for every used slot, every parent an active
    process, the open-file array of an inactive slot empty, and no lock held. *)
Theorem process_table_invariant {E} `{Env E} trapret forkret_addr (s0 s1 s : pstate E) :
  boot_state s0 -> userinit trapret forkret_addr s0 = (Ok tt, s1) ->
  rtc (pstep trapret forkret_addr) s1 s -> kstate_ok s.
Proof.
  intros Hb Hu Hs. pose proof (wp_elim _ _ _ _ _ (userinit_ok trapret forkret_addr s0 Hb) Hu) as Hk.
  clear Hu Hb. induction Hs as [|s1 s2 s3 H1 H2 IH]; [done|]. by eapply IH, pstep_ok.
Qed.

#[local] Existing Instance Demo.env.

(** Boot, the first process forks a child, the child runs and exits, the parent
    reaps it. *)
Lemma process_table_invariant_witness :
  exists s1 s : pstate unit,
    userinit 1 2 (mkP (replicate NPROC proc_zero) [] 1 None None 0 false 0 0 0 0 [] tt) = (Ok tt, s1)
    /\ rtc (pstep 1 2) s1 s /\ nextpid s = 3 /\ kstate_ok s.
Proof.
  set (s0 := mkP _ _ _ _ _ _ _ _ _ _ _ _ _).
  assert (Hu : userinit 1 2 s0 = (Ok tt, snd (userinit 1 2 s0))) by (vm_compute; reflexivity).
  exists (snd (userinit 1 2 s0)).
  assert (H : exists s, rtc (pstep 1 2) (snd (userinit 1 2 s0)) s /\ nextpid s = 3).
  { eexists. split.
    - eapply rtc_l; [eapply (p_run _ _ _ 0); vm_compute; reflexivity|].
      eapply rtc_l; [eapply p_fork; [vm_compute; reflexivity|vm_compute; reflexivity]|].
      eapply rtc_l; [eapply p_yield; vm_compute; reflexivity|].
      eapply rtc_l; [eapply (p_run _ _ _ 1); vm_compute; reflexivity|].
      eapply rtc_l; [eapply p_exit; vm_compute; reflexivity|].
      eapply rtc_l; [eapply (p_run _ _ _ 0); vm_compute; reflexivity|].
      eapply rtc_l; [eapply p_reap; vm_compute; reflexivity|].
      apply rtc_refl.
    - reflexivity. }
  destruct H as (s & Hs & Hn). exists s. split; [exact Hu|]. split; [exact Hs|]. split; [exact Hn|].
  eapply (process_table_invariant 1 2 s0); [by split|exact Hu|exact Hs].
Defined.
