(* ===== verification/ProcSpec.v ===== *)
(** What the process system calls promise to the processes that call them.

    The invariant of the table is [ProcInv]'s; here are the contracts: [fork] on
    all its branches, [exit] seen from the parent that waits, [wait] on all its
    branches, sleeping and waking, the barrier of the labs, and [kill]. *)

From Stdlib Require Import ZArith Lia.
From stdpp Require Import base list strings relations.
From S2P Require Import Prelude Kstring Proc Sched ProcInv.
Local Open Scope Z_scope.

Section Contracts.
Context {E : Type} {ENV : Env E} (trapret forkret_addr : Z).
Implicit Types s : pstate E.

(** What [exit] asks of the rest of the kernel for process [c], whose working
    directory is [d]: to close the files and put the directory back.  What [wait]
    asks of it for a zombie [p]: to free its stack and its memory. *)
Definition exit_env (c : proc) (d : nat) : M E unit :=
  close_env (ofile c) ;; e_begin_op ;; e_iput d ;; e_end_op.
Definition reap_env (p : proc) : M E unit := e_kfree (kstack p) ;; e_freevm (pgdir p).

Lemma bind_ok_inv {A B} (m : M E A) (k : A -> M E B) (e : E) b e' :
  (x <- m ;; k x) e = (Ok b, e') -> exists a e1, m e = (Ok a, e1) /\ k a e1 = (Ok b, e').
Proof. unfold bind. destruct (m e) as [[a| | | |] e1]; intros [=]; eauto. Qed.

(** Slot [i] is as it was. *)
Definition slot_kept s s' (i : nat) : Prop := ptable s' !! i = ptable s !! i.

(** The slot of a failed fork: still free. *)
Definition still_free s s' (i : nat) : Prop :=
  exists x y, ptable s !! i = Some x /\ ptable s' !! i = Some y /\ state x = UNUSED /\ state y = UNUSED.

Lemma still_free_insert s e n p x y :
  ptable s !! p = Some x -> state x = UNUSED -> state y = UNUSED ->
  forall i, slot_kept s (set_env e (set_nextpid n (set_ptable (<[p := y]> (ptable s)) s))) i
            \/ still_free s (set_env e (set_nextpid n (set_ptable (<[p := y]> (ptable s)) s))) i.
Proof.
  intros Hx Hxs Hys i. destruct (decide (i = p)) as [->|Hne].
  - right. exists x, y. repeat split; try done. cbn. apply list_lookup_insert_eq. by eapply lookup_lt_Some.
  - left. unfold slot_kept. cbn. by rewrite list_lookup_insert_ne.
Qed.

(** The fork of process [c] in slot [cur] that returns [r]. *)
Definition fork_made s (cur : nat) (c : proc) (r : Z) s' : Prop :=
  exists p x y, ptable s !! p = Some x /\ state x = UNUSED /\ ptable s' = <[p := y]> (ptable s)
    /\ r = pid y /\ 0 < r /\ (forall j q, ptable s !! j = Some q -> pid q <> r)
    /\ state y = RUNNABLE /\ parent y = Some cur /\ sz y = sz c /\ tf y = tf_child (tf c)
    /\ kstack y <> 0 /\ pgdir y <> 0 /\ nextpid s' = nextpid s + 1.

(** [m] frees the zombie [p] in slot [i]: it can only return its pid, the slot being
    free then and nothing else in the table changed, and it does return when the
    stack and the memory of [p] are freed. *)
Definition frees (m : M (pstate E) wait_result) s (i : nat) (p : proc) : Prop :=
  wp m s (fun o s' => o = Reaped (pid p) /\ ptable s' = <[i := reaped p]> (ptable s) /\ held s' = [])
  /\ forall e, reap_env p (env s) = (Ok tt, e) -> exists s', m s = (Ok (Reaped (pid p)), s').

(** The three outcomes of [wait] called by process [c] in slot [cur]. *)
Definition wait_post s (cur : nat) (c : proc) : Prop :=
  (exists i p, ptable s !! i = Some p /\ parent p = Some cur /\ state p = ZOMBIE /\ frees wait s i p)
  \/ ((forall i p, ptable s !! i = Some p -> parent p = Some cur -> state p <> ZOMBIE)
      /\ ((forall i p, ptable s !! i = Some p -> parent p <> Some cur) \/ killed c = true)
      /\ wait s = (Ok NoChildren, s))
  \/ ((forall i p, ptable s !! i = Some p -> parent p = Some cur -> state p <> ZOMBIE)
      /\ (exists i p, ptable s !! i = Some p /\ parent p = Some cur) /\ killed c = false
      /\ exists b s', wait s = (Ok (Waiting b), s')
           /\ ptable s' = <[cur := set_state SLEEPING (set_pchan (CProc cur) c)]> (ptable s)).

Lemma wait_scan_none cur s b :
  scan_children cur (ptable s) 0 false = (None, b) ->
  (forall i p, ptable s !! i = Some p -> parent p = Some cur -> state p <> ZOMBIE)
  /\ (b = true <-> exists i p, ptable s !! i = Some p /\ parent p = Some cur).
Proof.
  intros Hs. pose proof (scan_children_spec cur (ptable s) 0 false) as H. rewrite Hs in H. destruct H as [H1 ->]. split.
  - intros i p Hp. apply H1. by eapply list_elem_of_lookup_2.
  - cbn [orb]. rewrite existsb_exists. split.
    + intros (p & Hp & Hc). rewrite <- list_elem_of_In in Hp. apply list_elem_of_lookup in Hp as [i Hp].
      apply bool_decide_eq_true in Hc. eauto.
    + intros (i & p & Hp & Hc). exists p. rewrite <- list_elem_of_In. split; [by eapply list_elem_of_lookup_2|].
      by apply bool_decide_eq_true.
Qed.

Lemma wait_turn_frees s cur i b p :
  held s = [LPtable] -> cpu_proc s = Some cur -> scan_children cur (ptable s) 0 false = (Some i, b) ->
  ptable s !! i = Some p -> frees wait_turn s i p.
Proof.
  intros Hh Hc Hs Hp. split.
  - unfold wait_turn, curproc. do 2 wstep. eapply wp_run; [reflexivity|]. rewrite Hc. do 3 wstep. rewrite Hs. wstep.
    eapply wp_reap; [exact Hp|]. intros e. wstep.
    eapply wp_run; [eapply release_run; [exact Hh|apply not_elem_of_nil]|]. by wstep.
  - intros e Hr. apply bind_ok_inv in Hr as ([] & e1 & H1 & H2). eexists. by eapply wait_turn_reap.
Qed.

Lemma wait_turn_contract s cur c :
  held s = [LPtable] -> cpu_proc s = Some cur -> ptable s !! cur = Some c ->
  (exists i p, ptable s !! i = Some p /\ parent p = Some cur /\ state p = ZOMBIE /\ frees wait_turn s i p)
  \/ ((forall i p, ptable s !! i = Some p -> parent p = Some cur -> state p <> ZOMBIE)
      /\ ((forall i p, ptable s !! i = Some p -> parent p <> Some cur) \/ killed c = true)
      /\ wait_turn s = (Ok NoChildren, set_held [] s))
  \/ ((forall i p, ptable s !! i = Some p -> parent p = Some cur -> state p <> ZOMBIE)
      /\ (exists i p, ptable s !! i = Some p /\ parent p = Some cur) /\ killed c = false
      /\ wait_turn s = (Ok (Waiting (intena s)),
           set_held [LPtable] (set_ptable (<[cur := set_state SLEEPING (set_pchan (CProc cur) c)]> (ptable s)) s))).
Proof.
  intros Hh Hc Hcur. pose proof (scan_children_spec cur (ptable s) 0 false) as Hspec.
  destruct (scan_children cur (ptable s) 0 false) as [[i|] b] eqn:Hs.
  - left. destruct Hspec as (j & p & -> & Hp & Hpar & Hz). rewrite Nat.add_0_l in Hs.
    exists j, p. repeat (split; [done|]). by eapply wait_turn_frees.
  - right. destruct (wait_scan_none _ _ _ Hs) as [Hz Hb]. pose proof (wait_turn_none s cur c b Hh Hc Hcur Hs) as Hw.
    destruct b; cbn [negb orb] in Hw.
    + destruct (killed c) eqn:Hk; [left|right]; repeat split; auto. by apply Hb.
    + left. repeat split; auto. left. intros i p Hp Hpar. assert (false = true) by (apply Hb; eauto). done.
Qed.

(** *** What [exit] leaves to the parent *)

Lemma exit_table_cur cur ini x l :
  l !! cur = Some x -> active x -> parent x <> Some cur ->
  exists z, exit_table cur ini x l !! cur = Some z /\ state z = ZOMBIE /\ parent z = parent x /\ pid z = pid x.
Proof.
  intros Hx Ha Hp. unfold exit_table.
  set (x1 := set_cwd None (set_ofile (replicate NOFILE None) x)). set (l1 := map _ _). set (w := existsb _ l1).
  assert (Hlt : (cur < length l)%nat) by by eapply lookup_lt_Some.
  assert (H2 : wake_if w (chan_of ini) (map (adopted cur ini) l1) !! cur
               = Some (wake1_if w (chan_of ini) (adopted cur ini (woken (chan_of (parent x)) x1)))).
  { rewrite wake_if_lookup. unfold l1. by rewrite !list_lookup_fmap, list_lookup_insert_eq. }
  rewrite H2. eexists. split; [apply list_lookup_insert_eq; unfold l1; by rewrite wake_if_length, !length_map, length_insert|].
  cbn [state parent pid set_state]. split; [done|].
  assert (Hw : forall p, parent (wake1_if w (chan_of ini) p) = parent p /\ pid (wake1_if w (chan_of ini) p) = pid p)
    by (intros p; unfold wake1_if; destruct w; [split; apply woken_fields|done]).
  destruct (Hw (adopted cur ini (woken (chan_of (parent x)) x1))) as [-> ->].
  destruct (adopted_fields cur ini (woken (chan_of (parent x)) x1)) as (-> & _ & _ & _ & _ & ->).
  destruct (woken_fields (chan_of (parent x)) x1) as (-> & -> & _). cbn [x1 parent pid set_cwd set_ofile].
  by rewrite decide_False.
Qed.

Lemma exit_table_waiter cur ini x l j q :
  l !! j = Some q -> j <> cur -> state q = SLEEPING -> pchan q = chan_of (parent x) ->
  exists q', exit_table cur ini x l !! j = Some q' /\ state q' = RUNNABLE /\ kstack q' = kstack q /\ pgdir q' = pgdir q
    /\ killed q' = killed q.
Proof.
  intros Hq Hne Hs Hc. unfold exit_table. set (x1 := set_cwd None _). set (l1 := map _ _). set (w := existsb _ l1).
  set (l2 := wake_if w (chan_of ini) (map (adopted cur ini) l1)).
  assert (H2 : l2 !! j = Some (wake1_if w (chan_of ini) (adopted cur ini (woken (chan_of (parent x)) q)))).
  { unfold l2. rewrite wake_if_lookup. unfold l1. by rewrite !list_lookup_fmap, list_lookup_insert_ne, Hq. }
  assert (Hwk : woken (chan_of (parent x)) q = set_state RUNNABLE q).
  { unfold woken. rewrite (proj2 (is_state_spec SLEEPING q) Hs), bool_decide_eq_true_2; done. }
  rewrite Hwk in H2. set (q2 := adopted cur ini (set_state RUNNABLE q)) in H2.
  assert (Hw : wake1_if w (chan_of ini) q2 = q2).
  { unfold wake1_if. destruct w; [|done]. unfold woken, is_state.
    destruct (adopted_fields cur ini (set_state RUNNABLE q)) as (_ & Hst & _). unfold q2. by rewrite Hst. }
  rewrite Hw in H2. exists q2. split.
  - destruct (l2 !! cur); [|done]. by rewrite list_lookup_insert_ne.
  - unfold q2, adopted. by destruct (is_child cur (set_state RUNNABLE q)).
Qed.

Lemma run_p_enter_run s i x :
  ptable s !! i = Some x -> state x = RUNNABLE -> kstack x <> 0 -> pgdir x <> 0 ->
  run_p_enter i s = (Ok true, set_mmu (u32 (kstack x + KSTACKSIZE)) (V2P (pgdir x)) (set_cpu_proc (Some i)
    (set_ptable (<[i := set_state RUNNING (set_cycleNum (double_add (cycleNum x) (double_of_Z 1)) x)]> (ptable s)) s))).
Proof.
  intros Hx Hs Hk Hp. unfold run_p_enter, switchuvm. destruct s as [l h n ini cp tk ie es cr bm bc ou ev]. cbn in Hx.
  do 2 pstep1. set (y := set_cycleNum _ x).
  assert (Hy : is_state RUNNABLE y = true) by by apply is_state_spec. rewrite Hy. cbn [negb]. pstep1.
  unfold bind at 1. pstep1. change (kstack y) with (kstack x). change (pgdir y) with (pgdir x).
  rewrite (proj2 (Z.eqb_neq _ _) Hk), (proj2 (Z.eqb_neq _ _) Hp). unfold modify. pcbn. by pstep1.
Qed.

Lemma exit_returns s cur c d e' :
  exit_env c d (env s) = (Ok tt, e') -> kstate_ok s -> cpu_proc s = Some cur -> ptable s !! cur = Some c -> cwd c = Some d -> initproc s <> Some cur ->
  exit s = (Ok (intena s), set_held [LPtable] (set_env e' (set_ptable (exit_table cur (initproc s) c (ptable s)) s))).
Proof.
  intros He Hk Hc Hcur Hd Hi. pose proof Hk as [Ht Hh _ _].
  apply bind_ok_inv in He as ([] & e1 & H1 & He). apply bind_ok_inv in He as ([] & e2 & H2 & He).
  apply bind_ok_inv in He as ([] & e3 & H3 & H4).
  eapply exit_run; try done; [apply (t_len _ _ _ _ Ht)|by apply (t_files _ _ _ _ Ht cur c)].
Qed.

(** A parent that slept in [wait] takes its next turn and finds a zombie. *)
Lemma resume_wait s par q i z b :
  held s = [LPtable] -> cpu_proc s = Some par -> ptable s !! par = Some q ->
  ptable s !! i = Some z -> i <> par -> parent z = Some par -> state z = ZOMBIE ->
  exists j p, ptable s !! j = Some p /\ parent p = Some par /\ state p = ZOMBIE
    /\ (forall o s', (sleep_exit par LPtable b ;; wait_turn) s = (Ok o, s') -> o = Reaped (pid p))
    /\ forall e, reap_env p (env s) = (Ok tt, e) ->
         exists s', (sleep_exit par LPtable b ;; wait_turn) s = (Ok (Reaped (pid p)), s').
Proof.
  intros Hh Hc Hq Hz Hne Hpar Hzs. set (s1 := set_intena b (set_ptable (<[par := set_pchan CNull q]> (ptable s)) s)).
  assert (Hse : sleep_exit par LPtable b s = (Ok tt, s1)).
  { unfold sleep_exit, sched_resume. rewrite (bind_ok (modify _) _ _ _ _ eq_refl).
    erewrite (bind_ok (updp _ _)) by (apply updp_run; exact Hq). by rewrite bool_decide_eq_false_2 by auto. }
  assert (Hq1 : ptable s1 !! par = Some (set_pchan CNull q)) by (cbn; apply list_lookup_insert_eq; by eapply lookup_lt_Some).
  assert (Hz1 : ptable s1 !! i = Some z) by (cbn; by rewrite list_lookup_insert_ne).
  rewrite (bind_ok _ _ _ _ _ Hse).
  destruct (wait_turn_contract s1 par _ Hh Hc Hq1) as [(j & p & Hp & Hpp & Hps & Hw & Hr)|[(H1 & _)|(H1 & _)]];
    [|by destruct (H1 i z Hz1 Hpar)..].
  assert (Ho : forall o s', wait_turn s1 = (Ok o, s') -> o = Reaped (pid p))
    by (intros o s' Hrun; apply (wp_elim _ _ _ _ _ Hw Hrun)).
  destruct (decide (j = par)) as [->|Hj].
  - assert (p = set_pchan CNull q) as -> by congruence. exists par, q. done.
  - exists j, p. cbn in Hp. rewrite list_lookup_insert_ne in Hp by done. done.
Qed.

(** *** Finding a process by its pid *)
Lemma find_pid s i p :
  kstate_ok s -> ptable s !! i = Some p -> pid p <> 0 -> find_from (fun q => pid q =? pid p) (ptable s) 0 = Some i.
Proof.
  intros Hk Hp Hne. destruct (find_from (fun q => pid q =? pid p) (ptable s) 0) as [j|] eqn:Hf.
  - destruct (find_from_Some _ _ _ _ Hf) as (k & q & -> & Hq & Heq & _). apply Z.eqb_eq in Heq. f_equal.
    eapply (t_uniq _ _ _ _ (k_table _ Hk)); [exact Hq|exact Hp|done|congruence].
  - apply find_from_None in Hf. rewrite Forall_lookup in Hf. specialize (Hf i p Hp). cbn in Hf. lia.
Qed.

(** *** The barrier *)

(** A process is dispatched and calls [barrier_wait]; if it sleeps the processor
    goes back to the scheduler. *)
Definition arrive (i : nat) : M (pstate E) unit :=
  modify (set_held [LPtable]) ;;
  _ <- run_p_enter i ;;
  modify (set_held []) ;;
  r <- barrier_wait ;;
  match r with Some _ => modify switched | None => ret tt end.

Fixpoint arrivals (ids : list nat) : M (pstate E) unit :=
  match ids with [] => ret tt | i :: ids' => arrive i ;; arrivals ids' end.

Definition ready_slot s (i : nat) : Prop :=
  exists p, ptable s !! i = Some p /\ state p = RUNNABLE /\ kstack p <> 0 /\ pgdir p <> 0.
Definition held_at_barrier s (i : nat) : Prop :=
  exists p, ptable s !! i = Some p /\ state p = SLEEPING /\ pchan p = CBarrier.

Lemma arrive_sleeps s i :
  held s = [] -> ready_slot s i -> 0 <= bar_counter s -> bar_counter s + 1 < bar_max s < 2 ^ 31 ->
  exists s', arrive i s = (Ok tt, s') /\ held s' = [] /\ cpu_proc s' = None /\ held_at_barrier s' i
    /\ bar_counter s' = bar_counter s + 1 /\ bar_max s' = bar_max s
    /\ length (ptable s') = length (ptable s) /\ (forall j, j <> i -> ptable s' !! j = ptable s !! j).
Proof.
  intros Hh (p & Hp & Hs & Hk & Hg) Hc Hm. unfold arrive.
  rewrite (bind_ok (modify _) _ _ _ _ eq_refl).
  rewrite (bind_ok _ _ _ _ _ (run_p_enter_run (set_held [LPtable] s) i p Hp Hs Hk Hg)).
  destruct s as [l h n ini cp tk ie es cr bm bc ou ev]. cbn in Hp, Hh, Hc, Hm. subst h. pcbn.
  rewrite (bind_ok (modify _) _ _ _ _ eq_refl). unfold barrier_wait. unfold bind at 1. pstep1.
  rewrite (bind_ok get _ _ _ _ eq_refl). pcbn. rewrite s32_id by lia. rewrite (proj2 (Z.ltb_lt _ _)) by lia. pstep1.
  erewrite (bind_ok (sleep_enter _ _)); [|eapply sleep_enter_run; [reflexivity|solve_slot|reflexivity]]. pcbn.
  rewrite list_insert_insert_eq. unfold ret, modify, switched. pcbn.
  eexists. split; [reflexivity|]. pcbn. repeat split; try done.
  - eexists. split; [apply list_lookup_insert_eq; by eapply lookup_lt_Some|done].
  - by rewrite length_insert.
  - intros j Hj. by rewrite list_lookup_insert_ne.
Qed.

Lemma arrivals_sleep ids : forall s,
  held s = [] -> NoDup ids -> (forall i, i ∈ ids -> ready_slot s i) -> 0 <= bar_counter s ->
  bar_counter s + Z.of_nat (length ids) < bar_max s < 2 ^ 31 ->
  exists s', arrivals ids s = (Ok tt, s') /\ held s' = [] /\ (forall i, i ∈ ids -> held_at_barrier s' i)
    /\ bar_counter s' = bar_counter s + Z.of_nat (length ids) /\ bar_max s' = bar_max s
    /\ length (ptable s') = length (ptable s) /\ (forall j, j ∉ ids -> ptable s' !! j = ptable s !! j).
Proof.
  induction ids as [|i ids IH]; intros s Hh Hnd Hr Hc Hm; cbn [arrivals].
  - exists s. repeat split; try done; [by intros i ?%elem_of_nil|cbn; lia].
  - apply NoDup_cons in Hnd as [Hni Hnd]. cbn [length] in Hm.
    destruct (arrive_sleeps s i Hh (Hr i ltac:(left)) Hc ltac:(lia)) as (s1 & H1 & Hh1 & _ & Hb1 & Hc1 & Hm1 & Hl1 & Hk1).
    destruct (IH s1) as (s2 & H2 & Hh2 & Hb2 & Hc2 & Hm2 & Hl2 & Hk2); try done; [|lia|rewrite Hc1, Hm1; lia|].
    + intros j Hj. destruct (Hr j ltac:(by right)) as (p & Hp & Hrest). exists p. split; [|done].
      rewrite Hk1; [done|]. intros ->. done.
    + exists s2. rewrite (bind_ok _ _ _ _ _ H1). repeat split; [done|done| |rewrite Hc2, Hc1; cbn [length]; lia|congruence|congruence|].
      * intros j [->|Hj]%elem_of_cons; [|by apply Hb2]. destruct Hb1 as (p & Hp & Hrest). exists p. by rewrite Hk2.
      * intros j [Hj1 Hj2]%not_elem_of_cons. rewrite Hk2 by done. by apply Hk1.
Qed.

Lemma arrive_opens s i :
  held s = [] -> ready_slot s i -> length (ptable s) = NPROC -> 0 <= bar_counter s < 2 ^ 31 - 1 -> bar_max s <= bar_counter s + 1 ->
  exists s', arrive i s = (Ok tt, s') /\ cpu_proc s' = Some i
    /\ (exists p, ptable s' !! i = Some p /\ state p = RUNNING)
    /\ (forall j p, j <> i -> ptable s !! j = Some p -> ptable s' !! j = Some (woken CBarrier p)).
Proof.
  intros Hh (p & Hp & Hs & Hk & Hg) Hl Hc Hm. unfold arrive.
  rewrite (bind_ok (modify _) _ _ _ _ eq_refl).
  rewrite (bind_ok _ _ _ _ _ (run_p_enter_run (set_held [LPtable] s) i p Hp Hs Hk Hg)).
  destruct s as [l h n ini cp tk ie es cr bm bc ou ev]. cbn in Hp, Hh, Hc, Hm, Hl. subst h. pcbn.
  rewrite (bind_ok (modify _) _ _ _ _ eq_refl). unfold barrier_wait. unfold bind at 1. pstep1.
  rewrite (bind_ok get _ _ _ _ eq_refl). pcbn. rewrite s32_id by lia. rewrite (proj2 (Z.ltb_ge _ _)) by lia.
  unfold cprintf. pstep1. erewrite (bind_ok (wakeup _)) by (apply wakeup_run; [done|pcbn; by rewrite length_insert]). pcbn.
  eexists. split; [reflexivity|]. pcbn. split; [done|]. split.
  - eexists. rewrite list_lookup_fmap, list_lookup_insert_eq by (by eapply lookup_lt_Some). split; [done|].
    rewrite woken_state. done.
  - intros j q Hj Hq. by rewrite list_lookup_fmap, list_lookup_insert_ne, Hq.
Qed.
End Contracts.

Section Theorems.
Context {E : Type} {ENV : Env E}.
Implicit Types s : pstate E.

Lemma fork_cases trapret forkret_addr s cur c :
  kstate_ok s -> nextpid s < 2 ^ 31 - 1 -> cpu_proc s = Some cur -> ptable s !! cur = Some c ->
  wp (fork trapret forkret_addr) s (fun r s' =>
    (r = -1 /\ forall i, slot_kept s s' i \/ still_free s s' i) \/ fork_made s cur c r s').
Proof.
  intros Hk Hn Hc Hcur.
  pose proof Hk as [Ht Hh Hr Hpos]. assert (Hs32 : s32 (nextpid s + 1) = nextpid s + 1) by (apply s32_id; lia).
  assert (Hfresh : forall j q, ptable s !! j = Some q -> pid q <> nextpid s)
    by (intros j q Hq; destruct (t_pid _ _ _ _ Ht j q Hq); lia).
  assert (Hca : state c = RUNNING) by (destruct (Hr cur Hc) as (c' & ? & ?); congruence).
  unfold fork, curproc. do 2 wstep. eapply wp_run; [reflexivity|]. rewrite Hc. do 2 wstep.
  apply wp_allocproc; [done| | |].
  - wstep. left. split; [done|]. intros i. by left.
  - intros p x e' Hx Hxs y. wstep. left. split; [done|]. by eapply still_free_insert.
  - intros p x ks e' Hx Hxs Hks y. rewrite Hs32. assert (Hne : p <> cur) by (intros ->; congruence).
    pose proof (fun e y => still_free_insert s e (nextpid s + 1) p x y Hx Hxs) as Hfree.
    destruct s as [l h n ini cp tk ie es cr bm bc ou ev]. cbn in Hc, Hh, Hcur, Hx, Hpos, Hfree, Hfresh. subst. pcbn.
    do 6 wstep. destruct (Z.eqb_spec a 0) as [->|Hpd].
    + do 9 wstep. left. split; [done|]. by apply Hfree.
    + do 6 wstep. wstep. eapply wp_dup_files; [solve_slot|]. intros gs e2 Hgs. pcbn. rewrite list_insert_insert_eq.
      wstep. destruct (cwd c) as [d|]; [|by wstep]. do 13 wstep. right. eexists p, x, _. repeat split; done.
Qed.

(** every outcome of [fork] that returns.  Either it returns -1 and
    leaves every process as it was and every free slot free; or it returns a pid
    no slot has, and one slot that was free now holds the child: RUNNABLE, the
    caller its parent, the caller's size and registers except that [fork]
    returns 0 in it, every other slot untouched. *)
Theorem fork_outcome trapret forkret_addr s cur c r s' :
  kstate_ok s -> nextpid s < 2 ^ 31 - 1 -> cpu_proc s = Some cur -> ptable s !! cur = Some c ->
  fork trapret forkret_addr s = (Ok r, s') ->
  (r = -1 /\ forall i, slot_kept s s' i \/ still_free s s' i) \/ fork_made s cur c r s'.
Proof. intros Hk Hn Hc Hcur Hf. exact (wp_elim _ _ _ _ _ (fork_cases trapret forkret_addr s cur c Hk Hn Hc Hcur) Hf). Qed.

(** every outcome of [wait], from any state in which a process runs.  If a child is
    a zombie, the call frees one such child and returns its pid (it does return when
    the child's stack and memory are freed), changing nothing else in the table; if no child is a zombie and there is no child or the caller
    was killed, it returns -1 and changes nothing; otherwise the caller sleeps on
    its own channel, which is the one [exit] of a child wakes. *)
Theorem wait_contract s cur c :
  kstate_ok s -> cpu_proc s = Some cur -> ptable s !! cur = Some c ->
  wait_post s cur c.
Proof.
  intros Hk Hc Hcur. pose proof (k_held _ Hk) as Hh. unfold wait_post, frees, wp. rewrite (wait_acquire s Hh).
  destruct (wait_turn_contract (set_held [LPtable] s) cur c eq_refl Hc Hcur)
    as [H|[(H1 & H2 & ->)|(H1 & H2 & H3 & ->)]]; [by left|right; left|right; right].
  - repeat split; auto. destruct s as [l h n ini cp tk ie es cr bm bc ou ev]. cbn in Hh. by subst.
  - repeat split; auto. by eexists _, _.
Qed.


(** no wakeup is lost and none is spurious.  A process that sleeps on a channel
    gives up its lock only with the table locked and itself already SLEEPING on the channel;
    a later [wakeup] makes it runnable exactly when it is for that channel; and
    [kill] with its pid makes it runnable and marks it killed. *)
Theorem sleep_until_wakeup s cur c ch lk :
  kstate_ok s -> cpu_proc s = Some cur -> ptable s !! cur = Some c ->
  exists s1, sleep_enter ch lk (set_held [lk] s) = (Ok (intena s), s1) /\ held s1 = [LPtable]
    /\ (exists c1, ptable s1 !! cur = Some c1 /\ state c1 = SLEEPING /\ pchan c1 = ch)
    /\ (forall ch', exists s2 c2, wakeup ch' (switched s1) = (Ok tt, s2) /\ ptable s2 !! cur = Some c2
          /\ (state c2 = RUNNABLE <-> ch' = ch) /\ (state c2 = SLEEPING <-> ch' <> ch))
    /\ (exists s2 c2, kill (pid c) (switched s1) = (Ok 0, s2) /\ ptable s2 !! cur = Some c2
          /\ state c2 = RUNNABLE /\ killed c2 = true).
Proof.
  intros Hk Hc Hcur. destruct (k_cur _ Hk cur Hc) as (c' & Hc' & Hcs). assert (c' = c) as -> by congruence.
  set (c1 := set_state SLEEPING (set_pchan ch c)). set (s1 := set_held [LPtable] (set_ptable (<[cur := c1]> (ptable s)) s)).
  assert (Hs : sleep_enter ch lk (set_held [lk] s) = (Ok (intena s), s1))
    by exact (sleep_enter_run (set_held [lk] s) cur c ch lk Hc Hcur eq_refl).
  pose proof (wp_elim _ _ _ _ _ (sleep_ok s ch lk Hk) Hs) as Hk1.
  assert (Hlt : (cur < length (ptable s))%nat) by by eapply lookup_lt_Some.
  assert (Hc1 : ptable (switched s1) !! cur = Some c1) by (cbn; by apply list_lookup_insert_eq).
  exists s1. split; [done|]. split; [done|]. split; [by exists c1|]. split.
  - intros ch'. eexists _, _. split; [apply wakeup_run; [done|apply (t_len _ _ _ _ (k_table _ Hk1))]|].
    cbn [ptable set_ptable]. rewrite list_lookup_fmap, Hc1. split; [reflexivity|].
    rewrite woken_state. change (is_state SLEEPING c1) with true. change (pchan c1) with ch. change (state c1) with SLEEPING.
    cbn [andb]. case_bool_decide; intuition congruence.
  - assert (Hpid : pid c1 <> 0).
    { destruct (t_pid _ _ _ _ (k_table _ Hk) cur c Hcur) as [_ H]. cbn. pose proof (H ltac:(congruence)). lia. }
    change (pid c) with (pid c1). eexists _, _. split; [eapply kill_found; [done|by apply find_pid|exact Hc1]|].
    split; [cbn; apply list_lookup_insert_eq; by rewrite length_insert|]. done.
Qed.

(** the barrier.  When [n] processes have to meet ([barrier_init n]), the first
    [n - 1] that arrive are all held, asleep on the barrier's channel; the arrival
    of the last makes every one of them runnable and goes on running itself. *)
Theorem barrier_opens_for_last s ids last :
  held s = [] -> length (ptable s) = NPROC -> NoDup (last :: ids) ->
  (forall i, i ∈ last :: ids -> ready_slot s i) ->
  exists s1 s2 s3, barrier_init (Z.of_nat (length ids) + 1) s = (Ok tt, s1)
    /\ arrivals ids s1 = (Ok tt, s2) /\ (forall i, i ∈ ids -> held_at_barrier s2 i)
    /\ arrive last s2 = (Ok tt, s3) /\ cpu_proc s3 = Some last
    /\ (forall i, i ∈ ids -> exists p, ptable s3 !! i = Some p /\ state p = RUNNABLE).
Proof.
  intros Hh Hl [Hni Hnd]%NoDup_cons Hr. unfold barrier_init, cprintf. eexists. 
  assert (Hsz : (length ids <= NPROC)%nat).
  { rewrite <- (length_seq NPROC 0). apply submseteq_length, NoDup_submseteq; [done|]. intros i Hi.
    destruct (Hr i ltac:(by right)) as (p & Hp & _). apply lookup_lt_Some in Hp. apply elem_of_seq. lia. }
  assert (HN : Z.of_nat NPROC = 64) by reflexivity.
  set (s1 := set_out (out s ++ ["Kernel: barrier initialized.\n"%string]) (set_barrier (Z.of_nat (length ids) + 1) 0 s)).
  destruct (arrivals_sleep ids s1) as (s2 & H2 & Hh2 & Hb2 & Hc2 & Hm2 & Hl2 & Hk2); try done;
    [intros i Hi; by apply Hr; right|cbn; lia|].
  destruct (arrive_opens s2 last) as (s3 & H3 & Hcp & _ & Hw).
  - done.
  - destruct (Hr last ltac:(left)) as (p & Hp & Hrest). exists p. by rewrite Hk2.
  - by rewrite Hl2.
  - rewrite Hc2. cbn. lia.
  - rewrite Hc2, Hm2. cbn. lia.
  - exists s2, s3. split; [reflexivity|]. repeat split; try done.
    intros i Hi. destruct (Hb2 i Hi) as (p & Hp & Hps & Hpc). exists (woken CBarrier p). split.
    + apply Hw; [by intros ->|done].
    + rewrite woken_state, (proj2 (is_state_spec SLEEPING p) Hps), bool_decide_eq_true_2; done.
Qed.
End Theorems.

(** ** Concrete runs *)

Module Runs.
#[local] Existing Instance Demo.env.

Definition boot : pstate unit := mkP (replicate NPROC proc_zero) [] 1 None None 0 false 0 0 0 0 [] tt.
Definition booted : pstate unit := snd (userinit 1 2 boot).
Definition dispatch (i : nat) (s : pstate unit) : pstate unit := set_held [] (snd (run_p_enter i (set_held [LPtable] s))).
(** The first process runs; it has forked; it waits; its child runs. *)
Definition init_runs := dispatch 0 booted.
Definition forked := snd (fork 1 2 init_runs).
Definition waiting := switched (snd (wait forked)).
Definition child_runs := dispatch 1 waiting.

Lemma booted_ok : kstate_ok booted.
Proof. eapply (wp_elim _ _ _ _ _ (userinit_ok 1 2 boot ltac:(by split))). vm_compute. reflexivity. Qed.

Lemma init_runs_ok : kstate_ok init_runs.
Proof. eapply (pstep_ok 1 2); [|exact booted_ok]. eapply (p_run _ _ _ 0); vm_compute; reflexivity. Qed.

Lemma forked_ok : kstate_ok forked.
Proof. eapply (pstep_ok 1 2); [|exact init_runs_ok]. eapply p_fork; [reflexivity|]. vm_compute. reflexivity. Qed.

Lemma waiting_ok : kstate_ok waiting.
Proof. eapply (pstep_ok 1 2); [|exact forked_ok]. eapply p_wait. vm_compute. reflexivity. Qed.

Lemma child_runs_ok : kstate_ok child_runs.
Proof. eapply (pstep_ok 1 2); [|exact waiting_ok]. eapply (p_run _ _ _ 1); vm_compute; reflexivity. Qed.

Definition slot (s : pstate unit) (i : nat) : proc := nth i (ptable s) proc_zero.

Lemma fork_outcome_witness :
  exists r s', fork 1 2 init_runs = (Ok r, s')
    /\ ((r = -1 /\ forall i, slot_kept init_runs s' i \/ still_free init_runs s' i)
        \/ fork_made init_runs 0 (slot init_runs 0) r s').
Proof.
  eexists _, _. split; [vm_compute; reflexivity|].
  apply (fork_outcome 1 2 init_runs 0 (slot init_runs 0)); [exact init_runs_ok|vm_compute; reflexivity..].
Defined.

Lemma wait_contract_witness : wait_post forked 0 (slot forked 0).
Proof. apply (wait_contract forked 0); [exact forked_ok|vm_compute; reflexivity..]. Defined.

Lemma sleep_until_wakeup_witness :
  exists s1, sleep_enter CTicks LTicks (set_held [LTicks] init_runs) = (Ok false, s1) /\ held s1 = [LPtable]
    /\ exists c1, ptable s1 !! 0%nat = Some c1 /\ state c1 = SLEEPING /\ pchan c1 = CTicks.
Proof.
  destruct (sleep_until_wakeup init_runs 0 (slot init_runs 0) CTicks LTicks init_runs_ok) as (s1 & H1 & H2 & H3 & _);
    [vm_compute; reflexivity|vm_compute; reflexivity|]. exists s1. split; [exact H1|]. split; [exact H2|exact H3].
Defined.

(** Three processes meet. *)
Definition three : pstate unit := set_held [] (Demo.start [Demo.ready 1 0 1 1; Demo.ready 2 0 1 1; Demo.ready 3 0 1 1]).

Lemma barrier_opens_for_last_witness :
  exists s1 s2 s3, barrier_init 3 three = (Ok tt, s1)
    /\ arrivals [0; 1]%nat s1 = (Ok tt, s2) /\ (forall i, i ∈ [0; 1]%nat -> held_at_barrier s2 i)
    /\ arrive 2 s2 = (Ok tt, s3) /\ cpu_proc s3 = Some 2%nat
    /\ (forall i, i ∈ [0; 1]%nat -> exists p, ptable s3 !! i = Some p /\ state p = RUNNABLE).
Proof.
  apply (barrier_opens_for_last three [0; 1]%nat 2); [reflexivity|reflexivity|by apply (bool_decide_unpack _)|].
  intros i Hi. rewrite !elem_of_cons in Hi. destruct Hi as [->|[->|[->|Hi]]]; [| | |by apply elem_of_nil in Hi];
    (eexists; split; [vm_compute; reflexivity|]); by repeat split.
Defined.

(** [kill(0)] succeeds and dooms a process that does not exist yet.  A free slot has
    pid 0, so [kill] finds one, marks it killed and returns 0; [allocproc] does not reset
    the mark, and the child the next [fork] puts into the slot is born killed. *)
Theorem kill_zero_kills_next_child :
  exists s1 s2 y, kill 0 init_runs = (Ok 0, s1) /\ fork 1 2 s1 = (Ok 2, s2)
    /\ ptable s2 !! 1%nat = Some y /\ pid y = 2 /\ state y = RUNNABLE /\ killed y = true.
Proof. eexists _, _, _. split; [vm_compute; reflexivity|]. split; [vm_compute; reflexivity|]. split; [vm_compute; reflexivity|]. done. Qed.
End Runs.
