(* ===== verification/Syscall.v ===== *)
(** System calls: [src/syscall.c], which fetches arguments from user memory and
    dispatches, and the handlers of [src/sysproc.c].

    The state is the process table and the rest of the kernel ([Proc.pstate]) with
    the user memory of the running process.  A handler that gives up the processor
    ends in [Switched]; the handlers that loop around a sleep are given as their
    turns.  Handlers of [sysfile.c] and [exec.c] are the parameter [others]. *)

From Stdlib Require Import ZArith Lia.
From stdpp Require Import base list strings pretty.
From S2P Require Import Prelude Kstring Proc.
Local Open Scope Z_scope.

Record sstate (E : Type) := mkS { ps : pstate E; um : mem }.
Arguments mkS {E}. Arguments ps {E}. Arguments um {E}.

(** The C string in an array of bytes. *)
Fixpoint text_of (l : list Z) : string :=
  match l with
  | [] => EmptyString
  | c :: l' => if c =? 0 then EmptyString else String (Ascii.ascii_of_nat (Z.to_nat c)) (text_of l')
  end.

(** How a handler leaves: with a value, by a switch it comes back from, for good, or
    at the turn of a loop in which it lets interrupts in. *)
Inductive outcome := Return (r : Z) | Switched (intena : bool) | Gone | Again (n ticks0 : Z).

Section Syscall.
Context {E : Type} {ENV : Env E}.
Abbreviation SM := (M (sstate E)).

Definition set_ps (p : pstate E) (s : sstate E) : sstate E := mkS p (um s).
Definition set_um (m : mem) (s : sstate E) : sstate E := mkS (ps s) m.
Definition onp {A} (m : M (pstate E) A) : SM A := zoom ps set_ps m.

(** [*myproc()]. *)
Definition myp : SM proc := i <- onp curproc ;; onp (getp i).

(** ** Fetching arguments

    Results are what the code stores through its pointer argument; [None] is the
    return value -1. *)

Definition fetchint (addr : Z) : SM (option Z) :=
  p <- myp ;;
  if (sz p <=? addr) || (sz p <? u32 (addr + 4)) then ret None else
  m <- gets um ;;
  ret (Some (s32 (load32 m addr))).

(** The loop of [fetchstr], over the [n] bytes from [s] to the end of memory. *)
Fixpoint fetchstr_loop (m : mem) (s : Z) (len : Z) (n : nat) : option Z :=
  match n with
  | O => None
  | S k => if m s =? 0 then Some len else fetchstr_loop m (s + 1) (len + 1) k
  end.

(** The pointer and the length. *)
Definition fetchstr (addr : Z) : SM (option (Z * Z)) :=
  p <- myp ;;
  if sz p <=? addr then ret None else
  m <- gets um ;;
  ret (match fetchstr_loop m addr 0 (Z.to_nat (sz p - addr)) with
       | Some n => Some (addr, n)
       | None => None
       end).

Definition argint (n : Z) : SM (option Z) :=
  p <- myp ;;
  fetchint (u32 (tf_esp (tf p) + 4 + 4 * n)).

Definition argptr (n size : Z) : SM (option Z) :=
  p <- myp ;;
  o <- argint n ;;
  match o with
  | None => ret None
  | Some i =>
      if (size <? 0) || (sz p <=? u32 i) || (sz p <? u32 (u32 i + size)) then ret None
      else ret (Some (u32 i))
  end.

Definition argstr (n : Z) : SM (option (Z * Z)) :=
  o <- argint n ;;
  match o with
  | None => ret None
  | Some a => fetchstr (u32 a)
  end.

(** [if(argint(n, &x) < 0) return -1;]. *)
Definition with_int (n : Z) (k : Z -> SM outcome) : SM outcome :=
  o <- argint n ;;
  match o with Some x => k x | None => ret (Return (-1)) end.

(** ** [sysproc.c] *)

Context (trapret forkret_addr : Z).

Definition sys_fork : SM outcome := r <- onp (fork trapret forkret_addr) ;; ret (Return r).
Definition sys_exit : SM outcome := onp exit ;; ret Gone.

Definition wait_outcome (w : wait_result) : outcome :=
  match w with Reaped n => Return n | NoChildren => Return (-1) | Waiting b => Switched b end.
Definition sys_wait : SM outcome := w <- onp wait ;; ret (wait_outcome w).
(** The rest of a [wait] that slept, from the switch back on. *)
Definition sys_wait_resume (p : nat) (b : bool) : SM outcome :=
  onp (sleep_exit p LPtable b) ;; w <- onp wait_turn ;; ret (wait_outcome w).

Definition sys_kill : SM outcome :=
  with_int 0 (fun pid => r <- onp (kill pid) ;; ret (Return r)).

Definition sys_getpid : SM outcome := p <- myp ;; ret (Return (pid p)).

Definition sys_sbrk : SM outcome :=
  with_int 0 (fun n =>
    p <- myp ;;
    let addr := s32 (sz p) in
    r <- onp (growproc n) ;;
    if r <? 0 then ret (Return (-1)) else ret (Return addr)).

(** A turn of the loop of [sys_sleep], with [tickslock] held. *)
Definition sleep_turn (n ticks0 : Z) : SM outcome :=
  t <- gets (fun s => ticks (ps s)) ;;
  if u32 (t - ticks0) <? u32 n then
    p <- myp ;;
    if killed p then onp (release LTicks) ;; ret (Return (-1)) else
    b <- onp (sleep_enter CTicks LTicks) ;; ret (Switched b)
  else onp (release LTicks) ;; ret (Return 0).

Definition sys_sleep : SM outcome :=
  with_int 0 (fun n =>
    onp (acquire LTicks) ;;
    ticks0 <- gets (fun s => ticks (ps s)) ;;
    sleep_turn n ticks0).
Definition sys_sleep_resume (n ticks0 : Z) (p : nat) (b : bool) : SM outcome :=
  onp (sleep_exit p LTicks b) ;; sleep_turn n ticks0.

Definition sys_uptime : SM outcome :=
  onp (acquire LTicks) ;;
  xticks <- gets (fun s => ticks (ps s)) ;;
  onp (release LTicks) ;;
  ret (Return (s32 xticks)).

(** [while(number != 0) { num_of_digits++; number /= 10; }]; an [int] has at most
    ten digits. *)
Fixpoint count_digits (fuel : nat) (number n : Z) : Z :=
  match fuel with
  | O => n
  | S k => if number =? 0 then n else count_digits k (Z.quot number 10) (n + 1)
  end.

Definition sys_count_num_of_digits : SM outcome :=
  p <- myp ;;
  let number := s32 (tf_ebx (tf p)) in
  let n := count_digits 10 number 0 in
  onp (cprintf ("From Kernel: #digits of " +:+ pretty number +:+ " is " +:+ pretty n +:+ "\n")) ;;
  ret (Return 0).

(** [low] is what a null process pointer's [pid] field reads as, see
    [Proc.get_children_of]. *)
Context (low : Z).

Definition sys_get_parent_id : SM outcome :=
  p <- myp ;;
  match parent p with
  | Some k => q <- onp (getp k) ;; ret (Return (pid q))
  | None => ret (Return low)
  end.

Fixpoint pow2_loop (p a : Z) (n : nat) : Z :=
  match n with O => p | S k => pow2_loop (s32 (p * a)) a k end.
Definition pow2 (a n : Z) : Z :=
  if n =? 0 then 1 else pow2_loop a a (Z.to_nat (n - 1)).

(** The inner loop of [sys_get_children]: the decimal digits of [temp_children],
    of which an [int] has at most ten. *)
Fixpoint explore (fuel : nat) (temp grand counter queue : Z) : Z * Z * Z :=
  match fuel with
  | O => (grand, counter, queue)
  | S k =>
      if 0 <? temp then
        let c := Z.rem temp 10 in
        explore k (Z.quot temp 10) (s32 (grand + s32 (c * pow2 10 counter))) (counter + 1) (s32 (s32 (queue * 10) + c))
      else (grand, counter, queue)
  end.

(** The outer loop; the code's loop need not end. *)
Fixpoint get_children_loop (fuel : nat) (pid grand counter queue : Z) : SM Z :=
  match fuel with
  | O => spin
  | S k =>
      if (0 <? queue) || (pid =? 0) then
        let pid := if pid =? 0 then -1 else pid in
        children <- onp (get_children_of low (Z.rem queue 10)) ;;
        let queue := Z.quot queue 10 in
        let '(grand, counter, queue) := explore 10 children grand counter queue in
        get_children_loop k pid grand counter queue
      else ret grand
  end.
Definition sys_get_children (fuel : nat) : SM outcome :=
  with_int 0 (fun pid =>
    grand <- get_children_loop fuel pid 0 0 pid ;;
    ret (Return (if grand =? 0 then -1 else grand))).

(** [sys_set_sleep] spins; at each turn of its loop it gives up the lock, enables
    interrupts and takes the lock again. *)
Definition sys_set_sleep_turn (n ticks0 : Z) : SM outcome :=
  t <- gets (fun s => ticks (ps s)) ;;
  if u32 (t - ticks0) <? u32 (s32 (n * 90)) then onp (release LTicks) ;; ret (Again n ticks0)
  else onp (release LTicks) ;; ret (Return 0).
Definition sys_set_sleep : SM outcome :=
  with_int 0 (fun n =>
    onp (acquire LTicks) ;;
    ticks0 <- gets (fun s => ticks (ps s)) ;;
    sys_set_sleep_turn n ticks0).
Definition sys_set_sleep_resume (n ticks0 : Z) : SM outcome :=
  onp (acquire LTicks) ;; sys_set_sleep_turn n ticks0.

(** [cmostime(t)] stores the six words of [struct rtcdate] the clock chip gives. *)
Context (cmos : list Z).
Fixpoint store_words (m : mem) (a : Z) (l : list Z) : mem :=
  match l with [] => m | w :: l' => store_words (store32 m a w) (a + 4) l' end.
Definition sizeof_pointer : Z := 4.
Definition sys_get_time : SM outcome :=
  o <- argptr 0 sizeof_pointer ;;
  match o with
  | None => ret (Return (-1))
  | Some t =>
      modify (fun s => set_um (store_words (um s) t cmos) s) ;;
      m <- gets um ;;
      ret (Return (s32 (load32 m t + u32 (load32 m (t + 4) * 60) + u32 (load32 m (t + 8) * 3600))))
  end.

Definition sys_change_process_level : SM outcome :=
  with_int 0 (fun pid => with_int 1 (fun level => onp (change_process_level pid level) ;; ret (Return 0))).
Definition sys_set_process_ticket : SM outcome :=
  with_int 0 (fun pid => with_int 1 (fun ticket => onp (set_process_ticket pid ticket) ;; ret (Return 0))).
Definition sys_set_process_remaining_priority : SM outcome :=
  with_int 0 (fun pid => with_int 1 (fun pr => onp (set_process_remaining_priority pid pr) ;; ret (Return 0))).

Definition sys_barrier_init : SM outcome :=
  with_int 0 (fun n => onp (barrier_init n) ;; ret (Return 0)).
Definition sys_barrier_wait : SM outcome :=
  o <- onp barrier_wait ;;
  match o with Some b => ret (Switched b) | None => ret (Return 0) end.
Definition sys_barrier_wake (p : nat) (b : bool) : SM outcome :=
  onp (barrier_wake p b) ;; ret (Return 0).

(** ** Dispatch *)

Context (others : Z -> option (SM outcome)).

Definition syscalls (fuel : nat) (num : Z) : option (SM outcome) :=
  if num =? 1 then Some sys_fork else
  if num =? 2 then Some sys_exit else
  if num =? 3 then Some sys_wait else
  if num =? 6 then Some sys_kill else
  if num =? 11 then Some sys_getpid else
  if num =? 12 then Some sys_sbrk else
  if num =? 13 then Some sys_sleep else
  if num =? 14 then Some sys_uptime else
  if num =? 22 then Some sys_count_num_of_digits else
  if num =? 23 then Some sys_get_parent_id else
  if num =? 24 then Some (sys_get_children fuel) else
  if num =? 26 then Some sys_set_sleep else
  if num =? 27 then Some sys_get_time else
  if num =? 28 then Some sys_change_process_level else
  if num =? 29 then Some sys_set_process_ticket else
  if num =? 30 then Some sys_set_process_remaining_priority else
  if num =? 32 then Some sys_barrier_init else
  if num =? 33 then Some sys_barrier_wait else others num.

Definition NELEM_syscalls : Z := 35.

Definition set_eax (v : Z) (t : trapframe) : trapframe :=
  mkTf (tf_ebx t) v (tf_es t) (tf_ds t) (tf_trapno t) (tf_eip t) (tf_cs t) (tf_eflags t) (tf_esp t) (tf_ss t).

(** The result in the caller's [eax]: the end of [syscall]. *)
Definition syscall_return (r : Z) : SM unit :=
  i <- onp curproc ;; onp (updp i (fun x => set_tf (set_eax (u32 r) (tf x)) x)).

Definition syscall (fuel : nat) : SM outcome :=
  p <- myp ;;
  let num := s32 (tf_eax (tf p)) in
  let handler := if (0 <? num) && (num <? NELEM_syscalls) then syscalls fuel num else None in
  match handler with
  | Some h =>
      o <- h ;;
      match o with
      | Return r => syscall_return r ;; ret (Return r)
      | _ => ret o
      end
  | None =>
      onp (cprintf (pretty (pid p) +:+ " " +:+ text_of (name p) +:+ ": unknown sys call " +:+ pretty num +:+ "\n")) ;;
      syscall_return (-1) ;;
      ret (Return (-1))
  end.
End Syscall.

(** ** Facts about the argument fetching code *)

Section Fetching.
Context {E : Type} {ENV : Env E}.
Implicit Types s : sstate E.

(** Process [p] in slot [i] runs. *)
Record running s (i : nat) (p : proc) : Prop := mkRunning {
  run_cur : cpu_proc (ps s) = Some i;
  run_slot : ptable (ps s) !! i = Some p;
}.

Lemma onp_run {A} (m : M (pstate E) A) s a p : m (ps s) = (Ok a, p) -> onp m s = (Ok a, set_ps p s).
Proof. intros H. unfold onp, zoom. by rewrite H. Qed.

Lemma onp_id {A} (m : M (pstate E) A) s a : m (ps s) = (Ok a, ps s) -> onp m s = (Ok a, s).
Proof. intros H. rewrite (onp_run _ _ _ _ H). by destruct s. Qed.

Lemma curproc_run s i p : running s i p -> onp curproc s = (Ok i, s).
Proof. intros [Hc _]. apply onp_id. unfold curproc. mrun. by rewrite Hc. Qed.

Lemma myp_run s i p : running s i p -> myp s = (Ok p, s).
Proof.
  intros H. unfold myp. rewrite (bind_ok _ _ _ _ _ (curproc_run s i p H)). destruct H as [_ Hs].
  apply onp_id. by apply getp_run.
Qed.

(** A size of user memory the kernel allows: [allocuvm] and [exec] keep it below
    [KERNBASE]. *)
Definition user_size (p : proc) : Prop := 0 <= sz p <= 2 ^ 31.

Lemma fetchint_run s i p addr :
  running s i p -> user_size p -> 0 <= addr < 2 ^ 32 ->
  fetchint addr s = (Ok (if addr + 4 <=? sz p then Some (s32 (load32 (um s) addr)) else None), s).
Proof.
  intros Hr Hu Ha. unfold user_size in Hu. unfold fetchint. rewrite (bind_ok _ _ _ _ _ (myp_run s i p Hr)).
  destruct (Z.leb_spec (addr + 4) (sz p)).
  - rewrite (proj2 (Z.leb_gt _ _)), u32_id, (proj2 (Z.ltb_ge _ _)) by lia. done.
  - destruct (Z.leb_spec (sz p) addr); [done|]. rewrite u32_id by lia. rewrite (proj2 (Z.ltb_lt _ _)) by lia. done.
Qed.

Lemma argint_run s i p n :
  running s i p -> user_size p ->
  let a := u32 (tf_esp (tf p) + 4 + 4 * n) in
  argint n s = (Ok (if a + 4 <=? sz p then Some (s32 (load32 (um s) a)) else None), s).
Proof.
  intros Hr Hu a. unfold argint. rewrite (bind_ok _ _ _ _ _ (myp_run s i p Hr)).
  apply (fetchint_run s i p); [done|done|apply u32_range].
Qed.

Lemma u32_s32 x : u32 (s32 x) = u32 x.
Proof. unfold u32, s32. rewrite Zminus_mod_idemp_l. f_equal. lia. Qed.

Lemma argptr_run s i p n size :
  running s i p -> user_size p -> size < 2 ^ 31 ->
  exists o, argptr n size s = (Ok o, s) /\
    match o with
    | Some a => u32 (tf_esp (tf p) + 4 + 4 * n) + 4 <= sz p
                /\ 0 <= size /\ 0 <= a /\ a < sz p /\ a + size <= sz p
                /\ a = u32 (load32 (um s) (u32 (tf_esp (tf p) + 4 + 4 * n)))
    | None => let w := u32 (tf_esp (tf p) + 4 + 4 * n) in
              let a := u32 (load32 (um s) w) in
              sz p < w + 4 \/ size < 0 \/ sz p <= a \/ sz p < a + size
    end.
Proof.
  intros Hr Hu Hsz. unfold user_size in Hu. unfold argptr. rewrite (bind_ok _ _ _ _ _ (myp_run s i p Hr)).
  rewrite (bind_ok _ _ _ _ _ (argint_run s i p n Hr Hu)). set (w := u32 (tf_esp (tf p) + 4 + 4 * n)).
  destruct (Z.leb_spec (w + 4) (sz p)); [|exists None; split; [done|cbn zeta; lia]].
  rewrite u32_s32. set (a := u32 (load32 (um s) w)). pose proof (u32_range (load32 (um s) w)) as Ha. fold a in Ha.
  destruct (Z.ltb_spec size 0); cbn [orb]; [exists None; split; [done|cbn zeta; lia]|].
  destruct (Z.leb_spec (sz p) a); cbn [orb]; [exists None; split; [done|cbn zeta; lia]|].
  rewrite (u32_id (a + size)) by lia. destruct (Z.ltb_spec (sz p) (a + size)).
  - exists None. split; [done|cbn zeta; lia].
  - exists (Some a). split; [done|cbn zeta; lia].
Qed.

(** The loop of [fetchstr] finds the first NUL in its range. *)
Lemma fetchstr_loop_spec m n : forall a len,
  match fetchstr_loop m a len n with
  | Some r => exists k, r = len + Z.of_nat k /\ (k < n)%nat /\ m (a + Z.of_nat k) = 0
                /\ forall j, (j < k)%nat -> m (a + Z.of_nat j) <> 0
  | None => forall j, (j < n)%nat -> m (a + Z.of_nat j) <> 0
  end.
Proof.
  induction n as [|n IH]; intros a len; cbn [fetchstr_loop]; [intros; lia|].
  destruct (Z.eqb_spec (m a) 0) as [H0|H0].
  - exists 0%nat. rewrite (Z.add_0_r a : a + Z.of_nat 0 = a). split; [lia|]. split; [lia|]. split; [done|intros; lia].
  - specialize (IH (a + 1) (len + 1)). destruct (fetchstr_loop m (a + 1) (len + 1) n) as [r|].
    + destruct IH as (k & -> & Hk & Hz & Hnz). exists (S k). repeat split; [lia|lia| |].
      * by replace (a + Z.of_nat (S k)) with (a + 1 + Z.of_nat k) by lia.
      * intros [|j] Hj; [by rewrite Z.add_0_r|]. replace (a + Z.of_nat (S j)) with (a + 1 + Z.of_nat j) by lia. apply Hnz. lia.
    + intros [|j] Hj; [by rewrite Z.add_0_r|]. replace (a + Z.of_nat (S j)) with (a + 1 + Z.of_nat j) by lia. apply IH. lia.
Qed.

Lemma fetchstr_run s i p addr :
  running s i p ->
  fetchstr addr s = (Ok (if sz p <=? addr then None else
    match fetchstr_loop (um s) addr 0 (Z.to_nat (sz p - addr)) with Some n => Some (addr, n) | None => None end), s).
Proof.
  intros Hr. unfold fetchstr. rewrite (bind_ok _ _ _ _ _ (myp_run s i p Hr)). by destruct (sz p <=? addr).
Qed.
End Fetching.

(** What [fetchstr] answers for address [a] in a memory of [size] bytes: the
    string and its length, or that no NUL follows below [size]. *)
Definition string_at (m : mem) (size a : Z) (o : option (Z * Z)) : Prop :=
  match o with
  | Some (a', len) => a' = a /\ 0 <= len /\ a + len < size /\ m (a + len) = 0
                      /\ forall k, 0 <= k < len -> m (a + k) <> 0
  | None => forall k, a <= k < size -> m k <> 0
  end.

Lemma fetchstr_string {E} `{Env E} (s : sstate E) i p addr :
  running s i p -> exists o, fetchstr addr s = (Ok o, s) /\ string_at (um s) (sz p) addr o.
Proof.
  intros Hr. rewrite (fetchstr_run s i p _ Hr). eexists. split; [done|].
  destruct (Z.leb_spec (sz p) addr) as [Hle|Hlt]; [intros k Hk; lia|].
  pose proof (fetchstr_loop_spec (um s) (Z.to_nat (sz p - addr)) addr 0) as Hl.
  destruct (fetchstr_loop (um s) addr 0 (Z.to_nat (sz p - addr))) as [r|].
  - destruct Hl as (k & -> & Hk & Hz & Hnz). rewrite Z.add_0_l. repeat split; [lia|lia|done|].
    intros j Hj. replace j with (Z.of_nat (Z.to_nat j)) by lia. apply Hnz. lia.
  - intros k Hk. replace k with (addr + Z.of_nat (Z.to_nat (k - addr))) by lia. apply Hl. lia.
Qed.

(** C34: the kernel never follows a pointer out of the caller's memory, and refuses
    nothing that lies in it.  [fetchint] reads the word at an address exactly when
    its four bytes are below the caller's size.  [fetchstr] accepts an address
    exactly when a NUL follows below the size, with the length of the string.
    [argptr] takes the [n]th argument as a pointer and accepts it exactly when the
    argument is in memory and the block starts and ends in it; [argstr] is
    [fetchstr] at the [n]th argument.  None of them changes anything. *)
Theorem user_pointers_checked {E} `{Env E} (s : sstate E) i p addr n size :
  running s i p -> user_size p -> 0 <= addr < 2 ^ 32 -> size < 2 ^ 31 ->
  let w := u32 (tf_esp (tf p) + 4 + 4 * n) in
  let x := u32 (load32 (um s) w) in
  fetchint addr s = (Ok (if addr + 4 <=? sz p then Some (s32 (load32 (um s) addr)) else None), s)
  /\ (exists o, fetchstr addr s = (Ok o, s) /\ string_at (um s) (sz p) addr o)
  /\ (exists o, argptr n size s = (Ok o, s)
        /\ match o with
           | Some a => w + 4 <= sz p /\ a = x /\ 0 <= size /\ 0 <= a < sz p /\ forall k, 0 <= k < size -> 0 <= a + k < sz p
           | None => sz p < w + 4 \/ size < 0 \/ sz p <= x \/ sz p < x + size
           end)
  /\ (exists o, argstr n s = (Ok o, s)
        /\ if w + 4 <=? sz p then string_at (um s) (sz p) x o else o = None).
Proof.
  intros Hr Hu Ha Hsz w x. split; [by apply fetchint_run with (i := i)|].
  split; [by apply fetchstr_string with (i := i)|]. split.
  - destruct (argptr_run s i p n size Hr Hu Hsz) as (o & Ho & H'). exists o. split; [done|].
    destruct o as [a|]; [|exact H']. destruct H' as (H0 & H1 & H2 & H3 & H4 & H5).
    repeat split; done || lia.
  - unfold argstr. rewrite (bind_ok _ _ _ _ _ (argint_run s i p n Hr Hu)). fold w.
    destruct (w + 4 <=? sz p); [|by eexists]. rewrite u32_s32. by apply fetchstr_string with (i := i).
Qed.

(** ** [get_time] *)

Lemma store_words_other l : forall m a x,
  ~ (a <= x < a + 4 * Z.of_nat (length l)) -> store_words m a l x = m x.
Proof.
  induction l as [|w l IH]; intros m a x Hx; cbn [store_words length] in *; [done|].
  rewrite IH by lia. apply store32_other. lia.
Qed.

Lemma store_words_load l : forall m a j w,
  l !! j = Some w -> load32 (store_words m a l) (a + 4 * Z.of_nat j) = u32 w.
Proof.
  induction l as [|v l IH]; intros m a [|j] w Hj; cbn [store_words] in *; simplify_eq/=.
  - rewrite Z.add_0_r, <- (load32_store32 m a w).
    unfold load32. by rewrite !store_words_other by lia.
  - rewrite <- (IH (store32 m a v) (a + 4) j w Hj). f_equal. lia.
Qed.

