(* ===== verification/SyscallRuns.v ===== *)
(** Concrete runs of the system call code of [Syscall]. *)

From Stdlib Require Import ZArith Lia.
From stdpp Require Import base list strings.
From S2P Require Import Prelude Kstring Proc Sched Syscall.
Local Open Scope Z_scope.
#[local] Existing Instance Demo.env.

(** One process runs, with a page of memory and its stack pointer at 4000; its
    first argument is the word at 4004. *)
Definition caller (eax : Z) : proc :=
  set_tf (mkTf 0 eax 0 0 0 0 0 0 4000 0) (set_sz 4096 (set_state RUNNING (Demo.ready 1 0 10 10))).
Definition entered (eax arg : Z) : sstate unit :=
  mkS (set_held [] (set_cpu_proc (Some 0%nat) (Demo.start [caller eax]))) (store32 (fun _ => 7) 4004 arg).

Lemma entered_running eax arg : running (entered eax arg) 0 (caller eax).
Proof. split; reflexivity. Qed.

Lemma caller_size eax : user_size (caller eax).
Proof. split; [discriminate|]. vm_compute. discriminate. Qed.

Lemma user_pointers_checked_witness :
  fetchint 4092 (entered 8 4000) = (Ok (Some 0x07070707), entered 8 4000)
  /\ (exists o, fetchstr 4092 (entered 8 4000) = (Ok o, entered 8 4000) /\ string_at (um (entered 8 4000)) 4096 4092 o)
  /\ (exists o, argptr 0 96 (entered 8 4000) = (Ok o, entered 8 4000)
        /\ match o with
           | Some a => 4008 <= 4096 /\ a = 4000 /\ 0 <= 96 /\ 0 <= a < 4096 /\ forall k, 0 <= k < 96 -> 0 <= a + k < 4096
           | None => 4096 < 4008 \/ 96 < 0 \/ 4096 <= 4000 \/ 4096 < 4096
           end)
  /\ (exists o, argstr 0 (entered 8 4000) = (Ok o, entered 8 4000) /\ string_at (um (entered 8 4000)) 4096 4000 o).
Proof.
  apply (user_pointers_checked (entered 8 4000) 0 (caller 8) 4092 0 96);
    [apply entered_running|apply caller_size|split; [discriminate|reflexivity]|reflexivity].
Defined.

