(* ===== verification/Pipe.v ===== *)
(** Pipes: the ring buffer of [src/pipe.c].

    [pipewrite] and [piperead] work on a [struct pipe]; a call that blocks
    reports where it went to sleep, so that an execution is a sequence of calls
    and resumptions.  Wakeups are recorded as the list of channels woken.
    [pipealloc] and [pipeclose], which allocate and free, are in [File]. *)

From Stdlib Require Import ZArith Lia.
From stdpp Require Import base list strings relations.
From S2P Require Import Prelude.
Local Open Scope Z_scope.

Definition PIPESIZE : Z := 512.

Record pipe := mkPipe {
  plock : bool;
  pdata : list Z;
  nread : Z;
  nwrite : Z;
  readopen : bool;
  writeopen : bool;
}.

(** What a pipe operation sees: the pipe at address [paddr], whether the calling
    process has been killed, and the channels woken so far. *)
Record pstate := mkP {
  pp : pipe;
  paddr : Z;
  pkilled : bool;
  pwoken : list chan;
}.

Definition set_pp (p : pipe) (s : pstate) : pstate := mkP p (paddr s) (pkilled s) (pwoken s).
Definition set_plock (b : bool) (s : pstate) : pstate :=
  set_pp (mkPipe b (pdata (pp s)) (nread (pp s)) (nwrite (pp s)) (readopen (pp s)) (writeopen (pp s))) s.

Definition acquire_p : M pstate unit := acquire_flag (fun s => plock (pp s)) set_plock.
Definition release_p : M pstate unit := release_flag (fun s => plock (pp s)) set_plock.
Definition wakeup_p (c : chan) : M pstate unit :=
  modify (fun s => mkP (pp s) (paddr s) (pkilled s) (pwoken s ++ [c])).

(** [p->data[p->nwrite++ % PIPESIZE] = b] *)
Definition put_byte (b : Z) (p : pipe) : pipe :=
  mkPipe (plock p) (<[Z.to_nat (nwrite p mod PIPESIZE) := b]> (pdata p))
         (nread p) (u32 (nwrite p + 1)) (readopen p) (writeopen p).

(** [p->data[p->nread++ % PIPESIZE]] *)
Definition next_byte (p : pipe) : Z := nth (Z.to_nat (nread p mod PIPESIZE)) (pdata p) 0.
Definition drop_byte (p : pipe) : pipe :=
  mkPipe (plock p) (pdata p) (u32 (nread p + 1)) (nwrite p) (readopen p) (writeopen p).

(** How a call ends: it returns, or its process sleeps. [WSleep i] is a writer
    asleep on [&p->nwrite] with [i] bytes written. *)
Inductive wresult := WDone (r : Z) | WSleep (i : nat).
Inductive rresult := RDone (r : Z) (bytes : list Z) | RSleep.

(** The loop of [pipewrite] from index [i] on; [rest] is [addr[i..n)].  [sleep]
    releases the pipe's lock. *)
Fixpoint pipewrite_loop (n : Z) (i : nat) (rest : list Z) : M pstate wresult :=
  match rest with
  | [] =>
      a <- gets paddr ;;
      wakeup_p (CPipeRead a) ;;
      release_p ;;
      ret (WDone n)
  | b :: rest' =>
      s <- get ;;
      let p := pp s in
      if nwrite p =? u32 (nread p + PIPESIZE) then
        if negb (readopen p) || pkilled s then
          release_p ;; ret (WDone (-1))
        else
          wakeup_p (CPipeRead (paddr s)) ;;
          release_p ;;
          ret (WSleep i)
      else
        modify (fun s => set_pp (put_byte b (pp s)) s) ;;
        pipewrite_loop n (S i) rest'
  end.

Definition pipewrite (addr : list Z) : M pstate wresult :=
  acquire_p ;; pipewrite_loop (Z.of_nat (length addr)) 0 addr.

(** A writer woken from [WSleep i] takes the lock back and goes on. *)
Definition pipewrite_resume (addr : list Z) (i : nat) : M pstate wresult :=
  acquire_p ;; pipewrite_loop (Z.of_nat (length addr)) i (drop i addr).

Fixpoint piperead_copy (n : nat) (acc : list Z) : M pstate (list Z) :=
  match n with
  | O => ret acc
  | S k =>
      s <- get ;;
      if nread (pp s) =? nwrite (pp s) then ret acc else
      modify (fun s => set_pp (drop_byte (pp s)) s) ;;
      piperead_copy k (acc ++ [next_byte (pp s)])
  end.

(** A reader woken from its sleep runs the same code again: only the acquisition
    of the lock precedes the loop. *)
Definition piperead (n : Z) : M pstate rresult :=
  acquire_p ;;
  s <- get ;;
  let p := pp s in
  if (nread p =? nwrite p) && writeopen p then
    if pkilled s then release_p ;; ret (RDone (-1) [])
    else release_p ;; ret RSleep
  else
    bytes <- piperead_copy (Z.to_nat n) [] ;;
    wakeup_p (CPipeWrite (paddr s)) ;;
    release_p ;;
    ret (RDone (Z.of_nat (length bytes)) bytes).

(** ** The queue a pipe stands for *)

Definition count (p : pipe) : Z := u32 (nwrite p - nread p).

Definition slot (p : pipe) (k : nat) : nat := Z.to_nat ((nread p + Z.of_nat k) mod PIPESIZE).

Definition contents (p : pipe) : list Z :=
  map (fun k => nth (slot p k) (pdata p) 0) (seq 0 (Z.to_nat (count p))).

(** The ring's invariant: the counters are [uint]s, and the writer is at most
    [PIPESIZE] ahead of the reader, modulo 2^32. *)
Record pipe_ok (p : pipe) : Prop := mkPipeOk {
  ok_data : length (pdata p) = Z.to_nat PIPESIZE;
  ok_nread : 0 <= nread p < 2 ^ 32;
  ok_nwrite : 0 <= nwrite p < 2 ^ 32;
  ok_count : count p <= PIPESIZE;
}.

Lemma u32_mod512 x : u32 x mod PIPESIZE = x mod PIPESIZE.
Proof.
  unfold u32, PIPESIZE. change (2 ^ 32) with (512 * 2 ^ 23).
  rewrite Z.rem_mul_r by lia.
  rewrite Z.mul_comm, Z_mod_plus_full, Z.mod_mod by lia. done.
Qed.

Lemma count_full p : pipe_ok p -> (nwrite p =? u32 (nread p + PIPESIZE)) = (count p =? PIPESIZE).
Proof.
  intros [_ Hr Hw _]. unfold count, u32, PIPESIZE in *. apply eq_true_iff_eq. rewrite !Z.eqb_eq.
  split; intros H.
  - rewrite H, Zminus_mod_idemp_l. replace (nread p + 512 - nread p) with 512 by lia. done.
  - rewrite <- H, Zplus_mod_idemp_r. replace (nread p + (nwrite p - nread p)) with (nwrite p) by lia.
    rewrite Z.mod_small; lia.
Qed.

Lemma count_empty p : pipe_ok p -> (nread p =? nwrite p) = (count p =? 0).
Proof.
  intros [_ Hr Hw _]. unfold count, u32 in *. apply eq_true_iff_eq. rewrite !Z.eqb_eq.
  split; intros H.
  - rewrite H, Z.sub_diag. done.
  - apply Z.mod_divide in H as [k Hk]; [|lia]. assert (k = 0) by lia. lia.
Qed.

Lemma count_range p : 0 <= count p < 2 ^ 32.
Proof. apply u32_range. Qed.

Lemma length_contents p : Z.of_nat (length (contents p)) = count p.
Proof.
  unfold contents. rewrite length_map, length_seq, Z2Nat.id; [done|]. apply count_range.
Qed.

Lemma count_put b p : pipe_ok p -> count p < PIPESIZE -> count (put_byte b p) = count p + 1.
Proof.
  intros [_ Hr Hw _] Hc. unfold count, put_byte in *; simpl.
  unfold u32 in *. rewrite Zminus_mod_idemp_l.
  replace (nwrite p + 1 - nread p) with (nwrite p - nread p + 1) by lia.
  rewrite <- Zplus_mod_idemp_l. apply Z.mod_small.
  pose proof (Z.mod_pos_bound (nwrite p - nread p) (2 ^ 32) ltac:(lia)). unfold PIPESIZE in *. lia.
Qed.

Lemma count_drop p : pipe_ok p -> 0 < count p -> count (drop_byte p) = count p - 1.
Proof.
  intros [_ Hr Hw _] Hc. unfold count, drop_byte in *; simpl.
  unfold u32 in *. rewrite Zminus_mod_idemp_r.
  replace (nwrite p - (nread p + 1)) with (nwrite p - nread p - 1) by lia.
  rewrite <- Zminus_mod_idemp_l. apply Z.mod_small.
  pose proof (Z.mod_pos_bound (nwrite p - nread p) (2 ^ 32) ltac:(lia)). lia.
Qed.

Lemma put_byte_ok b p : pipe_ok p -> count p < PIPESIZE -> pipe_ok (put_byte b p).
Proof.
  intros Hp Hc. pose proof (count_put b p Hp Hc) as Hn. destruct Hp.
  split; simpl; [by rewrite length_insert|done|apply u32_range|lia].
Qed.

Lemma drop_byte_ok p : pipe_ok p -> 0 < count p -> pipe_ok (drop_byte p).
Proof.
  intros Hp Hc. pose proof (count_drop p Hp Hc) as Hn. destruct Hp.
  split; simpl; [done|apply u32_range|done|lia].
Qed.

(** The slot the writer fills is the one after the last queued byte. *)
Lemma write_slot p :
  pipe_ok p -> nwrite p mod PIPESIZE = (nread p + count p) mod PIPESIZE.
Proof.
  intros _. unfold count. rewrite <- Zplus_mod_idemp_r, u32_mod512, Zplus_mod_idemp_r.
  f_equal. lia.
Qed.

Lemma slot_inj p i j :
  Z.of_nat i < PIPESIZE -> Z.of_nat j < PIPESIZE -> slot p i = slot p j -> i = j.
Proof.
  unfold slot, PIPESIZE. intros Hi Hj H.
  apply Z2Nat.inj in H; [|apply Z.mod_pos_bound; lia|apply Z.mod_pos_bound; lia].
  pose proof (Z.div_mod (nread p + Z.of_nat i) 512 ltac:(lia)).
  pose proof (Z.div_mod (nread p + Z.of_nat j) 512 ltac:(lia)).
  rewrite H in *. nia.
Qed.

Lemma contents_put b p :
  pipe_ok p -> count p < PIPESIZE -> contents (put_byte b p) = contents p ++ [b].
Proof.
  intros Hp Hc. unfold contents. rewrite (count_put b p Hp Hc).
  pose proof (count_range p) as Hr.
  replace (Z.to_nat (count p + 1)) with (Z.to_nat (count p) + 1)%nat by lia.
  rewrite seq_app, map_app. simpl. f_equal.
  - apply map_ext_in. intros k Hk. apply in_seq in Hk. change (slot (put_byte b p) k) with (slot p k).
    rewrite !nth_lookup. rewrite list_lookup_insert_ne; [done|].
    rewrite (write_slot p Hp). rewrite <- (Z2Nat.id (count p)) by lia.
    change (slot p (Z.to_nat (count p)) <> slot p k). intros H.
    apply slot_inj in H; lia.
  - f_equal. rewrite nth_lookup.
    change (slot (put_byte b p) (Z.to_nat (count p))) with (slot p (Z.to_nat (count p))).
    unfold slot. rewrite Z2Nat.id by lia. rewrite <- (write_slot p Hp).
    rewrite list_lookup_insert_eq; [done|]. rewrite (ok_data p Hp).
    pose proof (Z.mod_pos_bound (nwrite p) PIPESIZE ltac:(unfold PIPESIZE; lia)). lia.
Qed.

Lemma contents_drop p :
  pipe_ok p -> 0 < count p -> contents p = next_byte p :: contents (drop_byte p).
Proof.
  intros Hp Hc. unfold contents. rewrite (count_drop p Hp Hc).
  replace (Z.to_nat (count p)) with (S (Z.to_nat (count p - 1))) by lia.
  rewrite <- cons_seq, <- seq_shift. simpl. rewrite map_map. f_equal.
  - unfold next_byte, slot. by rewrite Z.add_0_r.
  - apply map_ext. intros k. unfold slot; simpl. do 2 f_equal.
    rewrite <- (Zplus_mod_idemp_l (u32 _)), u32_mod512, Zplus_mod_idemp_l. f_equal. lia.
Qed.

(** ** The operations refine the queue *)

Definition room (p : pipe) : nat := Z.to_nat (PIPESIZE - count p).

(** The pipe with the queue changed, lock free and ends as they were. *)
Definition same_ends (p p' : pipe) : Prop :=
  readopen p' = readopen p /\ writeopen p' = writeopen p.

(** What [pipewrite] answers when [k] of the [rest] bytes from index [i] fit. *)
Definition write_answer (s : pstate) (n : Z) (i : nat) (rest : list Z) : wresult :=
  if decide (length rest <= room (pp s))%nat then WDone n
  else if negb (readopen (pp s)) || pkilled s then WDone (-1)
  else WSleep (i + room (pp s)).

Definition write_wakes (s : pstate) (rest : list Z) : list chan :=
  if decide (length rest <= room (pp s))%nat then [CPipeRead (paddr s)]
  else if negb (readopen (pp s)) || pkilled s then []
  else [CPipeRead (paddr s)].

Lemma room_put b p : pipe_ok p -> count p < PIPESIZE -> room p = S (room (put_byte b p)).
Proof. intros Hp Hc. unfold room. rewrite (count_put b p Hp Hc). lia. Qed.

Lemma pipewrite_loop_ok rest : forall n i s,
  pipe_ok (pp s) -> plock (pp s) = true ->
  exists s', pipewrite_loop n i rest s = (Ok (write_answer s n i rest), s')
    /\ pipe_ok (pp s') /\ plock (pp s') = false /\ same_ends (pp s) (pp s')
    /\ contents (pp s') = contents (pp s) ++ take (room (pp s)) rest
    /\ pwoken s' = pwoken s ++ write_wakes s rest
    /\ paddr s' = paddr s /\ pkilled s' = pkilled s.
Proof.
  induction rest as [|b rest IH]; intros n i s Hp Hl.
  - unfold write_answer, write_wakes. rewrite !decide_True by (simpl; lia). simpl.
    unfold wakeup_p, release_p. mrun. simpl. rewrite Hl.
    eexists. split; [done|]. simpl. rewrite take_nil, app_nil_r. destruct Hp. done.
  - cbn [pipewrite_loop]. unfold bind at 1, get. rewrite (count_full _ Hp).
    destruct (Z.eqb_spec (count (pp s)) PIPESIZE) as [Hfull|Hfull].
    + assert (Hroom : room (pp s) = 0%nat) by (unfold room; lia).
      unfold write_answer, write_wakes. rewrite Hroom, !decide_False by (simpl; lia).
      rewrite Nat.add_0_r, take_0, app_nil_r.
      destruct (negb (readopen (pp s)) || pkilled s);
        unfold wakeup_p, release_p; mrun; simpl; rewrite Hl;
        eexists; (split; [done|]); simpl; rewrite ?app_nil_r; destruct Hp; done.
    + assert (Hc : count (pp s) < PIPESIZE) by (pose proof (ok_count _ Hp); lia).
      unfold bind, modify. set (s1 := set_pp _ s).
      destruct (IH n (S i) s1) as (s' & Hrun & Hok & Hlk & Hends & Hcont & Hw & Ha & Hk);
        [by apply put_byte_ok|done|].
      pose proof (room_put b (pp s) Hp Hc) as Hroom.
      assert (Hdec : (length rest <= room (pp s1))%nat <-> (length (b :: rest) <= room (pp s))%nat)
        by (unfold s1; simpl; lia).
      exists s'. rewrite Hrun. split.
      { unfold write_answer. do 2 case_decide; try tauto. unfold s1 in *; simpl in *.
        case_match; [done|]. do 3 f_equal. lia. }
      split; [done|]. split; [done|]. split; [done|]. split.
      { rewrite Hcont. unfold s1; simpl. rewrite (contents_put b (pp s) Hp Hc), <- app_assoc.
        rewrite Hroom. done. }
      split; [|done].
      rewrite Hw. unfold write_wakes. do 2 case_decide; tauto.
Qed.

(** [pipewrite] on a pipe with a free lock: it queues as many bytes as fit,
    in order; it returns the count when all fit, fails when the reader is gone or
    the caller is killed, and otherwise sleeps having recorded how far it got; the
    reader is woken whenever bytes may be waiting, and the lock is free again. *)
Theorem pipewrite_correct addr s :
  pipe_ok (pp s) -> plock (pp s) = false ->
  exists s', pipewrite addr s = (Ok (write_answer s (Z.of_nat (length addr)) 0 addr), s')
    /\ pipe_ok (pp s') /\ plock (pp s') = false /\ same_ends (pp s) (pp s')
    /\ contents (pp s') = contents (pp s) ++ take (room (pp s)) addr
    /\ pwoken s' = pwoken s ++ write_wakes s addr.
Proof.
  intros Hp Hl. unfold pipewrite, bind, acquire_p. rewrite acquire_flag_run by done.
  destruct (pipewrite_loop_ok addr (Z.of_nat (length addr)) 0 (set_plock true s))
    as (s' & Hrun & H1 & H2 & H3 & H4 & H5 & _); [by destruct Hp|done|].
  exists s'. rewrite Hrun. done.
Qed.

Lemma pipewrite_resume_ok addr i s :
  pipe_ok (pp s) -> plock (pp s) = false ->
  exists s', pipewrite_resume addr i s =
      (Ok (write_answer s (Z.of_nat (length addr)) i (drop i addr)), s')
    /\ pipe_ok (pp s') /\ plock (pp s') = false /\ same_ends (pp s) (pp s')
    /\ contents (pp s') = contents (pp s) ++ take (room (pp s)) (drop i addr).
Proof.
  intros Hp Hl. unfold pipewrite_resume, bind, acquire_p. rewrite acquire_flag_run by done.
  destruct (pipewrite_loop_ok (drop i addr) (Z.of_nat (length addr)) i (set_plock true s))
    as (s' & Hrun & H1 & H2 & H3 & H4 & H5 & _); [by destruct Hp|done|].
  exists s'. rewrite Hrun. done.
Qed.

Lemma piperead_copy_ok n : forall acc s,
  pipe_ok (pp s) ->
  exists s', piperead_copy n acc s = (Ok (acc ++ take n (contents (pp s))), s')
    /\ pipe_ok (pp s') /\ plock (pp s') = plock (pp s) /\ same_ends (pp s) (pp s')
    /\ contents (pp s') = drop n (contents (pp s))
    /\ pwoken s' = pwoken s /\ paddr s' = paddr s.
Proof.
  induction n as [|n IH]; intros acc s Hp; cbn [piperead_copy].
  - exists s. rewrite take_0, app_nil_r, drop_0. done.
  - unfold bind at 1, get. rewrite (count_empty _ Hp).
    destruct (Z.eqb_spec (count (pp s)) 0) as [He|He].
    + exists s. assert (Hnil : contents (pp s) = []).
      { apply length_zero_iff_nil. pose proof (length_contents (pp s)). lia. }
      rewrite Hnil, take_nil, drop_nil, app_nil_r. done.
    + assert (Hc : 0 < count (pp s)) by (pose proof (count_range (pp s)); lia).
      unfold bind, modify. set (s1 := set_pp _ s).
      destruct (IH (acc ++ [next_byte (pp s)]) s1) as (s' & Hrun & H1 & H2 & H3 & H4 & H5);
        [by apply drop_byte_ok|].
      exists s'. rewrite Hrun, (contents_drop _ Hp Hc). simpl. rewrite <- app_assoc. done.
Qed.

(** What [piperead] of [n] bytes answers. *)
Definition read_answer (s : pstate) (n : Z) : rresult :=
  if (count (pp s) =? 0) && writeopen (pp s) then
    if pkilled s then RDone (-1) [] else RSleep
  else let got := take (Z.to_nat n) (contents (pp s)) in
       RDone (Z.of_nat (length got)) got.

Definition read_consumes (s : pstate) (n : Z) : nat :=
  if (count (pp s) =? 0) && writeopen (pp s) then 0%nat else Z.to_nat n.

(** [piperead] takes bytes from the front of the queue, at most [n] of them
    and all there are when fewer; with nothing queued it sleeps while a writer
    remains, fails when killed, and answers 0 when no writer is left. *)
Theorem piperead_correct n s :
  pipe_ok (pp s) -> plock (pp s) = false ->
  exists s', piperead n s = (Ok (read_answer s n), s')
    /\ pipe_ok (pp s') /\ plock (pp s') = false /\ same_ends (pp s) (pp s')
    /\ contents (pp s') = drop (read_consumes s n) (contents (pp s)).
Proof.
  intros Hp Hl. unfold piperead, bind at 1, acquire_p. rewrite acquire_flag_run by done.
  set (s1 := set_plock true s). assert (Hp1 : pipe_ok (pp s1)) by (by destruct Hp).
  unfold bind at 1, get. rewrite (count_empty _ Hp1).
  unfold read_answer, read_consumes. change (count (pp s1)) with (count (pp s)).
  change (writeopen (pp s1)) with (writeopen (pp s)). change (pkilled s1) with (pkilled s).
  destruct ((count (pp s) =? 0) && writeopen (pp s)).
  - destruct (pkilled s); unfold release_p; mrun; simpl; eexists; (split; [done|]);
      destruct Hp; rewrite drop_0; done.
  - unfold bind at 1.
    destruct (piperead_copy_ok (Z.to_nat n) [] s1 Hp1) as (s2 & Hrun & H1 & H2 & H3 & H4 & H5 & H6).
    rewrite Hrun. unfold wakeup_p, release_p. mrun. simpl. rewrite H2. simpl.
    eexists. split; [done|]. split; [by destruct H1|]. done.
Qed.

(** ** First in, first out, whatever the interleaving

    Writers and readers of one pipe in any order: fresh writes, sleeping writers
    that resume, reads, and the closing of either end.  [sent] collects what
    writers put in and [got] what readers took out. *)
Record world := mkWorld { wpipe : pipe; sent : list Z; got : list Z }.

Definition read_bytes (r : rresult) : list Z := match r with RDone _ b => b | RSleep => [] end.

Inductive wstep : world -> world -> Prop :=
| wstep_write w a killed addr r s' :
    pipewrite addr (mkP (wpipe w) a killed []) = (Ok r, s') ->
    wstep w (mkWorld (pp s') (sent w ++ take (room (wpipe w)) addr) (got w))
| wstep_resume w a killed addr i r s' :
    pipewrite_resume addr i (mkP (wpipe w) a killed []) = (Ok r, s') ->
    wstep w (mkWorld (pp s') (sent w ++ take (room (wpipe w)) (drop i addr)) (got w))
| wstep_read w a killed n r s' :
    piperead n (mkP (wpipe w) a killed []) = (Ok r, s') ->
    wstep w (mkWorld (pp s') (sent w) (got w ++ read_bytes r))
| wstep_close w ro wo :
    let p := wpipe w in
    wstep w (mkWorld (mkPipe (plock p) (pdata p) (nread p) (nwrite p)
                        (readopen p && ro) (writeopen p && wo)) (sent w) (got w)).

Definition world_ok (w : world) : Prop :=
  pipe_ok (wpipe w) /\ plock (wpipe w) = false /\ got w ++ contents (wpipe w) = sent w.

Lemma read_answer_bytes s n :
  pipe_ok (pp s) ->
  read_bytes (read_answer s n) = take (read_consumes s n) (contents (pp s)).
Proof.
  intros Hp. unfold read_answer, read_consumes.
  destruct ((count (pp s) =? 0) && writeopen (pp s)); [|done].
  destruct (pkilled s); by rewrite take_0.
Qed.

Lemma wstep_ok w w' : world_ok w -> wstep w w' -> world_ok w'.
Proof.
  intros (Hp & Hl & Hq) Hs. destruct Hs as [w a killed addr r s' Hrun|w a killed addr i r s' Hrun|w a killed n r s' Hrun|w ro wo].
  - destruct (pipewrite_correct addr (mkP (wpipe w) a killed [])) as (s1 & Hrun1 & H1 & H2 & _ & H4 & _); [done..|].
    rewrite Hrun in Hrun1. simplify_eq. split; [done|]. split; [done|]. simpl in *.
    by rewrite H4, app_assoc, Hq.
  - destruct (pipewrite_resume_ok addr i (mkP (wpipe w) a killed [])) as (s1 & Hrun1 & H1 & H2 & _ & H4); [done..|].
    rewrite Hrun in Hrun1. simplify_eq. split; [done|]. split; [done|]. simpl in *.
    by rewrite H4, app_assoc, Hq.
  - destruct (piperead_correct n (mkP (wpipe w) a killed [])) as (s1 & Hrun1 & H1 & H2 & _ & H4); [done..|].
    rewrite Hrun in Hrun1. simplify_eq. split; [done|]. split; [done|]. simpl.
    rewrite H4, read_answer_bytes by done. simpl. by rewrite <- app_assoc, take_drop.
  - split; [by destruct Hp|]. done.
Qed.

(** C11: in every interleaving of writers, readers and closes, what was read so
    far followed by what is queued is exactly what was written, in order: no byte
    is lost, duplicated or reordered, also when the 32-bit counters wrap. *)
Theorem pipe_fifo w0 w :
  world_ok w0 -> rtc wstep w0 w -> got w ++ contents (wpipe w) = sent w /\ pipe_ok (wpipe w).
Proof.
  intros H0 Hr. assert (Hw : world_ok w).
  { induction Hr; [done|]. apply IHHr. by eapply wstep_ok. }
  destruct Hw as (Hp & _ & Hq). done.
Qed.

(** A new pipe whose counters are about to wrap around. *)
Definition wrap_pipe : pipe := mkPipe false (replicate 512 0) (2 ^ 32 - 2) (2 ^ 32 - 2) true true.

Lemma wrap_pipe_ok : pipe_ok wrap_pipe.
Proof. split; [done|simpl; lia|simpl; lia|]. unfold count; simpl. vm_compute. done. Qed.

Definition wrap_state : pstate := mkP wrap_pipe 7 false [].

Example pipewrite_correct_witness :
  exists s', pipewrite [104; 105; 33] wrap_state = (Ok (WDone 3), s')
    /\ nwrite (pp s') = 1 /\ contents (pp s') = [104; 105; 33].
Proof.
  destruct (pipewrite_correct [104; 105; 33] wrap_state wrap_pipe_ok eq_refl)
    as (s' & Hrun & _ & _ & _ & Hc & _).
  vm_compute in Hrun. exists s'. split; [exact Hrun|]. injection Hrun as <-. split; reflexivity.
Defined.

Example piperead_correct_witness :
  exists s', piperead 4 wrap_state = (Ok RSleep, s') /\ contents (pp s') = [].
Proof.
  destruct (piperead_correct 4 wrap_state wrap_pipe_ok eq_refl) as (s' & Hrun & _ & _ & _ & Hc).
  exists s'. split; [exact Hrun|]. rewrite Hc. reflexivity.
Defined.

Definition wrap_world : world :=
  mkWorld (pp (snd (pipewrite [104; 105; 33] wrap_state))) ([] ++ take (room wrap_pipe) [104; 105; 33]) [].

Example pipe_fifo_witness :
  got wrap_world ++ contents (wpipe wrap_world) = sent wrap_world /\ pipe_ok (wpipe wrap_world).
Proof.
  apply (pipe_fifo (mkWorld wrap_pipe [] []) wrap_world).
  - split; [exact wrap_pipe_ok|]. split; reflexivity.
  - apply rtc_once. exact (wstep_write (mkWorld wrap_pipe [] []) 7 false [104; 105; 33] (WDone 3) _ eq_refl).
Defined.
