(* ===== verification/File.v ===== *)
(** Open files: [src/file.c], and the creation and closing of pipes of [src/pipe.c].

    The state is everything below the process table: kernel pages, the file system,
    the table of open files, the pipes, each at the address of its page, and the
    search path of [exec].  A pointer to a [struct file] is an index.  [kkilled] is the
    flag of the running process, and [kwoken] records the channels woken. *)

From Stdlib Require Import ZArith Lia.
From stdpp Require Import base list strings gmap.
From S2P Require Import Prelude Kstring Kalloc Blk Log Sleeplock Fs Pipe.
Local Open Scope Z_scope.

Definition NFILE : nat := 100.

Inductive ftype := FD_NONE | FD_PIPE | FD_INODE.

#[export] Instance ftype_eq_dec : EqDecision ftype.
Proof. solve_decision. Defined.

Record file := mkFile {
  f_type : ftype; f_ref : Z; readable : bool; writable : bool; f_pipe : Z; f_ip : nat; f_off : Z;
}.

Definition set_ftype v f := mkFile v (f_ref f) (readable f) (writable f) (f_pipe f) (f_ip f) (f_off f).
Definition set_fref v f := mkFile (f_type f) v (readable f) (writable f) (f_pipe f) (f_ip f) (f_off f).
Definition set_rw r w f := mkFile (f_type f) (f_ref f) r w (f_pipe f) (f_ip f) (f_off f).
Definition set_fpipe v f := mkFile (f_type f) (f_ref f) (readable f) (writable f) v (f_ip f) (f_off f).
Definition set_fip v f := mkFile (f_type f) (f_ref f) (readable f) (writable f) (f_pipe f) v (f_off f).
Definition set_foff v f := mkFile (f_type f) (f_ref f) (readable f) (writable f) (f_pipe f) (f_ip f) v.

Record kern := mkKern {
  km : kmem;
  fsys : fstate;
  ftlock : bool;
  ftab : list file;
  pipes : gmap Z pipe;
  kkilled : bool;
  kwoken : list chan;
  PATH : list (list Z);
  num_of_pathes : Z;
}.

Definition set_km x s := mkKern x (fsys s) (ftlock s) (ftab s) (pipes s) (kkilled s) (kwoken s) (PATH s) (num_of_pathes s).
Definition set_fsys x s := mkKern (km s) x (ftlock s) (ftab s) (pipes s) (kkilled s) (kwoken s) (PATH s) (num_of_pathes s).
Definition set_ftlock x s := mkKern (km s) (fsys s) x (ftab s) (pipes s) (kkilled s) (kwoken s) (PATH s) (num_of_pathes s).
Definition set_ftab x s := mkKern (km s) (fsys s) (ftlock s) x (pipes s) (kkilled s) (kwoken s) (PATH s) (num_of_pathes s).
Definition set_pipes x s := mkKern (km s) (fsys s) (ftlock s) (ftab s) x (kkilled s) (kwoken s) (PATH s) (num_of_pathes s).
Definition set_kkilled x s := mkKern (km s) (fsys s) (ftlock s) (ftab s) (pipes s) x (kwoken s) (PATH s) (num_of_pathes s).
Definition set_kwoken x s := mkKern (km s) (fsys s) (ftlock s) (ftab s) (pipes s) (kkilled s) x (PATH s) (num_of_pathes s).
Definition set_PATH x n s := mkKern (km s) (fsys s) (ftlock s) (ftab s) (pipes s) (kkilled s) (kwoken s) x n.

Abbreviation KM := (M kern).

Definition onmem {A} (m : M kmem A) : KM A := zoom km set_km m.
Definition onfs {A} (m : FM A) : KM A := zoom fsys set_fsys m.

(** Code of [Pipe] on the pipe at address [a]. *)
Definition on_pipe {A} (a : Z) (m : M Pipe.pstate A) : KM A := fun s =>
  match pipes s !! a with
  | None => (UB "dangling pipe", s)
  | Some p =>
      let '(r, t) := m (Pipe.mkP p a (kkilled s) (kwoken s)) in
      (r, set_kwoken (pwoken t) (set_pipes (<[a := pp t]> (pipes s)) s))
  end.

Definition acquire_ft : KM unit := acquire_flag ftlock set_ftlock.
Definition release_ft : KM unit := release_flag ftlock set_ftlock.

Definition getf (f : nat) : KM file :=
  l <- gets ftab ;;
  match l !! f with Some x => ret x | None => ub "ftable index" end.
Definition updf (f : nat) (g : file -> file) : KM unit :=
  l <- gets ftab ;;
  match l !! f with Some x => modify (set_ftab (<[f := g x]> l)) | None => ub "ftable index" end.

Definition fileinit : KM unit := modify (set_ftlock false).

(** The loop of [filealloc] over the entries from [i] on. *)
Fixpoint find_free (l : list file) (i : nat) : option nat :=
  match l with
  | [] => None
  | f :: l' => if f_ref f =? 0 then Some i else find_free l' (S i)
  end.

Definition filealloc : KM (option nat) :=
  acquire_ft ;;
  l <- gets ftab ;;
  match find_free l 0 with
  | Some f => updf f (set_fref 1) ;; release_ft ;; ret (Some f)
  | None => release_ft ;; ret None
  end.

Definition filedup (f : nat) : KM nat :=
  acquire_ft ;;
  x <- getf f ;;
  if f_ref x <? 1 then panic "filedup" else
  updf f (set_fref (s32 (f_ref x + 1))) ;;
  release_ft ;;
  ret f.

Section File.
(** [end] of the kernel image, and the devices. *)
Context (kend : Z) (dev_read : Z -> option (nat -> Z -> FM (Z * list Z)))
        (dev_write : Z -> option (nat -> list Z -> FM Z)).

(** ** Closing *)

(** The part of [pipeclose] under the pipe's lock; the answer is whether both ends
    are closed. *)
Definition close_end (wr : bool) : M Pipe.pstate bool :=
  acquire_p ;;
  s <- get ;;
  let p := pp s in
  (if wr then
     modify (set_pp (mkPipe (plock p) (pdata p) (nread p) (nwrite p) (readopen p) false)) ;;
     wakeup_p (CPipeRead (paddr s))
   else
     modify (set_pp (mkPipe (plock p) (pdata p) (nread p) (nwrite p) false (writeopen p))) ;;
     wakeup_p (CPipeWrite (paddr s))) ;;
  s <- get ;;
  release_p ;;
  ret (negb (readopen (pp s)) && negb (writeopen (pp s))).

Definition pipeclose (p : Z) (wr : bool) : KM unit :=
  both <- on_pipe p (close_end wr) ;;
  if (both : bool) then onmem (kfree kend p) ;; modify (fun s => set_pipes (delete p (pipes s)) s) else ret tt.

Definition fileclose (f : nat) : KM unit :=
  acquire_ft ;;
  x <- getf f ;;
  if f_ref x <? 1 then panic "fileclose" else
  updf f (set_fref (f_ref x - 1)) ;;
  if 0 <? f_ref x - 1 then release_ft else
  ff <- getf f ;;
  updf f (set_fref 0) ;;
  updf f (set_ftype FD_NONE) ;;
  release_ft ;;
  match f_type ff with
  | FD_PIPE => pipeclose (f_pipe ff) (writable ff)
  | FD_INODE => onfs (onlog begin_op) ;; onfs (iput (f_ip ff)) ;; onfs (onlog end_op)
  | FD_NONE => ret tt
  end.

(** ** Pipes *)

(** Where [data] lies in a [struct pipe]: behind the spin lock. *)
Definition pipe_data : Z := 56.

(** [goto bad] of [pipealloc]. *)
Definition pipealloc_bad (p : Z) (f0 f1 : option nat) : KM (option (nat * nat)) :=
  (if nz p then onmem (kfree kend p) else ret tt) ;;
  (match f0 with Some f => fileclose f | None => ret tt end) ;;
  (match f1 with Some f => fileclose f | None => ret tt end) ;;
  ret None.

Definition pipealloc : KM (option (nat * nat)) :=
  o0 <- filealloc ;;
  match o0 with
  | None => pipealloc_bad 0 None None
  | Some f0 =>
      o1 <- filealloc ;;
      match o1 with
      | None => pipealloc_bad 0 (Some f0) None
      | Some f1 =>
          p <- onmem (kalloc) ;;
          if p =? 0 then pipealloc_bad 0 (Some f0) (Some f1) else
          m <- gets (fun s => memory (km s)) ;;
          let junk := map (fun k => m (p + pipe_data + Z.of_nat k)) (seq 0 (Z.to_nat PIPESIZE)) in
          modify (fun s => set_pipes (<[p := mkPipe false junk 0 0 true true]> (pipes s)) s) ;;
          updf f0 (set_ftype FD_PIPE) ;;
          updf f0 (set_rw true false) ;;
          updf f0 (set_fpipe p) ;;
          updf f1 (set_ftype FD_PIPE) ;;
          updf f1 (set_rw false true) ;;
          updf f1 (set_fpipe p) ;;
          ret (Some (f0, f1))
      end
  end.

(** ** Reading and writing *)

Definition filestat (f : nat) : KM (option stat) :=
  x <- getf f ;;
  match f_type x with
  | FD_INODE =>
      onfs (ilock (f_ip x)) ;;
      st <- onfs (stati (f_ip x)) ;;
      onfs (iunlock (f_ip x)) ;;
      ret (Some st)
  | _ => ret None
  end.

(** How a read or write ends: with a value (and the bytes read), or asleep on a pipe
    with [i] bytes written. *)
Inductive ioresult := IODone (r : Z) (bytes : list Z) | IOSleep (c : chan) (i : nat).

Definition fileread (f : nat) (n : Z) : KM ioresult :=
  x <- getf f ;;
  if negb (readable x) then ret (IODone (-1) []) else
  match f_type x with
  | FD_PIPE =>
      r <- on_pipe (f_pipe x) (piperead n) ;;
      match r with
      | RDone r l => ret (IODone r l)
      | RSleep => ret (IOSleep (CPipeRead (f_pipe x)) 0)
      end
  | FD_INODE =>
      onfs (ilock (f_ip x)) ;;
      r <- onfs (readi dev_read (f_ip x) (f_off x) (u32 n)) ;;
      (if 0 <? fst r then updf f (set_foff (u32 (f_off x + fst r))) else ret tt) ;;
      onfs (iunlock (f_ip x)) ;;
      ret (IODone (fst r) (snd r))
  | FD_NONE => panic "fileread"
  end.

Definition filewrite_max : Z := (MAXOPBLOCKS - 1 - 1 - 2) / 2 * 512.

(** The loop of [filewrite]: [rest] is what is left to write; the result is whether
    everything was written. *)
Fixpoint filewrite_loop (fuel : nat) (f : nat) (rest : list Z) : KM bool :=
  match fuel with
  | O => spin
  | S k =>
      if 0 <? Z.of_nat (length rest) then
        let n1 := Z.min (Z.of_nat (length rest)) filewrite_max in
        onfs (onlog begin_op) ;;
        x <- getf f ;;
        onfs (ilock (f_ip x)) ;;
        r <- onfs (writei dev_write (f_ip x) (take (Z.to_nat n1) rest) (f_off x)) ;;
        (if 0 <? r then updf f (set_foff (u32 (f_off x + r))) else ret tt) ;;
        onfs (iunlock (f_ip x)) ;;
        onfs (onlog end_op) ;;
        if r <? 0 then ret false else
        if negb (r =? n1) then panic "short filewrite" else
        filewrite_loop k f (drop (Z.to_nat n1) rest)
      else ret true
  end.

Definition filewrite (f : nat) (addr : list Z) : KM ioresult :=
  x <- getf f ;;
  if negb (writable x) then ret (IODone (-1) []) else
  match f_type x with
  | FD_PIPE =>
      r <- on_pipe (f_pipe x) (pipewrite addr) ;;
      match r with
      | WDone r => ret (IODone r [])
      | WSleep i => ret (IOSleep (CPipeWrite (f_pipe x)) i)
      end
  | FD_INODE =>
      all <- filewrite_loop (S (length addr)) f addr ;;
      ret (IODone (if (all : bool) then Z.of_nat (length addr) else -1) [])
  | FD_NONE => panic "filewrite"
  end.

(** A write to a pipe that slept with [i] bytes written goes on. *)
Definition filewrite_resume (f : nat) (addr : list Z) (i : nat) : KM ioresult :=
  x <- getf f ;;
  r <- on_pipe (f_pipe x) (pipewrite_resume addr i) ;;
  match r with
  | WDone r => ret (IODone r [])
  | WSleep i => ret (IOSleep (CPipeWrite (f_pipe x)) i)
  end.
End File.
