(* ===== verification/FileInv.v ===== *)
(** The table of open files of [File]: reference counts are exact, and a pipe lives
    exactly as long as one of its ends is open. *)

From Stdlib Require Import ZArith Lia.
From stdpp Require Import base list strings gmap relations.
From S2P Require Import Prelude Kstring Kalloc Blk Log Sleeplock Fs Pipe File.
Local Open Scope Z_scope.

Definition refs (o : list nat) (i : nat) : Z := Z.of_nat (count_occ Nat.eq_dec o i).

Lemma refs_perm o o' i : o ≡ₚ o' -> refs o i = refs o' i.
Proof. intros H. unfold refs. f_equal. by apply Permutation_count_occ. Qed.

Lemma refs_cons f o i : refs (f :: o) i = (if decide (i = f) then 1 else 0) + refs o i.
Proof.
  unfold refs. destruct (decide (i = f)) as [->|H].
  - rewrite count_occ_cons_eq by done. lia.
  - rewrite count_occ_cons_neq by done. lia.
Qed.

Lemma refs_nonneg o i : 0 <= refs o i.
Proof. unfold refs. lia. Qed.

(** The open files of each entry of [s]: [x] is a live end of the pipe at [a]. *)
Definition end_of (x : file) (a : Z) (w : bool) : Prop :=
  f_type x = FD_PIPE /\ f_pipe x = a /\ writable x = w /\ 0 < f_ref x.
Definition is_end (s : kern) (i : nat) (a : Z) (w : bool) : Prop := exists x, ftab s !! i = Some x /\ end_of x a w.
Definition is_open (p : pipe) (w : bool) : bool := if w then writeopen p else readopen p.

(** [o] lists the references that are held, and [l] the free pages. *)
Record files_ok (kend : Z) (s : kern) (o : list nat) (l : list Z) : Prop := mkFilesOk {
  fl_lock : ftlock s = false;
  fl_in : forall i, i ∈ o -> (i < length (ftab s))%nat;
  fl_refs : forall i x, ftab s !! i = Some x -> f_ref x = refs o i;
  fl_idle : forall i x, ftab s !! i = Some x -> f_ref x = 0 -> f_type x = FD_NONE;
  fl_open : forall a w, (exists i, is_end s i a w) <-> (exists p, pipes s !! a = Some p /\ is_open p w = true);
  fl_uniq : forall i j a w, is_end s i a w -> is_end s j a w -> i = j;
  fl_pipe : forall a p, pipes s !! a = Some p -> plock p = false /\ readopen p || writeopen p = true /\ page_ok kend a /\ a ∉ l;
  fl_mem : kmem_ok kend (km s) l;
}.

Lemma acquire_ft_run s : ftlock s = false -> acquire_ft s = (Ok tt, set_ftlock true s).
Proof. apply acquire_flag_run. Qed.

Lemma release_ft_run s : ftlock s = true -> release_ft s = (Ok tt, set_ftlock false s).
Proof. apply (release_flag_run ftlock set_ftlock). Qed.

Ltac unlock_ft := erewrite (bind_ok release_ft); [|by apply release_ft_run].

Lemma getf_run s i x : ftab s !! i = Some x -> getf i s = (Ok x, s).
Proof. intros H. unfold getf. mrun. by rewrite H. Qed.

Lemma updf_run s i x g : ftab s !! i = Some x -> updf i g s = (Ok tt, set_ftab (<[i := g x]> (ftab s)) s).
Proof. intros H. unfold updf. mrun. by rewrite H. Qed.

(** Replacing an entry by one that is the same end of the same pipe. *)
Lemma is_end_insert s s' i x x' : ftab s !! i = Some x -> ftab s' = <[i := x']> (ftab s) ->
  (forall a w, end_of x' a w <-> end_of x a w) -> forall j a w, is_end s' j a w <-> is_end s j a w.
Proof.
  intros Hx Hs Hsame j a w. unfold is_end. rewrite Hs. destruct (decide (j = i)) as [->|Hne].
  - rewrite list_lookup_insert_eq by by eapply lookup_lt_Some. rewrite Hx.
    split; intros (y & [= <-] & Hy); eexists; (split; [done|]); by apply Hsame.
  - rewrite list_lookup_insert_ne by done. done.
Qed.

Lemma files_ok_entry kend s s' o o' l i x x' :
  files_ok kend s o l -> ftab s !! i = Some x -> ftab s' = <[i := x']> (ftab s) ->
  pipes s' = pipes s -> km s' = km s -> ftlock s' = false ->
  (forall a w, end_of x' a w <-> end_of x a w) ->
  (forall j, j ∈ o' -> j ∈ o \/ j = i) -> (forall j, j <> i -> refs o' j = refs o j) ->
  f_ref x' = refs o' i -> (f_ref x' = 0 -> f_type x' = FD_NONE) -> files_ok kend s' o' l.
Proof.
  intros [H1 H2 H3 H4 H5 H6 H7 H8] Hx Hs Hp Hk Hl Hsame Hin Href Hri Hidle.
  pose proof (is_end_insert s s' i x x' Hx Hs Hsame) as He. pose proof (lookup_lt_Some _ _ _ Hx) as Hlt.
  split; rewrite ?Hp, ?Hk; try done.
  - intros j Hj. rewrite Hs, length_insert. destruct (Hin j Hj) as [Hj'| ->]; [by apply H2|done].
  - intros j y Hy. rewrite Hs in Hy. apply list_lookup_insert_Some in Hy as [(<- & <- & _)|(Hne & Hy)]; [done|].
    rewrite Href by done. by apply H3.
  - intros j y Hy. rewrite Hs in Hy. apply list_lookup_insert_Some in Hy as [(<- & <- & _)|(Hne & Hy)]; [done|]. by eapply H4.
  - intros a w. rewrite <- H5. split; intros (j & Hj); exists j; by apply He.
  - intros j k a w. rewrite !He. apply H6.
Qed.

Lemma files_ok_perm kend s o o' l : o ≡ₚ o' -> files_ok kend s o l -> files_ok kend s o' l.
Proof.
  intros Ho [H1 H2 H3 H4 H5 H6 H7 H8]. split; try done.
  - intros i Hi. apply H2. by rewrite Ho.
  - intros i x Hx. rewrite <- (refs_perm _ _ i Ho). by apply H3.
Qed.

(** ** Allocating and sharing *)

Lemma find_free_Some l : forall i f, find_free l i = Some f -> exists x, (l !! (f - i)%nat) = Some x /\ (i <= f)%nat /\ f_ref x = 0.
Proof.
  induction l as [|y l IH]; intros i f H; cbn [find_free] in H; [done|]. destruct (Z.eqb_spec (f_ref y) 0) as [E|E].
  - injection H as <-. exists y. by rewrite Nat.sub_diag.
  - destruct (IH _ _ H) as (x & Hx & Hi & Hr). exists x. split; [|split; [lia|done]].
    replace (f - i)%nat with (S (f - S i))%nat by lia. done.
Qed.

Lemma find_free_None l : forall i x, find_free l i = None -> x ∈ l -> f_ref x <> 0.
Proof.
  induction l as [|y l IH]; intros i x H Hx; cbn [find_free] in H; [by apply elem_of_nil in Hx|].
  destruct (Z.eqb_spec (f_ref y) 0); [done|]. apply elem_of_cons in Hx as [->|Hx]; [done|]. by eapply IH.
Qed.

Lemma filealloc_ok kend s o l : files_ok kend s o l ->
  match filealloc s with
  | (Ok (Some f), s') => (f ∉ o) /\ files_ok kend s' (f :: o) l /\ (forall j, j <> f -> ftab s' !! j = ftab s !! j)
      /\ exists x, ftab s' !! f = Some x /\ f_type x = FD_NONE /\ f_ref x = 1
  | (Ok None, s') => s' = s /\ forall i, (i < length (ftab s))%nat -> i ∈ o
  | _ => False
  end.
Proof.
  intros Hok. pose proof (fl_lock _ _ _ _ Hok) as Hl. unfold filealloc.
  rewrite (bind_ok _ _ _ _ _ (acquire_ft_run s Hl)). set (s1 := set_ftlock true s).
  rewrite (bind_ok (gets ftab) _ s1 s1 (ftab s) eq_refl).
  destruct (find_free (ftab s) 0) as [f|] eqn:E.
  - destruct (find_free_Some _ _ _ E) as (x & Hx & _ & Hr). rewrite Nat.sub_0_r in Hx.
    rewrite (bind_ok _ _ _ _ _ (updf_run s1 f x _ Hx)).
    unlock_ft. unfold ret.
    pose proof (fl_refs _ _ _ _ Hok f x Hx) as Hrefs. pose proof (fl_idle _ _ _ _ Hok f x Hx Hr) as Ht.
    assert (Hnot : f ∉ o).
    { intros Hin%list_elem_of_In%(count_occ_In Nat.eq_dec). unfold refs in Hrefs. lia. }
    split; [done|]. split; [|split].
    + apply (files_ok_entry kend s _ o _ l f x (set_fref 1 x) Hok Hx); try done.
      * intros a w. unfold end_of. cbn. rewrite Ht. split; intros (? & _); done.
      * intros j Hj. apply elem_of_cons in Hj as [->|]; auto.
      * intros j Hj. rewrite refs_cons, decide_False by done. lia.
      * rewrite refs_cons, decide_True by done. cbn. lia.
    + intros j Hj. cbn. by rewrite list_lookup_insert_ne.
    + exists (set_fref 1 x). split; [|done]. cbn. apply list_lookup_insert_eq. by eapply lookup_lt_Some.
  - unlock_ft. unfold ret. split.
    + unfold s1. destruct s; cbn in *. by subst.
    + intros i Hi. destruct (lookup_lt_is_Some_2 _ _ Hi) as [x Hx]. pose proof (fl_refs _ _ _ _ Hok i x Hx) as Hr.
      pose proof (find_free_None _ _ x E ltac:(by eapply list_elem_of_lookup_2)) as Hne.
      apply list_elem_of_In, (count_occ_In Nat.eq_dec). unfold refs in Hr. lia.
Qed.

Lemma held_ref kend s o l f : files_ok kend s o l -> f ∈ o -> exists x, ftab s !! f = Some x /\ 1 <= f_ref x /\ f_ref x = refs o f.
Proof.
  intros Hok Hf. destruct (lookup_lt_is_Some_2 _ _ (fl_in _ _ _ _ Hok f Hf)) as [x Hx]. exists x.
  pose proof (fl_refs _ _ _ _ Hok f x Hx) as Hr. split; [done|]. split; [|done].
  apply list_elem_of_In, (count_occ_In Nat.eq_dec) in Hf. unfold refs in Hr. lia.
Qed.

Lemma filedup_ok kend s o l f : files_ok kend s o l -> f ∈ o -> Z.of_nat (length o) < 2 ^ 31 - 1 ->
  exists s', filedup f s = (Ok f, s') /\ files_ok kend s' (f :: o) l.
Proof.
  intros Hok Hf Hlen. destruct (held_ref _ _ _ _ _ Hok Hf) as (x & Hx & H1 & Hr).
  unfold filedup. rewrite (bind_ok _ _ _ _ _ (acquire_ft_run s (fl_lock _ _ _ _ Hok))).
  set (s1 := set_ftlock true s). rewrite (bind_ok _ _ _ _ _ (getf_run s1 f x Hx)).
  rewrite (proj2 (Z.ltb_ge _ _)) by lia. rewrite (bind_ok _ _ _ _ _ (updf_run s1 f x _ Hx)).
  unlock_ft.
  assert (Hb : refs o f <= Z.of_nat (length o)) by (unfold refs; pose proof (count_occ_bound Nat.eq_dec f o); lia).
  rewrite s32_id by lia. eexists. split; [done|].
  apply (files_ok_entry kend s _ o _ l f x (set_fref (f_ref x + 1) x) Hok Hx); try done.
  - intros a w. unfold end_of. cbn. split; intros (? & ? & ? & ?); repeat split; auto; lia.
  - intros j Hj. apply elem_of_cons in Hj as [->|]; auto.
  - intros j Hj. rewrite refs_cons, decide_False by done. lia.
  - rewrite refs_cons, decide_True by done. cbn. lia.
  - cbn. lia.
Qed.

(** ** Closing *)

Definition shut (w : bool) (p : pipe) : pipe :=
  if w then mkPipe (plock p) (pdata p) (nread p) (nwrite p) (readopen p) false
  else mkPipe (plock p) (pdata p) (nread p) (nwrite p) false (writeopen p).

Lemma close_end_run p a k wk w : plock p = false ->
  close_end w (Pipe.mkP p a k wk) =
  (Ok (negb (is_open p (negb w))), Pipe.mkP (shut w p) a k (wk ++ [if w then CPipeRead a else CPipeWrite a])).
Proof.
  destruct p as [lk d nr nw ro wo]. cbn. intros ->. destruct w; cbn; [by rewrite andb_true_r|done].
Qed.

Lemma on_pipe_run {A} (m : M Pipe.pstate A) s a p r t :
  pipes s !! a = Some p -> m (Pipe.mkP p a (kkilled s) (kwoken s)) = (r, t) ->
  on_pipe a m s = (r, set_kwoken (pwoken t) (set_pipes (<[a := pp t]> (pipes s)) s)).
Proof. intros Hp Hm. unfold on_pipe. by rewrite Hp, Hm. Qed.

Lemma shut_open w p v : is_open (shut w p) v = negb (Bool.eqb v w) && is_open p v.
Proof. by destruct w, v. Qed.

(** The ends that remain when entry [i], the end [w] of the pipe at [a], goes idle. *)
Lemma is_end_drop kend s s' o l i x x' a w : files_ok kend s o l -> ftab s !! i = Some x -> end_of x a w ->
  ftab s' = <[i := x']> (ftab s) -> f_type x' = FD_NONE ->
  forall j b v, is_end s' j b v <-> is_end s j b v /\ ~ (b = a /\ v = w).
Proof.
  intros Hok Hx Hend Hs Ht0 j b v. pose proof (lookup_lt_Some _ _ _ Hx) as Hlt. unfold is_end at 1. rewrite Hs.
  destruct (decide (j = i)) as [->|Hne].
  - rewrite list_lookup_insert_eq by done. split.
    + intros (y & [= <-] & (? & _)). congruence.
    + intros [(y & Hy & (_ & E1 & E2 & _)) Hn]. rewrite Hx in Hy. injection Hy as <-. destruct Hend as (_ & E3 & E4 & _).
      exfalso. apply Hn. split; congruence.
  - rewrite list_lookup_insert_ne by done. split.
    + intros Hj. split; [done|]. intros [-> ->]. apply Hne. by eapply (fl_uniq _ _ _ _ Hok); [exact Hj|exists x].
    + tauto.
Qed.

(** The pipes when one end of [p] is shut, and [p] freed if it was the last one. *)
Definition shut_pipes (a : Z) (w : bool) (p : pipe) (m : gmap Z pipe) : gmap Z pipe :=
  if is_open p (negb w) then <[a := shut w p]> m else delete a m.

Lemma shut_pipes_ne a w p m b : b <> a -> shut_pipes a w p m !! b = m !! b.
Proof. intros Hb. unfold shut_pipes. destruct (is_open p (negb w)); by rewrite ?lookup_insert_ne, ?lookup_delete_ne. Qed.

Lemma shut_pipes_eq a w p m q : shut_pipes a w p m !! a = Some q <-> q = shut w p /\ is_open p (negb w) = true.
Proof.
  unfold shut_pipes. destruct (is_open p (negb w)).
  - rewrite lookup_insert_eq. split; [by intros [= <-]|by intros [-> _]].
  - rewrite lookup_delete_eq. split; [done|by intros [_ ?]].
Qed.

(** The state after the last reference to the end [w] of the pipe at [a], entry [i],
    is gone: the entry is idle and the pipe is closed at that end, or freed. *)
Lemma files_ok_shut kend s s' o o' l l' i x x' a w p :
  files_ok kend s o l -> ftab s !! i = Some x -> end_of x a w -> pipes s !! a = Some p ->
  ftab s' = <[i := x']> (ftab s) -> f_ref x' = 0 -> f_type x' = FD_NONE -> pipes s' = shut_pipes a w p (pipes s) ->
  kmem_ok kend (km s') l' -> (forall b, b ∈ l' -> b ∈ l \/ (b = a /\ is_open p (negb w) = false)) -> ftlock s' = false ->
  (forall j, j ∈ o' -> j ∈ o) -> (forall j, j <> i -> refs o' j = refs o j) -> refs o' i = 0 ->
  files_ok kend s' o' l'.
Proof.
  intros Hok Hx Hend Hp Hs Hr0 Ht0 Hps Hmem Hl' Hlk Hin Href Hri. pose proof Hok as [H1 H2 H3 H4 H5 H6 H7 H8].
  pose proof (is_end_drop _ _ _ _ _ _ _ _ _ _ Hok Hx Hend Hs Ht0) as Hgone.
  split; try done.
  - intros j Hj. rewrite Hs, length_insert. by apply H2, Hin.
  - intros j y Hy. rewrite Hs in Hy. apply list_lookup_insert_Some in Hy as [(<- & <- & _)|(Hne & Hy)]; [congruence|].
    rewrite Href by done. by apply H3.
  - intros j y Hy. rewrite Hs in Hy. apply list_lookup_insert_Some in Hy as [(<- & <- & _)|(Hne & Hy)]; [done|]. by eapply H4.
  - intros b v. rewrite Hps. destruct (decide (b = a)) as [->|Hb].
    + assert (Hv : forall q, shut_pipes a w p (pipes s) !! a = Some q /\ is_open q v = true <-> q = shut w p /\ v = negb w /\ is_open p v = true).
      { intros q. rewrite shut_pipes_eq. split; [intros [[-> Ho] Hv]|intros (-> & -> & Ho)]; rewrite ?shut_open in *; [|by destruct w].
        apply andb_true_iff in Hv as [Hv Hv']. by destruct v, w. }
      setoid_rewrite Hgone. setoid_rewrite Hv. split.
      * intros (j & Hj & Hne). exists (shut w p). split; [done|]. split; [destruct v, w; tauto|].
        destruct (proj1 (H5 a v) (ex_intro _ j Hj)) as (q & Hq & Ho). congruence.
      * intros (q & _ & -> & Ho). destruct (proj2 (H5 a (negb w)) (ex_intro _ p (conj Hp Ho))) as [j Hj].
        exists j. split; [done|]. by intros [_ ?%no_fixpoint_negb].
    + setoid_rewrite Hgone. rewrite shut_pipes_ne by done. rewrite <- H5. split; intros (j & Hj); exists j; tauto.
  - intros j k b v Hj%Hgone Hk%Hgone. by eapply H6; [apply Hj|apply Hk].
  - intros b q Hq. rewrite Hps in Hq. destruct (decide (b = a)) as [->|Hb].
    + apply shut_pipes_eq in Hq as [-> Ho]. destruct (H7 _ _ Hp) as (P1 & P2 & P3 & P4).
      split; [by destruct w|]. split; [destruct w; cbn in *; by rewrite Ho, ?orb_true_r|]. split; [done|].
      intros Hb. destruct (Hl' _ Hb) as [|[_ Hc]]; [done|congruence].
    + rewrite shut_pipes_ne in Hq by done. destruct (H7 _ _ Hq) as (P1 & P2 & P3 & P4). split; [done|]. split; [done|].
      split; [done|]. intros Hb'. destruct (Hl' _ Hb') as [|[? _]]; done.
Qed.

Lemma pipeclose_run kend s l a w p :
  kmem_ok kend (km s) l -> pipes s !! a = Some p -> plock p = false -> page_ok kend a -> a ∉ l ->
  exists s' l', pipeclose kend a w s = (Ok tt, s') /\ pipes s' = shut_pipes a w p (pipes s) /\ kmem_ok kend (km s') l'
    /\ (forall b, b ∈ l' -> b ∈ l \/ (b = a /\ is_open p (negb w) = false)) /\ ftab s' = ftab s /\ ftlock s' = ftlock s.
Proof.
  intros Hmem Hp P1 P3 P4. unfold pipeclose.
  rewrite (bind_ok _ _ _ _ _ (on_pipe_run _ s a p _ _ Hp (close_end_run p a (kkilled s) (kwoken s) w P1))). cbn [pp pwoken].
  set (s1 := set_kwoken _ _). unfold shut_pipes. destruct (is_open p (negb w)); cbn [negb].
  - exists s1, l. split; [done|]. split; [done|]. split; [done|]. auto.
  - destruct (kfree_ok kend a (km s) l Hmem P3 P4) as (k' & Hf & Hk & _).
    unfold bind, onmem, zoom. change (km s1) with (km s). rewrite Hf. cbn. eexists _, (a :: l). split; [reflexivity|]. cbn.
    split; [by rewrite delete_insert_eq|]. split; [done|]. split; [|done].
    intros b Hb. apply elem_of_cons in Hb as [->|]; auto.
Qed.

Lemma onfs_chain {A B C} (m1 : FM A) (m2 : FM B) (m3 : FM C) s r s' :
  (onfs m1 ;; onfs m2 ;; onfs m3) s = (r, s') -> exists fs', s' = set_fsys fs' s.
Proof.
  unfold bind, onfs, zoom. destruct (m1 (fsys s)) as [[] f1]; try (intros [= <- <-]; by eexists).
  cbn. destruct (m2 f1) as [[] f2]; try (intros [= <- <-]; by eexists).
  cbn. destruct (m3 f2) as [r3 f3]. intros [= <- <-]. by eexists.
Qed.

(** [fileclose] of the last reference: the entry goes idle, then the object is closed. *)
Definition idle (x : file) : file := set_ftype FD_NONE (set_fref 0 x).
Definition close_object (kend : Z) (x : file) : KM unit :=
  match f_type x with
  | FD_PIPE => pipeclose kend (f_pipe x) (writable x)
  | FD_INODE => onfs (onlog begin_op) ;; onfs (iput (f_ip x)) ;; onfs (onlog end_op)
  | FD_NONE => ret tt
  end.

Lemma fileclose_run kend s f x : ftlock s = false -> ftab s !! f = Some x -> 1 <= f_ref x ->
  fileclose kend f s =
  if 1 <? f_ref x then (Ok tt, set_ftlock false (set_ftab (<[f := set_fref (f_ref x - 1) x]> (ftab s)) (set_ftlock true s)))
  else close_object kend x (set_ftlock false (set_ftab (<[f := idle x]> (ftab s)) (set_ftlock true s))).
Proof.
  intros Hl Hx Hr. unfold fileclose. rewrite (bind_ok _ _ _ _ _ (acquire_ft_run s Hl)). set (s1 := set_ftlock true s).
  rewrite (bind_ok _ _ _ _ _ (getf_run s1 f x Hx)), (proj2 (Z.ltb_ge _ _)) by lia.
  rewrite (bind_ok _ _ _ _ _ (updf_run s1 f x _ Hx)). set (s2 := set_ftab _ s1).
  pose proof (lookup_lt_Some _ _ _ Hx) as Hlt. destruct (Z.ltb_spec 0 (f_ref x - 1)), (Z.ltb_spec 1 (f_ref x)); try lia.
  - by rewrite release_ft_run by done.
  - assert (Hx2 : ftab s2 !! f = Some (set_fref (f_ref x - 1) x)) by by apply list_lookup_insert_eq.
    rewrite (bind_ok _ _ _ _ _ (getf_run s2 f _ Hx2)), (bind_ok _ _ _ _ _ (updf_run s2 f _ _ Hx2)). set (s3 := set_ftab _ s2).
    assert (Hx3 : ftab s3 !! f = Some (set_fref 0 x)) by (cbn; by rewrite list_insert_insert_eq, list_lookup_insert_eq).
    rewrite (bind_ok _ _ _ _ _ (updf_run s3 f _ _ Hx3)). unlock_ft. unfold s3, s2. cbn [ftab set_ftab set_ftlock s1].
    rewrite !list_insert_insert_eq. done.
Qed.

Lemma close_object_ok kend s s5 o o' l f x : files_ok kend s o l -> ftab s !! f = Some x -> 0 < f_ref x ->
  ftab s5 = <[f := idle x]> (ftab s) -> pipes s5 = pipes s -> km s5 = km s -> ftlock s5 = false ->
  (forall j, j ∈ o' -> j ∈ o) -> (forall j, j <> f -> refs o' j = refs o j) -> refs o' f = 0 ->
  exists r s' l', close_object kend x s5 = (r, s') /\ files_ok kend s' o' l' /\ (f_type x <> FD_INODE -> r = Ok tt) /\ ftab s' = ftab s5.
Proof.
  intros Hok Hx Hr Htab Hps Hkm Hlk Hsub Hother Hzero.
  assert (Hclosed : f_type x <> FD_PIPE -> forall fs', files_ok kend (set_fsys fs' s5) o' l).
  { intros Ht fs'. apply (files_ok_entry kend s _ o _ l f x (idle x) Hok Hx); try done; auto.
    intros a w. unfold end_of. cbn. split; intros (? & _); done. }
  unfold close_object. destruct (f_type x) eqn:Et.
  - exists (Ok tt), s5, l. split; [done|]. split; [|done]. specialize (Hclosed ltac:(done) (fsys s5)). by destruct s5.
  - assert (Hend : end_of x (f_pipe x) (writable x)) by done.
    destruct (proj1 (fl_open _ _ _ _ Hok (f_pipe x) (writable x)) (ex_intro _ f (ex_intro _ x (conj Hx Hend)))) as (p & Hp & _).
    destruct (fl_pipe _ _ _ _ Hok _ _ Hp) as (P1 & P2 & P3 & P4).
    destruct (pipeclose_run kend s5 l (f_pipe x) (writable x) p) as (s' & l' & Hrun & Hps' & Hk' & Hl' & Ht' & Hlk');
      [rewrite Hkm; apply (fl_mem _ _ _ _ Hok)|by rewrite Hps|done|done|done|].
    exists (Ok tt), s', l'. split; [done|]. split; [|done].
    eapply (files_ok_shut kend s s' o o' l l' f x (idle x)); try done; try congruence.
  - destruct ((onfs (onlog begin_op) ;; onfs (iput (f_ip x)) ;; onfs (onlog end_op)) s5) as [r s6] eqn:E6.
    destruct (onfs_chain _ _ _ _ _ _ E6) as [fs' ->]. exists r, (set_fsys fs' s5), l. split; [done|]. split; [by apply Hclosed|done].
Qed.

Lemma fileclose_ok kend s o o' l f x : files_ok kend s o l -> o ≡ₚ f :: o' -> ftab s !! f = Some x ->
  exists r s' l', fileclose kend f s = (r, s') /\ files_ok kend s' o' l' /\ (f_type x <> FD_INODE -> r = Ok tt)
    /\ forall j, j <> f -> ftab s' !! j = ftab s !! j.
Proof.
  intros Hok Ho Hx. assert (Hf : f ∈ o) by (rewrite Ho; left).
  destruct (held_ref _ _ _ _ _ Hok Hf) as (x1 & Hx1 & H1 & Hr). assert (x1 = x) as -> by congruence.
  pose proof (refs_perm _ _ f Ho) as Hrf. rewrite refs_cons, decide_True in Hrf by done.
  assert (Hother : forall j, j <> f -> refs o' j = refs o j).
  { intros j Hj. rewrite (refs_perm _ _ j Ho), refs_cons, decide_False by done. lia. }
  assert (Hsub : forall j, j ∈ o' -> j ∈ o) by (intros j Hj; rewrite Ho; by right).
  rewrite (fileclose_run kend s f x (fl_lock _ _ _ _ Hok) Hx H1). destruct (Z.ltb_spec 1 (f_ref x)) as [Hmore|Hlast].
  - eexists _, _, l. split; [done|]. split; [|split; [done|]].
    + apply (files_ok_entry kend s _ o _ l f x (set_fref (f_ref x - 1) x) Hok Hx); try done; cbn; try lia; auto.
      intros a w. unfold end_of. cbn. split; intros (? & ? & ? & ?); repeat split; auto; lia.
    + intros j Hj. cbn. by rewrite list_lookup_insert_ne.
  - destruct (close_object_ok kend s (set_ftlock false (set_ftab (<[f:=idle x]> (ftab s)) (set_ftlock true s))) o o' l f x)
      as (r & s' & l' & Hrun & Hok' & Hr' & Ht); try done; try lia.
    exists r, s', l'. do 3 (split; [done|]). intros j Hj. rewrite Ht. cbn. by rewrite list_lookup_insert_ne.
Qed.

(** ** Creating pipes *)

Definition read_end (a : Z) (x : file) : file := set_fpipe a (set_rw true false (set_ftype FD_PIPE x)).
Definition write_end (a : Z) (x : file) : file := set_fpipe a (set_rw false true (set_ftype FD_PIPE x)).

Lemma files_ok_pipe kend s s' o l f0 f1 x0 x1 a p :
  files_ok kend s o (a :: l) -> f0 <> f1 -> ftab s !! f0 = Some x0 -> ftab s !! f1 = Some x1 ->
  f_type x0 = FD_NONE -> f_type x1 = FD_NONE -> 0 < f_ref x0 -> 0 < f_ref x1 ->
  ftab s' = <[f1 := write_end a x1]> (<[f0 := read_end a x0]> (ftab s)) -> pipes s' = <[a := p]> (pipes s) ->
  plock p = false -> readopen p = true -> writeopen p = true -> kmem_ok kend (km s') l -> ftlock s' = false ->
  files_ok kend s' o l.
Proof.
  intros [H1 H2 H3 H4 H5 H6 H7 H8] Hne Hx0 Hx1 Ht0 Ht1 Hr0 Hr1 Hs Hp Hpl Hro Hwo Hmem Hlk.
  pose proof (lookup_lt_Some _ _ _ Hx0) as L0. pose proof (lookup_lt_Some _ _ _ Hx1) as L1.
  assert (Hnew : pipes s !! a = None).
  { destruct (pipes s !! a) as [q|] eqn:E; [|done]. destruct (H7 _ _ E) as (_ & _ & _ & Hn). exfalso. apply Hn. left. }
  assert (Hpage : page_ok kend a) by (pose proof (ok_pages _ _ _ H8) as Hf; by inversion Hf).
  assert (Hal : a ∉ l) by (pose proof (ok_nodup _ _ _ H8) as Hf; by inversion Hf).
  assert (Hlook : forall j y, ftab s' !! j = Some y ->
    (j = f1 /\ y = write_end a x1) \/ (j = f0 /\ y = read_end a x0) \/ (j <> f0 /\ j <> f1 /\ ftab s !! j = Some y)).
  { intros j y Hy. rewrite Hs in Hy. apply list_lookup_insert_Some in Hy as [(<- & <- & _)|(N1 & Hy)]; [auto|].
    apply list_lookup_insert_Some in Hy as [(<- & <- & _)|(N0 & Hy)]; auto 6. }
  assert (He : forall j b v, is_end s' j b v <-> is_end s j b v \/ (b = a /\ j = if v then f1 else f0)).
  { intros j b v. split.
    - intros (y & [[-> ->]|[[-> ->]|(N0 & N1 & Hy)]]%Hlook & (E1 & E2 & E3 & E4)); cbn in *; [by subst; right|by subst; right|].
      left. by exists y.
    - intros [(y & Hy & Hend)|[-> ->]].
      + exists y. split; [|done]. rewrite Hs. destruct Hend as (E1 & _).
        rewrite list_lookup_insert_ne by (intros <-; congruence). by rewrite list_lookup_insert_ne by (intros <-; congruence).
      + destruct v; eexists; rewrite Hs; [rewrite list_lookup_insert_eq by (by rewrite length_insert)|rewrite list_lookup_insert_ne, list_lookup_insert_eq by done];
          (split; [done|]); by repeat split. }
  split; try done.
  - intros j Hj. rewrite Hs, !length_insert. by apply H2.
  - intros j y [[-> ->]|[[-> ->]|(N0 & N1 & Hy)]]%Hlook; cbn; by apply H3.
  - intros j y [[-> ->]|[[-> ->]|(N0 & N1 & Hy)]]%Hlook; cbn; [lia|lia|by eapply H4].
  - intros b v. rewrite Hp. setoid_rewrite He. destruct (decide (b = a)) as [->|Hb].
    + rewrite lookup_insert_eq. split; [|by eauto]. intros _. exists p. by destruct v.
    + rewrite lookup_insert_ne by done. rewrite <- H5. split; [intros (j & [|[]]); [by eauto|done]|intros [j Hj]; eauto].
  - intros j k b v Hj%He Hk%He.
    assert (Hna : forall m, ~ is_end s m a v). { intros m Hm. destruct (proj1 (H5 a v) (ex_intro _ m Hm)) as (q & Hq & _). congruence. }
    destruct Hj as [Hj|[-> ->]], Hk as [Hk|[? ->]]; subst; [by eapply H6|by apply Hna in Hj|by apply Hna in Hk|done].
  - intros b q Hq. rewrite Hp in Hq. destruct (decide (b = a)) as [->|Hb].
    + rewrite lookup_insert_eq in Hq. injection Hq as <-. by rewrite Hro.
    + rewrite lookup_insert_ne in Hq by done. destruct (H7 _ _ Hq) as (P1 & P2 & P3 & P4). apply not_elem_of_cons in P4 as [_ P4]. done.
Qed.

(** Giving back a file that was allocated but not set up. *)
Lemma fileclose_unused kend s o o' l f x : files_ok kend s o l -> o ≡ₚ f :: o' -> ftab s !! f = Some x -> f_type x = FD_NONE ->
  exists s' l', fileclose kend f s = (Ok tt, s') /\ files_ok kend s' o' l' /\ forall j, j <> f -> ftab s' !! j = ftab s !! j.
Proof.
  intros Hok Ho Hx Ht. destruct (fileclose_ok kend s o o' l f x Hok Ho Hx) as (r & s' & l' & Hrun & Hok' & Hr & Hoth).
  rewrite Hr in Hrun by by rewrite Ht. eauto.
Qed.

Lemma pipe_setup_run s a f0 f1 x0 x1 : ftab s !! f0 = Some x0 -> ftab s !! f1 = Some x1 -> f0 <> f1 ->
  (updf f0 (set_ftype FD_PIPE) ;; updf f0 (set_rw true false) ;; updf f0 (set_fpipe a) ;;
   updf f1 (set_ftype FD_PIPE) ;; updf f1 (set_rw false true) ;; updf f1 (set_fpipe a) ;; ret (Some (f0, f1))) s
  = (Ok (Some (f0, f1)), set_ftab (<[f1 := write_end a x1]> (<[f0 := read_end a x0]> (ftab s))) s).
Proof.
  intros H0 H1 Hne. pose proof (lookup_lt_Some _ _ _ H0) as L0. pose proof (lookup_lt_Some _ _ _ H1) as L1.
  assert (Hthree : forall (A : Type) (K : KM A) s f x g1 g2 g3, ftab s !! f = Some x ->
    (updf f g1 ;; updf f g2 ;; updf f g3 ;; K) s = K (set_ftab (<[f := g3 (g2 (g1 x))]> (ftab s)) s)).
  { clear. intros A K s f x g1 g2 g3 Hx. pose proof (lookup_lt_Some _ _ _ Hx) as L.
    rewrite (bind_ok _ _ _ _ _ (updf_run s f x _ Hx)).
    erewrite (bind_ok (updf f g2)); [|apply updf_run; by apply list_lookup_insert_eq].
    erewrite (bind_ok (updf f g3)); [|apply updf_run; cbn; by rewrite list_insert_insert_eq, list_lookup_insert_eq].
    cbn. by rewrite !list_insert_insert_eq. }
  rewrite (Hthree _ _ _ _ _ _ _ _ H0).
  rewrite (Hthree _ _ _ f1 x1) by (cbn; by rewrite list_lookup_insert_ne). done.
Qed.

Lemma pipealloc_full kend s o l f0 f1 x0 x1 : files_ok kend s (f1 :: f0 :: o) l -> f0 <> f1 ->
  ftab s !! f0 = Some x0 -> ftab s !! f1 = Some x1 -> f_type x0 = FD_NONE -> f_type x1 = FD_NONE ->
  exists s' l', pipealloc_bad kend 0 (Some f0) (Some f1) s = (Ok None, s') /\ files_ok kend s' o l'.
Proof.
  intros Hok Hne Hx0 Hx1 Ht0 Ht1.
  destruct (fileclose_unused kend s _ (f1 :: o) l f0 x0 Hok ltac:(constructor) Hx0 Ht0) as (s4 & l4 & Hc4 & Hok4 & Hs4).
  destruct (fileclose_unused kend s4 _ o l4 f1 x1 Hok4 ltac:(done) ltac:(by rewrite Hs4) Ht1) as (s5 & l5 & Hc5 & Hok5 & _).
  exists s5, l5. split; [|done]. unfold pipealloc_bad, bind. cbn -[fileclose]. rewrite Hc4. cbn -[fileclose]. by rewrite Hc5.
Qed.

Lemma pipealloc_ok kend s o l : files_ok kend s o l ->
  match pipealloc kend s with
  | (Ok (Some (f0, f1)), s') => f0 <> f1 /\ (exists l', files_ok kend s' (f0 :: f1 :: o) l')
      /\ (f0 ∉ o) /\ (f1 ∉ o) /\ exists a, is_end s' f0 a false /\ is_end s' f1 a true
  | (Ok None, s') => exists l', files_ok kend s' o l'
  | _ => False
  end.
Proof.
  intros Hok. unfold pipealloc. pose proof (filealloc_ok kend s o l Hok) as Ha0.
  destruct (filealloc s) as [[[f0|]| | | |] s1] eqn:E0; try done; rewrite (bind_ok _ _ _ _ _ E0).
  2:{ destruct Ha0 as [-> _]. unfold pipealloc_bad. cbn. by exists l. }
  destruct Ha0 as (Hn0 & Hok1 & _ & x0 & Hx0 & Ht0 & Hr0). pose proof (filealloc_ok kend s1 _ l Hok1) as Ha1.
  destruct (filealloc s1) as [[[f1|]| | | |] s2] eqn:E1; try done; rewrite (bind_ok _ _ _ _ _ E1).
  2:{ destruct Ha1 as [-> _]. destruct (fileclose_unused kend s1 _ o l f0 x0 Hok1 ltac:(done) Hx0 Ht0) as (s3 & l' & Hc & Hok3 & _).
      unfold pipealloc_bad, bind. cbn. rewrite Hc. cbn. eauto. }
  destruct Ha1 as (Hn1 & Hok2 & Hsame & x1 & Hx1 & Ht1 & Hr1). apply not_elem_of_cons in Hn1 as [Hne Hn1].
  rewrite <- (Hsame f0) in Hx0 by done.
  destruct (kalloc_ok kend (km s2) l (fl_mem _ _ _ _ Hok2)) as (k' & Hka & Hk' & Hmem & _).
  assert (Hkrun : onmem kalloc s2 = (Ok (default 0 (head l)), set_km k' s2)) by (unfold onmem, zoom; by rewrite Hka).
  rewrite (bind_ok _ _ _ _ _ Hkrun). destruct l as [|a l].
  - assert (Hok3 : files_ok kend (set_km k' s2) (f1 :: f0 :: o) []) by (destruct Hok2; by split).
    destruct (pipealloc_full kend _ o [] f0 f1 x0 x1 Hok3 ltac:(done) Hx0 Hx1 Ht0 Ht1) as (s' & l' & Hb & Hok'). cbn [head default].
    change (0 =? 0) with true. cbv iota. rewrite Hb. eauto.
  - change (default 0 (head (a :: l))) with a. cbn [tail] in *. assert (Hpage : page_ok kend a) by (pose proof (ok_pages _ _ _ (fl_mem _ _ _ _ Hok2)) as Hf; by inversion Hf).
    pose proof (page_nonzero kend a Hpage) as Hz. unfold nz in Hz. apply negb_true_iff in Hz. rewrite Hz.
    rewrite (bind_ok (gets _) _ (set_km k' s2) (set_km k' s2) (memory k') eq_refl). cbv zeta.
    erewrite (bind_ok (modify _)) by reflexivity.
    rewrite (pipe_setup_run _ a f0 f1 x0 x1) by done. set (s' := set_ftab _ _).
    assert (Hok' : files_ok kend s' (f1 :: f0 :: o) l).
    { eapply (files_ok_pipe kend s2 s' _ l f0 f1 x0 x1 a); try done; [lia|lia|apply (fl_lock _ _ _ _ Hok2)]. }
    split; [done|]. split; [exists l; by eapply files_ok_perm; [|exact Hok']; constructor|]. split; [done|]. split; [done|].
    pose proof (lookup_lt_Some _ _ _ Hx0) as L0. pose proof (lookup_lt_Some _ _ _ Hx1) as L1.
    exists a. split; [exists (read_end a x0)|exists (write_end a x1)]; cbn.
    + rewrite list_lookup_insert_ne, list_lookup_insert_eq by done. split; [done|]. repeat split. cbn. lia.
    + rewrite list_lookup_insert_eq by (by rewrite length_insert). split; [done|]. repeat split. cbn. lia.
Qed.

(** ** Reading and writing *)

(** [s'] differs from [s] in the file system and in file offsets at most. *)
Record same_files (s s' : kern) : Prop := mkSame {
  sf_tab : Forall2 (fun x x' => x' = set_foff (f_off x') x) (ftab s) (ftab s');
  sf_pipes : pipes s' = pipes s;
  sf_km : km s' = km s;
  sf_lock : ftlock s' = ftlock s;
}.

#[export] Instance same_files_preorder : PreOrder same_files.
Proof.
  split.
  - intros s. split; try done. apply Forall2_same_length_lookup. split; [done|]. intros i x y Hx Hy. rewrite Hx in Hy. injection Hy as ->. by destruct y.
  - intros s1 s2 s3 [A1 A2 A3 A4] [B1 B2 B3 B4]. split; try congruence. revert B1. generalize (ftab s3). clear -A1.
    induction A1 as [|x y l k Hxy _ IH]; intros m Hm; inversion Hm as [|? z ? m' Hyz Hm']; subst; [done|].
    constructor; [|by apply IH]. rewrite Hyz, Hxy. done.
Qed.

Definition frames {A} (m : KM A) : Prop := forall s r s', m s = (r, s') -> same_files s s'.

Lemma frames_bind {A B} (m : KM A) (k : A -> KM B) : frames m -> (forall a, frames (k a)) -> frames (bind m k).
Proof.
  intros Hm Hk s r s' H. unfold bind in H. destruct (m s) as [[a|e|c| |e] s1] eqn:E; pose proof (Hm _ _ _ E) as H1;
    try (injection H as <- <-; done). by transitivity s1; [|eapply Hk].
Qed.

Lemma frames_id {A} (m : KM A) : (forall s, snd (m s) = s) -> frames m.
Proof. intros Hm s r s' H. specialize (Hm s). rewrite H in Hm. cbn in Hm. by subst. Qed.

Lemma frames_onfs {A} (m : FM A) : frames (onfs m).
Proof.
  intros s r s' H. unfold onfs, zoom in H. destruct (m (fsys s)) as [r0 f]. assert (Hs : s' = set_fsys f s) by (destruct r0; by simplify_eq).
  subst. split; try done. apply (sf_tab _ _ (reflexivity s)).
Qed.

Lemma frames_getf f : frames (getf f).
Proof. apply frames_id. intros s. unfold getf. mrun. by destruct (ftab s !! f). Qed.

Lemma frames_off f v : frames (updf f (set_foff v)).
Proof.
  intros s r s' H. unfold updf in H. mrun_in H. destruct (ftab s !! f) as [x|] eqn:E; [|by injection H as <- <-].
  injection H as <- <-. split; try done. cbn. apply Forall2_same_length_lookup. rewrite length_insert. split; [done|].
  intros i y z Hy Hz. apply list_lookup_insert_Some in Hz as [(<- & <- & _)|(_ & Hz)]; [by assert (y = x) as -> by congruence|].
  assert (y = z) as -> by congruence. by destruct z.
Qed.

Create HintDb frames.
#[export] Hint Resolve frames_bind frames_onfs frames_getf frames_off : frames.

Lemma frames_write_loop dw fuel : forall f rest, frames (filewrite_loop dw fuel f rest).
Proof.
  induction fuel as [|fuel IH]; intros f rest; cbn [filewrite_loop]; [by apply frames_id|].
  destruct (0 <? _); [|by apply frames_id].
  repeat (apply frames_bind; [eauto with frames|intros]);
    repeat case_match; eauto with frames; by apply frames_id.
Qed.

Lemma files_ok_same kend s s' o l : same_files s s' -> files_ok kend s o l -> files_ok kend s' o l.
Proof.
  intros [Ht Hp Hk Hlk] [H1 H2 H3 H4 H5 H6 H7 H8].
  assert (Hlook : forall i x', ftab s' !! i = Some x' -> exists x, ftab s !! i = Some x /\ x' = set_foff (f_off x') x).
  { intros i x' Hx'. destruct (Forall2_lookup_r _ _ _ _ _ Ht Hx') as (x & Hx & He). by exists x. }
  assert (He : forall j a w, is_end s' j a w <-> is_end s j a w).
  { intros j a w. split.
    - intros (x' & Hx' & Hend). destruct (Hlook _ _ Hx') as (x & Hx & Heq). exists x. split; [done|]. rewrite Heq in Hend. done.
    - intros (x & Hx & Hend). destruct (Forall2_lookup_l _ _ _ _ _ Ht Hx) as (x' & Hx' & Heq). exists x'. split; [done|]. by rewrite Heq. }
  split; rewrite ?Hp, ?Hk, ?Hlk; try done.
  - intros i Hi. rewrite <- (Forall2_length _ _ _ Ht). by apply H2.
  - intros i x' (x & Hx & Heq)%Hlook. rewrite Heq. exact (H3 i x Hx).
  - intros i x' (x & Hx & Heq)%Hlook. rewrite Heq. exact (H4 i x Hx).
  - intros a w. rewrite <- H5. split; intros (j & Hj); exists j; by apply He.
  - intros i j a w. rewrite !He. apply H6.
Qed.

(** Reading and writing a pipe leave its ends and its lock. *)
Definition kept (p p' : pipe) : Prop := plock p' = false /\ readopen p' = readopen p /\ writeopen p' = writeopen p.

Lemma pipewrite_loop_kept n : forall rest i p a k wk, plock p = true ->
  exists r t, pipewrite_loop n i rest (Pipe.mkP p a k wk) = (Ok r, t) /\ kept p (pp t).
Proof.
  induction rest as [|b rest IH]; intros i [lk d nr nw ro wo] a k wk Hl; cbn in Hl; subst; cbn [pipewrite_loop].
  - mrun. cbn. by eexists _, _.
  - mrun. cbn. destruct (nw =? _); [destruct (negb ro || k); cbn; by eexists _, _|].
    destruct (IH (S i) (put_byte b (mkPipe true d nr nw ro wo)) a k wk eq_refl) as (r & t & H & Hk). exists r, t. split; [exact H|done].
Qed.

Lemma piperead_copy_kept n : forall acc p a k wk, exists l p', piperead_copy n acc (Pipe.mkP p a k wk) = (Ok l, Pipe.mkP p' a k wk)
  /\ plock p' = plock p /\ readopen p' = readopen p /\ writeopen p' = writeopen p.
Proof.
  induction n as [|n IH]; intros acc p a k wk; cbn [piperead_copy]; [by eexists _, _|]. mrun. cbn [pp].
  destruct (nread p =? nwrite p); [by eexists _, _|].
  destruct (IH (acc ++ [next_byte p]) (drop_byte p) a k wk) as (l & p' & H & E1 & E2 & E3). exists l, p'. split; [exact H|]. done.
Qed.

Lemma pipewrite_kept bytes i p a k wk : plock p = false ->
  exists r t, pipewrite_resume bytes i (Pipe.mkP p a k wk) = (Ok r, t) /\ kept p (pp t).
Proof.
  intros Hl. unfold pipewrite_resume, acquire_p. destruct p as [lk d nr nw ro wo]. cbn in Hl. subst. mrun. cbn.
  by apply (pipewrite_loop_kept _ _ _ (mkPipe true d nr nw ro wo)).
Qed.

Lemma piperead_kept n p a k wk : plock p = false -> exists r t, piperead n (Pipe.mkP p a k wk) = (Ok r, t) /\ kept p (pp t).
Proof.
  intros Hl. destruct p as [lk d nr nw ro wo]. cbn in Hl. subst. unfold piperead, acquire_p. mrun. cbn.
  destruct ((nr =? nw) && wo); [destruct k; cbn; by eexists _, _|].
  destruct (piperead_copy_kept (Z.to_nat n) [] (mkPipe true d nr nw ro wo) a k wk) as (l & p' & H & E1 & E2 & E3).
  unfold set_plock, set_pp. cbn. rewrite H. cbn. rewrite E1. cbn. by eexists _, _.
Qed.

Lemma files_ok_kept kend s s' o l a p p' : files_ok kend s o l -> pipes s !! a = Some p -> kept p p' ->
  pipes s' = <[a := p']> (pipes s) -> ftab s' = ftab s -> km s' = km s -> ftlock s' = ftlock s -> files_ok kend s' o l.
Proof.
  intros [H1 H2 H3 H4 H5 H6 H7 H8] Hp (K1 & K2 & K3) Hps Ht Hk Hlk.
  assert (He : forall j b v, is_end s' j b v <-> is_end s j b v) by (intros; unfold is_end; by rewrite Ht).
  assert (Hop : forall v, is_open p' v = is_open p v) by by intros [].
  split; rewrite ?Ht, ?Hk, ?Hlk; try done.
  - intros b v. setoid_rewrite He. rewrite H5, Hps. destruct (decide (b = a)) as [->|Hb].
    + rewrite Hp, lookup_insert_eq. split; intros (q & [= <-] & Ho); eexists; (split; [done|]); [by rewrite Hop|by rewrite <- Hop].
    + by rewrite lookup_insert_ne.
  - intros i j b v. rewrite !He. apply H6.
  - intros b q Hq. rewrite Hps in Hq. destruct (decide (b = a)) as [->|Hb].
    + rewrite lookup_insert_eq in Hq. injection Hq as <-. destruct (H7 _ _ Hp) as (P1 & P2 & P3 & P4). by rewrite K2, K3.
    + rewrite lookup_insert_ne in Hq by done. by apply H7.
Qed.

(** The pipe of a live end is there. *)
Lemma pipe_there kend s o l f x : files_ok kend s o l -> f ∈ o -> ftab s !! f = Some x -> f_type x = FD_PIPE ->
  exists p, pipes s !! f_pipe x = Some p /\ plock p = false.
Proof.
  intros Hok Hf Hx Ht. destruct (held_ref _ _ _ _ _ Hok Hf) as (y & Hy & H1 & _). assert (y = x) as -> by congruence.
  destruct (proj1 (fl_open _ _ _ _ Hok (f_pipe x) (writable x))) as (p & Hp & _).
  { exists f, x. split; [done|]. repeat split; auto; lia. }
  exists p. split; [done|]. by apply (fl_pipe _ _ _ _ Hok _ _ Hp).
Qed.

Lemma on_pipe_kept {A} kend s o l a p (m : M Pipe.pstate A) : files_ok kend s o l -> pipes s !! a = Some p ->
  (exists r t, m (Pipe.mkP p a (kkilled s) (kwoken s)) = (Ok r, t) /\ kept p (pp t)) ->
  exists r s', on_pipe a m s = (Ok r, s') /\ files_ok kend s' o l.
Proof.
  intros Hok Hp (r & t & Hm & Hk). rewrite (on_pipe_run m s a p _ _ Hp Hm). eexists _, _. split; [done|].
  by eapply (files_ok_kept kend s _ o l a p (pp t)).
Qed.

Lemma fileread_ok kend dr s o l f n : files_ok kend s o l -> f ∈ o ->
  exists r s', fileread dr f n s = (r, s') /\ files_ok kend s' o l
    /\ forall x, ftab s !! f = Some x -> f_type x = FD_PIPE -> exists v, r = Ok v.
Proof.
  intros Hok Hf. destruct (held_ref _ _ _ _ _ Hok Hf) as (x & Hx & _ & _). unfold fileread.
  rewrite (bind_ok _ _ _ _ _ (getf_run s f x Hx)). destruct (readable x); cbn [negb].
  2:{ eexists _, _. split; [done|]. split; [done|]. eauto. }
  destruct (f_type x) eqn:Et.
  - eexists _, _. split; [done|]. split; [done|]. intros y Hy Hty. congruence.
  - destruct (pipe_there _ _ _ _ _ _ Hok Hf Hx Et) as (p & Hp & Hl).
    destruct (on_pipe_kept kend s o l _ p (piperead n) Hok Hp (piperead_kept n p _ _ _ Hl)) as (r & s' & Hrun & Hok').
    rewrite (bind_ok _ _ _ _ _ Hrun). destruct r; eexists _, _; (split; [done|]); (split; [done|]); eauto.
  - match goal with |- exists r s', ?m s = _ /\ _ => destruct (m s) as [r s'] eqn:E; assert (Hfr : frames m) end.
    { apply frames_bind; [eauto with frames|intros _]. apply frames_bind; [eauto with frames|intros v].
      apply frames_bind; [destruct (0 <? fst v); [eauto with frames|by apply frames_id]|intros _].
      apply frames_bind; [eauto with frames|intros _]. by apply frames_id. }
    exists r, s'. split; [done|]. split; [by eapply files_ok_same; [eapply Hfr|]|]. intros y Hy Hty. congruence.
Qed.

Lemma filewrite_ok kend dw s o l f bytes : files_ok kend s o l -> f ∈ o ->
  exists r s', filewrite dw f bytes s = (r, s') /\ files_ok kend s' o l
    /\ forall x, ftab s !! f = Some x -> f_type x = FD_PIPE -> exists v, r = Ok v.
Proof.
  intros Hok Hf. destruct (held_ref _ _ _ _ _ Hok Hf) as (x & Hx & _ & _). unfold filewrite.
  rewrite (bind_ok _ _ _ _ _ (getf_run s f x Hx)). destruct (writable x); cbn [negb].
  2:{ eexists _, _. split; [done|]. split; [done|]. eauto. }
  destruct (f_type x) eqn:Et.
  - eexists _, _. split; [done|]. split; [done|]. intros y Hy Hty. congruence.
  - destruct (pipe_there _ _ _ _ _ _ Hok Hf Hx Et) as (p & Hp & Hl).
    destruct (on_pipe_kept kend s o l _ p (pipewrite bytes) Hok Hp (pipewrite_kept bytes 0 p _ _ _ Hl)) as (r & s' & Hrun & Hok').
    rewrite (bind_ok _ _ _ _ _ Hrun). destruct r; eexists _, _; (split; [done|]); (split; [done|]); eauto.
  - match goal with |- exists r s', ?m s = _ /\ _ => destruct (m s) as [r s'] eqn:E; assert (Hfr : frames m) end.
    { apply frames_bind; [apply frames_write_loop|intros []; by apply frames_id]. }
    exists r, s'. split; [done|]. split; [by eapply files_ok_same; [eapply Hfr|]|]. intros y Hy Hty. congruence.
Qed.

(** [sys_open] makes a file it has just allocated an open inode. *)
Definition open_inode (ip : nat) (r w : bool) (x : file) : file := set_rw r w (set_foff 0 (set_fip ip (set_ftype FD_INODE x))).

Lemma open_inode_ok kend s o l f x ip r w : files_ok kend s o l -> f ∈ o -> ftab s !! f = Some x -> f_type x = FD_NONE ->
  exists s', updf f (open_inode ip r w) s = (Ok tt, s') /\ files_ok kend s' o l.
Proof.
  intros Hok Hf Hx Ht. rewrite (updf_run s f x _ Hx). eexists. split; [done|].
  destruct (held_ref _ _ _ _ _ Hok Hf) as (y & Hy & H1 & Hr). assert (y = x) as -> by congruence.
  apply (files_ok_entry kend s _ o _ l f x (open_inode ip r w x) Hok Hx); try done; auto; try (cbn; lia).
  - apply (fl_lock _ _ _ _ Hok).
  - intros a v. unfold end_of. cbn. rewrite Ht. split; intros (? & _); done.
Qed.

(** ** Every use of the table *)

Section Calls.
Context (kend : Z) (dev_read : Z -> option (nat -> Z -> FM (Z * list Z)))
        (dev_write : Z -> option (nat -> list Z -> FM Z)).

(** One call on the table, with the references held before and after.  Calls are
    made on files that are held, and may end in any way. *)
Inductive fcall : kern * list nat -> kern * list nat -> Prop :=
| fc_alloc s o f s' : filealloc s = (Ok (Some f), s') -> fcall (s, o) (s', f :: o)
| fc_alloc_full s o s' : filealloc s = (Ok None, s') -> fcall (s, o) (s', o)
| fc_dup s o f r s' : f ∈ o -> Z.of_nat (length o) < 2 ^ 31 - 1 -> filedup f s = (r, s') -> fcall (s, o) (s', f :: o)
| fc_close s o o' f r s' : o ≡ₚ f :: o' -> fileclose kend f s = (r, s') -> fcall (s, o) (s', o')
| fc_pipe s o f0 f1 s' : pipealloc kend s = (Ok (Some (f0, f1)), s') -> fcall (s, o) (s', f0 :: f1 :: o)
| fc_pipe_full s o s' : pipealloc kend s = (Ok None, s') -> fcall (s, o) (s', o)
| fc_open s o f x ip rd wr s' : f ∈ o -> ftab s !! f = Some x -> f_type x = FD_NONE ->
    updf f (open_inode ip rd wr) s = (Ok tt, s') -> fcall (s, o) (s', o)
| fc_read s o f n r s' : f ∈ o -> fileread dev_read f n s = (r, s') -> fcall (s, o) (s', o)
| fc_write s o f bytes r s' : f ∈ o -> filewrite dev_write f bytes s = (r, s') -> fcall (s, o) (s', o).

Lemma fcall_ok s o s' o' : fcall (s, o) (s', o') -> (exists l, files_ok kend s o l) -> exists l, files_ok kend s' o' l.
Proof.
  intros Hc (l & Hok). inversion Hc as [? ? f ? E|? ? ? E|? ? f ? ? Hf Hlen E|? ? ? f ? ? Ho E|? ? f0 f1 ? E|? ? ? E|? ? f x ip rd wr ? Hf Hx Ht E|? ? f n ? ? Hf E|? ? f bs ? ? Hf E]; subst.
  - pose proof (filealloc_ok kend s o l Hok) as H. rewrite E in H. exists l. apply H.
  - pose proof (filealloc_ok kend s o' l Hok) as H. rewrite E in H. destruct H as [-> _]. by exists l.
  - destruct (filedup_ok kend s o l f Hok Hf Hlen) as (s1 & E1 & H). rewrite E in E1. injection E1 as -> ->. by exists l.
  - destruct (held_ref _ _ _ _ f Hok ltac:(rewrite Ho; left)) as (x & Hx & _).
    destruct (fileclose_ok kend s o o' l f x Hok Ho Hx) as (r1 & s1 & l' & E1 & H & _). rewrite E in E1. injection E1 as -> ->. by exists l'.
  - pose proof (pipealloc_ok kend s o l Hok) as H. rewrite E in H. apply H.
  - pose proof (pipealloc_ok kend s o' l Hok) as H. rewrite E in H. apply H.
  - destruct (open_inode_ok kend s o' l f x ip rd wr Hok Hf Hx Ht) as (s1 & E1 & H). rewrite E in E1. injection E1 as ->. by exists l.
  - destruct (fileread_ok kend dev_read s o' l f n Hok Hf) as (r1 & s1 & E1 & H & _). rewrite E in E1. injection E1 as -> ->. by exists l.
  - destruct (filewrite_ok kend dev_write s o' l f bs Hok Hf) as (r1 & s1 & E1 & H & _). rewrite E in E1. injection E1 as -> ->. by exists l.
Qed.

(** The table as the kernel starts with it. *)
Definition no_files (s : kern) : Prop :=
  ftlock s = false /\ pipes s = ∅ /\ forall i x, ftab s !! i = Some x -> f_ref x = 0 /\ f_type x = FD_NONE.

Lemma no_files_ok s l : no_files s -> kmem_ok kend (km s) l -> files_ok kend s [] l.
Proof.
  intros (H1 & H2 & H3) Hk.
  assert (Hend : forall i a w, ~ is_end s i a w). { intros i a w (x & Hx & (_ & _ & _ & ?)). destruct (H3 _ _ Hx). lia. }
  split; try done.
  - intros i Hi. by apply elem_of_nil in Hi.
  - intros i x Hx. by apply (H3 i x Hx).
  - intros i x Hx _. by apply (H3 i x Hx).
  - intros a w. rewrite H2. split; [intros (i & Hi); by apply Hend in Hi|intros (p & Hp & _); by rewrite lookup_empty in Hp].
  - intros i j a w Hi. by apply Hend in Hi.
  - intros a p Hp. by rewrite H2, lookup_empty in Hp.
Qed.

(** C15: open files.  After any sequence of allocations, dups, closes, pipe creations,
    opens, reads and writes on the table of files, however each of them ended, the
    count of every entry is the number of references held to it; a pipe exists exactly
    while one of its ends is open, its page is not among the free pages, and each end
    is one entry.  So a reference that is held can be shared, and a file that is a pipe
    can be read, written and closed, without a panic and without reaching a pipe that
    has been freed. *)
Theorem open_files_exact s0 s o l0 :
  no_files s0 -> kmem_ok kend (km s0) l0 -> rtc fcall (s0, []) (s, o) ->
  (forall i x, ftab s !! i = Some x -> f_ref x = refs o i)
  /\ (exists l, kmem_ok kend (km s) l /\ forall a p, pipes s !! a = Some p -> (a ∉ l) /\ exists i w, is_end s i a w)
  /\ (forall i j a w, is_end s i a w -> is_end s j a w -> i = j)
  /\ forall f, f ∈ o -> exists x, ftab s !! f = Some x
     /\ (Z.of_nat (length o) < 2 ^ 31 - 1 -> fst (filedup f s) = Ok f)
     /\ (f_type x = FD_PIPE -> fst (fileclose kend f s) = Ok tt
          /\ (forall n, exists v, fst (fileread dev_read f n s) = Ok v)
          /\ (forall bytes, exists v, fst (filewrite dev_write f bytes s) = Ok v)).
Proof.
  intros Hno Hk Hr.
  assert (Hinv : exists l, files_ok kend s o l).
  { assert (H0 : exists l, files_ok kend s0 [] l) by (exists l0; by apply no_files_ok). clear Hno Hk.
    remember (s0, @nil nat) as x0 eqn:E0. remember (s, o) as x1 eqn:E1. revert s0 E0 H0. generalize (@nil nat).
    induction Hr as [x|x [s1 o1] z Hs _ IH]; intros o0 s0 -> H0; [by injection E1 as -> ->|]. eapply IH; [done|done|]. by eapply fcall_ok. }
  destruct Hinv as (l & Hok). split; [apply (fl_refs _ _ _ _ Hok)|]. split; [|split; [apply (fl_uniq _ _ _ _ Hok)|]].
  - exists l. split; [apply (fl_mem _ _ _ _ Hok)|]. intros a p Hp. destruct (fl_pipe _ _ _ _ Hok _ _ Hp) as (_ & Ho & _ & Hn). split; [done|].
    apply orb_true_iff in Ho as [Ho|Ho]; [destruct (proj2 (fl_open _ _ _ _ Hok a false)) as [i Hi]|destruct (proj2 (fl_open _ _ _ _ Hok a true)) as [i Hi]]; eauto.
  - intros f Hf. destruct (held_ref _ _ _ _ _ Hok Hf) as (x & Hx & _). exists x. split; [done|]. split.
    + intros Hlen. destruct (filedup_ok kend s o l f Hok Hf Hlen) as (s1 & -> & _). done.
    + intros Ht. destruct (elem_of_Permutation o f) as [Hp _]. destruct (Hp Hf) as (o' & Ho).
      destruct (fileclose_ok kend s o o' l f x Hok Ho Hx) as (r & s1 & l1 & -> & _ & Hr1 & _). cbn. split; [by apply Hr1; rewrite Ht|]. split.
      * intros n. destruct (fileread_ok kend dev_read s o l f n Hok Hf) as (r2 & s2 & -> & _ & H2). by apply (H2 x).
      * intros bs. destruct (filewrite_ok kend dev_write s o l f bs Hok Hf) as (r2 & s2 & -> & _ & H2). by apply (H2 x).
Qed.
End Calls.

(** A kernel with one free page, which becomes a pipe. *)
Definition no_file : file := mkFile FD_NONE 0 false false 0 0 0.
Definition small_kern : kern :=
  mkKern one_page (mkF (mkSb 0 0 0 0 0 0 0) false [] (mkL (mkLog false 0 0 0 false 1 0 []) (mkBlk (fun _ => []) (fun _ => []) [] []) []) 1 [] [])
    false (replicate 4 no_file) ∅ false [] [] 0.

Lemma open_files_exact_witness : exists s, pipealloc demo_end small_kern = (Ok (Some (0%nat, 1%nat)), s)
  /\ fst (fileclose demo_end 1 s) = Ok tt /\ exists v, fst (filewrite (fun _ => None) 1 [7; 8] s) = Ok v.
Proof.
  destruct (pipealloc demo_end small_kern) as [r s] eqn:E.
  assert (Hr : r = Ok (Some (0%nat, 1%nat))) by (change r with (fst (r, s)); rewrite <- E; vm_compute; reflexivity). subst r.
  exists s. split; [reflexivity|].
  destruct (open_files_exact demo_end (fun _ => None) (fun _ => None) small_kern s [0%nat; 1%nat] [0x80116000]) as (_ & _ & _ & H).
  - split; [done|]. split; [done|]. intros i x Hx. cbn in Hx. destruct i as [|[|[|[|i]]]]; cbn in Hx; [by injection Hx as <-..|done].
  - apply one_page_ok.
  - apply rtc_once. by apply fc_pipe.
  - destruct (H 1%nat ltac:(by right; left)) as (x & Hx & _ & Hp).
    assert (Ht : f_type x = FD_PIPE).
    { assert (Hs : f_type <$> (ftab (snd (Ok (Some (0%nat, 1%nat)), s)) !! 1%nat) = Some FD_PIPE) by (rewrite <- E; vm_compute; reflexivity).
      cbn [snd] in Hs. rewrite Hx in Hs. by injection Hs. }
    destruct (Hp Ht) as (H1 & _ & H2). split; [exact H1|apply H2].
Defined.
