(* ===== verification/Kernel.v ===== *)
(** The kernel put together: the process table of [Proc] over the state of [File],
    which has the pages of [Kalloc] and [Vm], the file system of [Fs] and the pipes.

    The instance of [Env] is the code the process functions call.  File system code
    runs for the current process, whose pid it sees in sleep locks and whose [killed]
    flag it tests; the channels it wakes are then woken in the process table. *)

From Stdlib Require Import ZArith Lia.
From stdpp Require Import base list strings gmap.
From S2P Require Import Prelude Kstring Spinlock Kalloc Vm Blk Log Sleeplock Fs Pipe File Proc Syscall.
Local Open Scope Z_scope.

(** What the linker and the boot code fix: the end and the data of the kernel image,
    the first program, and the device table. *)
Record image := mkImage {
  kend : Z;
  kdata : Z;
  initcode : Z;
  initcode_size : Z;
  dev_read : Z -> option (nat -> Z -> FM (Z * list Z));
  dev_write : Z -> option (nat -> list Z -> FM Z);
}.

Section Kernel.
Context (im : image).

Definition kernel_env : Env kern := {|
  e_kalloc := onmem kalloc;
  e_kfree v := onmem (kfree (kend im) v);
  e_setupkvm := onmem (setupkvm (kend im) (kdata im));
  e_inituvm pgdir := onmem (inituvm pgdir (initcode im) (initcode_size im));
  e_allocuvm pgdir a b := onmem (allocuvm (kend im) pgdir a b);
  e_deallocuvm pgdir a b := onmem (deallocuvm (kend im) pgdir a b);
  e_copyuvm pgdir sz := onmem (copyuvm (kend im) (kdata im) pgdir sz);
  e_freevm pgdir := onmem (freevm (kend im) pgdir);
  e_filedup := filedup;
  e_fileclose := fileclose (kend im);
  e_idup ip := onfs (idup ip);
  e_iput ip := onfs (iput ip);
  e_begin_op := onfs (onlog begin_op);
  e_end_op := onfs (onlog end_op);
  e_namei_root := onfs (namei (dev_read im) 0 [47]);
|}.

Abbreviation SM := (M (sstate kern)).

(** The process [p] is the one that runs. *)
Definition run_as (p : proc) (k : kern) : kern :=
  let f := fsys k in
  set_kkilled (killed p) (set_fsys (mkF (sb f) (iclock f) (icache f) (fl f) (pid p) (fwoken f) (fout f)) k).

(** The channels the code below the process table has woken. *)
Definition woken_chans (k : kern) : list chan := kwoken k ++ fwoken (fsys k) ++ lwoken (fl (fsys k)).
Definition forget_woken (k : kern) : kern :=
  set_kwoken [] (set_fsys (set_fwoken [] (set_fl (mkL (lg (fl (fsys k))) (lb (fl (fsys k))) []) (fsys k))) k).
Fixpoint wake_chans (l : list chan) : M (pstate kern) unit :=
  match l with
  | [] => ret tt
  | c :: l' => wakeup1 c ;; wake_chans l'
  end.
Definition deliver : M (pstate kern) unit :=
  k <- gets env ;;
  wake_chans (woken_chans k) ;;
  modify (fun s => set_env (forget_woken (env s)) s).

(** Code below the process table, run for the current process. *)
Definition onk {A} (m : M kern A) : SM A :=
  p <- myp ;;
  onp (modify (fun s => set_env (run_as p (env s)) s)) ;;
  fun s =>
    let '(r, s1) := onp (call m) s in
    let '(r1, s2) := onp deliver s1 in
    match r1 with
    | Ok _ => (r, s2)
    | Panic e => (Panic e, s2)
    | Sleep c => (Sleep c, s2)
    | Spin => (Spin, s2)
    | UB e => (UB e, s2)
    end.
Definition onf {A} (m : FM A) : SM A := onk (onfs m).
Definition ontx {A} (m : M lstate A) : SM A := onf (onlog m).

(** The kernel's memory as the running process's address space shows it: user memory
    below KERNBASE, which the code below never writes through these addresses. *)
Definition onspace {A} (m : M kmem A) : SM A :=
  u <- gets um ;;
  onk (fun k =>
    let low := fun a => if a <? KERNBASE then u a else memory (km k) a in
    let '(r, m1) := m (set_memory low (km k)) in
    (r, set_km m1 k)).

(** The process pointer [myproc()] and its working directory. *)
Definition my_cwd : SM nat :=
  p <- myp ;;
  match cwd p with Some ip => ret ip | None => ub "null cwd" end.
Definition upd_my (f : proc -> proc) : SM unit := i <- onp curproc ;; onp (updp i f).

(** The bytes at a user address. *)
Definition ubytes (m : mem) (a n : Z) : list Z := map (fun k => m (a + Z.of_nat k)) (seq 0 (Z.to_nat n)).
Fixpoint put_ubytes (m : mem) (a : Z) (l : list Z) : mem :=
  match l with
  | [] => m
  | b :: l' => put_ubytes (upd m a b) (a + 1) l'
  end.
End Kernel.
