(* ===== verification/Exec.v ===== *)
(** Running programs: [src/exec.c] with its search path, and [sys_exec] and
    [sys_set_path], which fetch its arguments.

    Program headers are the bytes [readi] returns.  The argument strings are read from
    the memory of the running process, and the new stack is written through the new
    page table by [copyout].  On success the memory of the process is what its new page
    table shows. *)

From Stdlib Require Import ZArith Lia.
From stdpp Require Import base list strings gmap.
From S2P Require Import Prelude Kstring Spinlock Bytes Kalloc Vm Blk Log Sleeplock Fs Pipe File Proc Syscall Kernel.
Local Open Scope Z_scope.

Definition MAXARG : Z := 32.
Definition ELF_MAGIC : Z := 0x464C457F.
Definition ELF_PROG_LOAD : Z := 1.
Definition PATH_ROWS : nat := 100.
Definition PATH_COLS : nat := 100.

(** [struct elfhdr] and [struct proghdr]. *)
Definition sizeof_elfhdr : Z := 52.
Definition elf_magic (h : list Z) : Z := get32 h 0.
Definition elf_entry (h : list Z) : Z := get32 h 24.
Definition elf_phoff (h : list Z) : Z := get32 h 28.
Definition elf_phnum (h : list Z) : Z := get16 h 44.
Definition sizeof_proghdr : Z := 32.
Definition ph_type (h : list Z) : Z := get32 h 0.
Definition ph_off (h : list Z) : Z := get32 h 4.
Definition ph_vaddr (h : list Z) : Z := get32 h 8.
Definition ph_filesz (h : list Z) : Z := get32 h 16.
Definition ph_memsz (h : list Z) : Z := get32 h 20.

(** The C string at the start of an array. *)
Fixpoint cstr (l : list Z) : list Z :=
  match l with
  | [] => []
  | c :: l' => if c =? 0 then [] else c :: cstr l'
  end.

(** What [pgdir] shows at user addresses. *)
Definition user_view (k : kmem) (pgdir : Z) : mem := fun va =>
  let pde := load32 (memory k) (pgdir + 4 * PDX va) in
  let pte := load32 (memory k) (P2V (PTE_ADDR pde) + 4 * PTX va) in
  if nz (Z.land pde PTE_P) && nz (Z.land pte PTE_P) && nz (Z.land pte PTE_U)
  then memory k (P2V (PTE_ADDR pte) + va mod PGSIZE) else 0.

Section Exec.
Context (im : image).
Abbreviation SM := (M (sstate kern)).

(** ** The search path *)

(** The loop of [add_path]: [sub] is what [sub_path] holds so far.  Writes outside the
    arrays are undefined. *)
Fixpoint add_path_loop (path sub : list Z) : M kern unit :=
  match path with
  | [] => ret tt
  | c :: path' =>
      if (PATH_COLS <=? length sub)%nat then ub "sub_path index" else
      if c =? 58 then
        k <- get ;;
        match PATH k !! Z.to_nat (num_of_pathes k) with
        | None => ub "PATH index"
        | Some row =>
            modify (set_PATH (<[Z.to_nat (num_of_pathes k) := splice row 0 sub]> (PATH k)) (num_of_pathes k + 1)) ;;
            add_path_loop path' []
        end
      else add_path_loop path' (sub ++ [c])
  end.

Fixpoint print_paths (rows : list (list Z)) : M (pstate kern) unit :=
  match rows with
  | [] => ret tt
  | row :: rows' => cprintf (text_of row +:+ " \n") ;; print_paths rows'
  end.

Definition add_path (path : list Z) : SM unit :=
  onp (call (add_path_loop path [])) ;;
  k <- onp (gets env) ;;
  onp (print_paths (take (Z.to_nat (num_of_pathes k)) (PATH k))).

(** The loop of [exec] over the rows of PATH. *)
Fixpoint search_path (rows : list (list Z)) (path : list Z) : SM (option nat) :=
  match rows with
  | [] => ret None
  | row :: rows' =>
      let command := cstr row ++ path in
      if (PATH_COLS <=? length command)%nat then ub "command index" else
      onp (cprintf (text_of command +:+ " \n")) ;;
      cwd <- my_cwd ;;
      o <- onf (namei (dev_read im) cwd command) ;;
      match o with Some ip => ret (Some ip) | None => search_path rows' path end
  end.

(** ** Loading *)

(** [readi(ip, dst, off, n)] into kernel memory. *)
Definition readi_at (ip : nat) (dst off n : Z) : M kern Z :=
  r <- onfs (readi (dev_read im) ip off n) ;;
  modify (fun k => set_km (set_memory (put_ubytes (memory (km k)) dst (snd r)) (km k)) k) ;;
  ret (fst r).

(** The loop of [exec] over the program headers; [None] is [goto bad]. *)
Fixpoint load_segments (ip : nat) (pgdir : Z) (n : nat) (off sz : Z) : SM (option Z) :=
  match n with
  | O => ret (Some sz)
  | S k =>
      r <- onf (readi (dev_read im) ip (u32 off) sizeof_proghdr) ;;
      let '(c, ph) := r in
      if negb (c =? sizeof_proghdr) then ret None else
      if negb (ph_type ph =? ELF_PROG_LOAD) then load_segments ip pgdir k (s32 (off + sizeof_proghdr)) sz else
      if ph_memsz ph <? ph_filesz ph then ret None else
      if u32 (ph_vaddr ph + ph_memsz ph) <? ph_vaddr ph then ret None else
      sz <- onk (onmem (allocuvm (kend im) pgdir sz (u32 (ph_vaddr ph + ph_memsz ph)))) ;;
      if sz =? 0 then ret None else
      if nz (ph_vaddr ph mod PGSIZE) then ret None else
      r <- onk (loaduvm (fun A => @onmem A) (readi_at ip) pgdir (ph_vaddr ph) (ph_off ph) (ph_filesz ph)) ;;
      if r <? 0 then ret None else load_segments ip pgdir k (s32 (off + sizeof_proghdr)) sz
  end.

(** The loop that pushes the argument strings: the stack pointer and the addresses of
    the copies. *)
Fixpoint push_args (pgdir : Z) (argv : list Z) (argc sp : Z) (copies : list Z) : SM (option (Z * list Z)) :=
  match argv with
  | [] => ret (Some (sp, copies))
  | a :: argv' =>
      if MAXARG <=? argc then ret None else
      m <- gets um ;;
      p <- myp ;;
      match strlen (S (Z.to_nat (sz p))) m a 0 with
      | None => ub "unterminated string"
      | Some n =>
          let sp := Z.land (u32 (sp - (n + 1))) (u32 (Z.lnot 3)) in
          r <- onspace (copyout pgdir sp a (n + 1)) ;;
          if r <? 0 then ret None else push_args pgdir argv' (argc + 1) sp (copies ++ [sp])
      end
  end.

(** The words of [ustack]. *)
Definition ustack_words (sp : Z) (copies : list Z) : list Z :=
  let argc := Z.of_nat (length copies) in
  0xffffffff :: argc :: u32 (sp - (argc + 1) * 4) :: copies ++ [0].

Fixpoint store_stack (m : mem) (a : Z) (l : list Z) : mem :=
  match l with [] => m | w :: l' => store_stack (store32 m a w) (a + 4) l' end.

(** What follows the last slash of a path. *)
Fixpoint last_elem (path last : list Z) : list Z :=
  match path with
  | [] => last
  | c :: path' => if c =? 47 then last_elem path' path' else last_elem path' last
  end.

Definition exec_bad (pgdir : Z) (ip : option nat) : SM Z :=
  (if nz pgdir then onk (onmem (freevm (kend im) pgdir)) else ret tt) ;;
  (match ip with
   | Some ip => onf (iunlockput ip) ;; ontx end_op
   | None => ret tt
   end) ;;
  ret (-1).

Definition set_entry (eip esp : Z) (t : trapframe) : trapframe :=
  mkTf (tf_ebx t) (tf_eax t) (tf_es t) (tf_ds t) (tf_trapno t) eip (tf_cs t) (tf_eflags t) esp (tf_ss t).

(** From [Commit to the user image] on. *)
Definition exec_commit (path : list Z) (pgdir size sp entry : Z) : SM Z :=
  upd_my (fun p => set_name (copy_name (name p) (last_elem path path)) p) ;;
  p <- myp ;;
  let oldpgdir := Proc.pgdir p in
  upd_my (set_pgdir pgdir) ;;
  upd_my (set_sz size) ;;
  upd_my (set_level 0) ;;
  upd_my (set_ticket 100000) ;;
  upd_my (fun p => set_tf (set_entry entry sp (tf p)) p) ;;
  i <- onp curproc ;;
  onp (switchuvm i) ;;
  onk (onmem (freevm (kend im) oldpgdir)) ;;
  k <- onp (gets env) ;;
  modify (fun s => set_um (user_view (km k) pgdir) s) ;;
  ret 0.

(** [ustack] is where the compiler puts the array on the kernel stack. *)
Context (ustack : Z).

(** The second half of [exec]: the stack of the new image, of size [sz]. *)
Definition exec_stack (path : list Z) (argv : list Z) (pgdir sz entry : Z) : SM Z :=
  let sz := PGROUNDUP sz in
  sz <- onk (onmem (allocuvm (kend im) pgdir sz (u32 (sz + 2 * PGSIZE)))) ;;
  if sz =? 0 then exec_bad pgdir None else
  onk (onmem (clearpteu pgdir (u32 (sz - 2 * PGSIZE)))) ;;
  o <- push_args pgdir argv 0 sz [] ;;
  match o with
  | None => exec_bad pgdir None
  | Some (sp, copies) =>
      let words := ustack_words sp copies in
      let bytes := 4 * Z.of_nat (length words) in
      let sp := u32 (sp - bytes) in
      onk (onmem (modify (fun k => set_memory (store_stack (memory k) ustack words) k))) ;;
      r <- onspace (copyout pgdir sp ustack bytes) ;;
      if r <? 0 then exec_bad pgdir None else exec_commit path pgdir sz sp entry
  end.

Definition exec (path : list Z) (argv : list Z) : SM Z :=
  ontx begin_op ;;
  cwd <- my_cwd ;;
  o <- onf (namei (dev_read im) cwd path) ;;
  o <- (match o with
        | Some ip => ret (Some ip)
        | None =>
            k <- onp (gets env) ;;
            search_path (take (Z.to_nat (num_of_pathes k)) (PATH k)) path
        end) ;;
  match o with
  | None => ontx end_op ;; onp (cprintf "exec: fail\n") ;; ret (-1)
  | Some ip =>
      onf (ilock ip) ;;
      r <- onf (readi (dev_read im) ip 0 sizeof_elfhdr) ;;
      let '(c, elf) := r in
      if negb (c =? sizeof_elfhdr) then exec_bad 0 (Some ip) else
      if negb (elf_magic elf =? ELF_MAGIC) then exec_bad 0 (Some ip) else
      pgdir <- onk (onmem (setupkvm (kend im) (kdata im))) ;;
      if pgdir =? 0 then exec_bad 0 (Some ip) else
      o <- load_segments ip pgdir (Z.to_nat (elf_phnum elf)) (s32 (elf_phoff elf)) 0 ;;
      match o with
      | None => exec_bad pgdir (Some ip)
      | Some sz =>
          onf (iunlockput ip) ;;
          ontx end_op ;;
          exec_stack path argv pgdir sz (elf_entry elf)
      end
  end.

(** ** System calls *)

(** The loop of [sys_exec] over the argument vector at [uargv]. *)
Fixpoint fetch_argv (n : nat) (uargv i : Z) : SM (option (list Z)) :=
  match n with
  | O => ret None
  | S k =>
      o <- fetchint (u32 (uargv + 4 * i)) ;;
      match o with
      | None => ret None
      | Some uarg =>
          if uarg =? 0 then ret (Some []) else
          s <- fetchstr (u32 uarg) ;;
          match s with
          | None => ret None
          | Some (a, _) =>
              rest <- fetch_argv k uargv (i + 1) ;;
              match rest with Some l => ret (Some (a :: l)) | None => ret None end
          end
      end
  end.

Definition sys_exec : SM outcome :=
  o <- argstr 0 ;;
  match o with
  | None => ret (Return (-1))
  | Some (path, len) =>
      o <- argint 1 ;;
      match o with
      | None => ret (Return (-1))
      | Some uargv =>
          argv <- fetch_argv (Z.to_nat MAXARG) (u32 uargv) 0 ;;
          match argv with
          | None => ret (Return (-1))
          | Some argv =>
              m <- gets um ;;
              r <- exec (ubytes m path len) argv ;;
              ret (Return r)
          end
      end
  end.

Definition sys_set_path : SM outcome :=
  o <- argstr 0 ;;
  match o with
  | None => ret (Return (-1))
  | Some (arg, len) => m <- gets um ;; add_path (ubytes m arg len) ;; ret (Return 0)
  end.
End Exec.
