(* ===== verification/Sysfile.v ===== *)
(** System calls on files: [src/sysfile.c].

    Each handler fetches its arguments from the memory of the running process, works
    on the process's descriptors and on the code of [File] and [Fs], and stores results
    in user memory.  A handler that waits for the log or for a locked inode ends in
    [Sleep]; one that waits on a pipe switches, and the [_resume] functions are what it
    does when it runs again. *)

From Stdlib Require Import ZArith Lia.
From stdpp Require Import base list strings gmap.
From S2P Require Import Prelude Kstring Spinlock Bytes Kalloc Vm Blk Log Sleeplock Fs Pipe File Proc Syscall Kernel Exec.
Local Open Scope Z_scope.

Definition O_RDONLY : Z := 0.
Definition O_WRONLY : Z := 1.
Definition O_RDWR : Z := 2.
Definition O_CREATE : Z := 0x200.

Section Sysfile.
Context (im : image).
#[local] Instance here : Env kern := kernel_env im.
Abbreviation SM := (M (sstate kern)).
Local Abbreviation devr := (dev_read im).
Local Abbreviation devw := (dev_write im).

(** ** Descriptors *)

Definition argfd (n : Z) : SM (option (nat * nat)) :=
  o <- argint n ;;
  match o with
  | None => ret None
  | Some fd =>
      if (fd <? 0) || (Z.of_nat NOFILE <=? fd) then ret None else
      p <- myp ;;
      match ofile p !! Z.to_nat fd with
      | Some (Some f) => ret (Some (Z.to_nat fd, f))
      | _ => ret None
      end
  end.

(** The loop of [fdalloc]. *)
Fixpoint free_fd (l : list (option nat)) (fd : nat) : option nat :=
  match l with
  | [] => None
  | None :: _ => Some fd
  | Some _ :: l' => free_fd l' (S fd)
  end.
Definition fdalloc (f : nat) : SM (option nat) :=
  p <- myp ;;
  match free_fd (ofile p) 0 with
  | Some fd => upd_my (fun p => set_ofile (<[fd := Some f]> (ofile p)) p) ;; ret (Some fd)
  | None => ret None
  end.

Definition sys_dup : SM outcome :=
  o <- argfd 0 ;;
  match o with
  | None => ret (Return (-1))
  | Some (_, f) =>
      o <- fdalloc f ;;
      match o with
      | None => ret (Return (-1))
      | Some fd => onk (filedup f) ;; ret (Return (Z.of_nat fd))
      end
  end.

(** [argfd(0, 0, &f) < 0 || argint(2, &n) < 0 || argptr(1, &p, n) < 0]. *)
Definition arg_buffer : SM (option (nat * Z * Z)) :=
  o <- argfd 0 ;;
  match o with
  | None => ret None
  | Some (_, f) =>
      o <- argint 2 ;;
      match o with
      | None => ret None
      | Some n =>
          o <- argptr 1 n ;;
          match o with
          | None => ret None
          | Some p => ret (Some (f, n, p))
          end
      end
  end.

(** The process goes to sleep on a pipe, whose lock [Pipe] has given up for it. *)
Definition sleep_on (c : chan) : SM outcome :=
  onp (acquire (LOther 0)) ;; b <- onp (sleep_enter c (LOther 0)) ;; ret (Switched b).
Definition woken_up (p : nat) (b : bool) : SM unit :=
  onp (sleep_exit p (LOther 0) b) ;; onp (release (LOther 0)).

Definition read_into (f : nat) (n p : Z) : SM outcome :=
  r <- onk (fileread devr f n) ;;
  match r with
  | IODone r bytes => modify (fun s => set_um (put_ubytes (um s) p bytes) s) ;; ret (Return r)
  | IOSleep c _ => sleep_on c
  end.
Definition sys_read : SM outcome :=
  o <- arg_buffer ;;
  match o with None => ret (Return (-1)) | Some (f, n, p) => read_into f n p end.
Definition sys_read_resume (i : nat) (b : bool) (f : nat) (n p : Z) : SM outcome :=
  woken_up i b ;; read_into f n p.

Definition write_done (r : ioresult) : SM outcome :=
  match r with
  | IODone r _ => ret (Return r)
  | IOSleep c _ => sleep_on c
  end.
Definition sys_write : SM outcome :=
  o <- arg_buffer ;;
  match o with
  | None => ret (Return (-1))
  | Some (f, n, p) => m <- gets um ;; r <- onk (filewrite devw f (ubytes m p n)) ;; write_done r
  end.
(** A write that slept with [k] bytes written. *)
Definition sys_write_resume (i : nat) (b : bool) (f : nat) (n p : Z) (k : nat) : SM outcome :=
  woken_up i b ;; m <- gets um ;; r <- onk (filewrite_resume f (ubytes m p n) k) ;; write_done r.

Definition sys_close : SM outcome :=
  o <- argfd 0 ;;
  match o with
  | None => ret (Return (-1))
  | Some (fd, f) =>
      upd_my (fun p => set_ofile (<[fd := None]> (ofile p)) p) ;;
      onk (fileclose (kend im) f) ;;
      ret (Return 0)
  end.

(** [struct stat] in user memory. *)
Definition sizeof_stat : Z := 20.
Definition put_stat (m : mem) (a : Z) (st : stat) : mem :=
  let m := put_ubytes m a (le_bytes 2 (st_type st)) in
  let m := store32 m (a + 4) (st_dev st) in
  let m := store32 m (a + 8) (st_ino st) in
  let m := put_ubytes m (a + 12) (le_bytes 2 (st_nlink st)) in
  store32 m (a + 16) (st_size st).

Definition sys_fstat : SM outcome :=
  o <- argfd 0 ;;
  match o with
  | None => ret (Return (-1))
  | Some (_, f) =>
      o <- argptr 1 sizeof_stat ;;
      match o with
      | None => ret (Return (-1))
      | Some p =>
          o <- onk (filestat f) ;;
          match o with
          | Some st => modify (fun s => set_um (put_stat (um s) p st) s) ;; ret (Return 0)
          | None => ret (Return (-1))
          end
      end
  end.

(** A string argument as the bytes of the path. *)
Definition argpath (n : Z) : SM (option (list Z)) :=
  o <- argstr n ;;
  match o with
  | None => ret None
  | Some (a, len) => m <- gets um ;; ret (Some (ubytes m a len))
  end.

(** ** Links *)

(** [goto bad] of [sys_link]. *)
Definition link_bad (ip : nat) : SM outcome :=
  onf (ilock ip) ;;
  onf (updi ip (fun i => set_nlink (s16 (i_nlink i - 1)) i)) ;;
  onf (iupdate ip) ;;
  onf (iunlockput ip) ;;
  ontx end_op ;;
  ret (Return (-1)).

Definition sys_link : SM outcome :=
  o <- argpath 0 ;;
  match o with
  | None => ret (Return (-1))
  | Some old =>
  o <- argpath 1 ;;
  match o with
  | None => ret (Return (-1))
  | Some new =>
  ontx begin_op ;;
  cwd <- my_cwd ;;
  o <- onf (namei devr cwd old) ;;
  match o with
  | None => ontx end_op ;; ret (Return (-1))
  | Some ip =>
  onf (ilock ip) ;;
  i <- onf (geti ip) ;;
  if i_type i =? T_DIR then onf (iunlockput ip) ;; ontx end_op ;; ret (Return (-1)) else
  onf (updi ip (fun i => set_nlink (s16 (i_nlink i + 1)) i)) ;;
  onf (iupdate ip) ;;
  onf (iunlock ip) ;;
  o <- onf (nameiparent devr cwd new (replicate DIRSIZ 0)) ;;
  match o with
  | None => link_bad ip
  | Some (dp, name) =>
  onf (ilock dp) ;;
  d <- onf (geti dp) ;;
  i <- onf (geti ip) ;;
  r <- (if negb (i_dev d =? i_dev i) then ret (-1) else onf (dirlink devr devw dp name (i_inum i))) ;;
  if r <? 0 then onf (iunlockput dp) ;; link_bad ip else
  onf (iunlockput dp) ;;
  onf (iput ip) ;;
  ontx end_op ;;
  ret (Return 0)
  end end end end.

Fixpoint isdirempty_loop (fuel : nat) (dp : nat) (off : Z) : FM bool :=
  match fuel with
  | O => spin
  | S k =>
      d <- geti dp ;;
      if off <? i_size d then
        r <- readi devr dp off sizeof_dirent ;;
        let '(c, de) := r in
        if negb (c =? sizeof_dirent) then panic "isdirempty: readi" else
        if negb (de_inum de =? 0) then ret false else isdirempty_loop k dp (off + sizeof_dirent)
      else ret true
  end.
Definition isdirempty (dp : nat) : FM bool :=
  d <- geti dp ;;
  isdirempty_loop (S (Z.to_nat (i_size d / sizeof_dirent))) dp (2 * sizeof_dirent).

(** [goto bad] of [sys_unlink]. *)
Definition unlink_bad (dp : nat) : SM outcome :=
  onf (iunlockput dp) ;; ontx end_op ;; ret (Return (-1)).

Definition dot : list Z := [46].
Definition dotdot : list Z := [46; 46].

Definition sys_unlink : SM outcome :=
  o <- argpath 0 ;;
  match o with
  | None => ret (Return (-1))
  | Some path =>
  ontx begin_op ;;
  cwd <- my_cwd ;;
  o <- onf (nameiparent devr cwd path (replicate DIRSIZ 0)) ;;
  match o with
  | None => ontx end_op ;; ret (Return (-1))
  | Some (dp, name) =>
  onf (ilock dp) ;;
  if (namecmp name dot =? 0) || (namecmp name dotdot =? 0) then unlink_bad dp else
  o <- onf (dirlookup devr dp name) ;;
  match o with
  | None => unlink_bad dp
  | Some (ip, off) =>
  onf (ilock ip) ;;
  i <- onf (geti ip) ;;
  if i_nlink i <? 1 then panic "unlink: nlink < 1" else
  empty <- (if i_type i =? T_DIR then onf (isdirempty ip) else ret true) ;;
  if negb empty then onf (iunlockput ip) ;; unlink_bad dp else
  r <- onf (writei devw dp (replicate 16 0) off) ;;
  if negb (r =? sizeof_dirent) then panic "unlink: writei" else
  (if i_type i =? T_DIR then
     onf (updi dp (fun d => set_nlink (s16 (i_nlink d - 1)) d)) ;; onf (iupdate dp)
   else ret tt) ;;
  onf (iunlockput dp) ;;
  onf (updi ip (fun i => set_nlink (s16 (i_nlink i - 1)) i)) ;;
  onf (iupdate ip) ;;
  onf (iunlockput ip) ;;
  ontx end_op ;;
  ret (Return 0)
  end end end.

(** ** Creating and opening *)

Definition create (cwd : nat) (path : list Z) (type major minor : Z) : FM (option nat) :=
  o <- nameiparent devr cwd path (replicate DIRSIZ 0) ;;
  match o with
  | None => ret None
  | Some (dp, name) =>
  ilock dp ;;
  o <- dirlookup devr dp name ;;
  match o with
  | Some (ip, _) =>
      iunlockput dp ;;
      ilock ip ;;
      i <- geti ip ;;
      if (type =? T_FILE) && (i_type i =? T_FILE) then ret (Some ip) else
      iunlockput ip ;; ret None
  | None =>
  d <- geti dp ;;
  ip <- ialloc (i_dev d) type ;;
  ilock ip ;;
  updi ip (set_major major) ;;
  updi ip (set_minor minor) ;;
  updi ip (set_nlink 1) ;;
  iupdate ip ;;
  (if type =? T_DIR then
     updi dp (fun d => set_nlink (s16 (i_nlink d + 1)) d) ;;
     iupdate dp ;;
     i <- geti ip ;;
     r <- dirlink devr devw ip dot (i_inum i) ;;
     if r <? 0 then panic "create dots" else
     d <- geti dp ;;
     r <- dirlink devr devw ip dotdot (i_inum d) ;;
     if r <? 0 then panic "create dots" else ret tt
   else ret tt) ;;
  i <- geti ip ;;
  r <- dirlink devr devw dp name (i_inum i) ;;
  if r <? 0 then panic "create: dirlink" else
  iunlockput dp ;;
  ret (Some ip)
  end end.

(** The part of [sys_open] after the inode is found and locked. *)
Definition open_file (ip : nat) (omode : Z) : SM outcome :=
  o <- onk filealloc ;;
  fd <- (match o with Some f => fdalloc f | None => ret None end) ;;
  match o, fd with
  | Some f, Some fd =>
      onf (iunlock ip) ;;
      ontx end_op ;;
      onk (updf f (set_ftype FD_INODE)) ;;
      onk (updf f (set_fip ip)) ;;
      onk (updf f (set_foff 0)) ;;
      onk (updf f (set_rw (negb (nz (Z.land omode O_WRONLY))) (nz (Z.land omode O_WRONLY) || nz (Z.land omode O_RDWR)))) ;;
      ret (Return (Z.of_nat fd))
  | _, _ =>
      (match o with Some f => onk (fileclose (kend im) f) | None => ret tt end) ;;
      onf (iunlockput ip) ;;
      ontx end_op ;;
      ret (Return (-1))
  end.

Definition sys_open : SM outcome :=
  o <- argpath 0 ;;
  match o with
  | None => ret (Return (-1))
  | Some path =>
  with_int 1 (fun omode =>
  ontx begin_op ;;
  cwd <- my_cwd ;;
  if nz (Z.land omode O_CREATE) then
    o <- onf (create cwd path T_FILE 0 0) ;;
    match o with
    | None => ontx end_op ;; ret (Return (-1))
    | Some ip => open_file ip omode
    end
  else
    o <- onf (namei devr cwd path) ;;
    match o with
    | None => ontx end_op ;; ret (Return (-1))
    | Some ip =>
        onf (ilock ip) ;;
        i <- onf (geti ip) ;;
        if (i_type i =? T_DIR) && negb (omode =? O_RDONLY) then
          onf (iunlockput ip) ;; ontx end_op ;; ret (Return (-1))
        else open_file ip omode
    end)
  end.

(** The end of [sys_mkdir] and [sys_mknod]. *)
Definition created (o : option nat) : SM outcome :=
  match o with
  | None => ontx end_op ;; ret (Return (-1))
  | Some ip => onf (iunlockput ip) ;; ontx end_op ;; ret (Return 0)
  end.

Definition sys_mkdir : SM outcome :=
  ontx begin_op ;;
  o <- argpath 0 ;;
  o <- (match o with
        | None => ret None
        | Some path => cwd <- my_cwd ;; onf (create cwd path T_DIR 0 0)
        end) ;;
  created o.

Definition sys_mknod : SM outcome :=
  ontx begin_op ;;
  o <- argpath 0 ;;
  match o with
  | None => created None
  | Some path =>
      o <- argint 1 ;;
      match o with
      | None => created None
      | Some major =>
          o <- argint 2 ;;
          match o with
          | None => created None
          | Some minor =>
              cwd <- my_cwd ;;
              o <- onf (create cwd path T_DEV (s16 major) (s16 minor)) ;;
              created o
          end
      end
  end.

Definition sys_chdir : SM outcome :=
  ontx begin_op ;;
  o <- argpath 0 ;;
  cwd <- my_cwd ;;
  o <- (match o with None => ret None | Some path => onf (namei devr cwd path) end) ;;
  match o with
  | None => ontx end_op ;; ret (Return (-1))
  | Some ip =>
      onf (ilock ip) ;;
      i <- onf (geti ip) ;;
      if negb (i_type i =? T_DIR) then onf (iunlockput ip) ;; ontx end_op ;; ret (Return (-1)) else
      onf (iunlock ip) ;;
      onf (iput cwd) ;;
      ontx end_op ;;
      upd_my (set_cwd (Some ip)) ;;
      ret (Return 0)
  end.

Definition sys_pipe : SM outcome :=
  o <- argptr 0 8 ;;
  match o with
  | None => ret (Return (-1))
  | Some fd =>
  o <- onk (pipealloc (kend im)) ;;
  match o with
  | None => ret (Return (-1))
  | Some (rf, wf) =>
  fd0 <- fdalloc rf ;;
  fd1 <- (match fd0 with Some _ => fdalloc wf | None => ret None end) ;;
  match fd0, fd1 with
  | Some fd0, Some fd1 =>
      modify (fun s => set_um (store32 (store32 (um s) fd (Z.of_nat fd0)) (fd + 4) (Z.of_nat fd1)) s) ;;
      ret (Return 0)
  | _, _ =>
      (match fd0 with Some fd0 => upd_my (fun p => set_ofile (<[fd0 := None]> (ofile p)) p) | None => ret tt end) ;;
      onk (fileclose (kend im) rf) ;;
      onk (fileclose (kend im) wf) ;;
      ret (Return (-1))
  end end end.

(** ** The rest of the table of [syscall] *)

Context (ustack : Z) (print_processes_info reentrant_spinlock_test : SM unit).

Definition file_calls (num : Z) : option (SM outcome) :=
  if num =? 4 then Some sys_pipe else
  if num =? 5 then Some sys_read else
  if num =? 7 then Some (sys_exec im ustack) else
  if num =? 8 then Some sys_fstat else
  if num =? 9 then Some sys_chdir else
  if num =? 10 then Some sys_dup else
  if num =? 15 then Some sys_open else
  if num =? 16 then Some sys_write else
  if num =? 17 then Some sys_mknod else
  if num =? 18 then Some sys_unlink else
  if num =? 19 then Some sys_link else
  if num =? 20 then Some sys_mkdir else
  if num =? 21 then Some sys_close else
  if num =? 25 then Some sys_set_path else
  if num =? 31 then Some (print_processes_info ;; ret (Return 0)) else
  if num =? 34 then Some (reentrant_spinlock_test ;; ret (Return 0)) else None.
End Sysfile.
