(* ===== verification/SysfileInv.v ===== *)
(** The descriptors of all processes and the table of open files agree: the system
    calls of [Sysfile] on descriptors keep the count of every file the number of
    descriptors that refer to it. *)

From Stdlib Require Import ZArith Lia.
From stdpp Require Import base list strings gmap relations.
From S2P Require Import Prelude Kstring Spinlock Bytes Kalloc Vm Blk Log Sleeplock Fs Pipe File FileInv Proc Syscall Kernel Exec Sysfile.
Local Open Scope Z_scope.

(** The files a list of descriptors refers to, and those of all processes. *)
Definition fds (l : list (option nat)) : list nat := omap id l.
Definition all_refs (t : list proc) : list nat := concat (map (fun p => fds (ofile p)) t).

Lemma fds_app a b : fds (a ++ b) = fds a ++ fds b.
Proof. unfold fds. apply omap_app. Qed.

Lemma fds_open l fd f : l !! fd = Some None -> fds (<[fd := Some f]> l) ≡ₚ f :: fds l.
Proof.
  intros H. rewrite <- (take_drop_middle l fd None H) at 2. rewrite insert_take_drop by by eapply lookup_lt_Some.
  rewrite !fds_app. cbn. symmetry. apply Permutation_middle.
Qed.

Lemma fds_close l fd f : l !! fd = Some (Some f) -> fds l ≡ₚ f :: fds (<[fd := None]> l).
Proof.
  intros H. rewrite <- (take_drop_middle l fd (Some f) H) at 1. rewrite insert_take_drop by by eapply lookup_lt_Some.
  rewrite !fds_app. cbn. symmetry. apply Permutation_middle.
Qed.

Lemma all_refs_insert t i p p' : t !! i = Some p ->
  exists rest, all_refs t ≡ₚ fds (ofile p) ++ rest /\ all_refs (<[i := p']> t) ≡ₚ fds (ofile p') ++ rest.
Proof.
  intros H. exists (all_refs (take i t) ++ all_refs (drop (S i) t)). unfold all_refs.
  split.
  - rewrite <- (take_drop_middle t i p H) at 1. rewrite map_app, concat_app. cbn. rewrite Permutation_app_swap_app. done.
  - rewrite insert_take_drop by by eapply lookup_lt_Some. rewrite map_app, concat_app. cbn. rewrite Permutation_app_swap_app. done.
Qed.

Lemma all_refs_same t t' : map ofile t' = map ofile t -> all_refs t' = all_refs t.
Proof. unfold all_refs. intros H. rewrite <- !(map_map ofile fds). by rewrite H. Qed.

Lemma all_refs_in t i p fd f : t !! i = Some p -> ofile p !! fd = Some (Some f) -> f ∈ all_refs t.
Proof.
  intros Hp Hf. destruct (all_refs_insert t i p p Hp) as (rest & -> & _). apply elem_of_app. left.
  rewrite (fds_close _ _ _ Hf). left.
Qed.

Lemma fds_length l : (length (fds l) <= length l)%nat.
Proof. induction l as [|[f|] l IH]; cbn in *; [lia|..]; unfold fds in *; lia. Qed.

Lemma all_refs_length t : length t = NPROC -> Forall (fun p => length (ofile p) = NOFILE) t -> (length (all_refs t) <= 1024)%nat.
Proof.
  intros Hl Hf. assert (H : (length (all_refs t) <= 16 * length t)%nat); [|rewrite Hl in H; exact H]. clear Hl.
  induction Hf as [|p t Hp _ IH]; [done|]. unfold all_refs in *. cbn. rewrite length_app.
  pose proof (fds_length (ofile p)). change NOFILE with 16%nat in *. lia.
Qed.

(** ** Code that leaves the descriptors alone *)

Definition kept_fds {A} (m : M (pstate kern) A) : Prop := forall s r s', m s = (r, s') ->
  map ofile (ptable s') = map ofile (ptable s) /\ env s' = env s.

Lemma kept_bind {A B} (m : M (pstate kern) A) (k : A -> M (pstate kern) B) : kept_fds m -> (forall a, kept_fds (k a)) -> kept_fds (bind m k).
Proof.
  intros Hm Hk s r s' H. unfold bind in H. destruct (m s) as [[a|e|c| |e] s1] eqn:E; destruct (Hm _ _ _ E) as [H1 H2];
    try (injection H as <- <-; done). destruct (Hk a _ _ _ H) as [H3 H4]. split; congruence.
Qed.

Lemma kept_id {A} (m : M (pstate kern) A) : (forall s, snd (m s) = s) -> kept_fds m.
Proof. intros Hm s r s' H. specialize (Hm s). rewrite H in Hm. cbn in Hm. by subst. Qed.

Lemma kept_modify f : (forall s, ptable (f s) = ptable s /\ env (f s) = env s) -> kept_fds (modify f).
Proof. intros Hf s r s' [= <- <-]. destruct (Hf s) as [-> ->]. done. Qed.

Lemma kept_getp i : kept_fds (getp i).
Proof. apply kept_id. intros s. unfold getp. mrun. by destruct (ptable s !! i). Qed.

Lemma kept_updp i f : (forall p, ofile (f p) = ofile p) -> kept_fds (updp i f).
Proof.
  intros Hf s r s' H. unfold updp in H. mrun_in H. destruct (ptable s !! i) as [p|] eqn:E; injection H as <- <-; [|done].
  split; [|done]. cbn. change (map ofile ?l) with (ofile <$> l). rewrite list_fmap_insert, Hf. apply list_insert_id. by rewrite list_lookup_fmap, E.
Qed.

Lemma kept_acquire l : kept_fds (acquire l).
Proof. apply kept_bind; [by apply kept_id|]. intros s. destruct (bool_decide _); [by apply kept_id|by apply kept_modify]. Qed.
Lemma kept_release l : kept_fds (release l).
Proof. apply kept_bind; [by apply kept_id|]. intros s. destruct (bool_decide _); [by apply kept_modify|by apply kept_id]. Qed.

Create HintDb kept.
#[export] Hint Resolve kept_getp kept_acquire kept_release : kept.
#[export] Hint Extern 4 (kept_fds (updp _ _)) => apply kept_updp; by intros : kept.
#[export] Hint Extern 5 (kept_fds (gets _)) => by apply kept_id : kept.
#[export] Hint Extern 5 (kept_fds (ret _)) => by apply kept_id : kept.

Lemma kept_for body : (forall i, kept_fds (body i)) -> forall n i, kept_fds (for_from body i n).
Proof. intros Hb. induction n as [|n IH]; intros i; cbn [for_from]; [by apply kept_id|]. apply kept_bind; [done|intros _; apply IH]. Qed.

Lemma kept_wakeup1 c : kept_fds (wakeup1 c).
Proof.
  apply kept_for. intros i. apply kept_bind; [eauto with kept|]. intros p. destruct (is_state SLEEPING p && _); eauto with kept.
Qed.

Lemma kept_sleep_enter c lk : kept_fds (sleep_enter c lk).
Proof.
  apply kept_bind; [eauto with kept|]. intros [p|]; [|by apply kept_id].
  apply kept_bind; [destruct (bool_decide _); [apply kept_bind; eauto with kept|eauto with kept]|intros _].
  apply kept_bind; [eauto with kept|intros _]. apply kept_bind; [eauto with kept|intros _].
  apply kept_bind; [by apply kept_id|]. intros s. destruct (cpu_proc s); [|by apply kept_id].
  apply kept_bind; [eauto with kept|]. intros x. repeat case_match; by apply kept_id.
Qed.

Section Descriptors.
Context (im : image).
#[local] Instance here : Env kern := kernel_env im.
Implicit Types s : sstate kern.

(** ** The agreement *)

(** The files of [s] with the references [o]. *)
Record fd_state s (o : list nat) : Prop := mkFdState {
  fs_procs : length (ptable (ps s)) = NPROC;
  fs_fds : Forall (fun p => length (ofile p) = NOFILE) (ptable (ps s));
  fs_files : exists l, files_ok (kend im) (env (ps s)) o l;
}.
Definition fds_ok s : Prop := fd_state s (all_refs (ptable (ps s))).

(** [s'] has the same descriptors as [s], and the same files but for their offsets. *)
Record refs_same s s' : Prop := mkRefsSame {
  rs_fds : map ofile (ptable (ps s')) = map ofile (ptable (ps s));
  rs_files : same_files (env (ps s)) (env (ps s'));
}.

#[local] Instance refs_same_preorder : PreOrder refs_same.
Proof.
  split; [by intros s; split|]. intros s1 s2 s3 [A1 A2] [B1 B2]. split; [congruence|by etransitivity].
Qed.

Lemma Forall_map_ofile t t' : map ofile t' = map ofile t -> Forall (fun p => length (ofile p) = NOFILE) t ->
  Forall (fun p => length (ofile p) = NOFILE) t'.
Proof.
  intros He H. apply Forall_fmap with (f := ofile) (P := fun l => length l = NOFILE) in H. change (ofile <$> t) with (map ofile t) in H.
  rewrite <- He in H. by apply (proj1 (Forall_fmap ofile (fun l => length l = NOFILE) t')).
Qed.

Lemma fds_ok_same s s' : refs_same s s' -> fds_ok s -> fds_ok s'.
Proof.
  intros [Hf He] [H1 H2 (l & H3)]. unfold fds_ok. rewrite (all_refs_same _ _ Hf). split.
  - rewrite <- H1. rewrite <- (length_map ofile), Hf. apply length_map.
  - by eapply Forall_map_ofile.
  - exists l. by eapply files_ok_same.
Qed.

(** ** Code below the process table *)

Definition woken_all (l : list chan) (p : proc) : proc := foldl (fun p c => woken c p) p l.

Lemma woken_all_same l : forall p, ofile (woken_all l p) = ofile p /\ sz (woken_all l p) = sz p /\ tf (woken_all l p) = tf p.
Proof.
  induction l as [|c l IH]; intros p; [done|]. change (woken_all (c :: l) p) with (woken_all l (woken c p)). destruct (IH (woken c p)) as (-> & -> & ->). unfold woken.
  by destruct (is_state SLEEPING p && bool_decide (pchan p = c)).
Qed.

Lemma wake_chans_run l : forall t : pstate kern, length (ptable t) = NPROC ->
  wake_chans l t = (Ok tt, set_ptable (map (woken_all l) (ptable t)) t).
Proof.
  induction l as [|c l IH]; intros t Ht; cbn [wake_chans].
  - unfold woken_all. cbn. rewrite map_id. by destruct t.
  - rewrite (bind_ok _ _ _ _ _ (wakeup1_run c t Ht)). rewrite IH by (cbn; by rewrite length_map). cbn. by rewrite map_map.
Qed.

Lemma onk_run {A} (m : M kern A) s i p r e1 : running s i p -> length (ptable (ps s)) = NPROC ->
  m (run_as p (env (ps s))) = (r, e1) ->
  exists s' l, onk m s = (r, s') /\ env (ps s') = forget_woken e1 /\ ptable (ps s') = map (woken_all l) (ptable (ps s))
    /\ cpu_proc (ps s') = cpu_proc (ps s) /\ held (ps s') = held (ps s) /\ um s' = um s.
Proof.
  intros Hr Hl Hm. unfold onk. rewrite (bind_ok _ _ _ _ _ (myp_run s i p Hr)).
  erewrite (bind_ok (onp (modify _))); [|by apply onp_run]. set (s1 := set_ps _ s).
  assert (Hcall : onp (call m) s1 = (r, set_ps (set_env e1 (ps s1)) s1)).
  { unfold onp, call, zoom. change (env (ps s1)) with (run_as p (env (ps s))). rewrite Hm. by destruct r. }
  rewrite Hcall. set (t := set_env e1 (ps s1)).
  assert (Hd : onp deliver (set_ps t s1) = (Ok tt, set_ps (set_env (forget_woken e1) (set_ptable (map (woken_all (woken_chans e1)) (ptable (ps s))) t)) s1)).
  { apply (onp_run _ (set_ps t s1)). unfold deliver. change (ps (set_ps t s1)) with t. rewrite (bind_ok (gets env) _ t t e1 eq_refl).
    erewrite (bind_ok (wake_chans _)); [|apply wake_chans_run; exact Hl]. done. }
  rewrite Hd. exists (set_ps (set_env (forget_woken e1) (set_ptable (map (woken_all (woken_chans e1)) (ptable (ps s))) t)) s1), (woken_chans e1). done.
Qed.

Lemma run_as_same p e : same_files e (run_as p e).
Proof. split; try done. apply (sf_tab _ _ (reflexivity e)). Qed.
Lemma forget_woken_same e : same_files e (forget_woken e).
Proof. split; try done. apply (sf_tab _ _ (reflexivity e)). Qed.

(** The current process and what it may ask for. *)
Record caller_ok s (i : nat) (p : proc) : Prop := mkCallerOk {
  co_run : running s i p;
  co_size : user_size p;
}.

Lemma woken_map_ofile l t : map ofile (map (woken_all l) t) = map ofile t.
Proof. rewrite map_map. apply map_ext. intros p. apply woken_all_same. Qed.

(** A call on the files that takes the references from [o] to [o']. *)
Lemma onk_files {A} (m : M kern A) s i p o (o' : res A -> list nat) (Q : res A -> kern -> Prop) :
  caller_ok s i p -> fd_state s o ->
  (forall e l, files_ok (kend im) e o l -> ftab e = ftab (env (ps s)) -> exists r e1 l', m e = (r, e1) /\ files_ok (kend im) e1 (o' r) l' /\ Q r e1) ->
  exists r s' p' e1, onk m s = (r, s') /\ fd_state s' (o' r) /\ Q r e1 /\ ftab (env (ps s')) = ftab e1 /\ caller_ok s' i p'
    /\ ofile p' = ofile p /\ all_refs (ptable (ps s')) = all_refs (ptable (ps s)) /\ um s' = um s.
Proof.
  intros [Hr Hu] [H1 H2 (l & H3)] Hm.
  destruct (Hm (run_as p (env (ps s))) l) as (r & e1 & l' & Hrun & Hok & HQ); [by eapply files_ok_same; [apply run_as_same|]|done|].
  destruct (onk_run m s i p r e1 Hr H1 Hrun) as (s' & w & Hk & He & Ht & Hc & _ & Hum).
  destruct (woken_all_same w p) as (Ho & Hsz & _). exists r, s', (woken_all w p), e1. split; [done|]. split; [|split; [done|]].
  - split; rewrite ?Ht.
    + by rewrite length_map.
    + by eapply Forall_map_ofile; [apply woken_map_ofile|].
    + exists l'. rewrite He. by eapply files_ok_same; [apply forget_woken_same|].
  - split; [by rewrite He|]. split; [split; [split|]|].
    + rewrite Hc. apply (run_cur _ _ _ Hr).
    + rewrite Ht. change (map ?f ?t) with (f <$> t). by rewrite list_lookup_fmap, (run_slot _ _ _ Hr).
    + unfold user_size. by rewrite Hsz.
    + split; [done|]. split; [|done]. rewrite Ht. apply all_refs_same, woken_map_ofile.
Qed.

Lemma argfd_run s i p n : caller_ok s i p -> exists o, argfd n s = (Ok o, s) /\ forall fd f, o = Some (fd, f) -> ofile p !! fd = Some (Some f).
Proof.
  intros [Hr Hu]. unfold argfd. rewrite (bind_ok _ _ _ _ _ (argint_run s i p n Hr Hu)). cbv zeta.
  destruct (_ <=? sz p); [|by eexists]. destruct (_ || _); [by eexists|].
  rewrite (bind_ok _ _ _ _ _ (myp_run s i p Hr)). destruct (ofile p !! _) as [[f|]|] eqn:E; eexists; (split; [done|]); try done.
  intros fd f' [= <- <-]. done.
Qed.

Lemma free_fd_spec l : forall k fd, free_fd l k = Some fd -> (k <= fd)%nat /\ l !! (fd - k)%nat = Some None.
Proof.
  induction l as [|[f|] l IH]; intros k fd H; cbn in H; [done| |].
  - destruct (IH _ _ H) as [H1 H2]. split; [lia|]. replace (fd - k)%nat with (S (fd - S k)) by lia. done.
  - injection H as <-. split; [lia|]. by rewrite Nat.sub_diag.
Qed.

(** Changing the descriptors of the current process. *)
Lemma upd_fds s i p fd v o : caller_ok s i p -> fd_state s o ->
  exists s' p', upd_my (fun p => set_ofile (<[fd := v]> (ofile p)) p) s = (Ok tt, s') /\ caller_ok s' i p'
    /\ p' = set_ofile (<[fd := v]> (ofile p)) p /\ fd_state s' o /\ env (ps s') = env (ps s) /\ um s' = um s
    /\ ptable (ps s') = <[i := p']> (ptable (ps s)).
Proof.
  intros [Hr Hu] [H1 H2 H3]. pose proof Hr as [Hc Hs]. unfold upd_my. rewrite (bind_ok _ _ _ _ _ (curproc_run s i p Hr)).
  rewrite (onp_run _ s _ _ (updp_run _ _ _ _ Hs)). eexists _, (set_ofile (<[fd := v]> (ofile p)) p). split; [done|].
  pose proof (lookup_lt_Some _ _ _ Hs) as Hlt. split; [|split; [done|split; [|done]]].
  - split; [split; cbn; [done|by apply list_lookup_insert_eq]|done].
  - split; cbn; [by rewrite length_insert| |done]. apply Forall_insert; [done|]. cbn. rewrite length_insert.
    by apply (proj1 (Forall_lookup _ _) H2 i).
Qed.

Lemma fdalloc_run s i p f o : caller_ok s i p -> fd_state s o ->
  fdalloc f s = (Ok None, s) \/
  exists s' p' fd, fdalloc f s = (Ok (Some fd), s') /\ caller_ok s' i p' /\ fd_state s' o /\ env (ps s') = env (ps s) /\ um s' = um s
    /\ ofile p' !! fd = Some (Some f) /\ all_refs (ptable (ps s')) ≡ₚ f :: all_refs (ptable (ps s))
    /\ forall t2 p2, t2 !! i = Some p2 -> map ofile t2 = map ofile (ptable (ps s')) ->
         all_refs (<[i := set_ofile (<[fd := None]> (ofile p2)) p2]> t2) ≡ₚ all_refs (ptable (ps s)).
Proof.
  intros Hco Hfd. pose proof (co_run _ _ _ Hco) as Hr. unfold fdalloc. rewrite (bind_ok _ _ _ _ _ (myp_run s i p Hr)).
  destruct (free_fd (ofile p) 0) as [fd|] eqn:E; [|by left]. right.
  destruct (free_fd_spec _ _ _ E) as [_ Hfree]. rewrite Nat.sub_0_r in Hfree.
  destruct (upd_fds s i p fd (Some f) o Hco Hfd) as (s' & p' & Hup & Hco' & Ho & Hfd' & He & Hum & Ht).
  exists s', p', fd. rewrite (bind_ok _ _ _ _ _ Hup). do 5 (split; [done|]).
  pose proof (lookup_lt_Some _ _ _ Hfree) as Hl.
  assert (Ho' : ofile p' = <[fd := Some f]> (ofile p)) by by rewrite Ho. clear Ho. rename Ho' into Ho.
  split; [rewrite Ho; by apply list_lookup_insert_eq|].
  destruct (all_refs_insert (ptable (ps s)) i p p' (run_slot _ _ _ Hr)) as (rest & R1 & R2). rewrite Ht. split.
  - rewrite R2, Ho, (fds_open _ _ _ Hfree), R1. done.
  - intros t2 p2 Hp2 Hm. rewrite <- Ht in Hm.
    assert (Ho2 : ofile p2 = ofile p').
    { assert (Hx : (ofile <$> t2) !! i = (ofile <$> ptable (ps s')) !! i) by (change (map ofile t2 !! i = map ofile (ptable (ps s')) !! i); by rewrite Hm).
      rewrite !list_lookup_fmap, Hp2, (run_slot _ _ _ (co_run _ _ _ Hco')) in Hx. by injection Hx. }
    destruct (all_refs_insert t2 i p2 (set_ofile (<[fd := None]> (ofile p2)) p2) Hp2) as (rest2 & R3 & ->).
    cbn [ofile set_ofile]. rewrite Ho2, Ho, list_insert_insert_eq.
    rewrite (list_insert_id (ofile p)) by done. rewrite R1.
    rewrite (all_refs_same _ _ Hm), Ht, R2, Ho2 in R3. by apply Permutation_app_inv_l in R3 as ->.
Qed.

(** ** Calls that keep the references *)

Definition sframes {A} (m : M (sstate kern) A) : Prop := forall s r s', m s = (r, s') -> refs_same s s'.

Lemma sframes_bind {A B} (m : M (sstate kern) A) (k : A -> M (sstate kern) B) : sframes m -> (forall a, sframes (k a)) -> sframes (bind m k).
Proof.
  intros Hm Hk s r s' H. unfold bind in H. destruct (m s) as [[a|e|c| |e] s1] eqn:E; pose proof (Hm _ _ _ E) as H1;
    try (injection H as <- <-; done). by transitivity s1; [|eapply Hk].
Qed.

Lemma sframes_id {A} (m : M (sstate kern) A) : (forall s, snd (m s) = s) -> sframes m.
Proof. intros Hm s r s' H. specialize (Hm s). rewrite H in Hm. cbn in Hm. by subst. Qed.

Lemma sframes_um g : sframes (modify (fun s => set_um (g s) s)).
Proof. intros s r s' [= <- <-]. by split. Qed.

Lemma sframes_onp {A} (m : M (pstate kern) A) : kept_fds m -> sframes (onp m).
Proof.
  intros Hm s r s' H. unfold onp, zoom in H. destruct (m (ps s)) as [r0 t] eqn:E. destruct (Hm _ _ _ E) as [H1 H2].
  assert (Hs : s' = set_ps t s) by (destruct r0; by simplify_eq). subst. split; [done|]. cbn. by rewrite H2.
Qed.

Lemma sframes_myp : sframes myp.
Proof.
  apply sframes_bind; [apply sframes_onp; apply kept_bind; [by apply kept_id|intros []; by apply kept_id]|].
  intros i. apply sframes_onp. eauto with kept.
Qed.

Lemma sframes_deliver : sframes (onp deliver).
Proof.
  assert (Hw : forall l, kept_fds (wake_chans l)).
  { induction l as [|c l IH]; cbn [wake_chans]; [by apply kept_id|]. apply kept_bind; [apply kept_wakeup1|done]. }
  intros s r s' H. unfold onp, zoom, deliver in H. rewrite (bind_ok (gets env) _ (ps s) (ps s) (env (ps s)) eq_refl) in H.
  unfold bind in H. destruct (wake_chans _ (ps s)) as [r0 t] eqn:E. destruct (Hw _ _ _ _ E) as [H1 H2].
  destruct r0; injection H as <- <-; (split; [done|]); cbn; rewrite H2; done || apply forget_woken_same.
Qed.

Lemma sframes_onk {A} (m : M kern A) : frames m -> sframes (onk m).
Proof.
  intros Hm. unfold onk. apply sframes_bind; [apply sframes_myp|]. intros p. apply sframes_bind.
  { intros s r s' [= <- <-]. split; [done|]. apply run_as_same. }
  intros _ s r s' H. destruct (onp (call m) s) as [r1 s1] eqn:E1. destruct (onp deliver s1) as [r2 s2] eqn:E2.
  assert (H1 : refs_same s s1).
  { unfold onp, call, zoom in E1. destruct (m (env (ps s))) as [r0 e] eqn:E. assert (Hs : s1 = set_ps (set_env e (ps s)) s) by (destruct r0; by simplify_eq).
    subst. split; [done|]. by eapply Hm. }
  assert (Hs : s' = s2) by (destruct r2; by simplify_eq). subst. transitivity s1; [done|]. by eapply sframes_deliver.
Qed.

Lemma sframes_onf {A} (m : FM A) : sframes (onf m).
Proof. apply sframes_onk, frames_onfs. Qed.

Lemma sframes_fetchint a : sframes (fetchint a).
Proof.
  apply sframes_bind; [apply sframes_myp|]. intros p. destruct (_ || _); [by apply sframes_id|].
  apply sframes_bind; [by apply sframes_id|]. intros m. by apply sframes_id.
Qed.

Lemma sframes_argint n : sframes (argint n).
Proof. apply sframes_bind; [apply sframes_myp|]. intros p. apply sframes_fetchint. Qed.

Lemma sframes_argptr n size : sframes (argptr n size).
Proof.
  apply sframes_bind; [apply sframes_myp|]. intros p. apply sframes_bind; [apply sframes_argint|].
  intros [a|]; [|by apply sframes_id]. repeat case_match; by apply sframes_id.
Qed.

Lemma sframes_argstr n : sframes (argstr n).
Proof.
  apply sframes_bind; [apply sframes_argint|]. intros [a|]; [|by apply sframes_id].
  apply sframes_bind; [apply sframes_myp|]. intros p. repeat case_match; by apply sframes_id.
Qed.

Lemma sframes_my_cwd : sframes my_cwd.
Proof. apply sframes_bind; [apply sframes_myp|]. intros p. destruct (cwd p); by apply sframes_id. Qed.

Lemma sframes_sleep_on c : sframes (sleep_on c).
Proof.
  apply sframes_bind; [apply sframes_onp; eauto with kept|intros _].
  apply sframes_bind; [apply sframes_onp, kept_sleep_enter|intros b]. by apply sframes_id.
Qed.

Lemma sframes_argfd n : sframes (argfd n).
Proof.
  apply sframes_bind; [apply sframes_argint|]. intros [fd|]; [|by apply sframes_id]. destruct (_ || _); [by apply sframes_id|].
  apply sframes_bind; [apply sframes_myp|]. intros p. repeat case_match; by apply sframes_id.
Qed.

Create HintDb sframes.
#[local] Hint Resolve sframes_onf sframes_argint sframes_argptr sframes_argstr sframes_my_cwd sframes_sleep_on sframes_argfd sframes_um : sframes.
#[local] Hint Extern 5 (sframes (ret _)) => by apply sframes_id : sframes.
#[local] Hint Extern 5 (sframes (gets _)) => by apply sframes_id : sframes.
#[local] Hint Extern 5 (sframes (panic _)) => by apply sframes_id : sframes.
#[local] Hint Extern 5 (sframes (ontx _)) => apply sframes_onf : sframes.

Lemma sframes_arg_buffer : sframes arg_buffer.
Proof.
  apply sframes_bind; [eauto with sframes|]. intros [[fd f]|]; [|eauto with sframes].
  apply sframes_bind; [eauto with sframes|]. intros [n|]; [|eauto with sframes].
  apply sframes_bind; [eauto with sframes|]. intros [a|]; eauto with sframes.
Qed.

Lemma sframes_argpath n : sframes (argpath n).
Proof.
  apply sframes_bind; [eauto with sframes|]. intros [[a len]|]; [|eauto with sframes].
  apply sframes_bind; [eauto with sframes|]. intros m. eauto with sframes.
Qed.

(** ** The calls on descriptors *)

Lemma fd_state_perm s o o' : o ≡ₚ o' -> fd_state s o -> fd_state s o'.
Proof. intros Ho [H1 H2 (l & H3)]. split; try done. exists l. by eapply files_ok_perm. Qed.

Lemma fds_ok_refs s o : fd_state s o -> o ≡ₚ all_refs (ptable (ps s)) -> fds_ok s.
Proof. intros H Ho. by eapply fd_state_perm. Qed.

Lemma sys_dup_ok s i p : caller_ok s i p -> fds_ok s -> exists v s', sys_dup s = (Ok (Return v), s') /\ fds_ok s'.
Proof.
  intros Hco Hfd. unfold sys_dup. destruct (argfd_run s i p 0 Hco) as (o & Ho & Hin). rewrite (bind_ok _ _ _ _ _ Ho).
  destruct o as [[fd f]|]; [|by eexists _, _]. specialize (Hin fd f eq_refl).
  destruct (fdalloc_run s i p f _ Hco Hfd) as [Hnone|(s1 & p1 & fd1 & Hrun & Hco1 & Hfd1 & _ & _ & _ & Href & _)].
  { rewrite (bind_ok _ _ _ _ _ Hnone). by eexists _, _. }
  rewrite (bind_ok _ _ _ _ _ Hrun).
  destruct (onk_files (filedup f) s1 i p1 _ (fun _ => f :: all_refs (ptable (ps s))) (fun r _ => r = Ok f) Hco1 Hfd1) as (r & s2 & p2 & e1 & Hk & Hfd2 & -> & _ & _ & _ & Href2 & _).
  { intros e l Hok _. destruct (filedup_ok (kend im) e _ l f Hok) as (e1 & He & Hok1).
    - eapply all_refs_in; [apply (run_slot _ _ _ (co_run _ _ _ Hco))|done].
    - pose proof (all_refs_length _ (fs_procs _ _ Hfd) (fs_fds _ _ Hfd)). lia.
    - eexists _, _, l. done. }
  rewrite (bind_ok _ _ _ _ _ Hk). eexists _, s2. split; [done|]. eapply fds_ok_refs; [done|]. by rewrite Href2, Href.
Qed.

Lemma sys_close_ok s i p r s' : caller_ok s i p -> fds_ok s -> sys_close im s = (r, s') -> fds_ok s'.
Proof.
  intros Hco Hfd H. unfold sys_close in H. destruct (argfd_run s i p 0 Hco) as (o & Ho & Hin). rewrite (bind_ok _ _ _ _ _ Ho) in H.
  destruct o as [[fd f]|]; [|by injection H as <- <-]. specialize (Hin fd f eq_refl).
  destruct (upd_fds s i p fd None _ Hco Hfd) as (s1 & p1 & Hup & Hco1 & Ho1 & Hfd1 & He & _ & Ht).
  rewrite (bind_ok _ _ _ _ _ Hup) in H.
  assert (Href : all_refs (ptable (ps s)) ≡ₚ f :: all_refs (ptable (ps s1))).
  { destruct (all_refs_insert (ptable (ps s)) i p p1 (run_slot _ _ _ (co_run _ _ _ Hco))) as (rest & R1 & R2).
    rewrite Ht, R2, R1, Ho1. by rewrite (fds_close _ _ _ Hin). }
  destruct (onk_files (fileclose (kend im) f) s1 i p1 _ (fun _ => all_refs (ptable (ps s1))) (fun _ _ => True) Hco1 Hfd1) as (r1 & s2 & p2 & e1 & Hk & Hfd2 & _ & _ & _ & _ & Href2 & _).
  { intros e l Hok _. destruct (held_ref _ _ _ _ f Hok ltac:(rewrite Href; left)) as (x & Hx & _).
    destruct (fileclose_ok (kend im) e _ _ l f x Hok Href Hx) as (r0 & e1 & l1 & Hc & Hok1 & _). by eexists _, _, l1. }
  unfold bind in H. rewrite Hk in H.
  assert (Hs : s' = s2) by (destruct r1; cbn in H; unfold ret in H; congruence). subst s'. unfold fds_ok. by rewrite Href2.
Qed.

Lemma close_unlisted s i p f o x : caller_ok s i p -> fd_state s (f :: o) ->
  ftab (env (ps s)) !! f = Some x -> f_type x <> FD_INODE ->
  exists s' p', onk (fileclose (kend im) f) s = (Ok tt, s') /\ caller_ok s' i p' /\ ofile p' = ofile p /\ fd_state s' o
    /\ all_refs (ptable (ps s')) = all_refs (ptable (ps s)) /\ forall j, j <> f -> ftab (env (ps s')) !! j = ftab (env (ps s)) !! j.
Proof.
  intros Hco Hfd Hx Ht.
  destruct (onk_files (fileclose (kend im) f) s i p _ (fun _ => o)
    (fun r e => r = Ok tt /\ forall j, j <> f -> ftab e !! j = ftab (env (ps s)) !! j) Hco Hfd)
    as (r & s' & p' & e1 & Hk & Hfd' & [-> Hoth] & He & Hco' & Ho & Href & _).
  { intros e l Hok He. destruct (fileclose_ok (kend im) e (f :: o) o l f x Hok ltac:(done) ltac:(by rewrite He)) as (r & e1 & l' & Hc & Hok' & Hr & Hoth).
    rewrite Hr in Hc by done. rewrite He in Hoth. by eexists _, e1, l'. }
  exists s', p'. rewrite He. done.
Qed.

Lemma close_both s i p f0 f1 x0 x1 o : caller_ok s i p -> fd_state s (f0 :: f1 :: o) -> f0 <> f1 ->
  ftab (env (ps s)) !! f0 = Some x0 -> ftab (env (ps s)) !! f1 = Some x1 -> f_type x0 = FD_PIPE -> f_type x1 = FD_PIPE ->
  exists s', (onk (fileclose (kend im) f0) ;; onk (fileclose (kend im) f1) ;; ret (Return (-1))) s = (Ok (Return (-1)), s')
    /\ fd_state s' o /\ all_refs (ptable (ps s')) = all_refs (ptable (ps s)).
Proof.
  intros Hco Hfd Hne Hx0 Hx1 Ht0 Ht1.
  destruct (close_unlisted s i p f0 (f1 :: o) x0) as (s3 & p3 & Hc3 & Hco3 & _ & Hfd3 & Href3 & Hoth); [done|done|done|by rewrite Ht0|].
  destruct (close_unlisted s3 i p3 f1 o x1) as (s4 & p4 & Hc4 & Hco4 & _ & Hfd4 & Href4 & _); [done|done|by rewrite Hoth|by rewrite Ht1|].
  rewrite (bind_ok _ _ _ _ _ Hc3), (bind_ok _ _ _ _ _ Hc4). exists s4. split; [done|]. split; [done|congruence].
Qed.

(** [sys_pipe] from the new pipe on. *)
Lemma pipe_fds_ok s i p a f0 f1 x0 x1 : caller_ok s i p -> fd_state s (f0 :: f1 :: all_refs (ptable (ps s))) -> f0 <> f1 ->
  ftab (env (ps s)) !! f0 = Some x0 -> ftab (env (ps s)) !! f1 = Some x1 -> f_type x0 = FD_PIPE -> f_type x1 = FD_PIPE ->
  exists v s', (fd0 <- fdalloc f0 ;;
    fd1 <- (match fd0 with Some _ => fdalloc f1 | None => ret None end) ;;
    match fd0, fd1 with
    | Some fd0, Some fd1 =>
        modify (fun s => set_um (store32 (store32 (um s) a (Z.of_nat fd0)) (a + 4) (Z.of_nat fd1)) s) ;; ret (Return 0)
    | _, _ =>
        (match fd0 with Some fd0 => upd_my (fun p => set_ofile (<[fd0 := None]> (ofile p)) p) | None => ret tt end) ;;
        onk (fileclose (kend im) f0) ;; onk (fileclose (kend im) f1) ;; ret (Return (-1))
    end) s = (Ok (Return v), s') /\ fds_ok s'.
Proof.
  intros Hco Hfd Hne Hx0 Hx1 Ht0 Ht1. set (o := all_refs (ptable (ps s))) in *.
  destruct (fdalloc_run s i p f0 _ Hco Hfd) as [Hnone|(s2 & p2 & fd0 & Hfd0 & Hco2 & Hfd2 & He2 & _ & _ & Href2 & Hundo)].
  - rewrite (bind_ok _ _ _ _ _ Hnone), (bind_ok (ret None) _ s s None eq_refl), (bind_ok (ret tt) _ s s tt eq_refl).
    destruct (close_both s i p f0 f1 x0 x1 o Hco Hfd Hne Hx0 Hx1 Ht0 Ht1) as (s' & Hc & Hfd' & Href). rewrite Hc.
    eexists _, s'. split; [done|]. eapply fds_ok_refs; [done|]. by rewrite Href.
  - rewrite (bind_ok _ _ _ _ _ Hfd0).
    destruct (fdalloc_run s2 i p2 f1 _ Hco2 Hfd2) as [Hnone|(s3 & p3 & fd1 & Hfd1 & Hco3 & Hfd3 & He3 & _ & _ & Href3 & _)].
    + rewrite (bind_ok _ _ _ _ _ Hnone).
      destruct (upd_fds s2 i p2 fd0 None _ Hco2 Hfd2) as (s3 & p3 & Hup & Hco3 & Hp3 & Hfd3 & He3 & _ & Ht3). rewrite (bind_ok _ _ _ _ _ Hup).
      rewrite <- He2, <- He3 in Hx0, Hx1.
      destruct (close_both s3 i p3 f0 f1 x0 x1 o Hco3 Hfd3 Hne Hx0 Hx1 Ht0 Ht1) as (s' & Hc & Hfd' & Href). rewrite Hc.
      eexists _, s'. split; [done|]. eapply fds_ok_refs; [done|]. rewrite Href, Ht3, Hp3.
      rewrite (Hundo (ptable (ps s2)) p2); [done|apply (run_slot _ _ _ (co_run _ _ _ Hco2))|done].
    + rewrite (bind_ok _ _ _ _ _ Hfd1). eexists _, _. split; [done|].
      eapply (fds_ok_same s3); [by apply (sframes_um (fun s => store32 (store32 (um s) a (Z.of_nat fd0)) (a + 4) (Z.of_nat fd1)) s3 (Ok tt))|].
      eapply fds_ok_refs; [done|]. rewrite Href3, Href2. constructor.
Qed.

Lemma sys_pipe_ok s i p : caller_ok s i p -> fds_ok s -> exists v s', sys_pipe im s = (Ok (Return v), s') /\ fds_ok s'.
Proof.
  intros Hco Hfd. unfold sys_pipe. destruct (argptr_run s i p 0 8 (co_run _ _ _ Hco) (co_size _ _ _ Hco) ltac:(lia)) as (o & Ho & _).
  rewrite (bind_ok _ _ _ _ _ Ho). destruct o as [a|]; [|by eexists _, _]. set (o := all_refs (ptable (ps s))).
  destruct (onk_files (pipealloc (kend im)) s i p o (fun r => match r with Ok (Some (f0, f1)) => f0 :: f1 :: o | _ => o end)
    (fun r e => match r with
      | Ok (Some (f0, f1)) => f0 <> f1 /\ exists b, is_end e f0 b false /\ is_end e f1 b true
      | Ok None => True | _ => False end) Hco Hfd) as (r & s1 & p1 & e1 & Hk & Hfd1 & HQ & He & Hco1 & Ho1 & Href1 & Hum).
  { intros e l Hok _. pose proof (pipealloc_ok (kend im) e o l Hok) as H. destruct (pipealloc (kend im) e) as [[[[f0 f1]|]| | | |] e1]; try done.
    - destruct H as (H1 & (l' & H2) & _ & _ & H3). by eexists _, e1, l'.
    - destruct H as (l' & H). by eexists _, e1, l'. }
  destruct r as [[[f0 f1]|]| | | |]; try done; rewrite (bind_ok _ _ _ _ _ Hk).
  2:{ eexists _, s1. split; [done|]. eapply fds_ok_refs; [done|]. by rewrite Href1. }
  destruct HQ as (Hne & b & (x0 & Hx0 & (Ht0 & _)) & (x1 & Hx1 & (Ht1 & _))). rewrite <- He in Hx0, Hx1.
  eapply (pipe_fds_ok s1 i p1 a f0 f1 x0 x1); try done. by rewrite Href1.
Qed.

Lemma arg_buffer_run s i p : caller_ok s i p -> exists o, arg_buffer s = (Ok o, s) /\ forall f n a, o = Some (f, n, a) -> f ∈ all_refs (ptable (ps s)).
Proof.
  intros Hco. pose proof Hco as [Hr Hu]. unfold arg_buffer. destruct (argfd_run s i p 0 Hco) as (o & Ho & Hin). rewrite (bind_ok _ _ _ _ _ Ho).
  destruct o as [[fd f]|]; [|by eexists]. rewrite (bind_ok _ _ _ _ _ (argint_run s i p 2 Hr Hu)). cbv zeta.
  destruct (_ <=? sz p); [|by eexists]. destruct (argptr_run s i p 1 (s32 (load32 (um s) (u32 (tf_esp (tf p) + 4 + 4 * 2)))) Hr Hu) as (oa & Ha & _).
  { pose proof (s32_range (load32 (um s) (u32 (tf_esp (tf p) + 4 + 4 * 2)))). lia. }
  rewrite (bind_ok _ _ _ _ _ Ha). destruct oa as [a|]; eexists; (split; [done|]); [|done].
  intros f' n a' [= <- _ _]. eapply all_refs_in; [apply (run_slot _ _ _ Hr)|by apply Hin].
Qed.

(** A call on an open file that keeps the references, and code after it that does. *)
Lemma io_ok {A B} s i p (m : M kern A) (k : A -> M (sstate kern) B) r s' : caller_ok s i p -> fds_ok s ->
  (forall e l, files_ok (kend im) e (all_refs (ptable (ps s))) l -> exists r1 e1, m e = (r1, e1) /\ files_ok (kend im) e1 (all_refs (ptable (ps s))) l) ->
  (forall a, sframes (k a)) -> bind (onk m) k s = (r, s') -> fds_ok s'.
Proof.
  intros Hco Hfd Hm Hk H.
  destruct (onk_files m s i p _ (fun _ => all_refs (ptable (ps s))) (fun _ _ => True) Hco Hfd) as (r1 & s1 & p1 & e1 & Hr & Hfd1 & _ & _ & _ & _ & Href & _).
  { intros e l Hok _. destruct (Hm e l Hok) as (r1 & e1 & E & Hok1). by eexists _, _, l. }
  assert (Hfd1' : fds_ok s1) by (unfold fds_ok; by rewrite Href). unfold bind in H. rewrite Hr in H.
  destruct r1; try (injection H as <- <-; done). by eapply fds_ok_same; [eapply Hk|].
Qed.

Lemma sys_read_ok s i p r s' : caller_ok s i p -> fds_ok s -> sys_read im s = (r, s') -> fds_ok s'.
Proof.
  intros Hco Hfd H. unfold sys_read in H. destruct (arg_buffer_run s i p Hco) as (o & Ho & Hin). rewrite (bind_ok _ _ _ _ _ Ho) in H.
  destruct o as [[[f n] a]|]; [|by injection H as <- <-]. specialize (Hin f n a eq_refl). unfold read_into in H.
  eapply (io_ok s i p); [done|done| | |exact H].
  - intros e l Hok. destruct (fileread_ok (kend im) (dev_read im) e _ l f n Hok Hin) as (r1 & e1 & E & Hok1 & _). eauto.
  - intros [v bytes|c k]; [|eauto with sframes]. apply sframes_bind; [apply (sframes_um (fun s => put_ubytes (um s) a bytes))|intros _; eauto with sframes].
Qed.

Lemma sys_write_ok s i p r s' : caller_ok s i p -> fds_ok s -> sys_write im s = (r, s') -> fds_ok s'.
Proof.
  intros Hco Hfd H. unfold sys_write in H. destruct (arg_buffer_run s i p Hco) as (o & Ho & Hin). rewrite (bind_ok _ _ _ _ _ Ho) in H.
  destruct o as [[[f n] a]|]; [|by injection H as <- <-]. specialize (Hin f n a eq_refl). rewrite (bind_ok (gets um) _ s s (um s) eq_refl) in H.
  eapply (io_ok s i p); [done|done| | |exact H].
  - intros e l Hok. destruct (filewrite_ok (kend im) (dev_write im) e _ l f (ubytes (um s) a n) Hok Hin) as (r1 & e1 & E & Hok1 & _). eauto.
  - intros [v bytes|c k]; cbn [write_done]; eauto with sframes.
Qed.

(** File system code run for the caller. *)
Lemma onf_step {A B} (m : FM A) (k : A -> M (sstate kern) B) s i p r s' : caller_ok s i p -> fds_ok s ->
  (forall a s1 p1, caller_ok s1 i p1 -> fds_ok s1 -> refs_same s s1 -> k a s1 = (r, s') -> fds_ok s') ->
  bind (onf m) k s = (r, s') -> fds_ok s'.
Proof.
  intros Hco Hfd Hk H.
  destruct (onk_files (onfs m) s i p _ (fun _ => all_refs (ptable (ps s))) (fun _ _ => True) Hco Hfd) as (r1 & s1 & p1 & e1 & Hr & Hfd1 & _ & _ & Hco1 & Ho & Href & _).
  { intros e l Hok _. destruct (onfs m e) as [r1 e1] eqn:E. exists r1, e1, l. split; [done|]. split; [|done]. eapply files_ok_same; [by eapply frames_onfs|done]. }
  pose proof (sframes_onf m s r1 s1 Hr) as Hsame.
  assert (Hfd1' : fds_ok s1) by (unfold fds_ok; by rewrite Href). unfold bind in H. change (onk (onfs m)) with (onf m) in Hr. rewrite Hr in H.
  destruct r1; try (injection H as <- <-; done). by eapply Hk.
Qed.

(** Entry [f] is a file some descriptor refers to, and not a pipe. *)
Definition plain_file s (f : nat) : Prop :=
  f ∈ all_refs (ptable (ps s)) /\ exists x, ftab (env (ps s)) !! f = Some x /\ f_type x <> FD_PIPE.

Lemma plain_same s s' f : refs_same s s' -> plain_file s f -> plain_file s' f.
Proof.
  intros [Hr [Ht _ _ _]] (Hf & x & Hx & Hty). split; [by rewrite (all_refs_same _ _ Hr)|].
  destruct (Forall2_lookup_l _ _ _ _ _ Ht Hx) as (x' & Hx' & He). exists x'. split; [done|]. by rewrite He.
Qed.

Lemma updf_step s i p f g : caller_ok s i p -> fds_ok s -> plain_file s f ->
  (forall x, f_ref (g x) = f_ref x) -> (forall x, f_type x <> FD_PIPE -> f_type (g x) <> FD_PIPE) ->
  exists s' p', onk (updf f g) s = (Ok tt, s') /\ caller_ok s' i p' /\ fds_ok s' /\ plain_file s' f.
Proof.
  intros Hco Hfd (Hf & x & Hx & Ht) Hg1 Hg2.
  destruct (onk_files (updf f g) s i p _ (fun _ => all_refs (ptable (ps s))) (fun r e => r = Ok tt /\ ftab e !! f = Some (g x)) Hco Hfd)
    as (r1 & s1 & p1 & e1 & Hr & Hfd1 & [-> Hg] & He & Hco1 & Ho & Href & _).
  { intros e l Hok He. rewrite <- He in Hx. rewrite (updf_run e f x g Hx). eexists _, _, l. split; [done|].
    pose proof (lookup_lt_Some _ _ _ Hx) as Hlt. split; [|split; [done|by apply list_lookup_insert_eq]].
    destruct (held_ref _ _ _ _ _ Hok Hf) as (y & Hy & H1 & Hr). assert (y = x) as -> by congruence.
    apply (files_ok_entry _ e _ _ _ l f x (g x) Hok Hx); try done; auto; rewrite ?Hg1; try lia.
    - apply (fl_lock _ _ _ _ Hok).
    - intros a w. unfold end_of. split; intros (E & _); [by apply Hg2 in Ht|done]. }
  exists s1, p1. split; [done|]. split; [done|]. split; [unfold fds_ok; by rewrite Href|]. split; [by rewrite Href|].
  exists (g x). rewrite He. auto.
Qed.

Lemma open_done s i p f ip rd wr fd r s' : caller_ok s i p -> fds_ok s -> plain_file s f ->
  (onk (updf f (set_ftype FD_INODE)) ;; onk (updf f (set_fip ip)) ;; onk (updf f (set_foff 0)) ;;
   onk (updf f (set_rw rd wr)) ;; ret (Return (Z.of_nat fd))) s = (r, s') -> fds_ok s'.
Proof.
  intros Hco Hfd Hpl H.
  destruct (updf_step s i p f (set_ftype FD_INODE)) as (s1 & p1 & E1 & Hco1 & Hfd1 & Hpl1); [done..|]. rewrite (bind_ok _ _ _ _ _ E1) in H.
  destruct (updf_step s1 i p1 f (set_fip ip)) as (s2 & p2 & E2 & Hco2 & Hfd2 & Hpl2); [done..|]. rewrite (bind_ok _ _ _ _ _ E2) in H.
  destruct (updf_step s2 i p2 f (set_foff 0)) as (s3 & p3 & E3 & Hco3 & Hfd3 & Hpl3); [done..|]. rewrite (bind_ok _ _ _ _ _ E3) in H.
  destruct (updf_step s3 i p3 f (set_rw rd wr)) as (s4 & p4 & E4 & Hco4 & Hfd4 & Hpl4); [done..|]. rewrite (bind_ok _ _ _ _ _ E4) in H.
  by injection H as <- <-.
Qed.

(** The part of [sys_open] that makes the descriptor. *)
Lemma open_file_ok s i p ip omode r s' : caller_ok s i p -> fds_ok s -> open_file im ip omode s = (r, s') -> fds_ok s'.
Proof.
  intros Hco Hfd H. unfold open_file in H. set (o := all_refs (ptable (ps s))).
  destruct (onk_files filealloc s i p o (fun r => match r with Ok (Some f) => f :: o | _ => o end)
    (fun r e => match r with Ok (Some f) => exists x, ftab e !! f = Some x /\ f_type x = FD_NONE | Ok None => True | _ => False end) Hco Hfd)
    as (r1 & s1 & p1 & e1 & Hk & Hfd1 & HQ & He & Hco1 & Ho1 & Href1 & _).
  { intros e l Hok _. pose proof (filealloc_ok (kend im) e o l Hok) as Ha. destruct (filealloc e) as [[[f|]| | | |] e1]; try done.
    - destruct Ha as (_ & Hok1 & _ & x & Hx & Ht & _). exists (Ok (Some f)), e1, l. split; [done|]. split; [done|]. by exists x.
    - destruct Ha as [-> _]. by exists (Ok None), e, l. }
  assert (Hback : forall s1, fds_ok s1 -> (onf (iunlockput ip) ;; ontx end_op ;; ret (Return (-1))) s1 = (r, s') -> fds_ok s').
  { intros s2 Hfd2 H2. eapply fds_ok_same; [|done]. eapply sframes_bind in H2; [done|eauto with sframes|intros _].
    apply sframes_bind; [eauto with sframes|intros _; eauto with sframes]. }
  destruct r1 as [[f|]| | | |]; try done; rewrite (bind_ok _ _ _ _ _ Hk) in H.
  2:{ rewrite (bind_ok (ret None) _ s1 s1 None eq_refl), (bind_ok (ret tt) _ s1 s1 tt eq_refl) in H. eapply Hback; [|done].
      eapply fds_ok_refs; [done|]. by rewrite Href1. }
  destruct HQ as (x & Hx & Ht). rewrite <- He in Hx.
  destruct (fdalloc_run s1 i p1 f _ Hco1 Hfd1) as [Hnone|(s2 & p2 & fd & Hfda & Hco2 & Hfd2 & He2 & _ & _ & Href2 & _)].
  - rewrite (bind_ok _ _ _ _ _ Hnone) in H.
    destruct (close_unlisted s1 i p1 f o x) as (s3 & p3 & Hc3 & Hco3 & _ & Hfd3 & Href3 & _); [done|done|done|by rewrite Ht|].
    rewrite (bind_ok _ _ _ _ _ Hc3) in H. eapply Hback; [|done]. eapply fds_ok_refs; [done|]. by rewrite Href3, Href1.
  - rewrite (bind_ok _ _ _ _ _ Hfda) in H.
    assert (Hok2 : fds_ok s2) by (eapply fds_ok_refs; [done|]; by rewrite Href2, Href1).
    assert (Hpl2 : plain_file s2 f). { split; [rewrite Href2; left|]. exists x. rewrite He2, Ht. done. }
    eapply onf_step; [exact Hco2|done| |exact H]. intros u3 s3 p3 Hco3 Hfd3 Hs3 H3.
    eapply onf_step; [exact Hco3|done| |exact H3]. intros u4 s4 p4 Hco4 Hfd4 Hs4 H4.
    eapply open_done; [exact Hco4|done| |exact H4]. by do 2 (eapply plain_same; [done|]).
Qed.

Lemma argpath_run s i p n : caller_ok s i p -> exists o, argpath n s = (Ok o, s).
Proof.
  intros [Hr Hu].
  assert (Hstr : exists o, argstr n s = (Ok o, s)).
  { unfold argstr. rewrite (bind_ok _ _ _ _ _ (argint_run s i p n Hr Hu)). cbv zeta. destruct (_ <=? sz p); [|by eexists].
    rewrite (fetchstr_run s i p _ Hr). by eexists. }
  destruct Hstr as (o & Ho). unfold argpath. rewrite (bind_ok _ _ _ _ _ Ho). destruct o as [[a len]|]; by eexists.
Qed.

Lemma my_cwd_step {B} (k : nat -> M (sstate kern) B) s i p r s' : caller_ok s i p -> fds_ok s ->
  (forall c, k c s = (r, s') -> fds_ok s') -> bind my_cwd k s = (r, s') -> fds_ok s'.
Proof.
  intros [Hr _] Hfd Hk H. unfold my_cwd in H. unfold bind at 1 in H. rewrite (bind_ok _ _ _ _ _ (myp_run s i p Hr)) in H.
  destruct (cwd p) as [c|]; [exact (Hk c H)|by injection H as <- <-].
Qed.

(** The ends of [sys_open] without a descriptor. *)
Lemma give_up_ok {B} (m : FM B) s r s' : fds_ok s -> (onf m ;; ontx end_op ;; ret (Return (-1))) s = (r, s') -> fds_ok s'.
Proof.
  intros Hfd H. eapply fds_ok_same; [|done]. revert H. apply sframes_bind; [eauto with sframes|intros _].
  apply sframes_bind; [eauto with sframes|intros _; eauto with sframes].
Qed.

Lemma no_inode_ok s r s' : fds_ok s -> (ontx end_op ;; ret (Return (-1))) s = (r, s') -> fds_ok s'.
Proof.
  intros Hfd H. eapply fds_ok_same; [|done]. revert H. apply sframes_bind; [eauto with sframes|intros _; eauto with sframes].
Qed.

Lemma sys_open_ok s i p r s' : caller_ok s i p -> fds_ok s -> sys_open im s = (r, s') -> fds_ok s'.
Proof.
  intros Hco Hfd H. unfold sys_open in H. destruct (argpath_run s i p 0 Hco) as (o & Ho). rewrite (bind_ok _ _ _ _ _ Ho) in H.
  destruct o as [path|]; [|by injection H as <- <-]. unfold with_int in H.
  rewrite (bind_ok _ _ _ _ _ (argint_run s i p 1 (co_run _ _ _ Hco) (co_size _ _ _ Hco))) in H. cbv zeta in H.
  destruct (_ <=? sz p); [|by injection H as <- <-].
  eapply onf_step; [exact Hco|done| |exact H]. clear H. intros u1 s1 p1 Hco1 Hfd1 _ H.
  eapply my_cwd_step; [exact Hco1|done| |exact H]. clear H. intros c H. destruct (nz _).
  - eapply onf_step; [exact Hco1|done| |exact H]. clear H. intros [ip|] s2 p2 Hco2 Hfd2 _ H; [by eapply open_file_ok|by eapply no_inode_ok].
  - eapply onf_step; [exact Hco1|done| |exact H]. clear H. intros [ip|] s2 p2 Hco2 Hfd2 _ H; [|by eapply no_inode_ok].
    eapply onf_step; [exact Hco2|done| |exact H]. clear H. intros u3 s3 p3 Hco3 Hfd3 _ H.
    eapply onf_step; [exact Hco3|done| |exact H]. clear H. intros x s4 p4 Hco4 Hfd4 _ H.
    cbv beta in H. destruct (_ && _); [by eapply give_up_ok|by eapply open_file_ok].
Qed.

(** C16: descriptors.  Let the count of every open file be the number of descriptors, of
    all processes, that refer to it.  Then so it is after [dup] and [pipe], which always
    return, and after [close], [open], [read] and [write], in whichever way they end:
    with a value, asleep, or stopped in the file system.  In particular every error path
    of [open] and [pipe] gives back what it took. *)
Theorem descriptors_exact s i p :
  caller_ok s i p -> fds_ok s ->
  (exists v s', sys_dup s = (Ok (Return v), s') /\ fds_ok s')
  /\ (exists v s', sys_pipe im s = (Ok (Return v), s') /\ fds_ok s')
  /\ (forall r s', sys_close im s = (r, s') -> fds_ok s')
  /\ (forall r s', sys_open im s = (r, s') -> fds_ok s')
  /\ (forall r s', sys_read im s = (r, s') -> fds_ok s')
  /\ (forall r s', sys_write im s = (r, s') -> fds_ok s').
Proof.
  intros Hco Hfd. split; [by eapply sys_dup_ok|]. split; [by eapply sys_pipe_ok|]. split; [intros r s'; by eapply sys_close_ok|].
  split; [intros r s'; by eapply sys_open_ok|]. split; [intros r s'; by eapply sys_read_ok|]. intros r s'. by eapply sys_write_ok.
Qed.
End Descriptors.

(** A process with one free page in the kernel, about to call [pipe], and then [dup]
    and [close] of the descriptor it got. *)
Module Run.
Definition im : image := mkImage demo_end 0x80108000 0 0 (fun _ => None) (fun _ => None).
Definition me : proc := set_tf (mkTf 0 0 0 0 0 0 0 0 4000 0) (set_sz 4096 (set_state RUNNING proc_zero)).
Definition start : sstate kern :=
  mkS (mkP (me :: replicate 63 proc_zero) [] 2 (Some 0%nat) (Some 0%nat) 0 true 0 0 0 0 [] small_kern) (fun a => if a =? 4005 then 8 else 0).

Lemma start_caller : caller_ok start 0 me.
Proof. split; [by split|]. split; [discriminate|]. vm_compute. discriminate. Qed.

Lemma start_fds : fds_ok im start.
Proof.
  split.
  - reflexivity.
  - apply Forall_cons. split; [reflexivity|]. apply Forall_replicate. reflexivity.
  - exists [0x80116000]. change (all_refs (ptable (ps start))) with (@nil nat). apply no_files_ok; [|apply one_page_ok].
    split; [done|]. split; [done|]. intros i x Hx. cbn in Hx. destruct i as [|[|[|[|i]]]]; cbn in Hx; [by injection Hx as <-..|done].
Qed.
End Run.

Lemma descriptors_exact_witness :
  (exists v s', sys_pipe Run.im Run.start = (Ok (Return v), s') /\ fds_ok Run.im s' /\ all_refs (ptable (ps s')) = [0%nat; 1%nat])
  /\ (exists v s', sys_dup Run.start = (Ok (Return v), s') /\ fds_ok Run.im s').
Proof.
  destruct (descriptors_exact Run.im Run.start 0 Run.me Run.start_caller Run.start_fds) as (H1 & (v & s' & H2 & H3) & _).
  split; [|exact H1]. exists v, s'. split; [exact H2|]. split; [exact H3|].
  assert (Hr : all_refs (ptable (ps (snd (sys_pipe Run.im Run.start)))) = [0%nat; 1%nat]) by (vm_compute; reflexivity).
  by rewrite H2 in Hr.
Defined.
