(* ===== verification/Ulib.v ===== *)
(** The C library of the user programs: [src/ulib.c] and [src/printf.c].

    A string that is only read is the list of the bytes from the pointer on; it
    ends at its first NUL or at the end of the list.  Routines that write take
    and return byte-addressed memory, as in [Kstring].  Output is the list of
    the bytes written. *)

From Stdlib Require Import ZArith Lia.
From stdpp Require Import base list strings.
From S2P Require Import Prelude Kstring.
Local Open Scope Z_scope.

(** ** Strings *)

Fixpoint strcmp (p q : list Z) : Z :=
  match p with
  | [] => u8 0 - u8 (hd 0 q)
  | x :: p' =>
      if nz x && (x =? hd 0 q) then strcmp p' (tl q) else u8 x - u8 (hd 0 q)
  end.

Fixpoint strlen (s : list Z) : Z :=
  match s with
  | [] => 0
  | x :: s' => if nz x then 1 + strlen s' else 0
  end.

(** The index of the first [c], where the code returns a pointer. *)
Fixpoint strchr (s : list Z) (c : Z) : option nat :=
  match s with
  | [] => None
  | x :: s' =>
      if nz x then if x =? c then Some 0%nat else S <$> strchr s' c else None
  end.

Fixpoint atoi_loop (s : list Z) (n : Z) : Z :=
  match s with
  | x :: s' => if (48 <=? x) && (x <=? 57) then atoi_loop s' (s32 (n * 10 + x - 48)) else n
  | [] => n
  end.
Definition atoi (s : list Z) : Z := atoi_loop s 0.

(** [strcpy] runs until it has copied the NUL; the fuel bounds the search. *)
Fixpoint strcpy (fuel : nat) (m : mem) (s t : Z) : option mem :=
  match fuel with
  | O => None
  | S k => let m' := upd m s (m t) in if m t =? 0 then Some m' else strcpy k m' (s + 1) (t + 1)
  end.

Definition memset (m : mem) (dst c n : Z) : mem := stosb m dst c (Z.to_nat n).

(** [memmove] of the library copies upwards only. *)
Fixpoint memmove_loop (m : mem) (dst src : Z) (n : nat) : mem :=
  match n with
  | O => m
  | S k => memmove_loop (upd m dst (m src)) (dst + 1) (src + 1) k
  end.
Definition memmove (m : mem) (dst src n : Z) : mem := memmove_loop m dst src (Z.to_nat n).

(** ** Input

    [rd] is [read(0, &c, 1)]: the byte read, or [None] at end of file or error. *)
Section Input.
Context {S : Type} (rd : S -> option Z * S).

Fixpoint gets_loop (fuel : nat) (max : Z) (i : Z) (acc : list Z) (s : S) : list Z * S :=
  match fuel with
  | O => (acc, s)
  | Datatypes.S k =>
      if i + 1 <? max then
        match rd s with
        | (None, s') => (acc, s')
        | (Some c, s') =>
            let acc' := acc ++ [c] in
            if (c =? 10) || (c =? 13) then (acc', s') else gets_loop k max (i + 1) acc' s'
        end
      else (acc, s)
  end.

(** The bytes put into the buffer, the terminating NUL included. *)
Definition gets (max : Z) (s : S) : list Z * S :=
  let '(l, s') := gets_loop (Z.to_nat max) max 0 [] s in (l ++ [0], s').

Context (open_ : list Z -> S -> Z * S) (fstat_ : Z -> S -> Z * S) (close_ : Z -> S -> Z * S).

Definition stat (n : list Z) (s : S) : Z * S :=
  let '(fd, s) := open_ n s in
  if fd <? 0 then (-1, s) else
  let '(r, s) := fstat_ fd s in
  let '(_, s) := close_ fd s in
  (r, s).
End Input.

(** ** Formatted output *)

Definition digits : list Z :=
  [48; 49; 50; 51; 52; 53; 54; 55; 56; 57; 65; 66; 67; 68; 69; 70].

(** The digits of [x], the least significant first.  The fuel is the size of the
    code's buffer: [digits_fit] shows that a 32-bit number needs less. *)
Fixpoint digits_loop (fuel : nat) (x base : Z) : list Z :=
  match fuel with
  | O => []
  | S k => nth (Z.to_nat (x mod base)) digits 0 :: (if x / base =? 0 then [] else digits_loop k (x / base) base)
  end.

Definition printint (xx base : Z) (sgn : bool) : list Z :=
  let neg := sgn && (xx <? 0) in
  let x := if neg then u32 (- xx) else u32 xx in
  rev (digits_loop 16 x base ++ (if neg then [45] else [])).

Definition null_text : list Z := [40; 110; 117; 108; 108; 41].

(** [printf]: [str] is the string at an address, [args] the words after the format
    string; a conversion without an argument has no defined result. *)
Section Printf.
Context (str : Z -> list Z).

Fixpoint printf_loop (state : bool) (fmt : list Z) (ap : list Z) : option (list Z) :=
  match fmt with
  | [] => Some []
  | c0 :: fmt' =>
      if c0 =? 0 then Some [] else
      let c := Z.land c0 255 in
      if negb state then
        if c =? 37 then printf_loop true fmt' ap
        else app [u8 c] <$> printf_loop false fmt' ap
      else if c =? 100 then
        match ap with a :: ap' => app (printint (s32 a) 10 true) <$> printf_loop false fmt' ap' | [] => None end
      else if (c =? 120) || (c =? 112) then
        match ap with a :: ap' => app (printint (s32 a) 16 false) <$> printf_loop false fmt' ap' | [] => None end
      else if c =? 115 then
        match ap with
        | a :: ap' => app (if a =? 0 then null_text else str a) <$> printf_loop false fmt' ap'
        | [] => None
        end
      else if c =? 99 then
        match ap with a :: ap' => app [u8 a] <$> printf_loop false fmt' ap' | [] => None end
      else if c =? 37 then app [u8 c] <$> printf_loop false fmt' ap
      else app [37; u8 c] <$> printf_loop false fmt' ap
  end.

Definition printf (fmt : list Z) (args : list Z) : option (list Z) := printf_loop false fmt args.
End Printf.

(** ** Printing and reading numbers *)

Lemma s32_step a b : s32 (s32 a * 10 + b) = s32 (a * 10 + b).
Proof.
  unfold s32. f_equal. pose proof (Z.div_mod (a + 2 ^ 31) (2 ^ 32) ltac:(lia)) as H.
  replace (((a + 2 ^ 31) mod 2 ^ 32 - 2 ^ 31) * 10 + b + 2 ^ 31)
    with (a * 10 + b + 2 ^ 31 + (- (10 * ((a + 2 ^ 31) / 2 ^ 32))) * 2 ^ 32) by lia.
  by rewrite Z_mod_plus_full.
Qed.

Lemma digit_char d : 0 <= d < 10 -> nth (Z.to_nat d) digits 0 = 48 + d.
Proof.
  intros H. destruct (Z.to_nat d) as [|[|[|[|[|[|[|[|[|[|n]]]]]]]]]] eqn:E; cbn; lia.
Qed.

(** Reading the printed digits of [x] after a number [n]. *)
Lemma atoi_digits fuel : forall x n rest,
  0 <= x < 10 ^ Z.of_nat fuel -> (0 < fuel)%nat ->
  exists k, atoi_loop (rev (digits_loop fuel x 10) ++ rest) (s32 n) = atoi_loop rest (s32 (n * 10 ^ k + x))
    /\ 0 < k <= Z.of_nat fuel /\ length (digits_loop fuel x 10) = Z.to_nat k /\ (x = 0 \/ 10 ^ (k - 1) <= x).
Proof.
  induction fuel as [|fuel IH]; intros x n rest Hx Hf; [lia|]. cbn [digits_loop].
  pose proof (Z.mod_pos_bound x 10 ltac:(lia)) as Hm. pose proof (Z.div_mod x 10 ltac:(lia)) as Hd.
  rewrite digit_char by done.
  assert (Hstep : forall y r, atoi_loop ((48 + x mod 10) :: r) (s32 y) = atoi_loop r (s32 (y * 10 + x mod 10))).
  { intros y r. cbn [atoi_loop]. rewrite (proj2 (Z.leb_le _ _)), (proj2 (Z.leb_le _ _)) by lia. cbn [andb].
    replace (s32 y * 10 + (48 + x mod 10) - 48) with (s32 y * 10 + x mod 10) by lia. by rewrite s32_step. }
  destruct (Z.eqb_spec (x / 10) 0) as [H0|H0].
  - exists 1. cbn [rev app length]. rewrite Hstep. split; [f_equal; f_equal; lia|]. split; [lia|]. split; [done|]. cbn. lia.
  - assert (Hq : 0 <= x / 10 < 10 ^ Z.of_nat fuel).
    { split; [apply Z.div_pos; lia|]. apply Z.div_lt_upper_bound; [lia|].
      replace (10 * 10 ^ Z.of_nat fuel) with (10 ^ Z.of_nat (S fuel)); [lia|].
      rewrite Nat2Z.inj_succ, Z.pow_succ_r by lia. done. }
    destruct fuel as [|fuel]; [cbn in Hq; lia|].
    destruct (IH (x / 10) n ((48 + x mod 10) :: rest) Hq ltac:(lia)) as (k & Hk & Hkr & Hkl & Hkx).
    exists (k + 1). cbn [rev]. rewrite <- app_assoc. cbn [app]. rewrite Hk, Hstep. split.
    + f_equal. f_equal. rewrite Z.pow_add_r by lia. lia.
    + split; [lia|]. split; [cbn [length]; rewrite Hkl; lia|]. right.
      destruct Hkx as [|Hkx]; [lia|]. replace (k + 1 - 1) with (k - 1 + 1) by lia. rewrite Z.pow_add_r by lia. lia.
Qed.

(** A 32-bit number has at most ten decimal digits. *)
Lemma digits_fit x : 0 <= x < 2 ^ 32 -> (length (digits_loop 16 x 10) <= 10)%nat.
Proof.
  intros Hx. destruct (atoi_digits 16 x 0 [] ltac:(cbn; lia) ltac:(lia)) as (k & _ & Hk & Hl & [->|Hx']); [change (1 <= 10)%nat; lia|].
  rewrite Hl. destruct (Z.le_gt_cases k 10) as [|Hk10]; [lia|].
  assert (10 ^ 10 <= 10 ^ (k - 1)) by (apply Z.pow_le_mono_r; lia). lia.
Qed.

(** printing and reading a number.  [%d] of any [int] prints a sign exactly when
    it is negative and then digits that [atoi] reads back as its magnitude, at most
    eleven bytes, so the 16-byte buffer is never overrun. *)
Theorem printint_atoi xx :
  - 2 ^ 31 <= xx < 2 ^ 31 ->
  exists ds, printint xx 10 true = (if xx <? 0 then [45] else []) ++ ds
    /\ atoi ds = s32 (Z.abs xx) /\ (length (printint xx 10 true) <= 11)%nat.
Proof.
  intros Hx. unfold printint. cbn [andb].
  assert (Hu : (if xx <? 0 then u32 (- xx) else u32 xx) = Z.abs xx) by (destruct (Z.ltb_spec xx 0); rewrite u32_id; lia).
  rewrite Hu. pose proof (digits_fit (Z.abs xx) ltac:(lia)) as Hl.
  destruct (atoi_digits 16 (Z.abs xx) 0 [] ltac:(cbn; lia) ltac:(lia)) as (k & Hk & _ & _ & _).
  exists (rev (digits_loop 16 (Z.abs xx) 10)). rewrite rev_app_distr, length_app, !length_rev. split.
  - by destruct (xx <? 0).
  - rewrite app_nil_r in Hk. split; [exact Hk|]. destruct (xx <? 0); cbn [length]; lia.
Qed.

Lemma printint_atoi_witness :
  exists ds, printint (- 2 ^ 31) 10 true = [45] ++ ds /\ atoi ds = - 2 ^ 31
    /\ (length (printint (- 2 ^ 31) 10 true) <= 11)%nat.
Proof. apply (printint_atoi (- 2 ^ 31)). split; [discriminate|reflexivity]. Defined.

(** Upward copying is a simultaneous copy unless it overruns its source. *)
Lemma memmove_disjoint m dst src n x :
  0 <= n -> dst <= src \/ src + n <= dst -> memmove m dst src n x = copied m dst src n x.
Proof.
  intros Hn Hd. unfold memmove. assert (E : forall k m d s, memmove_loop m d s k = copy_up m d s k).
  { induction k as [|k IH]; intros; [done|]. cbn. apply IH. }
  rewrite E. rewrite <- (Z2Nat.id n Hn) at 2. apply copy_up_spec. lia.
Qed.

(** [strchr] finds the first occurrence. *)
Lemma strchr_app l c s : c <> 0 -> Forall (fun x => x <> 0 /\ x <> c) l -> strchr (l ++ c :: s) c = Some (length l).
Proof.
  intros Hc H. induction H as [|x l [Hx Hxc] _ IH]; cbn.
  - unfold nz. rewrite (proj2 (Z.eqb_neq c 0) Hc), Z.eqb_refl. done.
  - unfold nz. rewrite (proj2 (Z.eqb_neq x 0) Hx), (proj2 (Z.eqb_neq x c) Hxc), IH. done.
Qed.

Lemma strchr_none l c : Forall (fun x => x <> 0 /\ x <> c) l -> strchr l c = None.
Proof.
  intros H. induction H as [|x l [Hx Hxc] _ IH]; [done|]. cbn.
  unfold nz. by rewrite (proj2 (Z.eqb_neq x 0) Hx), (proj2 (Z.eqb_neq x c) Hxc), IH.
Qed.

Definition text (s : list Z) : Prop := Forall (fun c => 0 < c < 256) s.

(** [strcmp] of two strings is zero exactly when they are equal. *)
Lemma strcmp_eq p : forall q, text p -> text q -> strcmp p q = 0 <-> p = q.
Proof.
  induction p as [|x p IH]; intros [|y q] Hp Hq; cbn [strcmp hd tl].
  - by cbn.
  - inversion Hq as [|? ? Hy]; subst. rewrite !u8_id by lia. split; [lia|done].
  - inversion Hp as [|? ? Hx]; subst. rewrite (proj2 (Z.eqb_neq x 0)), andb_false_r, !u8_id by lia. split; [lia|done].
  - inversion Hp as [|? ? Hx Hp']; subst. inversion Hq as [|? ? Hy Hq']; subst.
    unfold nz. rewrite (proj2 (Z.eqb_neq x 0)) by lia. cbn [negb andb]. destruct (Z.eqb_spec x y) as [->|Hne].
    + rewrite IH by done. split; congruence.
    + rewrite !u8_id by lia. split; [lia|congruence].
Qed.
