(* ===== verification/Grep.v ===== *)
(** The user program [grep], [src/grep.c].

    The matcher is translated as it is written; its meaning is given by a small
    language of patterns ([parse] and [lang]) that knows nothing of the
    matcher's recursion.  [grep] itself is the loop over a fixed buffer. *)

From Stdlib Require Import ZArith Lia.
From stdpp Require Import base list strings.
From S2P Require Import Prelude Ulib.
Local Open Scope Z_scope.

Abbreviation caret := 94. Abbreviation dot := 46. Abbreviation star := 42. Abbreviation dollar := 36.
Abbreviation newline := 10.

(** ** The matcher

    [text] is the bytes up to the NUL, [re] the pattern up to its NUL. *)

(** [matchstar(c, re, text)], with [here] the call [matchhere(re, _)]. *)
Fixpoint matchstar (here : list Z -> bool) (c : Z) (text : list Z) : bool :=
  if here text then true else
  match text with
  | [] => false
  | x :: text' => if (x =? c) || (c =? dot) then matchstar here c text' else false
  end.

Fixpoint matchhere (re text : list Z) {struct re} : bool :=
  match re with
  | [] => true
  | r0 :: re1 =>
      let literal :=
        if (r0 =? dollar) && (match re1 with [] => true | _ => false end) then
          match text with [] => true | _ => false end
        else
          match text with
          | x :: text' => if (r0 =? dot) || (r0 =? x) then matchhere re1 text' else false
          | [] => false
          end in
      match re1 with
      | r1 :: re2 => if r1 =? star then matchstar (matchhere re2) r0 text else literal
      | [] => literal
      end
  end.

(** The [do ... while] of [match]. *)
Fixpoint match_loop (re text : list Z) : bool :=
  if matchhere re text then true else
  match text with
  | [] => false
  | _ :: text' => match_loop re text'
  end.

Definition matches (re text : list Z) : bool :=
  match re with
  | r0 :: re' => if r0 =? caret then matchhere re' text else match_loop re text
  | [] => match_loop re text
  end.

(** ** The loop over the input

    [rd n] is [read(fd, _, n)]: the bytes read, none at end of file or error. *)

Definition bufsize : Z := 1024.

(** The loop over the lines of the buffer, [p] on: what is left after the last
    newline, whether [p] moved, and what was written. *)
Fixpoint lines_loop (fuel : nat) (pattern p : list Z) (moved : bool) (out : list Z) : list Z * bool * list Z :=
  match fuel with
  | O => (p, moved, out)
  | S k =>
      match strchr p newline with
      | None => (p, moved, out)
      | Some q =>
          let line := take q p in
          lines_loop k pattern (drop (S q) p) true
            (if matches pattern line then out ++ line ++ [newline] else out)
      end
  end.

Section Grep.
Context {St : Type} (rd : Z -> St -> list Z * St).

(** [buf] is the first [m] bytes of the buffer. *)
Fixpoint grep_loop (fuel : nat) (pattern : list Z) (buf : list Z) (out : list Z) (s : St) : option (list Z * St) :=
  match fuel with
  | O => None
  | S k =>
      let '(chunk, s') := rd (bufsize - Z.of_nat (length buf) - 1) s in
      match chunk with
      | [] => Some (out, s')
      | _ =>
          let data := buf ++ chunk in
          let '(p, moved, out') := lines_loop (S (length data)) pattern data false out in
          grep_loop k pattern (if moved : bool then p else []) out' s'
      end
  end.

Definition grep (fuel : nat) (pattern : list Z) (s : St) : option (list Z * St) :=
  grep_loop fuel pattern [] [] s.
End Grep.

(** [main]: the usage message, standard input, or the named files in turn; the
    result is what was written to the standard output and the standard error. *)
Definition usage : list Z :=
  [117; 115; 97; 103; 101; 58; 32; 103; 114; 101; 112; 32; 112; 97; 116; 116; 101; 114; 110; 32;
   91; 102; 105; 108; 101; 32; 46; 46; 46; 93; 10].
Definition cannot_open : list Z :=
  [103; 114; 101; 112; 58; 32; 99; 97; 110; 110; 111; 116; 32; 111; 112; 101; 110; 32].

Section Main.
Context (file : list Z -> option (list Z)) (stdin : list Z).

(** A file is read at its offset, as many bytes as are asked for if there are. *)
Definition rd_file (n : Z) (rest : list Z) : list Z * list Z :=
  (take (Z.to_nat n) rest, drop (Z.to_nat n) rest).

Fixpoint grep_files (pattern : list Z) (names : list (list Z)) : option (list Z) :=
  match names with
  | [] => Some []
  | n :: names' =>
      match file n with
      | None => Some (cannot_open ++ n ++ [newline])
      | Some c =>
          match grep rd_file (S (S (length c))) pattern c with
          | Some (out, _) => app out <$> grep_files pattern names'
          | None => None
          end
      end
  end.

Definition main (args : list (list Z)) : option (list Z) * list Z :=
  match args with
  | [] => (Some [], usage)
  | [pattern] => (fst <$> grep rd_file (S (S (length stdin))) pattern stdin, [])
  | pattern :: names => (grep_files pattern names, [])
  end.
End Main.

(** ** What a pattern means *)

Inductive item := One (c : Z) | Many (c : Z).
Record pat := mkPat { at_start : bool; items : list item; at_end : bool }.

Definition stands_for (c x : Z) : Prop := c = dot \/ c = x.

(** The words an item, and a sequence of items, describe. *)
Definition item_lang (i : item) (w : list Z) : Prop :=
  match i with
  | One c => exists x, w = [x] /\ stands_for c x
  | Many c => Forall (stands_for c) w
  end.
Fixpoint lang (l : list item) (w : list Z) : Prop :=
  match l with
  | [] => w = []
  | i :: l' => exists u v, w = u ++ v /\ item_lang i u /\ lang l' v
  end.

(** The part of the line a pattern describes may be anywhere, unless anchored. *)
Definition found (p : pat) (line : list Z) : Prop :=
  exists pre mid suf, line = pre ++ mid ++ suf /\ lang (items p) mid
    /\ (at_start p = true -> pre = []) /\ (at_end p = true -> suf = []).

(** The reading of a pattern: [c*] is [Many c], a final [$] and an initial [^] are
    anchors, every other byte stands for itself. *)
Fixpoint parse_items (re : list Z) : list item * bool :=
  match re with
  | [] => ([], false)
  | r0 :: re1 =>
      let single :=
        if (r0 =? dollar) && (match re1 with [] => true | _ => false end) then ([], true)
        else let '(l, e) := parse_items re1 in (One r0 :: l, e) in
      match re1 with
      | r1 :: re2 => if r1 =? star then let '(l, e) := parse_items re2 in (Many r0 :: l, e) else single
      | [] => single
      end
  end.

Definition parse (re : list Z) : pat :=
  match re with
  | r0 :: re' =>
      if r0 =? caret then let '(l, e) := parse_items re' in mkPat true l e
      else let '(l, e) := parse_items re in mkPat false l e
  | [] => mkPat false [] false
  end.

(** A word of the items at the front of the text. *)
Definition front (le : list item * bool) (text : list Z) : Prop :=
  exists w suf, text = w ++ suf /\ lang (fst le) w /\ (snd le = true -> suf = []).

Lemma matchstar_spec here c (P : list Z -> Prop) :
  (forall t, here t = true <-> P t) ->
  forall text, matchstar here c text = true <-> exists u v, text = u ++ v /\ Forall (stands_for c) u /\ P v.
Proof.
  intros H. induction text as [|x text IH]; cbn [matchstar].
  - destruct (here []) eqn:E.
    + split; [|done]. intros _. exists [], []. split; [done|]. split; [constructor|]. by apply H.
    + split; [done|]. intros (u & v & Huv & _ & Hv). symmetry in Huv. apply app_eq_nil in Huv as [-> ->].
      apply H in Hv. congruence.
  - destruct (here (x :: text)) eqn:E.
    + split; [|done]. intros _. exists [], (x :: text). split; [done|]. split; [constructor|]. by apply H.
    + assert (Hx : (x =? c) || (c =? dot) = true <-> stands_for c x).
      { unfold stands_for. rewrite orb_true_iff, !Z.eqb_eq. intuition. }
      split.
      * intros Hm. destruct ((x =? c) || (c =? dot)) eqn:Hc; [|done]. apply IH in Hm as (u & v & -> & Hu & Hv).
        exists (x :: u), v. split; [done|]. split; [constructor; [by apply Hx|done]|done].
      * intros (u & v & Huv & Hu & Hv). destruct u as [|y u]; cbn in Huv.
        -- subst v. apply H in Hv. congruence.
        -- injection Huv as <- ->. inversion Hu as [|? ? Hy Hu']; subst. rewrite (proj2 Hx Hy). apply IH. by exists u, v.
Qed.

Lemma front_many c l e text :
  front (Many c :: l, e) text <-> exists u v, text = u ++ v /\ Forall (stands_for c) u /\ front (l, e) v.
Proof.
  split.
  - intros (w & suf & -> & (u & v & -> & Hu & Hv) & He). exists u, (v ++ suf). split; [by rewrite app_assoc|].
    split; [done|]. by exists v, suf.
  - intros (u & v & -> & Hu & w & suf & -> & Hw & He). exists (u ++ w), suf. split; [by rewrite app_assoc|].
    split; [by exists u, w|done].
Qed.

Lemma front_one c l e text :
  front (One c :: l, e) text <-> exists x v, text = x :: v /\ stands_for c x /\ front (l, e) v.
Proof.
  split.
  - intros (w & suf & -> & (u & v & -> & (x & -> & Hx) & Hv) & He). exists x, (v ++ suf). split; [done|].
    split; [done|]. by exists v, suf.
  - intros (x & v & -> & Hx & w & suf & -> & Hw & He). exists (x :: w), suf. split; [done|].
    split; [exists [x], w; split; [done|]; split; [by exists x|done]|done].
Qed.

Lemma matchhere_literal r0 re1 text :
  (forall t, matchhere re1 t = true <-> front (parse_items re1) t) ->
  (if (r0 =? dollar) && (match re1 with [] => true | _ => false end) then
     match text with [] => true | _ => false end
   else match text with
        | x :: text' => if (r0 =? dot) || (r0 =? x) then matchhere re1 text' else false
        | [] => false end) = true
  <-> front (if (r0 =? dollar) && (match re1 with [] => true | _ => false end) then ([], true)
             else let '(l, e) := parse_items re1 in (One r0 :: l, e)) text.
Proof.
  intros IH. destruct ((r0 =? dollar) && _) eqn:Hd.
  - split.
    + destruct text; [|done]. intros _. by exists [], [].
    + intros (w & suf & -> & Hw & He). cbn in Hw. subst w. by rewrite (He eq_refl).
  - destruct (parse_items re1) as [l e]. rewrite front_one. split.
    + destruct text as [|x text]; [done|]. intros Hm. destruct ((r0 =? dot) || (r0 =? x)) eqn:Hx; [|done].
      apply orb_true_iff in Hx. rewrite !Z.eqb_eq in Hx. exists x, text. split; [done|]. split; [done|]. by apply IH.
    + intros (x & v & -> & Hx & Hv). unfold stands_for in Hx. apply IH in Hv.
      assert ((r0 =? dot) || (r0 =? x) = true) as -> by (rewrite orb_true_iff, !Z.eqb_eq; done). done.
Qed.

Lemma matchhere_spec_n n : forall re text, (length re <= n)%nat ->
  matchhere re text = true <-> front (parse_items re) text.
Proof.
  induction n as [|n IH]; intros [|r0 re1] text Hn; cbn [length] in Hn; try lia.
  - split; [|done]. intros _. by exists [], text.
  - split; [|done]. intros _. by exists [], text.
  - assert (IH1 : forall t, matchhere re1 t = true <-> front (parse_items re1) t) by (intros t; apply IH; lia).
    pose proof (matchhere_literal r0 re1 text IH1) as Hlit. cbn [matchhere parse_items].
    destruct re1 as [|r1 re2]; [exact Hlit|]. destruct (r1 =? star); [|exact Hlit].
    destruct (parse_items re2) as [l e] eqn:Hp. rewrite front_many. apply matchstar_spec.
    intros t. rewrite <- Hp. apply IH. cbn [length] in Hn. lia.
Qed.

Lemma match_loop_spec re text :
  match_loop re text = true <-> exists pre suf, text = pre ++ suf /\ front (parse_items re) suf.
Proof.
  assert (Hh : forall t, matchhere re t = true <-> front (parse_items re) t) by (intros t; by eapply matchhere_spec_n).
  induction text as [|x text IH]; cbn [match_loop].
  - destruct (matchhere re []) eqn:E.
    + split; [|done]. intros _. exists [], []. split; [done|]. by apply Hh.
    + split; [done|]. intros (pre & suf & Hps & Hf). symmetry in Hps. apply app_eq_nil in Hps as [-> ->].
      apply Hh in Hf. congruence.
  - destruct (matchhere re (x :: text)) eqn:E.
    + split; [|done]. intros _. exists [], (x :: text). split; [done|]. by apply Hh.
    + rewrite IH. split.
      * intros (pre & suf & -> & Hf). by exists (x :: pre), suf.
      * intros ([|y pre] & suf & Hps & Hf); cbn in Hps.
        -- subst suf. apply Hh in Hf. congruence.
        -- injection Hps as <- ->. by exists pre, suf.
Qed.

(** the matcher decides the pattern language: [match(re, line)] is true exactly
    when some part of the line is a word of the pattern, at the start of the
    line if the pattern begins with [^] and at its end if it ends in [$]. *)
Theorem match_correct re line : matches re line = true <-> found (parse re) line.
Proof.
  assert (F : forall b le t, found (mkPat b (fst le) (snd le)) t
              <-> exists pre suf, t = pre ++ suf /\ (b = true -> pre = []) /\ front le suf).
  { intros b le t. split.
    - intros (pre & mid & suf & -> & Hm & Hs & He). exists pre, (mid ++ suf). split; [done|]. split; [done|]. by exists mid, suf.
    - intros (pre & s & -> & Hb & mid & suf & -> & Hm & He). by exists pre, mid, suf. }
  assert (L : match_loop re line = true <-> found (let '(l, e) := parse_items re in mkPat false l e) line).
  { rewrite match_loop_spec. destruct (parse_items re) as [l e]. rewrite (F false (l, e)). 
    split; intros (pre & suf & -> & H); exists pre, suf; [done|]. by destruct H. }
  destruct re as [|r0 re]; [exact L|]. cbn [matches parse]. destruct (r0 =? caret); [|exact L].
  rewrite (matchhere_spec_n (length re) re line (Nat.le_refl _)). destruct (parse_items re) as [l e].
  rewrite (F true (l, e)). split.
  - intros Hf. by exists [], line.
  - intros (pre & suf & -> & Hb & Hf). by rewrite (Hb eq_refl).
Qed.

(** ** What [grep] writes *)

(** A line: no newline and no NUL in it. *)
Definition plain (l : list Z) : Prop := Forall (fun x => x <> 0 /\ x <> newline) l.

Definition unlines (ls : list (list Z)) : list Z := concat (map (fun l => l ++ [newline]) ls).

(** The lines that match, each with its newline. *)
Definition selected (pattern : list Z) (ls : list (list Z)) : list Z :=
  unlines (filter (fun l => matches pattern l = true) ls).

Lemma unlines_cons l ls : unlines (l :: ls) = l ++ newline :: unlines ls.
Proof. unfold unlines. cbn. by rewrite <- app_assoc. Qed.

Lemma unlines_app ls1 ls2 : unlines (ls1 ++ ls2) = unlines ls1 ++ unlines ls2.
Proof. unfold unlines. by rewrite map_app, concat_app. Qed.

Lemma selected_cons pattern l ls :
  selected pattern (l :: ls) = (if matches pattern l then l ++ [newline] else []) ++ selected pattern ls.
Proof.
  unfold selected. destruct (matches pattern l) eqn:E.
  - rewrite filter_cons_True by done. rewrite unlines_cons, <- app_assoc. done.
  - rewrite filter_cons_False by congruence. done.
Qed.

Lemma selected_app pattern ls1 ls2 : selected pattern (ls1 ++ ls2) = selected pattern ls1 ++ selected pattern ls2.
Proof. unfold selected. by rewrite filter_app, unlines_app. Qed.

Lemma lines_loop_run pattern ls : forall fuel t moved out,
  Forall plain ls -> plain t -> (length ls < fuel)%nat ->
  lines_loop fuel pattern (unlines ls ++ t) moved out
  = (t, moved || (match ls with [] => false | _ => true end), out ++ selected pattern ls).
Proof.
  induction ls as [|l ls IH]; intros [|fuel] t moved out Hls Ht Hf; cbn [length] in Hf; try lia; cbn [lines_loop].
  - cbn [unlines map concat app]. rewrite strchr_none by done. rewrite orb_false_r. unfold selected. cbn. by rewrite app_nil_r.
  - inversion Hls as [|? ? Hl Hls']; subst. rewrite unlines_cons, <- app_assoc. cbn [app].
    rewrite strchr_app by done. rewrite take_app_length, drop_app_ge by lia.
    replace (S (length l) - length l)%nat with 1%nat by lia. cbn [drop]. rewrite drop_0.
    rewrite IH by (done || lia). rewrite selected_cons, orb_true_r. cbn [orb]. f_equal.
    destruct (matches pattern l); cbn [app]; [|done]. by rewrite <- !app_assoc.
Qed.

(** A prefix of a sequence of lines: whole lines and a piece. *)
Lemma prefix_lines ls : forall d rest tl,
  Forall plain ls -> plain tl -> d ++ rest = unlines ls ++ tl ->
  exists ls1 ls2 t, ls = ls1 ++ ls2 /\ d = unlines ls1 ++ t /\ plain t /\ t ++ rest = unlines ls2 ++ tl.
Proof.
  induction ls as [|l ls IH]; intros d rest tl Hls Htl Hd.
  - exists [], [], d. cbn in *. split; [done|]. split; [done|]. split; [|done]. rewrite <- Hd in Htl. by apply Forall_app in Htl as [? _].
  - inversion Hls as [|? ? Hl Hls']; subst. rewrite unlines_cons, <- app_assoc in Hd. cbn [app] in Hd.
    assert (Hcut : forall k, l = d ++ k -> exists ls1 ls2 t, l :: ls = ls1 ++ ls2 /\ d = unlines ls1 ++ t /\ plain t
                   /\ t ++ rest = unlines ls2 ++ tl).
    { intros k Hk. exists [], (l :: ls), d. split; [done|]. split; [done|]. split.
      - rewrite Hk in Hl. by apply Forall_app in Hl as [? _].
      - by rewrite unlines_cons, <- app_assoc. }
    apply app_eq_inv in Hd as Hsplit. destruct Hsplit as [([|x k] & -> & Hk)|(k & Hk & _)].
    + apply (Hcut []). by rewrite !app_nil_r.
    + injection Hk as <- Hk. destruct (IH k rest tl Hls' Htl (eq_sym Hk)) as (ls1 & ls2 & t & -> & -> & Ht & Hr).
      exists (l :: ls1), ls2, t. split; [done|]. split; [by rewrite unlines_cons, <- app_assoc|]. done.
    + by apply (Hcut k).
Qed.

(** A piece that starts the remaining lines fits in the buffer. *)
Lemma piece_short ls t rest tl n :
  Forall plain ls -> Forall (fun l => (length l <= n)%nat) ls -> (length tl <= n)%nat -> plain t ->
  t ++ rest = unlines ls ++ tl -> (length t <= n)%nat.
Proof.
  intros Hp Hn Htl Ht Heq. destruct ls as [|l ls].
  - cbn in Heq. apply (f_equal length) in Heq. rewrite length_app in Heq. lia.
  - inversion Hn as [|? ? Hl]; subst. rewrite unlines_cons, <- app_assoc in Heq. cbn [app] in Heq.
    destruct (decide (length t <= length l)%nat) as [|Hgt]; [lia|]. exfalso.
    assert (Hnl : t !! length l = Some newline).
    { rewrite <- (lookup_app_l t rest) by lia. rewrite Heq, lookup_app_r, Nat.sub_diag by lia. done. }
    unfold plain in Ht. rewrite Forall_lookup in Ht. by destruct (Ht _ _ Hnl) as [_ ?].
Qed.

(** ** Readers that bring whole lines

    [read] for [grep]: [rest s] is the input still to come.  A read brings some of
    it unless there is none, at most what is asked for, and it ends inside a line
    only when it fills the request or nothing follows.  Regular files and the
    console read like this; a pipe does when its writers write whole lines. *)
Class LineReader {St} (rd : Z -> St -> list Z * St) (rest : St -> list Z) (good : St -> Prop) := {
  reads_next n s : good s -> 0 < n ->
    exists chunk s', rd n s = (chunk, s') /\ good s' /\ rest s = chunk ++ rest s'
      /\ Z.of_nat (length chunk) <= n /\ (chunk = [] -> rest s = [])
      /\ (rest s' = [] \/ Z.of_nat (length chunk) = n \/ newline ∈ chunk);
}.

#[export] Instance file_reader : LineReader rd_file (fun rest => rest) (fun _ => True).
Proof.
  split. intros n s _ Hn. exists (take (Z.to_nat n) s), (drop (Z.to_nat n) s).
  split; [done|]. split; [done|]. split; [by rewrite take_drop|].
  split; [rewrite length_take; lia|]. split.
  - destruct s; [done|]. destruct (Z.to_nat n) eqn:E; [lia|done].
  - destruct (decide (length s <= Z.to_nat n)%nat).
    + left. by apply drop_ge.
    + right; left. rewrite length_take. lia.
Qed.

(** A reader that returns what has arrived at a time, as a pipe or the console
    does; what was not asked for stays. *)
Definition rd_chunks (n : Z) (cs : list (list Z)) : list Z * list (list Z) :=
  match cs with
  | [] => ([], [])
  | c :: cs' => if Z.of_nat (length c) <=? n then (c, cs') else (take (Z.to_nat n) c, drop (Z.to_nat n) c :: cs')
  end.

(** Every arrival but the last ends a line. *)
Fixpoint line_chunks (cs : list (list Z)) : Prop :=
  match cs with
  | [] => True
  | c :: cs' => c <> [] /\ (cs' = [] \/ last c = Some newline) /\ line_chunks cs'
  end.

#[export] Instance chunks_reader : LineReader rd_chunks (@concat Z) line_chunks.
Proof.
  split. intros n [|c cs] Hg Hn.
  - exists [], []. repeat split; simpl; auto; lia.
  - destruct Hg as (Hc & Hl & Hg). cbn [rd_chunks].
    destruct (Z.leb_spec (Z.of_nat (length c)) n) as [Hle|Hgt].
    + exists c, cs. do 3 (split; [done|]). split; [done|]. split; [done|].
      destruct Hl as [-> | Hl]; [by left|]. right; right.
      apply last_Some in Hl as [l' ->]. apply elem_of_app. right. by apply list_elem_of_singleton.
    + exists (take (Z.to_nat n) c), (drop (Z.to_nat n) c :: cs). split; [done|].
      assert (Hd : drop (Z.to_nat n) c <> []).
      { intros H%(f_equal length). rewrite length_drop in H. simpl in H. lia. }
      split; [split; [done|split; [|done]]|].
      { destruct Hl as [?|Hl]; [by left|right]. rewrite last_lookup in *. rewrite lookup_drop, length_drop.
        rewrite <- Hl. f_equal. lia. }
      split; [cbn [concat]; by rewrite app_assoc, take_drop|]. rewrite length_take.
      split; [lia|]. split; [|right; left; lia].
      intros H%(f_equal length). rewrite length_take in H. simpl in H. lia.
Qed.

Lemma length_unlines ls : (length ls <= length (unlines ls))%nat.
Proof. induction ls; [cbn; lia|]. rewrite unlines_cons, length_app. cbn [length]. lia. Qed.

(** Complete lines and a piece of one hold a newline only in the complete lines. *)
Lemma newline_complete ls t : plain t -> newline ∈ unlines ls ++ t -> ls <> [].
Proof.
  intros Ht Hin ->. cbn in Hin. unfold plain in Ht. rewrite Forall_forall in Ht. by destruct (Ht _ Hin).
Qed.

Lemma no_lines ls tl : plain (unlines ls ++ tl) -> ls = [].
Proof.
  destruct ls as [|l ls]; [done|]. rewrite unlines_cons, <- app_assoc. intros [_ H]%Forall_app.
  inversion H as [|? ? [_ ?]]; done.
Qed.

Section Selects.
Context {St : Type} (rd : Z -> St -> list Z * St) (rest : St -> list Z) (good : St -> Prop).
Context {LR : LineReader rd rest good}.

Lemma grep_loop_run pattern fuel : forall buf s out ls tl,
  good s -> plain buf -> Forall plain ls -> plain tl -> buf ++ rest s = unlines ls ++ tl ->
  Forall (fun l => (length l <= 1022)%nat) ls -> (length tl <= 1022)%nat -> (length (rest s) < fuel)%nat ->
  exists s', grep_loop rd fuel pattern buf out s = Some (out ++ selected pattern ls, s') /\ good s' /\ rest s' = [].
Proof.
  induction fuel as [|fuel IH]; intros buf s out ls tl Hg Hb Hls Htl Heq Hn Hnt Hf; [lia|]. cbn [grep_loop].
  pose proof (piece_short ls buf (rest s) tl 1022 Hls Hn Hnt Hb Heq) as Hbl.
  destruct (reads_next (bufsize - Z.of_nat (length buf) - 1) s Hg) as (chunk & s1 & -> & Hg1 & Hs & Hlen & Hnil & Hend);
    [unfold bufsize; lia|]. unfold bufsize in *.
  destruct chunk as [|c0 chunk0] eqn:Hc.
  { exists s1. rewrite (Hnil eq_refl) in Heq. rewrite app_nil_r in Heq. rewrite Heq in Hb. rewrite (no_lines _ _ Hb).
    rewrite (Hnil eq_refl) in Hs. unfold selected. cbn in *. by rewrite app_nil_r. }
  rewrite <- Hc in *. assert (Hpos : (0 < length chunk)%nat) by (rewrite Hc; cbn; lia). clear c0 chunk0 Hc Hnil.
  rewrite Hs, app_assoc in Heq. rewrite Hs, length_app in Hf.
  destruct (prefix_lines ls _ _ tl Hls Htl Heq) as (ls1 & ls2 & t & -> & Hd & Ht & Hr).
  apply Forall_app in Hls as [Hls1 Hls2]. apply Forall_app in Hn as [_ Hn2].
  rewrite Hd, lines_loop_run by (done || (rewrite length_app; pose proof (length_unlines ls1); lia)).
  cbn [orb]. rewrite selected_app, app_assoc.
  destruct ls1 as [|l1 ls1]; [|apply (IH t _ _ ls2 tl); done || lia].
  assert (Hfull : rest s1 = []).
  { destruct Hend as [?|[Hend|Hin]]; [done| |].
    - pose proof (piece_short ls2 t _ tl 1022 Hls2 Hn2 Hnt Ht Hr) as Hlt.
      apply (f_equal length) in Hd. rewrite !length_app in Hd. cbn in Hd. lia.
    - exfalso. eapply (newline_complete [] t Ht); [|done]. rewrite <- Hd. apply elem_of_app. by right. }
  rewrite Hfull, app_nil_r in Hr. rewrite Hr in Ht. rewrite (no_lines _ _ Ht).
  apply (IH [] s1 _ [] []); try done; try constructor; rewrite ?Hfull; cbn; lia || done.
Qed.

(** C35: what [grep] writes, for input whose lines hold no NUL and fit in the
    buffer (at most 1022 bytes) and whose reads end inside a line only when they
    fill the request or bring the last of the input: exactly the lines that match,
    in order, each with its newline; bytes after the last newline are not a line.
    The loop ends, all the input being read: one turn more than the input has
    bytes is enough. *)
Theorem grep_selects pattern s ls tl :
  good s -> rest s = unlines ls ++ tl ->
  Forall plain ls -> plain tl -> Forall (fun l => (length l <= 1022)%nat) ls -> (length tl <= 1022)%nat ->
  exists s', grep rd (S (length (rest s))) pattern s = Some (selected pattern ls, s') /\ rest s' = [].
Proof.
  intros Hg Hs Hls Htl Hn Hnt. unfold grep.
  destruct (grep_loop_run pattern (S (length (rest s))) [] s [] ls tl) as (s' & E & _ & Hr); try done; [constructor|lia|].
  eauto.
Qed.
End Selects.

(** The lines "foo" and "bar": in a file, and arriving one by one. *)
Lemma grep_selects_witness :
  grep rd_file 9 [94; 102] [102; 111; 111; 10; 98; 97; 114; 10] = Some ([102; 111; 111; 10], [])
  /\ (exists s', grep rd_file 9 [94; 102] (unlines [[102; 111; 111]; [98; 97; 114]] ++ []) = Some ([102; 111; 111; 10], s') /\ s' = [])
  /\ exists s', grep rd_chunks 9 [94; 102] [[102; 111; 111; 10]; [98; 97; 114; 10]] = Some ([102; 111; 111; 10], s') /\ concat s' = [].
Proof.
  split; [reflexivity|]. split.
  - apply (grep_selects rd_file (fun r => r) (fun _ => True) [94; 102]
             (unlines [[102; 111; 111]; [98; 97; 114]] ++ []) [[102; 111; 111]; [98; 97; 114]] []);
      [done|reflexivity|repeat constructor; lia..].
  - apply (grep_selects rd_chunks (@concat Z) line_chunks [94; 102] [[102; 111; 111; 10]; [98; 97; 114; 10]] [[102; 111; 111]; [98; 97; 114]] []);
      [repeat split; auto|reflexivity|repeat constructor; lia..].
Defined.

(** a line that arrives in two reads is lost: when a read brings no newline, the
    code resets [m] and forgets what it has read, so "fo" then "o\n" does not
    match "foo" although the line does. *)
Theorem grep_loses_split_lines :
  grep rd_chunks 10 [102; 111; 111] [[102; 111; 111; 10]] = Some ([102; 111; 111; 10], [])
  /\ grep rd_chunks 10 [102; 111; 111] [[102; 111]; [111; 10]] = Some ([], []).
Proof. split; reflexivity. Qed.
