(* ===== verification/Umalloc.v ===== *)
(** The memory allocator of the user programs, [src/umalloc.c].

    The headers are kept by address; a pointer to a [Header] moves by
    [sizeof(Header)], 8 bytes.  [base] is the address of the static header that
    starts the free list, and [sbrk] the system call.  The loops take a fuel that
    bounds the nodes they visit; the theorems say how much is enough. *)

From Stdlib Require Import ZArith Lia.
From stdpp Require Import base list strings gmap.
From S2P Require Import Prelude.
Local Open Scope Z_scope.

(** [union header]. *)
Record header := mkHdr { ptr : Z; hsize : Z }.

Definition hset (h : Z -> header) (a : Z) (v : header) : Z -> header :=
  fun x => if x =? a then v else h x.

Record ustate (S : Type) := mkU { hdr : Z -> header; freep : Z; os : S }.
Arguments mkU {S}. Arguments hdr {S}. Arguments freep {S}. Arguments os {S}.

(** [p + n] on pointers to headers. *)
Definition padd (p n : Z) : Z := u32 (p + 8 * n).

Section Allocator.
Context {S : Type} (base : Z) (sbrk : Z -> S -> Z * S).
Abbreviation UM := (M (ustate S)).
Implicit Types s : ustate S.

Definition set_ptr (a v : Z) : UM unit :=
  modify (fun s => mkU (hset (hdr s) a (mkHdr v (hsize (hdr s a)))) (freep s) (os s)).
Definition set_size (a v : Z) : UM unit :=
  modify (fun s => mkU (hset (hdr s) a (mkHdr (ptr (hdr s a)) v)) (freep s) (os s)).
Definition set_freep (a : Z) : UM unit := modify (fun s => mkU (hdr s) a (os s)).

(** The loop of [free]: the node after which [bp] belongs. *)
Fixpoint free_find (fuel : nat) (bp p : Z) : UM Z :=
  match fuel with
  | O => spin
  | Datatypes.S k =>
      s <- get ;;
      let nx := ptr (hdr s p) in
      if (p <? bp) && (bp <? nx) then ret p
      else if (nx <=? p) && ((p <? bp) || (bp <? nx)) then ret p
      else free_find k bp nx
  end.

Definition free (fuel : nat) (ap : Z) : UM unit :=
  let bp := padd ap (-1) in
  s <- get ;;
  p <- free_find fuel bp (freep s) ;;
  s <- get ;;
  (if padd bp (hsize (hdr s bp)) =? ptr (hdr s p) then
     set_size bp (u32 (hsize (hdr s bp) + hsize (hdr s (ptr (hdr s p))))) ;;
     s <- get ;;
     set_ptr bp (ptr (hdr s (ptr (hdr s p))))
   else set_ptr bp (ptr (hdr s p))) ;;
  s <- get ;;
  (if padd p (hsize (hdr s p)) =? bp then
     set_size p (u32 (hsize (hdr s p) + hsize (hdr s bp))) ;;
     s <- get ;;
     set_ptr p (ptr (hdr s bp))
   else set_ptr p bp) ;;
  set_freep p.

(** The result is [freep], or 0. *)
Definition morecore (fuel : nat) (nu : Z) : UM Z :=
  let nu := if nu <? 4096 then 4096 else nu in
  s <- get ;;
  let '(p, o) := sbrk (u32 (nu * 8)) (os s) in
  modify (fun s => mkU (hdr s) (freep s) o) ;;
  if p =? u32 (-1) then ret 0 else
  set_size p nu ;;
  free fuel (padd p 1) ;;
  gets freep.

(** The loop of [malloc], at [prevp] and [p]. *)
Fixpoint malloc_loop (ffuel fuel : nat) (nunits prevp p : Z) : UM Z :=
  match fuel with
  | O => spin
  | Datatypes.S k =>
      s <- get ;;
      if nunits <=? hsize (hdr s p) then
        q <- (if hsize (hdr s p) =? nunits then set_ptr prevp (ptr (hdr s p)) ;; ret p
              else
                set_size p (u32 (hsize (hdr s p) - nunits)) ;;
                s <- get ;;
                let q := padd p (hsize (hdr s p)) in
                set_size q nunits ;;
                ret q) ;;
        set_freep prevp ;;
        ret (padd q 1)
      else
        if p =? freep s then
          p <- morecore ffuel nunits ;;
          if p =? 0 then ret 0 else
          s <- get ;;
          malloc_loop ffuel k nunits p (ptr (hdr s p))
        else malloc_loop ffuel k nunits p (ptr (hdr s p))
  end.

Definition nunits_of (nbytes : Z) : Z := u32 (u32 (nbytes + 8 - 1) / 8 + 1).

Definition malloc (fuel : nat) (nbytes : Z) : UM Z :=
  let nunits := nunits_of nbytes in
  s <- get ;;
  (if freep s =? 0 then
     set_ptr base base ;;
     set_freep base ;;
     set_size base 0
   else ret tt) ;;
  s <- get ;;
  let prevp := freep s in
  malloc_loop fuel fuel nunits prevp (ptr (hdr s prevp)).
End Allocator.

(** ** Blocks

    A block is its address and its size in units of 8 bytes, the header
    included. *)

Abbreviation blk := (Z * Z)%type.
Definition fin (x : blk) : Z := x.1 + 8 * x.2.
Definition before (x y : blk) : Prop := fin x < y.1.
Definition disjoint (x y : blk) : Prop := fin x <= y.1 \/ fin y <= x.1.

Fixpoint sorted (l : list blk) : Prop :=
  match l with
  | [] => True
  | x :: l' => Forall (before x) l' /\ sorted l'
  end.

Lemma sorted_app l1 l2 :
  sorted (l1 ++ l2) <-> sorted l1 /\ sorted l2 /\ forall x y, x ∈ l1 -> y ∈ l2 -> before x y.
Proof.
  induction l1 as [|x l1 IH]; cbn.
  - split; [|tauto]. intros H. repeat split; [done|]. by intros x y ?%not_elem_of_nil.
  - rewrite IH, Forall_app. split.
    + intros ((H1 & H2) & H3 & H4 & H5). repeat split; try done. intros z y Hz Hy.
      apply elem_of_cons in Hz as [->|Hz]; [|by apply H5]. by apply (proj1 (Forall_forall _ _) H2).
    + intros ((H1 & H2) & H3 & H4). repeat split; try done.
      * apply Forall_forall. intros y Hy. apply H4; [left|done].
      * intros z y Hz Hy. apply H4; [by right|done].
Qed.

Definition units (l : list blk) : Z := foldr (fun x z => x.2 + z) 0 l.

Lemma units_app l1 l2 : units (l1 ++ l2) = units l1 + units l2.
Proof. induction l1 as [|x l1 IH]; cbn in *; [done|]. unfold units in *. lia. Qed.

(** The first address of a list, or [e]. *)
Definition hd_addr (l : list blk) (e : Z) : Z := match l with [] => e | x :: _ => x.1 end.

(** The headers link the blocks of [l], the last one to [e]. *)
Fixpoint linked (h : Z -> header) (l : list blk) (e : Z) : Prop :=
  match l with
  | [] => True
  | x :: l' => hsize (h x.1) = x.2 /\ ptr (h x.1) = hd_addr l' e /\ linked h l' e
  end.

Lemma linked_app h l1 l2 e : linked h (l1 ++ l2) e <-> linked h l1 (hd_addr l2 e) /\ linked h l2 e.
Proof.
  induction l1 as [|x l1 IH]; cbn; [tauto|]. rewrite IH. destruct l1; cbn; tauto.
Qed.

Lemma linked_ext h h' l e : (forall x, x ∈ l -> h' x.1 = h x.1) -> linked h l e -> linked h' l e.
Proof.
  induction l as [|x l IH]; [done|]. intros H (H1 & H2 & H3). cbn. rewrite H by left.
  repeat split; try done. apply IH; [|done]. intros y Hy. apply H. by right.
Qed.

Lemma linked_size h l e x : linked h l e -> x ∈ l -> hsize (h x.1) = x.2.
Proof.
  induction l as [|y l IH]; [by intros _ ?%not_elem_of_nil|]. intros (H1 & _ & H3) [->|H]%elem_of_cons; [done|by apply IH].
Qed.

Lemma hset_eq h a v : hset h a v a = v.
Proof. unfold hset. by rewrite Z.eqb_refl. Qed.

Lemma hset_ne h a v x : x <> a -> hset h a v x = h x.
Proof. intros H. unfold hset. by rewrite (proj2 (Z.eqb_neq _ _) H). Qed.

Lemma padd_id p n : 0 <= p + 8 * n < 2 ^ 32 -> padd p n = p + 8 * n.
Proof. apply u32_id. Qed.

(** The blocks below and above an address outside them. *)
Lemma split_at (l : list blk) a :
  sorted l -> Forall (fun y => 0 <= y.2) l -> (forall y, y ∈ l -> y.1 <> a) ->
  exists l1 l2, l = l1 ++ l2 /\ Forall (fun y => y.1 < a) l1 /\ Forall (fun y => a < y.1) l2.
Proof.
  induction l as [|x l IH]; intros Hs Hp Ha.
  { exists [], []. split; [done|]. split; constructor. }
  destruct Hs as [Hx Hs]. apply Forall_cons in Hp as [Hpx Hp].
  destruct (Z.lt_trichotomy x.1 a) as [Hlt|[Heq|Hgt]].
  - destruct IH as (l1 & l2 & -> & H1 & H2); [done|done|intros y Hy; apply Ha; by right|].
    exists (x :: l1), l2. split; [done|]. split; [by constructor|done].
  - exfalso. by apply (Ha x); [left|].
  - exists [], (x :: l). split; [done|]. split; [constructor|]. constructor; [done|].
    eapply Forall_impl; [exact Hx|]. intros y Hy. unfold before, fin in Hy. cbn in Hy. lia.
Qed.

Section Proofs.
Context {S : Type} (base : Z) (sbrk : Z -> S -> Z * S) (brk : S -> Z).
Implicit Types s : ustate S.

(** *** The search of [free] *)

Definition stops (h : Z -> header) (bp p : Z) : bool :=
  let nx := ptr (h p) in
  ((p <? bp) && (bp <? nx)) || ((nx <=? p) && ((p <? bp) || (bp <? nx))).

Lemma free_find_eq k bp p s :
  free_find (Datatypes.S k) bp p s = if stops (hdr s) bp p then (Ok p, s) else free_find k bp (ptr (hdr s p)) s.
Proof.
  cbn [free_find]. rewrite (bind_ok get _ s s s eq_refl). unfold stops.
  destruct ((p <? bp) && (bp <? ptr (hdr s p))); [done|]. cbn [orb].
  by destruct ((ptr (hdr s p) <=? p) && ((p <? bp) || (bp <? ptr (hdr s p)))).
Qed.

Lemma find_skip seg e f bp s :
  linked (hdr s) seg e -> Forall (fun x => stops (hdr s) bp x.1 = false) seg ->
  free_find (length seg + f) bp (hd_addr seg e) s = free_find f bp e s.
Proof.
  revert e. induction seg as [|x seg IH]; intros e Hl Hf; [done|].
  destruct Hl as (H1 & H2 & H3). apply Forall_cons in Hf as [Hx Hf].
  cbn [length Nat.add hd_addr]. rewrite free_find_eq, Hx, H2. by apply IH.
Qed.

Lemma below_go h l1 p l2 e bp :
  sorted (l1 ++ p :: l2) -> Forall (fun y => 0 <= y.2) (l1 ++ p :: l2) -> linked h (l1 ++ p :: l2) e ->
  p.1 < bp -> Forall (fun y => y.1 < bp) l1 -> Forall (fun x => stops h bp x.1 = false) l1.
Proof.
  induction l1 as [|x l1 IH]; intros Hs Hz Hl Hp Hb; [constructor|].
  destruct Hs as [Hx Hs], Hl as (_ & Hn & Hl). apply Forall_cons in Hz as [Hz0 Hz], Hb as [Hxb Hb].
  constructor; [|by apply IH]. unfold stops. rewrite Hn.
  assert (x.1 < hd_addr (l1 ++ p :: l2) e < bp) as [Ha Hc].
  { destruct l1 as [|y l1]; cbn in *; apply Forall_cons in Hx as [Hx _]; unfold before, fin in Hx; [lia|].
    apply Forall_cons in Hb as [Hb _]. lia. }
  rewrite (proj2 (Z.ltb_ge bp _)), (proj2 (Z.leb_gt _ _)) by lia. by rewrite andb_false_r.
Qed.

Lemma above_go h l2 e bp :
  sorted l2 -> Forall (fun y => 0 <= y.2) l2 -> linked h l2 e -> e < bp ->
  Forall (fun y => bp < y.1) l2 -> Forall (fun x => stops h bp x.1 = false) l2.
Proof.
  induction l2 as [|x l2 IH]; intros Hs Hz Hl He Hb; [constructor|].
  destruct Hs as [Hx Hs], Hl as (_ & Hn & Hl). apply Forall_cons in Hz as [Hz0 Hz], Hb as [Hxb Hb].
  constructor; [|by apply IH]. unfold stops. rewrite Hn, (proj2 (Z.ltb_ge x.1 bp)) by lia. cbn [andb orb].
  destruct l2 as [|y l2]; cbn [hd_addr].
  - rewrite (proj2 (Z.ltb_ge bp e)) by lia. by rewrite andb_false_r.
  - apply Forall_cons in Hx as [Hx _]. unfold before, fin in Hx. rewrite (proj2 (Z.leb_gt _ _)) by lia. done.
Qed.

Lemma elem_addr_split (l : list blk) f :
  f ∈ map fst l -> exists l1 x l2, l = l1 ++ x :: l2 /\ x.1 = f.
Proof.
  intros H. apply list_elem_of_fmap in H as (x & -> & H). apply list_elem_of_split in H as (l1 & l2 & ->). by exists l1, x, l2.
Qed.

(** Wherever the search starts, it finds the last free block below [bp]. *)
Lemma find_run l1 p l2 e bp s fuel :
  let l := l1 ++ p :: l2 in
  sorted l -> Forall (fun y => 0 <= y.2) l -> linked (hdr s) l e -> e = hd_addr l e -> e <= p.1 ->
  Forall (fun y => y.1 < bp) l1 -> p.1 < bp -> Forall (fun y => bp < y.1) l2 ->
  freep s ∈ map fst l -> (length l < fuel)%nat ->
  free_find fuel bp (freep s) s = (Ok p.1, s).
Proof.
  intros l Hs Hz Hl He Hep H1 Hp H2 Hf Hfuel.
  pose proof (below_go _ _ _ _ _ _ Hs Hz Hl Hp H1) as G1.
  pose proof Hl as Hl'. apply linked_app in Hl' as [L1 (Lp1 & Lp2 & L2)]. cbn [hd_addr] in L1.
  pose proof (proj1 (sorted_app _ _) Hs) as (S1 & (Sp & S2) & Sb).
  apply Forall_app in Hz as [Z1 Zp]. apply Forall_cons in Zp as [Zp Z2].
  pose proof (above_go (hdr s) l2 e bp S2 Z2 L2 ltac:(lia) H2) as G2.
  assert (stops (hdr s) bp p.1 = true) as Gp.
  { unfold stops. rewrite Lp2. destruct l2 as [|y l2]; cbn [hd_addr].
    - rewrite (proj2 (Z.leb_le _ _)), (proj2 (Z.ltb_lt p.1 bp)) by lia. by rewrite orb_true_r.
    - apply Forall_cons in H2 as [H2 _]. by rewrite !(proj2 (Z.ltb_lt _ _)) by lia. }
  assert (forall f, free_find (Datatypes.S f) bp p.1 s = (Ok p.1, s)) as Fp by (intros; by rewrite free_find_eq, Gp).
  unfold l in *. rewrite map_app, elem_of_app in Hf. cbn [map] in Hf. rewrite elem_of_cons in Hf.
  rewrite length_app in Hfuel. cbn [length] in Hfuel.
  destruct Hf as [Hf|[->|Hf]].
  - destruct (elem_addr_split _ _ Hf) as (a & x & b & -> & <-). rewrite length_app in Hfuel. cbn [length] in Hfuel.
    apply linked_app in L1 as [_ L1]. apply Forall_app in G1 as [_ G1].
    replace fuel with (length (x :: b) + Datatypes.S (fuel - length (x :: b) - 1))%nat by (cbn [length]; lia).
    change x.1 with (hd_addr (x :: b) p.1). rewrite find_skip by done. apply Fp.
  - destruct fuel; [lia|]. apply Fp.
  - destruct (elem_addr_split _ _ Hf) as (a & x & b & -> & <-). rewrite length_app in Hfuel. cbn [length] in Hfuel.
    apply linked_app in L2 as [_ L2]. apply Forall_app in G2 as [_ G2].
    replace fuel with (length (x :: b) + (length l1 + Datatypes.S (fuel - length (x :: b) - length l1 - 1)))%nat
      by (cbn [length]; lia).
    change x.1 with (hd_addr (x :: b) e). rewrite find_skip by done.
    replace (free_find _ bp e s) with
      (free_find (length l1 + Datatypes.S (fuel - length (x :: b) - length l1 - 1)) bp (hd_addr l1 p.1) s).
    + rewrite find_skip by done. apply Fp.
    + f_equal. rewrite He. by destruct l1.
Qed.

(** *** The invariant

    [bs] are the free blocks in the order of their addresses, [us] the blocks in
    use.  They do not overlap, free blocks do not even touch, the headers of the
    free ones form the circular list from [base], and [freep] is on it. *)
Record wf s (bs : list blk) (us : gmap Z Z) : Prop := {
  wf_freep : freep s ∈ map fst ((base, 0) :: bs);
  wf_link : linked (hdr s) ((base, 0) :: bs) base;
  wf_sorted : sorted ((base, 0) :: bs);
  wf_brk : 0 < base /\ base + 8 <= brk (os s) < 2 ^ 32;
  wf_free : Forall (fun x => 1 <= x.2 /\ base + 8 <= x.1 /\ fin x <= brk (os s)) bs;
  wf_used : forall a n, us !! a = Some n ->
    1 <= n /\ base + 8 <= a /\ fin (a, n) <= brk (os s) /\ hsize (hdr s a) = n
    /\ forall x, x ∈ bs -> disjoint (a, n) x;
  wf_apart : forall a n a' n', us !! a = Some n -> us !! a' = Some n' -> a <> a' -> disjoint (a, n) (a', n');
}.

(** A block that is neither free nor in use. *)
Record loose s (bs : list blk) (us : gmap Z Z) (a n : Z) : Prop := {
  lo_pos : 1 <= n;
  lo_low : base + 8 <= a;
  lo_high : fin (a, n) <= brk (os s);
  lo_size : hsize (hdr s a) = n;
  lo_free : forall x, x ∈ bs -> disjoint (a, n) x;
  lo_used : forall a' n', us !! a' = Some n' -> disjoint (a, n) (a', n');
}.

(** Joining block [(a, n)] with a free block right behind it, and then with one
    right before it. *)
Definition join_up (a n : Z) (l2 : list blk) : Z * list blk :=
  match l2 with
  | [] => (n, [])
  | y :: l3 => if a + 8 * n =? y.1 then (n + y.2, l3) else (n, l2)
  end.

Definition join_down (p : blk) (a n : Z) (l2 : list blk) : list blk :=
  if fin p =? a then (p.1, p.2 + n) :: l2 else p :: (a, n) :: l2.

Lemma join_up_run a n p l2 s :
  linked (hdr s) l2 base -> ptr (hdr s p) = hd_addr l2 base -> hsize (hdr s a) = n ->
  0 <= a + 8 * n < 2 ^ 32 -> base < a -> 0 <= n -> Forall (fun y => 0 <= y.2 /\ fin y < 2 ^ 32 /\ a < y.1) l2 ->
  p <> a -> 0 <= a ->
  exists s1,
    (s <- get ;;
     if padd a (hsize (hdr s a)) =? ptr (hdr s p) then
       set_size a (u32 (hsize (hdr s a) + hsize (hdr s (ptr (hdr s p))))) ;;
       s <- get ;;
       set_ptr a (ptr (hdr s (ptr (hdr s p))))
     else set_ptr a (ptr (hdr s p)))%kernel s = (Ok tt, s1)
    /\ hdr s1 a = mkHdr (hd_addr (join_up a n l2).2 base) (join_up a n l2).1
    /\ (forall x, x <> a -> hdr s1 x = hdr s x) /\ freep s1 = freep s /\ os s1 = os s.
Proof.
  intros Hl Hp Hn Hr Hb Hn0 Hf Hpa Ha0. rewrite (bind_ok get _ s s s eq_refl), Hp, Hn, padd_id by done.
  destruct l2 as [|y l2]; cbn [hd_addr join_up].
  - rewrite (proj2 (Z.eqb_neq _ base)) by lia. eexists. split; [done|]. cbn. rewrite hset_eq, Hn.
    split; [done|]. split; [|done]. intros x Hx. by apply hset_ne.
  - destruct Hl as (Y1 & Y2 & Y3). apply Forall_cons in Hf as [(F1 & F2 & F3) _]. unfold fin in F2.
    destruct (Z.eqb_spec (a + 8 * n) y.1) as [Ey|Ey].
    + rewrite Y1, u32_id by lia. unfold set_size, set_ptr. mrun. cbn. rewrite (hset_ne _ _ _ p) by done.
      rewrite Hp. cbn [hd_addr]. rewrite (hset_ne _ _ _ y.1) by lia. rewrite Y2.
      eexists. split; [done|]. cbn. rewrite hset_eq. cbn. rewrite hset_eq. split; [done|]. split; [|done].
      intros x Hx. by rewrite !hset_ne.
    + eexists. split; [done|]. cbn. rewrite hset_eq, Hn. split; [done|]. split; [|done].
      intros x Hx. by apply hset_ne.
Qed.

Lemma join_down_run a n p m nx s :
  hdr s a = mkHdr nx n -> hsize (hdr s p) = m -> 0 <= p + 8 * m < 2 ^ 32 -> 0 <= m + n < 2 ^ 32 -> p <> a ->
  exists s1,
    (s <- get ;;
     (if padd p (hsize (hdr s p)) =? a then
        set_size p (u32 (hsize (hdr s p) + hsize (hdr s a))) ;;
        s <- get ;;
        set_ptr p (ptr (hdr s a))
      else set_ptr p a) ;;
     set_freep p)%kernel s = (Ok tt, s1)
    /\ hdr s1 p = (if p + 8 * m =? a then mkHdr nx (m + n) else mkHdr a m)
    /\ (forall x, x <> p -> hdr s1 x = hdr s x) /\ freep s1 = p /\ os s1 = os s.
Proof.
  intros Ha Hm Hr Hn Hpa. rewrite (bind_ok get _ s s s eq_refl), Hm, Ha, padd_id by done. cbn [hsize].
  destruct (Z.eqb_spec (p + 8 * m) a) as [E|E].
  - rewrite u32_id by done. unfold set_size, set_ptr, set_freep. mrun. cbn. rewrite (hset_ne _ _ _ a) by done.
    rewrite Ha. eexists. split; [done|]. cbn. rewrite hset_eq. cbn. rewrite hset_eq. cbn. split; [done|]. split; [|done].
    intros x Hx. by rewrite !hset_ne.
  - eexists. split; [done|]. cbn. rewrite hset_eq, Hm. split; [done|]. split; [|done].
    intros x Hx. by apply hset_ne.
Qed.

Lemma join_up_sorted a n l2 :
  sorted l2 -> Forall (fun y => 0 <= y.2) l2 -> 1 <= n -> (forall y, y ∈ l2 -> fin (a, n) <= y.1) ->
  let '(n', l2') := join_up a n l2 in
  n <= n' /\ sorted l2' /\ Forall (before (a, n')) l2' /\ (forall y, y ∈ l2' -> y ∈ l2)
  /\ (l2' <> l2 -> exists y, y ∈ l2 /\ fin (a, n') = fin y)
  /\ units l2' + n' = units l2 + n /\ (length l2' <= length l2)%nat.
Proof.
  intros Hs Hz Hn Hy. destruct l2 as [|y l2]; cbn [join_up].
  { split; [lia|]. split; [done|]. split; [constructor|]. split; [done|]. split; [done|]. unfold units; cbn; lia. }
  destruct Hs as [Hyl Hs]. apply Forall_cons in Hz as [Hy0 Hz]. pose proof (Hy y ltac:(left)) as Hyn. unfold fin in Hyn. cbn in Hyn.
  destruct (Z.eqb_spec (a + 8 * n) y.1) as [E|E].
  - assert (fin (a, n + y.2) = fin y) as Ef by (unfold fin; unfold units; cbn; lia).
    split; [lia|]. split; [done|]. split.
    { eapply Forall_impl; [exact Hyl|]. intros z Hz'. unfold before in *. by rewrite Ef. }
    split; [intros z Hz'; by right|]. split; [intros _; exists y; split; [left|done]|]. unfold units; cbn; lia.
  - split; [lia|]. split; [done|]. split; [|split; [done|]; split; [done|]; unfold units; cbn; lia].
    constructor; [unfold before, fin; unfold units; cbn; lia|]. eapply Forall_impl; [exact Hyl|].
    intros z Hz'. unfold before, fin in *. cbn in *. lia.
Qed.

Lemma join_down_sorted l1 p a n l2 :
  sorted (l1 ++ [p]) -> sorted l2 -> Forall (before (a, n)) l2 -> fin p <= a -> 1 <= n -> 0 <= p.2 ->
  sorted (l1 ++ join_down p a n l2).
Proof.
  intros H1 H2 H3 Hp Hn H0. apply sorted_app in H1 as (S1 & _ & Sp).
  assert (forall y z, y ∈ l1 -> p.1 <= z.1 -> before y z) as Hl1.
  { intros y z Hy Hz. specialize (Sp y p Hy ltac:(left)). unfold before in *. lia. }
  assert (forall z, z ∈ l2 -> a < z.1) as Hl2.
  { intros z Hz. pose proof (proj1 (Forall_forall _ _) H3 z Hz) as Hb. unfold before, fin in Hb. cbn in Hb. lia. }
  unfold fin in Hp. apply sorted_app. split; [done|]. unfold join_down. destruct (Z.eqb_spec (fin p) a) as [E|E].
  - split.
    + split; [|done]. eapply Forall_impl; [exact H3|]. intros z Hz. unfold before, fin in *. cbn in *. lia.
    + intros y z Hy [->|Hz]%elem_of_cons; (apply Hl1; [done|]); cbn; try lia; apply Hl2 in Hz; lia.
  - unfold fin in E. split.
    + split; [|by split]. constructor; [unfold before, fin; cbn; lia|].
      apply Forall_forall. intros z Hz. apply Hl2 in Hz. unfold before, fin. lia.
    + intros y z Hy [->|[->|Hz]%elem_of_cons]%elem_of_cons; (apply Hl1; [done|]); cbn; try lia; apply Hl2 in Hz; lia.
Qed.

Lemma join_linked h h' l1 p a n' l2 l2' :
  sorted (l1 ++ p :: l2) -> linked h (l1 ++ p :: l2) base -> (forall y, y ∈ l2' -> y ∈ l2) ->
  linked h l2' base -> (forall y, y ∈ l1 ++ p :: l2 -> y.1 <> a) -> Forall (fun y => 0 <= y.2) (l1 ++ p :: l2) ->
  h' p.1 = (if fin p =? a then mkHdr (hd_addr l2' base) (p.2 + n') else mkHdr a p.2) ->
  (fin p <> a -> h' a = mkHdr (hd_addr l2' base) n') ->
  (forall x, x <> a -> x <> p.1 -> h' x = h x) ->
  linked h' (l1 ++ join_down p a n' l2') base.
Proof.
  intros Hs Hl Hsub Hl2 Hne Hz Hp Ha Hx. apply sorted_app in Hs as (S1 & [Sp S2] & Sb).
  apply linked_app in Hl as [L1 _]. apply linked_app. rewrite Forall_app in Hz. destruct Hz as [Z1 Zp].
  assert (linked h' l2' base) as L2'.
  { eapply linked_ext; [|exact Hl2]. intros y Hy. apply Hsub in Hy. apply Hx.
    - apply Hne. apply elem_of_app. right. by right.
    - pose proof (proj1 (Forall_forall _ _) Sp y Hy) as Hb. apply Forall_cons in Zp as [Zp _].
      unfold before, fin in Hb. lia. }
  assert (hd_addr (join_down p a n' l2') base = p.1) as Eh by (unfold join_down; by destruct (fin p =? a)).
  split.
  - rewrite Eh. eapply linked_ext; [|exact L1]. intros y Hy. apply Hx.
    + apply Hne. apply elem_of_app. by left.
    + specialize (Sb y p Hy ltac:(left)). pose proof (proj1 (Forall_forall _ _) Z1 y Hy). unfold before, fin in Sb. cbn in *. lia.
  - unfold join_down. destruct (Z.eqb_spec (fin p) a) as [E|E].
    + cbn. rewrite Hp. done.
    + cbn. rewrite Hp, (Ha E). done.
Qed.

Lemma disjoint_ne x y : disjoint x y -> 1 <= x.2 -> 1 <= y.2 -> x.1 <> y.1.
Proof. unfold disjoint, fin. lia. Qed.

Lemma wf_nodes s bs us y : wf s bs us -> y ∈ (base, 0) :: bs -> 0 <= y.2 /\ base <= y.1 /\ fin y <= brk (os s).
Proof.
  intros W [->|H]%elem_of_cons; [pose proof (wf_brk _ _ _ W); unfold fin; cbn; lia|].
  pose proof (proj1 (Forall_forall _ _) (wf_free _ _ _ W) y H). cbn in *. lia.
Qed.

(** Where a loose block belongs in the free list. *)
Lemma loose_split s bs us a n :
  wf s bs us -> loose s bs us a n ->
  exists l1 p l2, (base, 0) :: bs = l1 ++ p :: l2 /\ Forall (fun y => y.1 < a) l1 /\ p.1 < a
    /\ Forall (fun y => a < y.1) l2 /\ fin p <= a /\ (forall y, y ∈ l2 -> fin (a, n) <= y.1)
    /\ (forall y, y ∈ l1 ++ p :: l2 -> y.1 <> a).
Proof.
  intros W L. set (l := (base, 0) :: bs).
  assert (forall y, y ∈ l -> y = (base, 0) \/ (y ∈ bs /\ 1 <= y.2 /\ disjoint (a, n) y)) as Hl.
  { intros y [->|Hy]%elem_of_cons; [by left|right]. split; [done|]. split; [|by apply (lo_free _ _ _ _ _ L)].
    pose proof (proj1 (Forall_forall _ _) (wf_free _ _ _ W) y Hy). cbn in *. lia. }
  pose proof (lo_pos _ _ _ _ _ L) as Hn. pose proof (lo_low _ _ _ _ _ L) as Ha.
  assert (forall y, y ∈ l -> y.1 <> a) as Hne.
  { intros y Hy. destruct (Hl y Hy) as [->|(_ & Hp & Hd)]; [cbn; lia|]. apply disjoint_ne in Hd; cbn in *; congruence. }
  destruct (split_at l a (wf_sorted _ _ _ W)) as (l1 & l2 & E & H1 & H2); [|done|].
  { apply Forall_forall. intros y Hy. apply (wf_nodes _ _ _ _ W Hy). }
  destruct l1 as [|x l1] using rev_ind.
  { exfalso. cbn in E. rewrite <- E in H2. apply Forall_cons in H2 as [H2 _]. cbn in H2. lia. }
  clear IHl1. rewrite <- app_assoc in E. cbn in E. apply Forall_app in H1 as [H1 Hx]. apply Forall_cons in Hx as [Hx _].
  exists l1, x, l2. split; [done|]. split; [done|]. split; [done|]. split; [done|]. rewrite E in Hl, Hne.
  split; [|split; [|done]].
  - destruct (Hl x) as [->|(_ & Hp & Hd)]; [apply elem_of_app; right; left|unfold fin; cbn; lia|].
    unfold disjoint, fin in *. cbn in *. lia.
  - intros y Hy. pose proof (proj1 (Forall_forall _ _) H2 y Hy).
    destruct (Hl y) as [->|(_ & Hp & Hd)]; [apply elem_of_app; right; by right|cbn in *; lia|].
    unfold disjoint, fin in *. cbn in *. lia.
Qed.

(** The run of [free], once the place of the block is known. *)
Lemma free_steps fuel s bs us a n l1 p l2 n' l2' :
  wf s bs us -> loose s bs us a n -> (length bs + 1 < fuel)%nat ->
  (base, 0) :: bs = l1 ++ p :: l2 -> Forall (fun y => y.1 < a) l1 -> p.1 < a ->
  Forall (fun y => a < y.1) l2 -> join_up a n l2 = (n', l2') -> 0 <= p.2 + n' < 2 ^ 32 ->
  exists s', free fuel (a + 8) s = (Ok tt, s') /\ os s' = os s /\ freep s' = p.1
    /\ hdr s' p.1 = (if fin p =? a then mkHdr (hd_addr l2' base) (p.2 + n') else mkHdr a p.2)
    /\ hdr s' a = mkHdr (hd_addr l2' base) n'
    /\ (forall x, x <> a -> x <> p.1 -> hdr s' x = hdr s x).
Proof.
  intros W L Hfuel El H1 Hp H2 Ej Hpn. pose proof (wf_link _ _ _ W) as Wl. pose proof (wf_sorted _ _ _ W) as Ws.
  pose proof (wf_freep _ _ _ W) as Wf.
  assert (forall y, y ∈ l1 ++ p :: l2 -> 0 <= y.2 /\ base <= y.1 /\ fin y <= brk (os s)) as Hnodes
    by (intros y Hy; apply (wf_nodes s bs us y W); by rewrite El).
  assert (hd_addr (l1 ++ p :: l2) base = base) as Hhd by (by rewrite <- El).
  assert (length (l1 ++ p :: l2) = length bs + 1)%nat as Hlen by (rewrite <- El; cbn; lia).
  rewrite El in Wl, Ws, Wf. destruct (wf_brk _ _ _ W) as [Hb0 Hbrk].
  destruct L as [Hn Ha Hhi Hsz _ _]. unfold fin in Hhi. cbn in Hhi.
  destruct (Hnodes p ltac:(apply elem_of_app; right; left)) as (P1 & P2 & P3). unfold fin in P3.
  unfold free. replace (padd (a + 8) (-1)) with a by (rewrite padd_id; lia).
  rewrite (bind_ok get _ s s s eq_refl), (bind_ok _ _ s s p.1).
  2: { apply (find_run l1 p l2 base a s fuel); try done; [|lia]. apply Forall_forall. intros y Hy. by apply Hnodes. }
  apply linked_app in Wl as [_ (Lp1 & Lp2 & L2)].
  destruct (join_up_run a n p.1 l2 s L2 Lp2 Hsz) as (s1 & E1 & A1 & X1 & F1 & O1); [lia|lia|lia| |lia|lia|].
  { apply Forall_forall. intros y Hy. destruct (Hnodes y) as (Y1 & Y2 & Y3); [apply elem_of_app; right; by right|].
    pose proof (proj1 (Forall_forall _ _) H2 y Hy). cbn in *. lia. }
  rewrite Ej in A1. cbn [fst snd] in A1.
  rewrite (bind_ok get _ s s s eq_refl) in E1. rewrite (bind_ok get _ s s s eq_refl), (bind_ok _ _ _ _ _ E1).
  destruct (join_down_run a n' p.1 p.2 (hd_addr l2' base) s1 A1) as (s2 & E2 & A2 & X2 & F2 & O2);
    [rewrite X1 by lia; done|lia|lia|lia|].
  exists s2. split; [exact E2|]. split; [congruence|]. split; [done|]. split; [exact A2|].
  split; [rewrite X2 by lia; exact A1|]. intros x Hx1 Hx2. by rewrite X2, X1.
Qed.

(** A block of the heap that no block in use overlaps. *)
Definition okb (hi : Z) (us : gmap Z Z) (x : blk) : Prop :=
  1 <= x.2 /\ base + 8 <= x.1 /\ fin x <= hi
  /\ forall u m, us !! u = Some m -> 1 <= m /\ disjoint (u, m) x.

Lemma wf_okb s bs us : wf s bs us -> Forall (okb (brk (os s)) us) bs.
Proof.
  intros W. apply Forall_forall. intros x Hx.
  destruct (proj1 (Forall_forall _ _) (wf_free _ _ _ W) x Hx) as (H1 & H2 & H3). repeat split; try done;
    destruct (wf_used _ _ _ W u m H) as (? & _ & _ & _ & Hd); [done|by apply Hd].
Qed.

Lemma okb_join hi us x y : okb hi us x -> okb hi us y -> fin x = y.1 -> okb hi us (x.1, x.2 + y.2).
Proof.
  intros (X1 & X2 & X3 & X4) (Y1 & Y2 & Y3 & Y4) E. unfold okb, fin in *. cbn. split; [lia|]. split; [lia|]. split; [lia|].
  intros u m Hu. destruct (X4 u m Hu) as [Hm Hx], (Y4 u m Hu) as [_ Hy]. unfold disjoint, fin in *. cbn in *. lia.
Qed.

Lemma join_up_okb hi us a n n' l2 l2' :
  join_up a n l2 = (n', l2') -> okb hi us (a, n) -> Forall (okb hi us) l2 ->
  okb hi us (a, n') /\ Forall (okb hi us) l2'.
Proof.
  intros E Ha H2. destruct l2 as [|y l2]; cbn in E; [by injection E as <- <-|].
  apply Forall_cons in H2 as H2'. destruct H2' as [Hy H2'].
  destruct (Z.eqb_spec (a + 8 * n) y.1); injection E as <- <-; [|done].
  split; [|done]. by apply (okb_join hi us (a, n) y).
Qed.

Lemma join_down_okb hi us p a n l2 :
  okb hi us p -> okb hi us (a, n) -> Forall (okb hi us) l2 -> Forall (okb hi us) (join_down p a n l2).
Proof.
  intros Hp Ha H2. unfold join_down. destruct (Z.eqb_spec (fin p) a); [|constructor; [done|by constructor]].
  constructor; [|done]. by apply (okb_join hi us p (a, n)).
Qed.

(** The new free list, from the pieces of the old one. *)
Lemma join_shape l1 p l2 a n' l2' bs hi us :
  (base, 0) :: bs = l1 ++ p :: l2 -> Forall (okb hi us) bs -> okb hi us (a, n') -> Forall (okb hi us) l2' ->
  exists bs', l1 ++ join_down p a n' l2' = (base, 0) :: bs' /\ Forall (okb hi us) bs'.
Proof.
  intros El Hb Ha H2. destruct l1 as [|x l1]; cbn in El; injection El as <- ->.
  - exists ((a, n') :: l2'). split; [|by constructor]. cbn. unfold join_down.
    destruct Ha as (_ & Ha & _). cbn in Ha. rewrite (proj2 (Z.eqb_neq _ _)) by (unfold fin; cbn; lia). done.
  - exists (l1 ++ join_down p a n' l2'). split; [done|]. apply Forall_app in Hb as [H1 Hb]. apply Forall_cons in Hb as [Hp _].
    apply Forall_app. split; [done|]. by apply join_down_okb.
Qed.

Lemma join_down_units p a n l2 : units (join_down p a n l2) = p.2 + n + units l2.
Proof. unfold join_down, units. destruct (fin p =? a); cbn; lia. Qed.

(** The headers of the blocks in use are none of those [free] writes. *)
Lemma used_untouched s bs us a n l1 p l2 u m :
  wf s bs us -> loose s bs us a n -> (base, 0) :: bs = l1 ++ p :: l2 -> us !! u = Some m -> u <> a /\ u <> p.1.
Proof.
  intros W L El Hu. destruct (wf_used _ _ _ W u m Hu) as (U1 & U2 & U3 & U4 & U5). split.
  - pose proof (lo_used _ _ _ _ _ L u m Hu) as Hd. pose proof (lo_pos _ _ _ _ _ L).
    apply disjoint_ne in Hd; cbn in *; congruence.
  - destruct l1 as [|x l1]; cbn in El; injection El as <- ->; [cbn; lia|].
    assert (p ∈ l1 ++ p :: l2) as Hp by (apply elem_of_app; right; left).
    pose proof (U5 p Hp) as Hd. destruct (proj1 (Forall_forall _ _) (wf_free _ _ _ W) p Hp) as [P1 _].
    apply disjoint_ne in Hd; cbn in *; done.
Qed.

(** No unit is lost, the joined block is on the list, which grows by one at most. *)
Lemma joined_numbers l1 p l2 a n n' l2' bs bs' :
  (base, 0) :: bs = l1 ++ p :: l2 -> l1 ++ join_down p a n' l2' = (base, 0) :: bs' ->
  units l2' + n' = units l2 + n -> (length l2' <= length l2)%nat -> n <= n' -> 1 <= n -> 0 <= p.2 ->
  units bs' = units bs + n /\ Exists (fun x => n <= x.2) bs' /\ (length bs' <= length bs + 1)%nat.
Proof.
  intros El El' Hu Hl Hn Hn1 Hp. split; [|split].
  - apply (f_equal units) in El, El'. rewrite units_app in El, El'. rewrite join_down_units in El'.
    unfold units in *. cbn in *. lia.
  - set (x := if fin p =? a then (p.1, p.2 + n') else (a, n')).
    assert (n <= x.2) as Hx by (unfold x; destruct (fin p =? a); cbn; lia).
    assert (x ∈ (base, 0) :: bs') as [Ex|Hin]%elem_of_cons.
    + rewrite <- El'. apply elem_of_app. right. unfold join_down, x. destruct (fin p =? a); [left|right; left].
    + exfalso. rewrite Ex in Hx. cbn in Hx. lia.
    + apply Exists_exists. by exists x.
  - apply (f_equal length) in El, El'. rewrite length_app in El, El'. cbn in El.
    assert (length (join_down p a n' l2') <= 2 + length l2')%nat by (unfold join_down; destruct (fin p =? a); cbn; lia).
    cbn in El'. lia.
Qed.

(** [free] puts a loose block on the free list, joined with its neighbours. *)
Lemma free_run fuel s bs us a n :
  wf s bs us -> loose s bs us a n -> (length bs + 1 < fuel)%nat ->
  exists s' bs', free fuel (a + 8) s = (Ok tt, s') /\ wf s' bs' us /\ os s' = os s
    /\ units bs' = units bs + n /\ Exists (fun x => n <= x.2) bs' /\ (length bs' <= length bs + 1)%nat.
Proof.
  intros W L Hfuel. destruct (loose_split s bs us a n W L) as (l1 & p & l2 & El & H1 & Hp & H2 & Hfp & H2n & Hne).
  pose proof (wf_link _ _ _ W) as Wl. pose proof (wf_sorted _ _ _ W) as Ws. pose proof (wf_brk _ _ _ W) as Wb.
  assert (forall y, y ∈ l1 ++ p :: l2 -> 0 <= y.2 /\ base <= y.1 /\ fin y <= brk (os s)) as Hnodes
    by (intros y Hy; apply (wf_nodes s bs us y W); by rewrite El).
  assert (Forall (fun y => 0 <= y.2) (l1 ++ p :: l2)) as Hz by (apply Forall_forall; intros y Hy; by apply Hnodes).
  destruct (Hnodes p ltac:(apply elem_of_app; right; left)) as (P1 & P2 & P3).
  rewrite El in Wl, Ws. pose proof Ws as Ws'. apply sorted_app in Ws' as (S1 & [Sp S2] & Sb).
  assert (okb (brk (os s)) us (a, n)) as Hab.
  { destruct L as [L1 L2 L3 L4 L5 L6]. repeat split; try done; destruct (wf_used _ _ _ W u m H) as [? _]; [done|].
    destruct (L6 u m H); [by right|by left]. }
  pose proof (wf_okb _ _ _ W) as Hbs.
  assert (Forall (okb (brk (os s)) us) l2) as Hl2.
  { destruct l1; cbn in El; injection El as <- ->; [done|]. apply Forall_app in Hbs as [_ Hbs]. by apply Forall_cons in Hbs as [_ ?]. }
  apply Forall_app in Hz as Hz'. destruct Hz' as [_ Hz']. apply Forall_cons in Hz' as [_ Hz2].
  pose proof (join_up_sorted a n l2 S2 Hz2 (lo_pos _ _ _ _ _ L) H2n) as Hj.
  destruct (join_up a n l2) as [n' l2'] eqn:Ej. destruct Hj as (J1 & J2 & J3 & J4 & _ & J5 & J6).
  destruct (join_up_okb _ _ _ _ _ _ _ Ej Hab Hl2) as [Han Hl2'].
  destruct (join_shape l1 p l2 a n' l2' bs _ _ El Hbs Han Hl2') as (bs' & El' & Hbs').
  pose proof (lo_pos _ _ _ _ _ L) as Hn.
  destruct (free_steps fuel s bs us a n l1 p l2 n' l2' W L Hfuel El H1 Hp H2 Ej) as (s' & E & Eo & Ef & Hp' & Ha' & Hx').
  { destruct Han as (_ & Ha0 & Hfin & _). unfold fin in *. cbn in *. lia. }
  exists s', bs'. split; [done|]. split; [|split; [done|]].
  - constructor.
    + rewrite Ef, <- El'. rewrite map_app, elem_of_app. right. unfold join_down. destruct (fin p =? a); left.
    + rewrite <- El'. eapply join_linked; try done.
      destruct l2 as [|y l3]; cbn in Ej; [by injection Ej as _ <-|].
      apply linked_app in Wl as [_ (_ & _ & (Y1 & Y2 & Y3))].
      destruct (a + 8 * n =? y.1); injection Ej as _ <-; done.
    + rewrite <- El'. apply join_down_sorted; try done; [|lia].
      apply sorted_app in Ws as (? & ? & ?). apply sorted_app. split; [done|]. split; [by split|].
      intros x y Hx ->%list_elem_of_singleton. apply H3; [done|left].
    + by rewrite Eo.
    + rewrite Eo. eapply Forall_impl; [exact Hbs'|]. by intros x (? & ? & ? & _).
    + intros u m Hu. destruct (wf_used _ _ _ W u m Hu) as (U1 & U2 & U3 & U4 & _). rewrite Eo.
      destruct (used_untouched s bs us a n l1 p l2 u m W L El Hu) as [N1 N2].
      repeat split; try done; [by rewrite Hx'|]. intros x Hx. by apply (proj1 (Forall_forall _ _) Hbs' x Hx).
    + apply (wf_apart _ _ _ W).
  - apply (joined_numbers l1 p l2 a n n' l2' bs bs'); done.
Qed.

(** *** More memory *)

(** What [sbrk] promises: the old break and a larger one, or -1 and the same. *)
Hypothesis sbrk_ok : forall n o, 0 <= n < 2 ^ 31 ->
  ((sbrk n o).1 = u32 (-1) /\ brk (sbrk n o).2 = brk o)
  \/ ((sbrk n o).1 = brk o /\ brk (sbrk n o).2 = brk o + n /\ brk o + n < 2 ^ 32 - 1).

Lemma wf_grow s bs us h o :
  wf s bs us -> brk (os s) <= brk o < 2 ^ 32 -> (forall a, a < brk (os s) -> h a = hdr s a) ->
  wf (mkU h (freep s) o) bs us.
Proof.
  intros W Ho Hh. pose proof (wf_brk _ _ _ W) as Hb. constructor; cbn [hdr freep os].
  - apply (wf_freep _ _ _ W).
  - eapply linked_ext; [|apply (wf_link _ _ _ W)]. intros x [->|Hx]%elem_of_cons; apply Hh; [cbn; lia|].
    destruct (proj1 (Forall_forall _ _) (wf_free _ _ _ W) x Hx) as (H1 & _ & H3). unfold fin in H3. lia.
  - apply (wf_sorted _ _ _ W).
  - lia.
  - eapply Forall_impl; [apply (wf_free _ _ _ W)|]. intros x (? & ? & ?). lia.
  - intros a n Ha. destruct (wf_used _ _ _ W a n Ha) as (U1 & U2 & U3 & U4 & U5).
    rewrite Hh by (unfold fin in U3; cbn in U3; lia). repeat split; try done. lia.
  - apply (wf_apart _ _ _ W).
Qed.

Lemma wf_freep_pos s bs us : wf s bs us -> 0 < freep s.
Proof.
  intros W. destruct (elem_addr_split _ _ (wf_freep _ _ _ W)) as (l1 & x & l2 & E & Ex).
  pose proof (wf_nodes s bs us x W) as H. rewrite E in H. destruct H as (_ & H & _); [apply elem_of_app; right; left|].
  pose proof (wf_brk _ _ _ W). lia.
Qed.

Lemma morecore_run fuel s bs us nu :
  wf s bs us -> 1 <= nu < 2 ^ 28 -> (length bs + 1 < fuel)%nat ->
  exists s' bs', wf s' bs' us /\ (length bs' <= length bs + 1)%nat
    /\ (morecore sbrk fuel nu s = (Ok 0, s')
        \/ (morecore sbrk fuel nu s = (Ok (freep s'), s') /\ Exists (fun x => nu <= x.2) bs')).
Proof.
  intros W Hnu Hf. unfold morecore. set (m := if nu <? 4096 then 4096 else nu).
  assert (nu <= m < 2 ^ 28) as Hm by (unfold m; destruct (Z.ltb_spec nu 4096); lia).
  rewrite (bind_ok get _ s s s eq_refl), u32_id by lia.
  pose proof (sbrk_ok (m * 8) (os s) ltac:(lia)) as Hs. destruct (sbrk (m * 8) (os s)) as [p o]. cbn [fst snd] in Hs.
  set (s0 := mkU (hdr s) (freep s) o). rewrite (bind_ok _ _ s s0 tt) by done. pose proof (wf_brk _ _ _ W) as Hb.
  destruct Hs as [[-> Ho]|(-> & Ho & Hlim)].
  - rewrite Z.eqb_refl. exists s0, bs. split; [apply (wf_grow s bs us _ _ W); [lia|done]|]. split; [lia|by left].
  - assert (u32 (-1) = 2 ^ 32 - 1) as E1 by done. rewrite (proj2 (Z.eqb_neq _ (u32 (-1)))) by lia.
    set (a := brk (os s)). set (s1 := mkU (hset (hdr s) a (mkHdr (ptr (hdr s a)) m)) (freep s) o).
    rewrite (bind_ok _ _ s0 s1 tt) by done.
    assert (wf s1 bs us) as W1.
    { apply (wf_grow s bs us _ _ W); [lia|]. intros x Hx. apply hset_ne. unfold a. lia. }
    assert (loose s1 bs us a m) as L1.
    { constructor; cbn [hdr os s1]; [lia|unfold a; lia|unfold fin, a; cbn; lia|by rewrite hset_eq| |].
      - intros x Hx. destruct (proj1 (Forall_forall _ _) (wf_free _ _ _ W) x Hx) as (_ & _ & H3). right. exact H3.
      - intros u k Hu. destruct (wf_used _ _ _ W u k Hu) as (_ & _ & H3 & _). right. exact H3. }
    destruct (free_run fuel s1 bs us a m W1 L1 Hf) as (s2 & bs2 & E2 & W2 & _ & _ & X2 & Hl2).
    exists s2, bs2. split; [done|]. split; [done|]. right.
    replace (padd a 1) with (a + 8) by (rewrite padd_id; unfold a; lia).
    rewrite (bind_ok _ _ _ _ _ E2). split; [done|]. apply Exists_exists in X2 as (x & Hx & Hmx).
    apply Exists_exists. exists x. split; [done|]. lia.
Qed.

(** *** Taking a block *)

(** The part of the loop that takes [n] units of the block at [p]. *)
Definition take_part (n prevp p : Z) : M (ustate S) Z :=
  (s <- get ;;
   q <- (if hsize (hdr s p) =? n then set_ptr prevp (ptr (hdr s p)) ;; ret p
         else
           set_size p (u32 (hsize (hdr s p) - n)) ;;
           s <- get ;;
           let q := padd p (hsize (hdr s p)) in
           set_size q n ;;
           ret q) ;;
   set_freep prevp ;;
   ret (padd q 1))%kernel.

(** What is left of the free block [x], and the address of what is taken. *)
Definition left_of (n : Z) (x : blk) : list blk := if x.2 =? n then [] else [(x.1, x.2 - n)].
Definition taken_at (n : Z) (x : blk) : Z := x.1 + 8 * (x.2 - n).

Lemma take_steps s n y x nx :
  hsize (hdr s x.1) = x.2 -> ptr (hdr s x.1) = nx -> hsize (hdr s y.1) = y.2 -> ptr (hdr s y.1) = x.1 ->
  1 <= n <= x.2 -> 0 <= x.1 -> fin x < 2 ^ 32 -> x.1 <> y.1 -> (forall a, x.1 < a < fin x -> a <> y.1) ->
  exists s', take_part n y.1 x.1 s = (Ok (taken_at n x + 8), s') /\ freep s' = y.1 /\ os s' = os s
    /\ hsize (hdr s' (taken_at n x)) = n
    /\ hdr s' y.1 = mkHdr (if x.2 =? n then nx else x.1) y.2
    /\ (x.2 <> n -> hdr s' x.1 = mkHdr nx (x.2 - n))
    /\ (forall a, a <> y.1 -> a <> x.1 -> a <> taken_at n x -> hdr s' a = hdr s a).
Proof.
  intros Hx Hnx Hy Hyx Hn H0 Hhi Hxy Hin. unfold take_part. rewrite (bind_ok get _ s s s eq_refl), Hx.
  unfold taken_at, fin in *. destruct (Z.eqb_spec x.2 n) as [E|E].
  - unfold set_ptr, set_freep. mrun. cbn. rewrite padd_id by lia.
    replace (x.1 + 8 * (x.2 - n)) with x.1 by lia. rewrite Hnx, Hy.
    eexists. split; [f_equal; f_equal; lia|]. cbn. rewrite hset_ne, hset_eq by done.
    repeat split; [congruence|done|]. intros a H1 H2 H3. by rewrite hset_ne.
  - assert (u32 (x.2 - n) = x.2 - n) as Eu by (apply u32_id; lia).
    set (q := x.1 + 8 * (x.2 - n)). assert (padd x.1 (x.2 - n) = q) as Eq by (apply padd_id; unfold q; lia).
    assert (q <> y.1) by (apply Hin; unfold q; lia). assert (q <> x.1) by (unfold q; lia).
    unfold set_size, set_freep. mrun. cbn. rewrite Eu, hset_eq. cbn. rewrite Eq, padd_id by (unfold q; lia).
    eexists. split; [f_equal; f_equal; unfold q; lia|]. cbn. rewrite hset_eq.
    split; [done|]. split; [done|]. split; [done|].
    split; [rewrite !hset_ne by done; destruct (hdr s y.1); cbn in *; congruence|].
    split; [intros _; rewrite hset_ne, hset_eq by done; by rewrite Hnx|].
    intros a K1 K2 K3. by rewrite !hset_ne.
Qed.

Lemma take_sorted l1 y x l2 n :
  sorted (l1 ++ y :: x :: l2) -> 1 <= n <= x.2 -> sorted (l1 ++ y :: left_of n x ++ l2).
Proof.
  intros Hs Hn. change (y :: x :: l2) with ([y] ++ [x] ++ l2) in Hs. change (y :: left_of n x ++ l2) with ([y] ++ left_of n x ++ l2).
  rewrite !app_assoc in *. apply sorted_app in Hs as (H1 & H2 & H3). apply sorted_app in H1 as (H4 & H5 & H6).
  unfold left_of. destruct (Z.eqb_spec x.2 n).
  - rewrite app_nil_r. apply sorted_app. split; [done|]. split; [done|]. intros u v Hu Hv. apply H3; [|done].
    apply elem_of_app. by left.
  - apply sorted_app. split; [apply sorted_app; split; [done|]; split; [by split|]|split; [done|]].
    + intros u v Hu ->%list_elem_of_singleton. specialize (H6 u x Hu ltac:(left)). done.
    + intros u v [Hu| ->%list_elem_of_singleton]%elem_of_app Hv.
      * apply H3; [|done]. apply elem_of_app. by left.
      * specialize (H3 x v ltac:(apply elem_of_app; right; left) Hv). unfold before, fin in *. cbn in *. lia.
Qed.

Lemma take_linked h h' l1 y x l2 n :
  sorted (l1 ++ y :: x :: l2) -> linked h (l1 ++ y :: x :: l2) base -> Forall (fun z => 0 <= z.2) (l1 ++ y :: x :: l2) ->
  1 <= n <= x.2 ->
  h' y.1 = mkHdr (if x.2 =? n then hd_addr l2 base else x.1) y.2 ->
  (x.2 <> n -> h' x.1 = mkHdr (hd_addr l2 base) (x.2 - n)) ->
  (forall a, a <> y.1 -> a <> x.1 -> a <> taken_at n x -> h' a = h a) ->
  linked h' (l1 ++ y :: left_of n x ++ l2) base.
Proof.
  intros Hs Hl Hz Hn Hy Hx Ha. apply sorted_app in Hs as (S1 & (Sy & Sx & S2) & Sb).
  apply linked_app in Hl as [L1 (_ & _ & _ & _ & L2)]. apply linked_app.
  apply Forall_app in Hz as [Z1 Zy]. apply Forall_cons in Zy as [Zy Zx].
  assert (linked h' l2 base) as L2'.
  { eapply linked_ext; [|exact L2]. intros z Hzz. pose proof (proj1 (Forall_forall _ _) Sx z Hzz) as Hb.
    apply Forall_cons in Sy as [Syx _]. unfold before, fin, taken_at in *. apply Ha; unfold taken_at; lia. }
  split.
  - eapply linked_ext; [|exact L1]. intros z Hzz. pose proof (Sb z y Hzz ltac:(left)) as B1.
    pose proof (Sb z x Hzz ltac:(right; left)) as B2. pose proof (proj1 (Forall_forall _ _) Z1 z Hzz) as B3. cbn in B3.
    unfold before, fin in *. apply Ha; unfold taken_at; lia.
  - unfold left_of. destruct (Z.eqb_spec x.2 n) as [E|E]; cbn.
    + by rewrite Hy.
    + by rewrite Hy, (Hx E).
Qed.

Lemma take_okb hi us x n :
  okb hi us x -> 1 <= n <= x.2 -> Forall (okb hi us) (left_of n x) /\ okb hi us (taken_at n x, n).
Proof.
  intros (H1 & H2 & H3 & H4) Hn. unfold left_of, taken_at, okb, fin in *. split.
  - destruct (Z.eqb_spec x.2 n); [constructor|]. constructor; [|constructor]. cbn. repeat split; try lia;
      destruct (H4 u m H) as [? Hd]; unfold disjoint, fin in *; cbn in *; lia.
  - cbn. repeat split; try lia; destruct (H4 u m H) as [? Hd]; unfold disjoint, fin in *; cbn in *; lia.
Qed.

Lemma left_of_units n x : units (left_of n x) = x.2 - n.
Proof. unfold left_of, units. destruct (Z.eqb_spec x.2 n); cbn; lia. Qed.

Lemma taken_disjoint l1 y x l2 n z :
  sorted (l1 ++ y :: x :: l2) -> 1 <= n <= x.2 -> z ∈ (l1 ++ [y]) ++ left_of n x ++ l2 ->
  disjoint (taken_at n x, n) z.
Proof.
  intros Hs Hn Hz. replace (l1 ++ y :: x :: l2) with ((l1 ++ [y]) ++ x :: l2) in Hs by (by rewrite <- app_assoc).
  apply sorted_app in Hs as (_ & [Sx _] & Sb). unfold disjoint, taken_at, fin.
  apply elem_of_app in Hz as [Hz|[Hz|Hz]%elem_of_app].
  - specialize (Sb z x Hz ltac:(left)). unfold before, fin in Sb. cbn. lia.
  - unfold left_of in Hz. destruct (Z.eqb_spec x.2 n); [by apply not_elem_of_nil in Hz|].
    apply list_elem_of_singleton in Hz as ->. cbn. lia.
  - pose proof (proj1 (Forall_forall _ _) Sx z Hz) as Hb. unfold before, fin in Hb. cbn. lia.
Qed.

(** Taking a block keeps the invariant: it joins the blocks in use. *)
Lemma take_run s bs us l1 y x l2 n :
  wf s bs us -> (base, 0) :: bs = l1 ++ y :: x :: l2 -> 1 <= n <= x.2 ->
  exists s' bs', take_part n y.1 x.1 s = (Ok (taken_at n x + 8), s')
    /\ us !! taken_at n x = None /\ wf s' bs' (<[taken_at n x := n]> us) /\ os s' = os s
    /\ units bs' + n = units bs.
Proof.
  intros W El Hn. pose proof (wf_link _ _ _ W) as Wl. pose proof (wf_sorted _ _ _ W) as Ws. pose proof (wf_brk _ _ _ W) as Wb.
  assert (forall z, z ∈ l1 ++ y :: x :: l2 -> 0 <= z.2 /\ base <= z.1 /\ fin z <= brk (os s)) as Hnodes
    by (intros z Hz; apply (wf_nodes s bs us z W); by rewrite El).
  assert (exists l1', l1 ++ [y] = (base, 0) :: l1' /\ bs = l1' ++ x :: l2) as (l1' & Ely & Ebs).
  { destruct l1 as [|z l1]; cbn in El; injection El as <- ->; [by exists []|]. exists (l1 ++ [y]). split; [done|].
    by rewrite <- app_assoc. }
  pose proof (wf_okb _ _ _ W) as Hbs. rewrite Ebs in Hbs. apply Forall_app in Hbs as Hbs'. destruct Hbs' as [B1 B2].
  apply Forall_cons in B2 as [Bx B2].
  destruct (take_okb _ _ _ _ Bx Hn) as [Hleft Htaken].
  rewrite El in Wl, Ws. pose proof Wl as Wl'. apply linked_app in Wl' as [_ (Ly1 & Ly2 & Lx1 & Lx2 & _)].
  pose proof Ws as Ws'. apply sorted_app in Ws' as (_ & (Sy & Sx & _) & _). apply Forall_cons in Sy as [Syx _].
  destruct (Hnodes y ltac:(apply elem_of_app; right; left)) as (Y1 & Y2 & Y3).
  destruct (Hnodes x ltac:(apply elem_of_app; right; right; left)) as (X1 & X2 & X3).
  destruct (take_steps s n y x (hd_addr l2 base) Lx1 Lx2 Ly1 Ly2 Hn) as (s' & E & Ef & Eo & Et & Ey & Ex & Ea);
    [lia|lia|unfold before, fin in Syx; lia|unfold before, fin in *; lia|].
  assert (us !! taken_at n x = None) as Hnone.
  { destruct (us !! taken_at n x) as [m|] eqn:Eu; [exfalso|done]. destruct Htaken as (_ & _ & _ & H).
    destruct (H _ _ Eu) as [? Hd]. apply disjoint_ne in Hd; cbn in *; lia. }
  exists s', (l1' ++ left_of n x ++ l2). split; [done|]. split; [done|].
  assert ((base, 0) :: l1' ++ left_of n x ++ l2 = l1 ++ y :: left_of n x ++ l2) as El'.
  { change ((base, 0) :: l1' ++ left_of n x ++ l2) with (((base, 0) :: l1') ++ left_of n x ++ l2). rewrite <- Ely.
    by rewrite <- app_assoc. }
  assert (Forall (okb (brk (os s)) us) (l1' ++ left_of n x ++ l2)) as Hok by (rewrite !Forall_app; done).
  split; [|split; [done|rewrite Ebs, !units_app, left_of_units; unfold units; cbn; lia]].
  constructor; rewrite ?Eo.
  - rewrite Ef, El', map_app, elem_of_app. right. left.
  - rewrite El'. apply (take_linked (hdr s)); try done. apply Forall_forall. intros z Hz. by apply Hnodes.
  - rewrite El'. by apply take_sorted.
  - done.
  - eapply Forall_impl; [exact Hok|]. by intros z (? & ? & ? & _).
  - intros u m [[<- <-]|[Hne Hu]]%lookup_insert_Some.
    + destruct Htaken as (T1 & T2 & T3 & _). repeat split; try done. intros z Hz.
      apply (taken_disjoint l1 y x l2); [done|done|]. rewrite <- app_assoc. cbn. rewrite <- El'. by right.
    + destruct (wf_used _ _ _ W u m Hu) as (U1 & U2 & U3 & U4 & U5). repeat split; try done.
      * rewrite Ea; [done| | |done]; [|destruct Bx as (? & _ & _ & H); destruct (H u m Hu) as [_ Hd]; apply disjoint_ne in Hd; done].
        intros ->. destruct l1 as [|z l1]; cbn in El; injection El as <- ->; [cbn in U2; lia|].
        assert (y ∈ l1 ++ y :: x :: l2) as Hy by (apply elem_of_app; right; left).
        pose proof (U5 y Hy) as Hd. destruct (proj1 (Forall_forall _ _) (wf_free _ _ _ W) y Hy) as [P1 _].
        apply disjoint_ne in Hd; cbn in *; done.
      * intros z Hz. by apply (proj1 (Forall_forall _ _) Hok z Hz).
  - assert (forall u m, us !! u = Some m -> disjoint (u, m) (taken_at n x, n)) as Ht by (intros u m Hu; by apply Htaken).
    intros u m u' m' [[<- <-]|[H1 H2]]%lookup_insert_Some [[<- <-]|[H3 H4]]%lookup_insert_Some Hne; [done| | |].
    + destruct (Ht _ _ H4); [by right|by left].
    + by apply Ht.
    + by apply (wf_apart _ _ _ W).
Qed.

(** *** The search of [malloc] *)

Lemma snoc_split {A} (l : list A) : l = [] \/ exists l' x, l = l' ++ [x].
Proof. destruct l as [|a l] using rev_ind; [by left|right; by exists l, a]. Qed.

Lemma malloc_loop_fit ff k n prevp p s :
  n <= hsize (hdr s p) -> malloc_loop sbrk ff (Datatypes.S k) n prevp p s = take_part n prevp p s.
Proof. intros H. cbn [malloc_loop]. unfold take_part, bind at 1 5, get. by rewrite (proj2 (Z.leb_le _ _) H). Qed.

Lemma malloc_loop_next ff k n prevp p s :
  hsize (hdr s p) < n -> p <> freep s ->
  malloc_loop sbrk ff (Datatypes.S k) n prevp p s = malloc_loop sbrk ff k n p (ptr (hdr s p)) s.
Proof.
  intros H Hp. cbn [malloc_loop]. rewrite (bind_ok get _ s s s eq_refl).
  by rewrite (proj2 (Z.leb_gt _ _) H), (proj2 (Z.eqb_neq _ _) Hp).
Qed.

Lemma malloc_loop_more ff k n prevp s :
  hsize (hdr s (freep s)) < n ->
  malloc_loop sbrk ff (Datatypes.S k) n prevp (freep s) s
  = (p <- morecore sbrk ff n ;;
     if p =? 0 then ret 0 else s <- get ;; malloc_loop sbrk ff k n p (ptr (hdr s p)))%kernel s.
Proof.
  intros H. cbn [malloc_loop]. rewrite (bind_ok get _ s s s eq_refl).
  by rewrite (proj2 (Z.leb_gt _ _) H), Z.eqb_refl.
Qed.

Fixpoint last_addr (p : Z) (seg : list blk) : Z :=
  match seg with
  | [] => p
  | x :: seg' => last_addr x.1 seg'
  end.

Lemma last_addr_snoc p seg x : last_addr p (seg ++ [x]) = x.1.
Proof. revert p. induction seg as [|y seg IH]; intros p; [done|]. apply IH. Qed.

Lemma search_skip seg e ff k n prevp s :
  linked (hdr s) seg e -> Forall (fun x => x.2 < n /\ x.1 <> freep s) seg ->
  malloc_loop sbrk ff (length seg + k) n prevp (hd_addr seg e) s = malloc_loop sbrk ff k n (last_addr prevp seg) e s.
Proof.
  revert prevp. induction seg as [|x seg IH]; intros prevp Hl Hf; [done|].
  destruct Hl as (H1 & H2 & H3). apply Forall_cons in Hf as [[Hx1 Hx2] Hf].
  cbn [length Nat.add hd_addr last_addr]. rewrite malloc_loop_next, H2 by (try done; lia). by apply IH.
Qed.

Lemma first_fit n (l : list blk) :
  Forall (fun x => x.2 < n) l \/ exists l1 x l2, l = l1 ++ x :: l2 /\ Forall (fun x => x.2 < n) l1 /\ n <= x.2.
Proof.
  induction l as [|x l IH]; [by left; constructor|].
  destruct (Z.lt_ge_cases x.2 n) as [Hx|Hx]; [|right; exists [], x, l; split; [done|]; split; [constructor|done]].
  destruct IH as [IH|(l1 & y & l2 & -> & H1 & H2)]; [by left; constructor|].
  right. exists (x :: l1), y, l2. split; [done|]. split; [by constructor|done].
Qed.

(** The free list, cut at [freep]: the blocks after it and the blocks before it. *)
Lemma around s bs us :
  wf s bs us ->
  exists u f v, (base, 0) :: bs = u ++ f :: v /\ f.1 = freep s
    /\ linked (hdr s) v base /\ linked (hdr s) u f.1 /\ hsize (hdr s f.1) = f.2 /\ ptr (hdr s f.1) = hd_addr v base
    /\ hd_addr u f.1 = base /\ Forall (fun x => x.1 <> freep s) (v ++ u).
Proof.
  intros W. destruct (elem_addr_split _ _ (wf_freep _ _ _ W)) as (u & f & v & E & Ef). exists u, f, v.
  pose proof (wf_link _ _ _ W) as Wl. pose proof (wf_sorted _ _ _ W) as Ws. rewrite E in Wl, Ws.
  apply linked_app in Wl as [L1 (L2 & L3 & L4)]. apply sorted_app in Ws as (_ & [Sf _] & Sb).
  assert (forall z, z ∈ u ++ f :: v -> 0 <= z.2) as Hz.
  { intros z Hz. apply (wf_nodes s bs us z W). by rewrite E. }
  repeat split; try done.
  - by destruct u; injection E as <- _.
  - apply Forall_app. split; apply Forall_forall; intros z Hzz.
    + pose proof (proj1 (Forall_forall _ _) Sf z Hzz) as Hb. unfold before, fin in Hb.
      specialize (Hz f ltac:(apply elem_of_app; right; left)). lia.
    + specialize (Sb z f Hzz ltac:(left)). unfold before, fin in Sb. specialize (Hz z ltac:(apply elem_of_app; by left)). lia.
Qed.

Lemma skippable s n l :
  Forall (fun x : blk => x.2 < n) l -> Forall (fun x : blk => x.1 <> freep s) l ->
  Forall (fun x : blk => x.2 < n /\ x.1 <> freep s) l.
Proof. intros H1 H2. apply Forall_forall. intros x Hx. rewrite Forall_forall in H1, H2. auto. Qed.

(** If some block is large enough, one is taken. *)
Lemma search_fit s bs us n ff fuel :
  wf s bs us -> 1 <= n -> Exists (fun x => n <= x.2) bs -> (length bs + 1 < fuel)%nat ->
  exists l1 y x l2, (base, 0) :: bs = l1 ++ y :: x :: l2 /\ n <= x.2
    /\ malloc_loop sbrk ff fuel n (freep s) (ptr (hdr s (freep s))) s = take_part n y.1 x.1 s.
Proof.
  intros W Hn Hex Hfuel. destruct (around s bs us W) as (u & f & v & E & Ef & Lv & Lu & Lf1 & Lf2 & Hu & Hne).
  pose proof (f_equal length E) as En. rewrite length_app in En. cbn [length] in En.
  apply Forall_app in Hne as [Nv Nu]. rewrite <- Ef, Lf2.
  destruct (first_fit n v) as [Fv|(v1 & x & v2 & -> & Fv & Hx)].
  2: { destruct (exists_last (l := f :: v1) ltac:(done)) as (w & y & Ew).
       exists (u ++ w), y, x, v2. split; [|split; [done|]].
       - rewrite E. change (f :: v1 ++ x :: v2) with ((f :: v1) ++ x :: v2). rewrite Ew. by rewrite <- !app_assoc.
       - apply linked_app in Lv as [Lv (Lx & _)]. rewrite length_app in En. cbn [length] in En.
         apply Forall_app in Nv as [Nv _]. cbn [hd_addr] in Lv.
         replace (hd_addr (v1 ++ x :: v2) base) with (hd_addr v1 x.1) by by destruct v1.
         replace fuel with (length v1 + Datatypes.S (fuel - length v1 - 1))%nat by lia.
         rewrite search_skip by (try done; by apply skippable).
         assert (last_addr f.1 v1 = y.1) as ->.
         { change (last_addr f.1 v1) with (last_addr f.1 (f :: v1)). rewrite Ew. apply last_addr_snoc. }
         apply malloc_loop_fit. lia. }
  replace (hd_addr v base) with (hd_addr v (hd_addr u f.1)) by (by rewrite Hu).
  assert (linked (hdr s) v (hd_addr u f.1)) as Lv' by (by rewrite Hu). clear Hu Lv.
  destruct (first_fit n u) as [Fu|(u1 & x & u2 & -> & Fu & Hx)].
  - destruct (Z.lt_ge_cases f.2 n) as [Hf|Hf].
    + exfalso. apply Exists_exists in Hex as (x & Hxb & Hx). assert (x ∈ u ++ f :: v) as Hin by (rewrite <- E; by right).
      apply elem_of_app in Hin as [Hin|[->|Hin]%elem_of_cons]; [|lia|]; rewrite Forall_forall in Fu, Fv;
        [specialize (Fu _ Hin)|specialize (Fv _ Hin)]; cbn in *; lia.
    + destruct (snoc_split u) as [->|(w & y & ->)].
      { cbn in E. injection E as <- _. cbn in Hf. lia. }
      exists w, y, f, v. split; [by rewrite E, <- app_assoc|]. split; [done|].
      rewrite length_app in En. cbn [length] in En.
      replace fuel with (length v + (length (w ++ [y]) + Datatypes.S (fuel - length v - length (w ++ [y]) - 1)))%nat
        by (rewrite length_app; cbn [length]; lia).
      rewrite search_skip by (try done; by apply skippable).
      rewrite search_skip by (try done; by apply skippable). rewrite last_addr_snoc. apply malloc_loop_fit. lia.
  - destruct (snoc_split u1) as [->|(w & y & ->)].
    { cbn in E. injection E as <- _. cbn in Hx. lia. }
    exists w, y, x, (u2 ++ f :: v). split; [by rewrite E, <- !app_assoc|]. split; [done|].
    apply linked_app in Lu as [Lu (Lx & _)]. cbn [hd_addr] in Lu. rewrite !length_app in En. cbn [length] in En.
    apply Forall_app in Nu as [Nu _].
    replace (hd_addr ((w ++ [y]) ++ x :: u2) f.1) with (hd_addr (w ++ [y]) x.1) in * by by destruct w.
    replace fuel with (length v + (length (w ++ [y]) + Datatypes.S (fuel - length v - length (w ++ [y]) - 1)))%nat
      by (rewrite length_app; cbn [length]; lia).
    rewrite search_skip by (try done; by apply skippable).
    rewrite search_skip by (try done; by apply skippable). rewrite last_addr_snoc. apply malloc_loop_fit. lia.
Qed.

(** If none is, the loop comes back to [freep] and asks for more memory. *)
Lemma search_none s bs us n ff k :
  wf s bs us -> 1 <= n -> Forall (fun x => x.2 < n) bs ->
  malloc_loop sbrk ff (length bs + Datatypes.S k) n (freep s) (ptr (hdr s (freep s))) s
  = (p <- morecore sbrk ff n ;;
     if p =? 0 then ret 0 else s <- get ;; malloc_loop sbrk ff k n p (ptr (hdr s p)))%kernel s.
Proof.
  intros W Hn Hall. destruct (around s bs us W) as (u & f & v & E & Ef & Lv & Lu & Lf1 & Lf2 & Hu & Hne).
  assert (Forall (fun x => x.2 < n) (u ++ f :: v)) as Hs by (rewrite <- E; constructor; [cbn; lia|done]).
  apply Forall_app in Hne as [Nv Nu]. apply Forall_app in Hs as [Su Sf]. apply Forall_cons in Sf as [Sf Sv].
  pose proof (f_equal length E) as En. rewrite length_app in En. cbn [length] in En.
  rewrite <- Ef at 2. rewrite Lf2. replace (hd_addr v base) with (hd_addr v (hd_addr u f.1)) by (by rewrite Hu).
  replace (length bs + Datatypes.S k)%nat with (length v + (length u + Datatypes.S k))%nat by lia.
  rewrite search_skip by (try (by apply skippable); by rewrite Hu).
  rewrite search_skip by (try done; by apply skippable). rewrite Ef. apply malloc_loop_more.
  rewrite <- Ef, Lf1. exact Sf.
Qed.

(** A heap: the invariant, or the state before the first call. *)
Definition heap s (bs : list blk) (us : gmap Z Z) : Prop :=
  wf s bs us \/ (freep s = 0 /\ bs = [] /\ us = ∅ /\ 0 < base /\ base + 8 <= brk (os s) < 2 ^ 32).

Lemma wf_init s :
  0 < base -> base + 8 <= brk (os s) < 2 ^ 32 ->
  wf (mkU (hset (hset (hdr s) base (mkHdr base (hsize (hdr s base)))) base (mkHdr base 0)) base (os s)) [] ∅.
Proof.
  intros H1 H2. constructor; cbn; rewrite ?hset_eq; try done.
  left.
Qed.

Lemma nunits_enough nbytes : 0 <= nbytes < 2 ^ 31 - 16 -> 1 <= nunits_of nbytes < 2 ^ 28 /\ nbytes <= 8 * (nunits_of nbytes - 1).
Proof.
  intros H. unfold nunits_of. rewrite (u32_id (nbytes + 8 - 1)) by lia.
  pose proof (Z.div_mod (nbytes + 8 - 1) 8 ltac:(lia)). pose proof (Z.mod_pos_bound (nbytes + 8 - 1) 8 ltac:(lia)).
  rewrite u32_id by lia. lia.
Qed.

Lemma malloc_wf fuel s bs us n :
  wf s bs us -> 1 <= n < 2 ^ 28 -> (2 * length bs + 5 < fuel)%nat ->
  exists r s' bs', malloc_loop sbrk fuel fuel n (freep s) (ptr (hdr s (freep s))) s = (Ok r, s')
    /\ ((r = 0 /\ wf s' bs' us)
        \/ exists a, r = a + 8 /\ us !! a = None /\ wf s' bs' (<[a := n]> us)).
Proof.
  intros W Hn Hf. destruct (first_fit n bs) as [Hnone|(b1 & x0 & b2 & Eb & _ & Hx0)].
  2: { destruct (search_fit s bs us n fuel fuel W) as (l1 & y & x & l2 & E & Hx & ->); [lia| |lia|].
       { rewrite Eb. apply Exists_app. right. by left. }
       destruct (take_run s bs us l1 y x l2 n W E ltac:(lia)) as (s' & bs' & -> & Hu & W' & _).
       exists (taken_at n x + 8), s', bs'. split; [done|]. right. by exists (taken_at n x). }
  pose proof (search_none s bs us n fuel (fuel - length bs - 1) W ltac:(lia) Hnone) as Es.
  replace (length bs + Datatypes.S (fuel - length bs - 1))%nat with fuel in Es by lia. rewrite Es.
  destruct (morecore_run fuel s bs us n W Hn ltac:(lia)) as (s1 & bs1 & W1 & Hl & [E1|[E1 Hex]]).
  - rewrite (bind_ok _ _ _ _ _ E1). cbn. exists 0, s1, bs1. split; [done|]. by left.
  - rewrite (bind_ok _ _ _ _ _ E1). pose proof (wf_freep_pos _ _ _ W1).
    rewrite (proj2 (Z.eqb_neq _ 0)) by lia. rewrite (bind_ok get _ s1 s1 s1 eq_refl).
    destruct (search_fit s1 bs1 us n fuel (fuel - length bs - 1) W1) as (l1 & y & x & l2 & E & Hx & ->); [lia|done|lia|].
    destruct (take_run s1 bs1 us l1 y x l2 n W1 E ltac:(lia)) as (s' & bs' & -> & Hu & W' & _).
    exists (taken_at n x + 8), s', bs'. split; [done|]. right. by exists (taken_at n x).
Qed.

(** C30: [malloc] of fewer than 2^31 - 16 bytes (the argument of [sbrk] is an [int];
    requests close to 2^32 wrap around, see [malloc_wraps]), on a heap that was
    never used or is well formed and over any [sbrk] that grows the memory or
    fails, always returns; when it does not return 0, the block it returns was
    not in use, has room for the bytes asked for, and overlaps neither a block in
    use nor a free one; the free list and the headers of the blocks in use stay
    intact. *)
Theorem malloc_contract fuel s bs us nbytes :
  heap s bs us -> 0 <= nbytes < 2 ^ 31 - 16 -> (2 * length bs + 5 < fuel)%nat ->
  exists r s' bs', malloc base sbrk fuel nbytes s = (Ok r, s')
    /\ ((r = 0 /\ wf s' bs' us)
        \/ exists a n, r = a + 8 /\ nbytes <= 8 * (n - 1) /\ us !! a = None /\ wf s' bs' (<[a := n]> us)).
Proof.
  intros H Hb Hf. destruct (nunits_enough nbytes Hb) as [Hn Hroom]. unfold malloc.
  rewrite (bind_ok get _ s s s eq_refl).
  assert (exists s0 bs0, wf s0 bs0 us /\ (length bs0 <= length bs)%nat /\
    (if freep s =? 0 then set_ptr base base ;; set_freep base ;; set_size base 0 else ret tt)%kernel s = (Ok tt, s0))
    as (s0 & bs0 & W0 & Hl0 & E0).
  { destruct H as [W|(E & -> & -> & H1 & H2)].
    - pose proof (wf_freep_pos _ _ _ W). rewrite (proj2 (Z.eqb_neq _ 0)) by lia. by exists s, bs.
    - rewrite E. eexists _, []. split; [apply (wf_init s); lia|]. split; [done|].
      unfold set_ptr, set_freep, set_size. mrun. cbn. by rewrite hset_eq. }
  rewrite (bind_ok _ _ _ _ _ E0), (bind_ok get _ s0 s0 s0 eq_refl).
  destruct (malloc_wf fuel s0 bs0 us (nunits_of nbytes) W0 Hn ltac:(lia)) as (r & s' & bs' & E & Hr).
  exists r, s', bs'. split; [exact E|]. destruct Hr as [?|(a & H1 & H2 & H3)]; [by left|right].
  by exists a, (nunits_of nbytes).
Qed.

(** [free] of a block in use always returns and gives the block back: every
    unit of it is on the free list, on which no two blocks touch, so that
    neighbouring free memory is joined; the other blocks in use are untouched. *)
Theorem free_contract fuel s bs us a n :
  wf s bs us -> us !! a = Some n -> (length bs + 1 < fuel)%nat ->
  exists s' bs', free fuel (a + 8) s = (Ok tt, s') /\ wf s' bs' (delete a us) /\ units bs' = units bs + n.
Proof.
  intros W Hu Hf. destruct (wf_used _ _ _ W a n Hu) as (U1 & U2 & U3 & U4 & U5).
  assert (wf s bs (delete a us)) as W0.
  { destruct W. constructor; try done.
    - intros u m [_ Hm]%lookup_delete_Some. auto.
    - intros u m u' m' [_ H1]%lookup_delete_Some [_ H2]%lookup_delete_Some. eauto. }
  assert (loose s bs (delete a us) a n) as L.
  { constructor; try done. intros u m [Hne Hm]%lookup_delete_Some. by eapply (wf_apart _ _ _ W). }
  destruct (free_run fuel s bs _ a n W0 L Hf) as (s' & bs' & E & W' & _ & Hun & _). by exists s', bs'.
Qed.
End Proofs.

(** ** A program break that grows up to a limit *)

Module Runs.
Definition sbrk (n o : Z) : Z * Z := if o + n <? 2 ^ 31 then (o, o + n) else (u32 (-1), o).

Lemma sbrk_ok n o : 0 <= n < 2 ^ 31 ->
  ((sbrk n o).1 = u32 (-1) /\ (sbrk n o).2 = o) \/ ((sbrk n o).1 = o /\ (sbrk n o).2 = o + n /\ o + n < 2 ^ 32 - 1).
Proof. intros H. unfold sbrk. destruct (Z.ltb_spec (o + n) (2 ^ 31)); [right|left]; cbn; lia. Qed.

(** The static header at 0x1000, the break at 0x3000, before the first call. *)
Definition fresh : ustate Z := mkU (fun _ => mkHdr 0 0) 0 0x3000.

(** After [p = malloc(20)] and [q = malloc(100)]. *)
Definition two : ustate Z := ((malloc 0x1000 sbrk 20 20 ;; malloc 0x1000 sbrk 20 100)%kernel fresh).2.

Definition two_free : list blk := [(0x3000, 4078)].
Definition two_used : gmap Z Z := {[0x3000 + 8 * 4078 := 14; 0x3000 + 8 * 4092 := 4]}.

Lemma two_wf : wf 0x1000 id two two_free two_used.
Proof.
  assert (hdr two 0x1000 = mkHdr 0x3000 0 /\ hdr two 0x3000 = mkHdr 0x1000 4078 /\ freep two = 0x1000
    /\ hsize (hdr two (0x3000 + 8 * 4078)) = 14 /\ hsize (hdr two (0x3000 + 8 * 4092)) = 4 /\ os two = 0xb000)
    as (E1 & E2 & E3 & E4 & E5 & E6) by (vm_compute; done).
  revert E1 E2 E3 E4 E5 E6. generalize two. intros s E1 E2 E3 E4 E5 E6.
  assert (forall a n, two_used !! a = Some n ->
    (a = 0x3000 + 8 * 4078 /\ n = 14) \/ (a = 0x3000 + 8 * 4092 /\ n = 4)) as Hus.
  { unfold two_used. intros a n [[<- <-]|[_ [<- <-]%lookup_singleton_Some]]%lookup_insert_Some; auto. }
  constructor; rewrite ?E3, ?E6; cbn; rewrite ?E1, ?E2; cbn; try done.
  - left.
  - repeat constructor.
  - by constructor; [|constructor].
  - intros a n [[-> ->]|[-> ->]]%Hus; rewrite ?E4, ?E5; (split_and!; [lia|lia|unfold fin; cbn; lia|done|]);
      intros x ->%list_elem_of_singleton; right; unfold fin; cbn; lia.
  - intros a n a' n' [[-> ->]|[-> ->]]%Hus [[-> ->]|[-> ->]]%Hus Hne; unfold disjoint, fin; cbn; (lia || done).
Qed.

(** The first call, and a call when two blocks are in use. *)
Lemma malloc_contract_witness :
  (exists r s' bs', malloc 0x1000 sbrk 20 20 fresh = (Ok r, s')
    /\ ((r = 0 /\ wf 0x1000 id s' bs' ∅)
        \/ exists a n, r = a + 8 /\ 20 <= 8 * (n - 1) /\ (∅ : gmap Z Z) !! a = None /\ wf 0x1000 id s' bs' (<[a := n]> ∅)))
  /\ exists r s' bs', malloc 0x1000 sbrk 20 40000 two = (Ok r, s')
    /\ ((r = 0 /\ wf 0x1000 id s' bs' two_used)
        \/ exists a n, r = a + 8 /\ 40000 <= 8 * (n - 1) /\ two_used !! a = None /\ wf 0x1000 id s' bs' (<[a := n]> two_used)).
Proof.
  split.
  - apply (malloc_contract 0x1000 sbrk id sbrk_ok 20 fresh []); [|lia|cbn; lia]. right. cbn. by repeat split.
  - apply (malloc_contract 0x1000 sbrk id sbrk_ok 20 two two_free); [|lia|cbn; lia]. left. exact two_wf.
Defined.

(** The calls of the witness do return blocks. *)
Lemma blocks_returned :
  (malloc 0x1000 sbrk 20 20 fresh).1 = Ok (0x3000 + 8 * 4092 + 8)
  /\ (malloc 0x1000 sbrk 20 40000 two).1 = Ok 0xb008.
Proof. vm_compute. split; reflexivity. Qed.

Lemma free_contract_witness :
  exists s' bs', free 5 (0x3000 + 8 * 4078 + 8) two = (Ok tt, s')
    /\ wf 0x1000 id s' bs' (delete (0x3000 + 8 * 4078) two_used) /\ units bs' = units two_free + 14.
Proof. apply (free_contract 0x1000 id 5 two two_free two_used); [exact two_wf|done|cbn; lia]. Defined.

(** A request close to 2^32 bytes wraps around: the block has room for 0 bytes. *)
Theorem malloc_wraps :
  exists a, (malloc 0x1000 sbrk 20 (2 ^ 32 - 4) fresh).1 = Ok (a + 8)
    /\ hsize (hdr (malloc 0x1000 sbrk 20 (2 ^ 32 - 4) fresh).2 a) = 1.
Proof. exists (0x3000 + 8 * 4095). split; vm_compute; reflexivity. Qed.
End Runs.
