(* ===== verification/Console.v ===== *)
(** The console: [src/console.c], and the serial port it writes to, [src/uart.c].

    The state holds the variables of the two files and the devices behind the
    ports they use: the cursor registers of the display adapter and its text
    memory, the serial line (every byte written to a port of it, the bytes that
    wait to be read, the answers of its transmitter) and the keyboard controller
    that [Kbd] reads.  A character is an integer, as in the code; one kept in
    [input.buf] or in the text of a format is a byte. *)

From Stdlib Require Import ZArith Lia Ascii String.
From stdpp Require Import base list strings.
From S2P Require Import Prelude.
Local Open Scope Z_scope.

Definition INPUT_BUF : Z := 128.
Definition BACKSPACE : Z := 0x100.
Definition CRTPORT : Z := 0x3d4.
Definition CTRL (x : Z) : Z := x - 64.

Record input := mkinput { buf : list Z; ir : Z; iw : Z; ie : Z; isize : Z }.

Definition set_ie v i := mkinput (buf i) (ir i) (iw i) v (isize i).
Definition set_ir v i := mkinput (buf i) v (iw i) (ie i) (isize i).
Definition set_iw v i := mkinput (buf i) (ir i) v (ie i) (isize i).
Definition set_isize v i := mkinput (buf i) (ir i) (iw i) (ie i) v.
Definition set_buf v i := mkinput v (ir i) (iw i) (ie i) (isize i).

(** The display adapter: text memory and, behind [CRTPORT], an index register
    that selects which of the cursor's two bytes the next port shows. *)
Record cga := mkcga { crt : list Z; crt_index : Z; cur_hi : Z; cur_lo : Z }.

(** The serial port: [com_out] holds each write as offset and value; [com_tx] is
    what bit 5 of the status register will be at the next reads, ready when the
    list ends; a missing port reads as 0xFF. *)
Record com := mkcom {
  com_absent : bool;
  com_out : list (Z * Z);
  com_tx : list bool;
  com_in : list Z;
}.

Record cons := mkcons {
  panicked : bool;
  cons_lock : bool;
  locking : bool;
  screen : cga;
  uart : bool;
  com1 : com;
  kbd_in : list Z;
  shift : Z;
  inp : input;
  end_pos : Z;
  woken : list chan;
  irqs : list (Z * Z);
}.

Definition set_panicked v s := mkcons v (cons_lock s) (locking s) (screen s) (uart s) (com1 s) (kbd_in s) (shift s) (inp s) (end_pos s) (woken s) (irqs s).
Definition set_cons_lock v s := mkcons (panicked s) v (locking s) (screen s) (uart s) (com1 s) (kbd_in s) (shift s) (inp s) (end_pos s) (woken s) (irqs s).
Definition set_locking v s := mkcons (panicked s) (cons_lock s) v (screen s) (uart s) (com1 s) (kbd_in s) (shift s) (inp s) (end_pos s) (woken s) (irqs s).
Definition set_screen v s := mkcons (panicked s) (cons_lock s) (locking s) v (uart s) (com1 s) (kbd_in s) (shift s) (inp s) (end_pos s) (woken s) (irqs s).
Definition set_uart v s := mkcons (panicked s) (cons_lock s) (locking s) (screen s) v (com1 s) (kbd_in s) (shift s) (inp s) (end_pos s) (woken s) (irqs s).
Definition set_com1 v s := mkcons (panicked s) (cons_lock s) (locking s) (screen s) (uart s) v (kbd_in s) (shift s) (inp s) (end_pos s) (woken s) (irqs s).
Definition set_kbd l sh s := mkcons (panicked s) (cons_lock s) (locking s) (screen s) (uart s) (com1 s) l sh (inp s) (end_pos s) (woken s) (irqs s).
Definition set_inp v s := mkcons (panicked s) (cons_lock s) (locking s) (screen s) (uart s) (com1 s) (kbd_in s) (shift s) v (end_pos s) (woken s) (irqs s).
Definition set_end_pos v s := mkcons (panicked s) (cons_lock s) (locking s) (screen s) (uart s) (com1 s) (kbd_in s) (shift s) (inp s) v (woken s) (irqs s).
Definition set_woken v s := mkcons (panicked s) (cons_lock s) (locking s) (screen s) (uart s) (com1 s) (kbd_in s) (shift s) (inp s) (end_pos s) v (irqs s).
Definition set_irqs v s := mkcons (panicked s) (cons_lock s) (locking s) (screen s) (uart s) (com1 s) (kbd_in s) (shift s) (inp s) (end_pos s) (woken s) v.

Abbreviation CM := (M cons).
Implicit Types s : cons.

Definition acquire_cons : CM unit := acquire_flag cons_lock set_cons_lock.
Definition release_cons : CM unit := release_flag cons_lock set_cons_lock.
Definition ioapicenable (irq cpunum : Z) : CM unit :=
  modify (fun s => set_irqs (irqs s ++ [(irq, cpunum)]) s).
Definition wakeup_input : CM unit := modify (fun s => set_woken (woken s ++ [CInput]) s).

(** ** The serial port *)

Definition out_com (off v : Z) : CM unit :=
  modify (fun s => let c := com1 s in
    set_com1 (mkcom (com_absent c) (com_out c ++ [(off, u8 v)]) (com_tx c) (com_in c)) s).

(** [inb(COM1+5)]: bit 0 when a byte waits, bit 5 when the transmitter is ready. *)
Definition in_lsr : CM Z :=
  s <- get ;;
  let c := com1 s in
  if com_absent c then ret 0xFF else
  modify (set_com1 (mkcom false (com_out c) (tl (com_tx c)) (com_in c))) ;;
  ret (Z.lor (if hd true (com_tx c) then 0x20 else 0) (match com_in c with [] => 0 | _ => 1 end)).

(** [inb(COM1+0)]: take the byte that waits. *)
Definition in_com : CM Z :=
  s <- get ;;
  let c := com1 s in
  match com_in c with
  | [] => ret 0
  | b :: l => modify (set_com1 (mkcom (com_absent c) (com_out c) (com_tx c) l)) ;; ret (u8 b)
  end.

(** The delay loop of [uartputc]; [microdelay] has an empty body. *)
Fixpoint uart_wait (n : nat) : CM unit :=
  match n with
  | O => ret tt
  | S k => r <- in_lsr ;; if nz (Z.land r 0x20) then ret tt else uart_wait k
  end.

Definition uartputc (c : Z) : CM unit :=
  s <- get ;;
  if negb (uart s) then ret tt else
  uart_wait 128 ;;
  out_com 0 c.

Definition uartgetc : CM Z :=
  s <- get ;;
  if negb (uart s) then ret (-1) else
  r <- in_lsr ;;
  if negb (nz (Z.land r 0x01)) then ret (-1) else in_com.

(** Bytes of a string constant. *)
Definition text (x : string) : list Z :=
  map (fun a => Z.of_N (Ascii.N_of_ascii a)) (String.list_ascii_of_string x).

Fixpoint each (f : Z -> CM unit) (l : list Z) : CM unit :=
  match l with
  | [] => ret tt
  | c :: l' => f c ;; each f l'
  end.

Definition IRQ_KBD : Z := 1.
Definition IRQ_COM1 : Z := 4.

Definition uartinit : CM unit :=
  out_com 2 0 ;;
  out_com 3 0x80 ;;
  out_com 0 (115200 / 9600) ;;
  out_com 1 0 ;;
  out_com 3 0x03 ;;
  out_com 4 0 ;;
  out_com 1 0x01 ;;
  r <- in_lsr ;;
  if r =? 0xFF then ret tt else
  modify (set_uart true) ;;
  in_com ;;
  ioapicenable IRQ_COM1 0 ;;
  each uartputc (text "xv6..." ++ [10]).

(** ** The display *)

Definition out_crt (port v : Z) : CM unit :=
  modify (fun s =>
    let d := screen s in
    set_screen
      (if port =? CRTPORT then mkcga (crt d) (u8 v) (cur_hi d) (cur_lo d)
       else if crt_index d =? 14 then mkcga (crt d) (crt_index d) (u8 v) (cur_lo d)
       else if crt_index d =? 15 then mkcga (crt d) (crt_index d) (cur_hi d) (u8 v)
       else d) s).

Definition in_crt : CM Z :=
  gets (fun s => let d := screen s in
    if crt_index d =? 14 then cur_hi d else if crt_index d =? 15 then cur_lo d else 0).

Definition set_crt (l : list Z) : CM unit :=
  modify (fun s => let d := screen s in
    set_screen (mkcga l (crt_index d) (cur_hi d) (cur_lo d)) s).

(** [crt[i] = v]. *)
Definition crt_put (i v : Z) : CM unit :=
  s <- get ;;
  let l := crt (screen s) in
  if (0 <=? i) && (i <? Z.of_nat (length l)) then set_crt (<[Z.to_nat i := v]> l)
  else ub "crt index".

(** Scroll up: rows 1 to 23 move to 0 to 22, the cells from the new position to
    the end of row 23 are cleared. *)
Definition scroll (pos : Z) : CM Z :=
  s <- get ;;
  let l := crt (screen s) in
  let n := Z.to_nat (23 * 80) in
  let moved := take n (drop 80 l) ++ drop n l in
  let p := Z.to_nat (pos - 80) in
  let k := Z.to_nat (24 * 80 - (pos - 80)) in
  set_crt (take p moved ++ replicate k 0 ++ drop (p + k) moved) ;;
  ret (pos - 80).

Definition attr (c : Z) : Z := Z.lor (Z.land c 0xff) 0x0700.

Definition cgaputc (c : Z) : CM unit :=
  out_crt CRTPORT 14 ;;
  hi <- in_crt ;;
  out_crt CRTPORT 15 ;;
  lo <- in_crt ;;
  let pos := Z.lor (Z.shiftl hi 8) lo in
  pos <- (if c =? 10 then ret (pos + (80 - pos mod 80))
          else if (c =? BACKSPACE) || (c =? 8) then ret (if 0 <? pos then pos - 1 else pos)
          else crt_put pos (attr c) ;; ret (pos + 1)) ;;
  if (pos <? 0) || (25 * 80 <? pos) then panic "pos under/overflow" else
  pos <- (if 24 <=? pos / 80 then scroll pos else ret pos) ;;
  out_crt CRTPORT 14 ;;
  out_crt (CRTPORT + 1) (Z.shiftr pos 8) ;;
  out_crt CRTPORT 15 ;;
  out_crt (CRTPORT + 1) pos ;;
  if negb (c =? 8) then crt_put pos (attr 32) else ret tt.

Definition consputc (c : Z) : CM unit :=
  s <- get ;;
  if panicked s then spin else
  (if c =? BACKSPACE then uartputc 8 ;; uartputc 32 ;; uartputc 8 else uartputc c) ;;
  cgaputc c.

(** ** Formatted output *)

(** An argument of [cprintf]: a word, or the string a pointer leads to. *)
Inductive carg := Word (w : Z) | Str (p : option (list Z)).

Definition cdigits : list Z :=
  [48; 49; 50; 51; 52; 53; 54; 55; 56; 57; 97; 98; 99; 100; 101; 102].

(** The digits of [x], least significant first; [buf] has room for 16. *)
Fixpoint cdigits_loop (fuel : nat) (x base : Z) : list Z :=
  match fuel with
  | O => []
  | S k => nth (Z.to_nat (x mod base)) cdigits 0 ::
           (if x / base =? 0 then [] else cdigits_loop k (x / base) base)
  end.

Definition printint (xx base : Z) (sgn : bool) : CM unit :=
  let neg := sgn && (xx <? 0) in
  let x := if neg then u32 (- xx) else u32 xx in
  each consputc (rev (cdigits_loop 16 x base ++ (if neg then [45] else []))).

(** A C string up to its NUL. *)
Fixpoint upto_nul (l : list Z) : list Z :=
  match l with
  | [] => []
  | c :: l' => if c =? 0 then [] else c :: upto_nul l'
  end.

Fixpoint cprintf_loop (fmt : list Z) (argp : list carg) : CM unit :=
  match fmt with
  | [] => ret tt
  | c0 :: fmt =>
      let c := Z.land c0 0xff in
      if c =? 0 then ret tt else
      if negb (c =? 37) then consputc c ;; cprintf_loop fmt argp else
      match fmt with
      | [] => ret tt
      | c1 :: fmt =>
          let c := Z.land c1 0xff in
          if c =? 0 then ret tt else
          if c =? 100 then
            match argp with
            | Word w :: argp => printint (s32 w) 10 true ;; cprintf_loop fmt argp
            | _ => ub "cprintf argument"
            end
          else if (c =? 120) || (c =? 112) then
            match argp with
            | Word w :: argp => printint (s32 w) 16 false ;; cprintf_loop fmt argp
            | _ => ub "cprintf argument"
            end
          else if c =? 115 then
            match argp with
            | Str p :: argp =>
                each consputc (match p with None => text "(null)" | Some l => upto_nul l end) ;;
                cprintf_loop fmt argp
            | _ => ub "cprintf argument"
            end
          else if c =? 37 then consputc 37 ;; cprintf_loop fmt argp
          else consputc 37 ;; consputc c ;; cprintf_loop fmt argp
      end
  end.

Definition cprintf (fmt : option (list Z)) (argp : list carg) : CM unit :=
  s <- get ;;
  let locks := locking s in
  (if locks then acquire_cons else ret tt) ;;
  match fmt with
  | None => panic "null fmt"
  | Some fmt =>
      cprintf_loop fmt argp ;;
      (if locks then release_cons else ret tt)
  end.

Fixpoint print_pcs (l : list Z) : CM unit :=
  match l with
  | [] => ret tt
  | pc :: l' => cprintf (Some (text " %p")) [Word pc] ;; print_pcs l'
  end.

(** [panic]: what it prints before it stops.  [lapicid] is the processor and
    [pcs] the ten return addresses [getcallerpcs] finds. *)
Definition console_panic (lapicid : Z) (pcs : list Z) (m : list Z) : CM unit :=
  modify (set_locking false) ;;
  cprintf (Some (text "lapicid %d: panic: ")) [Word lapicid] ;;
  cprintf (Some m) [] ;;
  cprintf (Some [10]) [] ;;
  print_pcs pcs ;;
  modify (set_panicked true) ;;
  spin.

(** ** Input *)

Definition get_inp : CM input := gets inp.
Definition upd_inp (f : input -> input) : CM unit := modify (fun s => set_inp (f (inp s)) s).

(** [input.buf[x % INPUT_BUF]]. *)
Definition bufget (i : input) (x : Z) : Z := nth (Z.to_nat (u32 x mod INPUT_BUF)) (buf i) 0.
Definition bufput (x v : Z) (i : input) : input :=
  set_buf (<[Z.to_nat (u32 x mod INPUT_BUF) := u8 v]> (buf i)) i.

(** [for(i = 0; i < bound; i++) body(i)] with an [int] counter and a [uint]
    bound: a bound of 2^31 or more is never reached, [i++] overflows first. *)
Fixpoint for_up (n : nat) (i : Z) (body : Z -> CM unit) : CM unit :=
  match n with
  | O => ret tt
  | S k => body i ;; for_up k (i + 1) body
  end.

Definition for_uint (bound : Z) (body : Z -> CM unit) : CM unit :=
  if bound <? 2 ^ 31 then for_up (Z.to_nat bound) 0 body
  else for_up (Z.to_nat (2 ^ 31)) 0 body ;; ub "i++ overflows".

(** [for(i = n; i > 0; i--) body(i)]. *)
Fixpoint for_down (n : nat) (body : Z -> CM unit) : CM unit :=
  match n with
  | O => ret tt
  | S k => body (Z.of_nat n) ;; for_down k body
  end.

(** [input.r + input.size - input.e]: the characters right of the cursor. *)
Definition tail_len (i : input) : Z := u32 (ir i + isize i - ie i).

(** The loops that walk back to the start of the line, printing [c] for each
    character; [input.e - input.w] steps are enough. *)
Fixpoint walk_back (fuel : nat) (c : Z) : CM unit :=
  i <- get_inp ;;
  match fuel with
  | O => ret tt
  | S k =>
      if negb (ie i =? iw i) && negb (bufget i (ie i - 1) =? 10)
      then upd_inp (set_ie (u32 (ie i - 1))) ;; consputc c ;; walk_back k c
      else ret tt
  end.

(** The loops that walk to the end of the line, printing what they pass; the
    index is not reduced, so that it may leave the array. *)
Fixpoint walk_end (fuel : nat) : CM unit :=
  i <- get_inp ;;
  match fuel with
  | O => ret tt
  | S k =>
      if negb (ie i =? u32 (ir i + isize i)) then
        if ie i <? INPUT_BUF
        then consputc (nth (Z.to_nat (ie i)) (buf i) 0) ;; upd_inp (set_ie (u32 (ie i + 1))) ;; walk_end k
        else ub "input.buf[input.e]"
      else ret tt
  end.

(** [input.buf[input.e++ % INPUT_BUF] = c; input.size++; consputc(c)]. *)
Definition append_char (c : Z) : CM unit :=
  upd_inp (fun i => bufput (ie i) c i) ;;
  upd_inp (fun i => set_ie (u32 (ie i + 1)) i) ;;
  upd_inp (fun i => set_isize (u32 (isize i + 1)) i) ;;
  consputc c.

Definition kill_line : CM unit :=
  i <- get_inp ;;
  walk_back (Z.to_nat (u32 (ie i - iw i))) BACKSPACE ;;
  i <- get_inp ;;
  modify (set_end_pos (ie i)).

Definition erase_char : CM unit :=
  i <- get_inp ;;
  (if negb (ie i =? u32 (ir i + isize i)) then
     if iw i <? ie i then
       upd_inp (fun i => set_ie (u32 (ie i - 1)) i) ;;
       upd_inp (fun i => set_isize (u32 (isize i - 1)) i) ;;
       consputc 8 ;;
       i <- get_inp ;;
       for_uint (tail_len i) (fun k => upd_inp (fun i => bufput (ie i + k) (bufget i (ie i + k + 1)) i)) ;;
       upd_inp (fun i => bufput (ir i + isize i) 32 i) ;;
       i <- get_inp ;;
       for_uint (tail_len i) (fun k => i <- get_inp ;; consputc (bufget i (ie i + k))) ;;
       consputc 32 ;;
       consputc 8 ;;
       for_uint (tail_len i) (fun _ => consputc 8)
     else ret tt
   else
     if negb (ie i =? iw i) then
       upd_inp (fun i => set_ie (u32 (ie i - 1)) i) ;;
       consputc BACKSPACE ;;
       upd_inp (fun i => set_isize (u32 (isize i - 1)) i)
     else ret tt) ;;
  modify (fun s => set_end_pos (u32 (end_pos s - 1)) s).

Definition clear_line : CM unit :=
  i <- get_inp ;;
  for_uint (u32 (iw i + isize i - ie i)) (fun _ => consputc 32) ;;
  for_uint (isize i) (fun _ => consputc BACKSPACE) ;;
  upd_inp (fun i => set_ie (iw i) i) ;;
  upd_inp (set_isize 0).

Definition cursor_home : CM unit :=
  i <- get_inp ;; walk_back (Z.to_nat (u32 (ie i - iw i))) 8.

Definition cursor_end : CM unit :=
  i <- get_inp ;; walk_end (Z.to_nat (tail_len i)).

(** A character in the middle of the line: the rest moves right and is printed
    again. *)
Definition insert_char (c : Z) : CM unit :=
  i <- get_inp ;;
  for_down (Z.to_nat (s32 (tail_len i)))
    (fun k => upd_inp (fun i => bufput (ie i + k) (bufget i (ie i + k - 1)) i)) ;;
  append_char c ;;
  i <- get_inp ;;
  for_uint (tail_len i) (fun k => i <- get_inp ;; consputc (bufget i (ie i + k))) ;;
  for_uint (tail_len i) (fun _ => consputc 8).

Definition type_char (c : Z) : CM unit :=
  i <- get_inp ;;
  if negb (c =? 0) && (u32 (ie i - ir i) <? INPUT_BUF) then
    let c := if c =? 13 then 10 else c in
    (if negb (ie i =? u32 (ir i + isize i)) then
       if (c =? 10) || (c =? CTRL 68) then walk_end (Z.to_nat (tail_len i)) ;; append_char c
       else insert_char c
     else append_char c) ;;
    i <- get_inp ;;
    if (c =? 10) || (c =? CTRL 68) || (isize i =? INPUT_BUF) then
      upd_inp (fun i => set_iw (ie i) i) ;;
      upd_inp (set_isize 0) ;;
      wakeup_input
    else ret tt
  else ret tt.

(** One turn of the loop of [consoleintr]; [true] asks for a process listing. *)
Definition console_key (c : Z) : CM bool :=
  if c =? CTRL 80 then ret true
  else if c =? CTRL 85 then kill_line ;; ret false
  else if (c =? CTRL 72) || (c =? 0x7f) then erase_char ;; ret false
  else if c =? CTRL 67 then clear_line ;; ret false
  else if c =? 123 then cursor_home ;; ret false
  else if c =? 125 then cursor_end ;; ret false
  else type_char c ;; ret false.

Section Interrupt.
Context (procdump : CM unit) (getc : CM Z).

(** The fuel bounds the characters the device has ready. *)
Fixpoint consoleintr_loop (fuel : nat) (doprocdump : bool) : CM bool :=
  match fuel with
  | O => spin
  | S k =>
      c <- getc ;;
      if c <? 0 then ret doprocdump else
      d <- console_key c ;;
      consoleintr_loop k (d || doprocdump)
  end.

(** [consoleintr] up to the listing of the processes, and whether it is asked for. *)
Definition consoleintr_keys (fuel : nat) : CM bool :=
  s <- get ;;
  (if end_pos s =? u32 (-1) then modify (set_end_pos (ie (inp s))) else ret tt) ;;
  acquire_cons ;;
  d <- consoleintr_loop fuel false ;;
  release_cons ;;
  ret d.

Definition consoleintr (fuel : nat) : CM unit :=
  d <- consoleintr_keys fuel ;;
  if d then procdump else ret tt.
End Interrupt.

(** [uartgetc] takes one byte of the line at each call. *)
Definition uart_turns (s : cons) : nat := S (length (com_in (com1 s))).
Definition uartintr (procdump : CM unit) : CM unit :=
  s <- get ;; consoleintr procdump uartgetc (uart_turns s).

(** ** The device's read and write

    [consoleread] works on a state that holds the console and the inode layer:
    [cget], [cput] reach the console, [iunlock] and [ilock] are those of the inode. *)

(** What the loop ends with, the lock released, and the bytes stored at [dst] by
    then: done, asleep on [&input.r], or given up because the process is killed. *)
Inductive rdres := RDone (l : list Z) | RWait (l : list Z) | RKilled (l : list Z).

Fixpoint consoleread_loop (killed : bool) (n : nat) (acc : list Z) : CM rdres :=
  match n with
  | O => release_cons ;; ret (RDone acc)
  | S k =>
      i <- get_inp ;;
      if ir i =? iw i then
        release_cons ;; ret (if killed then RKilled acc else RWait acc)
      else
        let c := bufget i (ir i) in
        upd_inp (set_ir (u32 (ir i + 1))) ;;
        if c =? CTRL 68 then
          match acc with
          | [] => release_cons ;; ret (RDone acc)
          | _ => upd_inp (set_ir (ir i)) ;; release_cons ;; ret (RDone acc)
          end
        else
          let acc := acc ++ [c] in
          if c =? 10 then release_cons ;; ret (RDone acc) else consoleread_loop killed k acc
  end.

Section Device.
Context {S : Type} (cget : S -> cons) (cput : cons -> S -> S) (iunlock ilock : nat -> M S unit)
        (killed : S -> bool).

Definition oncons {A} (m : CM A) : M S A := zoom cget cput m.

(** From the loop on; [None] when the process sleeps, with what it has read. *)
Definition consoleread_from (ip : nat) (n : Z) (acc : list Z) : M S (option Z * list Z) :=
  oncons acquire_cons ;;
  s <- get ;;
  r <- oncons (consoleread_loop (killed s) (Z.to_nat n - length acc) acc) ;;
  match r with
  | RDone l => ilock ip ;; ret (Some (Z.of_nat (length l)), l)
  | RKilled l => ilock ip ;; ret (Some (-1), l)
  | RWait l => ret (None, l)
  end.

Definition consoleread (ip : nat) (n : Z) : M S (option Z * list Z) :=
  iunlock ip ;; consoleread_from ip n [].

Definition consolewrite (ip : nat) (l : list Z) : M S Z :=
  iunlock ip ;;
  oncons acquire_cons ;;
  oncons (each (fun c => consputc (Z.land c 0xff)) l) ;;
  oncons release_cons ;;
  ilock ip ;;
  ret (Z.of_nat (length l)).
End Device.

(** The entries of [devsw] are [consoleread] and [consolewrite] above. *)
Definition consoleinit : CM unit :=
  modify (set_cons_lock false) ;;
  modify (set_locking true) ;;
  ioapicenable IRQ_KBD 0.
