(* ===== verification/ConsoleInv.v ===== *)
(** The line editor of the console: what the keys do to the line being typed, to
    the screen and to the reader, proved of [Console]. *)

From Stdlib Require Import ZArith Lia.
From stdpp Require Import base list strings.
From S2P Require Import Prelude Console.
Local Open Scope Z_scope.

Implicit Types (s : cons) (i : input).

(** ** The screen *)

Definition curpos (d : cga) : Z := Z.lor (Z.shiftl (cur_hi d) 8) (cur_lo d).

(** The cursor is on one of the first 24 rows, and the memory has them. *)
Definition cga_ok (d : cga) : Prop :=
  0 <= cur_hi d < 256 /\ 0 <= cur_lo d < 256 /\ curpos d < 24 * 80 /\ (24 * 80 <= length (crt d))%nat.

(** Two states that differ in the screen and in what the serial line has sent. *)
Definition keeps s s' : Prop :=
  s' = set_screen (screen s') (set_com1 (com1 s') s) /\ com_in (com1 s') = com_in (com1 s)
    /\ com_absent (com1 s') = com_absent (com1 s).

Lemma keeps_refl s : keeps s s.
Proof. by destruct s. Qed.

Lemma keeps_trans s1 s2 s3 : keeps s1 s2 -> keeps s2 s3 -> keeps s1 s3.
Proof.
  intros (E & H1 & H2) (E' & H3 & H4). split; [|by rewrite H3, H1, H4, H2].
  rewrite E' at 1. rewrite E. by destruct s1.
Qed.

Lemma lor_hi_lo p : 0 <= p < 2 ^ 16 -> Z.lor (Z.shiftl (Z.shiftr p 8) 8) (u8 p) = p.
Proof.
  intros H. unfold u8. apply Z.bits_inj'. intros n Hn.
  rewrite Z.lor_spec, Z.shiftl_spec, testbit_mod_pow2 by lia.
  destruct (Z.ltb_spec n 8); simpl.
  - by rewrite Z.testbit_neg_r by lia.
  - rewrite Z.shiftr_spec by lia. replace (n - 8 + 8) with n by lia. apply orb_false_r.
Qed.

Lemma curpos_nonneg d : cga_ok d -> 0 <= curpos d.
Proof.
  intros (H1 & H2 & _). unfold curpos. apply Z.lor_nonneg. split; [|lia].
  apply Z.shiftl_nonneg. lia.
Qed.

(** The effect of one character on cursor and text, short of the last row. *)
Definition glyph (t : Z * list Z) (c : Z) : Z * list Z :=
  let '(p, l) := t in
  if c =? 8 then (p - 1, l)
  else if c =? BACKSPACE then (p - 1, <[Z.to_nat (p - 1) := attr 32]> l)
  else (p + 1, <[Z.to_nat (p + 1) := attr 32]> (<[Z.to_nat p := attr c]> l)).

Definition view s : Z * list Z := (curpos (screen s), crt (screen s)).

(** The cursor and text as they are left at [pos]. *)
Definition left_at (pos : Z) (l : list Z) : cga := mkcga l 15 (u8 (Z.shiftr pos 8)) (u8 pos).

Lemma left_at_ok pos l :
  0 <= pos < 24 * 80 -> (24 * 80 <= length l)%nat -> cga_ok (left_at pos l) /\ curpos (left_at pos l) = pos.
Proof.
  intros H Hl. pose proof (u8_range (Z.shiftr pos 8)). pose proof (u8_range pos).
  assert (curpos (left_at pos l) = pos) as E.
  { unfold curpos, left_at. cbn [cur_hi cur_lo]. rewrite (u8_id (Z.shiftr pos 8)).
    - apply lor_hi_lo. lia.
    - rewrite Z.shiftr_div_pow2 by lia. change (2 ^ 8) with 256.
      split; [apply Z.div_pos; lia|]. apply Z.div_lt_upper_bound; lia. }
  split; [|done]. unfold cga_ok. rewrite E. simpl. lia.
Qed.

Lemma crt_put_run p v s :
  0 <= p < Z.of_nat (length (crt (screen s))) ->
  crt_put p v s = (Ok tt, set_screen (mkcga (<[Z.to_nat p := v]> (crt (screen s))) (crt_index (screen s))
                                        (cur_hi (screen s)) (cur_lo (screen s))) s).
Proof.
  intros H. unfold crt_put, set_crt. mrun.
  destruct (Z.leb_spec 0 p), (Z.ltb_spec p (Z.of_nat (length (crt (screen s))))); try lia. by destruct s.
Qed.

(** The cursor after [c], before any scrolling. *)
Definition next_pos (p c : Z) : Z :=
  if c =? 10 then p + (80 - p mod 80)
  else if (c =? BACKSPACE) || (c =? 8) then (if 0 <? p then p - 1 else p) else p + 1.

Definition next_text (p c : Z) (l : list Z) : list Z :=
  if (c =? 10) || (c =? BACKSPACE) || (c =? 8) then l else <[Z.to_nat p := attr c]> l.

Definition scrolled (p : Z) (l : list Z) : list Z :=
  let n := Z.to_nat (23 * 80) in
  let moved := take n (drop 80 l) ++ drop n l in
  let q := Z.to_nat (p - 80) in
  let k := Z.to_nat (24 * 80 - (p - 80)) in
  take q moved ++ replicate k 0 ++ drop (q + k) moved.

Lemma scrolled_length p l :
  80 <= p <= 25 * 80 -> (24 * 80 <= length l)%nat -> length (scrolled p l) = length l.
Proof.
  intros Hp Hl. unfold scrolled.
  rewrite !length_app, length_replicate, length_drop, !length_take, !length_app, !length_take, !length_drop. lia.
Qed.

Definition cga_after (p c : Z) (l : list Z) : cga :=
  let p1 := next_pos p c in
  let l1 := next_text p c l in
  let '(p2, l2) := if 24 <=? p1 / 80 then (p1 - 80, scrolled p1 l1) else (p1, l1) in
  left_at p2 (if c =? 8 then l2 else <[Z.to_nat p2 := attr 32]> l2).

Lemma next_pos_range p c : 0 <= p < 24 * 80 -> 0 <= next_pos p c <= 24 * 80.
Proof.
  intros H. unfold next_pos. destruct (c =? 10).
  - pose proof (Z.div_mod p 80 ltac:(lia)). pose proof (Z.mod_pos_bound p 80 ltac:(lia)).
    assert (p / 80 < 24) by (apply Z.div_lt_upper_bound; lia). lia.
  - destruct (_ || _); [|lia]. destruct (Z.ltb_spec 0 p); lia.
Qed.

Lemma next_text_length p c l : length (next_text p c l) = length l.
Proof. unfold next_text. destruct (_ || _); [done|]. apply length_insert. Qed.

Lemma cgaputc_run c s :
  cga_ok (screen s) ->
  cgaputc c s = (Ok tt, set_screen (cga_after (curpos (screen s)) c (crt (screen s))) s).
Proof.
  intros Hok. pose proof (curpos_nonneg _ Hok) as Hp. destruct Hok as (Hh & Hlo & Hc & Hl).
  pose proof (next_pos_range (curpos (screen s)) c ltac:(lia)) as Hn.
  set (p := curpos (screen s)) in *. set (l := crt (screen s)) in *.
  set (s1 := set_screen (mkcga l 15 (cur_hi (screen s)) (cur_lo (screen s))) s).
  assert (Hstart : forall k : Z -> Z -> CM unit,
    (out_crt CRTPORT 14 ;; hi <- in_crt ;; out_crt CRTPORT 15 ;; lo <- in_crt ;; k hi lo)%kernel s
    = k (cur_hi (screen s)) (cur_lo (screen s)) s1) by (intros; by destruct s).
  assert (0 <= p < Z.of_nat (length l)) as Hpl by lia.
  unfold cgaputc. rewrite Hstart. fold (curpos (screen s)). fold p.
  set (mid := mkcga (next_text p c l) 15 (cur_hi (screen s)) (cur_lo (screen s))).
  rewrite (bind_ok _ _ s1 (set_screen mid s) (next_pos p c)).
  2: { unfold next_pos, mid, next_text. destruct (c =? 10); cbn [orb]; [by destruct s|].
       destruct ((c =? BACKSPACE) || (c =? 8)); [by destruct s|].
       rewrite (bind_ok _ _ _ _ _ (crt_put_run p (attr c) s1 Hpl)).
       by destruct s. }
  destruct (Z.ltb_spec (next_pos p c) 0), (Z.ltb_spec (25 * 80) (next_pos p c)); try lia.
  cbn [orb]. unfold cga_after. set (p1 := next_pos p c) in *. set (l1 := next_text p c l) in *.
  assert (length l1 = length l) as Hl1 by apply next_text_length.
  set (p2 := if 24 <=? p1 / 80 then p1 - 80 else p1).
  set (l2 := if 24 <=? p1 / 80 then scrolled p1 l1 else l1).
  assert (0 <= p2 < 24 * 80) as Hp2.
  { unfold p2. pose proof (Z.div_mod p1 80 ltac:(lia)). pose proof (Z.mod_pos_bound p1 80 ltac:(lia)).
    destruct (Z.leb_spec 24 (p1 / 80)); lia. }
  assert (length l2 = length l) as Hl2.
  { unfold l2. destruct (Z.leb_spec 24 (p1 / 80)); [|done].
    rewrite scrolled_length; [done| |lia].
    pose proof (Z.div_mod p1 80 ltac:(lia)). pose proof (Z.mod_pos_bound p1 80 ltac:(lia)). lia. }
  rewrite (bind_ok _ _ (set_screen mid s)
             (set_screen (mkcga l2 15 (cur_hi (screen s)) (cur_lo (screen s))) s) p2).
  2: { unfold p2, l2. destruct (24 <=? p1 / 80); [|by destruct s].
       unfold scroll, set_crt. mrun. by destruct s. }
  replace (if 24 <=? p1 / 80 then _ else _) with (p2, l2) by (unfold p2, l2; by destruct (24 <=? p1 / 80)).
  cbv iota. mrun. destruct (c =? 8); cbn [negb]; [by destruct s|].
  etransitivity; [apply (crt_put_run p2 (attr 32))|]; [destruct s; simpl in *; lia|by destruct s].
Qed.

Lemma cga_after_ok p c l :
  0 <= p < 24 * 80 -> (24 * 80 <= length l)%nat ->
  cga_ok (cga_after p c l) /\ length (crt (cga_after p c l)) = length l.
Proof.
  intros Hp Hl. pose proof (next_pos_range p c Hp) as Hn. unfold cga_after.
  pose proof (Z.div_mod (next_pos p c) 80 ltac:(lia)).
  pose proof (Z.mod_pos_bound (next_pos p c) 80 ltac:(lia)).
  destruct (Z.leb_spec 24 (next_pos p c / 80)).
  - assert (length (scrolled (next_pos p c) (next_text p c l)) = length l) as E
      by (rewrite scrolled_length; rewrite ?next_text_length; lia).
    split; [apply left_at_ok; [lia|]|]; destruct (c =? 8); simpl; rewrite ?length_insert; lia.
  - assert (length (next_text p c l) = length l) as E by apply next_text_length.
    split; [apply left_at_ok; [lia|]|]; destruct (c =? 8); simpl; rewrite ?length_insert; lia.
Qed.

Lemma uart_wait_run n s :
  exists c, uart_wait n s = (Ok tt, set_com1 c s) /\ com_in c = com_in (com1 s)
    /\ com_absent c = com_absent (com1 s).
Proof.
  revert s. induction n as [|n IH]; intros s; simpl.
  { exists (com1 s). by destruct s. }
  unfold in_lsr. mrun. destruct (com_absent (com1 s)) eqn:Ha.
  { exists (com1 s). split; [by destruct s|done]. }
  match goal with |- context [nz ?x] => destruct (nz x) end; [by eexists|].
  match goal with |- context [uart_wait n ?t] => destruct (IH t) as (c & E & H1 & H2) end.
  exists c. rewrite E. by destruct s.
Qed.

Lemma uartputc_run c s : exists s', uartputc c s = (Ok tt, s') /\ keeps s s' /\ screen s' = screen s.
Proof.
  unfold uartputc. mrun. destruct (uart s); cbn [negb].
  2: { exists s. split; [done|]. split; [apply keeps_refl|done]. }
  destruct (uart_wait_run 128 s) as (d & E & H1 & H2). rewrite E. unfold out_com. mrun.
  eexists. split; [done|]. split; [|by destruct s].
  split; [by destruct s|]. by destruct s.
Qed.

Lemma keeps_panicked s s' : keeps s s' -> panicked s' = panicked s.
Proof. intros (E & _). rewrite E. by destruct s. Qed.

Lemma keeps_inp s s' : keeps s s' -> inp s' = inp s.
Proof. intros (E & _). rewrite E. by destruct s. Qed.

(** The console can print: it is not frozen and the cursor is in place. *)
Definition can_print s : Prop := panicked s = false /\ cga_ok (screen s).

Lemma consputc_run c s :
  can_print s ->
  exists s', consputc c s = (Ok tt, s') /\ keeps s s' /\ can_print s'
    /\ length (crt (screen s')) = length (crt (screen s))
    /\ screen s' = cga_after (curpos (screen s)) c (crt (screen s)).
Proof.
  intros [Hp Hok]. unfold consputc, bind at 1, get. rewrite Hp.
  assert (exists s1, (if c =? BACKSPACE then uartputc 8 ;; uartputc 32 ;; uartputc 8 else uartputc c)%kernel s
     = (Ok tt, s1) /\ keeps s s1 /\ screen s1 = screen s) as (s1 & E1 & K1 & S1).
  { destruct (c =? BACKSPACE); [|apply uartputc_run].
    destruct (uartputc_run 8 s) as (a & Ea & Ka & Sa). destruct (uartputc_run 32 a) as (b & Eb & Kb & Sb).
    destruct (uartputc_run 8 b) as (d & Ed & Kd & Sd). exists d.
    rewrite (bind_ok _ _ _ _ _ Ea), (bind_ok _ _ _ _ _ Eb), Ed.
    split; [done|]. split; [eauto using keeps_trans|congruence]. }
  rewrite (bind_ok _ _ _ _ _ E1), cgaputc_run by (by rewrite S1).
  pose proof (cga_after_ok (curpos (screen s)) c (crt (screen s))
    (conj (curpos_nonneg _ Hok) (proj1 (proj2 (proj2 Hok)))) (proj2 (proj2 (proj2 Hok)))) as [Ho Hl].
  rewrite S1. eexists. split; [done|]. split.
  { eapply keeps_trans; [exact K1|]. split; [by destruct s1|done]. }
  split; [split; [|by destruct s1]|]; [|by destruct s1].
  rewrite <- Hp, <- (keeps_panicked _ _ K1). by destruct s1.
Qed.

Lemma consputc_glyph c s :
  can_print s -> c <> 10 -> curpos (screen s) + 1 < 24 * 80 ->
  (c = 8 \/ c = BACKSPACE -> 0 < curpos (screen s)) ->
  exists s', consputc c s = (Ok tt, s') /\ keeps s s' /\ can_print s' /\ view s' = glyph (view s) c.
Proof.
  intros Hc Hn Hp Hb. destruct (consputc_run c s Hc) as (s' & E & K & C & _ & Hs).
  exists s'. split; [done|]. split; [done|]. split; [done|]. unfold view. rewrite Hs.
  pose proof (curpos_nonneg _ (proj2 Hc)) as H0. destruct (proj2 (proj2 Hc)) as (_ & _ & Hl).
  set (p := curpos (screen s)) in *. set (l := crt (screen s)) in *. unfold cga_after, glyph.
  assert (next_pos p c = if (c =? 8) || (c =? BACKSPACE) then p - 1 else p + 1) as Ep.
  { unfold next_pos. destruct (Z.eqb_spec c 10); [done|]. rewrite orb_comm.
    destruct (Z.eqb_spec c 8); cbn [orb]; [|destruct (Z.eqb_spec c BACKSPACE)]; try done;
      destruct (Z.ltb_spec 0 p); lia. }
  assert (0 <= next_pos p c < 24 * 80) as Hr.
  { rewrite Ep. destruct (Z.eqb_spec c 8), (Z.eqb_spec c BACKSPACE); cbn [orb]; lia. }
  rewrite (proj2 (Z.leb_gt 24 (next_pos p c / 80))) by (apply Z.div_lt_upper_bound; lia).
  match goal with |- context [left_at _ ?t] => set (l2 := t) end.
  assert (24 * 80 <= length l2)%nat as Hl2
    by (unfold l2; destruct (c =? 8); rewrite ?length_insert, next_text_length; lia).
  rewrite (proj2 (left_at_ok _ _ Hr Hl2)). unfold l2. clear l2 Hl2.
  unfold next_text. rewrite Ep. destruct (Z.eqb_spec c 10); [done|].
  destruct (Z.eqb_spec c 8) as [->|]; [done|]. by destruct (Z.eqb_spec c BACKSPACE) as [->|].
Qed.

(** ** Printing sequences of characters *)

Definition plain (c : Z) : Prop := c <> 8 /\ c <> 10 /\ c <> BACKSPACE.

(** The text with [cs] printed from cell [p] on. *)
Definition painted (l : list Z) (p : Z) (cs : list Z) (l' : list Z) : Prop :=
  length l' = length l /\
  forall j, 0 <= j < Z.of_nat (length l) ->
    nth (Z.to_nat j) l' 0 =
      if (p <=? j) && (j <? p + Z.of_nat (length cs)) then attr (nth (Z.to_nat (j - p)) cs 0)
      else if nz (Z.of_nat (length cs)) && (j =? p + Z.of_nat (length cs)) then attr 32
      else nth (Z.to_nat j) l 0.

Definition back (c : Z) : bool := (c =? 8) || (c =? BACKSPACE).
Definition step_pos (p c : Z) : Z := if back c then p - 1 else p + 1.

(** The characters stay on the screen, printed from cell [p] on. *)
Fixpoint fits (p : Z) (cs : list Z) : Prop :=
  match cs with
  | [] => True
  | c :: cs' => c <> 10 /\ p + 1 < 24 * 80 /\ (back c = true -> 0 < p) /\ fits (step_pos p c) cs'
  end.

Lemma glyph_pos t c : (glyph t c).1 = step_pos t.1 c.
Proof. destruct t as [p l]. unfold glyph, step_pos, back. by destruct (c =? 8), (c =? BACKSPACE). Qed.

Lemma each_run cs s :
  can_print s -> fits (curpos (screen s)) cs ->
  exists s', each consputc cs s = (Ok tt, s') /\ keeps s s' /\ can_print s'
    /\ view s' = fold_left glyph cs (view s).
Proof.
  revert s. induction cs as [|c cs IH]; intros s Hc Hf.
  { exists s. split; [done|]. split; [apply keeps_refl|done]. }
  destruct Hf as (Hn & Hp & Hb & Hf).
  destruct (consputc_glyph c s Hc Hn Hp) as (s1 & E1 & K1 & C1 & V1).
  { intros H. apply Hb. unfold back. by destruct H as [-> | ->]. }
  destruct (IH s1 C1) as (s2 & E2 & K2 & C2 & V2).
  { pose proof (f_equal fst V1) as Hv. rewrite glyph_pos in Hv. cbn [view fst] in Hv. by rewrite Hv. }
  exists s2. cbn [each]. rewrite (bind_ok _ _ _ _ _ E1), E2, V2, V1.
  split; [done|]. split; [eauto using keeps_trans|done].
Qed.

Lemma for_up_const n a c s : for_up n a (fun _ => consputc c) s = each consputc (replicate n c) s.
Proof.
  revert a s. induction n as [|n IH]; intros a s; [done|]. cbn [for_up replicate each].
  unfold bind. destruct (consputc c s) as [[[]| | | |] s1]; [|done..]. apply IH.
Qed.

Lemma for_up_print cs a s :
  can_print s ->
  (forall k, (k < length cs)%nat -> bufget (inp s) (ie (inp s) + (a + Z.of_nat k)) = nth k cs 0) ->
  for_up (length cs) a (fun k => i <- get_inp ;; consputc (bufget i (ie i + k)))%kernel s
  = each consputc cs s.
Proof.
  revert a s. induction cs as [|c cs IH]; intros a s Hc H; [done|]. cbn [length for_up each].
  pose proof (H 0%nat ltac:(cbn [length]; lia)) as H0. rewrite Z.add_0_r in H0. cbn [nth] in H0.
  destruct (consputc_run c s Hc) as (s1 & E1 & K1 & C1 & _).
  rewrite (bind_ok _ _ s s1 tt) by (unfold get_inp; mrun; by rewrite H0, E1).
  rewrite (bind_ok _ _ _ _ _ E1). apply IH; [done|]. intros k Hk. rewrite (keeps_inp _ _ K1).
  change (nth k cs 0) with (nth (S k) (c :: cs) 0).
  rewrite <- (H (S k) ltac:(cbn [length]; lia)). f_equal. lia.
Qed.

(** *** What the sequences show *)

Lemma attr_insert l p v j :
  0 <= p < Z.of_nat (length l) -> 0 <= j ->
  nth (Z.to_nat j) (<[Z.to_nat p := v]> l) 0 = if j =? p then v else nth (Z.to_nat j) l 0.
Proof.
  intros Hp Hj. destruct (Z.eqb_spec j p) as [->|Hne].
  - apply nth_lookup_Some. apply list_lookup_insert_eq. lia.
  - destruct (l !! Z.to_nat j) eqn:E.
    + rewrite (nth_lookup_Some l _ _ z E). apply nth_lookup_Some. by rewrite list_lookup_insert_ne by lia.
    + rewrite !nth_overflow; [done| |]; [|rewrite length_insert]; by apply lookup_ge_None.
Qed.

Lemma fits_plain cs p :
  Forall plain cs -> 0 <= p -> p + Z.of_nat (length cs) < 24 * 80 -> fits p cs.
Proof.
  revert p. induction cs as [|c cs IH]; intros p H Hp Hl; [done|]. inversion H as [|?? (H8 & H10 & HB) Hcs]; subst.
  cbn [length] in Hl. unfold fits; fold fits. unfold step_pos, back.
  rewrite (proj2 (Z.eqb_neq _ _) H8), (proj2 (Z.eqb_neq _ _) HB). cbn [orb].
  repeat split; [done|lia|done|]. apply IH; [done|lia|lia].
Qed.

Lemma fold_plain cs p l :
  Forall plain cs -> 0 <= p -> p + Z.of_nat (length cs) < Z.of_nat (length l) ->
  exists l', fold_left glyph cs (p, l) = (p + Z.of_nat (length cs), l') /\ painted l p cs l'.
Proof.
  revert p l. induction cs as [|c cs IH]; intros p l H Hp Hl.
  { exists l. split; [cbn; f_equal; lia|]. split; [done|]. intros j Hj. cbn [length].
    destruct (Z.leb_spec p j), (Z.ltb_spec j (p + Z.of_nat 0)); try lia; done. }
  inversion H as [|?? (H8 & H10 & HB) Hcs]; subst. cbn [length] in Hl.
  cbn [fold_left]. unfold glyph at 2.
  rewrite (proj2 (Z.eqb_neq _ _) H8), (proj2 (Z.eqb_neq _ _) HB).
  destruct (IH (p + 1) (<[Z.to_nat (p + 1) := attr 32]> (<[Z.to_nat p := attr c]> l)) Hcs) as (l' & E & Hlen & Hc);
    [lia|rewrite !length_insert; lia|].
  exists l'. rewrite E. split; [f_equal; cbn [length]; lia|].
  rewrite !length_insert in Hlen, Hc. split; [done|]. intros j Hj. rewrite (Hc j Hj). cbn [length].
  rewrite !attr_insert by (rewrite ?length_insert; lia). unfold nz.
  replace (j <? p + 1 + Z.of_nat (length cs)) with (j <? p + Z.of_nat (S (length cs))) by (f_equal; lia).
  replace (j =? p + 1 + Z.of_nat (length cs)) with (j =? p + Z.of_nat (S (length cs))) by (f_equal; lia).
  destruct (Z.leb_spec (p + 1) j), (Z.leb_spec p j), (Z.ltb_spec j (p + Z.of_nat (S (length cs))));
    cbn [andb]; try lia.
  - by replace (Z.to_nat (j - p)) with (S (Z.to_nat (j - (p + 1)))) by lia.
  - rewrite (proj2 (Z.eqb_neq (Z.of_nat (S (length cs))) 0)) by lia. cbn [negb andb].
    destruct (Z.eqb_spec j (p + Z.of_nat (S (length cs)))); zcases; cbn [negb andb]; try done; lia.
  - replace j with p by lia. rewrite Z.sub_diag.
    destruct (Z.eqb_spec p (p + Z.of_nat (S (length cs)))); [lia|].
    destruct (Z.eqb_spec p (p + 1)); [lia|]. by rewrite andb_false_r, Z.eqb_refl.
  - destruct (Z.eqb_spec j (p + Z.of_nat (S (length cs)))); [lia|]. rewrite !andb_false_r.
    destruct (Z.eqb_spec j (p + 1)), (Z.eqb_spec j p); try lia; done.
Qed.

Lemma fold_back n p l : fold_left glyph (replicate n 8) (p, l) = (p - Z.of_nat n, l).
Proof.
  revert p. induction n as [|n IH]; intros p; [cbn; f_equal; lia|].
  cbn [replicate fold_left glyph]. change (8 =? 8) with true. cbv iota. rewrite IH. f_equal. lia.
Qed.

Lemma fits_back n c p : back c = true -> Z.of_nat n <= p -> p + 1 < 24 * 80 -> fits p (replicate n c).
Proof.
  intros Hc. revert p. induction n as [|n IH]; intros p Hn Hp; [done|]. cbn [replicate fits].
  unfold step_pos. rewrite Hc. repeat split; [|done|lia|apply IH; lia].
  intros ->. discriminate.
Qed.

Lemma fold_erase n p l :
  Z.of_nat n <= p -> p < Z.of_nat (length l) ->
  exists l', fold_left glyph (replicate n BACKSPACE) (p, l) = (p - Z.of_nat n, l') /\ length l' = length l
    /\ forall j, 0 <= j -> nth (Z.to_nat j) l' 0
         = if (p - Z.of_nat n <=? j) && (j <? p) then attr 32 else nth (Z.to_nat j) l 0.
Proof.
  revert p l. induction n as [|n IH]; intros p l Hn Hp.
  { exists l. split; [cbn; f_equal; lia|]. split; [done|]. intros j Hj.
    destruct (Z.leb_spec (p - Z.of_nat 0) j), (Z.ltb_spec j p); cbn [andb]; try lia; done. }
  cbn [replicate fold_left glyph]. change (BACKSPACE =? 8) with false. change (BACKSPACE =? BACKSPACE) with true.
  cbv iota. destruct (IH (p - 1) (<[Z.to_nat (p - 1) := attr 32]> l)) as (l' & E & Hl & Hc);
    [lia|rewrite length_insert; lia|].
  exists l'. rewrite E. split; [f_equal; lia|]. rewrite length_insert in Hl. split; [done|].
  intros j Hj. rewrite (Hc j Hj), attr_insert by lia.
  replace (p - 1 - Z.of_nat n) with (p - Z.of_nat (S n)) by lia.
  destruct (Z.leb_spec (p - Z.of_nat (S n)) j), (Z.ltb_spec j (p - 1)), (Z.ltb_spec j p), (Z.eqb_spec j (p - 1));
    cbn [andb]; try lia; done.
Qed.

(** ** The circular buffer *)

Lemma u32_mod_buf x : u32 x mod INPUT_BUF = x mod INPUT_BUF.
Proof.
  unfold u32. apply Z.mod_mod_divide. by exists (2 ^ 25).
Qed.

Lemma bufput_length x v i : length (buf (bufput x v i)) = length (buf i).
Proof. apply length_insert. Qed.

Lemma bufget_put x v i y :
  length (buf i) = 128%nat -> Z.abs (x - y) < INPUT_BUF ->
  bufget (bufput x v i) y = if y =? x then u8 v else bufget i y.
Proof.
  intros Hl Hxy. unfold bufget, bufput. cbn [buf set_buf]. rewrite !u32_mod_buf. unfold INPUT_BUF in *.
  pose proof (Z.mod_pos_bound x 128 ltac:(lia)). pose proof (Z.mod_pos_bound y 128 ltac:(lia)).
  rewrite attr_insert by lia.
  destruct (Z.eqb_spec y x) as [->|Hne]; [by rewrite Z.eqb_refl|].
  destruct (Z.eqb_spec (y mod 128) (x mod 128)) as [E|]; [|done].
  pose proof (Z.div_mod x 128 ltac:(lia)). pose proof (Z.div_mod y 128 ltac:(lia)). lia.
Qed.

(** Two inputs with the same indices. *)
Definition same_idx i i' : Prop :=
  ir i' = ir i /\ iw i' = iw i /\ ie i' = ie i /\ isize i' = isize i /\ length (buf i') = length (buf i).

(** The loop of the erase key that moves the rest of the line left. *)
Lemma shift_left_run n a s :
  0 <= a -> a + Z.of_nat n < INPUT_BUF -> length (buf (inp s)) = 128%nat ->
  exists i', for_up n a (fun k => upd_inp (fun i => bufput (ie i + k) (bufget i (ie i + k + 1)) i)) s
    = (Ok tt, set_inp i' s) /\ same_idx (inp s) i'
    /\ forall k, a + Z.of_nat n - INPUT_BUF < k < INPUT_BUF ->
         bufget i' (ie (inp s) + k) = if (a <=? k) && (k <? a + Z.of_nat n)
           then u8 (bufget (inp s) (ie (inp s) + k + 1)) else bufget (inp s) (ie (inp s) + k).
Proof.
  revert a s. induction n as [|n IH]; intros a s Ha Hn Hl.
  { exists (inp s). split; [by destruct s|]. split; [done|]. intros k Hk.
    destruct (Z.leb_spec a k), (Z.ltb_spec k (a + Z.of_nat 0)); try lia; done. }
  cbn [for_up]. unfold upd_inp at 1. unfold bind at 1, modify.
  set (i1 := bufput _ _ (inp s)).
  destruct (IH (a + 1) (set_inp i1 s)) as (i' & E & (H1 & H2 & H3 & H4 & H5) & Hg); [lia|lia|by destruct s; simpl; rewrite length_insert|].
  exists i'. rewrite E. cbn [inp set_inp] in *. split; [by destruct s|]. split.
  { repeat split; [done..|]. rewrite H5. apply bufput_length. }
  intros k Hk. change (ie i1) with (ie (inp s)) in Hg. rewrite Hg by lia. unfold i1. unfold INPUT_BUF in *.
  destruct (Z.leb_spec (a + 1) k), (Z.leb_spec a k), (Z.ltb_spec k (a + 1 + Z.of_nat n)),
    (Z.ltb_spec k (a + Z.of_nat (S n))); cbn [andb]; try lia;
  rewrite bufget_put by (unfold INPUT_BUF; lia); zcases; try lia; try done.
  replace k with a by lia. done.
Qed.

(** The loop of the insertion that moves the rest of the line right. *)
Lemma shift_right_run n s :
  Z.of_nat n < INPUT_BUF -> length (buf (inp s)) = 128%nat ->
  exists i', for_down n (fun k => upd_inp (fun i => bufput (ie i + k) (bufget i (ie i + k - 1)) i)) s
    = (Ok tt, set_inp i' s) /\ same_idx (inp s) i'
    /\ forall k, Z.of_nat n - INPUT_BUF < k < INPUT_BUF ->
         bufget i' (ie (inp s) + k) = if (1 <=? k) && (k <=? Z.of_nat n)
           then u8 (bufget (inp s) (ie (inp s) + k - 1)) else bufget (inp s) (ie (inp s) + k).
Proof.
  revert s. induction n as [|n IH]; intros s Hn Hl.
  { exists (inp s). split; [by destruct s|]. split; [done|]. intros k Hk.
    destruct (Z.leb_spec 1 k), (Z.leb_spec k (Z.of_nat 0)); try lia; done. }
  cbn [for_down]. unfold upd_inp at 1. unfold bind at 1, modify.
  set (i1 := bufput _ _ (inp s)).
  destruct (IH (set_inp i1 s)) as (i' & E & (H1 & H2 & H3 & H4 & H5) & Hg); [lia|by destruct s; simpl; rewrite length_insert|].
  exists i'. rewrite E. cbn [inp set_inp] in *. split; [by destruct s|]. split.
  { repeat split; [done..|]. rewrite H5. apply bufput_length. }
  intros k Hk. change (ie i1) with (ie (inp s)) in Hg. rewrite Hg by lia. unfold i1. unfold INPUT_BUF in *.
  destruct (Z.leb_spec 1 k), (Z.leb_spec k (Z.of_nat n)), (Z.leb_spec k (Z.of_nat (S n))); cbn [andb]; try lia;
  rewrite bufget_put by (unfold INPUT_BUF; lia); zcases; try lia; try done.
  replace k with (Z.of_nat (S n)) by lia. done.
Qed.

(** ** The abstract editor

    A line is the characters left and right of the cursor. *)

Definition zip : Type := list Z * list Z.
Definition line (z : zip) : list Z := z.1 ++ z.2.

Definition is_erase (c : Z) : bool := (c =? CTRL 72) || (c =? 0x7f).
Definition is_enter (c : Z) : bool := (c =? 10) || (c =? 13) || (c =? CTRL 68).

(** The keys that put themselves into the line. *)
Definition is_text (c : Z) : bool :=
  (0 <? c) && (c <? 256) && negb (is_erase c) && negb (is_enter c) && negb (c =? CTRL 80)
  && negb (c =? CTRL 85) && negb (c =? CTRL 67) && negb (c =? 123) && negb (c =? 125).

Definition edit (c : Z) (z : zip) : zip :=
  if is_erase c then (removelast z.1, z.2)
  else if c =? CTRL 67 then ([], [])
  else if c =? 123 then ([], line z)
  else if c =? 125 then (line z, [])
  else if c =? 0 then z
  else (z.1 ++ [c], z.2).

(** The buffer holds the line, from [w] on, with nothing unread before it. *)
Record holds (w : Z) (z : zip) i : Prop := {
  h_len : length (buf i) = 128%nat;
  h_r : ir i = w;
  h_w : iw i = w;
  h_e : ie i = w + Z.of_nat (length z.1);
  h_size : isize i = Z.of_nat (length (line z));
  h_short : Z.of_nat (length (line z)) < INPUT_BUF;
  h_range : 0 <= w /\ w + INPUT_BUF < 2 ^ 32;
  h_text : forall k, (k < length (line z))%nat -> bufget i (w + Z.of_nat k) = nth k (line z) 0;
}.

(** The screen shows the line from cell [b] on, with the cursor in its place; the
    cells before are those of [l0], the cells behind are those of [l0] or blank. *)
Record displays (b : Z) (l0 : list Z) (z : zip) (t : Z * list Z) : Prop := {
  d_pos : t.1 = b + Z.of_nat (length z.1);
  d_len : length t.2 = length l0;
  d_line : forall k, (k < length (line z))%nat -> nth (Z.to_nat (b + Z.of_nat k)) t.2 0 = attr (nth k (line z) 0);
  d_before : forall j, 0 <= j < b -> nth (Z.to_nat j) t.2 0 = nth (Z.to_nat j) l0 0;
  d_behind : forall j, b + Z.of_nat (length (line z)) <= j < Z.of_nat (length l0) ->
    nth (Z.to_nat j) t.2 0 = nth (Z.to_nat j) l0 0 \/ nth (Z.to_nat j) t.2 0 = attr 32;
}.

Definition byte (c : Z) : Prop := 0 < c < 256.

Record shows (b : Z) (l0 : list Z) (z : zip) s : Prop := {
  sh_print : can_print s;
  sh_view : displays b l0 z (view s);
  sh_room : 0 <= b /\ b + Z.of_nat (length (line z)) + 1 < 24 * 80;
}.

Record editing (w b : Z) (l0 : list Z) (z : zip) s : Prop := {
  ed_holds : holds w z (inp s);
  ed_shows : shows b l0 z s;
  ed_chars : Forall (fun c => plain c /\ byte c) (line z);
}.

(** The devices keys come from, and what the keys leave alone. *)
Definition dev s : bool * bool * list Z * list Z * Z :=
  (uart s, com_absent (com1 s), com_in (com1 s), kbd_in s, shift s).

Definition rest s : bool * bool * list chan * (bool * bool * list Z * list Z * Z) :=
  (cons_lock s, locking s, woken s, dev s).

Lemma keeps_rest s s' : keeps s s' -> rest s' = rest s.
Proof. intros (E & H1 & H2). unfold rest, dev. rewrite H1, H2, E. by destruct s. Qed.

Lemma set_inp_rest i s : rest (set_inp i s) = rest s.
Proof. by destruct s. Qed.

Lemma line_length z : length (line z) = (length z.1 + length z.2)%nat.
Proof. apply length_app. Qed.

Lemma shows_set_inp b l0 z i s : shows b l0 z s -> shows b l0 z (set_inp i s).
Proof. intros [H1 H2 H3]. constructor; [|by destruct s|done]. by destruct s. Qed.

(** Moving the cursor left over [mid] with ['\b']. *)
Lemma shows_back b l0 pre mid post s :
  shows b l0 (pre ++ mid, post) s ->
  exists s', each consputc (replicate (length mid) 8) s = (Ok tt, s') /\ keeps s s'
    /\ shows b l0 (pre, mid ++ post) s'.
Proof.
  intros [Hc Hd [Hb Hr]].
  assert (line (pre, mid ++ post) = line (pre ++ mid, post)) as El by (unfold line; cbn; by rewrite app_assoc).
  pose proof (d_pos _ _ _ _ Hd) as Hp. cbn [view fst] in Hp. rewrite line_length in Hr. cbn [fst snd] in Hr.
  rewrite length_app in Hp, Hr.
  destruct (each_run (replicate (length mid) 8) s Hc) as (s' & E & K & C & V).
  { apply fits_back; [done|lia|lia]. }
  exists s'. split; [done|]. split; [done|]. unfold view at 2 in V. rewrite fold_back in V.
  constructor; [done| |rewrite El, line_length; cbn [fst snd]; rewrite length_app; lia].
  rewrite V. destruct Hd as [D1 D2 D3 D4 D5]. constructor; rewrite ?El; [cbn [fst] in *; lia|done..].
Qed.

(** Printing over what is right of the cursor. *)
Lemma displays_print b l0 pre post cs t :
  displays b l0 (pre, post) t -> Forall plain cs -> (length post <= length cs)%nat -> 0 <= b ->
  b + Z.of_nat (length pre + length cs) < Z.of_nat (length l0) ->
  displays b l0 (pre ++ cs, []) (fold_left glyph cs t).
Proof.
  intros [D1 D2 D3 D4 D5] Hcs Hl Hb Hroom. destruct t as [p l].
  rewrite line_length in D5. unfold line in D3. cbn [fst snd] in *.
  destruct (fold_plain cs p l Hcs) as (l' & F & Hl' & Hp); [lia|lia|].
  rewrite F, D1. rewrite D1, D2 in Hp. constructor; cbn [fst snd].
  - rewrite length_app. lia.
  - congruence.
  - unfold line. cbn [fst snd]. rewrite app_nil_r, length_app. intros k Hk. rewrite Hp by lia.
    destruct (Z.leb_spec (b + Z.of_nat (length pre)) (b + Z.of_nat k)); cbn [andb].
    + destruct (Z.ltb_spec (b + Z.of_nat k) (b + Z.of_nat (length pre) + Z.of_nat (length cs))); [|lia].
      rewrite app_nth2 by lia. do 2 f_equal. lia.
    + rewrite (proj2 (Z.eqb_neq (b + Z.of_nat k) _)), andb_false_r by lia.
      rewrite D3 by (rewrite length_app; lia). by rewrite !app_nth1 by lia.
  - intros j Hj. rewrite Hp by lia.
    destruct (Z.leb_spec (b + Z.of_nat (length pre)) j); [lia|]. cbn [andb].
    rewrite (proj2 (Z.eqb_neq j _)), andb_false_r by lia. by apply D4.
  - rewrite line_length. cbn [fst snd length]. rewrite length_app. intros j Hj. rewrite Hp by lia.
    destruct (Z.ltb_spec j (b + Z.of_nat (length pre) + Z.of_nat (length cs))); [lia|]. rewrite andb_false_r.
    destruct (_ && _); [by right|]. apply D5. lia.
Qed.

Lemma shows_len b l0 z s : shows b l0 z s -> (24 * 80 <= length l0)%nat.
Proof. intros [[_ (_ & _ & _ & H)] [_ <- _ _ _] _]. done. Qed.

Lemma shows_print b l0 pre post cs s :
  shows b l0 (pre, post) s -> Forall plain cs -> (length post <= length cs)%nat ->
  b + Z.of_nat (length pre + length cs) + 1 < 24 * 80 ->
  exists s', each consputc cs s = (Ok tt, s') /\ keeps s s' /\ shows b l0 (pre ++ cs, []) s'.
Proof.
  intros Hs Hcs Hl Hroom. pose proof (shows_len _ _ _ _ Hs). destruct Hs as [Hc Hd [Hb Hr]].
  pose proof (d_pos _ _ _ _ Hd) as Hp. cbn [view fst] in Hp.
  destruct (each_run cs s Hc) as (s' & E & K & C & V); [apply fits_plain; [done|lia|lia]|].
  exists s'. split; [done|]. split; [done|].
  constructor; [done| |rewrite line_length; cbn [fst snd length]; rewrite length_app; lia].
  rewrite V. eapply displays_print; [done|done|done|done|lia].
Qed.

(** Erasing what is left of the cursor, at the end of the line. *)
Lemma shows_erase b l0 pre mid s :
  shows b l0 (pre ++ mid, []) s ->
  exists s', each consputc (replicate (length mid) BACKSPACE) s = (Ok tt, s') /\ keeps s s'
    /\ shows b l0 (pre, []) s'.
Proof.
  intros [Hc Hd [Hb Hr]]. destruct Hd as [D1 D2 D3 D4 D5]. cbn [view fst snd] in *.
  destruct (proj2 (proj2 Hc)) as (_ & _ & Hlen). rewrite line_length in Hr, D5. unfold line in D3. cbn [fst snd length] in *.
  rewrite app_nil_r in D3. rewrite length_app in *.
  destruct (each_run (replicate (length mid) BACKSPACE) s Hc) as (s' & E & K & C & V); [apply fits_back; [done|lia|lia]|].
  unfold view at 2 in V.
  destruct (fold_erase (length mid) (curpos (screen s)) (crt (screen s))) as (l' & F & Hl' & Hp); [lia|lia|].
  rewrite F in V. exists s'. split; [done|]. split; [done|].
  constructor; [done| |rewrite line_length; cbn [fst snd length]; lia].
  rewrite V. clear V F E K C. rewrite D1 in Hp. constructor; cbn [fst snd]; [lia|congruence| | |].
  - unfold line. cbn [fst snd]. rewrite app_nil_r. intros k Hk. rewrite Hp by lia.
    destruct (Z.leb_spec (b + Z.of_nat (length pre + length mid) - Z.of_nat (length mid)) (b + Z.of_nat k)); [lia|].
    cbn [andb]. rewrite D3 by lia. by rewrite app_nth1 by lia.
  - intros j Hj. rewrite Hp by lia.
    destruct (Z.leb_spec (b + Z.of_nat (length pre + length mid) - Z.of_nat (length mid)) j); [lia|]. by apply D4.
  - rewrite line_length. cbn [fst snd length]. intros j Hj. rewrite Hp by lia.
    destruct (_ && _) eqn:Ej; [by right|]. apply D5.
    apply andb_false_iff in Ej as [Ej|Ej]; [apply Z.leb_gt in Ej; lia|apply Z.ltb_ge in Ej; lia].
Qed.

(** A blank at the end of the line cannot be told from none. *)
Lemma shows_blank b l0 pre post s : shows b l0 (pre, post ++ [32]) s -> shows b l0 (pre, post) s.
Proof.
  intros [Hc [D1 D2 D3 D4 D5] [Hb Hr]]. unfold line in *. cbn [view fst snd] in *. rewrite app_assoc in D3.
  rewrite !length_app in *. cbn [length] in *.
  constructor; [done| |unfold line; cbn [fst snd]; rewrite length_app; lia].
  constructor; unfold line; cbn [view fst snd]; [done|done| |done|].
  - intros k Hk. rewrite length_app in Hk. rewrite D3 by lia. by rewrite app_nth1 by (rewrite length_app; lia).
  - rewrite length_app. intros j Hj.
    destruct (Z.eq_dec j (b + Z.of_nat (length pre + length post))) as [->|]; [|apply D5; lia].
    right. rewrite D3 by lia. by rewrite app_nth2, length_app, Nat.sub_diag by (rewrite length_app; lia).
Qed.

(** ** The keys on the buffer *)

Definition appended (c : Z) i : input :=
  set_isize (u32 (isize i + 1)) (set_ie (u32 (ie i + 1)) (bufput (ie i) c i)).

Lemma append_char_eq c s : append_char c s = consputc c (set_inp (appended c (inp s)) s).
Proof. unfold append_char, upd_inp. mrun. by destruct s. Qed.

Lemma holds_tail w z i : holds w z i -> tail_len i = Z.of_nat (length z.2).
Proof.
  intros [_ Hr _ He Hs Hl Hw _]. unfold tail_len. rewrite Hr, He, Hs, line_length in *.
  unfold INPUT_BUF in *. rewrite u32_id; lia.
Qed.

(** There is room in the buffer. *)
Lemma holds_guard w z i : holds w z i -> (u32 (ie i - ir i) <? INPUT_BUF) = true.
Proof.
  intros [_ Hr _ He Hs Hl Hw _]. rewrite Hr, He. rewrite line_length in *.
  unfold INPUT_BUF in *. rewrite u32_id by lia. apply Z.ltb_lt. lia.
Qed.

(** Is the cursor at the end of the line? *)
Lemma holds_at_end w pre post i :
  holds w (pre, post) i -> (ie i =? u32 (ir i + isize i)) = match post with [] => true | _ => false end.
Proof.
  intros [_ Hr _ He Hs Hl Hw _]. rewrite Hr, He, Hs, line_length in *. cbn [fst snd] in *.
  unfold INPUT_BUF in *. rewrite u32_id by lia.
  destruct post; cbn [length]; [apply Z.eqb_eq|apply Z.eqb_neq]; lia.
Qed.

Lemma holds_insert w pre post c i i1 :
  holds w (pre, post) i -> same_idx i i1 ->
  (forall k, Z.of_nat (length post) - INPUT_BUF < k < INPUT_BUF ->
     bufget i1 (ie i + k) = if (1 <=? k) && (k <=? Z.of_nat (length post))
       then u8 (bufget i (ie i + k - 1)) else bufget i (ie i + k)) ->
  Z.of_nat (length (line (pre, post))) + 1 < INPUT_BUF -> byte c -> Forall byte (line (pre, post)) ->
  holds w (pre ++ [c], post) (appended c i1).
Proof.
  intros [Hlen Hr Hw He Hs Hsh Hwr Ht] (S1 & S2 & S3 & S4 & S5) Hg Hfit Hc Hby.
  unfold INPUT_BUF in *. rewrite line_length in *. cbn [fst snd] in *.
  assert (length (line (pre ++ [c], post)) = S (length pre + length post))%nat as El
    by (unfold line; cbn; rewrite !length_app; cbn; lia).
  constructor; rewrite ?El; unfold appended; cbn [buf ir iw ie isize set_isize set_ie fst snd].
  - rewrite bufput_length. congruence.
  - unfold bufput. cbn. congruence.
  - unfold bufput. cbn. congruence.
  - change (ie (bufput (ie i1) c i1)) with (ie i1). rewrite S3, He, length_app. cbn [length]. rewrite u32_id; lia.
  - change (isize (bufput _ _ _)) with (isize i1). rewrite S4, Hs. rewrite u32_id; lia.
  - unfold INPUT_BUF. lia.
  - done.
  - intros k Hk. change (bufget _ (w + Z.of_nat k)) with (bufget (bufput (ie i1) c i1) (w + Z.of_nat k)).
    rewrite bufget_put by (try congruence; unfold INPUT_BUF; rewrite S3, He; lia). rewrite S3.
    assert (w + Z.of_nat k = ie i + (Z.of_nat k - Z.of_nat (length pre))) as Ek by lia.
    unfold line. cbn [fst snd]. rewrite <- app_assoc. cbn [app].
    destruct (Z.eqb_spec (w + Z.of_nat k) (ie i)).
    + rewrite u8_id by (unfold byte in Hc; lia). rewrite app_nth2 by lia.
      by replace (k - length pre)%nat with 0%nat by lia.
    + rewrite Ek, Hg by lia.
      destruct (Z.leb_spec 1 (Z.of_nat k - Z.of_nat (length pre))); cbn [andb].
      * destruct (Z.leb_spec (Z.of_nat k - Z.of_nat (length pre)) (Z.of_nat (length post))); [|lia].
        replace (ie i + _ - 1) with (w + Z.of_nat (k - 1)) by lia. rewrite Ht by lia.
        unfold line. cbn [fst snd]. rewrite !app_nth2 by lia.
        replace (k - length pre)%nat with (S (k - 1 - length pre))%nat by lia. cbn [nth].
        apply u8_id. pose proof (proj1 (Forall_forall _ _) Hby (nth (k - 1 - length pre) post 0)) as Hb.
        destruct Hb; [|lia]. unfold line. cbn [fst snd]. apply elem_of_app. right.
        apply list_elem_of_In, nth_In. lia.
      * rewrite <- Ek, Ht by lia. unfold line. cbn [fst snd]. by rewrite !app_nth1 by lia.
Qed.

Lemma holds_move w pre post pre' post' i :
  holds w (pre, post) i -> pre ++ post = pre' ++ post' ->
  holds w (pre', post') (set_ie (w + Z.of_nat (length pre')) i).
Proof.
  intros [Hlen Hr Hw He Hs Hsh Hwr Ht] E. assert (line (pre', post') = line (pre, post)) as El by (symmetry; exact E).
  constructor; rewrite ?El; done.
Qed.

(** The text moves left over the erased character, and the line gets shorter. *)
Lemma holds_erase w pre x post i i1 v :
  holds w (pre ++ [x], post) i ->
  length (buf i1) = 128%nat -> ir i1 = w -> iw i1 = w -> ie i1 = w + Z.of_nat (length pre) ->
  isize i1 = Z.of_nat (length pre + length post) ->
  (forall k, Z.of_nat (length post) - INPUT_BUF < k < INPUT_BUF ->
     bufget i1 (w + Z.of_nat (length pre) + k) = if (0 <=? k) && (k <? Z.of_nat (length post))
       then u8 (bufget i (w + Z.of_nat (length pre) + k + 1)) else bufget i (w + Z.of_nat (length pre) + k)) ->
  Forall byte (line (pre ++ [x], post)) ->
  holds w (pre, post) (bufput (w + Z.of_nat (length pre + length post)) v i1).
Proof.
  intros [Hlen Hr Hw He Hs Hsh Hwr Ht] S5 S1 S2 S3 S4 Hg Hby.
  unfold INPUT_BUF in *. rewrite line_length in *. cbn [fst snd] in *. rewrite length_app in *. cbn [length] in *.
  constructor; rewrite ?line_length; cbn [fst snd]; [|done..| |done|].
  - by rewrite bufput_length.
  - unfold INPUT_BUF. lia.
  - intros k Hk. rewrite bufget_put by (try done; unfold INPUT_BUF; lia).
    destruct (Z.eqb_spec (w + Z.of_nat k) (w + Z.of_nat (length pre + length post))); [lia|].
    replace (w + Z.of_nat k) with (w + Z.of_nat (length pre) + (Z.of_nat k - Z.of_nat (length pre))) by lia.
    rewrite Hg by lia. unfold line in *. cbn [fst snd] in *.
    destruct (Z.leb_spec 0 (Z.of_nat k - Z.of_nat (length pre))); cbn [andb].
    + destruct (Z.ltb_spec (Z.of_nat k - Z.of_nat (length pre)) (Z.of_nat (length post))); [|lia].
      replace (w + _ + _ + 1) with (w + Z.of_nat (k + 1)) by lia. rewrite Ht by lia.
      rewrite <- app_assoc, (app_nth2 pre ([x] ++ post)), (app_nth2 pre post) by lia. replace (k + 1 - length pre)%nat with (S (k - length pre))%nat by lia.
      cbn [app nth]. apply u8_id.
      pose proof (proj1 (Forall_forall _ _) Hby (nth (k - length pre) post 0)) as Hb.
      destruct Hb; [|lia]. apply elem_of_app. right. apply list_elem_of_In, nth_In. lia.
    + replace (w + _ + _) with (w + Z.of_nat k) by lia. rewrite Ht by lia.
      by rewrite <- app_assoc, !app_nth1 by lia.
Qed.

(** ** The keys *)

Lemma for_uint_run n body : Z.of_nat n < 2 ^ 31 -> for_uint (Z.of_nat n) body = for_up n 0 body.
Proof. intros H. unfold for_uint. rewrite (proj2 (Z.ltb_lt _ _) H). by rewrite Nat2Z.id. Qed.

Lemma plains l : Forall (fun c => plain c /\ byte c) l -> Forall plain l.
Proof. intros H. eapply Forall_impl; [exact H|]. by intros ? []. Qed.

Lemma bytes l : Forall (fun c => plain c /\ byte c) l -> Forall byte l.
Proof. intros H. eapply Forall_impl; [exact H|]. by intros ? []. Qed.

Lemma editing_intro w b l0 z i s s' :
  holds w z i -> keeps (set_inp i s) s' -> shows b l0 z s' -> Forall (fun c => plain c /\ byte c) (line z) ->
  editing w b l0 z s' /\ rest s' = rest s.
Proof.
  intros Hh Hk Hs Hc. split.
  - constructor; [|done|done]. rewrite (keeps_inp _ _ Hk). by destruct s.
  - rewrite (keeps_rest _ _ Hk). apply set_inp_rest.
Qed.

Lemma is_text_plain c : is_text c = true -> plain c /\ byte c.
Proof.
  unfold is_text, is_erase, is_enter, plain, byte, CTRL, BACKSPACE.
  rewrite !andb_true_iff, !negb_true_iff, !orb_false_iff, !Z.ltb_lt, !Z.eqb_neq. lia.
Qed.

(** What a text key does to the buffer and the screen. *)
Lemma insert_run w b l0 pre post c s :
  editing w b l0 (pre, post) s -> plain c -> byte c -> Z.of_nat (length (line (pre, post))) + 1 < INPUT_BUF ->
  b + Z.of_nat (length (line (pre, post))) + 2 < 24 * 80 ->
  exists s', (if negb (ie (inp s) =? u32 (ir (inp s) + isize (inp s))) then insert_char c else append_char c) s
      = (Ok tt, s')
    /\ editing w b l0 (pre ++ [c], post) s' /\ rest s' = rest s.
Proof.
  intros [Hh Hs Hch] Hp Hb Hfit Hroom. rewrite (holds_at_end w pre post _ Hh).
  pose proof Hfit as Hfit'. rewrite line_length in Hfit', Hroom. cbn [fst snd] in Hfit', Hroom.
  unfold INPUT_BUF in Hfit'.
  assert (Forall (fun c => plain c /\ byte c) (line (pre ++ [c], post))) as Hch'.
  { unfold line in *. cbn [fst snd] in *. apply Forall_app in Hch as [? ?]. rewrite !Forall_app. auto. }
  destruct (shift_right_run (length post) s) as (i1 & E1 & I1 & G1);
    [unfold INPUT_BUF; lia|apply (h_len _ _ _ Hh)|].
  pose proof (holds_insert w pre post c _ _ Hh I1 G1 Hfit Hb (bytes _ Hch)) as Hi.
  assert (Forall plain (c :: post)) as Hpl.
  { constructor; [done|]. unfold line in Hch. apply plains, Forall_app in Hch. apply Hch. }
  set (i2 := appended c i1) in *. pose proof (shows_set_inp b l0 _ i2 s Hs) as Hs1.
  destruct (shows_print b l0 pre post (c :: post) _ Hs1 Hpl) as (s3 & E3 & K3 & S3);
    [cbn [length]; lia|cbn [length]; lia|].
  replace (pre ++ c :: post) with ((pre ++ [c]) ++ post) in S3 by by rewrite <- app_assoc.
  destruct (shows_back b l0 (pre ++ [c]) post [] s3 S3) as (s4 & E4 & K4 & S4). rewrite app_nil_r in S4.
  assert (editing w b l0 (pre ++ [c], post) s4 /\ rest s4 = rest s) as Hend
    by (eapply editing_intro; [done|by eapply keeps_trans|done|done]).
  destruct (consputc_run c _ (sh_print _ _ _ _ Hs1)) as (s2 & E2 & K2 & C2 & _).
  cbn [each] in E3. rewrite (bind_ok _ _ _ _ _ E2) in E3.
  exists s4. split; [|done]. destruct post as [|x post'].
  - cbn [negb]. rewrite append_char_eq. cbn [for_down] in E1.
    assert (i1 = inp s) as -> by (injection E1 as E1; rewrite E1; by destruct s).
    fold i2. rewrite E2. injection E3 as ->. injection E4 as ->. done.
  - cbn [negb]. set (post := x :: post') in *. unfold insert_char.
    rewrite (bind_ok get_inp _ s s (inp s) eq_refl), (holds_tail _ _ _ Hh). cbn [snd].
    rewrite s32_id, Nat2Z.id by lia. rewrite (bind_ok _ _ _ _ _ E1).
    rewrite (bind_ok _ _ (set_inp i1 s) s2 tt).
    2: { rewrite append_char_eq. rewrite <- E2. by destruct s. }
    assert (holds w (pre ++ [c], post) (inp s2)) as Hh2 by (rewrite (keeps_inp _ _ K2); by destruct s).
    rewrite (bind_ok get_inp _ s2 s2 (inp s2) eq_refl), (holds_tail _ _ _ Hh2). cbn [snd].
    rewrite !for_uint_run by lia. rewrite (bind_ok _ _ s2 s3 tt).
    2: { rewrite <- E3. apply for_up_print; [done|]. intros k Hk. rewrite Z.add_0_l, (h_e _ _ _ Hh2). cbn [fst].
         rewrite <- Z.add_assoc, <- Nat2Z.inj_add, (h_text _ _ _ Hh2)
           by (rewrite line_length; cbn [fst snd]; lia).
         unfold line. cbn [fst snd]. rewrite app_nth2 by lia. f_equal. lia. }
    rewrite for_up_const. exact E4.
Qed.

Lemma keeps_set_inp i i' s s' : keeps (set_inp i s) s' -> keeps (set_inp i' s) (set_inp i' s').
Proof. intros (E & H1 & H2). split; [|by destruct s, s']. rewrite E. by destruct s. Qed.

Lemma each_app f l1 l2 s : each f (l1 ++ l2) s = (each f l1 ;; each f l2)%kernel s.
Proof.
  revert s. induction l1 as [|c l1 IH]; intros s; [done|]. cbn [app each]. unfold bind in *.
  destruct (f c s) as [[[]| | | |] s1]; [|done..]. apply IH.
Qed.

Lemma each_one f c s : each f [c] s = f c s.
Proof. cbn [each]. unfold bind, ret. by destruct (f c s) as [[[]| | | |] s1]. Qed.

Lemma editing_ext w b l0 z s s' :
  editing w b l0 z s -> panicked s' = panicked s -> screen s' = screen s -> inp s' = inp s ->
  editing w b l0 z s'.
Proof.
  intros [Hh [Hc Hv Hr] Hch] Q1 Q3 Q4. constructor; [by rewrite Q4| |done].
  constructor; [|unfold view; by rewrite Q3|done]. unfold can_print. by rewrite Q1, Q3.
Qed.

Lemma editing_end_pos w b l0 z v s :
  editing w b l0 z s -> editing w b l0 z (set_end_pos v s) /\ rest (set_end_pos v s) = rest s.
Proof.
  intros H. split; [|by destruct s]. eapply editing_ext; [exact H|..]; by destruct s.
Qed.

Lemma erase_chars pre x post :
  Forall (fun c => plain c /\ byte c) (line (pre ++ [x], post)) ->
  Forall (fun c => plain c /\ byte c) (line (pre, post)).
Proof. unfold line. cbn [fst snd]. rewrite !Forall_app. tauto. Qed.

(** Erasing at the end of the line. *)
Lemma erase_last_run w b l0 pre x s :
  editing w b l0 (pre ++ [x], []) s ->
  exists s', (upd_inp (fun i => set_ie (u32 (ie i - 1)) i) ;;
              consputc BACKSPACE ;;
              upd_inp (fun i => set_isize (u32 (isize i - 1)) i))%kernel s = (Ok tt, s')
    /\ editing w b l0 (pre, []) s' /\ rest s' = rest s.
Proof.
  intros [Hh Hs Hch]. set (i1 := set_ie (u32 (ie (inp s) - 1)) (inp s)).
  destruct (shows_erase b l0 pre [x] _ (shows_set_inp _ _ _ i1 s Hs)) as (s2 & E2 & K2 & S2).
  cbn [length replicate] in E2. rewrite each_one in E2.
  set (i2 := set_isize (u32 (isize (inp s) - 1)) i1).
  exists (set_inp i2 s2). split.
  { unfold upd_inp at 1. unfold bind at 1, modify. fold i1. rewrite (bind_ok _ _ _ _ _ E2).
    unfold upd_inp, modify. by rewrite (keeps_inp _ _ K2). }
  eapply (editing_intro _ _ _ _ i2); [|by apply (keeps_set_inp i1)|by apply shows_set_inp|by eapply erase_chars].
  destruct Hh as [Hlen Hr Hw He Hsz Hsh Hwr Ht]. unfold line, INPUT_BUF in *. cbn [fst snd] in *.
  rewrite app_nil_r in *. rewrite length_app in *. cbn [length] in *.
  constructor; unfold i2, i1, line, INPUT_BUF; cbn [ir iw ie isize buf set_isize set_ie fst snd]; rewrite ?app_nil_r;
    [done..| | | |done|]; [rewrite u32_id; lia|rewrite u32_id; lia|lia|].
  intros k Hk. change (bufget _ (w + Z.of_nat k)) with (bufget (inp s) (w + Z.of_nat k)).
  rewrite Ht by lia. by rewrite app_nth1 by lia.
Qed.

(** Erasing inside the line. *)
Lemma erase_mid_run w b l0 pre x post s :
  editing w b l0 (pre ++ [x], post) s ->
  exists s',
   (upd_inp (fun i => set_ie (u32 (ie i - 1)) i) ;;
    upd_inp (fun i => set_isize (u32 (isize i - 1)) i) ;;
    consputc 8 ;;
    i <- get_inp ;;
    for_uint (tail_len i) (fun k => upd_inp (fun i => bufput (ie i + k) (bufget i (ie i + k + 1)) i)) ;;
    upd_inp (fun i => bufput (ir i + isize i) 32 i) ;;
    i <- get_inp ;;
    for_uint (tail_len i) (fun k => i <- get_inp ;; consputc (bufget i (ie i + k))) ;;
    consputc 32 ;;
    consputc 8 ;;
    for_uint (tail_len i) (fun _ => consputc 8))%kernel s = (Ok tt, s')
    /\ editing w b l0 (pre, post) s' /\ rest s' = rest s.
Proof.
  intros [Hh Hs Hch].
  set (i1 := set_isize (u32 (isize (inp s) - 1)) (set_ie (u32 (ie (inp s) - 1)) (inp s))).
  assert (ir i1 = w /\ iw i1 = w /\ ie i1 = w + Z.of_nat (length pre)
    /\ isize i1 = Z.of_nat (length pre + length post) /\ length (buf i1) = 128%nat
    /\ Z.of_nat (length pre + length post) + 1 < 128 /\ 0 <= w /\ w + 128 < 2 ^ 32) as (Ir & Iw & Ie & Is & Il & Hn & Hw0 & Hw1).
  { destruct Hh as [Hlen Hr Hw He Hsz Hsh Hwr Ht]. unfold INPUT_BUF in *. rewrite line_length in *. cbn [fst snd] in *.
    rewrite length_app in *. cbn [length] in *. unfold i1. cbn [ir iw ie isize buf set_isize set_ie].
    rewrite !u32_id by lia. repeat split; try done; lia. }
  destruct (shows_back b l0 pre [x] post _ (shows_set_inp _ _ _ i1 s Hs)) as (s2 & E2 & K2 & S2).
  cbn [length replicate] in E2. rewrite each_one in E2.
  assert (inp s2 = i1) as I2 by (rewrite (keeps_inp _ _ K2); by destruct s).
  destruct (shift_left_run (length post) 0 s2) as (i3 & E3 & (J1 & J2 & J3 & J4 & J5) & G3);
    [lia|unfold INPUT_BUF; lia|by rewrite I2|]. rewrite I2 in *.
  assert (holds w (pre, post) (bufput (w + Z.of_nat (length pre + length post)) 32 i3)) as Hi.
  { eapply (holds_erase w pre x post (inp s)); [done|congruence..| |by apply bytes].
    intros k Hk. rewrite <- Ie, G3 by lia. done. }
  set (i4 := bufput _ 32 i3) in *.
  pose proof (shows_set_inp _ _ _ i4 _ S2) as S4.
  destruct (shows_print b l0 pre ([x] ++ post) (post ++ [32]) _ S4) as (s5 & E5 & K5 & S5).
  { apply Forall_app. split; [|by repeat constructor].
    apply plains in Hch. unfold line in Hch. apply Forall_app in Hch. apply Hch. }
  { rewrite !length_app. cbn [length]. lia. }
  { pose proof (sh_room _ _ _ _ Hs) as [_ Hroom]. rewrite line_length in Hroom. cbn [fst snd] in Hroom.
    rewrite !length_app in *. cbn [length] in *. lia. }
  destruct (shows_back b l0 pre (post ++ [32]) [] s5 S5) as (s6 & E6 & K6 & S6).
  rewrite app_nil_r in S6. apply shows_blank in S6. exists s6. split.
  2: { apply (editing_intro _ _ _ _ i4); [done| |done|by eapply erase_chars].
       eapply keeps_trans; [|exact K6]. eapply keeps_trans; [|exact K5]. by apply (keeps_set_inp i1). }
  unfold upd_inp at 1 2. unfold bind at 1 2, modify. replace (set_inp _ (set_inp _ s)) with (set_inp i1 s) by by destruct s.
  rewrite (bind_ok _ _ _ _ _ E2), (bind_ok get_inp _ s2 s2 i1) by (unfold get_inp, gets; by rewrite I2).
  assert (tail_len i1 = Z.of_nat (length post)) as T1
    by (unfold tail_len; rewrite Ir, Is, Ie, u32_id; lia).
  rewrite T1, for_uint_run by lia. rewrite (bind_ok _ _ _ _ _ E3).
  unfold upd_inp at 1. unfold bind at 1, modify.
  replace (set_inp _ (set_inp i3 s2)) with (set_inp i4 s2)
    by (unfold i4; destruct s2; simpl in *; rewrite J1, J4, Ir, Is; done).
  rewrite (bind_ok get_inp _ (set_inp i4 s2) (set_inp i4 s2) i4) by by destruct s2.
  rewrite (holds_tail _ _ _ Hi). cbn [snd]. rewrite !for_uint_run by lia.
  assert (can_print (set_inp i4 s2)) as C4 by apply S4.
  destruct (each_run post (set_inp i4 s2) C4) as (s4' & E4' & K4' & C4' & _).
  { pose proof (d_pos _ _ _ _ (sh_view _ _ _ _ S4)) as Hp. pose proof (sh_room _ _ _ _ Hs) as [Hb0 Hroom].
    rewrite line_length in Hroom. cbn [fst snd view] in *. rewrite length_app in Hroom. cbn [length] in Hroom.
    apply fits_plain; [|lia|lia]. apply plains in Hch. unfold line in Hch. apply Forall_app in Hch. apply Hch. }
  rewrite each_app, (bind_ok _ _ _ _ _ E4'), each_one in E5.
  rewrite (bind_ok _ _ _ s4' tt).
  2: { rewrite <- E4'. apply for_up_print; [done|]. intros k Hk.
       replace (inp (set_inp i4 s2)) with i4 by by destruct s2.
       rewrite Z.add_0_l, (h_e _ _ _ Hi). cbn [fst].
       rewrite <- Z.add_assoc, <- Nat2Z.inj_add, (h_text _ _ _ Hi) by (rewrite line_length; cbn [fst snd]; lia).
       unfold line. cbn [fst snd]. rewrite app_nth2 by lia. f_equal. lia. }
  rewrite (bind_ok _ _ _ _ _ E5). rewrite length_app, Nat.add_comm in E6. cbn [length Nat.add replicate each] in E6.
  rewrite <- E6. unfold bind. destruct (consputc 8 s5) as [[[]| | | |] s5']; [|done..].
  apply for_up_const.
Qed.

Lemma snoc_cases {A} (l : list A) : l = [] \/ exists l' x, l = l' ++ [x].
Proof. destruct l as [|a l] using rev_ind; [by left|right; by exists l, a]. Qed.

Lemma erase_run w b l0 pre post s :
  editing w b l0 (pre, post) s ->
  exists s', erase_char s = (Ok tt, s') /\ editing w b l0 (removelast pre, post) s' /\ rest s' = rest s.
Proof.
  intros He. pose proof (ed_holds _ _ _ _ _ He) as Hh. unfold erase_char.
  rewrite (bind_ok get_inp _ s s (inp s) eq_refl), (holds_at_end _ _ _ _ Hh).
  rewrite (h_e _ _ _ Hh), (h_w _ _ _ Hh). cbn [fst].
  assert (forall (m : CM unit) s', m s = (Ok tt, s') -> editing w b l0 (removelast pre, post) s' /\ rest s' = rest s ->
    exists s2, (m ;; modify (fun s => set_end_pos (u32 (end_pos s - 1)) s))%kernel s = (Ok tt, s2)
      /\ editing w b l0 (removelast pre, post) s2 /\ rest s2 = rest s) as Hfin.
  { intros m s' E [H1 H2]. eexists. rewrite (bind_ok _ _ _ _ _ E). split; [done|].
    destruct (editing_end_pos _ _ _ _ (u32 (end_pos s' - 1)) _ H1) as [H3 H4]. split; [done|congruence]. }
  destruct (snoc_cases pre) as [->|(pre' & x & ->)].
  - eapply Hfin; [|done]. cbn [length]. rewrite Z.add_0_r, Z.eqb_refl, Z.ltb_irrefl. by destruct post.
  - rewrite removelast_last in *. rewrite length_app. cbn [length].
    destruct post as [|y post]; cbn [negb].
    + rewrite (proj2 (Z.eqb_neq _ _)) by lia. cbn [negb].
      destruct (erase_last_run _ _ _ _ _ _ He) as (s' & E & H). by eapply Hfin.
    + rewrite (proj2 (Z.ltb_lt _ _)) by lia.
      destruct (erase_mid_run _ _ _ _ _ _ _ He) as (s' & E & H). by eapply Hfin.
Qed.

Lemma home_run w b l0 pre post s :
  editing w b l0 (pre, post) s ->
  exists s', walk_back (length pre) 8 s = (Ok tt, s')
    /\ editing w b l0 ([], pre ++ post) s' /\ rest s' = rest s.
Proof.
  revert post s. induction pre as [|x pre IH] using rev_ind; intros post s He.
  { exists s. split; [done|]. split; [done|done]. }
  destruct He as [Hh Hs Hch]. pose proof (h_range _ _ _ Hh) as [Hw0 Hw1]. pose proof (h_short _ _ _ Hh) as Hsh.
  rewrite line_length in Hsh. cbn [fst snd] in Hsh. rewrite length_app in *. cbn [length] in *.
  unfold INPUT_BUF in *.
  assert (ie (inp s) = w + Z.of_nat (length pre) + 1) as Hie
    by (rewrite (h_e _ _ _ Hh); cbn [fst]; rewrite length_app; cbn [length]; lia).
  set (i1 := set_ie (u32 (ie (inp s) - 1)) (inp s)).
  assert (holds w (pre, [x] ++ post) i1) as Hi.
  { unfold i1. rewrite Hie, u32_id by lia. replace (w + Z.of_nat (length pre) + 1 - 1) with (w + Z.of_nat (length pre)) by lia.
    eapply holds_move; [done|]. by rewrite <- app_assoc. }
  destruct (shows_back b l0 pre [x] post _ (shows_set_inp _ _ _ i1 s Hs)) as (s2 & E2 & K2 & S2).
  cbn [length replicate] in E2. rewrite each_one in E2.
  destruct (editing_intro w b l0 (pre, [x] ++ post) i1 s s2 Hi K2 S2) as [He2 R2].
  { unfold line in *. cbn [fst snd] in *. by rewrite app_assoc. }
  destruct (IH _ _ He2) as (s3 & E3 & He3 & R3). rewrite app_assoc in He3.
  exists s3. split; [|split; [done|congruence]].
  rewrite Nat.add_comm. cbn [Nat.add walk_back]. rewrite (bind_ok get_inp _ s s (inp s) eq_refl).
  rewrite Hie, (h_w _ _ _ Hh), (proj2 (Z.eqb_neq _ w)) by lia. cbn [negb andb].
  replace (w + Z.of_nat (length pre) + 1 - 1) with (w + Z.of_nat (length pre)) by lia.
  rewrite (h_text _ _ _ Hh) by (rewrite line_length; cbn [fst snd]; rewrite length_app; cbn [length]; lia).
  assert (nth (length pre) (line (pre ++ [x], post)) 0 = x) as ->
    by (unfold line; cbn [fst snd]; rewrite <- app_assoc; apply nth_middle).
  assert (x <> 10) as Hx.
  { unfold line in Hch. cbn [fst snd] in Hch. rewrite !Forall_app, Forall_singleton in Hch. by destruct Hch as [[_ [(? & ? & ?) _]] _]. }
  rewrite (proj2 (Z.eqb_neq x 10) Hx). cbn [negb].
  replace (u32 (w + Z.of_nat (length pre))) with (u32 (ie (inp s) - 1)) by (f_equal; lia).
  rewrite (bind_ok _ _ s (set_inp i1 s) tt) by done. by rewrite (bind_ok _ _ _ _ _ E2).
Qed.

Lemma nth_bufget i x : 0 <= x < INPUT_BUF -> nth (Z.to_nat x) (buf i) 0 = bufget i x.
Proof. intros H. unfold bufget, INPUT_BUF in *. rewrite u32_id by lia. by rewrite Z.mod_small. Qed.

(** The walk to the end, while the index is inside the array. *)
Lemma walk_end_view post s :
  can_print s -> Forall plain post -> curpos (screen s) + Z.of_nat (length post) < 24 * 80 ->
  0 <= ie (inp s) -> ie (inp s) + Z.of_nat (length post) <= INPUT_BUF ->
  u32 (ir (inp s) + isize (inp s)) = ie (inp s) + Z.of_nat (length post) ->
  (forall k, (k < length post)%nat -> bufget (inp s) (ie (inp s) + Z.of_nat k) = nth k post 0) ->
  exists s', walk_end (length post) s = (Ok tt, s')
    /\ keeps (set_inp (set_ie (ie (inp s) + Z.of_nat (length post)) (inp s)) s) s'
    /\ can_print s' /\ view s' = fold_left glyph post (view s).
Proof.
  revert s. induction post as [|x post IH]; intros s Hc Hpl Hp H0 Hn Hz Ht.
  { exists s. split; [done|]. split; [|done].
    cbn [length]. rewrite Z.add_0_r. replace (set_ie (ie (inp s)) (inp s)) with (inp s) by by destruct (inp s).
    replace (set_inp (inp s) s) with s by by destruct s. apply keeps_refl. }
  inversion Hpl as [|?? (X1 & X2 & X3) Hpl']; subst. cbn [length] in *. unfold INPUT_BUF in *.
  destruct (consputc_glyph x s Hc X2 ltac:(lia)) as (s1 & E1 & K1 & C1 & V1); [tauto|].
  set (i2 := set_ie (ie (inp s) + 1) (inp s)).
  assert (view (set_inp i2 s1) = glyph (view s) x) as V2 by (rewrite <- V1; by destruct s1).
  destruct (IH (set_inp i2 s1)) as (s3 & E3 & K3 & C3 & V3).
  { by destruct s1. } { done. }
  { pose proof (f_equal fst V2) as Hv. rewrite glyph_pos in Hv. cbn [view fst] in Hv. rewrite Hv.
    unfold step_pos, back. rewrite (proj2 (Z.eqb_neq _ _) X1), (proj2 (Z.eqb_neq _ _) X3). cbn [orb]. lia. }
  { destruct s1; cbn; lia. } { destruct s1; cbn; lia. } { destruct s1; cbn. rewrite Hz. lia. }
  { intros k Hk. pose proof (Ht (S k) ltac:(lia)) as H. cbn [nth] in H. rewrite <- H.
    replace (inp (set_inp i2 s1)) with i2 by by destruct s1. unfold i2. cbn [ie set_ie].
    change (bufget (set_ie _ _)) with (bufget (inp s)). f_equal. lia. }
  exists s3. split; [|split; [|split; [done|]]].
  - cbn [walk_end]. rewrite (bind_ok get_inp _ s s (inp s) eq_refl).
    rewrite (proj2 (Z.eqb_neq _ _)) by lia. cbn [negb]. unfold INPUT_BUF. rewrite (proj2 (Z.ltb_lt _ _)) by lia.
    pose proof (Ht 0%nat ltac:(lia)) as Hx. rewrite Z.add_0_r in Hx. cbn [nth] in Hx.
    rewrite nth_bufget by (unfold INPUT_BUF; lia). rewrite Hx, (bind_ok _ _ _ _ _ E1), <- E3.
    rewrite u32_id by lia. unfold upd_inp. unfold bind at 1, modify. by rewrite (keeps_inp _ _ K1).
  - eapply keeps_trans; [|exact K3]. replace (inp (set_inp i2 s1)) with i2 by by destruct s1.
    unfold i2. cbn [ie set_ie]. replace (ie (inp s) + 1 + Z.of_nat (length post)) with (ie (inp s) + Z.of_nat (S (length post))) by lia.
    replace (set_ie _ (set_ie _ (inp s))) with (set_ie (ie (inp s) + Z.of_nat (S (length post))) (inp s)) by by destruct (inp s).
    replace (set_inp _ (set_inp _ s1)) with (set_inp (set_ie (ie (inp s) + Z.of_nat (S (length post))) (inp s)) s1) by by destruct s1.
    apply (keeps_set_inp (inp s)). by replace (set_inp (inp s) s) with s by by destruct s.
  - rewrite V3. cbn [fold_left]. by rewrite V2.
Qed.

(** The walk to the end stays in the array. *)
Definition can_walk (w : Z) (z : zip) : bool :=
  match z.2 with [] => true | _ => w + Z.of_nat (length (line z)) <=? INPUT_BUF end.

Lemma end_run w b l0 pre post s :
  editing w b l0 (pre, post) s -> can_walk w (pre, post) = true ->
  exists s', walk_end (length post) s = (Ok tt, s')
    /\ editing w b l0 (pre ++ post, []) s' /\ rest s' = rest s.
Proof.
  intros He Hw. pose proof He as [Hh Hs Hch]. pose proof (shows_len _ _ _ _ Hs) as Hl0.
  destruct (h_range _ _ _ Hh) as [Hw0 Hw1]. pose proof (h_short _ _ _ Hh) as Hsh.
  destruct (sh_room _ _ _ _ Hs) as [Hb Hroom]. pose proof (d_pos _ _ _ _ (sh_view _ _ _ _ Hs)) as Hp.
  pose proof (h_e _ _ _ Hh) as Hie. rewrite line_length in *. cbn [fst snd view] in *. unfold INPUT_BUF in *.
  assert (line (pre ++ post, []) = line (pre, post)) as El by (unfold line; cbn; by rewrite app_nil_r).
  assert (post = [] \/ w + Z.of_nat (length pre + length post) <= 128) as [->|Hwalk].
  { unfold can_walk in Hw. cbn [snd] in Hw. rewrite line_length in Hw. destruct post; [by left|right].
    by apply Z.leb_le in Hw. }
  { exists s. split; [done|]. rewrite app_nil_r. done. }
  assert (Forall plain post) as Hpl.
  { apply plains in Hch. unfold line in Hch. apply Forall_app in Hch. apply Hch. }
  destruct (walk_end_view post s) as (s' & E & K & C & V); [apply Hs|done|lia|lia|unfold INPUT_BUF; lia| | |].
  { rewrite (h_r _ _ _ Hh), (h_size _ _ _ Hh), line_length, Hie. cbn [fst snd]. rewrite u32_id; lia. }
  { intros k Hk. rewrite Hie, <- Z.add_assoc, <- Nat2Z.inj_add.
    rewrite (h_text _ _ _ Hh) by (rewrite line_length; cbn [fst snd]; lia).
    unfold line. cbn [fst snd]. rewrite app_nth2 by lia. f_equal. lia. }
  exists s'. split; [done|]. eapply editing_intro; [|exact K| |by rewrite El].
  - rewrite Hie. replace (w + Z.of_nat (length pre) + Z.of_nat (length post)) with (w + Z.of_nat (length (pre ++ post)))
      by (rewrite length_app; lia).
    eapply holds_move; [done|]. by rewrite app_nil_r.
  - constructor; [done| |rewrite El, line_length; cbn [fst snd]; lia].
    rewrite V. eapply displays_print; [apply Hs|done|done|done|lia].
Qed.

Lemma clear_run w b l0 z s :
  editing w b l0 z s ->
  exists s', clear_line s = (Ok tt, s') /\ editing w b l0 ([], []) s' /\ rest s' = rest s.
Proof.
  destruct z as [pre post]. intros [Hh Hs Hch].
  destruct (h_range _ _ _ Hh) as [Hw0 Hw1]. pose proof (h_short _ _ _ Hh) as Hsh.
  destruct (sh_room _ _ _ _ Hs) as [Hb Hroom]. rewrite line_length in *. cbn [fst snd] in *. unfold INPUT_BUF in *.
  set (sp := replicate (length post) 32).
  destruct (shows_print b l0 pre post sp s Hs) as (s1 & E1 & K1 & S1).
  { apply Forall_replicate. done. } { unfold sp. by rewrite length_replicate. }
  { unfold sp. rewrite length_replicate. lia. }
  destruct (shows_erase b l0 [] (pre ++ sp) s1 S1) as (s2 & E2 & K2 & S2).
  assert (length (pre ++ sp) = length pre + length post)%nat as El by (unfold sp; by rewrite length_app, length_replicate).
  set (i' := set_isize 0 (set_ie (iw (inp s)) (inp s))).
  exists (set_inp i' s2). split.
  - unfold clear_line. rewrite (bind_ok get_inp _ s s (inp s) eq_refl).
    replace (u32 (iw (inp s) + isize (inp s) - ie (inp s))) with (Z.of_nat (length post)).
    2: { rewrite (h_w _ _ _ Hh), (h_size _ _ _ Hh), (h_e _ _ _ Hh), line_length. cbn [fst snd].
         rewrite u32_id; lia. }
    rewrite (h_size _ _ _ Hh), line_length. cbn [fst snd]. rewrite !for_uint_run by lia.
    rewrite (bind_ok _ _ s s1 tt) by (by rewrite for_up_const).
    rewrite (bind_ok _ _ s1 s2 tt) by (by rewrite for_up_const, <- El).
    unfold upd_inp, bind, modify.
    replace (inp s2) with (inp s) by (by rewrite (keeps_inp _ _ K2), (keeps_inp _ _ K1)).
    by destruct s2.
  - apply (editing_intro _ _ _ _ i'); [| |by apply shows_set_inp|by constructor].
    + destruct Hh as [Hlen Hr Hw He Hsz Hsh' Hwr Ht].
      constructor; unfold i'; cbn; [done|done|done|lia|done|done|done|intros; lia].
    + apply (keeps_set_inp (inp s)). replace (set_inp (inp s) s) with s by by destruct s. by eapply keeps_trans.
Qed.

(** After Enter: the line and its end are there to be read. *)
Record committed (w : Z) (l : list Z) s : Prop := {
  cm_print : can_print s;
  cm_len : length (buf (inp s)) = 128%nat;
  cm_r : ir (inp s) = w;
  cm_w : iw (inp s) = w + Z.of_nat (length l);
  cm_e : ie (inp s) = w + Z.of_nat (length l);
  cm_size : isize (inp s) = 0;
  cm_range : 0 <= w /\ w + Z.of_nat (length l) < 2 ^ 32;
  cm_text : forall k, (k < length l)%nat -> bufget (inp s) (w + Z.of_nat k) = nth k l 0;
}.

Lemma enter_end_run w b l0 l s :
  editing w b l0 (l, []) s ->
  exists s', (append_char 10 ;;
     upd_inp (fun i => set_iw (ie i) i) ;;
     upd_inp (set_isize 0) ;;
     wakeup_input)%kernel s = (Ok tt, s')
   /\ committed w (l ++ [10]) s' /\ rest s' = rest (set_woken (woken s ++ [CInput]) s).
Proof.
  intros [[Hlen Hr Hw He Hsz Hsh Hwr Ht] Hs Hch]. unfold line in *. cbn [fst snd] in *. rewrite app_nil_r in *.
  unfold INPUT_BUF in *.
  set (i1 := appended 10 (inp s)).
  destruct (consputc_run 10 (set_inp i1 s)) as (s1 & E1 & K1 & C1 & _).
  { destruct (sh_print _ _ _ _ Hs). by destruct s. }
  pose proof (keeps_inp _ _ K1) as I1. replace (inp (set_inp i1 s)) with i1 in I1 by by destruct s.
  set (i2 := set_isize 0 (set_iw (ie i1) i1)).
  exists (set_woken (woken s1 ++ [CInput]) (set_inp i2 s1)). split.
  { rewrite (bind_ok _ _ s s1 tt) by (by rewrite append_char_eq).
    unfold wakeup_input, upd_inp, bind, modify. rewrite I1. by destruct s1. }
  assert (ie i1 = w + Z.of_nat (length (l ++ [10]))) as Hie.
  { unfold i1, appended. cbn. rewrite He, length_app. cbn [length]. rewrite u32_id; lia. }
  split.
  - constructor; [by destruct C1; destruct s1| | | | |by destruct s1| |]; try (rewrite length_app; cbn [length]; lia);
      replace (inp _) with i2 by by destruct s1.
    + cbn. rewrite length_insert. done.
    + done.
    + exact Hie.
    + exact Hie.
    + rewrite length_app. cbn [length]. intros k Hk.
      change (bufget i2 (w + Z.of_nat k)) with (bufget (bufput (ie (inp s)) 10 (inp s)) (w + Z.of_nat k)).
      rewrite bufget_put by (try done; unfold INPUT_BUF; lia). rewrite He.
      destruct (Z.eqb_spec (w + Z.of_nat k) (w + Z.of_nat (length l))).
      * replace k with (length l) by lia. by rewrite nth_middle.
      * rewrite Ht by lia. by rewrite app_nth1 by lia.
  - pose proof (keeps_rest _ _ K1) as R1. rewrite set_inp_rest in R1. unfold rest, dev in *. cbn.
    injection R1 as -> -> -> -> -> -> -> ->. done.
Qed.

Lemma enter_run w b l0 z c s :
  editing w b l0 z s -> c = 10 \/ c = 13 -> can_walk w z = true ->
  exists s', type_char c s = (Ok tt, s') /\ committed w (line z ++ [10]) s'
    /\ rest s' = rest (set_woken (woken s ++ [CInput]) s).
Proof.
  destruct z as [pre post]. intros He Hc Hw. pose proof (ed_holds _ _ _ _ _ He) as Hh.
  destruct (end_run _ _ _ _ _ _ He Hw) as (s1 & E1 & He1 & R1).
  destruct (enter_end_run _ _ _ _ _ He1) as (s2 & E2 & C2 & R2).
  exists s2. split; [|split; [done|]].
  2: { rewrite R2. unfold rest, dev in *. cbn.
       injection R1 as -> -> -> -> -> -> -> ->. done. }
  unfold type_char. rewrite (bind_ok get_inp _ s s (inp s) eq_refl), (holds_guard _ _ _ Hh).
  rewrite (proj2 (Z.eqb_neq c 0)) by lia. cbn [negb andb].
  replace (if c =? 13 then 10 else c) with 10 by (destruct Hc as [-> | ->]; done).
  change (10 =? 10) with true. cbn [orb].
  rewrite (holds_at_end _ _ _ _ Hh), (holds_tail _ _ _ Hh). cbn [snd]. rewrite Nat2Z.id, <- E2.
  assert ((if negb (match post with [] => true | _ => false end) then walk_end (length post) ;; append_char 10
           else append_char 10)%kernel s = append_char 10 s1) as E.
  { destruct post; cbn [negb]; [|by rewrite (bind_ok _ _ _ _ _ E1)].
    cbn [length walk_end] in E1. unfold get_inp in E1. mrun_in E1. by injection E1 as <-. }
  unfold bind at 1 6. rewrite E. destruct (append_char 10 s1) as [[[]| | | |] s3]; done.
Qed.

(** ** Sequences of keys *)

(** What the theorems ask of a key: room for a character in the buffer and on the
    screen, and that the walk of [}] to the end does not leave the array: its index
    is absolute, not reduced modulo [INPUT_BUF].  ^U, ^P and the keys that enter
    the line are not editing keys here. *)
Definition key_ok (w b c : Z) (z : zip) : bool :=
  if is_text c then (Z.of_nat (length (line z)) + 1 <? INPUT_BUF)
                    && (b + Z.of_nat (length (line z)) + 2 <? 24 * 80)
  else if c =? 125 then can_walk w z
  else is_erase c || (c =? CTRL 67) || (c =? 123) || (c =? 0).

Lemma key_run w b l0 z c s :
  editing w b l0 z s -> key_ok w b c z = true ->
  exists s', console_key c s = (Ok false, s') /\ editing w b l0 (edit c z) s' /\ rest s' = rest s.
Proof.
  destruct z as [pre post]. intros He Hk. pose proof (ed_holds _ _ _ _ _ He) as Hh. unfold key_ok in Hk.
  assert (forall (m : CM unit) z', (exists s', m s = (Ok tt, s') /\ editing w b l0 z' s' /\ rest s' = rest s) ->
    exists s', (m ;; ret false)%kernel s = (Ok false, s') /\ editing w b l0 z' s' /\ rest s' = rest s) as Hret.
  { intros m z' (s' & E & H). exists s'. by rewrite (bind_ok _ _ _ _ _ E). }
  destruct (is_text c) eqn:Ht.
  - apply andb_true_iff in Hk as [H1 H2]. apply Z.ltb_lt in H1, H2.
    destruct (is_text_plain c Ht) as [Hp Hb]. unfold is_text, is_enter in Ht.
    rewrite !andb_true_iff, !negb_true_iff, !orb_false_iff in Ht.
    destruct Ht as ((((((((_ & _) & Te) & ((T10 & T13) & T4)) & TP) & TU) & TC) & T1) & T2).
    unfold console_key, edit. fold (is_erase c). rewrite Te, TP, TU, TC, T1, T2.
    assert ((c =? 0) = false) as T0 by (apply Z.eqb_neq; unfold byte in Hb; lia). rewrite T0. apply Hret.
    destruct (insert_run w b l0 pre post c s He Hp Hb H1 H2) as (s' & E & He' & R). exists s'. split; [|done].
    unfold type_char. rewrite (bind_ok get_inp _ s s (inp s) eq_refl), T0, (holds_guard _ _ _ Hh), T13, T10, T4.
    cbn [negb andb orb]. rewrite (bind_ok _ _ _ _ _ E).
    rewrite (bind_ok get_inp _ s' s' (inp s') eq_refl), (h_size _ _ _ (ed_holds _ _ _ _ _ He')).
    pose proof (h_short _ _ _ (ed_holds _ _ _ _ _ He')). by rewrite (proj2 (Z.eqb_neq _ INPUT_BUF)) by lia.
  - destruct (Z.eqb_spec c 125) as [->|T2].
    { cbn. apply Hret. unfold cursor_end. rewrite (bind_ok get_inp _ s s (inp s) eq_refl), (holds_tail _ _ _ Hh), Nat2Z.id.
      by apply end_run. }
    unfold console_key, edit. fold (is_erase c). destruct (is_erase c) eqn:Te.
    { unfold is_erase in Te. rewrite orb_true_iff, !Z.eqb_eq in Te.
      rewrite (proj2 (Z.eqb_neq c (CTRL 80))), (proj2 (Z.eqb_neq c (CTRL 85))) by (unfold CTRL in *; lia).
      apply Hret. by apply erase_run. }
    cbn [orb] in Hk. destruct (Z.eqb_spec c (CTRL 67)) as [->|T3]; [by apply Hret, clear_run with (z := (pre, post))|].
    destruct (Z.eqb_spec c 123) as [->|T1].
    { cbn. apply Hret. unfold cursor_home.
      rewrite (bind_ok get_inp _ s s (inp s) eq_refl), (h_e _ _ _ Hh), (h_w _ _ _ Hh). cbn [fst].
      pose proof (h_short _ _ _ Hh). rewrite line_length in *. cbn [fst snd] in *. unfold INPUT_BUF in *.
      rewrite u32_id by lia. replace (w + Z.of_nat (length pre) - w) with (Z.of_nat (length pre)) by lia.
      rewrite Nat2Z.id. by apply home_run. }
    apply Z.eqb_eq in Hk as ->. cbn. apply Hret. exists s. done.
Qed.

(** The line after a sequence of keys, if each of them is fit. *)
Fixpoint type_line (w b : Z) (ks : list Z) (z : zip) : option zip :=
  match ks with
  | [] => Some z
  | c :: ks => if key_ok w b c z then type_line w b ks (edit c z) else None
  end.

Lemma edit_chars c z :
  is_text c || negb (is_enter c) = true -> Forall (fun x => x <> 10 /\ x <> 4) (line z) ->
  Forall (fun x => x <> 10 /\ x <> 4) (line (edit c z)).
Proof.
  intros Hc Hz. destruct z as [pre post]. unfold edit, line in *. cbn [fst snd] in *. pose proof Hz as Hz'.
  apply Forall_app in Hz as [H1 H2].
  destruct (is_erase c); [cbn [fst snd]|].
  { apply Forall_app. split; [|done]. destruct (snoc_cases pre) as [->|(l & x & ->)]; [done|].
    rewrite removelast_last. by apply Forall_app in H1 as [? _]. }
  destruct (c =? CTRL 67); [constructor|]. destruct (c =? 123); [done|].
  destruct (c =? 125); [cbn [fst snd]; by rewrite app_nil_r|]. destruct (c =? 0); [done|]. cbn [fst snd].
  rewrite !Forall_app, Forall_singleton. split; [|done]. split; [done|].
  unfold is_text, is_enter, CTRL in Hc. zcases; cbn in Hc; rewrite ?andb_false_r in Hc; cbn in Hc; try done; lia.
Qed.

Lemma type_line_chars w b ks z z' :
  type_line w b ks z = Some z' -> Forall (fun x => x <> 10 /\ x <> 4) (line z) ->
  Forall (fun x => x <> 10 /\ x <> 4) (line z').
Proof.
  revert z. induction ks as [|c ks IH]; intros z E Hz; [by injection E as <-|].
  cbn [type_line] in E. destruct (key_ok w b c z) eqn:Hk; [|done]. eapply IH; [exact E|].
  apply edit_chars; [|done]. unfold key_ok in Hk. destruct (is_text c); [done|]. cbn [orb].
  destruct (is_enter c) eqn:Hn; [|done]. unfold is_enter, is_erase, CTRL in *. zcases; subst; try done; try lia.
Qed.

(** What taking a key leaves alone. *)
Definition quiet s s' : Prop :=
  panicked s' = panicked s /\ cons_lock s' = cons_lock s /\ screen s' = screen s /\ inp s' = inp s
  /\ woken s' = woken s.

(** A [getc]: it gives the pending characters one by one, then a negative number. *)
Class key_source (getc : CM Z) (ok : cons -> Prop) (pending : cons -> list Z) : Prop := {
  ks_dev : forall s s', dev s' = dev s -> ok s -> ok s' /\ pending s' = pending s;
  ks_next : forall s c l, ok s -> pending s = c :: l ->
    0 <= c /\ exists s', getc s = (Ok c, s') /\ ok s' /\ pending s' = l /\ quiet s s';
  ks_end : forall s, ok s -> pending s = [] ->
    exists c s', c < 0 /\ getc s = (Ok c, s') /\ ok s' /\ quiet s s';
}.

Lemma editing_quiet w b l0 z s s' : editing w b l0 z s -> quiet s s' -> editing w b l0 z s'.
Proof. intros H (Q1 & Q2 & Q3 & Q4 & Q5). by eapply editing_ext. Qed.

Section Source.
Context (procdump : CM unit) {getc : CM Z} {ok : cons -> Prop} {pending : cons -> list Z}
        {KS : key_source getc ok pending}.

Lemma keys_run w b l0 ks more z z' s fuel :
  editing w b l0 z s -> ok s -> pending s = ks ++ more -> type_line w b ks z = Some z' ->
  exists s', consoleintr_loop getc (length ks + fuel) false s = consoleintr_loop getc fuel false s'
    /\ editing w b l0 z' s' /\ ok s' /\ pending s' = more
    /\ cons_lock s' = cons_lock s /\ woken s' = woken s.
Proof.
  revert z s. induction ks as [|c ks IH]; intros z s He Ho Hp Hz.
  { injection Hz as ->. exists s. done. }
  cbn [type_line] in Hz. destruct (key_ok w b c z) eqn:Hk; [|done].
  destruct (ks_next s c (ks ++ more) Ho Hp) as (Hc & s1 & E1 & Ho1 & Hp1 & Q1).
  destruct (key_run w b l0 z c s1 (editing_quiet _ _ _ _ _ _ He Q1) Hk) as (s2 & E2 & He2 & R2).
  unfold rest in R2. injection R2 as R3 R4 R5 R6.
  destruct (ks_dev s1 s2 ltac:(unfold dev; congruence) Ho1) as [Ho2 Hp2].
  destruct (IH _ s2 He2 Ho2 ltac:(congruence) Hz) as (s3 & E3 & He3 & Ho3 & Hp3 & C3 & W3).
  exists s3. destruct Q1 as (_ & Q1 & _ & _ & Q2).
  repeat split; try done; try congruence; try apply He3.
  cbn [length Nat.add consoleintr_loop]. rewrite (bind_ok _ _ _ _ _ E1).
  rewrite (proj2 (Z.ltb_ge c 0) Hc), (bind_ok _ _ _ _ _ E2). exact E3.
Qed.

(** The interrupt up to the loop. *)
Definition opened s : cons :=
  set_cons_lock true (if end_pos s =? u32 (-1) then set_end_pos (ie (inp s)) s else s).

Lemma consoleintr_open fuel s d s1 :
  cons_lock s = false -> consoleintr_loop getc fuel false (opened s) = (Ok d, s1) -> cons_lock s1 = true ->
  consoleintr procdump getc fuel s = (if d then procdump else ret tt) (set_cons_lock false s1).
Proof.
  intros Hl E Hl1. unfold consoleintr. rewrite (bind_ok (consoleintr_keys getc fuel) _ s (set_cons_lock false s1) d); [done|].
  unfold consoleintr_keys. rewrite (bind_ok get _ s s s eq_refl).
  rewrite (bind_ok _ _ s (if end_pos s =? u32 (-1) then set_end_pos (ie (inp s)) s else s) tt)
    by (by destruct (end_pos s =? u32 (-1))).
  rewrite (bind_ok acquire_cons _ _ (opened s) tt)
    by (apply acquire_flag_run; by destruct (end_pos s =? u32 (-1)), s).
  rewrite (bind_ok _ _ _ _ _ E).
  by rewrite (bind_ok release_cons _ s1 (set_cons_lock false s1) tt) by (by apply release_flag_run).
Qed.

Lemma opened_editing w b l0 z s :
  editing w b l0 z s -> ok s ->
  editing w b l0 z (opened s) /\ ok (opened s) /\ pending (opened s) = pending s.
Proof.
  intros He Ho. assert (dev (opened s) = dev s) as Hd by (unfold opened; by destruct (end_pos s =? u32 (-1)), s).
  split; [|by apply ks_dev]. eapply editing_ext; [exact He|..]; unfold opened; by destruct (end_pos s =? u32 (-1)), s.
Qed.

(** C29: Typing at the console edits one line.  The keys are text (bytes other than
    the control keys), erase keys, ^C, the cursor keys and 0; not ^U, which leaves
    [input.size] (a finding), ^P, or the keys that enter the line.  Each fits
    ([key_ok]): a character keeps the line below [INPUT_BUF] bytes and above the
    last row of the screen, and [}] is pressed at the end of the line or while the
    line ends below index [INPUT_BUF] of the array, because its loop reads
    [input.buf[input.e]] without reducing the index (a finding; in the model the
    access is undefined).  For any sequence of such keys, from any device that
    delivers them, the interrupt handler returns, and afterwards the input buffer
    holds the line the abstract editor computes, the cursor index included, and
    the screen shows that line at the place it started, the cursor on it, with
    nothing left over behind it. *)
Theorem console_edits_line w b l0 ks z s fuel :
  editing w b l0 ([], []) s -> cons_lock s = false -> ok s -> pending s = ks ->
  type_line w b ks ([], []) = Some z -> (length ks < fuel)%nat ->
  exists s', consoleintr procdump getc fuel s = (Ok tt, s')
    /\ holds w z (inp s') /\ displays b l0 z (view s') /\ woken s' = woken s /\ cons_lock s' = false.
Proof.
  intros He Hl Ho Hp Hz Hf. destruct (opened_editing _ _ _ _ _ He Ho) as (He0 & Ho0 & Hp0).
  rewrite <- (app_nil_r ks), <- Hp0 in Hp.
  destruct (keys_run w b l0 ks [] _ z _ (fuel - length ks) He0 Ho0 Hp Hz) as (s1 & E1 & He1 & Ho1 & Hp1 & L1 & W1).
  replace (length ks + (fuel - length ks))%nat with fuel in E1 by lia.
  destruct (ks_end s1 Ho1 Hp1) as (c & s2 & Hc & E2 & Ho2 & Q2).
  destruct (fuel - length ks)%nat as [|f] eqn:Ef; [lia|]. cbn [consoleintr_loop] in E1.
  rewrite (bind_ok _ _ _ _ _ E2), (proj2 (Z.ltb_lt c 0) Hc) in E1.
  pose proof (editing_quiet _ _ _ _ _ _ He1 Q2) as [Hh2 Hs2 _]. destruct Q2 as (_ & Q2 & _ & _ & Q3).
  rewrite (consoleintr_open fuel s false s2 Hl E1) by (rewrite Q2, L1; by destruct s).
  exists (set_cons_lock false s2). split; [done|]. split; [exact Hh2|]. split; [exact (sh_view _ _ _ _ Hs2)|].
  split; [|done]. change (woken s2 = woken s). rewrite Q3, W1. unfold opened. by destruct (end_pos s =? u32 (-1)), s.
Qed.

(** Reading a line that is there. *)
Lemma read_run l acc n s :
  Forall (fun c => c <> 10 /\ c <> 4) l -> (length l < n)%nat -> cons_lock s = true ->
  0 <= ir (inp s) -> ir (inp s) + Z.of_nat (length l) + 1 < 2 ^ 32 ->
  iw (inp s) = ir (inp s) + Z.of_nat (length l) + 1 ->
  (forall k, (k <= length l)%nat -> bufget (inp s) (ir (inp s) + Z.of_nat k) = nth k (l ++ [10]) 0) ->
  consoleread_loop false n acc s
  = (Ok (RDone (acc ++ l ++ [10])), set_cons_lock false (set_inp (set_ir (iw (inp s)) (inp s)) s)).
Proof.
  revert acc n s. induction l as [|x l IH]; intros acc n s Hx Hn Hl H0 Hb Hw Ht;
    (destruct n as [|n]; [cbn [length] in Hn; lia|]); cbn [consoleread_loop];
    rewrite (bind_ok get_inp _ s s (inp s) eq_refl), (proj2 (Z.eqb_neq (ir (inp s)) _)) by lia;
    pose proof (Ht 0%nat ltac:(lia)) as Hc; rewrite Z.add_0_r in Hc; cbn [app nth length] in *; rewrite Hc;
    rewrite u32_id by lia; unfold upd_inp at 1; unfold bind at 1, modify.
  - change (10 =? CTRL 68) with false. change (10 =? 10) with true. cbv iota.
    rewrite (bind_ok release_cons _ _ (set_cons_lock false (set_inp (set_ir (ir (inp s) + 1) (inp s)) s)) tt)
      by (apply release_flag_run; by destruct s).
    unfold ret. rewrite Hw. cbn [length]. by rewrite Z.add_0_r.
  - apply Forall_cons in Hx as [[X1 X2] Hx'].
    rewrite (proj2 (Z.eqb_neq x (CTRL 68)) X2), (proj2 (Z.eqb_neq x 10) X1).
    rewrite IH; [|done|lia|by destruct s|..].
    + by rewrite <- app_assoc.
    + cbn [inp set_inp ir iw set_ir]. lia.
    + cbn [inp set_inp ir iw set_ir]. lia.
    + cbn [inp set_inp ir iw set_ir]. lia.
    + intros k Hk. pose proof (Ht (S k) ltac:(lia)) as H. cbn [nth] in H. rewrite <- H.
      cbn [inp set_inp ir set_ir]. change (bufget (set_ir _ (inp s))) with (bufget (inp s)). f_equal. lia.
Qed.

(** What is typed is what is read: after the keys of a line and Enter, the
    handler has woken the readers, and a read of enough bytes returns the line the
    abstract editor computes, with its newline, and leaves the buffer empty. *)
Theorem typed_line_is_read w b l0 ks c z s fuel :
  editing w b l0 ([], []) s -> cons_lock s = false -> ok s -> pending s = ks ++ [c] -> c = 10 \/ c = 13 ->
  type_line w b ks ([], []) = Some z -> can_walk w z = true ->
  (length ks + 1 < fuel)%nat ->
  exists s1, consoleintr procdump getc fuel s = (Ok tt, s1) /\ woken s1 = woken s ++ [CInput]
    /\ forall n, (length (line z) < n)%nat ->
         exists s2, (acquire_cons ;; consoleread_loop false n [])%kernel s1 = (Ok (RDone (line z ++ [10])), s2)
           /\ ir (inp s2) = iw (inp s2) /\ ie (inp s2) = iw (inp s2) /\ isize (inp s2) = 0.
Proof.
  intros He Hl Ho Hp Hc Hz Hw Hf. destruct (opened_editing _ _ _ _ _ He Ho) as (He0 & Ho0 & Hp0).
  rewrite <- Hp0 in Hp.
  destruct (keys_run w b l0 ks [c] _ z _ (fuel - length ks) He0 Ho0 Hp Hz) as (s1 & E1 & He1 & Ho1 & Hp1 & L1 & W1).
  replace (length ks + (fuel - length ks))%nat with fuel in E1 by lia.
  destruct (fuel - length ks)%nat as [|[|f]] eqn:Ef; [lia|lia|]. cbn [consoleintr_loop] in E1.
  destruct (ks_next s1 c [] Ho1 Hp1) as (Hc0 & s2 & E2 & Ho2 & Hp2 & Q2).
  pose proof (editing_quiet _ _ _ _ _ _ He1 Q2) as He2.
  destruct (enter_run w b l0 z c s2 He2 Hc Hw) as (s3 & E3 & C3 & R3). injection R3 as R3 _ R4 R5 R6 R7 R8 R9.
  destruct (ks_dev s2 s3 ltac:(unfold dev; congruence) Ho2) as [Ho3 Hp3]. rewrite Hp2 in Hp3.
  destruct (ks_end s3 Ho3 Hp3) as (c' & s4 & Hc' & E4 & Ho4 & Q4).
  rewrite (bind_ok _ _ _ _ _ E2), (proj2 (Z.ltb_ge c 0) Hc0), (bind_ok _ _ s2 s3 false) in E1.
  2: { replace (console_key c) with (type_char c ;; ret false)%kernel by (destruct Hc as [-> | ->]; reflexivity).
       by rewrite (bind_ok _ _ _ _ _ E3). }
  rewrite (bind_ok _ _ _ _ _ E4), (proj2 (Z.ltb_lt c' 0) Hc') in E1. cbn [orb] in E1.
  destruct Q2 as (_ & Q2 & _ & _ & Q2'), Q4 as (_ & Q4 & _ & Q4i & Q4').
  rewrite (consoleintr_open fuel s false s4 Hl E1) by (rewrite Q4, R3, Q2, L1; by destruct s).
  exists (set_cons_lock false s4). split; [done|]. split.
  { change (woken s4 = woken s ++ [CInput]). rewrite Q4', R4, Q2', W1. unfold opened. by destruct (end_pos s =? u32 (-1)), s. }
  intros n Hn. destruct C3 as [_ D1 D2 D3 D4 D5 [D6 D7] D8]. rewrite <- Q4i in *.
  rewrite length_app in *. cbn [length] in *.
  eexists. rewrite (bind_ok acquire_cons _ _ (set_cons_lock true s4) tt)
    by exact (acquire_flag_run cons_lock set_cons_lock (set_cons_lock false s4) eq_refl).
  rewrite (read_run (line z) [] n); cbn [inp set_cons_lock]; [split; [done|]| |done|done|lia|lia|lia|].
  - cbn. split; [done|]. split; [congruence|done].
  - eapply Forall_impl; [apply (type_line_chars w b ks ([], []) z Hz); constructor|]. by intros x [].
  - intros k Hk. rewrite D2. apply D8. lia.
Qed.
End Source.

(** ** The serial line delivers its bytes *)

Definition uart_ok s : Prop := uart s = true /\ com_absent (com1 s) = false.
Definition uart_pending s : list Z := map u8 (com_in (com1 s)).

#[export] Instance uart_source : key_source uartgetc uart_ok uart_pending.
Proof.
  split.
  - unfold dev, uart_ok, uart_pending. intros s s' E. injection E as -> -> -> _ _. done.
  - intros s c l [H1 H2] Hp. unfold uart_pending in Hp. destruct (com_in (com1 s)) as [|b bs] eqn:Eb; [done|].
    injection Hp as <- <-. pose proof (u8_range b). split; [lia|].
    unfold uartgetc. mrun. rewrite H1. cbn [negb]. unfold in_lsr, in_com. mrun. rewrite H2, Eb.
    replace (nz _) with true by by destruct (hd true (com_tx (com1 s))). cbn [negb com1 set_com1 com_in].
    eexists. split; [done|]. by split.
  - intros s [H1 H2] Hp. unfold uart_pending in Hp. destruct (com_in (com1 s)) as [|b bs] eqn:Eb; [|done].
    unfold uartgetc. mrun. rewrite H1. cbn [negb]. unfold in_lsr, in_com. mrun. rewrite H2, Eb.
    replace (nz _) with false by by destruct (hd true (com_tx (com1 s))). cbn [negb].
    eexists _, _. split; [|split; [done|by split]]. lia.
Qed.

(** ** Runs *)

Module Runs.
(** A console at the prompt: the cursor in column 2 of row 3, nothing typed, the
    bytes [keys] waiting on the serial line. *)
Definition prompt (r : Z) (keys : list Z) : cons :=
  mkcons false false true (mkcga (replicate 2000 (attr 32)) 15 0 242) true
         (mkcom false [] [] keys) [] 0 (mkinput (replicate 128 0) r r r 0) (u32 (-1)) [] [].

Lemma prompt_editing r keys :
  0 <= r -> r + INPUT_BUF < 2 ^ 32 ->
  editing r 242 (replicate 2000 (attr 32)) ([], []) (prompt r keys).
Proof.
  intros Hr Hb. constructor; [| |constructor].
  - constructor; cbn; [done|done|done|lia|done|done|done|intros; lia].
  - constructor; [|constructor; cbn|]; [|done|done|intros; lia|done|by left|cbn; lia].
    split; [done|]. unfold cga_ok. cbn [screen prompt cur_hi cur_lo crt]. rewrite length_replicate.
    repeat split; first [lia|reflexivity].
Qed.

(** The keys [cat x], home, an [s] in front, end, an erase, and [y]. *)
Definition some_keys : list Z := text "cat x" ++ [123] ++ text "s" ++ [125; 127] ++ text "y".
End Runs.
Import Runs.

Lemma console_edits_line_witness :
  exists s', consoleintr (ret tt) uartgetc 12 (prompt 0 some_keys) = (Ok tt, s')
    /\ holds 0 (text "scat y", []) (inp s')
    /\ displays 242 (replicate 2000 (attr 32)) (text "scat y", []) (view s')
    /\ woken s' = [] /\ cons_lock s' = false.
Proof.
  apply (console_edits_line (KS := uart_source) (ret tt) 0 242 (replicate 2000 (attr 32)) some_keys (text "scat y", [])
           (prompt 0 some_keys) 12); [apply prompt_editing; [lia|reflexivity]|reflexivity|done|reflexivity|reflexivity|].
  vm_compute. lia.
Defined.

Lemma typed_line_is_read_witness :
  exists s1, consoleintr (ret tt) uartgetc 13 (prompt 0 (some_keys ++ [13])) = (Ok tt, s1) /\ woken s1 = [CInput]
    /\ forall n, (6 < n)%nat ->
         exists s2, (acquire_cons ;; consoleread_loop false n [])%kernel s1
             = (Ok (RDone (text "scat y" ++ [10])), s2)
           /\ ir (inp s2) = iw (inp s2) /\ ie (inp s2) = iw (inp s2) /\ isize (inp s2) = 0.
Proof.
  apply (typed_line_is_read (KS := uart_source) (ret tt) 0 242 (replicate 2000 (attr 32)) some_keys 13 (text "scat y", [])
           (prompt 0 (some_keys ++ [13])) 13);
    [apply prompt_editing; [lia|reflexivity]|reflexivity|done|reflexivity|by right|reflexivity|reflexivity|].
  vm_compute. lia.
Defined.

(** ** Where the editor goes wrong *)

Lemma for_up_ok n a body s :
  can_print s -> (forall k s, can_print s -> exists s', body k s = (Ok tt, s') /\ can_print s') ->
  exists s', for_up n a body s = (Ok tt, s') /\ can_print s'.
Proof.
  intros Hc Hb. revert a s Hc. induction n as [|n IH]; intros a s Hc; [by exists s|].
  destruct (Hb a s Hc) as (s1 & E1 & C1). cbn [for_up]. rewrite (bind_ok _ _ _ _ _ E1). by apply IH.
Qed.

Lemma for_uint_overflow bound body s :
  2 ^ 31 <= bound -> can_print s ->
  (forall k s, can_print s -> exists s', body k s = (Ok tt, s') /\ can_print s') ->
  exists s', for_uint bound body s = (UB "i++ overflows", s').
Proof.
  intros H Hc Hb. unfold for_uint. rewrite (proj2 (Z.ltb_ge _ _) H).
  destruct (for_up_ok (Z.to_nat (2 ^ 31)) 0 body s Hc Hb) as (s' & E & _).
  exists s'. by rewrite (bind_ok _ _ _ _ _ E).
Qed.

Lemma insert_overflows w l c s :
  committed w l s -> (0 < length l < 128)%nat -> exists s', insert_char c s = (UB "i++ overflows", s').
Proof.
  intros [Hc Hlen Hr Hw He Hs [Hw0 Hw1] _] Hl. unfold insert_char.
  rewrite (bind_ok get_inp _ s s (inp s) eq_refl).
  assert (Z.to_nat (s32 (tail_len (inp s))) = 0%nat) as ->.
  { unfold tail_len. rewrite s32_u32, Hr, Hs, He, s32_id; lia. }
  rewrite (bind_ok _ _ s s tt) by done.
  destruct (consputc_run c (set_inp (appended c (inp s)) s)) as (s1 & E1 & K1 & C1 & _); [by destruct s|].
  rewrite (bind_ok _ _ s s1 tt) by (by rewrite append_char_eq).
  rewrite (bind_ok get_inp _ s1 s1 (inp s1) eq_refl), (keeps_inp _ _ K1).
  destruct (for_uint_overflow (tail_len (inp (set_inp (appended c (inp s)) s)))
    (fun k => i <- get_inp ;; consputc (bufget i (ie i + k)))%kernel s1) as (s2 & E2); [|done| |].
  - assert (tail_len (appended c (inp s)) = u32 (- Z.of_nat (length l))) as Et.
    { unfold tail_len. cbn. rewrite Hr, He, Hs. unfold u32.
      rewrite Zminus_mod_idemp_r, (Z.mod_small (0 + 1)) by lia. f_equal. lia. }
    change (2 ^ 31 <= tail_len (appended c (inp s))). rewrite Et. unfold u32.
    rewrite Z_mod_nz_opp_full; rewrite Z.mod_small; lia.
  - intros k t Ct. rewrite (bind_ok get_inp _ t t (inp t) eq_refl).
    destruct (consputc_run (bufget (inp t) (ie (inp t) + k)) t Ct) as (t' & E & _ & C & _). by exists t'.
  - exists s2. unfold bind at 1. by rewrite E2.
Qed.

(** C40: Typing ahead breaks the console: while a line that was entered has not been
    read, [input.r + input.size] is not the end of the line being typed, and the
    next ordinary key starts a loop that prints 2^31 characters with the console
    lock held and ends in an integer overflow. *)
Theorem typing_ahead_overflows w l c s :
  committed w l s -> (0 < length l < 128)%nat -> is_text c = true ->
  exists s', console_key c s = (UB "i++ overflows", s').
Proof.
  intros Hcm Hl Ht. destruct (insert_overflows w l c s Hcm Hl) as (s' & E). exists s'.
  destruct Hcm as [Hc Hlen Hr Hw He Hs [Hw0 Hw1] _]. destruct (is_text_plain c Ht) as [_ Hb].
  unfold is_text, is_enter in Ht. rewrite !andb_true_iff, !negb_true_iff, !orb_false_iff in Ht.
  destruct Ht as ((((((((_ & _) & Te) & ((T10 & T13) & T4)) & TP) & TU) & TC) & T1) & T2).
  unfold console_key. fold (is_erase c). rewrite Te, TP, TU, TC, T1, T2.
  assert (type_char c s = (UB "i++ overflows", s')) as Et; [|unfold bind; by rewrite Et].
  unfold type_char. rewrite (bind_ok get_inp _ s s (inp s) eq_refl).
  rewrite (proj2 (Z.eqb_neq c 0)) by (unfold byte in Hb; lia). rewrite He, Hr, Hs, T13, T10, T4.
  rewrite (u32_id (w + Z.of_nat (length l) - w)) by lia. unfold INPUT_BUF.
  rewrite (proj2 (Z.ltb_lt _ _)) by lia. cbn [negb andb orb].
  rewrite Z.add_0_r, (u32_id w) by lia. rewrite (proj2 (Z.eqb_neq _ _)) by lia. cbn [negb].
  unfold bind at 1. by rewrite E.
Qed.

Lemma typing_ahead_overflows_witness :
  exists s', console_key 120 (set_inp (mkinput (10 :: replicate 127 0) 0 1 1 0) (prompt 0 [])) = (UB "i++ overflows", s').
Proof.
  apply (typing_ahead_overflows 0 [10] 120); [|cbn; lia|reflexivity].
  constructor; [|reflexivity..|cbn; lia|].
  - apply (ed_shows 0 242 (replicate 2000 (attr 32)) ([], []) (prompt 0 [])), prompt_editing; [lia|reflexivity].
  - cbn. intros k Hk. replace k with 0%nat by lia. reflexivity.
Defined.

(** The kill-line key does not kill the line: [^U] walks the edit index back but
    leaves [input.size], so that Enter walks over the same characters again and the
    reader gets the line that was to be discarded. *)
Theorem kill_line_keeps_the_line :
  ((uartintr (ret tt) ;; acquire_cons ;; consoleread_loop false 100 [])%kernel
     (prompt 0 (text "rm x" ++ [CTRL 85; 13]))).1 = Ok (RDone (text "rm x" ++ [10])).
Proof. vm_compute. reflexivity. Qed.
