(* ===== verification/Kbd.v ===== *)
(** The keyboard: [src/kbd.h] and [src/kbd.c].  The controller holds the scan codes
    that have not been read ([kbd_in] of [Console.cons]). *)

From Stdlib Require Import ZArith Lia.
From stdpp Require Import base list strings.
From S2P Require Import Prelude Console ConsoleInv.
Local Open Scope Z_scope.

Definition KBS_DIB : Z := 0x01.
Definition NO : Z := 0.
Definition SHIFT : Z := 1.
Definition CTL : Z := 2.
Definition ALT : Z := 4.
Definition CAPSLOCK : Z := 8.
Definition NUMLOCK : Z := 16.
Definition SCROLLLOCK : Z := 32.
Definition E0ESC : Z := 64.

(** An array of 256 with an initializer: the first elements in order, then the
    ones given by index; the others are 0. *)
Definition table (first : list Z) (given : list (Z * Z)) (i : Z) : Z :=
  match find (fun p => p.1 =? i) given with
  | Some p => p.2
  | None => nth (Z.to_nat i) first 0
  end.

Definition shiftcode : Z -> Z :=
  table [] [(0x1D, CTL); (0x2A, SHIFT); (0x36, SHIFT); (0x38, ALT); (0x9D, CTL); (0xB8, ALT)].

Definition togglecode : Z -> Z :=
  table [] [(0x3A, CAPSLOCK); (0x45, NUMLOCK); (0x46, SCROLLLOCK)].

(** The keys behind the escape code 0xE0, the same in the three maps but for two;
    from the third on: up, down, page up, page down, left, right, home, end,
    insert and delete. *)
Definition extended (enter div : Z) : list (Z * Z) :=
  [(0x9C, enter); (0xB5, div);
   (0xC8, 0xE2); (0xD0, 0xE3);
   (0xC9, 0xE6); (0xD1, 0xE7);
   (0xCB, 0xE4); (0xCD, 0xE5);
   (0x97, 0xE0); (0xCF, 0xE1);
   (0xD2, 0xE8); (0xD3, 0xE9)].

Definition normalmap : Z -> Z :=
  table
   ([NO; 0x1B] ++ text "123456" ++
    text "7890-=" ++ [8; 9] ++
    text "qwertyui" ++
    text "op[]" ++ [10; NO] ++ text "as" ++
    text "dfghjkl;" ++
    text "'`" ++ [NO] ++ text "\zxcv" ++
    text "bnm,./" ++ [NO] ++ text "*" ++
    [NO] ++ text " " ++ [NO; NO; NO; NO; NO; NO] ++
    [NO; NO; NO; NO; NO; NO; NO] ++ text "7" ++
    text "89-456+1" ++
    text "230." ++ [NO; NO; NO; NO])
   (extended 10 47).

Definition shiftmap : Z -> Z :=
  table
   ([NO; 27] ++ text "!@#$%^" ++
    text "&*()_+" ++ [8; 9] ++
    text "QWERTYUI" ++
    text "OP{}" ++ [10; NO] ++ text "AS" ++
    text "DFGHJKL:" ++
    [34] ++ text "~" ++ [NO] ++ text "|ZXCV" ++
    text "BNM<>?" ++ [NO] ++ text "*" ++
    [NO] ++ text " " ++ [NO; NO; NO; NO; NO; NO] ++
    [NO; NO; NO; NO; NO; NO; NO] ++ text "7" ++
    text "89-456+1" ++
    text "230." ++ [NO; NO; NO; NO])
   (extended 10 47).

Definition ctlmap : Z -> Z :=
  table
   ([NO; NO; NO; NO; NO; NO; NO; NO;
     NO; NO; NO; NO; NO; NO; NO; NO] ++
    map CTRL (text "QWERTYUI") ++
    map CTRL (text "OP") ++ [NO; NO; 13; NO] ++ map CTRL (text "AS") ++
    map CTRL (text "DFGHJKL") ++ [NO] ++
    [NO; NO; NO] ++ map CTRL (text "\ZXCV") ++
    map CTRL (text "BNM") ++ [NO; NO; u8 (CTRL 47); NO; NO])
   (extended 13 (u8 (CTRL 47))).

(** [charcode[i]]. *)
Definition charcode (i : Z) : Z -> Z :=
  if i =? 0 then normalmap else if i =? 1 then shiftmap else ctlmap.

(** What [kbdgetc] does with the byte [data] of the controller: the character it
    returns and the new [shift]. *)
Definition kbd_byte (shift data : Z) : Z * Z :=
  if data =? 0xE0 then (0, Z.lor shift E0ESC)
  else if nz (Z.land data 0x80) then
    let data := if nz (Z.land shift E0ESC) then data else Z.land data 0x7F in
    (0, Z.land shift (u32 (Z.lnot (Z.lor (shiftcode data) E0ESC))))
  else
    let '(data, shift) :=
      if nz (Z.land shift E0ESC) then (Z.lor data 0x80, Z.land shift (u32 (Z.lnot E0ESC)))
      else (data, shift) in
    let shift := Z.lor shift (shiftcode data) in
    let shift := Z.lxor shift (togglecode data) in
    let c := charcode (Z.land shift (Z.lor CTL SHIFT)) data in
    let c := if nz (Z.land shift CAPSLOCK) then
               if (97 <=? c) && (c <=? 122) then c + (65 - 97)
               else if (65 <=? c) && (c <=? 90) then c + (97 - 65)
               else c
             else c in
    (c, shift).

Definition kbdgetc : CM Z :=
  s <- get ;;
  let st := match kbd_in s with [] => 0 | _ => KBS_DIB end in
  if Z.land st KBS_DIB =? 0 then ret (-1) else
  match kbd_in s with
  | [] => ret (-1)
  | data :: more =>
      let '(c, sh) := kbd_byte (shift s) (u8 data) in
      modify (set_kbd more sh) ;;
      ret c
  end.

(** Each call of [kbdgetc] takes one scan code. *)
Definition kbd_turns (s : cons) : nat := S (length (kbd_in s)).
Definition kbdintr (procdump : CM unit) : CM unit :=
  s <- get ;; consoleintr procdump kbdgetc (kbd_turns s).

(** ** The keyboard delivers the characters its scan codes stand for *)

Fixpoint decode (sh : Z) (codes : list Z) : list Z :=
  match codes with
  | [] => []
  | d :: ds => let '(c, sh) := kbd_byte sh (u8 d) in c :: decode sh ds
  end.

Definition all_codes : list Z := map Z.of_nat (seq 0 256).

Lemma tables_nonneg :
  forallb (fun d => (0 <=? normalmap d) && (0 <=? shiftmap d) && (0 <=? ctlmap d)
                    && (normalmap d <? 256) && (shiftmap d <? 256) && (ctlmap d <? 256)) all_codes = true.
Proof. vm_compute. reflexivity. Qed.

Lemma charcode_range i d : 0 <= d < 256 -> 0 <= charcode i d < 256.
Proof.
  intros H. pose proof tables_nonneg as Ht. rewrite forallb_forall in Ht.
  specialize (Ht d). rewrite !andb_true_iff, !Z.leb_le, !Z.ltb_lt in Ht. destruct Ht as [((((H1 & H2) & H3) & H4) & H5) H6].
  { unfold all_codes. apply in_map_iff. exists (Z.to_nat d). split; [lia|]. apply in_seq. lia. }
  unfold charcode. zcases; lia.
Qed.

Lemma kbd_byte_range sh d : 0 <= d < 256 -> 0 <= (kbd_byte sh d).1 < 256.
Proof.
  intros H. unfold kbd_byte. destruct (d =? 224); [cbn; lia|]. destruct (nz (Z.land d 128)); [cbn; lia|].
  assert (0 <= Z.lor d 128 < 256).
  { assert (Z.lor d 128 = Z.lor d 128 mod 2 ^ 8) as E; [|rewrite E; apply (Z.mod_pos_bound _ 256); lia].
    symmetry. apply Z.bits_inj'. intros n Hn. rewrite testbit_mod_pow2 by lia.
    destruct (Z.ltb_spec n 8); [done|]. cbn [andb]. symmetry. rewrite Z.lor_spec.
    replace 128 with (2 ^ 7) by done. rewrite Z.pow2_bits_false by lia. rewrite orb_false_r.
    rewrite <- (Z.mod_small d (2 ^ 8)) by lia. apply Z.mod_pow2_bits_high. lia. }
  destruct (nz (Z.land sh E0ESC)); cbn [fst];
    match goal with |- context [charcode ?i ?x] => pose proof (charcode_range i x ltac:(lia)) end;
    repeat case_match; rewrite ?andb_true_iff, ?Z.leb_le in *; lia.
Qed.

#[export] Instance kbd_source : key_source kbdgetc (fun _ => True) (fun s => decode (shift s) (kbd_in s)).
Proof.
  split.
  - unfold dev. intros s s' E. injection E as _ _ _ -> ->. done.
  - intros s c l _ Hp. unfold kbdgetc. mrun. destruct (kbd_in s) as [|d ds]; [done|]. cbn [decode] in Hp.
    pose proof (kbd_byte_range (shift s) (u8 d) (u8_range d)) as Hr.
    destruct (kbd_byte (shift s) (u8 d)) as [c' sh]. injection Hp as <- <-. cbn in Hr. split; [lia|].
    eexists. split; [done|]. done.
  - intros s _ Hp. unfold kbdgetc. mrun. destruct (kbd_in s) as [|d ds].
    + exists (-1), s. split; [lia|]. done.
    + cbn [decode] in Hp. by destruct (kbd_byte _ _).
Qed.
