(* ===== verification/Ide.v ===== *)
(** The IDE disk driver, [src/ide.c], over the buffers of [Bio].

    The controller behind the ports is part of the state: the registers the
    driver writes, the command in progress, the data of the last read, and the
    drives (drive 1 holds the file system: it is the disk of [Bio.bcache]).
    [ata_finish] is what the controller does on its own: it completes the command
    in progress, after which it raises the interrupt that runs [ideintr].

    A process that waits in [iderw] sleeps on its buffer; [iderw_resume] is the
    rest of [iderw] once it has been woken. *)

From Stdlib Require Import ZArith Lia FunctionalExtensionality.
From stdpp Require Import base list strings.
From S2P Require Import Prelude Bytes Blk Sleeplock Bio.
Local Open Scope Z_scope.

Definition SECTOR_SIZE : Z := 512.
Definition IDE_BSY : Z := 0x80.
Definition IDE_DRDY : Z := 0x40.
Definition IDE_DF : Z := 0x20.
Definition IDE_ERR : Z := 0x01.

Definition IDE_CMD_READ : Z := 0x20.
Definition IDE_CMD_WRITE : Z := 0x30.
Definition IDE_CMD_RDMUL : Z := 0xc4.
Definition IDE_CMD_WRMUL : Z := 0xc5.

Definition FSSIZE : Z := 1000.
Definition IRQ_IDE : Z := 14.

(** A command the controller has accepted. *)
Record command := mkCmd { c_write : bool; c_drive : Z; c_sector : Z; c_data : block }.

Record ata := mkAta {
  regs : Z -> Z;
  inflight : option command;
  rdbuf : block;
  failed : bool;
  drive0 : blockmap;
  drive1_present : bool;
}.

Record ide := mkIde {
  bc : bcache;
  idelock : bool;
  qnext : nat -> option nat;
  idequeue : option nat;
  havedisk1 : bool;
  hw : ata;
  ide_irqs : list (Z * Z);
}.

Definition set_bc v s := mkIde v (idelock s) (qnext s) (idequeue s) (havedisk1 s) (hw s) (ide_irqs s).
Definition set_idelock v s := mkIde (bc s) v (qnext s) (idequeue s) (havedisk1 s) (hw s) (ide_irqs s).
Definition set_qnext v s := mkIde (bc s) (idelock s) v (idequeue s) (havedisk1 s) (hw s) (ide_irqs s).
Definition set_idequeue v s := mkIde (bc s) (idelock s) (qnext s) v (havedisk1 s) (hw s) (ide_irqs s).
Definition set_havedisk1 v s := mkIde (bc s) (idelock s) (qnext s) (idequeue s) v (hw s) (ide_irqs s).
Definition set_hw v s := mkIde (bc s) (idelock s) (qnext s) (idequeue s) (havedisk1 s) v (ide_irqs s).
Definition set_ide_irqs v s := mkIde (bc s) (idelock s) (qnext s) (idequeue s) (havedisk1 s) (hw s) v.

Abbreviation IM := (M ide).
Implicit Types s : ide.

Definition onbc {A} (m : M bcache A) : IM A := zoom bc set_bc m.
Definition acquire_ide : IM unit := acquire_flag idelock set_idelock.
Definition release_ide : IM unit := release_flag idelock set_idelock.

(** ** The controller *)

(** The status register: busy while a command is in progress. *)
Definition ata_status (a : ata) : Z :=
  match inflight a with
  | Some _ => IDE_BSY
  | None => Z.lor IDE_DRDY (if failed a then IDE_ERR else 0)
  end.

(** The sector number the registers hold, and the drive. *)
Definition ata_lba (r : Z -> Z) : Z :=
  Z.lor (r 0x1f3) (Z.lor (Z.shiftl (r 0x1f4) 8)
    (Z.lor (Z.shiftl (r 0x1f5) 16) (Z.shiftl (Z.land (r 0x1f6) 0x0f) 24))).
Definition ata_drive (r : Z -> Z) : Z := Z.land (Z.shiftr (r 0x1f6) 4) 1.

(** A write to a register; one to the command register starts the command. *)
Definition outb (port v : Z) : IM unit :=
  modify (fun s =>
    let a := hw s in
    let r := upd (regs a) port (u8 v) in
    set_hw (mkAta r
      (if port =? 0x1f7 then Some (mkCmd (u8 v =? IDE_CMD_WRITE) (ata_drive r) (ata_lba r) [])
       else inflight a)
      (rdbuf a) (failed a) (drive0 a) (drive1_present a)) s).

(** [outsl]: the data of a write command. *)
Definition outsl_data (x : block) : IM unit :=
  modify (fun s =>
    let a := hw s in
    set_hw (mkAta (regs a)
      (match inflight a with
       | Some c => Some (mkCmd (c_write c) (c_drive c) (c_sector c) x)
       | None => None
       end) (rdbuf a) (failed a) (drive0 a) (drive1_present a)) s).

(** The command in progress completes. *)
Definition ata_finish (fault : bool) : IM unit :=
  s <- get ;;
  let a := hw s in
  match inflight a with
  | None => ret tt
  | Some c =>
      let done rd d0 := mkAta (regs a) None rd fault d0 (drive1_present a) in
      if c_write c then
        if fault then modify (set_hw (done (rdbuf a) (drive0 a)))
        else if c_drive c =? 1 then
          modify (set_hw (done (rdbuf a) (drive0 a))) ;;
          onbc (modify (fun t => set_disk (bupd (bdisk t) (c_sector c) (c_data c))
                                          (bdwrites t ++ [(c_sector c, c_data c)]) t))
        else modify (set_hw (done (rdbuf a) (bupd (drive0 a) (c_sector c) (c_data c))))
      else
        modify (set_hw (done (if c_drive c =? 1 then bdisk (bc s) (c_sector c) else drive0 a (c_sector c))
                             (drive0 a)))
  end.

(** ** The driver *)

(** A busy controller keeps the processor in the loop. *)
Definition idewait (checkerr : bool) : IM Z :=
  r <- gets (fun s => ata_status (hw s)) ;;
  if negb (Z.land r (Z.lor IDE_BSY IDE_DRDY) =? IDE_DRDY) then spin else
  if checkerr && nz (Z.land r (Z.lor IDE_DF IDE_ERR)) then ret (-1) else ret 0.

(** The probe for drive 1: its status reads 0 when it is missing. *)
Fixpoint probe1 (n : nat) : IM unit :=
  match n with
  | O => ret tt
  | S k =>
      r <- gets (fun s => if drive1_present (hw s) then ata_status (hw s) else 0) ;;
      if negb (r =? 0) then modify (set_havedisk1 true) else probe1 k
  end.

Definition ideinit (ncpu : Z) : IM unit :=
  modify (set_idelock false) ;;
  modify (fun s => set_ide_irqs (ide_irqs s ++ [(IRQ_IDE, ncpu - 1)]) s) ;;
  idewait false ;;
  outb 0x1f6 (Z.lor 0xe0 (Z.shiftl 1 4)) ;;
  probe1 1000 ;;
  outb 0x1f6 (Z.lor 0xe0 (Z.shiftl 0 4)).

Definition idestart (o : option nat) : IM unit :=
  match o with
  | None => panic "idestart"
  | Some b =>
      x <- onbc (getb b) ;;
      if FSSIZE <=? blockno x then panic "incorrect blockno" else
      let sector_per_block := Z.of_nat BSIZE / SECTOR_SIZE in
      let sector := blockno x * sector_per_block in
      let read_cmd := if sector_per_block =? 1 then IDE_CMD_READ else IDE_CMD_RDMUL in
      let write_cmd := if sector_per_block =? 1 then IDE_CMD_WRITE else IDE_CMD_WRMUL in
      if 7 <? sector_per_block then panic "idestart" else
      idewait false ;;
      outb 0x3f6 0 ;;
      outb 0x1f2 sector_per_block ;;
      outb 0x1f3 (Z.land sector 0xff) ;;
      outb 0x1f4 (Z.land (Z.shiftr sector 8) 0xff) ;;
      outb 0x1f5 (Z.land (Z.shiftr sector 16) 0xff) ;;
      outb 0x1f6 (Z.lor 0xe0 (Z.lor (Z.shiftl (Z.land (bdev x) 1) 4)
                                    (Z.land (Z.shiftr sector 24) 0x0f))) ;;
      if negb (Z.land (flags x) B_DIRTY =? 0) then
        outb 0x1f7 write_cmd ;;
        outsl_data (bufdata x)
      else outb 0x1f7 read_cmd
  end.

(** Read data if needed. *)
Definition intr_read (b : nat) : IM unit :=
  x <- onbc (getb b) ;;
  if Z.land (flags x) B_DIRTY =? 0 then
    r <- idewait true ;;
    if 0 <=? r then
      d <- gets (fun s => rdbuf (hw s)) ;;
      onbc (updb b (set_bufdata d))
    else ret tt
  else ret tt.

Definition ideintr : IM unit :=
  acquire_ide ;;
  o <- gets idequeue ;;
  match o with
  | None => release_ide
  | Some b =>
      s <- get ;;
      modify (set_idequeue (qnext s b)) ;;
      intr_read b ;;
      onbc (updb b (fun x => set_flags (Z.lor (flags x) B_VALID) x)) ;;
      onbc (updb b (fun x => set_flags (Z.land (flags x) (Z.lnot B_DIRTY)) x)) ;;
      onbc (modify (fun t => set_bwoken (bwoken t ++ [CBuf b]) t)) ;;
      q <- gets idequeue ;;
      (match q with Some _ => idestart q | None => ret tt end) ;;
      release_ide
  end.

(** [*pp], where [pp] is the address of [idequeue] or of a [qnext] field. *)
Definition deref (pp : option nat) (s : ide) : option nat :=
  match pp with None => idequeue s | Some x => qnext s x end.
Definition assign (pp : option nat) (v : option nat) : IM unit :=
  modify (fun s => match pp with
                   | None => set_idequeue v s
                   | Some x => set_qnext (aupd (qnext s) x v) s
                   end).

(** The loop that finds the end of the queue.  The queue holds distinct buffers,
    so [NBUF + 1] tests are enough. *)
Fixpoint find_end (fuel : nat) (pp : option nat) : IM (option nat) :=
  match fuel with
  | O => spin
  | S k =>
      s <- get ;;
      match deref pp s with
      | None => ret pp
      | Some y => find_end k (Some y)
      end
  end.

(** The loop at the end of [iderw]: [sleep] gives up [idelock]. *)
Definition iderw_wait (b : nat) : IM unit :=
  x <- onbc (getb b) ;;
  if negb (Z.land (flags x) (Z.lor B_VALID B_DIRTY) =? B_VALID)
  then release_ide ;; block_on (CBuf b)
  else release_ide.

Definition ide_rw (b : nat) : IM unit :=
  h <- onbc (on_lock b holdingsleep) ;;
  if negb h then panic "iderw: buf not locked" else
  x <- onbc (getb b) ;;
  if Z.land (flags x) (Z.lor B_VALID B_DIRTY) =? B_VALID then panic "iderw: nothing to do" else
  s <- get ;;
  if negb (bdev x =? 0) && negb (havedisk1 s) then panic "iderw: ide disk 1 not present" else
  acquire_ide ;;
  modify (fun s => set_qnext (aupd (qnext s) b None) s) ;;
  pp <- find_end (S NBUF) None ;;
  assign pp (Some b) ;;
  s <- get ;;
  (if bool_decide (idequeue s = Some b) then idestart (Some b) else ret tt) ;;
  iderw_wait b.

Definition iderw_resume (b : nat) : IM unit := acquire_ide ;; iderw_wait b.

(** ** Starting a request *)

Definition is_dirty (x : buf) : bool := negb (Z.land (flags x) B_DIRTY =? 0).

(** The command for a buffer of drive 1. *)
Definition cmd_of (x : buf) : command :=
  mkCmd (is_dirty x) 1 (blockno x) (if is_dirty x then bufdata x else []).

(** The registers as [idestart] leaves them for block [n] of drive 1. *)
Definition started (r : Z -> Z) (n : Z) : Z -> Z :=
  upd (upd (upd (upd (upd (upd r 0x3f6 (u8 0)) 0x1f2 (u8 1)) 0x1f3 (u8 (Z.land n 0xff)))
    0x1f4 (u8 (Z.land (Z.shiftr n 8) 0xff))) 0x1f5 (u8 (Z.land (Z.shiftr n 16) 0xff)))
    0x1f6 (u8 (Z.lor 0xe0 (Z.lor (Z.shiftl 1 4) (Z.land (Z.shiftr n 24) 0x0f)))).

Lemma started_lba_all :
  forallb (fun n => (ata_lba (upd (started (fun _ => 0) n) 0x1f7 0) =? n)
                    && (ata_drive (upd (started (fun _ => 0) n) 0x1f7 0) =? 1))
    (map Z.of_nat (seq 0 1000)) = true.
Proof. vm_compute. reflexivity. Qed.

Lemma started_lba r n v :
  0 <= n < FSSIZE ->
  ata_lba (upd (started r n) 0x1f7 v) = n /\ ata_drive (upd (started r n) 0x1f7 v) = 1.
Proof.
  intros H. pose proof started_lba_all as Ha. rewrite forallb_forall in Ha.
  specialize (Ha n). rewrite andb_true_iff, !Z.eqb_eq in Ha. apply Ha.
  apply in_map_iff. exists (Z.to_nat n). unfold FSSIZE in H. split; [lia|]. apply in_seq. lia.
Qed.

Definition with_hw (r : Z -> Z) (c : option command) (s : ide) : ide :=
  set_hw (mkAta r c (rdbuf (hw s)) (failed (hw s)) (drive0 (hw s)) (drive1_present (hw s))) s.

Lemma outb_reg port v r c s :
  port <> 0x1f7 -> outb port v (with_hw r c s) = (Ok tt, with_hw (upd r port (u8 v)) c s).
Proof. intros H. unfold outb, modify, with_hw. cbn. by rewrite (proj2 (Z.eqb_neq _ _) H). Qed.

Lemma outb_cmd v r c s :
  outb 0x1f7 v (with_hw r c s)
  = (Ok tt, let r' := upd r 0x1f7 (u8 v) in
            with_hw r' (Some (mkCmd (u8 v =? IDE_CMD_WRITE) (ata_drive r') (ata_lba r') [])) s).
Proof. done. Qed.

Lemma outsl_run x r c s :
  outsl_data x (with_hw r (Some c) s) = (Ok tt, with_hw r (Some (mkCmd (c_write c) (c_drive c) (c_sector c) x)) s).
Proof. done. Qed.

Lemma idestart_run b s :
  inflight (hw s) = None -> bdev (barr (bc s) b) = ROOTDEV -> 0 <= blockno (barr (bc s) b) < FSSIZE ->
  exists r, idestart (Some b) s = (Ok tt, with_hw r (Some (cmd_of (barr (bc s) b))) s).
Proof.
  intros Hi Hd Hn. set (x := barr (bc s) b) in *.
  pose proof (started_lba (regs (hw s)) (blockno x) 0x30 Hn) as [E1 E2].
  pose proof (started_lba (regs (hw s)) (blockno x) 0x20 Hn) as [E3 E4].
  assert (s = with_hw (regs (hw s)) None s) as Es by (destruct s as [? ? ? ? ? []]; cbn in *; by subst).
  unfold idestart, onbc, getb. rewrite (bind_ok _ _ s s x) by (by destruct s).
  rewrite (proj2 (Z.leb_gt _ _)) by lia. change (Z.of_nat BSIZE / SECTOR_SIZE) with 1.
  change (7 <? 1) with false. change (1 =? 1) with true. cbv iota zeta. rewrite Z.mul_1_r, Hd.
  rewrite (bind_ok (idewait false) _ s s 0).
  2: { unfold idewait. mrun. unfold ata_status. rewrite Hi. by destruct (failed (hw s)). }
  change (Z.land ROOTDEV 1) with 1. fold (is_dirty x).
  match goal with |- context [bind ?m ?k s] => replace (bind m k s) with (bind m k (with_hw (regs (hw s)) None s)) by (by rewrite <- Es) end.
  do 6 (erewrite bind_ok by (apply outb_reg; discriminate)).
  fold (started (regs (hw s)) (blockno x)). unfold cmd_of. destruct (is_dirty x).
  - rewrite (bind_ok _ _ _ _ _ (outb_cmd _ _ _ _)). cbv zeta. rewrite outsl_run. cbn [c_write c_drive c_sector].
    change (u8 IDE_CMD_WRITE) with 0x30. rewrite E1, E2. by eexists.
  - rewrite outb_cmd. cbv zeta. change (u8 IDE_CMD_READ) with 0x20. rewrite E3, E4. by eexists.
Qed.

(** ** The queue *)

(** [q] are the buffers from pointer [p] on, linked by [nx]. *)
Fixpoint qchain (nx : nat -> option nat) (p : option nat) (q : list nat) : Prop :=
  match q with
  | [] => p = None
  | b :: q' => p = Some b /\ qchain nx (nx b) q'
  end.

(** A buffer the driver has something to do for. *)
Definition request (t : bcache) (b : nat) : Prop :=
  bdev (barr t b) = ROOTDEV /\ 0 <= blockno (barr t b) < FSSIZE
  /\ Z.land (flags (barr t b)) (Z.lor B_VALID B_DIRTY) <> B_VALID.

(** The queue is [q], and the controller works on its first buffer. *)
Record Inv s (q : list nat) : Prop := {
  iv_lock : idelock s = false;
  iv_chain : qchain (qnext s) (idequeue s) q;
  iv_nodup : NoDup q;
  iv_req : Forall (request (bc s)) q;
  iv_len : (length q <= NBUF)%nat;
  iv_cmd : inflight (hw s) = match q with [] => None | b :: _ => Some (cmd_of (barr (bc s) b)) end;
  iv_disk : havedisk1 s = true;
}.

Lemma qchain_ext nx nx' p q : (forall b, b ∈ q -> nx' b = nx b) -> qchain nx p q -> qchain nx' p q.
Proof.
  revert p. induction q as [|b q IH]; intros p H Hq; [done|]. destruct Hq as [-> Hq]. split; [done|].
  rewrite H by left. apply IH; [|done]. intros c Hc. apply H. by right.
Qed.

(** The pointer the walk ends at. *)
Fixpoint end_of (pp : option nat) (q : list nat) : option nat :=
  match q with
  | [] => pp
  | b :: q' => end_of (Some b) q'
  end.

Lemma find_end_run q pp s fuel :
  qchain (qnext s) (deref pp s) q -> (length q < fuel)%nat -> find_end fuel pp s = (Ok (end_of pp q), s).
Proof.
  revert pp fuel. induction q as [|b q IH]; intros pp fuel Hq Hf; (destruct fuel as [|k]; [cbn in Hf; lia|]);
    cbn [find_end]; rewrite (bind_ok get _ s s s eq_refl).
  - cbn in Hq. by rewrite Hq.
  - destruct Hq as [-> Hq]. apply IH; [done|]. cbn in Hf. lia.
Qed.

Lemma end_of_elem b q : exists c, end_of (Some b) q = Some c /\ c ∈ b :: q.
Proof.
  revert b. induction q as [|d q IH]; intros b; [exists b; split; [done|left]|].
  destruct (IH d) as (c & E & H). exists c. split; [exact E|by right].
Qed.

(** What [assign] does to the pointers. *)
Definition assigned (pp v : option nat) s : ide :=
  match pp with None => set_idequeue v s | Some x => set_qnext (aupd (qnext s) x v) s end.

Lemma assigned_chain q pp b s :
  qchain (qnext s) (deref pp s) q -> NoDup q -> (forall x, pp = Some x -> x ∉ b :: q) -> b ∉ q ->
  qnext s b = None ->
  let s' := assigned (end_of pp q) (Some b) s in
  qchain (qnext s') (deref pp s') (q ++ [b]).
Proof.
  revert pp. induction q as [|c q IH]; intros pp Hq Hd Hpp Hb Hn.
  - cbn. destruct pp as [x|]; cbn; [|done]. rewrite aupd_eq. split; [done|].
    rewrite aupd_ne; [done|]. intros ->. by apply (Hpp x eq_refl); left.
  - destruct Hq as [Hp Hq]. apply NoDup_cons in Hd as [Hc Hd]. apply not_elem_of_cons in Hb as [Hbc Hb].
    specialize (IH (Some c) Hq Hd). cbn [end_of]. cbv zeta in *.
    destruct (end_of_elem c q) as (y & Ey & Hy). rewrite Ey in *. cbn [app qchain]. split.
    + destruct pp as [x|]; cbn in *; [|done]. rewrite aupd_ne; [done|]. intros ->.
      apply (Hpp y eq_refl). by right.
    + apply IH; [|done|done]. intros x [= <-]. apply not_elem_of_cons. by split.
Qed.

(** A buffer that is not in the queue leaves room for itself. *)
Lemma room q b :
  Forall (fun b => (b < NBUF)%nat) q -> NoDup q -> b ∉ q -> (b < NBUF)%nat -> (length q < NBUF)%nat.
Proof.
  intros Hq Hd Hb Hn. enough (length (b :: q) <= length (seq 0 NBUF))%nat by (rewrite length_seq in *; cbn in *; lia).
  apply NoDup_incl_length; [by apply NoDup_ListNoDup, NoDup_cons|].
  intros c Hc%list_elem_of_In. apply in_seq. apply elem_of_cons in Hc as [->|Hc]; [lia|].
  rewrite Forall_forall in Hq. specialize (Hq c Hc). lia.
Qed.

(** [iderw] queues the buffer, starts the controller when it is idle, and sleeps. *)
Lemma ide_rw_run b s q :
  Inv s q -> b ∉ q -> (length q < NBUF)%nat -> request (bc s) b -> held_by (bcur (bc s)) (barr (bc s) b) ->
  exists s', ide_rw b s = (Sleep (CBuf b), s') /\ Inv s' (q ++ [b]) /\ bc s' = bc s.
Proof.
  intros [Hl Hc Hd Hr Hlen Hi Hh] Hb Hroom Hq Hheld. destruct Hq as (Hdev & Hbno & Hflags). unfold ide_rw.
  rewrite (bind_ok _ _ s s true) by (unfold onbc, zoom; rewrite holdingsleep_held by done; by destruct s).
  cbn [negb]. rewrite (bind_ok _ _ s s (barr (bc s) b)) by (by destruct s).
  rewrite (proj2 (Z.eqb_neq _ _) Hflags), (bind_ok get _ s s s eq_refl), Hh. cbn [negb]. rewrite andb_false_r.
  rewrite (bind_ok acquire_ide _ _ _ _ (acquire_flag_run _ _ _ Hl)).
  set (s1 := set_qnext (aupd (qnext s) b None) (set_idelock true s)).
  rewrite (bind_ok _ _ _ s1 tt) by done.
  assert (qchain (qnext s1) (deref None s1) q) as Hc1.
  { cbn. eapply qchain_ext; [|exact Hc]. intros c Hcq. apply aupd_ne. by intros ->. }
  rewrite (bind_ok _ _ _ _ _ (find_end_run q None s1 (S NBUF) Hc1 ltac:(lia))).
  set (s2 := assigned (end_of None q) (Some b) s1).
  rewrite (bind_ok (assign _ _) _ s1 s2 tt) by (unfold assign, s2, assigned; by destruct (end_of None q)).
  pose proof (assigned_chain q None b s1 Hc1 Hd ltac:(done) Hb ltac:(cbn; apply aupd_eq)) as Hc2.
  fold s2 in Hc2. cbv zeta in Hc2. cbn [deref] in Hc2.
  assert (idelock s2 = true /\ bc s2 = bc s /\ hw s2 = hw s /\ havedisk1 s2 = havedisk1 s) as (L2 & B2 & W2 & V2)
    by (unfold s2, assigned; by destruct (end_of None q)).
  rewrite (bind_ok get _ s2 s2 s2 eq_refl).
  assert (exists r, (if bool_decide (idequeue s2 = Some b) then idestart (Some b) else ret tt) s2
     = (Ok tt, with_hw r (match q with [] => Some (cmd_of (barr (bc s) b)) | c :: _ => Some (cmd_of (barr (bc s) c)) end) s2))
    as (r & E).
  { destruct q as [|c q].
    - rewrite bool_decide_eq_true_2 by apply Hc2. rewrite <- B2. apply idestart_run; [by rewrite W2|by rewrite B2..].
    - exists (regs (hw s)). rewrite bool_decide_eq_false_2.
      + unfold ret, with_hw. rewrite W2. rewrite <- Hi. destruct s2; cbn in *; subst. by destruct (hw s).
      + destruct Hc2 as [-> _]. intros [= ->]. apply Hb. left. }
  rewrite (bind_ok _ _ _ _ _ E). set (s3 := with_hw _ _ s2) in *. unfold iderw_wait.
  rewrite (bind_ok _ _ s3 s3 (barr (bc s) b)) by (unfold onbc, getb, s3, with_hw; mrun; cbn; rewrite <- B2; by destruct s2).
  rewrite (proj2 (Z.eqb_neq _ _) Hflags). cbn [negb].
  rewrite (bind_ok release_ide _ _ _ _ (release_flag_run idelock set_idelock s3 L2)).
  exists (set_idelock false s3). split; [done|]. split; [|exact B2].
  constructor; cbn; [done|exact Hc2| | |rewrite length_app; cbn; lia| |congruence].
  - apply NoDup_app. split; [done|]. split; [|apply NoDup_singleton]. intros c Hcq ->%list_elem_of_singleton. done.
  - rewrite B2. apply Forall_app. split; [done|]. by apply Forall_singleton.
  - rewrite B2. by destruct q.
Qed.

(** ** The interrupt *)

Lemma flags_done f : Z.land (Z.lor f B_VALID) (Z.lnot B_DIRTY) = Z.lor (Z.land f (Z.lnot B_DIRTY)) B_VALID.
Proof.
  unfold B_VALID, B_DIRTY. apply Z.bits_inj'. intros n Hn.
  rewrite !Z.land_spec, !Z.lor_spec, Z.land_spec, Z.lnot_spec by lia.
  change 2 with (2 ^ 1). change 4 with (2 ^ 2). rewrite !Z.pow2_bits_eqb by lia.
  destruct (Z.eqb_spec 1 n), (Z.eqb_spec 2 n), (Z.testbit f n); cbn; try lia; done.
Qed.

Lemma flags_clean f : Z.land f B_DIRTY = 0 -> Z.land f (Z.lnot B_DIRTY) = f.
Proof.
  intros H. apply Z.bits_inj'. intros n Hn. rewrite Z.land_spec, Z.lnot_spec by lia.
  apply (f_equal (fun z => Z.testbit z n)) in H. rewrite Z.land_spec, Z.bits_0 in H.
  by destruct (Z.testbit f n), (Z.testbit B_DIRTY n).
Qed.

(** The buffer and the sleeper once the data is there. *)
Definition completed (b : nat) (t : bcache) : bcache :=
  let x := barr t b in
  set_bwoken (bwoken t ++ [CBuf b])
    (set_barr (aupd (barr t) b (set_flags (Z.lor (Z.land (flags x) (Z.lnot B_DIRTY)) B_VALID) x)) t).

(** The buffers after request [b] has been served: the reference behaviour of the
    driver, and the wakeup.  When the drive reports a fault nothing is read or
    written, but the buffer is marked valid and clean all the same. *)
Definition served1 (fault : bool) (t : bcache) (b : nat) : bcache :=
  if fault then completed b t else set_bwoken (bwoken t ++ [CBuf b]) (sync b t).

Lemma served1_other fault t b c : c <> b -> barr (served1 fault t b) c = barr t c.
Proof. intros H. unfold served1, sync, completed. destruct fault; [|destruct (negb _)]; cbn; by rewrite aupd_ne. Qed.

Lemma served1_valid fault t b :
  Z.land (flags (barr (served1 fault t b) b)) (Z.lor B_VALID B_DIRTY) = B_VALID.
Proof.
  set (f := flags (barr t b)).
  assert (Z.land (Z.lor (Z.land f (Z.lnot B_DIRTY)) B_VALID) (Z.lor B_VALID B_DIRTY) = B_VALID) as H.
  { rewrite <- flags_done. unfold B_VALID, B_DIRTY. apply Z.bits_inj'. intros n Hn.
    rewrite !Z.land_spec, !Z.lor_spec, Z.lnot_spec by lia.
    change 2 with (2 ^ 1). change 4 with (2 ^ 2). rewrite !Z.pow2_bits_eqb by lia.
    destruct (Z.eqb_spec 1 n), (Z.eqb_spec 2 n), (Z.testbit f n); cbn; try lia; done. }
  unfold served1, sync, completed. fold f. destruct fault; [cbn; by rewrite aupd_eq|].
  destruct (Z.eqb_spec (Z.land f B_DIRTY) 0) as [E|]; cbn [negb].
  - cbn. rewrite aupd_eq. cbn [flags set_flags]. by rewrite <- (flags_clean f E).
  - cbn. by rewrite aupd_eq.
Qed.

Lemma idewait_idle s :
  inflight (hw s) = None -> idewait true s = (Ok (if failed (hw s) then -1 else 0), s).
Proof. intros Hi. unfold idewait. mrun. unfold ata_status. rewrite Hi. by destruct (failed (hw s)). Qed.

Lemma intr_read_dirty b s : is_dirty (barr (bc s) b) = true -> intr_read b s = (Ok tt, s).
Proof.
  intros H. unfold intr_read. rewrite (bind_ok _ _ s s (barr (bc s) b)) by (by destruct s).
  apply negb_true_iff in H. by rewrite H.
Qed.

Lemma intr_read_clean b s :
  is_dirty (barr (bc s) b) = false -> inflight (hw s) = None ->
  intr_read b s = (Ok tt, if failed (hw s) then s else
    set_bc (set_barr (aupd (barr (bc s)) b (set_bufdata (rdbuf (hw s)) (barr (bc s) b))) (bc s)) s).
Proof.
  intros H Hi. unfold intr_read. rewrite (bind_ok _ _ s s (barr (bc s) b)) by (by destruct s).
  apply negb_false_iff in H. rewrite H, (bind_ok _ _ _ _ _ (idewait_idle s Hi)).
  destruct (failed (hw s)); [done|].
  change (0 <=? 0) with true. cbv iota. by rewrite (bind_ok _ _ s s (rdbuf (hw s))) by done.
Qed.

Lemma ideintr_eq b s s1 :
  idelock s = false -> idequeue s = Some b ->
  intr_read b (set_idequeue (qnext s b) (set_idelock true s)) = (Ok tt, s1) ->
  ideintr s = (q <- gets idequeue ;; (match q with Some _ => idestart q | None => ret tt end) ;; release_ide)%kernel
                (set_bc (completed b (bc s1)) s1).
Proof.
  intros Hl Hq E. unfold ideintr. rewrite (bind_ok acquire_ide _ _ _ _ (acquire_flag_run _ _ _ Hl)).
  rewrite (bind_ok (gets idequeue) _ (set_idelock true s) (set_idelock true s) (Some b)) by (by rewrite <- Hq).
  rewrite (bind_ok get _ (set_idelock true s) (set_idelock true s) (set_idelock true s) eq_refl).
  rewrite (bind_ok _ _ _ (set_idequeue (qnext s b) (set_idelock true s)) tt) by done.
  rewrite (bind_ok _ _ _ _ _ E).
  set (y := barr (bc s1) b).
  rewrite (bind_ok _ _ s1 (set_bc (set_barr (aupd (barr (bc s1)) b (set_flags (Z.lor (flags y) B_VALID) y)) (bc s1)) s1) tt) by done.
  rewrite (bind_ok _ _ _ (set_bc (set_barr (aupd (barr (bc s1)) b
      (set_flags (Z.lor (Z.land (flags y) (Z.lnot B_DIRTY)) B_VALID) y)) (bc s1)) s1) tt).
  2: { unfold onbc, updb, zoom, modify, set_barr, set_bc. cbn. rewrite aupd_eq, aupd_aupd. cbn. by rewrite flags_done. }
  by rewrite (bind_ok _ _ _ (set_bc (completed b (bc s1)) s1) tt).
Qed.

(** The interrupt that ends the first request, up to starting the next one. *)
Lemma finish_intr_run fault b q s :
  Inv s (b :: q) ->
  exists s1 s2, ata_finish fault s = (Ok tt, s1)
    /\ ideintr s1 = (q <- gets idequeue ;; (match q with Some _ => idestart q | None => ret tt end) ;; release_ide)%kernel s2
    /\ bc s2 = served1 fault (bc s) b /\ idelock s2 = true /\ qnext s2 = qnext s /\ idequeue s2 = qnext s b
    /\ havedisk1 s2 = true /\ inflight (hw s2) = None.
Proof.
  intros [Hl [Hq Hc] Hd Hr Hlen Hi Hh]. set (x := barr (bc s) b) in *.
  unfold ata_finish. rewrite (bind_ok get _ s s s eq_refl), Hi. unfold cmd_of. cbn [c_write c_drive c_sector c_data].
  unfold served1, sync. fold x. fold (is_dirty x). change (1 =? 1) with true. cbv iota.
  destruct (is_dirty x) eqn:Hdirty; unfold is_dirty in Hdirty.
  - destruct fault; (eexists _, _; split; [done|]; split;
      [apply (ideintr_eq b); [exact Hl|exact Hq|by apply intr_read_dirty]|by repeat split]).
  - eexists _, _. split; [done|]. split.
    { apply (ideintr_eq b); [exact Hl|exact Hq|]. by apply intr_read_clean. }
    destruct fault; repeat split; try done. apply negb_false_iff, Z.eqb_eq in Hdirty.
    unfold completed, set_barr, set_bc, set_bwoken, set_hw. cbn. rewrite aupd_eq, aupd_aupd. cbn. fold x.
    unfold set_flags, set_bufdata. cbn. by rewrite flags_clean.
Qed.

(** The controller completes the first request of the queue and the interrupt runs:
    the buffer is in step with the disk, its sleeper is woken, the next one starts. *)
Lemma serve_run fault b q s :
  Inv s (b :: q) ->
  exists s', (ata_finish fault ;; ideintr)%kernel s = (Ok tt, s') /\ Inv s' q /\ bc s' = served1 fault (bc s) b.
Proof.
  intros HI. destruct (finish_intr_run fault b q s HI) as (s1 & s2 & E1 & E2 & B2 & L2 & N2 & Q2 & V2 & I2).
  destruct HI as [Hl [Hq Hc] Hd Hr Hlen Hi Hh]. cbn in Hlen.
  apply NoDup_cons in Hd as [Hbq Hd]. apply Forall_cons in Hr as [_ Hr].
  rewrite (bind_ok _ _ _ _ _ E1), E2, (bind_ok (gets idequeue) _ s2 s2 (qnext s b)) by (unfold gets; by rewrite Q2).
  assert (Forall (request (bc s2)) q) as Hr2.
  { rewrite B2. apply Forall_forall. intros c Hcq. pose proof (proj1 (Forall_forall _ _) Hr c Hcq) as H.
    unfold request in *. by rewrite served1_other by congruence. }
  destruct q as [|c q].
  - cbn in Hc. rewrite Hc. rewrite (bind_ok (ret tt) _ s2 s2 tt) by done.
    eexists. split; [apply release_flag_run; exact L2|]. split; [|exact B2].
    constructor; cbn; first [done|congruence|lia|constructor].
  - destruct Hc as [Hc1 Hc]. rewrite Hc1. pose proof Hr2 as Hr3. apply Forall_cons in Hr2 as [Hrc Hr2].
    destruct Hrc as (R2 & R3 & R4).
    destruct (idestart_run c s2 I2 R2 R3) as (r & E). rewrite (bind_ok _ _ _ _ _ E).
    eexists. split; [apply release_flag_run; exact L2|]. split; [|exact B2].
    cbn in Hlen. constructor; cbn; try done; [|lia]. split; [congruence|]. by rewrite N2.
Qed.

(** ** Requests and interrupts in any order *)

Definition set_cur (p : Z) (s : ide) : ide :=
  set_bc (mkCache (bclock (bc s)) (barr (bc s)) p (bdisk (bc s)) (bdwrites (bc s)) (bwoken (bc s))) s.

(** Process [p] runs [m]. *)
Definition as_proc {A} (p : Z) (m : IM A) : IM A :=
  fun s => let '(r, s') := m (set_cur p s) in (r, set_cur (bcur (bc s)) s').

(** Process [p] calls [iderw] on buffer [b]; the controller completes what it is
    doing, if anything, with or without a fault, and interrupts; a buffer that is
    not in the queue becomes [x], by the code of [bio.c] and its callers. *)
Inductive event := Req (p : Z) (b : nat) | Irq (fault : bool) | Set_buf (b : nat) (x : buf).

Definition put_buf (b : nat) (x : buf) (t : bcache) : bcache := set_barr (aupd (barr t) b x) t.

Fixpoint ide_events (evs : list event) (s : ide) : option ide :=
  match evs with
  | [] => Some s
  | Req p b :: evs =>
      match as_proc p (ide_rw b) s with
      | (Sleep c, s') => if bool_decide (c = CBuf b) then ide_events evs s' else None
      | _ => None
      end
  | Irq fault :: evs =>
      match (ata_finish fault ;; ideintr)%kernel s with
      | (Ok _, s') => ide_events evs s'
      | _ => None
      end
  | Set_buf b x :: evs => ide_events evs (set_bc (put_buf b x (bc s)) s)
  end.

Definition requests (evs : list event) : list nat :=
  omap (fun e => match e with Req _ b => Some b | _ => None end) evs.

(** The reference: a queue served first in, first out.  [r_ready] are the buffers
    served and not used for anything else since. *)
Record fifo := mkFifo { r_bufs : bcache; r_queue : list nat; r_served : list nat; r_ready : list nat }.

Definition without (b : nat) (l : list nat) : list nat := filter (fun c => c <> b) l.

Definition fifo_step (e : event) (f : fifo) : fifo :=
  match e with
  | Req _ b => mkFifo (r_bufs f) (r_queue f ++ [b]) (r_served f) (without b (r_ready f))
  | Set_buf b x => mkFifo (put_buf b x (r_bufs f)) (r_queue f) (r_served f) (without b (r_ready f))
  | Irq fault =>
      match r_queue f with
      | [] => f
      | b :: q => mkFifo (served1 fault (r_bufs f) b) q (r_served f ++ [b]) (b :: r_ready f)
      end
  end.

(** What the callers keep to: a request is for a buffer of the cache that needs the
    disk, its sleep lock is held by the caller, and it is not in the queue (the one
    who queued it holds its lock and sleeps); nobody changes a buffer of the queue. *)
Definition fit (e : event) (f : fifo) : Prop :=
  match e with
  | Req p b => (b < NBUF)%nat /\ (b ∉ r_queue f) /\ request (r_bufs f) b /\ held_by p (barr (r_bufs f) b)
  | Set_buf b _ => b ∉ r_queue f
  | Irq _ => True
  end.

Fixpoint fits (evs : list event) (f : fifo) : Prop :=
  match evs with [] => True | e :: evs => fit e f /\ fits evs (fifo_step e f) end.

Definition fifo_run (evs : list event) (f : fifo) : fifo := fold_left (fun f e => fifo_step e f) evs f.

Lemma fifo_order evs f :
  r_served (fifo_run evs f) ++ r_queue (fifo_run evs f) = r_served f ++ r_queue f ++ requests evs.
Proof.
  revert f. induction evs as [|e evs IH]; intros f; cbn; [by rewrite app_nil_r|].
  etransitivity; [apply IH|]. destruct e as [p b|fault|b x]; cbn.
  - by rewrite <- app_assoc.
  - destruct (r_queue f) as [|b q] eqn:E; cbn; [by rewrite E|]. by rewrite <- app_assoc.
  - done.
Qed.

Lemma idle_intr_run fault s : Inv s [] -> (ata_finish fault ;; ideintr)%kernel s = (Ok tt, s).
Proof.
  intros [Hl Hc _ _ _ Hi _]. unfold ata_finish. unfold bind at 1 2, get. rewrite Hi. unfold ret.
  unfold ideintr. rewrite (bind_ok acquire_ide _ _ _ _ (acquire_flag_run _ _ _ Hl)).
  rewrite (bind_ok (gets idequeue) _ _ (set_idelock true s) None) by (unfold gets; cbn in *; by rewrite Hc).
  etransitivity; [by apply release_flag_run|]. destruct s; cbn in *. by subst.
Qed.

Lemma Inv_set_cur p s q : Inv s q -> Inv (set_cur p s) q.
Proof. intros []. by constructor. Qed.

Lemma Inv_put_buf b x s q : b ∉ q -> Inv s q -> Inv (set_bc (put_buf b x (bc s)) s) q.
Proof.
  intros Hb [Hl Hc Hd Hr Hlen Hi Hh].
  assert (Hsame : forall c, c ∈ q -> barr (put_buf b x (bc s)) c = barr (bc s) c).
  { intros c Hc'. apply aupd_ne. by intros ->. }
  constructor; try done.
  - apply Forall_forall. intros c Hc'. pose proof (proj1 (Forall_forall _ _) Hr c Hc') as H.
    unfold request in *. cbn [bc set_bc]. by rewrite (Hsame c Hc').
  - cbn [bc set_bc hw]. rewrite Hi. destruct q as [|c q]; [done|]. by rewrite (Hsame c) by left.
Qed.

Lemma resume_run b s :
  idelock s = false -> Z.land (flags (barr (bc s) b)) (Z.lor B_VALID B_DIRTY) = B_VALID ->
  iderw_resume b s = (Ok tt, s).
Proof.
  intros Hl Hf. unfold iderw_resume. rewrite (bind_ok acquire_ide _ _ _ _ (acquire_flag_run _ _ _ Hl)).
  unfold iderw_wait. rewrite (bind_ok _ _ _ (set_idelock true s) (barr (bc s) b)) by done.
  rewrite Hf, Z.eqb_refl. cbn [negb]. etransitivity; [by apply release_flag_run|]. destruct s; cbn in *. by subst.
Qed.

(** The driver's state stands for the reference queue. *)
Record refines (s : ide) (f : fifo) : Prop := {
  rf_inv : Inv s (r_queue f);
  rf_bound : Forall (fun b => (b < NBUF)%nat) (r_queue f);
  rf_bufs : bc s = r_bufs f;
  rf_ready : forall b, b ∈ r_ready f -> Z.land (flags (barr (bc s) b)) (Z.lor B_VALID B_DIRTY) = B_VALID;
}.

Lemma req_refines p b s f :
  refines s f -> fit (Req p b) f ->
  exists s', as_proc p (ide_rw b) s = (Sleep (CBuf b), s') /\ refines s' (fifo_step (Req p b) f).
Proof.
  intros [HI HN HB HR] (Hn & Hq & Hrq & Hheld). rewrite <- HB in Hrq, Hheld.
  destruct (ide_rw_run b (set_cur p s) (r_queue f) (Inv_set_cur p s _ HI) Hq (room _ b HN (iv_nodup _ _ HI) Hq Hn) Hrq Hheld) as (s1 & E1 & I1 & B1).
  exists (set_cur (bcur (bc s)) s1). unfold as_proc. rewrite E1. split; [done|].
  assert (bc (set_cur (bcur (bc s)) s1) = bc s) as B1' by (unfold set_cur; cbn; rewrite B1; cbn; by destruct (bc s)).
  constructor; [by apply Inv_set_cur|by apply Forall_app; split; [|apply Forall_singleton]|by rewrite B1'|]. rewrite B1'.
  intros c [_ Hc]%list_elem_of_filter. by apply HR.
Qed.

Lemma irq_refines fault s f :
  refines s f ->
  exists s', (ata_finish fault ;; ideintr)%kernel s = (Ok tt, s') /\ refines s' (fifo_step (Irq fault) f).
Proof.
  intros [HI HN HB HR]. cbn. destruct (r_queue f) as [|b q] eqn:E.
  - exists s. split; [by apply idle_intr_run|]. constructor; rewrite ?E; done.
  - destruct (serve_run fault b q s HI) as (s1 & E1 & I1 & B1). exists s1. split; [done|].
    constructor; [done|by apply Forall_cons in HN as [_ HN]|by rewrite B1, HB|]. cbn [r_ready]. intros c Hc. rewrite B1.
    destruct (decide (c = b)) as [->|Hne]; [apply served1_valid|]. rewrite served1_other by done.
    apply HR. by apply elem_of_cons in Hc as [?|?].
Qed.

Lemma set_buf_refines b x s f :
  refines s f -> fit (Set_buf b x) f ->
  refines (set_bc (put_buf b x (bc s)) s) (fifo_step (Set_buf b x) f).
Proof.
  intros [HI HN HB HR] Hq. constructor; [by apply Inv_put_buf|done|cbn; by rewrite HB|].
  intros c [Hne Hc]%list_elem_of_filter. cbn. rewrite aupd_ne by done. by apply HR.
Qed.

Lemma events_run evs : forall s f,
  refines s f -> fits evs f -> exists s', ide_events evs s = Some s' /\ refines s' (fifo_run evs f).
Proof.
  induction evs as [|e evs IH]; intros s f HR Hf; [by exists s|]. destruct Hf as [He Hf].
  destruct e as [p b|fault|b x]; cbn [ide_events].
  - destruct (req_refines p b s f HR He) as (s1 & -> & R1). rewrite bool_decide_eq_true_2 by done. by apply IH.
  - destruct (irq_refines fault s f HR) as (s1 & -> & R1). by apply IH.
  - apply IH; [by apply set_buf_refines|done].
Qed.

(** C32: The disk queue serves every request once, in the order the requests were
    made, however requests (also repeated ones for a buffer), interrupts, faults of
    the drive and changes of the buffers outside the queue interleave: no request
    panics, each caller sleeps on its buffer, and no interrupt panics; what was
    served and what waits are what a first-in first-out queue gives; the buffers
    and the disk are what reading or writing the requests one after the other
    gives, where a request that ends in a fault moves no data but is marked valid
    all the same; and every process whose request was served returns from
    [iderw]. *)
Theorem ide_serves_in_order evs s :
  Inv s [] -> fits evs (mkFifo (bc s) [] [] []) ->
  exists s', ide_events evs s = Some s'
    /\ let f := fifo_run evs (mkFifo (bc s) [] [] []) in
       r_served f ++ r_queue f = requests evs
       /\ Inv s' (r_queue f) /\ bc s' = r_bufs f
       /\ (forall b, b ∈ r_ready f -> iderw_resume b s' = (Ok tt, s')).
Proof.
  intros HI Hf. destruct (events_run evs s (mkFifo (bc s) [] [] [])) as (s' & E & [I' _ B' R']); [|done|].
  { constructor; [done|constructor|done|]. by intros b ?%not_elem_of_nil. }
  exists s'. split; [done|]. cbv zeta. split; [apply fifo_order|]. split; [done|]. split; [done|].
  intros b Hb. apply resume_run; [apply I'|by apply R'].
Qed.

(** ** The driver the buffer cache asks for

    One request to an idle controller, from the call to the return: the process
    sleeps, the controller interrupts, the process goes on. *)

Definition idle (t : bcache) : ide :=
  mkIde t false (fun _ => None) None true (mkAta (fun _ => 0) None [] false (fun _ => []) true) [].

Definition ide_rw_alone (b : nat) : M bcache unit :=
  fun t =>
    match ide_rw b (idle t) with
    | (Sleep _, s) => let '(r, s') := (ata_finish false ;; ideintr ;; iderw_resume b)%kernel s in (r, bc s')
    | (r, s) => (r, bc s)
    end.

Lemma idle_Inv t : Inv (idle t) [].
Proof. constructor; cbn; first [done|lia|constructor]. Qed.

(** [ide.c] keeps the contract of [Bio.Driver], as [memide.c] does: everything
    proved of the cache holds over this driver too. *)
#[export] Program Instance ide_driver : Driver := {
  iderw := ide_rw_alone;
  disksize := FSSIZE;
}.
Next Obligation.
  intros b t Hh Hf Hd Hn. exists (bwoken t ++ [CBuf b]).
  destruct (ide_rw_run b (idle t) [] (idle_Inv t)) as (s1 & E1 & I1 & B1);
    [apply not_elem_of_nil|cbn; unfold NBUF; lia|done|done|].
  destruct (serve_run false b [] s1 I1) as (s2 & E2 & I2 & B2). cbn [bc idle] in B1. rewrite B1 in B2.
  assert ((ata_finish false ;; ideintr ;; iderw_resume b)%kernel s1 = (Ok tt, s2)) as E3.
  { unfold bind in *. destruct (ata_finish false s1) as [[[]| | | |] s3]; try done. rewrite E2.
    apply resume_run; [apply I2|]. rewrite B2. apply served1_valid. }
  unfold ide_rw_alone. by rewrite E1, E3, B2.
Qed.

Module Example_run.
Definition buf0 (fl n pid : Z) (d : block) : buf :=
  mkBuf fl ROOTDEV n (mkSleeplock false true pid) 1 0 0 d.
(** Process 1 has written block 3 and process 2 wants to read it. *)
Definition two : bcache :=
  mkCache false (aupd (aupd (fun _ => buf0 0 0 0 []) 0 (buf0 B_DIRTY 3 1 [7])) 1 (buf0 0 3 2 []))
          1 (fun _ => [0]) [] [].
End Example_run.
Import Example_run.

(** The two requests; the second ends in a fault, and is made again. *)
Definition retry : list event :=
  [Req 1 0; Req 2 1; Irq false; Irq true; Irq false; Set_buf 1 (buf0 0 3 2 []); Req 2 1; Irq false].

Lemma ide_serves_in_order_witness :
  exists s', ide_events retry (idle two) = Some s'
    /\ r_served (fifo_run retry (mkFifo two [] [] [])) = [0; 1; 1]%nat
    /\ Inv s' [] /\ bc s' = r_bufs (fifo_run retry (mkFifo two [] [] []))
    /\ bufdata (barr (bc s') 1%nat) = [7]
    /\ iderw_resume 1 s' = (Ok tt, s').
Proof.
  destruct (ide_serves_in_order retry (idle two)) as (s' & E & H1 & H2 & H3 & H4).
  - apply idle_Inv.
  - cbn; repeat split;
      first [apply not_elem_of_nil | apply not_elem_of_cons; split; [done|apply not_elem_of_nil] | unfold NBUF; lia
            | vm_compute; congruence].
  - exists s'. split; [exact E|]. split; [reflexivity|]. split; [exact H2|]. split; [exact H3|].
    split; [rewrite H3; reflexivity|]. apply H4. left.
Defined.
