(* ===== verification/Usys.v ===== *)
(** User programs: the system calls they are made of ([src/usys.S], [src/user.h])
    and a semantics for programs that fork.

    A program is the tree of its system calls.  Its meaning is given by any
    system: what each call does to the process's own state (copied by [fork]) and
    to the state all processes share, the pid of a new process, and what becomes of
    the shared state when [exec] succeeds.  A child is run to its end before its
    parent goes on. *)

From Stdlib Require Import ZArith Lia.
From stdpp Require Import base list strings.
From S2P Require Import Prelude Ulib.
Local Open Scope Z_scope.

(** [struct stat]. *)
Record ustat := mkUstat { st_type : Z; st_dev : Z; st_ino : Z; st_nlink : Z; st_size : Z }.

(** The calls that return once, by the type of what they give back; a call that
    fills a buffer gives its contents with the result. *)
Inductive call : Type -> Type :=
| Wait : call Z
| Pipe : call (Z * (Z * Z))
| Read (fd n : Z) : call (Z * list Z)
| Write (fd : Z) (b : list Z) : call Z
| Close (fd : Z) : call Z
| Kill (pid : Z) : call Z
| Open (path : list Z) (mode : Z) : call Z
| Mknod (path : list Z) (major minor : Z) : call Z
| Unlink (path : list Z) : call Z
| Fstat (fd : Z) : call (Z * ustat)
| Link (old new : list Z) : call Z
| Mkdir (path : list Z) : call Z
| Chdir (path : list Z) : call Z
| Dup (fd : Z) : call Z
| Getpid : call Z
| Sbrk (n : Z) : call Z
| Sleep_ticks (n : Z) : call Z
| Uptime : call Z
| Count_num_of_digits (ebx : Z) : call Z
| Get_parent_id : call Z
| Get_children (pid : Z) : call Z
| Set_path (path : list Z) : call unit
| Set_sleep (n : Z) : call unit
| Get_time : call Z
| Change_process_level (pid level : Z) : call unit
| Set_process_ticket (pid ticket : Z) : call unit
| Set_process_remaining_priority (pid priority : Z) : call unit
| Print_processes_info : call unit
| Barrier_init (n : Z) : call unit
| Barrier_wait : call unit
| Reentrant_spinlock_test : call unit
(** What the test programs do with addresses and ports of their own choice: a load, a
    store, the calls [read], [link] and [sleep] with such a buffer, path or stack, and
    the two port instructions. *)
| Load (a : Z) : call Z
| Store (a v : Z) : call unit
| Read_at (fd a n : Z) : call Z
| Link_at (old : list Z) (a : Z) : call Z
| Sleep_at (esp : Z) : call Z
| Inb (port : Z) : call Z
| Outb (port v : Z) : call unit.

Inductive prog (A : Type) : Type :=
| Return (a : A)
| Exit
| Undefined (m : string)
| Fork (k : Z -> prog A)
| Exec (path : list Z) (argv : list (list Z)) (k : Z -> prog A)
| Call {X : Type} (c : call X) (k : X -> prog A).
Arguments Return {A} a.
Arguments Exit {A}.
Arguments Undefined {A} m.
Arguments Fork {A} k.
Arguments Exec {A} path argv k.
Arguments Call {A X} c k.

Fixpoint andthen {A B} (p : prog A) (k : A -> prog B) : prog B :=
  match p with
  | Return a => k a
  | Exit => Exit
  | Undefined m => Undefined m
  | Fork f => Fork (fun pid => andthen (f pid) k)
  | Exec path argv f => Exec path argv (fun r => andthen (f r) k)
  | Call c f => Call c (fun x => andthen (f x) k)
  end.

Declare Scope prog_scope.
Delimit Scope prog_scope with prog.
Notation "x <- m ;; k" := (andthen m (fun x => k))
  (at level 100, m at next level, k at level 200, right associativity) : prog_scope.
Notation "m ;; k" := (andthen m (fun _ => k))
  (at level 100, k at level 200, right associativity) : prog_scope.
Bind Scope prog_scope with prog.

Definition sys {X} (c : call X) : prog X := Call c Return.
Definition fork : prog Z := Fork Return.
Definition exec (path : list Z) (argv : list (list Z)) : prog Z := Exec path argv Return.

(** ** The library routines that make system calls *)

Section Library.
Local Open Scope prog_scope.

(** [putc] of each byte: one [write] of one byte. *)
Fixpoint puts (fd : Z) (b : list Z) : prog unit :=
  match b with
  | [] => Return tt
  | c :: b' => sys (Write fd [c]) ;; puts fd b'
  end.

(** The arguments of [printf]: a number, or a pointer to a string. *)
Inductive parg := D (z : Z) | S_ (s : list Z).

(** Their words: the pointer to the [i]-th argument is [i + 1]. *)
Definition pwords (args : list parg) : list Z :=
  imap (fun i a => match a with D z => z | S_ _ => Z.of_nat i + 1 end) args.
Definition pstr (args : list parg) (a : Z) : list Z :=
  match args !! Z.to_nat (a - 1) with Some (S_ s) => s | _ => [] end.

Definition printf (fd : Z) (fmt : list Z) (args : list parg) : prog unit :=
  match Ulib.printf (pstr args) fmt (pwords args) with
  | Some b => puts fd b
  | None => Undefined "argument of printf"
  end.

Fixpoint gets_loop (fuel : nat) (max i : Z) (acc : list Z) : prog (list Z) :=
  match fuel with
  | O => Return acc
  | S k =>
      if i + 1 <? max then
        x <- sys (Read 0 1) ;;
        let '(cc, b) := x in
        if cc <? 1 then Return acc else
        let c := hd 0 b in
        if (c =? 10) || (c =? 13) then Return (acc ++ [c]) else gets_loop k max (i + 1) (acc ++ [c])
      else Return acc
  end.

(** The bytes put into the buffer, the terminating NUL included. *)
Definition gets (max : Z) : prog (list Z) :=
  l <- gets_loop (Z.to_nat max) max 0 [] ;; Return (l ++ [0]).

Definition stat (n : list Z) : prog (Z * ustat) :=
  fd <- sys (Open n 0) ;;
  if fd <? 0 then Return (-1, mkUstat 0 0 0 0 0) else
  r <- sys (Fstat fd) ;;
  sys (Close fd) ;;
  Return r.
End Library.

(** ** Semantics *)

Inductive outcome (A : Type) := Returned (a : A) | Exited | Failed (m : string).
Arguments Returned {A} a.
Arguments Exited {A}.
Arguments Failed {A} m.

Section Semantics.
Context {P W : Type}.

Record system := mkSystem {
  scall : forall X, call X -> P -> W -> X * P * W;
  sfork : W -> option Z * W;
  sexec : list Z -> list (list Z) -> P -> W -> option W;
}.

Context (o : system).

Fixpoint run {A} (p : prog A) (l : P) (w : W) : outcome A * P * W :=
  match p with
  | Return a => (Returned a, l, w)
  | Exit => (Exited, l, w)
  | Undefined m => (Failed m, l, w)
  | Fork k =>
      match sfork o w with
      | (None, w) => run (k (-1)) l w
      | (Some pid, w) => let '(_, _, w) := run (k 0) l w in run (k pid) l w
      end
  | Exec path argv k =>
      match sexec o path argv l w with
      | Some w => (Exited, l, w)
      | None => run (k (-1)) l w
      end
  | Call c k => let '(x, l, w) := scall o _ c l w in run (k x) l w
  end.

(** Programs that do not fork. *)
Fixpoint nofork {A} (p : prog A) : Prop :=
  match p with
  | Return _ | Exit | Undefined _ => True
  | Fork _ => False
  | Exec _ _ k => forall r, nofork (k r)
  | Call _ k => forall x, nofork (k x)
  end.

Lemma run_andthen {A B} (p : prog A) (k : A -> prog B) : nofork p -> forall l w,
  run (andthen p k) l w =
  match run p l w with
  | (Returned a, l, w) => run (k a) l w
  | (Exited, l, w) => (Exited, l, w)
  | (Failed m, l, w) => (Failed m, l, w)
  end.
Proof.
  induction p as [a| |m|f IH|path argv f IH|X c f IH]; cbn; intros H l w; try done.
  - destruct (sexec o path argv l w); [done|]. by apply IH.
  - destruct (scall o X c l w) as [[x l'] w']. by apply IH.
Qed.

Lemma run_sys {X B} (c : call X) (k : X -> prog B) l w :
  run (andthen (sys c) k) l w = let '(x, l, w) := scall o _ c l w in run (k x) l w.
Proof. done. Qed.

Lemma run_assoc {A B C} (p : prog A) (k : A -> prog B) (k' : B -> prog C) : forall l w,
  run (andthen (andthen p k) k') l w = run (andthen p (fun x => andthen (k x) k')) l w.
Proof.
  induction p as [a| |m|f IH|path argv f IH|X c f IH]; cbn; intros l w; try done.
  - destruct (sfork o w) as [[pid|] w1]; [|by apply IH]. rewrite IH. destruct (run _ l w1) as [[? ?] ?]. by apply IH.
  - destruct (sexec o path argv l w); [done|]. by apply IH.
  - destruct (scall o X c l w) as [[x l'] w']. by apply IH.
Qed.
End Semantics.
Arguments system : clear implicits.
