(* ===== verification/Sh.v ===== *)
(** The shell, [src/sh.c]: the parser of command lines, which builds the command
    as nodes on the heap and then cuts the line into strings in place, and the
    code that runs a command.

    A pointer into the line is an index into [buf]; a pointer to a command is the
    index of its node.  [malloc] serves as many nodes as [room] says and then
    returns 0, which the constructors hand to [memset].  [panic] ends the process
    with its message.  The recursive routines take a fuel; [Shspec] proves how much
    is enough. *)

From Stdlib Require Import ZArith Lia.
From stdpp Require Import base list strings.
From S2P Require Import Prelude Ulib Console Usys.
Local Open Scope Z_scope.

Definition MAXARGS : nat := 10.
Definition O_RDONLY : Z := 0x000.
Definition O_WRONLY : Z := 0x001.
Definition O_RDWR : Z := 0x002.
Definition O_CREATE : Z := 0x200.

(** The structures a [struct cmd] pointer may point to, by [type]. *)
Inductive node :=
| EXEC (argv eargv : list (option nat))
| REDIR (cmd file efile : nat) (mode fd : Z)
| PIPE (left right : nat)
| LIST (left right : nat)
| BACK (cmd : nat).

(** The parser's state: [*ps], the heap, what [malloc] has left, the line, and what
    was printed to standard error. *)
Record shell := mkSh { ps : nat; nodes : list node; room : nat; buf : list Z; err : list Z }.

Definition set_ps v s := mkSh v (nodes s) (room s) (buf s) (err s).
Definition set_nodes v s := mkSh (ps s) v (room s) (buf s) (err s).
Definition set_room v s := mkSh (ps s) (nodes s) v (buf s) (err s).
Definition set_buf v s := mkSh (ps s) (nodes s) (room s) v (err s).
Definition set_err v s := mkSh (ps s) (nodes s) (room s) (buf s) v.

Abbreviation SM := (M shell).

(** ** Constructors *)

Definition new (n : node) : SM nat :=
  s <- get ;;
  match room s with
  | O => ub "memset of a null pointer"
  | S r => modify (set_room r) ;; modify (set_nodes (nodes s ++ [n])) ;; ret (length (nodes s))
  end.

Definition execcmd : SM nat := new (EXEC (replicate MAXARGS None) (replicate MAXARGS None)).
Definition redircmd (subcmd file efile : nat) (mode fd : Z) : SM nat := new (REDIR subcmd file efile mode fd).
Definition pipecmd (left right : nat) : SM nat := new (PIPE left right).
Definition listcmd (left right : nat) : SM nat := new (LIST left right).
Definition backcmd (subcmd : nat) : SM nat := new (BACK subcmd).

(** [cmd->argv[i] = q; cmd->eargv[i] = eq]. *)
Definition set_arg (x i : nat) (q eq : option nat) : SM unit :=
  s <- get ;;
  match nodes s !! x with
  | Some (EXEC argv eargv) =>
      if (i <? length argv)%nat then modify (set_nodes (<[x := EXEC (<[i := q]> argv) (<[i := eq]> eargv)]> (nodes s)))
      else ub "argv out of range"
  | _ => ub "not an execcmd"
  end.

(** ** Tokens *)

Definition whitespace : list Z := [32; 9; 13; 10; 11].
Definition symbols : list Z := [60; 124; 62; 38; 59; 40; 41].

(** [strchr] as a condition. *)
Definition among (s : list Z) (c : Z) : bool := match strchr s c with Some _ => true | None => false end.

Definition byte_at (b : list Z) (p : nat) : Z := nth p b 0.

(** [while(s < es && f of the byte at s) s++], with [n] for [es - s]. *)
Fixpoint skip (f : Z -> bool) (b : list Z) (n s : nat) : nat :=
  match n with
  | O => s
  | S k => if f (byte_at b s) then skip f b k (S s) else s
  end.

Section Parser.
Context (es : nat).

(** The token's code, and where it starts and ends. *)
Definition gettoken : SM (Z * nat * nat) :=
  s <- get ;;
  let b := buf s in
  let q := skip (among whitespace) b (es - ps s) (ps s) in
  let c := byte_at b q in
  let '(r, e) :=
    if c =? 0 then (c, q)
    else if (c =? 124) || (c =? 40) || (c =? 41) || (c =? 59) || (c =? 38) || (c =? 60) then (c, S q)
    else if c =? 62 then
      if byte_at b (S q) =? 62 then (43, S (S q)) else (c, S q)
    else (97, skip (fun x => negb (among whitespace x) && negb (among symbols x)) b (es - q) q) in
  modify (set_ps (skip (among whitespace) b (es - e) e)) ;;
  ret (r, q, e).

Definition peek (toks : list Z) : SM bool :=
  s <- get ;;
  let p := skip (among whitespace) (buf s) (es - ps s) (ps s) in
  modify (set_ps p) ;;
  let c := byte_at (buf s) p in
  ret (nz c && among toks c).

(** ** Parsing *)

Fixpoint parseredirs (fuel : nat) (cmd : nat) : SM nat :=
  match fuel with
  | O => spin
  | S k =>
      p <- peek [60; 62] ;;
      if p then
        t <- gettoken ;;
        let '(tok, _, _) := t in
        t <- gettoken ;;
        let '(t2, q, eq) := t in
        if negb (t2 =? 97) then panic "missing file for redirection" else
        cmd <- (if tok =? 60 then redircmd cmd q eq O_RDONLY 0
                else if tok =? 62 then redircmd cmd q eq (Z.lor O_WRONLY O_CREATE) 1
                else if tok =? 43 then redircmd cmd q eq (Z.lor O_WRONLY O_CREATE) 1
                else ret cmd) ;;
        parseredirs k cmd
      else ret cmd
  end.

(** The loop of [parseexec]: the command and the number of arguments. *)
Fixpoint parseargs (fuel : nat) (x ret_ argc : nat) : SM (nat * nat) :=
  match fuel with
  | O => spin
  | S k =>
      p <- peek [124; 41; 38; 59] ;;
      if p then ret (ret_, argc) else
      t <- gettoken ;;
      let '(tok, q, eq) := t in
      if tok =? 0 then ret (ret_, argc)
      else if negb (tok =? 97) then panic "syntax" else
      set_arg x argc (Some q) (Some eq) ;;
      if (MAXARGS <=? S argc)%nat then panic "too many args" else
      r <- parseredirs k ret_ ;;
      parseargs k x r (S argc)
  end.

(** [while(peek(ps, es, "&"))]. *)
Fixpoint parseback (fuel : nat) (cmd : nat) : SM nat :=
  match fuel with
  | O => spin
  | S k =>
      p <- peek [38] ;;
      if p then gettoken ;; c <- backcmd cmd ;; parseback k c else ret cmd
  end.

Fixpoint parseline (fuel : nat) : SM nat :=
  match fuel with
  | O => spin
  | S k =>
      cmd <- parsepipe k ;;
      cmd <- parseback k cmd ;;
      p <- peek [59] ;;
      if p then
        gettoken ;;
        r <- parseline k ;;
        listcmd cmd r
      else ret cmd
  end
with parsepipe (fuel : nat) : SM nat :=
  match fuel with
  | O => spin
  | S k =>
      cmd <- parseexec k ;;
      p <- peek [124] ;;
      if p then
        gettoken ;;
        r <- parsepipe k ;;
        pipecmd cmd r
      else ret cmd
  end
with parseexec (fuel : nat) : SM nat :=
  match fuel with
  | O => spin
  | S k =>
      p <- peek [40] ;;
      if p then parseblock k else
      x <- execcmd ;;
      r <- parseredirs k x ;;
      t <- parseargs k x r 0 ;;
      let '(r, argc) := t in
      set_arg x argc None None ;;
      ret r
  end
with parseblock (fuel : nat) : SM nat :=
  match fuel with
  | O => spin
  | S k =>
      p <- peek [40] ;;
      if negb p then panic "parseblock" else
      gettoken ;;
      cmd <- parseline k ;;
      p <- peek [41] ;;
      if negb p then panic "syntax - missing )" else
      gettoken ;;
      parseredirs k cmd
  end.
End Parser.

(** ** Cutting the line into strings *)

(** [*p = 0]. *)
Definition put_nul (p : nat) : SM unit := modify (fun s => set_buf (<[p := 0]> (buf s)) s).

(** [for(i = 0; ecmd->argv[i]; i++) *ecmd->eargv[i] = 0], at [i]. *)
Fixpoint nul_args (argv eargv : list (option nat)) : SM unit :=
  match argv, eargv with
  | None :: _, _ => ret tt
  | Some _ :: argv', Some e :: eargv' => put_nul e ;; nul_args argv' eargv'
  | Some _ :: _, None :: _ => ub "eargv is null"
  | _, _ => ub "argv out of range"
  end.

Fixpoint nulterminate (fuel : nat) (cmd : option nat) : SM (option nat) :=
  match fuel with
  | O => spin
  | S k =>
      match cmd with
      | None => ret None
      | Some p =>
          s <- get ;;
          (match nodes s !! p with
           | Some (EXEC argv eargv) => nul_args argv eargv
           | Some (REDIR c _ efile _ _) => nulterminate k (Some c) ;; put_nul efile
           | Some (PIPE l r) => nulterminate k (Some l) ;; nulterminate k (Some r) ;; ret tt
           | Some (LIST l r) => nulterminate k (Some l) ;; nulterminate k (Some r) ;; ret tt
           | Some (BACK c) => nulterminate k (Some c) ;; ret tt
           | None => ub "not a command"
           end) ;;
          ret cmd
      end
  end.

(** The bytes from [p] up to the next NUL. *)
Fixpoint upto_nul (l : list Z) : list Z :=
  match l with
  | [] => []
  | c :: l' => if c =? 0 then [] else c :: upto_nul l'
  end.
Definition str_at (b : list Z) (p : nat) : list Z := upto_nul (drop p b).

Definition parsecmd (fuel : nat) : SM nat :=
  s <- get ;;
  let es := (ps s + length (str_at (buf s) (ps s)))%nat in
  cmd <- parseline es fuel ;;
  peek es [] ;;
  s <- get ;;
  if negb (ps s =? es)%nat then
    modify (set_err (err s ++ text "leftovers: " ++ str_at (buf s) (ps s) ++ [10])) ;;
    panic "syntax"
  else
  nulterminate fuel (Some cmd) ;;
  ret cmd.

(** ** Running commands *)

Section Running.
Local Open Scope prog_scope.

Definition shpanic {A} (s : list Z) : prog A := printf 2 (text "%s" ++ [10]) [S_ s] ;; Exit.

Definition fork1 : prog Z :=
  pid <- fork ;;
  if pid =? -1 then shpanic (text "fork") else Return pid.

(** The strings of an argument vector, up to its null pointer. *)
Fixpoint argstrs (b : list Z) (argv : list (option nat)) : list (list Z) :=
  match argv with
  | Some q :: argv' => str_at b q :: argstrs b argv'
  | _ => []
  end.

Fixpoint runcmd (fuel : nat) (ns : list node) (b : list Z) (cmd : option nat) : prog unit :=
  match fuel with
  | O => Undefined "fuel"
  | S k =>
      match cmd with
      | None => Exit
      | Some p =>
          match ns !! p with
          | None => Undefined "not a command"
          | Some (EXEC argv _) =>
              match argv with
              | Some q :: _ =>
                  exec (str_at b q) (argstrs b argv) ;;
                  printf 2 (text "exec %s failed" ++ [10]) [S_ (str_at b q)] ;;
                  Exit
              | _ => Exit
              end
          | Some (REDIR c file _ mode fd) =>
              sys (Close fd) ;;
              r <- sys (Open (str_at b file) mode) ;;
              if r <? 0 then
                printf 2 (text "open %s failed" ++ [10]) [S_ (str_at b file)] ;;
                Exit
              else
                runcmd k ns b (Some c) ;;
                Exit
          | Some (LIST l r) =>
              pid <- fork1 ;;
              (if pid =? 0 then runcmd k ns b (Some l) else Return tt) ;;
              sys Wait ;;
              runcmd k ns b (Some r) ;;
              Exit
          | Some (PIPE l r) =>
              x <- sys Pipe ;;
              let '(ok, (p0, p1)) := x in
              if ok <? 0 then shpanic (text "pipe") else
              pid <- fork1 ;;
              (if pid =? 0 then
                 sys (Close 1) ;;
                 sys (Dup p1) ;;
                 sys (Close p0) ;;
                 sys (Close p1) ;;
                 runcmd k ns b (Some l)
               else Return tt) ;;
              pid <- fork1 ;;
              (if pid =? 0 then
                 sys (Close 0) ;;
                 sys (Dup p0) ;;
                 sys (Close p0) ;;
                 sys (Close p1) ;;
                 runcmd k ns b (Some r)
               else Return tt) ;;
              sys (Close p0) ;;
              sys (Close p1) ;;
              sys Wait ;;
              sys Wait ;;
              Exit
          | Some (BACK c) =>
              pid <- fork1 ;;
              (if pid =? 0 then runcmd k ns b (Some c) else Return tt) ;;
              Exit
          end
      end
  end.

(** ** The main loop *)

(** The contents of [buf] after [gets]; [None] at end of file. *)
Definition getcmd (nbuf : Z) : prog (option (list Z)) :=
  printf 2 (text "$ ") [] ;;
  l <- gets nbuf ;;
  let b := l ++ replicate (Z.to_nat nbuf - length l) 0 in
  Return (if byte_at b 0 =? 0 then None else Some b).

Fixpoint open_console (fuel : nat) : prog unit :=
  match fuel with
  | O => Undefined "fuel"
  | S k =>
      fd <- sys (Open (text "console") O_RDWR) ;;
      if 0 <=? fd then
        if 3 <=? fd then sys (Close fd) ;; Return tt
        else open_console k
      else Return tt
  end.

(** What a child does with the line: parse it and run it. *)
Definition run_line (fuel nroom : nat) (b : list Z) : prog unit :=
  match parsecmd fuel (mkSh 0 [] nroom b []) with
  | (Ok c, s) => runcmd fuel (nodes s) (buf s) (Some c)
  | (Panic m, s) => puts 2 (err s) ;; shpanic (text m)
  | (UB m, _) => Undefined m
  | _ => Undefined "fuel"
  end.

Fixpoint main_loop (fuel nroom lines : nat) : prog unit :=
  match lines with
  | O => Undefined "fuel"
  | S k =>
      l <- getcmd 100 ;;
      match l with
      | None => Exit
      | Some b =>
          if (byte_at b 0 =? 99) && (byte_at b 1 =? 100) && (byte_at b 2 =? 32) then
            let b := <[(length (upto_nul b) - 1)%nat := 0]> b in
            r <- sys (Chdir (str_at b 3)) ;;
            (if r <? 0 then printf 2 (text "cannot cd %s" ++ [10]) [S_ (str_at b 3)] else Return tt) ;;
            main_loop fuel nroom k
          else
            pid <- fork1 ;;
            (if pid =? 0 then run_line fuel nroom b else Return tt) ;;
            sys Wait ;;
            main_loop fuel nroom k
      end
  end.

Definition main (fuel nroom lines : nat) : prog unit :=
  open_console 17 ;;
  main_loop fuel nroom lines.
End Running.
