(* ===== verification/Shspec.v ===== *)
(** The shell's parser accepts its grammar.

    A command line is a list of tokens ([tokens]); [Line] is the grammar of the
    token lists the shell accepts and of the commands they stand for.  The code's
    parser, which works on positions in a buffer and on heap nodes, is proved equal
    to a recursive-descent parser on tokens and that one to the grammar. *)

From Stdlib Require Import ZArith Lia.
From stdpp Require Import base list strings.
From S2P Require Import Prelude Ulib Console Usys Sh.
Local Open Scope Z_scope.

(** ** Commands and grammar *)

Inductive cmd :=
| CExec (argv : list (list Z))
| CRedir (c : cmd) (inp : bool) (file : list Z)
| CPipe (l r : cmd)
| CList (l r : cmd)
| CBack (c : cmd).

(** A symbol by its character, [43] for [>>], or a word. *)
Inductive tok := Sym (c : Z) | Word (w : list Z).

Definition flush (w : list Z) : list tok := match w with [] => [] | _ => [Word w] end.

(** The tokens of a text, [w] being the word it continues. *)
Fixpoint lex (w l : list Z) : list tok :=
  match l with
  | [] => flush w
  | c :: l' =>
      if among whitespace c then flush w ++ lex [] l'
      else if c =? 62 then
        flush w ++ match l' with
                   | d :: l'' => if d =? 62 then Sym 43 :: lex [] l'' else Sym 62 :: lex [] l'
                   | [] => [Sym 62]
                   end
      else if among symbols c then flush w ++ Sym c :: lex [] l'
      else lex (w ++ [c]) l'
  end.
Definition tokens (l : list Z) : list tok := lex [] l.

(** The redirections [<], [>] and [>>]. *)
Definition is_redir (x : Z) : bool := (x =? 60) || (x =? 62) || (x =? 43).

Definition redir_toks (rs : list (Z * list Z)) : list tok := rs ≫= fun r => [Sym r.1; Word r.2].
Definition wrap (c : cmd) (rs : list (Z * list Z)) : cmd :=
  fold_left (fun c r => CRedir c (r.1 =? 60) r.2) rs c.

(** The words and redirections of a simple command, in any order. *)
Definition item : Type := list Z + Z * list Z.
Definition item_toks (i : item) : list tok :=
  match i with inl w => [Word w] | inr (x, w) => [Sym x; Word w] end.
Definition words (l : list item) : list (list Z) := omap (fun i => match i with inl w => Some w | inr _ => None end) l.
Definition redirs (l : list item) : list (Z * list Z) := omap (fun i => match i with inl _ => None | inr r => Some r end) l.
Definition redir_ok (i : item) : Prop := match i with inl _ => True | inr (x, _) => is_redir x = true end.

Inductive Line : list tok -> cmd -> Prop :=
| Line_end ts c n :
    Pipeline ts c -> Line (ts ++ replicate n (Sym 38)) (Nat.iter n CBack c)
| Line_list ts c n ts' c' :
    Pipeline ts c -> Line ts' c' ->
    Line (ts ++ replicate n (Sym 38) ++ Sym 59 :: ts') (CList (Nat.iter n CBack c) c')
with Pipeline : list tok -> cmd -> Prop :=
| Pipeline_one ts c : Simple ts c -> Pipeline ts c
| Pipeline_bar ts c ts' c' :
    Simple ts c -> Pipeline ts' c' -> Pipeline (ts ++ Sym 124 :: ts') (CPipe c c')
with Simple : list tok -> cmd -> Prop :=
| Simple_block ts c rs :
    Line ts c -> Forall (fun r => is_redir r.1 = true) rs ->
    Simple (Sym 40 :: ts ++ Sym 41 :: redir_toks rs) (wrap c rs)
| Simple_exec items :
    Forall redir_ok items -> (length (words items) < MAXARGS)%nat ->
    Simple (items ≫= item_toks) (wrap (CExec (words items)) (redirs items)).

Scheme Line_mut := Minimality for Line Sort Prop
with Pipeline_mut := Minimality for Pipeline Sort Prop
with Simple_mut := Minimality for Simple Sort Prop.
Combined Scheme grammar_ind from Line_mut, Pipeline_mut, Simple_mut.

(** ** A recursive-descent parser on tokens

    An error is its message; [None] stands for lack of fuel. *)

Fixpoint rredirs (rs : list (Z * list Z)) (ts : list tok) : string + list (Z * list Z) * list tok :=
  match ts with
  | Sym x :: ts1 =>
      if is_redir x then
        match ts1 with
        | Word w :: ts2 => rredirs (rs ++ [(x, w)]) ts2
        | _ => inl "missing file for redirection"%string
        end
      else inr (rs, ts)
  | _ => inr (rs, ts)
  end.

Fixpoint rargs (ws : list (list Z)) (rs : list (Z * list Z)) (ts : list tok)
  : string + (list (list Z) * list (Z * list Z) * list tok) :=
  match ts with
  | [] => inr (ws, rs, [])
  | Word w :: ts1 =>
      if (MAXARGS <=? S (length ws))%nat then inl "too many args"%string else rargs (ws ++ [w]) rs ts1
  | Sym x :: ts1 =>
      if is_redir x then
        match ts1 with
        | Word w :: ts2 => rargs ws (rs ++ [(x, w)]) ts2
        | _ => inl "missing file for redirection"%string
        end
      else if among [124; 41; 38; 59] x then inr (ws, rs, ts)
      else inl "syntax"%string
  end.

Fixpoint rback (c : cmd) (ts : list tok) : cmd * list tok :=
  match ts with
  | Sym x :: ts1 => if x =? 38 then rback (CBack c) ts1 else (c, ts)
  | _ => (c, ts)
  end.

Definition is_sym (x : Z) (ts : list tok) : bool := match ts with Sym y :: _ => y =? x | _ => false end.

Fixpoint rline (fuel : nat) (ts : list tok) : option (string + cmd * list tok) :=
  match fuel with
  | O => None
  | S k =>
      match rpipe k ts with
      | Some (inr (c, ts1)) =>
          let '(c, ts2) := rback c ts1 in
          if is_sym 59 ts2 then
            match rline k (tail ts2) with
            | Some (inr (c', ts3)) => Some (inr (CList c c', ts3))
            | e => e
            end
          else Some (inr (c, ts2))
      | e => e
      end
  end
with rpipe (fuel : nat) (ts : list tok) : option (string + cmd * list tok) :=
  match fuel with
  | O => None
  | S k =>
      match rexec k ts with
      | Some (inr (c, ts1)) =>
          if is_sym 124 ts1 then
            match rpipe k (tail ts1) with
            | Some (inr (c', ts2)) => Some (inr (CPipe c c', ts2))
            | e => e
            end
          else Some (inr (c, ts1))
      | e => e
      end
  end
with rexec (fuel : nat) (ts : list tok) : option (string + cmd * list tok) :=
  match fuel with
  | O => None
  | S k =>
      if is_sym 40 ts then rblock k ts
      else match rargs [] [] ts with
           | inl m => Some (inl m)
           | inr (ws, rs, ts1) => Some (inr (wrap (CExec ws) rs, ts1))
           end
  end
with rblock (fuel : nat) (ts : list tok) : option (string + cmd * list tok) :=
  match fuel with
  | O => None
  | S k =>
      match rline k (tail ts) with
      | Some (inr (c, ts1)) =>
          if is_sym 41 ts1 then
            match rredirs [] (tail ts1) with
            | inl m => Some (inl m)
            | inr (rs, ts2) => Some (inr (wrap c rs, ts2))
            end
          else Some (inl "syntax - missing )"%string)
      | e => e
      end
  end.

(** *** It accepts exactly the grammar *)

Definition stops (l : list Z) (ts : list tok) : Prop :=
  match ts with [] => True | Sym x :: _ => among l x = true | Word _ :: _ => False end.

Lemma wrap_snoc c rs x w : wrap c (rs ++ [(x, w)]) = CRedir (wrap c rs) (x =? 60) w.
Proof. unfold wrap. by rewrite fold_left_app. Qed.

Lemma redir_not_stop x : is_redir x = true -> among [124; 41; 38; 59] x = false.
Proof.
  unfold is_redir. rewrite !orb_true_iff, !Z.eqb_eq. intros [[->| ->]| ->]; reflexivity.
Qed.

Lemma stop_not_redir x : among [124; 41; 38; 59] x = true -> is_redir x = false.
Proof. destruct (is_redir x) eqn:E; [|done]. by rewrite redir_not_stop. Qed.

Lemma rredirs_complete rs r :
  Forall (fun r => is_redir r.1 = true) rs -> stops [124; 41; 38; 59] r ->
  forall rs0, rredirs rs0 (redir_toks rs ++ r) = inr (rs0 ++ rs, r).
Proof.
  intros Hrs Hr. induction Hrs as [|[x w] rs Hx Hrs IH]; intros rs0; cbn.
  - rewrite app_nil_r. destruct r as [|[y|v] r]; [done| |done]. cbn in *. by rewrite stop_not_redir.
  - cbn in Hx. rewrite Hx. unfold redir_toks in IH. rewrite IH. by rewrite <- app_assoc.
Qed.

Lemma rargs_complete items r :
  Forall redir_ok items -> stops [124; 41; 38; 59] r ->
  forall ws rs, (length ws + length (words items) < MAXARGS)%nat ->
  rargs ws rs ((items ≫= item_toks) ++ r) = inr (ws ++ words items, rs ++ redirs items, r).
Proof.
  intros Hok Hr. induction Hok as [|[w|[x w]] items Hx Hok IH]; intros ws rs Hl.
  - cbn. rewrite !app_nil_r. destruct r as [|[y|v] r]; [done| |done]. cbn [stops] in Hr. cbn [rargs].
    by rewrite stop_not_redir, Hr.
  - cbn in Hl. change (((inl w :: items) ≫= item_toks) ++ r) with (Word w :: ((items ≫= item_toks) ++ r)). cbn [rargs].
    rewrite (proj2 (Nat.leb_gt _ _)) by lia. rewrite IH by (rewrite length_app; cbn; unfold words; lia).
    by rewrite <- app_assoc.
  - cbn in Hl, Hx. change (((inr (x, w) :: items) ≫= item_toks) ++ r) with (Sym x :: Word w :: ((items ≫= item_toks) ++ r)).
    cbn [rargs]. rewrite Hx, IH by (unfold words; lia). by rewrite <- app_assoc.
Qed.

Lemma rback_complete n r : is_sym 38 r = false ->
  forall c, rback c (replicate n (Sym 38) ++ r) = (Nat.iter n CBack c, r).
Proof.
  intros Hr. induction n as [|n IH]; intros c; cbn.
  - destruct r as [|[y|v] r]; [done| |done]. cbn in *. by rewrite Hr.
  - rewrite IH. by rewrite Nat.iter_swap.
Qed.

Lemma stops_weaken l l' ts : (forall x, among l x = true -> among l' x = true) -> stops l ts -> stops l' ts.
Proof. destruct ts as [|[]]; cbn; auto. Qed.

Lemma among_iff l x : Forall (fun c => c <> 0) l -> among l x = true <-> x ∈ l.
Proof.
  unfold among. intros H. induction H as [|c l Hc Hl IH]; cbn; [by rewrite elem_of_nil|]. rewrite elem_of_cons.
  unfold nz. rewrite (proj2 (Z.eqb_neq c 0) Hc). cbn [negb]. destruct (Z.eqb_spec c x); [intuition|].
  destruct (strchr l x); cbn; intuition.
Qed.

Lemma among_41 x : among [41] x = true -> x = 41.
Proof. intros H. apply among_iff in H; [|by repeat constructor]. rewrite !elem_of_cons, elem_of_nil in H. tauto. Qed.
Lemma among_3 x : among [41; 38; 59] x = true -> x = 41 \/ x = 38 \/ x = 59.
Proof. intros H. apply among_iff in H; [|by repeat constructor]. rewrite !elem_of_cons, elem_of_nil in H. tauto. Qed.

Lemma ref_complete :
  (forall ts c, Line ts c -> forall r fuel, stops [41] r -> (4 * length (ts ++ r) + 4 <= fuel)%nat ->
     rline fuel (ts ++ r) = Some (inr (c, r)))
  /\ (forall ts c, Pipeline ts c -> forall r fuel, stops [41; 38; 59] r -> (4 * length (ts ++ r) + 3 <= fuel)%nat ->
     rpipe fuel (ts ++ r) = Some (inr (c, r)))
  /\ (forall ts c, Simple ts c -> forall r fuel, stops [124; 41; 38; 59] r -> (4 * length (ts ++ r) + 2 <= fuel)%nat ->
     rexec fuel (ts ++ r) = Some (inr (c, r))).
Proof.
  apply grammar_ind.
  - intros ts c n _ IH r [|k] Hr Hf; [lia|]. cbn [rline]. rewrite <- app_assoc in *.
    rewrite IH; [| |lia].
    + rewrite rback_complete by (destruct r as [|[x|]]; [done| |done]; cbn in *; by apply among_41 in Hr as ->).
      destruct r as [|[x|]]; [done| |done]. cbn in *. by apply among_41 in Hr as ->.
    + destruct n; [|done]. cbn. by eapply stops_weaken; [|exact Hr]; intros x ->%among_41.
  - intros ts c n ts' c' _ IH _ IH' r [|k] Hr Hf; [lia|]. cbn [rline].
    repeat (rewrite <- app_assoc in *; cbn [app] in * ).
    rewrite IH; [| |lia].
    + rewrite rback_complete by done. cbn [is_sym tail]. rewrite IH'; [done|done|].
      rewrite !length_app in *. cbn [length] in *. rewrite length_app in *. lia.
    + by destruct n.
  - intros ts c _ IH r [|k] Hr Hf; [lia|]. cbn [rpipe]. rewrite IH; [| |lia].
    + destruct r as [|[x|]]; [done| |done]. cbn in *. by apply among_3 in Hr as [->|[->| ->]].
    + eapply stops_weaken; [|exact Hr]. by intros x [->|[->| ->]]%among_3.
  - intros ts c ts' c' _ IH _ IH' r [|k] Hr Hf; [lia|]. cbn [rpipe]. rewrite <- app_assoc in *. cbn [app] in *.
    rewrite IH; [|done|lia]. cbn [is_sym tail]. rewrite IH'; [done|done|].
    rewrite !length_app in *. cbn [length] in *. rewrite length_app in *. lia.
  - intros ts c rs _ IH Hrs r [|[|k]] Hr Hf; cbn in Hf; [lia..|]. rewrite <- app_assoc in *. cbn [app length] in *.
    cbn [rexec is_sym rblock tail Z.eqb Pos.eqb app]. rewrite <- app_assoc. cbn [app]. rewrite IH; [|done|lia]. cbn [is_sym tail Z.eqb Pos.eqb].
    by rewrite rredirs_complete.
  - intros items Hok Hl r [|k] Hr Hf; [lia|]. cbn [rexec].
    replace (is_sym 40 ((items ≫= item_toks) ++ r)) with false; [by rewrite rargs_complete|].
    destruct Hok as [|[w|[x w]] items Hx Hok]; [|done|].
    + destruct r as [|[x|]]; [done| |done]. cbn in *. by destruct (Z.eqb_spec x 40) as [->|].
    + cbn in *. by destruct (Z.eqb_spec x 40) as [->|].
Qed.

Lemma rredirs_sound n : forall ts rs rs' r, (length ts <= n)%nat -> rredirs rs ts = inr (rs', r) ->
  exists rs1, rs' = rs ++ rs1 /\ ts = redir_toks rs1 ++ r /\ Forall (fun r => is_redir r.1 = true) rs1.
Proof.
  induction n as [|n IH]; intros ts rs rs' r Hn H.
  { destruct ts; cbn in Hn; [|lia]. injection H as <- <-. exists []. by rewrite app_nil_r. }
  destruct ts as [|[x|w] ts]; cbn in H; [injection H as <- <-; exists []; by rewrite app_nil_r| |
    injection H as <- <-; exists []; by rewrite app_nil_r].
  destruct (is_redir x) eqn:Ex; [|injection H as <- <-; exists []; by rewrite app_nil_r].
  destruct ts as [|[y|w] ts]; [done|done|]. cbn in Hn.
  apply IH in H as (rs1 & -> & -> & Hrs); [|lia]. exists ((x, w) :: rs1).
  rewrite <- app_assoc. split; [done|]. split; [done|]. by constructor.
Qed.

Lemma rargs_sound n : forall ts ws rs ws' rs' r, (length ts <= n)%nat -> rargs ws rs ts = inr (ws', rs', r) ->
  (length ws < MAXARGS)%nat ->
  exists items, ws' = ws ++ words items /\ rs' = rs ++ redirs items /\ ts = (items ≫= item_toks) ++ r
    /\ Forall redir_ok items /\ (length ws' < MAXARGS)%nat.
Proof.
  assert (forall ws rs (r : list tok), (length ws < MAXARGS)%nat ->
    exists items, ws = ws ++ words items /\ rs = rs ++ redirs items /\ r = (items ≫= item_toks) ++ r
    /\ Forall redir_ok items /\ (length ws < MAXARGS)%nat) as Hnil.
  { intros ws rs r H. exists []. cbn. by rewrite !app_nil_r. }
  induction n as [|n IH]; intros ts ws rs ws' rs' r Hn H Hws.
  { destruct ts; cbn in Hn; [|lia]. injection H as <- <- <-. by apply (Hnil ws rs []). }
  destruct ts as [|[x|w] ts]; cbn [rargs] in H; [injection H as <- <- <-; by apply (Hnil ws rs [])| |]; cbn in Hn.
  - destruct (is_redir x) eqn:Ex.
    + destruct ts as [|[y|w] ts]; [done|done|]. cbn in Hn.
      apply IH in H as (items & -> & -> & -> & Hok & Hl); [|lia|done]. exists (inr (x, w) :: items).
      rewrite <- app_assoc. split_and!; try done. by constructor.
    + destruct (among [124; 41; 38; 59] x); [|done]. injection H as <- <- <-. by apply (Hnil ws rs (Sym x :: ts)).
  - destruct (Nat.leb_spec MAXARGS (S (length ws))); [done|].
    apply IH in H as (items & -> & -> & -> & Hok & Hl); [|lia|rewrite length_app; cbn; lia].
    exists (inl w :: items). rewrite <- app_assoc in *. split_and!; try done. by constructor.
Qed.

Lemma rback_sound ts : forall c c' r, rback c ts = (c', r) ->
  exists n, c' = Nat.iter n CBack c /\ ts = replicate n (Sym 38) ++ r.
Proof.
  induction ts as [|[x|w] ts IH]; cbn; intros c c' r H; [injection H as <- <-; by exists 0%nat| |injection H as <- <-; by exists 0%nat].
  destruct (Z.eqb_spec x 38) as [->|]; [|injection H as <- <-; by exists 0%nat].
  apply IH in H as (n & -> & ->). exists (S n). cbn. by rewrite Nat.iter_swap.
Qed.

Lemma is_sym_cons x ts : is_sym x ts = true -> ts = Sym x :: tail ts.
Proof. destruct ts as [|[y|]]; cbn; [done| |done]. by intros ->%Z.eqb_eq. Qed.

Lemma ref_sound fuel :
  (forall ts c r, rline fuel ts = Some (inr (c, r)) -> exists ts0, ts = ts0 ++ r /\ Line ts0 c)
  /\ (forall ts c r, rpipe fuel ts = Some (inr (c, r)) -> exists ts0, ts = ts0 ++ r /\ Pipeline ts0 c)
  /\ (forall ts c r, rexec fuel ts = Some (inr (c, r)) -> exists ts0, ts = ts0 ++ r /\ Simple ts0 c)
  /\ (forall ts c r, is_sym 40 ts = true -> rblock fuel ts = Some (inr (c, r)) -> exists ts0, ts = ts0 ++ r /\ Simple ts0 c).
Proof.
  induction fuel as [|k (IHl & IHp & IHe & IHb)]; [done|]. split_and!.
  - intros ts c r H. cbn [rline] in H. destruct (rpipe k ts) as [[m|[c1 ts1]]|] eqn:E1; [done| |done].
    apply IHp in E1 as (t1 & -> & P1). destruct (rback c1 ts1) as [c2 ts2] eqn:E2.
    apply rback_sound in E2 as (n & -> & ->). destruct (is_sym 59 ts2) eqn:E3.
    + destruct (rline k (tail ts2)) as [[m|[c3 ts3]]|] eqn:E4; [done| |done]. injection H as <- <-.
      apply IHl in E4 as (t4 & E4 & P4). apply is_sym_cons in E3 as ->. rewrite E4.
      exists (t1 ++ replicate n (Sym 38) ++ Sym 59 :: t4). split; [by rewrite <- !app_assoc|]. by constructor.
    + injection H as <- <-. exists (t1 ++ replicate n (Sym 38)). split; [by rewrite <- app_assoc|]. by constructor.
  - intros ts c r H. cbn [rpipe] in H. destruct (rexec k ts) as [[m|[c1 ts1]]|] eqn:E1; [done| |done].
    apply IHe in E1 as (t1 & -> & P1). destruct (is_sym 124 ts1) eqn:E3.
    + destruct (rpipe k (tail ts1)) as [[m|[c3 ts3]]|] eqn:E4; [done| |done]. injection H as <- <-.
      apply IHp in E4 as (t4 & E4 & P4). apply is_sym_cons in E3 as ->. rewrite E4.
      exists (t1 ++ Sym 124 :: t4). split; [by rewrite <- !app_assoc|]. by constructor.
    + injection H as <- <-. exists t1. split; [done|]. by constructor.
  - intros ts c r H. cbn [rexec] in H. destruct (is_sym 40 ts) eqn:E; [by apply IHb|].
    destruct (rargs [] [] ts) as [m|[[ws rs] ts1]] eqn:E1; [done|]. injection H as <- <-.
    eapply rargs_sound in E1 as (items & -> & -> & -> & Hok & Hl); [|done|unfold MAXARGS; cbn; lia].
    exists (items ≫= item_toks). split; [done|]. by constructor.
  - intros ts c r Hs H. cbn [rblock] in H. destruct (rline k (tail ts)) as [[m|[c1 ts1]]|] eqn:E1; [done| |done].
    apply IHl in E1 as (t1 & E1 & P1). destruct (is_sym 41 ts1) eqn:E2; [|done].
    destruct (rredirs [] (tail ts1)) as [m|[rs ts2]] eqn:E3; [done|]. injection H as <- <-.
    eapply rredirs_sound in E3 as (rs1 & -> & E3 & Hrs); [|done]. apply is_sym_cons in Hs as ->. apply is_sym_cons in E2.
    rewrite E1, E2, E3. exists (Sym 40 :: t1 ++ Sym 41 :: redir_toks rs1).
    split; [cbn; by rewrite <- app_assoc|]. by constructor.
Qed.

(** With this much fuel the parser on tokens ends. *)
Lemma ref_total fuel :
  (forall ts, (4 * length ts + 4 <= fuel)%nat -> rline fuel ts <> None)
  /\ (forall ts, (4 * length ts + 3 <= fuel)%nat -> rpipe fuel ts <> None)
  /\ (forall ts, (4 * length ts + 2 <= fuel)%nat -> rexec fuel ts <> None)
  /\ (forall ts, is_sym 40 ts = true -> (4 * length ts + 1 <= fuel)%nat -> rblock fuel ts <> None).
Proof.
  induction fuel as [|k (IHl & IHp & IHe & IHb)]; [split_and!; intros; lia|].
  destruct (ref_sound k) as (Sl & Sp & Se & _). split_and!.
  - intros ts Hf. cbn [rline]. destruct (rpipe k ts) as [[m|[c1 ts1]]|] eqn:E1; [done| |exfalso; by apply (IHp ts); [lia|]].
    apply Sp in E1 as (t1 & -> & _). destruct (rback c1 ts1) as [c2 ts2] eqn:E2.
    apply rback_sound in E2 as (n & -> & ->). destruct (is_sym 59 ts2) eqn:E3; [|done].
    apply is_sym_cons in E3. destruct (rline k (tail ts2)) as [[m|[c3 ts3]]|] eqn:E4; [done|done|].
    exfalso. apply (IHl (tail ts2)); [|done]. rewrite E3 in Hf. rewrite !length_app in Hf. cbn [length] in Hf. lia.
  - intros ts Hf. cbn [rpipe]. destruct (rexec k ts) as [[m|[c1 ts1]]|] eqn:E1; [done| |exfalso; by apply (IHe ts); [lia|]].
    apply Se in E1 as (t1 & -> & _). destruct (is_sym 124 ts1) eqn:E3; [|done].
    apply is_sym_cons in E3. destruct (rpipe k (tail ts1)) as [[m|[c3 ts3]]|] eqn:E4; [done|done|].
    exfalso. apply (IHp (tail ts1)); [|done]. rewrite E3, length_app in Hf. cbn [length] in Hf. lia.
  - intros ts Hf. cbn [rexec]. destruct (is_sym 40 ts) eqn:E; [apply IHb; [done|lia]|].
    by destruct (rargs [] [] ts) as [m|[[ws rs] ts1]].
  - intros ts Hs Hf. apply is_sym_cons in Hs. rewrite Hs in Hf. cbn [length] in Hf. cbn [rblock].
    destruct (rline k (tail ts)) as [[m|[c1 ts1]]|] eqn:E1; [done| |exfalso; by apply (IHl (tail ts)); [lia|]].
    destruct (is_sym 41 ts1); [|done]. by destruct (rredirs [] (tail ts1)) as [m|[rs ts2]].
Qed.
