(* ===== verification/Shparse.v ===== *)
(** The shell's parser implements the parser on tokens, and its heap nodes and the
    strings it cuts the line into stand for the command parsed. *)

From Stdlib Require Import ZArith Lia.
From stdpp Require Import base list strings.
From S2P Require Import Prelude Ulib Console Usys Sh Shspec.
Local Open Scope Z_scope.

Definition wordc (c : Z) : bool := negb (among whitespace c) && negb (among symbols c).

(** The bytes from [q] to [e] are the word [w], and it ends there. *)
Record span (b : list Z) (q e : nat) (w : list Z) : Prop := {
  sp_lt : (q < e)%nat;
  sp_in : (e < length b)%nat;
  sp_word : w = take (e - q) (drop q b);
  sp_chars : Forall (fun c => c <> 0 /\ wordc c = true) w;
  sp_end : byte_at b e = 0 \/ wordc (byte_at b e) = false;
}.

Lemma skip_spec f b n : forall s,
  (s <= skip f b n s <= s + n)%nat
  /\ (forall i, (s <= i < skip f b n s)%nat -> f (byte_at b i) = true)
  /\ ((skip f b n s < s + n)%nat -> f (byte_at b (skip f b n s)) = false).
Proof.
  induction n as [|n IH]; intros s; cbn [skip]; [split_and!; intros; lia|].
  destruct (f (byte_at b s)) eqn:E; [|split_and!; [lia|lia|intros; lia|done]].
  destruct (IH (S s)) as ([H1 H2] & H3 & H4). split_and!; [lia|lia| |intros; apply H4; lia].
  intros i Hi. destruct (decide (i = s)) as [->|]; [done|]. apply H3. lia.
Qed.

(** ** Commands on the heap

    [W q e w] says that the pointers [q] and [e] stand for the word [w]. *)

Definition rmode (inp : bool) : Z := if inp then O_RDONLY else Z.lor O_WRONLY O_CREATE.
Definition rfd (inp : bool) : Z := if inp then 0 else 1.

Section Heap.
Context (W : nat -> nat -> list Z -> Prop).

(** The first arguments of an [execcmd] are the words [ws]. *)
Record args_at (argv eargv : list (option nat)) (ws : list (list Z)) : Prop := {
  aa_argv : length argv = MAXARGS;
  aa_eargv : length eargv = MAXARGS;
  aa_room : (length ws < MAXARGS)%nat;
  aa_words : forall i w, ws !! i = Some w ->
    exists q e, argv !! i = Some (Some q) /\ eargv !! i = Some (Some e) /\ W q e w;
}.

Definition exec_at (ns : list node) (x : nat) (ws : list (list Z)) : Prop :=
  exists argv eargv, ns !! x = Some (EXEC argv eargv) /\ args_at argv eargv ws.

Inductive Tree (ns : list node) : nat -> cmd -> Prop :=
| Tree_exec p argv eargv ws :
    ns !! p = Some (EXEC argv eargv) -> args_at argv eargv ws -> argv !! length ws = Some None -> Tree ns p (CExec ws)
| Tree_redir p p' q e inp w c :
    ns !! p = Some (REDIR p' q e (rmode inp) (rfd inp)) -> W q e w -> (p' < p)%nat -> Tree ns p' c -> Tree ns p (CRedir c inp w)
| Tree_pipe p l r cl cr :
    ns !! p = Some (PIPE l r) -> (l < p)%nat -> (r < p)%nat -> Tree ns l cl -> Tree ns r cr -> Tree ns p (CPipe cl cr)
| Tree_list p l r cl cr :
    ns !! p = Some (LIST l r) -> (l < p)%nat -> (r < p)%nat -> Tree ns l cl -> Tree ns r cr -> Tree ns p (CList cl cr)
| Tree_back p p' c :
    ns !! p = Some (BACK p') -> (p' < p)%nat -> Tree ns p' c -> Tree ns p (CBack c).

(** The redirections [rs] are wrapped around [x], the last one at [r]. *)
Inductive chain (ns : list node) (x : nat) : nat -> list (Z * list Z) -> Prop :=
| chain_nil : chain ns x x []
| chain_snoc r r' rs c q e w :
    chain ns x r' rs -> ns !! r = Some (REDIR r' q e (rmode (c =? 60)) (rfd (c =? 60))) -> W q e w -> (r' < r)%nat ->
    chain ns x r (rs ++ [(c, w)]).

(** The first [n] nodes are the same. *)
Definition same (n : nat) (ns ns' : list node) : Prop := forall i, (i < n)%nat -> ns' !! i = ns !! i.

Lemma same_app n ns l : (n <= length ns)%nat -> same n ns (ns ++ l).
Proof. intros H i Hi. apply lookup_app_l. lia. Qed.

Lemma same_le n n' ns ns' : (n' <= n)%nat -> same n ns ns' -> same n' ns ns'.
Proof. intros H H1 i Hi. apply H1. lia. Qed.

Lemma same_trans n ns1 ns2 ns3 : same n ns1 ns2 -> same n ns2 ns3 -> same n ns1 ns3.
Proof. intros H1 H2 i Hi. by rewrite H2, H1. Qed.

Lemma Tree_same n ns ns' p c : Tree ns p c -> same n ns ns' -> (p < n)%nat -> Tree ns' p c.
Proof.
  intros H Hs. induction H; intros Hp; assert (ns' !! p = ns !! p) as E by (by apply Hs); rewrite <- E in *;
    [eapply Tree_exec|eapply Tree_redir|eapply Tree_pipe|eapply Tree_list|eapply Tree_back]; eauto with lia.
Qed.

Lemma chain_ge ns x r rs : chain ns x r rs -> (x <= r)%nat.
Proof. induction 1; lia. Qed.

Lemma chain_same n ns ns' x r rs :
  chain ns x r rs -> same n ns ns' -> (r < n)%nat -> chain ns' x r rs.
Proof.
  intros H Hs. induction H as [|r r' rs c q e w H IH Hr HW Hlt]; intros Hn; [constructor|].
  eapply chain_snoc; eauto with lia. by rewrite Hs.
Qed.

(** Changing the innermost command does not touch the chain. *)
Lemma chain_insert ns x r rs v : chain ns x r rs -> chain (<[x := v]> ns) x r rs.
Proof.
  induction 1 as [|r r' rs c q e w H IH Hr HW Hlt]; [constructor|]. apply chain_ge in H.
  eapply chain_snoc; eauto. by rewrite list_lookup_insert_ne by lia.
Qed.

Lemma Tree_chain ns x r rs c : chain ns x r rs -> Tree ns x c -> Tree ns r (wrap c rs).
Proof.
  intros H Hx. induction H as [|r r' rs y q e w H IH Hr HW Hlt]; [done|]. rewrite wrap_snoc. by eapply Tree_redir.
Qed.
End Heap.

(** ** Tokens and positions *)

Section Parsing.
Context (b : list Z) (es : nat).
Hypothesis Hes : (es < length b)%nat.
Hypothesis Hnul : byte_at b es = 0.
Hypothesis Htext : forall i, (i < es)%nat -> byte_at b i <> 0.

(** The tokens from position [p] on. *)
Definition rest (p : nat) : list tok := tokens (drop p (take es b)).

Lemma text_cons p : (p < es)%nat -> drop p (take es b) = byte_at b p :: drop (S p) (take es b).
Proof.
  intros Hp. apply drop_S. rewrite lookup_take. destruct (decide (p < es)%nat); [|lia].
  unfold byte_at. destruct (b !! p) as [c|] eqn:E; [|apply lookup_ge_None in E; lia].
  by rewrite (nth_lookup_Some _ _ 0 c E).
Qed.

Lemma text_nil p : (es <= p)%nat -> drop p (take es b) = [].
Proof. intros Hp. apply drop_ge. rewrite length_take. lia. Qed.

Lemma rest_ws p : (p < es)%nat -> among whitespace (byte_at b p) = true -> rest p = rest (S p).
Proof. intros Hp Hw. unfold rest, tokens. rewrite text_cons by done. cbn [lex]. by rewrite Hw. Qed.

Lemma rest_skip n : forall p, (p + n = es)%nat -> rest (skip (among whitespace) b n p) = rest p.
Proof.
  induction n as [|n IH]; intros p Hp; [done|]. cbn [skip].
  destruct (among whitespace (byte_at b p)) eqn:E; [|done]. rewrite IH by lia. symmetry. apply rest_ws; [lia|done].
Qed.

Lemma lex_word v : Forall (fun c => wordc c = true) v -> forall w l, lex w (v ++ l) = lex (w ++ v) l.
Proof.
  intros H. induction H as [|c v Hc Hv IH]; intros w l; cbn; [by rewrite app_nil_r|].
  unfold wordc in Hc. apply andb_true_iff in Hc as [H1%negb_true_iff H2%negb_true_iff]. rewrite H1, H2.
  destruct (Z.eqb_spec c 62) as [->|]; [done|]. rewrite IH. by rewrite <- app_assoc.
Qed.

Lemma lex_flush w l : (match l with [] => True | c :: _ => wordc c = false end) -> lex w l = flush w ++ lex [] l.
Proof.
  destruct l as [|c l]; cbn; [by rewrite app_nil_r|]. intros H. unfold wordc in H. apply andb_false_iff in H.
  destruct (among whitespace c); [done|]. destruct (c =? 62); [done|]. by destruct (among symbols c), H.
Qed.

Lemma text_slice q e : (q <= e <= es)%nat -> drop q (take es b) = take (e - q) (drop q b) ++ drop e (take es b).
Proof.
  intros H. rewrite <- (take_drop (e - q) (drop q (take es b))). rewrite drop_drop.
  replace (q + (e - q))%nat with e by lia. f_equal. rewrite skipn_firstn_comm, take_take. f_equal. lia.
Qed.

Lemma slice_forall (P : Z -> Prop) q e :
  (e <= es)%nat -> (forall i, (q <= i < e)%nat -> P (byte_at b i)) -> Forall P (take (e - q) (drop q b)).
Proof.
  intros He H. apply Forall_lookup. intros i c Hc. apply lookup_take_Some in Hc as [Hc Hi]. rewrite lookup_drop in Hc.
  rewrite <- (nth_lookup_Some _ _ 0 _ Hc). apply H. lia.
Qed.

Lemma text_lt p : byte_at b p <> 0 -> (p <= es)%nat -> (p < es)%nat.
Proof. intros H1 H2. destruct (decide (p = es)) as [->|]; [by rewrite Hnul in H1|lia]. Qed.

(** A word starts at [q]. *)
Lemma rest_word q :
  (q < es)%nat -> wordc (byte_at b q) = true ->
  let e := skip wordc b (es - q) q in
  exists w, rest q = Word w :: rest e /\ span b q e w /\ (q < e <= es)%nat.
Proof.
  intros Hq Hw e. destruct (skip_spec wordc b (es - q) q) as ([H1 H2] & H3 & H4). fold e in H1, H2, H3, H4.
  assert (q < e)%nat as Hlt.
  { destruct (decide (e = q)) as [Heq|]; [|lia]. exfalso. assert (e < q + (es - q))%nat as Hx by lia.
    specialize (H4 Hx). rewrite Heq in H4. congruence. }
  exists (take (e - q) (drop q b)).
  assert (Forall (fun c => wordc c = true) (take (e - q) (drop q b))) as Hall by (apply slice_forall; [lia|]; apply H3).
  assert (take (e - q) (drop q b) <> []) as Hne.
  { intros E. apply (f_equal length) in E. rewrite length_take, length_drop in E. cbn in E. lia. }
  split_and!; [|constructor; [done|lia|done| |]|done|lia].
  - unfold rest, tokens. rewrite (text_slice q e) by lia. rewrite lex_word by done. cbn [app]. rewrite lex_flush.
    + by destruct (take (e - q) (drop q b)).
    + destruct (decide (e = es)) as [->|]; [by rewrite text_nil|]. rewrite text_cons by lia. apply H4. lia.
  - apply slice_forall; [lia|]. intros i Hi. split; [apply Htext; lia|by apply H3].
  - destruct (decide (e = es)) as [->|]; [by left|right; apply H4; lia].
Qed.

(** The symbols of one character. *)
Definition single (c : Z) : bool := (c =? 124) || (c =? 40) || (c =? 41) || (c =? 59) || (c =? 38) || (c =? 60).

Lemma among_symbols c : among symbols c = single c || (c =? 62).
Proof.
  unfold single. destruct (among symbols c) eqn:E.
  - apply among_iff in E; [|by repeat constructor]. unfold symbols in E. rewrite !elem_of_cons, elem_of_nil in E.
    by destruct E as [->|[->|[->|[->|[->|[->|[->|[]]]]]]]].
  - symmetry. apply not_true_iff_false. intros H. apply not_true_iff_false in E. apply E.
    apply among_iff; [by repeat constructor|]. rewrite !orb_true_iff, !Z.eqb_eq in H. unfold symbols. rewrite !elem_of_cons. tauto.
Qed.

(** What may start at a position that is not white space. *)
Inductive token_at (p : nat) : Prop :=
| at_end : p = es -> rest p = [] -> token_at p
| at_single : (p < es)%nat -> single (byte_at b p) = true -> rest p = Sym (byte_at b p) :: rest (S p) -> token_at p
| at_append : (S p < es)%nat -> byte_at b p = 62 -> byte_at b (S p) = 62 -> rest p = Sym 43 :: rest (S (S p)) -> token_at p
| at_out : (p < es)%nat -> byte_at b p = 62 -> byte_at b (S p) <> 62 -> rest p = Sym 62 :: rest (S p) -> token_at p
| at_word w e : (p < es)%nat -> wordc (byte_at b p) = true -> e = skip wordc b (es - p) p ->
    rest p = Word w :: rest e -> span b p e w -> (p < e <= es)%nat -> token_at p.

Lemma token_cases p : (p <= es)%nat -> (p = es \/ among whitespace (byte_at b p) = false) -> token_at p.
Proof.
  intros Hp [->|Hw]; [apply at_end; [done|]; unfold rest; by rewrite text_nil|].
  destruct (decide (p = es)) as [->|Hne]; [apply at_end; [done|]; unfold rest; by rewrite text_nil|].
  assert (p < es)%nat as Hlt by lia.
  assert (rest p = lex [] (byte_at b p :: drop (S p) (take es b))) as Er by (unfold rest; by rewrite text_cons).
  cbn [lex] in Er. rewrite Hw in Er. destruct (Z.eqb_spec (byte_at b p) 62) as [E62|N62].
  - destruct (decide (S p = es)) as [Eq|Nq].
    + rewrite text_nil in Er by lia. apply at_out; [done|done|rewrite Eq, Hnul; done|].
      rewrite Er. unfold rest. by rewrite text_nil by lia.
    + rewrite text_cons in Er by lia. destruct (Z.eqb_spec (byte_at b (S p)) 62); [by apply at_append; [lia|..]|].
      apply at_out; [done..|]. rewrite Er. unfold rest. by rewrite (text_cons (S p)) by lia.
  - destruct (among symbols (byte_at b p)) eqn:Es.
    + apply at_single; [done| |by rewrite Er]. rewrite among_symbols in Es.
      apply orb_true_iff in Es as [|?%Z.eqb_eq]; done.
    + assert (wordc (byte_at b p) = true) as Hc by (unfold wordc; by rewrite Hw, Es).
      destruct (rest_word p Hlt Hc) as (w & E & Hs & Hlen). by eapply at_word.
Qed.

Lemma skip_ws_at p : (p <= es)%nat ->
  let p' := skip (among whitespace) b (es - p) p in
  (p <= p' <= es)%nat /\ rest p' = rest p /\ token_at p'.
Proof.
  intros Hp p'. destruct (skip_spec (among whitespace) b (es - p) p) as ([H1 H2] & H3 & H4). fold p' in H1, H2, H3, H4.
  split; [lia|]. split; [apply rest_skip; lia|]. apply token_cases; [lia|].
  destruct (decide (p' = es)); [by left|right; apply H4; lia].
Qed.

Definition good (s : shell) : Prop := buf s = b /\ (ps s <= es)%nat.

Definition starts (toks : list Z) (ts : list tok) : bool :=
  match ts with Sym c :: _ => among toks (if c =? 43 then 62 else c) | _ => false end.

Lemma peek_run toks s :
  good s -> (forall c, among toks c = true -> among symbols c = true) ->
  exists p, peek es toks s = (Ok (starts toks (rest (ps s))), set_ps p s) /\ (p <= es)%nat
    /\ rest p = rest (ps s) /\ (rest p = [] -> p = es).
Proof.
  intros [Hb Hp] Ht. destruct (skip_ws_at (ps s) Hp) as (H1 & H2 & H3).
  set (p := skip _ _ _ _) in *. exists p. unfold peek. mrun. rewrite Hb. fold p. rewrite <- H2.
  assert (nz (byte_at b p) && among toks (byte_at b p) = starts toks (rest p)) as ->.
  { destruct H3 as [E E'|H Hs E|H E1 E2 E|H E1 E2 E|w e H Hw Ee E _ _];
      (rewrite E' || rewrite E); cbn [starts].
    - rewrite E, Hnul. done.
    - unfold nz. rewrite (proj2 (Z.eqb_neq _ 0)) by (apply Htext; lia). cbn [negb andb].
      destruct (Z.eqb_spec (byte_at b p) 43) as [E43|]; [by rewrite E43 in Hs|done].
    - by rewrite E1.
    - by rewrite E1.
    - apply andb_false_iff. right. apply not_true_iff_false. intros Hx%Ht. unfold wordc in Hw.
      rewrite Hx in Hw. cbn in Hw. by rewrite andb_false_r in Hw. }
  split_and!; try done; try lia.
  intros E. destruct H3 as [E' _| | | |]; congruence.
Qed.

(** The token read and the tokens left. *)
Definition token_read (ts : list tok) (r : Z) (q e : nat) (ts' : list tok) : Prop :=
  match ts with
  | [] => r = 0 /\ ts' = []
  | Sym c :: ts1 => r = c /\ c <> 0 /\ c <> 97 /\ ts' = ts1
  | Word w :: ts1 => r = 97 /\ span b q e w /\ ts' = ts1
  end.

Lemma single_code c : single c = true -> c <> 0 /\ c <> 97.
Proof. unfold single. rewrite !orb_true_iff, !Z.eqb_eq. lia. Qed.

Lemma gettoken_run s : good s ->
  exists r q e p, gettoken es s = (Ok (r, q, e), set_ps p s) /\ (p <= es)%nat
    /\ token_read (rest (ps s)) r q e (rest p).
Proof.
  intros [Hb Hp]. destruct (skip_ws_at (ps s) Hp) as (H1 & H2 & H3).
  unfold gettoken. mrun. rewrite Hb. fold (single (byte_at b (skip (among whitespace) b (es - ps s) (ps s)))).
  set (q := skip (among whitespace) _ _ _) in *. rewrite <- H2.
  assert (forall e, (e <= es)%nat -> let p := skip (among whitespace) b (es - e) e in (p <= es)%nat /\ rest p = rest e) as Hnext.
  { intros e He. destruct (skip_ws_at e He) as (G1 & G2 & _). split; [lia|done]. }
  destruct H3 as [E E'|H Hs E|H E1 E2 E|H E1 E2 E|w e H Hw Ee E Hsp He].
  - rewrite E, Hnul. cbn [Z.eqb]. eexists _, _, _, _. split; [done|]. destruct (Hnext es ltac:(lia)) as [N1 N2].
    split; [done|]. rewrite N2. rewrite E in E'. rewrite E'. done.
  - rewrite Hs. destruct (single_code _ Hs). rewrite (proj2 (Z.eqb_neq _ 0)) by done. eexists _, _, _, _. split; [done|].
    destruct (Hnext (S q) ltac:(lia)) as [N1 N2]. split; [done|]. rewrite N2, E. by split_and!.
  - rewrite E1, E2. cbn [Z.eqb Pos.eqb single orb]. eexists _, _, _, _. split; [done|].
    destruct (Hnext (S (S q)) ltac:(lia)) as [N1 N2]. split; [done|]. rewrite N2, E. by split_and!.
  - rewrite E1, (proj2 (Z.eqb_neq (byte_at b (S q)) 62)) by done. cbn [Z.eqb Pos.eqb single orb]. eexists _, _, _, _. split; [done|].
    destruct (Hnext (S q) ltac:(lia)) as [N1 N2]. split; [done|]. rewrite N2, E. by split_and!.
  - rewrite (proj2 (Z.eqb_neq _ 0)) by (apply Htext; lia).
    pose proof Hw as Hw'. unfold wordc in Hw'. rewrite among_symbols in Hw'.
    apply andb_true_iff in Hw' as [_ [-> ->]%negb_true_iff%orb_false_iff].
    fold wordc. change (fun x => negb (among whitespace x) && negb (among symbols x)) with wordc. rewrite <- Ee.
    eexists _, _, _, _. split; [done|]. destruct (Hnext e ltac:(lia)) as [N1 N2]. split; [done|]. rewrite N2, E. by split_and!.
Qed.

(** ** The parser and the parser on tokens *)

Lemma among_cons x l c : x <> 0 -> among (x :: l) c = (c =? x) || among l c.
Proof.
  intros Hx. unfold among. cbn [strchr]. unfold nz. rewrite (proj2 (Z.eqb_neq x 0) Hx), (Z.eqb_sym x c). cbn [negb].
  destruct (c =? x); [done|]. by destruct (strchr l c).
Qed.

Lemma starts_one x ts : x <> 0 -> x <> 62 -> x <> 43 -> starts [x] ts = is_sym x ts.
Proof.
  intros H1 H2 H3. destruct ts as [|[c|]]; cbn; [done| |done]. rewrite among_cons, orb_false_r by done.
  destruct (Z.eqb_spec c 43) as [->|]; [|done]. rewrite !(proj2 (Z.eqb_neq _ _)) by lia. done.
Qed.

Lemma starts_redir ts : starts [60; 62] ts = match ts with Sym c :: _ => is_redir c | _ => false end.
Proof.
  destruct ts as [|[c|]]; cbn [starts]; [done| |done]. unfold is_redir.
  destruct (Z.eqb_spec c 43) as [->|N]; [done|]. rewrite !among_cons by done. change (among [] c) with false. by rewrite !orb_false_r.
Qed.

Lemma starts_stop c ts : starts [124; 41; 38; 59] (Sym c :: ts) = among [124; 41; 38; 59] c.
Proof. cbn [starts]. by destruct (Z.eqb_spec c 43) as [->|]. Qed.

Lemma sub_symbols l c : Forall (fun c => among symbols c = true) l -> Forall (fun c => c <> 0) l ->
  among l c = true -> among symbols c = true.
Proof. intros H H0 Hc. apply among_iff in Hc; [|done]. by eapply Forall_forall in H. Qed.

Ltac symbols_in := let c := fresh in intros c; apply sub_symbols; repeat (constructor; [done|]); constructor.

(** What a routine has done when it has read the tokens up to [ts]: the first [n]
    nodes are as before, and memory for [2 * length ts + k] nodes is left. *)
Record after (n : nat) (s s' : shell) (ts : list tok) (k : nat) : Prop := {
  af_good : good s';
  af_rest : rest (ps s') = ts;
  af_err : err s' = err s;
  af_room : (2 * length ts + k <= room s')%nat;
  af_len : (length (nodes s) <= length (nodes s'))%nat;
  af_same : same n (nodes s) (nodes s');
  af_total : (length (nodes s') + room s' = length (nodes s) + room s)%nat;
}.

Lemma new_run n s : (0 < room s)%nat ->
  new n s = (Ok (length (nodes s)), mkSh (ps s) (nodes s ++ [n]) (room s - 1) (buf s) (err s)).
Proof. intros H. unfold new. mrun. destruct (room s) as [|r]; [lia|]. cbn. by rewrite Nat.sub_0_r. Qed.

Abbreviation W := (span b).

Lemma parseredirs_run x fuel : forall s p rs0 k,
  good s -> (length (rest (ps s)) < fuel)%nat -> (p < length (nodes s))%nat -> chain W (nodes s) x p rs0 ->
  (2 * length (rest (ps s)) + k <= room s)%nat ->
  match rredirs rs0 (rest (ps s)) with
  | inl m => exists s', parseredirs es fuel p s = (Panic m, s') /\ err s' = err s
  | inr (rs, ts) => exists p' s', parseredirs es fuel p s = (Ok p', s') /\ after (length (nodes s)) s s' ts k
      /\ (p' < length (nodes s'))%nat /\ chain W (nodes s') x p' rs /\ starts [60; 62] ts = false
  end.
Proof.
  induction fuel as [|fuel IH]; intros s p rs0 k Hg Hf Hp Hc Hr; [lia|]. cbn [parseredirs].
  destruct (peek_run [60; 62] s Hg ltac:(symbols_in)) as (p1 & E1 & L1 & R1 & _).
  rewrite (bind_ok _ _ _ _ _ E1), starts_redir.
  assert (good (set_ps p1 s)) as Hg1 by (split; [apply Hg|done]).
  assert (forall rs, chain W (nodes s) x p rs -> starts [60; 62] (rest (ps s)) = false ->
    exists p' s', ret p (set_ps p1 s) = (Ok p', s') /\ after (length (nodes s)) s s' (rest (ps s)) k
      /\ (p' < length (nodes s'))%nat /\ chain W (nodes s') x p' rs /\ starts [60; 62] (rest (ps s)) = false) as Hstop.
  { intros rs Hrs Hs. exists p, (set_ps p1 s). split; [done|]. split; [by constructor|]. done. }
  destruct (rest (ps s)) as [|[c|w] ts] eqn:Er; cbn [rredirs].
  - apply Hstop; done.
  - destruct (is_redir c) eqn:Ec; [|apply Hstop; [done|]; by rewrite starts_redir].
    destruct (gettoken_run (set_ps p1 s) Hg1) as (r1 & q1 & e1 & p2 & E2 & L2 & T2).
    rewrite (bind_ok _ _ _ _ _ E2). cbn [ps set_ps] in T2. rewrite R1 in T2. destruct T2 as (-> & _ & _ & R2).
    assert (good (set_ps p2 (set_ps p1 s))) as Hg2 by (split; [apply Hg|done]).
    destruct (gettoken_run _ Hg2) as (r2 & q2 & e2 & p3 & E3 & L3 & T3).
    rewrite (bind_ok _ _ _ _ _ E3). cbn [ps set_ps] in T3. rewrite R2 in T3.
    destruct ts as [|[d|w] ts].
    + destruct T3 as [-> _]. eexists. by split.
    + destruct T3 as (-> & _ & Hd & _). rewrite (proj2 (Z.eqb_neq d 97)) by done. eexists. by split.
    + destruct T3 as (-> & Hsp & R3). cbn [Z.eqb Pos.eqb negb]. cbn [length] in Hr, Hf.
      set (s3 := set_ps p3 (set_ps p2 (set_ps p1 s))).
      assert ((if c =? 60 then redircmd p q2 e2 O_RDONLY 0
               else if c =? 62 then redircmd p q2 e2 (Z.lor O_WRONLY O_CREATE) 1
               else if c =? 43 then redircmd p q2 e2 (Z.lor O_WRONLY O_CREATE) 1 else ret p) s3
              = new (REDIR p q2 e2 (rmode (c =? 60)) (rfd (c =? 60))) s3) as Ered.
      { unfold is_redir in Ec. destruct (c =? 60); [done|]. destruct (c =? 62); [done|]. by destruct (c =? 43). }
      rewrite new_run in Ered by (cbn; lia). rewrite (bind_ok _ _ _ _ _ Ered).
      set (s4 := mkSh _ _ _ _ _).
      assert (chain W (nodes s4) x (length (nodes s)) (rs0 ++ [(c, w)])) as Hc4.
      { eapply chain_snoc; [|cbn; rewrite lookup_app_r, Nat.sub_diag by lia; done|done|done].
        apply (chain_same _ (length (nodes s)) (nodes s)); [exact Hc|apply same_app, Nat.le_refl|done]. }
      assert (length (nodes s4) = S (length (nodes s))) as L4 by (cbn; rewrite length_app; cbn; lia).
      assert (room s4 = room s - 1)%nat as M4 by done.
      assert (rest (ps s4) = ts) as R4 by exact R3.
      specialize (IH s4 (length (nodes s)) (rs0 ++ [(c, w)]) k). rewrite R4 in IH.
      specialize (IH ltac:(split; [apply Hg|done]) ltac:(lia) ltac:(lia) Hc4 ltac:(lia)).
      destruct (rredirs (rs0 ++ [(c, w)]) ts) as [m|[rs ts']]; [exact IH|].
      destruct IH as (p' & s' & E & [A1 A2 A3 A4 A5 A6 A7] & B1 & B2 & B3). exists p', s'. split; [exact E|].
      split; [|done]. constructor; try done.
      * lia.
      * eapply same_trans; [|eapply same_le; [|exact A6]; lia]. apply same_app, Nat.le_refl.
      * lia.
  - apply Hstop; done.
Qed.

Lemma rargs_redirs n : forall ts ws rs, (length ts <= n)%nat ->
  rargs ws rs ts = match rredirs rs ts with inl m => inl m | inr (rs', ts') => rargs ws rs' ts' end.
Proof.
  induction n as [|n IH]; intros ts ws rs Hn; [destruct ts; [done|cbn in Hn; lia]|].
  destruct ts as [|[x|w] ts]; cbn [rredirs]; [done| |done].
  destruct (is_redir x) eqn:Ex; [|done]. cbn [rargs]. rewrite Ex.
  destruct ts as [|[y|w] ts]; [done|done|]. apply IH. cbn in Hn. lia.
Qed.

(** Storing a word as the next argument. *)
Lemma set_arg_run x q e w ws s :
  exec_at W (nodes s) x ws -> span b q e w ->
  exists ns, set_arg x (length ws) (Some q) (Some e) s = (Ok tt, set_nodes ns s)
    /\ ((S (length ws) < MAXARGS)%nat -> exec_at W ns x (ws ++ [w]))
    /\ length ns = length (nodes s) /\ same x (nodes s) ns
    /\ forall r rs, chain W (nodes s) x r rs -> chain W ns x r rs.
Proof.
  intros (argv & eargv & Ex & A) Hsp. destruct A as [A1 A2 A3 A4].
  exists (<[x := EXEC (<[length ws := Some q]> argv) (<[length ws := Some e]> eargv)]> (nodes s)). split_and!.
  - unfold set_arg. mrun. rewrite Ex, A1, (proj2 (Nat.ltb_lt _ _)) by done. done.
  - intros Hl. eexists _, _. split; [apply list_lookup_insert_eq; by eapply lookup_lt_Some|].
    constructor; rewrite ?length_insert; [done|done|rewrite length_app; cbn; lia|].
    intros i v Hv. destruct (decide (i = length ws)) as [->|Hne].
    + rewrite lookup_app_r, Nat.sub_diag in Hv by lia. injection Hv as <-. exists q, e.
      by rewrite !list_lookup_insert_eq by lia.
    + apply lookup_snoc_Some in Hv as [[_ Hv]|[? _]]; [|lia]. rewrite !list_lookup_insert_ne by done. by apply A4.
  - apply length_insert.
  - intros i Hi. apply list_lookup_insert_ne. lia.
  - intros r rs. apply chain_insert.
Qed.

Lemma parseargs_run x fuel : forall s p ws rs k,
  good s -> (length (rest (ps s)) < fuel)%nat -> (p < length (nodes s))%nat -> chain W (nodes s) x p rs ->
  exec_at W (nodes s) x ws -> starts [60; 62] (rest (ps s)) = false -> (2 * length (rest (ps s)) + k <= room s)%nat ->
  match rargs ws rs (rest (ps s)) with
  | inl m => exists s', parseargs es fuel x p (length ws) s = (Panic m, s') /\ err s' = err s
  | inr (ws', rs', ts) => exists p' s', parseargs es fuel x p (length ws) s = (Ok (p', length ws'), s') /\ after x s s' ts k
      /\ (p' < length (nodes s'))%nat /\ chain W (nodes s') x p' rs' /\ exec_at W (nodes s') x ws'
  end.
Proof.
  induction fuel as [|fuel IH]; intros s p ws rs k Hg Hf Hp Hc Hx Hs Hr; [lia|]. cbn [parseargs].
  destruct (peek_run [124; 41; 38; 59] s Hg ltac:(symbols_in)) as (p1 & E1 & L1 & R1 & _).
  rewrite (bind_ok _ _ _ _ _ E1). set (s1 := set_ps p1 s) in *.
  assert (good s1) as Hg1 by (split; [apply Hg|done]).
  assert (forall s', (exists p2, s' = set_ps p2 s /\ (p2 <= es)%nat /\ rest p2 = rest (ps s)) ->
    exists p' s'', ret (p, length ws) s' = (Ok (p', length ws), s'') /\ after x s s'' (rest (ps s)) k
      /\ (p' < length (nodes s''))%nat /\ chain W (nodes s'') x p' rs /\ exec_at W (nodes s'') x ws) as Hstop.
  { intros s' (p2 & -> & L2 & R2). exists p, (set_ps p2 s). split; [done|]. split; [|done]. constructor; try done.
    split; [apply Hg|done]. }
  rewrite starts_redir in Hs. destruct (gettoken_run s1 Hg1) as (r1 & q1 & e1 & p2 & E2 & L2 & T2).
  cbn [s1 ps set_ps] in T2. change (ps s1) with p1 in T2. rewrite R1 in T2.
  destruct (rest (ps s)) as [|[c|w] ts] eqn:Er; cbn [rargs].
  - cbn [starts]. rewrite (bind_ok _ _ _ _ _ E2). destruct T2 as [-> R2]. cbn [Z.eqb].
    apply Hstop. by exists p2.
  - rewrite Hs, starts_stop. destruct (among [124; 41; 38; 59] c) eqn:Ec.
    + apply Hstop. by exists p1.
    + rewrite (bind_ok _ _ _ _ _ E2). destruct T2 as (-> & H0 & H97 & _).
      rewrite (proj2 (Z.eqb_neq c 0)), (proj2 (Z.eqb_neq c 97)) by done. eexists. by split.
  - cbn [starts]. rewrite (bind_ok _ _ _ _ _ E2). destruct T2 as (-> & Hsp & R2). cbn [Z.eqb Pos.eqb negb].
    destruct (set_arg_run x q1 e1 w ws (set_ps p2 s1) Hx Hsp) as (ns & E3 & X3 & N3 & S3 & C3).
    rewrite (bind_ok _ _ _ _ _ E3). cbn [nodes set_ps s1] in N3. cbn [length] in *.
    destruct (Nat.leb_spec MAXARGS (S (length ws))) as [Hm|Hm]; [eexists; by split|].
    set (s3 := set_nodes ns _). assert (rest (ps s3) = ts) as R3 by exact R2.
    assert (good s3) as Hg3 by (split; [apply Hg|done]).
    assert (room s3 = room s) as M3 by done. assert (length (nodes s3) = length (nodes s)) as N3' by exact N3.
    pose proof (parseredirs_run x fuel s3 p rs k Hg3 ltac:(rewrite R3; lia) ltac:(lia) (C3 _ _ Hc) ltac:(rewrite R3; lia)) as Hred.
    rewrite (rargs_redirs (length ts)) by done. rewrite R3 in Hred.
    destruct (rredirs rs ts) as [m|[rs' ts']] eqn:Ered.
    + destruct Hred as (s' & E4 & Eerr). exists s'. unfold bind. rewrite E4. by split.
    + destruct Hred as (p' & s' & E4 & [A1 A2 A3 A4 A5 A6 A7] & B1 & B2 & B3). rewrite (bind_ok _ _ _ _ _ E4).
      assert (exec_at W (nodes s') x (ws ++ [w])) as X'.
      { destruct (X3 Hm) as (argv & eargv & El & Ha). exists argv, eargv. split; [|done]. rewrite A6; [exact El|].
        apply lookup_lt_Some in El. rewrite N3'. lia. }
      eapply rredirs_sound in Ered as (rs1 & _ & Ets & _); [|done].
      assert (length ts' <= length ts)%nat as Hlen by (rewrite Ets, length_app; lia).
      specialize (IH s' p' (ws ++ [w]) rs' k A1). rewrite A2, length_app, Nat.add_1_r in IH.
      specialize (IH ltac:(lia) B1 B2 X' B3 A4).
      destruct (rargs (ws ++ [w]) rs' ts') as [m|[[ws' rs''] ts'']].
      * destruct IH as (s'' & E5 & Eerr). exists s''. split; [exact E5|]. by rewrite Eerr, A3.
      * destruct IH as (p'' & s'' & E5 & [D1 D2 D3 D4 D5 D6 D7] & F). exists p'', s''. split; [exact E5|]. split; [|done].
        constructor; try done; [by rewrite D3, A3|lia| |lia].
        eapply same_trans; [exact S3|]. eapply same_trans; [|exact D6].
        eapply same_le; [|exact A6]. apply chain_ge in Hc. lia.
Qed.

Lemma parseback_run fuel : forall s p c k,
  good s -> (length (rest (ps s)) < fuel)%nat -> (p < length (nodes s))%nat -> Tree W (nodes s) p c ->
  (2 * length (rest (ps s)) + k <= room s)%nat ->
  let '(c', ts) := rback c (rest (ps s)) in
  exists p' s', parseback es fuel p s = (Ok p', s') /\ after (length (nodes s)) s s' ts k
    /\ (p' < length (nodes s'))%nat /\ Tree W (nodes s') p' c'.
Proof.
  induction fuel as [|fuel IH]; intros s p c k Hg Hf Hp Ht Hr; [lia|]. cbn [parseback].
  destruct (peek_run [38] s Hg ltac:(symbols_in)) as (p1 & E1 & L1 & R1 & _).
  rewrite (bind_ok _ _ _ _ _ E1), starts_one by done. set (s1 := set_ps p1 s) in *.
  assert (good s1) as Hg1 by (split; [apply Hg|done]).
  assert (exists p' s', ret p s1 = (Ok p', s') /\ after (length (nodes s)) s s' (rest (ps s)) k
    /\ (p' < length (nodes s'))%nat /\ Tree W (nodes s') p' c) as Hstop by (exists p, s1; split; [done|]; split; [by constructor|done]).
  destruct (rest (ps s)) as [|[x|w] ts] eqn:Er; cbn [is_sym rback]; [exact Hstop| |exact Hstop].
  destruct (Z.eqb_spec x 38) as [->|]; [|exact Hstop].
  destruct (gettoken_run s1 Hg1) as (r1 & q1 & e1 & p2 & E2 & L2 & T2).
  change (ps s1) with p1 in T2. rewrite R1 in T2. destruct T2 as (_ & _ & _ & R2).
  rewrite (bind_ok _ _ _ _ _ E2). cbn [length] in *. unfold backcmd.
  rewrite (bind_ok _ _ _ _ _ (new_run (BACK p) (set_ps p2 s1) ltac:(cbn; lia))).
  set (s3 := mkSh _ _ _ _ _). assert (length (nodes s3) = S (length (nodes s))) as L3 by (cbn; rewrite length_app; cbn; lia).
  assert (room s3 = room s - 1)%nat as M3 by done.
  assert (same (length (nodes s)) (nodes s) (nodes s3)) as S3 by (apply same_app, Nat.le_refl).
  assert (Tree W (nodes s3) (length (nodes s)) (CBack c)) as T3.
  { eapply Tree_back; [cbn; rewrite lookup_app_r, Nat.sub_diag by lia; done|exact Hp|]. by eapply Tree_same. }
  assert (rest (ps s3) = ts) as R3 by exact R2.
  specialize (IH s3 (length (nodes s)) (CBack c) k). rewrite R3 in IH.
  specialize (IH ltac:(split; [apply Hg|done]) ltac:(lia) ltac:(lia) T3 ltac:(lia)).
  destruct (rback (CBack c) ts) as [c' ts'].
  destruct IH as (p' & s' & E & [A1 A2 A3 A4 A5 A6 A7] & B). exists p', s'. split; [exact E|]. split; [|exact B].
  constructor; try done; [lia| |lia]. eapply same_trans; [exact S3|]. eapply same_le; [|exact A6]. lia.
Qed.

(** The outcome [o] of a routine run from [s] is what the parser on tokens says. *)
Definition parses (r : option (string + cmd * list tok)) (o : res nat * shell) (s : shell) (k : nat) : Prop :=
  match r with
  | None => True
  | Some (inl e) => exists s', o = (Panic e, s') /\ err s' = err s
  | Some (inr (c, ts)) => exists p s', o = (Ok p, s') /\ after (length (nodes s)) s s' ts k
      /\ (p < length (nodes s'))%nat /\ Tree W (nodes s') p c
  end.

Lemma after_trans n s1 s2 s3 ts2 k2 ts3 k3 :
  after n s1 s2 ts2 k2 -> after (length (nodes s2)) s2 s3 ts3 k3 -> (n <= length (nodes s1))%nat -> after n s1 s3 ts3 k3.
Proof.
  intros [] [] Hn. constructor; try done; [congruence|lia| |lia]. eapply same_trans; [done|]. eapply same_le; [|done]. lia.
Qed.

Lemma after_ps n s s' ts k p : after n s s' ts k -> (p <= es)%nat -> rest p = ts -> after n s (set_ps p s') ts k.
Proof. intros [] Hp Hr. constructor; try done. split; [apply af_good0|done]. Qed.

Lemma parses_ps r o s k p : parses r o (set_ps p s) k -> parses r o s k.
Proof.
  destruct r as [[e|[c ts]]|]; [done| |done]. intros (p' & s' & E & A & H). exists p', s'. split; [done|].
  split; [|done]. destruct A. by constructor.
Qed.

(** Reading the symbol [x] when it is next. *)
Lemma symbol_run x s : good s -> x <> 0 -> x <> 62 -> x <> 43 -> among symbols x = true ->
  exists p1, peek es [x] s = (Ok (is_sym x (rest (ps s))), set_ps p1 s) /\ (p1 <= es)%nat /\ rest p1 = rest (ps s)
  /\ (is_sym x (rest (ps s)) = true -> exists t p2, gettoken es (set_ps p1 s) = (Ok t, set_ps p2 s) /\ (p2 <= es)%nat
        /\ rest p2 = tail (rest (ps s))).
Proof.
  intros Hg H0 H62 H43 Hx. destruct (peek_run [x] s Hg) as (p1 & E1 & L1 & R1 & _).
  { intros c. rewrite among_cons, orb_false_r by done. by intros ->%Z.eqb_eq. }
  assert (good (set_ps p1 s)) as Hg1 by (split; [apply Hg|done]).
  rewrite starts_one in E1 by done. exists p1. split_and!; try done. intros Hs.
  destruct (gettoken_run _ Hg1) as (r1 & q1 & e1 & p2 & E2 & L2 & T2). exists (r1, q1, e1), p2. split; [exact E2|].
  split; [done|]. cbn [ps set_ps] in T2. rewrite R1 in T2. apply is_sym_cons in Hs. rewrite Hs in T2.
  by destruct T2 as (_ & _ & _ & ?).
Qed.

(** A command, and if the symbol [x] follows it, another one and a node for both. *)
Lemma join_run x (mk : nat -> nat -> node) (C : cmd -> cmd -> cmd) (m : SM nat) rr s0 s p c ts k :
  (forall ns p l r cl cr, ns !! p = Some (mk l r) -> (l < p)%nat -> (r < p)%nat -> Tree W ns l cl -> Tree W ns r cr -> Tree W ns p (C cl cr)) ->
  x <> 0 -> x <> 62 -> x <> 43 -> among symbols x = true ->
  (forall s k, good s -> (length (rest (ps s)) < length ts)%nat -> (2 * length (rest (ps s)) + 1 + k <= room s)%nat ->
    parses (rr (rest (ps s))) (m s) s k) ->
  after (length (nodes s0)) s0 s ts k -> (p < length (nodes s))%nat -> Tree W (nodes s) p c ->
  parses (if is_sym x ts then
            match rr (tail ts) with Some (inr (c', ts')) => Some (inr (C c c', ts')) | e => e end
          else Some (inr (c, ts)))
    ((y <- peek es [x] ;; if y then gettoken es ;; r <- m ;; new (mk p r) else ret p) s) s0 k.
Proof.
  intros HC X1 X2 X3 X4 IH A Hp T. pose proof (af_rest _ _ _ _ _ A) as R. pose proof (af_room _ _ _ _ _ A) as Hroom.
  destruct (symbol_run x s (af_good _ _ _ _ _ A) X1 X2 X3 X4) as (q1 & E1 & L1 & R1 & N1).
  rewrite (bind_ok _ _ _ _ _ E1). rewrite R in *. destruct (is_sym x ts) eqn:Es.
  2: { exists p, (set_ps q1 s). split; [done|]. split; [|done]. by apply after_ps. }
  destruct (N1 eq_refl) as (t & q2 & E2 & L2 & R2). rewrite (bind_ok _ _ _ _ _ E2).
  apply is_sym_cons in Es. assert (length ts = S (length (tail ts))) as Hl by (rewrite Es at 1; done).
  specialize (IH (set_ps q2 s) (S k) ltac:(split; [apply A|done])). cbn [ps set_ps room] in IH. rewrite R2 in IH.
  specialize (IH ltac:(lia) ltac:(lia)). destruct (rr (tail ts)) as [[e|[c' ts']]|]; [| |done].
  { destruct IH as (s' & E3 & He). exists s'. unfold bind. rewrite E3. split; [done|]. rewrite He. apply A. }
  destruct IH as (p' & s' & E3 & A' & Hp' & T'). rewrite (bind_ok _ _ _ _ _ E3).
  pose proof (af_len _ _ _ _ _ A') as Hlen. pose proof (af_room _ _ _ _ _ A') as Hroom'. cbn [nodes set_ps] in Hlen.
  rewrite new_run by lia. eexists _, _. split; [done|].
  assert (same (length (nodes s')) (nodes s') (nodes s' ++ [mk p p'])) as Hs by (apply same_app, Nat.le_refl).
  assert (after (length (nodes s0)) s0 s' ts' (S k)) as A0.
  { eapply after_trans; [exact A|destruct A'; by constructor|done]. }
  split; [|cbn; rewrite length_app; split; [cbn; lia|]].
  - eapply after_trans; [exact A0| |done]. destruct A'. constructor; cbn; rewrite ?length_app; cbn; try done; lia.
  - apply (HC _ _ p p'); [rewrite lookup_app_r, Nat.sub_diag by lia; done|lia|done| |by eapply Tree_same].
    eapply Tree_same; [|exact Hs|lia]. eapply Tree_same; [exact T|apply A'|done].
Qed.

(** A simple command that is not a block. *)
Lemma exec_run n s k :
  good s -> (length (rest (ps s)) < n)%nat -> (2 * length (rest (ps s)) + 1 + k <= room s)%nat ->
  parses (match rargs [] [] (rest (ps s)) with
          | inl m => Some (inl m)
          | inr (ws, rs, ts1) => Some (inr (wrap (CExec ws) rs, ts1))
          end)
    ((x <- execcmd ;; r <- parseredirs es n x ;; t <- parseargs es n x r 0 ;;
      let '(r, argc) := t in set_arg x argc None None ;; ret r) s) s k.
Proof.
  intros Hg Hf Hr. unfold execcmd. rewrite (bind_ok _ _ _ _ _ (new_run _ s ltac:(lia))).
  set (x := length (nodes s)). set (s1 := mkSh _ _ _ _ _).
  assert (exec_at W (nodes s1) x []) as X1.
  { eexists _, _. split; [cbn; rewrite lookup_app_r, Nat.sub_diag by (unfold x; lia); done|].
    constructor; try done. unfold MAXARGS. cbn. lia. }
  assert (length (nodes s1) = S x) as L1 by (cbn; rewrite length_app; cbn; unfold x; lia).
  assert (room s1 = room s - 1)%nat as M1 by done.
  assert (same x (nodes s) (nodes s1)) as S1 by (apply same_app, Nat.le_refl).
  pose proof (parseredirs_run x n s1 x [] k Hg Hf ltac:(lia) (chain_nil _ _ _) ltac:(cbn [ps s1]; lia)) as Hred.
  rewrite (rargs_redirs (length (rest (ps s)))) by done. change (rest (ps s1)) with (rest (ps s)) in Hred.
  destruct (rredirs [] (rest (ps s))) as [m|[rs ts]] eqn:Ered.
  { destruct Hred as (s' & E & He). exists s'. unfold bind. rewrite E. by split. }
  destruct Hred as (p2 & s2 & E2 & A2 & B2 & C2 & D2). rewrite (bind_ok _ _ _ _ _ E2).
  eapply rredirs_sound in Ered as (rs1 & _ & Ets & _); [|done].
  assert (length ts <= length (rest (ps s)))%nat as Hlen by (rewrite Ets, length_app; lia).
  pose proof (af_rest _ _ _ _ _ A2) as R2.
  assert (exec_at W (nodes s2) x []) as X2.
  { destruct X1 as (argv & eargv & El & Ha). exists argv, eargv. split; [|done].
    rewrite (af_same _ _ _ _ _ A2); [exact El|lia]. }
  pose proof (parseargs_run x n s2 p2 [] rs k (af_good _ _ _ _ _ A2) ltac:(rewrite R2; lia) B2 C2 X2
    ltac:(by rewrite R2) ltac:(rewrite R2; apply A2)) as Harg.
  rewrite R2 in Harg. cbn [length] in Harg. destruct (rargs [] rs ts) as [m|[[ws rs'] ts']].
  { destruct Harg as (s' & E & He). exists s'. unfold bind. rewrite E. split; [done|]. rewrite He. apply A2. }
  destruct Harg as (p3 & s3 & E3 & A3 & B3 & C3 & argv & eargv & X3 & Y3). rewrite (bind_ok _ _ _ _ _ E3).
  unfold set_arg. mrun. rewrite X3, (aa_argv _ _ _ _ Y3), (proj2 (Nat.ltb_lt _ _)) by apply Y3.
  eexists _, _. split; [done|]. cbn. rewrite length_insert.
  assert (x < length (nodes s3))%nat as Hx by (by eapply lookup_lt_Some). split; [|split; [done|]].
  - destruct A2 as [a1 a2 a3 a4 a5 a6 a7], A3 as [b1 b2 b3 b4 b5 b6 b7]. constructor; try done.
    + cbn. rewrite b3, a3. done.
    + cbn. rewrite length_insert. unfold x in Hx. lia.
    + eapply same_trans; [exact S1|]. eapply same_trans; [eapply same_le; [|exact a6]; lia|].
      eapply same_trans; [exact b6|]. intros i Hi. cbn. apply list_lookup_insert_ne. lia.
    + cbn. rewrite length_insert. unfold x in *. lia.
  - apply (Tree_chain _ _ x); [by apply chain_insert|]. eapply Tree_exec; [by apply list_lookup_insert_eq| |].
    + destruct Y3 as [Y1 Y2 Y3 Y4]. constructor; rewrite ?length_insert; try done.
      intros i w Hw. pose proof (lookup_lt_Some _ _ _ Hw). rewrite !list_lookup_insert_ne by lia. by apply Y4.
    + apply list_lookup_insert_eq. rewrite (aa_argv _ _ _ _ Y3). apply Y3.
Qed.

Lemma parser_run n :
  (forall s k, good s -> (4 * length (rest (ps s)) + 4 <= n)%nat -> (2 * length (rest (ps s)) + 1 + k <= room s)%nat ->
     parses (rline n (rest (ps s))) (parseline es n s) s k)
  /\ (forall s k, good s -> (4 * length (rest (ps s)) + 3 <= n)%nat -> (2 * length (rest (ps s)) + 1 + k <= room s)%nat ->
     parses (rpipe n (rest (ps s))) (parsepipe es n s) s k)
  /\ (forall s k, good s -> (4 * length (rest (ps s)) + 2 <= n)%nat -> (2 * length (rest (ps s)) + 1 + k <= room s)%nat ->
     parses (rexec n (rest (ps s))) (parseexec es n s) s k)
  /\ (forall s k, good s -> is_sym 40 (rest (ps s)) = true -> (4 * length (rest (ps s)) + 1 <= n)%nat ->
     (2 * length (rest (ps s)) + 1 + k <= room s)%nat ->
     parses (rblock n (rest (ps s))) (parseblock es n s) s k).
Proof.
  induction n as [|n (IHl & IHp & IHe & IHb)]; [split_and!; intros; lia|]. destruct (ref_sound n) as (Sl & Sp & Se & _).
  split_and!.
  - intros s k Hg Hf Hr. cbn [rline parseline].
    specialize (IHp s k Hg ltac:(lia) Hr). destruct (rpipe n (rest (ps s))) as [[m|[c ts1]]|] eqn:E; [| |done].
    { destruct IHp as (s' & E' & ?). exists s'. unfold bind. by rewrite E'. }
    destruct IHp as (p1 & s1 & E1 & A1 & B1 & T1). rewrite (bind_ok _ _ _ _ _ E1).
    apply Sp in E as (t0 & Et & _). assert (length ts1 <= length (rest (ps s)))%nat as Hl1 by (rewrite Et, length_app; lia).
    pose proof (af_rest _ _ _ _ _ A1) as R1. pose proof (af_room _ _ _ _ _ A1) as M1.
    pose proof (parseback_run n s1 p1 c k (af_good _ _ _ _ _ A1) ltac:(rewrite R1; lia) B1 T1 ltac:(rewrite R1; lia)) as Hb.
    rewrite R1 in Hb. destruct (rback c ts1) as [c2 ts2] eqn:Eb. apply rback_sound in Eb as (nb & -> & ->).
    destruct Hb as (p2 & s2 & E2 & A2 & B2 & T2). rewrite (bind_ok _ _ _ _ _ E2). rewrite length_app in Hl1.
    apply (join_run 59 LIST CList (parseline es n) (rline n)); try done; [intros; by eapply Tree_list| |by eapply after_trans].
    intros s' k' G' L' M'. apply IHl; [done|lia|done].
  - intros s k Hg Hf Hr. cbn [rpipe parsepipe].
    specialize (IHe s k Hg ltac:(lia) Hr). destruct (rexec n (rest (ps s))) as [[m|[c ts1]]|] eqn:E; [| |done].
    { destruct IHe as (s' & E' & ?). exists s'. unfold bind. by rewrite E'. }
    destruct IHe as (p1 & s1 & E1 & A1 & B1 & T1). rewrite (bind_ok _ _ _ _ _ E1).
    apply Se in E as (t0 & Et & _). assert (length ts1 <= length (rest (ps s)))%nat as Hl1 by (rewrite Et, length_app; lia).
    apply (join_run 124 PIPE CPipe (parsepipe es n) (rpipe n)); try done; [intros; by eapply Tree_pipe|].
    intros s' k' G' L' M'. apply IHp; [done|lia|done].
  - intros s k Hg Hf Hr. cbn [rexec parseexec].
    destruct (symbol_run 40 s Hg) as (q1 & E1 & L1 & R1 & _); [done..|]. rewrite (bind_ok _ _ _ _ _ E1).
    assert (good (set_ps q1 s)) as G1 by (split; [apply Hg|done]).
    destruct (is_sym 40 (rest (ps s))) eqn:Es.
    + specialize (IHb (set_ps q1 s) k G1). cbn [ps set_ps] in IHb. rewrite R1 in IHb. apply (parses_ps _ _ _ _ q1). by apply IHb; [|lia|].
    + pose proof (exec_run n (set_ps q1 s) k G1) as He. cbn [ps set_ps] in He. rewrite R1 in He. apply (parses_ps _ _ _ _ q1). by apply He; [lia|].
  - intros s k Hg Hs Hf Hr. cbn [rblock parseblock].
    destruct (symbol_run 40 s Hg) as (q1 & E1 & L1 & R1 & N1); [done..|]. rewrite (bind_ok _ _ _ _ _ E1). rewrite Hs in *.
    destruct (N1 eq_refl) as (t & q2 & E2 & L2 & R2). cbn [negb]. rewrite (bind_ok _ _ _ _ _ E2).
    apply is_sym_cons in Hs. assert (length (rest (ps s)) = S (length (tail (rest (ps s))))) as Hl by (rewrite Hs at 1; done).
    specialize (IHl (set_ps q2 s) (S k) ltac:(split; [apply Hg|done])). cbn [ps set_ps room] in IHl. rewrite R2 in IHl.
    specialize (IHl ltac:(lia) ltac:(lia)).
    destruct (rline n (tail (rest (ps s)))) as [[m|[c ts1]]|] eqn:E; [| |done].
    { destruct IHl as (s' & E' & ?). exists s'. unfold bind. by rewrite E'. }
    destruct IHl as (p1 & s1 & E3 & A1 & B1 & T1). rewrite (bind_ok _ _ _ _ _ E3).
    apply Sl in E as (t0 & Et & _). apply (f_equal length) in Et. rewrite length_app in Et.
    pose proof (af_rest _ _ _ _ _ A1) as R3. pose proof (af_room _ _ _ _ _ A1) as M1.
    destruct (symbol_run 41 s1 (af_good _ _ _ _ _ A1)) as (q3 & E4 & L4 & R4 & N4); [done..|]. rewrite (bind_ok _ _ _ _ _ E4).
    rewrite R3 in *. destruct (is_sym 41 ts1) eqn:Es.
    2: { exists (set_ps q3 s1). split; [done|]. apply A1. }
    destruct (N4 eq_refl) as (t4 & q4 & E5 & L5 & R5). cbn [negb]. rewrite (bind_ok _ _ _ _ _ E5).
    apply is_sym_cons in Es. assert (length ts1 = S (length (tail ts1))) as Hl1 by (rewrite Es at 1; done).
    pose proof (parseredirs_run p1 n (set_ps q4 s1) p1 [] k ltac:(split; [apply A1|done])) as Hred. cbn [ps set_ps room nodes] in Hred.
    rewrite R5 in Hred. specialize (Hred ltac:(lia) B1 (chain_nil _ _ _) ltac:(lia)).
    destruct (rredirs [] (tail ts1)) as [m|[rs ts2]]; [destruct Hred as (s' & E' & He); exists s'; split; [done|]; rewrite He; apply A1|].
    destruct Hred as (p2 & s2 & E6 & A2 & B2 & C2 & _). exists p2, s2. split; [exact E6|]. split; [|split; [done|]].
    + eapply (after_trans _ _ s1); [|destruct A2; by constructor|done]. destruct A1. by constructor.
    + eapply Tree_chain; [exact C2|]. eapply Tree_same; [exact T1|apply (af_same _ _ _ _ _ A2)|exact B1].
Qed.
End Parsing.

(** ** Cutting the line into strings *)

(** The word is there and a NUL ends it. *)
Definition ended (b : list Z) (q e : nat) (w : list Z) : Prop := span b q e w /\ byte_at b e = 0.

(** Every word of [b] is a word of [b'], and [b'] has the NULs of [b]. *)
Definition cut (b b' : list Z) : Prop :=
  (forall q e w, span b q e w -> span b' q e w) /\ (forall i, byte_at b i = 0 -> byte_at b' i = 0).

Lemma cut_refl b : cut b b.
Proof. by split. Qed.
Lemma cut_trans b1 b2 b3 : cut b1 b2 -> cut b2 b3 -> cut b1 b3.
Proof. intros [H1 H2] [H3 H4]. split; auto. Qed.
Lemma ended_cut b b' q e w : cut b b' -> ended b q e w -> ended b' q e w.
Proof. intros [H1 H2] [H3 H4]. split; auto. Qed.

Lemma byte_insert b p q : (p < length b)%nat -> byte_at (<[p := 0]> b) q = if decide (q = p) then 0 else byte_at b q.
Proof.
  intros Hp. unfold byte_at. rewrite !nth_lookup. destruct (decide (q = p)) as [->|Hne].
  - by rewrite list_lookup_insert_eq.
  - by rewrite list_lookup_insert_ne by done.
Qed.

Lemma span_byte b q e w i : span b q e w -> (q <= i < e)%nat -> byte_at b i <> 0 /\ wordc (byte_at b i) = true.
Proof.
  intros [H1 H2 -> H4 _] Hi. assert (take (e - q) (drop q b) !! (i - q)%nat = Some (byte_at b i)) as E.
  { rewrite lookup_take. destruct (decide (i - q < e - q)%nat); [|lia]. rewrite lookup_drop.
    replace (q + (i - q))%nat with i by lia. unfold byte_at.
    destruct (b !! i) as [c|] eqn:Ec; [by rewrite (nth_lookup_Some _ _ 0 c Ec)|apply lookup_ge_None in Ec; lia]. }
  by eapply Forall_lookup_1 in E; [|exact H4].
Qed.

Lemma put_nul_cut b q e w : span b q e w -> cut b (<[e := 0]> b) /\ byte_at (<[e := 0]> b) e = 0.
Proof.
  intros H. pose proof (sp_in _ _ _ _ H) as He. split; [split|].
  - intros q' e' w' H'. assert (~ (q' <= e < e')%nat) as Hout.
    { intros Hin. destruct (span_byte _ _ _ _ _ H' Hin) as [H1 H2]. destruct (sp_end _ _ _ _ H); congruence. }
    destruct H' as [H1 H2 H3 H4 H5]. constructor; rewrite ?length_insert; try done.
    + rewrite H3. apply list_eq. intros i. rewrite !lookup_take. destruct (decide (i < e' - q')%nat); [|done].
      rewrite !lookup_drop, list_lookup_insert_ne by lia. done.
    + rewrite byte_insert by done. by destruct (decide (e' = e)); [left|].
  - intros i Hi. rewrite byte_insert by done. by destruct (decide (i = e)).
  - rewrite byte_insert by done. by destruct (decide (e = e)).
Qed.

Lemma nul_args_run ws : forall argv eargv s,
  (forall i w, ws !! i = Some w -> exists q e, argv !! i = Some (Some q) /\ eargv !! i = Some (Some e) /\ span (buf s) q e w) ->
  argv !! length ws = Some None ->
  exists b, nul_args argv eargv s = (Ok tt, set_buf b s) /\ cut (buf s) b
    /\ forall i w, ws !! i = Some w -> exists q e, argv !! i = Some (Some q) /\ eargv !! i = Some (Some e) /\ ended b q e w.
Proof.
  induction ws as [|w ws IH]; intros argv eargv s Hw Hn.
  - destruct argv as [|a argv]; [done|]. injection Hn as ->. exists (buf s). destruct s. split; [done|]. split; [apply cut_refl|done].
  - destruct (Hw 0%nat w eq_refl) as (q & e & H1 & H2 & H3).
    destruct argv as [|a argv]; [done|]. destruct eargv as [|a' eargv]; [done|]. injection H1 as ->. injection H2 as ->.
    destruct (put_nul_cut _ _ _ _ H3) as [C0 N0].
    destruct (IH argv eargv (set_buf (<[e := 0]> (buf s)) s)) as (b & E & C & H); [|done|].
    { intros i v Hv. destruct (Hw (S i) v Hv) as (q' & e' & G1 & G2 & G3). exists q', e'. split_and!; [done..|]. by apply C0. }
    exists b. split; [exact E|]. split; [by eapply cut_trans|]. intros [|i] v Hv; [|by apply (H i)].
    injection Hv as <-. exists q, e. split_and!; [done..|]. by apply (ended_cut _ _ _ _ _ C); split; [apply C0|].
Qed.

Lemma Tree_mono (W W' : nat -> nat -> list Z -> Prop) ns p c :
  (forall q e w, W q e w -> W' q e w) -> Tree W ns p c -> Tree W' ns p c.
Proof.
  intros HW H. induction H as [p argv eargv ws Hp Ha Hn| | | |];
    [eapply Tree_exec; eauto|eapply Tree_redir; eauto|eapply Tree_pipe; eauto|eapply Tree_list; eauto|eapply Tree_back; eauto].
  destruct Ha as [A1 A2 A3 A4]. constructor; try done. intros i w Hw.
  destruct (A4 i w Hw) as (q & e & H1 & H2 & H3). eauto 6.
Qed.

Lemma nulterminate_run ns p c b0 : Tree (span b0) ns p c -> forall fuel s,
  cut b0 (buf s) -> nodes s = ns -> (p < fuel)%nat ->
  exists b, nulterminate fuel (Some p) s = (Ok (Some p), set_buf b s) /\ cut (buf s) b /\ Tree (ended b) ns p c.
Proof.
  intros H. induction H as [p argv eargv ws Hp Ha Hn|p p' q e inp w c Hp HW Hlt HT IH|p l r cl cr Hp Hl Hr HTl IHl HTr IHr
    |p l r cl cr Hp Hl Hr HTl IHl HTr IHr|p p' c Hp Hlt HT IH]; intros [|fuel] s C E Hf; try lia;
    cbn [nulterminate]; rewrite (bind_ok get _ s s s eq_refl), E, Hp.
  - destruct Ha as [A1 A2 A3 A4]. destruct (nul_args_run ws argv eargv s) as (b & Eb & Cb & Hb); [|done|].
    { intros i w Hw. destruct (A4 i w Hw) as (q & e & H1 & H2 & H3). exists q, e. split_and!; [done..|]. by apply C. }
    exists b. rewrite (bind_ok _ _ _ _ _ Eb). split; [done|]. split; [done|]. by eapply Tree_exec.
  - destruct (IH fuel s C E ltac:(lia)) as (b1 & E1 & C1 & T1). rewrite bind_bind, (bind_ok _ _ _ _ _ E1).
    assert (span b1 q e w) as Hsp by (by apply C1, C). destruct (put_nul_cut _ _ _ _ Hsp) as [C2 N2].
    exists (<[e := 0]> b1). split; [done|]. split; [by eapply cut_trans|]. eapply Tree_redir; [exact Hp| |done|].
    + split; [by apply C2|done].
    + eapply Tree_mono; [|exact T1]. intros. by eapply ended_cut.
  - destruct (IHl fuel s C E ltac:(lia)) as (b1 & E1 & C1 & T1). rewrite bind_bind, (bind_ok _ _ _ _ _ E1).
    destruct (IHr fuel (set_buf b1 s)) as (b2 & E2 & C2 & T2); [by eapply cut_trans|done|lia|]. rewrite bind_bind, (bind_ok _ _ _ _ _ E2).
    exists b2. split; [done|]. split; [by eapply cut_trans|]. eapply Tree_pipe; try done.
    eapply Tree_mono; [|exact T1]. intros. by eapply ended_cut.
  - destruct (IHl fuel s C E ltac:(lia)) as (b1 & E1 & C1 & T1). rewrite bind_bind, (bind_ok _ _ _ _ _ E1).
    destruct (IHr fuel (set_buf b1 s)) as (b2 & E2 & C2 & T2); [by eapply cut_trans|done|lia|]. rewrite bind_bind, (bind_ok _ _ _ _ _ E2).
    exists b2. split; [done|]. split; [by eapply cut_trans|]. eapply Tree_list; try done.
    eapply Tree_mono; [|exact T1]. intros. by eapply ended_cut.
  - destruct (IH fuel s C E ltac:(lia)) as (b1 & E1 & C1 & T1). rewrite bind_bind, (bind_ok _ _ _ _ _ E1).
    exists b1. split; [done|]. split; [done|]. by eapply Tree_back.
Qed.

Lemma upto_nul_app w l : Forall (fun c => c <> 0) w -> upto_nul (w ++ 0 :: l) = w.
Proof.
  intros H. induction H as [|c w Hc Hw IH]; cbn; [done|]. rewrite (proj2 (Z.eqb_neq c 0)) by done. by rewrite IH.
Qed.

Lemma ended_str b q e w : ended b q e w -> str_at b q = w.
Proof.
  intros [[H1 H2 H3 H4 _] Hn]. unfold str_at. rewrite <- (take_drop (e - q) (drop q b)), <- H3, drop_drop.
  replace (q + (e - q))%nat with e by lia.
  assert (drop e b = 0 :: drop (S e) b) as ->.
  { apply drop_S. unfold byte_at in Hn. destruct (b !! e) as [c|] eqn:Ec; [|apply lookup_ge_None in Ec; lia].
    by rewrite (nth_lookup_Some _ _ 0 c Ec) in Hn; subst. }
  apply upto_nul_app. eapply Forall_impl; [exact H4|]. by intros c [? _].
Qed.

Lemma tokens_length l : forall w, (length (lex w l) <= length l + length (flush w))%nat.
Proof.
  remember (length l) as n eqn:Hn. revert l Hn. induction n as [n IH] using lt_wf_ind. intros [|c l] Hn w; cbn in Hn; subst n; cbn [lex]; [lia|].
  assert (length (flush (w ++ [c])) <= 1)%nat as Hfl by (destruct (w ++ [c]); cbn; lia).
  assert (length (lex [] l) <= length l)%nat as Hl by (pose proof (IH (length l) ltac:(lia) l eq_refl []); cbn in *; lia).
  destruct (among whitespace c); [rewrite length_app; lia|].
  destruct (c =? 62).
  { rewrite length_app. destruct l as [|d l]; [cbn; lia|]. destruct (d =? 62); cbn [length]; [|cbn [length] in Hl; lia].
    pose proof (IH (length l) ltac:(cbn; lia) l eq_refl []). cbn in *. lia. }
  destruct (among symbols c); [rewrite length_app; cbn [length]; lia|].
  pose proof (IH (length l) ltac:(lia) l eq_refl (w ++ [c])). lia.
Qed.

(** A command on the heap whose words are strings of the buffer. *)
Definition stands_for (s : shell) (p : nat) (c : cmd) : Prop :=
  Tree (fun q _ w => str_at (buf s) q = w) (nodes s) p c.

Lemma parsecmd_run l pad nroom fuel :
  Forall (fun c => c <> 0) l -> (2 * length l + 1 <= nroom)%nat -> (4 * length l + 4 + nroom <= fuel)%nat ->
  let o := parsecmd fuel (mkSh 0 [] nroom (l ++ 0 :: pad) []) in
  (exists c p s', o = (Ok p, s') /\ (p < fuel)%nat /\ stands_for s' p c /\ forall c', Line (tokens l) c' <-> c' = c)
  \/ (exists m s', o = (Panic m, s') /\ forall c, ~ Line (tokens l) c).
Proof.
  intros Hl Hr Hf. set (s := mkSh 0 [] nroom (l ++ 0 :: pad) []). cbv zeta. unfold parsecmd.
  rewrite (bind_ok get _ s s s eq_refl). change (str_at (buf s) (ps s)) with (upto_nul (l ++ 0 :: pad)).
  rewrite upto_nul_app by done. change (ps s + length l)%nat with (length l).
  set (b := l ++ 0 :: pad) in *. set (es := length l) in *.
  assert (es < length b)%nat as H1 by (unfold b; rewrite length_app; cbn; lia).
  assert (byte_at b es = 0) as H2 by (unfold byte_at, b; rewrite app_nth2, Nat.sub_diag by lia; done).
  assert (forall i, (i < es)%nat -> byte_at b i <> 0) as H3.
  { intros i Hi. unfold byte_at, b. rewrite app_nth1 by done. apply (proj1 (List.Forall_nth _ _) Hl). done. }
  assert (rest b es 0 = tokens l) as Er by (unfold rest, es, b; by rewrite drop_0, take_app_length).
  pose proof (tokens_length l []) as Hlen. cbn [flush length] in Hlen. fold (tokens l) in Hlen.
  assert (good b es s) as Hg by (split; [done|cbn; lia]).
  pose proof (proj1 (parser_run b es H1 H2 H3 fuel) s 0%nat Hg) as Hp. cbn [ps s room] in Hp. rewrite Er in Hp.
  specialize (Hp ltac:(lia) ltac:(lia)).
  assert (forall c, Line (tokens l) c -> rline fuel (tokens l) = Some (inr (c, []))) as Hcomp.
  { intros c Hc. pose proof (proj1 ref_complete _ _ Hc [] fuel I) as E. rewrite app_nil_r in E. apply E. lia. }
  destruct (rline fuel (tokens l)) as [[m|[c ts]]|] eqn:El.
  - destruct Hp as (s' & E & _). right. exists m, s'. unfold bind. rewrite E. split; [done|]. intros c Hc. by apply Hcomp in Hc.
  - destruct Hp as (p & s1 & E1 & A1 & B1 & T1). rewrite (bind_ok _ _ _ _ _ E1).
    destruct (peek_run b es H1 H2 H3 [] s1 (af_good _ _ _ _ _ _ _ A1) ltac:(done)) as (p2 & E2 & L2 & R2 & N2).
    rewrite (bind_ok _ _ _ _ _ E2), (bind_ok get _ _ _ _ eq_refl). rewrite (af_rest _ _ _ _ _ _ _ A1) in R2.
    cbn [ps set_ps]. destruct (Nat.eqb_spec p2 es) as [->|Hne]; cbn [negb].
    + assert (ts = []) as -> by (rewrite <- R2; unfold rest; by rewrite text_nil).
      destruct (proj1 (ref_sound fuel) _ _ _ El) as (ts0 & Et & HL). rewrite app_nil_r in Et. subst ts0.
      pose proof (af_total _ _ _ _ _ _ _ A1) as Htot. cbn in Htot. destruct (af_good _ _ _ _ _ _ _ A1) as [Eb _].
      destruct (nulterminate_run (nodes s1) p c b T1 fuel (set_ps es s1)) as (b' & E3 & C3 & T3);
        [cbn; rewrite Eb; apply cut_refl|done|lia|].
      rewrite (bind_ok _ _ _ _ _ E3). left. exists c, p, (set_buf b' (set_ps es s1)). split; [done|]. split; [cbn in *; lia|]. split.
      * eapply Tree_mono; [|exact T3]. intros q e w. apply ended_str.
      * intros c'. split; [intros Hc'; apply Hcomp in Hc'; congruence|by intros ->].
    + right. eexists _, _. split; [done|]. intros c' Hc'. apply Hcomp in Hc'. injection Hc' as <- ->. by apply Hne, N2.
  - exfalso. by apply (proj1 (ref_total fuel) (tokens l)); [lia|].
Qed.

(** C22: the shell parses its grammar.  For every line, with memory for its nodes:
    if the grammar derives a command from the line's tokens then that command is the
    only one and the parser returns it, on the heap, every word a string of its own
    in the line; if the grammar derives none, the parser ends with an error. *)
Theorem parsecmd_grammar l pad nroom fuel :
  Forall (fun c => c <> 0) l -> (2 * length l + 1 <= nroom)%nat -> (4 * length l + 4 + nroom <= fuel)%nat ->
  let o := parsecmd fuel (mkSh 0 [] nroom (l ++ 0 :: pad) []) in
  (exists c p s', o = (Ok p, s') /\ stands_for s' p c /\ forall c', Line (tokens l) c' <-> c' = c)
  \/ (exists m s', o = (Panic m, s') /\ forall c, ~ Line (tokens l) c).
Proof.
  intros Hl Hr Hf. destruct (parsecmd_run l pad nroom fuel Hl Hr Hf) as [(c & p & s' & E & _ & H)|H]; [left|by right].
  by exists c, p, s'.
Qed.

(** [ls <a|(b >>c;d&)>e]. *)
Lemma parsecmd_grammar_witness :
  let l := text "ls <a|(b >>c;d&)>e" ++ [10] in
  let o := parsecmd 200 (mkSh 0 [] 100 (l ++ 0 :: []) []) in
  (exists c p s', o = (Ok p, s') /\ stands_for s' p c /\ forall c', Line (tokens l) c' <-> c' = c)
  \/ (exists m s', o = (Panic m, s') /\ forall c, ~ Line (tokens l) c).
Proof. apply (parsecmd_grammar (text "ls <a|(b >>c;d&)>e" ++ [10]) [] 100 200); [repeat (constructor; [done|]); constructor|cbn; lia..]. Defined.
