(* ===== verification/Shrun.v ===== *)
(** The shell runs the command it parsed.

    [descriptors] is the view of the system calls the shell relies on: a process has
    a table of descriptors, [open], [dup] and [pipe] take the lowest free ones, a
    child starts with a copy of its parent's table, and the trace records the
    programs started, with their table, what is written, the waits and the changes
    of directory.  Which programs and files exist, which calls of [fork] and [pipe]
    succeed, and how much of the typed input each program that is started reads are
    parameters.  The theorems say which programs a command line starts and what
    their standard input and output are, and that the shell goes on to the next line
    whatever the line was, until the input ends or it cannot fork. *)

From Stdlib Require Import ZArith Lia.
From stdpp Require Import base list strings.
From S2P Require Import Prelude Ulib Console Usys Sh Shspec Shparse.
Local Open Scope Z_scope.

(** What a descriptor refers to. *)
Inductive obj := Terminal | File_ (path : list Z) (mode : Z) | ReadEnd (n : nat) | WriteEnd (n : nat).

Inductive event :=
| Started (path : list Z) (argv : list (list Z)) (fds : list (option obj))
| Wrote (o : option obj) (c : Z)
| Waited
| Moved (path : list Z).

(** [npipe] and [nfork] number the calls of [pipe] that succeeded and those of
    [fork]; [input] is what has been typed and not been read. *)
Record world := mkWorld { npipe : nat; nfork : nat; trace : list event; input : list Z }.

Definition add (l : list event) (w : world) : world := mkWorld (npipe w) (nfork w) (trace w ++ l) (input w).
Definition with_input (l : list Z) (w : world) : world := mkWorld (npipe w) (nfork w) (trace w) l.
Definition piped_once (w : world) : world := mkWorld (S (npipe w)) (nfork w) (trace w) (input w).
Definition forked_once (w : world) : world := mkWorld (npipe w) (S (nfork w)) (trace w) (input w).

Abbreviation table := (list (option obj)).

(** The lowest free descriptor. *)
Fixpoint lowest (t : table) : option nat :=
  match t with
  | [] => None
  | None :: _ => Some 0%nat
  | Some _ :: t' => match lowest t' with Some i => Some (S i) | None => None end
  end.

Definition install (o : obj) (t : table) : Z * table :=
  match lowest t with
  | Some i => (Z.of_nat i, <[i := Some o]> t)
  | None => (-1, t)
  end.

Section Descriptors.
Context (open_ok : list Z -> Z -> bool) (exec_ok chdir_ok : list Z -> bool).
(** Whether the [n]th call succeeds, and the input that is left when a program has
    run. *)
Context (fork_ok pipe_ok : nat -> bool) (left_by : list Z -> list (list Z) -> table -> list Z -> list Z).

Definition fdcall (X : Type) (c : call X) (t : table) (w : world) : X * table * world :=
  match c in call X return X * table * world with
  | Wait => (1, t, add [Waited] w)
  | Pipe =>
      let '(p0, t0) := install (ReadEnd (npipe w)) t in
      let '(p1, t1) := install (WriteEnd (npipe w)) t0 in
      if (p1 <? 0) || negb (pipe_ok (npipe w)) then ((-1, (p0, p1)), t, w)
      else ((0, (p0, p1)), t1, piped_once w)
  | Read fd n =>
      let b := take (Z.to_nat n) (input w) in
      ((Z.of_nat (length b), b), t, with_input (drop (Z.to_nat n) (input w)) w)
  | Write fd b => (Z.of_nat (length b), t, add (map (Wrote (nth (Z.to_nat fd) t None)) b) w)
  | Close fd => (0, <[Z.to_nat fd := None]> t, w)
  | Open path mode =>
      if open_ok path mode then let '(fd, t) := install (File_ path mode) t in (fd, t, w) else (-1, t, w)
  | Dup fd =>
      match nth (Z.to_nat fd) t None with
      | Some o => let '(fd, t) := install o t in (fd, t, w)
      | None => (-1, t, w)
      end
  | Chdir path => if chdir_ok path then (0, t, add [Moved path] w) else (-1, t, w)
  | Fstat _ => ((-1, mkUstat 0 0 0 0 0), t, w)
  | Set_path _ | Set_sleep _ | Change_process_level _ _ | Set_process_ticket _ _
  | Set_process_remaining_priority _ _ | Print_processes_info | Barrier_init _ | Barrier_wait | Reentrant_spinlock_test | Store _ _ | Outb _ _ => (tt, t, w)
  | Kill _ | Mknod _ _ _ | Unlink _ | Link _ _ | Mkdir _ | Getpid | Sbrk _ | Sleep_ticks _ | Uptime | Count_num_of_digits _
  | Get_parent_id | Get_children _ | Get_time | Load _ | Read_at _ _ _ | Link_at _ _ | Sleep_at _ | Inb _ => (-1, t, w)
  end.

(** A program that has been started. *)
Definition start_prog (path : list Z) (argv : list (list Z)) (t : table) (w : world) : world :=
  with_input (left_by path argv t (input w)) (add [Started path argv t] w).

Definition descriptors : system table world :=
  mkSystem fdcall (fun w => (if fork_ok (nfork w) then Some 1 else None, forked_once w))
    (fun path argv t w => if exec_ok path then Some (start_prog path argv t w) else None).

(** ** What a command does

    [i] and [o] are its standard input and output. *)

Definition says (l : list Z) : list event := map (Wrote (Some Terminal)) l.
Definition std (i o : obj) : table := [Some i; Some o; Some Terminal] ++ replicate 13 None.

(** [k] runs in a child; the parent goes on with [k'], or complains. *)
Definition forks (k k' : world -> world) (w : world) : world :=
  if fork_ok (nfork w) then k' (k (forked_once w)) else add (says (text "fork" ++ [10])) (forked_once w).

Fixpoint behaves (c : cmd) (i o : obj) (w : world) : world :=
  match c with
  | CExec [] => w
  | CExec (a :: args) =>
      if exec_ok a then start_prog a (a :: args) (std i o) w
      else add (says (text "exec " ++ a ++ text " failed" ++ [10])) w
  | CRedir c inp f =>
      if open_ok f (rmode inp) then
        if inp then behaves c (File_ f (rmode inp)) o w else behaves c i (File_ f (rmode inp)) w
      else add (says (text "open " ++ f ++ text " failed" ++ [10])) w
  | CPipe l r =>
      let n := npipe w in
      if pipe_ok n then
        forks (behaves l i (WriteEnd n)) (forks (behaves r (ReadEnd n) o) (add [Waited; Waited])) (piped_once w)
      else add (says (text "pipe" ++ [10])) w
  | CList l r => forks (behaves l i o) (fun w => behaves r i o (add [Waited] w)) w
  | CBack c => forks (behaves c i o) (fun w => w) w
  end.

Abbreviation R := (run descriptors).

(** ** Programs that never return *)

Fixpoint noreturn {A} (p : prog A) : Prop :=
  match p with
  | Return _ => False
  | Exit | Undefined _ => True
  | Fork k => forall r, noreturn (k r)
  | Exec _ _ k => forall r, noreturn (k r)
  | Call _ k => forall x, noreturn (k x)
  end.

Lemma noreturn_run {A} (p : prog A) (k : A -> prog A) : noreturn p -> forall t w, R (andthen p k) t w = R p t w.
Proof.
  induction p as [a| |m|f IH|path argv f IH|X c f IH]; cbn; intros H t w; try done.
  - destruct (fork_ok (nfork w)); [|by apply IH].
    rewrite IH by done. destruct (R (f 0) t (forked_once w)) as [[? ?] w1]. by apply IH.
  - destruct (exec_ok path); [done|]. by apply IH.
  - destruct (fdcall X c t w) as [[x t'] w']. by apply IH.
Qed.

Lemma noreturn_r {A B} (p : prog A) (k : A -> prog B) : (forall a, noreturn (k a)) -> noreturn (andthen p k).
Proof. intros H. induction p; cbn; auto. Qed.

Lemma puts_nofork fd b : nofork (puts fd b).
Proof. induction b; cbn; auto. Qed.

Lemma runcmd_noreturn fuel ns b : forall c, noreturn (runcmd fuel ns b c).
Proof.
  induction fuel as [|k IH]; intros c; [done|]. cbn [runcmd]. destruct c as [p|]; [|done].
  destruct (ns !! p) as [[argv eargv|c f e m fd|l r|l r|c]|]; [| | | | |done].
  - destruct argv as [|[q|] argv]; [done| |done]. repeat (apply noreturn_r; intros). done.
  - apply noreturn_r. intros _. apply noreturn_r. intros r. destruct (r <? 0); repeat (apply noreturn_r; intros); done.
  - apply noreturn_r. intros [ok [p0 p1]]. destruct (ok <? 0); repeat (apply noreturn_r; intros); done.
  - repeat (apply noreturn_r; intros). done.
  - repeat (apply noreturn_r; intros). done.
Qed.

(** ** Steps *)

Lemma add_nil w : add [] w = w.
Proof. destruct w. unfold add. cbn. by rewrite app_nil_r. Qed.

Lemma add_add l1 l2 w : add l2 (add l1 w) = add (l1 ++ l2) w.
Proof. unfold add. cbn. by rewrite app_assoc. Qed.

Lemma puts_run b t w : nth 2 t None = Some Terminal ->
  R (puts 2 b) t w = (Returned tt, t, add (says b) w).
Proof.
  intros Ht. revert w. induction b as [|c b IH]; intros w; cbn [puts]; [cbn; by rewrite add_nil|].
  rewrite run_sys. cbn [scall descriptors fdcall]. change (Z.to_nat 2) with 2%nat. rewrite Ht, IH, add_add. done.
Qed.

Lemma printf_run {A} fmt args msg (k : unit -> prog A) t w :
  Ulib.printf (pstr args) fmt (pwords args) = Some msg -> nth 2 t None = Some Terminal ->
  R (andthen (printf 2 fmt args) k) t w = R (k tt) t (add (says msg) w).
Proof.
  intros Hm Ht. unfold printf. rewrite Hm, run_andthen by apply puts_nofork. by rewrite puts_run.
Qed.

Lemma shpanic_run {A} m t w : nth 2 t None = Some Terminal ->
  R (shpanic (A := A) m) t w = (Exited, t, add (says (m ++ [10])) w).
Proof. intros Ht. unfold shpanic. by rewrite (printf_run _ _ (m ++ [10])). Qed.

(** [fork1]: the child and the parent, or the complaint. *)
Lemma run_fork1 {A} (k : Z -> prog A) t w : nth 2 t None = Some Terminal ->
  R (andthen fork1 k) t w =
    if fork_ok (nfork w) then let '(_, _, w) := R (k 0) t (forked_once w) in R (k 1) t w
    else (Exited, t, add (says (text "fork" ++ [10])) (forked_once w)).
Proof.
  intros Ht. unfold fork1. cbn [fork andthen run descriptors sfork]. destruct (fork_ok (nfork w)); [done|].
  cbn [Z.eqb Pos.eqb]. unfold shpanic. rewrite run_assoc. by rewrite (printf_run _ _ (text "fork" ++ [10])).
Qed.

(** The words of an argument vector on the heap are its strings. *)
Lemma argstrs_tree b ws : forall argv,
  (forall i w, ws !! i = Some w -> exists q, argv !! i = Some (Some q) /\ str_at b q = w) ->
  argv !! length ws = Some None -> argstrs b argv = ws.
Proof.
  induction ws as [|w ws IH]; intros argv Hw Hn; destruct argv as [|a argv]; try done.
  - by injection Hn as ->.
  - destruct (Hw 0%nat w eq_refl) as (q & Hq & <-). injection Hq as ->. cbn. f_equal. apply IH; [|done].
    intros i v Hv. by apply (Hw (S i)).
Qed.

(** Redirection: [close] and [open] put the file in the descriptor's place. *)
Lemma redirect_table inp o i x :
  install o (<[Z.to_nat (rfd inp) := None]> (std i x)) = (rfd inp, if inp then std o x else std i o).
Proof. by destruct inp. Qed.

(** The table while a pipe is open, and the two children's. *)
Definition piped (i o : obj) (n : nat) : table :=
  [Some i; Some o; Some Terminal; Some (ReadEnd n); Some (WriteEnd n)] ++ replicate 11 None.

Lemma run_pipe {A} (k : Z * (Z * Z) -> prog A) i o w :
  R (andthen (sys Pipe) k) (std i o) w =
    if pipe_ok (npipe w) then R (k (0, (3, 4))) (piped i o (npipe w)) (piped_once w)
    else R (k (-1, (3, 4))) (std i o) w.
Proof. cbn. by destruct (pipe_ok (npipe w)). Qed.

Lemma run_child {A} (fd q : Z) (k : prog A) i o n w :
  (fd, q) = (1, 4) \/ (fd, q) = (0, 3) ->
  R (andthen (sys (Close fd)) (fun _ => andthen (sys (Dup q)) (fun _ => andthen (sys (Close 3)) (fun _ =>
       andthen (sys (Close 4)) (fun _ => k))))) (piped i o n) w
  = R k (if fd =? 1 then std i (WriteEnd n) else std (ReadEnd n) o) w.
Proof. intros [[= -> ->]|[= -> ->]]; reflexivity. Qed.

Lemma run_parent i o n w :
  exists t, R (andthen (sys (Close 3)) (fun _ => andthen (sys (Close 4)) (fun _ => andthen (sys Wait) (fun _ =>
       andthen (sys Wait) (fun _ => Exit))))) (piped i o n) w
  = (@Exited unit, t, add [Waited; Waited] w).
Proof. eexists. cbn. by rewrite add_add. Qed.

(** A child that runs a command, and what its parent does. *)
Lemma run_forks (k : prog unit) (k' : prog unit) t w (f f' : world -> world) :
  nth 2 t None = Some Terminal -> noreturn k ->
  (forall w, exists t', R k t w = (Exited, t', f w)) -> (forall w, exists t', R k' t w = (Exited, t', f' w)) ->
  exists t', R (andthen fork1 (fun pid => andthen (if pid =? 0 then k else Return tt) (fun _ => k'))) t w
    = (Exited, t', forks f f' w).
Proof.
  intros Ht Hn Hk Hk'. rewrite run_fork1 by done. unfold forks. destruct (fork_ok (nfork w)); [|by eexists].
  cbn [Z.eqb]. rewrite noreturn_run by done. destruct (Hk (forked_once w)) as (t1 & ->). cbn [andthen]. apply Hk'.
Qed.

Lemma runcmd_run c ns b p : Tree (fun q _ w => str_at b q = w) ns p c -> forall fuel i o w,
  (p < fuel)%nat ->
  exists t', R (runcmd fuel ns b (Some p)) (std i o) w = (Exited, t', behaves c i o w).
Proof.
  intros H. induction H as [p argv eargv ws Hp Ha Hn|p p' q e inp f c Hp HW Hlt HT IH|p l r cl cr Hp Hl Hr HTl IHl HTr IHr
    |p l r cl cr Hp Hl Hr HTl IHl HTr IHr|p p' c Hp Hlt HT IH]; intros [|fuel] i o w Hf; try lia; cbn [runcmd]; rewrite Hp.
  - assert (argstrs b argv = ws) as Ea.
    { apply argstrs_tree; [|done]. intros j v Hv. destruct (aa_words _ _ _ _ Ha j v Hv) as (q & e & H1 & _ & H3). by exists q. }
    destruct argv as [|[q|] argv]; [by rewrite lookup_nil in Hn| |].
    + destruct ws as [|a ws]; [done|]. injection Ea as Ea1 Ea2. cbn [argstrs]. rewrite Ea1, Ea2. cbn [behaves].
      cbn [exec andthen run descriptors sexec]. destruct (exec_ok a); [by eexists|].
      erewrite printf_run; [by eexists|reflexivity|done].
    + destruct ws; [|done]. by eexists.
  - cbn [behaves]. rewrite HW, run_sys. cbn [scall descriptors fdcall]. rewrite run_sys. cbn [scall descriptors fdcall].
    destruct (open_ok f (rmode inp)).
    + rewrite redirect_table. rewrite (proj2 (Z.ltb_ge (rfd inp) 0)) by (by destruct inp).
      rewrite noreturn_run by apply runcmd_noreturn. destruct inp; apply IH; lia.
    + cbn [Z.ltb Z.compare]. erewrite printf_run; [by eexists|reflexivity|by destruct inp].
  - cbn [behaves]. rewrite run_pipe. destruct (pipe_ok (npipe w)); cbn [Z.ltb Z.compare].
    2: { eexists. by apply shpanic_run. }
    set (n := npipe w).
    apply run_forks; [done|repeat (apply noreturn_r; intros); apply runcmd_noreturn| |].
    { intros w1. rewrite run_child by (by left). apply IHl. lia. }
    intros w1. apply run_forks; [done|repeat (apply noreturn_r; intros); apply runcmd_noreturn| |].
    { intros w2. rewrite run_child by (by right). apply IHr. lia. }
    intros w2. apply run_parent.
  - apply run_forks; [done|apply runcmd_noreturn| |].
    { intros w1. apply IHl. lia. }
    intros w1. rewrite run_sys. cbn [scall descriptors fdcall]. rewrite noreturn_run by apply runcmd_noreturn. apply IHr. lia.
  - apply run_forks; [done|apply runcmd_noreturn| |by eexists]. intros w1. apply IH. lia.
Qed.

(** ** The main loop *)

(** A line as typed: text without NUL and line ends that fits the buffer of 100
    bytes with its newline and its NUL. *)
Definition typed (l : list Z) : Prop := Forall (fun c => c <> 0 /\ c <> 10 /\ c <> 13) l /\ (length l <= 98)%nat.

Lemma gets_loop_run t rest l : Forall (fun c => c <> 0 /\ c <> 10 /\ c <> 13) l -> forall fuel i acc w,
  input w = l ++ 10 :: rest -> i + Z.of_nat (length l) + 1 < 100 -> (length l < fuel)%nat ->
  R (gets_loop fuel 100 i acc) t w = (Returned (acc ++ l ++ [10]), t, with_input rest w).
Proof.
  intros Hl. induction Hl as [|c l (H0 & H10 & H13) Hl IH]; intros [|fuel] i acc w Hin Hi Hf; cbn [length] in *; try lia;
    cbn [gets_loop]; rewrite (proj2 (Z.ltb_lt _ _)) by lia; rewrite run_sys; cbn [scall descriptors fdcall];
    rewrite Hin; change (Z.to_nat 1) with 1%nat; cbn [app hd]; rewrite ?firstn_cons, ?firstn_O, ?skipn_cons, ?skipn_O; cbn [length hd];
    change (Z.of_nat 1 <? 1) with false; cbv iota.
  - done.
  - rewrite (proj2 (Z.eqb_neq c 10)), (proj2 (Z.eqb_neq c 13)) by done. cbn [orb].
    rewrite IH; [|done|lia|lia]. unfold with_input. cbn. by rewrite <- app_assoc.
Qed.

Lemma nofork_andthen {A B} (p : prog A) (k : A -> prog B) : nofork p -> (forall a, nofork (k a)) -> nofork (andthen p k).
Proof. intros Hp Hk. induction p; cbn in *; auto. Qed.

Lemma gets_nofork fuel max : forall i acc, nofork (gets_loop fuel max i acc).
Proof.
  induction fuel as [|k IH]; intros i acc; [done|]. cbn [gets_loop]. destruct (i + 1 <? max); [|done]. intros [cc b]. cbn.
  destruct (cc <? 1); [done|]. by destruct ((hd 0 b =? 10) || (hd 0 b =? 13)).
Qed.

Definition buffer (l : list Z) : list Z := l ++ 0 :: replicate (99 - length l) 0.

Lemma getcmd_run {A} (k : option (list Z) -> prog A) l rest t w :
  typed l -> nth 2 t None = Some Terminal -> input w = l ++ 10 :: rest ->
  R (andthen (getcmd 100) k) t w
  = R (k (Some (buffer (l ++ [10])))) t (with_input rest (add (says (text "$ ")) w)).
Proof.
  intros [Hl Hn] Ht Hin. unfold getcmd.
  rewrite run_andthen by (apply nofork_andthen; [apply puts_nofork|intros _];
    apply nofork_andthen; [|done]; apply nofork_andthen; [apply gets_nofork|done]).
  rewrite (printf_run (text "$ ") [] (text "$ ")) by done.
  unfold gets. change (Z.to_nat 100) with 100%nat. rewrite run_andthen by (apply nofork_andthen; [apply gets_nofork|done]).
  rewrite run_andthen by apply gets_nofork.
  rewrite (gets_loop_run t rest l Hl 100 0 [] (add (says (text "$ ")) w) Hin) by lia. cbn [app run].
  assert ((l ++ [10]) ++ [0] ++ replicate (100 - length ((l ++ [10]) ++ [0])) 0 = buffer (l ++ [10])) as Hb.
  { unfold buffer. f_equal. cbn [app]. f_equal. f_equal. rewrite !length_app. cbn. lia. }
  rewrite <- app_assoc, Hb. replace (byte_at (buffer (l ++ [10])) 0 =? 0) with false; [done|].
  symmetry. apply Z.eqb_neq. destruct Hl as [|c l [Hc _] _]; done.
Qed.

Lemma getcmd_eof {A} (k : option (list Z) -> prog A) t w :
  nth 2 t None = Some Terminal -> input w = [] ->
  R (andthen (getcmd 100) k) t w = R (k None) t (add (says (text "$ ")) w).
Proof.
  intros Ht Hin. unfold getcmd.
  rewrite run_andthen by (apply nofork_andthen; [apply puts_nofork|intros _];
    apply nofork_andthen; [|done]; apply nofork_andthen; [apply gets_nofork|done]).
  rewrite (printf_run (text "$ ") [] (text "$ ")) by done. destruct w as [n nf tr inp]. cbn in Hin. subst inp. reflexivity.
Qed.

(** What the shell does with a line: change directory itself, or have a child
    run the command the line stands for or print why there is none, and wait. *)
Inductive line_does (l : list Z) (w : world) : world -> Prop :=
| does_cd path :
    l = text "cd " ++ path ->
    line_does l w (add (if chdir_ok path then [Moved path] else says (text "cannot cd " ++ path ++ [10])) w)
| does_run c :
    take 3 l <> text "cd " -> fork_ok (nfork w) = true -> Line (tokens (l ++ [10])) c ->
    line_does l w (add [Waited] (behaves c Terminal Terminal (forked_once w)))
| does_complain msg :
    take 3 l <> text "cd " -> fork_ok (nfork w) = true -> (forall c, ~ Line (tokens (l ++ [10])) c) ->
    line_does l w (add (says msg ++ [Waited]) (forked_once w)).

(** A session: the shell prompts and reads a line, until the input ends or a line
    needs a child and there is none. *)
Definition prompted (rest : list Z) (w : world) : world := with_input rest (add (says (text "$ ")) w).

Inductive session (w : world) : world -> Prop :=
| session_end : input w = [] -> session w (prompted [] w)
| session_line l rest w1 w2 :
    input w = l ++ 10 :: rest -> typed l -> line_does l (prompted rest w) w1 -> session w1 w2 -> session w w2
| session_stuck l rest :
    input w = l ++ 10 :: rest -> typed l -> take 3 l <> text "cd " -> fork_ok (nfork w) = false ->
    session w (add (says (text "fork" ++ [10])) (forked_once (prompted rest w))).

Lemma says_app l1 l2 : says (l1 ++ l2) = says l1 ++ says l2.
Proof. apply map_app. Qed.

Lemma run_line_noreturn fuel nroom b : noreturn (run_line fuel nroom b).
Proof.
  unfold run_line. destruct (parsecmd _ _) as [[p|m|c| |m] s]; try done; [apply runcmd_noreturn|].
  repeat (apply noreturn_r; intros). done.
Qed.

(** The child that is given the line. *)
Lemma run_line_run fuel nroom l w :
  typed l -> (199 <= nroom)%nat -> (400 + nroom <= fuel)%nat ->
  exists t w', R (run_line fuel nroom (buffer (l ++ [10]))) (std Terminal Terminal) w = (Exited, t, w')
    /\ ((exists c, Line (tokens (l ++ [10])) c /\ w' = behaves c Terminal Terminal w)
        \/ ((forall c, ~ Line (tokens (l ++ [10])) c) /\ exists msg, w' = add (says msg) w)).
Proof.
  intros [Hl Hn] Hr Hf. unfold run_line, buffer.
  assert (Forall (fun c => c <> 0) (l ++ [10])) as Hl'.
  { apply Forall_app. split; [|by repeat constructor]. eapply Forall_impl; [exact Hl|]. by intros c [? _]. }
  assert (length (l ++ [10%Z]) <= 99)%nat as Hlen by (rewrite length_app; cbn; lia).
  destruct (parsecmd_run (l ++ [10]) (replicate (99 - length (l ++ [10])) 0) nroom fuel Hl') as [H|H]; [lia|lia| |].
  - destruct H as (c & p & s & E & Hp & T & Hc). rewrite E.
    destruct (runcmd_run c (nodes s) (buf s) p T fuel Terminal Terminal w Hp) as (t & ->).
    eexists _, _. split; [done|]. left. exists c. split; [by apply Hc|done].
  - destruct H as (m & s & E & Hc). rewrite E. rewrite run_andthen by apply puts_nofork. rewrite puts_run by done.
    rewrite shpanic_run by done. rewrite add_add, <- says_app.
    eexists _, _. split; [done|]. right. split; [done|]. by eexists.
Qed.

Lemma upto_nul_buffer l : Forall (fun c => c <> 0) l -> upto_nul (buffer l) = l.
Proof. apply upto_nul_app. Qed.

(** The line is recognised as a change of directory by its first three bytes. *)
Lemma cd_test l : typed l ->
  (byte_at (buffer (l ++ [10])) 0 =? 99) && (byte_at (buffer (l ++ [10])) 1 =? 100) && (byte_at (buffer (l ++ [10])) 2 =? 32)
  = bool_decide (take 3 l = text "cd ").
Proof.
  intros _. destruct l as [|a [|b [|c l]]].
  - by rewrite bool_decide_eq_false_2.
  - rewrite bool_decide_eq_false_2 by done. change (byte_at (buffer ([a] ++ [10])) 1 =? 100) with false.
    by rewrite andb_false_r.
  - rewrite bool_decide_eq_false_2 by done. apply andb_false_r.
  - change (byte_at (buffer ((a :: b :: c :: l) ++ [10])) 0) with a.
    change (byte_at (buffer ((a :: b :: c :: l) ++ [10])) 1) with b.
    change (byte_at (buffer ((a :: b :: c :: l) ++ [10])) 2) with c. change (take 3 (a :: b :: c :: l)) with [a; b; c].
    change (text "cd ") with [99; 100; 32]. symmetry.
    destruct (Z.eqb_spec a 99), (Z.eqb_spec b 100), (Z.eqb_spec c 32); subst; cbn [andb];
      (by apply bool_decide_eq_true) || (apply bool_decide_eq_false; congruence).
Qed.

(** Its path, once the newline is chopped off. *)
Lemma cd_path path : Forall (fun c => c <> 0) path ->
  let b := buffer ((text "cd " ++ path) ++ [10]) in
  str_at (<[(length (upto_nul b) - 1)%nat := 0]> b) 3 = path.
Proof.
  intros Hp b. assert (Forall (fun c => c <> 0) ((text "cd " ++ path) ++ [10])) as H.
  { rewrite !Forall_app. split; [split; [by repeat constructor|done]|by repeat constructor]. }
  unfold b. rewrite upto_nul_buffer by done. rewrite length_app, Nat.add_sub. unfold buffer.
  rewrite <- app_assoc. rewrite insert_app_r_alt, Nat.sub_diag by lia. rewrite <- app_assoc. cbn [app list_insert].
  unfold str_at. rewrite <- app_assoc. by apply upto_nul_app.
Qed.

Lemma open_console_run {A} (k : unit -> prog A) i o w :
  R (andthen (open_console 17) k) (std i o) w = R (k tt) (std i o) w.
Proof.
  cbn [open_console]. cbn -[text open_console O_RDWR]. by destruct (open_ok (text "console") O_RDWR).
Qed.

(** One round of the loop. *)
Lemma round_run fuel nroom k l rest w :
  typed l -> input w = l ++ 10 :: rest -> (199 <= nroom)%nat -> (400 + nroom <= fuel)%nat ->
  (exists w1, line_does l (prompted rest w) w1
     /\ R (main_loop fuel nroom (S k)) (std Terminal Terminal) w = R (main_loop fuel nroom k) (std Terminal Terminal) w1)
  \/ (take 3 l <> text "cd " /\ fork_ok (nfork w) = false
      /\ exists t, R (main_loop fuel nroom (S k)) (std Terminal Terminal) w
           = (Exited, t, add (says (text "fork" ++ [10])) (forked_once (prompted rest w)))).
Proof.
  intros Hl Hin Hr Hf. cbn [main_loop]. rewrite (getcmd_run _ l rest) by done. rewrite cd_test by done.
  fold (prompted rest w). set (w1 := prompted rest w).
  destruct (decide (take 3 l = text "cd ")) as [Hcd|Hcd].
  - left. rewrite bool_decide_eq_true_2 by done.
    assert (l = text "cd " ++ drop 3 l) as El by (rewrite <- (take_drop 3 l) at 1; by rewrite Hcd).
    assert (Forall (fun c => c <> 0) (drop 3 l)) as Hp.
    { apply Forall_drop. eapply Forall_impl; [exact (proj1 Hl)|]. by intros c [? _]. }
    set (path := drop 3 l) in *. cbv zeta. rewrite El, cd_path by done. rewrite run_sys. cbn [scall descriptors fdcall].
    eexists. split; [by apply (does_cd _ _ path)|].
    destruct (chdir_ok path); [done|].
    cbn [Z.ltb Z.compare andthen]. by rewrite (printf_run _ _ (text "cannot cd " ++ path ++ [10])).
  - rewrite bool_decide_eq_false_2 by done. rewrite run_fork1 by done. change (nfork w) with (nfork w1).
    destruct (fork_ok (nfork w1)) eqn:Hfk; [left|right; eauto].
    cbn [Z.eqb]. rewrite noreturn_run by apply run_line_noreturn.
    destruct (run_line_run fuel nroom l (forked_once w1) Hl Hr Hf) as (t & w2 & -> & Hw). cbn [andthen]. rewrite run_sys.
    cbn [scall descriptors fdcall]. eexists. split; [|done].
    destruct Hw as [(c & Hc & ->)|(Hc & msg & ->)]; [by apply does_run|]. rewrite add_add. by apply does_complain.
Qed.

(** ** The input left by the programs *)

Hypothesis left_by_rest : forall path argv t l, left_by path argv t l `suffix_of` l.

Lemma forks_input k k' w :
  (forall w, input (k w) `suffix_of` input w) -> (forall w, input (k' w) `suffix_of` input w) ->
  input (forks k k' w) `suffix_of` input w.
Proof.
  intros Hk Hk'. unfold forks. destruct (fork_ok (nfork w)); [|done].
  etransitivity; [apply Hk'|]. apply (Hk (forked_once w)).
Qed.

Lemma behaves_input c : forall i o w, input (behaves c i o w) `suffix_of` input w.
Proof.
  induction c as [ws|c IH inp f|l IHl r IHr|l IHl r IHr|c IH]; intros i o w; cbn [behaves].
  - destruct ws as [|a args]; [done|]. destruct (exec_ok a); [apply left_by_rest|done].
  - destruct (open_ok f (rmode inp)); [|done]. destruct inp; apply IH.
  - destruct (pipe_ok (npipe w)); [|done]. apply (forks_input _ _ (piped_once w)); [apply IHl|].
    intros w1. by apply forks_input; [apply IHr|].
  - apply forks_input; [apply IHl|]. intros w1. apply (IHr _ _ (add [Waited] w1)).
  - by apply forks_input; [apply IH|].
Qed.

Lemma line_input l w w1 : line_does l w w1 -> input w1 `suffix_of` input w.
Proof. intros [path _|c _ _ _|msg _ _ _]; [done| |done]. apply (behaves_input c Terminal Terminal (forked_once w)). Qed.

(** What is left of whole lines is whole lines. *)
Definition unlines (ls : list (list Z)) : list Z := concat (map (fun l => l ++ [10]) ls).

Lemma typed_drop n l : typed l -> typed (drop n l).
Proof. intros [H1 H2]. split; [by apply Forall_drop|]. rewrite length_drop. lia. Qed.

Lemma suffix_lines ls : forall l, Forall typed ls -> l `suffix_of` unlines ls ->
  exists ls', l = unlines ls' /\ Forall typed ls' /\ (length ls' <= length ls)%nat.
Proof.
  induction ls as [|a ls IH]; intros l Hls [k Hk].
  - symmetry in Hk. apply app_nil in Hk as [_ ->]. by exists [].
  - inversion Hls as [|? ? Ha Hls']; subst. change (unlines (a :: ls)) with ((a ++ [10]) ++ unlines ls) in Hk.
    destruct (decide (length k <= length a)%nat) as [Hle|Hgt].
    + exists (drop (length k) a :: ls). split; [|split; [constructor; [by apply typed_drop|done]|done]].
      change (unlines (drop (length k) a :: ls)) with ((drop (length k) a ++ [10]) ++ unlines ls).
      apply (f_equal (drop (length k))) in Hk. rewrite <- app_assoc, drop_app_le, drop_app_length in Hk by done.
      by rewrite <- app_assoc.
    + destruct (IH l Hls') as (ls' & -> & H1 & H2).
      * exists (drop (S (length a)) k). apply (f_equal (drop (S (length a)))) in Hk.
        rewrite (drop_app_le k) in Hk by lia. rewrite drop_app_ge in Hk by (rewrite length_app; cbn; lia).
        rewrite length_app in Hk. cbn [length] in Hk. by replace (S (length a) - (length a + 1))%nat with 0%nat in Hk by lia.
      * exists ls'. split; [done|]. split; [done|]. cbn. lia.
Qed.

Lemma main_loop_run fuel nroom rounds : forall ls w,
  Forall typed ls -> input w = unlines ls -> (199 <= nroom)%nat -> (400 + nroom <= fuel)%nat -> (length ls < rounds)%nat ->
  exists t' w', R (main_loop fuel nroom rounds) (std Terminal Terminal) w = (Exited, t', w') /\ session w w'.
Proof.
  induction rounds as [|k IH]; intros ls w Hls Hin Hr Hf Hk; [lia|]. destruct ls as [|l ls].
  - cbn [main_loop]. rewrite getcmd_eof by done. eexists _, _. split; [|by apply session_end].
    cbn [run]. unfold prompted, with_input, add. cbn. by rewrite Hin.
  - inversion Hls as [|? ? Hl Hls']; subst. change (unlines (l :: ls)) with ((l ++ [10]) ++ unlines ls) in Hin.
    rewrite <- app_assoc in Hin. cbn [app] in Hin.
    destruct (round_run fuel nroom k l _ w Hl Hin Hr Hf) as [(w1 & Hd & ->)|(Hcd & Hfk & t & ->)].
    + destruct (suffix_lines ls (input w1) Hls' (line_input _ _ _ Hd)) as (ls' & Hin' & Hls'' & Hlen).
      cbn in Hk. destruct (IH ls' w1 Hls'' Hin' Hr Hf ltac:(lia)) as (t' & w' & E & Hs).
      exists t', w'. split; [done|]. by eapply session_line.
    + eexists _, _. split; [done|]. by eapply session_stuck.
Qed.

(** C23: the shell's main loop.  The lines typed hold at most 98 bytes, none of them
    NUL or a line end; there are any number of them, with any words and operators.
    Programs and files exist or not, calls of [fork] and [pipe] fail or not, and the
    programs started read any part of the input that is there.  The shell reads what
    it finds line by line: for each line it prints its prompt and then changes
    directory, or starts exactly the programs of the command the line stands for,
    each with the right standard input and output and no other descriptor open (a
    command that cannot fork or make its pipe says so), or prints why there is no
    such command.  It ends at the end of the input, or when it cannot fork itself. *)
Theorem shell_session fuel nroom rounds ls w :
  Forall typed ls -> input w = unlines ls ->
  (199 <= nroom)%nat -> (400 + nroom <= fuel)%nat -> (length ls < rounds)%nat ->
  exists t' w', R (main fuel nroom rounds) (std Terminal Terminal) w = (Exited, t', w') /\ session w w'.
Proof.
  intros Hls Hin Hr Hf Hk. unfold main. rewrite open_console_run. by eapply main_loop_run.
Qed.
End Descriptors.

Module Runs.
Definition lines : list (list Z) := [text "cat <a | wc >b &"; text "cd /tmp"; text "cat"; text "typed text"; text "ls )"; text "ls; ls"].
Definition yes1 (_ : list Z) : bool := true.
Definition yes2 (_ : list Z) (_ : Z) : bool := true.
(** The eighth fork fails. *)
Definition forks_fail (n : nat) : bool := negb (n =? 7)%nat.
Definition pipes_work (_ : nat) : bool := true.
(** [cat] reads a line of the terminal. *)
Definition cat_reads (path : list Z) (argv : list (list Z)) (t : table) (l : list Z) : list Z :=
  match nth 0 t None with
  | Some Terminal => if bool_decide (path = text "cat") then drop 11 l else l
  | _ => l
  end.
Definition start : world := mkWorld 0 0 [] (unlines lines).

Lemma cat_reads_rest path argv t l : cat_reads path argv t l `suffix_of` l.
Proof. unfold cat_reads. repeat case_match; try done. exists (take 11 l). by rewrite take_drop. Qed.

Lemma shell_session_witness :
  exists t' w', run (descriptors yes2 yes1 yes1 forks_fail pipes_work cat_reads) (main 600 200 7) (std Terminal Terminal) start = (Exited, t', w')
    /\ session yes2 yes1 yes1 forks_fail pipes_work cat_reads start w'.
Proof.
  apply (shell_session yes2 yes1 yes1 forks_fail pipes_work cat_reads cat_reads_rest 600 200 7 lines start); [|reflexivity|lia|lia|cbn; lia].
  repeat (constructor; [split; [repeat (constructor; [done|]); constructor|cbn; lia]|]). constructor.
Defined.

(** The trace: [cat] reads the file and writes the pipe, [wc] reads the pipe and
    writes the file; the second [cat] reads the line that follows; the next line is
    an error, and the last one finds no child for its first [ls]. *)
Lemma session_trace :
  trace (run (descriptors yes2 yes1 yes1 forks_fail pipes_work cat_reads) (main 600 200 7) (std Terminal Terminal) start).2
  = says (text "$ ")
    ++ [Started (text "cat") [text "cat"] ([Some (File_ (text "a") O_RDONLY); Some (WriteEnd 0); Some Terminal] ++ replicate 13 None);
        Started (text "wc") [text "wc"] ([Some (ReadEnd 0); Some (File_ (text "b") (Z.lor O_WRONLY O_CREATE)); Some Terminal] ++ replicate 13 None);
        Waited; Waited; Waited]
    ++ says (text "$ ") ++ [Moved (text "/tmp")]
    ++ says (text "$ ") ++ [Started (text "cat") [text "cat"] (std Terminal Terminal); Waited]
    ++ says (text "$ ") ++ says (text "leftovers: )" ++ [10; 10] ++ text "syntax" ++ [10]) ++ [Waited]
    ++ says (text "$ ") ++ says (text "fork" ++ [10]) ++ [Waited]
    ++ says (text "$ ").
Proof. vm_compute. reflexivity. Qed.
End Runs.
