(* ===== verification/Uprogs.v ===== *)
(** The small user programs: [src/cat.c], [src/echo.c], [src/wc.c], [src/cpt.c],
    [src/ls.c], [src/ln.c], [src/rm.c], [src/mkdir.c], [src/kill.c], [src/init.c],
    [src/zombie.c], [src/chsh.c], [src/foo.c] and [src/zhi.c].

    [argv] is the list of the arguments, the program's name first; [argc] is its
    length.  Loops that read take a fuel that bounds the number of reads. *)

From Stdlib Require Import ZArith Lia.
From stdpp Require Import base list strings.
From S2P Require Import Prelude Ulib Console Usys Sh.
Local Open Scope Z_scope.
Local Open Scope prog_scope.

(** A message and its newline. *)
Definition ln (s : string) : list Z := text s ++ [10].

(** [for(i = 1; i < argc; i++)] over the arguments. *)
Fixpoint each (args : list (list Z)) (f : list Z -> prog unit) : prog unit :=
  match args with
  | [] => Return tt
  | a :: args' => f a ;; each args' f
  end.

(** ** cat *)

Fixpoint cat (fuel : nat) (fd : Z) : prog unit :=
  match fuel with
  | O => Undefined "fuel"
  | S k =>
      x <- sys (Read fd 512) ;;
      let '(n, b) := x in
      if 0 <? n then
        r <- sys (Write 1 b) ;;
        if negb (r =? n) then printf 1 (ln "cat: write error") [] ;; Exit
        else cat k fd
      else if n <? 0 then printf 1 (ln "cat: read error") [] ;; Exit
      else Return tt
  end.

Definition cat_main (fuel : nat) (argv : list (list Z)) : prog unit :=
  if (length argv <=? 1)%nat then cat fuel 0 ;; Exit
  else
    each (tail argv) (fun a =>
      fd <- sys (Open a 0) ;;
      if fd <? 0 then printf 1 (ln "cat: cannot open %s") [S_ a] ;; Exit
      else cat fuel fd ;; sys (Close fd) ;; Return tt) ;;
    Exit.

(** ** echo *)

Fixpoint echo_loop (args : list (list Z)) : prog unit :=
  match args with
  | [] => Return tt
  | a :: args' => printf 1 (text "%s%s") [S_ a; S_ (match args' with [] => [10] | _ => [32] end)] ;; echo_loop args'
  end.
Definition echo_main (argv : list (list Z)) : prog unit := echo_loop (tail argv) ;; Exit.

(** ** wc *)

(** The loop over the bytes of the buffer: lines, words, bytes and [inword]. *)
Fixpoint wc_bytes (b : list Z) (s : Z * Z * Z * bool) : Z * Z * Z * bool :=
  match b with
  | [] => s
  | x :: b' =>
      let '(l, w, c, inword) := s in
      let c := s32 (c + 1) in
      let l := if x =? 10 then s32 (l + 1) else l in
      if among [32; 13; 9; 10; 11] x then wc_bytes b' (l, w, c, false)
      else if negb inword then wc_bytes b' (l, s32 (w + 1), c, true)
      else wc_bytes b' (l, w, c, inword)
  end.

Fixpoint wc_loop (fuel : nat) (fd : Z) (name : list Z) (s : Z * Z * Z * bool) : prog unit :=
  match fuel with
  | O => Undefined "fuel"
  | S k =>
      x <- sys (Read fd 512) ;;
      let '(n, b) := x in
      if 0 <? n then wc_loop k fd name (wc_bytes b s)
      else if n <? 0 then printf 1 (ln "wc: read error") [] ;; Exit
      else
        let '(l, w, c, _) := s in
        printf 1 (ln "%d %d %d %s") [D l; D w; D c; S_ name]
  end.
Definition wc (fuel : nat) (fd : Z) (name : list Z) : prog unit := wc_loop fuel fd name (0, 0, 0, false).

Definition wc_main (fuel : nat) (argv : list (list Z)) : prog unit :=
  if (length argv <=? 1)%nat then wc fuel 0 [] ;; Exit
  else
    each (tail argv) (fun a =>
      fd <- sys (Open a 0) ;;
      if fd <? 0 then printf 1 (ln "wc: cannot open %s") [S_ a] ;; Exit
      else wc fuel fd a ;; sys (Close fd) ;; Return tt) ;;
    Exit.

(** ** cpt *)

Fixpoint cpt (fuel : nat) (in_ out : Z) : prog unit :=
  match fuel with
  | O => Undefined "fuel"
  | S k =>
      x <- sys (Read in_ 512) ;;
      let '(n, b) := x in
      if 0 <? n then
        r <- sys (Write out b) ;;
        if negb (r =? n) then printf 1 (ln "cpt: write error") [] ;; Exit
        else if nth (Z.to_nat (n - 1)) b 0 =? 10 then Exit
        else cpt k in_ out
      else if n <? 0 then printf 1 (ln "cpt: read error") [] ;; Exit
      else Return tt
  end.

Definition cpt_main (fuel : nat) (argv : list (list Z)) : prog unit :=
  match argv with
  | [] | [_] => printf 1 (ln "cpt: too few arguments") [] ;; Exit
  | [_; a1] =>
      sys (Unlink a1) ;;
      out <- sys (Open a1 (Z.lor O_CREATE O_RDWR)) ;;
      if out <? 0 then printf 1 (ln "cpt: cannot open %s") [S_ a1] ;; Exit
      else cpt fuel 0 out ;; sys (Close out) ;; Exit
  | [_; a1; a2] =>
      in_ <- sys (Open a1 0) ;;
      if in_ <? 0 then printf 1 (ln "cpt: cannot open %s") [S_ a1] ;; Exit
      else
        sys (Unlink a2) ;;
        out <- sys (Open a2 (Z.lor O_CREATE O_RDWR)) ;;
        if out <? 0 then
          printf 1 (ln "cpt: cannot create or edit %s") [S_ a2] ;; sys (Close in_) ;; Exit
        else
          cpt fuel in_ out ;; sys (Close in_) ;; sys (Close out) ;; Exit
  | _ => printf 1 (ln "cpt: too many arguments") [] ;; Exit
  end.

(** ** ls *)

Definition DIRSIZ : nat := 14.
Definition T_DIR : Z := 1.
Definition T_FILE : Z := 2.

(** [for(p = path + strlen(path); p >= path && *p != '/'; p--)]: the index of the
    last slash plus one, from [p]. *)
Fixpoint after_slash (path : list Z) (p : nat) : nat :=
  if nth p path 0 =? 47 then S p
  else match p with O => O | S k => after_slash path k end.

Definition fmtname (path : list Z) : list Z :=
  let p := drop (after_slash path (length path)) path in
  if (DIRSIZ <=? length p)%nat then p
  else p ++ replicate (DIRSIZ - length p) 32.

(** The loop over the entries of a directory; [p] is the path with its slash. *)
Fixpoint ls_entries (fuel : nat) (fd : Z) (p : list Z) : prog unit :=
  match fuel with
  | O => Undefined "fuel"
  | S k =>
      x <- sys (Read fd 16) ;;
      let '(n, b) := x in
      if n =? 16 then
        if nth 0 b 0 + 256 * nth 1 b 0 =? 0 then ls_entries k fd p
        else
          let name := p ++ upto_nul (take DIRSIZ (drop 2 b)) in
          y <- stat name ;;
          let '(r, st) := y in
          (if r <? 0 then printf 1 (ln "ls: cannot stat %s") [S_ name]
           else printf 1 (ln "%s %d %d %d") [S_ (fmtname name); D (st_type st); D (st_ino st); D (st_size st)]) ;;
          ls_entries k fd p
      else Return tt
  end.

Definition ls (fuel : nat) (path : list Z) : prog unit :=
  fd <- sys (Open path 0) ;;
  if fd <? 0 then printf 2 (ln "ls: cannot open %s") [S_ path] else
  x <- sys (Fstat fd) ;;
  let '(r, st) := x in
  if r <? 0 then printf 2 (ln "ls: cannot stat %s") [S_ path] ;; sys (Close fd) ;; Return tt else
  (if st_type st =? T_FILE then
     printf 1 (ln "%s %d %d %d") [S_ (fmtname path); D (st_type st); D (st_ino st); D (st_size st)]
   else if st_type st =? T_DIR then
     if (512 <? length path + 1 + DIRSIZ + 1)%nat then printf 1 (ln "ls: path too long") []
     else ls_entries fuel fd (path ++ [47])
   else Return tt) ;;
  sys (Close fd) ;;
  Return tt.

Definition ls_main (fuel : nat) (argv : list (list Z)) : prog unit :=
  (if (length argv <? 2)%nat then ls fuel [46] else each (tail argv) (ls fuel)) ;; Exit.

(** ** ln, rm, mkdir, kill, zombie, chsh *)

Definition ln_main (argv : list (list Z)) : prog unit :=
  match argv with
  | [_; a1; a2] =>
      r <- sys (Link a1 a2) ;;
      (if r <? 0 then printf 2 (ln "link %s %s: failed") [S_ a1; S_ a2] else Return tt) ;;
      Exit
  | _ => printf 2 (ln "Usage: ln old new") [] ;; Exit
  end.

Fixpoint rm_loop (args : list (list Z)) : prog unit :=
  match args with
  | [] => Return tt
  | a :: args' =>
      r <- sys (Unlink a) ;;
      if r <? 0 then printf 2 (ln "rm: %s failed to delete") [S_ a] else rm_loop args'
  end.
Definition rm_main (argv : list (list Z)) : prog unit :=
  if (length argv <? 2)%nat then printf 2 (ln "Usage: rm files...") [] ;; Exit
  else rm_loop (tail argv) ;; Exit.

Fixpoint mkdir_loop (args : list (list Z)) : prog unit :=
  match args with
  | [] => Return tt
  | a :: args' =>
      r <- sys (Mkdir a) ;;
      if r <? 0 then printf 2 (ln "mkdir: %s failed to create") [S_ a] else mkdir_loop args'
  end.
Definition mkdir_main (argv : list (list Z)) : prog unit :=
  if (length argv <? 2)%nat then printf 2 (ln "Usage: mkdir files...") [] ;; Exit
  else mkdir_loop (tail argv) ;; Exit.

Definition kill_main (argv : list (list Z)) : prog unit :=
  if (length argv <? 2)%nat then printf 2 (ln "usage: kill pid...") [] ;; Exit
  else each (tail argv) (fun a => sys (Kill (atoi a)) ;; Return tt) ;; Exit.

Definition zombie_main : prog unit :=
  pid <- fork ;;
  (if 0 <? pid then sys (Sleep_ticks 5) ;; Return tt else Return tt) ;;
  Exit.

Definition chsh_main : prog unit := printf 1 (ln "changing priority ") [] ;; Exit.

(** ** init *)

(** [while((wpid = wait()) >= 0 && wpid != pid)]. *)
Fixpoint init_wait (fuel : nat) (pid : Z) : prog unit :=
  match fuel with
  | O => Undefined "fuel"
  | S k =>
      wpid <- sys Wait ;;
      if (0 <=? wpid) && negb (wpid =? pid) then printf 1 (ln "zombie!") [] ;; init_wait k pid
      else Return tt
  end.

(** The endless loop; [rounds] bounds the shells started. *)
Fixpoint init_loop (wfuel rounds : nat) : prog unit :=
  match rounds with
  | O => Undefined "fuel"
  | S k =>
      printf 1 (ln "init: starting sh") [] ;;
      pid <- fork ;;
      if pid <? 0 then printf 1 (ln "init: fork failed") [] ;; Exit
      else if pid =? 0 then
        exec (text "sh") [text "sh"] ;;
        printf 1 (ln "init: exec sh failed") [] ;;
        Exit
      else
        printf 1 (ln "Zhivar Sourati - MohsenFayyaz.ir - Bardia Eghbali") [] ;;
        init_wait wfuel pid ;;
        init_loop wfuel k
  end.

Definition init_main (wfuel rounds : nat) : prog unit :=
  r <- sys (Open (text "console") O_RDWR) ;;
  (if r <? 0 then
     sys (Mknod (text "console") 1 1) ;;
     sys (Open (text "console") O_RDWR) ;;
     Return tt
   else Return tt) ;;
  sys (Dup 0) ;;
  sys (Dup 0) ;;
  init_loop wfuel rounds.

(** ** foo *)

(** [for(int i = 0; i < for_duration; i++) c *= 2]: an [int] that overflows has no
    defined value, which happens within 31 rounds. *)
Fixpoint foo_spin (fuel : nat) (i dur c : Z) : option Z :=
  if i <? dur then
    if 2 ^ 31 <=? c * 2 then None
    else match fuel with O => None | S k => foo_spin k (i + 1) dur (c * 2) end
  else Some c.

(** The loop that forks: whether this process is a child. *)
Fixpoint foo_fork (n : nat) (level : Z) : prog bool :=
  match n with
  | O => Return false
  | S k =>
      pid <- fork ;;
      if pid =? 0 then Return true
      else if 0 <? pid then sys (Change_process_level pid level) ;; foo_fork k level
      else printf 1 (ln "error forking") [] ;; foo_fork k level
  end.

Fixpoint foo_waits (n : nat) : prog unit :=
  match n with O => Return tt | S k => sys Wait ;; foo_waits k end.

Definition foo_main (argv : list (list Z)) : prog unit :=
  let arg i d := match argv with [_; _; _; _] => atoi (nth i argv []) | _ => d end in
  let child_count := arg 1%nat 10 in
  if 100 <? child_count then printf 1 (ln "child count should be less than 100") [] ;; Exit
  else
  let for_duration := arg 2%nat 1000000000 in
  let level := arg 3%nat 0 in
  is_child <- foo_fork (Z.to_nat child_count) level ;;
  match foo_spin 32 0 for_duration 2 with
  | None => Undefined "c *= 2 overflows"
  | Some c =>
      (if is_child : bool then Return tt
       else
         foo_waits (Z.to_nat child_count) ;;
         pid <- sys Getpid ;;
         sys (Change_process_level pid level)) ;;
      printf 1 (text "%d") [D c] ;;
      Exit
  end.

(** ** zhi *)

Definition zhi_rule : list Z := ln "----------------------------------" ++ ln "Current pid = %d".
Definition zhi_usage (m : string) : list Z := ln m ++ ln "use {count 123}/{parent}/{children 2}/{path /:bin:}".

Definition zhi_count (a : list Z) : prog unit :=
  printf 1 (ln "count_num_of_digits() from user: ") [] ;;
  sys (Count_num_of_digits (atoi a)) ;;
  Exit.

Definition zhi_parent : prog unit :=
  p <- sys Get_parent_id ;;
  printf 1 (ln "parent id: %d ") [D p] ;;
  Exit.

Definition zhi_path (a : list Z) : prog unit :=
  printf 1 (ln "adding the pathes to PATH ... ") [] ;;
  sys (Set_path a) ;;
  Exit.

Definition new_child (c : Z) : prog unit :=
  p <- sys Getpid ;; printf 1 (ln "new Child of %d: %d") [D p; D c].

Definition zhi_children (a : list Z) : prog unit :=
  let number := atoi a in
  p1 <- fork ;;
  (if p1 =? 0 then
     p3 <- fork ;;
     (if negb (p3 =? 0) then new_child p3 else Return tt) ;;
     sys (Sleep_ticks 2) ;;
     Return tt
   else
     new_child p1 ;;
     p2 <- fork ;;
     if negb (p2 =? 0) then new_child p2
     else sys (Sleep_ticks 1) ;; Return tt) ;;
  c <- sys (Get_children number) ;;
  printf 1 (ln "children of %d are: %d ") [D number; D c] ;;
  sys Wait ;;
  sys Wait ;;
  sys Wait ;;
  Exit.

Definition zhi_sleep (a : list Z) : prog unit :=
  let sleep_seconds := atoi a in
  printf 1 (ln "user: starting sleep ... ") [] ;;
  t1 <- sys Get_time ;;
  sys (Set_sleep sleep_seconds) ;;
  t2 <- sys Get_time ;;
  printf 1 (ln "user: sleep real duration: %d") [D (t2 - t1)] ;;
  Exit.

Definition zhi_barrier : prog unit :=
  printf 1 (ln "user: starting barrier ... ") [] ;;
  sys (Barrier_init 4) ;;
  p <- fork ;;
  (if negb (p =? 0) then sys (Sleep_ticks 100) ;; Return tt else Return tt) ;;
  fork ;;
  p <- sys Getpid ;;
  printf 1 (ln "user: before barrier pid: %d") [D p] ;;
  sys Barrier_wait ;;
  p <- sys Getpid ;;
  printf 1 (ln "user: after barrier pid: %d") [D p] ;;
  sys Wait ;;
  sys Wait ;;
  Exit.

Definition zhi_reentrant : prog unit :=
  printf 1 (ln "user: starting reentrant spinlock test ... ") [] ;;
  sys Reentrant_spinlock_test ;;
  printf 1 (ln "user: test completed ... ") [] ;;
  Exit.

Definition zhi_main (argv : list (list Z)) : prog unit :=
  p <- sys Getpid ;;
  printf 1 zhi_rule [D p] ;;
  if (length argv <? 2)%nat then printf 1 (zhi_usage "Error: Too few args ") [] ;; Exit
  else
  let a1 := nth 1 argv [] in
  let a2 := nth 2 argv [] in
  let argc := length argv in
  let arg_is c := strcmp a1 (text c) =? 0 in
  if arg_is "count"%string && (argc =? 3)%nat then zhi_count a2
  else if arg_is "parent"%string && (argc =? 2)%nat then zhi_parent
  else if arg_is "path"%string && (argc =? 3)%nat then zhi_path a2
  else if arg_is "children"%string && (argc =? 3)%nat then zhi_children a2
  else if arg_is "sleep"%string && (argc =? 3)%nat then zhi_sleep a2
  else if arg_is "barrier"%string then zhi_barrier
  else if arg_is "reentrant"%string then zhi_reentrant
  else printf 1 (zhi_usage "Error: Bad args ") [] ;; Exit.

(** ** What the programs do

    On any system whose [read] delivers the data of a descriptor piece by piece, in
    pieces of any length, and whose [write] appends. *)

Section Files.
Context {P W : Type} (o : system P W) (data out : P -> W -> Z -> list Z).

Hypothesis read_ok : forall fd n l w r b l' w',
  scall o _ (Read fd n) l w = ((r, b), l', w') -> 0 < n ->
  r = Z.of_nat (length b) /\ data l w fd = b ++ data l' w' fd /\ (b = [] -> data l w fd = [])
  /\ forall f, out l' w' f = out l w f.
Hypothesis write_ok : forall fd b l w r l' w',
  scall o _ (Write fd b) l w = (r, l', w') ->
  r = Z.of_nat (length b) /\ out l' w' fd = out l w fd ++ b
  /\ (forall f, f <> fd -> out l' w' f = out l w f) /\ forall f, data l' w' f = data l w f.

Lemma puts_writes fd b : forall l w, exists l' w',
  run o (puts fd b) l w = (Returned tt, l', w') /\ out l' w' fd = out l w fd ++ b /\ forall f, data l' w' f = data l w f.
Proof.
  induction b as [|c b IH]; intros l w; cbn [puts]; [exists l, w; by rewrite app_nil_r|]. rewrite run_sys.
  destruct (scall o Z (Write fd [c]) l w) as [[r l1] w1] eqn:E. apply write_ok in E as (_ & E1 & _ & E2).
  destruct (IH l1 w1) as (l' & w' & E3 & E4 & E5). exists l', w'. split; [done|]. rewrite E4, E1, <- app_assoc. split; [done|].
  intros f. by rewrite E5.
Qed.

(** [cat] copies: it reads its input to the end and standard output has received
    exactly the bytes of the input, in order, whatever the pieces they came in. *)
Theorem cat_copies fuel fd : forall l w,
  (length (data l w fd) < fuel)%nat ->
  exists l' w', run o (cat fuel fd) l w = (Returned tt, l', w') /\ out l' w' 1 = out l w 1 ++ data l w fd.
Proof.
  induction fuel as [|k IH]; intros l w Hf; [lia|]. cbn [cat]. rewrite run_sys.
  destruct (scall o (Z * list Z) (Read fd 512) l w) as [[[r b] l1] w1] eqn:E.
  apply read_ok in E as (-> & Ed & Eb & Eo); [|lia]. destruct b as [|c b].
  - cbn [length Z.of_nat Z.ltb Z.compare]. exists l1, w1. split; [done|]. by rewrite Eo, (Eb eq_refl), app_nil_r.
  - rewrite (proj2 (Z.ltb_lt 0 _)) by (cbn [length]; lia). rewrite run_sys.
    destruct (scall o Z (Write 1 (c :: b)) l1 w1) as [[r l2] w2] eqn:E2. apply write_ok in E2 as (-> & E3 & _ & E4).
    rewrite Z.eqb_refl. cbn [negb]. rewrite Ed, length_app in Hf. cbn [length] in Hf.
    destruct (IH l2 w2) as (l' & w' & E5 & E6); [rewrite E4; lia|].
    exists l', w'. split; [done|]. by rewrite E6, E3, E4, Eo, Ed, <- app_assoc.
Qed.

(** The lines and the words of a text. *)
Definition lines_of (d : list Z) : nat := length (filter (eq 10) d).
Definition space (x : Z) : bool := among [32; 13; 9; 10; 11] x.
Fixpoint words_of (cur d : list Z) : list (list Z) :=
  match d with
  | [] => if decide (cur = []) then [] else [cur]
  | x :: d' =>
      if space x then (if decide (cur = []) then [] else [cur]) ++ words_of [] d'
      else words_of (cur ++ [x]) d'
  end.

Lemma wc_bytes_app b1 b2 : forall s, wc_bytes (b1 ++ b2) s = wc_bytes b2 (wc_bytes b1 s).
Proof.
  induction b1 as [|x b1 IH]; intros [[[l w] c] i]; cbn [app wc_bytes]; [done|].
  destruct (among [32; 13; 9; 10; 11] x); [done|]. by destruct (negb i).
Qed.

Ltac tuple_eq := apply pair_equal_spec; split; [|done]; apply pair_equal_spec; split; [apply pair_equal_spec; split|]; lia.

Lemma wc_bytes_counts d : forall l w c cur,
  0 <= l <= c -> 0 <= w <= c -> c + Z.of_nat (length d) < 2 ^ 31 ->
  exists i, wc_bytes d (l, w, c, bool_decide (cur <> []))
    = (l + Z.of_nat (lines_of d), w + Z.of_nat (length (words_of cur d)) - (if decide (cur = []) then 0 else 1),
       c + Z.of_nat (length d), i).
Proof.
  induction d as [|x d IH]; intros l w c cur Hl Hw Hc.
  - exists (bool_decide (cur <> [])). cbn. rewrite !Z.add_0_r. by destruct (decide (cur = [])); cbn; rewrite ?Z.add_0_r, ?Z.sub_0_r, ?Z.add_simpl_r.
  - cbn [wc_bytes length words_of]. cbn [length] in Hc. rewrite (s32_id (c + 1)) by lia.
    assert (lines_of (x :: d) = (if decide (10 = x)%Z then 1 else 0) + lines_of d)%nat as El.
    { unfold lines_of. rewrite filter_cons. by destruct (decide (10 = x)). }
    assert ((if x =? 10 then s32 (l + 1) else l) = l + (if decide (10 = x) then 1 else 0)) as ->.
    { destruct (Z.eqb_spec x 10), (decide (10 = x)); try lia; try congruence. by rewrite s32_id by lia. }
    assert (0 <= (if decide (10 = x) then 1 else 0) <= 1) as H1 by (destruct (decide (10 = x)); lia).
    assert (Z.of_nat (lines_of (x :: d)) = (if decide (10 = x) then 1 else 0) + Z.of_nat (lines_of d)) as El'
      by (rewrite El; destruct (decide (10 = x)); lia).
    unfold space. rewrite El'. destruct (among [32; 13; 9; 10; 11] x).
    + destruct (IH (l + (if decide (10 = x) then 1 else 0)) w (c + 1) []) as (i & E); [lia..|]. exists i.
      rewrite bool_decide_eq_false_2 in E by (intros H; by apply H). rewrite E. rewrite length_app.
      destruct (decide (@nil Z = [])) as [_|]; [|done]. destruct (decide (cur = [])); cbn [length]; tuple_eq.
    + assert (bool_decide (cur ++ [x] <> []) = true) as Et by (apply bool_decide_eq_true; by destruct cur).
      destruct (IH (l + (if decide (10 = x) then 1 else 0)) (if decide (cur = []) then w + 1 else w) (c + 1) (cur ++ [x])) as (i & E);
        [lia|destruct (decide (cur = [])); lia|lia|].
      exists i. rewrite Et in E. destruct (decide (cur ++ [x] = [])) as [H|_]; [by destruct cur|].
      destruct (decide (cur = [])) as [->|Hne].
      * rewrite bool_decide_eq_false_2 by (intros H; by apply H). cbn [negb]. rewrite s32_id by lia. rewrite E. tuple_eq.
      * rewrite bool_decide_eq_true_2 by done. cbn [negb]. rewrite E. tuple_eq.
Qed.

Lemma wc_loop_run fuel fd name : forall s l w,
  (length (data l w fd) < fuel)%nat ->
  exists l1 w1, run o (wc_loop fuel fd name s) l w
      = run o (let '(l, w, c, _) := wc_bytes (data l w fd) s in printf 1 (ln "%d %d %d %s") [D l; D w; D c; S_ name]) l1 w1
    /\ out l1 w1 1 = out l w 1.
Proof.
  induction fuel as [|k IH]; intros s l w Hf; [lia|]. cbn [wc_loop]. rewrite run_sys.
  destruct (scall o (Z * list Z) (Read fd 512) l w) as [[[r b] l1] w1] eqn:E.
  apply read_ok in E as (-> & Ed & Eb & Eo); [|lia]. destruct b as [|c b].
  - cbn [length Z.of_nat Z.ltb Z.compare]. exists l1, w1. by rewrite (Eb eq_refl), Eo.
  - rewrite (proj2 (Z.ltb_lt 0 _)) by (cbn [length]; lia). rewrite Ed, length_app in Hf. cbn [length] in Hf.
    destruct (IH (wc_bytes (c :: b) s) l1 w1) as (l2 & w2 & E2 & E3); [lia|]. exists l2, w2.
    rewrite E2, Ed, wc_bytes_app. by rewrite E3, Eo.
Qed.

Lemma wc_text a b c name :
  Ulib.printf (pstr [D a; D b; D c; S_ name]) (ln "%d %d %d %s") (pwords [D a; D b; D c; S_ name])
  = Some (Ulib.printint (s32 a) 10 true ++ [32] ++ Ulib.printint (s32 b) 10 true ++ [32] ++ Ulib.printint (s32 c) 10 true ++ [32] ++ name ++ [10]).
Proof. reflexivity. Qed.

Lemma words_length d : forall cur, (length (words_of cur d) <= length d + if decide (cur = []) then 0 else 1)%nat.
Proof.
  induction d as [|x d IH]; intros cur; cbn; [by destruct (decide (cur = []))|].
  destruct (space x).
  - rewrite length_app. specialize (IH []). destruct (decide (@nil Z = [])); [|done]. destruct (decide (cur = [])); cbn; lia.
  - specialize (IH (cur ++ [x])). destruct (decide (cur ++ [x] = [])), (decide (cur = [])); lia.
Qed.

(** [wc] counts: it prints the number of newlines, of words (longest runs of
    bytes that are not white space) and of bytes of its input, whatever the pieces
    the input came in; a word cut by a piece counts once. *)
Theorem wc_counts fuel fd name l w :
  (length (data l w fd) < fuel)%nat -> Z.of_nat (length (data l w fd)) < 2 ^ 31 ->
  let d := data l w fd in
  exists l' w', run o (wc fuel fd name) l w = (Returned tt, l', w')
    /\ out l' w' 1 = out l w 1 ++ Ulib.printint (Z.of_nat (lines_of d)) 10 true ++ [32]
         ++ Ulib.printint (Z.of_nat (length (words_of [] d))) 10 true ++ [32]
         ++ Ulib.printint (Z.of_nat (length d)) 10 true ++ [32] ++ name ++ [10].
Proof.
  intros Hf Hd d. unfold wc. destruct (wc_loop_run fuel fd name (0, 0, 0, false) l w Hf) as (l1 & w1 & -> & Eo). fold d in Hd |- *.
  destruct (wc_bytes_counts d 0 0 0 []) as (i & E); [lia..|]. rewrite bool_decide_eq_false_2 in E by (intros H; by apply H).
  rewrite E. destruct (decide (@nil Z = [])) as [_|]; [|done]. rewrite !Z.add_0_l, Z.sub_0_r.
  assert (lines_of d <= length d)%nat as H1 by apply length_filter.
  pose proof (words_length d []) as H2.
  destruct (decide (@nil Z = [])) as [_|]; [|done].
  destruct (puts_writes 1 (Ulib.printint (Z.of_nat (lines_of d)) 10 true ++ [32]
         ++ Ulib.printint (Z.of_nat (length (words_of [] d))) 10 true ++ [32]
         ++ Ulib.printint (Z.of_nat (length d)) 10 true ++ [32] ++ name ++ [10]) l1 w1) as (l' & w' & E1 & E2 & _).
  exists l', w'. rewrite E2, Eo. split; [|done]. rewrite <- E1. unfold printf.
  by rewrite wc_text, !s32_id by lia.
Qed.
End Files.

(** ** A system with one input that delivers at most [k] bytes at a time *)

Module Runs.
Record files := mkFiles { inp : list Z; outs : Z -> list Z }.

Definition fcall (k : nat) (X : Type) (c : call X) (_ : unit) (w : files) : X * unit * files :=
  match c in call X return X * unit * files with
  | Read fd n =>
      if fd =? 0 then
        let b := take (Nat.min k (Z.to_nat n)) (inp w) in
        ((Z.of_nat (length b), b), tt, mkFiles (drop (length b) (inp w)) (outs w))
      else ((0, []), tt, w)
  | Write fd b => (Z.of_nat (length b), tt, mkFiles (inp w) (fun f => if f =? fd then outs w f ++ b else outs w f))
  | Pipe => ((-1, (0, 0)), tt, w)
  | Fstat _ => ((-1, mkUstat 0 0 0 0 0), tt, w)
  | Set_path _ | Set_sleep _ | Change_process_level _ _ | Set_process_ticket _ _
  | Set_process_remaining_priority _ _ | Print_processes_info | Barrier_init _ | Barrier_wait
  | Reentrant_spinlock_test | Store _ _ | Outb _ _ => (tt, tt, w)
  | Wait | Close _ | Kill _ | Open _ _ | Mknod _ _ _ | Unlink _ | Link _ _ | Mkdir _ | Chdir _ | Dup _ | Getpid
  | Sbrk _ | Sleep_ticks _ | Uptime | Count_num_of_digits _ | Get_parent_id | Get_children _ | Get_time | Load _ | Read_at _ _ _ | Link_at _ _ | Sleep_at _ | Inb _ => (-1, tt, w)
  end.

Definition pieces (k : nat) : system unit files := mkSystem (fcall k) (fun w => (None, w)) (fun _ _ _ _ => None).
Definition idata (_ : unit) (w : files) (fd : Z) : list Z := if fd =? 0 then inp w else [].
Definition iout (_ : unit) (w : files) (fd : Z) : list Z := outs w fd.

Lemma pieces_read k fd n l w r b l' w' : (0 < k)%nat ->
  scall (pieces k) _ (Read fd n) l w = ((r, b), l', w') -> 0 < n ->
  r = Z.of_nat (length b) /\ idata l w fd = b ++ idata l' w' fd /\ (b = [] -> idata l w fd = [])
  /\ forall f, iout l' w' f = iout l w f.
Proof.
  intros Hk E Hn. cbn in E. unfold idata. destruct (fd =? 0); injection E as <- <- _ <-; [|done]. cbn [inp].
  set (m := Nat.min k (Z.to_nat n)). assert (0 < m)%nat as Hm by lia. split_and!; [done| | |done].
  - rewrite length_take. rewrite <- (take_drop m (inp w)) at 1. f_equal.
    destruct (decide (m <= length (inp w))%nat); [by rewrite Nat.min_l|]. rewrite Nat.min_r by lia. by rewrite !drop_ge by lia.
  - intros H. destruct (inp w); [done|]. by destruct m; [lia|].
Qed.

Lemma pieces_write k fd b l w r l' w' :
  scall (pieces k) _ (Write fd b) l w = (r, l', w') ->
  r = Z.of_nat (length b) /\ iout l' w' fd = iout l w fd ++ b
  /\ (forall f, f <> fd -> iout l' w' f = iout l w f) /\ forall f, idata l' w' f = idata l w f.
Proof.
  intros E. cbn in E. injection E as <- _ <-. unfold iout. cbn. rewrite Z.eqb_refl. split_and!; try done.
  intros f Hf. by rewrite (proj2 (Z.eqb_neq f fd)).
Qed.

Definition typed_text : list Z := text "two words" ++ [10] ++ text "and three more".
Definition w0 : files := mkFiles typed_text (fun _ => []).

Lemma cat_copies_witness :
  exists l' w', run (pieces 4) (cat 30 0) tt w0 = (Returned tt, l', w') /\ iout l' w' 1 = iout tt w0 1 ++ idata tt w0 0.
Proof.
  apply (cat_copies (pieces 4) idata iout (fun fd n l w r b l' w' => pieces_read 4 fd n l w r b l' w' ltac:(lia)) (pieces_write 4) 30 0 tt w0).
  cbn. lia.
Defined.

Lemma wc_counts_witness :
  let d := idata tt w0 0 in
  exists l' w', run (pieces 4) (wc 30 0 (text "x")) tt w0 = (Returned tt, l', w')
    /\ iout l' w' 1 = iout tt w0 1 ++ Ulib.printint (Z.of_nat (lines_of d)) 10 true ++ [32]
         ++ Ulib.printint (Z.of_nat (length (words_of [] d))) 10 true ++ [32]
         ++ Ulib.printint (Z.of_nat (length d)) 10 true ++ [32] ++ text "x" ++ [10].
Proof.
  apply (wc_counts (pieces 4) idata iout (fun fd n l w r b l' w' => pieces_read 4 fd n l w r b l' w' ltac:(lia)) (pieces_write 4) 30 0 (text "x") tt w0);
    cbn; lia.
Defined.

(** What it prints. *)
Lemma wc_prints : outs (run (pieces 4) (wc 30 0 (text "x")) tt w0).2 1 = ln "1 5 24 x".
Proof. vm_compute. reflexivity. Qed.

(** [cpt] loses data: it takes a block that ends in a newline for the end of the
    input, so that of a file whose 512th byte is a newline it copies 512 bytes. *)
Theorem cpt_cuts_at_newline :
  outs (run (pieces 512) (cpt 5 0 3) tt (mkFiles (replicate 511 97 ++ [10] ++ replicate 88 98) (fun _ => []))).2 3
  = replicate 511 97 ++ [10].
Proof. vm_compute. reflexivity. Qed.
End Runs.
