(* ===== verification/Forktest.v ===== *)
(** Two of the test programs: [src/forktest.c] and [src/stressfs.c].

    [forktest] makes children until [fork] fails and then collects them all. *)

From Stdlib Require Import ZArith Lia.
From stdpp Require Import base list strings.
From S2P Require Import Prelude Ulib Console Usys Sh Uprogs.
Local Open Scope Z_scope.
Local Open Scope prog_scope.

(** [printf] of [forktest.c]: one [write] of the format. *)
Definition print (s : list Z) : prog unit := sys (Write 1 s) ;; Return tt.

Definition N : nat := 1000.

(** The loop that forks, [left] times more, with [n] children so far. *)
Fixpoint fork_loop (left n : nat) : prog nat :=
  match left with
  | O => Return n
  | S k =>
      pid <- fork ;;
      if pid <? 0 then Return n else
      if pid =? 0 then Exit else
      fork_loop k (S n)
  end.

(** The loop that waits; [say] is the program's own [printf]. *)
Fixpoint wait_loop (say : list Z -> prog unit) (n : nat) : prog unit :=
  match n with
  | O => Return tt
  | S k =>
      r <- sys Wait ;;
      if r <? 0 then say (ln "wait stopped early") ;; Exit else
      wait_loop say k
  end.

Definition forktest : prog unit :=
  print (ln "fork test") ;;
  n <- fork_loop N 0 ;;
  if (n =? N)%nat then print (ln "fork claimed to work N times!") ;; Exit else
  wait_loop print n ;;
  r <- sys Wait ;;
  if negb (r =? -1) then print (ln "wait got too many") ;; Exit else
  print (ln "fork test OK").

Definition forktest_main : prog unit := forktest ;; Exit.

(** ** stressfs *)

Definition O_RDONLY : Z := 0.
Definition O_RDWR : Z := 2.
Definition O_CREATE : Z := 0x200.

(** [for(i = 0; i < 4; i++) if(fork() > 0) break;]: the value of [i]. *)
Fixpoint spawn (left : nat) (i : Z) : prog Z :=
  match left with
  | O => Return i
  | S k => pid <- fork ;; if 0 <? pid then Return i else spawn k (i + 1)
  end.

(** A statement done [n] times. *)
Fixpoint times (n : nat) (p : prog unit) : prog unit :=
  match n with O => Return tt | S k => p ;; times k p end.

(** The buffer once [b] has been read into its front. *)
Definition into (buf b : list Z) : list Z := b ++ drop (length b) buf.

Definition stressfs_main : prog unit :=
  printf 1 (ln "stressfs starting") [] ;;
  let data := replicate 512 97 in
  i <- spawn 4 0 ;;
  printf 1 (ln "write %d") [D i] ;;
  let path := text "stressfs" ++ [48 + i] in
  fd <- sys (Open path (Z.lor O_CREATE O_RDWR)) ;;
  times 20 (sys (Write fd data) ;; Return tt) ;;
  sys (Close fd) ;;
  printf 1 (ln "read") [] ;;
  fd <- sys (Open path O_RDONLY) ;;
  times 20 (sys (Read fd 512) ;; Return tt) ;;
  sys (Close fd) ;;
  sys Wait ;;
  Exit.

(** ** What [forktest] finds out

    A system with room for [room] more processes, [kids] children that have ended and
    not been waited for, and the text written to descriptor 1. *)

Section Limit.
Context {P W : Type} (o : system P W).
Context (room kids : W -> nat) (out : W -> list Z).
Context (Hfork : forall w, match sfork o w with
  | (Some pid, w') => 0 < pid /\ (0 < room w)%nat /\ room w' = (room w - 1)%nat /\ kids w' = S (kids w) /\ out w' = out w
  | (None, w') => room w = O /\ room w' = room w /\ kids w' = kids w /\ out w' = out w
  end).
Context (Hwait : forall l w, let '(r, l', w') := scall o _ Wait l w in
  out w' = out w /\ match kids w with O => r = -1 /\ kids w' = O | S k => 0 < r /\ kids w' = k end).
Context (Hwrite : forall b l w, let '(_, l', w') := scall o _ (Write 1 b) l w in out w' = out w ++ b /\ kids w' = kids w /\ room w' = room w).

Lemma fork_loop_run {B} (k : nat -> prog B) left : forall n l w,
  let c := Nat.min left (room w) in
  exists w', run o (x <- fork_loop left n ;; k x) l w = run o (k (n + c)%nat) l w' /\ kids w' = (kids w + c)%nat /\ out w' = out w.
Proof using Hfork.
  induction left as [|left IH]; intros n l w; cbn [fork_loop andthen].
  - exists w. cbn. by rewrite !Nat.add_0_r.
  - cbn [fork andthen run]. pose proof (Hfork w) as H. destruct (sfork o w) as [[pid|] w1].
    + destruct H as (Hp & Hr & Hr1 & Hk1 & Ho1). cbn [Z.ltb Z.compare Z.eqb run andthen].
      rewrite (proj2 (Z.ltb_ge pid 0)), (proj2 (Z.eqb_neq pid 0)) by lia.
      destruct (IH (S n) l w1) as (w' & Hrun & Hk & Ho). exists w'. cbv zeta. rewrite Hr1 in Hrun, Hk. rewrite Hrun, Hk, Hk1, Ho, Ho1.
      assert (Hmin : Nat.min (S left) (room w) = S (Nat.min left (room w - 1))) by lia. rewrite Hmin.
      split; [do 2 f_equal; lia|]. split; [lia|done].
    + destruct H as (Hr & Hr1 & Hk1 & Ho1). cbn. exists w1. cbv zeta. rewrite Hr. cbn [Nat.min]. rewrite !Nat.add_0_r. done.
Qed.

Lemma wait_loop_run {B} (k : unit -> prog B) n : forall l w, (n <= kids w)%nat ->
  exists l' w', run o (x <- wait_loop print n ;; k x) l w = run o (k tt) l' w' /\ kids w' = (kids w - n)%nat /\ out w' = out w.
Proof using Hwait.
  induction n as [|n IH]; intros l w Hn; cbn [wait_loop andthen].
  - exists l, w. split; [done|]. split; [lia|done].
  - cbn [sys andthen run]. pose proof (Hwait l w) as H. destruct (scall o Z Wait l w) as [[r l1] w1]. destruct H as [Ho1 H].
    destruct (kids w) as [|c] eqn:Ec; [lia|]. destruct H as [Hr Hk1]. rewrite (proj2 (Z.ltb_ge r 0)) by lia.
    destruct (IH l1 w1) as (l' & w' & Hrun & Hk & Ho); [lia|]. exists l', w'. rewrite Hrun, Hk, Ho. split; [done|]. split; [lia|done].
Qed.

Lemma print_run {B} (k : unit -> prog B) b l w : exists l' w', run o (x <- print b ;; k x) l w = run o (k tt) l' w' /\ out w' = out w ++ b /\ kids w' = kids w /\ room w' = room w.
Proof using Hwrite.
  unfold print. cbn [sys andthen run]. pose proof (Hwrite b l w) as H. destruct (scall o Z (Write 1 b) l w) as [[r l1] w1]. by exists l1, w1.
Qed.

Ltac print_step l' w' Ho Hk Hr :=
  match goal with |- context [run o (andthen (print ?b) ?k) ?l ?w] => destruct (print_run k b l w) as (l' & w' & -> & Ho & Hk & Hr) end.

(** [forktest] says that all is well exactly when the number of processes there is room
    for stays below its bound, and then leaves no child behind. *)
Theorem forktest_finds_limit l w : kids w = O ->
  exists l' w', run o forktest_main l w = (Exited, l', w')
  /\ out w' = out w ++ ln "fork test" ++ (if (room w <? N)%nat then ln "fork test OK" else ln "fork claimed to work N times!")
  /\ ((room w < N)%nat -> kids w' = O).
Proof using Hfork Hwait Hwrite.
  intros H0. unfold forktest_main, forktest. rewrite run_assoc.
  print_step l1 w1 Ho1 Hk1 Hr1. rewrite run_assoc.
  match goal with |- context [run o (andthen (fork_loop N 0) ?k) ?l ?w] => destruct (fork_loop_run k N 0 l w) as (w2 & -> & Hk2 & Ho2) end.
  rewrite Hr1, Hk1, H0, Nat.add_0_l in *. destruct (Nat.ltb_spec (room w) N) as [Hlt|Hge].
  - rewrite (Nat.min_r _ _ (Nat.lt_le_incl _ _ Hlt)) in *. rewrite (proj2 (Nat.eqb_neq (room w) N)) by lia. rewrite run_assoc.
    match goal with |- context [run o (andthen (wait_loop print ?n) ?k) ?l ?w] => destruct (wait_loop_run k n l w) as (l3 & w3 & -> & Hk3 & Ho3); [by rewrite Hk2|] end.
    cbn [sys andthen run]. pose proof (Hwait l3 w3) as H. destruct (scall o Z Wait l3 w3) as [[r l4] w4]. rewrite Hk3, Hk2, Nat.sub_diag in H. destruct H as (Ho4 & -> & Hk4).
    cbn [negb Z.eqb Pos.eqb]. print_step l5 w5 Ho5 Hk5 Hr5. exists l5, w5. split; [done|]. split; [|intros _; by rewrite Hk5]. rewrite Ho5, Ho4, Ho3, Ho2, Ho1. by rewrite app_assoc.
  - rewrite (Nat.min_l _ _ Hge) in *. rewrite Nat.eqb_refl. rewrite run_assoc. print_step l5 w5 Ho5 Hk5 Hr5. exists l5, w5. split; [done|]. split; [|lia].
    rewrite Ho5, Ho2, Ho1. by rewrite app_assoc.
Qed.
End Limit.
