(* ===== verification/Usertests.v ===== *)
(** The test suite [src/usertests.c], each test as the tree of its system calls.

    The global buffer [buf] is an argument of the tests that use it and, with what they
    have left in it, their result.  [char] is signed.  A [for] loop with a known bound
    counts its rounds; a loop that ends with what a call returns takes a fuel.  A loop
    that never ends and makes no call is [forever]. *)

From Stdlib Require Import ZArith Lia.
From stdpp Require Import base list strings.
From S2P Require Import Prelude Bytes Ulib Umalloc Console Usys Sh Uprogs Forktest.
Local Open Scope Z_scope.
Local Open Scope prog_scope.

Abbreviation str := text.

Definition O_WRONLY : Z := 1.
Definition MAXFILE : Z := 12 + 128.
Definition MAXARG : nat := 32.
Definition KERNBASE : Z := 0x80000000.
Definition echoargv : list (list Z) := [str "echo"; str "ALL"; str "TESTS"; str "PASSED"].

(** A message, and the end of the process after one. *)
Definition say (s : string) : prog unit := printf 1 (ln s) [].
Definition quit_if (b : bool) (s : string) : prog unit := if b then say s ;; Exit else Return tt.
(** The same for a message without a newline. *)
Definition stop_if (b : bool) (s : string) : prog unit := if b then printf 1 (str s) [] ;; Exit else Return tt.

Definition forever {A} : prog A := Undefined "for(;;)".
Definition schar (b : Z) : Z := if b <? 128 then b else b - 256.
Definition byte_of (l : list Z) (i : nat) : Z := nth i l 0.

(** [for(i = 0; i < n; i++)]; a state goes through the rounds. *)
Fixpoint for_ {S} (n : nat) (i : Z) (body : Z -> S -> prog S) (s : S) : prog S :=
  match n with
  | O => Return s
  | Datatypes.S k => s <- body i s ;; for_ k (i + 1) body s
  end.
Definition for_each (n : nat) (body : Z -> prog unit) : prog unit := for_ n 0 (fun i _ => body i) tt.

(** ** Transactions *)

Definition iputtest : prog unit :=
  say "iput test" ;;
  r <- sys (Mkdir (str "iputdir")) ;; quit_if (r <? 0) "mkdir failed" ;;
  r <- sys (Chdir (str "iputdir")) ;; quit_if (r <? 0) "chdir iputdir failed" ;;
  r <- sys (Unlink (str "../iputdir")) ;; quit_if (r <? 0) "unlink ../iputdir failed" ;;
  r <- sys (Chdir (str "/")) ;; quit_if (r <? 0) "chdir / failed" ;;
  say "iput test ok".

Definition exitiputtest : prog unit :=
  say "exitiput test" ;;
  pid <- fork ;;
  quit_if (pid <? 0) "fork failed" ;;
  (if pid =? 0 then
     r <- sys (Mkdir (str "iputdir")) ;; quit_if (r <? 0) "mkdir failed" ;;
     r <- sys (Chdir (str "iputdir")) ;; quit_if (r <? 0) "child chdir failed" ;;
     r <- sys (Unlink (str "../iputdir")) ;; quit_if (r <? 0) "unlink ../iputdir failed" ;;
     Exit
   else Return tt) ;;
  sys Wait ;;
  say "exitiput test ok".

Definition openiputtest : prog unit :=
  say "openiput test" ;;
  r <- sys (Mkdir (str "oidir")) ;; quit_if (r <? 0) "mkdir oidir failed" ;;
  pid <- fork ;;
  quit_if (pid <? 0) "fork failed" ;;
  (if pid =? 0 then
     fd <- sys (Open (str "oidir") O_RDWR) ;;
     quit_if (0 <=? fd) "open directory for write succeeded" ;;
     Exit
   else Return tt) ;;
  sys (Sleep_ticks 1) ;;
  r <- sys (Unlink (str "oidir")) ;; quit_if (negb (r =? 0)) "unlink failed" ;;
  sys Wait ;;
  say "openiput test ok".

(** ** Simple file system tests *)

Definition opentest : prog unit :=
  say "open test" ;;
  fd <- sys (Open (str "echo") 0) ;;
  quit_if (fd <? 0) "open echo failed!" ;;
  sys (Close fd) ;;
  fd <- sys (Open (str "doesnotexist") 0) ;;
  quit_if (0 <=? fd) "open doesnotexist succeeded!" ;;
  say "open test ok".

Definition writetest (buf : list Z) : prog (list Z) :=
  say "small file test" ;;
  fd <- sys (Open (str "small") (Z.lor O_CREATE O_RDWR)) ;;
  (if 0 <=? fd then say "creat small succeeded; ok" else say "error: creat small failed!" ;; Exit) ;;
  for_each 100 (fun i =>
    r <- sys (Write fd (str "aaaaaaaaaa")) ;;
    (if negb (r =? 10) then printf 1 (ln "error: write aa %d new file failed") [D i] ;; Exit else Return tt) ;;
    r <- sys (Write fd (str "bbbbbbbbbb")) ;;
    if negb (r =? 10) then printf 1 (ln "error: write bb %d new file failed") [D i] ;; Exit else Return tt) ;;
  say "writes ok" ;;
  sys (Close fd) ;;
  fd <- sys (Open (str "small") O_RDONLY) ;;
  (if 0 <=? fd then say "open small succeeded ok" else say "error: open small failed!" ;; Exit) ;;
  x <- sys (Read fd 2000) ;;
  let '(i, b) := x in
  let buf := into buf b in
  (if i =? 2000 then say "read succeeded ok" else say "read failed" ;; Exit) ;;
  sys (Close fd) ;;
  r <- sys (Unlink (str "small")) ;; quit_if (r <? 0) "unlink small failed" ;;
  say "small file test ok" ;;
  Return buf.

(** The loop that reads the blocks back: [n] of them so far. *)
Fixpoint writetest1_read (fuel : nat) (fd n : Z) (buf : list Z) : prog (list Z) :=
  match fuel with
  | O => Undefined "fuel"
  | S k =>
      x <- sys (Read fd 512) ;;
      let '(i, b) := x in
      let buf := into buf b in
      if i =? 0 then
        (if n =? MAXFILE - 1 then printf 1 (str "read only %d blocks from big") [D n] ;; Exit else Return tt) ;;
        Return buf
      else
        (if negb (i =? 512) then printf 1 (ln "read failed %d") [D i] ;; Exit else Return tt) ;;
        let v := s32 (get32 buf 0) in
        (if negb (v =? n) then printf 1 (ln "read content of block %d is %d") [D n; D v] ;; Exit else Return tt) ;;
        writetest1_read k fd (n + 1) buf
  end.

Definition writetest1 (fuel : nat) (buf : list Z) : prog (list Z) :=
  say "big files test" ;;
  fd <- sys (Open (str "big") (Z.lor O_CREATE O_RDWR)) ;;
  quit_if (fd <? 0) "error: creat big failed!" ;;
  buf <- for_ (Z.to_nat MAXFILE) 0 (fun i buf =>
    let buf := put32 buf 0 i in
    r <- sys (Write fd (take 512 buf)) ;;
    (if negb (r =? 512) then printf 1 (ln "error: write big file failed") [D i] ;; Exit else Return tt) ;;
    Return buf) buf ;;
  sys (Close fd) ;;
  fd <- sys (Open (str "big") O_RDONLY) ;;
  quit_if (fd <? 0) "error: open big failed!" ;;
  buf <- writetest1_read fuel fd 0 buf ;;
  sys (Close fd) ;;
  r <- sys (Unlink (str "big")) ;; quit_if (r <? 0) "unlink big failed" ;;
  say "big files ok" ;;
  Return buf.

Definition createtest : prog unit :=
  say "many creates, followed by unlink test" ;;
  for_each 52 (fun i =>
    fd <- sys (Open [97; 48 + i] (Z.lor O_CREATE O_RDWR)) ;;
    sys (Close fd) ;; Return tt) ;;
  for_each 52 (fun i => sys (Unlink [97; 48 + i]) ;; Return tt) ;;
  say "many creates, followed by unlink; ok".

Definition dirtest : prog unit :=
  say "mkdir test" ;;
  r <- sys (Mkdir (str "dir0")) ;; quit_if (r <? 0) "mkdir failed" ;;
  r <- sys (Chdir (str "dir0")) ;; quit_if (r <? 0) "chdir dir0 failed" ;;
  r <- sys (Chdir (str "..")) ;; quit_if (r <? 0) "chdir .. failed" ;;
  r <- sys (Unlink (str "dir0")) ;; quit_if (r <? 0) "unlink dir0 failed" ;;
  say "mkdir test ok".

Definition exectest : prog unit :=
  say "exec test" ;;
  r <- exec (str "echo") echoargv ;;
  quit_if (r <? 0) "exec echo failed".

(** ** Processes *)

(** [seq++] over the bytes read. *)
Fixpoint in_sequence (l : list Z) (seq : Z) : bool :=
  match l with
  | [] => true
  | b :: l' => (Z.land b 0xff =? Z.land seq 0xff) && in_sequence l' (seq + 1)
  end.

(** The bytes the child sends in its [n]-th round. *)
Definition pipe1_chunk (n : Z) : list Z := map (fun i => u8 (n * 1033 + Z.of_nat i)) (seq 0 1033).

(** The reading loop: the total, or nothing when the data is wrong. *)
Fixpoint pipe1_read (fuel : nat) (fd seq cc total : Z) (buf : list Z) : prog (option Z * list Z) :=
  match fuel with
  | O => Undefined "fuel"
  | S k =>
      x <- sys (Read fd cc) ;;
      let '(n, b) := x in
      let buf := into buf b in
      if 0 <? n then
        if in_sequence (take (Z.to_nat n) buf) seq then
          let cc := cc * 2 in
          pipe1_read k fd (seq + n) (if 8192 <? cc then 8192 else cc) (total + n) buf
        else Return (None, buf)
      else Return (Some total, buf)
  end.

Definition pipe1 (fuel : nat) (buf : list Z) : prog (list Z) :=
  x <- sys Pipe ;;
  let '(r, (fd0, fd1)) := x in
  quit_if (negb (r =? 0)) "pipe() failed" ;;
  pid <- fork ;;
  if pid =? 0 then
    sys (Close fd0) ;;
    for_each 5 (fun n =>
      r <- sys (Write fd1 (pipe1_chunk n)) ;;
      quit_if (negb (r =? 1033)) "pipe1 oops 1") ;;
    Exit
  else if 0 <? pid then
    sys (Close fd1) ;;
    x <- pipe1_read fuel fd0 0 1 0 buf ;;
    match x with
    | (None, buf) => say "pipe1 oops 2" ;; Return buf
    | (Some total, buf) =>
        (if negb (total =? 5 * 1033) then printf 1 (ln "pipe1 oops 3 total %d") [D total] ;; Exit else Return tt) ;;
        sys (Close fd0) ;;
        sys Wait ;;
        say "pipe1 ok" ;;
        Return buf
    end
  else say "fork() failed" ;; Exit.

Definition preempt (buf : list Z) : prog (list Z) :=
  printf 1 (str "preempt: ") [] ;;
  pid1 <- fork ;;
  if pid1 =? 0 then forever else
  pid2 <- fork ;;
  if pid2 =? 0 then forever else
  x <- sys Pipe ;;
  let '(_, (p0, p1)) := x in
  pid3 <- fork ;;
  if pid3 =? 0 then
    sys (Close p0) ;;
    r <- sys (Write p1 (str "x")) ;;
    (if negb (r =? 1) then printf 1 (str "preempt write error") [] else Return tt) ;;
    sys (Close p1) ;;
    forever
  else
  sys (Close p1) ;;
  x <- sys (Read p0 8192) ;;
  let '(n, b) := x in
  let buf := into buf b in
  if negb (n =? 1) then printf 1 (str "preempt read error") [] ;; Return buf else
  sys (Close p0) ;;
  printf 1 (str "kill... ") [] ;;
  sys (Kill pid1) ;;
  sys (Kill pid2) ;;
  sys (Kill pid3) ;;
  printf 1 (str "wait... ") [] ;;
  sys Wait ;;
  sys Wait ;;
  sys Wait ;;
  say "preempt ok" ;;
  Return buf.

(** The loop of [exitwait] with [left] rounds to go. *)
Fixpoint exitwait_loop (left : nat) : prog unit :=
  match left with
  | O => say "exitwait ok"
  | S k =>
      pid <- fork ;;
      if pid <? 0 then say "fork failed" else
      if negb (pid =? 0) then
        r <- sys Wait ;;
        if negb (r =? pid) then say "wait wrong pid" else exitwait_loop k
      else Exit
  end.
Definition exitwait : prog unit := exitwait_loop 100.

(** The allocator of [Umalloc] in a program: a routine is run with the answers [sbrk] has
    given so far; when it asks for one more, the program makes the call and the routine is
    run again with the answer. *)
Record brks := mkBrks { answers : list Z; asked : option Z }.
Definition brk (n : Z) (s : brks) : Z * brks :=
  match answers s with
  | a :: l => (u32 a, mkBrks l (asked s))
  | [] => (u32 (-1), mkBrks [] (match asked s with None => Some n | Some m => Some m end))
  end.
Definition heap : Type := (Z -> header) * Z.
Fixpoint with_heap {A} (fuel : nat) (m : M (ustate brks) A) (got : list Z) (h : heap) : prog (A * heap) :=
  match fuel with
  | O => Undefined "fuel"
  | S k =>
      let '(r, s) := m (mkU (fst h) (snd h) (mkBrks got None)) in
      match asked (os s), r with
      | Some n, _ => a <- sys (Sbrk (s32 n)) ;; with_heap k m (got ++ [a]) h
      | None, Ok a => Return (a, (hdr s, freep s))
      | None, _ => Undefined "malloc"
      end
  end.

Section Mem.
Context (base : Z) (fuel : nat).
Definition umalloc (n : Z) (h : heap) : prog (Z * heap) := with_heap fuel (malloc base brk fuel n) [] h.
Definition ufree (a : Z) (h : heap) : prog heap := x <- with_heap fuel (free fuel a) [] h ;; Return (snd x).

(** The word at the start of each block is the one allocated before it. *)
Fixpoint mem_fill (k : nat) (m1 : Z) (link : Z -> Z) (h : heap) : prog (Z * (Z -> Z) * heap) :=
  match k with
  | O => Undefined "fuel"
  | S k =>
      x <- umalloc 10001 h ;;
      let '(m2, h) := x in
      if m2 =? 0 then Return (m1, link, h) else mem_fill k m2 (upd link m2 m1) h
  end.
Fixpoint mem_free (k : nat) (m1 : Z) (link : Z -> Z) (h : heap) : prog heap :=
  match k with
  | O => Undefined "fuel"
  | S k => if m1 =? 0 then Return h else h <- ufree m1 h ;; mem_free k (link m1) link h
  end.

Definition mem (h : heap) : prog unit :=
  say "mem test" ;;
  ppid <- sys Getpid ;;
  pid <- fork ;;
  if pid =? 0 then
    x <- mem_fill fuel 0 (fun _ => 0) h ;;
    let '(m1, link, h) := x in
    h <- mem_free fuel m1 link h ;;
    x <- umalloc (1024 * 20) h ;;
    let '(m1, h) := x in
    (if m1 =? 0 then say "couldn't allocate mem?!!" ;; sys (Kill ppid) ;; Exit else Return tt) ;;
    ufree m1 h ;;
    say "mem ok" ;;
    Exit
  else sys Wait ;; Return tt.
End Mem.

(** ** Several processes and the file system *)

(** How often a byte occurs. *)
Definition count_byte (c : Z) (l : list Z) : Z := Z.of_nat (length (filter (fun b => b = c) l)).

Fixpoint sharedfd_write (left : nat) (fd : Z) (b : list Z) : prog unit :=
  match left with
  | O => Return tt
  | S k =>
      r <- sys (Write fd b) ;;
      if negb (r =? 10) then say "fstests: write sharedfd failed" else sharedfd_write k fd b
  end.
(** Each round counts all ten bytes of the buffer, also those of the read before. *)
Fixpoint sharedfd_read (fuel : nat) (fd nc np : Z) (b10 : list Z) : prog (Z * Z) :=
  match fuel with
  | O => Undefined "fuel"
  | S k =>
      x <- sys (Read fd 10) ;;
      let '(n, b) := x in
      let b10 := into b10 b in
      if 0 <? n then sharedfd_read k fd (nc + count_byte 99 b10) (np + count_byte 112 b10) b10
      else Return (nc, np)
  end.

Definition sharedfd (fuel : nat) : prog unit :=
  say "sharedfd test" ;;
  sys (Unlink (str "sharedfd")) ;;
  fd <- sys (Open (str "sharedfd") (Z.lor O_CREATE O_RDWR)) ;;
  if fd <? 0 then printf 1 (str "fstests: cannot open sharedfd for writing") [] else
  pid <- fork ;;
  let b10 := replicate 10 (if pid =? 0 then 99 else 112) in
  sharedfd_write 1000 fd b10 ;;
  (if pid =? 0 then Exit else sys Wait ;; Return tt) ;;
  sys (Close fd) ;;
  fd <- sys (Open (str "sharedfd") 0) ;;
  if fd <? 0 then say "fstests: cannot open sharedfd for reading" else
  x <- sharedfd_read fuel fd 0 0 b10 ;;
  let '(nc, np) := x in
  sys (Close fd) ;;
  sys (Unlink (str "sharedfd")) ;;
  if (nc =? 10000) && (np =? 10000) then say "sharedfd ok"
  else printf 1 (ln "sharedfd oops %d %d") [D nc; D np] ;; Exit.

(** The loop that reads a file of one character; the total. *)
Fixpoint fourfiles_read (fuel : nat) (fd c total : Z) (buf : list Z) : prog (Z * list Z) :=
  match fuel with
  | O => Undefined "fuel"
  | S k =>
      x <- sys (Read fd 8192) ;;
      let '(n, b) := x in
      let buf := into buf b in
      if 0 <? n then
        quit_if (negb (forallb (fun x => schar x =? c) (take (Z.to_nat n) buf))) "wrong char" ;;
        fourfiles_read k fd c (total + n) buf
      else Return (total, buf)
  end.

Definition fourfiles (fuel : nat) (buf : list Z) : prog (list Z) :=
  let fname i := [102; 48 + i] in
  say "fourfiles test" ;;
  for_each 4 (fun pi =>
    sys (Unlink (fname pi)) ;;
    pid <- fork ;;
    quit_if (pid <? 0) "fork failed" ;;
    if pid =? 0 then
      fd <- sys (Open (fname pi) (Z.lor O_CREATE O_RDWR)) ;;
      quit_if (fd <? 0) "create failed" ;;
      for_each 12 (fun _ =>
        n <- sys (Write fd (replicate 500 (48 + pi))) ;;
        if negb (n =? 500) then printf 1 (ln "write failed %d") [D n] ;; Exit else Return tt) ;;
      Exit
    else Return tt) ;;
  for_each 4 (fun _ => sys Wait ;; Return tt) ;;
  buf <- for_ 2 0 (fun i buf =>
    fd <- sys (Open (fname i) 0) ;;
    x <- fourfiles_read fuel fd (48 + i) 0 buf ;;
    let '(total, buf) := x in
    sys (Close fd) ;;
    (if negb (total =? 12 * 500) then printf 1 (ln "wrong length %d") [D total] ;; Exit else Return tt) ;;
    sys (Unlink (fname i)) ;;
    Return buf) buf ;;
  say "fourfiles ok" ;;
  Return buf.

Definition createdelete : prog unit :=
  say "createdelete test" ;;
  for_each 4 (fun pi =>
    pid <- fork ;;
    quit_if (pid <? 0) "fork failed" ;;
    if pid =? 0 then
      for_each 20 (fun i =>
        fd <- sys (Open [112 + pi; 48 + i] (Z.lor O_CREATE O_RDWR)) ;;
        quit_if (fd <? 0) "create failed" ;;
        sys (Close fd) ;;
        if (0 <? i) && (i mod 2 =? 0) then
          r <- sys (Unlink [112 + pi; 48 + i / 2]) ;;
          quit_if (r <? 0) "unlink failed"
        else Return tt) ;;
      Exit
    else Return tt) ;;
  for_each 4 (fun _ => sys Wait ;; Return tt) ;;
  for_each 20 (fun i => for_each 4 (fun pi =>
    let name := [112 + pi; 48 + i] in
    fd <- sys (Open name 0) ;;
    (if ((i =? 0) || (10 <=? i)) && (fd <? 0) then printf 1 (ln "oops createdelete %s didn't exist") [S_ name] ;; Exit
     else if ((1 <=? i) && (i <? 10)) && (0 <=? fd) then printf 1 (ln "oops createdelete %s did exist") [S_ name] ;; Exit
     else Return tt) ;;
    if 0 <=? fd then sys (Close fd) ;; Return tt else Return tt)) ;;
  for_each 20 (fun i => for_each 4 (fun _ => sys (Unlink [112 + i; 48 + i]) ;; Return tt)) ;;
  say "createdelete ok".

Definition unlinkread (buf : list Z) : prog (list Z) :=
  say "unlinkread test" ;;
  fd <- sys (Open (str "unlinkread") (Z.lor O_CREATE O_RDWR)) ;;
  quit_if (fd <? 0) "create unlinkread failed" ;;
  sys (Write fd (str "hello")) ;;
  sys (Close fd) ;;
  fd <- sys (Open (str "unlinkread") O_RDWR) ;;
  quit_if (fd <? 0) "open unlinkread failed" ;;
  r <- sys (Unlink (str "unlinkread")) ;; quit_if (negb (r =? 0)) "unlink unlinkread failed" ;;
  fd1 <- sys (Open (str "unlinkread") (Z.lor O_CREATE O_RDWR)) ;;
  sys (Write fd1 (str "yyy")) ;;
  sys (Close fd1) ;;
  x <- sys (Read fd 8192) ;;
  let '(n, b) := x in
  let buf := into buf b in
  stop_if (negb (n =? 5)) "unlinkread read failed" ;;
  quit_if (negb (schar (byte_of buf 0) =? 104)) "unlinkread wrong data" ;;
  r <- sys (Write fd (take 10 buf)) ;; quit_if (negb (r =? 10)) "unlinkread write failed" ;;
  sys (Close fd) ;;
  sys (Unlink (str "unlinkread")) ;;
  say "unlinkread ok" ;;
  Return buf.

Definition linktest (buf : list Z) : prog (list Z) :=
  say "linktest" ;;
  sys (Unlink (str "lf1")) ;;
  sys (Unlink (str "lf2")) ;;
  fd <- sys (Open (str "lf1") (Z.lor O_CREATE O_RDWR)) ;;
  quit_if (fd <? 0) "create lf1 failed" ;;
  r <- sys (Write fd (str "hello")) ;; quit_if (negb (r =? 5)) "write lf1 failed" ;;
  sys (Close fd) ;;
  r <- sys (Link (str "lf1") (str "lf2")) ;; quit_if (r <? 0) "link lf1 lf2 failed" ;;
  sys (Unlink (str "lf1")) ;;
  r <- sys (Open (str "lf1") 0) ;; quit_if (0 <=? r) "unlinked lf1 but it is still there!" ;;
  fd <- sys (Open (str "lf2") 0) ;;
  quit_if (fd <? 0) "open lf2 failed" ;;
  x <- sys (Read fd 8192) ;;
  let '(n, b) := x in
  let buf := into buf b in
  quit_if (negb (n =? 5)) "read lf2 failed" ;;
  sys (Close fd) ;;
  r <- sys (Link (str "lf2") (str "lf2")) ;; quit_if (0 <=? r) "link lf2 lf2 succeeded! oops" ;;
  sys (Unlink (str "lf2")) ;;
  r <- sys (Link (str "lf2") (str "lf1")) ;; quit_if (0 <=? r) "link non-existant succeeded! oops" ;;
  r <- sys (Link (str ".") (str "lf1")) ;; quit_if (0 <=? r) "link . lf1 succeeded! oops" ;;
  say "linktest ok" ;;
  Return buf.

(** The scan of the directory: [de] is the last entry read, [fa] the files seen. *)
Fixpoint concreate_scan (fuel : nat) (fd n : Z) (de fa : list Z) : prog Z :=
  match fuel with
  | O => Undefined "fuel"
  | S k =>
      x <- sys (Read fd 16) ;;
      let '(r, b) := x in
      let de := into de b in
      if 0 <? r then
        let name := drop 2 de in
        if get16 de 0 =? 0 then concreate_scan k fd n de fa else
        if (schar (byte_of name 0) =? 67) && (byte_of name 2 =? 0) then
          let i := schar (byte_of name 1) - 48 in
          (if (i <? 0) || (40 <=? i) then printf 1 (ln "concreate weird file %s") [S_ (take 2 name)] ;; Exit else Return tt) ;;
          (if negb (byte_of fa (Z.to_nat i) =? 0) then printf 1 (ln "concreate duplicate file %s") [S_ (take 2 name)] ;; Exit else Return tt) ;;
          concreate_scan k fd (n + 1) de (<[Z.to_nat i := 1]> fa)
        else concreate_scan k fd n de fa
      else Return n
  end.

Definition concreate (fuel : nat) : prog unit :=
  let file i := [67; 48 + i] in
  say "concreate test" ;;
  for_each 40 (fun i =>
    sys (Unlink (file i)) ;;
    pid <- fork ;;
    (if negb (pid =? 0) && (i mod 3 =? 1) then sys (Link (str "C0") (file i)) ;; Return tt
     else if (pid =? 0) && (i mod 5 =? 1) then sys (Link (str "C0") (file i)) ;; Return tt
     else
       fd <- sys (Open (file i) (Z.lor O_CREATE O_RDWR)) ;;
       (if fd <? 0 then printf 1 (ln "concreate create %s failed") [S_ (file i)] ;; Exit else Return tt) ;;
       sys (Close fd) ;; Return tt) ;;
    if pid =? 0 then Exit else sys Wait ;; Return tt) ;;
  fd <- sys (Open (str ".") 0) ;;
  n <- concreate_scan fuel fd 0 (replicate 16 0) (replicate 40 0) ;;
  sys (Close fd) ;;
  quit_if (negb (n =? 40)) "concreate not enough files in directory listing" ;;
  for_each 40 (fun i =>
    pid <- fork ;;
    quit_if (pid <? 0) "fork failed" ;;
    (if ((i mod 3 =? 0) && (pid =? 0)) || ((i mod 3 =? 1) && negb (pid =? 0)) then
       for_each 4 (fun _ => fd <- sys (Open (file i) 0) ;; sys (Close fd) ;; Return tt)
     else for_each 4 (fun _ => sys (Unlink (file i)) ;; Return tt)) ;;
    if pid =? 0 then Exit else sys Wait ;; Return tt) ;;
  say "concreate ok".

Definition linkunlink : prog unit :=
  say "linkunlink test" ;;
  sys (Unlink (str "x")) ;;
  pid <- fork ;;
  quit_if (pid <? 0) "fork failed" ;;
  for_ 100 0 (fun _ x =>
    let x := u32 (x * 1103515245 + 12345) in
    (if x mod 3 =? 0 then fd <- sys (Open (str "x") (Z.lor O_RDWR O_CREATE)) ;; sys (Close fd) ;; Return tt
     else if x mod 3 =? 1 then sys (Link (str "cat") (str "x")) ;; Return tt
     else sys (Unlink (str "x")) ;; Return tt) ;;
    Return x) (if negb (pid =? 0) then 1 else 97) ;;
  (if negb (pid =? 0) then sys Wait ;; Return tt else Exit) ;;
  say "linkunlink ok".

Definition bigdir : prog unit :=
  let name i := [120; 48 + i / 64; 48 + i mod 64] in
  say "bigdir test" ;;
  sys (Unlink (str "bd")) ;;
  fd <- sys (Open (str "bd") O_CREATE) ;;
  quit_if (fd <? 0) "bigdir create failed" ;;
  sys (Close fd) ;;
  for_each 500 (fun i => r <- sys (Link (str "bd") (name i)) ;; quit_if (negb (r =? 0)) "bigdir link failed") ;;
  sys (Unlink (str "bd")) ;;
  for_each 500 (fun i => r <- sys (Unlink (name i)) ;; stop_if (negb (r =? 0)) "bigdir unlink failed") ;;
  say "bigdir ok".

Definition subdir (buf : list Z) : prog (list Z) :=
  say "subdir test" ;;
  sys (Unlink (str "ff")) ;;
  r <- sys (Mkdir (str "dd")) ;; quit_if (negb (r =? 0)) "subdir mkdir dd failed" ;;
  fd <- sys (Open (str "dd/ff") (Z.lor O_CREATE O_RDWR)) ;;
  quit_if (fd <? 0) "create dd/ff failed" ;;
  sys (Write fd (str "ff")) ;;
  sys (Close fd) ;;
  r <- sys (Unlink (str "dd")) ;; quit_if (0 <=? r) "unlink dd (non-empty dir) succeeded!" ;;
  r <- sys (Mkdir (str "/dd/dd")) ;; quit_if (negb (r =? 0)) "subdir mkdir dd/dd failed" ;;
  fd <- sys (Open (str "dd/dd/ff") (Z.lor O_CREATE O_RDWR)) ;;
  quit_if (fd <? 0) "create dd/dd/ff failed" ;;
  sys (Write fd (str "FF")) ;;
  sys (Close fd) ;;
  fd <- sys (Open (str "dd/dd/../ff") 0) ;;
  quit_if (fd <? 0) "open dd/dd/../ff failed" ;;
  x <- sys (Read fd 8192) ;;
  let '(cc, b) := x in
  let buf := into buf b in
  quit_if (negb (cc =? 2) || negb (schar (byte_of buf 0) =? 102)) "dd/dd/../ff wrong content" ;;
  sys (Close fd) ;;
  r <- sys (Link (str "dd/dd/ff") (str "dd/dd/ffff")) ;; quit_if (negb (r =? 0)) "link dd/dd/ff dd/dd/ffff failed" ;;
  r <- sys (Unlink (str "dd/dd/ff")) ;; quit_if (negb (r =? 0)) "unlink dd/dd/ff failed" ;;
  r <- sys (Open (str "dd/dd/ff") O_RDONLY) ;; quit_if (0 <=? r) "open (unlinked) dd/dd/ff succeeded" ;;
  r <- sys (Chdir (str "dd")) ;; quit_if (negb (r =? 0)) "chdir dd failed" ;;
  r <- sys (Chdir (str "dd/../../dd")) ;; quit_if (negb (r =? 0)) "chdir dd/../../dd failed" ;;
  r <- sys (Chdir (str "dd/../../../dd")) ;; quit_if (negb (r =? 0)) "chdir dd/../../dd failed" ;;
  r <- sys (Chdir (str "./..")) ;; quit_if (negb (r =? 0)) "chdir ./.. failed" ;;
  fd <- sys (Open (str "dd/dd/ffff") 0) ;;
  quit_if (fd <? 0) "open dd/dd/ffff failed" ;;
  x <- sys (Read fd 8192) ;;
  let '(n, b) := x in
  let buf := into buf b in
  quit_if (negb (n =? 2)) "read dd/dd/ffff wrong len" ;;
  sys (Close fd) ;;
  r <- sys (Open (str "dd/dd/ff") O_RDONLY) ;; quit_if (0 <=? r) "open (unlinked) dd/dd/ff succeeded!" ;;
  r <- sys (Open (str "dd/ff/ff") (Z.lor O_CREATE O_RDWR)) ;; quit_if (0 <=? r) "create dd/ff/ff succeeded!" ;;
  r <- sys (Open (str "dd/xx/ff") (Z.lor O_CREATE O_RDWR)) ;; quit_if (0 <=? r) "create dd/xx/ff succeeded!" ;;
  r <- sys (Open (str "dd") O_CREATE) ;; quit_if (0 <=? r) "create dd succeeded!" ;;
  r <- sys (Open (str "dd") O_RDWR) ;; quit_if (0 <=? r) "open dd rdwr succeeded!" ;;
  r <- sys (Open (str "dd") O_WRONLY) ;; quit_if (0 <=? r) "open dd wronly succeeded!" ;;
  r <- sys (Link (str "dd/ff/ff") (str "dd/dd/xx")) ;; quit_if (r =? 0) "link dd/ff/ff dd/dd/xx succeeded!" ;;
  r <- sys (Link (str "dd/xx/ff") (str "dd/dd/xx")) ;; quit_if (r =? 0) "link dd/xx/ff dd/dd/xx succeeded!" ;;
  r <- sys (Link (str "dd/ff") (str "dd/dd/ffff")) ;; quit_if (r =? 0) "link dd/ff dd/dd/ffff succeeded!" ;;
  r <- sys (Mkdir (str "dd/ff/ff")) ;; quit_if (r =? 0) "mkdir dd/ff/ff succeeded!" ;;
  r <- sys (Mkdir (str "dd/xx/ff")) ;; quit_if (r =? 0) "mkdir dd/xx/ff succeeded!" ;;
  r <- sys (Mkdir (str "dd/dd/ffff")) ;; quit_if (r =? 0) "mkdir dd/dd/ffff succeeded!" ;;
  r <- sys (Unlink (str "dd/xx/ff")) ;; quit_if (r =? 0) "unlink dd/xx/ff succeeded!" ;;
  r <- sys (Unlink (str "dd/ff/ff")) ;; quit_if (r =? 0) "unlink dd/ff/ff succeeded!" ;;
  r <- sys (Chdir (str "dd/ff")) ;; quit_if (r =? 0) "chdir dd/ff succeeded!" ;;
  r <- sys (Chdir (str "dd/xx")) ;; quit_if (r =? 0) "chdir dd/xx succeeded!" ;;
  r <- sys (Unlink (str "dd/dd/ffff")) ;; quit_if (negb (r =? 0)) "unlink dd/dd/ff failed" ;;
  r <- sys (Unlink (str "dd/ff")) ;; quit_if (negb (r =? 0)) "unlink dd/ff failed" ;;
  r <- sys (Unlink (str "dd")) ;; quit_if (r =? 0) "unlink non-empty dd succeeded!" ;;
  r <- sys (Unlink (str "dd/dd")) ;; quit_if (r <? 0) "unlink dd/dd failed" ;;
  r <- sys (Unlink (str "dd")) ;; quit_if (r <? 0) "unlink dd failed" ;;
  say "subdir ok" ;;
  Return buf.

(** The sizes are 499, 970, and so on below 12 * 512: twelve rounds. *)
Definition bigwrite (buf : list Z) : prog unit :=
  say "bigwrite test" ;;
  sys (Unlink (str "bigwrite")) ;;
  for_each 12 (fun j =>
    let sz := 499 + 471 * j in
    fd <- sys (Open (str "bigwrite") (Z.lor O_CREATE O_RDWR)) ;;
    quit_if (fd <? 0) "cannot create bigwrite" ;;
    for_each 2 (fun _ =>
      cc <- sys (Write fd (take (Z.to_nat sz) buf)) ;;
      if negb (cc =? sz) then printf 1 (ln "write(%d) ret %d") [D sz; D cc] ;; Exit else Return tt) ;;
    sys (Close fd) ;;
    sys (Unlink (str "bigwrite")) ;;
    Return tt) ;;
  say "bigwrite ok".

Fixpoint bigfile_read (fuel : nat) (fd i total : Z) (buf : list Z) : prog (Z * list Z) :=
  match fuel with
  | O => Undefined "fuel"
  | S k =>
      x <- sys (Read fd 300) ;;
      let '(cc, b) := x in
      let buf := into buf b in
      quit_if (cc <? 0) "read bigfile failed" ;;
      if cc =? 0 then Return (total, buf) else
      quit_if (negb (cc =? 300)) "short read bigfile" ;;
      quit_if (negb (schar (byte_of buf 0) =? i / 2) || negb (schar (byte_of buf 299) =? i / 2)) "read bigfile wrong data" ;;
      bigfile_read k fd (i + 1) (total + cc) buf
  end.

Definition bigfile (fuel : nat) (buf : list Z) : prog (list Z) :=
  say "bigfile test" ;;
  sys (Unlink (str "bigfile")) ;;
  fd <- sys (Open (str "bigfile") (Z.lor O_CREATE O_RDWR)) ;;
  stop_if (fd <? 0) "cannot create bigfile" ;;
  buf <- for_ 20 0 (fun i buf =>
    let buf := into buf (replicate 600 i) in
    r <- sys (Write fd (take 600 buf)) ;;
    quit_if (negb (r =? 600)) "write bigfile failed" ;;
    Return buf) buf ;;
  sys (Close fd) ;;
  fd <- sys (Open (str "bigfile") 0) ;;
  quit_if (fd <? 0) "cannot open bigfile" ;;
  x <- bigfile_read fuel fd 0 0 buf ;;
  let '(total, buf) := x in
  sys (Close fd) ;;
  quit_if (negb (total =? 20 * 600)) "read bigfile wrong total" ;;
  sys (Unlink (str "bigfile")) ;;
  say "bigfile test ok" ;;
  Return buf.

Definition fourteen : prog unit :=
  say "fourteen test" ;;
  r <- sys (Mkdir (str "12345678901234")) ;; quit_if (negb (r =? 0)) "mkdir 12345678901234 failed" ;;
  r <- sys (Mkdir (str "12345678901234/123456789012345")) ;; quit_if (negb (r =? 0)) "mkdir 12345678901234/123456789012345 failed" ;;
  fd <- sys (Open (str "123456789012345/123456789012345/123456789012345") O_CREATE) ;;
  quit_if (fd <? 0) "create 123456789012345/123456789012345/123456789012345 failed" ;;
  sys (Close fd) ;;
  fd <- sys (Open (str "12345678901234/12345678901234/12345678901234") 0) ;;
  quit_if (fd <? 0) "open 12345678901234/12345678901234/12345678901234 failed" ;;
  sys (Close fd) ;;
  r <- sys (Mkdir (str "12345678901234/12345678901234")) ;; quit_if (r =? 0) "mkdir 12345678901234/12345678901234 succeeded!" ;;
  r <- sys (Mkdir (str "123456789012345/12345678901234")) ;; quit_if (r =? 0) "mkdir 12345678901234/123456789012345 succeeded!" ;;
  say "fourteen ok".

Definition rmdot : prog unit :=
  say "rmdot test" ;;
  r <- sys (Mkdir (str "dots")) ;; quit_if (negb (r =? 0)) "mkdir dots failed" ;;
  r <- sys (Chdir (str "dots")) ;; quit_if (negb (r =? 0)) "chdir dots failed" ;;
  r <- sys (Unlink (str ".")) ;; quit_if (r =? 0) "rm . worked!" ;;
  r <- sys (Unlink (str "..")) ;; quit_if (r =? 0) "rm .. worked!" ;;
  r <- sys (Chdir (str "/")) ;; quit_if (negb (r =? 0)) "chdir / failed" ;;
  r <- sys (Unlink (str "dots/.")) ;; quit_if (r =? 0) "unlink dots/. worked!" ;;
  r <- sys (Unlink (str "dots/..")) ;; quit_if (r =? 0) "unlink dots/.. worked!" ;;
  r <- sys (Unlink (str "dots")) ;; quit_if (negb (r =? 0)) "unlink dots failed!" ;;
  say "rmdot ok".

Definition dirfile : prog unit :=
  say "dir vs file" ;;
  fd <- sys (Open (str "dirfile") O_CREATE) ;;
  quit_if (fd <? 0) "create dirfile failed" ;;
  sys (Close fd) ;;
  r <- sys (Chdir (str "dirfile")) ;; quit_if (r =? 0) "chdir dirfile succeeded!" ;;
  fd <- sys (Open (str "dirfile/xx") 0) ;; quit_if (0 <=? fd) "create dirfile/xx succeeded!" ;;
  fd <- sys (Open (str "dirfile/xx") O_CREATE) ;; quit_if (0 <=? fd) "create dirfile/xx succeeded!" ;;
  r <- sys (Mkdir (str "dirfile/xx")) ;; quit_if (r =? 0) "mkdir dirfile/xx succeeded!" ;;
  r <- sys (Unlink (str "dirfile/xx")) ;; quit_if (r =? 0) "unlink dirfile/xx succeeded!" ;;
  r <- sys (Link (str "README") (str "dirfile/xx")) ;; quit_if (r =? 0) "link to dirfile/xx succeeded!" ;;
  r <- sys (Unlink (str "dirfile")) ;; quit_if (negb (r =? 0)) "unlink dirfile failed!" ;;
  fd <- sys (Open (str ".") O_RDWR) ;; quit_if (0 <=? fd) "open . for writing succeeded!" ;;
  fd <- sys (Open (str ".") 0) ;;
  r <- sys (Write fd (str "x")) ;; quit_if (0 <? r) "write . succeeded!" ;;
  sys (Close fd) ;;
  say "dir vs file OK".

Definition iref : prog unit :=
  say "empty file name" ;;
  for_each (50 + 1) (fun _ =>
    r <- sys (Mkdir (str "irefd")) ;; quit_if (negb (r =? 0)) "mkdir irefd failed" ;;
    r <- sys (Chdir (str "irefd")) ;; quit_if (negb (r =? 0)) "chdir irefd failed" ;;
    sys (Mkdir []) ;;
    sys (Link (str "README") []) ;;
    fd <- sys (Open [] O_CREATE) ;;
    (if 0 <=? fd then sys (Close fd) ;; Return tt else Return tt) ;;
    fd <- sys (Open (str "xx") O_CREATE) ;;
    (if 0 <=? fd then sys (Close fd) ;; Return tt else Return tt) ;;
    sys (Unlink (str "xx")) ;;
    Return tt) ;;
  sys (Chdir (str "/")) ;;
  say "empty file name OK".

Definition forktest : prog unit :=
  say "fork test" ;;
  n <- fork_loop 1000 0 ;;
  quit_if (n =? 1000)%nat "fork claimed to work 1000 times!" ;;
  wait_loop (fun s => printf 1 s []) n ;;
  r <- sys Wait ;;
  quit_if (negb (r =? -1)) "wait got too many" ;;
  say "fork test OK".

(** ** Memory *)

Definition BIG : Z := 100 * 1024 * 1024.
(** [sbrk], whose result is used as a pointer. *)
Definition sbrk (n : Z) : prog Z := r <- sys (Sbrk (s32 n)) ;; Return (u32 r).

(** [for(;;) sleep(1000);] *)
Fixpoint sleep_forever (fuel : nat) : prog unit :=
  match fuel with O => Undefined "fuel" | S k => sys (Sleep_ticks 1000) ;; sleep_forever k end.

(** Can the kernel's memory be read? *)
Definition sbrk_kernel : prog unit :=
  for_each 40 (fun i =>
    let a := KERNBASE + 50000 * i in
    ppid <- sys Getpid ;;
    pid <- fork ;;
    quit_if (pid <? 0) "fork failed" ;;
    (if pid =? 0 then
       v <- sys (Load a) ;;
       printf 1 (ln "oops could read %x = %x") [D a; D (schar v)] ;;
       sys (Kill ppid) ;;
       Exit
     else Return tt) ;;
    sys Wait ;;
    Return tt).

Definition sbrktest (fuel : nat) : prog unit :=
  say "sbrk test" ;;
  oldbrk <- sbrk 0 ;;
  a <- sbrk 0 ;;
  a <- for_ 5000 0 (fun i a =>
    b <- sbrk 1 ;;
    (if negb (b =? a) then printf 1 (ln "sbrk test failed %d %x %x") [D i; D a; D b] ;; Exit else Return tt) ;;
    sys (Store b 1) ;;
    Return (u32 (b + 1))) a ;;
  pid <- fork ;;
  quit_if (pid <? 0) "sbrk test fork failed" ;;
  sbrk 1 ;;
  c <- sbrk 1 ;;
  quit_if (negb (c =? u32 (a + 1))) "sbrk test failed post-fork" ;;
  if pid =? 0 then Exit else
  sys Wait ;;
  a <- sbrk 0 ;;
  p <- sbrk (BIG - a) ;;
  quit_if (negb (p =? a)) "sbrk test failed to grow big address space; enough phys mem?" ;;
  let lastaddr := BIG - 1 in
  sys (Store lastaddr 99) ;;
  a <- sbrk 0 ;;
  c <- sbrk (-4096) ;;
  quit_if (c =? 0xffffffff) "sbrk could not deallocate" ;;
  c <- sbrk 0 ;;
  (if negb (c =? u32 (a - 4096)) then printf 1 (ln "sbrk deallocation produced wrong address, a %x c %x") [D a; D c] ;; Exit else Return tt) ;;
  a <- sbrk 0 ;;
  c <- sbrk 4096 ;;
  bad <- (if negb (c =? a) then Return true else b <- sbrk 0 ;; Return (negb (b =? u32 (a + 4096)))) ;;
  (if bad : bool then printf 1 (ln "sbrk re-allocation failed, a %x c %x") [D a; D c] ;; Exit else Return tt) ;;
  v <- sys (Load lastaddr) ;;
  quit_if (schar v =? 99) "sbrk de-allocation didn't really deallocate" ;;
  a <- sbrk 0 ;;
  b <- sbrk 0 ;;
  c <- sbrk (- (b - oldbrk)) ;;
  (if negb (c =? a) then printf 1 (ln "sbrk downsize failed, a %x c %x") [D a; D c] ;; Exit else Return tt) ;;
  sbrk_kernel ;;
  x <- sys Pipe ;;
  let '(r, (fd0, fd1)) := x in
  quit_if (negb (r =? 0)) "pipe() failed" ;;
  pids <- for_ 10 0 (fun _ pids =>
    pid <- fork ;;
    (if pid =? 0 then b <- sbrk 0 ;; sbrk (BIG - b) ;; sys (Write fd1 (str "x")) ;; sleep_forever fuel else Return tt) ;;
    (if negb (pid =? -1) then sys (Read fd0 1) ;; Return tt else Return tt) ;;
    Return (pids ++ [pid])) [] ;;
  c <- sbrk 4096 ;;
  for_each 10 (fun i =>
    let pid := nth (Z.to_nat i) pids 0 in
    if pid =? -1 then Return tt else sys (Kill pid) ;; sys Wait ;; Return tt) ;;
  quit_if (c =? 0xffffffff) "failed sbrk leaked memory" ;;
  b <- sbrk 0 ;;
  (if oldbrk <? b then b <- sbrk 0 ;; sbrk (- (b - oldbrk)) ;; Return tt else Return tt) ;;
  say "sbrk test OK".

Definition validateint (p : Z) : prog unit := sys (Sleep_at p) ;; Return tt.

(** [p] goes in steps of a page from 0 to 1100 * 1024. *)
Definition validatetest : prog unit :=
  say "validate test" ;;
  for_each 276 (fun i =>
    let p := 4096 * i in
    pid <- fork ;;
    (if pid =? 0 then validateint p ;; Exit else Return tt) ;;
    sys (Sleep_ticks 0) ;;
    sys (Sleep_ticks 0) ;;
    sys (Kill pid) ;;
    sys Wait ;;
    r <- sys (Link_at (str "nosuchfile") p) ;;
    quit_if (negb (r =? -1)) "link should not succeed") ;;
  say "validate ok".

(** [uninit] is what the program finds in its uninitialised array. *)
Definition bsstest (uninit : list Z) : prog unit :=
  say "bss test" ;;
  quit_if (negb (forallb (fun b => b =? 0) uninit)) "bss test failed" ;;
  say "bss test ok".

Definition bigarg : list Z := ln "bigargs test: failed" ++ replicate 199 32.

Definition bigargtest : prog unit :=
  sys (Unlink (str "bigarg-ok")) ;;
  pid <- fork ;;
  (if pid =? 0 then
     say "bigarg test" ;;
     exec (str "echo") (replicate (MAXARG - 1) bigarg) ;;
     say "bigarg test ok" ;;
     fd <- sys (Open (str "bigarg-ok") O_CREATE) ;;
     sys (Close fd) ;;
     Exit
   else quit_if (pid <? 0) "bigargtest: fork failed") ;;
  sys Wait ;;
  fd <- sys (Open (str "bigarg-ok") 0) ;;
  quit_if (fd <? 0) "bigarg test failed!" ;;
  sys (Close fd) ;;
  sys (Unlink (str "bigarg-ok")) ;;
  Return tt.

(** The file named after a number below 10000. *)
Definition fsfull_name (n : Z) : list Z := [102; 48 + n / 1000; 48 + n mod 1000 / 100; 48 + n mod 100 / 10; 48 + n mod 10].
Fixpoint fsfull_write (fuel : nat) (fd total : Z) (buf : list Z) : prog Z :=
  match fuel with
  | O => Undefined "fuel"
  | S k =>
      cc <- sys (Write fd (take 512 buf)) ;;
      if cc <? 512 then Return total else fsfull_write k fd (total + cc) buf
  end.
Fixpoint fsfull_files (fuel : nat) (nfiles : Z) (buf : list Z) : prog Z :=
  match fuel with
  | O => Undefined "fuel"
  | S k =>
      let name := fsfull_name nfiles in
      printf 1 (ln "writing %s") [S_ name] ;;
      fd <- sys (Open name (Z.lor O_CREATE O_RDWR)) ;;
      if fd <? 0 then printf 1 (ln "open %s failed") [S_ name] ;; Return nfiles else
      total <- fsfull_write fuel fd 0 buf ;;
      printf 1 (ln "wrote %d bytes") [D total] ;;
      sys (Close fd) ;;
      if total =? 0 then Return nfiles else fsfull_files k (nfiles + 1) buf
  end.
Definition fsfull (fuel : nat) (buf : list Z) : prog unit :=
  say "fsfull test" ;;
  nfiles <- fsfull_files fuel 0 buf ;;
  for_each (Z.to_nat (nfiles + 1)) (fun i => sys (Unlink (fsfull_name (nfiles - i))) ;; Return tt) ;;
  say "fsfull test finished".

Definition RTC_ADDR : Z := 0x70.
Definition RTC_DATA : Z := 0x71.
Definition uio : prog unit :=
  say "uio test" ;;
  pid <- fork ;;
  (if pid =? 0 then
     sys (Outb RTC_ADDR 0x09) ;;
     sys (Inb RTC_DATA) ;;
     say "uio: uio succeeded; test FAILED" ;;
     Exit
   else quit_if (pid <? 0) "fork failed") ;;
  sys Wait ;;
  say "uio test done".

Definition argptest : prog unit :=
  fd <- sys (Open (str "init") O_RDONLY) ;;
  (if fd <? 0 then printf 2 (ln "open failed") [] ;; Exit else Return tt) ;;
  a <- sbrk 0 ;;
  sys (Read_at fd (u32 (a - 1)) (-1)) ;;
  sys (Close fd) ;;
  say "arg test passed".

(** [rand], which no test calls. *)
Definition rand (randstate : Z) : Z * Z := let r := u32 (randstate * 1664525 + 1013904223) in (r, r).

(** [base] and [uninit] are what the linker and [exec] give the program: the address of the
    allocator's first header, and the uninitialised data. *)
Definition usertests_main (fuel : nat) (base : Z) (buf uninit : list Z) : prog unit :=
  say "usertests starting" ;;
  fd <- sys (Open (str "usertests.ran") 0) ;;
  quit_if (0 <=? fd) "already ran user tests -- rebuild fs.img" ;;
  fd <- sys (Open (str "usertests.ran") O_CREATE) ;;
  sys (Close fd) ;;
  argptest ;;
  createdelete ;;
  linkunlink ;;
  concreate fuel ;;
  buf <- fourfiles fuel buf ;;
  sharedfd fuel ;;
  bigargtest ;;
  bigwrite buf ;;
  bigargtest ;;
  bsstest uninit ;;
  sbrktest fuel ;;
  validatetest ;;
  opentest ;;
  buf <- writetest buf ;;
  buf <- writetest1 fuel buf ;;
  createtest ;;
  openiputtest ;;
  exitiputtest ;;
  iputtest ;;
  mem base fuel (fun _ => mkHdr 0 0, 0) ;;
  buf <- pipe1 fuel buf ;;
  buf <- preempt buf ;;
  exitwait ;;
  rmdot ;;
  fourteen ;;
  buf <- bigfile fuel buf ;;
  buf <- subdir buf ;;
  buf <- linktest buf ;;
  buf <- unlinkread buf ;;
  dirfile ;;
  iref ;;
  forktest ;;
  bigdir ;;
  uio ;;
  exectest ;;
  Exit.
