(* ===== verification/Trap.v ===== *)
(** Traps and interrupts: [src/trap.c].

    [trap] is written over the state of [Syscall], the process table and the rest of
    the kernel; the system call dispatcher, the interrupt routines of the devices and
    the acknowledgement of the interrupt controller are parameters ([Syscall.syscall],
    [Ide.ideintr], [Kbd.kbdintr], [Console.uartintr], [lapiceoi]).  [exit] does not
    come back; [yield] is cut at its switch, and [trap_resume] is the rest. *)

From Stdlib Require Import ZArith Lia.
From stdpp Require Import base list strings pretty.
From S2P Require Import Prelude Console Proc Syscall.
Local Open Scope Z_scope.

Definition T_SYSCALL : Z := 64.
Definition T_IRQ0 : Z := 32.
Definition IRQ_TIMER : Z := 0.
Definition IRQ_IDE : Z := 14.
Definition IRQ_SPURIOUS : Z := 31.

(** ** The interrupt descriptor table *)

Record gatedesc := mkGate {
  off_15_0 : Z; gate_cs : Z; gate_args : Z; gate_rsv1 : Z; gate_type : Z; gate_s : Z; gate_dpl : Z; gate_p : Z; off_31_16 : Z;
}.
Definition STS_IG32 : Z := 0xE.
Definition STS_TG32 : Z := 0xF.
Definition SEG_KCODE : Z := 1.

Definition SETGATE (istrap : bool) (sel off d : Z) : gatedesc :=
  mkGate (Z.land (u32 off) 0xffff) sel 0 0 (if istrap then STS_TG32 else STS_IG32) 0 d 1 (Z.shiftr (u32 off) 16).

(** The table after [tvinit]; [vectors] are the entry points. *)
Definition tvinit (vectors : nat -> Z) : list gatedesc :=
  let idt := map (fun i => SETGATE false (Z.shiftl SEG_KCODE 3) (vectors i) 0) (seq 0 256) in
  <[Z.to_nat T_SYSCALL := SETGATE true (Z.shiftl SEG_KCODE 3) (vectors (Z.to_nat T_SYSCALL)) DPL_USER]> idt.

(** ** Traps *)

(** How a trap ends: back to the interrupted code, with the process gone, at the
    switch of [yield], or where its system call left the processor. *)
Inductive trap_end := TReturn | TGone | TYield (intena : bool) | TSys (o : outcome).

(** [%d] and [%x] of [cprintf]. *)
Definition fmt_num (base : Z) (sgn : bool) (xx : Z) : string :=
  let neg := sgn && (xx <? 0) in
  let x := if neg then u32 (- xx) else u32 xx in
  text_of (rev (cdigits_loop 16 x base ++ (if neg then [45] else []))).
Definition dec (z : Z) : string := fmt_num 10 true (s32 z).
Definition hex (z : Z) : string := fmt_num 16 false (s32 z).

Section Trap.
Context {E : Type} {ENV : Env E}.
Abbreviation SM := (M (sstate E)).
Context (syscall_ : SM outcome) (ideintr kbdintr uartintr lapiceoi : SM unit) (cpuid rcr2 : Z).

Definition user_mode (t : trapframe) : bool := Z.land (tf_cs t) 3 =? DPL_USER.

Definition trap_syscall (t : trapframe) : SM trap_end :=
  p <- myp ;;
  if killed p then onp exit ;; ret TGone else
  i <- onp curproc ;;
  onp (updp i (set_tf t)) ;;
  o <- syscall_ ;;
  match o with
  | Return _ => p <- myp ;; if killed p then onp exit ;; ret TGone else ret TReturn
  | Gone => ret TGone
  | _ => ret (TSys o)
  end.

(** After a system call that had left the processor has come to its end. *)
Definition trap_syscall_end : SM trap_end :=
  p <- myp ;; if killed p then onp exit ;; ret TGone else ret TReturn.

Definition timer_tick : SM unit :=
  (if cpuid =? 0 then
     onp (acquire LTicks) ;;
     onp (modify (fun s => set_ticks (u32 (ticks s + 1)) s)) ;;
     onp (wakeup CTicks) ;;
     onp (release LTicks)
   else ret tt) ;;
  lapiceoi.

Definition spurious (t : trapframe) : SM unit :=
  onp (cprintf ("cpu" +:+ dec cpuid +:+ ": spurious interrupt at " +:+ hex (tf_cs t) +:+ ":" +:+ hex (tf_eip t) +:+ "\n")) ;;
  lapiceoi.

(** The [default:] case. *)
Definition fault (t : trapframe) (err : Z) : SM unit :=
  o <- gets (fun s => cpu_proc (ps s)) ;;
  match o with
  | Some i =>
      if Z.land (tf_cs t) 3 =? 0 then
        onp (cprintf ("unexpected trap " +:+ dec (tf_trapno t) +:+ " from cpu " +:+ dec cpuid +:+ " eip " +:+ hex (tf_eip t)
                      +:+ " (cr2=0x" +:+ hex rcr2 +:+ ")\n")) ;;
        panic "trap"
      else
        p <- onp (getp i) ;;
        onp (cprintf ("pid " +:+ dec (pid p) +:+ " " +:+ text_of (name p) +:+ ": trap " +:+ dec (tf_trapno t) +:+ " err " +:+ dec err
                      +:+ " on cpu " +:+ dec cpuid +:+ " eip 0x" +:+ hex (tf_eip t) +:+ " addr 0x" +:+ hex rcr2 +:+ "--kill proc\n")) ;;
        onp (updp i (set_killed true))
  | None =>
      onp (cprintf ("unexpected trap " +:+ dec (tf_trapno t) +:+ " from cpu " +:+ dec cpuid +:+ " eip " +:+ hex (tf_eip t)
                    +:+ " (cr2=0x" +:+ hex rcr2 +:+ ")\n")) ;;
      panic "trap"
  end.

(** The [switch]. *)
Definition dispatch (t : trapframe) (err : Z) : SM unit :=
  let n := tf_trapno t in
  if n =? T_IRQ0 + IRQ_TIMER then timer_tick
  else if n =? T_IRQ0 + IRQ_IDE then ideintr ;; lapiceoi
  else if n =? T_IRQ0 + IRQ_IDE + 1 then ret tt
  else if n =? T_IRQ0 + IRQ_KBD then kbdintr ;; lapiceoi
  else if n =? T_IRQ0 + IRQ_COM1 then uartintr ;; lapiceoi
  else if (n =? T_IRQ0 + 7) || (n =? T_IRQ0 + IRQ_SPURIOUS) then spurious t
  else fault t err.

(** [if(myproc() && myproc()->killed && (tf->cs&3) == DPL_USER) exit()], and [k]
    when the process goes on. *)
Definition unless_killed (t : trapframe) (k : SM trap_end) : SM trap_end :=
  o <- gets (fun s => cpu_proc (ps s)) ;;
  match o with
  | None => k
  | Some i =>
      p <- onp (getp i) ;;
      if killed p && user_mode t then onp exit ;; ret TGone else k
  end.

Definition trap_last (t : trapframe) : SM trap_end := unless_killed t (ret TReturn).

Definition trap_tail (t : trapframe) : SM trap_end :=
  unless_killed t
    (o <- gets (fun s => cpu_proc (ps s)) ;;
     match o with
     | None => trap_last t
     | Some i =>
         p <- onp (getp i) ;;
         if is_state RUNNING p && (tf_trapno t =? T_IRQ0 + IRQ_TIMER) then
           b <- onp yield_enter ;; ret (TYield b)
         else trap_last t
     end).

(** What follows the switch of [yield]. *)
Definition trap_resume (t : trapframe) (b : bool) : SM trap_end :=
  onp (yield_exit b) ;; trap_last t.

Definition trap (t : trapframe) (err : Z) : SM trap_end :=
  if tf_trapno t =? T_SYSCALL then trap_syscall t
  else dispatch t err ;; trap_tail t.
End Trap.

(** ** The gates *)

Lemma SETGATE_offset istrap sel off d :
  0 <= off < 2 ^ 32 -> let g := SETGATE istrap sel off d in off_15_0 g + Z.shiftl (off_31_16 g) 16 = off.
Proof.
  intros H. cbn. rewrite u32_id by done. rewrite Z.shiftr_div_pow2, Z.shiftl_mul_pow2 by lia.
  change 0xffff with (Z.ones 16). rewrite Z.land_ones by lia. pose proof (Z.div_mod off (2 ^ 16) ltac:(lia)). lia.
Qed.

(** the interrupt descriptor table sends each of the 256 vectors to its own entry
    point in the kernel's code segment, and the only one a user program may raise with
    an [int] instruction is the system call's, which is also the only gate that leaves
    interrupts on. *)
Theorem tvinit_gates vectors n g :
  (forall i, 0 <= vectors i < 2 ^ 32) -> tvinit vectors !! n = Some g ->
  (n < 256)%nat /\ off_15_0 g + Z.shiftl (off_31_16 g) 16 = vectors n /\ gate_cs g = 8 /\ gate_p g = 1 /\ gate_s g = 0
  /\ gate_dpl g = (if Z.of_nat n =? T_SYSCALL then 3 else 0)
  /\ gate_type g = (if Z.of_nat n =? T_SYSCALL then STS_TG32 else STS_IG32).
Proof.
  intros Hv H. unfold tvinit in H. apply list_lookup_insert_Some in H as [(<- & <- & Hl)|[Hne H]].
  - split; [vm_compute; lia|]. split; [by apply SETGATE_offset|]. by repeat split.
  - apply list_lookup_fmap_Some in H as (i & -> & Hi). apply lookup_seq in Hi as [-> Hi].
    split; [lia|]. split; [by apply SETGATE_offset|]. rewrite (proj2 (Z.eqb_neq _ _)); [by repeat split|].
    intros E. apply Hne. rewrite <- E. lia.
Qed.

Lemma tvinit_gates_witness :
  exists g, tvinit (fun i => 0x80105000 + 8 * Z.of_nat i mod 2048) !! 64%nat = Some g
  /\ (64 < 256)%nat /\ off_15_0 g + Z.shiftl (off_31_16 g) 16 = 0x80105000 + 8 * Z.of_nat 64 mod 2048 /\ gate_cs g = 8 /\ gate_p g = 1 /\ gate_s g = 0
  /\ gate_dpl g = (if Z.of_nat 64 =? T_SYSCALL then 3 else 0)
  /\ gate_type g = (if Z.of_nat 64 =? T_SYSCALL then STS_TG32 else STS_IG32).
Proof.
  eexists. split; [vm_compute; reflexivity|].
  apply (tvinit_gates (fun i => 0x80105000 + 8 * Z.of_nat i mod 2048) 64); [|vm_compute; reflexivity].
  intros i. pose proof (Z.mod_pos_bound (8 * Z.of_nat i) 2048 ltac:(lia)). lia.
Defined.
