(* ===== verification/TrapInv.v ===== *)
(** System calls and traps keep the process table well formed, and a killed process
    does not return to user mode. *)

From Stdlib Require Import ZArith Lia.
From stdpp Require Import base list strings.
From S2P Require Import Prelude Proc Sched ProcInv ProcSpec Syscall Trap.
Local Open Scope Z_scope.

Section TrapInv.
Context {E : Type} {ENV : Env E}.
Abbreviation SM := (M (sstate E)).
Implicit Types s : sstate E.

Lemma wp_onp {A} (m : M (pstate E) A) s Q : wp m (ps s) (fun a p => Q a (set_ps p s)) -> wp (onp m) s Q.
Proof. intros H. apply wp_zoom. intros a p Hm. by apply (wp_elim _ _ _ _ _ H). Qed.

(** Code that reads the state only. *)
Definition reads {A} (m : SM A) : Prop := forall s, (m s).2 = s.

Lemma wp_reads {A} (m : SM A) s Q : reads m -> (forall a, Q a s) -> wp m s Q.
Proof. intros H HQ. specialize (H s). unfold wp. destruct (m s) as [[] s'] eqn:Em; try done. cbn in H. by subst. Qed.

Lemma reads_bind {A B} (m : SM A) (k : A -> SM B) : reads m -> (forall a, reads (k a)) -> reads (bind m k).
Proof.
  intros Hm Hk s. specialize (Hm s). unfold bind. destruct (m s) as [[a| | | |] s']; cbn in *; subst; try done. apply Hk.
Qed.
Lemma reads_ret {A} (a : A) : reads (ret a).
Proof. done. Qed.
Lemma reads_gets {A} (f : sstate E -> A) : reads (gets f).
Proof. done. Qed.
Lemma reads_onp {A} (m : M (pstate E) A) : (forall p, (m p).2 = p) -> reads (onp m).
Proof. intros H s. unfold onp, zoom. specialize (H (ps s)). destruct (m (ps s)) as [r p]. cbn in *. subst. by destruct s. Qed.

Lemma reads_myp : reads myp.
Proof.
  apply reads_bind; [apply reads_onp|intros i; apply reads_onp]; intros p.
  - unfold curproc. mrun. by destruct (cpu_proc p).
  - unfold getp. mrun. by destruct (ptable p !! i).
Qed.
Lemma reads_argint n : reads (argint n).
Proof.
  apply reads_bind; [apply reads_myp|intros p]. apply reads_bind; [apply reads_myp|intros q].
  case_match; [apply reads_ret|]. apply reads_bind; [apply reads_gets|intros m; apply reads_ret].
Qed.

(** ** System calls *)

(** The table is well formed once the handler has left. *)
Definition settled (o : outcome) (p : pstate E) : Prop :=
  match o with
  | Return _ | Again _ _ => kstate_ok p
  | Switched _ | Gone => kstate_ok (switched p)
  end.
Definition keeps (m : SM outcome) : Prop :=
  forall s, kstate_ok (ps s) -> nextpid (ps s) < 2 ^ 31 - 1 -> wp m s (fun o s' => settled o (ps s')).

Lemma keeps_int n k : (forall x, keeps (k x)) -> keeps (with_int n k).
Proof.
  intros H s Hk Hn. unfold with_int. apply wp_bind, wp_reads; [apply reads_argint|]. intros [x|]; [by apply H|done].
Qed.

(** A handler that calls one routine and returns. *)
Lemma keeps_call {A} (m : M (pstate E) A) (f : A -> outcome) :
  (forall p, kstate_ok p -> nextpid p < 2 ^ 31 - 1 -> wp m p (fun a p' => settled (f a) p')) -> keeps (r <- onp m ;; ret (f r)).
Proof. intros H s Hk Hn. apply wp_bind, wp_onp. by apply H. Qed.

Context (trapret forkret_addr low : Z) (cmos : list Z).

Lemma acquire_ok l (p : pstate E) : kstate_ok p -> acquire l p = (Ok tt, set_held [l] p).
Proof. intros Hk. pose proof (k_held _ Hk) as Hh. rewrite acquire_run; rewrite Hh; [done|apply not_elem_of_nil]. Qed.
Lemma release_ok l (p : pstate E) : release l (set_held [l] p) = (Ok tt, set_held [] p).
Proof. rewrite (release_run l []); [done|done|apply not_elem_of_nil]. Qed.
Lemma unheld (p : pstate E) : kstate_ok p -> set_held [] p = p.
Proof. intros Hk. pose proof (k_held _ Hk) as Hh. destruct p. cbn in Hh. by subst. Qed.

Lemma set_ticks_ok z (p : pstate E) : kstate_ok p -> kstate_ok (set_ticks z p).
Proof. by intros []. Qed.
Lemma set_out_ok l (p : pstate E) : kstate_ok p -> kstate_ok (set_out l p).
Proof. by intros []. Qed.
Lemma set_barrier_ok a b (p : pstate E) : kstate_ok p -> kstate_ok (set_barrier a b p).
Proof. by intros []. Qed.

Lemma sleep_turn_ok n t0 s : kstate_ok (ps s) ->
  wp (sleep_turn n t0) (set_ps (set_held [LTicks] (ps s)) s) (fun o s' => settled o (ps s')).
Proof.
  intros Hk. unfold sleep_turn. apply wp_bind. eapply wp_run; [done|]. cbn [ps set_ps ticks set_held].
  assert (forall r, wp (onp (release LTicks) ;; ret (Return r)) (set_ps (set_held [LTicks] (ps s)) s) (fun o s' => settled o (ps s'))) as Hrel.
  { intros r. apply wp_bind, wp_onp. eapply wp_run; [apply release_ok|]. cbn. by rewrite unheld. }
  case_match; [|apply Hrel]. apply wp_bind, wp_reads; [apply reads_myp|]. intros p. case_match; [apply Hrel|].
  apply wp_bind, wp_onp. eapply wp_weaken; [apply (sleep_ok (ps s) CTicks LTicks Hk)|]. done.
Qed.

Lemma children_ok n (p : pstate E) : kstate_ok p -> wp (get_children_of low n) p (fun _ p' => p' = p).
Proof.
  intros Hk. unfold get_children_of. apply wp_bind. eapply wp_run; [by apply acquire_ok|]. apply wp_bind. eapply wp_run; [done|].
  destruct (children_loop _ _ _ _ _ _ _) as [c z]. apply wp_bind. eapply wp_run; [apply release_ok|]. cbn. by apply unheld.
Qed.

Lemma children_loop_ok fuel : forall pid grand counter queue s, kstate_ok (ps s) ->
  wp (get_children_loop low fuel pid grand counter queue) s (fun _ s' => s' = s).
Proof.
  induction fuel as [|k IH]; intros pid grand counter queue s Hk; [done|]. cbn [get_children_loop]. case_match; [|done].
  apply wp_bind, wp_onp. eapply wp_weaken; [by apply children_ok|]. intros c p ->. replace (set_ps (ps s) s) with s by by destruct s.
  destruct (explore _ _ _ _ _) as [[g ct] q]. by apply IH.
Qed.

(** The handlers that are not in [sysproc.c]. *)
Context (others : Z -> option (SM outcome)).
Hypothesis others_ok : forall num h, others num = Some h -> keeps h.

Lemma sys_calls_keep fuel num h : syscalls trapret forkret_addr low cmos others fuel num = Some h -> keeps h.
Proof.
  unfold syscalls. intros H.
  repeat (match type of H with context [if ?c then _ else _] => destruct c end;
          [injection H as <-|]); [..|by apply (others_ok num)].
  - apply keeps_call. intros p Hk Hn. by apply fork_ok.
  - intros s Hk Hn. unfold sys_exit. apply wp_bind, wp_onp. eapply wp_weaken; [by apply exit_ok|]. done.
  - apply (keeps_call wait wait_outcome). intros p Hk Hn. eapply wp_weaken; [by apply wait_ok|]. by intros [] p'.
  - apply keeps_int. intros x. apply keeps_call. intros p Hk Hn. by apply kill_ok.
  - intros s Hk Hn. unfold sys_getpid. apply wp_bind, wp_reads; [apply reads_myp|done].
  - apply keeps_int. intros x s Hk Hn. apply wp_bind, wp_reads; [apply reads_myp|]. intros p. apply wp_bind, wp_onp.
    eapply wp_weaken; [by apply growproc_ok|]. intros r p' Hp. by case_match.
  - apply keeps_int. intros x s Hk Hn. apply wp_bind, wp_onp. eapply wp_run; [by apply acquire_ok|].
    apply wp_bind. eapply wp_run; [done|]. by apply sleep_turn_ok.
  - intros s Hk Hn. unfold sys_uptime. apply wp_bind, wp_onp. eapply wp_run; [by apply acquire_ok|]. apply wp_bind. eapply wp_run; [done|].
    apply wp_bind, wp_onp. eapply wp_run; [apply release_ok|]. cbn. by rewrite unheld.
  - intros s Hk Hn. unfold sys_count_num_of_digits. apply wp_bind, wp_reads; [apply reads_myp|]. intros p.
    apply wp_bind, wp_onp. eapply wp_run; [done|]. by apply set_out_ok.
  - intros s Hk Hn. unfold sys_get_parent_id. apply wp_bind, wp_reads; [apply reads_myp|]. intros p. case_match; [|done].
    apply wp_bind, wp_reads; [|done]. apply reads_onp. intros q. unfold getp. mrun. by case_match.
  - apply keeps_int. intros x s Hk Hn. apply wp_bind. eapply wp_weaken; [by apply children_loop_ok|]. by intros r s' ->.
  - apply keeps_int. intros x s Hk Hn. apply wp_bind, wp_onp. eapply wp_run; [by apply acquire_ok|].
    apply wp_bind. eapply wp_run; [done|]. unfold sys_set_sleep_turn. apply wp_bind. eapply wp_run; [done|].
    case_match; (apply wp_bind, wp_onp; eapply wp_run; [apply release_ok|]; cbn; by rewrite unheld).
  - intros s Hk Hn. unfold sys_get_time. apply wp_bind, wp_reads.
    { apply reads_bind; [apply reads_myp|intros p]. apply reads_bind; [apply reads_argint|intros [i|]]; [|apply reads_ret].
      case_match; apply reads_ret. }
    intros [t|]; [|done]. apply wp_bind. eapply wp_run; [done|]. apply wp_bind. by eapply wp_run.
  - apply keeps_int. intros x. apply keeps_int. intros y. apply keeps_call. intros p Hk Hn. by apply table_pass_ok; [done|split; auto|].
  - apply keeps_int. intros x. apply keeps_int. intros y. apply keeps_call. intros p Hk Hn. by apply table_pass_ok; [done|split; auto|].
  - apply keeps_int. intros x. apply keeps_int. intros y. apply keeps_call. intros p Hk Hn. by apply table_pass_ok; [done|split; auto|].
  - apply keeps_int. intros x. apply keeps_call. intros p Hk Hn. unfold barrier_init. apply wp_bind. eapply wp_run; [done|].
    eapply wp_run; [done|]. by apply set_out_ok, set_barrier_ok.
  - intros s Hk Hn. unfold sys_barrier_wait, barrier_wait. apply wp_bind, wp_onp. apply wp_bind. eapply wp_run; [done|].
    assert (Hb : kstate_ok (set_barrier (bar_max (ps s)) (s32 (bar_counter (ps s) + 1)) (ps s))) by by apply set_barrier_ok.
    apply wp_bind. eapply wp_run; [done|]. case_match.
    + apply wp_bind. eapply wp_run; [by apply acquire_ok|]. apply wp_bind.
      eapply wp_weaken; [by apply (sleep_ok _ CBarrier LPtable)|]. done.
    + apply wp_bind. eapply wp_run; [done|]. apply wp_bind. eapply wp_weaken; [apply wakeup_ok; by apply set_out_ok|]. done.
Qed.

Lemma set_tf_ok i f s : kstate_ok (ps s) -> cpu_proc (ps s) = Some i ->
  wp (onp (updp i (fun x => set_tf (f x) x))) s (fun _ s' => kstate_ok (ps s') /\ nextpid (ps s') = nextpid (ps s)).
Proof.
  intros Hk Hi. apply wp_onp. destruct (cur_active _ _ Hk Hi) as (x & Hx & _ & Hs). eapply wp_updp; [exact Hx|].
  split; [|done]. pose proof (edit_ok (ps s) i x (set_tf (f x) x) (env (ps s)) Hk Hi Hx) as H. apply H; [split; auto|done].
Qed.

Lemma wp_cur (k : nat -> SM unit) s Q : kstate_ok (ps s) -> (forall i, cpu_proc (ps s) = Some i -> wp (k i) s Q) ->
  wp (i <- onp curproc ;; k i) s Q.
Proof.
  intros Hk H. apply wp_bind, wp_onp, wp_curproc; [done|]. intros cur c Hc _ _ _.
  replace (set_ps (ps s) s) with s by by destruct s. by apply H.
Qed.

Lemma syscall_keeps fuel : keeps (syscall trapret forkret_addr low cmos others fuel).
Proof.
  intros s Hk Hn. unfold syscall. apply wp_bind, wp_reads; [apply reads_myp|]. intros p.
  assert (Hret : forall r s, kstate_ok (ps s) -> wp (syscall_return r ;; ret (Return r)) s (fun o s' => settled o (ps s'))).
  { intros r s0 Hk0. apply wp_bind, wp_cur; [done|]. intros i Hi. eapply wp_weaken; [by apply (set_tf_ok i (fun x => set_eax (u32 r) (tf x)))|].
    by intros _ s' [H _]. }
  match goal with |- wp (match ?o with _ => _ end) _ _ => destruct o as [h|] eqn:Eh end.
  - assert (Hh : keeps h) by (case_match; [by eapply sys_calls_keep|done]).
    apply wp_bind. eapply wp_weaken; [by apply Hh|]. intros [r| | |] s' Hs; [by apply Hret|done..].
  - apply wp_bind, wp_onp. eapply wp_run; [done|]. apply Hret. by apply set_out_ok.
Qed.

(** ** Traps *)

Definition steady (m : SM unit) : Prop := forall s, kstate_ok (ps s) -> wp m s (fun _ s' => kstate_ok (ps s')).

(** The process on the processor has not been killed. *)
Definition alive (p : pstate E) : Prop := forall i x, cpu_proc p = Some i -> ptable p !! i = Some x -> killed x = false.

Definition trap_ok (user : bool) (r : trap_end) (s : sstate E) : Prop :=
  match r with
  | TReturn => kstate_ok (ps s) /\ (user = true -> alive (ps s))
  | TGone | TYield _ => kstate_ok (switched (ps s))
  | TSys o => settled o (ps s)
  end.

Lemma exit_trap s Q : kstate_ok (ps s) -> (forall s', kstate_ok (switched (ps s')) -> Q TGone s') -> wp (onp exit ;; ret TGone) s Q.
Proof. intros Hk HQ. apply wp_bind, wp_onp. eapply wp_weaken; [by apply exit_ok|]. intros b p' Hp. by apply HQ. Qed.

Lemma wp_myp s Q : (forall i p, cpu_proc (ps s) = Some i -> ptable (ps s) !! i = Some p -> Q p s) -> wp myp s Q.
Proof.
  intros H. unfold myp. apply wp_bind, wp_onp. unfold curproc. apply wp_bind. eapply wp_run; [done|].
  destruct (cpu_proc (ps s)) as [i|] eqn:Hi; [|done]. eapply wp_run; [done|]. apply wp_onp. unfold getp. apply wp_bind. eapply wp_run; [done|].
  cbn. destruct (ptable (ps s) !! i) as [p|] eqn:Hp; [|done]. eapply wp_run; [done|].
  replace (set_ps _ _) with s by by destruct s. by eapply H.
Qed.

Lemma unless_killed_ok t k s user : kstate_ok (ps s) -> user_mode t = user ->
  ((user = true -> alive (ps s)) -> wp k s (trap_ok user)) -> wp (unless_killed t k) s (trap_ok user).
Proof.
  intros Hk Hu H. unfold unless_killed. apply wp_bind. eapply wp_run; [done|].
  destruct (cpu_proc (ps s)) as [i|] eqn:Hi; [|apply H; intros _ j x Hj; congruence].
  destruct (k_cur _ Hk i Hi) as (p & Hp & _). apply wp_bind, wp_onp. eapply wp_getp; [exact Hp|].
  replace (set_ps (ps s) s) with s by by destruct s. rewrite Hu. destruct (killed p) eqn:Hkl, user; cbn [andb].
  - by apply exit_trap.
  - by apply H.
  - apply H. intros _ j x Hj Hx. congruence.
  - by apply H.
Qed.

Lemma trap_last_ok t s : kstate_ok (ps s) -> wp (trap_last t) s (trap_ok (user_mode t)).
Proof. intros Hk. apply unless_killed_ok; [done|done|]. intros Ha. by eapply wp_run. Qed.

Lemma trap_tail_ok t s : kstate_ok (ps s) -> wp (trap_tail t) s (trap_ok (user_mode t)).
Proof.
  intros Hk. apply unless_killed_ok; [done|done|]. intros _. apply wp_bind. eapply wp_run; [done|].
  destruct (cpu_proc (ps s)) as [i|] eqn:Hi; [|by apply trap_last_ok].
  destruct (k_cur _ Hk i Hi) as (p & Hp & _). apply wp_bind, wp_onp. eapply wp_getp; [exact Hp|].
  replace (set_ps (ps s) s) with s by by destruct s. case_match; [|by apply trap_last_ok].
  apply wp_bind, wp_onp. eapply wp_weaken; [by apply yield_ok|]. done.
Qed.

(** [wakeup] by a process that holds [tickslock]. *)
Lemma wakeup_held c (p : pstate E) : length (ptable p) = NPROC ->
  wakeup c (set_held [LTicks] p) = (Ok tt, set_held [LTicks] (set_ptable (map (woken c) (ptable p)) p)).
Proof.
  intros Hl. unfold wakeup. erewrite bind_ok by (apply acquire_run; cbn; by rewrite list_elem_of_singleton).
  erewrite bind_ok by (by apply wakeup1_run). erewrite release_run; [done|done|by rewrite list_elem_of_singleton].
Qed.

Context (ideintr kbdintr uartintr lapiceoi : SM unit) (cpuid rcr2 : Z).

(** The table after a tick. *)
Definition ticked (p : pstate E) : pstate E := set_ptable (map (woken CTicks) (ptable p)) (set_ticks (u32 (ticks p + 1)) p).

Lemma tick_run s : kstate_ok (ps s) ->
  (onp (acquire LTicks) ;; onp (modify (fun p => set_ticks (u32 (ticks p + 1)) p)) ;; onp (wakeup CTicks) ;; onp (release LTicks)) s
  = (Ok tt, set_ps (ticked (ps s)) s).
Proof.
  intros Hk. set (p := ps s). erewrite bind_ok by (apply onp_run; by apply acquire_ok).
  erewrite (bind_ok (onp (modify _))) by (apply onp_run; done).
  erewrite (bind_ok (onp (wakeup CTicks))).
  2: { apply onp_run. apply (wakeup_held CTicks (set_ticks (u32 (ticks p + 1)) p)). apply (t_len _ _ _ _ (k_table _ Hk)). }
  erewrite onp_run by apply release_ok. f_equal. unfold set_ps, ticked. f_equal. pose proof (k_held _ Hk) as Hh. fold p in Hh. destruct p.
  cbn in *. by subst.
Qed.

Lemma ticked_ok (p : pstate E) : kstate_ok p -> kstate_ok (ticked p).
Proof.
  intros Hk. apply (map_ok (set_ticks (u32 (ticks p + 1)) p)); [by apply set_ticks_ok|auto with proc|].
  intros x Hx. rewrite woken_state. unfold is_state. by rewrite Hx.
Qed.

Hypothesis ide_ok : steady ideintr.
Hypothesis kbd_ok : steady kbdintr.
Hypothesis uart_ok : steady uartintr.
Hypothesis eoi_ok : steady lapiceoi.

Lemma then_eoi m : steady m -> steady (m ;; lapiceoi).
Proof. intros Hm s Hk. apply wp_bind. eapply wp_weaken; [by apply Hm|]. intros ? s' Hs. by apply eoi_ok. Qed.

Lemma timer_steady : steady (timer_tick lapiceoi cpuid).
Proof.
  intros s Hk. unfold timer_tick. apply wp_bind. eapply (wp_weaken _ _ (fun _ s' => kstate_ok (ps s'))); [|intros _ s' Hs; by apply eoi_ok].
  destruct (cpuid =? 0); [|done]. eapply wp_run; [by apply tick_run|]. by apply ticked_ok.
Qed.

Lemma fault_ok t err : steady (fault cpuid rcr2 t err).
Proof.
  intros s Hk. unfold fault. apply wp_bind. eapply wp_run; [done|].
  destruct (cpu_proc (ps s)) as [i|] eqn:Hi; [|by apply wp_bind, wp_onp; eapply wp_run].
  case_match; [by apply wp_bind, wp_onp; eapply wp_run|].
  destruct (cur_active _ _ Hk Hi) as (x & Hx & _ & Hs). apply wp_bind, wp_onp. eapply wp_getp; [exact Hx|].
  apply wp_bind, wp_onp. eapply wp_run; [done|]. apply wp_onp. eapply wp_updp; [exact Hx|].
  pose proof (edit_ok (ps s) i x (set_killed true x) (env (ps s)) Hk Hi Hx ltac:(split; auto) Hs) as He.
  by apply (set_out_ok _ _ He).
Qed.

Lemma dispatch_steady t err : steady (dispatch ideintr kbdintr uartintr lapiceoi cpuid rcr2 t err).
Proof.
  intros s Hk. unfold dispatch. repeat case_match.
  - by apply timer_steady.
  - by apply then_eoi.
  - done.
  - by apply then_eoi.
  - by apply then_eoi.
  - unfold spurious. apply wp_bind, wp_onp. eapply wp_run; [done|]. apply eoi_ok. by apply set_out_ok.
  - by apply fault_ok.
Qed.

Lemma trap_syscall_ok t fuel s : kstate_ok (ps s) -> nextpid (ps s) < 2 ^ 31 - 1 ->
  wp (trap_syscall (syscall trapret forkret_addr low cmos others fuel) t) s (trap_ok true).
Proof.
  intros Hk Hn. unfold trap_syscall. apply wp_bind, wp_myp. intros i p Hi Hp. destruct (killed p); [by apply exit_trap|].
  apply wp_bind, wp_onp, wp_curproc; [done|]. intros cur c Hc Hcur _ _. replace (set_ps (ps s) s) with s by by destruct s.
  apply wp_bind. eapply wp_weaken; [by apply (set_tf_ok cur (fun _ => t))|]. intros _ s1 [Hk1 Hn1].
  apply wp_bind. eapply wp_weaken; [apply syscall_keeps; [done|by rewrite Hn1]|]. intros [r| | |] s2 Hs2; [|done..].
  apply wp_bind, wp_myp. intros j q Hj Hq. destruct (killed q) eqn:Hkl; [by apply exit_trap|].
  eapply wp_run; [done|]. split; [done|]. intros _ j' q' Hj' Hq'. congruence.
Qed.

(** Every trap keeps the process table well formed, and none lets a killed process go
    on in user mode.  The device routines and the system calls that are not in
    [sysproc.c] are any that keep the table well formed. *)
Lemma trap_keeps fuel t err s :
  kstate_ok (ps s) -> nextpid (ps s) < 2 ^ 31 - 1 ->
  wp (trap (syscall trapret forkret_addr low cmos others fuel) ideintr kbdintr uartintr lapiceoi cpuid rcr2 t err) s
    (trap_ok (user_mode t)).
Proof.
  intros Hk Hn. unfold trap. case_match.
  - eapply wp_weaken; [by apply trap_syscall_ok|]. intros [] s' H'; try done. destruct H' as [H1 H2]. split; [done|auto].
  - apply wp_bind. eapply wp_weaken; [by apply dispatch_steady|]. intros ? s' Hs. by apply trap_tail_ok.
Qed.
End TrapInv.

Section Timer.
Context {E : Type} {ENV : Env E}.
Abbreviation SM := (M (sstate E)).
Context (syscall_ : SM outcome) (ideintr kbdintr uartintr lapiceoi : SM unit) (rcr2 : Z).
Hypothesis eoi_run : forall s, lapiceoi s = (Ok tt, s).

(** C31: the timer preempts.  A timer interrupt that hits the running process counts the
    tick, makes every process that sleeps for the clock runnable and no other, and
    puts the running process, itself runnable, at the switch to the scheduler, with
    only the table's lock held; when it is switched back to, it goes on where it was
    interrupted, unless it has been killed in the meantime. *)
Theorem timer_preempts (t : trapframe) err (s : sstate E) i x :
  kstate_ok (ps s) -> tf_trapno t = T_IRQ0 + IRQ_TIMER -> cpu_proc (ps s) = Some i -> ptable (ps s) !! i = Some x -> killed x = false ->
  trap syscall_ ideintr kbdintr uartintr lapiceoi 0 rcr2 t err s
  = (Ok (TYield (intena (ps s))),
     set_ps (set_held [LPtable] (set_ptable (<[i := set_state RUNNABLE x]> (map (woken CTicks) (ptable (ps s))))
              (set_ticks (u32 (ticks (ps s) + 1)) (ps s)))) s)
  /\ forall s' y, cpu_proc (ps s') = Some i -> held (ps s') = [LPtable] -> ptable (ps s') !! i = Some y -> killed y = false ->
     trap_resume t (intena (ps s)) s' = (Ok TReturn, set_ps (set_held [] (set_intena (intena (ps s)) (ps s'))) s').
Proof.
  intros Hk Ht Hi Hx Hkl. split.
  - unfold trap. rewrite Ht. change (T_IRQ0 + IRQ_TIMER =? T_SYSCALL) with false. cbv iota.
    assert (Hd : dispatch ideintr kbdintr uartintr lapiceoi 0 rcr2 t err s = (Ok tt, set_ps (ticked (ps s)) s)).
    { unfold dispatch. rewrite Ht, Z.eqb_refl. unfold timer_tick. cbn [Z.eqb]. rewrite (bind_ok _ _ _ _ _ (tick_run s Hk)). apply eoi_run. }
    rewrite (bind_ok _ _ _ _ _ Hd). set (s1 := set_ps (ticked (ps s)) s).
    destruct (k_cur _ Hk i Hi) as (x' & Hx' & Hs). simplify_eq.
    assert (Hw : woken CTicks x = x) by (unfold woken, is_state; by rewrite Hs).
    assert (H1 : ptable (ps s1) !! i = Some x) by (cbn; rewrite list_lookup_fmap, Hx; cbn; by rewrite Hw).
    assert (Hg : onp (getp i) s1 = (Ok x, s1)) by (erewrite onp_run by (by apply getp_run); done).
    unfold trap_tail, unless_killed. rewrite (bind_ok (gets _) _ s1 s1 (Some i)) by (unfold gets; cbn; by rewrite Hi).
    rewrite (bind_ok _ _ _ _ _ Hg), Hkl. cbn [andb].
    rewrite (bind_ok (gets _) _ s1 s1 (Some i)) by (unfold gets; cbn; by rewrite Hi).
    rewrite (bind_ok _ _ _ _ _ Hg). unfold is_state. rewrite Hs, Ht, bool_decide_eq_true_2, Z.eqb_refl by done. cbn [andb].
    pose proof (yield_enter_run (ps s1) i x Hi H1 (k_held _ Hk)) as Hy. by rewrite (bind_ok _ _ _ _ _ (onp_run _ s1 _ _ Hy)).
  - intros s' y Hi' Hh' Hy Hky. unfold trap_resume, yield_exit, sched_resume.
    erewrite bind_ok; [|apply onp_run; erewrite bind_ok by done; apply (release_run LPtable []); [done|apply not_elem_of_nil]].
    set (s2 := set_ps _ s'). unfold trap_last, unless_killed.
    rewrite (bind_ok (gets _) _ s2 s2 (Some i)) by (unfold gets; cbn; by rewrite Hi').
    assert (Hg : onp (getp i) s2 = (Ok y, s2)) by (erewrite onp_run by (by apply getp_run); done).
    by rewrite (bind_ok _ _ _ _ _ Hg), Hky.
Qed.
End Timer.

Module TrapRuns.
#[local] Existing Instance Demo.env.
Import ProcSpec.Runs.

Definition quiet_device : M (sstate unit) unit := ret tt.
Definition frame (n : Z) : trapframe := mkTf 0 1 0 0 n 0 27 0 0 0.
Definition child_in_user : sstate unit := mkS child_runs (fun _ => 0).

Lemma timer_preempts_witness :
  exists x, ptable child_runs !! 1%nat = Some x
  /\ trap (ret Gone) quiet_device quiet_device quiet_device quiet_device 0 0 (frame 32) 0 child_in_user
  = (Ok (TYield (intena child_runs)),
     set_ps (set_held [LPtable] (set_ptable (<[1%nat := set_state RUNNABLE x]> (map (woken CTicks) (ptable child_runs)))
              (set_ticks (u32 (ticks child_runs + 1)) child_runs))) child_in_user)
  /\ forall s' y, cpu_proc (ps s') = Some 1%nat -> held (ps s') = [LPtable] -> ptable (ps s') !! 1%nat = Some y -> killed y = false ->
     trap_resume (frame 32) (intena child_runs) s' = (Ok TReturn, set_ps (set_held [] (set_intena (intena child_runs) (ps s'))) s').
Proof.
  exists (slot child_runs 1). split; [vm_compute; reflexivity|].
  apply (timer_preempts (ret Gone) quiet_device quiet_device quiet_device quiet_device 0 ltac:(done) (frame 32) 0 child_in_user 1 (slot child_runs 1));
    [exact child_runs_ok|vm_compute; reflexivity..].
Defined.
End TrapRuns.
