(* ===== verification/Procinfo.v ===== *)
(** The process listing of [src/proc.c]: [print_processes_info] (the system call and
    what the console's ^P prints), with the conversions [intToStr] and [ftoa].

    A [float] is an IEEE binary32 number, a [double] a binary64 one.  The strings the
    conversions build are lists of bytes without the NUL. *)

From Stdlib Require Import ZArith Lia.
From Stdlib Require Import Floats.SpecFloat.
From stdpp Require Import base list strings.
From S2P Require Import Ulib Prelude Proc Sched Syscall Trap.
Local Open Scope Z_scope.

Definition float := spec_float.
Definition float_of_Z (z : Z) : float := binary_normalize 24 128 z 0 false.
Definition float_of_double (d : double) : float :=
  match d with
  | S754_finite s m e => binary_normalize 24 128 (if s then Z.neg m else Z.pos m) e s
  | _ => d
  end.

(** [(int)f]: truncation; [None] where C gives no value. *)
Definition int_of_float (f : float) : option Z :=
  match f with
  | S754_zero _ => Some 0
  | S754_finite s m e =>
      let a := if 0 <=? e then Z.pos m * 2 ^ e else Z.pos m / 2 ^ (- e) in
      let z := if s then - a else a in
      if (- 2 ^ 31 <=? z) && (z <? 2 ^ 31) then Some z else None
  | _ => None
  end.

(** [while(i < j)] of [reverse]: the swaps from the outside in. *)
Fixpoint reverse_loop (n i j : nat) (str : list Z) : list Z :=
  match n with
  | O => str
  | S k =>
      if (i <? j)%nat then
        reverse_loop k (S i) (j - 1) (<[j := nth i str 0]> (<[i := nth j str 0]> str))
      else str
  end.
Definition str_reverse (str : list Z) (len : nat) : list Z := reverse_loop len 0 (len - 1) str.

(** [while(x)]: an [int] has at most ten digits. *)
Fixpoint int_digits (fuel : nat) (x : Z) (str : list Z) : list Z :=
  match fuel with
  | O => str
  | S k => if x =? 0 then str else int_digits k (Z.quot x 10) (str ++ [Z.rem x 10 + 48])
  end.

Definition intToStr (x : Z) (d : nat) : list Z :=
  let str := int_digits 10 x (if x =? 0 then [48] else []) in
  let str := str ++ replicate (d - length str) 48 in
  str_reverse str (length str).

Definition ftoa (n : float) (afterpoint : nat) : option (list Z) :=
  match int_of_float n with
  | None => None
  | Some ipart =>
      let fpart := SFsub 24 128 n (float_of_Z ipart) in
      let fpart := SFmul 24 128 fpart (float_of_Z (10 ^ Z.of_nat afterpoint)) in
      match int_of_float fpart with
      | None => None
      | Some f => Some (intToStr ipart 0 ++ [46] ++ intToStr f afterpoint)
      end
  end.

Definition states (st : procstate) : string :=
  match st with
  | UNUSED => " UNUSED "
  | EMBRYO => " EMBRYO "
  | SLEEPING => "SLEEPING"
  | RUNNABLE => "RUNNABLE"
  | RUNNING => "RUNNING "
  | ZOMBIE => " ZOMBIE "
  end.

Section Listing.
Context {E : Type} {ENV : Env E}.
Abbreviation PM := (M (pstate E)).

Definition gap : string := "        ".
Definition heading : string :=
  "Name        PID        State        Level        Tickets        CycleNum        HRRN        RemainingPriority\n".

(** The row of a process. *)
Definition print_process (now : Z) (p : proc) : PM unit :=
  match ftoa (float_of_double (hrrn now p)) 2, ftoa (float_of_double (cycleNum p)) 2,
        ftoa (SFdiv 24 128 (float_of_Z (remaining_priority p)) (float_of_Z 10)) 1 with
  | Some hrrn_str, Some cycle_str, Some priority_str =>
      cprintf (text_of (name p) +:+ gap +:+ dec (pid p) +:+ gap +:+ states (state p) +:+ gap +:+ dec (level p) +:+ gap +:+ dec (ticket p)) ;;
      cprintf (gap +:+ text_of cycle_str) ;;
      cprintf (gap +:+ text_of hrrn_str +:+ gap +:+ text_of priority_str +:+ " \n")
  | _, _, _ => ub "float out of the range of int"
  end.

Definition print_processes_info : PM unit :=
  acquire LTicks ;;
  now <- gets ticks ;;
  release LTicks ;;
  cprintf heading ;;
  for_procs (fun i =>
    p <- getp i ;;
    if is_state UNUSED p then ret tt else print_process now p).

Definition procdump : PM unit := print_processes_info.

Definition sys_print_processes_info : M (sstate E) outcome := onp print_processes_info ;; ret (Return 0).

(** The first return of a new process; [first] is the static flag and [init] the
    initialisation of the file system and the log. *)
Definition forkret (first : bool) (init : PM unit) : PM bool :=
  release LPtable ;;
  if first then init ;; ret false else ret first.
End Listing.

(** ** The conversions *)

Lemma reverse_loop_spec n : forall i j str k,
  (j < length str)%nat -> (j - i < 2 * n)%nat \/ (j <= i)%nat ->
  reverse_loop n i j str !! k = if decide (i <= k <= j)%nat then str !! (i + j - k)%nat else str !! k.
Proof.
  induction n as [|n IH]; intros i j str k Hj Hn; cbn [reverse_loop].
  - case_decide; [|done]. by replace (i + j - k)%nat with k by lia.
  - destruct (Nat.ltb_spec i j); [|case_decide; [by replace (i + j - k)%nat with k by lia|done]].
    destruct (lookup_lt_is_Some_2 str i ltac:(lia)) as [a Ha]. destruct (lookup_lt_is_Some_2 str j Hj) as [c Hc].
    rewrite (nth_lookup_Some _ _ 0 a Ha), (nth_lookup_Some _ _ 0 c Hc).
    rewrite IH by (rewrite ?length_insert; lia). replace (S i + (j - 1) - k)%nat with (i + j - k)%nat by lia.
    destruct (decide (k = i)) as [->|Hki]; [|destruct (decide (k = j)) as [->|Hkj]].
    + destruct (decide (S i <= i <= j - 1)%nat); [lia|]. destruct (decide (i <= i <= j)%nat); [|lia].
      rewrite list_lookup_insert_ne, list_lookup_insert_eq by lia. by replace (i + j - i)%nat with j by lia.
    + destruct (decide (S i <= j <= j - 1)%nat); [lia|]. destruct (decide (i <= j <= j)%nat); [|lia].
      rewrite list_lookup_insert_eq by (rewrite length_insert; lia). by replace (i + j - j)%nat with i by lia.
    + destruct (decide (S i <= k <= j - 1)%nat), (decide (i <= k <= j)%nat); try lia; by rewrite !list_lookup_insert_ne by lia.
Qed.

Lemma reverse_rev str : str_reverse str (length str) = rev str.
Proof.
  unfold str_reverse. destruct str as [|c str]; [done|]. apply list_eq. intros k. set (l := c :: str).
  assert (0 < length l)%nat by (cbn; lia). rewrite reverse_loop_spec by lia.
  destruct (decide (0 <= k <= length l - 1)%nat).
  - rewrite Nat.add_0_l, rev_alt. change (rev_append l []) with (reverse l). rewrite reverse_lookup by lia. f_equal. lia.
  - rewrite !lookup_ge_None_2; [done|rewrite length_rev; lia|lia].
Qed.

Lemma int_digits_loop k : forall x str, 0 < x -> int_digits k x str = str ++ digits_loop k x 10.
Proof.
  induction k as [|k IH]; intros x str Hx; cbn [int_digits digits_loop]; [by rewrite app_nil_r|].
  rewrite (proj2 (Z.eqb_neq x 0)) by lia. rewrite Z.quot_div_nonneg, Z.rem_mod_nonneg by lia.
  pose proof (Z.mod_pos_bound x 10 ltac:(lia)). rewrite digit_char, Z.add_comm by done.
  destruct (Z.eqb_spec (x / 10) 0) as [->|Hne].
  - by destruct k.
  - rewrite IH; [by rewrite <- app_assoc|]. pose proof (Z.div_pos x 10). lia.
Qed.

Lemma atoi_zeros n l : atoi_loop (replicate n 48 ++ l) 0 = atoi_loop l 0.
Proof. induction n as [|n IH]; cbn; [done|]. exact IH. Qed.

(** The decimal digits of a number that is not negative, with zeros in front up to
    the width asked for. *)
Theorem intToStr_reads x d : 0 <= x < 2 ^ 31 ->
  atoi (intToStr x d) = x /\ (d <= length (intToStr x d))%nat.
Proof.
  intros Hx. unfold intToStr.
  assert (int_digits 10 x (if x =? 0 then [48] else []) = digits_loop 10 x 10) as ->.
  { destruct (Z.eqb_spec x 0) as [->|]; [done|]. apply int_digits_loop. lia. }
  rewrite reverse_rev, rev_app_distr. set (l := digits_loop 10 x 10).
  assert (rev (replicate (d - length l) 48) = replicate (d - length l) 48) as ->.
  { rewrite rev_alt. change (rev_append ?a []) with (reverse a). apply reverse_replicate. }
  split; [|rewrite length_app, length_rev, length_replicate; lia]. unfold atoi. rewrite atoi_zeros.
  destruct (atoi_digits 10 x 0 [] ltac:(lia) ltac:(lia)) as (k & E & _). rewrite app_nil_r in E. fold l in E.
  change (s32 0) with 0 in E. rewrite E. cbn [atoi_loop]. rewrite Z.mul_0_l, Z.add_0_l. apply s32_id. lia.
Qed.

(** A negative number comes out as characters that are not digits. *)
Lemma intToStr_negative : intToStr (-5) 0 = [43].
Proof. reflexivity. Qed.

(** 100 ticks waited in 3 turns: 33.33. *)
Lemma ftoa_ratio :
  ftoa (float_of_double (double_div (double_of_Z 100) (double_of_Z 3))) 2 = Some [51; 51; 46; 51; 51].
Proof. vm_compute. reflexivity. Qed.
