(* ===== verification/Mkfs.v ===== *)
(** The program that builds the file system image on the host, [src/mkfs.c].

    The state is the image file (its sectors and their number) and the variables of
    the program.  The host is a parameter: [room] is the number of sectors it has
    space for, [create] tells whether the image can be opened, and [host] gives the
    pieces in which [read] returns a file, if the file can be opened.  It is a
    little-endian machine.  Messages are kept without the newline.  [perror] followed by [exit(1)], and a failed [assert],
    end in [Panic]. *)

From Stdlib Require Import ZArith.
From stdpp Require Import base list strings pretty.
From S2P Require Import Prelude Bytes Blk Log Fs.
Local Open Scope Z_scope.

Definition FSSIZE : Z := 1000.
Definition NINODES : Z := 200.
Definition nbitmap : Z := FSSIZE / (bsize * 8) + 1.
Definition ninodeblocks : Z := NINODES / IPB + 1.
Definition nlog : Z := LOGSIZE.

Record mkstate := mkMk {
  img : blockmap;
  nsect : Z;
  nmeta : Z;
  nblocks : Z;
  msb : superblock;
  freeinode : Z;
  freeblock : Z;
  printed : list string;
}.

Definition set_img x n s := mkMk x n (nmeta s) (nblocks s) (msb s) (freeinode s) (freeblock s) (printed s).
Definition set_layout m b x s := mkMk (img s) (nsect s) m b x (freeinode s) (freeblock s) (printed s).
Definition set_freeinode x s := mkMk (img s) (nsect s) (nmeta s) (nblocks s) (msb s) x (freeblock s) (printed s).
Definition set_freeblock x s := mkMk (img s) (nsect s) (nmeta s) (nblocks s) (msb s) (freeinode s) x (printed s).
Definition print x s := mkMk (img s) (nsect s) (nmeta s) (nblocks s) (msb s) (freeinode s) (freeblock s) (printed s ++ [x]).

Abbreviation MM := (M mkstate).

(** The bytes stored at [&y], low byte first, read back as a number of the host. *)
Definition xshort (x : Z) : Z := le_value (le_bytes 2 x).
Definition xint (x : Z) : Z := le_value (le_bytes 4 x).

Definition assert_ (b : bool) : MM unit := if b then ret tt else panic "assertion failed".

Section Host.
Context (room : Z) (create : list Z -> bool) (host : list Z -> option (list (list Z))).

(** The sector at byte [sec * BSIZE], an [uint], of the image. *)
Definition sector (sec : Z) : Z := u32 (sec * bsize) / bsize.

Definition wsect (sec : Z) (buf : block) : MM unit :=
  s <- get ;;
  if room <=? sector sec then panic "write" else
  modify (set_img (bupd (img s) (sector sec) buf) (Z.max (nsect s) (sector sec + 1))).

Definition rsect (sec : Z) : MM block :=
  s <- get ;;
  if nsect s <=? sector sec then panic "read" else ret (img s (sector sec)).

(** A [struct dinode] is its 64 bytes. *)
Definition winode (inum : Z) (ip : list Z) : MM unit :=
  s <- gets msb ;;
  let bn := IBLOCK inum s in
  buf <- rsect bn ;;
  wsect bn (splice buf (dip inum) ip).

Definition rinode (inum : Z) : MM (list Z) :=
  s <- gets msb ;;
  let bn := IBLOCK inum s in
  buf <- rsect bn ;;
  ret (slice buf (dip inum) sizeof_dinode).

Definition ialloc (type : Z) : MM Z :=
  inum <- gets freeinode ;;
  modify (set_freeinode (u32 (inum + 1))) ;;
  let din := replicate sizeof_dinode 0 in
  let din := put16 din 0 (xshort type) in
  let din := put16 din 6 (xshort 1) in
  let din := put32 din 8 (xint 0) in
  winode inum din ;;
  ret inum.

(** The loop of [balloc]: [n] bits from [i] on. *)
Fixpoint set_bits (n : nat) (i : Z) (buf : block) : block :=
  match n with
  | O => buf
  | S k => set_bits k (i + 1) (<[Z.to_nat (i / 8) := Z.lor (bit_byte buf i) (bit_mask i)]> buf)
  end.

Definition balloc (used : Z) : MM unit :=
  modify (print ("balloc: first " +:+ pretty used +:+ " blocks have been allocated")%string) ;;
  assert_ (used <? bsize * 8) ;;
  let buf := set_bits (Z.to_nat used) 0 (replicate BSIZE 0) in
  s <- gets msb ;;
  modify (print ("balloc: write bitmap block at sector " +:+ pretty (s32 (sb_bmapstart s)))%string) ;;
  wsect (sb_bmapstart s) buf.

(** [freeblock++]. *)
Definition next_block : MM Z :=
  b <- gets freeblock ;; modify (set_freeblock (u32 (b + 1))) ;; ret b.

(** [din.addrs[j]]. *)
Definition daddr (din : list Z) (j : Z) : Z := get32 din (12 + 4 * Z.to_nat j).

(** [if(xint(din.addrs[j]) == 0) din.addrs[j] = xint(freeblock++)]. *)
Definition fill_addr (din : list Z) (j : Z) : MM (list Z) :=
  if xint (daddr din j) =? 0 then
    b <- next_block ;; ret (put32 din (12 + 4 * Z.to_nat j) (xint b))
  else ret din.

(** The inode with block [fbn] in place, and the sector of that block. *)
Definition place_block (din : list Z) (fbn : Z) : MM (list Z * Z) :=
  if fbn <? NDIRECT then
    din <- fill_addr din fbn ;;
    ret (din, xint (daddr din fbn))
  else
    din <- fill_addr din NDIRECT ;;
    let o := (4 * Z.to_nat (fbn - NDIRECT))%nat in
    indirect <- rsect (xint (daddr din NDIRECT)) ;;
    indirect <- (if get32 indirect o =? 0 then
                   b <- next_block ;;
                   let indirect := put32 indirect o (xint b) in
                   wsect (xint (daddr din NDIRECT)) indirect ;;
                   ret indirect
                 else ret indirect) ;;
    ret (din, xint (get32 indirect o)).

Fixpoint iappend_loop (fuel : nat) (din : list Z) (off : Z) (p : list Z) : MM (list Z * Z) :=
  match fuel with
  | O => spin
  | S k =>
      let n := Z.of_nat (length p) in
      if 0 <? n then
        let fbn := off / bsize in
        assert_ (fbn <? MAXFILE) ;;
        r <- place_block din fbn ;;
        let '(din, x) := r in
        let n1 := Z.min n ((fbn + 1) * bsize - off) in
        buf <- rsect x ;;
        wsect x (splice buf (Z.to_nat (off - fbn * bsize)) (take (Z.to_nat n1) p)) ;;
        iappend_loop k din (u32 (off + n1)) (drop (Z.to_nat n1) p)
      else ret (din, off)
  end.

Definition iappend (inum : Z) (xp : list Z) : MM unit :=
  din <- rinode inum ;;
  r <- iappend_loop (S (length xp)) din (xint (get32 din 8)) xp ;;
  let '(din, off) := r in
  winode inum (put32 din 8 (xint off)).

(** [for(i = 0; i < FSSIZE; i++) wsect(i, zeroes)]. *)
Fixpoint zero_image (n : nat) (i : Z) : MM unit :=
  match n with
  | O => ret tt
  | S k => wsect i (replicate BSIZE 0) ;; zero_image k (i + 1)
  end.

Definition superblock_bytes (s : superblock) : list Z :=
  le_bytes 4 (sb_size s) ++ le_bytes 4 (sb_nblocks s) ++ le_bytes 4 (sb_ninodes s) ++ le_bytes 4 (sb_nlog s)
  ++ le_bytes 4 (sb_logstart s) ++ le_bytes 4 (sb_inodestart s) ++ le_bytes 4 (sb_bmapstart s).

(** A [struct dirent] for inode [inum]; [name] fills [de.name]. *)
Definition dirent (inum : Z) (name : list Z) : list Z := le_bytes 2 (xshort inum) ++ name.

(** [while((cc = read(fd, buf, sizeof(buf))) > 0) iappend(inum, buf, cc)]. *)
Fixpoint copy_file (inum : Z) (pieces : list (list Z)) : MM unit :=
  match pieces with
  | [] => ret tt
  | [] :: _ => ret tt
  | p :: pieces' => iappend inum p ;; copy_file inum pieces'
  end.

(** [if(argv[i][0] == '_') ++argv[i]]. *)
Definition skip_underscore (name : list Z) : list Z :=
  match name with c :: name' => if c =? 95 then name' else name | [] => [] end.

Definition add_file (rootino : Z) (arg : list Z) : MM unit :=
  assert_ (bool_decide (47 ∉ arg)) ;;
  match host arg with
  | None => panic "open"
  | Some pieces =>
      let name := skip_underscore arg in
      inum <- ialloc T_FILE ;;
      iappend rootino (dirent inum (strncpy DIRSIZ name)) ;;
      copy_file inum pieces
  end.

Fixpoint add_files (rootino : Z) (args : list (list Z)) : MM unit :=
  match args with
  | [] => ret tt
  | a :: args' => add_file rootino a ;; add_files rootino args'
  end.

(** The lines from the computation of the layout to the super block. *)
Definition layout : MM unit :=
  let nmeta := 2 + nlog + ninodeblocks + nbitmap in
  let nblocks := FSSIZE - nmeta in
  let s := mkSb (xint FSSIZE) (xint nblocks) (xint NINODES) (xint nlog) (xint 2) (xint (2 + nlog))
                (xint (2 + nlog + ninodeblocks)) in
  modify (set_layout nmeta nblocks s) ;;
  modify (print ("nmeta " +:+ pretty nmeta +:+ " (boot, super, log blocks " +:+ pretty nlog +:+ " inode blocks "
    +:+ pretty ninodeblocks +:+ ", bitmap blocks " +:+ pretty nbitmap +:+ ") blocks " +:+ pretty nblocks
    +:+ " total " +:+ pretty FSSIZE)%string) ;;
  modify (set_freeblock nmeta) ;;
  zero_image (Z.to_nat FSSIZE) 0 ;;
  wsect 1 (splice (replicate BSIZE 0) 0 (superblock_bytes s)).

Definition main (argv : list (list Z)) : MM unit :=
  match argv with
  | _ :: image :: files =>
      assert_ (bsize mod Z.of_nat sizeof_dinode =? 0) ;;
      assert_ (bsize mod sizeof_dirent =? 0) ;;
      if negb (create image) then panic "open" else
      layout ;;
      rootino <- ialloc T_DIR ;;
      assert_ (rootino =? ROOTINO) ;;
      iappend rootino (dirent rootino (46 :: replicate 13 0)) ;;
      iappend rootino (dirent rootino (46 :: 46 :: replicate 12 0)) ;;
      add_files rootino files ;;
      din <- rinode rootino ;;
      let off := xint (get32 din 8) in
      let off := u32 ((off / bsize + 1) * bsize) in
      winode rootino (put32 din 8 (xint off)) ;;
      used <- gets freeblock ;;
      balloc used
  | _ => panic "Usage: mkfs fs.img files..."
  end.
End Host.

(** The variables before [main]; the image is truncated to no sectors. *)
Definition start : mkstate := mkMk (fun _ => replicate BSIZE 0) 0 0 0 (mkSb 0 0 0 0 0 0 0) 1 0 [].
