(* ===== verification/MkfsInv.v ===== *)
(** The image [Mkfs] builds is a file system: the blocks of its files are disjoint,
    their bytes are those of the files given, and the kernel's code of [Fs] reads
    them back through the inodes, the root directory and the bitmap. *)

From Stdlib Require Import ZArith Lia.
From stdpp Require Import base list strings.
From S2P Require Import Prelude Bytes Blk Log Sleeplock Fs FsInv FsAlloc FsDir Mkfs.
Local Open Scope Z_scope.

(** ** Files laid out on an image *)

(** A file: its type, its bytes, the number of its blocks and whether it has an
    indirect block. *)
Record afile := mkA { a_type : Z; a_bytes : list Z; a_nb : Z; a_ind : bool }.

(** Slot [k] of a file: its block [k], or its indirect block when [k] is [MAXFILE]. *)
Definition slot (im : blockmap) (din : list Z) (k : Z) : Z :=
  if k <? NDIRECT then daddr din k
  else if k =? MAXFILE then daddr din NDIRECT
  else get32 (im (daddr din NDIRECT)) (4 * Z.to_nat (k - NDIRECT)).
Definition has (f : afile) (k : Z) : Prop := 0 <= k < a_nb f \/ k = MAXFILE /\ a_ind f = true.
Definition need (f : afile) : Z := a_nb f + if a_ind f then 1 else 0.
Fixpoint needs (F : list afile) : Z := match F with [] => 0 | f :: F' => need f + needs F' end.

(** The blocks before the first data block. *)
Definition meta : Z := 59.

(** The slots whose entry is in the inode or in an indirect block that exists. *)
Definition stored (f : afile) (k : Z) : Prop := 0 <= k < NDIRECT \/ k = MAXFILE \/ NDIRECT <= k < MAXFILE /\ a_ind f = true.

Record file_fits (f : afile) : Prop := mkFits {
  ff_bytes : Z.of_nat (length (a_bytes f)) <= a_nb f * 512;
  ff_nb : 0 <= a_nb f <= MAXFILE;
  ff_ind : NDIRECT < a_nb f -> a_ind f = true;
}.

Record image (im : blockmap) (D : nat -> list Z) (fb : Z) (F : list afile) : Prop := mkImage {
  im_len : forall b, length (im b) = BSIZE;
  im_din : forall j f, F !! j = Some f -> length (D j) = sizeof_dinode;
  im_fits : forall j f, F !! j = Some f -> file_fits f;
  im_slot : forall j f k, F !! j = Some f -> has f k -> meta <= slot im (D j) k < fb;
  im_inj : forall j f k j' f' k', F !! j = Some f -> F !! j' = Some f' -> has f k -> has f' k' ->
    slot im (D j) k = slot im (D j') k' -> j = j' /\ k = k';
  im_none : forall j f k, F !! j = Some f -> stored f k -> ~ has f k -> slot im (D j) k = 0;
  im_byte : forall j f o, F !! j = Some f -> 0 <= o < a_nb f * 512 ->
    nth (Z.to_nat (o mod 512)) (im (slot im (D j) (o / 512))) 0 = nth (Z.to_nat o) (a_bytes f) 0;
  im_fresh : forall b, fb <= b -> im b = zero_block;
  im_fb : fb = meta + needs F;
}.

Lemma has_stored f k : file_fits f -> has f k -> stored f k.
Proof.
  intros [_ H1 H2] [H|[-> H]]; unfold stored, MAXFILE, NDIRECT, NINDIRECT in *; [|lia].
  destruct (Z.ltb_spec k 12); [lia|]. right. right. split; [lia|]. apply H2. lia.
Qed.

Lemma needs_insert F j f f' : F !! j = Some f -> needs (<[j := f']> F) = needs F - need f + need f'.
Proof.
  revert j. induction F as [|g F IH]; intros [|j] H; try done; cbn [lookup list_lookup needs] in *.
  - injection H as ->. cbn. lia.
  - change (<[S j := f']> (g :: F)) with (g :: <[j := f']> F). cbn [needs]. rewrite (IH j H). lia.
Qed.

Lemma needs_app F G : needs (F ++ G) = needs F + needs G.
Proof. induction F as [|f F IH]; cbn [app needs]; [lia|]. rewrite IH. lia. Qed.

Lemma needs_nonneg F : (forall j f, F !! j = Some f -> file_fits f) -> 0 <= needs F.
Proof.
  induction F as [|f F IH]; intros H; cbn [needs]; [done|]. specialize (IH (fun j => H (S j))).
  pose proof (ff_nb _ (H 0%nat f eq_refl)). unfold need. destruct (a_ind f); lia.
Qed.

Lemma image_start im D fb F : image im D fb F -> meta <= fb.
Proof. intros H. rewrite (im_fb _ _ _ _ H). pose proof (needs_nonneg F (im_fits _ _ _ _ H)). lia. Qed.

(** The data of file [j] replaced. *)
Definition dput (D : nat -> list Z) (j : nat) (d : list Z) : nat -> list Z := fun i => if decide (i = j) then d else D i.
Lemma dput_eq D j d : dput D j d j = d.
Proof. unfold dput. by rewrite decide_True. Qed.
Lemma dput_ne D j d i : i <> j -> dput D j d i = D i.
Proof. intros H. unfold dput. by rewrite decide_False. Qed.

(** What a file is after one more slot: [k] is its next block, or its indirect block. *)
Definition grown (f : afile) (k : Z) : afile :=
  if k =? MAXFILE then mkA (a_type f) (a_bytes f) (a_nb f) true else mkA (a_type f) (a_bytes f) (a_nb f + 1) (a_ind f).
Definition growable (f : afile) (k : Z) : Prop :=
  k = MAXFILE /\ a_ind f = false \/ k = a_nb f /\ k < MAXFILE /\ (NDIRECT <= k -> a_ind f = true).

Lemma grown_has f k q : file_fits f -> growable f k -> has (grown f k) q <-> has f q \/ q = k.
Proof.
  intros [_ H _] [[-> Hi]|(-> & Hk & _)]; unfold has, grown.
  - rewrite Z.eqb_refl. cbn. rewrite Hi. intuition (done || lia).
  - rewrite (proj2 (Z.eqb_neq _ _)) by lia. cbn. intuition lia.
Qed.

Lemma grown_need f k : growable f k -> need (grown f k) = need f + 1.
Proof.
  unfold need, grown. intros [[-> Hi]|(-> & Hk & _)]; [rewrite Z.eqb_refl, Hi; cbn; lia|].
  rewrite (proj2 (Z.eqb_neq _ _)) by lia. cbn. lia.
Qed.

Lemma grown_fits f k : file_fits f -> growable f k -> file_fits (grown f k).
Proof.
  intros [H1 H2 H3]. unfold grown. intros [[-> Hi]|(-> & Hk & Hd)].
  - rewrite Z.eqb_refl. by split.
  - rewrite (proj2 (Z.eqb_neq _ _)) by lia. split; cbn; [lia|lia|]. intros Hn. apply Hd. lia.
Qed.

Lemma grown_bytes f k : a_bytes (grown f k) = a_bytes f.
Proof. unfold grown. by destruct (_ =? _). Qed.

Lemma slot_same im im' d k :
  (NDIRECT <= k < MAXFILE -> im' (daddr d NDIRECT) = im (daddr d NDIRECT)) -> 0 <= k <= MAXFILE -> slot im' d k = slot im d k.
Proof.
  intros H Hk. unfold slot. destruct (Z.ltb_spec k NDIRECT); [done|]. destruct (Z.eqb_spec k MAXFILE); [done|].
  rewrite H by lia. done.
Qed.

Lemma stored_range f k : stored f k -> 0 <= k <= MAXFILE.
Proof. unfold stored, MAXFILE, NDIRECT, NINDIRECT. lia. Qed.

(** A change of blocks that are not the indirect block of file [i] keeps its slots. *)
Lemma slot_kept im im' D fb F i g q :
  image im D fb F -> F !! i = Some g -> stored g q ->
  (a_ind g = true -> im' (slot im (D i) MAXFILE) = im (slot im (D i) MAXFILE)) ->
  slot im' (D i) q = slot im (D i) q.
Proof.
  intros HI Hi Hq Hsame. apply slot_same; [|by eapply stored_range]. intros Hr. apply Hsame.
  destruct Hq as [?|[->|[_ ?]]]; [lia|unfold MAXFILE in *; lia|done].
Qed.

Lemma nth_zero n i : nth i (replicate n 0) 0 = 0.
Proof. revert i. induction n as [|n IH]; intros [|i]; cbn [replicate nth]; done || apply IH. Qed.

Section Grow.
Context (im im' : blockmap) (D : nat -> list Z) (fb : Z) (F : list afile) (j : nat) (f : afile) (k : Z) (d' : list Z).
Context (HI : image im D fb F) (Hj : F !! j = Some f) (Hk : growable f k) (Hd : length d' = sizeof_dinode)
  (Hl : forall b, length (im' b) = BSIZE)
  (Hown : forall q, stored f q -> q <> k -> slot im' d' q = slot im (D j) q)
  (Hnew : slot im' d' k = fb)
  (Him : forall b, (a_ind f = true -> b <> slot im (D j) MAXFILE) -> im' b = im b).

Lemma grow_lookup i g : <[j := grown f k]> F !! i = Some g -> i = j /\ g = grown f k \/ i <> j /\ F !! i = Some g.
Proof using All.
  destruct (decide (i = j)) as [->|Hne].
  - rewrite list_lookup_insert_eq by (by eapply lookup_lt_Some). intros [= <-]. by left.
  - rewrite list_lookup_insert_ne by done. by right.
Qed.

(** Slots that were there are where they were. *)
Lemma grow_old i g q : F !! i = Some g -> stored g q -> (i = j -> q <> k) ->
  slot im' (dput D j d' i) q = slot im (D i) q.
Proof using All.
  intros Hi Hq Hne. destruct (decide (i = j)) as [->|Hij].
  - rewrite dput_eq. rewrite Hj in Hi. injection Hi as <-. by apply Hown; [|apply Hne].
  - rewrite dput_ne by done. eapply slot_kept; [exact HI|exact Hi|exact Hq|]. intros Hg. apply Him. intros Hf Heq.
    apply Hij. eapply (im_inj _ _ _ _ HI i g MAXFILE j f MAXFILE); try done; by right.
Qed.

(** The slots of the files afterwards: the old ones and the new one. *)
Lemma grow_slot i g q : <[j := grown f k]> F !! i = Some g -> has g q ->
  (i = j /\ q = k /\ slot im' (dput D j d' i) q = fb)
  \/ exists g0, F !! i = Some g0 /\ has g0 q /\ (i = j -> q <> k) /\ slot im' (dput D j d' i) q = slot im (D i) q.
Proof using All.
  intros Hi Hq. pose proof (im_fits _ _ _ _ HI) as Hfit. destruct (grow_lookup i g Hi) as [[-> ->]|[Hne Hi']].
  - apply (grown_has f k q) in Hq; [|by eapply Hfit|done]. destruct (decide (q = k)) as [->|Hqk].
    + left. by rewrite dput_eq.
    + right. exists f. destruct Hq as [Hq|]; [|done]. split; [done|]. split; [done|]. split; [done|].
      apply (grow_old j f); [done| |done]. apply has_stored; [by eapply Hfit|done].
  - right. exists g. split; [done|]. split; [done|]. split; [done|].
    apply (grow_old i g); [done| |done]. apply has_stored; [by eapply Hfit|done].
Qed.

Lemma grow_fresh b : fb <= b -> im' b = zero_block.
Proof using All.
  intros Hb. rewrite Him; [by apply (im_fresh _ _ _ _ HI)|]. intros Hf ->.
  pose proof (im_slot _ _ _ _ HI j f MAXFILE Hj ltac:(by right)). lia.
Qed.

Lemma grow_byte i g o : <[j := grown f k]> F !! i = Some g -> 0 <= o < a_nb g * 512 ->
  nth (Z.to_nat (o mod 512)) (im' (slot im' (dput D j d' i) (o / 512))) 0 = nth (Z.to_nat o) (a_bytes g) 0.
Proof using All.
  intros Hi Ho. assert (Hq : 0 <= o / 512 < a_nb g) by (split; [apply Z.div_pos; lia|apply Z.div_lt_upper_bound; lia]).
  assert (Hg : a_nb g <= MAXFILE).
  { destruct (grow_lookup i g Hi) as [[-> ->]|[_ Hi']]; [|by apply (im_fits _ _ _ _ HI i g Hi')].
    apply (ff_nb _ (grown_fits _ _ (im_fits _ _ _ _ HI j f Hj) Hk)). }
  destruct (grow_slot i g (o / 512) Hi ltac:(by left)) as [(-> & E & ->)|(g0 & Hi0 & Hq0 & Hne & ->)].
  - rewrite grow_fresh by lia. destruct (grow_lookup j g Hi) as [[_ ->]|[]]; [|done]. rewrite grown_bytes.
    destruct Hk as [[-> _]|(-> & Hmax & _)]; [lia|]. rewrite (nth_overflow (a_bytes f)).
    + apply nth_zero.
    + pose proof (ff_bytes _ (im_fits _ _ _ _ HI j f Hj)). assert (a_nb f * 512 <= o) by (rewrite <- E; pose proof (Z.mul_div_le o 512 ltac:(lia)); lia). lia.
  - assert (Hin : 0 <= o / 512 < a_nb g0) by (destruct Hq0 as [?|[? _]]; [done|lia]).
    assert (Hb : a_bytes g0 = a_bytes g).
    { destruct (grow_lookup i g Hi) as [[-> ->]|[_ Hi']]; [|congruence]. rewrite grown_bytes. congruence. }
    rewrite Him; [rewrite <- Hb; apply (im_byte _ _ _ _ HI); [done|]|].
    + split; [lia|]. pose proof (Z.div_mod o 512 ltac:(lia)). pose proof (Z.mod_pos_bound o 512 ltac:(lia)). lia.
    + intros Hf Heq. destruct (im_inj _ _ _ _ HI i g0 (o / 512) j f MAXFILE Hi0 Hj Hq0 (or_intror (conj eq_refl Hf)) Heq) as [_ E]. lia.
Qed.

Lemma grow_none i g q : <[j := grown f k]> F !! i = Some g -> stored g q -> ~ has g q -> slot im' (dput D j d' i) q = 0.
Proof using All.
  intros Hi Hs Hn. destruct (grow_lookup i g Hi) as [[-> ->]|[Hne Hi']].
  2:{ rewrite (grow_old i g); [|done|done|done]. by apply (im_none _ _ _ _ HI i g). }
  pose proof (im_fits _ _ _ _ HI j f Hj) as Hfit. rewrite (grown_has f k q Hfit Hk) in Hn.
  assert (Hqk : q <> k) by (intros ->; by apply Hn; right).
  assert (Hdec : stored f q \/ k = MAXFILE /\ a_ind f = false /\ NDIRECT <= q < MAXFILE).
  { unfold stored in *. destruct (a_ind f) eqn:E; [lia|]. destruct Hk as [[-> _]|(-> & Hm & Hi2)]; [lia|].
    unfold grown in Hs. rewrite (proj2 (Z.eqb_neq _ _)) in Hs by lia. cbn in Hs. rewrite E in Hs. left. intuition done. }
  destruct Hdec as [Hsf|(Ek & Hif & Hr)].
  - rewrite (grow_old j f); [|done|done|done]. apply (im_none _ _ _ _ HI j f); [done|done|]. intros H. by apply Hn; left.
  - rewrite dput_eq. pose proof Hnew as Hat. rewrite Ek in Hat. unfold slot in Hat |- *. rewrite (proj2 (Z.ltb_ge q _)), (proj2 (Z.eqb_neq q _)) by lia.
    change (MAXFILE <? NDIRECT) with false in Hat. rewrite Z.eqb_refl in Hat. rewrite Hat, grow_fresh by lia.
    apply get32_zero.
Qed.

Lemma image_grow : image im' (dput D j d') (fb + 1) (<[j := grown f k]> F).
Proof using All.
  split.
  - done.
  - intros i g Hi. destruct (grow_lookup i g Hi) as [[-> _]|[Hne Hi']]; [by rewrite dput_eq|].
    rewrite dput_ne by done. by eapply (im_din _ _ _ _ HI).
  - intros i g Hi. destruct (grow_lookup i g Hi) as [[-> ->]|[Hne Hi']]; [|by eapply (im_fits _ _ _ _ HI)].
    apply grown_fits; [by eapply (im_fits _ _ _ _ HI)|done].
  - intros i g q Hi Hq. destruct (grow_slot i g q Hi Hq) as [(-> & -> & ->)|(g0 & H0 & H1 & _ & ->)].
    + pose proof (image_start _ _ _ _ HI). lia.
    + pose proof (im_slot _ _ _ _ HI i g0 q H0 H1). lia.
  - intros i g q i' g' q' Hi Hi' Hq Hq'.
    destruct (grow_slot i g q Hi Hq) as [(-> & -> & ->)|(g0 & H0 & H1 & _ & ->)],
      (grow_slot i' g' q' Hi' Hq') as [(-> & -> & ->)|(g1 & H2 & H3 & _ & ->)]; intros Heq.
    + done.
    + pose proof (im_slot _ _ _ _ HI i' g1 q' H2 H3). lia.
    + pose proof (im_slot _ _ _ _ HI i g0 q H0 H1). lia.
    + by eapply (im_inj _ _ _ _ HI).
  - apply grow_none.
  - apply grow_byte.
  - intros b Hb. apply grow_fresh. lia.
  - rewrite (needs_insert F j f _ Hj), grown_need, (im_fb _ _ _ _ HI) by done. lia.
Qed.
End Grow.

(** ** Appending within a block *)

Definition with_bytes (f : afile) (l : list Z) : afile := mkA (a_type f) l (a_nb f) (a_ind f).

(** Byte [o] of a block in which [t] was stored at [p]. *)
Lemma nth_splice x p t o : (p + length t <= length x)%nat ->
  nth o (splice x p t) 0 = if decide (p <= o < p + length t)%nat then nth (o - p) t 0 else nth o x 0.
Proof.
  intros H. rewrite !nth_lookup. case_decide as Hd; [by rewrite lookup_splice_eq by done|].
  rewrite lookup_splice_ne; [done|done|lia].
Qed.

Lemma nth_app_bytes (c t : list Z) o : nth o (c ++ t) 0 = if decide (length c <= o < length c + length t)%nat then nth (o - length c) t 0 else nth o c 0.
Proof.
  case_decide; [by apply app_nth2; lia|]. destruct (decide (o < length c)%nat); [by apply app_nth1|].
  rewrite !nth_overflow; rewrite ?length_app; lia || done.
Qed.

Section Append.
Context (im : blockmap) (D : nat -> list Z) (fb : Z) (F : list afile) (j : nat) (f : afile) (t : list Z).
Let off : Z := Z.of_nat (length (a_bytes f)).
Let a : Z := slot im (D j) (off / 512).
Let im' : blockmap := bupd im a (splice (im a) (Z.to_nat (off mod 512)) t).
Context (HI : image im D fb F) (Hj : F !! j = Some f) (Hin : off / 512 < a_nb f)
  (Hfit : off mod 512 + Z.of_nat (length t) <= 512).

Lemma append_has : has f (off / 512).
Proof using All. left. split; [apply Z.div_pos; lia|done]. Qed.

Lemma append_length b : length (im' b) = BSIZE.
Proof using All.
  unfold im', bupd. destruct (b =? a); [|apply (im_len _ _ _ _ HI)]. pose proof (Z.mod_pos_bound off 512 ltac:(lia)).
  rewrite length_splice; rewrite (im_len _ _ _ _ HI); unfold BSIZE; lia || done.
Qed.

Lemma append_slot i g q : F !! i = Some g -> stored g q -> slot im' (D i) q = slot im (D i) q.
Proof using All.
  intros Hi Hq. eapply slot_kept; [exact HI|exact Hi|exact Hq|]. intros Hg. apply bupd_ne. intros E.
  destruct (im_inj _ _ _ _ HI i g MAXFILE j f (off / 512) Hi Hj (or_intror (conj eq_refl Hg)) append_has E) as [_ E2].
  pose proof (ff_nb _ (im_fits _ _ _ _ HI j f Hj)). lia.
Qed.

Lemma append_byte i g o : F !! i = Some g -> 0 <= o < a_nb g * 512 ->
  nth (Z.to_nat (o mod 512)) (im' (slot im' (D i) (o / 512))) 0 =
  nth (Z.to_nat o) (if decide (i = j) then a_bytes f ++ t else a_bytes g) 0.
Proof using All.
  intros Hi Ho. pose proof (im_byte _ _ _ _ HI i g o Hi Ho) as Hold.
  assert (Hq : has g (o / 512)) by (left; split; [apply Z.div_pos; lia|apply Z.div_lt_upper_bound; lia]).
  rewrite (append_slot i g) by (done || (apply has_stored; [by eapply (im_fits _ _ _ _ HI)|done])).
  pose proof (Z.div_mod o 512 ltac:(lia)) as Eo. pose proof (Z.div_mod off 512 ltac:(lia)) as Ef.
  pose proof (Z.mod_pos_bound o 512 ltac:(lia)). pose proof (Z.mod_pos_bound off 512 ltac:(lia)).
  unfold im', bupd. destruct (Z.eqb_spec (slot im (D i) (o / 512)) a) as [E|Hne].
  - destruct (im_inj _ _ _ _ HI i g (o / 512) j f (off / 512) Hi Hj Hq append_has E) as [-> Eb].
    rewrite decide_True by done. rewrite Hj in Hi. injection Hi as <-.
    rewrite nth_splice by (rewrite (im_len _ _ _ _ HI); unfold BSIZE; lia). rewrite nth_app_bytes.
    rewrite E in Hold. rewrite Hold. assert (Z.of_nat (length (a_bytes f)) = off) by done.
    do 2 case_decide; [f_equal; lia|lia|lia|done].
  - rewrite Hold. case_decide as Hd; [|done]. rewrite nth_app_bytes. rewrite Hd, Hj in Hi. injection Hi as <-.
    rewrite decide_False; [done|]. intros Hr. apply Hne. rewrite Hd. unfold a. f_equal.
    assert (Z.of_nat (length (a_bytes f)) = off) by done. apply Z.le_antisymm; [|apply Z.div_le_mono; lia].
    apply Z.lt_succ_r. nia.
Qed.

Lemma image_append : Z.of_nat (length (a_bytes f ++ t)) <= a_nb f * 512 -> image im' D fb (<[j := with_bytes f (a_bytes f ++ t)]> F).
Proof using All.
  intros Hlen.
  assert (Hl : forall i g', <[j := with_bytes f (a_bytes f ++ t)]> F !! i = Some g' ->
    exists g, F !! i = Some g /\ g' = with_bytes g (if decide (i = j) then a_bytes f ++ t else a_bytes g)).
  { intros i g'. destruct (decide (i = j)) as [->|Hne].
    - rewrite list_lookup_insert_eq by (by eapply lookup_lt_Some). intros [= <-]. eauto.
    - rewrite list_lookup_insert_ne by done. intros H. exists g'. by destruct g'. }
  assert (Hh : forall g l q, has (with_bytes g l) q <-> has g q) by done.
  assert (Hst : forall i g q, F !! i = Some g -> has g q -> stored g q) by (intros i g q Hg; apply has_stored; by apply (im_fits _ _ _ _ HI i)).
  split.
  - apply append_length.
  - intros i g' (g & Hg & _)%Hl. by apply (im_din _ _ _ _ HI i g).
  - intros i g' (g & Hg & ->)%Hl. pose proof (im_fits _ _ _ _ HI i g Hg) as [H1 H2 H3]. split; [|done|done].
    cbn. case_decide as Hd; [|done]. rewrite Hd, Hj in Hg. by injection Hg as <-.
  - intros i g' q (g & Hg & ->)%Hl Hq%Hh. rewrite (append_slot i g) by eauto. by apply (im_slot _ _ _ _ HI i g).
  - intros i g' q i' g1' q' (g & Hg & ->)%Hl (g1 & Hg1 & ->)%Hl Hq%Hh Hq'%Hh.
    rewrite (append_slot i g), (append_slot i' g1) by eauto. by apply (im_inj _ _ _ _ HI i g q i' g1 q').
  - intros i g' q (g & Hg & ->)%Hl Hq Hn. rewrite (append_slot i g) by done. by apply (im_none _ _ _ _ HI i g).
  - intros i g' o (g & Hg & ->)%Hl Ho. by apply append_byte.
  - intros b Hb. unfold im'. rewrite bupd_ne; [by apply (im_fresh _ _ _ _ HI)|].
    pose proof (im_slot _ _ _ _ HI j f _ Hj append_has) as Hs. change (slot im (D j) (off / 512)) with a in Hs. lia.
  - rewrite (needs_insert F j f _ Hj), (im_fb _ _ _ _ HI). unfold need. cbn. lia.
Qed.
End Append.

(** ** Changes outside the data blocks *)

Lemma slot_daddr im im' d d' f k :
  stored f k -> (forall q, 0 <= q <= NDIRECT -> daddr d' q = daddr d q) ->
  (a_ind f = true -> im' (daddr d NDIRECT) = im (daddr d NDIRECT)) -> slot im' d' k = slot im d k.
Proof.
  intros Hk Hd Him. pose proof (stored_range f k Hk). unfold slot. unfold stored in Hk.
  destruct (Z.ltb_spec k NDIRECT); [apply Hd; lia|]. rewrite Hd by (unfold NDIRECT; lia).
  destruct (Z.eqb_spec k MAXFILE); [done|]. rewrite Him; [done|]. destruct Hk as [?|[?|[_ ?]]]; [lia|done|done].
Qed.

Lemma image_meta im im' D D' fb F :
  image im D fb F -> (forall b, meta <= b -> im' b = im b) -> (forall b, length (im' b) = BSIZE) ->
  (forall j f, F !! j = Some f -> length (D' j) = sizeof_dinode /\ forall q, 0 <= q <= NDIRECT -> daddr (D' j) q = daddr (D j) q) ->
  image im' D' fb F.
Proof.
  intros HI Hb Hl HD.
  assert (Hs : forall j f k, F !! j = Some f -> stored f k -> slot im' (D' j) k = slot im (D j) k).
  { intros j f k Hj Hk. apply (slot_daddr im im' (D j) (D' j) f k Hk); [by apply (HD j f)|]. intros Hf. apply Hb.
    apply (im_slot _ _ _ _ HI j f MAXFILE Hj). by right. }
  assert (Hst : forall i g q, F !! i = Some g -> has g q -> stored g q) by (intros i g q Hg; apply has_stored; by apply (im_fits _ _ _ _ HI i)).
  split; try apply HI; try done.
  - intros j f Hj. by apply (HD j f).
  - intros j f k Hj Hk. rewrite (Hs j f) by eauto. by apply (im_slot _ _ _ _ HI j f).
  - intros j f k j' f' k' Hj Hj' Hk Hk'. rewrite (Hs j f), (Hs j' f') by eauto. by apply (im_inj _ _ _ _ HI j f k j' f' k').
  - intros j f k Hj Hk Hn. rewrite (Hs j f) by eauto. by apply (im_none _ _ _ _ HI j f).
  - intros j f o Hj Ho. assert (Hk : has f (o / 512)) by (left; split; [apply Z.div_pos; lia|apply Z.div_lt_upper_bound; lia]).
    rewrite (Hs j f) by eauto. rewrite Hb by by apply (im_slot _ _ _ _ HI j f). by apply (im_byte _ _ _ _ HI j f).
  - intros b Hfb. rewrite Hb; [by apply (im_fresh _ _ _ _ HI)|]. pose proof (image_start _ _ _ _ HI). lia.
Qed.

(** A new file has no blocks. *)
Lemma image_new im D fb F t :
  image im D fb F -> length (D (length F)) = sizeof_dinode -> (forall q, 0 <= q <= NDIRECT -> daddr (D (length F)) q = 0) ->
  image im D fb (F ++ [mkA t [] 0 false]).
Proof.
  intros HI Hd Hz.
  assert (Hl : forall j f, (F ++ [mkA t [] 0 false]) !! j = Some f -> F !! j = Some f \/ j = length F /\ f = mkA t [] 0 false).
  { intros j f [?|[Hj Hf]]%lookup_app_Some; [by left|]. right. apply list_lookup_singleton_Some in Hf as [H0 <-]. split; [lia|done]. }
  assert (Hno : forall k, ~ has (mkA t [] 0 false) k) by (intros k [H|[_ H]]; cbn in *; [lia|done]).
  split.
  - apply HI.
  - intros j f [H|[-> ->]]%Hl; [by apply (im_din _ _ _ _ HI j f)|done].
  - intros j f [H|[-> ->]]%Hl; [by apply (im_fits _ _ _ _ HI j f)|]. split; cbn; [lia|unfold MAXFILE, NDIRECT, NINDIRECT; lia|unfold NDIRECT; lia].
  - intros j f k [H|[-> ->]]%Hl Hk; [by apply (im_slot _ _ _ _ HI j f)|by apply Hno in Hk].
  - intros j f k j' f' k' [H|[-> ->]]%Hl [H'|[-> ->]]%Hl Hk Hk'; try by (apply Hno in Hk || apply Hno in Hk').
    by apply (im_inj _ _ _ _ HI j f k j' f' k').
  - intros j f k [H|[-> ->]]%Hl Hk Hn; [by apply (im_none _ _ _ _ HI j f)|]. pose proof (stored_range _ k Hk). unfold slot, stored in *. cbn in Hk.
    destruct (Z.ltb_spec k NDIRECT); [apply Hz; lia|]. destruct (Z.eqb_spec k MAXFILE); [apply Hz; unfold NDIRECT; lia|].
    destruct Hk as [?|[?|[_ ?]]]; lia || done.
  - intros j f o [H|[-> ->]]%Hl Ho; [by apply (im_byte _ _ _ _ HI j f)|]. cbn in Ho. lia.
  - apply HI.
  - rewrite needs_app, (im_fb _ _ _ _ HI). change (needs [_]) with 0. lia.
Qed.

(** ** Growing a file by a block *)

Lemma image_ext im D D' fb F : (forall j, D' j = D j) -> image im D fb F -> image im D' fb F.
Proof.
  intros H HI. apply (image_meta im im D D' fb F HI); [done|apply HI|]. intros j f Hj. rewrite H.
  split; [by apply (im_din _ _ _ _ HI j f)|done].
Qed.

Lemma daddr_put din j j' v : length din = sizeof_dinode -> 0 <= j <= NDIRECT -> 0 <= j' <= NDIRECT ->
  daddr (put32 din (12 + 4 * Z.to_nat j) v) j' = if j' =? j then u32 v else daddr din j'.
Proof.
  intros Hl Hj Hj'. unfold daddr, sizeof_dinode, NDIRECT in *. destruct (Z.eqb_spec j' j) as [->|Hne].
  - apply get32_put32. lia.
  - apply get32_put32_ne; lia.
Qed.

(** Where slot [k], a direct block or the indirect one, is kept in the inode. *)
Definition entry_of (k : Z) : Z := Z.min k NDIRECT.

Lemma grow_inode im D fb F j f k :
  image im D fb F -> F !! j = Some f -> growable f k -> k < NDIRECT \/ k = MAXFILE -> fb < 2 ^ 32 ->
  image im (dput D j (put32 (D j) (12 + 4 * Z.to_nat (entry_of k)) fb)) (fb + 1) (<[j := grown f k]> F).
Proof.
  intros HI Hj Hg Hk Hfb. pose proof (im_din _ _ _ _ HI j f Hj) as Hd. pose proof (im_fits _ _ _ _ HI j f Hj) as [_ Hn _].
  pose proof (image_start _ _ _ _ HI) as Hm. unfold meta in Hm.
  assert (Hk0 : 0 <= k) by (destruct Hg as [[-> _]|[-> _]]; [done|lia]).
  assert (He : 0 <= entry_of k <= NDIRECT) by (unfold entry_of, NDIRECT in *; lia).
  apply (image_grow im im D fb F j f k); try done.
  - rewrite length_put32; [done|]. rewrite Hd. unfold sizeof_dinode, NDIRECT in *. lia.
  - apply HI.
  - intros q Hq Hqk. pose proof (stored_range f q Hq).
    assert (Hne : forall i, 0 <= i <= NDIRECT -> i <> entry_of k -> daddr (put32 (D j) (12 + 4 * Z.to_nat (entry_of k)) fb) i = daddr (D j) i).
    { intros i Hi Hik. rewrite daddr_put by done. by rewrite (proj2 (Z.eqb_neq _ _)). }
    unfold slot, entry_of in *. destruct (Z.ltb_spec q NDIRECT); [apply Hne; lia|].
    assert (Hdi : k < NDIRECT -> daddr (put32 (D j) (12 + 4 * Z.to_nat (Z.min k NDIRECT)) fb) NDIRECT = daddr (D j) NDIRECT)
      by (intros; apply Hne; unfold NDIRECT in *; lia).
    destruct (Z.eqb_spec q MAXFILE) as [->|Hqm]; [apply Hdi; lia|].
    destruct Hk as [Hk| ->]; [by rewrite Hdi by lia|]. destruct Hg as [[_ Hi]|(_ & ? & _)]; [|lia].
    unfold stored in Hq. rewrite Hi in Hq. destruct Hq as [?|[?|[_ ?]]]; lia || done.
  - unfold slot. destruct (Z.ltb_spec k NDIRECT).
    + unfold entry_of in *. replace (Z.min k NDIRECT) with k in * by lia. rewrite daddr_put by (done || lia). rewrite Z.eqb_refl. apply u32_id. lia.
    + destruct Hk as [?| ->]; [lia|]. rewrite Z.eqb_refl. change (entry_of MAXFILE) with NDIRECT.
      rewrite daddr_put by (done || (unfold NDIRECT; lia)). rewrite Z.eqb_refl. apply u32_id. lia.
Qed.

Lemma grow_indirect im D fb F j f :
  image im D fb F -> F !! j = Some f -> a_ind f = true -> NDIRECT <= a_nb f < MAXFILE -> fb < 2 ^ 32 ->
  let a := daddr (D j) NDIRECT in
  image (bupd im a (put32 (im a) (4 * Z.to_nat (a_nb f - NDIRECT)) fb)) D (fb + 1) (<[j := grown f (a_nb f)]> F).
Proof.
  intros HI Hj Hi Hn Hfb a. pose proof (image_start _ _ _ _ HI) as Hm. unfold meta in Hm.
  assert (Hg : growable f (a_nb f)) by (right; split; [done|]; split; [lia|done]).
  assert (Hlen : (4 * Z.to_nat (a_nb f - NDIRECT) + 4 <= length (im a))%nat).
  { rewrite (im_len _ _ _ _ HI). unfold BSIZE, MAXFILE, NDIRECT, NINDIRECT in *. lia. }
  assert (Hs : slot im (D j) MAXFILE = a) by done.
  apply (image_ext _ (dput D j (D j))); [intros i; unfold dput; by case_decide; subst|].
  apply (image_grow im _ D fb F j f (a_nb f)); try done.
  - by apply (im_din _ _ _ _ HI j f).
  - intros b. unfold bupd. destruct (b =? a); [|apply HI]. rewrite length_put32; [apply HI|done].
  - intros q Hq Hqk. pose proof (stored_range f q Hq). unfold slot. fold a.
    destruct (q <? NDIRECT) eqn:E1; [done|]. destruct (q =? MAXFILE) eqn:E2; [done|]. apply Z.ltb_ge in E1. apply Z.eqb_neq in E2.
    rewrite bupd_eq, get32_put32_ne; [done|done|lia].
  - unfold slot. fold a. rewrite (proj2 (Z.ltb_ge _ _)), (proj2 (Z.eqb_neq (a_nb f) MAXFILE)) by lia. rewrite bupd_eq, get32_put32 by done.
    apply u32_id. lia.
  - intros b Hb. apply bupd_ne. rewrite <- Hs. by apply Hb.
Qed.

(** ** The code *)

Lemma xint_id x : 0 <= x < 2 ^ 32 -> xint x = x.
Proof. intros H. unfold xint. rewrite le_value_bytes. by apply Z.mod_small. Qed.

Lemma xshort_id x : 0 <= x < 2 ^ 16 -> xshort x = x.
Proof. intros H. unfold xshort. rewrite le_value_bytes. by apply Z.mod_small. Qed.

Lemma sector_id b : 0 <= b < FSSIZE -> sector b = b.
Proof.
  intros H. unfold sector. change bsize with 512. unfold FSSIZE in H. rewrite u32_id by lia. by rewrite Z.div_mul.
Qed.

(** The blocks [mkfs] needs for a file, in the image. *)
Definition blocks (c : list Z) : Z := (Z.of_nat (length c) + 511) / 512.
Definition afile_of (t : Z) (c : list Z) : afile := mkA t c (blocks c) (NDIRECT <? blocks c).

(** [s'] is [s] except for data blocks and the free block. *)
Record data_only (s s' : mkstate) : Prop := mkDo {
  do_nsect : nsect s' = nsect s;
  do_msb : msb s' = msb s;
  do_free : freeinode s' = freeinode s;
  do_meta : forall b, b < meta -> img s' b = img s b;
}.
#[export] Instance data_only_preorder : PreOrder data_only.
Proof.
  split; [by intros s|]. intros s1 s2 s3 [A1 A2 A3 A4] [B1 B2 B3 B4]. split; [congruence..|].
  intros b Hb. by rewrite B4, A4.
Qed.

Section Code.
Context (room : Z) (Hroom : FSSIZE <= room).

Lemma rsect_run b s : nsect s = FSSIZE -> 0 <= b < FSSIZE -> rsect b s = (Ok (img s b), s).
Proof using Type. intros Hn Hb. unfold rsect. mrun. rewrite sector_id, Hn by done. by rewrite (proj2 (Z.leb_gt _ _)) by lia. Qed.

Definition put_sect (b : Z) (x : block) (s : mkstate) : mkstate := set_img (bupd (img s) b x) (nsect s) s.

Lemma wsect_run b x s : nsect s = FSSIZE -> 0 <= b < FSSIZE -> wsect room b x s = (Ok tt, put_sect b x s).
Proof using Hroom.
  intros Hn Hb. unfold wsect. mrun. rewrite sector_id by done. rewrite (proj2 (Z.leb_gt _ _)) by lia.
  unfold put_sect. by rewrite Z.max_l by lia.
Qed.

Lemma put_sect_data b x s : meta <= b -> data_only s (put_sect b x s).
Proof using Type. intros Hb. split; try done. intros c Hc. cbn. apply bupd_ne. lia. Qed.

Lemma fill_addr_old din j s : 0 < daddr din j < 2 ^ 32 -> fill_addr din j s = (Ok din, s).
Proof using Type. intros H. unfold fill_addr. rewrite xint_id by lia. by rewrite (proj2 (Z.eqb_neq _ _)) by lia. Qed.

Lemma fill_addr_new din j s : daddr din j = 0 -> 0 <= freeblock s < FSSIZE ->
  fill_addr din j s = (Ok (put32 din (12 + 4 * Z.to_nat j) (freeblock s)), set_freeblock (freeblock s + 1) s).
Proof using Type.
  intros H Hf. unfold fill_addr, next_block. rewrite H. change (xint 0 =? 0) with true. mrun. unfold FSSIZE in *.
  by rewrite xint_id, u32_id by lia.
Qed.

(** [f] is [afile_of t c] with block [len / 512] in place. *)
Definition placed (t : Z) (c : list Z) : afile :=
  let bn := Z.of_nat (length c) / 512 in mkA t c (bn + 1) (NDIRECT <? bn + 1).

Lemma blocks_spec c : let n := Z.of_nat (length c) in
  n mod 512 = 0 /\ blocks c = n / 512 \/ n mod 512 <> 0 /\ blocks c = n / 512 + 1.
Proof using Type.
  cbv zeta. unfold blocks. set (n := Z.of_nat (length c)). pose proof (Z.div_mod n 512 ltac:(lia)). pose proof (Z.mod_pos_bound n 512 ltac:(lia)).
  destruct (Z.eq_dec (n mod 512) 0) as [E|E]; [left|right]; (split; [done|]); symmetry.
  - apply (Z.div_unique _ _ _ 511); lia.
  - apply (Z.div_unique _ _ _ (n mod 512 - 1)); lia.
Qed.

Lemma place_old im s D F j f bn :
  image (img s) D (freeblock s) F -> im = img s -> F !! j = Some f -> 0 <= bn < a_nb f -> nsect s = FSSIZE -> freeblock s <= FSSIZE ->
  place_block room (D j) bn s = (Ok (D j, slot im (D j) bn), s).
Proof using Type.
  intros HI -> Hj Hb Hn Hfb. pose proof (im_fits _ _ _ _ HI j f Hj) as [_ Hm Hi]. unfold meta, FSSIZE in *.
  assert (Hr : forall k, has f k -> 59 <= slot (img s) (D j) k < 1000).
  { intros k Hk. pose proof (im_slot _ _ _ _ HI j f k Hj Hk). unfold meta in *. lia. }
  pose proof (Hr bn ltac:(by left)) as Hbn. unfold place_block, slot in *. revert Hbn. destruct (Z.ltb_spec bn NDIRECT); intros Hbn.
  - rewrite (bind_ok _ _ _ _ _ (fill_addr_old (D j) bn s ltac:(lia))). mrun. by rewrite xint_id by lia.
  - rewrite (proj2 (Z.eqb_neq bn MAXFILE)) in Hbn |- * by lia. assert (Ha : 59 <= daddr (D j) NDIRECT < 1000).
    { apply (Hr MAXFILE). right. split; [done|apply Hi; lia]. }
    rewrite (bind_ok _ _ _ _ _ (fill_addr_old (D j) NDIRECT s ltac:(lia))). cbv zeta.
    rewrite xint_id by lia. rewrite (bind_ok _ _ _ _ _ (rsect_run (daddr (D j) NDIRECT) s Hn ltac:(unfold FSSIZE; lia))).
    rewrite (proj2 (Z.eqb_neq _ _)) by lia. mrun. by rewrite xint_id by lia.
Qed.

(** A new block: the code takes the next free one, after one for the indirect block if
    there is none yet. *)
Lemma place_direct s D F j f :
  image (img s) D (freeblock s) F -> F !! j = Some f -> a_nb f < NDIRECT -> freeblock s < FSSIZE ->
  exists s' din', place_block room (D j) (a_nb f) s = (Ok (din', slot (img s') din' (a_nb f)), s')
    /\ image (img s') (dput D j din') (freeblock s') (<[j := grown f (a_nb f)]> F)
    /\ data_only s s' /\ slice din' 0 12 = slice (D j) 0 12.
Proof using Type.
  intros HI Hj Hn Hfb. pose proof (im_fits _ _ _ _ HI j f Hj) as [_ Hm _]. pose proof (image_start _ _ _ _ HI) as Hst.
  pose proof (im_din _ _ _ _ HI j f Hj) as Hd. unfold sizeof_dinode, meta, FSSIZE in *.
  assert (Hg : growable f (a_nb f)) by (right; unfold MAXFILE, NINDIRECT in *; split; [done|lia]).
  assert (Hz : daddr (D j) (a_nb f) = 0).
  { pose proof (im_none _ _ _ _ HI j f (a_nb f) Hj ltac:(left; lia)) as H. unfold slot in H. rewrite (proj2 (Z.ltb_lt _ _)) in H by done.
    apply H. intros [?|[E _]]; [lia|]. unfold MAXFILE, NINDIRECT in E. lia. }
  unfold place_block. rewrite (proj2 (Z.ltb_lt _ _)) by done.
  rewrite (bind_ok _ _ _ _ _ (fill_addr_new (D j) (a_nb f) s Hz ltac:(unfold FSSIZE; lia))).
  pose proof (grow_inode (img s) D (freeblock s) F j f (a_nb f) HI Hj Hg ltac:(by left) ltac:(lia)) as HI'.
  unfold entry_of in HI'. rewrite Z.min_l in HI' by lia. set (din' := put32 _ _ _) in *.
  exists (set_freeblock (freeblock s + 1) s), din'. split; [|split; [exact HI'|split; [done|]]].
  - unfold slot. rewrite (proj2 (Z.ltb_lt _ _)) by done. mrun. unfold din'. rewrite daddr_put, Z.eqb_refl by (done || lia).
    cbn [img set_freeblock]. rewrite u32_id, xint_id by lia. done.
  - unfold din', put32. apply slice_splice_ne; rewrite length_le_bytes, ?Hd; unfold NDIRECT in *; lia.
Qed.

Lemma place_indirect s D F j f :
  image (img s) D (freeblock s) F -> F !! j = Some f -> a_ind f = true -> NDIRECT <= a_nb f < MAXFILE ->
  nsect s = FSSIZE -> freeblock s < FSSIZE ->
  exists s', place_block room (D j) (a_nb f) s = (Ok (D j, slot (img s') (D j) (a_nb f)), s')
    /\ image (img s') D (freeblock s') (<[j := grown f (a_nb f)]> F) /\ data_only s s'.
Proof using Hroom.
  intros HI Hj Hi Hn Hs Hfb. pose proof (image_start _ _ _ _ HI) as Hst. unfold meta in *.
  assert (Ha : 59 <= daddr (D j) NDIRECT < FSSIZE).
  { pose proof (im_slot _ _ _ _ HI j f MAXFILE Hj ltac:(by right)) as H. unfold slot, meta in H.
    change (MAXFILE <? NDIRECT) with false in H. rewrite Z.eqb_refl in H. lia. }
  assert (Hslot : forall im, slot im (D j) (a_nb f) = get32 (im (daddr (D j) NDIRECT)) (4 * Z.to_nat (a_nb f - NDIRECT))).
  { intros im. unfold slot. by rewrite (proj2 (Z.ltb_ge _ _)), (proj2 (Z.eqb_neq (a_nb f) _)) by lia. }
  assert (Hz : slot (img s) (D j) (a_nb f) = 0).
  { apply (im_none _ _ _ _ HI j f); [done|by right; right|]. intros [?|[E _]]; lia. }
  unfold place_block. rewrite (proj2 (Z.ltb_ge _ _)) by lia. set (a := daddr (D j) NDIRECT) in *. unfold FSSIZE in *.
  rewrite (bind_ok _ _ _ _ _ (fill_addr_old (D j) NDIRECT s ltac:(lia))). cbv zeta. fold a.
  rewrite xint_id by lia. rewrite (bind_ok _ _ _ _ _ (rsect_run a s Hs ltac:(unfold FSSIZE; lia))).
  rewrite Hslot in Hz. rewrite Hz. change (0 =? 0) with true. cbv iota. unfold next_block.
  set (s1 := put_sect a (put32 (img s a) (4 * Z.to_nat (a_nb f - NDIRECT)) (freeblock s)) (set_freeblock (freeblock s + 1) s)).
  pose proof (grow_indirect (img s) D (freeblock s) F j f HI Hj Hi Hn ltac:(lia)) as HI'. cbv zeta in HI'. fold a in HI'.
  exists s1. split; [|split; [exact HI'|]].
  - rewrite !bind_bind. mrun. rewrite u32_id, (xint_id (freeblock s)) by lia.
    rewrite (wsect_run a _ (set_freeblock _ s) Hs ltac:(unfold FSSIZE; lia)). fold s1. rewrite Hslot. unfold s1 at 2.
    cbn [img put_sect set_img]. rewrite bupd_eq. rewrite get32_put32; [by rewrite u32_id, xint_id by lia|].
    rewrite (im_len _ _ _ _ HI). unfold BSIZE, MAXFILE, NDIRECT, NINDIRECT in *. lia.
  - transitivity (set_freeblock (freeblock s + 1) s); [done|]. apply put_sect_data. unfold meta. lia.
Qed.

Lemma place_first_indirect s D F j f :
  image (img s) D (freeblock s) F -> F !! j = Some f -> a_ind f = false -> a_nb f = NDIRECT ->
  nsect s = FSSIZE -> freeblock s + 1 < FSSIZE ->
  exists s' din', place_block room (D j) (a_nb f) s = (Ok (din', slot (img s') din' (a_nb f)), s')
    /\ image (img s') (dput D j din') (freeblock s') (<[j := mkA (a_type f) (a_bytes f) (a_nb f + 1) true]> F)
    /\ data_only s s' /\ slice din' 0 12 = slice (D j) 0 12.
Proof using Hroom.
  intros HI Hj Hi Hn Hs Hfb. pose proof (image_start _ _ _ _ HI) as Hst. pose proof (im_din _ _ _ _ HI j f Hj) as Hd.
  unfold sizeof_dinode, meta, FSSIZE in *.
  assert (Hg : growable f MAXFILE) by by left.
  assert (Hz : daddr (D j) NDIRECT = 0).
  { apply (im_none _ _ _ _ HI j f MAXFILE Hj); [by right; left|]. intros [?|[_ ?]]; [unfold MAXFILE, NDIRECT, NINDIRECT in *; lia|congruence]. }
  pose proof (fill_addr_new (D j) NDIRECT s Hz ltac:(unfold FSSIZE; lia)) as Hfill.
  pose proof (grow_inode (img s) D (freeblock s) F j f MAXFILE HI Hj Hg ltac:(by right) ltac:(lia)) as HI1.
  change (entry_of MAXFILE) with NDIRECT in HI1. set (din1 := put32 (D j) (12 + 4 * Z.to_nat NDIRECT) (freeblock s)) in *.
  set (s1 := set_freeblock (freeblock s + 1) s) in *. set (f1 := grown f MAXFILE) in *.
  assert (Hd1 : daddr din1 NDIRECT = freeblock s).
  { unfold din1. rewrite daddr_put, Z.eqb_refl by (done || (unfold NDIRECT; lia)). apply u32_id. lia. }
  destruct (place_indirect s1 (dput D j din1) (<[j := f1]> F) j f1) as (s' & Hrun & HI' & Hdo).
  - exact HI1.
  - apply list_lookup_insert_eq. by eapply lookup_lt_Some.
  - done.
  - change (a_nb f1) with (a_nb f). rewrite Hn. unfold MAXFILE, NDIRECT, NINDIRECT. lia.
  - done.
  - unfold FSSIZE, s1. cbn. lia.
  - rewrite dput_eq in Hrun. change (a_nb f1) with (a_nb f) in *. rewrite list_insert_insert_eq in HI'.
    exists s', din1. split; [|split; [|split]].
    + rewrite <- Hrun. unfold place_block. rewrite Hn. change (NDIRECT <? NDIRECT) with false. cbv iota.
      rewrite (bind_ok _ _ _ _ _ Hfill), (bind_ok (fill_addr din1 NDIRECT) _ s1 s1 din1); [done|].
      apply fill_addr_old. lia.
    + unfold grown, f1, grown in HI'. rewrite Hn in *. exact HI'.
    + by transitivity s1.
    + unfold din1, put32. apply slice_splice_ne; rewrite length_le_bytes, ?Hd; unfold NDIRECT; lia.
Qed.

Lemma place_run s D F j t c :
  image (img s) D (freeblock s) F -> F !! j = Some (afile_of t c) -> Z.of_nat (length c) / 512 < MAXFILE ->
  nsect s = FSSIZE -> meta + needs (<[j := placed t c]> F) <= FSSIZE ->
  exists s' din', place_block room (D j) (Z.of_nat (length c) / 512) s
      = (Ok (din', slot (img s') din' (Z.of_nat (length c) / 512)), s')
    /\ image (img s') (dput D j din') (freeblock s') (<[j := placed t c]> F)
    /\ data_only s s' /\ slice din' 0 12 = slice (D j) 0 12.
Proof using Hroom.
  intros HI Hj Hmax Hs Hfull. pose proof (im_fb _ _ _ _ HI) as Hfb. rewrite (needs_insert F j _ _ Hj) in Hfull.
  assert (Hbn : 0 <= Z.of_nat (length c) / 512) by (apply Z.div_pos; lia).
  unfold placed in *. set (bn := Z.of_nat (length c) / 512) in *. unfold need in Hfull. cbn [a_nb a_ind afile_of] in Hfull.
  destruct (blocks_spec c) as [[_ Hb]|[_ Hb]]; cbv zeta in Hb; fold bn in Hb.
  - assert (Hf : afile_of t c = mkA t c bn (NDIRECT <? bn)) by (unfold afile_of; by rewrite Hb).
    rewrite Hf in Hj. rewrite Hb in Hfull. destruct (Z.lt_trichotomy bn NDIRECT) as [Hlt|[Heq|Hgt]].
    + destruct (place_direct s D F j _ HI Hj) as (s' & din' & H1 & H2 & H3); [done| |].
      { rewrite !(proj2 (Z.ltb_ge _ _)) in Hfull by lia. lia. }
      exists s', din'. split; [exact H1|]. split; [|exact H3]. unfold grown in H2. cbn [a_nb a_type a_bytes a_ind] in H2.
      rewrite (proj2 (Z.eqb_neq bn MAXFILE)) in H2 by lia. rewrite !(proj2 (Z.ltb_ge _ _)) in * by lia. exact H2.
    + rewrite (proj2 (Z.ltb_ge NDIRECT bn)), (proj2 (Z.ltb_lt NDIRECT (bn + 1))) in * by lia.
      destruct (place_first_indirect s D F j _ HI Hj) as (s' & din' & H1 & H2 & H3); [done|done|done|lia|].
      exists s', din'. split; [exact H1|]. split; [exact H2|exact H3].
    + rewrite !(proj2 (Z.ltb_lt NDIRECT _)) in * by lia.
      destruct (place_indirect s D F j _ HI Hj) as (s' & H1 & H2 & H3); [done|cbn; lia|done|lia|].
      exists s', (D j). split; [exact H1|]. split; [|done]. unfold grown in H2. cbn [a_nb a_type a_bytes a_ind] in H2.
      rewrite (proj2 (Z.eqb_neq bn MAXFILE)) in H2 by lia.
      eapply image_ext; [|exact H2]. intros i. unfold dput. by case_decide; subst.
  - assert (Hf : afile_of t c = mkA t c (bn + 1) (NDIRECT <? bn + 1)) by (unfold afile_of; by rewrite Hb).
    rewrite Hf in Hj. rewrite Hb in Hfull. exists s, (D j). split; [apply (place_old _ s D F j _ bn HI eq_refl Hj); [cbn; lia|done|lia]|].
    rewrite list_insert_id by done. split; [|done]. eapply image_ext; [|exact HI]. intros i. unfold dput. by case_decide; subst.
Qed.

Lemma need_mono t c t' c' : blocks c <= blocks c' -> need (afile_of t c) <= need (afile_of t' c').
Proof using Type. unfold need. cbn. intros H. destruct (Z.ltb_spec NDIRECT (blocks c)), (Z.ltb_spec NDIRECT (blocks c')); lia. Qed.

Lemma blocks_mono c c' : (length c <= length c')%nat -> blocks c <= blocks c'.
Proof using Type. intros H. unfold blocks. apply Z.div_le_mono; lia. Qed.

(** Bytes up to the end of block [len / 512] make the file [placed] an [afile_of]. *)
Lemma placed_filled t c l : let off := Z.of_nat (length c) in
  0 < Z.of_nat (length l) -> off mod 512 + Z.of_nat (length l) <= 512 -> with_bytes (placed t c) (c ++ l) = afile_of t (c ++ l).
Proof using Type.
  cbv zeta. set (off := Z.of_nat (length c)). intros H1 H2. assert (Hb : blocks (c ++ l) = off / 512 + 1).
  { unfold blocks. rewrite length_app, Nat2Z.inj_add. fold off. pose proof (Z.div_mod off 512 ltac:(lia)).
    pose proof (Z.mod_pos_bound off 512 ltac:(lia)). symmetry.
    apply (Z.div_unique _ _ _ (off mod 512 + Z.of_nat (length l) - 1)); lia. }
  unfold with_bytes, placed, afile_of. rewrite Hb. done.
Qed.

Lemma dput_dput D j d d' i : dput (dput D j d) j d' i = dput D j d' i.
Proof using Type. unfold dput. by case_decide. Qed.

(** One turn of the loop of [iappend]: the part of [p] that fits into the block. *)
Lemma append_turn s D F j t c p :
  let off := Z.of_nat (length c) in
  let bn := off / 512 in
  let l := take (Z.to_nat (Z.min (Z.of_nat (length p)) ((bn + 1) * 512 - off))) p in
  image (img s) D (freeblock s) F -> F !! j = Some (afile_of t c) -> nsect s = FSSIZE -> p <> [] ->
  bn < MAXFILE -> meta + needs (<[j := afile_of t (c ++ l)]> F) <= FSSIZE ->
  exists s' din', place_block room (D j) bn s = (Ok (din', slot (img s') din' bn), s')
    /\ 0 <= slot (img s') din' bn < FSSIZE /\ nsect s' = FSSIZE
    /\ let s2 := put_sect (slot (img s') din' bn) (splice (img s' (slot (img s') din' bn)) (Z.to_nat (off - bn * 512)) l) s' in
    image (img s2) (dput D j din') (freeblock s2) (<[j := afile_of t (c ++ l)]> F)
    /\ data_only s s2 /\ slice din' 0 12 = slice (D j) 0 12.
Proof using Hroom.
  intros off bn l HI Hj Hs Hp Hmax Hfull. pose proof (Z.div_mod off 512 ltac:(lia)) as Ho. fold bn in Ho.
  pose proof (Z.mod_pos_bound off 512 ltac:(lia)) as Hmod. assert (Hbn : 0 <= bn) by (apply Z.div_pos; lia).
  assert (Hpl : (0 < length p)%nat) by (destruct p; [done|cbn; lia]).
  assert (Hl : 0 < Z.of_nat (length l) /\ off mod 512 + Z.of_nat (length l) <= 512) by (unfold l; rewrite length_take; lia).
  rewrite <- placed_filled in Hfull by apply Hl.
  destruct (place_run s D F j t c HI Hj Hmax Hs) as (s' & din' & Hrun & HI' & Hdo & H12).
  { rewrite (needs_insert F j _ _ Hj) in Hfull. rewrite (needs_insert F j _ _ Hj). exact Hfull. }
  fold off bn in Hrun. exists s', din'. split; [exact Hrun|].
  assert (Hj' : <[j := placed t c]> F !! j = Some (placed t c)) by (apply list_lookup_insert_eq; by eapply lookup_lt_Some).
  assert (Hhas : has (placed t c) bn) by (left; unfold placed; fold off; fold bn; cbn; lia).
  pose proof (im_slot _ _ _ _ HI' j _ bn Hj' Hhas) as Hslot. rewrite dput_eq in Hslot. pose proof (im_fb _ _ _ _ HI') as Hfb.
  rewrite (needs_insert F j _ _ Hj) in Hfull. rewrite (needs_insert F j _ _ Hj) in Hfb. change (need (with_bytes (placed t c) (c ++ l))) with (need (placed t c)) in Hfull.
  unfold meta in *. split; [lia|]. split; [by rewrite (do_nsect _ _ Hdo)|]. cbv zeta.
  assert (Hin : Z.of_nat (length (a_bytes (placed t c))) / 512 < a_nb (placed t c)) by (cbn; fold off; fold bn; lia).
  pose proof (image_append (img s') (dput D j din') (freeblock s') _ j (placed t c) l HI' Hj' Hin (proj2 Hl)) as Happ.
  cbn [a_bytes placed a_nb] in Happ. fold off in Happ. fold bn in Happ. rewrite dput_eq in Happ.
  rewrite list_insert_insert_eq in Happ. split; [|split; [|exact H12]].
  - replace (off - bn * 512) with (off mod 512) by lia. cbn [img freeblock put_sect set_img].
    rewrite <- placed_filled by apply Hl. apply Happ. rewrite length_app, Nat2Z.inj_add. fold off. lia.
  - transitivity s'; [done|]. apply put_sect_data. unfold meta. lia.
Qed.

Lemma iappend_loop_run fuel : forall s D F j t c p,
  image (img s) D (freeblock s) F -> F !! j = Some (afile_of t c) -> nsect s = FSSIZE ->
  Z.of_nat (length (c ++ p)) <= MAXFILE * 512 -> meta + needs (<[j := afile_of t (c ++ p)]> F) <= FSSIZE ->
  (length p < fuel)%nat ->
  exists s' din', iappend_loop room fuel (D j) (Z.of_nat (length c)) p s = (Ok (din', Z.of_nat (length (c ++ p))), s')
    /\ image (img s') (dput D j din') (freeblock s') (<[j := afile_of t (c ++ p)]> F)
    /\ data_only s s' /\ slice din' 0 12 = slice (D j) 0 12.
Proof using Hroom.
  induction fuel as [|fuel IH]; intros s D F j t c p HI Hj Hs Hmax Hfull Hfuel; [lia|]. cbn [iappend_loop].
  destruct (decide (p = [])) as [->|Hp].
  { rewrite app_nil_r in *. cbn [length]. change (0 <? Z.of_nat 0) with false. cbv iota. exists s, (D j). split; [done|].
    rewrite list_insert_id by done. split; [|done]. eapply image_ext; [|exact HI]. intros i. unfold dput. by case_decide; subst. }
  assert (Hpl : (0 < length p)%nat) by (destruct p; [done|cbn; lia]). rewrite (proj2 (Z.ltb_lt _ _)) by lia. cbv zeta.
  change bsize with 512. set (off := Z.of_nat (length c)) in *. set (bn := off / 512).
  pose proof (Z.div_mod off 512 ltac:(lia)) as Ho. fold bn in Ho. pose proof (Z.mod_pos_bound off 512 ltac:(lia)) as Hmod.
  rewrite length_app, Nat2Z.inj_add in Hmax. fold off in Hmax.
  assert (Hb : bn < MAXFILE) by (unfold MAXFILE, NDIRECT, NINDIRECT in *; lia).
  rewrite (proj2 (Z.ltb_lt _ _) Hb). unfold assert_ at 1. rewrite (bind_ok (ret tt) _ s s tt eq_refl).
  set (n1 := Z.min (Z.of_nat (length p)) ((bn + 1) * 512 - off)). set (l := take (Z.to_nat n1) p).
  assert (Hn1 : Z.of_nat (length l) = n1) by (unfold l; rewrite length_take; lia).
  assert (Hp2 : p = l ++ drop (Z.to_nat n1) p) by (symmetry; apply take_drop).
  assert (Hfull1 : meta + needs (<[j := afile_of t (c ++ l)]> F) <= FSSIZE).
  { rewrite (needs_insert F j _ _ Hj) in Hfull. rewrite (needs_insert F j _ _ Hj).
    pose proof (need_mono t (c ++ l) t (c ++ p) ltac:(apply blocks_mono; rewrite !length_app; lia)). lia. }
  destruct (append_turn s D F j t c p HI Hj Hs Hp Hb Hfull1) as (s1 & din1 & Hrun & Hx & Hs1 & HI2 & Hdo & H12).
  fold off in Hrun, Hx, HI2, Hdo. fold bn in Hrun, Hx, HI2, Hdo. fold n1 in HI2, Hdo. fold l in HI2, Hdo.
  rewrite (bind_ok _ _ _ _ _ Hrun). rewrite (bind_ok _ _ _ _ _ (rsect_run _ s1 Hs1 Hx)), (bind_ok _ _ _ _ _ (wsect_run _ _ s1 Hs1 Hx)).
  set (s2 := put_sect _ _ s1) in *. rewrite u32_id by (unfold MAXFILE, NDIRECT, NINDIRECT in *; lia).
  assert (Hoff2 : off + n1 = Z.of_nat (length (c ++ l))) by (rewrite length_app; lia). rewrite Hoff2.
  assert (Hcat : (c ++ l) ++ drop (Z.to_nat n1) p = c ++ p) by (rewrite <- app_assoc, <- Hp2; done).
  assert (Hins : forall g, <[j := g]> (<[j := afile_of t (c ++ l)]> F) = <[j := g]> F) by (intros g; apply list_insert_insert_eq).
  destruct (IH s2 (dput D j din1) (<[j := afile_of t (c ++ l)]> F) j t (c ++ l) (drop (Z.to_nat n1) p)) as (s' & din' & Hr & HI' & Hdo' & H12').
  - exact HI2.
  - apply list_lookup_insert_eq. by eapply lookup_lt_Some.
  - by rewrite (do_nsect _ _ Hdo).
  - rewrite Hcat, length_app. lia.
  - by rewrite Hins, Hcat.
  - rewrite length_drop. lia.
  - rewrite dput_eq in Hr, H12'. rewrite Hcat in Hr, HI'. rewrite Hins in HI'. exists s', din'.
    split; [exact Hr|]. split; [|split; [by transitivity s2|congruence]].
    eapply image_ext; [|exact HI']. intros i. by rewrite dput_dput.
Qed.

(** ** Inodes and whole files *)

Definition the_sb : superblock := mkSb 1000 941 200 30 2 32 58.

(** The bytes of the inode of file [j], whose number is [j + 1]. *)
Definition inum_of (j : nat) : Z := Z.of_nat j + 1.
Definition din_of (im : blockmap) (j : nat) : list Z := slice (im (IBLOCK (inum_of j) the_sb)) (dip (inum_of j)) sizeof_dinode.

Lemma iblock_range j : (j < 207)%nat -> 32 <= IBLOCK (inum_of j) the_sb < 58.
Proof using Type.
  intros H. unfold IBLOCK, IPB, inum_of. cbn [the_sb sb_inodestart].
  assert (0 <= (Z.of_nat j + 1) / 8 < 26) by (split; [apply Z.div_pos; lia|apply Z.div_lt_upper_bound; lia]). lia.
Qed.

(** Two inodes are in different blocks or at different places of one. *)
Lemma inodes_apart i j : i <> j -> IBLOCK (inum_of i) the_sb = IBLOCK (inum_of j) the_sb ->
  (dip (inum_of i) + sizeof_dinode <= dip (inum_of j) \/ dip (inum_of j) + sizeof_dinode <= dip (inum_of i))%nat.
Proof using Type.
  unfold IBLOCK, IPB, dip, sizeof_dinode, inum_of, IPB. cbn [the_sb sb_inodestart]. intros Hne Hb.
  pose proof (Z.div_mod (Z.of_nat i + 1) 8 ltac:(lia)). pose proof (Z.div_mod (Z.of_nat j + 1) 8 ltac:(lia)).
  pose proof (Z.mod_pos_bound (Z.of_nat i + 1) 8 ltac:(lia)). pose proof (Z.mod_pos_bound (Z.of_nat j + 1) 8 ltac:(lia)).
  assert ((Z.of_nat i + 1) / 8 = (Z.of_nat j + 1) / 8) by lia. lia.
Qed.

(** The image after [winode] of file [j]. *)
Definition put_inode (j : nat) (d : list Z) (s : mkstate) : mkstate :=
  let b := IBLOCK (inum_of j) the_sb in put_sect b (splice (img s b) (dip (inum_of j)) d) s.

Lemma winode_run j d s : nsect s = FSSIZE -> msb s = the_sb -> (j < 207)%nat -> winode room (inum_of j) d s = (Ok tt, put_inode j d s).
Proof using Hroom.
  intros Hs Hm Hj. pose proof (iblock_range j Hj). unfold winode. rewrite (bind_ok (gets msb) _ s s the_sb) by (unfold gets; by rewrite Hm).
  cbv zeta. rewrite (bind_ok _ _ _ _ _ (rsect_run (IBLOCK (inum_of j) the_sb) s Hs ltac:(unfold FSSIZE; lia))).
  by rewrite wsect_run by (done || (unfold FSSIZE; lia)).
Qed.

Lemma rinode_run j s : nsect s = FSSIZE -> msb s = the_sb -> (j < 207)%nat -> rinode (inum_of j) s = (Ok (din_of (img s) j), s).
Proof using Type.
  intros Hs Hm Hj. pose proof (iblock_range j Hj). unfold rinode. rewrite (bind_ok (gets msb) _ s s the_sb) by (unfold gets; by rewrite Hm).
  cbv zeta. by rewrite (bind_ok _ _ _ _ _ (rsect_run (IBLOCK (inum_of j) the_sb) s Hs ltac:(unfold FSSIZE; lia))).
Qed.

Section Put.
Context (s : mkstate) (j : nat) (d : list Z) (Hl : forall b, length (img s b) = BSIZE) (Hd : length d = sizeof_dinode).

Lemma put_inode_eq : din_of (img (put_inode j d s)) j = d.
Proof using Hl Hd.
  unfold din_of, put_inode. cbn [img put_sect set_img]. rewrite bupd_eq, <- Hd. apply slice_splice_eq. rewrite Hl, Hd. apply dip_fits.
Qed.

Lemma put_inode_ne i : i <> j -> din_of (img (put_inode j d s)) i = din_of (img s) i.
Proof using Hl Hd.
  intros Hi. unfold din_of, put_inode. cbn [img put_sect set_img]. unfold bupd.
  destruct (Z.eqb_spec (IBLOCK (inum_of i) the_sb) (IBLOCK (inum_of j) the_sb)) as [E|]; [|done]. rewrite E.
  apply slice_splice_ne; rewrite ?Hl, Hd; [apply dip_fits|by apply inodes_apart].
Qed.

Lemma put_inode_length b : length (img (put_inode j d s) b) = BSIZE.
Proof using Hl Hd.
  unfold put_inode. cbn [img put_sect set_img]. unfold bupd. destruct (_ =? _); [|apply Hl].
  rewrite length_splice; rewrite ?Hl, ?Hd; [done|apply dip_fits].
Qed.

End Put.

Lemma put_inode_else s j d b : (j < 207)%nat -> b < 32 \/ 58 <= b -> img (put_inode j d s) b = img s b.
Proof using Type. intros Hj Hb. pose proof (iblock_range j Hj). unfold put_inode. cbn. apply bupd_ne. lia. Qed.

(** The first eight bytes of the inode of a file of type [t]: no device, one link. *)
Definition head (t : Z) : list Z := le_bytes 2 t ++ [0; 0; 0; 0] ++ le_bytes 2 1.

Definition lay (L : list (Z * list Z)) : list afile := (fun p => afile_of p.1 p.2) <$> L.

(** Between calls: the image holds the files [L], inode by inode. *)
Record rest (s : mkstate) (L : list (Z * list Z)) : Prop := mkRest {
  re_image : image (img s) (din_of (img s)) (freeblock s) (lay L);
  re_size : forall j t c, L !! j = Some (t, c) -> get32 (din_of (img s) j) 8 = Z.of_nat (length c);
  re_head : forall j t c, L !! j = Some (t, c) -> slice (din_of (img s) j) 0 8 = head t;
  re_free : freeinode s = Z.of_nat (length L) + 1;
  re_nsect : nsect s = FSSIZE;
  re_msb : msb s = the_sb;
  re_few : (length L < 208)%nat;
}.

(** The boot block, the super block, the log and the bitmap. *)
Definition fixed (s s' : mkstate) : Prop := forall b, b < 32 \/ b = 58 -> img s' b = img s b.

Lemma lay_lookup L j t c : L !! j = Some (t, c) -> lay L !! j = Some (afile_of t c).
Proof using Type. intros H. unfold lay. rewrite list_lookup_fmap, H. done. Qed.

Lemma lay_insert L j t c : lay (<[j := (t, c)]> L) = <[j := afile_of t c]> (lay L).
Proof using Type. unfold lay. by rewrite list_fmap_insert. Qed.

Lemma lay_lookup_inv L j f : lay L !! j = Some f -> exists t c, L !! j = Some (t, c) /\ f = afile_of t c.
Proof using Type. unfold lay. rewrite list_lookup_fmap. intros ([t c] & H & ->)%fmap_Some. eauto. Qed.

Lemma slice_slice x o n o' n' : (o' + n' <= n)%nat -> slice (slice x o n) o' n' = slice x (o + o') n'.
Proof using Type.
  intros H. apply list_eq. intros k. rewrite !lookup_slice. case_decide; [|done]. rewrite decide_True by lia. f_equal. lia.
Qed.

(** Writing the inode of file [j], after which it is the one the files [L] need. *)
Lemma rest_inode s L D j t c din :
  image (img s) D (freeblock s) (lay L) -> L !! j = Some (t, c) ->
  (forall i t' c', L !! i = Some (t', c') -> i <> j ->
     din_of (img s) i = D i /\ get32 (D i) 8 = Z.of_nat (length c') /\ slice (D i) 0 8 = head t') ->
  length din = sizeof_dinode -> (forall q, 0 <= q <= NDIRECT -> daddr din q = daddr (D j) q) ->
  get32 din 8 = Z.of_nat (length c) -> slice din 0 8 = head t ->
  freeinode s = Z.of_nat (length L) + 1 -> nsect s = FSSIZE -> msb s = the_sb -> (length L < 208)%nat ->
  rest (put_inode j din s) L.
Proof using Type.
  intros HI Hj Hold Hd Hda Hsz Hhd Hf Hs Hm Hfew. pose proof (im_len _ _ _ _ HI) as Hl.
  assert (Hlt : (j < 207)%nat) by (pose proof (lookup_lt_Some _ _ _ Hj); lia).
  assert (Hcase : forall i t' c', L !! i = Some (t', c') ->
    i = j /\ t' = t /\ c' = c /\ din_of (img (put_inode j din s)) i = din
    \/ i <> j /\ din_of (img (put_inode j din s)) i = D i).
  { intros i t' c' Hi. destruct (decide (i = j)) as [->|Hne].
    - left. rewrite put_inode_eq by done. by simplify_eq.
    - right. rewrite put_inode_ne by done. by destruct (Hold i t' c' Hi Hne). }
  split; try done.
  - apply (image_meta (img s) _ D _ _ _ HI).
    + intros b Hb. apply put_inode_else; [done|]. unfold meta in Hb. lia.
    + by apply put_inode_length.
    + intros i f (t' & c' & Hi & ->)%lay_lookup_inv. destruct (Hcase i t' c' Hi) as [(-> & _ & _ & ->)|[_ ->]]; [done|].
      split; [|done]. apply (im_din _ _ _ _ HI i (afile_of t' c')). by apply lay_lookup.
  - intros i t' c' Hi. destruct (Hcase i t' c' Hi) as [(-> & -> & -> & ->)|[Hne ->]]; [done|]. by apply (Hold i t' c').
  - intros i t' c' Hi. destruct (Hcase i t' c' Hi) as [(-> & -> & -> & ->)|[Hne ->]]; [done|]. by apply (Hold i t' c').
Qed.

Lemma put_inode_fixed s j d : (j < 207)%nat -> fixed s (put_inode j d s).
Proof using Type. intros Hj b Hb. apply put_inode_else; [done|lia]. Qed.

Lemma din_of_data s s' j : data_only s s' -> (j < 207)%nat -> din_of (img s') j = din_of (img s) j.
Proof using Type. intros H Hj. pose proof (iblock_range j Hj). unfold din_of. rewrite (do_meta _ _ H); [done|]. unfold meta. lia. Qed.

Lemma iappend_run s L j t c p :
  rest s L -> L !! j = Some (t, c) -> Z.of_nat (length (c ++ p)) <= MAXFILE * 512 ->
  meta + needs (lay (<[j := (t, c ++ p)]> L)) <= FSSIZE ->
  exists s', iappend room (inum_of j) p s = (Ok tt, s') /\ rest s' (<[j := (t, c ++ p)]> L) /\ fixed s s'.
Proof using Hroom.
  intros HR Hj Hmax Hfull. destruct HR as [HI Hsize Hhead Hfree Hs Hm Hfew]. pose proof (lookup_lt_Some _ _ _ Hj) as Hin.
  unfold iappend. rewrite (bind_ok _ _ _ _ _ (rinode_run j s Hs Hm ltac:(lia))), (Hsize j t c Hj).
  assert (Hn : Z.of_nat (length (c ++ p)) < 2 ^ 32) by (unfold MAXFILE, NDIRECT, NINDIRECT in Hmax; lia).
  rewrite xint_id by (rewrite length_app in Hn; lia). rewrite lay_insert in Hfull.
  destruct (iappend_loop_run (S (length p)) s (din_of (img s)) (lay L) j t c p HI (lay_lookup _ _ _ _ Hj) Hs Hmax Hfull ltac:(lia))
    as (s1 & din1 & Hrun & HI1 & Hdo & H12).
  rewrite (bind_ok _ _ _ _ _ Hrun). pose proof Hdo as [D1 D2 D3 D4]. rewrite <- lay_insert in HI1.
  rewrite winode_run by (congruence || lia). rewrite xint_id by lia. set (n := Z.of_nat (length (c ++ p))) in *.
  assert (Hself : <[j := (t, c ++ p)]> L !! j = Some (t, c ++ p)) by by apply list_lookup_insert_eq.
  pose proof (im_din _ _ _ _ HI1 j _ (lay_lookup _ _ _ _ Hself)) as Hd1. rewrite dput_eq in Hd1. unfold sizeof_dinode in Hd1.
  eexists. split; [done|]. split; [|intros b Hb; rewrite (put_inode_fixed s1 j) by (done || lia); apply D4; unfold meta; lia].
  apply (rest_inode s1 _ (dput (din_of (img s)) j din1) j t (c ++ p)).
  - exact HI1.
  - exact Hself.
  - intros i t' c' Hi Hne. rewrite list_lookup_insert_ne in Hi by done. pose proof (lookup_lt_Some _ _ _ Hi).
    rewrite dput_ne, (din_of_data s s1) by (done || lia). eauto.
  - rewrite length_put32; [done|lia].
  - intros q Hq. rewrite dput_eq. unfold daddr. apply get32_put32_ne; lia.
  - rewrite get32_put32 by lia. apply u32_id. lia.
  - rewrite <- (Hhead j t c Hj). unfold put32. rewrite slice_splice_ne by (rewrite length_le_bytes; lia).
    pose proof (f_equal (fun x => slice x 0 8) H12) as H8. cbv beta in H8. by rewrite !slice_slice in H8 by lia.
  - rewrite length_insert. congruence.
  - congruence.
  - congruence.
  - by rewrite length_insert.
Qed.

(** The inode [ialloc] writes. *)
Definition fresh_inode (t : Z) : list Z := head t ++ replicate 56 0.

Lemma ialloc_run s L t : rest s L -> 0 <= t < 2 ^ 15 -> (length L < 207)%nat ->
  exists s', ialloc room t s = (Ok (inum_of (length L)), s') /\ rest s' (L ++ [(t, [])]) /\ fixed s s'.
Proof using Hroom.
  intros [HI Hsize Hhead Hfree Hs Hm _] Ht Hlen. unfold ialloc. rewrite (bind_ok (gets freeinode) _ s s _ eq_refl), Hfree.
  rewrite (bind_ok (modify _) _ s _ _ eq_refl). rewrite u32_id by lia. cbv zeta. rewrite (xshort_id t), (xshort_id 1), (xint_id 0) by lia.
  assert (Hz : put32 (put16 (put16 (replicate sizeof_dinode 0) 0 t) 6 1) 8 0 = fresh_inode t) by done. rewrite Hz.
  set (s1 := set_freeinode (Z.of_nat (length L) + 1 + 1) s). change (Z.of_nat (length L) + 1) with (inum_of (length L)).
  rewrite (bind_ok _ _ _ _ _ (winode_run (length L) (fresh_inode t) s1 Hs Hm Hlen)).
  assert (Hself : (L ++ [(t, [])]) !! length L = Some (t, [])) by (rewrite lookup_app_r by lia; by rewrite Nat.sub_diag).
  assert (Hda : forall q, 0 <= q <= NDIRECT -> daddr (fresh_inode t) q = 0).
  { intros q Hq. unfold daddr, fresh_inode, get32, slice. rewrite drop_app_ge by (cbn; lia). rewrite drop_replicate, take_replicate. apply le_value_zero. }
  eexists. split; [done|]. split; [|by apply (put_inode_fixed s1)].
  apply (rest_inode s1 _ (dput (din_of (img s)) (length L) (fresh_inode t)) (length L) t []); try done.
  - unfold lay. rewrite fmap_app. fold (lay L). change ((fun p : Z * list Z => afile_of p.1 p.2) <$> [(t, [])]) with [mkA t [] 0 false].
    assert (Hl : length L = length (lay L)) by (unfold lay; by rewrite length_fmap).
    rewrite Hl. apply image_new; [|by rewrite dput_eq|by rewrite dput_eq].
    apply (image_meta (img s) (img s) (din_of (img s)) _ _ _ HI); [done|apply HI|].
    intros i f Hi. rewrite dput_ne by (apply lookup_lt_Some in Hi; lia). split; [by apply (im_din _ _ _ _ HI i f)|done].
  - intros i t' c' Hi Hne. rewrite dput_ne by done.
    apply lookup_app_Some in Hi as [Hi|[Hge Hi]]; [eauto|]. apply list_lookup_singleton_Some in Hi as [? _]. lia.
  - intros q Hq. by rewrite dput_eq.
  - rewrite length_app. cbn [length]. unfold s1. cbn. lia.
  - rewrite length_app. cbn [length]. lia.
Qed.

(** ** The files given *)

Lemma needs_lay_insert L j t c c' x : L !! j = Some x -> (length c <= length c')%nat ->
  needs (lay (<[j := (t, c)]> L)) <= needs (lay (<[j := (t, c')]> L)).
Proof using Type.
  destruct x as [t0 c0]. intros Hj Hc. rewrite !lay_insert, !(needs_insert _ _ _ _ (lay_lookup _ _ _ _ Hj)).
  pose proof (need_mono t c t c' (blocks_mono _ _ Hc)). lia.
Qed.

Lemma lay_app M N : lay (M ++ N) = lay M ++ lay N.
Proof using Type. apply fmap_app. Qed.

Lemma needs_lay_cons t r M N : needs (lay ((t, r) :: M ++ N)) = need (afile_of t r) + needs (lay M) + needs (lay N).
Proof using Type. unfold lay. rewrite fmap_cons, fmap_app. cbn [needs]. rewrite needs_app. cbn [fst snd]. lia. Qed.

Lemma copy_file_run ps : forall s L j t c,
  rest s L -> L !! j = Some (t, c) -> Forall (fun p => p <> []) ps ->
  Z.of_nat (length (c ++ concat ps)) <= MAXFILE * 512 -> meta + needs (lay (<[j := (t, c ++ concat ps)]> L)) <= FSSIZE ->
  exists s', copy_file room (inum_of j) ps s = (Ok tt, s') /\ rest s' (<[j := (t, c ++ concat ps)]> L) /\ fixed s s'.
Proof using Hroom.
  induction ps as [|p ps IH]; intros s L j t c HR Hj Hne Hmax Hfull; cbn [copy_file concat] in *.
  - exists s. split; [done|]. split; [|done]. rewrite app_nil_r. by rewrite list_insert_id.
  - inversion Hne as [|? ? Hp Hps]; subst. rewrite app_assoc in *.
    destruct (iappend_run s L j t c p HR Hj) as (s1 & Hr & HR1 & Hf1).
    { rewrite length_app in Hmax. lia. }
    { pose proof (needs_lay_insert L j t (c ++ p) ((c ++ p) ++ concat ps) _ Hj ltac:(rewrite (length_app (c ++ p)); lia)). lia. }
    destruct p as [|b p]; [done|]. rewrite (bind_ok _ _ _ _ _ Hr).
    assert (Hin : <[j := (t, c ++ b :: p)]> L !! j = Some (t, c ++ b :: p)) by (apply list_lookup_insert_eq; by eapply lookup_lt_Some).
    destruct (IH s1 _ j t (c ++ b :: p) HR1 Hin Hps Hmax) as (s' & Hr' & HR' & Hf'); [by rewrite list_insert_insert_eq|].
    rewrite list_insert_insert_eq in HR'. exists s'. split; [done|]. split; [done|].
    intros k Hk. by rewrite Hf', Hf1.
Qed.

Context (host : list Z -> option (list (list Z))).

(** The host has the file [a], with the bytes [c]: [read] returns them in pieces. *)
Record given (a c : list Z) : Prop := mkGiven {
  gi_name : 47 ∉ a;
  gi_open : exists ps, host a = Some ps /\ Forall (fun p => p <> []) ps /\ concat ps = c;
  gi_max : Z.of_nat (length c) <= MAXFILE * 512;
}.

(** The entry of the root directory for the file given as [a], inode [n]. *)
Definition entry_for (n : nat) (a : list Z) : list Z := dirent (inum_of n) (strncpy DIRSIZ (skip_underscore a)).
Fixpoint entries (n : nat) (args : list (list Z)) : list Z :=
  match args with [] => [] | a :: args' => entry_for n a ++ entries (S n) args' end.

Lemma add_file_run s r M a c : let L := (T_DIR, r) :: M in
  rest s L -> given a c -> (length L < 207)%nat -> Z.of_nat (length (r ++ entry_for (length L) a)) <= MAXFILE * 512 ->
  let L' := (T_DIR, r ++ entry_for (length L) a) :: M ++ [(T_FILE, c)] in
  meta + needs (lay L') <= FSSIZE ->
  exists s', add_file room host ROOTINO a s = (Ok tt, s') /\ rest s' L' /\ fixed s s'.
Proof using Hroom.
  intros L HR [Hn (ps & Ho & Hne & <-) Hc] Hlen Hmax L' Hfull. unfold add_file. rewrite bool_decide_eq_true_2 by done.
  rewrite (bind_ok (assert_ true) _ s s tt eq_refl), Ho. cbv zeta.
  destruct (ialloc_run s L T_FILE HR ltac:(unfold T_FILE; lia) Hlen) as (s1 & H1 & HR1 & F1). rewrite (bind_ok _ _ _ _ _ H1).
  set (r' := r ++ entry_for (length L) a) in *. set (n := length L) in *.
  assert (Hneeds : needs (lay ((T_DIR, r') :: M ++ [(T_FILE, [])])) <= needs (lay L')).
  { unfold L'. rewrite !needs_lay_cons. pose proof (need_mono T_FILE [] T_FILE (concat ps) (blocks_mono [] (concat ps) ltac:(cbn; lia))). 
    change (needs (lay [(T_FILE, [])])) with (need (afile_of T_FILE []) + 0). change (needs (lay [(T_FILE, concat ps)])) with (need (afile_of T_FILE (concat ps)) + 0). lia. }
  destruct (iappend_run s1 (L ++ [(T_FILE, [])]) 0 T_DIR r (entry_for n a) HR1 eq_refl Hmax) as (s2 & H2 & HR2 & F2); [change (meta + needs (lay ((T_DIR, r') :: M ++ [(T_FILE, [])])) <= FSSIZE); lia|].
  change (inum_of 0) with ROOTINO in H2. rewrite (bind_ok _ _ _ _ _ H2).
  change (<[0%nat := (T_DIR, r ++ entry_for n a)]> (L ++ [(T_FILE, [])])) with ((T_DIR, r') :: M ++ [(T_FILE, [])]) in HR2.
  assert (Hins : <[n := (T_FILE, [] ++ concat ps)]> ((T_DIR, r') :: M ++ [(T_FILE, [])]) = L').
  { unfold n, L, L'. cbn [length app]. change (<[S ?k := ?x]> (?y :: ?l)) with (y :: <[k := x]> l). f_equal. by rewrite insert_app_r_alt, Nat.sub_diag by lia. }
  destruct (copy_file_run ps s2 _ n T_FILE [] HR2) as (s3 & H3 & HR3 & F3); [| |done|by rewrite Hins|].
  { unfold n, L. cbn [length]. change ((?x :: ?l) !! S ?k) with (l !! k). by rewrite lookup_app_r, Nat.sub_diag by lia. }
  { done. }
  rewrite Hins in HR3. exists s3. split; [done|]. split; [done|]. intros k Hk. by rewrite F3, F2, F1.
Qed.

Definition with_type (c : list Z) : Z * list Z := (T_FILE, c).

Lemma length_entries args : forall n, length (entries n args) = (16 * length args)%nat.
Proof using Type.
  induction args as [|a args IH]; intros n; cbn [entries length]; [done|]. rewrite length_app, IH. unfold entry_for, dirent.
  rewrite length_app, length_le_bytes, length_strncpy. unfold DIRSIZ. lia.
Qed.

Lemma needs_lay_nonneg L : 0 <= needs (lay L).
Proof using Type.
  induction L as [|[t c] L IH]; [done|]. change (needs (lay ((t, c) :: L))) with (need (afile_of t c) + needs (lay L)).
  assert (0 <= blocks c) by (apply Z.div_pos; lia). unfold need. cbn. destruct (_ <? _); lia.
Qed.

Lemma add_files_run args : forall cs s r M,
  let n := S (length M) in
  rest s ((T_DIR, r) :: M) -> Forall2 given args cs -> (n + length args <= 207)%nat ->
  Z.of_nat (length (r ++ entries n args)) <= MAXFILE * 512 ->
  let L' := (T_DIR, r ++ entries n args) :: M ++ (with_type <$> cs) in
  meta + needs (lay L') <= FSSIZE ->
  exists s', add_files room host ROOTINO args s = (Ok tt, s') /\ rest s' L' /\ fixed s s'.
Proof using Hroom.
  induction args as [|a args IH]; intros cs s r M n HR Hg Hlen Hmax L' Hfull; inversion Hg as [|? c ? cs' Ha Hg']; subst; cbn [add_files].
  - exists s. split; [done|]. split; [|done]. unfold L'. cbn [entries fmap list_fmap]. by rewrite !app_nil_r.
  - cbn [entries length] in *. rewrite app_assoc in Hmax. set (r1 := r ++ entry_for n a) in *.
    assert (HL : L' = (T_DIR, r1 ++ entries (S n) args) :: (M ++ [(T_FILE, c)]) ++ (with_type <$> cs')).
    { unfold L', r1. cbn [entries]. by rewrite fmap_cons, <- !app_assoc. }
    rewrite HL in *. clear HL L'.
    assert (Hneeds : needs (lay ((T_DIR, r1) :: M ++ [(T_FILE, c)])) <= needs (lay ((T_DIR, r1 ++ entries (S n) args) :: (M ++ [(T_FILE, c)]) ++ (with_type <$> cs')))).
    { rewrite (needs_lay_cons _ _ (M ++ [(T_FILE, c)])), needs_lay_cons, lay_app, needs_app.
      pose proof (need_mono T_DIR r1 T_DIR (r1 ++ entries (S n) args) (blocks_mono r1 (r1 ++ entries (S n) args) ltac:(rewrite length_app; lia))).
      pose proof (needs_lay_nonneg (with_type <$> cs')). lia. }
    destruct (add_file_run s r M a c HR Ha) as (s1 & H1 & HR1 & F1).
    { cbn. lia. }
    { change (length ((T_DIR, r) :: M)) with n. fold r1. rewrite length_app in Hmax. lia. }
    { change (length ((T_DIR, r) :: M)) with n. fold r1. lia. }
    rewrite (bind_ok _ _ _ _ _ H1). change (length ((T_DIR, r) :: M)) with n in HR1. fold r1 in HR1.
    assert (Hn : S (length (M ++ [(T_FILE, c)])) = S n) by (rewrite length_app; cbn; unfold n; lia).
    destruct (IH cs' s1 r1 (M ++ [(T_FILE, c)])) as (s' & H' & HR' & F'); rewrite ?Hn; try done; [lia|].
    rewrite Hn in HR'. exists s'. split; [done|]. split; [done|]. intros k Hk. by rewrite F', F1.
Qed.

(** ** The whole program *)

Lemma zero_image_run n : forall i s, nsect s = i -> 0 <= i -> i + Z.of_nat n <= FSSIZE -> (forall b, img s b = zero_block) ->
  exists s', zero_image room n i s = (Ok tt, s') /\ (forall b, img s' b = zero_block) /\ nsect s' = i + Z.of_nat n
    /\ msb s' = msb s /\ freeinode s' = freeinode s /\ freeblock s' = freeblock s.
Proof using Hroom.
  induction n as [|n IH]; intros i s Hs Hi Hn Hz; cbn [zero_image].
  - exists s. split; [done|]. split; [done|]. split; [lia|done].
  - set (s1 := set_img (bupd (img s) i zero_block) (i + 1) s).
    assert (Hw : wsect room i (replicate BSIZE 0) s = (Ok tt, s1)).
    { unfold wsect. mrun. rewrite sector_id by lia. rewrite (proj2 (Z.leb_gt _ _)) by lia. unfold s1. by rewrite Z.max_r by lia. }
    rewrite (bind_ok _ _ _ _ _ Hw). destruct (IH (i + 1) s1) as (s' & H1 & H2 & H3 & H4 & H5 & H6); [done|lia|lia| |].
    { intros b. cbn. unfold bupd. by destruct (b =? i). }
    exists s'. split; [done|]. split; [done|]. split; [lia|done].
Qed.

Definition super_block : block := splice (replicate BSIZE 0) 0 (superblock_bytes the_sb).

Lemma layout_run : exists s, layout room start = (Ok tt, s) /\ rest s [] /\ img s 1 = super_block.
Proof using Hroom.
  unfold layout. cbv zeta. change (2 + nlog + ninodeblocks + nbitmap) with meta.
  change (mkSb _ _ _ _ _ _ _) with the_sb. do 3 rewrite (bind_ok (modify _) _ _ _ tt eq_refl).
  set (s0 := set_freeblock _ _).
  destruct (zero_image_run (Z.to_nat FSSIZE) 0 s0) as (s1 & H1 & H2 & H3 & H4 & H5 & H6); [done|done|done|done|].
  rewrite (bind_ok _ _ _ _ _ H1). change (0 + Z.of_nat (Z.to_nat FSSIZE)) with FSSIZE in H3. change (FSSIZE - meta) with 941.
  exists (put_sect 1 super_block s1). split; [apply wsect_run; [done|unfold FSSIZE; lia]|]. split; [|apply bupd_eq].
  split; [|done|done|exact H5|exact H3|exact H4|cbn; lia].
  split; try done.
  - intros b. cbn [img put_sect set_img]. unfold bupd. destruct (b =? 1); [done|]. by rewrite H2.
  - intros b Hb. cbn [img put_sect set_img freeblock] in *. rewrite H6 in Hb. cbn in Hb. rewrite bupd_ne; [apply H2|]. unfold meta in Hb. lia.
Qed.

Lemma set_bits_spec n : forall i x, 0 <= i -> i + Z.of_nat n <= BPB -> length x = BSIZE ->
  length (set_bits n i x) = BSIZE /\
  forall b, 0 <= b -> bit (set_bits n i x) b = ((i <=? b) && (b <? i + Z.of_nat n)) || bit x b.
Proof using Type.
  induction n as [|n IH]; intros i x Hi Hn Hx; cbn [set_bits].
  - split; [done|]. intros b Hb. destruct (Z.leb_spec i b), (Z.ltb_spec b (i + Z.of_nat 0)); cbn; try done; lia.
  - change (<[Z.to_nat (i / 8) := Z.lor (bit_byte x i) (bit_mask i)]> x) with (set_bit x i).
    assert (Hl : length (set_bit x i) = BSIZE) by (unfold set_bit; by rewrite length_insert).
    destruct (IH (i + 1) (set_bit x i)) as [H1 H2]; [lia|lia|done|]. split; [done|]. intros b Hb.
    rewrite H2, bit_set_bit by (done || lia).
    destruct (Z.leb_spec (i + 1) b), (Z.ltb_spec b (i + 1 + Z.of_nat n)), (Z.leb_spec i b), (Z.ltb_spec b (i + Z.of_nat (S n))), (Z.eqb_spec b i); cbn; try done; lia.
Qed.

(** The image when [mkfs] ends: the files [L], the first the root directory. *)
Record built (s : mkstate) (L : list (Z * list Z)) : Prop := mkBuilt {
  bu_image : image (img s) (din_of (img s)) (freeblock s) (lay L);
  bu_size : forall j t c, L !! S j = Some (t, c) -> get32 (din_of (img s) (S j)) 8 = Z.of_nat (length c);
  bu_root : forall t c, L !! 0%nat = Some (t, c) -> get32 (din_of (img s) 0) 8 = (Z.of_nat (length c) / 512 + 1) * 512;
  bu_head : forall j t c, L !! j = Some (t, c) -> slice (din_of (img s) j) 0 8 = head t;
  bu_super : img s 1 = super_block;
  bu_bits : forall b, 0 <= b -> bit (img s 58) b = (b <? freeblock s);
}.

(** The end of [main]: the size of the root directory and the bitmap. *)
Definition finish : MM unit :=
  din <- rinode ROOTINO ;;
  let off := xint (get32 din 8) in
  let off := u32 ((off / bsize + 1) * bsize) in
  winode room ROOTINO (put32 din 8 (xint off)) ;;
  used <- gets freeblock ;;
  balloc room used.

(** The root inode with the size rounded up, and the bitmap block. *)
Definition root_din (s : mkstate) (r : list Z) : list Z :=
  put32 (din_of (img s) 0) 8 ((Z.of_nat (length r) / 512 + 1) * 512).
Definition bitmap_block (used : Z) : block := set_bits (Z.to_nat used) 0 (replicate BSIZE 0).

Lemma finish_built s s' r M : let L := (T_DIR, r) :: M in
  rest s L -> img s 1 = super_block -> Z.of_nat (length r) <= MAXFILE * 512 -> freeblock s <= FSSIZE ->
  freeblock s' = freeblock s -> (forall b, img s' b = bupd (img (put_inode 0 (root_din s r) s)) 58 (bitmap_block (freeblock s)) b) ->
  built s' L.
Proof using Type.
  intros L [HI Hsize Hhead Hfree Hs Hm Hfew] Hsup Hr Hfb Hfb' Him. set (din := root_din s r) in *.
  pose proof (im_len _ _ _ _ HI) as Hl. pose proof (im_din _ _ _ _ HI 0%nat _ eq_refl) as Hd0. unfold sizeof_dinode in Hd0.
  pose proof (image_start _ _ _ _ HI) as Hst. unfold meta, FSSIZE in *.
  destruct (set_bits_spec (Z.to_nat (freeblock s)) 0 (replicate BSIZE 0)) as [Hbl Hbits]; [lia|unfold BPB; lia|done|].
  assert (Hdl : length din = sizeof_dinode) by (unfold din, root_din; rewrite length_put32; [done|lia]).
  assert (Himg : forall b, b <> 58 -> img s' b = img (put_inode 0 din s) b) by (intros b Hb; rewrite Him; by apply bupd_ne).
  assert (Hdin : forall j, (j < 207)%nat -> din_of (img s') j = din_of (img (put_inode 0 din s)) j).
  { intros j Hj. unfold din_of. rewrite Himg; [done|]. pose proof (iblock_range j Hj). lia. }
  assert (Hdin0 : din_of (img s') 0 = din) by (rewrite Hdin by lia; by apply put_inode_eq).
  assert (HdinS : forall j x, L !! S j = Some x -> din_of (img s') (S j) = din_of (img s) (S j)).
  { intros j x Hj. apply lookup_lt_Some in Hj. rewrite Hdin by lia. by apply put_inode_ne. }
  split.
  - rewrite Hfb'. apply (image_meta (img s) (img s') (din_of (img s)) _ _ _ HI).
    + intros b Hb. unfold meta in Hb. rewrite Himg by lia. apply put_inode_else; lia.
    + intros b. destruct (Z.eq_dec b 58) as [->|Hb]; [by rewrite Him, bupd_eq|]. rewrite Himg by done. by apply put_inode_length.
    + intros [|j] f Hj.
      * rewrite Hdin0. split; [done|]. intros q Hq. unfold daddr, din, root_din. apply get32_put32_ne; lia.
      * destruct (lay_lookup_inv _ _ _ Hj) as (t & c & Hj' & _). rewrite (HdinS j _ Hj'). split; [by apply (im_din _ _ _ _ HI _ f)|done].
  - intros j t c Hj. rewrite (HdinS j _ Hj). by eapply Hsize.
  - intros t c [= <- <-]. rewrite Hdin0. unfold din, root_din. rewrite get32_put32 by lia. apply u32_id.
    unfold MAXFILE, NDIRECT, NINDIRECT in Hr. split; [apply Z.mul_nonneg_nonneg; [|lia]; apply Z.add_nonneg_nonneg; [apply Z.div_pos|]; lia|].
    pose proof (Z.mul_div_le (Z.of_nat (length r)) 512 ltac:(lia)). lia.
  - intros [|j] t c Hj; [|rewrite (HdinS j _ Hj); by eapply Hhead]. rewrite Hdin0, <- (Hhead 0%nat t c Hj). unfold din, root_din, put32.
    apply slice_splice_ne; rewrite length_le_bytes; lia.
  - rewrite Himg, put_inode_else by lia. done.
  - intros b Hb. rewrite Hfb', Him, bupd_eq. unfold bitmap_block. rewrite Hbits by done.
    assert (Hz : bit (replicate BSIZE 0) b = false) by (unfold bit, bit_byte; rewrite nth_zero; apply Z.bits_0).
    rewrite Hz, orb_false_r, (proj2 (Z.leb_le 0 b)) by done. rewrite Z.add_0_l, Z2Nat.id by lia. done.
Qed.

Lemma finish_run s r M : let L := (T_DIR, r) :: M in
  rest s L -> img s 1 = super_block -> Z.of_nat (length r) <= MAXFILE * 512 -> freeblock s <= FSSIZE ->
  exists s', finish s = (Ok tt, s') /\ built s' L.
Proof using Hroom.
  intros L HR Hsup Hr Hfb. pose proof HR as [HI Hsize Hhead Hfree Hs Hm Hfew]. unfold finish. change ROOTINO with (inum_of 0).
  rewrite (bind_ok _ _ _ _ _ (rinode_run 0 s Hs Hm ltac:(lia))). cbv zeta. rewrite (Hsize 0%nat T_DIR r eq_refl).
  pose proof Hr as Hr2. unfold MAXFILE, NDIRECT, NINDIRECT in Hr2. change bsize with 512. set (n := Z.of_nat (length r)) in *.
  pose proof (Z.mul_div_le n 512 ltac:(lia)). assert (0 <= n / 512) by (apply Z.div_pos; lia).
  rewrite (xint_id n), u32_id, xint_id by lia. change (put32 (din_of (img s) 0) 8 ((n / 512 + 1) * 512)) with (root_din s r).
  rewrite (bind_ok _ _ _ _ _ (winode_run 0 (root_din s r) s Hs Hm ltac:(lia))). set (s1 := put_inode 0 (root_din s r) s).
  rewrite (bind_ok (gets freeblock) _ s1 s1 (freeblock s) eq_refl). unfold balloc. rewrite (bind_ok (modify _) _ s1 _ tt eq_refl).
  change (bsize * 8) with 4096. rewrite (proj2 (Z.ltb_lt _ _)) by (unfold FSSIZE in Hfb; lia).
  rewrite (bind_ok (assert_ true) _ _ _ tt eq_refl). cbv zeta. match goal with |- context [print ?m s1] => set (s2 := print m s1) end.
  rewrite (bind_ok (gets msb) _ s2 s2 the_sb) by (unfold gets; cbn; by rewrite Hm). rewrite (bind_ok (modify _) _ s2 _ tt eq_refl).
  match goal with |- context [print ?m s2] => set (s3 := print m s2) end.
  eexists. split; [apply wsect_run; [done|unfold FSSIZE; cbn; lia]|]. by apply (finish_built s _ r M).
Qed.

(** The root directory for the files [args]. *)
Definition root_bytes (args : list (list Z)) : list Z :=
  dirent 1 (46 :: replicate 13 0) ++ dirent 1 (46 :: 46 :: replicate 12 0) ++ entries 1 args.
Definition image_files (args cs : list (list Z)) : list (Z * list Z) := (T_DIR, root_bytes args) :: (with_type <$> cs).

Lemma length_root args : length (root_bytes args) = (16 * (2 + length args))%nat.
Proof using Type. unfold root_bytes. rewrite !length_app, length_entries. change (length (dirent 1 _)) with 16%nat. lia. Qed.

Lemma main_run create prog image args cs :
  create image = true -> Forall2 given args cs -> (length args <= 198)%nat -> meta + needs (lay (image_files args cs)) <= FSSIZE ->
  exists s, main room create host (prog :: image :: args) start = (Ok tt, s) /\ built s (image_files args cs).
Proof using Hroom.
  intros Hc Hg Hn Hfull. unfold main. do 2 (erewrite (bind_ok (assert_ _)); [|reflexivity]). rewrite Hc. cbn [negb].
  destruct layout_run as (s0 & H0 & HR0 & Hsup). rewrite (bind_ok _ _ _ _ _ H0).
  destruct (ialloc_run s0 [] T_DIR HR0 ltac:(unfold T_DIR; lia) ltac:(cbn; lia)) as (s1 & H1 & HR1 & F1).
  rewrite (bind_ok _ _ _ _ _ H1). change (inum_of (length (@nil (Z * list Z)))) with ROOTINO. rewrite (bind_ok (assert_ (ROOTINO =? ROOTINO)) _ s1 s1 tt eq_refl).
  set (d1 := dirent 1 (46 :: replicate 13 0)). set (d2 := dirent 1 (46 :: 46 :: replicate 12 0)).
  change (dirent ROOTINO (46 :: replicate 13 0)) with d1. change (dirent ROOTINO (46 :: 46 :: replicate 12 0)) with d2.
  assert (Hroot : (length (root_bytes args) <= 3200)%nat) by (rewrite length_root; lia).
  unfold image_files in Hfull. assert (Hsmall : forall r, (length r <= length (root_bytes args))%nat -> meta + needs (lay [(T_DIR, r)]) <= FSSIZE).
  { intros r Hr. pose proof (need_mono T_DIR r T_DIR (root_bytes args) (blocks_mono _ _ Hr)). pose proof (needs_lay_cons T_DIR (root_bytes args) [] (with_type <$> cs)) as E.
    cbn [app] in E. rewrite E in Hfull. pose proof (needs_lay_nonneg (with_type <$> cs)). change (needs (lay [])) with 0 in Hfull.
    change (needs (lay [(T_DIR, r)])) with (need (afile_of T_DIR r) + 0). lia. }
  destruct (iappend_run s1 [(T_DIR, [])] 0 T_DIR [] d1 HR1 eq_refl) as (s2 & H2 & HR2 & F2); [by vm_compute|by apply Hsmall; rewrite length_root; cbn; lia|].
  change (inum_of 0) with ROOTINO in H2. rewrite (bind_ok _ _ _ _ _ H2). cbn [app insert list_insert] in HR2.
  destruct (iappend_run s2 [(T_DIR, d1)] 0 T_DIR d1 d2 HR2 eq_refl) as (s3 & H3 & HR3 & F3); [by vm_compute|by apply Hsmall; rewrite length_root; cbn; lia|].
  change (inum_of 0) with ROOTINO in H3. rewrite (bind_ok _ _ _ _ _ H3). cbn [insert list_insert] in HR3.
  assert (Hr : (d1 ++ d2) ++ entries 1 args = root_bytes args) by (by rewrite <- app_assoc).
  destruct (add_files_run args cs s3 (d1 ++ d2) [] HR3 Hg) as (s4 & H4 & HR4 & F4).
  - cbn. lia.
  - cbn [length]. rewrite Hr. unfold MAXFILE, NDIRECT, NINDIRECT. lia.
  - cbn [length app]. by rewrite Hr.
  - cbn [length app] in HR4. rewrite Hr in HR4. rewrite (bind_ok _ _ _ _ _ H4).
    destruct (finish_run s4 (root_bytes args) (with_type <$> cs) HR4) as (s5 & H5 & HB); [| | |by exists s5].
    + rewrite F4, F3, F2, F1 by lia. done.
    + unfold MAXFILE, NDIRECT, NINDIRECT. lia.
    + rewrite (im_fb _ _ _ _ (re_image _ _ HR4)). exact Hfull.
Qed.
End Code.
