(* ===== verification/MkfsRead.v ===== *)
(** The kernel reads the image that [mkfs] builds: the files through their inodes, the
    names through the root directory, and the blocks in use through the bitmap. *)

From Stdlib Require Import ZArith Lia.
From stdpp Require Import base list strings.
From S2P Require Import Prelude Bytes Blk Log Sleeplock Fs FsInv FsAlloc FsDir Mkfs MkfsInv.
Local Open Scope Z_scope.

(** A kernel state whose disk is the image, the super block read by [readsb]. *)
Record mounted (s : mkstate) (fs : fstate) : Prop := mkMounted {
  mo_view : forall n, fview fs n = img s n;
  mo_sb : sb fs = superblock_of (img s 1);
  mo_held : fheld fs = [];
}.

(** Cache entry [ip] holds inode [inum] as [ilock] reads it from the disk. *)
Record loaded (fs : fstate) (ip : nat) (inum : Z) (i : inode) : Prop := mkLoaded {
  lo_slot : icache fs !! ip = Some i;
  lo_dev : i_dev i = ROOTDEV;
  lo_disk : dinode_get (fview fs (IBLOCK inum (sb fs))) (dip inum) i = i;
}.

Lemma get32_slice x o n k : (k + 4 <= n)%nat -> get32 (slice x o n) k = get32 x (o + k).
Proof. intros H. unfold get32. by rewrite slice_slice. Qed.

Lemma get16_slice x o n k : (k + 2 <= n)%nat -> get16 (slice x o n) k = get16 x (o + k).
Proof. intros H. unfold get16. by rewrite slice_slice. Qed.

Section Read.
Context (s : mkstate) (L : list (Z * list Z)) (fs : fstate) (HB : built s L) (HM : mounted s fs).

Lemma mounted_sb : sb fs = the_sb.
Proof using HB HM. rewrite (mo_sb _ _ HM), (bu_super _ _ HB). by vm_compute. Qed.

Lemma mounted_used b : 0 <= b < FSSIZE -> used fs b = (b <? freeblock s).
Proof using HB HM.
  intros Hb. unfold used. rewrite mounted_sb. unfold BBLOCK, BPB, FSSIZE in *. rewrite Z.div_small, Z.mod_small by lia. cbn [Z.add the_sb sb_bmapstart].
  rewrite (mo_view _ _ HM). apply (bu_bits _ _ HB). lia.
Qed.

Section File.
Context (ip j : nat) (t : Z) (c : list Z) (i : inode) (Hj : L !! j = Some (t, c)) (Hi : loaded fs ip (inum_of j) i) (Ht : 0 <= t < 2 ^ 15).
Let din : list Z := din_of (img s) j.

Lemma loaded_inode : i_size i = get32 din 8 /\ i_type i = t /\ forall q, 0 <= q <= NDIRECT -> addr_of i q = daddr din q.
Proof using All.
  pose proof (lo_disk _ _ _ _ Hi) as Hd. rewrite mounted_sb, (mo_view _ _ HM) in Hd. unfold din, din_of.
  set (x := img s (IBLOCK (inum_of j) the_sb)) in *. set (o := dip (inum_of j)) in *.
  split; [|split].
  - rewrite get32_slice by (unfold sizeof_dinode; lia). by rewrite <- Hd.
  - pose proof (bu_head _ _ HB j t c Hj) as Hh. unfold din_of in Hh. fold x o in Hh. rewrite slice_slice in Hh by (unfold sizeof_dinode; lia).
    apply (f_equal (fun l => s16 (get16 l 0))) in Hh. rewrite get16_slice in Hh by lia. rewrite !Nat.add_0_r in Hh.
    assert (Hg : get16 (head t) 0 = u16 t).
    { unfold get16, slice, head. rewrite drop_0, take_app_length' by by rewrite length_le_bytes. apply le_value_bytes. }
    rewrite Hg, s16_u16 in Hh by lia. rewrite <- Hh. by rewrite <- Hd.
  - intros q Hq. unfold daddr. rewrite get32_slice by (unfold sizeof_dinode, NDIRECT in *; lia). rewrite <- Hd. unfold addr_of, dinode_get. cbn [i_addrs].
    unfold dinode_addrs. rewrite nth_lookup, list_lookup_fmap, lookup_seq_lt by (unfold NDIRECT in *; lia). cbn. f_equal. lia.
Qed.

Lemma loaded_faddr bn : 0 <= bn < MAXFILE -> faddr fs i bn = slot (img s) din bn.
Proof using All.
  intros Hb. destruct loaded_inode as (_ & _ & Ha). unfold faddr, slot. destruct (Z.ltb_spec bn NDIRECT); [apply Ha; lia|].
  rewrite (proj2 (Z.eqb_neq bn MAXFILE)) by lia. rewrite (mo_view _ _ HM), Ha by (unfold NDIRECT; lia). done.
Qed.

Lemma loaded_file : file_ok fs ip i (blocks c) /\ forall o, 0 <= o < blocks c * 512 -> fbyte fs i o = nth (Z.to_nat o) c 0.
Proof using All.
  pose proof (bu_image _ _ HB) as HI. pose proof (lay_lookup _ _ _ _ Hj) as Hl. pose proof (im_fits _ _ _ _ HI j _ Hl) as [_ Hnb Hind]. cbn in Hnb, Hind.
  assert (Hhas : forall bn, 0 <= bn < blocks c -> has (afile_of t c) bn) by (intros bn Hb; by left).
  assert (Hr : forall bn, 0 <= bn < blocks c -> faddr fs i bn = slot (img s) din bn) by (intros bn Hb; apply loaded_faddr; lia).
  destruct loaded_inode as (_ & _ & Ha).
  assert (Hi12 : NDIRECT < blocks c -> has (afile_of t c) MAXFILE) by (intros H; right; split; [done|by apply Hind]).
  assert (H12 : addr_of i NDIRECT = slot (img s) din MAXFILE) by (rewrite Ha by (unfold NDIRECT; lia); done).
  split.
  - split; try apply Hi; try apply HM; try lia.
    + intros Hn. rewrite H12. pose proof (im_slot _ _ _ _ HI j _ MAXFILE Hl (Hi12 Hn)) as H. unfold meta in H. fold din in H. lia.
    + intros bn Hb. rewrite Hr by done. pose proof (im_slot _ _ _ _ HI j _ bn Hl (Hhas bn Hb)) as H. unfold meta in H. fold din in H. lia.
    + intros bn bn' Hb Hb'. rewrite !Hr by done. intros E. by destruct (im_inj _ _ _ _ HI j _ bn j _ bn' Hl Hl (Hhas _ Hb) (Hhas _ Hb') E).
    + intros bn Hb. rewrite Hr, H12 by done. intros E. destruct (Z.ltb_spec NDIRECT (blocks c)) as [Hn|Hn].
      * destruct (im_inj _ _ _ _ HI j _ bn j _ MAXFILE Hl Hl (Hhas _ Hb) (Hi12 Hn) E) as [_ E2]. lia.
      * assert (H0 : slot (img s) din MAXFILE = 0).
        { apply (im_none _ _ _ _ HI j (afile_of t c)); [done|by right; left|]. intros [?|[_ H]]; cbn in *; [lia|]. by apply Z.ltb_lt in H; lia. }
        pose proof (im_slot _ _ _ _ HI j _ bn Hl (Hhas bn Hb)) as H. unfold meta in H. fold din in H. lia.
    + intros bn Hb. rewrite (mo_view _ _ HM). apply HI.
  - intros o Ho. unfold fbyte. change bsize with 512.
    rewrite Hr by (split; [apply Z.div_pos; lia|apply Z.div_lt_upper_bound; lia]). rewrite (mo_view _ _ HM). by apply (im_byte _ _ _ _ HI j (afile_of t c)).
Qed.

(** Any part of the file, as far as its blocks go. *)
Lemma loaded_bytes o n : 0 <= o -> o + Z.of_nat n <= blocks c * 512 ->
  fbytes fs i o n = slice (c ++ replicate (Z.to_nat (blocks c * 512) - length c) 0) (Z.to_nat o) n.
Proof using All.
  intros Ho Hn. pose proof (im_fits _ _ _ _ (bu_image _ _ HB) j _ (lay_lookup _ _ _ _ Hj)) as [Hc _ _]. cbn in Hc.
  apply list_eq. intros k. unfold fbytes. rewrite list_lookup_fmap, lookup_slice. case_decide as Hk.
  - rewrite lookup_seq_lt by done. cbn. rewrite (proj2 loaded_file) by lia.
    set (l := c ++ _). assert (Hl : nth (Z.to_nat (o + Z.of_nat k)) l 0 = nth (Z.to_nat (o + Z.of_nat k)) c 0).
    { unfold l. destruct (decide (Z.to_nat (o + Z.of_nat k) < length c)%nat); [by apply app_nth1|].
      rewrite app_nth2, nth_zero by lia. by rewrite nth_overflow by lia. }
    rewrite <- Hl. replace (Z.to_nat o + k)%nat with (Z.to_nat (o + Z.of_nat k)) by lia.
    destruct (lookup_lt_is_Some_2 l (Z.to_nat (o + Z.of_nat k))) as [b Hb].
    { unfold l. rewrite length_app, length_replicate. lia. }
    rewrite Hb. by rewrite (nth_lookup_Some _ _ _ _ Hb).
  - by rewrite lookup_seq_ge by lia.
Qed.
End File.
End Read.

(** ** The root directory *)

(** The names and inode numbers of the files [args], from inode [n + 1] on. *)
Fixpoint named (n : nat) (args : list (list Z)) : list (list Z * Z) :=
  match args with [] => [] | a :: args' => (skip_underscore a, inum_of n) :: named (S n) args' end.
Definition root_names (args : list (list Z)) : list (list Z * Z) := ([46], 1) :: ([46; 46], 1) :: named 1 args.
Definition entry_bytes (p : list Z * Z) : list Z := new_entry p.1 p.2.

Lemma entries_named args : forall n, (n + length args < 1000)%nat -> entries n args = concat (entry_bytes <$> named n args).
Proof.
  induction args as [|a args IH]; intros n Hn; cbn [entries named]; [done|]. cbn [length] in Hn. rewrite fmap_cons. cbn [concat].
  rewrite IH by lia. f_equal. unfold entry_for, dirent, entry_bytes, new_entry. cbn [fst snd]. rewrite xshort_id; [done|]. unfold inum_of. lia.
Qed.

Lemma root_named args : (length args <= 198)%nat -> root_bytes args = concat (entry_bytes <$> root_names args).
Proof.
  intros H. unfold root_bytes, root_names. rewrite entries_named by (cbn; lia). rewrite !fmap_cons. cbn [concat]. done.
Qed.

Lemma slice_concat (l : list (list Z)) z : forall k x, Forall (fun e => length e = 16%nat) l -> l !! k = Some x -> slice (concat l ++ z) (16 * k) 16 = x.
Proof.
  induction l as [|e l IH]; intros k x Hl Hk; [done|]. inversion Hl as [|? ? He Hl']; subst. cbn [concat]. rewrite <- app_assoc. unfold slice.
  destruct k as [|k].
  - injection Hk as ->. rewrite Nat.mul_0_r, drop_0, take_app_length' by done. done.
  - replace (16 * S k)%nat with (length e + 16 * k)%nat by lia. rewrite drop_app_add. by apply IH.
Qed.

Lemma named_inum args : forall n k nm inum, named n args !! k = Some (nm, inum) -> inum = inum_of (n + k).
Proof.
  induction args as [|a args IH]; intros n k nm inum H; [done|]. destruct k as [|k]; cbn in H.
  - injection H as <- <-. f_equal. lia.
  - rewrite (IH _ _ _ _ H). f_equal. lia.
Qed.

Lemma length_named args : forall n, length (named n args) = length args.
Proof. induction args as [|a args IH]; intros n; cbn; [done|]. by rewrite IH. Qed.

Lemma root_inum args k nm inum : (length args <= 198)%nat -> root_names args !! k = Some (nm, inum) -> 0 < inum < 2 ^ 16 /\ (k < 2 + length args)%nat.
Proof.
  intros Hn H. split.
  - destruct k as [|[|k]]; [by injection H as <- <-..|]. apply (named_inum args 1 k) in H as E. apply lookup_lt_Some in H as Hk.
    cbn [length root_names] in Hk. rewrite length_named in Hk. unfold inum_of in E. lia.
  - apply lookup_lt_Some in H. cbn [length root_names] in H. by rewrite length_named in H.
Qed.

Lemma named_bytes args : forall n k p, Forall bytes args -> named n args !! k = Some p -> bytes p.1.
Proof.
  induction args as [|a args IH]; intros n k p Hb H; [done|]. apply Forall_cons in Hb as [Ha Hb]. destruct k as [|k]; [|by apply (IH (S n) k)].
  injection H as <-. unfold skip_underscore. cbn [fst]. destruct a as [|c a]; [done|]. destruct (c =? 95); [|done]. by apply Forall_cons in Ha as [_ ?].
Qed.

Section Root.
Context (s : mkstate) (args cs : list (list Z)) (fs : fstate) (HB : built s (image_files args cs)) (HM : mounted s fs).
Context (dp : nat) (d : inode) (Hd : loaded fs dp ROOTINO d) (Hn : (length args <= 198)%nat) (Hpart : ((2 + length args) mod 32 <> 0)%nat).
Context (Hbytes : Forall bytes args) (Huniq : NoDup ((fun p => strncpy DIRSIZ p.1) <$> root_names args)).

Lemma root_blocks : blocks (root_bytes args) = Z.of_nat (length (root_bytes args)) / 512 + 1.
Proof using Hn Hpart.
  destruct (blocks_spec (root_bytes args)) as [[E _]|[_ E]]; [|done]. exfalso. apply Hpart. rewrite length_root in E.
  apply Nat2Z.inj. rewrite Nat2Z.inj_mod. pose proof (Z.div_mod (Z.of_nat (16 * (2 + length args))) 512 ltac:(lia)) as Hm. rewrite E in Hm.
  symmetry. apply (Z.mod_unique _ _ (Z.of_nat (16 * (2 + length args)) / 512)); lia.
Qed.

Lemma root_dir : dir_ok fs dp d (blocks (root_bytes args)) (Z.to_nat (blocks (root_bytes args) * 32)).
Proof using All.
  destruct (loaded_inode s _ fs HB HM dp 0 T_DIR (root_bytes args) d eq_refl Hd ltac:(unfold T_DIR; lia)) as (Hs & Ht & _).
  destruct (loaded_file s _ fs HB HM dp 0 T_DIR (root_bytes args) d eq_refl Hd ltac:(unfold T_DIR; lia)) as [Hf _].
  rewrite (bu_root _ _ HB T_DIR (root_bytes args) eq_refl), <- root_blocks in Hs. pose proof (fo_max _ _ _ _ Hf).
  assert (0 <= blocks (root_bytes args)) by (apply Z.div_pos; lia).
  split; [done|done|lia|]. change bsize with 512. lia.
Qed.

Lemma root_entry k p : root_names args !! k = Some p ->
  dir_entry fs d (16 * Z.of_nat k) = entry_bytes p /\ (k < Z.to_nat (blocks (root_bytes args) * 32))%nat.
Proof using All.
  intros Hk. destruct p as [nm inum]. destruct (root_inum args k nm inum Hn Hk) as [_ Hkn].
  assert (Hlen : 16 * Z.of_nat (2 + length args) <= blocks (root_bytes args) * 512).
  { pose proof (im_fits _ _ _ _ (bu_image _ _ HB) 0%nat _ (lay_lookup (image_files args cs) 0 T_DIR (root_bytes args) eq_refl)) as [H _ _]. cbn [a_bytes a_nb afile_of] in H. rewrite length_root in H. lia. }
  split; [|lia]. unfold dir_entry.
  rewrite (loaded_bytes s _ fs HB HM dp 0 T_DIR (root_bytes args) d eq_refl Hd ltac:(unfold T_DIR; lia) (16 * Z.of_nat k) 16) by lia.
  rewrite (root_named args Hn) at 1. replace (Z.to_nat (16 * Z.of_nat k)) with (16 * k)%nat by lia. apply slice_concat.
  - apply Forall_fmap, Forall_true. intros p. apply length_new_entry.
  - by rewrite list_lookup_fmap, Hk.
Qed.

Lemma root_bytes_ok k p : root_names args !! k = Some p -> bytes p.1.
Proof using Hbytes Hn Hpart.
  destruct k as [|[|k]]; [intros [= <-]; unfold bytes, byte_ok; cbn; repeat (apply Forall_cons; split; [lia|]); by apply Forall_nil..|].
  intros H. exact (named_bytes args 1 k p Hbytes H).
Qed.

Lemma root_lookup dev_read k nm inum : root_names args !! k = Some (nm, inum) ->
  dirlookup dev_read dp nm fs = (ip <- iget ROOTDEV inum ;; ret (Some (ip, 16 * Z.of_nat k))) fs.
Proof using All.
  intros Hk. rewrite (dirlookup_run dev_read fs dp d _ _ nm root_dir). destruct (root_entry k _ Hk) as [He Hlt].
  destruct (root_inum args k nm inum Hn Hk) as [Hi _]. unfold dir_find.
  assert (His : forall k' p, root_names args !! k' = Some p -> entry_is nm (dir_entry fs d (16 * Z.of_nat k')) = bool_decide (k' = k)).
  { intros k' [nm' inum'] Hk'. rewrite (proj1 (root_entry k' _ Hk')). unfold entry_bytes. cbn [fst snd].
    rewrite (new_entry_is dev_read (fun _ => None)); [|by apply (root_bytes_ok k' (nm', inum'))|by apply (root_bytes_ok k (nm, inum))|by apply (root_inum args k' nm')].
    apply bool_decide_ext. split; [|intros ->; congruence]. intros E.
    apply (NoDup_lookup _ k' k (strncpy DIRSIZ nm') Huniq); rewrite list_lookup_fmap; [by rewrite Hk'|by rewrite Hk; cbn; f_equal]. }
  rewrite (dir_scan_at fs d (entry_is nm) _ 0 k Hlt).
  - rewrite Z.add_0_l, He. unfold entry_bytes. cbn [fst snd]. by rewrite new_entry_inum.
  - intros k' Hk'. rewrite Z.add_0_l. destruct (lookup_lt_is_Some_2 (root_names args) k') as [p Hp]; [apply lookup_lt_Some in Hk; lia|].
    rewrite (His k' p Hp). apply bool_decide_eq_false_2. lia.
  - rewrite Z.add_0_l, (His k _ Hk). by apply bool_decide_eq_true_2.
Qed.
End Root.

(** Reading a file of the image. *)
Lemma file_read s L fs ip j c i dev_read off n :
  built s L -> mounted s fs -> L !! S j = Some (T_FILE, c) -> loaded fs ip (inum_of (S j)) i ->
  0 <= off -> 0 <= n -> off + n <= Z.of_nat (length c) ->
  readi dev_read ip off n fs = (Ok (n, slice c (Z.to_nat off) (Z.to_nat n)), fs).
Proof.
  intros HB HM Hj Hi Ho Hn Hend. assert (Ht : 0 <= T_FILE < 2 ^ 15) by (unfold T_FILE; lia).
  destruct (loaded_inode s L fs HB HM ip (S j) T_FILE c i Hj Hi Ht) as (Hs & Hty & _). rewrite (bu_size _ _ HB j T_FILE c Hj) in Hs.
  destruct (loaded_file s L fs HB HM ip (S j) T_FILE c i Hj Hi Ht) as [Hf _].
  pose proof (im_fits _ _ _ _ (bu_image _ _ HB) (S j) _ (lay_lookup _ _ _ _ Hj)) as [Hb _ _]. cbn [a_bytes a_nb afile_of] in Hb.
  rewrite (readi_run dev_read fs ip i (blocks c) off n Hf) by (rewrite ?Hty, ?Hs; change bsize with 512; done || lia).
  rewrite (loaded_bytes s L fs HB HM ip (S j) T_FILE c i Hj Hi Ht) by lia. do 3 f_equal.
  apply list_eq. intros k. rewrite !lookup_slice. case_decide; [|done]. apply lookup_app_l. lia.
Qed.

(** C21: [mkfs] ends with success whenever the files given fit (at most 198 files, none
    larger than [MAXFILE] blocks, all together no more blocks than the image has), and
    the kernel finds on the image what was given: the bitmap marks exactly the blocks
    [mkfs] used; any part of any file reads back with the bytes of the host's file; and
    the root directory maps ".", ".." and each name, without its leading underscore, to
    the inode of its file, the names being distinct. *)
Theorem mkfs_image_readable room create host prog image args cs :
  FSSIZE <= room -> create image = true -> Forall2 (given host) args cs -> (length args <= 198)%nat ->
  meta + needs (lay (image_files args cs)) <= FSSIZE ->
  exists s, main room create host (prog :: image :: args) start = (Ok tt, s) /\ forall fs, mounted s fs ->
    (forall b, 0 <= b < FSSIZE -> used fs b = (b <? freeblock s))
    /\ (forall j c ip i dev_read off n, cs !! j = Some c -> loaded fs ip (Z.of_nat j + 2) i ->
          0 <= off -> 0 <= n -> off + n <= Z.of_nat (length c) ->
          readi dev_read ip off n fs = (Ok (n, slice c (Z.to_nat off) (Z.to_nat n)), fs))
    /\ (forall dp d dev_read k name inum, ((2 + length args) mod 32 <> 0)%nat -> Forall bytes args ->
          NoDup ((fun p => strncpy DIRSIZ p.1) <$> root_names args) ->
          loaded fs dp ROOTINO d -> root_names args !! k = Some (name, inum) ->
          dirlookup dev_read dp name fs = (ip <- iget ROOTDEV inum ;; ret (Some (ip, 16 * Z.of_nat k))) fs).
Proof.
  intros Hroom Hc Hg Hn Hfull. destruct (main_run room Hroom host create prog image args cs Hc Hg Hn Hfull) as (s & Hrun & HB).
  exists s. split; [exact Hrun|]. intros fs HM. split; [|split].
  - intros b Hb. by eapply mounted_used.
  - intros j c ip i dev_read off n Hj Hi. apply (file_read s (image_files args cs) fs ip j c i dev_read off n HB HM).
    + change (image_files args cs !! S j) with ((with_type <$> cs) !! j). by rewrite list_lookup_fmap, Hj.
    + unfold inum_of. by replace (Z.of_nat (S j) + 1) with (Z.of_nat j + 2) by lia.
  - intros dp d dev_read k name inum Hpart Hb Hu Hd. by eapply root_lookup.
Qed.

Module Runs.
(** One file, [_cat], of 600 bytes read in two pieces. *)
Definition arg : list Z := [95; 99; 97; 116].
Definition content : list Z := replicate 512 7 ++ replicate 88 9.
Definition host (a : list Z) : option (list (list Z)) :=
  if decide (a = arg) then Some [replicate 512 7; replicate 88 9] else None.

Lemma arg_given : given host arg content.
Proof.
  split.
  - apply (bool_decide_unpack _). vm_compute. exact I.
  - exists [replicate 512 7; replicate 88 9]. split; [vm_compute; reflexivity|]. split; [repeat constructor; discriminate|vm_compute; reflexivity].
  - vm_compute. discriminate.
Qed.
End Runs.

Lemma mkfs_image_readable_witness : exists s, main 1000 (fun _ => true) Runs.host [[]; []; Runs.arg] start = (Ok tt, s)
  /\ forall fs, mounted s fs -> used fs 62 = (62 <? freeblock s)
     /\ forall dp d, loaded fs dp ROOTINO d -> dirlookup (fun _ => None) dp [99; 97; 116] fs =
          (ip <- iget ROOTDEV 2 ;; ret (Some (ip, 16 * Z.of_nat 2))) fs.
Proof.
  destruct (mkfs_image_readable 1000 (fun _ => true) Runs.host [] [] [Runs.arg] [Runs.content]
    ltac:(vm_compute; discriminate) eq_refl ltac:(repeat constructor; apply Runs.arg_given)
    ltac:(vm_compute; lia) ltac:(vm_compute; discriminate)) as (s & Hrun & H).
  exists s. split; [exact Hrun|]. intros fs HM. destruct (H fs HM) as (Hb & _ & Hl).
  split; [apply Hb; split; vm_compute; [discriminate|reflexivity]|].
  intros dp d Hd. apply (Hl dp d (fun _ => None) 2%nat [99; 97; 116] 2); [vm_compute; discriminate| | |exact Hd|vm_compute; reflexivity].
  - unfold bytes, Runs.arg, byte_ok. repeat (apply Forall_cons; split; [repeat (apply Forall_cons; split; [lia|]); by apply Forall_nil|]). by apply Forall_nil.
  - apply (bool_decide_unpack _). vm_compute. exact I.
Defined.
