(* ===== verification/Mp.v ===== *)
(** Finding the processors: [src/mp.c] and [src/mp.h], over the physical memory in
    which the BIOS left its tables, mapped at [KERNBASE].

    A pointer is a virtual address.  The state holds the memory, the variables the
    file sets ([cpus], [ncpu], [ioapicid], [lapic]) and the port accesses. *)

From Stdlib Require Import ZArith Lia.
From stdpp Require Import base list strings.
From S2P Require Import Prelude Kalloc.
Local Open Scope Z_scope.

Definition NCPU : Z := 1.

Record mpstate := mkMp {
  pm : mem;
  apicids : list Z;
  ncpu : Z;
  ioapicid : Z;
  lapic : Z;
  imcr : Z;
  outs : list (Z * Z);
}.
Definition set_apicids x n s := mkMp (pm s) x n (ioapicid s) (lapic s) (imcr s) (outs s).
Definition set_ioapicid x s := mkMp (pm s) (apicids s) (ncpu s) x (lapic s) (imcr s) (outs s).
Definition set_lapic x s := mkMp (pm s) (apicids s) (ncpu s) (ioapicid s) x (imcr s) (outs s).
Definition out (p v : Z) s := mkMp (pm s) (apicids s) (ncpu s) (ioapicid s) (lapic s) (imcr s) (outs s ++ [(p, v)]).

Abbreviation PM := (M mpstate).

(** [struct mp], [struct mpconf], [struct mpproc] and [struct mpioapic]: the sizes, and
    the fields the code reads. *)
Definition sizeof_mp : Z := 16.
Definition sizeof_mpconf : Z := 44.
Definition sizeof_mpproc : Z := 20.
Definition sizeof_mpioapic : Z := 8.
Definition mem16 (m : mem) (a : Z) : Z := m a + 256 * m (a + 1).
Definition mem32 (m : mem) (a : Z) : Z := mem16 m a + 65536 * mem16 m (a + 2).
Definition mp_physaddr (m : mem) (p : Z) : Z := mem32 m (p + 4).
Definition mp_imcrp (m : mem) (p : Z) : Z := m (p + 12).
Definition conf_length (m : mem) (p : Z) : Z := mem16 m (p + 4).
Definition conf_version (m : mem) (p : Z) : Z := m (p + 6).
Definition conf_lapicaddr (m : mem) (p : Z) : Z := mem32 m (p + 36).

(** [memcmp(p, l, n) == 0] for a string constant of [n] characters. *)
Fixpoint same_bytes (m : mem) (p : Z) (l : list Z) : bool :=
  match l with [] => true | c :: l' => (m p =? c) && same_bytes m (p + 1) l' end.

(** [sum]: the loop, and the cut to [uchar]. *)
Fixpoint sum_loop (m : mem) (addr : Z) (n : nat) (acc : Z) : Z :=
  match n with O => acc | S k => sum_loop m (addr + 1) k (acc + m addr) end.
Definition sum (m : mem) (addr len : Z) : Z := u8 (sum_loop m addr (Z.to_nat len) 0).

Definition is_mp (m : mem) (p : Z) : bool := same_bytes m p [95; 77; 80; 95] && (sum m p sizeof_mp =? 0).

(** The loop of [mpsearch1], over [n] places from [p] on; 0 is the null pointer. *)
Fixpoint mpsearch_loop (m : mem) (p : Z) (n : nat) : Z :=
  match n with
  | O => 0
  | S k => if is_mp m p then p else mpsearch_loop m (p + sizeof_mp) k
  end.
Definition mpsearch1 (m : mem) (a len : Z) : Z := mpsearch_loop m (P2V a) (Z.to_nat (len / sizeof_mp)).

Definition mpsearch (m : mem) : Z :=
  let bda := P2V 1024 in
  let p := Z.shiftl (Z.lor (Z.shiftl (m (bda + 15)) 8) (m (bda + 14))) 4 in
  let mp :=
    if nz p then mpsearch1 m p 1024
    else
      let p := Z.lor (Z.shiftl (m (bda + 20)) 8) (m (bda + 19)) * 1024 in
      mpsearch1 m (u32 (p - 1024)) 1024 in
  if nz mp then mp else mpsearch1 m 983040 65536.

(** The table and the pointer to it, if both are as they should be. *)
Definition mpconfig (m : mem) : option (Z * Z) :=
  let mp := mpsearch m in
  if (mp =? 0) || (mp_physaddr m mp =? 0) then None else
  let conf := P2V (mp_physaddr m mp) in
  if negb (same_bytes m conf [80; 67; 77; 80]) then None else
  if negb (conf_version m conf =? 1) && negb (conf_version m conf =? 4) then None else
  if negb (sum m conf (conf_length m conf) =? 0) then None else
  Some (conf, mp).

(** The loop over the entries of the table.  The [break] of the default case leaves the
    [switch], not the loop. *)
Fixpoint mpinit_loop (fuel : nat) (p e : Z) (ismp : bool) : PM bool :=
  match fuel with
  | O => spin
  | S k =>
      if p <? e then
        m <- gets pm ;;
        if m p =? 0 then
          n <- gets ncpu ;;
          (if n <? NCPU then
             l <- gets apicids ;; modify (set_apicids (<[Z.to_nat n := m (p + 1)]> l) (n + 1))
           else ret tt) ;;
          mpinit_loop k (p + sizeof_mpproc) e ismp
        else if m p =? 2 then
          modify (set_ioapicid (m (p + 1))) ;;
          mpinit_loop k (p + sizeof_mpioapic) e ismp
        else if (m p =? 1) || (m p =? 3) || (m p =? 4) then
          mpinit_loop k (p + 8) e ismp
        else mpinit_loop k p e false
      else ret ismp
  end.

Definition mpinit (fuel : nat) : PM unit :=
  m <- gets pm ;;
  match mpconfig m with
  | None => panic "Expect to run on an SMP"
  | Some (conf, mp) =>
      modify (set_lapic (conf_lapicaddr m conf)) ;;
      ismp <- mpinit_loop fuel (conf + sizeof_mpconf) (conf + conf_length m conf) true ;;
      if negb ismp then panic "Didn't find a suitable machine" else
      if nz (mp_imcrp m mp) then
        modify (out 34 112) ;;
        x <- gets imcr ;;
        modify (out 35 (Z.lor x 1))
      else ret tt
  end.

(** ** The search *)

(** [mpsearch1] returns the first place with the signature and a checksum of 0. *)
Lemma mpsearch_loop_spec m n : forall p,
  (exists k, (k < n)%nat /\ mpsearch_loop m p n = p + 16 * Z.of_nat k /\ is_mp m (p + 16 * Z.of_nat k) = true
     /\ forall i, (i < k)%nat -> is_mp m (p + 16 * Z.of_nat i) = false)
  \/ mpsearch_loop m p n = 0 /\ forall i, (i < n)%nat -> is_mp m (p + 16 * Z.of_nat i) = false.
Proof.
  induction n as [|n IH]; intros p; cbn [mpsearch_loop]; [right; split; [done|lia]|].
  assert (H0 : p + 16 * Z.of_nat 0 = p) by lia. assert (HS : forall i, p + 16 * Z.of_nat (S i) = p + sizeof_mp + 16 * Z.of_nat i) by (unfold sizeof_mp; lia).
  destruct (is_mp m p) eqn:E.
  - left. exists 0%nat. rewrite H0. split; [lia|]. split; [done|]. split; [done|lia].
  - assert (Hi : forall P : nat -> Prop, P 0%nat -> (forall i, P (S i)) -> forall i, P i) by (intros P ? ? [|i]; auto).
    destruct (IH (p + sizeof_mp)) as [(k & Hk & H1 & H2 & H3)|[H1 H2]]; [left; exists (S k)|right]; rewrite ?HS.
    + split; [lia|]. split; [done|]. split; [done|]. intros [|i] Hi'; [by rewrite H0|]. rewrite HS. apply H3. lia.
    + split; [done|]. intros [|i] Hi'; [by rewrite H0|]. rewrite HS. apply H2. lia.
Qed.

(** ** The table *)

(** The entries of a table from [p] to [e]. *)
Inductive entry := EProc (apicid : Z) | EIoapic (apicno : Z) | EOther.
Definition entry_size (x : entry) : Z := match x with EProc _ => 20 | _ => 8 end.
Definition entry_at (m : mem) (p : Z) (x : entry) : Prop :=
  match x with
  | EProc id => m p = 0 /\ m (p + 1) = id
  | EIoapic id => m p = 2 /\ m (p + 1) = id
  | EOther => m p = 1 \/ m p = 3 \/ m p = 4
  end.
Inductive table (m : mem) (e : Z) : Z -> list entry -> Prop :=
| table_nil p : e <= p -> table m e p []
| table_cons p x l : p < e -> entry_at m p x -> table m e (p + entry_size x) l -> table m e p (x :: l).

Definition procs (l : list entry) : list Z := omap (fun x => match x with EProc id => Some id | _ => None end) l.
Definition ioapics (l : list entry) : list Z := omap (fun x => match x with EIoapic id => Some id | _ => None end) l.

(** The processors recorded so far. *)
Definition recorded (s : mpstate) : list Z := take (Z.to_nat (ncpu s)) (apicids s).

Record mp_read (s s' : mpstate) (l : list entry) : Prop := mkRead {
  mr_cpus : recorded s' = take (Z.to_nat NCPU) (recorded s ++ procs l);
  mr_ncpu : ncpu s' = Z.min NCPU (ncpu s + Z.of_nat (length (procs l)));
  mr_ioapic : ioapicid s' = List.last (ioapics l) (ioapicid s);
  mr_rest : pm s' = pm s /\ lapic s' = lapic s /\ imcr s' = imcr s /\ outs s' = outs s;
}.

Lemma last_cons_default {A} (l : list A) x d : List.last (x :: l) d = List.last l x.
Proof. revert x d. induction l as [|y l IH]; intros x d; [done|]. change (List.last (x :: y :: l) d) with (List.last (y :: l) d). by rewrite !IH. Qed.

(** One more processor. *)
Lemma record_cpu s n id : ncpu s = n -> 0 <= n < NCPU -> length (apicids s) = Z.to_nat NCPU ->
  recorded (set_apicids (<[Z.to_nat n := id]> (apicids s)) (n + 1) s) = recorded s ++ [id].
Proof.
  intros <- Hn Hl. unfold recorded. cbn [ncpu apicids set_apicids]. replace (Z.to_nat (ncpu s + 1)) with (S (Z.to_nat (ncpu s))) by lia.
  rewrite (take_S_r _ _ id) by (apply list_lookup_insert_eq; lia). by rewrite take_insert_ge by lia.
Qed.

(** A table of known entries is read to its end: the first [NCPU] processors are recorded
    in order, and the last I/O APIC. *)
Lemma mpinit_loop_run m e p l : table m e p l -> forall fuel s, (length l < fuel)%nat -> pm s = m ->
  0 <= ncpu s <= NCPU -> length (apicids s) = Z.to_nat NCPU ->
  exists s', mpinit_loop fuel p e true s = (Ok true, s') /\ mp_read s s' l.
Proof.
  assert (Hrec : forall s, 0 <= ncpu s <= NCPU -> length (apicids s) = Z.to_nat NCPU -> length (recorded s) = Z.to_nat (ncpu s)).
  { intros s Hn Hl. unfold recorded. rewrite length_take. lia. }
  induction 1 as [p He|p x l Hp Hx _ IH]; intros [|fuel] s Hf Hm Hn Hl; [lia| |lia|]; cbn [mpinit_loop].
  - rewrite (proj2 (Z.ltb_ge _ _)) by done. exists s. split; [done|]. pose proof (Hrec s Hn Hl).
    split; [|change (length (procs [])) with 0%nat; lia|done|done]. cbn [procs omap list_omap]. rewrite app_nil_r, take_ge by lia. done.
  - rewrite (proj2 (Z.ltb_lt _ _)) by done. rewrite (bind_ok (gets pm) _ s s m) by (unfold gets; by rewrite Hm). cbn [length] in Hf.
    destruct x as [id|id|]; cbn [entry_at] in Hx.
    + destruct Hx as [-> ->]. change (0 =? 0) with true. cbv iota. rewrite (bind_ok (gets ncpu) _ s s _ eq_refl).
      destruct (Z.ltb_spec (ncpu s) NCPU) as [Hlt|Hge].
      * rewrite bind_bind, (bind_ok (gets apicids) _ s s _ eq_refl), (bind_ok (modify _) _ s _ tt eq_refl). set (s1 := set_apicids _ _ s).
        destruct (IH fuel s1) as (s' & Hr & [H1 H2 H3 H4]); [lia|done|cbn; lia|cbn; by rewrite length_insert|].
        exists s'. split; [exact Hr|]. split; [|rewrite H2; cbn [procs omap list_omap length ncpu set_apicids]; unfold NCPU in *; cbn; lia|exact H3|exact H4].
        rewrite H1. unfold s1. rewrite record_cpu by (done || lia). by rewrite <- app_assoc.
      * rewrite (bind_ok (ret tt) _ s s tt eq_refl). destruct (IH fuel s) as (s' & Hr & [H1 H2 H3 H4]); [lia|done|lia|done|].
        exists s'. split; [exact Hr|]. split; [|rewrite H2; cbn [procs omap list_omap length ncpu set_apicids]; unfold NCPU in *; cbn; lia|exact H3|exact H4].
        pose proof (Hrec s Hn Hl). rewrite H1, !take_app_le by lia. done.
    + destruct Hx as [-> ->]. change (2 =? 0) with false. change (2 =? 2) with true. cbv iota. rewrite (bind_ok (modify _) _ s _ tt eq_refl).
      destruct (IH fuel (set_ioapicid id s)) as (s' & Hr & [H1 H2 H3 H4]); [lia|done|done|done|].
      exists s'. split; [exact Hr|]. split; [exact H1|exact H2| |exact H4]. cbn [ioapics omap list_omap]. by rewrite last_cons_default.
    + assert (E : (m p =? 0) = false /\ (m p =? 2) = false /\ (m p =? 1) || (m p =? 3) || (m p =? 4) = true) by (destruct Hx as [->|[->| ->]]; done).
      destruct E as (-> & -> & ->). destruct (IH fuel s) as (s' & Hr & [H1 H2 H3 H4]); [lia|done|done|done|].
      exists s'. split; [exact Hr|]. by split.
Qed.

(** [mpinit] on a valid table: the processors and the I/O APIC are recorded, and the
    local APIC's address. *)
Theorem mpinit_reads_table s conf mp l fuel :
  mpconfig (pm s) = Some (conf, mp) -> table (pm s) (conf + conf_length (pm s) conf) (conf + 44) l -> (length l < fuel)%nat ->
  ncpu s = 0 -> length (apicids s) = Z.to_nat NCPU ->
  exists s', mpinit fuel s = (Ok tt, s') /\ recorded s' = take (Z.to_nat NCPU) (procs l)
    /\ ncpu s' = Z.min NCPU (Z.of_nat (length (procs l))) /\ ioapicid s' = List.last (ioapics l) (ioapicid s)
    /\ lapic s' = conf_lapicaddr (pm s) conf.
Proof.
  intros Hc Ht Hf Hn Hl. unfold mpinit. rewrite (bind_ok (gets pm) _ s s _ eq_refl), Hc. rewrite (bind_ok (modify _) _ s _ tt eq_refl).
  set (s1 := set_lapic _ s). destruct (mpinit_loop_run _ _ _ _ Ht fuel s1) as (s' & Hr & [H1 H2 H3 (_ & H4 & _)]); [done|done|cbn; unfold NCPU; lia|done|].
  rewrite (bind_ok _ _ _ _ _ Hr). cbn [negb]. assert (Hr0 : recorded s1 = []) by (unfold recorded, s1; cbn; by rewrite Hn).
  rewrite Hr0 in H1. change (ncpu s1) with (ncpu s) in H2. rewrite Hn in H2.
  destruct (nz (mp_imcrp (pm s) mp)).
  - do 2 (rewrite (bind_ok (modify _) _ s' _ tt eq_refl) || rewrite (bind_ok (gets imcr) _ _ _ _ eq_refl)). eexists. split; [done|]. by repeat split.
  - exists s'. split; [done|]. by repeat split.
Qed.

(** An entry of an unknown type is never passed: [mpinit] does not end, and its message
    about an unsuitable machine is not reached. *)
Theorem mpinit_unknown_entry p e s : p < e -> pm s p ∉ [0; 1; 2; 3; 4] ->
  forall fuel ismp, mpinit_loop fuel p e ismp s = (Spin, s).
Proof.
  intros Hp Hx. induction fuel as [|fuel IH]; intros ismp; cbn [mpinit_loop]; [done|]. rewrite (proj2 (Z.ltb_lt _ _)) by done.
  rewrite (bind_ok (gets pm) _ s s _ eq_refl).
  assert (Hne : forall k, k ∈ [0; 1; 2; 3; 4] -> (pm s p =? k) = false) by (intros k Hk; apply Z.eqb_neq; intros E; by rewrite E in Hx).
  rewrite !Hne by (rewrite !elem_of_cons; tauto). cbn [orb]. apply IH.
Qed.
