(* ===== verification/Rtc.v ===== *)
(** The clock chip as [src/lapic.c] reads it ([cmos_read], [fill_rtcdate], [cmostime]),
    and the I/O APIC of [src/ioapic.c].

    The clock chip is a parameter: [rtc n r] is what register [r] holds at the [n]th
    access; the state is the number of accesses so far.  [microdelay] does nothing. *)

From Stdlib Require Import ZArith Lia.
From stdpp Require Import base list strings.
From S2P Require Import Prelude.
Local Open Scope Z_scope.

(** ** The date *)

Definition CMOS_STATA : Z := 10.
Definition CMOS_STATB : Z := 11.
Definition CMOS_UIP : Z := Z.shiftl 1 7.
Definition SECS : Z := 0.
Definition MINS : Z := 2.
Definition HOURS : Z := 4.
Definition DAY : Z := 7.
Definition MONTH : Z := 8.
Definition YEAR : Z := 9.

Record rtcdate := mkDate { second : Z; minute : Z; hour : Z; day : Z; month : Z; year : Z }.
#[export] Instance rtcdate_eq_dec : EqDecision rtcdate.
Proof. solve_decision. Defined.

Section Chip.
Context (rtc : nat -> Z -> Z).
Abbreviation RM := (M nat).

Definition cmos_read (reg : Z) : RM Z :=
  n <- get ;; modify S ;; ret (rtc n reg).

Definition fill_rtcdate : RM rtcdate :=
  s <- cmos_read SECS ;;
  m <- cmos_read MINS ;;
  h <- cmos_read HOURS ;;
  d <- cmos_read DAY ;;
  mo <- cmos_read MONTH ;;
  y <- cmos_read YEAR ;;
  ret (mkDate s m h d mo y).

Fixpoint cmostime_loop (fuel : nat) : RM rtcdate :=
  match fuel with
  | O => spin
  | S k =>
      t1 <- fill_rtcdate ;;
      a <- cmos_read CMOS_STATA ;;
      if nz (Z.land a CMOS_UIP) then cmostime_loop k else
      t2 <- fill_rtcdate ;;
      if bool_decide (t1 = t2) then ret t1 else cmostime_loop k
  end.

(** [CONV]. *)
Definition conv (x : Z) : Z := u32 (Z.shiftr x 4 * 10 + Z.land x 15).
Definition conv_date (t : rtcdate) : rtcdate :=
  mkDate (conv (second t)) (conv (minute t)) (conv (hour t)) (conv (day t)) (conv (month t)) (conv (year t)).

Definition cmostime (fuel : nat) : RM rtcdate :=
  sb <- cmos_read CMOS_STATB ;;
  let bcd := Z.land sb (Z.shiftl 1 2) =? 0 in
  t1 <- cmostime_loop fuel ;;
  let t1 := if bcd then conv_date t1 else t1 in
  ret (mkDate (second t1) (minute t1) (hour t1) (day t1) (month t1) (u32 (year t1 + 2000))).

(** ** The chip stands still often enough *)

(** The date shown by six accesses from the [n]th on. *)
Definition shown (n : nat) : rtcdate :=
  mkDate (rtc n SECS) (rtc (n + 1) MINS) (rtc (n + 2) HOURS) (rtc (n + 3) DAY) (rtc (n + 4) MONTH) (rtc (n + 5) YEAR).
Definition updating (n : nat) : bool := nz (Z.land (rtc n CMOS_STATA) CMOS_UIP).

Lemma fill_run n : fill_rtcdate n = (Ok (shown n), (n + 6)%nat).
Proof. unfold fill_rtcdate, cmos_read, shown. mrun. repeat f_equal; lia. Qed.

(** The accesses after one turn of the loop that does not end it. *)
Definition next_turn (n : nat) : nat := if updating (n + 6) then n + 7 else n + 13.
(** Whether the turn that starts at access [n] ends the loop. *)
Definition settled (n : nat) : bool := negb (updating (n + 6)) && bool_decide (shown n = shown (n + 7)).

Lemma loop_turn k n : cmostime_loop (S k) n = if settled n then (Ok (shown n), (n + 13)%nat) else cmostime_loop k (next_turn n).
Proof.
  cbn [cmostime_loop]. rewrite (bind_ok _ _ _ _ _ (fill_run n)). unfold settled, next_turn, updating.
  rewrite (bind_ok (cmos_read CMOS_STATA) _ (n + 6)%nat (n + 7)%nat (rtc (n + 6) CMOS_STATA)) by (unfold cmos_read; mrun; f_equal; lia).
  destruct (nz _); cbn [negb andb]; [done|]. rewrite (bind_ok _ _ _ _ _ (fill_run (n + 7))).
  replace (n + 7 + 6)%nat with (n + 13)%nat by lia. by case_bool_decide.
Qed.

Fixpoint turns (k n : nat) : nat := match k with O => n | S k' => turns k' (next_turn n) end.

(** The loop ends at the first turn in which two readings agree with no update in
    progress between them, and its date is the one both readings show. *)
Lemma loop_run k : forall n fuel, (k < fuel)%nat -> settled (turns k n) = true -> (forall i, (i < k)%nat -> settled (turns i n) = false) ->
  cmostime_loop fuel n = (Ok (shown (turns k n)), (turns k n + 13)%nat).
Proof.
  induction k as [|k IH]; intros n [|fuel] Hf Hs Hb; try lia; rewrite loop_turn.
  - cbn in Hs. by rewrite Hs.
  - pose proof (Hb O ltac:(lia)) as H0. cbn in H0. rewrite H0. apply IH; [lia|done|]. intros i Hi. apply (Hb (S i)). lia.
Qed.

(** A chip that shows the date [t] in binary coded decimal, or in binary. *)
Definition bcd_of (x : Z) : Z := 16 * (x / 10) + x mod 10.
Lemma conv_bcd x : 0 <= x < 100 -> conv (bcd_of x) = x.
Proof.
  intros H. unfold conv, bcd_of. pose proof (Z.div_mod x 10 ltac:(lia)). pose proof (Z.mod_pos_bound x 10 ltac:(lia)).
  assert (0 <= x / 10 < 10) by (split; [apply Z.div_pos; lia|apply Z.div_lt_upper_bound; lia]).
  rewrite Z.shiftr_div_pow2 by lia. change (2 ^ 4) with 16. change 15 with (Z.ones 4). rewrite Z.land_ones by lia. change (2 ^ 4) with 16.
  replace (16 * (x / 10) + x mod 10) with (x mod 10 + x / 10 * 16) by lia. rewrite Z.div_add, Z.mod_add, (Z.div_small (x mod 10)), (Z.mod_small (x mod 10)) by lia.
  rewrite u32_id; lia.
Qed.
End Chip.

Definition date_ok (t : rtcdate) : Prop :=
  0 <= second t < 100 /\ 0 <= minute t < 100 /\ 0 <= hour t < 100 /\ 0 <= day t < 100 /\ 0 <= month t < 100 /\ 0 <= year t < 100.
Definition bcd_date (t : rtcdate) : rtcdate :=
  mkDate (bcd_of (second t)) (bcd_of (minute t)) (bcd_of (hour t)) (bcd_of (day t)) (bcd_of (month t)) (bcd_of (year t)).

(** [cmostime] returns as soon as the chip stands still for a turn, whatever it did
    before: the result is the date [t] that both readings show, decoded according to
    status register B, in the 21st century. *)
Theorem cmostime_date rtc k fuel t : let n := turns rtc k 1 in
  settled rtc n = true -> (forall i, (i < k)%nat -> settled rtc (turns rtc i 1) = false) -> (k < fuel)%nat -> date_ok t ->
  shown rtc n = (if Z.land (rtc 0%nat CMOS_STATB) 4 =? 0 then bcd_date t else t) ->
  fst (cmostime rtc fuel 0%nat) = Ok (mkDate (second t) (minute t) (hour t) (day t) (month t) (2000 + year t)).
Proof.
  intros n Hs Hb Hf (H1 & H2 & H3 & H4 & H5 & H6) Ht. unfold cmostime.
  rewrite (bind_ok (cmos_read rtc CMOS_STATB) _ 0%nat 1%nat (rtc 0%nat CMOS_STATB) eq_refl). cbv zeta.
  rewrite (bind_ok _ _ _ _ _ (loop_run rtc k 1 fuel Hf Hs Hb)). fold n. rewrite Ht. change (Z.shiftl 1 2) with 4.
  destruct (_ =? 0); cbn; rewrite ?conv_bcd by done; do 2 f_equal; rewrite u32_id; lia.
Qed.

(** ** The I/O APIC *)

(** The identification and version registers, the words of the redirection table, and
    whether the message about the id was printed. *)
Record ioapic := mkIo { io_id : Z; io_ver : Z; io_table : Z -> Z; io_warned : bool }.
Abbreviation IOM := (M ioapic).

Definition REG_TABLE : Z := 16.
Definition INT_DISABLED : Z := 65536.
Definition T_IRQ0 : Z := 32.

(** [ioapicwrite] of a register of the table. *)
Definition ioapicwrite (reg data : Z) : IOM unit :=
  modify (fun s => mkIo (io_id s) (io_ver s) (upd (io_table s) reg (u32 data)) (io_warned s)).

Fixpoint ioapicinit_loop (i : Z) (n : nat) : IOM unit :=
  match n with
  | O => ret tt
  | S k =>
      ioapicwrite (REG_TABLE + 2 * i) (Z.lor INT_DISABLED (T_IRQ0 + i)) ;;
      ioapicwrite (REG_TABLE + 2 * i + 1) 0 ;;
      ioapicinit_loop (i + 1) k
  end.

Definition ioapicinit (ioapicid : Z) : IOM unit :=
  s <- get ;;
  let maxintr := Z.land (Z.shiftr (io_ver s) 16) 255 in
  let id := Z.shiftr (io_id s) 24 in
  (if negb (id =? ioapicid) then modify (fun s => mkIo (io_id s) (io_ver s) (io_table s) true) else ret tt) ;;
  ioapicinit_loop 0 (Z.to_nat (maxintr + 1)).

Definition ioapicenable (irq cpunum : Z) : IOM unit :=
  ioapicwrite (REG_TABLE + 2 * irq) (T_IRQ0 + irq) ;;
  ioapicwrite (REG_TABLE + 2 * irq + 1) (Z.shiftl cpunum 24).

(** Interrupt [i]: its vector and processor when it is let through. *)
Definition routed (s : ioapic) (i : Z) : option (Z * Z) :=
  let low := io_table s (REG_TABLE + 2 * i) in
  if nz (Z.land low INT_DISABLED) then None else Some (Z.land low 255, Z.shiftr (io_table s (REG_TABLE + 2 * i + 1)) 24).

Lemma routed_write s i reg v : reg <> REG_TABLE + 2 * i -> reg <> REG_TABLE + 2 * i + 1 ->
  routed (mkIo (io_id s) (io_ver s) (upd (io_table s) reg v) (io_warned s)) i = routed s i.
Proof. intros H1 H2. unfold routed. cbn. by rewrite !upd_ne by congruence. Qed.

Lemma disabled_entry i : 0 <= i < 256 -> nz (Z.land (u32 (Z.lor INT_DISABLED (T_IRQ0 + i))) INT_DISABLED) = true.
Proof.
  intros Hi. unfold nz, INT_DISABLED, T_IRQ0. apply negb_true_iff, Z.eqb_neq. intros E.
  apply (f_equal (fun z => Z.testbit z 16)) in E. unfold u32 in E. rewrite Z.land_spec, testbit_mod_pow2, Z.lor_spec in E by lia. by cbn in E.
Qed.

Lemma init_loop_run n : forall i s, 0 <= i -> i + Z.of_nat n <= 256 -> exists s', ioapicinit_loop i n s = (Ok tt, s')
  /\ (forall j, i <= j < i + Z.of_nat n -> routed s' j = None) /\ (forall j, j < i \/ i + Z.of_nat n <= j -> routed s' j = routed s j).
Proof.
  induction n as [|n IH]; intros i s Hi Hn; cbn [ioapicinit_loop]; [exists s; split; [done|split; [lia|done]]|].
  do 2 rewrite (bind_ok (ioapicwrite _ _) _ _ _ tt eq_refl). set (s1 := mkIo _ _ _ _).
  assert (H1 : forall j, j <> i -> routed s1 j = routed s j) by (intros j Hj; unfold s1; rewrite !routed_write by lia; done).
  assert (H2 : routed s1 i = None).
  { unfold routed, s1. cbn [io_table]. rewrite upd_ne, upd_eq, disabled_entry by lia. done. }
  destruct (IH (i + 1) s1) as (s' & Hr & Hin & Hout); [lia|lia|]. exists s'. split; [exact Hr|]. split.
  - intros j Hj. destruct (Z.eq_dec j i) as [->|Hne]; [rewrite Hout by lia; done|]. apply Hin. lia.
  - intros j Hj. rewrite Hout by lia. apply H1. lia.
Qed.

(** After [ioapicinit] no interrupt reaches a processor. *)
Theorem ioapicinit_run s id : let maxintr := Z.land (Z.shiftr (io_ver s) 16) 255 in
  exists s1, ioapicinit id s = (Ok tt, s1) /\ forall j, 0 <= j <= maxintr -> routed s1 j = None.
Proof.
  intros maxintr. assert (Hmax : 0 <= maxintr < 256).
  { unfold maxintr. change 255 with (Z.ones 8). rewrite Z.land_ones by lia. apply Z.mod_pos_bound. lia. }
  set (s0 := if negb (Z.shiftr (io_id s) 24 =? id) then mkIo (io_id s) (io_ver s) (io_table s) true else s).
  destruct (init_loop_run (Z.to_nat (maxintr + 1)) 0 s0) as (s1 & Hr & Hin & _); [lia|lia|].
  exists s1. split; [|intros j Hj; apply Hin; lia]. unfold ioapicinit. mrun. fold maxintr. unfold s0 in Hr. by destruct (negb _).
Qed.

(** [ioapicenable] lets one interrupt through, at vector [T_IRQ0 + irq] of the processor
    asked for, and no other. *)
Theorem ioapicenable_run s irq cpu : 0 <= irq < 224 -> 0 <= cpu < 256 ->
  exists s', ioapicenable irq cpu s = (Ok tt, s') /\ forall j, routed s' j = if j =? irq then Some (T_IRQ0 + irq, cpu) else routed s j.
Proof.
  intros Hi Hc. set (s2 := mkIo (io_id s) (io_ver s) (upd (upd (io_table s) (REG_TABLE + 2 * irq) (u32 (T_IRQ0 + irq))) (REG_TABLE + 2 * irq + 1) (u32 (Z.shiftl cpu 24))) (io_warned s)).
  exists s2. split; [done|]. intros j. destruct (Z.eqb_spec j irq) as [->|Hj].
  - unfold routed, s2. cbn [io_table]. rewrite upd_ne, !upd_eq by lia. unfold T_IRQ0, INT_DISABLED in *. rewrite u32_id by lia.
    assert (Hl : Z.land (32 + irq) 65536 = 0).
    { apply Z.bits_inj'. intros b Hb. rewrite Z.land_spec, Z.bits_0. change 65536 with (2 ^ 16). destruct (Z.eq_dec b 16) as [->|Hne].
      - rewrite (Z.bits_above_log2 (32 + irq)) by (try lia; apply Z.log2_lt_pow2; lia). done.
      - rewrite Z.pow2_bits_false by lia. apply andb_false_r. }
    rewrite Hl. change (nz 0) with false. cbv iota. rewrite Z.shiftl_mul_pow2, u32_id by lia. rewrite Z.shiftr_div_pow2, Z.div_mul by lia.
    change 255 with (Z.ones 8). rewrite Z.land_ones, Z.mod_small by lia. done.
  - unfold s2. rewrite <- (routed_write s j (REG_TABLE + 2 * irq) (u32 (T_IRQ0 + irq))) by lia.
    apply (routed_write (mkIo _ _ _ _)); lia.
Qed.
