(* ===== verification/KernelInv.v ===== *)
(** The whole kernel keeps the process table well formed: the system calls of
    [Sysfile] and [Exec] discharge what [TrapInv] asks of the calls that are not in
    [sysproc.c], with the environment of [Kernel]. *)

From Stdlib Require Import ZArith Lia.
From stdpp Require Import base list strings gmap.
From S2P Require Import Prelude Kstring Spinlock Kalloc Vm Bytes Blk Log Sleeplock Fs Pipe File Proc Sched ProcInv ProcSpec.
From S2P Require Import Syscall Kernel Exec Sysfile FileInv SysfileInv Trap TrapInv Procinfo.
Local Open Scope Z_scope.

Section KernelInv.
Context (im : image).
#[local] Instance here : Env kern := kernel_env im.
Abbreviation SM := (M (sstate kern)).

(** Code that keeps the table well formed, and handlers that leave it so. *)
Definition sound {A} (m : SM A) : Prop := forall s, kstate_ok (ps s) -> wp m s (fun _ s' => kstate_ok (ps s')).
Definition leaves (m : SM outcome) : Prop := forall s, kstate_ok (ps s) -> wp m s (fun o s' => settled o (ps s')).

Lemma sound_bind {A B} (m : SM A) (k : A -> SM B) : sound m -> (forall a, sound (k a)) -> sound (bind m k).
Proof. intros Hm Hk s Hs. apply wp_bind. eapply wp_weaken; [by apply Hm|]. intros a s' Hs'. by apply Hk. Qed.

Lemma leaves_bind {A} (m : SM A) (k : A -> SM outcome) : sound m -> (forall a, leaves (k a)) -> leaves (bind m k).
Proof. intros Hm Hk s Hs. apply wp_bind. eapply wp_weaken; [by apply Hm|]. intros a s' Hs'. by apply Hk. Qed.

Lemma sound_reads {A} (m : SM A) : reads m -> sound m.
Proof. intros H s Hs. by apply wp_reads. Qed.

Lemma sound_ret {A} (a : A) : sound (ret a).
Proof. by intros s Hs. Qed.
Lemma sound_gets {A} (f : sstate kern -> A) : sound (gets f).
Proof. by intros s Hs. Qed.
Lemma sound_ub {A} e : sound (ub e : SM A).
Proof. by intros s Hs. Qed.
Lemma sound_panic {A} e : sound (panic e : SM A).
Proof. by intros s Hs. Qed.
Lemma sound_um g : sound (modify (fun s => set_um (g s) s)).
Proof. intros s Hs. exact Hs. Qed.
Lemma leaves_return v : leaves (ret (Return v)).
Proof. by intros s Hs. Qed.
Lemma leaves_panic e : leaves (panic e).
Proof. by intros s Hs. Qed.

(** ** Code below the process table *)

Lemma quiet_trans x y z : quiet x y -> quiet y z -> quiet x z.
Proof.
  intros Hxy Hyz. pose proof (quiet_active x y Hxy) as Ha. destruct Hxy as [A1 A2 A3 A4 A5 A6], Hyz as [B1 B2 B3 B4 B5 B6].
  split; try congruence. destruct B6 as [->|[H1 H2]]; [done|]. right. split; [by apply Ha|done].
Qed.

Lemma woken_all_quiet l : forall x, quiet x (woken_all l x) /\ (state x = RUNNING -> state (woken_all l x) = RUNNING).
Proof.
  induction l as [|c l IH]; intros x; [split; [apply quiet_refl|done]|]. change (woken_all (c :: l) x) with (woken_all l (woken c x)).
  destruct (IH (woken c x)) as [H1 H2]. split; [by eapply quiet_trans; [apply quiet_woken|]|]. intros Hx. apply H2.
  rewrite woken_state. unfold is_state. by rewrite Hx.
Qed.

Lemma woken_all_ok l e (p : pstate kern) : kstate_ok p -> kstate_ok (set_env e (set_ptable (map (woken_all l) (ptable p)) p)).
Proof.
  intros Hk. apply kstate_quiet; [done|apply Forall2_quiet_map; intros x; apply woken_all_quiet|].
  intros i y Hy Hi. change (map ?f ?t) with (f <$> t) in Hy. rewrite list_lookup_fmap in Hy.
  destruct (k_cur _ Hk i Hi) as (x & Hx & Hs). rewrite Hx in Hy. injection Hy as <-. by apply woken_all_quiet.
Qed.

Lemma onk_state {A} (m : M kern A) s i p : cpu_proc (ps s) = Some i -> ptable (ps s) !! i = Some p -> length (ptable (ps s)) = NPROC ->
  exists r e l, onk m s = (r, set_ps (set_env e (set_ptable (map (woken_all l) (ptable (ps s))) (ps s))) s).
Proof.
  intros Hi Hp Hl. unfold onk. rewrite (bind_ok _ _ _ _ _ (myp_run s i p (mkRunning _ _ _ Hi Hp))).
  erewrite (bind_ok (onp (modify _))); [|by apply onp_run]. set (s1 := set_ps _ s).
  destruct (m (env (ps s1))) as [r e1] eqn:Hm.
  assert (Hcall : onp (call m) s1 = (r, set_ps (set_env e1 (ps s1)) s1)) by (unfold onp, call, zoom; rewrite Hm; by destruct r).
  rewrite Hcall. set (t := set_env e1 (ps s1)).
  assert (Hd : onp deliver (set_ps t s1) = (Ok tt, set_ps (set_env (forget_woken e1) (set_ptable (map (woken_all (woken_chans e1)) (ptable (ps s))) t)) s1)).
  { apply (onp_run _ (set_ps t s1)). unfold deliver. change (ps (set_ps t s1)) with t. rewrite (bind_ok (gets env) _ t t e1 eq_refl).
    erewrite (bind_ok (wake_chans _)); [|apply wake_chans_run; exact Hl]. done. }
  rewrite Hd. by exists r, (forget_woken e1), (woken_chans e1).
Qed.

Lemma sound_onk {A} (m : M kern A) : sound (onk m).
Proof.
  intros s Hk. destruct (cpu_proc (ps s)) as [i|] eqn:Hi.
  - destruct (k_cur _ Hk i Hi) as (p & Hp & _).
    destruct (onk_state m s i p Hi Hp (t_len _ _ _ _ (k_table _ Hk))) as (r & e & l & E).
    unfold wp. rewrite E. destruct r; try done. by apply woken_all_ok.
  - unfold onk. apply wp_bind, wp_myp. intros j p Hj. congruence.
Qed.

Lemma sound_onf {A} (m : FM A) : sound (onf m).
Proof. apply sound_onk. Qed.
Lemma sound_ontx {A} (m : M lstate A) : sound (ontx m).
Proof. apply sound_onk. Qed.
Lemma sound_onspace {A} (m : M kmem A) : sound (onspace m).
Proof. apply sound_bind; [apply sound_gets|]. intros u. apply sound_onk. Qed.

(** ** The running process *)

(** A change of the running process in its own fields. *)
Definition own_change (f : proc -> proc) : Prop := forall x,
  pid (f x) = pid x /\ parent (f x) = parent x /\ kstack (f x) = kstack x /\ state (f x) = state x
  /\ (pgdir x <> 0 -> pgdir (f x) <> 0) /\ length (ofile (f x)) = length (ofile x).

Lemma sound_upd_my f : own_change f -> sound (upd_my f).
Proof.
  intros Hf s Hk. unfold upd_my. apply wp_bind, wp_onp, wp_curproc; [done|]. intros i x Hi Hx Hs _.
  replace (set_ps (ps s) s) with s by by destruct s. apply wp_onp. eapply wp_updp; [exact Hx|].
  destruct (Hf x) as (H1 & H2 & H3 & H4 & H5 & H6). destruct Hk as [Ht Hh Hc Hn]. split; try done.
  - destruct (Hc i Hi) as (x' & Hx' & Hr). simplify_eq. assert (Ha : active x) by (unfold active; auto).
    apply (table_ok_replace _ _ _ _ i x); try done; try congruence.
    + unfold active in *. by rewrite H4.
    + apply H5. apply (t_mem _ _ _ _ Ht i x Hx). congruence.
    + rewrite H6. by apply (t_files _ _ _ _ Ht i x).
  - intros j Hj. cbn in Hj. assert (j = i) as -> by congruence. destruct (Hc i Hi) as (x' & Hx' & Hr). simplify_eq.
    exists (f x). split; [|congruence]. apply list_lookup_insert_eq. by eapply lookup_lt_Some.
Qed.

Lemma sound_myp : sound myp.
Proof. apply sound_reads, reads_myp. Qed.
Lemma sound_my_cwd : sound my_cwd.
Proof. apply sound_bind; [apply sound_myp|]. intros p. case_match; [apply sound_ret|apply sound_ub]. Qed.
Lemma sound_curproc : sound (onp curproc).
Proof. apply sound_reads, reads_onp. intros p. unfold curproc. mrun. by destruct (cpu_proc p). Qed.
Lemma sound_env : sound (onp (gets env)).
Proof. apply sound_reads, reads_onp. done. Qed.
Lemma sound_cprintf t : sound (onp (cprintf t)).
Proof. intros s Hk. apply wp_onp. eapply wp_run; [done|]. by apply set_out_ok. Qed.
Lemma sound_switchuvm i : sound (onp (switchuvm i)).
Proof.
  intros s Hk. apply wp_onp. unfold switchuvm. apply wp_bind. unfold getp. apply wp_bind. eapply wp_run; [done|].
  destruct (ptable (ps s) !! i) as [x|]; [|done]. eapply wp_run; [done|]. destruct (kstack x =? 0); [done|].
  destruct (pgdir x =? 0); [done|]. eapply wp_run; [done|]. by apply set_mmu_ok.
Qed.

Lemma sound_argint n : sound (argint n).
Proof. apply sound_reads, reads_argint. Qed.
Lemma leaves_with_int n k : (forall x, leaves (k x)) -> leaves (with_int n k).
Proof. intros H. apply leaves_bind; [apply sound_argint|]. intros [x|]; [apply H|apply leaves_return]. Qed.

(** ** The calls on files *)

Create HintDb ktable.
#[local] Hint Resolve sound_ret sound_gets sound_ub sound_panic sound_um leaves_return leaves_panic sound_onk sound_onf sound_ontx
  sound_onspace sound_myp sound_my_cwd sound_curproc sound_env sound_cprintf sound_switchuvm sound_argint : ktable.

(** Follow the code: a bind, a branch, or a piece that is known. *)
Ltac sound_step :=
  first [ solve [auto with ktable] | apply leaves_with_int; intros ? | apply sound_bind; [|intros ?] | apply leaves_bind; [|intros ?] | case_match ].
Ltac sound_code := repeat sound_step.

Lemma sound_fetchint a : sound (fetchint a).
Proof. unfold fetchint. sound_code. Qed.
Lemma sound_fetchstr a : sound (fetchstr a).
Proof. unfold fetchstr. sound_code. Qed.
Lemma sound_argptr n size : sound (argptr n size).
Proof. unfold argptr. sound_code. Qed.
#[local] Hint Resolve sound_fetchint sound_fetchstr sound_argptr : ktable.
Lemma sound_argstr n : sound (argstr n).
Proof. unfold argstr. sound_code. Qed.
Lemma sound_argfd n : sound (argfd n).
Proof. unfold argfd. sound_code. Qed.
#[local] Hint Resolve sound_argstr sound_argfd : ktable.
Lemma sound_argpath n : sound (argpath n).
Proof. unfold argpath. sound_code. Qed.
Lemma sound_arg_buffer : sound arg_buffer.
Proof. unfold arg_buffer. sound_code. Qed.
#[local] Hint Resolve sound_argpath sound_arg_buffer : ktable.

Lemma own_set_fd fd v : own_change (fun p => set_ofile (<[fd := v]> (ofile p)) p).
Proof. intros x. cbn. by rewrite length_insert. Qed.
Lemma own_set_cwd v : own_change (set_cwd v).
Proof. by intros x. Qed.
Lemma sound_set_fd fd v : sound (upd_my (fun p => set_ofile (<[fd := v]> (ofile p)) p)).
Proof. apply sound_upd_my, own_set_fd. Qed.
Lemma sound_set_cwd v : sound (upd_my (set_cwd v)).
Proof. apply sound_upd_my, own_set_cwd. Qed.
#[local] Hint Resolve sound_set_fd sound_set_cwd : ktable.

Lemma sound_fdalloc f : sound (fdalloc f).
Proof. unfold fdalloc. sound_code. Qed.
Lemma leaves_sleep_on c : leaves (sleep_on c).
Proof.
  intros s Hk. unfold sleep_on. apply wp_bind, wp_onp. eapply wp_run; [by apply acquire_ok|].
  apply wp_bind, wp_onp. eapply wp_weaken; [by apply (sleep_ok (ps s) c (LOther 0))|]. done.
Qed.
#[local] Hint Resolve sound_fdalloc leaves_sleep_on : ktable.

Lemma leaves_dup : leaves sys_dup.
Proof. unfold sys_dup. sound_code. Qed.
Lemma leaves_read : leaves (sys_read im).
Proof. unfold sys_read, read_into. sound_code. Qed.
Lemma leaves_write : leaves (sys_write im).
Proof. unfold sys_write, write_done. sound_code. Qed.
Lemma leaves_close : leaves (sys_close im).
Proof. unfold sys_close. sound_code. Qed.
Lemma leaves_fstat : leaves sys_fstat.
Proof. unfold sys_fstat. sound_code. Qed.
Lemma leaves_link : leaves (sys_link im).
Proof. unfold sys_link, link_bad. sound_code. Qed.
Lemma leaves_unlink : leaves (sys_unlink im).
Proof. unfold sys_unlink, unlink_bad. sound_code. Qed.
Lemma leaves_open : leaves (sys_open im).
Proof. unfold sys_open, open_file. sound_code. Qed.
Lemma leaves_mkdir : leaves (sys_mkdir im).
Proof. unfold sys_mkdir, created. sound_code. Qed.
Lemma leaves_mknod : leaves (sys_mknod im).
Proof. unfold sys_mknod, created. sound_code. Qed.
Lemma leaves_chdir : leaves (sys_chdir im).
Proof. unfold sys_chdir. sound_code. Qed.
Lemma leaves_pipe : leaves (sys_pipe im).
Proof. unfold sys_pipe. sound_code. Qed.
(** ** exec *)

Lemma sound_print_paths rows : sound (onp (print_paths rows)).
Proof.
  induction rows as [|row rows IH]; [by intros s Hk|]. intros s Hk. apply wp_onp. cbn [print_paths]. apply wp_bind. eapply wp_run; [done|].
  specialize (IH (set_ps (set_out (out (ps s) ++ [(text_of row +:+ " \n")%string]) (ps s)) s) (set_out_ok _ _ Hk)).
  unfold wp, onp, zoom in *. cbn [ps set_ps] in IH. by destruct (print_paths rows _) as [[] ?].
Qed.

Lemma sound_search_path path rows : sound (search_path im rows path).
Proof. induction rows as [|row rows IH]; cbn [search_path]; sound_code. Qed.

Lemma sound_load_segments ip pgdir n : forall off sz, sound (load_segments im ip pgdir n off sz).
Proof. induction n as [|n IH]; intros off sz; cbn [load_segments]; sound_code. Qed.

Lemma sound_push_args pgdir argv : forall argc sp copies, sound (push_args pgdir argv argc sp copies).
Proof. induction argv as [|a argv IH]; intros argc sp copies; cbn [push_args]; sound_code. Qed.

Lemma sound_fetch_argv n : forall uargv i, sound (fetch_argv n uargv i).
Proof. induction n as [|n IH]; intros uargv i; cbn [fetch_argv]; sound_code. Qed.

Lemma sound_exec_bad pgdir ip : sound (exec_bad im pgdir ip).
Proof. unfold exec_bad. sound_code. Qed.
#[local] Hint Resolve sound_print_paths sound_search_path sound_load_segments sound_push_args sound_fetch_argv sound_exec_bad : ktable.

Lemma sound_exec_commit path pgdir size sp entry : pgdir <> 0 -> sound (exec_commit im path pgdir size sp entry).
Proof.
  intros Hp. unfold exec_commit. apply sound_bind; [by apply sound_upd_my|intros _]. apply sound_bind; [auto with ktable|intros p].
  do 5 (apply sound_bind; [by apply sound_upd_my|intros _]). sound_code.
Qed.

Lemma sound_exec_stack ustack path argv pgdir sz entry : pgdir <> 0 -> sound (exec_stack im ustack path argv pgdir sz entry).
Proof. intros Hp. pose proof (fun a b c => sound_exec_commit path pgdir a b c Hp). unfold exec_stack. sound_code. Qed.

#[local] Hint Extern 1 (sound (exec_stack _ _ _ _ _ _ _)) => apply sound_exec_stack; by apply Z.eqb_neq : ktable.

Lemma sound_exec ustack path argv : sound (exec im ustack path argv).
Proof. unfold exec. sound_code. Qed.
#[local] Hint Resolve sound_exec : ktable.

Lemma leaves_exec ustack : leaves (sys_exec im ustack).
Proof. unfold sys_exec. sound_code. Qed.

Lemma sound_path_loop path sub : sound (onp (call (add_path_loop path sub))).
Proof.
  intros s Hk. apply wp_onp. apply wp_zoom. intros a e _. by destruct Hk.
Qed.
#[local] Hint Resolve sound_path_loop : ktable.

Lemma leaves_set_path : leaves sys_set_path.
Proof. unfold sys_set_path, add_path. sound_code. Qed.
(** ** The process listing *)

Definition psound {A} (m : M (pstate kern) A) : Prop := forall p, kstate_ok p -> wp m p (fun _ p' => kstate_ok p').
Lemma psound_bind {A B} (m : M (pstate kern) A) (k : A -> M (pstate kern) B) : psound m -> (forall a, psound (k a)) -> psound (bind m k).
Proof. intros Hm Hk p Hp. apply wp_bind. eapply wp_weaken; [by apply Hm|]. intros a p' Hp'. by apply Hk. Qed.
Lemma psound_cprintf t : psound (cprintf t).
Proof. intros p Hk. eapply wp_run; [done|]. by apply set_out_ok. Qed.
Lemma psound_getp i : psound (getp i).
Proof. intros p Hk. unfold getp, wp. mrun. by destruct (ptable p !! i). Qed.
Lemma psound_for body : (forall i, psound (body i)) -> forall n i, psound (for_from body i n).
Proof. intros H. induction n as [|n IH]; intros i; cbn [for_from]; [by intros p Hk|]. apply psound_bind; [apply H|intros _; apply IH]. Qed.

Lemma psound_print_process now x : psound (print_process now x).
Proof.
  unfold print_process. repeat case_match; try by intros p Hk. do 2 (apply psound_bind; [apply psound_cprintf|intros _]). apply psound_cprintf.
Qed.

Lemma psound_listing : psound print_processes_info.
Proof.
  assert (Hrest : forall now, psound (cprintf heading ;; for_procs (fun i =>
    p <- getp i ;; if is_state UNUSED p then ret tt else print_process now p))).
  { intros now. apply psound_bind; [apply psound_cprintf|intros _]. apply psound_for. intros i.
    apply psound_bind; [apply psound_getp|intros x]. case_match; [by intros q Hq|apply psound_print_process]. }
  intros p Hk. unfold print_processes_info. apply wp_bind. eapply wp_run; [by apply acquire_ok|]. apply wp_bind. eapply wp_run; [done|].
  apply wp_bind. eapply wp_run; [apply release_ok|]. rewrite unheld by done. by apply Hrest.
Qed.

(** ** Every call *)

Context (ustack : Z) (reentrant_test : SM unit).
Hypothesis test_ok : sound reentrant_test.

Definition calls : Z -> option (SM outcome) := file_calls im ustack (onp print_processes_info) reentrant_test.

Lemma calls_keep num h : calls num = Some h -> keeps h.
Proof.
  intros Hc s Hk _. revert s Hk. change (leaves h). unfold calls, file_calls in Hc.
  repeat (match type of Hc with context [if ?c then _ else _] => destruct c end; [injection Hc as <-|]); [..|done];
    first [ apply leaves_pipe | apply leaves_read | apply leaves_exec | apply leaves_fstat | apply leaves_chdir | apply leaves_dup
          | apply leaves_open | apply leaves_write | apply leaves_mknod | apply leaves_unlink | apply leaves_link | apply leaves_mkdir
          | apply leaves_close | apply leaves_set_path | idtac ].
  - apply leaves_bind; [|intros _; apply leaves_return]. intros s Hk. apply wp_onp. by apply psound_listing.
  - apply leaves_bind; [exact test_ok|intros _; apply leaves_return].
Qed.

End KernelInv.
