(* ===== verification/Asm.v ===== *)
(** The assembly code: [src/swtch.S], [src/trapasm.S], [src/vectors.pl] (the entry
    points it prints), [src/initcode.S], [src/entry.S], [src/entryother.S] and
    [src/bootasm.S], on a machine with the instructions they use.

    A listing is the list of its instructions; a label in it is an index.  Control
    leaves a listing for an address ([To]) or by a software interrupt.  The addresses of
    symbols, which the linker chooses, are parameters.  Segments are flat, so only the
    selectors are kept; of the arithmetic flags, only the zero flag.  Storing a selector
    in a 32-bit slot writes its lower half.  Bytes read from ports come from [inputs]; a
    machine that has none to read waits. *)

From Stdlib Require Import ZArith Lia.
From stdpp Require Import base list strings functions.
From S2P Require Import Prelude Kstring Proc.
Local Open Scope Z_scope.

(** ** The machine *)

Inductive reg := EAX | ECX | EDX | EBX | ESP | EBP | ESI | EDI.
Inductive sreg := CS | SS | DS | ES | FS | GS.
Inductive creg := CR0 | CR3 | CR4.

#[export] Instance reg_eq_dec : EqDecision reg.
Proof. solve_decision. Defined.
#[export] Instance sreg_eq_dec : EqDecision sreg.
Proof. solve_decision. Defined.
#[export] Instance creg_eq_dec : EqDecision creg.
Proof. solve_decision. Defined.

Record cpu := mkCpu {
  gpr : reg -> Z;
  seg : sreg -> Z;
  ctl : creg -> Z;
  flags : Z;
  gdtr : Z;
  cmem : mem;
  inputs : list Z;
  outputs : list (Z * Z);
}.

Definition set_gpr r v c := mkCpu (<[r := v]> (gpr c)) (seg c) (ctl c) (flags c) (gdtr c) (cmem c) (inputs c) (outputs c).
Definition set_seg r v c := mkCpu (gpr c) (<[r := v]> (seg c)) (ctl c) (flags c) (gdtr c) (cmem c) (inputs c) (outputs c).
Definition set_ctl r v c := mkCpu (gpr c) (seg c) (<[r := v]> (ctl c)) (flags c) (gdtr c) (cmem c) (inputs c) (outputs c).
Definition set_eflags v c := mkCpu (gpr c) (seg c) (ctl c) v (gdtr c) (cmem c) (inputs c) (outputs c).
Definition set_gdtr v c := mkCpu (gpr c) (seg c) (ctl c) (flags c) v (cmem c) (inputs c) (outputs c).
Definition set_cmem v c := mkCpu (gpr c) (seg c) (ctl c) (flags c) (gdtr c) v (inputs c) (outputs c).
Definition set_inputs v c := mkCpu (gpr c) (seg c) (ctl c) (flags c) (gdtr c) (cmem c) v (outputs c).
Definition set_outputs v c := mkCpu (gpr c) (seg c) (ctl c) (flags c) (gdtr c) (cmem c) (inputs c) v.

Definition FL_ZF : Z := 0x40.
Definition CR0_PE : Z := 0x1.
Definition CR0_WP : Z := 0x10000.
Definition CR0_PG : Z := 0x80000000.
Definition CR4_PSE : Z := 0x10.

Inductive instr :=
| Pushl (r : reg) | Pushl_s (r : sreg) | Pushl_i (v : Z) | Popl (r : reg) | Popl_s (r : sreg) | Pushal | Popal
| Movl_i (v : Z) (r : reg)
| Movl (a b : reg)
| Movl_load (d : Z) (a b : reg)
| Movl_store (a b : reg)
| Movl_abs (a : Z) (r : reg)
| Movl_from (c : creg) (r : reg)
| Movl_to (r : reg) (c : creg)
| Movw_i (v : Z) (r : reg)
| Movw (a b : reg)
| Movw_s (a : reg) (r : sreg)
| Movb_i (v : Z) (r : reg)
| Xorw (a b : reg)
| Orl (v : Z) (r : reg)
| Addl (v : Z) (r : reg)
| Testb (v : Z) (r : reg)
| Inb (port : Z)
| Outb (port : Z)
| Outw
| Cli
| Lgdt (desc : Z)
| Ljmp (sel : Z) (l : nat)
| Jnz (l : nat)
| Jmp (l : nat)
| Jmp_to (a : Z)
| Jmp_r (r : reg)
| Call (a back : Z)
| Call_abs (a back : Z)
| Ret
| Iret
| Int (n : Z).

Inductive dest := To (addr : Z) | Raise (n : Z).
Inductive next := Next | At (l : nat) | Leave (d : dest).

Abbreviation CM := (M cpu).

Definition low16 (old v : Z) : Z := Z.lor (Z.land old 0xffff0000) (u16 v).
Definition low8 (old v : Z) : Z := Z.lor (Z.land old 0xffffff00) (u8 v).
Definition store16 (m : mem) (a w : Z) : mem := upd (upd m a (u8 w)) (a + 1) (u8 (Z.shiftr w 8)).
Definition load16 (m : mem) (a : Z) : Z := Z.lor (m a) (Z.shiftl (m (a + 1)) 8).

Definition getr (r : reg) : CM Z := gets (fun c => gpr c r).
Definition setr (r : reg) (v : Z) : CM unit := modify (set_gpr r v).

(** The stack grows down; [push16] is the push of a selector. *)
Definition push (v : Z) : CM unit :=
  modify (fun c => let sp := u32 (gpr c ESP - 4) in set_cmem (store32 (cmem c) sp v) (set_gpr ESP sp c)).
Definition push16 (v : Z) : CM unit :=
  modify (fun c => let sp := u32 (gpr c ESP - 4) in set_cmem (store16 (cmem c) sp v) (set_gpr ESP sp c)).
Definition pop : CM Z :=
  c <- get ;; setr ESP (u32 (gpr c ESP + 4)) ;; ret (load32 (cmem c) (gpr c ESP)).
Definition pop16 : CM Z :=
  c <- get ;; setr ESP (u32 (gpr c ESP + 4)) ;; ret (load16 (cmem c) (gpr c ESP)).

(** The zero flag after a result. *)
Definition alu_flags (v : Z) : CM unit :=
  modify (fun c => set_eflags (if v =? 0 then Z.lor (flags c) FL_ZF else Z.land (flags c) (Z.lnot FL_ZF)) c).

Definition cpl (c : cpu) : Z := Z.land (seg c CS) 3.

Section Machine.
(** The privilege level of the segment a selector names. *)
Context (dpl : Z -> Z).

(** [iret] to an outer level takes away the data segments that level may not use. *)
Definition drop_seg (level : Z) (r : sreg) : CM unit :=
  modify (fun c => set_seg r (if dpl (seg c r) <? level then 0 else seg c r) c).
Definition iret : CM Z :=
  c <- get ;;
  ip <- pop ;;
  cs <- pop16 ;;
  fl <- pop ;;
  modify (set_eflags fl) ;;
  (if cpl c <? Z.land cs 3 then
     sp <- pop ;; ss <- pop16 ;; setr ESP sp ;; modify (set_seg SS ss) ;;
     drop_seg (Z.land cs 3) DS ;; drop_seg (Z.land cs 3) ES ;; drop_seg (Z.land cs 3) FS ;; drop_seg (Z.land cs 3) GS
   else ret tt) ;;
  modify (set_seg CS cs) ;;
  ret ip.

(** What an interrupt does before the first instruction of its handler: through a gate
    to code segment [sel] at the kernel's level, on the stack [ss0:esp0] of the task
    segment when it comes from user code; [off] says it is an
    interrupt gate, which turns interrupts off. *)
Definition interrupt (sel ss0 esp0 : Z) (off : bool) (err : option Z) (ip : Z) : CM unit :=
  c <- get ;;
  (if cpl c =? 0 then ret tt
   else modify (set_seg SS ss0) ;; setr ESP esp0 ;; push16 (seg c SS) ;; push (gpr c ESP)) ;;
  push (flags c) ;;
  push16 (seg c CS) ;;
  push ip ;;
  (match err with Some e => push e | None => ret tt end) ;;
  modify (set_seg CS sel) ;;
  modify (set_eflags (if off then Z.land (flags c) (Z.lnot FL_IF) else flags c)).

Definition step (i : instr) : CM next :=
  match i with
  | Pushl r => v <- getr r ;; push v ;; ret Next
  | Pushl_s r => v <- gets (fun c => seg c r) ;; push16 v ;; ret Next
  | Pushl_i v => push v ;; ret Next
  | Popl r => v <- pop ;; setr r v ;; ret Next
  | Popl_s r => v <- pop16 ;; modify (set_seg r v) ;; ret Next
  | Pushal =>
      c <- get ;;
      push (gpr c EAX) ;; push (gpr c ECX) ;; push (gpr c EDX) ;; push (gpr c EBX) ;;
      push (gpr c ESP) ;; push (gpr c EBP) ;; push (gpr c ESI) ;; push (gpr c EDI) ;; ret Next
  | Popal =>
      v <- pop ;; setr EDI v ;; v <- pop ;; setr ESI v ;; v <- pop ;; setr EBP v ;; pop ;;
      v <- pop ;; setr EBX v ;; v <- pop ;; setr EDX v ;; v <- pop ;; setr ECX v ;; v <- pop ;; setr EAX v ;; ret Next
  | Movl_i v r => setr r (u32 v) ;; ret Next
  | Movl a b => v <- getr a ;; setr b v ;; ret Next
  | Movl_load d a b => c <- get ;; setr b (load32 (cmem c) (u32 (gpr c a + d))) ;; ret Next
  | Movl_store a b => modify (fun c => set_cmem (store32 (cmem c) (gpr c b) (gpr c a)) c) ;; ret Next
  | Movl_abs a r => c <- get ;; setr r (load32 (cmem c) a) ;; ret Next
  | Movl_from x r => c <- get ;; setr r (ctl c x) ;; ret Next
  | Movl_to r x => c <- get ;; modify (set_ctl x (gpr c r)) ;; ret Next
  | Movw_i v r => o <- getr r ;; setr r (low16 o v) ;; ret Next
  | Movw a b => v <- getr a ;; o <- getr b ;; setr b (low16 o v) ;; ret Next
  | Movw_s a r => v <- getr a ;; modify (set_seg r (u16 v)) ;; ret Next
  | Movb_i v r => o <- getr r ;; setr r (low8 o v) ;; ret Next
  | Xorw a b =>
      x <- getr a ;; y <- getr b ;;
      let v := Z.lxor (u16 x) (u16 y) in setr b (low16 y v) ;; alu_flags v ;; ret Next
  | Orl v r => o <- getr r ;; setr r (Z.lor o v) ;; alu_flags (Z.lor o v) ;; ret Next
  | Addl v r => o <- getr r ;; setr r (u32 (o + v)) ;; alu_flags (u32 (o + v)) ;; ret Next
  | Testb v r => o <- getr r ;; alu_flags (Z.land (u8 o) v) ;; ret Next
  | Inb port =>
      c <- get ;;
      match inputs c with
      | [] => spin
      | b :: l => modify (set_inputs l) ;; setr EAX (low8 (gpr c EAX) b) ;; ret Next
      end
  | Outb port => modify (fun c => set_outputs (outputs c ++ [(port, u8 (gpr c EAX))]) c) ;; ret Next
  | Outw => modify (fun c => set_outputs (outputs c ++ [(u16 (gpr c EDX), u16 (gpr c EAX))]) c) ;; ret Next
  | Cli => modify (fun c => set_eflags (Z.land (flags c) (Z.lnot FL_IF)) c) ;; ret Next
  | Lgdt desc => modify (set_gdtr desc) ;; ret Next
  | Ljmp sel l => modify (set_seg CS sel) ;; ret (At l)
  | Jnz l => c <- get ;; ret (if Z.land (flags c) FL_ZF =? 0 then At l else Next)
  | Jmp l => ret (At l)
  | Jmp_to a => ret (Leave (To a))
  | Jmp_r r => v <- getr r ;; ret (Leave (To v))
  | Call a back => push back ;; ret (Leave (To a))
  | Call_abs a back => c <- get ;; push back ;; ret (Leave (To (load32 (cmem c) a)))
  | Ret => v <- pop ;; ret (Leave (To v))
  | Iret => v <- iret ;; ret (Leave (To v))
  | Int n => ret (Leave (Raise n))
  end.

(** Execution from instruction [l] of a listing until control leaves it. *)
Fixpoint run (fuel : nat) (code : list instr) (l : nat) : CM dest :=
  match fuel with
  | O => spin
  | S k =>
      match code !! l with
      | None => ub "end of code"
      | Some i =>
          n <- step i ;;
          match n with
          | Next => run k code (S l)
          | At l' => run k code l'
          | Leave d => ret d
          end
      end
  end.
End Machine.

(** ** [swtch.S] *)

Definition swtch : list instr :=
  [ Movl_load 4 ESP EAX;
    Movl_load 8 ESP EDX;
    Pushl EBP; Pushl EBX; Pushl ESI; Pushl EDI;
    Movl_store ESP EAX;
    Movl EDX ESP;
    Popl EDI; Popl ESI; Popl EBX; Popl EBP;
    Ret ].

(** ** [vectors.pl] and [trapasm.S] *)

Section Traps.
Context (alltraps_addr trap_addr after_trap : Z).

(** The numbers for which the processor pushes an error code itself. *)
Definition has_err (i : Z) : bool := (i =? 8) || ((10 <=? i) && (i <=? 14)) || (i =? 17).

Definition vector (i : Z) : list instr :=
  (if negb (has_err i) then [Pushl_i 0] else []) ++ [Pushl_i i; Jmp_to alltraps_addr].

Definition SEG_KCODE : Z := 1.
Definition SEG_KDATA : Z := 2.

(** [alltraps], which falls through to [trapret] after the call. *)
Definition alltraps : list instr :=
  [ Pushl_s DS; Pushl_s ES; Pushl_s FS; Pushl_s GS; Pushal;
    Movw_i (Z.shiftl SEG_KDATA 3) EAX;
    Movw_s EAX DS; Movw_s EAX ES;
    Pushl ESP;
    Call trap_addr after_trap;
    Addl 4 ESP;
    (* trapret: *)
    Popal; Popl_s GS; Popl_s FS; Popl_s ES; Popl_s DS;
    Addl 8 ESP;
    Iret ].
End Traps.

(** Where the call of [trap] returns to, and the label [trapret]. *)
Definition after_call : nat := 10.
Definition trapret : nat := 11.

(** ** [initcode.S] *)

Definition SYS_exec : Z := 7.
Definition SYS_exit : Z := 2.
Definition T_SYSCALL : Z := 64.

(** The code, with the addresses of its data; [exit:] is index 5. *)
Definition initcode (init argv : Z) : list instr :=
  [ Pushl_i argv; Pushl_i init; Pushl_i 0;
    Movl_i SYS_exec EAX; Int T_SYSCALL;
    Movl_i SYS_exit EAX; Int T_SYSCALL; Jmp 5 ].
(** ["/init\0"] and the array of pointers. *)
Definition initcode_data (m : mem) (init argv : Z) : mem :=
  store32 (store32 (upd (upd (upd (upd (upd (upd (upd m init 47) (init + 1) 105) (init + 2) 110) (init + 3) 105)
    (init + 4) 116) (init + 5) 0) (init + 6) 0) argv init) (argv + 4) 0.

(** ** [entry.S] *)

(** Paging is turned on, then the stack is set and control goes to [main]. *)
Definition entry (entrypgdir stack main : Z) : list instr :=
  [ Movl_from CR4 EAX; Orl CR4_PSE EAX; Movl_to EAX CR4;
    Movl_i (V2P entrypgdir) EAX; Movl_to EAX CR3;
    Movl_from CR0 EAX; Orl (Z.lor CR0_PG CR0_WP) EAX; Movl_to EAX CR0;
    Movl_i (stack + KSTACKSIZE) ESP;
    Movl_i main EAX; Jmp_r EAX ].

(** ** [bootasm.S] and [entryother.S] *)

(** [SEG_ASM] of [asm.h], as the eight bytes of a descriptor. *)
Definition SEG_NULLASM : list Z := [0; 0; 0; 0; 0; 0; 0; 0].
Definition SEG_ASM (type base lim : Z) : list Z :=
  let w v := [u8 v; u8 (Z.shiftr v 8)] in
  w (Z.land (Z.shiftr lim 12) 0xffff) ++ w (Z.land base 0xffff) ++
  [ Z.land (Z.shiftr base 16) 0xff; Z.lor 0x90 type;
    Z.lor 0xC0 (Z.land (Z.shiftr lim 28) 0xf); Z.land (Z.shiftr base 24) 0xff ].

Definition STA_X : Z := 8.
Definition STA_W : Z := 2.
Definition STA_R : Z := 2.

Definition boot_gdt : list Z :=
  SEG_NULLASM ++ SEG_ASM (Z.lor STA_X STA_R) 0 0xffffffff ++ SEG_ASM STA_W 0 0xffffffff.

Definition bootasm (gdtdesc start bootmain back : Z) : list instr :=
  [ Cli;
    Xorw EAX EAX; Movw_s EAX DS; Movw_s EAX ES; Movw_s EAX SS;
    (* seta20.1: 5 *)
    Inb 0x64; Testb 0x2 EAX; Jnz 5;
    Movb_i 0xd1 EAX; Outb 0x64;
    (* seta20.2: 10 *)
    Inb 0x64; Testb 0x2 EAX; Jnz 10;
    Movb_i 0xdf EAX; Outb 0x60;
    Lgdt gdtdesc;
    Movl_from CR0 EAX; Orl CR0_PE EAX; Movl_to EAX CR0;
    Ljmp (Z.shiftl SEG_KCODE 3) 20;
    (* start32: 20 *)
    Movw_i (Z.shiftl SEG_KDATA 3) EAX; Movw_s EAX DS; Movw_s EAX ES; Movw_s EAX SS;
    Movw_i 0 EAX; Movw_s EAX FS; Movw_s EAX GS;
    Movl_i start ESP; Call bootmain back;
    (* where bootmain would return: 29 *)
    Movw_i 0x8a00 EAX; Movw EAX EDX; Outw; Movw_i 0x8ae0 EAX; Outw;
    (* spin: 34 *)
    Jmp 34 ].

Definition entryother (gdtdesc start back : Z) : list instr :=
  [ Cli;
    Xorw EAX EAX; Movw_s EAX DS; Movw_s EAX ES; Movw_s EAX SS;
    Lgdt gdtdesc;
    Movl_from CR0 EAX; Orl CR0_PE EAX; Movl_to EAX CR0;
    Ljmp (Z.shiftl SEG_KCODE 3) 10;
    (* start32: 10 *)
    Movw_i (Z.shiftl SEG_KDATA 3) EAX; Movw_s EAX DS; Movw_s EAX ES; Movw_s EAX SS;
    Movw_i 0 EAX; Movw_s EAX FS; Movw_s EAX GS;
    Movl_from CR4 EAX; Orl CR4_PSE EAX; Movl_to EAX CR4;
    Movl_abs (start - 12) EAX; Movl_to EAX CR3;
    Movl_from CR0 EAX; Orl (Z.lor CR0_PE (Z.lor CR0_PG CR0_WP)) EAX; Movl_to EAX CR0;
    Movl_abs (start - 4) ESP; Call_abs (start - 8) back;
    Movw_i 0x8a00 EAX; Movw EAX EDX; Outw; Movw_i 0x8ae0 EAX; Outw;
    (* spin: 32 *)
    Jmp 32 ].

(** ** Structures on the stack *)

(** All of [struct trapframe]. *)
Record frame := mkFrame {
  f_edi : Z; f_esi : Z; f_ebp : Z; f_oesp : Z; f_ebx : Z; f_edx : Z; f_ecx : Z; f_eax : Z;
  f_gs : Z; f_fs : Z; f_es : Z; f_ds : Z; f_trapno : Z; f_err : Z;
  f_eip : Z; f_cs : Z; f_eflags : Z; f_esp : Z; f_ss : Z;
}.
Definition frame_at (m : mem) (a : Z) : frame :=
  mkFrame (load32 m a) (load32 m (a + 4)) (load32 m (a + 8)) (load32 m (a + 12))
    (load32 m (a + 16)) (load32 m (a + 20)) (load32 m (a + 24)) (load32 m (a + 28))
    (load16 m (a + 32)) (load16 m (a + 36)) (load16 m (a + 40)) (load16 m (a + 44))
    (load32 m (a + 48)) (load32 m (a + 52)) (load32 m (a + 56)) (load16 m (a + 60))
    (load32 m (a + 64)) (load32 m (a + 68)) (load16 m (a + 72)).

(** The fields the kernel's C code works with. *)
Definition tf_of (f : frame) : trapframe :=
  mkTf (f_ebx f) (f_eax f) (f_es f) (f_ds f) (f_trapno f) (f_eip f) (f_cs f) (f_eflags f) (f_esp f) (f_ss f).

(** [struct context] and the word above it. *)
Definition context_at (m : mem) (a : Z) : context :=
  mkCtx (load32 m a) (load32 m (a + 4)) (load32 m (a + 8)) (load32 m (a + 12)) (load32 m (a + 16)) (load32 m (a + 20)).
