(* ===== verification/AsmInv.v ===== *)
(** What the assembly code of [Asm] does.

    A trap saves the interrupted state in a [struct trapframe] and [trapret] loads
    whatever the frame then holds; [swtch] is a coroutine switch; a process made by
    [allocproc] starts in user mode in the state of its trap frame. *)

From Stdlib Require Import ZArith Lia.
From stdpp Require Import base list strings functions.
From S2P Require Import Prelude Kstring Kalloc Proc Asm.
Local Open Scope Z_scope.

(** ** Words and halves of words in memory *)

Lemma load32_at m a w b : b = a -> load32 (store32 m a w) b = u32 w.
Proof. intros ->. apply load32_store32. Qed.

Lemma load32_ne m a w b : b + 4 <= a \/ a + 4 <= b -> load32 (store32 m a w) b = load32 m b.
Proof. intros H. apply load32_ext. intros x Hx. apply store32_other. lia. Qed.

Lemma store16_other m a w x : ~ (a <= x < a + 2) -> store16 m a w x = m x.
Proof. intros H. unfold store16. rewrite !upd_ne by lia. done. Qed.

Lemma load32_ne16 m a w b : b + 4 <= a \/ a + 2 <= b -> load32 (store16 m a w) b = load32 m b.
Proof. intros H. apply load32_ext. intros x Hx. apply store16_other. lia. Qed.

Lemma load16_ext m m' a : (forall x, a <= x < a + 2 -> m' x = m x) -> load16 m' a = load16 m a.
Proof. intros H. unfold load16. rewrite !H by lia. done. Qed.

Lemma load16_ne m a w b : b + 2 <= a \/ a + 4 <= b -> load16 (store32 m a w) b = load16 m b.
Proof. intros H. apply load16_ext. intros x Hx. apply store32_other. lia. Qed.

Lemma load16_ne16 m a w b : b + 2 <= a \/ a + 2 <= b -> load16 (store16 m a w) b = load16 m b.
Proof. intros H. apply load16_ext. intros x Hx. apply store16_other. lia. Qed.

Lemma load16_at m a w b : b = a -> load16 (store16 m a w) b = u16 w.
Proof.
  intros ->. unfold load16, store16. rewrite (upd_ne _ (a + 1) _ a), !upd_eq by lia.
  apply Z.bits_inj'. intros n Hn. unfold u8, u16. rewrite Z.lor_spec, Z.shiftl_spec, testbit_mod_pow2, (testbit_mod_pow2 w 16 n) by lia.
  destruct (Z.ltb_spec n 8), (Z.ltb_spec n 16); cbn [andb orb]; try lia.
  - rewrite (Z.testbit_neg_r _ (n - 8)) by lia. by rewrite orb_false_r.
  - rewrite testbit_mod_pow2, Z.shiftr_spec by lia. replace (n - 8 + 8) with n by lia. destruct (Z.ltb_spec (n - 8) 8); [done|lia].
  - rewrite testbit_mod_pow2 by lia. destruct (Z.ltb_spec (n - 8) 8); [lia|done].
Qed.

Lemma u16_range z : 0 <= u16 z < 2 ^ 16.
Proof. apply Z.mod_pos_bound. lia. Qed.

(** Run straight-line code; then take the wrap-arounds away and read the stack. *)
Ltac cpurun :=
  cbv -[u32 u16 u8 load32 store32 load16 store16 low16 low8 Z.add Z.sub Z.mul Z.land Z.lor Z.lxor Z.shiftl Z.lnot Z.shiftr Z.eqb Z.ltb Z.leb
        Z.pow Z.le Z.lt].
Ltac nowrap := repeat match goal with |- context [u32 ?x] => rewrite (u32_id x) by lia end.
Ltac flat :=
  repeat match goal with
  | |- context [?x - Zpos ?p - Zpos ?q] => let r := eval vm_compute in (p + q)%positive in replace (x - Zpos p - Zpos q) with (x - Zpos r) by lia
  | |- context [?x + Zpos ?p + Zpos ?q] => let r := eval vm_compute in (p + q)%positive in replace (x + Zpos p + Zpos q) with (x + Zpos r) by lia
  | |- context [?x - Zpos ?p + Zpos ?p] => replace (x - Zpos p + Zpos p) with x by lia
  | |- context [?x - Zpos ?p + Zpos ?q] =>
      let r := eval vm_compute in (Zpos q - Zpos p) in
      match r with Zpos _ => replace (x - Zpos p + Zpos q) with (x + r) by lia end
  end.
Ltac memread :=
  repeat first [ rewrite load32_at by lia | rewrite load32_ne by lia | rewrite load32_ne16 by lia
               | rewrite load16_at by lia | rewrite load16_ne by lia | rewrite load16_ne16 by lia ].

(** An instruction that goes on to the next one. *)
Lemma run_next dpl k code l i c c' : code !! l = Some i -> step dpl i c = (Ok Next, c') -> run dpl (S k) code l c = run dpl k code (S l) c'.
Proof. intros Hi Hs. cbn [run]. rewrite Hi. by rewrite (bind_ok _ _ _ _ _ Hs). Qed.

(** ** The context switch *)

(** The callee-saved registers and the stack of a caller of [swtch]. *)
Definition callee_saved : list reg := [EBX; ESI; EDI; EBP].

(** A call [swtch(old, new)] with room on the stack. *)
Record swtch_call (c : cpu) (old new : Z) : Prop := mkSwtchCall {
  sw_room : 16 <= gpr c ESP /\ gpr c ESP + 12 <= 2 ^ 32;
  sw_old : load32 (cmem c) (gpr c ESP + 4) = old;
  sw_new : load32 (cmem c) (gpr c ESP + 8) = new;
  sw_fits : 0 <= new /\ new + 20 < 2 ^ 32;
}.

(** The memory after the four pushes and the store through [old]. *)
Definition swtch_mem (c : cpu) (old : Z) : mem :=
  let sp := gpr c ESP in
  store32 (store32 (store32 (store32 (store32 (cmem c) (sp - 4) (gpr c EBP)) (sp - 8) (gpr c EBX)) (sp - 12) (gpr c ESI)) (sp - 16) (gpr c EDI))
          old (sp - 16).

Section Swtch.
Context (dpl : Z -> Z).

Lemma swtch_run c old new : swtch_call c old new ->
  let m := swtch_mem c old in
  exists ip c', run dpl 13 swtch 0 c = (Ok (To ip), c') /\ ip = load32 m (new + 16)
  /\ cmem c' = m /\ seg c' = seg c /\ flags c' = flags c
  /\ gpr c' ESP = new + 20 /\ gpr c' EDI = load32 m new /\ gpr c' ESI = load32 m (new + 4)
  /\ gpr c' EBX = load32 m (new + 8) /\ gpr c' EBP = load32 m (new + 12).
Proof.
  intros [Hr Ho Hn Hf] m. destruct c as [g s ct f gd m0 i o]. cbn [gpr cmem] in *.
  do 2 eexists. split; [cpurun; rewrite !(u32_id (g ESP + _)), Ho, Hn by lia; reflexivity|].
  repeat split; cpurun; nowrap; flat; done.
Qed.

(** Regions [a, a + n) and [b, b + k) share no byte. *)
Definition apart (a n b k : Z) : Prop := a + n <= b \/ b + k <= a.

(** The switch leaves the words outside what it pushes and [old] as they were. *)
Lemma swtch_mem_other c old a : apart a 4 (gpr c ESP - 16) 16 -> apart a 4 old 4 -> load32 (swtch_mem c old) a = load32 (cmem c) a.
Proof. unfold apart, swtch_mem. intros H1 H2. memread. done. Qed.

(** The context [swtch] leaves on the stack it switches from. *)
Lemma swtch_mem_saved c old : (forall r, 0 <= gpr c r < 2 ^ 32) -> 16 <= gpr c ESP -> apart old 4 (gpr c ESP - 16) 24 ->
  let m := swtch_mem c old in
  load32 m old = gpr c ESP - 16
  /\ context_at m (gpr c ESP - 16)
     = mkCtx (gpr c EDI) (gpr c ESI) (gpr c EBX) (gpr c EBP) (load32 (cmem c) (gpr c ESP)) (load32 (cmem c) (gpr c ESP + 4)).
Proof.
  unfold apart, swtch_mem, context_at. intros Hr Hs Ha. pose proof (Hr ESP). cbn. split; [memread; apply u32_id; lia|].
  f_equal; memread; try (apply u32_id, Hr); f_equal; lia.
Qed.

(** What [swtch] loads, when the context it switches to is apart from what it writes. *)
Lemma swtch_loads c old new : swtch_call c old new -> apart new 20 (gpr c ESP - 16) 16 -> apart new 20 old 4 ->
  let x := context_at (cmem c) new in
  exists c', run dpl 13 swtch 0 c = (Ok (To (eip x)), c') /\ cmem c' = swtch_mem c old /\ seg c' = seg c /\ flags c' = flags c
  /\ gpr c' ESP = new + 20 /\ gpr c' EDI = edi x /\ gpr c' ESI = esi x /\ gpr c' EBX = ebx x /\ gpr c' EBP = ebp x.
Proof.
  intros Hc H1 H2 x. destruct (swtch_run c old new Hc) as (ip & c' & Hrun & -> & Hm & Hs & Hf & Hsp & Hedi & Hesi & Hebx & Hebp).
  exists c'. unfold x, context_at; cbn [eip edi esi ebx ebp]. unfold apart in *.
  rewrite Hrun, Hm, Hs, Hf, Hsp, Hedi, Hesi, Hebx, Hebp. rewrite !swtch_mem_other by (unfold apart; lia). done.
Qed.

(** C9: the context switch is a coroutine switch.  A call [swtch(old, new)] goes to where
    the context at [new] was saved, with that context's registers, and leaves its own
    context below its stack pointer, with the address in [*old].  Whatever runs
    meanwhile, when some processor state calls [swtch] on that address and the saved
    words are intact, the first caller goes on after its call with its stack pointer and
    its callee-saved registers as they were. *)
Theorem swtch_coroutine c old new :
  (forall r, 0 <= gpr c r < 2 ^ 32) -> swtch_call c old new ->
  apart new 20 (gpr c ESP - 16) 16 -> apart new 20 old 4 -> apart old 4 (gpr c ESP - 16) 24 ->
  let x := context_at (cmem c) new in
  exists c1, run dpl 13 swtch 0 c = (Ok (To (eip x)), c1)
  /\ gpr c1 ESP = new + 20 /\ gpr c1 EDI = edi x /\ gpr c1 ESI = esi x /\ gpr c1 EBX = ebx x /\ gpr c1 EBP = ebp x
  /\ load32 (cmem c1) old = gpr c ESP - 16
  /\ forall c2 old2, swtch_call c2 old2 (gpr c ESP - 16) ->
     apart (gpr c ESP - 16) 20 (gpr c2 ESP - 16) 16 -> apart (gpr c ESP - 16) 20 old2 4 ->
     (forall a, gpr c ESP - 16 <= a < gpr c ESP + 4 -> cmem c2 a = cmem c1 a) ->
     exists c3, run dpl 13 swtch 0 c2 = (Ok (To (load32 (cmem c) (gpr c ESP))), c3)
     /\ gpr c3 ESP = gpr c ESP + 4 /\ forall r, r ∈ callee_saved -> gpr c3 r = gpr c r.
Proof.
  intros Hr Hc H1 H2 H3 x. destruct (swtch_loads c old new Hc H1 H2) as (c1 & Hrun & Hm & _ & _ & Hsp & Hedi & Hesi & Hebx & Hebp).
  pose proof (sw_room _ _ _ Hc) as Hroom. destruct (swtch_mem_saved c old Hr ltac:(lia) H3) as [Hold Hctx].
  exists c1. rewrite Hrun, Hm, Hsp, Hedi, Hesi, Hebx, Hebp. do 7 (split; [done|]).
  intros c2 old2 Hc2 H4 H5 Hsame. destruct (swtch_loads c2 old2 _ Hc2 H4 H5) as (c3 & Hrun3 & _ & _ & _ & Hsp3 & Hedi3 & Hesi3 & Hebx3 & Hebp3).
  assert (Hw : forall k, 0 <= k <= 16 -> load32 (cmem c2) (gpr c ESP - 16 + k) = load32 (swtch_mem c old) (gpr c ESP - 16 + k)).
  { intros k Hk. apply load32_ext. intros a Ha. apply Hsame. lia. }
  injection Hctx as E0 E1 E2 E3 E4 _. unfold context_at in *; cbn [eip edi esi ebx ebp] in *.
  exists c3. rewrite Hrun3, Hsp3, Hw, E4 by lia. split; [done|]. split; [lia|].
  intros r Hin. unfold callee_saved in Hin. rewrite !elem_of_cons, elem_of_nil in Hin.
  destruct Hin as [->|[->|[->|[->|[]]]]]; [rewrite Hebx3|rewrite Hesi3|rewrite Hedi3|rewrite Hebp3]; rewrite ?Hw by lia; try done.
  rewrite <- E0. rewrite <- (Z.add_0_r (gpr c ESP - 16)). apply Hw. lia.
Qed.
End Swtch.

(** ** Traps *)

(** The registers and flags are in range. *)
Record cpu_ok (c : cpu) : Prop := mkCpuOk {
  ok_gpr : forall r, 0 <= gpr c r < 2 ^ 32;
  ok_seg : forall r, 0 <= seg c r < 2 ^ 16;
  ok_flags : 0 <= flags c < 2 ^ 32;
}.

Lemma u16_id z : 0 <= z < 2 ^ 16 -> u16 z = z.
Proof. apply Z.mod_small. Qed.

Lemma u16_low16 o v : u16 (low16 o v) = u16 v.
Proof.
  unfold low16, u16. rewrite <- !Z.land_ones by lia. rewrite Z.land_lor_distr_l, <- Z.land_assoc.
  change (Z.land 0xffff0000 (Z.ones 16)) with 0. rewrite Z.land_0_r, Z.lor_0_l, <- Z.land_assoc. f_equal.
Qed.

Section Traps.
Context (dpl : Z -> Z) (alltraps_addr trap_addr after_trap ss0 esp0 : Z).

(** From the interrupt, through the vector's entry point, to the call of [trap]. *)
Definition trap_enter (n : Z) (off : bool) (err : option Z) (ip : Z) : CM dest :=
  interrupt (Z.shiftl SEG_KCODE 3) ss0 esp0 off err ip ;;
  run dpl 3 (vector alltraps_addr n) 0 ;;
  run dpl 10 (alltraps trap_addr after_trap) 0.
(** From the return of [trap] on. *)
Definition trap_leave : CM dest := run dpl 8 (alltraps trap_addr after_trap) after_call.

(** The interrupted state, [oesp] being the stack pointer at [pushal]. *)
Definition saved (c : cpu) (n : Z) (err : option Z) (ip oesp sp ss : Z) : frame :=
  mkFrame (gpr c EDI) (gpr c ESI) (gpr c EBP) oesp (gpr c EBX) (gpr c EDX) (gpr c ECX) (gpr c EAX)
    (seg c GS) (seg c FS) (seg c ES) (seg c DS) n (default 0 err) ip (seg c CS) (flags c) sp ss.

(** What user code finds in a data segment register. *)
Definition kept (sel : Z) : Z := if dpl sel <? 3 then 0 else sel.

(** A trap's number, error code and return address. *)
Record trap_args (n : Z) (err : option Z) (ip : Z) : Prop := mkTrapArgs {
  ta_n : 0 <= n < 256;
  ta_err : 0 <= default 0 err < 2 ^ 32;
  ta_has : has_err n = bool_decide (is_Some err);
  ta_ip : 0 <= ip < 2 ^ 32;
}.

(** [trap] is entered with a pointer to the frame at [a]. *)
Record trap_entered (c1 : cpu) (a : Z) (f : frame) : Prop := mkTrapEntered {
  te_esp : gpr c1 ESP = a - 8;
  te_ret : load32 (cmem c1) (a - 8) = u32 after_trap;
  te_arg : load32 (cmem c1) (a - 4) = a;
  te_frame : frame_at (cmem c1) a = f;
  te_cs : seg c1 CS = 8;
  te_ds : seg c1 DS = 16 /\ seg c1 ES = 16;
}.

Ltac entered Hg Hs :=
  eexists; split; [cpurun; reflexivity|]; split; [split|]; cbn [gpr seg cmem flags]; unfold frame_at, saved; try split; try f_equal;
  cpurun; nowrap; flat; memread; nowrap; rewrite ?u16_low16; try done; try (apply u32_id; apply Hg); try (apply u16_id; apply Hs).

Lemma enter_user c n off err ip :
  cpu_ok c -> cpl c = 3 -> 84 <= esp0 < 2 ^ 32 -> trap_args n err ip ->
  exists c1, trap_enter n off err ip c = (Ok (To trap_addr), c1)
  /\ trap_entered c1 (esp0 - 76) (saved c n err ip (esp0 - 44) (gpr c ESP) (seg c SS))
  /\ seg c1 SS = ss0 /\ flags c1 = if off then Z.land (flags c) (Z.lnot FL_IF) else flags c.
Proof.
  intros [Hg Hs Hf] Hc He [Hn Herr Hhas Hi]. unfold trap_enter, interrupt, vector. mrun. rewrite Hc, Hhas.
  destruct c as [g s ct f gd m0 i o]. cbn [gpr cmem seg flags] in *.
  destruct err as [e|]; cbn in Herr; clear Hhas Hc; entered Hg Hs.
Qed.

(** From kernel code there is no change of stack: what the last two fields of the frame
    would hold is what was on the stack. *)
Lemma enter_kernel c n off err ip :
  cpu_ok c -> cpl c = 0 -> 76 <= gpr c ESP -> trap_args n err ip ->
  let sp := gpr c ESP in
  exists c1, trap_enter n off err ip c = (Ok (To trap_addr), c1)
  /\ trap_entered c1 (sp - 68) (saved c n err ip (sp - 36) (load32 (cmem c) sp) (load16 (cmem c) (sp + 4)))
  /\ seg c1 SS = seg c SS /\ flags c1 = if off then Z.land (flags c) (Z.lnot FL_IF) else flags c.
Proof.
  intros [Hg Hs Hf] Hc He [Hn Herr Hhas Hi] sp. unfold trap_enter, interrupt, vector. mrun. rewrite Hc, Hhas.
  destruct c as [g s ct f gd m0 i o]. cbn [gpr cmem seg flags] in *. pose proof (Hg ESP). subst sp.
  destruct err as [e|]; cbn in Herr; clear Hhas Hc; entered Hg Hs.
Qed.

(** The processor is in the state a frame describes. *)
Record in_state (c : cpu) (f : frame) : Prop := mkInState {
  is_edi : gpr c EDI = f_edi f; is_esi : gpr c ESI = f_esi f; is_ebp : gpr c EBP = f_ebp f; is_ebx : gpr c EBX = f_ebx f;
  is_edx : gpr c EDX = f_edx f; is_ecx : gpr c ECX = f_ecx f; is_eax : gpr c EAX = f_eax f;
  is_cs : seg c CS = f_cs f; is_flags : flags c = f_eflags f;
}.

(** [trapret]. *)
Definition trap_ret : CM dest := run dpl 7 (alltraps trap_addr after_trap) trapret.

Ltac left_state := repeat split; cpurun; nowrap; flat; done.

Lemma leave_user c a :
  0 <= a /\ a + 76 < 2 ^ 32 -> gpr c ESP = a -> cpl c = 0 -> let f := frame_at (cmem c) a in Z.land (f_cs f) 3 = 3 ->
  exists c1, trap_ret c = (Ok (To (f_eip f)), c1) /\ in_state c1 f /\ gpr c1 ESP = f_esp f /\ seg c1 SS = f_ss f
  /\ seg c1 DS = kept (f_ds f) /\ seg c1 ES = kept (f_es f) /\ seg c1 FS = kept (f_fs f) /\ seg c1 GS = kept (f_gs f)
  /\ cmem c1 = cmem c.
Proof.
  intros Ha Hsp Hc f Hcs. destruct c as [g s ct fl gd m0 i o]. unfold cpl in Hc. unfold frame_at in *. subst f. cbn [gpr cmem seg f_cs] in *.
  eexists. split.
  - cpurun. rewrite Hsp. nowrap. flat. rewrite Hc, Hcs. change (0 <? 3) with true. cpurun. nowrap. flat. reflexivity.
  - left_state.
Qed.

Lemma leave_kernel c a :
  0 <= a /\ a + 76 < 2 ^ 32 -> gpr c ESP = a -> cpl c = 0 -> let f := frame_at (cmem c) a in Z.land (f_cs f) 3 = 0 ->
  exists c1, trap_ret c = (Ok (To (f_eip f)), c1) /\ in_state c1 f /\ gpr c1 ESP = a + 68 /\ seg c1 SS = seg c SS
  /\ seg c1 DS = f_ds f /\ seg c1 ES = f_es f /\ seg c1 FS = f_fs f /\ seg c1 GS = f_gs f
  /\ cmem c1 = cmem c.
Proof.
  intros Ha Hsp Hc f Hcs. destruct c as [g s ct fl gd m0 i o]. unfold cpl in Hc. unfold frame_at in *. subst f. cbn [gpr cmem seg f_cs] in *.
  eexists. split.
  - cpurun. rewrite Hsp. nowrap. flat. rewrite Hc, Hcs. change (0 <? 0) with false. cpurun. nowrap. flat. reflexivity.
  - left_state.
Qed.

(** The return of [trap] drops its argument and falls through to [trapret]. *)
Lemma trap_leave_ret c a : 0 <= a < 2 ^ 32 -> gpr c ESP = a - 4 ->
  exists c', trap_leave c = trap_ret c' /\ gpr c' ESP = a /\ seg c' = seg c /\ cmem c' = cmem c.
Proof.
  intros Ha Hsp. unfold trap_leave. eexists. split; [apply (run_next dpl 7 _ after_call (Addl 4 ESP)); reflexivity|].
  cbn [gpr seg cmem set_gpr set_eflags]. rewrite Hsp, fn_lookup_insert. split; [|done]. rewrite Z.sub_add. by apply u32_id.
Qed.

Lemma frame_at_ext m m' a : (forall x, a <= x < a + 76 -> m' x = m x) -> frame_at m' a = frame_at m a.
Proof.
  intros H. unfold frame_at. f_equal; first [apply load32_ext | apply load16_ext]; intros x Hx; apply H; lia.
Qed.

(** All registers, one by one. *)
Lemma gpr_all (P : reg -> Prop) : P EDI -> P ESI -> P EBP -> P EBX -> P EDX -> P ECX -> P EAX -> P ESP -> forall r, P r.
Proof. by intros ???????? []. Qed.
Lemma seg_all (P : sreg -> Prop) : P CS -> P SS -> P DS -> P ES -> P FS -> P GS -> forall r, P r.
Proof. by intros ?????? []. Qed.

(** Where the frame of a trap goes. *)
Definition frame_addr (c : cpu) : Z := if cpl c =? 0 then gpr c ESP - 68 else esp0 - 76.

(** There is room for it on the stack it goes to. *)
Definition frame_room (c : cpu) : Prop :=
  cpl c = 0 /\ 76 <= gpr c ESP < 2 ^ 32 - 8 \/ cpl c = 3 /\ 84 <= esp0 < 2 ^ 32.

(** User code has no segment in a data segment register that it may not use. *)
Definition segs_usable (c : cpu) : Prop := forall r, cpl c <= dpl (seg c r) \/ seg c r = 0.

Lemma kept_usable c r : cpl c = 3 -> segs_usable c -> kept (seg c r) = seg c r.
Proof.
  intros Hc Hu. unfold kept. destruct (Z.ltb_spec (dpl (seg c r)) 3); [|done]. destruct (Hu r) as [?|E]; [lia|by rewrite E].
Qed.

(** C7: a trap is invisible to the code it interrupts.  From user code or from kernel
    code, through any of the 256 vectors, with or without an error code of the processor's, the entry code
    calls [trap] with the address of a [struct trapframe] that holds the whole
    interrupted state; and when [trap] returns and has not changed the frame, the
    interrupted code goes on with every register, segment register and flag as it was. *)
Theorem trap_transparent c n off err ip :
  cpu_ok c -> trap_args n err ip -> frame_room c -> segs_usable c ->
  let a := frame_addr c in
  exists c1, trap_enter n off err ip c = (Ok (To trap_addr), c1)
  /\ gpr c1 ESP = a - 8 /\ load32 (cmem c1) (a - 4) = a
  /\ (exists oesp sp ss, frame_at (cmem c1) a = saved c n err ip oesp sp ss /\ (cpl c = 3 -> sp = gpr c ESP /\ ss = seg c SS))
  /\ forall c2, gpr c2 ESP = gpr c1 ESP + 4 -> seg c2 CS = seg c1 CS -> seg c2 SS = seg c1 SS ->
     (forall x, a <= x < a + 76 -> cmem c2 x = cmem c1 x) ->
     exists c3, trap_leave c2 = (Ok (To ip), c3)
     /\ (forall r, gpr c3 r = gpr c r) /\ (forall r, seg c3 r = seg c r) /\ flags c3 = flags c.
Proof.
  intros Hok Ha Hroom Hu a. unfold a, frame_addr.
  destruct Hroom as [[Hc Hr]|[Hc Hr]]; rewrite Hc; cbn [Z.eqb].
  - destruct (enter_kernel c n off err ip Hok Hc ltac:(lia) Ha) as (c1 & Hrun & [Hsp Hret Harg Hfr Hcs Hds] & Hss & _).
    exists c1. rewrite Hrun, Hsp. do 3 (split; [done|]). split; [do 3 eexists; split; [exact Hfr|lia]|].
    intros c2 H1 H2 H3 Hm. rewrite Hcs in H2. assert (Hc2 : cpl c2 = 0) by (unfold cpl; by rewrite H2).
    destruct (trap_leave_ret c2 (gpr c ESP - 68) ltac:(lia) ltac:(lia)) as (c' & -> & Hsp' & Hs' & Hm').
    rewrite <- Hs' in H3. unfold cpl in Hc2. rewrite <- Hs' in Hc2. rewrite <- Hm' in Hm.
    pose proof (leave_kernel c' (gpr c ESP - 68) ltac:(lia) Hsp' Hc2) as Hl. rewrite (frame_at_ext _ _ _ Hm), Hfr in Hl.
    destruct (Hl Hc) as (c3 & Hrun3 & [Hdi Hsi Hbp Hbx Hdx Hcx Hax Hcs3 Hfl] & Hsp3 & Hss3 & Hds3 & Hes3 & Hfs3 & Hgs3 & _). exists c3. split; [done|].
    rewrite H3, Hss in Hss3. rewrite Z.sub_add in Hsp3. split; [apply (gpr_all (fun r => gpr c3 r = gpr c r)); assumption|]. split; [apply (seg_all (fun r => seg c3 r = seg c r)); assumption|exact Hfl].
  - destruct (enter_user c n off err ip Hok Hc Hr Ha) as (c1 & Hrun & [Hsp Hret Harg Hfr Hcs Hds] & Hss & _).
    exists c1. rewrite Hrun, Hsp. do 3 (split; [done|]). split; [do 3 eexists; split; [exact Hfr|done]|].
    intros c2 H1 H2 H3 Hm. rewrite Hcs in H2. assert (Hc2 : cpl c2 = 0) by (unfold cpl; by rewrite H2).
    destruct (trap_leave_ret c2 (esp0 - 76) ltac:(lia) ltac:(lia)) as (c' & -> & Hsp' & Hs' & Hm').
    unfold cpl in Hc2. rewrite <- Hs' in Hc2. rewrite <- Hm' in Hm.
    pose proof (leave_user c' (esp0 - 76) ltac:(lia) Hsp' Hc2) as Hl. rewrite (frame_at_ext _ _ _ Hm), Hfr in Hl.
    destruct (Hl Hc) as (c3 & Hrun3 & [Hdi Hsi Hbp Hbx Hdx Hcx Hax Hcs3 Hfl] & Hsp3 & Hss3 & Hds3 & Hes3 & Hfs3 & Hgs3 & _). exists c3. split; [done|].
    cbn [saved f_ds f_es f_fs f_gs f_ss f_cs] in *. rewrite (kept_usable c DS Hc Hu) in Hds3. rewrite (kept_usable c ES Hc Hu) in Hes3.
    rewrite (kept_usable c FS Hc Hu) in Hfs3. rewrite (kept_usable c GS Hc Hu) in Hgs3.
    split; [apply (gpr_all (fun r => gpr c3 r = gpr c r)); assumption|]. split; [apply (seg_all (fun r => seg c3 r = seg c r)); assumption|exact Hfl].
Qed.
End Traps.

(** ** The first run of a process *)

(** A process as [allocproc] leaves its kernel stack, for entry points [forkret_addr]
    and [trapret_addr]. *)
Record just_made (trapret_addr forkret_addr : Z) (p : proc) : Prop := mkJustMade {
  jm_ctx : ctx p = mkCtx 0 0 0 0 forkret_addr trapret_addr;
  jm_ctxp : ctxp p = tfp p - 24;
  jm_tfp : tfp p = kstack p + KSTACKSIZE - sizeof_trapframe;
}.

Lemma new_proc_made tr fr now n ks x : just_made tr fr (new_proc tr fr now n ks x).
Proof. split; cbn; unfold sizeof_context; lia || done. Qed.

Lemma child_of_made tr fr cur c x now n ks pd gs d : just_made tr fr (child_of tr fr cur c x now n ks pd gs d).
Proof. split; cbn; unfold sizeof_context; lia || done. Qed.

(** The kernel stack of [p] holds the structures [p] points to. *)
Record on_stack (m : mem) (p : proc) : Prop := mkOnStack {
  os_ctx : context_at m (ctxp p) = ctx p;
  os_tf : tf_of (frame_at m (tfp p)) = tf p;
}.

Section Start.
Context (dpl : Z -> Z) (trap_addr after_trap trapret_addr forkret_addr : Z).
Abbreviation trap_ret := (trap_ret dpl trap_addr after_trap).

(** C26: a process made by [fork] or by [userinit] starts in user mode in the state of its
    trap frame.  The scheduler's [swtch] to its context goes to [forkret] with an empty
    kernel stack but for the frame; when [forkret] returns, it returns to [trapret], and
    [trapret] leaves for the frame's instruction pointer with the frame's registers and
    stack (the child of a [fork] thus finds 0 in [eax]). *)
Theorem new_process_enters_user c old p :
  just_made trapret_addr forkret_addr p -> on_stack (cmem c) p -> Z.land (tf_cs (tf p)) 3 = 3 ->
  0 <= kstack p < 2 ^ 32 - 4096 ->
  swtch_call c old (ctxp p) -> cpl c = 0 ->
  apart (kstack p) 4096 (gpr c ESP - 16) 16 -> apart (kstack p) 4096 old 4 ->
  exists c1, run dpl 13 swtch 0 c = (Ok (To forkret_addr), c1) /\ gpr c1 ESP = ctxp p + 20
  /\ forall c2, gpr c2 ESP = gpr c1 ESP -> seg c2 = seg c1 ->
     (forall x, gpr c1 ESP <= x < kstack p + 4096 -> cmem c2 x = cmem c1 x) ->
     exists c3, run dpl 1 [Ret] 0 c2 = (Ok (To trapret_addr), c3)
     /\ exists c4, trap_ret c3 = (Ok (To (tf_eip (tf p))), c4)
     /\ gpr c4 EAX = tf_eax (tf p) /\ gpr c4 EBX = tf_ebx (tf p) /\ gpr c4 ESP = tf_esp (tf p)
     /\ seg c4 CS = tf_cs (tf p) /\ seg c4 SS = tf_ss (tf p) /\ flags c4 = tf_eflags (tf p)
     /\ seg c4 DS = kept dpl (tf_ds (tf p)) /\ seg c4 ES = kept dpl (tf_es (tf p)).
Proof.
  intros [Hctx Hcp Htp] [Hoc Hot] Hcs Hks Hc Hcpl H1 H2. unfold KSTACKSIZE, sizeof_trapframe, apart in *.
  destruct (swtch_loads dpl c old (ctxp p) Hc) as (c1 & Hrun & Hm & Hs & _ & Hsp & _); [unfold apart; lia..|].
  rewrite Hoc, Hctx in Hrun. cbn [eip] in Hrun. exists c1. split; [done|]. split; [done|].
  intros c2 Hsp2 Hs2 Hm2.
  assert (Hmem : forall x, ctxp p + 20 <= x < kstack p + 4096 -> cmem c2 x = cmem c x).
  { intros x Hx. rewrite Hm2, Hm by lia. unfold swtch_mem. rewrite !store32_other by lia. done. }
  assert (Hret : load32 (cmem c2) (gpr c2 ESP) = trapret_addr).
  { rewrite Hsp2, Hsp, (load32_ext (cmem c) (cmem c2)) by (intros; apply Hmem; lia). rewrite Hctx in Hoc. by injection Hoc. }
  eexists. split; [cbn [run lookup list_lookup step]; unfold pop, setr; mrun; by rewrite Hret|].
  assert (Hf : frame_at (cmem c2) (tfp p) = frame_at (cmem c) (tfp p)) by (apply frame_at_ext; intros x Hx; apply Hmem; lia).
  match goal with |- exists c4, trap_ret ?c3 = _ /\ _ => set (c3' := c3) end.
  destruct (leave_user dpl trap_addr after_trap c3' (tfp p)) as (c4 & Hrun4 & [_ _ _ Hbx _ _ Hax Hcs4 Hfl] & Hsp4 & Hss & Hds & Hes & _).
  { lia. }
  { subst c3'. cbn [gpr set_gpr]. rewrite fn_lookup_insert, u32_id; lia. }
  { subst c3'. unfold cpl. cbn [seg set_gpr]. by rewrite Hs2, Hs. }
  { subst c3'. cbn [cmem set_gpr]. rewrite Hf. rewrite <- Hot in Hcs. exact Hcs. }
  subst c3'. cbn [cmem set_gpr] in *. rewrite Hf in *. rewrite <- Hot. cbn [tf_of tf_eip tf_eax tf_ebx tf_esp tf_cs tf_ss tf_eflags tf_ds tf_es].
  exists c4. repeat (split; [assumption|]). assumption.
Qed.
End Start.
