(* ===== verification/AsmRuns.v ===== *)
(** Runs of the assembly code of [Asm] on concrete processors. *)

From Stdlib Require Import ZArith Lia.
From stdpp Require Import base list strings functions.
From S2P Require Import Prelude Kstring Kalloc Proc Asm AsmInv.
Local Open Scope Z_scope.

(** The privilege level in the selectors [seginit] makes. *)
Definition dpl (sel : Z) : Z := if Z.shiftr sel 3 <? 3 then 0 else 3.

Definition regs (sp : Z) : reg -> Z :=
  fun r => match r with EAX => 1 | ECX => 2 | EDX => 3 | EBX => 4 | ESP => sp | EBP => 6 | ESI => 7 | EDI => 8 end.
Definition kernel_segs : sreg -> Z := fun r => match r with CS => 8 | SS | DS | ES => 16 | FS | GS => 0 end.
Definition user_segs : sreg -> Z := fun r => match r with CS => 27 | SS | DS | ES => 35 | FS | GS => 0 end.

(** A processor with stack pointer [sp], and a call [swtch(old, new)] of its. *)
Definition cpu_with (segs : sreg -> Z) (sp : Z) (m : mem) : cpu := mkCpu (regs sp) segs (fun _ => 0) 0x202 0 m [] [].
Definition calling (sp back old new : Z) (m : mem) : cpu :=
  cpu_with kernel_segs sp (store32 (store32 (store32 m sp back) (sp + 4) old) (sp + 8) new).

Lemma calling_call sp back old new m :
  16 <= sp -> sp + 12 <= 2 ^ 32 -> 0 <= old < 2 ^ 32 -> 0 <= new < 2 ^ 32 - 20 -> swtch_call (calling sp back old new m) old new.
Proof. intros. split; cbn; memread; nowrap; lia || done. Qed.

Lemma regs_range sp : 0 <= sp < 2 ^ 32 -> forall r, 0 <= regs sp r < 2 ^ 32.
Proof. intros H []; cbn; lia. Qed.

(** Process A at stack 40000 switches to a context at 60000, and is switched back to
    from stack 60020. *)
Definition a_calls : cpu := calling 40000 111 1000 60000 (store32 (fun _ => 0) 60016 222).

Lemma swtch_coroutine_witness :
  exists c1, run dpl 13 swtch 0 a_calls = (Ok (To 222), c1)
  /\ exists c3, run dpl 13 swtch 0 (calling 60020 333 2000 39984 (cmem c1)) = (Ok (To 111), c3)
     /\ gpr c3 ESP = 40004 /\ gpr c3 EBX = 4.
Proof.
  destruct (swtch_coroutine dpl a_calls 1000 60000) as (c1 & Hrun & _ & _ & _ & _ & _ & _ & Hback).
  { apply regs_range. lia. }
  { apply calling_call; lia. }
  { cbn. unfold apart. lia. }
  { cbn. unfold apart. lia. }
  { cbn. unfold apart. lia. }
  exists c1. split; [exact Hrun|].
  destruct (Hback (calling 60020 333 2000 39984 (cmem c1)) 2000) as (c3 & Hrun3 & Hsp & Hregs).
  { apply (calling_call 60020 333 2000 39984); lia. }
  { cbn. unfold apart. lia. }
  { cbn. unfold apart. lia. }
  { cbn. intros x Hx. rewrite !store32_other by lia. done. }
  exists c3. split; [exact Hrun3|]. split; [exact Hsp|]. apply (Hregs EBX). left.
Defined.

Lemma trap_transparent_witness :
  exists c1, trap_enter dpl 500 600 700 16 80000 64 false None 1234 (cpu_with user_segs 3000 (fun _ => 0)) = (Ok (To 600), c1)
  /\ load32 (cmem c1) (79924 + 28) = 1
  /\ exists c3, trap_leave dpl 600 700 (set_gpr ESP 79920 c1) = (Ok (To 1234), c3) /\ gpr c3 EAX = 1 /\ gpr c3 ESP = 3000 /\ seg c3 DS = 35.
Proof.
  destruct (trap_transparent dpl 500 600 700 16 80000 (cpu_with user_segs 3000 (fun _ => 0)) 64 false None 1234)
    as (c1 & Hrun & Hsp & _ & (oesp & sp & ss & Hfr & _) & Hback).
  { split; [apply regs_range; lia|intros []; cbn; lia|cbn; lia]. }
  { split; cbn; lia || done. }
  { right. split; [reflexivity|lia]. }
  { intros []; first [right; reflexivity | left; vm_compute; discriminate]. }
  exists c1. split; [exact Hrun|]. split; [exact (f_equal f_eax Hfr)|].
  destruct (Hback (set_gpr ESP 79920 c1)) as (c3 & Hrun3 & Hg & Hs & _).
  { rewrite Hsp. reflexivity. }
  { reflexivity. }
  { reflexivity. }
  { reflexivity. }
  exists c3. split; [exact Hrun3|]. split; [exact (Hg EAX)|]. split; [exact (Hg ESP)|exact (Hs DS)].
Defined.

(** A new process with kernel stack 0x80400000, whose frame says to start at 0x100. *)
Definition the_frame : trapframe := mkTf 5 0 35 35 64 0x100 27 0x202 0x2000 35.
Definition the_proc : proc := set_tf the_frame (new_proc 800 900 0 2 0x80400000 proc_zero).
Definition the_stack : mem :=
  let c := 0x80400000 + 4096 - 100 in
  let f := 0x80400000 + 4096 - 76 in
  store32 (store32 (store16 (store32 (store32 (store16 (store32 (store16 (store16 (store32 (store32 (store32 (store32 (fun _ => 0)
    (c + 16) 900) (c + 20) 800) (f + 16) 5) (f + 28) 0) (f + 40) 35) (f + 44) 35) (f + 48) 64) (f + 60) 27) (f + 56) 0x100) (f + 64) 0x202)
    (f + 72) 35) (f + 68) 0x2000) 0x1000 0.

Lemma new_process_enters_user_witness :
  exists c1, run dpl 13 swtch 0 (calling 40000 111 1000 (0x80400000 + 3996) the_stack) = (Ok (To 900), c1)
  /\ exists c3, run dpl 1 [Ret] 0 c1 = (Ok (To 800), c3)
  /\ exists c4, trap_ret dpl 600 700 c3 = (Ok (To 0x100), c4) /\ gpr c4 EAX = 0 /\ gpr c4 ESP = 0x2000 /\ seg c4 CS = 27.
Proof.
  destruct (new_process_enters_user dpl 600 700 800 900 (calling 40000 111 1000 (0x80400000 + 3996) the_stack) 1000 the_proc)
    as (c1 & Hrun & _ & Hback).
  { split; vm_compute; reflexivity. }
  { split; vm_compute; reflexivity. }
  { reflexivity. }
  { cbn. lia. }
  { apply (calling_call 40000 111 1000 (0x80400000 + 3996)); lia. }
  { reflexivity. }
  { cbn. unfold apart. lia. }
  { cbn. unfold apart. lia. }
  exists c1. split; [exact Hrun|].
  destruct (Hback c1 eq_refl eq_refl ltac:(reflexivity)) as (c3 & Hrun3 & c4 & Hrun4 & Hax & _ & Hsp & Hcs & _).
  exists c3. split; [exact Hrun3|]. exists c4. split; [exact Hrun4|]. split; [exact Hax|]. split; [exact Hsp|exact Hcs].
Defined.
