(* ===== verification/Seg.v ===== *)
(** Segment descriptors: [SEG] and [SEG16] of [src/mmu.h], [seginit] and the part of
    [switchuvm] of [src/vm.c] that sets the task segment, [lgdt], [lidt] and [ltr] of
    [src/x86.h].

    A descriptor is the record of its bit fields; [seg_bytes] lays the fields out in
    memory, and [decode] is what the processor makes of the eight bytes. *)

From Stdlib Require Import ZArith Lia.
From stdpp Require Import base list strings.
From S2P Require Import Prelude Proc Syscall Trap Asm.
Local Open Scope Z_scope.

Definition SEG_TSS : Z := 5.
Definition NSEGS : nat := 6.
Definition STS_T32A : Z := 0x9.
Definition sizeof_taskstate : Z := 104.
Definition sizeof_segdesc : Z := 8.

Record segdesc := mkSeg {
  lim_15_0 : Z; base_15_0 : Z; base_23_16 : Z; sd_type : Z; sd_s : Z; sd_dpl : Z; sd_p : Z;
  lim_19_16 : Z; avl : Z; rsv1 : Z; db : Z; sd_g : Z; base_31_24 : Z;
}.
Definition seg_zero : segdesc := mkSeg 0 0 0 0 0 0 0 0 0 0 0 0 0.

(** The value a bit field of width [w] takes. *)
Definition fld (w v : Z) : Z := v mod 2 ^ w.

Definition SEG (type base lim dpl : Z) : segdesc :=
  mkSeg (fld 16 (Z.land (Z.shiftr (u32 lim) 12) 0xffff)) (fld 16 (Z.land (u32 base) 0xffff))
    (fld 8 (Z.land (Z.shiftr (u32 base) 16) 0xff)) (fld 4 type) 1 (fld 2 dpl) 1
    (fld 4 (Z.shiftr (u32 lim) 28)) 0 0 1 1 (fld 8 (Z.shiftr (u32 base) 24)).
Definition SEG16 (type base lim dpl : Z) : segdesc :=
  mkSeg (fld 16 (Z.land (u32 lim) 0xffff)) (fld 16 (Z.land (u32 base) 0xffff))
    (fld 8 (Z.land (Z.shiftr (u32 base) 16) 0xff)) (fld 4 type) 1 (fld 2 dpl) 1
    (fld 4 (Z.shiftr (u32 lim) 16)) 0 0 1 0 (fld 8 (Z.shiftr (u32 base) 24)).
Definition set_s (v : Z) (d : segdesc) : segdesc :=
  mkSeg (lim_15_0 d) (base_15_0 d) (base_23_16 d) (sd_type d) v (sd_dpl d) (sd_p d) (lim_19_16 d) (avl d) (rsv1 d) (db d) (sd_g d) (base_31_24 d).

(** ** A processor's segments *)

(** [struct cpu]'s table and the fields of its task state the code sets, and the
    registers that [lgdt], [lidt] and [ltr] load: limit and base of the tables. *)
Record segs := mkSegs {
  gdt : list segdesc;
  ss0 : Z; ts_esp0 : Z; iomb : Z;
  gdtr : Z * Z; idtr : Z * Z; tr : Z; scr3 : Z;
}.

(** The three halfwords [lgdt] and [lidt] give the processor. *)
Definition pseudo (p size : Z) : list Z := [u16 (size - 1); u16 (u32 p); u16 (Z.shiftr (u32 p) 16)].
(** What the processor reads from them. *)
Definition table_of (pd : list Z) : Z * Z :=
  match pd with [l; b0; b1] => (l, Z.lor b0 (Z.shiftl b1 16)) | _ => (0, 0) end.

Abbreviation GM := (M segs).
Definition set_entry (i : Z) (d : segdesc) : GM unit :=
  modify (fun c => mkSegs (<[Z.to_nat i := d]> (gdt c)) (ss0 c) (ts_esp0 c) (iomb c) (gdtr c) (idtr c) (tr c) (scr3 c)).
Definition lgdt (p size : Z) : GM unit :=
  modify (fun c => mkSegs (gdt c) (ss0 c) (ts_esp0 c) (iomb c) (table_of (pseudo p size)) (idtr c) (tr c) (scr3 c)).
Definition lidt (p size : Z) : GM unit :=
  modify (fun c => mkSegs (gdt c) (ss0 c) (ts_esp0 c) (iomb c) (gdtr c) (table_of (pseudo p size)) (tr c) (scr3 c)).
Definition ltr (sel : Z) : GM unit :=
  modify (fun c => mkSegs (gdt c) (ss0 c) (ts_esp0 c) (iomb c) (gdtr c) (idtr c) (u16 sel) (scr3 c)).
Definition set_ts (ss esp io : Z) : GM unit :=
  modify (fun c => mkSegs (gdt c) (u16 ss) (u32 esp) (u16 io) (gdtr c) (idtr c) (tr c) (scr3 c)).
Definition lcr3 (v : Z) : GM unit :=
  modify (fun c => mkSegs (gdt c) (ss0 c) (ts_esp0 c) (iomb c) (gdtr c) (idtr c) (tr c) v).

(** [gdt_addr] and [ts_addr] are the addresses of the two fields of [cpus[cpuid()]],
    [idt_addr] that of the interrupt table. *)
Section Segs.
Context (gdt_addr ts_addr idt_addr : Z).

Definition seginit : GM unit :=
  set_entry SEG_KCODE (SEG (Z.lor STA_X STA_R) 0 0xffffffff 0) ;;
  set_entry SEG_KDATA (SEG STA_W 0 0xffffffff 0) ;;
  set_entry SEG_UCODE (SEG (Z.lor STA_X STA_R) 0 0xffffffff DPL_USER) ;;
  set_entry SEG_UDATA (SEG STA_W 0 0xffffffff DPL_USER) ;;
  lgdt gdt_addr (Z.of_nat NSEGS * sizeof_segdesc).

(** [idtinit] of [trap.c]: the 256 gates are eight bytes each. *)
Definition idtinit : GM unit := lidt idt_addr (256 * 8).

(** [switchuvm] for a process, given by its kernel stack and its page directory, or
    for a null pointer.  The [pushcli] and [popcli] around its body are those of
    [Spinlock]: they change the processor's nesting depth and interrupt flag, not
    the tables and registers of this file. *)
Definition switchuvm (p : option (Z * Z)) : GM unit :=
  match p with
  | None => panic "switchuvm: no process"
  | Some (kstack, pgdir) =>
  if kstack =? 0 then panic "switchuvm: no kstack" else
  if pgdir =? 0 then panic "switchuvm: no pgdir" else
  set_entry SEG_TSS (set_s 0 (SEG16 STS_T32A ts_addr (sizeof_taskstate - 1) 0)) ;;
  set_ts (Z.shiftl SEG_KDATA 3) (kstack + KSTACKSIZE) 0xFFFF ;;
  ltr (Z.shiftl SEG_TSS 3) ;;
  lcr3 (V2P pgdir)
  end.

Definition switchkvm (kpgdir : Z) : GM unit := lcr3 (V2P kpgdir).
End Segs.

(** ** The descriptors in memory *)

Definition seg_bytes (d : segdesc) : list Z :=
  [ u8 (lim_15_0 d); u8 (Z.shiftr (lim_15_0 d) 8); u8 (base_15_0 d); u8 (Z.shiftr (base_15_0 d) 8); base_23_16 d;
    sd_type d + 2 ^ 4 * sd_s d + 2 ^ 5 * sd_dpl d + 2 ^ 7 * sd_p d;
    lim_19_16 d + 2 ^ 4 * avl d + 2 ^ 5 * rsv1 d + 2 ^ 6 * db d + 2 ^ 7 * sd_g d;
    base_31_24 d ].

(** A segment as the processor sees it: the first and the last address, what it is for
    and who may use it. *)
Record segment := mkSegment { g_base : Z; g_last : Z; g_type : Z; g_app : bool; g_dpl : Z; g_present : bool; g_32 : bool }.
Definition decode (b : list Z) : option segment :=
  match b with
  | [b0; b1; b2; b3; b4; b5; b6; b7] =>
      let lim := b0 + 2 ^ 8 * b1 + 2 ^ 16 * (b6 mod 16) in
      Some (mkSegment (b2 + 2 ^ 8 * b3 + 2 ^ 16 * b4 + 2 ^ 24 * b7)
        (if Z.testbit b6 7 then lim * 4096 + 4095 else lim)
        (b5 mod 16) (Z.testbit b5 4) (b5 / 2 ^ 5 mod 4) (Z.testbit b5 7) (Z.testbit b6 6))
  | _ => None
  end.

(** ** Reading the descriptors back *)

(** A finite check for every value of small fields. *)
Lemma small_fields (P : Z -> Z -> bool) n k :
  forallb (fun a => forallb (fun b => P (Z.of_nat a) (Z.of_nat b)) (seq 0 k)) (seq 0 n) = true ->
  forall x y, 0 <= x < Z.of_nat n -> 0 <= y < Z.of_nat k -> P x y = true.
Proof.
  intros H x y Hx Hy. rewrite forallb_forall in H. specialize (H (Z.to_nat x) ltac:(apply in_seq; lia)).
  rewrite forallb_forall in H. specialize (H (Z.to_nat y) ltac:(apply in_seq; lia)). by rewrite !Z2Nat.id in H by lia.
Qed.

(** The access byte: type, class, privilege, presence. *)
Lemma access_byte type dpl s : 0 <= type < 16 -> 0 <= dpl < 4 -> s = 0 \/ s = 1 ->
  let b := type + 2 ^ 4 * s + 2 ^ 5 * dpl + 2 ^ 7 * 1 in
  b mod 16 = type /\ Z.testbit b 4 = (s =? 1) /\ b / 2 ^ 5 mod 4 = dpl /\ Z.testbit b 7 = true.
Proof.
  intros Ht Hd Hs.
  pose proof (small_fields (fun t d => forallb (fun s => let b := t + 2 ^ 4 * s + 2 ^ 5 * d + 2 ^ 7 * 1 in
    (b mod 16 =? t) && Bool.eqb (Z.testbit b 4) (s =? 1) && (b / 2 ^ 5 mod 4 =? d) && Z.testbit b 7) [0; 1]) 16 4
    ltac:(vm_compute; reflexivity) type dpl Ht Hd) as H.
  cbn zeta in *. rewrite forallb_forall in H. specialize (H s ltac:(destruct Hs as [-> | ->]; [left|right; left]; done)).
  rewrite !andb_true_iff, !Z.eqb_eq, eqb_true_iff in H. tauto.
Qed.

(** The byte of the upper limit bits and the size bits. *)
Lemma size_byte l g : 0 <= l < 16 -> 0 <= g < 2 ->
  let b := l + 2 ^ 4 * 0 + 2 ^ 5 * 0 + 2 ^ 6 * 1 + 2 ^ 7 * g in b mod 16 = l /\ Z.testbit b 6 = true /\ Z.testbit b 7 = (g =? 1).
Proof.
  intros Hl Hg.
  pose proof (small_fields (fun l g => let b := l + 2 ^ 4 * 0 + 2 ^ 5 * 0 + 2 ^ 6 * 1 + 2 ^ 7 * g in
    (b mod 16 =? l) && Z.testbit b 6 && Bool.eqb (Z.testbit b 7) (g =? 1)) 16 2 ltac:(vm_compute; reflexivity) l g Hl Hg) as H.
  cbn zeta in *. rewrite !andb_true_iff, Z.eqb_eq, eqb_true_iff in H. tauto.
Qed.

(** Fields as quotients and remainders. *)
Lemma fld_low v : fld 16 (Z.land v 0xffff) = v mod 2 ^ 16.
Proof. change 0xffff with (Z.ones 16). unfold fld. rewrite Z.land_ones by lia. apply Z.mod_mod. lia. Qed.
Lemma fld_mid v : fld 8 (Z.land v 0xff) = v mod 2 ^ 8.
Proof. change 0xff with (Z.ones 8). unfold fld. rewrite Z.land_ones by lia. apply Z.mod_mod. lia. Qed.

Ltac consts :=
  change (2 ^ 4) with 16 in *; change (2 ^ 8) with 256 in *; change (2 ^ 12) with 4096 in *; change (2 ^ 16) with 65536 in *;
  change (2 ^ 20) with 1048576 in *; change (2 ^ 24) with 16777216 in *; change (2 ^ 28) with 268435456 in *; change (2 ^ 32) with 4294967296 in *.

(** The four pieces of a base. *)
Lemma base_pieces base : 0 <= base < 2 ^ 32 ->
  u8 (base mod 2 ^ 16) + 2 ^ 8 * u8 (Z.shiftr (base mod 2 ^ 16) 8) + 2 ^ 16 * (Z.shiftr base 16 mod 2 ^ 8) + 2 ^ 24 * fld 8 (Z.shiftr base 24) = base.
Proof.
  intros H. unfold u8, fld. rewrite !Z.shiftr_div_pow2 by lia. consts.
  assert (base mod 65536 / 256 = base / 256 mod 256) as -> by (Z.div_mod_to_equations; lia).
  assert (base mod 65536 mod 256 = base mod 256) as -> by (Z.div_mod_to_equations; lia). Z.div_mod_to_equations. lia.
Qed.

Lemma u8_pieces v : 0 <= v < 2 ^ 16 -> u8 v + 2 ^ 8 * u8 (Z.shiftr v 8) = v.
Proof.
  intros H. unfold u8. rewrite Z.shiftr_div_pow2 by lia. consts.
  rewrite (Z.mod_small (v / 256)) by (split; [apply Z.div_pos|apply Z.div_lt_upper_bound]; lia). pose proof (Z.div_mod v 256). lia.
Qed.

(** The two pieces of a limit of 20 bits. *)
Lemma limit_pieces q : 0 <= q < 2 ^ 20 -> q mod 2 ^ 16 + 2 ^ 16 * fld 4 (q / 2 ^ 16) = q.
Proof.
  intros H. unfold fld. rewrite (Z.mod_small (q / _)) by (consts; split; [apply Z.div_pos|apply Z.div_lt_upper_bound]; lia).
  pose proof (Z.div_mod q (2 ^ 16) ltac:(lia)). lia.
Qed.

(** A page-granular segment reaches to the end of the page of its limit. *)
Lemma decode_SEG type base lim dpl :
  0 <= type < 16 -> 0 <= base < 2 ^ 32 -> 0 <= lim < 2 ^ 32 -> 0 <= dpl < 4 ->
  decode (seg_bytes (SEG type base lim dpl)) = Some (mkSegment base (lim / 4096 * 4096 + 4095) type true dpl true true).
Proof.
  intros Ht Hb Hl Hd. unfold SEG, seg_bytes. cbn [lim_15_0 base_15_0 base_23_16 sd_type sd_s sd_dpl sd_p lim_19_16 avl rsv1 db sd_g base_31_24].
  rewrite !u32_id, !fld_low, fld_mid by done. unfold decode.
  assert (Hft : fld 4 type = type) by (apply Z.mod_small; lia). assert (Hfd : fld 2 dpl = dpl) by (apply Z.mod_small; lia). rewrite Hft, Hfd.
  assert (Hfl : 0 <= fld 4 (Z.shiftr lim 28) < 16) by (apply (Z.mod_pos_bound _ 16); lia).
  destruct (access_byte type dpl 1 Ht Hd ltac:(by right)) as (-> & -> & -> & ->). destruct (size_byte _ 1 Hfl ltac:(lia)) as (-> & -> & ->).
  rewrite base_pieces, u8_pieces by (done || apply Z.mod_pos_bound; lia). do 2 f_equal.
  change (1 =? 1) with true. cbv iota. rewrite !Z.shiftr_div_pow2 by lia. change (2 ^ 28) with (2 ^ 12 * 2 ^ 16). rewrite <- Z.div_div by lia.
  rewrite limit_pieces; [done|]. consts. split; [apply Z.div_pos|apply Z.div_lt_upper_bound]; lia.
Qed.

(** The byte-granular descriptor of a task segment. *)
Lemma decode_TSS type base lim dpl :
  0 <= type < 16 -> 0 <= base < 2 ^ 32 -> 0 <= lim < 2 ^ 20 -> 0 <= dpl < 4 ->
  decode (seg_bytes (set_s 0 (SEG16 type base lim dpl))) = Some (mkSegment base lim type false dpl true true).
Proof.
  intros Ht Hb Hl Hd. unfold SEG16, set_s, seg_bytes. cbn [lim_15_0 base_15_0 base_23_16 sd_type sd_s sd_dpl sd_p lim_19_16 avl rsv1 db sd_g base_31_24].
  rewrite !u32_id, !fld_low, fld_mid by lia. unfold decode.
  assert (Hft : fld 4 type = type) by (apply Z.mod_small; lia). assert (Hfd : fld 2 dpl = dpl) by (apply Z.mod_small; lia). rewrite Hft, Hfd.
  assert (Hfl : 0 <= fld 4 (Z.shiftr lim 16) < 16) by (apply (Z.mod_pos_bound _ 16); lia).
  destruct (access_byte type dpl 0 Ht Hd ltac:(by left)) as (-> & -> & -> & ->). destruct (size_byte _ 0 Hfl ltac:(lia)) as (-> & -> & ->).
  rewrite base_pieces, u8_pieces by (done || apply Z.mod_pos_bound; lia). do 2 f_equal.
  change (0 =? 1) with false. cbv iota. rewrite !Z.shiftr_div_pow2 by lia. by apply limit_pieces.
Qed.

(** The assembler's macro makes the same bytes as the C macro. *)
Lemma SEG_ASM_is_SEG type base lim :
  0 <= type < 16 -> 0 <= base < 2 ^ 32 -> 0 <= lim < 2 ^ 32 -> SEG_ASM type base lim = seg_bytes (SEG type base lim 0).
Proof.
  intros Ht Hb Hl. unfold SEG_ASM, SEG, seg_bytes. cbn [lim_15_0 base_15_0 base_23_16 sd_type sd_s sd_dpl sd_p lim_19_16 avl rsv1 db sd_g base_31_24 app].
  rewrite !u32_id, !fld_low, !fld_mid by done. change 0xffff with (Z.ones 16). change 0xff with (Z.ones 8). change 0xf with (Z.ones 4).
  rewrite !Z.land_ones by lia. unfold fld. rewrite (Z.mod_small type) by (cbn; lia).
  pose proof (small_fields (fun t l => (Z.lor 0x90 t =? t + 2 ^ 4 * 1 + 2 ^ 5 * (0 mod 2 ^ 2) + 2 ^ 7 * 1) && (Z.lor 0xC0 l =? l + 2 ^ 4 * 0 + 2 ^ 5 * 0 + 2 ^ 6 * 1 + 2 ^ 7 * 1))
    16 16 ltac:(vm_compute; reflexivity) type (Z.shiftr lim 28 mod 2 ^ 4) Ht ltac:(apply (Z.mod_pos_bound _ 16); lia)) as H.
  rewrite andb_true_iff, !Z.eqb_eq in H. destruct H as [-> ->]. done.
Qed.

(** ** The tables are well typed *)

(** What a selector names: its upper bits are the index of an entry inside the limit
    the processor was given. *)
Definition entry_of (c : segs) (sel : Z) : option segment :=
  if sel / 8 * 8 + 7 <=? fst (gdtr c) then
    match gdt c !! Z.to_nat (sel / 8) with Some d => decode (seg_bytes d) | None => None end
  else None.

(** Segments the processor accepts in [cs], in a data segment register, in the task
    register; all but the last cover the whole address space. *)
Inductive kind := Code (level : Z) | Data (level : Z) | Task (base : Z).
Definition typed (k : kind) (g : segment) : Prop :=
  match k with
  | Code l => g = mkSegment 0 (2 ^ 32 - 1) (Z.lor STA_X STA_R) true l true true
  | Data l => g = mkSegment 0 (2 ^ 32 - 1) STA_W true l true true
  | Task base => g = mkSegment base (sizeof_taskstate - 1) STS_T32A false 0 true true
  end.
Definition has_kind (c : segs) (sel : Z) (k : kind) : Prop := exists g, entry_of c sel = Some g /\ typed k g.

Section Typed.
Context (gdt_addr ts_addr idt_addr : Z).

(** The operations on the tables after [seginit], in any order. *)
Inductive gop := Uvm (kstack pgdir : Z) | Kvm (kpgdir : Z) | Idt.
Definition do_gop (o : gop) : GM unit :=
  match o with Uvm k p => switchuvm ts_addr (Some (k, p)) | Kvm p => switchkvm p | Idt => idtinit idt_addr end.
Fixpoint do_gops (l : list gop) : GM unit :=
  match l with [] => ret tt | o :: l' => do_gop o ;; do_gops l' end.
Definition gop_ok (o : gop) : Prop := match o with Uvm k p => k <> 0 /\ p <> 0 | _ => True end.

(** The kernel stack the processor switches to on a trap from user code. *)
Fixpoint last_stack (l : list gop) (k : option Z) : option Z :=
  match l with [] => k | Uvm ks _ :: l' => last_stack l' (Some ks) | _ :: l' => last_stack l' k end.

Record segs_ok (c : segs) (k : option Z) : Prop := mkSegsOk {
  sg_len : length (gdt c) = NSEGS;
  sg_gdtr : gdtr c = (47, gdt_addr);
  sg_kcode : has_kind c (Z.shiftl SEG_KCODE 3) (Code 0);
  sg_kdata : has_kind c (Z.shiftl SEG_KDATA 3) (Data 0);
  sg_ucode : has_kind c (Z.lor (Z.shiftl SEG_UCODE 3) DPL_USER) (Code DPL_USER);
  sg_udata : has_kind c (Z.lor (Z.shiftl SEG_UDATA 3) DPL_USER) (Data DPL_USER);
  sg_task : forall ks, k = Some ks ->
    has_kind c (tr c) (Task ts_addr) /\ ss0 c = Z.shiftl SEG_KDATA 3 /\ ts_esp0 c = u32 (ks + KSTACKSIZE);
}.

Lemma table_of_pseudo p size : 0 <= p < 2 ^ 32 -> 0 < size <= 2 ^ 16 -> table_of (pseudo p size) = (size - 1, p).
Proof.
  intros Hp Hs. unfold pseudo, table_of. rewrite u32_id by done. f_equal; [apply Z.mod_small; lia|].
  apply Z.bits_inj'. intros n Hn. unfold u16. rewrite Z.lor_spec, Z.shiftl_spec, testbit_mod_pow2 by lia.
  destruct (Z.ltb_spec n 16); cbn [andb orb]; [rewrite (Z.testbit_neg_r _ (n - 16)) by lia; apply orb_false_r|].
  rewrite testbit_mod_pow2, Z.shiftr_spec by lia. replace (n - 16 + 16) with n by lia.
  destruct (Z.ltb_spec (n - 16) 16); cbn [andb]; [done|]. symmetry. rewrite <- (Z.mod_small p (2 ^ 32)) by done. apply Z.mod_pow2_bits_high. lia.
Qed.

(** A table with the descriptor [d] in the entry [i] that a selector names. *)
Lemma has_kind_entry c sel k d g :
  fst (gdtr c) = 47 -> 0 <= sel < 48 -> gdt c !! Z.to_nat (sel / 8) = Some d -> decode (seg_bytes d) = Some g -> typed k g -> has_kind c sel k.
Proof.
  intros Hl Hs Hd Hg Ht. exists g. split; [|done]. unfold entry_of. rewrite Hl, Hd.
  destruct (Z.leb_spec (sel / 8 * 8 + 7) 47); [done|]. assert (sel / 8 < 6) by (apply Z.div_lt_upper_bound; lia). lia.
Qed.

(** Writing an entry leaves what the others are. *)
Lemma has_kind_other c c' sel k i d :
  gdt c' = <[i := d]> (gdt c) -> gdtr c' = gdtr c -> i <> Z.to_nat (sel / 8) -> has_kind c sel k -> has_kind c' sel k.
Proof.
  intros Hg Hr Hi (g & He & Ht). exists g. split; [|done]. unfold entry_of in *. by rewrite Hr, Hg, list_lookup_insert_ne.
Qed.

Lemma seginit_ok c : 0 <= gdt_addr < 2 ^ 32 -> length (gdt c) = NSEGS ->
  exists c', seginit gdt_addr c = (Ok tt, c') /\ segs_ok c' None.
Proof.
  intros Ha Hl. destruct c as [l]. cbn [gdt] in Hl. unfold NSEGS in Hl.
  destruct l as [|d0 [|d1 [|d2 [|d3 [|d4 [|d5 [|]]]]]]]; try discriminate.
  eexists. split; [unfold seginit, set_entry, lgdt; mrun; reflexivity|]. rewrite table_of_pseudo by (done || lia).
  cbn [gdt ss0 ts_esp0 iomb gdtr idtr tr scr3].
  split; cbn [gdt gdtr ss0 ts_esp0 tr]; [reflexivity|reflexivity|..|discriminate].
  all: eapply has_kind_entry; [reflexivity|vm_compute; split; [discriminate|reflexivity]|reflexivity|..].
  all: first [reflexivity | apply decode_SEG; vm_compute; split; discriminate || reflexivity].
Qed.

Lemma gop_keeps o c k : 0 <= ts_addr < 2 ^ 32 -> gop_ok o -> segs_ok c k ->
  exists c', do_gop o c = (Ok tt, c') /\ segs_ok c' (last_stack [o] k).
Proof.
  intros Ha Ho H. destruct o as [ks pd|pd|]; cbn [do_gop last_stack].
  - destruct Ho as [Hk Hp]. unfold switchuvm. rewrite (proj2 (Z.eqb_neq _ _) Hk), (proj2 (Z.eqb_neq _ _) Hp).
    eexists. split; [unfold set_entry, set_ts, ltr, lcr3; mrun; reflexivity|]. destruct H as [Hl Hg H1 H2 H3 H4 _].
    split; cbn [gdt ss0 ts_esp0 iomb gdtr idtr tr scr3]; [by rewrite length_insert|done|..].
    1-4: by eapply has_kind_other; [reflexivity|reflexivity|vm_compute; lia|].
    intros ks' [= <-]. split; [|done]. eapply has_kind_entry; cbn [gdt gdtr]; [by rewrite Hg|vm_compute; split; [discriminate|reflexivity]|..].
    + apply list_lookup_insert_eq. rewrite Hl. vm_compute. lia.
    + apply decode_TSS; [by vm_compute|exact Ha|by vm_compute|by vm_compute].
    + done.
  - eexists. split; [reflexivity|]. by destruct H.
  - eexists. split; [reflexivity|]. by destruct H.
Qed.

Lemma gops_keep l : forall c k, 0 <= ts_addr < 2 ^ 32 -> Forall gop_ok l -> segs_ok c k ->
  exists c', do_gops l c = (Ok tt, c') /\ segs_ok c' (last_stack l k).
Proof.
  induction l as [|o l IH]; intros c k Ha Hl Hc; [by exists c|]. apply Forall_cons in Hl as [Ho Hl].
  destruct (gop_keeps o c k Ha Ho Hc) as (c1 & Hrun & H1). cbn [do_gops]. rewrite (bind_ok _ _ _ _ _ Hrun).
  destruct (IH c1 _ Ha Hl H1) as (c2 & Hrun2 & H2). exists c2. split; [done|]. by destruct o.
Qed.

(** C27: the descriptor tables are well typed.  After [seginit] and any sequence of
    [switchuvm], [switchkvm] and [idtinit], each selector the kernel uses names a segment
    of the type and privilege it is used with, as the processor decodes the table's bytes:
    code and data for the kernel and for user programs over the whole address space, a
    task segment at [ts] with the kernel stack of the process switched to last; and every
    gate of the interrupt table enters the kernel's code segment. *)
Theorem descriptor_tables_typed c l :
  0 <= gdt_addr < 2 ^ 32 -> 0 <= ts_addr < 2 ^ 32 -> length (gdt c) = NSEGS -> Forall gop_ok l ->
  exists c', bind (seginit gdt_addr) (fun _ => do_gops l) c = (Ok tt, c')
  /\ gdtr c' = (47, gdt_addr)
  /\ has_kind c' 8 (Code 0) /\ has_kind c' 16 (Data 0) /\ has_kind c' 27 (Code 3) /\ has_kind c' 35 (Data 3)
  /\ (forall ks, last_stack l None = Some ks -> has_kind c' (tr c') (Task ts_addr) /\ ss0 c' = 16 /\ ts_esp0 c' = u32 (ks + 4096))
  /\ forall vectors n g, tvinit vectors !! n = Some g -> has_kind c' (gate_cs g) (Code 0) /\ gate_p g = 1.
Proof.
  intros Hg Ht Hl Ho. destruct (seginit_ok c Hg Hl) as (c1 & Hrun & H1). rewrite (bind_ok _ _ _ _ _ Hrun).
  destruct (gops_keep l c1 None Ht Ho H1) as (c2 & Hrun2 & [_ Hr Hkc Hkd Huc Hud Hts]). exists c2.
  do 7 (split; [done|]). intros vectors n g Hgate.
  assert (gate_cs g = 8 /\ gate_p g = 1) as [-> ->]; [|done]. unfold tvinit in Hgate.
  apply list_lookup_insert_Some in Hgate as [(_ & <- & _)|[_ Hgate]]; [done|]. by apply list_lookup_fmap_Some in Hgate as (i & -> & _).
Qed.
End Typed.

(** A boot: segments, interrupt table, two processes in turn. *)
Lemma descriptor_tables_typed_witness :
  exists c', bind (seginit 0x80114000) (fun _ => do_gops 0x80113f00 0x80115000 [Idt; Uvm 0x80400000 0x80401000; Kvm 0x80300000; Uvm 0x80500000 0x80501000])
    (mkSegs (replicate 6 seg_zero) 0 0 0 (0, 0) (0, 0) 0 0) = (Ok tt, c') /\ has_kind c' 27 (Code 3) /\ ts_esp0 c' = 0x80501000.
Proof.
  destruct (descriptor_tables_typed 0x80114000 0x80113f00 0x80115000 (mkSegs (replicate 6 seg_zero) 0 0 0 (0, 0) (0, 0) 0 0)
    [Idt; Uvm 0x80400000 0x80401000; Kvm 0x80300000; Uvm 0x80500000 0x80501000]) as (c' & Hrun & _ & _ & _ & Huc & _ & Hts & _).
  { lia. }
  { lia. }
  { reflexivity. }
  { repeat constructor; discriminate. }
  exists c'. split; [exact Hrun|]. split; [exact Huc|]. destruct (Hts 0x80500000 eq_refl) as (_ & _ & ->). reflexivity.
Defined.
