(* ===== verification/Boot.v ===== *)
(** The boot loader, [src/bootmain.c], over the disk controller of [Ide] and physical
    memory.

    The loader polls: the controller stays busy for [delay n] reads of its status
    register when it reads sector [n].  [wfuel] bounds the turns of [waitdisk].  The
    loader's end is [None] when it returns to [bootasm.S] and the address of the kernel's
    entry when it jumps there. *)

From Stdlib Require Import ZArith Lia Sorting.Sorted.
From stdpp Require Import base list strings.
From S2P Require Import Prelude Kstring Kalloc Bytes Blk Bio Ide Asm AsmInv.
Local Open Scope Z_scope.

Definition SECTSIZE : Z := 512.
Definition ELF_MAGIC : Z := 0x464C457F.
Definition elf : Z := 0x10000.
Definition sizeof_proghdr : Z := 32.

Record boot := mkBoot { bide : ide; polled : nat; bmem : mem }.
Definition set_bide v (s : boot) : boot := mkBoot v (polled s) (bmem s).
Definition set_polled v (s : boot) : boot := mkBoot (bide s) v (bmem s).
Definition set_bmem v (s : boot) : boot := mkBoot (bide s) (polled s) v.

Abbreviation BM := (M boot).
Definition onide {A} (m : M ide A) : BM A := zoom bide set_bide m.
Definition outb (port v : Z) : BM unit := onide (Ide.outb port v).

(** [insl]: the words of the controller's buffer, to memory. *)
Fixpoint insl (m : mem) (a : Z) (l : list Z) : mem :=
  match l with
  | [] => m
  | b :: l' => insl (upd m a b) (a + 1) l'
  end.

Section Loader.
Context (delay : Z -> nat) (wfuel : nat).

(** [inb(0x1F7)]: a command in progress completes when it has been polled enough. *)
Definition status : BM Z :=
  s <- get ;;
  match inflight (hw (bide s)) with
  | Some c =>
      if (polled s <? delay (c_sector c))%nat then modify (set_polled (S (polled s)))
      else onide (ata_finish false) ;; modify (set_polled 0)
  | None => ret tt
  end ;;
  gets (fun s => ata_status (hw (bide s))).

Fixpoint waitdisk (fuel : nat) : BM unit :=
  match fuel with
  | O => spin
  | S k => r <- status ;; if negb (Z.land r 0xC0 =? 0x40) then waitdisk k else ret tt
  end.

Definition readsect (dst offset : Z) : BM unit :=
  waitdisk wfuel ;;
  outb 0x1F2 1 ;;
  outb 0x1F3 offset ;;
  outb 0x1F4 (Z.shiftr offset 8) ;;
  outb 0x1F5 (Z.shiftr offset 16) ;;
  outb 0x1F6 (Z.lor (Z.shiftr offset 24) 0xE0) ;;
  outb 0x1F7 0x20 ;;
  waitdisk wfuel ;;
  modify (fun s => set_bmem (insl (bmem s) dst (rdbuf (hw (bide s)))) s).

(** The loop of [readseg]; [n] bounds its turns. *)
Fixpoint readseg_loop (n : nat) (pa epa offset : Z) : BM unit :=
  match n with
  | O => spin
  | S k =>
      if pa <? epa then readsect pa offset ;; readseg_loop k (u32 (pa + SECTSIZE)) epa (u32 (offset + 1))
      else ret tt
  end.

Definition readseg (pa count offset : Z) : BM unit :=
  let epa := u32 (pa + count) in
  let pa := u32 (pa - offset mod SECTSIZE) in
  let offset := u32 (offset / SECTSIZE + 1) in
  readseg_loop (Z.to_nat ((epa - pa) / SECTSIZE) + 2) pa epa offset.

(** One program header at [ph]. *)
Definition load_seg (ph : Z) : BM unit :=
  m <- gets bmem ;;
  let pa := load32 m (ph + 12) in
  let filesz := load32 m (ph + 16) in
  readseg pa filesz (load32 m (ph + 4)) ;;
  m <- gets bmem ;;
  let memsz := load32 m (ph + 20) in
  let filesz := load32 m (ph + 16) in
  if filesz <? memsz then
    modify (fun s => set_bmem (stosb (bmem s) (u32 (pa + filesz)) 0 (Z.to_nat (memsz - filesz))) s)
  else ret tt.

(** [for(; ph < eph; ph++)]: there are at most [phnum] turns. *)
Fixpoint load_segs (n : nat) (ph eph : Z) : BM unit :=
  match n with
  | O => ret tt
  | S k => if ph <? eph then load_seg ph ;; load_segs k (u32 (ph + sizeof_proghdr)) eph else ret tt
  end.

Definition bootmain : BM (option Z) :=
  readseg elf 4096 0 ;;
  m <- gets bmem ;;
  if negb (load32 m elf =? ELF_MAGIC) then ret None else
  let ph := u32 (elf + load32 m (elf + 28)) in
  let phnum := load16 m (elf + 44) in
  let eph := u32 (ph + sizeof_proghdr * phnum) in
  load_segs (Z.to_nat phnum) ph eph ;;
  m <- gets bmem ;;
  ret (Some (load32 m (elf + 24))).
End Loader.

(** ** Reading sectors *)

Definition boot_disk (s : boot) : blockmap := drive0 (hw (bide s)).

(** The controller has nothing to do. *)
Record idle (s : boot) : Prop := mkIdle {
  id_inflight : inflight (hw (bide s)) = None;
  id_failed : failed (hw (bide s)) = false;
  id_polled : polled s = 0%nat;
}.

Lemma insl_spec l : forall m a x, insl m a l x = if (a <=? x) && (x <? a + Z.of_nat (length l)) then nth (Z.to_nat (x - a)) l 0 else m x.
Proof.
  induction l as [|b l IH]; intros m a x; cbn [insl length].
  - zcases; cbn [andb]; done || lia.
  - rewrite IH. unfold upd. zcases; cbn [andb]; try lia; try done.
    all: first [ replace (Z.to_nat (x - a)) with (S (Z.to_nat (x - (a + 1)))) by lia; done
               | replace (Z.to_nat (x - a)) with 0%nat by lia; done ].
Qed.

(** The sector number is spread over the registers and put together again. *)
Lemma lba_registers n : 0 <= n < 2 ^ 24 ->
  let r := [u8 n; u8 (Z.shiftr n 8); u8 (Z.shiftr n 16); u8 (Z.lor (Z.shiftr n 24) 0xE0)] in
  Z.lor (nth 0 r 0) (Z.lor (Z.shiftl (nth 1 r 0) 8) (Z.lor (Z.shiftl (nth 2 r 0) 16) (Z.shiftl (Z.land (nth 3 r 0) 0x0f) 24))) = n
  /\ Z.land (Z.shiftr (nth 3 r 0) 4) 1 = 0.
Proof.
  intros H r. assert (Hn : Z.shiftr n 24 = 0) by (rewrite Z.shiftr_div_pow2 by lia; apply Z.div_small; lia).
  subst r. cbn [nth]. rewrite Hn. split; [|done]. change (Z.shiftl (Z.land (u8 (Z.lor 0 0xE0)) 0x0f) 24) with 0. rewrite Z.lor_0_r.
  apply Z.bits_inj'. intros i Hi. unfold u8. rewrite !Z.lor_spec, !Z.shiftl_spec, testbit_mod_pow2 by lia.
  destruct (Z.ltb_spec i 8); [rewrite !(Z.testbit_neg_r _ (i - _)) by lia; cbn; by rewrite !orb_false_r|].
  rewrite testbit_mod_pow2, Z.shiftr_spec by lia. replace (i - 8 + 8) with i by lia.
  destruct (Z.ltb_spec i 16); [destruct (Z.ltb_spec (i - 8) 8); [|lia]; rewrite (Z.testbit_neg_r _ (i - 16)) by lia; cbn; by rewrite orb_false_r|].
  rewrite testbit_mod_pow2, Z.shiftr_spec by lia. replace (i - 16 + 16) with i by lia. destruct (Z.ltb_spec (i - 8) 8); [lia|].
  destruct (Z.ltb_spec (i - 16) 8); cbn; [done|]. symmetry. rewrite <- (Z.mod_small n (2 ^ 24)) by done. apply Z.mod_pow2_bits_high. lia.
Qed.

Section Reading.
Context (delay : Z -> nat) (wfuel : nat).

Lemma waitdisk_idle s k : idle s -> waitdisk delay (S k) s = (Ok tt, s).
Proof.
  intros [Hi Hf _]. cbn [waitdisk]. unfold status. mrun. rewrite Hi. unfold ata_status. rewrite Hi, Hf. done.
Qed.

(** The state in which a read of sector [n] of the boot disk is in progress. *)
Definition reading (s : boot) (n : Z) : Prop := exists c, inflight (hw (bide s)) = Some c /\ c_write c = false /\ c_drive c = 0 /\ c_sector c = n.

Lemma waitdisk_busy n : forall k s, reading s n -> (polled s <= delay n)%nat -> (delay n - polled s < k)%nat ->
  exists s', waitdisk delay k s = (Ok tt, s') /\ idle s' /\ boot_disk s' = boot_disk s /\ bmem s' = bmem s
  /\ rdbuf (hw (bide s')) = boot_disk s n.
Proof.
  induction k as [|k IH]; intros s (c & Hi & Hw & Hd & Hs) Hp Hk; [lia|]. cbn [waitdisk]. unfold status. mrun. rewrite Hi, Hs.
  destruct (Nat.ltb_spec (polled s) (delay n)) as [Hlt|Hge].
  - cbn [bide set_polled]. unfold ata_status. rewrite Hi. cbn [negb].
    destruct (IH (set_polled (S (polled s)) s)) as (s' & Hrun & Hrest); [by exists c|cbn; lia..|].
    exists s'. by split.
  - unfold onide, ata_finish. mrun. rewrite Hi, Hw, Hd. cbn. eexists. split; [reflexivity|]. cbn. rewrite Hs. done.
Qed.

(** The state with controller registers [r] and command [o]. *)
Definition with_regs (s : boot) (r : Z -> Z) (o : option command) : boot :=
  let a := hw (bide s) in set_bide (set_hw (mkAta r o (rdbuf a) (failed a) (drive0 a) (drive1_present a)) (bide s)) s.

Lemma outb_run port v s r o : (port =? 0x1f7) = false -> outb port v (with_regs s r o) = (Ok tt, with_regs s (upd r port (u8 v)) o).
Proof. intros H. unfold outb, onide, Ide.outb. mrun. cbn [bide with_regs set_bide hw set_hw]. by rewrite H. Qed.

Lemma outb_command v s r o :
  outb 0x1f7 v (with_regs s r o)
  = (Ok tt, let r := upd r 0x1f7 (u8 v) in with_regs s r (Some (mkCmd (u8 v =? IDE_CMD_WRITE) (ata_drive r) (ata_lba r) []))).
Proof. done. Qed.

Lemma outb_first port v s : (port =? 0x1f7) = false ->
  outb port v s = (Ok tt, with_regs s (upd (regs (hw (bide s))) port (u8 v)) (inflight (hw (bide s)))).
Proof. intros H. unfold outb, onide, Ide.outb. mrun. by rewrite H. Qed.

Lemma readsect_run dst off s : idle s -> 0 <= off < 2 ^ 24 -> (delay off < wfuel)%nat ->
  exists s', readsect delay wfuel dst off s = (Ok tt, s') /\ idle s' /\ boot_disk s' = boot_disk s
  /\ bmem s' = insl (bmem s) dst (boot_disk s off).
Proof.
  intros Hi Ho Hw. unfold readsect. destruct wfuel as [|wf] eqn:E; [lia|]. rewrite (bind_ok _ _ _ _ _ (waitdisk_idle s wf Hi)).
  rewrite (bind_ok _ _ _ _ _ (outb_first 0x1F2 _ _ eq_refl)), (bind_ok _ _ _ _ _ (outb_run 0x1F3 _ _ _ _ eq_refl)),
    (bind_ok _ _ _ _ _ (outb_run 0x1F4 _ _ _ _ eq_refl)), (bind_ok _ _ _ _ _ (outb_run 0x1F5 _ _ _ _ eq_refl)),
    (bind_ok _ _ _ _ _ (outb_run 0x1F6 _ _ _ _ eq_refl)), (bind_ok _ _ _ _ _ (outb_command _ _ _ _)). cbv zeta.
  match goal with |- context [bind (waitdisk delay (S wf)) _ ?st] => destruct (waitdisk_busy off (S wf) st) as (s' & Hrun & Hidle & Hd & Hm & Hrd) end.
  { eexists. split; [reflexivity|]. cbn [c_write c_drive c_sector].
    pose proof (lba_registers off Ho) as [Hl Hdr]. split; [done|]. split; [exact Hdr|exact Hl]. }
  { cbn. rewrite (id_polled _ Hi). lia. }
  { cbn. rewrite (id_polled _ Hi). lia. }
  rewrite (bind_ok _ _ _ _ _ Hrun). eexists. split; [reflexivity|]. cbn [boot_disk bide set_bmem bmem]. rewrite Hrd, Hm. by destruct Hidle.
Qed.

(** The byte at offset [o] of what is on a disk from sector 1 on. *)
Definition dbyte (d : blockmap) (o : Z) : Z := nth (Z.to_nat (o mod SECTSIZE)) (d (o / SECTSIZE + 1)) 0.
Definition sectors (d : blockmap) : Prop := forall n, length (d n) = 512%nat.

Context (Hdelay : forall n, (delay n < wfuel)%nat).

Lemma readseg_loop_S k pa epa off :
  readseg_loop delay wfuel (S k) pa epa off
  = if pa <? epa then readsect delay wfuel pa off ;; readseg_loop delay wfuel k (u32 (pa + SECTSIZE)) epa (u32 (off + 1)) else ret tt.
Proof. done. Qed.

(** The loop fills memory from [pa] up to a sector boundary at or after [epa]. *)
Lemma readseg_loop_run n : forall pa epa off s,
  idle s -> sectors (boot_disk s) -> 0 <= pa -> epa + 512 <= 2 ^ 32 -> 1 <= off -> off + (epa - pa) / 512 < 2 ^ 24 -> epa - pa <= 512 * Z.of_nat n ->
  exists s' top, readseg_loop delay wfuel (S n) pa epa off s = (Ok tt, s') /\ idle s' /\ boot_disk s' = boot_disk s
  /\ Z.max pa epa <= top <= Z.max pa (epa + 511)
  /\ forall x, bmem s' x = if (pa <=? x) && (x <? top) then dbyte (boot_disk s) ((off - 1) * 512 + (x - pa)) else bmem s x.
Proof using Hdelay.
  induction n as [|n IH]; intros pa epa off s Hi Hs Hp He Ho1 Ho2 Hn; rewrite readseg_loop_S.
  { destruct (Z.ltb_spec pa epa); [lia|]. exists s, pa. do 3 (split; [done|]). split; [lia|]. intros x. zcases; cbn [andb]; done || lia. }
  destruct (Z.ltb_spec pa epa) as [Hlt|Hge].
  2:{ exists s, pa. do 3 (split; [done|]). split; [lia|]. intros x. zcases; cbn [andb]; done || lia. }
  assert (Hq : (epa - (pa + 512)) / 512 = (epa - pa) / 512 - 1) by (replace (epa - (pa + 512)) with (epa - pa + -1 * 512) by lia; rewrite Z.div_add by lia; lia).
  assert (0 <= (epa - pa) / 512) by (apply Z.div_pos; lia).
  destruct (readsect_run pa off s Hi ltac:(lia) (Hdelay off)) as (s1 & Hrun & Hi1 & Hd1 & Hm1). rewrite (bind_ok _ _ _ _ _ Hrun).
  unfold SECTSIZE. rewrite !u32_id by lia.
  destruct (IH (pa + 512) epa (off + 1) s1 Hi1 ltac:(by rewrite Hd1) ltac:(lia) He ltac:(lia) ltac:(lia) ltac:(lia)) as (s2 & top & Hrun2 & Hi2 & Hd2 & Ht & Hx).
  rewrite Hrun2. exists s2, top. split; [done|]. split; [done|]. split; [congruence|]. split; [lia|].
  intros x. rewrite Hx, Hm1, Hd1, insl_spec, Hs. change (Z.of_nat 512) with 512.
  destruct (Z.leb_spec (pa + 512) x), (Z.leb_spec pa x), (Z.ltb_spec x top), (Z.ltb_spec x (pa + 512)); cbn [andb]; try lia; try done.
  - f_equal. lia.
  - unfold dbyte, SECTSIZE. rewrite (Z.add_comm ((off - 1) * 512)), Z.div_add, Z.mod_add, Z.div_small, Z.mod_small by lia. f_equal. f_equal. lia.
Qed.

Lemma readseg_run pa count offset s :
  idle s -> sectors (boot_disk s) -> 0 <= count -> 0 <= offset -> offset + count < 2 ^ 32 -> offset mod 512 <= pa -> pa + count + 512 <= 2 ^ 32 ->
  exists s' top, readseg delay wfuel pa count offset s = (Ok tt, s') /\ idle s' /\ boot_disk s' = boot_disk s
  /\ pa + count <= top <= Z.max pa (pa + count + 511)
  /\ forall x, bmem s' x = if (pa - offset mod 512 <=? x) && (x <? top) then dbyte (boot_disk s) (offset + (x - pa)) else bmem s x.
Proof using Hdelay.
  intros Hi Hs Hc Ho Hoc Hp He. unfold readseg, SECTSIZE. pose proof (Z.mod_pos_bound offset 512 ltac:(lia)) as Hm.
  assert (Hq : 0 <= offset / 512 < 2 ^ 23) by (split; [apply Z.div_pos; lia|apply Z.div_lt_upper_bound; lia]).
  rewrite !u32_id by lia. set (p0 := pa - offset mod 512). set (epa := pa + count).
  assert (Hdiv : 0 <= (epa - p0) / 512 < 2 ^ 23 + 2) by (split; [apply Z.div_pos; lia|apply Z.div_lt_upper_bound; lia]).
  replace (Z.to_nat ((epa - p0) / 512) + 2)%nat with (S (Z.to_nat ((epa - p0) / 512) + 1)) by lia.
  pose proof (Z.div_mod offset 512 ltac:(lia)). pose proof (Z.div_mod (epa - p0) 512 ltac:(lia)). pose proof (Z.mod_pos_bound (epa - p0) 512 ltac:(lia)).
  destruct (readseg_loop_run (Z.to_nat ((epa - p0) / 512) + 1) p0 epa (offset / 512 + 1) s) as (s' & top & Hrun & Hi' & Hd & Ht & Hx); try done; try lia.
  exists s', top. split; [done|]. split; [done|]. split; [done|]. split; [lia|].
  intros x. rewrite Hx. destruct (_ && _); [|done]. f_equal. lia.
Qed.

(** ** The kernel image *)

(** The fields of a program header the loader uses. *)
Record phdr := mkPh { ph_off : Z; ph_paddr : Z; ph_filesz : Z; ph_memsz : Z }.
Definition phdr_at (m : mem) (a : Z) : phdr := mkPh (load32 m (a + 4)) (load32 m (a + 12)) (load32 m (a + 16)) (load32 m (a + 20)).
Definition headers (img : mem) (phoff : Z) (i n : nat) : list phdr := map (fun i => phdr_at img (phoff + 32 * Z.of_nat i)) (seq i n).

(** The first byte the loader writes for a segment, and the end of the segment. *)
Definition seg_low (h : phdr) : Z := ph_paddr h - ph_off h mod 512.
Definition seg_end (h : phdr) : Z := ph_paddr h + Z.max (ph_filesz h) (ph_memsz h).

(** A segment lies above the page of the header. *)
Record seg_ok (h : phdr) : Prop := mkSegOk {
  so_off : 0 <= ph_off h /\ ph_off h + ph_filesz h < 2 ^ 32;
  so_size : 0 <= ph_filesz h /\ 0 <= ph_memsz h;
  so_low : elf + 4096 <= seg_low h;
  so_end : seg_end h + 512 <= 2 ^ 32;
}.
Definition before (h h' : phdr) : Prop := seg_end h <= seg_low h'.

(** An image the loader can load: the headers are in the first page, the segments in
    increasing order. *)
Record bootable (img : mem) : Prop := mkBootable {
  bo_magic : load32 img 0 = ELF_MAGIC;
  bo_phoff : 0 <= load32 img 28;
  bo_phnum : 0 <= load16 img 44;
  bo_table : load32 img 28 + 32 * load16 img 44 <= 4096;
  bo_segs : Forall seg_ok (headers img (load32 img 28) 0 (Z.to_nat (load16 img 44)));
  bo_order : StronglySorted before (headers img (load32 img 28) 0 (Z.to_nat (load16 img 44)));
}.

(** A segment is in memory: the bytes of the file, then zeroes. *)
Definition loaded (img m : mem) (h : phdr) : Prop :=
  forall k, 0 <= k < Z.max (ph_filesz h) (ph_memsz h) -> m (ph_paddr h + k) = if k <? ph_filesz h then img (ph_off h + k) else 0.
(** The first page of the image is at [elf]. *)
Definition page_in (img m : mem) : Prop := forall x, 0 <= x < 4096 -> m (elf + x) = img x.

Lemma page_load32 img m a : page_in img m -> 0 <= a -> a + 4 <= 4096 -> load32 m (elf + a) = load32 img a.
Proof using.
  intros Hp Ha Hb. unfold load32. rewrite <- !Z.add_assoc. by rewrite !Hp by lia.
Qed.
Lemma page_load16 img m a : page_in img m -> 0 <= a -> a + 2 <= 4096 -> load16 m (elf + a) = load16 img a.
Proof using. intros Hp Ha Hb. unfold load16. rewrite <- !Z.add_assoc. by rewrite !Hp by lia. Qed.

(** The fields of the header at offset [a], as the loader reads them. *)
Lemma page_phdr img m a h : page_in img m -> 0 <= a -> a + 32 <= 4096 -> phdr_at img a = h ->
  load32 m (elf + a + 4) = ph_off h /\ load32 m (elf + a + 12) = ph_paddr h
  /\ load32 m (elf + a + 16) = ph_filesz h /\ load32 m (elf + a + 20) = ph_memsz h.
Proof using. intros Hp Ha Hb <-. rewrite <- !Z.add_assoc. by rewrite !(page_load32 img) by (done || lia). Qed.

Lemma load_seg_run a h s :
  let img := dbyte (boot_disk s) in
  idle s -> sectors (boot_disk s) -> page_in img (bmem s) -> 0 <= a -> a + 32 <= 4096 -> phdr_at img a = h -> seg_ok h ->
  exists s', load_seg delay wfuel (elf + a) s = (Ok tt, s') /\ idle s' /\ boot_disk s' = boot_disk s
  /\ loaded img (bmem s') h /\ forall x, x < seg_low h -> bmem s' x = bmem s x.
Proof using Hdelay.
  intros img Hi Hs Hpg Ha Hb Hh [Ho Hz Hl He]. unfold load_seg. unfold bind at 1, gets at 1.
  destruct (page_phdr img (bmem s) a h Hpg Ha Hb Hh) as (-> & -> & -> & _).
  unfold loaded, seg_low, seg_end in *. pose proof (Z.mod_pos_bound (ph_off h) 512 ltac:(lia)).
  destruct (readseg_run (ph_paddr h) (ph_filesz h) (ph_off h) s) as (s1 & top & Hrun & Hi1 & Hd1 & Ht & Hx); try done; try (unfold elf in *; lia).
  assert (Hlow : forall x, x < ph_paddr h - ph_off h mod 512 -> bmem s1 x = bmem s x).
  { intros x Hx'. rewrite Hx. by destruct (Z.leb_spec (ph_paddr h - ph_off h mod 512) x); [lia|]. }
  assert (Hin : forall k, 0 <= k < ph_filesz h -> bmem s1 (ph_paddr h + k) = img (ph_off h + k)).
  { intros k Hk. rewrite Hx. zcases; cbn [andb]; try lia. unfold img. f_equal. lia. }
  assert (Hpg1 : page_in img (bmem s1)) by (intros x Hx'; rewrite Hlow by lia; by apply Hpg).
  rewrite (bind_ok _ _ _ _ _ Hrun). unfold bind at 1, gets at 1.
  destruct (page_phdr img (bmem s1) a h Hpg1 Ha Hb Hh) as (_ & _ & -> & ->).
  destruct (Z.ltb_spec (ph_filesz h) (ph_memsz h)) as [Hlt|Hge].
  - rewrite u32_id by (unfold elf in *; lia). eexists. split; [reflexivity|]. split; [by destruct Hi1|]. split; [done|]. cbn [bmem set_bmem]. split.
    + intros k Hk. rewrite stosb_spec. change (u8 0) with 0. destruct (Z.ltb_spec k (ph_filesz h)).
      * rewrite <- Hin by lia. zcases; cbn [andb]; done || lia.
      * zcases; cbn [andb]; done || lia.
    + intros x Hx'. rewrite stosb_spec, Hlow by lia. zcases; cbn [andb]; done || lia.
  - exists s1. split; [done|]. split; [done|]. split; [done|]. split; [|done].
    intros k Hk. rewrite Hin by lia. zcases; done || lia.
Qed.

(** The program headers from number [i] on. *)
Lemma load_segs_run phoff n : forall i s,
  let img := dbyte (boot_disk s) in
  idle s -> sectors (boot_disk s) -> page_in img (bmem s) -> 0 <= phoff -> phoff + 32 * Z.of_nat (i + n) <= 4096 ->
  Forall seg_ok (headers img phoff i n) -> StronglySorted before (headers img phoff i n) ->
  let ph := elf + (phoff + 32 * Z.of_nat i) in
  exists s', load_segs delay wfuel n ph (ph + 32 * Z.of_nat n) s = (Ok tt, s') /\ boot_disk s' = boot_disk s
  /\ Forall (loaded img (bmem s')) (headers img phoff i n)
  /\ forall x, Forall (fun h => x < seg_low h) (headers img phoff i n) -> bmem s' x = bmem s x.
Proof using Hdelay.
  induction n as [|n IH]; intros i s img Hi Hs Hpg Hp Htab Hok Hord ph; [by exists s|]. cbn [load_segs].
  unfold headers in *. cbn [seq map] in *. apply Forall_cons in Hok as [Hok1 Hok]. apply StronglySorted_inv in Hord as [Hord Hord1].
  destruct (Z.ltb_spec ph (ph + 32 * Z.of_nat (S n))) as [_|?]; [|lia].
  destruct (load_seg_run (phoff + 32 * Z.of_nat i) _ s Hi Hs Hpg ltac:(lia) ltac:(lia) eq_refl Hok1) as (s1 & Hrun & Hi1 & Hd1 & Hl1 & Hf1).
  subst ph. rewrite (bind_ok _ _ _ _ _ Hrun).
  set (h := phdr_at _ (phoff + 32 * Z.of_nat i)) in *. unfold sizeof_proghdr, elf in *. rewrite u32_id by lia.
  replace (0x10000 + (phoff + 32 * Z.of_nat i) + 32) with (0x10000 + (phoff + 32 * Z.of_nat (S i))) by lia.
  replace (0x10000 + (phoff + 32 * Z.of_nat i) + 32 * Z.of_nat (S n)) with (0x10000 + (phoff + 32 * Z.of_nat (S i)) + 32 * Z.of_nat n) by lia.
  destruct (IH (S i) s1 Hi1) as (s2 & Hrun2 & Hd2 & Hl2 & Hf2); rewrite ?Hd1; try done; try lia.
  { intros x Hx. rewrite Hf1; [by apply Hpg|]. destruct Hok1 as [_ _ Hlow _]. fold h in Hlow. unfold elf in *. lia. }
  rewrite Hrun2. exists s2. split; [done|]. split; [congruence|]. rewrite Hd1 in Hl2, Hf2. split.
  - apply Forall_cons. split; [|done]. intros k Hk. rewrite Hf2; [by apply Hl1|].
    eapply Forall_impl; [exact Hord1|]. intros h' Hh'. unfold before, seg_end in Hh'. fold h in Hh'. lia.
  - intros x Hx. apply Forall_cons in Hx as [Hx1 Hx]. rewrite Hf2 by done. by apply Hf1.
Qed.

Lemma first_page s : idle s -> sectors (boot_disk s) ->
  exists s', readseg delay wfuel elf 4096 0 s = (Ok tt, s') /\ idle s' /\ boot_disk s' = boot_disk s
  /\ page_in (dbyte (boot_disk s)) (bmem s') /\ forall x, x < elf -> bmem s' x = bmem s x.
Proof using Hdelay.
  intros Hi Hs. destruct (readseg_run elf 4096 0 s Hi Hs) as (s' & top & Hrun & Hi' & Hd & Ht & Hx); try (unfold elf; vm_compute; discriminate || reflexivity).
  change (0 mod 512) with 0 in Hx. rewrite Z.sub_0_r in Hx.
  exists s'. do 3 (split; [done|]). split.
  - intros x Hx'. rewrite Hx. unfold elf in *. zcases; cbn [andb]; try lia. f_equal. lia.
  - intros x Hx'. rewrite Hx. zcases; cbn [andb]; done || lia.
Qed.

(** C25: the boot loader loads the kernel.  Whatever time the disk takes to answer, when
    the image from sector 1 on is an ELF file whose program headers are in its first page
    and whose segments lie above the loader's buffer in increasing order (with the slack
    of a sector in front of a segment that does not start on one), [bootmain] jumps to
    the entry point of the ELF header with every segment at its physical address, the
    part beyond the file's bytes zeroed, and memory below its buffer untouched; an image
    without the magic number is refused. *)
Theorem bootmain_loads s :
  let img := dbyte (boot_disk s) in
  idle s -> sectors (boot_disk s) ->
  (load32 img 0 <> ELF_MAGIC -> exists s', bootmain delay wfuel s = (Ok None, s')) /\
  (bootable img ->
   exists s', bootmain delay wfuel s = (Ok (Some (load32 img 24)), s')
   /\ Forall (loaded img (bmem s')) (headers img (load32 img 28) 0 (Z.to_nat (load16 img 44)))
   /\ forall x, x < elf -> bmem s' x = bmem s x).
Proof using Hdelay.
  intros img Hi Hs. destruct (first_page s Hi Hs) as (s1 & Hrun & Hi1 & Hd1 & Hpg & Hlow). fold img in Hpg.
  pose proof (page_load32 img (bmem s1) 0 Hpg ltac:(lia) ltac:(lia)) as Hmg. rewrite Z.add_0_r in Hmg.
  split; unfold bootmain; rewrite (bind_ok _ _ _ _ _ Hrun); unfold bind at 1, gets at 1; rewrite Hmg.
  { intros Hne. rewrite (proj2 (Z.eqb_neq _ _) Hne). by exists s1. }
  intros [Hm Ho Hn Ht Hok Hord]. rewrite Hm. change (negb (ELF_MAGIC =? ELF_MAGIC)) with false. cbv iota.
  rewrite (page_load32 img), (page_load16 img) by (done || lia). cbv zeta. rewrite !u32_id by (unfold elf, sizeof_proghdr; lia).
  destruct (load_segs_run (load32 img 28) (Z.to_nat (load16 img 44)) 0 s1 Hi1) as (s2 & Hrun2 & Hd2 & Hl2 & Hf2); rewrite ?Hd1; try done; try lia.
  rewrite Hd1 in Hl2, Hf2. fold img in Hl2, Hf2. cbn [Z.of_nat] in Hrun2. rewrite Z.mul_0_r, Z.add_0_r, Z2Nat.id in Hrun2 by lia.
  unfold sizeof_proghdr. rewrite (bind_ok _ _ _ _ _ Hrun2). unfold bind, gets, ret.
  assert (Hkeep : forall x, x < elf + 4096 -> bmem s2 x = bmem s1 x).
  { intros x Hx. apply Hf2. eapply Forall_impl; [exact Hok|]. intros h [_ _ Hl _]. cbn beta. lia. }
  assert (Hpg2 : page_in img (bmem s2)) by (intros x Hx; rewrite Hkeep by lia; by apply Hpg).
  rewrite (page_load32 img) by (done || lia). exists s2. split; [done|]. split; [done|].
  intros x Hx. rewrite Hkeep by (unfold elf in *; lia). by apply Hlow.
Qed.
End Reading.

(** ** A small kernel *)

Module BootRuns.
(** An image with two segments: 5 bytes at offset 1000 for 9 bytes at 0x100200, and 3
    bytes at offset 2048 for 0x101000. *)
Definition file : mem :=
  let hdr m a off pa fsz msz := store32 (store32 (store32 (store32 m (a + 4) off) (a + 12) pa) (a + 16) fsz) (a + 20) msz in
  let m := store32 (fun o => o mod 251) 0 ELF_MAGIC in
  let m := store16 (store32 (store32 m 24 0x10000c) 28 52) 44 2 in
  hdr (hdr m 52 1000 0x100200 5 9) 84 2048 0x101000 3 3.
Definition the_disk : blockmap := fun n => map (fun k => file ((n - 1) * 512 + Z.of_nat k)) (seq 0 512).
Definition reset : boot :=
  mkBoot (mkIde (mkCache false (fun _ => mkBuf 0 0 0 (Sleeplock.mkSleeplock false false 0) 0 0 0 []) 0 the_disk [] []) false (fun _ => None) None false
    (mkAta (fun _ => 0) None [] false the_disk true) []) 0 (fun _ => 7).

Lemma the_headers :
  headers (dbyte the_disk) (load32 (dbyte the_disk) 28) 0 (Z.to_nat (load16 (dbyte the_disk) 44))
  = [mkPh 1000 0x100200 5 9; mkPh 2048 0x101000 3 3].
Proof. vm_compute. reflexivity. Qed.

Lemma bootmain_loads_witness :
  exists s', bootmain (fun n => Z.to_nat (n mod 3)) 5 reset = (Ok (Some 0x10000c), s')
  /\ bmem s' (0x100200 + 8) = 0 /\ bmem s' (0x101000 + 2) = 42 /\ bmem s' 0x7c00 = 7.
Proof.
  destruct (bootmain_loads (fun n => Z.to_nat (n mod 3)) 5) with (s := reset) as [_ H].
  { intros n. pose proof (Z.mod_pos_bound n 3 ltac:(lia)). lia. }
  { split; reflexivity. }
  { intros n. unfold boot_disk, reset, the_disk. cbn [bide hw drive0]. by rewrite length_map, length_seq. }
  destruct H as (s' & Hrun & Hl & Hlow).
  { split; [vm_compute; reflexivity|vm_compute; discriminate..| |]; change (boot_disk reset) with the_disk; rewrite the_headers.
    - repeat constructor; vm_compute; discriminate || reflexivity.
    - repeat constructor; vm_compute; discriminate || reflexivity. }
  change (boot_disk reset) with the_disk in Hl. rewrite the_headers in Hl. apply Forall_cons in Hl as [H1 Hl]. apply Forall_cons in Hl as [H2 _].
  exists s'. split; [exact Hrun|]. split; [apply (H1 8); cbn; lia|]. split; [transitivity (dbyte the_disk 2050); [apply (H2 2); cbn; lia|vm_compute; reflexivity]|].
  rewrite Hlow by (vm_compute; reflexivity). reflexivity.
Defined.
End BootRuns.
