(* ===== verification/VmSpace.v ===== *)
(** Address spaces: what [setupkvm], [allocuvm], [deallocuvm], [copyuvm] and [freevm] of
    [Vm] do with whole page tables.

    [space] describes an address space by two finite maps: the page tables by directory
    index, and the pages of user memory by page number.  The directory, the tables, the
    user pages and the free pages are all distinct, and every operation conserves them:
    what it takes from the free list it adds to the address space, and the other way
    round, on the error paths too. *)

From Stdlib Require Import ZArith Lia.
From stdpp Require Import base list gmap strings.
From S2P Require Import Prelude Kstring Spinlock Kalloc Vm.
Local Open Scope Z_scope.

(** ** The values of a finite map *)

Definition vals (m : gmap Z Z) : list Z := (map_to_list m).*2.

Lemma elem_of_vals m x : x ∈ vals m <-> exists i, m !! i = Some x.
Proof.
  unfold vals. rewrite list_elem_of_fmap. split.
  - intros ([i y] & -> & H). exists i. by apply elem_of_map_to_list.
  - intros [i H]. exists (i, x). split; [done|]. by apply elem_of_map_to_list.
Qed.

Lemma vals_insert m i x : m !! i = None -> vals (<[i := x]> m) ≡ₚ x :: vals m.
Proof. intros H. unfold vals. by rewrite map_to_list_insert. Qed.

Lemma vals_delete m i x : m !! i = Some x -> x :: vals (delete i m) ≡ₚ vals m.
Proof. intros H. unfold vals. by rewrite <- (map_to_list_delete m i x H). Qed.

Lemma vals_empty : vals ∅ = [].
Proof. done. Qed.

Lemma vals_inj m i j x : NoDup (vals m) -> m !! i = Some x -> m !! j = Some x -> i = j.
Proof.
  intros Hn Hi Hj. destruct (decide (i = j)) as [|Hne]; [done|]. rewrite <- (vals_delete m i x Hi) in Hn.
  apply NoDup_cons in Hn as [Hn _]. exfalso. apply Hn, elem_of_vals. exists j. by rewrite lookup_delete_ne.
Qed.

Lemma vals_ext m m' : (forall i, m !! i = m' !! i) -> vals m = vals m'.
Proof. intros H. by rewrite (map_eq m m' H). Qed.

(** ** Address spaces *)

Definition owned (pgdir : Z) (ts us : gmap Z Z) : list Z := pgdir :: vals ts ++ vals us.

Lemma owned_table pgdir ts us i t : ts !! i = None -> owned pgdir (<[i := t]> ts) us ≡ₚ t :: owned pgdir ts us.
Proof. intros H. unfold owned. rewrite (vals_insert ts i t H). cbn [app]. apply perm_swap. Qed.

Lemma owned_user pgdir ts us i p : us !! i = None -> owned pgdir ts (<[i := p]> us) ≡ₚ p :: owned pgdir ts us.
Proof. intros H. unfold owned. rewrite (vals_insert us i p H). rewrite <- (Permutation_middle (vals ts)). apply perm_swap. Qed.

Lemma owned_delete pgdir ts us i p : us !! i = Some p -> p :: owned pgdir ts (delete i us) ≡ₚ owned pgdir ts us.
Proof.
  intros H. rewrite <- (owned_user pgdir ts (delete i us) i p) by apply lookup_delete_eq. by rewrite insert_delete_id.
Qed.

Lemma owned_cancel pgdir us l l' ts ts' :
  l' ++ owned pgdir ts' us ≡ₚ l ++ owned pgdir ts us -> pgdir :: vals ts' ++ l' ≡ₚ pgdir :: vals ts ++ l.
Proof.
  assert (E : forall L T, (pgdir :: T ++ L) ++ vals us ≡ₚ L ++ pgdir :: T ++ vals us).
  { intros L T. cbn [app]. rewrite <- Permutation_middle, (app_assoc L), (Permutation_app_comm L T). done. }
  unfold owned. intros H. apply (Permutation_app_inv_r (vals us)). by rewrite !E.
Qed.

Section Space.
Context (kend : Z) (Hend : KERNBASE < kend).

(** The entry of a page of user memory. *)
Definition user_entry (o : option Z) (e : Z) : Prop :=
  match o with Some p => Z.odd e = true /\ PTE_ADDR e = V2P p | None => Z.odd e = false end.

Record space (k : kmem) (pgdir : Z) (l : list Z) (ts us : gmap Z Z) : Prop := mkSpace {
  sp_free : kmem_ok kend k l;
  sp_pages : Forall (page_ok kend) (owned pgdir ts us);
  sp_nodup : NoDup (l ++ owned pgdir ts us);
  sp_dir : forall i, 0 <= i < 1024 ->
    match ts !! i with Some t => present k pgdir i = true /\ tab k pgdir i = t | None => present k pgdir i = false end;
  sp_ts : forall i t, ts !! i = Some t -> 0 <= i < 1024;
  sp_user : forall va, 0 <= va < KERNBASE -> user_entry (us !! (va / 4096)) (entry k pgdir va);
  sp_us : forall i p, us !! i = Some p -> 0 <= i < KERNBASE / 4096;
}.

Lemma P2V_V2P p : page_ok kend p -> P2V (V2P p) = p /\ V2P p <> 0 /\ V2P p mod 4096 = 0 /\ 0 <= V2P p < PHYSTOP.
Proof using Hend.
  intros (Hm & He & Hr). unfold KERNBASE, PHYSTOP, PGSIZE in *.
  assert (E : V2P p = p - 0x80000000) by (unfold V2P, KERNBASE; apply u32_id; lia). rewrite E.
  split; [unfold P2V, KERNBASE; rewrite u32_id; lia|]. split; [lia|]. split; [|lia].
  apply Z.mod_divide in Hm as [q ->]; [|lia]. replace (q * 4096 - 0x80000000) with ((q - 0x80000) * 4096) by lia. apply Z.mod_mul. lia.
Qed.

Lemma space_parts k pgdir l ts us : space k pgdir l ts us ->
  page_ok kend pgdir /\ (pgdir ∉ l) /\ (forall i t, ts !! i = Some t -> page_ok kend t /\ (t ∉ l) /\ t <> pgdir)
  /\ (forall i p, us !! i = Some p -> page_ok kend p /\ (p ∉ l) /\ p <> pgdir /\ forall j, ts !! j <> Some p)
  /\ NoDup (vals ts) /\ NoDup (vals us).
Proof using.
  intros [_ Hp Hn _ _ _ _]. unfold owned in *. rewrite Forall_cons, Forall_app, !Forall_forall in Hp. destruct Hp as (Hpd & Hpt & Hpu).
  apply NoDup_app in Hn as (_ & Hdis & Hn). apply NoDup_cons in Hn as [Hnd Hn]. apply NoDup_app in Hn as (Hnt & Htu & Hnu).
  rewrite elem_of_app in Hnd.
  assert (Hl : forall x, x ∈ pgdir :: vals ts ++ vals us -> x ∉ l) by (intros x Hx Hxl; by apply (Hdis x)).
  split; [done|]. split; [apply Hl; left|]. split.
  - intros i t Ht. assert (t ∈ vals ts) by (apply elem_of_vals; by exists i).
    split; [by apply Hpt|]. split; [apply Hl; right; rewrite elem_of_app; by left|]. intros ->. tauto.
  - split; [|done]. intros i p Hpi. assert (p ∈ vals us) by (apply elem_of_vals; by exists i).
    split; [by apply Hpu|]. split; [apply Hl; right; rewrite elem_of_app; by right|]. split; [intros ->; tauto|].
    intros j Hj. apply (Htu p); [|done]. apply elem_of_vals. by exists j.
Qed.

Lemma space_pt_ok k pgdir l ts us : space k pgdir l ts us -> pt_ok kend k pgdir l.
Proof using.
  intros Hs. destruct (space_parts _ _ _ _ _ Hs) as (Hd & Hdl & Ht & _ & Hnt & _). split; [apply Hs|done|done| |].
  - intros i Hi Hp. pose proof (sp_dir _ _ _ _ _ Hs i Hi) as H. destruct (ts !! i) as [t|] eqn:E; [|congruence].
    destruct H as [_ ->]. destruct (Ht i t E) as (H1 & H2 & H3). done.
  - intros i j Hi Hj Hpi Hpj Heq. pose proof (sp_dir _ _ _ _ _ Hs i Hi) as H1. pose proof (sp_dir _ _ _ _ _ Hs j Hj) as H2.
    destruct (ts !! i) as [t|] eqn:E1; [|congruence]. destruct (ts !! j) as [t'|] eqn:E2; [|congruence].
    destruct H1 as [_ H1], H2 as [_ H2]. apply (vals_inj ts i j t Hnt E1). rewrite E2. congruence.
Qed.

(** The table of an address. *)
Lemma space_table k pgdir l ts us va : space k pgdir l ts us -> vaddr va ->
  match ts !! PDX va with
  | Some t => present k pgdir (PDX va) = true /\ tab k pgdir (PDX va) = t /\ entry k pgdir va = load32 (memory k) (t + 4 * PTX va)
  | None => present k pgdir (PDX va) = false /\ entry k pgdir va = 0
  end.
Proof using.
  intros Hs Hv. destruct (PDX_div va Hv) as [_ Hr]. pose proof (sp_dir _ _ _ _ _ Hs _ Hr) as H. unfold entry.
  destruct (ts !! PDX va); [destruct H as [-> ->]; done|by rewrite H].
Qed.

(** Nothing but the free list has changed in the pages of the directory and its tables. *)
Lemma space_ext k k' pgdir l l' ts us :
  space k pgdir l ts us -> kmem_ok kend k' l' -> NoDup (l' ++ owned pgdir ts us) ->
  (forall x, in_page pgdir x -> memory k' x = memory k x) ->
  (forall i t x, ts !! i = Some t -> in_page t x -> memory k' x = memory k x) ->
  space k' pgdir l' ts us /\ forall va, vaddr va -> entry k' pgdir va = entry k pgdir va.
Proof using.
  intros Hs Hk Hn Hd Ht.
  assert (Hdir : forall i, 0 <= i < 1024 -> load32 (memory k') (pgdir + 4 * i) = load32 (memory k) (pgdir + 4 * i))
    by (intros i Hi; apply load32_ext; intros x Hx; apply Hd; by eapply in_word).
  assert (He : forall va, vaddr va -> entry k' pgdir va = entry k pgdir va).
  { intros va Hv. destruct (PDX_div va Hv) as [_ Hr]. apply entry_ext; [done|by apply Hdir|].
    intros Hp x Hx. pose proof (sp_dir _ _ _ _ _ Hs _ Hr) as H. destruct (ts !! PDX va) as [t|] eqn:E; [|congruence].
    destruct H as [_ H]. rewrite H in Hx. by apply (Ht (PDX va) t). }
  split; [|done]. destruct Hs as [_ Hp _ Hdr Hts Hu Hus]. split; try done.
  - intros i Hi. specialize (Hdr i Hi). unfold present, tab in *. by rewrite Hdir.
  - intros va Hv. rewrite He by (unfold vaddr, KERNBASE in *; lia). by apply Hu.
Qed.

(** ** Walking and storing *)

(** What an operation does outside the pages it may write. *)
Definition frames (k k' : kmem) (P : list Z) : Prop := forall x, (forall q, q ∈ P -> ~ in_page q x) -> memory k' x = memory k x.

Lemma frames_refl k P : frames k k P.
Proof using. by intros x _. Qed.

Lemma frames_trans k1 k2 k3 P Q : frames k1 k2 P -> frames k2 k3 Q -> (forall q, q ∈ Q -> q ∈ P) -> frames k1 k3 P.
Proof using. intros H1 H2 Hsub x Hx. rewrite H2; [by apply H1|]. intros q Hq. by apply Hx, Hsub. Qed.

Lemma walk_space k pgdir l ts us va : space k pgdir l ts us -> vaddr va ->
  exists r k' l' ts', walkpgdir pgdir va true k = (Ok r, k') /\ space k' pgdir l' ts' us
  /\ l' ++ owned pgdir ts' us ≡ₚ l ++ owned pgdir ts us
  /\ (forall v, vaddr v -> entry k' pgdir v = entry k pgdir v)
  /\ frames k k' (pgdir :: l) /\ dom ts' ⊆ dom ts ∪ {[PDX va]}
  /\ ((r = 0 /\ l' = [] /\ ts' !! PDX va = None) \/ (r <> 0 /\ exists t, ts' !! PDX va = Some t /\ r = t + 4 * PTX va)).
Proof using Hend.
  intros Hs Hv. pose proof (space_pt_ok _ _ _ _ _ Hs) as Hpt. destruct (PDX_div va Hv) as [_ Hr]. destruct (PTX_div va) as [_ Hx].
  destruct (space_parts _ _ _ _ _ Hs) as (Hd & Hdl & Ht & Hu & Hnt & Hnu).
  pose proof (sp_dir _ _ _ _ _ Hs _ Hr) as Hdir. destruct (ts !! PDX va) as [t|] eqn:E.
  { destruct Hdir as [Hp Htab]. exists (t + 4 * PTX va), k, l, ts. rewrite (walk_present k pgdir va true Hp), Htab.
    do 4 (split; [done|]). split; [apply frames_refl|]. split; [apply union_subseteq_l|]. right. split; [|by exists t].
    destruct (Ht _ _ E) as ((_ & _ & Hrange) & _). unfold KERNBASE in Hrange. lia. }
  destruct (kalloc_ok kend k l (sp_free _ _ _ _ _ Hs)) as (k1 & Ha & Hk1 & Hm1 & _).
  assert (Hrun : walkpgdir pgdir va true k =
    if default 0 (head l) =? 0 then (Ok 0, k1) else (Ok (default 0 (head l) + 4 * PTX va), installed k1 pgdir (PDX va) (default 0 (head l)))).
  { unfold walkpgdir, load. unfold bind at 1, gets. unfold present in Hdir. rewrite Hdir. cbn [negb].
    rewrite (bind_ok _ _ _ _ _ Ha). by destruct (_ =? 0). }
  destruct l as [|t l]; cbn in Ha, Hk1, Hrun.
  - exists 0, k1, [], ts. split; [exact Hrun|]. destruct (space_ext k k1 pgdir [] [] ts us Hs Hk1 (sp_nodup _ _ _ _ _ Hs)) as [Hs1 He1].
    + intros x _. by rewrite Hm1.
    + intros i t x _ _. by rewrite Hm1.
    + do 3 (split; [done|]). split; [intros x _; by rewrite Hm1|]. split; [apply union_subseteq_l|]. by left.
  - pose proof (sp_nodup _ _ _ _ _ Hs) as Hn. cbn [app] in Hn. apply NoDup_cons in Hn as [Htn Hn].
    pose proof (ok_pages _ _ _ (sp_free _ _ _ _ _ Hs)) as HF. apply Forall_cons_1 in HF as [Htp _].
    assert (Ht0 : 0 < t) by (destruct Htp as (_ & _ & Hrange); unfold KERNBASE in Hrange; lia).
    rewrite (proj2 (Z.eqb_neq t 0)) in Hrun by lia.
    destruct (space_ext k k1 pgdir (t :: l) l ts us Hs Hk1 Hn) as [Hs1 He1]; [by intros; rewrite Hm1..|].
    rewrite elem_of_app in Htn. unfold owned in Htn. rewrite elem_of_cons, elem_of_app in Htn.
    assert (Htne : t <> pgdir) by tauto. assert (Hfresh : forall j, ts !! j <> Some t).
    { intros j Hj. apply Htn. right. right. left. apply elem_of_vals. by exists j. }
    destruct (installed_ok kend k1 pgdir (PDX va) t l Hr (space_pt_ok _ _ _ _ _ Hs1)) as (Hpt2 & Hp2 & Ht2 & He2); try tauto.
    { pose proof (sp_dir _ _ _ _ _ Hs1 _ Hr) as H. by rewrite E in H. }
    { intros j Hj Hpj Heq. pose proof (sp_dir _ _ _ _ _ Hs1 _ Hj) as H. destruct (ts !! j) eqn:Ej; [|congruence]. destruct H as [_ H]. apply (Hfresh j). congruence. }
    exists (t + 4 * PTX va), (installed k1 pgdir (PDX va) t), l, (<[PDX va := t]> ts). split; [exact Hrun|].
    assert (Hperm : l ++ owned pgdir (<[PDX va := t]> ts) us ≡ₚ (t :: l) ++ owned pgdir ts us).
    { rewrite (owned_table pgdir ts us _ t E). by rewrite <- Permutation_middle. }
    split; [split|split; [done|split; [|split; [|split]]]].
    + apply Hpt2.
    + unfold owned. rewrite (vals_insert ts _ t E). cbn [app]. apply Forall_cons. split; [done|]. apply Forall_cons. split; [done|].
      pose proof (sp_pages _ _ _ _ _ Hs) as HF. by apply Forall_cons_1 in HF as [_ HF].
    + rewrite Hperm. apply Hs.
    + intros i Hi. destruct (decide (i = PDX va)) as [->|Hne]; [by rewrite lookup_insert_eq|]. rewrite lookup_insert_ne by done.
      pose proof (sp_dir _ _ _ _ _ Hs1 _ Hi) as H. unfold present, tab in *.
      rewrite (installed_dir kend) by (done || congruence). by rewrite (proj2 (Z.eqb_neq (PDX va) i)) by congruence.
    + intros i t' Hi. destruct (decide (i = PDX va)) as [->|Hne]; [done|]. rewrite lookup_insert_ne in Hi by done. by apply (sp_ts _ _ _ _ _ Hs i t').
    + intros v Hv'. rewrite He2 by (unfold vaddr, KERNBASE in *; lia). by apply (sp_user _ _ _ _ _ Hs1).
    + apply Hs.
    + intros v Hv'. by rewrite He2, He1.
    + intros x Hx'. rewrite installed_other; [by rewrite Hm1|done|apply Hx'; left|apply Hx'; right; left].
    + by rewrite dom_insert_L, (union_comm_L (dom ts)).
    + right. split; [lia|]. exists t. by rewrite lookup_insert_eq.
Qed.

Lemma store_space k pgdir l ts us us' va t w :
  space k pgdir l ts us -> vaddr va -> ts !! PDX va = Some t ->
  Forall (page_ok kend) (vals us') -> NoDup (l ++ owned pgdir ts us') -> (forall i p, us' !! i = Some p -> 0 <= i < KERNBASE / 4096) ->
  (forall v, 0 <= v < KERNBASE -> user_entry (us' !! (v / 4096)) (if v / 4096 =? va / 4096 then u32 w else entry k pgdir v)) ->
  let k' := set_memory (store32 (memory k) (t + 4 * PTX va) w) k in
  space k' pgdir l ts us'
  /\ (forall v, vaddr v -> entry k' pgdir v = if v / 4096 =? va / 4096 then u32 w else entry k pgdir v)
  /\ frames k k' [t].
Proof using.
  intros Hs Hv Et Hp Hn Hd Hu k'. pose proof (space_pt_ok _ _ _ _ _ Hs) as Hpt. pose proof (space_table _ _ _ _ _ va Hs Hv) as Htab.
  rewrite Et in Htab. destruct Htab as (Hpr & Htt & _). destruct (with_entry_ok kend k pgdir va l w Hpt Hv Hpr) as (Hpt' & He & Hf).
  unfold with_entry in *. rewrite Htt in *. fold k' in Hpt', He, Hf.
  destruct (space_parts _ _ _ _ _ Hs) as (Hdp & Hdl & Ht & _). destruct (Ht _ _ Et) as (Htp & _ & Htd).
  split; [|split; [done|]].
  - split; [apply Hpt'| |done| |apply Hs| |done].
    + pose proof (sp_pages _ _ _ _ _ Hs) as HF. unfold owned in *. rewrite Forall_cons, Forall_app in *. tauto.
    + intros i Hi. pose proof (sp_dir _ _ _ _ _ Hs i Hi) as H. unfold present, tab in *.
      rewrite (load32_ext (memory k) (memory k')); [done|]. intros x Hx. apply Hf, (apart kend pgdir); [done|done|congruence|by eapply in_word].
    + intros v Hv'. rewrite He by (unfold vaddr, KERNBASE in *; lia). by apply Hu.
  - intros x Hx. apply Hf, Hx. left.
Qed.

(** ** Mapping *)

Lemma pte_of_page p perm : page_ok kend p -> 0 <= perm < 4096 ->
  let e := pte_of (V2P p) perm in u32 e = e /\ Z.odd e = true /\ PTE_ADDR e = V2P p /\ PTE_FLAGS e = Z.lor perm 1.
Proof using Hend.
  intros Hp Hr e. destruct (P2V_V2P p Hp) as (_ & _ & Hm & Hb). unfold PHYSTOP in Hb.
  assert (Hl : 0 <= Z.lor perm 1 < 4096).
  { assert (Hz : Z.lor perm 1 = if Z.odd perm then perm else perm + 1).
    { rewrite <- Z.bit0_odd. destruct (Z.testbit perm 0) eqn:E.
      - apply Z.bits_inj'. intros n Hn. rewrite Z.lor_spec. destruct (Z.eqb_spec n 0) as [->|]; [by rewrite E|].
        change 1 with (2 ^ 0). rewrite Z.pow2_bits_false by lia. apply orb_false_r.
      - symmetry. apply Z.add_nocarry_lor, Z.bits_inj'. intros n Hn. rewrite Z.land_spec, Z.bits_0.
        destruct (Z.eqb_spec n 0) as [->|]; [by rewrite E|]. change 1 with (2 ^ 0). rewrite Z.pow2_bits_false by lia. apply andb_false_r. }
    destruct (Z.odd perm) eqn:Eo; [lia|]. assert (perm <> 4095) by (intros ->; done). lia. }
  assert (E : e = V2P p + Z.lor perm 1) by (unfold e, pte_of, PTE_P; rewrite <- Z.lor_assoc; by apply lor_low).
  rewrite E. split; [apply u32_id; lia|]. split; [|split; [by apply PTE_ADDR_make; lia|]].
  - rewrite <- E, <- Z.bit0_odd. unfold e, pte_of, PTE_P. rewrite Z.lor_spec. apply orb_true_r.
  - unfold PTE_FLAGS. change 0xFFF with (Z.ones 12). rewrite Z.land_ones by lia. change (2 ^ 12) with 4096.
    apply Z.mod_divide in Hm as [q ->]; [|lia]. rewrite Z.add_comm, Z_mod_plus_full. by apply Z.mod_small.
Qed.

Lemma PGROUNDDOWN_id a : 0 <= a < 2 ^ 32 -> a mod 4096 = 0 -> PGROUNDDOWN a = a.
Proof using. intros Ha Hm. rewrite PGROUNDDOWN_div by done. pose proof (Z.div_mod a 4096 ltac:(lia)). lia. Qed.

(** One page, whose physical page is not part of the address space yet. *)
Lemma map_one k pgdir l ts us a p perm :
  space k pgdir l ts us -> 0 <= a < KERNBASE -> a mod 4096 = 0 -> us !! (a / 4096) = None -> page_ok kend p -> p ∉ l ++ owned pgdir ts us -> 0 <= perm < 4096 ->
  exists r k' l' ts', mappages pgdir a PGSIZE (V2P p) perm k = (Ok r, k')
  /\ frames k k' (pgdir :: vals ts ++ l) /\ l' ++ owned pgdir ts' us ≡ₚ l ++ owned pgdir ts us /\ dom ts' ⊆ dom ts ∪ {[PDX a]}
  /\ ((r = 0 /\ space k' pgdir l' ts' (<[a / 4096 := p]> us)
       /\ forall v, vaddr v -> entry k' pgdir v = if v / 4096 =? a / 4096 then pte_of (V2P p) perm else entry k pgdir v)
      \/ (r = -1 /\ l' = [] /\ ts' !! PDX a = None /\ space k' pgdir l' ts' us /\ forall v, vaddr v -> entry k' pgdir v = entry k pgdir v)).
Proof using Hend.
  intros Hs Ha Hm Hfree Hp Hpn Hperm. unfold mappages, PGSIZE. assert (Hv : vaddr a) by (unfold vaddr, KERNBASE in *; lia).
  rewrite (u32_id (a + 4096 - 1)) by (unfold KERNBASE in *; lia).
  assert (Elast : PGROUNDDOWN (a + 4096 - 1) = a).
  { rewrite PGROUNDDOWN_div by (unfold KERNBASE in *; lia). replace (a + 4096 - 1) with (4095 + a / 4096 * 4096) by (pose proof (Z.div_mod a 4096 ltac:(lia)); lia).
    rewrite Z.div_add by lia. change (4095 / 4096) with 0. pose proof (Z.div_mod a 4096 ltac:(lia)). lia. }
  rewrite Elast, PGROUNDDOWN_id, Z.sub_diag by (done || unfold KERNBASE in *; lia). change (u32 0 / 4096) with 0. cbn [Z.to_nat mappages_loop].
  destruct (walk_space k pgdir l ts us a Hs Hv) as (r & k1 & l1 & ts1 & Hrun & Hs1 & Hperm1 & He1 & Hf1 & Hdom & Hr). rewrite (bind_ok _ _ _ _ _ Hrun).
  assert (Hsub : forall q, q ∈ pgdir :: l -> q ∈ pgdir :: vals ts ++ l) by (intros q; rewrite !elem_of_cons, elem_of_app; tauto).
  destruct Hr as [(-> & -> & Hnt)|(Hr0 & t & Et & ->)].
  { exists (-1), k1, [], ts1. split; [done|]. split; [intros x Hx; apply Hf1; intros q Hq; by apply Hx, Hsub|]. do 2 (split; [done|]). by right. }
  rewrite (proj2 (Z.eqb_neq _ 0) Hr0). unfold load. unfold bind at 1, gets.
  pose proof (space_table _ _ _ _ _ a Hs1 Hv) as Htab. rewrite Et in Htab. destruct Htab as (_ & _ & Hent). rewrite <- Hent, He1, present_odd by done.
  pose proof (sp_user _ _ _ _ _ Hs a Ha) as Hodd. rewrite Hfree in Hodd. cbn in Hodd. rewrite Hodd.
  unfold store. unfold bind, modify. rewrite Z.eqb_refl. fold (pte_of (V2P p) perm).
  destruct (pte_of_page p perm Hp Hperm) as (E1 & E2 & E3 & _).
  assert (Hvals : vals (<[a / 4096 := p]> us) ≡ₚ p :: vals us) by by apply vals_insert.
  destruct (store_space k1 pgdir l1 ts1 us (<[a / 4096 := p]> us) a t (pte_of (V2P p) perm) Hs1 Hv Et) as (Hs2 & He2 & Hf2).
  - rewrite Hvals. apply Forall_cons. split; [done|]. pose proof (sp_pages _ _ _ _ _ Hs) as HF. unfold owned in HF. rewrite Forall_cons, Forall_app in HF. tauto.
  - assert (HP : l1 ++ owned pgdir ts1 (<[a / 4096 := p]> us) ≡ₚ p :: l1 ++ owned pgdir ts1 us).
    { rewrite (owned_user pgdir ts1 us _ p Hfree). by rewrite <- Permutation_middle. }
    rewrite HP, Hperm1. apply NoDup_cons. split; [done|apply Hs].
  - intros i q Hi. destruct (decide (i = a / 4096)) as [->|Hne]; [|rewrite lookup_insert_ne in Hi by done; by apply (sp_us _ _ _ _ _ Hs i q)].
    split; [apply Z.div_pos; lia|]. apply Z.div_lt_upper_bound; [lia|]. unfold KERNBASE in *. change (4096 * (0x80000000 / 4096)) with 0x80000000. lia.
  - intros v Hv'. destruct (Z.eqb_spec (v / 4096) (a / 4096)) as [->|Hne].
    + rewrite lookup_insert_eq, E1. done.
    + rewrite lookup_insert_ne by congruence. by apply (sp_user _ _ _ _ _ Hs1).
  - eexists 0, _, l1, ts1. split; [done|]. split; [|split; [done|split; [done|left; split; [done|split; [done|]]]]].
    + intros x Hx. rewrite Hf2; [apply Hf1; intros q Hq; by apply Hx, Hsub|]. intros q ->%list_elem_of_singleton.
      apply Hx. rewrite <- (owned_cancel pgdir us _ _ _ _ Hperm1), elem_of_cons, elem_of_app, elem_of_vals. right. left. by exists (PDX a).
    + intros v Hv'. rewrite He2, E1, He1 by done. done.
Qed.

(** ** Unmapping *)

(** Freeing a user page and clearing its entry. *)
Lemma drop_page k pgdir l ts us va p :
  space k pgdir l ts us -> 0 <= va < KERNBASE -> us !! (va / 4096) = Some p ->
  exists t k1, ts !! PDX va = Some t /\ kfree kend p k = (Ok tt, k1)
  /\ let k2 := set_memory (store32 (memory k1) (t + 4 * PTX va) 0) k1 in
     space k2 pgdir (p :: l) ts (delete (va / 4096) us) /\ frames k k2 (vals ts ++ [p])
     /\ forall v, vaddr v -> entry k2 pgdir v = if v / 4096 =? va / 4096 then 0 else entry k pgdir v.
Proof using Hend.
  intros Hs Hva Hp. assert (Hv : vaddr va) by (unfold vaddr, KERNBASE in *; lia).
  destruct (space_parts _ _ _ _ _ Hs) as (Hdp & Hdl & Ht & Hu & Hnt & Hnu). destruct (Hu _ _ Hp) as (Hpp & Hpl & Hpd & Hpt).
  pose proof (sp_user _ _ _ _ _ Hs va Hva) as Hent. rewrite Hp in Hent. destruct Hent as [Hodd _].
  pose proof (space_table _ _ _ _ _ va Hs Hv) as Htab. destruct (ts !! PDX va) as [t|] eqn:Et; [|by destruct Htab as [_ Htab]; rewrite Htab in Hodd].
  destruct (Ht _ _ Et) as (Htp & Htl & Htd). assert (Htne : t <> p) by (intros ->; by apply (Hpt (PDX va))).
  destruct (kfree_ok kend p k l (sp_free _ _ _ _ _ Hs) Hpp Hpl) as (k1 & Hrun & Hk1 & _ & Hm1 & _).
  exists t, k1. split; [done|]. split; [done|]. intros k2.
  assert (HP : p :: l ++ owned pgdir ts (delete (va / 4096) us) ≡ₚ l ++ owned pgdir ts us).
  { rewrite <- (owned_delete pgdir ts us _ p Hp). by rewrite <- Permutation_middle. }
  assert (Hn : NoDup (p :: l ++ owned pgdir ts (delete (va / 4096) us))) by (rewrite HP; apply Hs).
  destruct (store_space k pgdir l ts us (delete (va / 4096) us) va t 0 Hs Hv Et) as (Hs2 & He2 & Hf2).
  - pose proof (sp_pages _ _ _ _ _ Hs) as HF. unfold owned in HF. rewrite Forall_cons, Forall_app, <- (vals_delete us _ p Hp), Forall_cons in HF. tauto.
  - by apply NoDup_cons in Hn as [_ Hn].
  - intros i q Hi. apply lookup_delete_Some in Hi as [_ Hi]. by apply (sp_us _ _ _ _ _ Hs i q).
  - intros v Hv'. destruct (Z.eqb_spec (v / 4096) (va / 4096)) as [->|Hne]; [by rewrite lookup_delete_eq|].
    rewrite lookup_delete_ne by congruence. by apply (sp_user _ _ _ _ _ Hs).
  - set (k3 := set_memory (store32 (memory k) (t + 4 * PTX va) 0) k) in *.
    assert (Hsame : forall x, ~ in_page p x -> memory k2 x = memory k3 x).
    { intros x Hx. cbn. unfold store32, upd. repeat case_match; try done. by apply Hm1. }
    assert (Hk2 : kmem_ok kend k2 (p :: l)).
    { apply (kmem_ok_ext kend k1); [done|done|done|]. intros b x Hb Hx. cbn. apply store32_other. intros Hin.
      assert (Hbp : page_ok kend b) by (pose proof (ok_pages _ _ _ Hk1) as HF; rewrite Forall_forall in HF; by apply HF).
      apply (apart kend t b x); [done|done| |eapply in_word; [apply PTX_div|exact Hin]|done].
      intros ->. apply elem_of_cons in Hb as [->|Hb]; [done|]. by apply Htl. }
    destruct (space_ext k3 k2 pgdir l (p :: l) ts (delete (va / 4096) us) Hs2 Hk2 Hn) as [Hs4 He4].
    + intros x Hx. apply Hsame, (apart kend pgdir); [done|done|congruence|done].
    + intros i t' x Hi Hx. destruct (Ht _ _ Hi) as (Ht'p & _). apply Hsame, (apart kend t'); [done|done| |done]. intros ->. by apply (Hpt i).
    + split; [done|]. split; [|intros v Hv'; by rewrite He4, He2].
      intros x Hx. rewrite Hsame, Hf2; [done| |apply Hx; rewrite elem_of_app; right; by apply list_elem_of_singleton].
      intros q ->%list_elem_of_singleton. apply Hx. rewrite elem_of_app. left. apply elem_of_vals. by exists (PDX va).
Qed.

(** The next directory entry's first address. *)
Lemma next_table a : 0 <= a < KERNBASE ->
  let a' := u32 (u32 (PGADDR (PDX a + 1) 0 0 - PGSIZE) + PGSIZE) in
  a' = (PDX a + 1) * 2 ^ 22 /\ a < a' <= KERNBASE /\ a' mod 4096 = 0 /\ forall v, a <= v < a' -> PDX v = PDX a.
Proof using.
  intros Ha a'. destruct (PDX_div a ltac:(unfold vaddr, KERNBASE in *; lia)) as [E Hr].
  assert (Hq : a / 2 ^ 22 < 512) by (apply Z.div_lt_upper_bound; unfold KERNBASE in *; lia).
  pose proof (Z.div_mod a (2 ^ 22) ltac:(lia)) as Hdm. pose proof (Z.mod_pos_bound a (2 ^ 22) ltac:(lia)) as Hb.
  assert (E' : a' = (PDX a + 1) * 2 ^ 22).
  { unfold a', PGADDR, PGSIZE. rewrite Z.shiftl_0_l, !Z.lor_0_r, Z.shiftl_mul_pow2 by lia.
    rewrite (u32_id ((PDX a + 1) * 2 ^ 22)) by lia. rewrite (u32_id (_ - 4096)), u32_id by lia. lia. }
  split; [done|]. rewrite E', E. split; [unfold KERNBASE; lia|]. split.
  - replace ((a / 2 ^ 22 + 1) * 2 ^ 22) with ((a / 2 ^ 22 + 1) * 2 ^ 10 * 4096) by lia. apply Z.mod_mul. lia.
  - intros v Hv. destruct (PDX_div v ltac:(unfold vaddr, KERNBASE in *; lia)) as [Ev _]. rewrite Ev. symmetry.
    apply (Z.div_unique v (2 ^ 22) (a / 2 ^ 22) (v - a / 2 ^ 22 * 2 ^ 22)); lia.
Qed.

Definition in_range (a oldsz i : Z) : bool := (a / 4096 <=? i) && (i * 4096 <? oldsz).

Lemma dealloc_loop pgdir ts oldsz : forall fuel k l us a,
  space k pgdir l ts us -> 0 <= a -> a mod 4096 = 0 -> oldsz <= KERNBASE -> (0 < fuel)%nat -> oldsz - a <= 4096 * (Z.of_nat fuel - 1) ->
  exists k' u us', deallocuvm_loop kend fuel pgdir a oldsz k = (Ok tt, k') /\ space k' pgdir (u ++ l) ts us'
  /\ u ++ owned pgdir ts us' ≡ₚ owned pgdir ts us
  /\ (forall i, us' !! i = if in_range a oldsz i then None else us !! i)
  /\ (forall v, vaddr v -> in_range a oldsz (v / 4096) = false -> entry k' pgdir v = entry k pgdir v)
  /\ frames k k' (vals ts ++ u).
Proof using Hend.
  induction fuel as [|fuel IH]; intros k l us a Hs Ha Hm Ho Hf Hn; [lia|]. cbn [deallocuvm_loop].
  pose proof (Z.div_mod a 4096 ltac:(lia)) as Hdm.
  destruct (Z.ltb_spec a oldsz) as [Hlt|Hge].
  2:{ exists k, [], us. do 3 (split; [done|]). split; [|split; [done|apply frames_refl]].
      intros i. unfold in_range. destruct (Z.leb_spec (a / 4096) i), (Z.ltb_spec (i * 4096) oldsz); cbn [andb]; try done. lia. }
  assert (Hva : 0 <= a < KERNBASE) by lia. assert (Hv : vaddr a) by (unfold vaddr, KERNBASE in *; lia).
  pose proof (space_table _ _ _ _ _ a Hs Hv) as Htab. destruct (ts !! PDX a) as [t|] eqn:Et.
  - destruct Htab as (Hp & Ht & He). rewrite (bind_ok _ _ _ _ _ (walk_present k pgdir a false Hp)), Ht.
    destruct (space_parts _ _ _ _ _ Hs) as (_ & _ & Htp & _). destruct (Htp _ _ Et) as ((_ & _ & Hr) & _). destruct (PTX_div a) as [_ Hx].
    rewrite (proj2 (Z.eqb_neq _ 0)) by (unfold KERNBASE in *; lia). unfold load. unfold bind at 1, gets. rewrite <- He, present_odd.
    rewrite (u32_id (a + PGSIZE)) by (unfold PGSIZE, KERNBASE in *; lia).
    assert (Ha' : (a + PGSIZE) / 4096 = a / 4096 + 1) by (unfold PGSIZE; replace (a + 4096) with (a + 1 * 4096) by lia; apply Z.div_add; lia).
    assert (Hm' : (a + PGSIZE) mod 4096 = 0) by (unfold PGSIZE; replace (a + 4096) with (a + 1 * 4096) by lia; by rewrite Z_mod_plus_full).
    assert (Hrange : forall i, in_range a oldsz i = (i =? a / 4096) || in_range (a + PGSIZE) oldsz i).
    { intros i. unfold in_range. rewrite Ha'. zcases; cbn [andb orb]; done || lia. }
    pose proof (sp_user _ _ _ _ _ Hs a Hva) as Hent. destruct (us !! (a / 4096)) as [p|] eqn:Ep.
    + destruct Hent as [-> Hpa]. rewrite Hpa. destruct (drop_page k pgdir l ts us a p Hs Hva Ep) as (t' & k1 & Et' & Hrun & Hs2 & Hf2 & He2).
      rewrite Et in Et'. injection Et' as <-. destruct (space_parts _ _ _ _ _ Hs) as (_ & _ & _ & Hu & _).
      destruct (P2V_V2P p ltac:(by apply (Hu (a / 4096)))) as (Hpv & Hp0 & _). rewrite (proj2 (Z.eqb_neq _ 0) Hp0), Hpv.
      rewrite bind_bind, (bind_ok _ _ _ _ _ Hrun). unfold store. unfold bind at 1, modify.
      set (k2 := set_memory (store32 (memory k1) (t + 4 * PTX a) 0) k1) in *.
      destruct (IH k2 (p :: l) (delete (a / 4096) us) (a + PGSIZE) Hs2) as (k' & u & us' & Hrun' & Hs' & HP & Hus' & He' & Hf'); try done; try (unfold PGSIZE in *; lia).
      exists k', (u ++ [p]), us'. split; [done|]. split; [by rewrite <- app_assoc|]. split.
      { rewrite <- (owned_delete pgdir ts us _ p Ep), <- app_assoc. cbn [app]. by rewrite <- Permutation_middle, HP. }
      split; [|split].
      * intros i. rewrite Hus', Hrange. destruct (Z.eqb_spec i (a / 4096)) as [->|Hne]; cbn [orb].
        -- rewrite lookup_delete_eq. by destruct (in_range _ _ _).
        -- by rewrite lookup_delete_ne by congruence.
      * intros v Hv' Hr'. rewrite Hrange in Hr'. apply orb_false_iff in Hr' as [Hr1 Hr2]. rewrite He', He2 by done. by rewrite Hr1.
      * apply (frames_trans k k2 k' _ (vals ts ++ u)); [|done|intros q; rewrite !elem_of_app; tauto].
        intros x Hx'. apply Hf2. intros q Hq. apply Hx'. revert Hq. rewrite !elem_of_app. tauto.
    + cbn in Hent. rewrite Hent. unfold bind at 1, ret at 1.
      destruct (IH k l us (a + PGSIZE) Hs) as (k' & u & us' & Hrun' & Hs' & HP & Hus' & He' & Hf'); try done; try (unfold PGSIZE in *; lia).
      exists k', u, us'. do 3 (split; [done|]). split; [|split; [|done]].
      * intros i. rewrite Hus', Hrange. destruct (Z.eqb_spec i (a / 4096)) as [->|]; cbn [orb]; [|done]. rewrite Ep. by destruct (in_range _ _ _).
      * intros v Hv' Hr'. rewrite Hrange in Hr'. apply orb_false_iff in Hr' as [_ Hr2]. by apply He'.
  - destruct Htab as (Hp & _). rewrite (bind_ok _ _ _ _ _ (walk_absent k pgdir a Hp)). rewrite Z.eqb_refl.
    destruct (next_table a Hva) as (_ & Hnext & Hmod & Hsame). set (a' := u32 (u32 (PGADDR (PDX a + 1) 0 0 - PGSIZE) + PGSIZE)) in *.
    pose proof (Z.div_mod a' 4096 ltac:(lia)) as Hdm'.
    destruct (IH k l us a' Hs) as (k' & u & us' & Hrun' & Hs' & HP & Hus' & He' & Hf'); try done; try lia.
    exists k', u, us'. do 3 (split; [done|]).
    assert (Hgap : forall i, a / 4096 <= i < a' / 4096 -> us !! i = None).
    { intros i Hi. pose proof (sp_user _ _ _ _ _ Hs (i * 4096) ltac:(lia)) as Hent. rewrite Z.div_mul in Hent by lia.
      pose proof (space_table _ _ _ _ _ (i * 4096) Hs ltac:(unfold vaddr, KERNBASE in *; lia)) as Htab. rewrite Hsame, Et in Htab by lia.
      destruct Htab as [_ E0]. rewrite E0 in Hent. by destruct (us !! i) as [q|]; [destruct Hent|]. }
    split; [|split; [|done]].
    * intros i. rewrite Hus'. unfold in_range. destruct (Z.leb_spec (a / 4096) i), (Z.leb_spec (a' / 4096) i), (Z.ltb_spec (i * 4096) oldsz); cbn [andb]; try done; try lia.
      apply Hgap. lia.
    * intros v Hv' Hr'. apply He'; [done|]. revert Hr'. unfold in_range. zcases; cbn [andb]; done || lia.
Qed.

Lemma dealloc_space k pgdir l ts us oldsz newsz :
  space k pgdir l ts us -> 0 <= newsz < oldsz -> oldsz <= KERNBASE ->
  exists k' u us', deallocuvm kend pgdir oldsz newsz k = (Ok newsz, k') /\ space k' pgdir (u ++ l) ts us'
  /\ u ++ owned pgdir ts us' ≡ₚ owned pgdir ts us
  /\ (forall i, us' !! i = if in_range (PGROUNDUP newsz) oldsz i then None else us !! i)
  /\ (forall v, vaddr v -> in_range (PGROUNDUP newsz) oldsz (v / 4096) = false -> entry k' pgdir v = entry k pgdir v)
  /\ frames k k' (vals ts ++ u).
Proof using Hend.
  intros Hs Hn Ho. unfold deallocuvm. rewrite (proj2 (Z.leb_gt _ _)) by lia.
  destruct (PGROUNDUP_spec newsz) as [Hm Hr]; [lia|unfold PGSIZE, KERNBASE in *; lia|]. unfold PGSIZE in *.
  pose proof (Z.div_mod (oldsz - PGROUNDUP newsz) 4096 ltac:(lia)). pose proof (Z.mod_pos_bound (oldsz - PGROUNDUP newsz) 4096 ltac:(lia)).
  destruct (dealloc_loop pgdir ts oldsz (S (S (Z.to_nat ((oldsz - PGROUNDUP newsz) / 4096)))) k l us (PGROUNDUP newsz) Hs)
    as (k' & u & us' & Hrun & Hrest); try done; try lia.
  exists k', u, us'. by rewrite (bind_ok _ _ _ _ _ Hrun).
Qed.

(** The loop of [freevm] over the tables still in the directory. *)
Lemma free_tables_ok pgdir : forall n i k l ts,
  kmem_ok kend k l -> page_ok kend pgdir -> NoDup (l ++ pgdir :: vals ts) -> Forall (page_ok kend) (vals ts) ->
  0 <= i -> i + Z.of_nat n = 1024 -> (forall j t, ts !! j = Some t -> i <= j < 1024) ->
  (forall j, i <= j < 1024 -> match ts !! j with Some t => present k pgdir j = true /\ tab k pgdir j = t | None => present k pgdir j = false end) ->
  exists k' l', free_tables kend pgdir i n k = (Ok tt, k') /\ kmem_ok kend k' l' /\ l' ≡ₚ l ++ vals ts /\ frames k k' (vals ts).
Proof using Hend.
  induction n as [|n IH]; intros i k l ts Hk Hd Hn Hp Hi Hin Hdom Hdir; cbn [free_tables].
  { exists k, l. split; [done|]. split; [done|]. assert (ts = ∅) as ->.
    { apply map_eq. intros j. rewrite lookup_empty. destruct (ts !! j) as [t|] eqn:E; [|done]. specialize (Hdom j t E). lia. }
    rewrite vals_empty, app_nil_r. split; [done|apply frames_refl]. }
  unfold load. unfold bind at 1, gets. pose proof (Hdir i ltac:(lia)) as Hpi. unfold present, tab in Hpi.
  destruct (ts !! i) as [t|] eqn:Et.
  - destruct Hpi as [-> ->]. pose proof (vals_delete ts i t Et) as Hv. rewrite <- Hv, Forall_cons in Hp. destruct Hp as [Htp Hp].
    rewrite <- Hv in Hn. assert (Hn2 : NoDup ((t :: l) ++ pgdir :: vals (delete i ts))) by (cbn; by rewrite Permutation_middle, (perm_swap pgdir t)).
    assert (Htl : t ∉ l) by (cbn in Hn2; apply NoDup_cons in Hn2 as [Hn2 _]; rewrite elem_of_app in Hn2; tauto).
    assert (Htd : t <> pgdir) by (intros ->; cbn in Hn2; apply NoDup_cons in Hn2 as [Hn2 _]; apply Hn2; rewrite elem_of_app; right; left).
    destruct (kfree_ok kend t k l Hk Htp Htl) as (k1 & Hrun & Hk1 & _ & Hm1 & _). rewrite (bind_ok _ _ _ _ _ Hrun).
    destruct (IH (i + 1) k1 (t :: l) (delete i ts) Hk1 Hd Hn2 Hp) as (k' & l' & Hrun' & Hk' & HP & Hf); try lia.
    { intros j t' Hj. apply lookup_delete_Some in Hj as [Hne Hj]. specialize (Hdom j t' Hj). lia. }
    { intros j Hj. rewrite lookup_delete_ne by lia. specialize (Hdir j ltac:(lia)). unfold present, tab in *.
      rewrite (load32_ext (memory k) (memory k1)); [done|]. intros x Hx. apply Hm1, (apart kend pgdir t); [done|done|congruence|].
      eapply in_word; [|exact Hx]. lia. }
    exists k', l'. split; [done|]. split; [done|]. split.
    + rewrite HP, <- Hv. cbn. by rewrite Permutation_middle.
    + intros x Hx. rewrite Hf, Hm1; [done|apply Hx; rewrite <- Hv; left|]. intros q Hq. apply Hx. rewrite <- Hv. by right.
  - rewrite Hpi. unfold bind at 1, ret at 1. apply (IH (i + 1) k l ts); try done; try lia.
    + intros j t Hj. specialize (Hdom j t Hj). destruct (Z.eq_dec i j) as [->|]; [congruence|]. lia.
    + intros j Hj. apply Hdir. lia.
Qed.

(** Freeing an address space gives every page of it back. *)
Lemma freevm_space k pgdir l ts us : space k pgdir l ts us ->
  exists k' l', freevm kend pgdir k = (Ok tt, k') /\ kmem_ok kend k' l' /\ l' ≡ₚ l ++ owned pgdir ts us /\ frames k k' (owned pgdir ts us).
Proof using Hend.
  intros Hs. destruct (space_parts _ _ _ _ _ Hs) as (Hdp & Hdl & Ht & Hu & _). unfold freevm.
  rewrite (proj2 (Z.eqb_neq pgdir 0)) by (destruct Hdp as (_ & _ & ?); unfold KERNBASE in *; lia).
  destruct (dealloc_space k pgdir l ts us KERNBASE 0 Hs) as (k1 & u & us1 & Hrun & Hs1 & HP1 & Hus1 & _ & Hf1); [unfold KERNBASE; lia|lia|].
  set (l1 := u ++ l) in *.
  rewrite (bind_ok _ _ _ _ _ Hrun). assert (us1 = ∅) as ->.
  { apply map_eq. intros i. rewrite lookup_empty, Hus1. destruct (us !! i) as [p|] eqn:E; [|by destruct (in_range _ _ _)].
    pose proof (sp_us _ _ _ _ _ Hs i p E) as Hi. unfold in_range. change (PGROUNDUP 0 / 4096) with 0. unfold KERNBASE in *. change (0x80000000 / 4096) with 524288 in Hi.
    rewrite (proj2 (Z.leb_le _ _)), (proj2 (Z.ltb_lt _ _)) by lia. done. }
  assert (Eo : owned pgdir ts ∅ = pgdir :: vals ts) by (unfold owned; by rewrite vals_empty, app_nil_r).
  pose proof (sp_pages _ _ _ _ _ Hs1) as HF. pose proof (sp_nodup _ _ _ _ _ Hs1) as Hn1. rewrite Eo in HF, Hn1, HP1. apply Forall_cons_1 in HF as [_ HF].
  destruct (free_tables_ok pgdir NPDENTRIES 0 k1 l1 ts) as (k2 & l2 & Hrun2 & Hk2 & HP2 & Hf2); try done; try (unfold NPDENTRIES; lia); try apply Hs1.
  rewrite (bind_ok _ _ _ _ _ Hrun2). assert (Hd2 : pgdir ∉ l2).
  { rewrite HP2. apply NoDup_app in Hn1 as (_ & Hdis & Hn1). apply NoDup_cons in Hn1 as [Hn1 _]. rewrite elem_of_app. intros [H|H]; [|done]. apply (Hdis pgdir H). left. }
  destruct (kfree_ok kend pgdir k2 l2 Hk2 Hdp Hd2) as (k3 & Hrun3 & Hk3 & _ & Hm3 & _). exists k3, (pgdir :: l2). split; [done|]. split; [done|].
  split; [rewrite HP2, <- HP1; unfold l1; by rewrite (Permutation_app_comm u l), Permutation_middle, <- app_assoc|].
  intros x Hx. rewrite Hm3, Hf2, Hf1; [done| | |].
  - intros q Hq. apply Hx. rewrite <- HP1. revert Hq. rewrite !elem_of_app, elem_of_cons. tauto.
  - intros q Hq. apply Hx. rewrite <- HP1, elem_of_app. right. by right.
  - apply Hx. left.
Qed.

(** ** The kernel's half *)

(** The directory indexes of a range of addresses. *)
Definition tables (lo hi : Z) : gset Z := list_to_set (seqZ (PDX lo) (PDX hi - PDX lo + 1)).

Lemma elem_of_tables lo hi i : i ∈ tables lo hi <-> PDX lo <= i <= PDX hi.
Proof using. unfold tables. rewrite elem_of_list_to_set, elem_of_seqZ. lia. Qed.

Lemma PDX_le a b : 0 <= a <= b -> b < 2 ^ 32 -> PDX a <= PDX b.
Proof using.
  intros H Hb. destruct (PDX_div a ltac:(unfold vaddr; lia)) as [-> _], (PDX_div b ltac:(unfold vaddr; lia)) as [-> _]. apply Z.div_le_mono; lia.
Qed.

Lemma tables_mono lo hi lo' hi' : 0 <= lo <= lo' -> lo' < 2 ^ 32 -> 0 <= hi' <= hi -> hi < 2 ^ 32 -> tables lo' hi' ⊆ tables lo hi.
Proof using. intros H1 H2 H3 H4 i. rewrite !elem_of_tables. pose proof (PDX_le lo lo' H1 H2). pose proof (PDX_le hi' hi H3 H4). lia. Qed.

(** [mappages] above user memory: the tables it needs come from the free list. *)
Lemma map_range pgdir us perm : forall n fuel k l ts a pa,
  space k pgdir l ts us -> a mod 4096 = 0 -> KERNBASE <= a -> (0 < n <= fuel)%nat ->
  a + Z.of_nat n * 4096 <= 2 ^ 32 -> 0 <= pa -> pa + Z.of_nat n * 4096 <= 2 ^ 32 ->
  (forall i, 0 <= i < Z.of_nat n -> Z.odd (entry k pgdir (a + i * 4096)) = false) ->
  let last := a + (Z.of_nat n - 1) * 4096 in
  exists r k' l' ts', mappages_loop fuel pgdir a last pa perm k = (Ok r, k')
    /\ space k' pgdir l' ts' us /\ l' ++ owned pgdir ts' us ≡ₚ l ++ owned pgdir ts us
    /\ frames k k' (pgdir :: vals ts ++ l) /\ dom ts' ⊆ dom ts ∪ tables a last
    /\ ((r = 0 /\ forall v, vaddr v -> entry k' pgdir v = mapped_to k pgdir a pa perm (Z.of_nat n) v) \/ (r = -1 /\ l' = [] /\ exists i, i ∈ tables a last /\ i ∉ dom ts')).
Proof using Hend.
  induction n as [|n IH]; intros [|fuel] k l ts a pa Hs Ham Ha Hn Hbound Hpa Hpend Hfree last; try lia. cbn [mappages_loop].
  assert (Hva : vaddr a) by (unfold vaddr, KERNBASE in *; lia).
  assert (Hla : a <= last < 2 ^ 32) by (unfold last; lia).
  assert (Htd : {[PDX a]} ⊆ tables a last).
  { intros i ->%elem_of_singleton. apply elem_of_tables. pose proof (PDX_le a last ltac:(unfold KERNBASE in *; lia) ltac:(lia)). lia. }
  destruct (walk_space k pgdir l ts us a Hs Hva) as (r & k1 & l1 & ts1 & Hrun & Hs1 & HP1 & He1 & Hf1 & Hd1 & Hr).
  rewrite (bind_ok _ _ _ _ _ Hrun).
  assert (Hd1' : dom ts1 ⊆ dom ts ∪ tables a last) by (etrans; [exact Hd1|by apply union_mono_l]).
  assert (Hf1' : frames k k1 (pgdir :: vals ts ++ l)).
  { intros x Hx. apply Hf1. intros q Hq. apply Hx. rewrite elem_of_cons, elem_of_app. apply elem_of_cons in Hq. tauto. }
  destruct Hr as [(-> & -> & Hnt)|(Hr0 & t & Et & ->)].
  { exists (-1), k1, [], ts1. do 5 (split; [done|]). right. do 2 (split; [done|]). exists (PDX a). split; [by apply Htd, elem_of_singleton|by apply not_elem_of_dom]. }
  rewrite (proj2 (Z.eqb_neq _ 0) Hr0). unfold load. unfold bind at 1, gets.
  pose proof (space_table _ _ _ _ _ a Hs1 Hva) as Htab. rewrite Et in Htab. destruct Htab as (_ & _ & Hent). rewrite <- Hent, He1, present_odd by done.
  pose proof (Hfree 0 ltac:(lia)) as H0. rewrite Z.mul_0_l, Z.add_0_r in H0. rewrite H0. clear H0.
  unfold store. unfold bind at 1, modify. fold (pte_of pa perm).
  assert (Hno : forall v, 0 <= v < KERNBASE -> v / 4096 <> a / 4096).
  { intros v Hv. assert (v / 4096 < KERNBASE / 4096) by (apply Z.div_lt_upper_bound; [lia|]; unfold KERNBASE in *; change (0x80000000 / 4096) with 524288; lia).
    assert (KERNBASE / 4096 <= a / 4096) by (apply Z.div_le_mono; lia). lia. }
  destruct (store_space k1 pgdir l1 ts1 us us a t (pte_of pa perm) Hs1 Hva Et) as (Hs2 & He2 & Hf2); try apply Hs1.
  { pose proof (sp_pages _ _ _ _ _ Hs) as HF. unfold owned in HF. rewrite Forall_cons, Forall_app in HF. tauto. }
  { intros v Hv. rewrite (proj2 (Z.eqb_neq _ _)) by (by apply Hno). by apply (sp_user _ _ _ _ _ Hs1). }
  set (k2 := set_memory (store32 (memory k1) (t + 4 * PTX a) (pte_of pa perm)) k1) in *.
  pose proof (owned_cancel pgdir us _ _ _ _ HP1) as Hsame.
  assert (Hf2' : frames k k2 (pgdir :: vals ts ++ l)).
  { apply (frames_trans k k1 k2 _ [t]); [done|done|]. intros q ->%list_elem_of_singleton. rewrite <- Hsame, elem_of_cons, elem_of_app, elem_of_vals. right. left. by exists (PDX a). }
  assert (Hdm : forall j, (a + j * 4096) / 4096 = a / 4096 + j) by (intros j; apply Z.div_add; lia).
  destruct (Z.eqb_spec a last) as [Elast|Elast].
  - assert (n = 0%nat) as -> by (unfold last in Elast; lia). exists 0, k2, l1, ts1. do 5 (split; [done|]). left. split; [done|].
    intros va Hv. apply mapped_to_one. by rewrite He2, He1.
  - rewrite !u32_id by (unfold PGSIZE, last, KERNBASE in *; lia).
    assert (El : last = a + PGSIZE + (Z.of_nat n - 1) * 4096) by (unfold last, PGSIZE; lia).
    destruct (IH fuel k2 l1 ts1 (a + PGSIZE) (pa + PGSIZE)) as (r' & k3 & l3 & ts3 & Hrun3 & Hs3 & HP3 & Hf3 & Hd3 & Hres);
      [done| |unfold PGSIZE; lia|unfold last in *; lia|unfold PGSIZE; lia|unfold PGSIZE; lia|unfold PGSIZE; lia| |].
    + unfold PGSIZE. replace (a + 4096) with (a + 1 * 4096) by lia. by rewrite Z_mod_plus_full.
    + intros i Hi. rewrite He2, He1 by (unfold vaddr, PGSIZE, KERNBASE in *; lia).
      replace (a + PGSIZE + i * 4096) with (a + (i + 1) * 4096) by (unfold PGSIZE; lia).
      rewrite Hdm, (proj2 (Z.eqb_neq _ _)) by lia. apply Hfree. lia.
    + rewrite <- El in *. assert (Htabs : tables (a + PGSIZE) last ⊆ tables a last).
      { apply tables_mono; unfold KERNBASE, PGSIZE, last in *; lia. }
      exists r', k3, l3, ts3. split; [done|]. split; [done|]. split; [by rewrite HP3|]. split; [|split].
      * apply (frames_trans k k2 k3 _ (pgdir :: vals ts1 ++ l1)); [done|done|]. intros q. by rewrite Hsame.
      * etrans; [exact Hd3|]. apply union_subseteq. split; [done|]. etrans; [exact Htabs|apply union_subseteq_r].
      * destruct Hres as [[-> He3]|(? & ? & i & Hi & Hni)]; [left; split; [done|]|right].
        2:{ do 2 (split; [done|]). exists i. split; [by apply Htabs|done]. }
        intros va Hv. rewrite He3 by done.
        replace (Z.of_nat (S n)) with (Z.of_nat n + 1) by lia. apply mapped_to_step; [lia|done|]. intros v Hv'. by rewrite He2, He1.
Qed.

Definition ksize (e : kmap) : Z := u32 (phys_end e - phys_start e).

(** The ranges of a table like [kmap] of [vm.c]: in order, of whole pages. *)
Fixpoint laid_out (lo : Z) (es : list kmap) : Prop :=
  match es with
  | [] => True
  | e :: es' => lo <= virt e /\ virt e mod 4096 = 0 /\ 0 < ksize e /\ ksize e mod 4096 = 0 /\ virt e + ksize e <= 2 ^ 32
      /\ 0 <= phys_start e /\ phys_start e + ksize e <= 2 ^ 32 /\ laid_out (virt e + ksize e) es'
  end.

(** The entry such a table asks for; [d] outside its ranges. *)
Fixpoint kernel_entry (es : list kmap) (d va : Z) : Z :=
  match es with
  | [] => d
  | e :: es' =>
      if (virt e <=? va) && (va <? virt e + ksize e)
      then u32 (pte_of (phys_start e + (va / 4096 - virt e / 4096) * 4096) (kperm e)) else kernel_entry es' d va
  end.

Fixpoint ktables (es : list kmap) : gset Z :=
  match es with [] => ∅ | e :: es' => tables (virt e) (virt e + ksize e - 4096) ∪ ktables es' end.

Lemma kernel_entry_below d : forall es lo va, laid_out lo es -> va < lo -> kernel_entry es d va = d.
Proof using.
  induction es as [|e es IH]; intros lo va Hl Hv; [done|]. destruct Hl as (H1 & _ & H2 & _ & _ & _ & _ & Hl). cbn [kernel_entry].
  rewrite (proj2 (Z.leb_gt _ _)) by lia. apply (IH _ va Hl). lia.
Qed.

Lemma mapped_to_range k pgdir e v : virt e mod 4096 = 0 -> ksize e mod 4096 = 0 ->
  mapped_to k pgdir (virt e) (phys_start e) (kperm e) (ksize e / 4096) v = kernel_entry [e] (entry k pgdir v) v.
Proof using.
  intros H1 H2. unfold mapped_to. cbn [kernel_entry]. pose proof (Z.div_mod (virt e) 4096 ltac:(lia)). pose proof (Z.div_mod (ksize e) 4096 ltac:(lia)).
  pose proof (Z.div_mod v 4096 ltac:(lia)). pose proof (Z.mod_pos_bound v 4096 ltac:(lia)).
  replace (0 <=? v / 4096 - virt e / 4096) with (virt e <=? v) by (destruct (Z.leb_spec (virt e) v), (Z.leb_spec 0 (v / 4096 - virt e / 4096)); lia || done).
  replace (v / 4096 - virt e / 4096 <? ksize e / 4096) with (v <? virt e + ksize e)
    by (destruct (Z.ltb_spec v (virt e + ksize e)), (Z.ltb_spec (v / 4096 - virt e / 4096) (ksize e / 4096)); lia || done). done.
Qed.

(** One range of the table. *)
Lemma map_kmap pgdir us e k l ts : space k pgdir l ts us -> KERNBASE <= virt e -> laid_out (virt e) [e] ->
  (forall v, virt e <= v < virt e + ksize e -> Z.odd (entry k pgdir v) = false) ->
  exists r k' l' ts', mappages pgdir (virt e) (ksize e) (phys_start e) (kperm e) k = (Ok r, k')
    /\ space k' pgdir l' ts' us /\ l' ++ owned pgdir ts' us ≡ₚ l ++ owned pgdir ts us
    /\ frames k k' (pgdir :: vals ts ++ l) /\ dom ts' ⊆ dom ts ∪ ktables [e]
    /\ ((r = 0 /\ forall v, vaddr v -> entry k' pgdir v = kernel_entry [e] (entry k pgdir v) v)
        \/ (r = -1 /\ l' = [] /\ exists i, i ∈ ktables [e] /\ i ∉ dom ts')).
Proof using Hend.
  intros Hs Hlo (_ & Hvm & Hpos & Hsm & Hv & Hp & Hpe & _) Hfree. unfold mappages. set (n := Z.to_nat (ksize e / 4096)).
  pose proof (Z.div_mod (ksize e) 4096 ltac:(lia)) as Hdm. assert (Hn : Z.of_nat n = ksize e / 4096) by (unfold n; apply Z2Nat.id, Z.div_pos; lia).
  rewrite (u32_id (virt e + ksize e - 1)) by (unfold KERNBASE in *; lia).
  assert (El : PGROUNDDOWN (virt e + ksize e - 1) = virt e + (Z.of_nat n - 1) * 4096).
  { rewrite PGROUNDDOWN_div by (unfold KERNBASE in *; lia). replace (virt e + ksize e - 1) with (4095 + (virt e / 4096 + (ksize e / 4096 - 1)) * 4096) by (pose proof (Z.div_mod (virt e) 4096 ltac:(lia)); lia).
    rewrite Z.div_add by lia. change (4095 / 4096) with 0. pose proof (Z.div_mod (virt e) 4096 ltac:(lia)). lia. }
  rewrite El, PGROUNDDOWN_id by (done || unfold KERNBASE in *; lia).
  destruct (map_range pgdir us (kperm e) n (S (Z.to_nat (u32 (virt e + (Z.of_nat n - 1) * 4096 - virt e) / PGSIZE))) k l ts (virt e) (phys_start e) Hs)
    as (r & k' & l' & ts' & Hrun & Hs' & HP & Hf & Hd & Hr); try done; try lia.
  { split; [lia|]. rewrite u32_id by (unfold KERNBASE in *; lia). unfold PGSIZE.
    replace (virt e + (Z.of_nat n - 1) * 4096 - virt e) with ((Z.of_nat n - 1) * 4096) by lia. rewrite Z.div_mul by lia. lia. }
  { intros i Hi. apply Hfree. lia. }
  assert (Hk : ktables [e] = tables (virt e) (virt e + (Z.of_nat n - 1) * 4096)).
  { cbn [ktables]. rewrite union_empty_r_L. f_equal. lia. }
  exists r, k', l', ts'. rewrite Hk. do 5 (split; [done|]). destruct Hr as [[-> He]|?]; [left; split; [done|]|by right].
  intros v Hv'. rewrite He by done. rewrite Hn. by apply mapped_to_range.
Qed.

Lemma size_union_le (X Y : gset Z) : (size (X ∪ Y) <= size X + size Y)%nat.
Proof using. rewrite size_union_alt. apply Nat.add_le_mono_l, subseteq_size, subseteq_difference_l. reflexivity. Qed.

Lemma size_vals (m : gmap Z Z) : length (vals m) = size (dom m).
Proof using. unfold vals. by rewrite length_fmap, length_map_to_list, size_dom. Qed.

(** Out of pages: all the pages there were are tables now, and one more is missing. *)
Lemma pages_used pgdir l ts ts' us (X : gset Z) i :
  owned pgdir ts' us ≡ₚ l ++ owned pgdir ts us -> dom ts' ⊆ X -> i ∈ X -> i ∉ dom ts' -> (length l + size (dom ts) < size X)%nat.
Proof using.
  intros HP Hd Hi Hni. assert (Hlen : size (dom ts') = (length l + size (dom ts))%nat).
  { pose proof (Permutation_length HP) as H. unfold owned in H. cbn in H. rewrite ?length_app in H. cbn in H. rewrite ?length_app, !size_vals in H. lia. }
  rewrite <- Hlen. apply subset_size. split; [done|]. intros Hx. apply Hni, Hx, Hi.
Qed.

Lemma same_size pgdir l l' ts ts' us :
  l' ++ owned pgdir ts' us ≡ₚ l ++ owned pgdir ts us -> (length l' + size (dom ts') = length l + size (dom ts))%nat.
Proof using.
  intros HP. pose proof (Permutation_length HP) as H. rewrite !length_app in H. unfold owned in H. cbn in H. rewrite !length_app, !size_vals in H. lia.
Qed.

Lemma map_kernel_space pgdir us : forall es k l ts lo,
  space k pgdir l ts us -> KERNBASE <= lo -> laid_out lo es -> (forall v, lo <= v < 2 ^ 32 -> Z.odd (entry k pgdir v) = false) ->
  exists r k' l', map_kernel kend pgdir es k = (Ok r, k') /\ frames k k' (l ++ owned pgdir ts us)
  /\ ((r = 0 /\ kmem_ok kend k' l' /\ l' ≡ₚ l ++ owned pgdir ts us /\ (length l + size (dom ts) < size (dom ts ∪ ktables es))%nat)
      \/ (r = pgdir /\ exists ts', space k' pgdir l' ts' us /\ l' ++ owned pgdir ts' us ≡ₚ l ++ owned pgdir ts us /\ dom ts' ⊆ dom ts ∪ ktables es
            /\ forall v, vaddr v -> entry k' pgdir v = kernel_entry es (entry k pgdir v) v)).
Proof using Hend.
  induction es as [|e es IH]; intros k l ts lo Hs Hlo Hl Hfree; cbn [map_kernel].
  { exists pgdir, k, l. split; [done|]. split; [apply frames_refl|]. right. split; [done|]. exists ts. do 2 (split; [done|]). split; [apply union_subseteq_l|done]. }
  destruct Hl as (H1 & H2 & H3 & H4 & H5 & H6 & H7 & Hl). fold (ksize e).
  destruct (map_kmap pgdir us e k l ts Hs) as (r & k1 & l1 & ts1 & Hrun & Hs1 & HP1 & Hf1 & Hd1 & Hr); [lia|done|intros v Hv; apply Hfree; lia|].
  rewrite (bind_ok _ _ _ _ _ Hrun). cbn [ktables] in *. rewrite union_empty_r_L in *.
  assert (Hf1' : frames k k1 (l ++ owned pgdir ts us)).
  { intros x Hx. apply Hf1. intros q Hq. apply Hx. unfold owned. rewrite elem_of_app, elem_of_cons, elem_of_app. rewrite elem_of_cons, elem_of_app in Hq. tauto. }
  destruct Hr as [[-> He1]|(-> & -> & i & Hi & Hni)]; cbn [Z.ltb Z.compare].
  - destruct (IH k1 l1 ts1 (virt e + ksize e) Hs1) as (r & k' & l' & Hrun' & Hf' & Hr); [lia|done| |].
    { intros v Hv. rewrite He1 by (unfold vaddr, KERNBASE in *; lia). cbn [kernel_entry]. rewrite (proj2 (Z.ltb_ge _ _)), andb_false_r by lia. apply Hfree. lia. }
    exists r, k', l'. split; [done|]. split; [apply (frames_trans k k1 k' _ (l1 ++ owned pgdir ts1 us)); [done|done|intros q; by rewrite HP1]|].
    assert (Hsub : dom ts1 ∪ ktables es ⊆ dom ts ∪ (tables (virt e) (virt e + ksize e - 4096) ∪ ktables es)) by (rewrite union_assoc_L; by apply union_mono_r).
    destruct Hr as [(-> & Hk' & HP' & Hlen)|(-> & ts' & Hs' & HP' & Hd' & He')]; [left|right].
    + split; [done|]. split; [done|]. split; [by rewrite HP', HP1|]. rewrite <- (same_size pgdir l l1 ts ts1 us HP1).
      apply (Nat.lt_le_trans _ _ _ Hlen), subseteq_size, Hsub.
    + split; [done|]. exists ts'. split; [done|]. split; [by rewrite HP'|]. split; [by etrans|].
      intros v Hv. rewrite He', He1 by done. cbn [kernel_entry]. destruct (_ && _) eqn:E; [|done].
      apply andb_true_iff in E as [_ E%Z.ltb_lt]. by apply (kernel_entry_below _ es (virt e + ksize e)).
  - destruct (freevm_space k1 pgdir [] ts1 us Hs1) as (k2 & l2 & Hrun2 & Hk2 & HP2 & Hf2). rewrite (bind_ok _ _ _ _ _ Hrun2).
    exists 0, k2, l2. split; [done|]. cbn [app] in HP1. split; [apply (frames_trans k k1 k2 _ (owned pgdir ts1 us)); [done|done|intros q; by rewrite HP1]|].
    left. split; [done|]. split; [done|]. split; [by rewrite HP2|].
    apply (pages_used pgdir l ts ts1 us _ i); [done| |by apply elem_of_union_r, elem_of_union_l|done].
    etrans; [exact Hd1|]. apply union_mono_l, union_subseteq_l.
Qed.

(** A page taken from the free list and filled is not part of the address space yet. *)
Lemma take_page k pgdir p l ts us (f : mem -> mem) :
  space k pgdir (p :: l) ts us -> (forall x, ~ in_page p x -> f (memory k) x = memory k x) ->
  exists k1, kalloc k = (Ok p, k1) /\ let k2 := set_memory (f (memory k1)) k1 in
  p <> 0 /\ page_ok kend p /\ (p ∉ l ++ owned pgdir ts us) /\ memory k2 = f (memory k)
  /\ space k2 pgdir l ts us /\ (forall v, vaddr v -> entry k2 pgdir v = entry k pgdir v) /\ frames k k2 [p].
Proof using.
  intros Hs Hf. destruct (kalloc_ok kend k (p :: l) (sp_free _ _ _ _ _ Hs)) as (k1 & Ha & Hk1 & Hm1 & _). cbn in Ha, Hk1. exists k1. split; [done|]. intros k2.
  pose proof (ok_pages _ _ _ (sp_free _ _ _ _ _ Hs)) as HF. apply Forall_cons_1 in HF as [Hp HF].
  pose proof (sp_nodup _ _ _ _ _ Hs) as Hn. cbn [app] in Hn. apply NoDup_cons in Hn as [Hpn Hn].
  destruct (space_parts _ _ _ _ _ Hs) as (Hdp & _ & Ht & _).
  assert (Hout : forall x, ~ in_page p x -> memory k2 x = memory k x) by (intros x Hx; cbn; rewrite Hm1; by apply Hf).
  assert (Hkeep : forall q x, page_ok kend q -> q <> p -> in_page q x -> memory k2 x = memory k x) by (intros q x Hq Hne Hx; by apply Hout, (apart kend q)).
  rewrite elem_of_app in Hpn. assert (Hpo : p ∉ owned pgdir ts us) by tauto. unfold owned in Hpo. rewrite elem_of_cons, elem_of_app in Hpo.
  assert (Hk2 : kmem_ok kend k2 l).
  { apply (kmem_ok_ext kend k1); [done|done|done|]. intros b x Hb Hx. rewrite Hm1. apply (Hkeep b); [by rewrite Forall_forall in HF; apply HF|intros ->; tauto|done]. }
  destruct (space_ext k k2 pgdir (p :: l) l ts us Hs Hk2 Hn) as [Hs2 He2].
  { intros x. apply Hkeep; [done|intros ->; tauto]. }
  { intros i t x Hi. apply Hkeep; [by apply (Ht i)|]. intros ->. apply Hpo. right. left. apply elem_of_vals. by exists i. }
  split; [destruct Hp as (_ & _ & ?); unfold KERNBASE in *; lia|]. split; [done|]. split; [rewrite elem_of_app; tauto|]. split; [cbn; by rewrite Hm1|].
  split; [done|]. split; [done|]. intros x Hx. apply Hout, Hx. left.
Qed.

(** [k'] has the bytes [k] has in the pages [P]. *)
Definition keeps (P : list Z) (k k' : kmem) : Prop := forall q x, q ∈ P -> in_page q x -> memory k' x = memory k x.

Lemma page_keeps_trans P k1 k2 k3 : keeps P k1 k2 -> keeps P k2 k3 -> keeps P k1 k3.
Proof using. intros H1 H2 q x Hq Hx. rewrite (H2 q), (H1 q); done. Qed.

Lemma frames_keeps P Q k k' : frames k k' Q -> Forall (page_ok kend) P -> Forall (page_ok kend) Q -> (forall q, q ∈ P -> q ∉ Q) -> keeps P k k'.
Proof using.
  intros Hf HP HQ Hd q x Hq Hx. rewrite !Forall_forall in *. apply Hf. intros q' Hq'. apply (apart kend q); [by apply HP|by apply HQ|intros ->; by apply (Hd q')|done].
Qed.

Lemma keeps_space P k k' pgdir l ts us : space k pgdir l ts us -> keeps P k k' -> (forall q, q ∈ owned pgdir ts us -> q ∈ P) ->
  forall v, vaddr v -> entry k' pgdir v = entry k pgdir v.
Proof using.
  intros Hs Hk Hsub v Hv. apply entry_ext; [done| |].
  - apply load32_ext. intros x Hx. apply (Hk pgdir); [apply Hsub; left|]. eapply in_word; [|exact Hx]. by apply PDX_div.
  - intros Hp x Hx. pose proof (space_table _ _ _ _ _ v Hs Hv) as Ht. destruct (ts !! PDX v) as [t|] eqn:E; [|destruct Ht; congruence].
    destruct Ht as (_ & Ht & _). apply (Hk t); [|by rewrite <- Ht]. apply Hsub. unfold owned. rewrite elem_of_cons, elem_of_app, elem_of_vals. right. left. by exists (PDX v).
Qed.

(** ** Copying user memory *)

Definition pages (sz : Z) : Z := (sz + 4095) / 4096.

(** The page at [v] of [d] in [k'] is a copy of the one of [pgdir] in [k]. *)
Definition copied_page (k k' : kmem) (pgdir d v : Z) : Prop :=
  PTE_FLAGS (entry k' d v) = PTE_FLAGS (entry k pgdir v) /\ Z.odd (entry k' d v) = true /\ ubyte k' d v = ubyte k pgdir v.

Lemma user_apart k d l ts us i p o y : space k d l ts us -> us !! i = Some p -> 0 <= o < 4096 -> y ∈ d :: vals ts ++ l -> ~ in_page y (p + o).
Proof using.
  intros Hs Hi Ho Hy. destruct (space_parts _ _ _ _ _ Hs) as (Hdp & _ & Ht & Hu & _). destruct (Hu i p Hi) as (Hp & Hpl & Hpd & Hpt).
  assert (Hx : in_page p (p + o)) by (unfold in_page, PGSIZE; lia). rewrite elem_of_cons, elem_of_app, elem_of_vals in Hy. destruct Hy as [->|[[j Hj]|Hy]].
  - exact (apart kend p d _ Hp Hdp Hpd Hx).
  - apply (apart kend p y _ Hp); [by apply (Ht j)|intros ->; by apply (Hpt j)|exact Hx].
  - pose proof (ok_pages _ _ _ (sp_free _ _ _ _ _ Hs)) as HF. rewrite Forall_forall in HF. apply (apart kend p y _ Hp (HF y Hy)); [by intros ->|exact Hx].
Qed.

(** One round of [copyuvm] or [allocuvm]: a page is taken, filled and mapped at [a]. *)
Lemma map_round k d p l ts us a (f : mem -> mem) flags :
  space k d (p :: l) ts us -> 0 <= a < KERNBASE -> a mod 4096 = 0 -> us !! (a / 4096) = None -> 0 <= flags < 4096 ->
  (forall x, ~ in_page p x -> f (memory k) x = memory k x) ->
  exists k1, kalloc k = (Ok p, k1) /\ p <> 0 /\ let k2 := set_memory (f (memory k1)) k1 in
  exists r k3 l3 ts3, mappages d a PGSIZE (V2P p) flags k2 = (Ok r, k3) /\ frames k k3 (d :: vals ts ++ p :: l)
  /\ l3 ++ owned d ts3 us ≡ₚ l ++ owned d ts us /\ dom ts3 ⊆ dom ts ∪ {[PDX a]} /\ page_ok kend p /\ (p ∉ l ++ owned d ts us)
  /\ ((r = 0 /\ space k3 d l3 ts3 (<[a / 4096 := p]> us) /\ (forall o, 0 <= o < 4096 -> memory k3 (p + o) = f (memory k) (p + o))
       /\ forall v, vaddr v -> entry k3 d v = if v / 4096 =? a / 4096 then pte_of (V2P p) flags else entry k d v)
      \/ (r = -1 /\ l3 = [] /\ (PDX a ∉ dom ts3) /\ space k3 d l3 ts3 us /\ forall v, vaddr v -> entry k3 d v = entry k d v)).
Proof using Hend.
  intros Hs Ha Hm Hfree Hfl Hf. destruct (take_page k d p l ts us f Hs Hf) as (k1 & Hka & Hp0 & Hp & Hpn & Hmem & Hs2 & He2 & Hf2).
  exists k1. split; [done|]. split; [done|]. set (k2 := set_memory (f (memory k1)) k1) in *. intros k2'. change k2' with k2. clear k2'.
  destruct (map_one k2 d l ts us a p flags Hs2 Ha Hm Hfree Hp Hpn Hfl) as (r & k3 & l3 & ts3 & Hrun & Hf3 & HP3 & Hd3 & Hr).
  exists r, k3, l3, ts3. split; [exact Hrun|]. split.
  { apply (frames_trans k k2 k3 _ (d :: vals ts ++ l)); [|done|].
    - intros x Hx. apply Hf2. intros q' ->%list_elem_of_singleton. apply Hx. right. rewrite elem_of_app. right. left.
    - intros q'. rewrite !elem_of_cons, !elem_of_app, elem_of_cons. tauto. }
  do 4 (split; [done|]). destruct Hr as [(-> & Hs3 & He3)|(-> & -> & Hnt & Hs3 & He3)]; [left|right].
  - split; [done|]. split; [done|]. split; [|intros v Hv; by rewrite He3, He2].
    intros o Ho. rewrite Hf3; [by rewrite Hmem|]. intros y Hy.
    apply (user_apart k3 d l3 ts3 (<[a / 4096 := p]> us) (a / 4096)); [exact Hs3|apply lookup_insert_eq|exact Ho|]. by rewrite (owned_cancel d us _ _ _ _ HP3).
  - split; [done|]. split; [done|]. split; [by apply not_elem_of_dom|]. split; [done|]. intros v Hv. by rewrite He3, He2.
Qed.

(** The byte and the flags at an address of a page just mapped. *)
Lemma mapped_byte k k' d l ts us i p flags v :
  space k d l ts us -> us !! i = Some p -> frames k k' (d :: vals ts ++ l) -> 0 <= flags < 4096 -> entry k' d v = pte_of (V2P p) flags ->
  PTE_FLAGS (entry k' d v) = Z.lor flags 1 /\ Z.odd (entry k' d v) = true /\ ubyte k' d v = memory k (p + v mod 4096).
Proof using Hend.
  intros Hs Hi Hf Hfl E. destruct (space_parts _ _ _ _ _ Hs) as (_ & _ & _ & Hu & _). destruct (Hu i p Hi) as (Hpp & _).
  destruct (pte_of_page p flags Hpp Hfl) as (_ & Ho & Hpa & Hfg). destruct (P2V_V2P p Hpp) as (Hpvp & _). unfold ubyte, dpage. rewrite E, Hpa, Hpvp.
  split; [exact Hfg|]. split; [exact Ho|]. apply Hf. intros y. apply (user_apart k d l ts us i p (v mod 4096) y Hs Hi). apply Z.mod_pos_bound. lia.
Qed.

(** A page that is not part of the address space is freed. *)
Lemma give_back k pgdir p l ts us : space k pgdir l ts us -> page_ok kend p -> p ∉ l ++ owned pgdir ts us ->
  exists k1, kfree kend p k = (Ok tt, k1) /\ space k1 pgdir (p :: l) ts us /\ frames k k1 [p]
  /\ forall v, vaddr v -> entry k1 pgdir v = entry k pgdir v.
Proof using.
  intros Hs Hp Hpn. pose proof Hpn as Hpn'. rewrite elem_of_app in Hpn'. unfold owned in Hpn'. rewrite elem_of_cons, elem_of_app in Hpn'.
  destruct (kfree_ok kend p k l (sp_free _ _ _ _ _ Hs) Hp ltac:(tauto)) as (k1 & Hrun & Hk1 & _ & Hm1 & _). exists k1. split; [exact Hrun|].
  destruct (space_parts _ _ _ _ _ Hs) as (Hdp & _ & Ht & _).
  destruct (space_ext k k1 pgdir l (p :: l) ts us Hs Hk1) as [Hs1 He1].
  - cbn [app]. apply NoDup_cons. split; [exact Hpn|apply Hs].
  - intros x Hx. apply Hm1. apply (apart kend pgdir p x Hdp Hp); [intros ->; tauto|exact Hx].
  - intros i t x Hi Hx. apply Hm1. apply (apart kend t p x); [by apply (Ht i)|exact Hp| |exact Hx]. intros ->. apply Hpn'. right. right. left. apply elem_of_vals. by exists i.
  - split; [exact Hs1|]. split; [|exact He1]. intros x Hx. apply Hm1, Hx. left.
Qed.

Lemma no_page k pgdir ts us : space k pgdir [] ts us ->
  exists k1, kalloc k = (Ok 0, k1) /\ space k1 pgdir [] ts us /\ memory k1 = memory k.
Proof using.
  intros Hs. destruct (kalloc_ok kend k [] (sp_free _ _ _ _ _ Hs)) as (k1 & Ha & Hk1 & Hm1 & _). exists k1. split; [exact Ha|]. split; [|exact Hm1].
  apply (space_ext k k1 pgdir [] [] ts us Hs Hk1); [apply Hs|intros; by rewrite Hm1..].
Qed.

Lemma flags_of e : Z.odd e = true -> 0 <= PTE_FLAGS e < 4096 /\ Z.lor (PTE_FLAGS e) 1 = PTE_FLAGS e.
Proof using.
  intros Ho. unfold PTE_FLAGS. change 0xFFF with (Z.ones 12). split; [rewrite Z.land_ones by lia; apply Z.mod_pos_bound; lia|].
  apply Z.bits_inj'. intros n Hn. rewrite Z.lor_spec, Z.land_spec. destruct (Z.eqb_spec n 0) as [->|Hne].
  - rewrite <- Z.bit0_odd in Ho. by rewrite Ho.
  - change 1 with (2 ^ 0). rewrite Z.pow2_bits_false by lia. apply orb_false_r.
Qed.

Lemma entry_page k pgdir v a : vaddr v -> vaddr a -> v / 4096 = a / 4096 -> entry k pgdir v = entry k pgdir a.
Proof using. intros Hv Ha E. apply (same_page v a Hv Ha) in E as [E1 E2]. unfold entry. by rewrite E1, E2. Qed.

(** The page of the source at an address that has one. *)
Lemma source_page k pgdir l ts us a : space k pgdir l ts us -> 0 <= a < KERNBASE -> is_Some (us !! (a / 4096)) ->
  exists q, us !! (a / 4096) = Some q /\ page_ok kend q /\ (q ∈ owned pgdir ts us) /\ present k pgdir (PDX a) = true /\ tab k pgdir (PDX a) + 4 * PTX a <> 0
  /\ load32 (memory k) (tab k pgdir (PDX a) + 4 * PTX a) = entry k pgdir a /\ Z.odd (entry k pgdir a) = true /\ P2V (PTE_ADDR (entry k pgdir a)) = q.
Proof using Hend.
  intros Hs Ha [q Hq]. exists q. split; [exact Hq|]. destruct (space_parts _ _ _ _ _ Hs) as (_ & _ & Ht & Hu & _). destruct (Hu _ _ Hq) as (Hqp & _).
  pose proof (sp_user _ _ _ _ _ Hs a Ha) as He. rewrite Hq in He. destruct He as [Ho Hpa].
  pose proof (space_table _ _ _ _ _ a Hs ltac:(unfold vaddr, KERNBASE in *; lia)) as Htab. destruct (ts !! PDX a) as [t|] eqn:Et; [|by destruct Htab as [_ Htab]; rewrite Htab in Ho].
  destruct Htab as (Hp & Htt & Hent). rewrite Hpa, Htt. destruct (P2V_V2P q Hqp) as (-> & _). destruct (Ht _ _ Et) as ((_ & _ & Hr) & _). destruct (PTX_div a) as [_ Hx].
  split; [exact Hqp|]. split; [unfold owned; rewrite elem_of_cons, elem_of_app, !elem_of_vals; right; right; by exists (a / 4096)|].
  split; [exact Hp|]. split; [unfold KERNBASE in *; lia|]. done.
Qed.

Lemma tables_in lo a sz : 0 <= lo <= a -> a < sz -> sz <= KERNBASE -> {[PDX a]} ⊆ tables lo (sz - 1).
Proof using.
  intros Hlo Ha Hsz i ->%elem_of_singleton. apply elem_of_tables.
  pose proof (PDX_le lo a ltac:(lia) ltac:(unfold KERNBASE in *; lia)). pose proof (PDX_le a (sz - 1) ltac:(lia) ltac:(unfold KERNBASE in *; lia)). lia.
Qed.

Lemma pages_left a sz : a mod 4096 = 0 -> a < sz -> a / 4096 + 1 <= pages sz.
Proof using.
  intros Hm Ha. unfold pages. pose proof (Z.div_mod a 4096 ltac:(lia)). replace (a / 4096 + 1) with ((a + 4096) / 4096) by (replace (a + 4096) with (a + 1 * 4096) by lia; rewrite Z.div_add; lia).
  apply Z.div_le_mono; lia.
Qed.

(** The two error paths of [copyuvm]: everything goes back to the free list. *)
Lemma copy_fails k d ts us : space k d [] ts us ->
  exists k' l', freevm kend d k = (Ok tt, k') /\ kmem_ok kend k' l' /\ l' ≡ₚ owned d ts us /\ frames k k' (owned d ts us).
Proof using Hend. intros Hs. exact (freevm_space k d [] ts us Hs). Qed.

Lemma copy_fails_late k d p ts us : space k d [] ts us -> page_ok kend p -> p ∉ owned d ts us ->
  exists k1 k' l', kfree kend p k = (Ok tt, k1) /\ freevm kend d k1 = (Ok tt, k') /\ kmem_ok kend k' l' /\ l' ≡ₚ p :: owned d ts us /\ frames k k' (p :: owned d ts us).
Proof using Hend.
  intros Hs Hp Hpn. destruct (give_back k d p [] ts us Hs Hp Hpn) as (k1 & Hrun & Hs1 & Hf1 & _).
  destruct (freevm_space k1 d [p] ts us Hs1) as (k' & l' & Hrun' & Hk' & HP & Hf'). exists k1, k', l'. do 4 (split; [assumption|]).
  apply (frames_trans k k1 k' _ (owned d ts us)); [|exact Hf'|intros q Hq; by right]. intros x Hx. apply Hf1. intros q ->%list_elem_of_singleton. apply Hx. left.
Qed.

(** Another address space with pages of its own is not disturbed. *)
Lemma beside k0 k pgdir l0 tsp usp d l ts us :
  space k0 pgdir l0 tsp usp -> space k d l ts us -> NoDup ((l ++ owned d ts us) ++ owned pgdir tsp usp) -> keeps (owned pgdir tsp usp) k0 k ->
  space k pgdir l tsp usp /\ forall v, vaddr v -> entry k pgdir v = entry k0 pgdir v.
Proof using.
  intros Hs0 Hs Hnd Hkeep. apply (space_ext k0 k pgdir l0 l tsp usp Hs0 (sp_free _ _ _ _ _ Hs)).
  - apply NoDup_app in Hnd as (Hn1 & Hdis & Hn2). apply NoDup_app in Hn1 as (Hn1 & _). apply NoDup_app. split; [exact Hn1|]. split; [|exact Hn2].
    intros x Hx. apply Hdis. rewrite elem_of_app. by left.
  - intros x Hx. apply (Hkeep pgdir); [left|exact Hx].
  - intros i t x Hi Hx. apply (Hkeep t); [|exact Hx]. unfold owned. rewrite elem_of_cons, elem_of_app, elem_of_vals. right. left. by exists i.
Qed.

Lemma copy_loop k0 pgdir l0 tsp usp sz d : space k0 pgdir l0 tsp usp -> sz <= KERNBASE ->
  (forall j, 0 <= j -> j * 4096 < sz -> is_Some (usp !! j)) ->
  forall fuel k l ts us a,
  space k d l ts us -> NoDup ((l ++ owned d ts us) ++ owned pgdir tsp usp) -> keeps (owned pgdir tsp usp) k0 k ->
  0 <= a -> a mod 4096 = 0 -> (0 < fuel)%nat -> sz - a <= 4096 * (Z.of_nat fuel - 1) ->
  (forall j, a / 4096 <= j -> us !! j = None) -> Z.of_nat (size us) = a / 4096 ->
  exists r k' l', copyuvm_loop kend fuel pgdir d sz a k = (Ok r, k') /\ frames k k' (l ++ owned d ts us)
  /\ ((r = 0 /\ kmem_ok kend k' l' /\ l' ≡ₚ l ++ owned d ts us
        /\ Z.of_nat (length l + size (dom ts) + size us) < Z.of_nat (size (dom ts ∪ tables 0 (sz - 1))) + pages sz)
      \/ (r = d /\ exists ts' us', space k' d l' ts' us' /\ l' ++ owned d ts' us' ≡ₚ l ++ owned d ts us /\ frames k k' (d :: vals ts ++ l)
            /\ (forall v, a <= v -> v / 4096 * 4096 < sz -> copied_page k0 k' pgdir d v)
            /\ (forall v, vaddr v -> v < a \/ sz <= v / 4096 * 4096 -> entry k' d v = entry k d v))).
Proof using Hend.
  intros Hs0 Hsz Hall. induction fuel as [|fuel IH]; intros k l ts us a Hs Hnd Hkeep Ha Hm Hfu Hn Hnone Hsize; [lia|]. cbn [copyuvm_loop].
  pose proof (Z.div_mod a 4096 ltac:(lia)) as Hdm. assert (Hd0 : d <> 0).
  { destruct (space_parts _ _ _ _ _ Hs) as ((_ & _ & Hr) & _). unfold KERNBASE in Hr. lia. }
  destruct (Z.ltb_spec a sz) as [Hlt|Hge].
  2:{ exists d, k, l. split; [reflexivity|]. split; [apply frames_refl|]. right. split; [reflexivity|]. exists ts, us.
      split; [exact Hs|]. split; [reflexivity|]. split; [apply frames_refl|]. split; [|reflexivity].
      intros v Hv Hv'. assert (a / 4096 <= v / 4096) by (apply Z.div_le_mono; lia). lia. }
  assert (Hva : 0 <= a < KERNBASE) by lia. assert (Hv : vaddr a) by (unfold vaddr, KERNBASE in *; lia).
  destruct (beside k0 k pgdir l0 tsp usp d l ts us Hs0 Hs Hnd Hkeep) as [Hsp Hent].
  destruct (source_page k pgdir l tsp usp a Hsp Hva) as (q & Hq & Hqp & Hqo & Hpr & Hne & Hload & Hodd & Hpv); [apply Hall; [apply Z.div_pos; lia|lia]|].
  rewrite (bind_ok _ _ _ _ _ (walk_present k pgdir a false Hpr)), (proj2 (Z.eqb_neq _ 0) Hne). unfold load. unfold bind at 1, gets.
  rewrite Hload, present_odd, Hodd, Hpv. cbn [negb]. destruct (flags_of _ Hodd) as [Hfl Hfl1].
  pose proof (tables_in 0 a sz ltac:(lia) Hlt Hsz) as Htd. pose proof (pages_left a sz Hm Hlt) as Hpl.
  destruct l as [|p l].
  { destruct (no_page k d ts us Hs) as (k1 & Hka & Hs1 & Hm1). rewrite (bind_ok _ _ _ _ _ Hka), Z.eqb_refl.
    destruct (copy_fails k1 d ts us Hs1) as (k' & l' & Hrun & Hk' & HP & Hf). rewrite (bind_ok _ _ _ _ _ Hrun). exists 0, k', l'.
    split; [reflexivity|]. split; [intros x Hx; rewrite <- Hm1; by apply Hf|]. left. split; [reflexivity|]. split; [exact Hk'|]. split; [exact HP|].
    assert (size (dom ts) <= size (dom ts ∪ tables 0 (sz - 1)))%nat by (apply subseteq_size, union_subseteq_l). cbn [length]. lia. }
  destruct (map_round k d p l ts us a (fun m => memmove m p q PGSIZE) (PTE_FLAGS (entry k pgdir a)) Hs Hva Hm (Hnone (a / 4096) (Z.le_refl _)) Hfl)
    as (k1 & Hka & Hp0 & r & k3 & l3 & ts3 & Hrun & Hf3 & HP3 & Hd3 & Hpp & Hpn & Hr).
  { intros x Hx. rewrite memmove_copied by (unfold PGSIZE; lia). unfold copied, in_page in *. zcases; cbn [andb]; done || lia. }
  rewrite (bind_ok _ _ _ _ _ Hka), (proj2 (Z.eqb_neq _ 0) Hp0). unfold move. unfold bind at 1, modify. rewrite (bind_ok _ _ _ _ _ Hrun).
  destruct Hr as [(-> & Hs3 & Hb3 & He3)|(-> & -> & Hnt & Hs3 & _)]; cbn [Z.ltb Z.compare].
  - rewrite (u32_id (a + PGSIZE)) by (unfold PGSIZE, KERNBASE in *; lia).
    assert (HPo : l3 ++ owned d ts3 (<[a / 4096 := p]> us) ≡ₚ (p :: l) ++ owned d ts us).
    { rewrite (owned_user d ts3 us _ p (Hnone _ (Z.le_refl _))). rewrite <- Permutation_middle, HP3. reflexivity. }
    assert (Hf3' : frames k k3 ((p :: l) ++ owned d ts us)).
    { intros x Hx. apply Hf3. intros y Hy. apply Hx. revert Hy. unfold owned. rewrite !elem_of_cons, !elem_of_app, !elem_of_cons, elem_of_app. tauto. }
    assert (Hk3 : keeps (owned pgdir tsp usp) k k3).
    { apply (frames_keeps _ _ _ _ Hf3'); [apply Hs0| |].
      - apply Forall_app. split; [apply (sp_free _ _ _ _ _ Hs)|apply Hs].
      - intros y Hy Hy'. apply NoDup_app in Hnd as (_ & Hdis & _). by apply (Hdis y). }
    assert (Ha' : (a + PGSIZE) / 4096 = a / 4096 + 1) by (unfold PGSIZE; replace (a + 4096) with (a + 1 * 4096) by lia; apply Z.div_add; lia).
    destruct (IH k3 l3 ts3 (<[a / 4096 := p]> us) (a + PGSIZE) Hs3) as (r & k' & l' & Hrun' & Hf' & Hr).
    { by rewrite HPo. }
    { exact (page_keeps_trans _ _ _ _ Hkeep Hk3). }
    { unfold PGSIZE. lia. }
    { unfold PGSIZE. replace (a + 4096) with (a + 1 * 4096) by lia. by rewrite Z_mod_plus_full. }
    { unfold PGSIZE in *. lia. }
    { unfold PGSIZE. lia. }
    { intros j Hj. rewrite lookup_insert_ne by lia. apply Hnone. lia. }
    { rewrite map_size_insert_None by (apply Hnone; lia). lia. }
    exists r, k', l'. split; [exact Hrun'|].
    split; [apply (frames_trans k k3 k' _ (l3 ++ owned d ts3 (<[a / 4096 := p]> us))); [exact Hf3'|exact Hf'|intros y; by rewrite HPo]|].
    destruct Hr as [(-> & Hk' & HP' & Hlen)|(-> & ts' & us' & Hs' & HP' & Hfr' & Hcop & Hrest)]; [left|right].
    + split; [reflexivity|]. split; [exact Hk'|]. split; [by rewrite HP', HPo|].
      assert (size (dom ts3 ∪ tables 0 (sz - 1)) <= size (dom ts ∪ tables 0 (sz - 1)))%nat.
      { apply subseteq_size, union_subseteq. split; [etrans; [exact Hd3|by apply union_mono_l]|apply union_subseteq_r]. }
      pose proof (same_size d l l3 ts ts3 us HP3). rewrite map_size_insert_None in Hlen by (apply Hnone; lia). cbn [length]. lia.
    + split; [reflexivity|]. exists ts', us'. split; [exact Hs'|]. split; [by rewrite HP', HPo|].
      assert (Hsub : forall y, y ∈ d :: vals ts3 ++ l3 -> y ∈ d :: vals ts ++ p :: l).
      { intros y. rewrite (owned_cancel d us _ _ _ _ HP3). rewrite !elem_of_cons, !elem_of_app, elem_of_cons. tauto. }
      split; [exact (frames_trans k k3 k' _ _ Hf3 Hfr' Hsub)|]. split.
      * intros v Hv1 Hv2. destruct (Z_lt_dec v (a + PGSIZE)) as [Hv3|Hv3]; [|apply Hcop; lia].
        assert (Ev : v / 4096 = a / 4096).
        { pose proof (Z.div_le_mono a v 4096 ltac:(lia) Hv1). assert (v / 4096 < a / 4096 + 1) by (apply Z.div_lt_upper_bound; unfold PGSIZE in *; lia). lia. }
        assert (Hvv : vaddr v) by (unfold vaddr, PGSIZE, KERNBASE in *; lia).
        assert (Ee : entry k' d v = pte_of (V2P p) (PTE_FLAGS (entry k pgdir a))) by (rewrite Hrest, He3, Ev, Z.eqb_refl; [reflexivity|exact Hvv|exact Hvv|left; lia]).
        assert (Ep : entry k0 pgdir v = entry k pgdir a) by (rewrite Hent by exact Hv; by apply entry_page).
        destruct (mapped_byte k3 k' d l3 ts3 (<[a / 4096 := p]> us) (a / 4096) p _ v Hs3 (lookup_insert_eq _ _ _) Hfr' Hfl Ee) as (Hfg & Ho & Hub).
        unfold copied_page. rewrite Hfg, Ep, Hub. split; [exact Hfl1|]. split; [exact Ho|]. unfold ubyte, dpage. rewrite Ep, Hpv.
        pose proof (Z.mod_pos_bound v 4096 ltac:(lia)). rewrite Hb3, memmove_copied by (unfold PGSIZE; lia). unfold copied, PGSIZE. rewrite (proj2 (Z.leb_le _ _)), (proj2 (Z.ltb_lt _ _)) by lia. cbn [andb].
        replace (q + (p + v mod 4096 - p)) with (q + v mod 4096) by lia. apply (Hkeep q); [exact Hqo|]. unfold in_page, PGSIZE. lia.
      * intros v Hvv Hv1. rewrite Hrest; [rewrite He3 by exact Hvv|exact Hvv|unfold PGSIZE; lia].
        rewrite (proj2 (Z.eqb_neq _ _)); [reflexivity|]. intros Ev. destruct Hv1 as [Hv1|Hv1]; [|lia].
        pose proof (Z.div_mod v 4096 ltac:(lia)). pose proof (Z.mod_pos_bound v 4096 ltac:(lia)). lia.
  - destruct (copy_fails_late k3 d p ts3 us Hs3 Hpp) as (k4 & k' & l' & Hrun4 & Hrun' & Hk' & HP & Hf); [rewrite HP3; exact Hpn|].
    rewrite (bind_ok _ _ _ _ _ Hrun4), (bind_ok _ _ _ _ _ Hrun'). exists 0, k', l'. split; [reflexivity|]. cbn [app] in HP3.
    assert (HPo : p :: owned d ts3 us ≡ₚ (p :: l) ++ owned d ts us) by (rewrite HP3; reflexivity).
    split; [|left; split; [reflexivity|split; [exact Hk'|split; [by rewrite HP|]]]].
    + apply (frames_trans k k3 k' _ (p :: owned d ts3 us)); [|exact Hf|intros x; by rewrite HPo].
      intros x Hx. apply Hf3. intros y Hy. apply Hx. revert Hy. unfold owned. rewrite !elem_of_cons, !elem_of_app, !elem_of_cons, elem_of_app. tauto.
    + assert (Hlt' : (length l + size (dom ts) < size (dom ts ∪ tables 0 (sz - 1)))%nat).
      { apply (pages_used d l ts ts3 us _ (PDX a) HP3); [|apply elem_of_union_r, Htd, elem_of_singleton; reflexivity|exact Hnt].
        etrans; [exact Hd3|]. by apply union_mono_l. }
      cbn [length]. lia.
Qed.

(** ** Growing user memory *)

(** A page the process may read and write, all zero. *)
Definition new_page (k : kmem) (pgdir v : Z) : Prop :=
  PTE_FLAGS (entry k pgdir v) = Z.lor (Z.lor PTE_W PTE_U) PTE_P /\ ubyte k pgdir v = 0.

(** The pages of [us] outside the range keep their bytes. *)
Definition keeps_user (P : Z -> bool) (us : gmap Z Z) (k k' : kmem) : Prop :=
  forall i p o, us !! i = Some p -> P i = false -> 0 <= o < 4096 -> memory k' (p + o) = memory k (p + o).

Lemma alloc_fails k pgdir l ts us oldsz newsz : space k pgdir l ts us -> 0 <= oldsz < newsz -> newsz < KERNBASE ->
  let R := in_range (PGROUNDUP oldsz) newsz in
  exists k' l' us', deallocuvm kend pgdir newsz oldsz k = (Ok oldsz, k') /\ space k' pgdir l' ts us'
  /\ l' ++ owned pgdir ts us' ≡ₚ l ++ owned pgdir ts us /\ (forall i, us' !! i = if R i then None else us !! i)
  /\ (forall v, vaddr v -> R (v / 4096) = false -> entry k' pgdir v = entry k pgdir v)
  /\ frames k k' (l ++ owned pgdir ts us) /\ keeps_user R us k k'.
Proof using Hend.
  intros Hs Ho Hn R. destruct (dealloc_space k pgdir l ts us newsz oldsz Hs) as (k' & u & us' & Hrun & Hs' & HP & Hus & He & Hf); [lia|lia|].
  exists k', (u ++ l), us'. split; [exact Hrun|]. split; [exact Hs'|]. split; [by rewrite (Permutation_app_comm u l), <- app_assoc, HP|].
  split; [exact Hus|]. split; [exact He|]. split.
  - intros x Hx. apply Hf. intros q Hq. apply Hx. rewrite <- HP. revert Hq. unfold owned. rewrite !elem_of_app, elem_of_cons, elem_of_app. tauto.
  - intros i p o Hi HR Ho'. apply Hf. intros y Hy. apply (user_apart k' pgdir (u ++ l) ts us' i p o y Hs'); [by rewrite Hus; fold R; rewrite HR|exact Ho'|].
    revert Hy. rewrite elem_of_cons, !elem_of_app. tauto.
Qed.

Lemma keeps_user_trans P us us' k1 k2 k3 : keeps_user P us k1 k2 -> keeps_user P us' k2 k3 ->
  (forall i, P i = false -> us' !! i = us !! i) -> keeps_user P us k1 k3.
Proof using. intros H1 H2 Hsame i p o Hi HP Ho. rewrite (H2 i p o), (H1 i p o); try done. by rewrite Hsame. Qed.

Lemma alloc_loop pgdir oldsz newsz : 0 <= oldsz <= newsz -> newsz < KERNBASE ->
  let R := in_range (PGROUNDUP oldsz) newsz in
  forall fuel k l ts us a, space k pgdir l ts us -> PGROUNDUP oldsz <= a -> a mod 4096 = 0 -> (0 < fuel)%nat -> newsz - a <= 4096 * (Z.of_nat fuel - 1) ->
  (forall i, in_range a newsz i = true -> us !! i = None) ->
  exists r k' l' ts' us', allocuvm_loop kend fuel pgdir oldsz newsz a k = (Ok r, k') /\ space k' pgdir l' ts' us'
  /\ l' ++ owned pgdir ts' us' ≡ₚ l ++ owned pgdir ts us
  /\ (forall v, vaddr v -> R (v / 4096) = false -> entry k' pgdir v = entry k pgdir v) /\ frames k k' (l ++ owned pgdir ts us) /\ keeps_user R us k k'
  /\ ((r = newsz /\ (forall v, a <= v -> v / 4096 * 4096 < newsz -> new_page k' pgdir v)
        /\ (forall v, vaddr v -> v < a -> entry k' pgdir v = entry k pgdir v) /\ (forall i, in_range a newsz i = false -> us' !! i = us !! i)
        /\ frames k k' (pgdir :: vals ts ++ l))
      \/ (r = 0 /\ (forall i, us' !! i = if R i then None else us !! i)
          /\ Z.of_nat (length l + size (dom ts)) < Z.of_nat (size (dom ts ∪ tables (PGROUNDUP oldsz) (newsz - 1))) + (pages newsz - a / 4096))).
Proof using Hend.
  intros Ho Hn R. induction fuel as [|fuel IH]; intros k l ts us a Hs Ha Hm Hfu Hsz Hnone; [lia|]. cbn [allocuvm_loop].
  pose proof (Z.div_mod a 4096 ltac:(lia)) as Hdm.
  destruct (Z.ltb_spec a newsz) as [Hlt|Hge].
  2:{ exists newsz, k, l, ts, us. split; [reflexivity|]. split; [exact Hs|]. split; [reflexivity|]. split; [reflexivity|]. split; [apply frames_refl|]. split; [intros ? ? ? _ _ _; reflexivity|].
      left. split; [reflexivity|]. split; [|split; [reflexivity|split; [reflexivity|apply frames_refl]]].
      intros v Hv Hv'. assert (a / 4096 <= v / 4096) by (apply Z.div_le_mono; lia). lia. }
  destruct (PGROUNDUP_spec oldsz) as [Hum Hur]; [lia|unfold PGSIZE, KERNBASE in *; lia|]. unfold PGSIZE in Hum, Hur.
  assert (Hva : 0 <= a < KERNBASE) by lia.
  pose proof (tables_in (PGROUNDUP oldsz) a newsz ltac:(lia) Hlt ltac:(lia)) as Htd. pose proof (pages_left a newsz Hm Hlt) as Hpl.
  assert (HRa : R (a / 4096) = true).
  { unfold R, in_range. rewrite (proj2 (Z.leb_le _ _)), (proj2 (Z.ltb_lt _ _)); [reflexivity|lia|apply Z.div_le_mono; lia]. }
  destruct l as [|p l].
  { destruct (no_page k pgdir ts us Hs) as (k1 & Hka & Hs1 & Hm1). rewrite (bind_ok _ _ _ _ _ Hka), Z.eqb_refl.
    destruct (alloc_fails k1 pgdir [] ts us oldsz newsz Hs1) as (k' & l' & us' & Hrun & Hs' & HP & Hus & He & Hf & Hk); [lia|lia|].
    rewrite (bind_ok _ _ _ _ _ Hrun). exists 0, k', l', ts, us'. split; [reflexivity|]. split; [exact Hs'|]. split; [exact HP|].
    split; [intros v Hv HR; rewrite He by assumption; unfold entry, present, tab; by rewrite Hm1|].
    split; [intros x Hx; rewrite <- Hm1; by apply Hf|]. split; [intros i p o H1 H2 H3; rewrite <- Hm1; by apply (Hk i)|]. right. split; [reflexivity|]. split; [exact Hus|].
    assert (size (dom ts) <= size (dom ts ∪ tables (PGROUNDUP oldsz) (newsz - 1)))%nat by (apply subseteq_size, union_subseteq_l). cbn [length]. lia. }
  assert (Hfree : us !! (a / 4096) = None).
  { apply Hnone. unfold in_range. by rewrite Z.leb_refl, (proj2 (Z.ltb_lt _ _)) by lia. }
  destruct (map_round k pgdir p l ts us a (fun m => memset m p 0 PGSIZE) (Z.lor PTE_W PTE_U) Hs Hva Hm Hfree ltac:(by vm_compute))
    as (k1 & Hka & Hp0 & r & k3 & l3 & ts3 & Hrun & Hf3 & HP3 & Hd3 & Hpp & Hpn & Hr).
  { intros x Hx. rewrite memset_spec by (unfold PGSIZE; lia). unfold in_page in Hx. zcases; cbn [andb]; done || lia. }
  rewrite (bind_ok _ _ _ _ _ Hka), (proj2 (Z.eqb_neq _ 0) Hp0). unfold fill. unfold bind at 1, modify. rewrite (bind_ok _ _ _ _ _ Hrun).
  assert (Hf3' : frames k k3 ((p :: l) ++ owned pgdir ts us)).
  { intros x Hx. apply Hf3. intros y Hy. apply Hx. revert Hy. unfold owned. rewrite !elem_of_cons, !elem_of_app, !elem_of_cons, elem_of_app. tauto. }
  assert (Hk3 : keeps_user R us k k3).
  { intros i y o Hi _ Ho'. apply Hf3. intros z Hz. by apply (user_apart k pgdir (p :: l) ts us i y o z Hs). }
  assert (HdX : dom ts3 ∪ tables (PGROUNDUP oldsz) (newsz - 1) ⊆ dom ts ∪ tables (PGROUNDUP oldsz) (newsz - 1)).
  { apply union_subseteq. split; [etrans; [exact Hd3|by apply union_mono_l]|apply union_subseteq_r]. }
  destruct Hr as [(-> & Hs3 & Hb3 & He3)|(-> & -> & Hnt & Hs3 & He3)]; cbn [Z.ltb Z.compare].
  - rewrite (u32_id (a + PGSIZE)) by (unfold PGSIZE, KERNBASE in *; lia). set (us1 := <[a / 4096 := p]> us) in *.
    assert (HPo : l3 ++ owned pgdir ts3 us1 ≡ₚ (p :: l) ++ owned pgdir ts us).
    { unfold us1. rewrite (owned_user pgdir ts3 us _ p Hfree). rewrite <- Permutation_middle, HP3. reflexivity. }
    assert (Ha' : (a + PGSIZE) / 4096 = a / 4096 + 1) by (unfold PGSIZE; replace (a + 4096) with (a + 1 * 4096) by lia; apply Z.div_add; lia).
    assert (Hstep : forall i, in_range (a + PGSIZE) newsz i = true -> in_range a newsz i = true /\ i <> a / 4096).
    { intros i. unfold in_range. rewrite Ha'. rewrite !andb_true_iff, !Z.leb_le. intros [H1 H2]. split; [split; [lia|exact H2]|lia]. }
    assert (Hne : forall i, R i = false -> us1 !! i = us !! i).
    { intros i HR. unfold us1. rewrite lookup_insert_ne; [reflexivity|]. intros <-. congruence. }
    destruct (IH k3 l3 ts3 us1 (a + PGSIZE) Hs3) as (r & k' & l' & ts' & us' & Hrun' & Hs' & HP' & He' & Hf' & Hk' & Hr).
    { unfold PGSIZE. lia. }
    { unfold PGSIZE. replace (a + 4096) with (a + 1 * 4096) by lia. by rewrite Z_mod_plus_full. }
    { unfold PGSIZE in *. lia. }
    { unfold PGSIZE. lia. }
    { intros i [Hi Hia]%Hstep. unfold us1. rewrite lookup_insert_ne by congruence. by apply Hnone. }
    exists r, k', l', ts', us'. split; [exact Hrun'|]. split; [exact Hs'|]. split; [by rewrite HP', HPo|]. split; [|split; [|split]].
    + intros v Hv HR. rewrite He', He3 by assumption. rewrite (proj2 (Z.eqb_neq _ _)); [reflexivity|]. intros E. congruence.
    + apply (frames_trans k k3 k' _ (l3 ++ owned pgdir ts3 us1)); [exact Hf3'|exact Hf'|intros y; by rewrite HPo].
    + exact (keeps_user_trans R us us1 k k3 k' Hk3 Hk' Hne).
    + destruct Hr as [(-> & Hnew & Hlow & Hus & Hfr)|(-> & Hus & Hlen)]; [left|right].
      * split; [reflexivity|].
        assert (Hsame : forall v, vaddr v -> v < a + PGSIZE -> entry k' pgdir v = if v / 4096 =? a / 4096 then pte_of (V2P p) (Z.lor PTE_W PTE_U) else entry k pgdir v)
          by (intros v Hv Hva'; by rewrite Hlow, He3).
        split; [|split; [|split]].
        -- intros v Hv1 Hv2. destruct (Z_lt_dec v (a + PGSIZE)) as [Hv3|Hv3]; [|apply Hnew; lia].
           assert (Ev : v / 4096 = a / 4096).
           { pose proof (Z.div_le_mono a v 4096 ltac:(lia) Hv1). assert (v / 4096 < a / 4096 + 1) by (apply Z.div_lt_upper_bound; unfold PGSIZE in *; lia). lia. }
           assert (Ee : entry k' pgdir v = pte_of (V2P p) (Z.lor PTE_W PTE_U)) by (rewrite Hsame, Ev, Z.eqb_refl; [reflexivity|unfold vaddr, PGSIZE, KERNBASE in *; lia|exact Hv3]).
           destruct (mapped_byte k3 k' pgdir l3 ts3 us1 (a / 4096) p (Z.lor PTE_W PTE_U) v Hs3 (lookup_insert_eq _ _ _) Hfr ltac:(by vm_compute) Ee) as (Hfg & _ & Hub).
           unfold new_page. rewrite Hfg, Hub. split; [reflexivity|]. pose proof (Z.mod_pos_bound v 4096 ltac:(lia)).
           rewrite Hb3, memset_spec by (unfold PGSIZE; lia). unfold PGSIZE. by rewrite (proj2 (Z.leb_le _ _)), (proj2 (Z.ltb_lt _ _)) by lia.
        -- intros v Hv Hva'. rewrite Hsame by (exact Hv || unfold PGSIZE; lia). rewrite (proj2 (Z.eqb_neq _ _)); [reflexivity|]. intros E.
           pose proof (Z.div_mod v 4096 ltac:(lia)). pose proof (Z.mod_pos_bound v 4096 ltac:(lia)). lia.
        -- intros i Hi. rewrite Hus.
           ++ unfold us1. rewrite lookup_insert_ne; [reflexivity|]. intros <-. unfold in_range in Hi. rewrite Z.leb_refl, (proj2 (Z.ltb_lt _ _)) in Hi by lia. done.
           ++ destruct (in_range (a + PGSIZE) newsz i) eqn:E; [|reflexivity]. apply Hstep in E as [E _]. congruence.
        -- apply (frames_trans k k3 k' _ (pgdir :: vals ts3 ++ l3)); [exact Hf3|exact Hfr|]. intros y. rewrite (owned_cancel pgdir us _ _ _ _ HP3). rewrite !elem_of_cons, !elem_of_app, elem_of_cons. tauto.
      * split; [reflexivity|]. split; [intros i; rewrite Hus; destruct (R i) eqn:E; [reflexivity|by apply Hne]|].
        pose proof (subseteq_size _ _ HdX). pose proof (same_size pgdir l l3 ts ts3 us HP3). cbn [length]. lia.
  - destruct (alloc_fails k3 pgdir [] ts3 us oldsz newsz Hs3) as (k4 & l4 & us4 & Hrun4 & Hs4 & HP4 & Hus & He4 & Hf4 & Hk4); [lia|lia|].
    cbn [app] in *. assert (Hp4 : p ∉ l4 ++ owned pgdir ts3 us4) by (rewrite HP4, HP3; exact Hpn).
    destruct (give_back k4 pgdir p l4 ts3 us4 Hs4 Hpp Hp4) as (k5 & Hrun5 & Hs5 & Hf5 & He5).
    rewrite (bind_ok _ _ _ _ _ Hrun4), (bind_ok _ _ _ _ _ Hrun5). exists 0, k5, (p :: l4), ts3, us4. split; [reflexivity|]. split; [exact Hs5|].
    split; [cbn [app]; by rewrite HP4, HP3|]. split; [intros v Hv HR; by rewrite He5, He4, He3|]. split; [|split].
    + intros x Hx. rewrite Hf5, Hf4; [by apply Hf3'| |].
      * intros q Hq. apply Hx. right. by rewrite <- HP3.
      * intros q ->%list_elem_of_singleton. apply Hx. left.
    + apply (keeps_user_trans R us us k k3 k5 Hk3); [|reflexivity]. intros i y o Hi HR Ho'. rewrite Hf5; [by apply (Hk4 i)|].
      intros z ->%list_elem_of_singleton. apply (user_apart k5 pgdir (p :: l4) ts3 us4 i y o p Hs5); [by rewrite Hus; fold R; rewrite HR|exact Ho'|].
      rewrite elem_of_cons, elem_of_app. right. right. left.
    + right. split; [reflexivity|]. split; [exact Hus|].
      assert (Hlt' : (length l + size (dom ts) < size (dom ts ∪ tables (PGROUNDUP oldsz) (newsz - 1)))%nat).
      { apply (pages_used pgdir l ts ts3 us _ (PDX a) HP3); [etrans; [apply union_subseteq_l|exact HdX]|apply elem_of_union_r, Htd, elem_of_singleton; reflexivity|exact Hnt]. }
      cbn [length]. lia.
Qed.

Lemma PGROUNDUP_pages sz : 0 <= sz <= KERNBASE -> PGROUNDUP sz / 4096 = pages sz.
Proof using.
  intros H. destruct (PGROUNDUP_spec sz) as [Hm Hr]; [lia|unfold PGSIZE, KERNBASE in *; lia|]. unfold PGSIZE in *. unfold pages.
  pose proof (Z.div_mod (PGROUNDUP sz) 4096 ltac:(lia)). apply (Z.div_unique (sz + 4095) 4096 _ (sz + 4095 - PGROUNDUP sz)); lia.
Qed.

(** The pages a process of [oldsz] bytes gains when it grows to [newsz]. *)
Lemma in_range_pages oldsz newsz i : 0 <= oldsz <= KERNBASE -> in_range (PGROUNDUP oldsz) newsz i = (pages oldsz <=? i) && (i <? pages newsz).
Proof using.
  intros H. unfold in_range. rewrite PGROUNDUP_pages by exact H. f_equal. unfold pages.
  destruct (Z.ltb_spec (i * 4096) newsz), (Z.ltb_spec i ((newsz + 4095) / 4096)); try reflexivity; exfalso.
  - assert (i + 1 <= (newsz + 4095) / 4096) by (apply Z.div_le_lower_bound; lia). lia.
  - pose proof (Z.div_mod (newsz + 4095) 4096 ltac:(lia)). pose proof (Z.mod_pos_bound (newsz + 4095) 4096 ltac:(lia)). lia.
Qed.

(** The pages of a process: page numbers below its size. *)
Definition filled (us : gmap Z Z) (sz : Z) : Prop := forall i, is_Some (us !! i) <-> 0 <= i < pages sz.

Lemma filled_none us sz i : filled us sz -> ~ (0 <= i < pages sz) -> us !! i = None.
Proof using. intros H Hi. apply eq_None_not_Some. by rewrite (H i). Qed.

Lemma allocuvm_space k pgdir l ts us oldsz newsz : space k pgdir l ts us -> 0 <= oldsz <= newsz -> newsz < KERNBASE -> filled us oldsz ->
  exists r k' l' ts' us', allocuvm kend pgdir oldsz newsz k = (Ok r, k') /\ space k' pgdir l' ts' us'
  /\ l' ++ owned pgdir ts' us' ≡ₚ l ++ owned pgdir ts us /\ frames k k' (l ++ owned pgdir ts us)
  /\ (forall v, vaddr v -> ~ (pages oldsz <= v / 4096 < pages newsz) -> entry k' pgdir v = entry k pgdir v)
  /\ (forall i p o, us !! i = Some p -> 0 <= o < 4096 -> memory k' (p + o) = memory k (p + o))
  /\ ((r = newsz /\ filled us' newsz /\ forall v, pages oldsz <= v / 4096 < pages newsz -> new_page k' pgdir v)
      \/ (r = 0 /\ us' = us /\ Z.of_nat (length l + size (dom ts)) < Z.of_nat (size (dom ts ∪ tables (PGROUNDUP oldsz) (newsz - 1))) + (pages newsz - pages oldsz))).
Proof using Hend.
  intros Hs Ho Hn Hfill. unfold allocuvm. rewrite (proj2 (Z.leb_gt _ _)), (proj2 (Z.ltb_ge _ _)) by lia.
  destruct (PGROUNDUP_spec oldsz) as [Hum Hur]; [lia|unfold PGSIZE, KERNBASE in *; lia|]. unfold PGSIZE in Hum, Hur |- *.
  assert (HR : forall i, in_range (PGROUNDUP oldsz) newsz i = true <-> pages oldsz <= i < pages newsz).
  { intros i. rewrite in_range_pages by lia. rewrite andb_true_iff, Z.leb_le, Z.ltb_lt. reflexivity. }
  assert (HRf : forall i, ~ (pages oldsz <= i < pages newsz) -> in_range (PGROUNDUP oldsz) newsz i = false).
  { intros i Hi. destruct (in_range _ _ _) eqn:E; [|reflexivity]. by apply HR in E. }
  assert (H0 : 0 <= pages oldsz) by (apply Z.div_pos; lia).
  destruct (alloc_loop pgdir oldsz newsz Ho Hn (S (S (Z.to_nat ((newsz - PGROUNDUP oldsz) / 4096)))) k l ts us (PGROUNDUP oldsz) Hs)
    as (r & k' & l' & ts' & us' & Hrun & Hs' & HP & He & Hf & Hk & Hr).
  { lia. }
  { exact Hum. }
  { lia. }
  { pose proof (Z.div_mod (newsz - PGROUNDUP oldsz) 4096 ltac:(lia)). pose proof (Z.mod_pos_bound (newsz - PGROUNDUP oldsz) 4096 ltac:(lia)). lia. }
  { intros i Hi. apply HR in Hi. apply (filled_none us oldsz); [exact Hfill|lia]. }
  exists r, k', l', ts', us'. split; [exact Hrun|]. split; [exact Hs'|]. split; [exact HP|]. split; [exact Hf|].
  split; [intros v Hv Hv'; by apply He, HRf|]. split.
  { intros i p o Hi Ho'. apply (Hk i); [exact Hi| |exact Ho']. apply HRf. assert (0 <= i < pages oldsz) by (apply Hfill; by exists p). lia. }
  destruct Hr as [(-> & Hnew & _ & Hus & _)|(-> & Hus & Hlen)]; [left|right].
  - assert (Hnew' : forall v, pages oldsz <= v / 4096 < pages newsz -> new_page k' pgdir v).
    { intros v Hv. apply HR in Hv. unfold in_range in Hv. apply andb_true_iff in Hv as [H1%Z.leb_le H2%Z.ltb_lt]. apply Hnew; [|exact H2].
      pose proof (Z.div_mod v 4096 ltac:(lia)). pose proof (Z.mod_pos_bound v 4096 ltac:(lia)). pose proof (Z.div_mod (PGROUNDUP oldsz) 4096 ltac:(lia)). lia. }
    split; [reflexivity|]. split; [|exact Hnew']. intros i. destruct (in_range (PGROUNDUP oldsz) newsz i) eqn:E.
    + apply HR in E. split; [lia|intros _]. assert (Hi : i * 4096 < KERNBASE).
      { assert (pages newsz * 4096 <= KERNBASE) by (unfold pages, KERNBASE in *; pose proof (Z.div_mod (newsz + 4095) 4096 ltac:(lia)); pose proof (Z.mod_pos_bound (newsz + 4095) 4096 ltac:(lia)); lia). lia. }
      pose proof (sp_user _ _ _ _ _ Hs' (i * 4096) ltac:(lia)) as Hu. destruct (Hnew' (i * 4096)) as [Hfl _]; [rewrite Z.div_mul by lia; exact E|].
      rewrite Z.div_mul in Hu by lia. destruct (us' !! i); [by eexists|]. exfalso. cbn in Hu. rewrite <- present_odd in Hu.
      assert (Hb : Z.testbit (PTE_FLAGS (entry k' pgdir (i * 4096))) 0 = true) by (rewrite Hfl; reflexivity). unfold PTE_FLAGS in Hb. rewrite Z.land_spec in Hb.
      apply andb_true_iff in Hb as [Hb _]. rewrite Z.bit0_odd, <- present_odd, Hu in Hb. discriminate.
    + rewrite (Hus i E), (Hfill i). assert (~ (pages oldsz <= i < pages newsz)) by (intros H; apply HR in H; congruence).
      assert (pages oldsz <= pages newsz) by (unfold pages; apply Z.div_le_mono; lia). lia.
  - split; [reflexivity|]. rewrite PGROUNDUP_pages in Hlen by lia. split; [|exact Hlen]. apply map_eq. intros i. rewrite Hus. destruct (in_range _ _ _) eqn:E; [|reflexivity].
    apply HR in E. symmetry. apply (filled_none us oldsz); [exact Hfill|lia].
Qed.

(** ** The kernel's page table *)

Context (data : Z) (Hdata : data mod 4096 = 0 /\ KERNLINK < data < KERNBASE + PHYSTOP).

Lemma kmap_laid_out : laid_out KERNBASE (kmap_table data).
Proof using Hdata.
  destruct Hdata as [Hm Hr]. unfold KERNLINK, KERNBASE, PHYSTOP, EXTMEM in Hr. 
  assert (E : V2P data = data - 0x80000000) by (unfold V2P, KERNBASE; apply u32_id; lia).
  assert (Hm' : forall c, c mod 4096 = 0 -> (data - c) mod 4096 = 0 /\ (c - data) mod 4096 = 0)
    by (intros c Hc; rewrite Zminus_mod, Hm, Hc, (Zminus_mod c), Hm, Hc; done).
  cbn [kmap_table laid_out ksize virt phys_start phys_end]. unfold ksize. cbn [virt phys_start phys_end]. rewrite E.
  change (V2P KERNLINK) with 0x100000. change (u32 (EXTMEM - 0)) with 0x100000. change (u32 (0 - DEVSPACE)) with 0x2000000.
  unfold KERNLINK, KERNBASE, PHYSTOP, EXTMEM, DEVSPACE. rewrite !u32_id by lia.
  destruct (Hm' 0x80100000 eq_refl) as [Ha _], (Hm' 0x8E000000 eq_refl) as [_ Hb].
  replace (data - 0x80000000 - 0x100000) with (data - 0x80100000) by lia. replace (0xE000000 - (data - 0x80000000)) with (0x8E000000 - data) by lia.
  repeat match goal with |- _ /\ _ => split end; done || lia.
Qed.

Lemma ktables_kmap : (size (ktables (kmap_table data)) <= 64)%nat.
Proof using Hdata.
  pose proof kmap_laid_out as (_ & _ & _ & _ & _ & _ & _ & Hl). destruct Hl as (_ & _ & Hs1 & _ & Hb1 & _ & _ & Hl). destruct Hl as (_ & _ & Hs2 & _ & Hb2 & _ & _ & Hl).
  destruct Hdata as [_ Hr]. assert (E : V2P data = data - KERNBASE) by (unfold V2P, KERNLINK, KERNBASE, PHYSTOP, EXTMEM in *; apply u32_id; lia).
  assert (Hsub : ktables (kmap_table data) ⊆ tables KERNBASE (KERNBASE + PHYSTOP - 4096) ∪ tables DEVSPACE (2 ^ 32 - 4096)).
  { cbn [kmap_table ktables]. unfold ksize in *. cbn [virt phys_start phys_end] in *. rewrite E in *.
    change (V2P KERNLINK) with EXTMEM in *. change (u32 (0 - DEVSPACE)) with 0x2000000. change (DEVSPACE + 0x2000000 - 4096) with (2 ^ 32 - 4096).
    change (u32 (EXTMEM - 0)) with EXTMEM. unfold KERNLINK, KERNBASE, PHYSTOP, EXTMEM in *. rewrite !u32_id in * by lia. rewrite union_empty_r_L.
    repeat (apply union_least); try apply union_subseteq_r; (etrans; [|apply union_subseteq_l]); apply tables_mono; lia. }
  apply (Nat.le_trans _ _ _ (subseteq_size _ _ Hsub)). vm_compute. lia.
Qed.

(** A zeroed page is an empty directory. *)
Lemma new_space k pd l : kmem_ok kend k (pd :: l) ->
  exists k1, kalloc k = (Ok pd, k1) /\ let k2 := set_memory (memset (memory k1) pd 0 PGSIZE) k1 in
  pd <> 0 /\ space k2 pd l ∅ ∅ /\ frames k k2 [pd] /\ forall v, entry k2 pd v = 0.
Proof using Hend.
  intros Hk. destruct (kalloc_ok kend k (pd :: l) Hk) as (k1 & Ha & Hk1 & Hm1 & _). cbn in Ha, Hk1. exists k1. split; [done|]. intros k2.
  pose proof (ok_pages _ _ _ Hk) as HF. apply Forall_cons_1 in HF as [Hp HF]. pose proof (ok_nodup _ _ _ Hk) as Hn. apply NoDup_cons in Hn as [Hpl Hn].
  assert (Hm2 : forall x, memory k2 x = if (pd <=? x) && (x <? pd + 4096) then 0 else memory k x) by (intros x; cbn; rewrite Hm1; by apply memset_spec).
  assert (Hz : forall i, 0 <= i < 1024 -> load32 (memory k2) (pd + 4 * i) = 0).
  { intros i Hi. unfold load32. rewrite !Hm2, !(proj2 (Z.leb_le _ _)), !(proj2 (Z.ltb_lt _ _)) by lia. done. }
  assert (He : forall v, entry k2 pd v = 0).
  { intros v. unfold entry, present. rewrite Hz; [done|]. unfold PDX. change 0x3FF with (Z.ones 10). rewrite Z.land_ones by lia. apply Z.mod_pos_bound. lia. }
  split; [destruct Hp as (_ & _ & ?); unfold KERNBASE in *; lia|]. split; [|split; [|done]].
  - split.
    + apply (kmem_ok_ext kend k1); [done|done|done|]. intros b x Hb Hx. rewrite Hm2, Hm1. rewrite Forall_forall in HF.
      pose proof (apart kend b pd x (HF b Hb) Hp ltac:(by intros ->) Hx) as Hno. unfold in_page, PGSIZE in Hno. zcases; cbn [andb]; done || lia.
    + by apply Forall_cons.
    + unfold owned. rewrite vals_empty. cbn [app]. rewrite <- Permutation_middle, app_nil_r. by apply NoDup_cons.
    + intros i Hi. rewrite lookup_empty. unfold present. by rewrite Hz.
    + intros i t. by rewrite lookup_empty.
    + intros va _. by rewrite lookup_empty, He.
    + intros i q. by rewrite lookup_empty.
  - intros x Hx. rewrite Hm2. assert (Hno : ~ in_page pd x) by (apply Hx; left). unfold in_page, PGSIZE in Hno. zcases; cbn [andb]; done || lia.
Qed.

Lemma setupkvm_space k l : kmem_ok kend k l ->
  exists r k' l', setupkvm kend data k = (Ok r, k') /\ frames k k' l
  /\ ((r = 0 /\ kmem_ok kend k' l' /\ l' ≡ₚ l /\ (length l < 65)%nat)
      \/ (r <> 0 /\ exists ts, space k' r l' ts ∅ /\ l' ++ owned r ts ∅ ≡ₚ l /\ dom ts ⊆ ktables (kmap_table data)
            /\ forall v, vaddr v -> entry k' r v = kernel_entry (kmap_table data) 0 v)).
Proof using Hend Hdata.
  intros Hk. destruct l as [|pd l].
  { destruct (kalloc_ok kend k [] Hk) as (k1 & Ha & Hk1 & Hm1 & _). exists 0, k1, []. unfold setupkvm. rewrite (bind_ok _ _ _ _ _ Ha). split; [done|].
    split; [intros x _; by rewrite Hm1|]. left. do 3 (split; [done|]). cbn. lia. }
  destruct (new_space k pd l Hk) as (k1 & Ha & H0 & Hs2 & Hf2 & He2). set (k2 := set_memory (memset (memory k1) pd 0 PGSIZE) k1) in *.
  destruct (map_kernel_space pd ∅ (kmap_table data) k2 l ∅ KERNBASE Hs2) as (r & k' & l' & Hrun & Hf & Hr); [lia|apply kmap_laid_out|intros v _; by rewrite He2|].
  assert (Eo : l ++ owned pd ∅ ∅ ≡ₚ pd :: l) by (unfold owned; rewrite vals_empty; cbn [app]; by rewrite <- Permutation_middle, app_nil_r).
  exists r, k', l'. split; [|split].
  - unfold setupkvm. rewrite (bind_ok _ _ _ _ _ Ha), (proj2 (Z.eqb_neq _ 0) H0). unfold fill. unfold bind at 1, modify. fold k2.
    change (DEVSPACE <? P2V PHYSTOP) with false. done.
  - apply (frames_trans k k2 k' _ (l ++ owned pd ∅ ∅)); [|done|intros q; by rewrite Eo]. intros x Hx. apply Hf2. intros q ->%list_elem_of_singleton. apply Hx. left.
  - rewrite dom_empty_L, union_empty_l_L, size_empty, Nat.add_0_r in Hr. destruct Hr as [(-> & Hk' & HP & Hlen)|(-> & ts & Hs' & HP & Hd & He')]; [left|right].
    + split; [done|]. split; [done|]. split; [by rewrite HP, Eo|]. pose proof ktables_kmap. cbn. lia.
    + split; [done|]. exists ts. split; [done|]. split; [by rewrite HP, Eo|]. split; [by rewrite union_empty_l_L in Hd|]. intros v Hv. by rewrite He', He2.
Qed.


(** ** What the operations promise *)

Lemma copyuvm_space k pgdir l ts us sz :
  space k pgdir l ts us -> 0 <= sz <= KERNBASE -> filled us sz ->
  exists r k' l', copyuvm kend data pgdir sz k = (Ok r, k') /\ space k' pgdir l' ts us /\ keeps (owned pgdir ts us) k k' /\ frames k k' l
  /\ ((r = 0 /\ l' ≡ₚ l /\ Z.of_nat (length l) < 65 + Z.of_nat (size (tables 0 (sz - 1))) + pages sz)
      \/ (r <> 0 /\ exists ts' us', space k' r l' ts' us' /\ l' ++ owned r ts' us' ≡ₚ l
            /\ (forall v, 0 <= v -> v / 4096 * 4096 < sz -> copied_page k k' pgdir r v)
            /\ (forall v, vaddr v -> sz <= v / 4096 * 4096 -> entry k' r v = kernel_entry (kmap_table data) 0 v))).
Proof using Hend Hdata.
  intros Hs Hsz Hfill. assert (Hall : forall j, 0 <= j -> j * 4096 < sz -> is_Some (us !! j)).
  { intros j Hj Hj'. apply Hfill. split; [exact Hj|]. unfold pages. assert (j + 1 <= (sz + 4095) / 4096) by (apply Z.div_le_lower_bound; lia). lia. }
  unfold copyuvm. destruct (setupkvm_space k l (sp_free _ _ _ _ _ Hs)) as (d & k1 & l1 & Hrun & Hf1 & Hr).
  rewrite (bind_ok _ _ _ _ _ Hrun). set (P := owned pgdir ts us).
  pose proof (sp_nodup _ _ _ _ _ Hs) as Hnd. fold P in Hnd.
  assert (Hout : forall k', frames k k' l -> keeps P k k').
  { intros k' Hf. apply (frames_keeps P l k k' Hf); [apply Hs|apply (sp_free _ _ _ _ _ Hs)|]. intros q Hq Hq'. apply NoDup_app in Hnd as (_ & Hdis & _). by apply (Hdis q). }
  assert (Hback : forall k' l', kmem_ok kend k' l' -> l' ≡ₚ l -> keeps P k k' -> space k' pgdir l' ts us).
  { intros k' l' Hk' HP Hk. apply (space_ext k k' pgdir l l' ts us Hs Hk'); [by rewrite HP| |].
    - intros x Hx. apply (Hk pgdir); [left|exact Hx].
    - intros i t x Hi Hx. apply (Hk t); [|exact Hx]. unfold P, owned. rewrite elem_of_cons, elem_of_app, elem_of_vals. right. left. by exists i. }
  destruct Hr as [(-> & Hk1 & HP1 & Hlen)|(Hd0 & ts1 & Hs1 & HP1 & Hd1 & He1)].
  { exists 0, k1, l1. split; [reflexivity|]. split; [by apply Hback; [| |apply Hout]|]. split; [by apply Hout|]. split; [exact Hf1|]. left. split; [reflexivity|]. split; [exact HP1|].
    assert (0 <= pages sz) by (apply Z.div_pos; lia). lia. }
  rewrite (proj2 (Z.eqb_neq _ 0) Hd0).
  destruct (copy_loop k pgdir l ts us sz d Hs (proj2 Hsz) Hall (S (S (Z.to_nat (sz / PGSIZE)))) k1 l1 ts1 ∅ 0 Hs1) as (r & k' & l' & Hrun' & Hf' & Hr).
  { rewrite HP1. exact Hnd. }
  { by apply Hout. }
  { lia. }
  { reflexivity. }
  { lia. }
  { pose proof (Z.div_mod sz PGSIZE ltac:(done)). pose proof (Z.mod_pos_bound sz PGSIZE ltac:(done)). pose proof (Z.div_pos sz PGSIZE ltac:(lia) ltac:(done)). unfold PGSIZE in *. lia. }
  { intros j _. apply lookup_empty. }
  { reflexivity. }
  assert (Hf2 : frames k k' l) by (apply (frames_trans k k1 k' _ _ Hf1 Hf'); intros q; by rewrite HP1).
  exists r, k', l'. split; [exact Hrun'|]. destruct Hr as [(-> & Hk' & HP' & Hlen)|(-> & ts' & us' & Hs' & HP' & _ & Hcop & Hrest)].
  - rewrite HP1 in HP'. split; [by apply Hback; [| |apply Hout]|]. split; [by apply Hout|]. split; [exact Hf2|]. left. split; [reflexivity|]. split; [exact HP'|].
    pose proof (Permutation_length HP1) as HL. rewrite length_app in HL. unfold owned in HL. rewrite vals_empty, app_nil_r in HL. cbn [length] in HL. rewrite size_vals in HL.
    rewrite map_size_empty in Hlen. pose proof (size_union_le (dom ts1) (tables 0 (sz - 1))). pose proof (subseteq_size _ _ Hd1). pose proof ktables_kmap. lia.
  - split; [|split; [by apply Hout|split; [exact Hf2|right; split; [exact Hd0|exists ts', us'; split; [exact Hs'|split; [by rewrite HP'|split]]]]]].
    + apply (beside k k' pgdir l ts us d l' ts' us' Hs Hs'); [by rewrite HP', HP1|by apply Hout].
    + intros v Hv. by apply Hcop.
    + intros v Hv Hv'. rewrite Hrest, He1; auto.
Qed.
End Space.
