(* ===== verification/VmLife.v ===== *)
(** Address spaces over time: any sequence of [setupkvm], [allocuvm], [deallocuvm],
    [copyuvm] and [freevm] calls, the way [fork], [growproc], [exec] and [wait] make them.

    The state is kernel memory and, for every address space there is, its directory and
    the size of its user memory ([p->pgdir] and [p->sz]).  The invariant accounts for every
    page the allocator was given: it is free, or it belongs to one address space. *)

From Stdlib Require Import ZArith Lia.
From stdpp Require Import base list gmap strings relations.
From S2P Require Import Prelude Kstring Spinlock Kalloc Vm VmSpace.
Local Open Scope Z_scope.

Section Life.
Context (kend data : Z) (Hend : KERNBASE < kend) (Hdata : data mod 4096 = 0 /\ KERNLINK < data < KERNBASE + PHYSTOP).

Definition vmstate : Type := kmem * list (Z * Z).

Inductive vmstep : vmstate -> vmstate -> Prop :=
  | vm_setup k k' D d : setupkvm kend data k = (Ok d, k') -> vmstep (k, D) (k', if d =? 0 then D else (d, 0) :: D)
  | vm_grow k k' D D' d sz newsz r : D ≡ₚ (d, sz) :: D' -> sz <= newsz < KERNBASE ->
      allocuvm kend d sz newsz k = (Ok r, k') -> vmstep (k, D) (k', (d, if r =? 0 then sz else r) :: D')
  | vm_shrink k k' D D' d sz newsz r : D ≡ₚ (d, sz) :: D' -> 0 <= newsz ->
      deallocuvm kend d sz newsz k = (Ok r, k') -> vmstep (k, D) (k', (d, r) :: D')
  | vm_copy k k' D D' d sz r : D ≡ₚ (d, sz) :: D' ->
      copyuvm kend data d sz k = (Ok r, k') -> vmstep (k, D) (k', if r =? 0 then D else (r, sz) :: D)
  | vm_free k k' D D' d sz : D ≡ₚ (d, sz) :: D' -> freevm kend d k = (Ok tt, k') -> vmstep (k, D) (k', D').

(** ** The invariant *)

Record aspace := mkAspace { as_dir : Z; as_size : Z; as_tables : gmap Z Z; as_pages : gmap Z Z }.
Definition own (s : aspace) : list Z := owned (as_dir s) (as_tables s) (as_pages s).
Definition owns (S : list aspace) : list Z := flat_map own S.
Definition seen (s : aspace) : Z * Z := (as_dir s, as_size s).

(** An address space of a process: user memory up to its size, and the kernel above it. *)
Record good (k : kmem) (l : list Z) (s : aspace) : Prop := mkGood {
  gd_space : space kend k (as_dir s) l (as_tables s) (as_pages s);
  gd_size : 0 <= as_size s < KERNBASE;
  gd_filled : filled (as_pages s) (as_size s);
  gd_kernel : forall v, KERNBASE <= v < 2 ^ 32 -> entry k (as_dir s) v = kernel_entry (kmap_table data) 0 v;
}.

Record vm_inv (l0 : list Z) (k : kmem) (l : list Z) (S : list aspace) : Prop := mkVmInv {
  vi_free : kmem_ok kend k l;
  vi_spaces : Forall (good k l) S;
  vi_conserved : l ++ owns S ≡ₚ l0;
}.

Lemma owns_app S T : owns (S ++ T) = owns S ++ owns T.
Proof using. apply flat_map_app. Qed.

Lemma owns_nil : owns [] = [].
Proof using. done. Qed.

Lemma owns_one s : owns [s] = own s.
Proof using. unfold owns. cbn [flat_map]. apply app_nil_r. Qed.

Lemma owns_perm S T : S ≡ₚ T -> owns S ≡ₚ owns T.
Proof using. apply Permutation_flat_map. Qed.

(** What an operation on the address spaces [O] leaves of the others. *)
Lemma others_good l0 k l O T k' l' N :
  NoDup l0 -> Forall (page_ok kend) l0 -> vm_inv l0 k l (O ++ T) -> kmem_ok kend k' l' ->
  l' ++ owns N ≡ₚ l ++ owns O -> frames k k' (l ++ owns O) -> Forall (good k' l') N -> vm_inv l0 k' l' (N ++ T).
Proof using.
  intros Hn Hp [_ HS HP] Hk' HP' Hf HN.
  assert (HA : (l ++ owns O) ++ owns T ≡ₚ l0) by (rewrite <- HP, owns_app, app_assoc; done).
  split; [done| |rewrite owns_app, app_assoc, HP'; done].
  apply Forall_app. split; [done|]. apply Forall_app in HS as [_ HS]. rewrite Forall_forall in HS |- *. intros t Ht. specialize (HS t Ht).
  rewrite <- HA in Hn, Hp. apply Forall_app in Hp as [Hp1 Hp2]. apply NoDup_app in Hn as (Hn1 & Hdis & Hn2).
  assert (Hin : forall q, q ∈ own t -> q ∈ owns T).
  { intros q Hq. unfold owns. rewrite list_elem_of_In, in_flat_map. exists t. by rewrite <- !list_elem_of_In. }
  assert (Hkeep : keeps (own t) k k').
  { apply (frames_keeps kend (own t) (l ++ owns O) k k' Hf); [apply (gd_space _ _ _ HS)|done|]. intros q Hq Hq'. by apply (Hdis q), Hin. }
  destruct HS as [Hs Hsz Hfl Hke]. destruct (space_ext kend k k' (as_dir t) l l' (as_tables t) (as_pages t) Hs Hk') as [Hs' He].
  - apply NoDup_app. split; [apply Hk'|]. split; [|by pose proof (sp_nodup _ _ _ _ _ _ Hs) as H; apply NoDup_app in H as (_ & _ & H)].
    intros x Hx Hxt. apply (Hdis x); [|by apply Hin]. rewrite <- HP', elem_of_app. by left.
  - intros x Hx. apply (Hkeep (as_dir t)); [left|done].
  - intros i q x Hi Hx. apply (Hkeep q); [|done]. unfold own, owned. rewrite elem_of_cons, elem_of_app, elem_of_vals. right. left. by exists i.
  - split; [done|done|done|]. intros v Hv. rewrite He by (unfold vaddr, KERNBASE in *; lia). by apply Hke.
Qed.

Lemma inv_perm l0 k l S T : S ≡ₚ T -> vm_inv l0 k l S -> vm_inv l0 k l T.
Proof using. intros HST [H1 H2 H3]. split; [done|by rewrite <- HST|by rewrite <- (owns_perm S T HST)]. Qed.

Lemma pick S D d sz D' : seen <$> S ≡ₚ D -> D ≡ₚ (d, sz) :: D' ->
  exists s T, S ≡ₚ s :: T /\ as_dir s = d /\ as_size s = sz /\ seen <$> T ≡ₚ D'.
Proof using.
  intros HS HD. assert (Hin : (d, sz) ∈ seen <$> S) by (rewrite HS, HD; left). apply list_elem_of_fmap in Hin as (s & Es & Hs).
  apply elem_of_Permutation in Hs as [T HT]. exists s, T. split; [done|]. injection Es as -> ->. split; [done|]. split; [done|].
  rewrite HT, HD in HS. cbn in HS. by apply Permutation_cons_inv in HS.
Qed.

Lemma kernel_above sz v : 0 <= sz <= KERNBASE -> KERNBASE <= v -> pages sz <= v / 4096.
Proof using.
  intros H Hv. apply Z.div_le_lower_bound; [lia|]. unfold pages. pose proof (Z.mul_div_le (sz + 4095) 4096 ltac:(lia)).
  pose proof (Z.div_mod (sz + 4095) 4096 ltac:(lia)). unfold KERNBASE in *. assert ((sz + 4095) / 4096 < 524289) by (apply Z.div_lt_upper_bound; lia). lia.
Qed.

(** ** The operations *)

Section Steps.
Context (l0 : list Z) (Hn : NoDup l0) (Hp : Forall (page_ok kend) l0).

(** The address space [setupkvm] makes beside those there are. *)
Lemma setup_inv k l S d k' l' ts : vm_inv l0 k l S -> frames k k' l -> space kend k' d l' ts ∅ -> l' ++ owned d ts ∅ ≡ₚ l ->
  (forall v, vaddr v -> entry k' d v = kernel_entry (kmap_table data) 0 v) -> vm_inv l0 k' l' (mkAspace d 0 ts ∅ :: S).
Proof using Hn Hp.
  intros HI Hf Hs HP He. apply (others_good l0 k l [] S k' l' [mkAspace d 0 ts ∅]); try assumption.
  - apply Hs.
  - rewrite ?owns_one, ?owns_nil, ?app_nil_r. exact HP.
  - rewrite ?owns_one, ?owns_nil, ?app_nil_r. exact Hf.
  - constructor; [|constructor]. split; cbn; [exact Hs|unfold KERNBASE; lia| |intros v Hv; apply He; unfold vaddr, KERNBASE in *; lia].
    intros i. rewrite lookup_empty. change (pages 0) with 0. split; [by intros [? ?]|lia].
Qed.

Lemma setup_step k l S : vm_inv l0 k l S ->
  exists d k' l' N, setupkvm kend data k = (Ok d, k') /\ vm_inv l0 k' l' (N ++ S) /\ seen <$> N = if d =? 0 then [] else [(d, 0)].
Proof using Hend Hdata Hn Hp.
  intros HI. destruct (setupkvm_space kend Hend data Hdata k l (vi_free _ _ _ _ HI)) as (d & k' & l' & Hrun & Hf & Hr).
  destruct Hr as [(-> & Hk' & HP & _)|(Hd & ts & Hs & HP & _ & He)].
  - exists 0, k', l', []. split; [exact Hrun|]. split; [|reflexivity]. apply (others_good l0 k l [] S k' l' []); try assumption.
    + rewrite ?owns_one, ?owns_nil, ?app_nil_r. exact HP.
    + rewrite ?owns_one, ?owns_nil, ?app_nil_r. exact Hf.
    + constructor.
  - exists d, k', l', [mkAspace d 0 ts ∅]. rewrite (proj2 (Z.eqb_neq _ 0) Hd). split; [exact Hrun|]. split; [|reflexivity]. by apply (setup_inv k l).
Qed.

Lemma grow_good k l s newsz : good k l s -> as_size s <= newsz < KERNBASE ->
  let sz := as_size s in let d := as_dir s in
  exists r k' l' s', allocuvm kend d sz newsz k = (Ok r, k') /\ good k' l' s' /\ seen s' = (d, if r =? 0 then sz else r)
  /\ l' ++ own s' ≡ₚ l ++ own s /\ frames k k' (l ++ own s)
  /\ (forall v, vaddr v -> ~ (pages sz <= v / 4096 < pages newsz) -> entry k' d v = entry k d v)
  /\ (forall i p o, as_pages s !! i = Some p -> 0 <= o < 4096 -> memory k' (p + o) = memory k (p + o))
  /\ ((r = newsz /\ forall v, pages sz <= v / 4096 < pages newsz -> new_page k' d v)
      \/ (r = 0 /\ as_pages s' = as_pages s
          /\ Z.of_nat (length l + size (dom (as_tables s))) < Z.of_nat (size (dom (as_tables s) ∪ tables (PGROUNDUP sz) (newsz - 1))) + (pages newsz - pages sz))).
Proof using Hend Hdata.
  intros [Hs Hr Hfl Hke] Hsz sz d. destruct (allocuvm_space kend Hend k d l _ _ sz newsz Hs ltac:(unfold sz; lia) (proj2 Hsz) Hfl)
    as (r & k' & l' & ts' & us' & Hrun & Hs' & HP & Hf & He & Hb & Hres).
  exists r, k', l', (mkAspace d (if r =? 0 then sz else r) ts' us'). split; [exact Hrun|]. split; [|split; [reflexivity|do 4 (split; [done|])]].
  - split; cbn; [exact Hs'| | |].
    + destruct Hres as [(-> & _)|(-> & _)]; [destruct (newsz =? 0)|cbn]; unfold sz; lia.
    + destruct Hres as [(-> & Hfl' & _)|(-> & -> & _)]; [|exact Hfl]. destruct (Z.eqb_spec newsz 0) as [->|]; [|exact Hfl']. by replace sz with 0 by (unfold sz; lia).
    + intros v Hv. rewrite He; [by apply Hke|unfold vaddr, KERNBASE in *; lia|]. pose proof (kernel_above newsz v ltac:(lia) ltac:(lia)). lia.
  - destruct Hres as [(-> & _ & Hnew)|(-> & -> & Hlen)]; [left|right]; done.
Qed.

Lemma grow_step k l s T newsz : vm_inv l0 k l (s :: T) -> as_size s <= newsz < KERNBASE ->
  exists r k' l' s', allocuvm kend (as_dir s) (as_size s) newsz k = (Ok r, k') /\ vm_inv l0 k' l' (s' :: T)
  /\ seen s' = (as_dir s, if r =? 0 then as_size s else r).
Proof using Hend Hdata Hn Hp.
  intros HI Hsz. pose proof (vi_spaces _ _ _ _ HI) as HS. apply Forall_cons_1 in HS as [Hg _].
  destruct (grow_good k l s newsz Hg Hsz) as (r & k' & l' & s' & Hrun & Hg' & Hs' & HP & Hf & _).
  exists r, k', l', s'. split; [exact Hrun|]. split; [|exact Hs'].
  apply (others_good l0 k l [s] T k' l' [s']); try assumption.
  - apply Hg'.
  - rewrite !owns_one. exact HP.
  - rewrite owns_one. exact Hf.
  - by constructor.
Qed.

Lemma shrink_step k l s T newsz : vm_inv l0 k l (s :: T) -> 0 <= newsz ->
  exists r k' l' s', deallocuvm kend (as_dir s) (as_size s) newsz k = (Ok r, k') /\ vm_inv l0 k' l' (s' :: T)
  /\ seen s' = (as_dir s, r).
Proof using Hend Hdata Hn Hp.
  intros HI Hsz. pose proof (vi_spaces _ _ _ _ HI) as HS. apply Forall_cons_1 in HS as [[Hs Hr Hfl Hke] _].
  destruct (Z_lt_dec newsz (as_size s)) as [Hlt|Hge].
  2:{ exists (as_size s), k, l, s. split; [|split; [exact HI|reflexivity]]. unfold deallocuvm. rewrite (proj2 (Z.leb_le _ _)) by lia. reflexivity. }
  destruct (dealloc_space kend Hend k _ l _ _ (as_size s) newsz Hs ltac:(lia) ltac:(lia)) as (k' & u & us' & Hrun & Hs' & HP & Hus & He & Hf).
  exists newsz, k', (u ++ l), (mkAspace (as_dir s) newsz (as_tables s) us'). split; [exact Hrun|]. split; [|reflexivity].
  apply (others_good l0 k l [s] T k' (u ++ l) [mkAspace _ _ (as_tables s) us']); try assumption.
  - apply Hs'.
  - rewrite ?owns_one, ?owns_nil, ?app_nil_r. unfold own. cbn [as_dir as_tables as_pages]. by rewrite (Permutation_app_comm u l), <- app_assoc, HP.
  - rewrite ?owns_one, ?owns_nil, ?app_nil_r. unfold own. intros x Hx. apply Hf. intros q Hq. apply Hx. rewrite elem_of_app, <- HP. right. revert Hq. unfold owned. rewrite !elem_of_app, elem_of_cons, elem_of_app. tauto.
  - constructor; [|constructor]. split; cbn; [exact Hs'|lia| |].
    + intros i. rewrite Hus, in_range_pages by lia. pose proof (Hfl i) as Hi. assert (0 <= pages newsz) by (apply Z.div_pos; lia).
      assert (pages newsz <= pages (as_size s)) by (apply Z.div_le_mono; lia).
      destruct (Z.leb_spec (pages newsz) i), (Z.ltb_spec i (pages (as_size s))); cbn [andb]; rewrite ?Hi; try lia. split; [by intros [? ?]|lia].
    + intros v Hv. rewrite He; [by apply Hke|unfold vaddr, KERNBASE in *; lia|]. rewrite in_range_pages by lia.
      pose proof (kernel_above (as_size s) v ltac:(lia) ltac:(lia)). rewrite (proj2 (Z.ltb_ge _ _)) by lia. apply andb_false_r.
Qed.

Lemma free_step k l s T : vm_inv l0 k l (s :: T) -> exists k' l', freevm kend (as_dir s) k = (Ok tt, k') /\ vm_inv l0 k' l' T.
Proof using Hend Hdata Hn Hp.
  intros HI. pose proof (vi_spaces _ _ _ _ HI) as HS. apply Forall_cons_1 in HS as [[Hs Hr Hfl Hke] _].
  destruct (freevm_space kend Hend k _ l _ _ Hs) as (k' & l' & Hrun & Hk' & HP & Hf). exists k', l'. split; [exact Hrun|].
  apply (others_good l0 k l [s] T k' l' []); try assumption.
  - rewrite ?owns_one, ?owns_nil, ?app_nil_r. exact HP.
  - rewrite ?owns_one, ?owns_nil, ?app_nil_r. intros x Hx. apply Hf. intros q Hq. apply Hx. rewrite elem_of_app. by right.
  - constructor.
Qed.

(** The copy has as many pages as the original. *)
Lemma copy_filled k k' pgdir d l ts us sz : space kend k' d l ts us -> 0 <= sz < KERNBASE ->
  (forall v, 0 <= v -> v / 4096 * 4096 < sz -> copied_page k k' pgdir d v) ->
  (forall v, vaddr v -> sz <= v / 4096 * 4096 -> entry k' d v = kernel_entry (kmap_table data) 0 v) -> filled us sz.
Proof using Hdata.
  intros Hs Hsz Hlow Hhigh i. destruct (decide (0 <= i < KERNBASE / 4096)) as [Hi|Hi].
  2:{ split.
      - intros [p Hpi]. by destruct Hi; apply (sp_us _ _ _ _ _ _ Hs i p).
      - intros H. destruct Hi. assert (pages sz < 524289) by (unfold pages; apply Z.div_lt_upper_bound; unfold KERNBASE in Hsz; lia).
        change (KERNBASE / 4096) with 524288. lia. }
  assert (Hv : 0 <= i * 4096 < KERNBASE) by (unfold KERNBASE in *; change (0x80000000 / 4096) with 524288 in Hi; lia).
  pose proof (sp_user _ _ _ _ _ _ Hs (i * 4096) Hv) as Hu. rewrite Z.div_mul in Hu by lia.
  pose proof (in_range_pages 0 sz i ltac:(unfold KERNBASE; lia)) as Hr. unfold in_range in Hr. change (PGROUNDUP 0 / 4096) with 0 in Hr. change (pages 0) with 0 in Hr.
  rewrite (proj2 (Z.leb_le 0 i)) in Hr by lia. cbn [andb] in Hr.
  destruct (Z.ltb_spec (i * 4096) sz) as [Hlt|Hge].
  - symmetry in Hr. apply Z.ltb_lt in Hr. split; [lia|intros _]. destruct (Hlow (i * 4096)) as (_ & Ho & _); [lia|rewrite Z.div_mul; lia|].
    destruct (us !! i); [by eexists|]. cbn in Hu. congruence.
  - symmetry in Hr. apply Z.ltb_ge in Hr. split; [|lia]. intros [p Hpi]. rewrite Hpi in Hu. destruct Hu as [Ho _].
    rewrite Hhigh, (kernel_entry_below 0 _ KERNBASE) in Ho; [done|by apply kmap_laid_out|lia|unfold vaddr, KERNBASE in *; lia|rewrite Z.div_mul; lia].
Qed.

Lemma copy_step k l s T : vm_inv l0 k l (s :: T) ->
  exists r k' l' N, copyuvm kend data (as_dir s) (as_size s) k = (Ok r, k') /\ vm_inv l0 k' l' (N ++ s :: T)
  /\ seen <$> N = if r =? 0 then [] else [(r, as_size s)].
Proof using Hend Hdata Hn Hp.
  intros HI. pose proof (vi_spaces _ _ _ _ HI) as HS. apply Forall_cons_1 in HS as [[Hs Hr Hfl Hke] _].
  destruct (copyuvm_space kend Hend data Hdata k _ l _ _ (as_size s) Hs ltac:(lia) Hfl) as (r & k' & l' & Hrun & Hs' & Hk & Hf & Hres).
  assert (Hf' : frames k k' (l ++ owns [s])).
  { intros x Hx. apply Hf. intros q Hq. apply Hx. rewrite elem_of_app. by left. }
  assert (Hgs : good k' l' s).
  { split; [exact Hs'|exact Hr|exact Hfl|]. intros v Hv. rewrite (keeps_space kend _ _ _ _ _ _ _ Hs Hk); [by apply Hke|auto|unfold vaddr, KERNBASE in *; lia]. }
  destruct Hres as [(-> & HP & _)|(Hr0 & ts' & us' & Hs2 & HP & Hlow & Hhigh)].
  - exists 0, k', l', []. split; [exact Hrun|]. split; [|reflexivity]. apply (others_good l0 k l [s] T k' l' [s]); try assumption.
    + apply Hs'.
    + by rewrite HP.
    + by constructor.
  - exists r, k', l', [mkAspace r (as_size s) ts' us']. rewrite (proj2 (Z.eqb_neq _ 0) Hr0). split; [exact Hrun|]. split; [|reflexivity].
    apply (others_good l0 k l [s] T k' l' [mkAspace r (as_size s) ts' us'; s]); try assumption.
    + apply Hs'.
    + change [mkAspace r (as_size s) ts' us'; s] with ([mkAspace r (as_size s) ts' us'] ++ [s]). rewrite owns_app, !owns_one, app_assoc. by rewrite <- HP.
    + constructor; [|by constructor]. split; cbn [as_dir as_size as_tables as_pages]; [exact Hs2|exact Hr|by apply (copy_filled k k' (as_dir s) r l' ts')|].
      intros v Hv. apply Hhigh; [unfold vaddr, KERNBASE in *; lia|]. pose proof (Z.div_le_mono KERNBASE v 4096 ltac:(lia) ltac:(lia)). unfold KERNBASE in *. change (0x80000000 / 4096) with 524288 in *. lia.
Qed.

Definition vm_state_ok (w : vmstate) : Prop := exists l S, vm_inv l0 w.1 l S /\ seen <$> S ≡ₚ w.2.

Lemma vmstep_ok w w' : vmstep w w' -> vm_state_ok w -> vm_state_ok w'.
Proof using Hend Hdata Hn Hp.
  intros Hst (l & S & HI & HD). destruct Hst as [k k' D d Hrun|k k' D D' d sz newsz r HD' Hsz Hrun|k k' D D' d sz newsz r HD' Hsz Hrun|k k' D D' d sz r HD' Hrun|k k' D D' d sz HD' Hrun];
    cbn [fst snd] in *; [|destruct (pick S D d sz D' HD HD') as (s & T & HST & <- & <- & HT); apply (inv_perm l0 k l S (s :: T) HST) in HI..].
  - destruct (setup_step k l S HI) as (d' & k1 & l' & N & Hrun' & HI' & HN). rewrite Hrun in Hrun'. injection Hrun' as <- <-.
    exists l', (N ++ S). split; [exact HI'|]. cbn [snd]. rewrite fmap_app, HN, HD. by destruct (d =? 0).
  - destruct (grow_step k l s T newsz HI Hsz) as (r' & k1 & l' & s' & Hrun' & HI' & HN). rewrite Hrun in Hrun'. injection Hrun' as <- <-.
    exists l', (s' :: T). split; [exact HI'|]. cbn. by rewrite HN, HT.
  - destruct (shrink_step k l s T newsz HI Hsz) as (r' & k1 & l' & s' & Hrun' & HI' & HN). rewrite Hrun in Hrun'. injection Hrun' as <- <-.
    exists l', (s' :: T). split; [exact HI'|]. cbn. by rewrite HN, HT.
  - destruct (copy_step k l s T HI) as (r' & k1 & l' & N & Hrun' & HI' & HN). rewrite Hrun in Hrun'. injection Hrun' as <- <-.
    exists l', (N ++ s :: T). split; [exact HI'|]. cbn [snd]. rewrite fmap_app, HN, <- HST, HD. by destruct (r =? 0).
  - destruct (free_step k l s T HI) as (k1 & l' & Hrun' & HI'). rewrite Hrun in Hrun'. injection Hrun' as <-. by exists l', T.
Qed.

Lemma vmsteps_ok w w' : rtc vmstep w w' -> vm_state_ok w -> vm_state_ok w'.
Proof using Hend Hdata Hn Hp. induction 1 as [|w w1 w' Hst _ IH]; [done|]. intros Hw. by apply IH, (vmstep_ok w w1). Qed.
End Steps.

(** ** The properties *)

(** C3: from the free pages [l0] on, after any sequence of operations, every page of [l0]
    is free or belongs to exactly one address space: its directory, one of its page
    tables, or a page of its user memory.  Every address space has user memory exactly
    up to its size, and the kernel's mappings above it.  None of the operations panics
    or loops: each returns, in every such state and for every address space. *)
Theorem address_spaces_conserved k0 l0 k D :
  kmem_ok kend k0 l0 -> rtc vmstep (k0, []) (k, D) ->
  exists l S, vm_inv l0 k l S /\ NoDup (l ++ owns S) /\ seen <$> S ≡ₚ D
  /\ (exists d k', setupkvm kend data k = (Ok d, k'))
  /\ forall d sz, (d, sz) ∈ D ->
       (forall newsz, sz <= newsz < KERNBASE -> exists r k', allocuvm kend d sz newsz k = (Ok r, k'))
       /\ (forall newsz, 0 <= newsz -> exists r k', deallocuvm kend d sz newsz k = (Ok r, k'))
       /\ (exists r k', copyuvm kend data d sz k = (Ok r, k')) /\ (exists k', freevm kend d k = (Ok tt, k')).
Proof using Hend Hdata.
  intros Hk Hst. pose proof (ok_nodup _ _ _ Hk) as Hn. pose proof (ok_pages _ _ _ Hk) as Hp.
  assert (Hok : vm_state_ok l0 (k, D)).
  { apply (vmsteps_ok l0 Hn Hp _ _ Hst). exists l0, []. split; [|reflexivity]. split; [exact Hk|constructor|]. by rewrite owns_nil, app_nil_r. }
  destruct Hok as (l & S & HI & HD). cbn [fst snd] in *. exists l, S. split; [exact HI|]. split; [rewrite (vi_conserved _ _ _ _ HI); exact Hn|]. split; [exact HD|].
  split; [destruct (setup_step l0 Hn Hp k l S HI) as (d & k' & _ & _ & Hrun & _); by exists d, k'|].
  intros d sz Hin. apply elem_of_Permutation in Hin as [D' HD']. destruct (pick S D d sz D' HD HD') as (s & T & HST & <- & <- & _).
  apply (inv_perm l0 k l S (s :: T) HST) in HI. split; [|split; [|split]].
  - intros newsz Hsz. destruct (grow_step l0 Hn Hp k l s T newsz HI Hsz) as (r & k' & _ & _ & Hrun & _). by exists r, k'.
  - intros newsz Hsz. destruct (shrink_step l0 Hn Hp k l s T newsz HI Hsz) as (r & k' & _ & _ & Hrun & _). by exists r, k'.
  - destruct (copy_step l0 Hn Hp k l s T HI) as (r & k' & _ & _ & Hrun & _). by exists r, k'.
  - destruct (free_step l0 Hn Hp k l s T HI) as (k' & _ & Hrun & _). by exists k'.
Qed.

Definition poke (k : kmem) (x b : Z) : kmem := set_memory (upd (memory k) x b) k.

(** The page of a user address. *)
Lemma user_page k l s v : good k l s -> 0 <= v < as_size s -> exists p, as_pages s !! (v / 4096) = Some p /\ dpage k (as_dir s) v = p /\ page_ok kend p.
Proof using Hend.
  intros [Hs Hsz Hfl _] Hv. assert (Hi : is_Some (as_pages s !! (v / 4096))).
  { apply Hfl. split; [apply Z.div_pos; lia|]. unfold pages. assert (v / 4096 + 1 <= (as_size s + 4095) / 4096); [|lia].
    apply Z.div_le_lower_bound; [lia|]. pose proof (Z.mul_div_le v 4096 ltac:(lia)). lia. }
  destruct (source_page kend Hend k (as_dir s) l _ _ v Hs ltac:(lia) Hi) as (p & Hp & Hpp & _ & _ & _ & _ & _ & Ep). by exists p.
Qed.

(** Bytes of an address space whose pages are left alone. *)
Lemma keeps_bytes k k' l s v : good k l s -> 0 <= v < as_size s -> keeps (own s) k k' -> ubyte k' (as_dir s) v = ubyte k (as_dir s) v.
Proof using Hend.
  intros Hg Hv Hk. destruct (user_page k l s v Hg Hv) as (p & Hp & Ep & _). unfold ubyte. unfold dpage in *.
  rewrite (keeps_space kend (own s) k k' (as_dir s) l _ _ (gd_space _ _ _ Hg) Hk), Ep; [|auto|pose proof (gd_size _ _ _ Hg); unfold vaddr, KERNBASE in *; lia].
  apply (Hk p); [unfold own, owned; rewrite elem_of_cons, elem_of_app, !elem_of_vals; right; right; by exists (v / 4096)|].
  pose proof (Z.mod_pos_bound v 4096 ltac:(lia)). unfold in_page, PGSIZE. lia.
Qed.

Lemma poke_keeps P k p x b : Forall (page_ok kend) P -> page_ok kend p -> (p ∉ P) -> in_page p x -> keeps P k (poke k x b).
Proof using.
  intros HP Hp Hn Hx q y Hq Hy. cbn. unfold upd. case_match; [|done]. exfalso. rewrite Forall_forall in HP.
  apply (apart kend p q x Hp (HP q Hq)); [by intros ->|done|]. by replace x with y by lia.
Qed.

(** C12: what [fork] gets from [copyuvm]: it returns, and a result other than 0 is an address
    space of the same size in which every byte and every page's permissions are those
    of the original; from then on they are separate, a write to a byte of one of
    them does not show in the other.  It returns 0 only when there are fewer free pages
    than the directory, the kernel's 64 tables, the tables and the pages of user
    memory take, and then the free pages are those there were. *)
Theorem copyuvm_copies k l s : good k l s ->
  let d := as_dir s in let sz := as_size s in
  exists r k' l', copyuvm kend data d sz k = (Ok r, k') /\ good k' l' s
  /\ ((r = 0 /\ l' ≡ₚ l /\ Z.of_nat (length l) < 65 + Z.of_nat (size (tables 0 (sz - 1))) + pages sz)
      \/ (exists c, as_dir c = r /\ as_size c = sz /\ good k' l' c /\ l' ++ own c ≡ₚ l
            /\ (forall v, 0 <= v < sz -> ubyte k' r v = ubyte k d v /\ ubyte k' d v = ubyte k d v /\ PTE_FLAGS (entry k' r v) = PTE_FLAGS (entry k d v))
            /\ (forall v w b, 0 <= v < sz -> 0 <= w < sz ->
                 ubyte (poke k' (dpage k' r v + v mod 4096) b) d w = ubyte k d w /\ ubyte (poke k' (dpage k' d v + v mod 4096) b) r w = ubyte k d w))).
Proof using Hend Hdata.
  intros Hg d sz. destruct Hg as [Hs Hr Hfl Hke]. destruct (copyuvm_space kend Hend data Hdata k d l _ _ sz Hs ltac:(unfold sz; lia) Hfl) as (r & k' & l' & Hrun & Hs' & Hk & Hf & Hres).
  assert (Hgs : good k' l' s).
  { split; [exact Hs'|exact Hr|exact Hfl|]. intros v Hv. rewrite (keeps_space kend _ _ _ _ _ _ _ Hs Hk); [by apply Hke|auto|unfold vaddr, KERNBASE in *; lia]. }
  assert (Hg : good k l s) by done. exists r, k', l'. split; [exact Hrun|]. split; [exact Hgs|]. destruct Hres as [(-> & HP & Hlen)|(Hr0 & ts' & us' & Hs2 & HP & Hlow & Hhigh)]; [left; done|right].
  set (c := mkAspace r sz ts' us'). assert (Hgc : good k' l' c).
  { split; cbn; [exact Hs2|exact Hr|by apply (copy_filled k k' d r l' ts')|]. intros v Hv. apply Hhigh; [unfold vaddr, KERNBASE in *; lia|].
    pose proof (Z.div_le_mono KERNBASE v 4096 ltac:(lia) ltac:(lia)). unfold sz, KERNBASE in *. change (0x80000000 / 4096) with 524288 in *. lia. }
  assert (Hdis : forall q, q ∈ own c -> q ∉ own s).
  { intros q Hq Hq'. pose proof (sp_nodup _ _ _ _ _ _ Hs) as Hn. apply NoDup_app in Hn as (_ & Hn & _). apply (Hn q); [|exact Hq']. rewrite <- HP, elem_of_app. by right. }
  assert (Hcopy : forall v, 0 <= v < sz -> ubyte k' r v = ubyte k d v /\ ubyte k' d v = ubyte k d v /\ PTE_FLAGS (entry k' r v) = PTE_FLAGS (entry k d v)).
  { intros v Hv. destruct (Hlow v) as (H1 & _ & H2); [lia|pose proof (Z.mul_div_le v 4096 ltac:(lia)); lia|]. split; [exact H2|]. split; [|exact H1]. by apply (keeps_bytes k k' l s). }
  exists c. split; [reflexivity|]. split; [reflexivity|]. split; [exact Hgc|]. split; [exact HP|]. split; [exact Hcopy|].
  intros v w b Hv Hw. destruct (Hcopy w Hw) as (E1 & E2 & _). pose proof (Z.mod_pos_bound v 4096 ltac:(lia)) as Hmod. split.
  - rewrite <- E2. apply (keeps_bytes k' _ l' s w Hgs Hw). destruct (user_page k' l' c v Hgc Hv) as (p & Hp & Ep & Hpp). cbn in Ep. rewrite Ep.
    apply (poke_keeps _ _ p); [apply Hs|exact Hpp| |unfold in_page, PGSIZE; lia]. apply Hdis. unfold own, owned. rewrite elem_of_cons, elem_of_app, !elem_of_vals. right. right. by exists (v / 4096).
  - rewrite <- E1. apply (keeps_bytes k' _ l' c w Hgc Hw). destruct (user_page k' l' s v Hgs Hv) as (p & Hp & Ep & Hpp). fold d in Ep. rewrite Ep.
    apply (poke_keeps _ _ p); [apply Hs2|exact Hpp| |unfold in_page, PGSIZE; lia]. intros Hin. apply (Hdis p Hin). unfold own, owned. rewrite elem_of_cons, elem_of_app, !elem_of_vals. right. right. by exists (v / 4096).
Qed.

(** C13: growing a process's memory with [allocuvm].  It returns the new size or 0, and
    either way the bytes and the permissions of the memory the process had are what
    they were.  With the new size, the pages added are zero and open to the process to
    read and write.  With 0, the process has the pages it had before, every page it was
    given meanwhile is free again or one of its page tables, and there were fewer free
    pages than the pages and tables the growth needs. *)
Theorem allocuvm_grows k l s newsz : good k l s -> as_size s <= newsz < KERNBASE ->
  let sz := as_size s in let d := as_dir s in
  exists r k' l' s', allocuvm kend d sz newsz k = (Ok r, k') /\ good k' l' s' /\ as_dir s' = d /\ l' ++ own s' ≡ₚ l ++ own s
  /\ (forall v, 0 <= v < sz -> ubyte k' d v = ubyte k d v /\ entry k' d v = entry k d v)
  /\ ((r = newsz /\ as_size s' = newsz /\ forall v, pages sz <= v / 4096 < pages newsz -> new_page k' d v)
      \/ (r = 0 /\ as_size s' = sz /\ as_pages s' = as_pages s
          /\ Z.of_nat (length l) < Z.of_nat (size (tables (PGROUNDUP sz) (newsz - 1) ∖ dom (as_tables s))) + (pages newsz - pages sz))).
Proof using Hend Hdata.
  intros Hg Hsz sz d. destruct (grow_good k l s newsz Hg Hsz) as (r & k' & l' & s' & Hrun & Hg' & Hs' & HP & _ & He & Hb & Hres). fold sz d in Hs', He, Hres.
  injection Hs' as Ed Esz. exists r, k', l', s'. split; [exact Hrun|]. split; [exact Hg'|]. split; [exact Ed|]. split; [exact HP|]. split.
  - intros v Hv. destruct (user_page k l s v Hg Hv) as (p & Hp & Ep & _). fold d in Ep.
    assert (E : entry k' d v = entry k d v).
    { apply He; [pose proof (gd_size _ _ _ Hg); unfold vaddr, sz, KERNBASE in *; lia|]. assert (Hi : 0 <= v / 4096 < pages sz) by (apply (gd_filled _ _ _ Hg); by exists p). lia. }
    split; [|exact E]. unfold ubyte, dpage in *. rewrite E, Ep. apply (Hb (v / 4096) p); [exact Hp|]. apply Z.mod_pos_bound. lia.
  - destruct Hres as [[-> Hnew]|(-> & Hpg & Hlen)]; [left|right].
    + split; [reflexivity|]. split; [|exact Hnew]. destruct (Z.eqb_spec newsz 0) as [->|]; [|exact Esz]. pose proof (gd_size _ _ _ Hg). unfold sz in *. lia.
    + split; [reflexivity|]. split; [exact Esz|]. split; [exact Hpg|]. rewrite size_union_alt in Hlen. lia.
Qed.
End Life.

(** ** A run *)

(** A kernel with 128 Mbyte of free memory. *)
Definition demo_data : Z := 0x80108000.
Definition demo_top : Z := 0x88200000.

Lemma demo_end_ok : KERNBASE < demo_end.
Proof. done. Qed.

Lemma demo_data_ok : demo_data mod 4096 = 0 /\ KERNLINK < demo_data < KERNBASE + PHYSTOP.
Proof. done. Qed.

Lemma length_pages_from n : forall p, length (pages_from p n) = n.
Proof. induction n as [|n IH]; intros p; cbn; [done|by rewrite IH]. Qed.

Lemma demo_free : exists k l, freerange demo_end 0x80200000 demo_top no_pages = (Ok tt, k) /\ kmem_ok demo_end k l /\ Z.of_nat (length l) = 32768.
Proof.
  destruct (freerange_ok demo_end 0x80200000 demo_top no_pages [] no_pages_ok) as (k & Hrun & Hk & _); try (unfold demo_end, demo_top, KERNBASE, PHYSTOP; lia).
  { intros v Hv. by apply elem_of_nil in Hv. }
  exists k, (rev (pages_from (PGROUNDUP 0x80200000) (Z.to_nat ((demo_top - PGROUNDUP 0x80200000) / PGSIZE))) ++ []). split; [exact Hrun|]. split; [exact Hk|].
  rewrite app_nil_r, length_rev, length_pages_from, Z2Nat.id; [reflexivity|]. apply Z.leb_le. reflexivity.
Qed.

Lemma size_minus (X Y : gset Z) : (size (X ∖ Y) <= size X)%nat.
Proof. apply subseteq_size, subseteq_difference_l. reflexivity. Qed.

Lemma size_indexes (m : gmap Z Z) n : (forall i x, m !! i = Some x -> 0 <= i < n) -> Z.of_nat (size (dom m)) <= Z.max 0 n.
Proof.
  intros H. assert (Hsub : dom m ⊆ list_to_set (seqZ 0 n)).
  { intros i Hi. apply elem_of_dom in Hi as [x Hx]. rewrite elem_of_list_to_set, elem_of_seqZ. specialize (H i x Hx). lia. }
  pose proof (subseteq_size _ _ Hsub) as Hs. rewrite size_list_to_set in Hs by apply NoDup_seqZ. rewrite length_seqZ in Hs. lia.
Qed.

Lemma good_length kend data k l s l0 : good kend data k l s -> l ++ own s ≡ₚ l0 -> Z.of_nat (length l0) <= Z.of_nat (length l) + 1025 + pages (as_size s).
Proof.
  intros Hg HP. rewrite <- HP, length_app. unfold own, owned. cbn [length]. rewrite length_app, !size_vals.
  pose proof (size_indexes (as_tables s) 1024 (sp_ts _ _ _ _ _ _ (gd_space _ _ _ _ _ Hg))).
  assert (0 <= pages (as_size s)) by (apply Z.div_pos; pose proof (gd_size _ _ _ _ _ Hg); lia).
  assert (Z.of_nat (size (dom (as_pages s))) <= Z.max 0 (pages (as_size s))) by (apply size_indexes; intros i x Hi; apply (gd_filled _ _ _ _ _ Hg); by exists x). lia.
Qed.

(** An address space with three pages. *)
Lemma demo_process : exists k0 l0 k1 d k l s, freerange demo_end 0x80200000 demo_top no_pages = (Ok tt, k0) /\ kmem_ok demo_end k0 l0
  /\ setupkvm demo_end demo_data k0 = (Ok d, k1) /\ d <> 0 /\ allocuvm demo_end d 0 0x2001 k1 = (Ok 0x2001, k)
  /\ good demo_end demo_data k l s /\ seen s = (d, 0x2001) /\ 31000 < Z.of_nat (length l).
Proof.
  destruct demo_free as (k0 & l0 & Hfree & Hk0 & Hlen). exists k0, l0.
  assert (HI : vm_inv demo_end demo_data l0 k0 l0 []) by (split; [exact Hk0|constructor|by rewrite owns_nil, app_nil_r]).
  destruct (setupkvm_space demo_end demo_end_ok demo_data demo_data_ok k0 l0 Hk0) as (d & k1 & l1 & Hrun1 & _ & [(_ & _ & _ & Hsmall)|(Hd & _)]); [lia|].
  destruct (setup_step demo_end demo_data demo_end_ok demo_data_ok l0 (ok_nodup _ _ _ Hk0) (ok_pages _ _ _ Hk0) k0 l0 [] HI) as (d' & k1' & l1' & N & Hrun1' & HI1 & HN).
  rewrite Hrun1 in Hrun1'. injection Hrun1' as <- <-. rewrite (proj2 (Z.eqb_neq _ 0) Hd) in HN. destruct N as [|s1 [|? ?]]; try discriminate HN. cbn in HN. injection HN as E1 E2.
  pose proof (vi_spaces _ _ _ _ _ _ HI1) as HS. apply Forall_cons_1 in HS as [Hg1 _]. pose proof (vi_conserved _ _ _ _ _ _ HI1) as HP1. cbn [app] in HP1. rewrite owns_one in HP1.
  pose proof (good_length _ _ _ _ _ _ Hg1 HP1) as HL1. rewrite E2 in HL1. change (pages 0) with 0 in HL1.
  destruct (grow_good demo_end demo_data demo_end_ok demo_data_ok k1 l1' s1 0x2001 Hg1) as (r & k & l & s & Hrun & Hg & Hs & HP & _ & _ & _ & Hres); [rewrite E2; unfold KERNBASE; lia|].
  rewrite E1, E2 in *. destruct Hres as [[-> _]|(_ & _ & Hbad)].
  - exists k1, d, k, l, s. do 6 (split; [assumption|]). split; [exact Hs|]. rewrite HP1 in HP. pose proof (good_length _ _ _ _ _ _ Hg HP) as HL.
    injection Hs as _ Es. rewrite Es in HL. change (pages 0x2001) with 3 in HL. lia.
  - exfalso. rewrite size_union_alt in Hbad. pose proof (size_minus (tables (PGROUNDUP 0) (0x2001 - 1)) (dom (as_tables s1))) as Ht.
    assert (Et : size (tables (PGROUNDUP 0) (0x2001 - 1)) = 1%nat) by (vm_compute; reflexivity). change (pages 0x2001 - pages 0) with 3 in Hbad. lia.
Qed.

Lemma copyuvm_copies_witness : exists k d l s, good demo_end demo_data k l s /\ seen s = (d, 0x2001)
  /\ exists r k' l' c, copyuvm demo_end demo_data d 0x2001 k = (Ok r, k') /\ seen c = (r, 0x2001) /\ good demo_end demo_data k' l' c
  /\ (forall v, 0 <= v < 0x2001 -> ubyte k' r v = ubyte k d v)
  /\ ubyte (poke k' (dpage k' r 7 + 7 mod 4096) 42) d 7 = ubyte k d 7.
Proof.
  destruct demo_process as (k0 & l0 & k1 & d & k & l & s & _ & _ & _ & _ & _ & Hg & Hs & Hlen). exists k, d, l, s. split; [exact Hg|]. split; [exact Hs|]. injection Hs as <- Es.
  destruct (copyuvm_copies demo_end demo_data demo_end_ok demo_data_ok k l s Hg) as (r & k' & l' & Hrun & _ & Hres). rewrite Es in *.
  destruct Hres as [(_ & _ & Hbad)|(c & Ec & Ecs & Hgc & _ & Hcopy & Hsep)].
  - exfalso. assert (Et : size (tables 0 (0x2001 - 1)) = 1%nat) by (vm_compute; reflexivity). change (pages 0x2001) with 3 in Hbad. lia.
  - exists r, k', l', c. split; [exact Hrun|]. split; [unfold seen; by rewrite Ec, Ecs|]. split; [exact Hgc|]. split; [intros v Hv; by apply Hcopy|]. destruct (Hsep 7 7 42 ltac:(lia) ltac:(lia)) as [Hs1 _]. exact Hs1.
Defined.

Lemma allocuvm_grows_witness : exists k d l s, good demo_end demo_data k l s /\ seen s = (d, 0x2001)
  /\ exists k', allocuvm demo_end d 0x2001 0x5000 k = (Ok 0x5000, k') /\ new_page k' d 0x4abc /\ ubyte k' d 0x2000 = ubyte k d 0x2000.
Proof.
  destruct demo_process as (k0 & l0 & k1 & d & k & l & s & _ & _ & _ & _ & _ & Hg & Hs & Hlen). exists k, d, l, s. split; [exact Hg|]. split; [exact Hs|]. injection Hs as <- Es.
  destruct (allocuvm_grows demo_end demo_data demo_end_ok demo_data_ok k l s 0x5000 Hg) as (r & k' & l' & s' & Hrun & _ & _ & _ & Hold & Hres); [rewrite Es; unfold KERNBASE; lia|].
  rewrite Es in *. destruct Hres as [(-> & _ & Hnew)|(_ & _ & _ & Hbad)].
  - exists k'. split; [exact Hrun|]. split; [apply Hnew; change (0x4abc / 4096) with 4; change (pages 0x2001) with 3; change (pages 0x5000) with 5; lia|]. destruct (Hold 0x2000 ltac:(lia)) as [H0 _]. exact H0.
  - exfalso. pose proof (size_minus (tables (PGROUNDUP 0x2001) (0x5000 - 1)) (dom (as_tables s))) as Ht.
    assert (Et : size (tables (PGROUNDUP 0x2001) (0x5000 - 1)) = 1%nat) by (vm_compute; reflexivity). change (pages 0x5000 - pages 0x2001) with 2 in Hbad. lia.
Defined.

(** Two address spaces, the second a copy of the first. *)
Lemma address_spaces_conserved_witness : exists k0 l0 k D l S,
  freerange demo_end 0x80200000 demo_top no_pages = (Ok tt, k0) /\ rtc (vmstep demo_end demo_data) (k0, []) (k, D) /\ length D = 2%nat
  /\ vm_inv demo_end demo_data l0 k l S /\ NoDup (l ++ owns S) /\ seen <$> S ≡ₚ D.
Proof.
  destruct demo_process as (k0 & l0 & k1 & d & k & l & s & Hfree & Hk0 & Hrun1 & Hd & Hrun2 & Hg & Hs & Hlen). injection Hs as Ed Es.
  destruct Hg as [Hsp Hsz Hfl Hke].
  destruct (copyuvm_space demo_end demo_end_ok demo_data demo_data_ok k (as_dir s) l _ _ (as_size s) Hsp ltac:(lia) Hfl) as (r & k' & l' & Hrun3 & _ & _ & _ & [(_ & _ & Hbad)|(Hr & _)]).
  { exfalso. rewrite Es in Hbad. assert (Et : size (tables 0 (0x2001 - 1)) = 1%nat) by (vm_compute; reflexivity). change (pages 0x2001) with 3 in Hbad. lia. }
  rewrite Ed, Es in Hrun3. assert (Hsteps : rtc (vmstep demo_end demo_data) (k0, []) (k', [(r, 0x2001); (d, 0x2001)])).
  { pose proof (vm_setup demo_end demo_data k0 k1 [] d Hrun1) as S1. rewrite (proj2 (Z.eqb_neq _ 0) Hd) in S1.
    pose proof (vm_grow demo_end demo_data k1 k [(d, 0)] [] d 0 0x2001 0x2001 (Permutation_refl _) ltac:(unfold KERNBASE; lia) Hrun2) as S2. cbn [Z.eqb] in S2.
    pose proof (vm_copy demo_end demo_data k k' [(d, 0x2001)] [] d 0x2001 r (Permutation_refl _) Hrun3) as S3. rewrite (proj2 (Z.eqb_neq _ 0) Hr) in S3.
    exact (rtc_l _ _ _ _ S1 (rtc_l _ _ _ _ S2 (rtc_once _ _ S3))). }
  destruct (address_spaces_conserved demo_end demo_data demo_end_ok demo_data_ok k0 l0 k' _ Hk0 Hsteps) as (l2 & S & HI & Hn & HD & _).
  exists k0, l0, k', [(r, 0x2001); (d, 0x2001)], l2, S. split; [exact Hfree|]. split; [exact Hsteps|]. split; [reflexivity|]. split; [exact HI|]. split; [exact Hn|exact HD].
Defined.
