(* ===== verification/Lapic.v ===== *)
(** The local interrupt controller: [src/lapic.c] except the clock (see [Rtc]), and
    [src/picirq.c].

    The controller is its registers, by index as in the source.  A write to the low word
    of the command register sends an interrupt command to the processor the high word
    names, and the delivery status stays set for [delay c] reads after command [c].
    Writes to ports and to low memory go to the same state. *)

From Stdlib Require Import ZArith Lia.
From stdpp Require Import base list strings.
From S2P Require Import Prelude Kstring Kalloc Proc Syscall Trap Asm AsmInv.
Local Open Scope Z_scope.

Definition ID : Z := 0x0020 / 4.
Definition VER : Z := 0x0030 / 4.
Definition TPR : Z := 0x0080 / 4.
Definition EOI : Z := 0x00B0 / 4.
Definition SVR : Z := 0x00F0 / 4.
Definition ENABLE : Z := 0x00000100.
Definition ESR : Z := 0x0280 / 4.
Definition ICRLO : Z := 0x0300 / 4.
Definition INIT : Z := 0x00000500.
Definition STARTUP : Z := 0x00000600.
Definition DELIVS : Z := 0x00001000.
Definition ASSERT : Z := 0x00004000.
Definition LEVEL : Z := 0x00008000.
Definition BCAST : Z := 0x00080000.
Definition ICRHI : Z := 0x0310 / 4.
Definition TIMER : Z := 0x0320 / 4.
Definition X1 : Z := 0x0000000B.
Definition PERIODIC : Z := 0x00020000.
Definition PCINT : Z := 0x0340 / 4.
Definition LINT0 : Z := 0x0350 / 4.
Definition LINT1 : Z := 0x0360 / 4.
Definition ERROR : Z := 0x0370 / 4.
Definition MASKED : Z := 0x00010000.
Definition TICR : Z := 0x0380 / 4.
Definition TDCR : Z := 0x03E0 / 4.
Definition IRQ_ERROR : Z := 19.

(** [lapic] is the pointer; [sent] the commands with their destinations. *)
Record lap := mkLap {
  lapic : Z;
  lregs : Z -> Z;
  busy : nat;
  sent : list (Z * Z);
  lports : list (Z * Z);
  lmem : mem;
}.
Abbreviation LM := (M lap).

Definition outb (port v : Z) : LM unit :=
  modify (fun s => mkLap (lapic s) (lregs s) (busy s) (sent s) (lports s ++ [(port, u8 v)]) (lmem s)).

Section Lapic.
Context (delay : Z -> nat).

(** [lapic[i] = v]. *)
Definition write_reg (i v : Z) : LM unit :=
  modify (fun s =>
    let r := upd (lregs s) i (u32 v) in
    if i =? ICRLO then mkLap (lapic s) r (delay (u32 v)) (sent s ++ [(Z.shiftr (lregs s ICRHI) 24, u32 v)]) (lports s) (lmem s)
    else mkLap (lapic s) r (busy s) (sent s) (lports s) (lmem s)).
(** [lapic[ICRLO]], with the delivery status. *)
Definition read_icr : LM Z :=
  s <- get ;;
  match busy s with
  | O => ret (Z.land (lregs s ICRLO) (Z.lnot DELIVS))
  | S k => modify (fun s => mkLap (lapic s) (lregs s) k (sent s) (lports s) (lmem s)) ;; ret (Z.lor (lregs s ICRLO) DELIVS)
  end.

Definition lapicw (index value : Z) : LM unit :=
  write_reg index value ;;
  gets (fun s => lregs s ID) ;;
  ret tt.

(** [while(lapic[ICRLO] & DELIVS)]. *)
Fixpoint wait_delivery (fuel : nat) : LM unit :=
  match fuel with
  | O => spin
  | S k => r <- read_icr ;; if nz (Z.land r DELIVS) then wait_delivery k else ret tt
  end.

Definition lapicinit (fuel : nat) : LM unit :=
  p <- gets lapic ;;
  if p =? 0 then ret tt else
  lapicw SVR (Z.lor ENABLE (T_IRQ0 + IRQ_SPURIOUS)) ;;
  lapicw TDCR X1 ;;
  lapicw TIMER (Z.lor PERIODIC (T_IRQ0 + IRQ_TIMER)) ;;
  lapicw TICR 10000000 ;;
  lapicw LINT0 MASKED ;;
  lapicw LINT1 MASKED ;;
  v <- gets (fun s => lregs s VER) ;;
  (if 4 <=? Z.land (Z.shiftr v 16) 0xFF then lapicw PCINT MASKED else ret tt) ;;
  lapicw ERROR (T_IRQ0 + IRQ_ERROR) ;;
  lapicw ESR 0 ;;
  lapicw ESR 0 ;;
  lapicw EOI 0 ;;
  lapicw ICRHI 0 ;;
  lapicw ICRLO (Z.lor (Z.lor BCAST INIT) LEVEL) ;;
  wait_delivery fuel ;;
  lapicw TPR 0.

Definition lapicid : LM Z :=
  p <- gets lapic ;;
  if p =? 0 then ret 0 else
  v <- gets (fun s => lregs s ID) ;;
  ret (Z.shiftr v 24).

Definition lapiceoi : LM unit :=
  p <- gets lapic ;;
  if negb (p =? 0) then lapicw EOI 0 else ret tt.

(** [microdelay] has an empty body. *)
Definition microdelay (us : Z) : LM unit := ret tt.

Definition CMOS_PORT : Z := 0x70.

(** [wrv[i] = v] for the pointer to halfwords. *)
Definition set_wrv (i v : Z) : LM unit :=
  modify (fun s =>
    let wrv := P2V (Z.lor (Z.shiftl 0x40 4) 0x67) in
    mkLap (lapic s) (lregs s) (busy s) (sent s) (lports s) (store16 (lmem s) (wrv + 2 * i) v)).

Fixpoint startup_loop (n : nat) (apicid addr : Z) : LM unit :=
  match n with
  | O => ret tt
  | S k =>
      lapicw ICRHI (Z.shiftl apicid 24) ;;
      lapicw ICRLO (Z.lor STARTUP (Z.shiftr addr 12)) ;;
      microdelay 200 ;;
      startup_loop k apicid addr
  end.

Definition lapicstartap (apicid addr : Z) : LM unit :=
  outb CMOS_PORT 0xF ;;
  outb (CMOS_PORT + 1) 0x0A ;;
  set_wrv 0 0 ;;
  set_wrv 1 (Z.shiftr addr 4) ;;
  lapicw ICRHI (Z.shiftl apicid 24) ;;
  lapicw ICRLO (Z.lor (Z.lor INIT LEVEL) ASSERT) ;;
  microdelay 200 ;;
  lapicw ICRLO (Z.lor INIT LEVEL) ;;
  microdelay 100 ;;
  startup_loop 2 apicid addr.

(** [picinit] of [picirq.c]. *)
Definition IO_PIC1 : Z := 0x20.
Definition IO_PIC2 : Z := 0xA0.
Definition picinit : LM unit :=
  outb (IO_PIC1 + 1) 0xFF ;;
  outb (IO_PIC2 + 1) 0xFF.
End Lapic.

Lemma gets_then {S A B} (f : S -> A) (k : A -> M S B) s : bind (gets f) k s = k (f s) s.
Proof. reflexivity. Qed.
Lemma ret_then {S A B} (a : A) (k : A -> M S B) s : bind (ret a) k s = k a s.
Proof. reflexivity. Qed.

(** ** The controller after [lapicinit] *)

Section Init.
Context (delay : Z -> nat).

Lemma wait_delivery_run : forall n fuel s, busy s = n -> (n < fuel)%nat ->
  wait_delivery fuel s = (Ok tt, mkLap (lapic s) (lregs s) 0 (sent s) (lports s) (lmem s)).
Proof.
  induction n as [|n IH]; intros [|fuel] s Hb Hf; try lia; cbn [wait_delivery].
  - unfold bind, read_icr, get, bind. rewrite Hb. unfold ret. rewrite <- Z.land_assoc. change (Z.land (Z.lnot DELIVS) DELIVS) with 0. rewrite Z.land_0_r.
    destruct s; cbn in *. by subst.
  - unfold bind, read_icr, get, bind. rewrite Hb. unfold modify, ret. rewrite Z.land_lor_distr_l, Z.land_diag.
    assert (Hnz : nz (Z.lor (Z.land (lregs s ICRLO) DELIVS) DELIVS) = true).
    { unfold nz. apply negb_true_iff, Z.eqb_neq. intros E%Z.lor_eq_0_iff. destruct E as [_ E]. discriminate E. }
    rewrite Hnz. rewrite IH; [done|done|lia].
Qed.

(** The timer interrupts periodically at the vector [trap] takes for the timer, errors
    and spurious interrupts at theirs, the two external lines are off, and the
    priority lets every interrupt through. *)
Record initialised (r : Z -> Z) : Prop := mkInitialised {
  in_svr : r SVR = ENABLE + T_IRQ0 + IRQ_SPURIOUS;
  in_timer : r TIMER = PERIODIC + T_IRQ0 + IRQ_TIMER;
  in_count : r TICR = 10000000 /\ r TDCR = X1;
  in_lint : r LINT0 = MASKED /\ r LINT1 = MASKED;
  in_error : r ERROR = T_IRQ0 + IRQ_ERROR;
  in_tpr : r TPR = 0;
}.

Definition with_regs (r : Z -> Z) (s : lap) : lap := mkLap (lapic s) r (busy s) (sent s) (lports s) (lmem s).

Lemma lapicw_run i v s : (i =? ICRLO) = false -> lapicw delay i v s = (Ok tt, with_regs (upd (lregs s) i (u32 v)) s).
Proof. intros H. unfold lapicw, write_reg, bind, modify, gets, ret. by rewrite H. Qed.

Lemma lapicw_send v s : lapicw delay ICRLO v s =
  (Ok tt, mkLap (lapic s) (upd (lregs s) ICRLO (u32 v)) (delay (u32 v)) (sent s ++ [(Z.shiftr (lregs s ICRHI) 24, u32 v)]) (lports s) (lmem s)).
Proof. reflexivity. Qed.

Ltac lapicsteps :=
  repeat (match goal with |- context [bind (lapicw _ ?i ?v) ?k ?s] => rewrite (bind_ok _ _ _ _ _ (lapicw_run i v s eq_refl)) end;
          unfold with_regs; cbn [lapic lregs busy sent lports lmem]).

(** What is read from a register after writes to others. *)
Ltac regread :=
  repeat first [ rewrite upd_eq | rewrite upd_ne by discriminate ].

Lemma lapicinit_run fuel s : lapic s <> 0 -> (delay (BCAST + INIT + LEVEL) < fuel)%nat ->
  exists r, lapicinit delay fuel s = (Ok tt, mkLap (lapic s) r 0 (sent s ++ [(0, BCAST + INIT + LEVEL)]) (lports s) (lmem s))
  /\ initialised r /\ r ID = lregs s ID /\ r VER = lregs s VER
  /\ (4 <= Z.land (Z.shiftr (lregs s VER) 16) 0xFF -> r PCINT = MASKED).
Proof.
  intros Hl Hf. destruct s as [lap regs b snt ports m]. cbn [lapic lregs busy sent lports lmem] in *. unfold lapicinit.
  rewrite gets_then. cbn [lapic]. rewrite (proj2 (Z.eqb_neq _ 0) Hl). lapicsteps.
  rewrite gets_then. cbn [lregs]. regread.
  destruct (Z.leb_spec 4 (Z.land (Z.shiftr (regs VER) 16) 0xFF)) as [Hv|Hv]; [|rewrite ret_then]; lapicsteps.
  all: rewrite (bind_ok _ _ _ _ _ (lapicw_send _ _)); cbn [lapic lregs busy sent lports lmem].
  all: match goal with |- context [bind (wait_delivery ?f) ?k ?s] => rewrite (bind_ok _ _ _ _ _ (wait_delivery_run _ f s eq_refl Hf)) end.
  all: rewrite (lapicw_run TPR 0 _ eq_refl); unfold with_regs; cbn [lapic lregs busy sent lports lmem]; regread.
  all: eexists; split; [reflexivity|]; split; [split; regread; try split; reflexivity|regread; split; [done|split; [done|]]]; first [reflexivity|lia].
Qed.

(** Without a controller nothing happens. *)
Lemma lapicinit_none fuel s : lapic s = 0 -> lapicinit delay fuel s = (Ok tt, s).
Proof. intros H. unfold lapicinit, bind, gets. by rewrite H. Qed.

(** ** Starting another processor *)

(** Where a processor starts that gets a start-up command, in real mode. *)
Definition startup_addr (c : Z) : Z := Z.shiftl (Z.land c 0xff) 12.
(** The address a pointer [seg:off] at [a] names. *)
Definition real_addr (m : mem) (a : Z) : Z := Z.shiftl (load16 m (a + 2)) 4 + load16 m a.

Lemma startup_or v : 0 <= v < 256 -> Z.lor 0x600 v = 0x600 + v.
Proof.
  intros H. symmetry. apply Z.add_nocarry_lor, Z.bits_inj'. intros n Hn. rewrite Z.land_spec, Z.bits_0.
  destruct (Z.ltb_spec n 8).
  - change 0x600 with (6 * 2 ^ 8). by rewrite Z.mul_pow2_bits_low by lia.
  - rewrite <- (Z.mod_small v (2 ^ 8)) by lia. rewrite Z.mod_pow2_bits_high by lia. apply andb_false_r.
Qed.

Lemma wrv_value m addr : addr mod 4096 = 0 -> 0 <= addr < 2 ^ 20 ->
  store16 (store16 m (P2V (Z.lor (Z.shiftl 0x40 4) 0x67) + 2 * 0) 0) (P2V (Z.lor (Z.shiftl 0x40 4) 0x67) + 2 * 1) (Z.shiftr addr 4)
    = store16 (store16 m 0x80000467 0) 0x80000469 (addr / 16)
  /\ real_addr (store16 (store16 m 0x80000467 0) 0x80000469 (addr / 16)) 0x80000467 = addr.
Proof.
  intros Hm Hr. split; [rewrite Z.shiftr_div_pow2 by lia; reflexivity|]. unfold real_addr. rewrite load16_at, load16_ne16, load16_at by lia.
  apply Z.mod_divide in Hm as [q ->]; [|lia]. replace (q * 4096) with (q * 256 * 16) by lia. rewrite Z.div_mul by lia.
  unfold u16. rewrite Z.mod_small, Z.shiftl_mul_pow2 by lia. change (0 mod 2 ^ 16) with 0. lia.
Qed.

Lemma modify_then {S B} (f : S -> S) (k : unit -> M S B) s : bind (modify f) k s = k tt (f s).
Proof. reflexivity. Qed.

(** The commands [lapicstartap] sends, and the warm reset vector it leaves. *)
Lemma lapicstartap_run apicid addr s : 0 <= apicid < 256 -> addr mod 4096 = 0 -> 0 <= addr < 2 ^ 20 ->
  exists r b, lapicstartap delay apicid addr s =
    (Ok tt, mkLap (lapic s) r b
       (sent s ++ [(apicid, INIT + LEVEL + ASSERT); (apicid, INIT + LEVEL); (apicid, STARTUP + addr / 4096); (apicid, STARTUP + addr / 4096)])
       (lports s ++ [(CMOS_PORT, 0xF); (CMOS_PORT + 1, 0x0A)])
       (store16 (store16 (lmem s) 0x80000467 0) 0x80000469 (addr / 16)))
  /\ startup_addr (STARTUP + addr / 4096) = addr
  /\ real_addr (store16 (store16 (lmem s) 0x80000467 0) 0x80000469 (addr / 16)) 0x80000467 = addr
  /\ forall i, i <> ICRLO -> i <> ICRHI -> r i = lregs s i.
Proof.
  intros Ha Hm Hr. destruct s as [lap regs b snt ports m]. cbn [lapic lregs busy sent lports lmem].
  assert (Hid : Z.shiftr (u32 (Z.shiftl apicid 24)) 24 = apicid).
  { rewrite Z.shiftl_mul_pow2, u32_id, Z.shiftr_div_pow2, Z.div_mul by lia. done. }
  assert (Hv : 0 <= addr / 4096 < 256) by (split; [apply Z.div_pos; lia|apply Z.div_lt_upper_bound; lia]).
  assert (Hst : u32 (Z.lor STARTUP (Z.shiftr addr 12)) = STARTUP + addr / 4096).
  { rewrite Z.shiftr_div_pow2 by lia. change (2 ^ 12) with 4096. unfold STARTUP. rewrite (startup_or (addr / 4096) Hv). apply u32_id. lia. }
  destruct (wrv_value m addr Hm Hr) as (Hw1 & Hw2).
  eexists _, _. split; [|split; [|split; [exact Hw2|]]].
  - unfold lapicstartap, outb, set_wrv, microdelay. rewrite !modify_then. cbn [lapic lregs busy sent lports lmem].
    lapicsteps. rewrite (bind_ok _ _ _ _ _ (lapicw_send _ _)), ret_then, (bind_ok _ _ _ _ _ (lapicw_send _ _)), ret_then. cbn [startup_loop].
    lapicsteps. rewrite (bind_ok _ _ _ _ _ (lapicw_send _ _)). unfold microdelay. rewrite ret_then.
    lapicsteps. rewrite (bind_ok _ _ _ _ _ (lapicw_send _ _)). rewrite ret_then. cbn [lapic lregs busy sent lports lmem]. regread.
    rewrite !Hid, !Hst, Hw1, <- !app_assoc. reflexivity.
  - unfold startup_addr. change 0xff with (Z.ones 8). rewrite Z.land_ones, Z.shiftl_mul_pow2 by lia. unfold STARTUP.
    replace (0x600 + addr / 4096) with (addr / 4096 + 6 * 2 ^ 8) by lia. rewrite Z_mod_plus_full, Z.mod_small by lia. pose proof (Z.div_mod addr 4096 ltac:(lia)). lia.
  - intros i H1 H2. cbn [lregs]. by rewrite !upd_ne by done.
Qed.
End Init.
