(* ===== verification/Interrupts.v ===== *)
(** Traps with the devices: the interrupt routines of [Ide], [Kbd], [Console] and
    [Lapic], each over the state of its device, joined to the process table, and what
    every trap of the kernel keeps.

    A device routine touches the process table only by waking channels, and the
    console by the listing of the processes; its own state is any state the device
    and the driver can be in. *)

From Stdlib Require Import ZArith Lia.
From stdpp Require Import base list strings gmap.
From S2P Require Import Asm AsmInv Lapic Bio Ide Console ConsoleInv Kbd.
From S2P Require Import Prelude Kstring Spinlock Kalloc Vm Bytes Blk Log Sleeplock Fs Pipe File Proc Sched ProcInv ProcSpec.
From S2P Require Import Syscall Kernel Exec Sysfile FileInv SysfileInv Trap TrapInv Procinfo KernelInv.
Local Open Scope Z_scope.

Section Interrupts.
Context (im : image).
#[local] Instance here : Env kern := kernel_env im.
Abbreviation SM := (M (sstate kern)).

Fixpoint wake_each (l : list chan) : SM unit :=
  match l with
  | [] => ret tt
  | c :: l' => onp (wakeup c) ;; wake_each l'
  end.

(** Driver code over the state [d] of its device: the channels it wakes, which it
    appends to [wk d], are woken in the table. *)
Definition with_device {D A} (wk : D -> list chan) (m : M D A) (d : D) : SM A := fun s =>
  let '(r, d') := m d in
  match wake_each (drop (length (wk d)) (wk d')) s with
  | (Ok _, s') => (r, s')
  | (Panic e, s') => (Panic e, s')
  | (Sleep c, s') => (Sleep c, s')
  | (Spin, s') => (Spin, s')
  | (UB e, s') => (UB e, s')
  end.

Definition disk_interrupt (d : Ide.ide) : SM unit := with_device (fun d => bwoken (Ide.bc d)) Ide.ideintr d.

(** [consoleintr] with its [procdump]. *)
Definition keys_interrupt (getc : M Console.cons Z) (turns : nat) (c : Console.cons) : SM unit :=
  dump <- with_device Console.woken (consoleintr_keys getc turns) c ;;
  if (dump : bool) then onp procdump else ret tt.
Definition keyboard_interrupt (c : Console.cons) : SM unit := keys_interrupt kbdgetc (kbd_turns c) c.
Definition serial_interrupt (c : Console.cons) : SM unit := keys_interrupt uartgetc (uart_turns c) c.
Definition acknowledge (delay : Z -> nat) (l : Lapic.lap) : SM unit := with_device (fun _ => []) (Lapic.lapiceoi delay) l.

(** [reentrant_spinlock_test] on its own lock. *)
Definition lock_test (stack : mem) (v : Z) (m : Spinlock.machine) : SM unit :=
  onp (cprintf "Kernel: spinlock init!\n") ;;
  with_device (fun _ => []) (Spinlock.reentrant_spinlock_test stack v) m ;;
  onp (cprintf "Kernel: spinlock release!\n").

Lemma wake_each_sound l : sound (wake_each l).
Proof.
  induction l as [|c l IH]; [apply sound_ret|]. apply sound_bind; [|intros _; exact IH].
  intros s Hk. apply wp_onp. by apply wakeup_ok.
Qed.

Lemma with_device_sound {D A} (wk : D -> list chan) (m : M D A) d : sound (with_device wk m d).
Proof.
  intros s Hk. unfold with_device, wp. destruct (m d) as [r d'].
  pose proof (wake_each_sound (drop (length (wk d)) (wk d')) s Hk) as Hw. unfold wp in Hw.
  destruct (wake_each _ s) as [[] s']; try done. by destruct r.
Qed.

Lemma keys_steady getc turns c : steady (keys_interrupt getc turns c).
Proof.
  apply sound_bind; [apply with_device_sound|]. intros [|]; [|apply sound_ret].
  intros s Hk. apply wp_onp. by apply psound_listing.
Qed.

Lemma lock_test_sound stack v m : sound (lock_test stack v m).
Proof.
  assert (Hp : forall t, sound (onp (cprintf t))) by (intros t s Hk; apply wp_onp; by apply psound_cprintf).
  apply sound_bind; [apply Hp|intros _]. apply sound_bind; [apply with_device_sound|intros _; apply Hp].
Qed.

(** A process that [yield] gave up the processor for takes up its trap again. *)
Lemma trap_resume_ok t b (s : sstate kern) : kstate_ok (ps s) ->
  wp (trap_resume t b) (set_ps (set_held [LPtable] (ps s)) s) (trap_ok (user_mode t)).
Proof.
  intros Hk. unfold trap_resume, yield_exit, sched_resume. apply wp_bind, wp_onp, wp_bind. eapply wp_run; [done|].
  eapply wp_run; [apply (release_run LPtable []); [done|apply not_elem_of_nil]|].
  apply trap_last_ok. destruct Hk as [Ht Hh Hc Hn]. by split.
Qed.

Lemma trap_syscall_end_ok (s : sstate kern) : kstate_ok (ps s) -> wp trap_syscall_end s (trap_ok true).
Proof.
  intros Hk. unfold trap_syscall_end. apply wp_bind, wp_myp. intros i p Hi Hp. destruct (killed p) eqn:Hkl; [by apply exit_trap|].
  eapply wp_run; [done|]. split; [done|]. intros _ j q Hj Hq. congruence.
Qed.

Context (trapret forkret_addr low ustack : Z) (cmos : list Z) (cpuid rcr2 : Z).
Context (disk : Ide.ide) (keyboard serial : Console.cons) (delay : Z -> nat) (apic : Lapic.lap) (stack : mem) (v : Z) (mach : Spinlock.machine).

(** The trap handler of the kernel, in any state of the devices. *)
Definition kernel_trap (fuel : nat) : trapframe -> Z -> SM trap_end :=
  trap (syscall trapret forkret_addr low cmos (calls im ustack (lock_test stack v mach)) fuel)
    (disk_interrupt disk) (keyboard_interrupt keyboard) (serial_interrupt serial) (acknowledge delay apic) cpuid rcr2.

(** C24: every trap keeps the process table well formed, with every system call the
    kernel has (those of [sysproc.c], those on files and [exec]) and with the
    interrupt routines of the disk, the keyboard, the serial port and the interrupt
    controller in any state of their devices.  For any trap number, whether it
    returns, ends the process, gives up the processor, or its system call sleeps: the
    table satisfies the invariant.  So do the rest of a trap whose process was
    switched back to and the end of a system call that had slept.  Whenever one of
    the three returns to user mode, the process on the processor has not been
    killed. *)
Theorem kernel_trap_keeps_table fuel t err b (s : sstate kern) :
  kstate_ok (ps s) -> nextpid (ps s) < 2 ^ 31 - 1 ->
  wp (kernel_trap fuel t err) s (trap_ok (user_mode t))
  /\ wp (trap_resume t b) (set_ps (set_held [LPtable] (ps s)) s) (trap_ok (user_mode t))
  /\ wp trap_syscall_end s (trap_ok true).
Proof.
  intros Hk Hn. split; [|split; [by apply trap_resume_ok|by apply trap_syscall_end_ok]].
  apply (trap_keeps trapret forkret_addr low cmos _ (calls_keep im ustack _ (lock_test_sound stack v mach)));
    [apply with_device_sound|apply keys_steady|apply keys_steady|apply with_device_sound|done|done].
Qed.
End Interrupts.

Module KernelRuns.
(** The first process, alone, is in a system call, at a clock interrupt, or at fault. *)
Definition me : proc := set_pid 1 (set_kstack 1 (set_pgdir 1 SysfileInv.Run.me)).
Definition first_alone : sstate kern :=
  mkS (mkP (me :: replicate 63 proc_zero) [] 2 (Some 0%nat) (Some 0%nat) 0 true 0 0 0 0 [] small_kern) (um SysfileInv.Run.start).
#[local] Instance env : Env kern := kernel_env SysfileInv.Run.im.
Definition frame (num trapno : Z) : trapframe := mkTf 0 num 0 0 trapno 0 27 0 4000 0.

Lemma first_alone_ok : kstate_ok (ps first_alone).
Proof.
  assert (Hb : table_ok (<[0%nat := set_state RUNNABLE me]> (replicate NPROC proc_zero)) 2 None None).
  { apply (table_ok_birth _ 1 None None 0 proc_zero _ boot_table_ok); done. }
  assert (Hc : table_ok (<[0%nat := set_state RUNNABLE me]> (replicate NPROC proc_zero)) 2 (Some 0%nat) (Some 0%nat)).
  { apply (table_ok_init _ _ _ None 0 (set_state RUNNABLE me)); [|done|unfold active; auto]. destruct Hb as [B1 B2 B3 B4 B5 B6 B7 B8 B9].
    split; try done. intros i p Hp Hr. by pose proof (B4 i p Hp Hr). }
  split; try done.
  - apply (table_ok_replace _ _ _ _ 0 (set_state RUNNABLE me) me Hc); try done; unfold active; auto.
  - intros i [= <-]. by exists me.
Qed.

(** The disk has just written the block of a buffer; a line has been typed at the
    serial port, none at the keyboard. *)
Definition disk : Ide.ide := snd (Ide.ata_finish false (snd (Ide.ide_rw 0 (Ide.idle Ide.Example_run.two)))).
Definition serial : Console.cons := ConsoleInv.Runs.prompt 0 (ConsoleInv.Runs.some_keys ++ [13]).
Definition apic : Lapic.lap := Lapic.mkLap 0xfee00000 (fun _ => 0) 0 [] [] (fun _ => 0).
Definition handler := kernel_trap SysfileInv.Run.im 1 2 0 0 [] 0 0 disk serial serial (fun _ => 0%nat) apic (fun _ => 0) 0 Spinlock.boot 10.

(** A [pipe] call, a clock interrupt, and the interrupts of the disk, the keyboard and
    the serial port, with the first process on the processor. *)
Lemma kernel_trap_keeps_table_witness :
  (forall num n, wp (handler (frame num n) 0) first_alone (trap_ok (user_mode (frame num n)))
     /\ wp (trap_resume (frame num n) true) (set_ps (set_held [LPtable] (ps first_alone)) first_alone) (trap_ok (user_mode (frame num n)))
     /\ wp trap_syscall_end first_alone (trap_ok true))
  /\ map (fun '(num, n) => (handler (frame num n) 0 first_alone).1) [(4, 64); (0, 32); (0, 46); (0, 33); (0, 36)]
     = [Ok TReturn; Ok (TYield true); Ok TReturn; Ok TReturn; Ok TReturn].
Proof.
  split; [|vm_compute; reflexivity]. intros num n.
  exact (kernel_trap_keeps_table SysfileInv.Run.im 1 2 0 0 [] 0 0 disk serial serial (fun _ => 0%nat) apic (fun _ => 0) 0 Spinlock.boot
    10 (frame num n) 0 true first_alone first_alone_ok eq_refl).
Defined.
End KernelRuns.
