(* ===== verification/Start.v ===== *)
(** How a processor gets to the kernel's C code: [bootasm.S] on the first processor, then
    [entry.S] under the page table [entrypgdir] of [src/main.c]; on the others
    [entryother.S], which [startothers] of [src/main.c] prepares for them.

    The listings are those of [Asm]; [translate] is what the paging hardware does with
    an address, over physical memory. *)

From Stdlib Require Import ZArith Lia.
From stdpp Require Import base list strings functions.
From S2P Require Import Prelude Kstring Spinlock Kalloc Proc Vm Asm AsmInv Lapic.
Local Open Scope Z_scope.

(** ** The boot page table *)

Definition PTE_PS : Z := 0x80.

(** [entrypgdir], by index. *)
Definition entrypgdir (i : Z) : Z :=
  if i =? 0 then Z.lor (Z.lor (Z.lor 0 PTE_P) PTE_W) PTE_PS
  else if i =? Z.shiftr KERNBASE 22 then Z.lor (Z.lor (Z.lor 0 PTE_P) PTE_W) PTE_PS
  else 0.

(** The table is in memory at [a]. *)
Definition table_at (pm : mem) (a : Z) : Prop := forall i, 0 <= i < 1024 -> load32 pm (a + 4 * i) = entrypgdir i.

(** The physical address of a virtual one; large pages when [PSE] is set. *)
Definition translate (c : cpu) (pm : mem) (va : Z) : option Z :=
  if negb (Z.testbit (ctl c CR0) 31) then Some va else
  let pde := load32 pm (ctl c CR3 + 4 * PDX va) in
  if negb (Z.testbit pde 0) then None else
  if Z.testbit pde 7 && Z.testbit (ctl c CR4) 4 then Some (pde / 2 ^ 22 * 2 ^ 22 + va mod 2 ^ 22) else
  let pte := load32 pm (PTE_ADDR pde + 4 * PTX va) in
  if negb (Z.testbit pte 0) then None else Some (PTE_ADDR pte + va mod 4096).

(** Both halves of the boot table: 4 Mbyte at 0 and at [KERNBASE]. *)
Record boot_mapping (c : cpu) (pm : mem) : Prop := mkBootMapping {
  bm_low : forall va, 0 <= va < 2 ^ 22 -> translate c pm va = Some va;
  bm_high : forall va, KERNBASE <= va < KERNBASE + 2 ^ 22 -> translate c pm va = Some (va - KERNBASE);
  bm_none : forall va, 2 ^ 22 <= va < KERNBASE \/ KERNBASE + 2 ^ 22 <= va < 2 ^ 32 -> translate c pm va = None;
}.

Lemma boot_mapping_ok c pm a : table_at pm a -> ctl c CR3 = a -> Z.testbit (ctl c CR0) 31 = true -> Z.testbit (ctl c CR4) 4 = true -> boot_mapping c pm.
Proof.
  intros Ht Ha H0 H4.
  assert (E : forall va, 0 <= va < 2 ^ 32 -> translate c pm va =
    let pde := entrypgdir (va / 2 ^ 22) in if negb (Z.testbit pde 0) then None else Some (pde / 2 ^ 22 * 2 ^ 22 + va mod 2 ^ 22)).
  { intros va Hva. unfold translate. cbv zeta. rewrite H0, H4, Ha. cbn [negb]. destruct (PDX_div va Hva) as [-> Hr]. rewrite (Ht (va / 2 ^ 22)).
    - unfold entrypgdir. change (Z.shiftr KERNBASE 22) with 512. destruct (va / 2 ^ 22 =? 0); [reflexivity|]. destruct (va / 2 ^ 22 =? 512); reflexivity.
    - exact Hr. }
  assert (Hk : forall va, KERNBASE <= va < KERNBASE + 2 ^ 22 -> va / 2 ^ 22 = 512 /\ va mod 2 ^ 22 = va - KERNBASE).
  { intros va Hva. unfold KERNBASE in *. pose proof (Z.div_mod va (2 ^ 22) ltac:(lia)). pose proof (Z.mod_pos_bound va (2 ^ 22) ltac:(lia)).
    assert (va / 2 ^ 22 = 512) by (symmetry; apply (Z.div_unique va (2 ^ 22) 512 (va - 0x80000000)); lia). lia. }
  split.
  - intros va Hva. rewrite E by lia. rewrite (Z.div_small va), (Z.mod_small va) by lia. done.
  - intros va Hva. rewrite E by (unfold KERNBASE in *; lia). destruct (Hk va Hva) as [-> ->]. cbn. done.
  - intros va Hva. assert (Hne : va / 2 ^ 22 <> 0 /\ va / 2 ^ 22 <> 512).
    { pose proof (Z.div_mod va (2 ^ 22) ltac:(lia)). pose proof (Z.mod_pos_bound va (2 ^ 22) ltac:(unfold KERNBASE in *; lia)). unfold KERNBASE in *. lia. }
    rewrite E by (unfold KERNBASE in *; lia). unfold entrypgdir. change (Z.shiftr KERNBASE 22) with 512.
    rewrite !(proj2 (Z.eqb_neq _ _)) by tauto. done.
Qed.

(** ** The first processor *)

Section Boot.
Context (dpl : Z -> Z).

Lemma entry_run c pgdir stack main : 0 <= stack + KSTACKSIZE < 2 ^ 32 -> 0 <= main < 2 ^ 32 ->
  exists c', run dpl 11 (Asm.entry pgdir stack main) 0 c = (Ok (To main), c')
  /\ gpr c' ESP = stack + KSTACKSIZE /\ ctl c' CR3 = Proc.V2P pgdir /\ ctl c' CR0 = Z.lor (ctl c CR0) (Z.lor CR0_PG CR0_WP)
  /\ ctl c' CR4 = Z.lor (ctl c CR4) CR4_PSE /\ cmem c' = cmem c /\ seg c' = seg c.
Proof.
  intros Hs Hm. destruct c as [g sg ct f gd m i o]. eexists. split; [cpurun; rewrite (u32_id main) by lia; reflexivity|].
  repeat split; cpurun; rewrite ?(u32_id (u32 _)) by apply u32_range; try reflexivity. apply u32_id. exact Hs.
Qed.

(** Waiting for the keyboard controller: three instructions that go round while bit 1
    of its status is set. *)
Definition kbc_busy (b : Z) : bool := negb (Z.land (u8 b) 2 =? 0).

(** What the loop leaves alone. *)
Record waited (c c' : cpu) (rest : list Z) : Prop := mkWaited {
  wt_gpr : forall r, r <> EAX -> gpr c' r = gpr c r;
  wt_seg : seg c' = seg c;
  wt_ctl : ctl c' = ctl c;
  wt_mem : cmem c' = cmem c;
  wt_gdtr : Asm.gdtr c' = Asm.gdtr c;
  wt_if : Z.land (flags c') FL_IF = Z.land (flags c) FL_IF;
  wt_in : inputs c' = rest;
  wt_out : outputs c' = outputs c;
}.

Lemma waited_trans c1 c2 c3 r2 r3 : waited c1 c2 r2 -> waited c2 c3 r3 -> waited c1 c3 r3.
Proof using. intros [] []. split; try congruence. intros r Hr. rewrite wt_gpr1, wt_gpr0; done. Qed.

Lemma u8_low8 old v : u8 (low8 old v) = u8 v.
Proof using.
  unfold low8, u8. apply Z.bits_inj'. intros n Hn. rewrite !testbit_mod_pow2, Z.lor_spec, Z.land_spec, testbit_mod_pow2 by lia.
  destruct (Z.ltb_spec n 8); cbn [andb]; [|done]. replace (Z.testbit 0xffffff00 n) with false; [by rewrite andb_false_r|].
  symmetry. change 0xffffff00 with (0xffffff * 2 ^ 8). apply Z.mul_pow2_bits_low. lia.
Qed.

Lemma jump_flags f v : (Z.land (if v =? 0 then Z.lor f FL_ZF else Z.land f (Z.lnot FL_ZF)) FL_ZF =? 0) = negb (v =? 0).
Proof using.
  destruct (v =? 0); cbn [negb].
  - apply Z.eqb_neq. rewrite Z.land_lor_distr_l. change (Z.land FL_ZF FL_ZF) with FL_ZF. intros [_ E]%Z.lor_eq_0_iff. discriminate E.
  - rewrite <- Z.land_assoc. change (Z.land (Z.lnot FL_ZF) FL_ZF) with 0. rewrite Z.land_0_r. done.
Qed.

Lemma kept_if (b : bool) f : Z.land (if b then Z.lor f FL_ZF else Z.land f (Z.lnot FL_ZF)) FL_IF = Z.land f FL_IF.
Proof using.
  destruct b.
  - rewrite Z.land_lor_distr_l. change (Z.land FL_ZF FL_IF) with 0. by rewrite Z.lor_0_r.
  - rewrite <- Z.land_assoc. change (Z.land (Z.lnot FL_ZF) FL_IF) with FL_IF. done.
Qed.

(** One turn of the loop. *)
Lemma wait_turn code l k c b rest :
  code !! l = Some (Inb 0x64) -> code !! S l = Some (Testb 2 EAX) -> code !! S (S l) = Some (Jnz l) -> inputs c = b :: rest ->
  exists c', waited c c' rest /\ run dpl (3 + k) code l c = run dpl k code (if kbc_busy b then l else S (S (S l))) c'.
Proof using.
  intros H1 H2 H3 Hi. set (c1 := set_gpr EAX (low8 (gpr c EAX) b) (set_inputs rest c)).
  set (v := Z.land (u8 (gpr c1 EAX)) 2). set (c2 := set_eflags (if v =? 0 then Z.lor (flags c1) FL_ZF else Z.land (flags c1) (Z.lnot FL_ZF)) c1).
  exists c2. split.
  - split; try reflexivity; [|apply kept_if]. intros r Hr. cbn. by rewrite fn_lookup_insert_ne by congruence.
  - change (3 + k)%nat with (S (S (S k))). rewrite (run_next dpl _ _ _ _ c c1 H1), (run_next dpl _ _ _ _ c1 c2 H2); [|reflexivity|].
    + cbn [run]. rewrite H3. unfold step, get, bind, ret. change (flags c2) with (if v =? 0 then Z.lor (flags c1) FL_ZF else Z.land (flags c1) (Z.lnot FL_ZF)).
      rewrite jump_flags. unfold v. change (gpr c1 EAX) with (<[EAX := low8 (gpr c EAX) b]> (gpr c) EAX). rewrite fn_lookup_insert, u8_low8. fold (kbc_busy b). by destruct (kbc_busy b).
    + unfold step, get, bind. rewrite Hi. reflexivity.
Qed.

Lemma wait_loop code l r rest : code !! l = Some (Inb 0x64) -> code !! S l = Some (Testb 2 EAX) -> code !! S (S l) = Some (Jnz l) -> kbc_busy r = false ->
  forall bs k c, forallb kbc_busy bs = true -> inputs c = bs ++ r :: rest ->
  exists c', waited c c' rest /\ run dpl (3 * S (length bs) + k) code l c = run dpl k code (S (S (S l))) c'.
Proof using.
  intros H1 H2 H3 Hr. induction bs as [|b bs IH]; intros k c Hb Hi.
  - destruct (wait_turn code l k c r rest H1 H2 H3 Hi) as (c' & Hw & Hrun). exists c'. split; [exact Hw|]. rewrite Hr in Hrun. exact Hrun.
  - cbn in Hb. apply andb_true_iff in Hb as [Hb1 Hb2]. destruct (wait_turn code l (3 * S (length bs) + k) c b _ H1 H2 H3 Hi) as (c1 & Hw1 & Hrun1). rewrite Hb1 in Hrun1.
    destruct (IH k c1 Hb2 (wt_in _ _ _ Hw1)) as (c' & Hw' & Hrun'). exists c'. split; [exact (waited_trans _ _ _ _ _ Hw1 Hw')|].
    replace (3 * S (length (b :: bs)) + k)%nat with (3 + (3 * S (length bs) + k))%nat by (cbn [length]; lia). by rewrite Hrun1.
Qed.

Section Loader.
Context (gdtdesc start bootmain back : Z).
Let code : list instr := bootasm gdtdesc start bootmain back.

Ltac insn :=
  match goal with |- context [run dpl (S ?n) ?cd ?l ?c] => rewrite (run_next dpl n cd l _ c _ eq_refl eq_refl) end.

(** Interrupts off and zero segments, up to the first wait. *)
Lemma boot_head k c : exists c', run dpl (5 + k) code 0 c = run dpl k code 5 c'
  /\ (forall r, r <> EAX -> gpr c' r = gpr c r) /\ ctl c' = ctl c /\ cmem c' = cmem c /\ Z.land (flags c') FL_IF = 0 /\ inputs c' = inputs c /\ outputs c' = outputs c.
Proof using.
  change (5 + k)%nat with (S (S (S (S (S k))))). do 5 insn. eexists. split; [reflexivity|].
  split; [intros r Hr; cbn; by rewrite ?fn_lookup_insert_ne by congruence|]. do 2 (split; [reflexivity|]). split; [|done].
  cbn. rewrite kept_if, <- Z.land_assoc. change (Z.land (Z.lnot FL_IF) FL_IF) with 0. apply Z.land_0_r.
Qed.

Lemma boot_middle k c : exists c', run dpl (2 + k) code 8 c = run dpl k code 10 c'
  /\ (forall r, r <> EAX -> gpr c' r = gpr c r) /\ ctl c' = ctl c /\ cmem c' = cmem c /\ flags c' = flags c /\ inputs c' = inputs c /\ outputs c' = outputs c ++ [(0x64, 0xd1)].
Proof using.
  change (2 + k)%nat with (S (S k)). do 2 insn. eexists. split; [reflexivity|].
  split; [intros r Hr; cbn; by rewrite ?fn_lookup_insert_ne by congruence|]. do 4 (split; [reflexivity|]).
  cbn. rewrite fn_lookup_insert, u8_low8. reflexivity.
Qed.

(** The second byte, the descriptor table, protected mode and the stack. *)
Lemma boot_tail c : 4 <= start < 2 ^ 32 ->
  exists c', run dpl 16 code 13 c = (Ok (To bootmain), c')
  /\ gpr c' ESP = start - 4 /\ cmem c' = store32 (cmem c) (start - 4) back /\ ctl c' CR0 = Z.lor (ctl c CR0) CR0_PE
  /\ seg c' CS = 8 /\ seg c' DS = 16 /\ seg c' ES = 16 /\ seg c' SS = 16 /\ seg c' FS = 0 /\ seg c' GS = 0 /\ Asm.gdtr c' = gdtdesc
  /\ Z.land (flags c') FL_IF = Z.land (flags c) FL_IF /\ inputs c' = inputs c /\ outputs c' = outputs c ++ [(0x60, 0xdf)].
Proof using.
  intros Hs. destruct c as [g sg ct f gd m i o]. unfold code.
  eexists. split; [cpurun; reflexivity|]. repeat split; try (cpurun; rewrite ?u16_low16; reflexivity).
  - cpurun. rewrite (u32_id start), u32_id by lia. reflexivity.
  - cpurun. rewrite (u32_id start), u32_id by lia. reflexivity.
  - cbn [flags]. apply kept_if.
  - cpurun. rewrite u8_low8. reflexivity.
Qed.
End Loader.

(** ** The other processors *)

Lemma entryother_run c gdtdesc start back : 12 <= start < 2 ^ 32 -> let m := cmem c in 4 <= load32 m (start - 4) < 2 ^ 32 ->
  exists c', run dpl 27 (entryother gdtdesc start back) 0 c = (Ok (To (load32 m (start - 8))), c')
  /\ gpr c' ESP = load32 m (start - 4) - 4 /\ ctl c' CR3 = load32 m (start - 12) /\ Z.testbit (ctl c' CR0) 31 = true /\ Z.testbit (ctl c' CR4) 4 = true
  /\ seg c' CS = 8 /\ seg c' DS = 16 /\ seg c' ES = 16 /\ seg c' SS = 16 /\ seg c' FS = 0 /\ seg c' GS = 0 /\ Asm.gdtr c' = gdtdesc
  /\ Z.land (flags c') FL_IF = 0 /\ cmem c' = store32 m (load32 m (start - 4) - 4) back.
Proof using.
  intros Hs m Hsp. destruct c as [g sg ct f gd m0 i o]. cbn [cmem] in m. subst m.
  eexists. split; [cpurun; reflexivity|]. repeat split; try (cpurun; rewrite ?u16_low16; reflexivity).
  - cpurun. rewrite u32_id by lia. reflexivity.
  - change (Z.testbit (Z.lor (Z.lor (ct CR0) CR0_PE) (Z.lor CR0_PE (Z.lor CR0_PG CR0_WP))) 31 = true). rewrite Z.lor_spec. apply orb_true_r.
  - change (Z.testbit (Z.lor (ct CR4) CR4_PSE) 4 = true). rewrite Z.lor_spec. apply orb_true_r.
  - cbn [flags]. rewrite !kept_if, <- Z.land_assoc. change (Z.land (Z.lnot FL_IF) FL_IF) with 0. apply Z.land_0_r.
  - cpurun. rewrite u32_id by lia. reflexivity.
Qed.
End Boot.

(** The boot processor: kernel memory and the free pages, its interrupt controller, and
    the [started] flags of [cpus]. *)
Record bsp := mkBsp { bkm : kmem; blap : lap; bstarted : nat -> bool }.
Abbreviation SM := (M bsp).

Definition on_pages {A} (m : M kmem A) : SM A := zoom bkm (fun k s => mkBsp k (blap s) (bstarted s)) m.
(** The controller's code sees the same memory. *)
Definition on_lapic {A} (m : M lap A) : SM A :=
  zoom (fun s => let l := blap s in mkLap (lapic l) (lregs l) (busy l) (sent l) (lports l) (memory (bkm s)))
       (fun l s => mkBsp (set_memory (lmem l) (bkm s)) l (bstarted s)) m.

Section Others.
(** Addresses the linker fixes, the command delays of the controller, and for each
    processor how many times its flag is read before it has set it. *)
Context (other_start other_size mpenter pgdir : Z) (delay : Z -> nat) (answers : nat -> nat).

Definition ap_code : Z := P2V 0x7000.

(** The body of the loop of [startothers] up to the wait. *)
Definition launch (apicid : Z) : SM unit :=
  stack <- on_pages kalloc ;;
  on_pages (store (ap_code - 4) (stack + KSTACKSIZE)) ;;
  on_pages (store (ap_code - 8) mpenter) ;;
  on_pages (store (ap_code - 12) (V2P pgdir)) ;;
  on_lapic (lapicstartap delay apicid (V2P ap_code)).

(** [while(c->started == 0)]: a processor sets its flag in [mpmain]. *)
Fixpoint wait_started (fuel n : nat) (i : nat) : SM unit :=
  match fuel with
  | O => spin
  | S k =>
      b <- gets (fun s => bstarted s i) ;;
      if negb b then
        (if (n <? answers i)%nat then ret tt
         else modify (fun s => mkBsp (bkm s) (blap s) (fun j => if (j =? i)%nat then true else bstarted s j))) ;;
        wait_started k (S n) i
      else ret tt
  end.

Fixpoint startothers_loop (fuel : nat) (self i : nat) (apicids : list Z) : SM unit :=
  match apicids with
  | [] => ret tt
  | a :: l =>
      (if (i =? self)%nat then ret tt
       else launch a ;; wait_started fuel 0 i) ;;
      startothers_loop fuel self (S i) l
  end.

Definition startothers (fuel self : nat) (apicids : list Z) : SM unit :=
  on_pages (move ap_code other_start other_size) ;;
  startothers_loop fuel self 0 apicids.
End Others.

(** ** What a started processor does *)

(** Physical memory, of which the kernel's is the part above [KERNBASE], and memory as a
    processor under the boot page table sees it: physical below, the kernel's above. *)
Definition phys (m : mem) : mem := fun x => m (x + KERNBASE).
Definition low_view (m : mem) : mem := fun x => if x <? KERNBASE then phys m x else m x.

(** The words below the code, and the warm reset vector. *)
Definition launch_area (x : Z) : Prop := 0x80006ff4 <= x < 0x80007000 \/ 0x80000467 <= x < 0x8000046b.

Lemma launch_run kend mpenter pgdir delay apicid s p l :
  kmem_ok kend (bkm s) (p :: l) -> KERNLINK <= kend -> 0 <= apicid < 256 -> 0 <= mpenter < 2 ^ 32 ->
  exists s', launch mpenter pgdir delay apicid s = (Ok tt, s') /\ kmem_ok kend (bkm s') l /\ bstarted s' = bstarted s
  /\ (let m := memory (bkm s') in load32 m (ap_code - 4) = p + KSTACKSIZE /\ load32 m (ap_code - 8) = mpenter /\ load32 m (ap_code - 12) = V2P pgdir
      /\ forall x, ~ launch_area x -> m x = memory (bkm s) x)
  /\ sent (blap s') = sent (blap s) ++ [(apicid, INIT + LEVEL + ASSERT); (apicid, INIT + LEVEL); (apicid, STARTUP + 7); (apicid, STARTUP + 7)]
  /\ startup_addr (STARTUP + 7) = V2P ap_code /\ real_addr (memory (bkm s')) 0x80000467 = V2P ap_code.
Proof.
  intros Hk Hend Ha Hm. destruct (kalloc_ok kend (bkm s) (p :: l) Hk) as (k1 & Hka & Hk1 & Hm1 & _). cbn in Hka, Hk1.
  pose proof (ok_pages _ _ _ Hk) as HF. apply Forall_cons_1 in HF as [(Hpm & Hpe & Hpr) HF].
  set (m3 := store32 (store32 (store32 (memory k1) (ap_code - 4) (p + KSTACKSIZE)) (ap_code - 8) mpenter) (ap_code - 12) (V2P pgdir)).
  destruct (lapicstartap_run delay apicid (V2P ap_code) (mkLap (lapic (blap s)) (lregs (blap s)) (busy (blap s)) (sent (blap s)) (lports (blap s)) m3) Ha eq_refl)
    as (r & b & Hrun & Hst & Hreal & _); [by vm_compute|]. cbn [lapic lregs busy sent lports lmem] in *. change (V2P ap_code / 4096) with 7 in *. change (V2P ap_code / 16) with 0x700 in *.
  set (m4 := store16 (store16 m3 0x80000467 0) 0x80000469 0x700) in *.
  eexists. split.
  { unfold launch. rewrite (bind_ok (on_pages kalloc) _ s (mkBsp k1 (blap s) (bstarted s)) p); [|unfold on_pages, zoom; by rewrite Hka].
    cbn [store on_pages zoom]. unfold store, on_pages, zoom, modify, bind. cbn [bkm blap bstarted memory set_memory].
    unfold on_lapic, zoom. cbn [bkm blap bstarted memory set_memory]. change (store32 (store32 (store32 (memory k1) (ap_code - 4) (p + KSTACKSIZE)) (ap_code - 8) mpenter) (ap_code - 12) (V2P pgdir)) with m3.
    rewrite Hrun. reflexivity. }
  cbn [bkm blap bstarted memory set_memory sent lmem].
  assert (Hout : forall x, ~ launch_area x -> m4 x = memory (bkm s) x).
  { intros x Hx. unfold launch_area in Hx. unfold m4, m3. change ap_code with 0x80007000. rewrite !store16_other, !store32_other, Hm1 by lia. reflexivity. }
  split; [|split; [reflexivity|split; [|split; [reflexivity|split; [exact Hst|exact Hreal]]]]].
  - apply (kmem_ok_ext kend k1); [exact Hk1|reflexivity|reflexivity|]. intros a x Hal Hx. cbn. rewrite Hout, Hm1; [reflexivity|].
    rewrite Forall_forall in HF. destruct (HF a (proj1 (list_elem_of_In _ _) Hal)) as (_ & Hae & _). unfold in_page, launch_area, KERNLINK, KERNBASE, EXTMEM in *. lia.
  - unfold m4, m3. change ap_code with 0x80007000. split; [|split; [|split; [|exact Hout]]].
    + memread. apply u32_id. unfold KERNBASE, PHYSTOP, KSTACKSIZE in *. lia.
    + memread. by apply u32_id.
    + memread. apply u32_id. apply u32_range.
Qed.

(** C28: starting another processor.  [startothers] takes a page of its own for the
    processor's stack, writes the stack, the entry point and the page table below the code at
    0x7000, and sends the processor its start-up commands, which name that code.  A
    processor that begins [entryother.S] with the memory so left arrives in [mpenter], in
    protected mode with paging on, under the boot page table, which maps the first 4
    Mbyte at 0 and at KERNBASE and nothing else, with interrupts off and on that stack. *)
Theorem started_processor kend mpenter pgdir delay apicid s p l dpl gdtdesc back :
  kmem_ok kend (bkm s) (p :: l) -> KERNLINK <= kend -> 0 <= apicid < 256 -> KERNBASE <= mpenter < 2 ^ 32 ->
  KERNLINK <= pgdir -> pgdir + 4096 <= KERNBASE + PHYSTOP -> table_at (phys (memory (bkm s))) (V2P pgdir) ->
  exists s', launch mpenter pgdir delay apicid s = (Ok tt, s') /\ kmem_ok kend (bkm s') l
  /\ sent (blap s') = sent (blap s) ++ [(apicid, INIT + LEVEL + ASSERT); (apicid, INIT + LEVEL); (apicid, STARTUP + 7); (apicid, STARTUP + 7)]
  /\ startup_addr (STARTUP + 7) = 0x7000
  /\ forall c, cmem c = low_view (memory (bkm s')) ->
     exists c', run dpl 27 (entryother gdtdesc 0x7000 back) 0 c = (Ok (To mpenter), c')
     /\ gpr c' ESP = p + KSTACKSIZE - 4 /\ load32 (cmem c') (gpr c' ESP) = u32 back
     /\ boot_mapping c' (phys (memory (bkm s'))) /\ seg c' CS = 8 /\ seg c' DS = 16 /\ seg c' ES = 16 /\ seg c' SS = 16 /\ Z.land (flags c') FL_IF = 0.
Proof.
  intros Hk Hend Ha Hm Hpg Hpg2 Htab. pose proof (ok_pages _ _ _ Hk) as HF. apply Forall_cons_1 in HF as [(Hpm & Hpe & Hpr) _].
  destruct (launch_run kend mpenter pgdir delay apicid s p l Hk Hend Ha) as (s' & Hrun & Hk' & _ & (Hw1 & Hw2 & Hw3 & Hout) & Hsent & Hst & _); [unfold KERNBASE in *; lia|].
  exists s'. split; [exact Hrun|]. split; [exact Hk'|]. split; [exact Hsent|]. split; [exact Hst|]. intros c Hc. change ap_code with (0x7000 + KERNBASE) in *.
  assert (Hlow : forall k, 4 <= k <= 12 -> load32 (cmem c) (0x7000 - k) = load32 (memory (bkm s')) (0x7000 + KERNBASE - k)).
  { intros k Hk0. rewrite Hc. unfold load32, low_view, phys. rewrite !(proj2 (Z.ltb_lt _ _)) by (unfold KERNBASE; lia). repeat (f_equal; try lia). }
  assert (Hstack : load32 (cmem c) (0x7000 - 4) = p + KSTACKSIZE) by (rewrite Hlow by lia; exact Hw1).
  destruct (entryother_run dpl c gdtdesc 0x7000 back ltac:(lia)) as (c' & Hrun' & Hsp & Hcr3 & Hpg0 & Hpse & Hcs & Hds & Hes & Hss & _ & _ & _ & Hif & Hmem).
  { rewrite Hstack. unfold KERNBASE, PHYSTOP, KSTACKSIZE in *. lia. }
  rewrite (Hlow 8) in Hrun' by lia. rewrite Hw2 in Hrun'. exists c'. split; [exact Hrun'|]. rewrite Hsp, Hstack. split; [reflexivity|]. split.
  { rewrite Hmem, Hstack. apply load32_store32. }
  split; [|do 4 (split; [assumption|]); exact Hif].
  apply (boot_mapping_ok c' _ (V2P pgdir)); [|rewrite Hcr3, (Hlow 12) by lia; exact Hw3|exact Hpg0|exact Hpse].
  intros i Hi. rewrite <- (Htab i Hi). apply load32_ext. intros x Hx. unfold phys. apply Hout.
  assert (EV : V2P pgdir = pgdir - KERNBASE) by (unfold V2P; apply u32_id; unfold KERNLINK, KERNBASE, PHYSTOP, EXTMEM in *; lia).
  rewrite EV in Hx. unfold launch_area, KERNLINK, KERNBASE, EXTMEM in *. lia.
Qed.

(** the first processor.  [bootasm.S] waits twice for the keyboard controller, however
    long that is busy, sends it the two bytes that open address line 20, and calls the
    loader in protected mode with flat segments, interrupts off and the stack below the
    boot sector.  [entry.S], where the loader goes, turns paging on under [entrypgdir] and
    goes to [main] on the boot stack: the low addresses it runs at stay what
    they were, and [main]'s address leads to the code the loader put there. *)
Theorem first_processor dpl gdtdesc start bootmain back pgdir stack main c bs1 r1 bs2 r2 rest c2 :
  4 <= start < 2 ^ 32 -> forallb kbc_busy bs1 = true -> kbc_busy r1 = false -> forallb kbc_busy bs2 = true -> kbc_busy r2 = false ->
  inputs c = bs1 ++ r1 :: bs2 ++ r2 :: rest ->
  0 <= stack + KSTACKSIZE < 2 ^ 32 -> KERNBASE <= main < KERNBASE + 2 ^ 22 -> table_at (cmem c2) (V2P pgdir) ->
  (exists c1, run dpl (5 + (3 * S (length bs1) + (2 + (3 * S (length bs2) + 16)))) (bootasm gdtdesc start bootmain back) 0 c = (Ok (To bootmain), c1)
   /\ gpr c1 ESP = start - 4 /\ cmem c1 = store32 (cmem c) (start - 4) back /\ Z.testbit (ctl c1 CR0) 0 = true
   /\ seg c1 CS = 8 /\ seg c1 DS = 16 /\ seg c1 ES = 16 /\ seg c1 SS = 16 /\ Asm.gdtr c1 = gdtdesc
   /\ Z.land (flags c1) FL_IF = 0 /\ inputs c1 = rest /\ outputs c1 = outputs c ++ [(0x64, 0xd1); (0x60, 0xdf)])
  /\ (exists c3, run dpl 11 (Asm.entry pgdir stack main) 0 c2 = (Ok (To main), c3) /\ gpr c3 ESP = stack + KSTACKSIZE
      /\ boot_mapping c3 (cmem c2) /\ translate c3 (cmem c2) main = Some (main - KERNBASE)).
Proof.
  intros Hs Hb1 Hr1 Hb2 Hr2 Hi Hst Hm Ht. split.
  - destruct (boot_head dpl gdtdesc start bootmain back (3 * S (length bs1) + (2 + (3 * S (length bs2) + 16))) c) as (ca & Ea & _ & _ & Ma & Fa & Ia & Oa).
    rewrite Hi in Ia. destruct (wait_loop dpl (bootasm gdtdesc start bootmain back) 5 r1 _ eq_refl eq_refl eq_refl Hr1 bs1 (2 + (3 * S (length bs2) + 16)) ca Hb1 Ia) as (cb & Wb & Eb).
    destruct (boot_middle dpl gdtdesc start bootmain back (3 * S (length bs2) + 16) cb) as (cc & Ec & _ & _ & Mc & Fc & Ic & Oc).
    rewrite (wt_in _ _ _ Wb) in Ic. destruct (wait_loop dpl (bootasm gdtdesc start bootmain back) 10 r2 rest eq_refl eq_refl eq_refl Hr2 bs2 16 cc Hb2 Ic) as (cd & Wd & Ed).
    destruct (boot_tail dpl gdtdesc start bootmain back cd Hs) as (c1 & E1 & Hsp & Hmem & Hcr & Hcs & Hds & Hes & Hss & _ & _ & Hg & Hif & Hin & Hout).
    exists c1. rewrite Ea, Eb, Ec, Ed, E1. split; [reflexivity|]. split; [exact Hsp|]. split; [by rewrite Hmem, (wt_mem _ _ _ Wd), Mc, (wt_mem _ _ _ Wb), Ma|].
    split; [rewrite Hcr, Z.lor_spec; apply orb_true_r|]. do 5 (split; [assumption|]).
    split; [by rewrite Hif, (wt_if _ _ _ Wd), Fc, (wt_if _ _ _ Wb)|]. split; [by rewrite Hin, (wt_in _ _ _ Wd)|].
    by rewrite Hout, (wt_out _ _ _ Wd), Oc, (wt_out _ _ _ Wb), Oa, <- app_assoc.
  - destruct (entry_run dpl c2 pgdir stack main Hst ltac:(unfold KERNBASE in *; lia)) as (c3 & Hrun & Hsp & Hcr3 & Hcr0 & Hcr4 & _). exists c3. split; [exact Hrun|]. split; [exact Hsp|].
    assert (HB : boot_mapping c3 (cmem c2)).
    { apply (boot_mapping_ok c3 _ (V2P pgdir) Ht); [exact Hcr3| |]; [rewrite Hcr0|rewrite Hcr4]; rewrite Z.lor_spec; apply orb_true_r. }
    split; [exact HB|]. by apply (bm_high _ _ HB).
Qed.

(** ** [startothers] returns *)

Lemma wait_started_run answers i : forall fuel n s, (answers i - n + 2 <= fuel)%nat ->
  exists s', wait_started answers fuel n i s = (Ok tt, s') /\ bkm s' = bkm s /\ blap s' = blap s /\ bstarted s' i = true
  /\ forall j, j <> i -> bstarted s' j = bstarted s j.
Proof.
  induction fuel as [|fuel IH]; intros n s Hf; [lia|]. cbn [wait_started]. rewrite gets_then. destruct (bstarted s i) eqn:E; cbn [negb].
  { exists s. done. }
  destruct (Nat.ltb_spec n (answers i)).
  - rewrite ret_then. apply IH. lia.
  - rewrite modify_then. set (s1 := mkBsp (bkm s) (blap s) (fun j => if (j =? i)%nat then true else bstarted s j)).
    destruct fuel as [|fuel]; [lia|]. cbn [wait_started]. rewrite gets_then. cbn [bstarted s1]. rewrite Nat.eqb_refl. cbn [negb]. exists s1. do 3 (split; [done|]).
    split; [by cbn; rewrite Nat.eqb_refl|]. intros j Hj. cbn. by rewrite (proj2 (Nat.eqb_neq j i) Hj).
Qed.

(** Every other processor is started, on a page of its own. *)
Lemma startothers_loop_run kend mpenter pgdir delay answers fuel self : KERNLINK <= kend -> 0 <= mpenter < 2 ^ 32 ->
  forall apicids i s l, kmem_ok kend (bkm s) l -> Forall (fun a => 0 <= a < 256) apicids -> (length apicids <= length l)%nat ->
  (forall j, (answers j + 2 <= fuel)%nat) ->
  exists s' u, startothers_loop mpenter pgdir delay answers fuel self i apicids s = (Ok tt, s') /\ kmem_ok kend (bkm s') (drop (length u) l) /\ u = take (length u) l
  /\ (forall j, (i <= j < i + length apicids)%nat -> j <> self -> bstarted s' j = true)
  /\ (forall j, bstarted s j = true -> bstarted s' j = true)
  /\ (forall x, ~ launch_area x -> memory (bkm s') x = memory (bkm s) x)
  /\ length u = length (filter (fun j => j <> self) (seq i (length apicids))).
Proof.
  intros Hend Hm. induction apicids as [|a apicids IH]; intros i s l Hk Ha Hl Hans; cbn [startothers_loop].
  { exists s, []. do 3 (split; [done|]). split; [cbn; lia|]. done. }
  apply Forall_cons_1 in Ha as [Ha1 Ha2]. cbn [length] in Hl. destruct (Nat.eqb_spec i self) as [->|Hne].
  - rewrite ret_then. destruct (IH (S self) s l Hk Ha2 ltac:(lia) Hans) as (s' & u & Hrun & Hk' & Hu & Hst & Hmono & Hmem & Hlen).
    exists s', u. do 3 (split; [done|]). split; [intros j Hj Hj'; apply Hst; [cbn in Hj; lia|done]|]. do 2 (split; [done|]). cbn [seq length]. rewrite filter_cons_False; [done|]. by intros [].
  - destruct l as [|p l]; [cbn in Hl; lia|]. destruct (launch_run kend mpenter pgdir delay a s p l Hk Hend Ha1 Hm) as (s1 & Hrun1 & Hk1 & Hst1 & (_ & _ & _ & Hout1) & _).
    rewrite bind_bind, (bind_ok _ _ _ _ _ Hrun1). destruct (wait_started_run answers i fuel 0 s1 ltac:(specialize (Hans i); lia)) as (s2 & Hrun2 & Hk2 & _ & Hi2 & Hj2).
    rewrite (bind_ok _ _ _ _ _ Hrun2). rewrite <- Hk2 in Hk1.
    destruct (IH (S i) s2 l Hk1 Ha2 ltac:(cbn in Hl; lia) Hans) as (s' & u & Hrun & Hk' & Hu & Hst & Hmono & Hmem & Hlen).
    exists s', (p :: u). split; [done|]. split; [done|]. split; [cbn; by rewrite <- Hu|]. split; [|split; [|split]].
    + intros j Hj Hj'. destruct (decide (j = i)) as [->|]; [by apply Hmono|]. apply Hst; [cbn in Hj; lia|done].
    + intros j Hj. apply Hmono. destruct (decide (j = i)) as [->|]; [done|]. rewrite Hj2 by done. by rewrite Hst1.
    + intros x Hx. by rewrite Hmem, Hk2, Hout1.
    + cbn [seq length]. rewrite filter_cons_True by done. cbn [length]. by rewrite Hlen.
Qed.

(** ** A machine *)

Definition demo_pgdir : Z := 0x80109000.
Definition demo_memory : mem := store32 (store32 (fun _ => 0) demo_pgdir 0x83) (demo_pgdir + 2048) 0x83.
Definition demo_cpu (m : mem) (keys : list Z) : cpu := mkCpu (fun _ => 0) (fun _ => 0) (fun _ => 0) 0x202 0 m keys [].

Lemma demo_table : table_at (phys demo_memory) (V2P demo_pgdir).
Proof.
  intros i Hi. change (V2P demo_pgdir) with 0x109000.
  assert (E : load32 (phys demo_memory) (0x109000 + 4 * i) = load32 demo_memory (demo_pgdir + 4 * i)) by (unfold load32, phys, demo_pgdir, KERNBASE; repeat (f_equal; try lia)).
  rewrite E. unfold demo_memory, demo_pgdir, entrypgdir. change (Z.shiftr KERNBASE 22) with 512.
  destruct (Z.eqb_spec i 0) as [->|H0]; [by rewrite load32_ne, load32_at by lia|]. destruct (Z.eqb_spec i 512) as [->|H1]; [by rewrite load32_at by lia|].
  by rewrite !load32_ne by lia.
Qed.

Lemma first_processor_witness :
  (exists c1, run (fun _ => 0) (5 + (3 * 3 + (2 + (3 * 2 + 16)))) (bootasm 0x7c78 0x7c00 0x7d3b 0x7c4f) 0 (demo_cpu (fun _ => 0) [2; 0x1e; 0; 2; 0x1c; 9]) = (Ok (To 0x7d3b), c1)
     /\ gpr c1 ESP = 0x7bfc /\ outputs c1 = [(0x64, 0xd1); (0x60, 0xdf)])
  /\ (exists c3, run (fun _ => 0) 11 (Asm.entry demo_pgdir 0x8010b000 0x80102eb0) 0 (demo_cpu (phys demo_memory) []) = (Ok (To 0x80102eb0), c3)
     /\ translate c3 (phys demo_memory) 0x80102eb0 = Some 0x102eb0 /\ translate c3 (phys demo_memory) 0x10000c = Some 0x10000c).
Proof.
  destruct (first_processor (fun _ => 0) 0x7c78 0x7c00 0x7d3b 0x7c4f demo_pgdir 0x8010b000 0x80102eb0 (demo_cpu (fun _ => 0) [2; 0x1e; 0; 2; 0x1c; 9])
    [2; 0x1e] 0 [2] 0x1c [9] (demo_cpu (phys demo_memory) []) ltac:(lia) eq_refl eq_refl eq_refl eq_refl eq_refl ltac:(unfold KSTACKSIZE; lia) ltac:(unfold KERNBASE; lia) demo_table)
    as [(c1 & H1 & H2 & _ & _ & _ & _ & _ & _ & _ & _ & _ & H3) (c3 & H4 & _ & H5 & H6)].
  split; [exists c1; split; [exact H1|]; split; [exact H2|exact H3]|]. exists c3. split; [exact H4|]. split; [exact H6|]. apply (bm_low _ _ H5). lia.
Defined.

Definition demo_bsp : bsp := mkBsp (mkKmem demo_memory false false 0x80116000) (mkLap 0xfee00000 (fun _ => 0) 0 [] [] (fun _ => 0)) (fun i => (i =? 0)%nat).

Lemma demo_bsp_ok : kmem_ok demo_end (bkm demo_bsp) [0x80116000].
Proof.
  split; [|repeat constructor; unfold demo_end, KERNBASE, PHYSTOP; lia|apply NoDup_singleton|reflexivity].
  cbn. split; [reflexivity|]. unfold demo_memory, demo_pgdir. by rewrite !load32_ne by lia.
Qed.

(** Processor 3. *)
Lemma started_processor_witness : exists s', launch 0x80102f40 demo_pgdir (fun _ => 0%nat) 3 demo_bsp = (Ok tt, s')
  /\ exists c', run (fun _ => 0) 27 (entryother 0x7060 0x7000 0x7058) 0 (demo_cpu (low_view (memory (bkm s'))) []) = (Ok (To 0x80102f40), c')
  /\ gpr c' ESP = 0x80116ffc /\ translate c' (phys (memory (bkm s'))) 0x80102f40 = Some 0x102f40.
Proof.
  destruct (started_processor demo_end 0x80102f40 demo_pgdir (fun _ => 0%nat) 3 demo_bsp 0x80116000 [] (fun _ => 0) 0x7060 0x7058 demo_bsp_ok)
    as (s' & Hrun & _ & _ & _ & Hap); try (unfold demo_end, demo_pgdir, KERNLINK, KERNBASE, EXTMEM, PHYSTOP; lia).
  { exact demo_table. }
  exists s'. split; [exact Hrun|]. destruct (Hap (demo_cpu (low_view (memory (bkm s'))) []) eq_refl) as (c' & Hrun' & Hsp & _ & HB & _).
  exists c'. split; [exact Hrun'|]. split; [exact Hsp|]. apply (bm_high _ _ HB). unfold KERNBASE. lia.
Defined.
