(* ===== verification/Main.v ===== *)
(** [src/main.c]: [main] on the boot processor and [mpenter] on the others.

    The state is that of every component: the process table over the rest of the kernel
    ([Kernel]), the processor's segment registers and interrupt controller, the I/O
    interrupt controller, console, disk and buffer cache, and the BIOS's tables.
    A device routine's request for an interrupt goes to the I/O controller.  [main] ends
    where it calls [scheduler]; messages are left out. *)

From Stdlib Require Import ZArith Lia.
From stdpp Require Import base list strings gmap.
From S2P Require Import Prelude Kstring Spinlock Kalloc Vm Blk Log Sleeplock Bio Fs Pipe File Proc Syscall Trap Kernel Console Ide Mp Rtc.
From S2P Require Import Asm Seg Lapic Start VmSpace.
Local Open Scope Z_scope.

(** A processor: its segments, its interrupt controller, its flag. *)
Record cpust := mkCpust { c_segs : segs; c_lap : lap; c_started : bool }.
Abbreviation CPM := (M cpust).
Definition on_segs {A} (m : M segs A) : CPM A := zoom c_segs (fun x s => mkCpust x (c_lap s) (c_started s)) m.
Definition on_lap {A} (m : M lap A) : CPM A := zoom c_lap (fun x s => mkCpust (c_segs s) x (c_started s)) m.

Record sys := mkSys {
  s_ps : Proc.pstate kern;
  s_cpu : cpust;
  s_others : nat -> bool;
  s_mp : mpstate;
  s_io : ioapic;
  s_cons : cons;
  s_ide : ide;
  s_idt : list gatedesc;
  s_kpgdir : Z;
}.
Abbreviation YM := (M sys).

Definition set_ps x s := mkSys x (s_cpu s) (s_others s) (s_mp s) (s_io s) (s_cons s) (s_ide s) (s_idt s) (s_kpgdir s).
Definition set_cpu x s := mkSys (s_ps s) x (s_others s) (s_mp s) (s_io s) (s_cons s) (s_ide s) (s_idt s) (s_kpgdir s).
Definition set_mp x s := mkSys (s_ps s) (s_cpu s) (s_others s) x (s_io s) (s_cons s) (s_ide s) (s_idt s) (s_kpgdir s).
Definition set_io x s := mkSys (s_ps s) (s_cpu s) (s_others s) (s_mp s) x (s_cons s) (s_ide s) (s_idt s) (s_kpgdir s).
Definition set_cons x s := mkSys (s_ps s) (s_cpu s) (s_others s) (s_mp s) (s_io s) x (s_ide s) (s_idt s) (s_kpgdir s).
Definition set_ide x s := mkSys (s_ps s) (s_cpu s) (s_others s) (s_mp s) (s_io s) (s_cons s) x (s_idt s) (s_kpgdir s).
Definition set_idt x s := mkSys (s_ps s) (s_cpu s) (s_others s) (s_mp s) (s_io s) (s_cons s) (s_ide s) x (s_kpgdir s).
Definition set_kpgdir x s := mkSys (s_ps s) (s_cpu s) (s_others s) (s_mp s) (s_io s) (s_cons s) (s_ide s) (s_idt s) x.

Definition kmem_of (s : sys) : kmem := km (env (s_ps s)).
Definition set_kmem (k : kmem) (s : sys) : sys := set_ps (set_env (set_km k (env (s_ps s))) (s_ps s)) s.

Definition on_ps {A} (m : M (Proc.pstate kern) A) : YM A := zoom s_ps set_ps m.
Definition on_kern {A} (m : M kern A) : YM A := on_ps (call m).
Definition on_km {A} (m : M kmem A) : YM A := zoom kmem_of set_kmem m.
Definition on_cpu {A} (m : CPM A) : YM A := zoom s_cpu set_cpu m.
Definition on_io {A} (m : M ioapic A) : YM A := zoom s_io set_io m.
(** [startothers] works on the pages, the controller and the flags. *)
Definition on_bsp {A} (m : M bsp A) : YM A :=
  zoom (fun s => mkBsp (kmem_of s) (c_lap (s_cpu s)) (s_others s))
       (fun b s => let s1 := set_kmem (bkm b) s in
          mkSys (s_ps s1) (mkCpust (c_segs (s_cpu s)) (blap b) (c_started (s_cpu s))) (bstarted b)
                (s_mp s) (s_io s) (s_cons s) (s_ide s) (s_idt s) (s_kpgdir s)) m.
(** [mpinit] sets the variable [lapic]. *)
Definition on_mp {A} (m : M mpstate A) : YM A :=
  zoom s_mp (fun x s => let l := c_lap (s_cpu s) in
    set_mp x (set_cpu (mkCpust (c_segs (s_cpu s)) (mkLap (Mp.lapic x) (lregs l) (busy l) (sent l) (lports l) (lmem l)) (c_started (s_cpu s))) s)) m.

(** Calls of [ioapicenable]. *)
Fixpoint enable (l : list (Z * Z)) : M ioapic unit :=
  match l with
  | [] => ret tt
  | (irq, cpu) :: l' => Rtc.ioapicenable irq cpu ;; enable l'
  end.
Definition on_cons {A} (m : M cons A) : YM A :=
  old <- gets (fun s => irqs (s_cons s)) ;;
  r <- zoom s_cons set_cons m ;;
  new <- gets (fun s => irqs (s_cons s)) ;;
  on_io (enable (drop (length old) new)) ;;
  ret r.
Definition on_ide {A} (m : M ide A) : YM A :=
  old <- gets (fun s => ide_irqs (s_ide s)) ;;
  r <- zoom s_ide set_ide m ;;
  new <- gets (fun s => ide_irqs (s_ide s)) ;;
  on_io (enable (drop (length old) new)) ;;
  ret r.

Section Main.
(** What the linker fixes: the image, the addresses of the processor's tables, of the
    assembly entry points and of the code for the other processors.  [delay] and
    [answers] are those of [Lapic] and [Start]; [fuel] bounds the waits and the reading
    of the BIOS's table. *)
Context (im : image) (gdt_addr idt_addr : Z) (trapret forkret_addr : Z) (vectors : nat -> Z).
Context (other_start other_size mpenter_addr pgdir_addr : Z) (delay : Z -> nat) (answers : nat -> nat) (fuel : nat).

(** [pinit] of [proc.c] and the locks [tvinit] and [fileinit] set up are open to begin
    with. *)
Definition pinit : M (Proc.pstate kern) unit := modify (fun s => set_held (filter (fun l => l <> LPtable) (held s)) s).
Definition init_ticks : M (Proc.pstate kern) unit := modify (fun s => set_held (filter (fun l => l <> LTicks) (held s)) s).

(** Up to the call of [scheduler]. *)
Definition mpmain : CPM unit :=
  on_segs (Seg.idtinit idt_addr) ;;
  modify (fun s => mkCpust (c_segs s) (c_lap s) true).

Definition mpenter (kpgdir : Z) : CPM unit :=
  on_segs (Seg.switchkvm kpgdir) ;;
  on_segs (Seg.seginit gdt_addr) ;;
  on_lap (lapicinit delay fuel) ;;
  mpmain.

(** [mycpu()] is [cpus[0]]: [NCPU] is 1, so the table of processors has no other
    entry, and on a machine whose local APIC id is not the one in it [mycpu] panics
    (as it does in [seginit] before, see [Spinlock.mycpu]); this is the start of a
    machine on which it does not. *)
Definition main : YM unit :=
  on_km (kinit1 (kend im) (kend im) (Kalloc.P2V (4 * 1024 * 1024))) ;;
  r <- on_km (kvmalloc (kend im) (kdata im)) ;;
  modify (set_kpgdir (fst r)) ;;
  on_cpu (on_segs (Seg.switchkvm (fst r))) ;;
  on_mp (mpinit fuel) ;;
  on_cpu (on_lap (lapicinit delay fuel)) ;;
  on_cpu (on_segs (Seg.seginit gdt_addr)) ;;
  on_cpu (on_lap picinit) ;;
  id <- gets (fun s => Mp.ioapicid (s_mp s)) ;;
  on_io (ioapicinit id) ;;
  on_cons consoleinit ;;
  on_cons uartinit ;;
  on_ps pinit ;;
  modify (set_idt (tvinit vectors)) ;;
  on_ps init_ticks ;;
  on_ide (onbc binit) ;;
  on_kern fileinit ;;
  n <- gets (fun s => ncpu (s_mp s)) ;;
  on_ide (ideinit n) ;;
  ids <- gets (fun s => take (Z.to_nat (ncpu (s_mp s))) (apicids (s_mp s))) ;;
  on_bsp (startothers other_start other_size mpenter_addr pgdir_addr delay answers fuel 0 ids) ;;
  on_km (kinit2 (kend im) (Kalloc.P2V (4 * 1024 * 1024)) (Kalloc.P2V PHYSTOP)) ;;
  on_ps (@userinit _ (kernel_env im) trapret forkret_addr) ;;
  on_cpu mpmain.
End Main.
