(* ===== verification/MainInv.v ===== *)
(** What [main] of [Main] leaves behind when it calls [scheduler].

    First the pages: [kinit1], [kvmalloc], [kinit2] and [userinit] in terms of the address
    spaces of [VmLife]; then the devices; then the whole of [main]. *)

From Stdlib Require Import ZArith Lia.
From stdpp Require Import base list strings gmap.
From S2P Require Import Prelude Kstring Spinlock Kalloc Vm Blk Log Sleeplock Bio Fs Pipe File Proc Syscall Trap Kernel Console Ide Mp Rtc.
From S2P Require Import ConsoleInv Asm Seg Lapic Start VmSpace VmLife Main.
Local Open Scope Z_scope.
Local Abbreviation entry := Vm.entry.
Local Abbreviation PGSIZE := Kalloc.PGSIZE.
Local Abbreviation V2P := Kalloc.V2P.
Local Abbreviation initcode := Kernel.initcode.

(** ** Pages *)

Section Pages.
Context (kend data : Z) (Hend : KERNBASE < kend) (Hdata : data mod 4096 = 0 /\ KERNLINK < data < KERNBASE + PHYSTOP).
Abbreviation inv := (vm_inv kend data).

(** The free list and what is outside the address spaces may change. *)
Lemma inv_frame l0 k l S l0' k' l' : inv l0 k l S -> NoDup l0' -> kmem_ok kend k' l' -> l' ++ owns S ≡ₚ l0' -> keeps (owns S) k k' -> inv l0' k' l' S.
Proof using.
  intros [_ HS _] Hn Hk' HP Hkeep. split; [done| |done]. rewrite Forall_forall in HS |- *. intros s Hs. destruct (HS s Hs) as [Hsp Hsz Hfl Hke].
  assert (Hin : forall q, q ∈ own s -> q ∈ owns S) by (intros q Hq; unfold owns; rewrite list_elem_of_In, in_flat_map; exists s; by rewrite <- !list_elem_of_In).
  destruct (space_ext kend k k' (as_dir s) l l' (as_tables s) (as_pages s) Hsp Hk') as [Hs' He].
  - rewrite <- HP in Hn. apply NoDup_app in Hn as (H1 & H2 & _). apply NoDup_app. split; [done|]. split; [intros x Hx Hx'; by apply (H2 x), Hin|].
    by pose proof (sp_nodup _ _ _ _ _ _ Hsp) as H; apply NoDup_app in H as (_ & _ & H).
  - intros x Hx. apply (Hkeep (as_dir s)); [apply Hin; left|done].
  - intros i t x Hi Hx. apply (Hkeep t); [|done]. apply Hin. unfold own, owned. rewrite elem_of_cons, elem_of_app, elem_of_vals. right. left. by exists i.
  - split; [done|done|done|]. intros v Hv. rewrite He by (unfold vaddr, KERNBASE in *; lia). by apply Hke.
Qed.

Lemma owns_pages l0 k l S : inv l0 k l S -> Forall (page_ok kend) (owns S).
Proof using.
  intros [_ HS _]. rewrite Forall_forall in HS. apply Forall_forall. intros q Hq. unfold owns in Hq. rewrite list_elem_of_In, in_flat_map in Hq.
  destruct Hq as (s & Hs & Hq). rewrite <- list_elem_of_In in Hs. rewrite <- list_elem_of_In in Hq. pose proof (sp_pages _ _ _ _ _ _ (gd_space _ _ _ _ _ (HS s Hs))) as HF.
  rewrite Forall_forall in HF. by apply HF.
Qed.

(** Writes below the end of the kernel. *)
Lemma inv_low l0 k l S k' : inv l0 k l S -> NoDup l0 -> freelist k' = freelist k -> klock k' = klock k ->
  (forall x, kend <= x -> memory k' x = memory k x) -> inv l0 k' l S.
Proof using.
  intros HI Hn H1 H2 Hm. apply (inv_frame l0 k l S); [done|done| |apply HI|].
  - apply (kmem_ok_ext kend k); [apply HI|done|done|]. intros a x Ha Hx. apply Hm. pose proof (ok_pages _ _ _ (vi_free _ _ _ _ _ _ HI)) as HF.
    rewrite Forall_forall in HF. destruct (HF a Ha) as (_ & Hge & _). unfold in_page in Hx. lia.
  - intros q x Hq Hx. apply Hm. pose proof (owns_pages _ _ _ _ HI) as HF. rewrite Forall_forall in HF. destruct (HF q Hq) as (_ & Hge & _). unfold in_page in Hx. lia.
Qed.

(** A page for something else. *)
Lemma inv_take l0 k p l S : inv l0 k (p :: l) S -> NoDup l0 ->
  exists k' l0', kalloc k = (Ok p, k') /\ p <> 0 /\ memory k' = memory k /\ use_lock k' = use_lock k /\ l0 ≡ₚ p :: l0' /\ NoDup l0' /\ inv l0' k' l S.
Proof using Hend.
  intros HI Hn. destruct (kalloc_ok kend k (p :: l) (vi_free _ _ _ _ _ _ HI)) as (k' & Ha & Hk' & Hm & Hu). cbn in Ha, Hk'.
  exists k', (l ++ owns S). assert (HP : l0 ≡ₚ p :: l ++ owns S) by by rewrite <- (vi_conserved _ _ _ _ _ _ HI). rewrite HP in Hn. apply NoDup_cons in Hn as [_ Hn].
  pose proof (ok_pages _ _ _ (vi_free _ _ _ _ _ _ HI)) as HF. apply Forall_cons_1 in HF as [(_ & Hp & _) _].
  split; [done|]. split; [unfold KERNBASE in Hend; lia|]. do 4 (split; [done|]). apply (inv_frame l0 k (p :: l) S); try done. intros q x _ _. by rewrite Hm.
Qed.

(** Writing to a page of user memory. *)
Lemma poke_page k k' d l ts us i p : space kend k d l ts us -> us !! i = Some p -> freelist k' = freelist k -> klock k' = klock k ->
  (forall x, ~ in_page p x -> memory k' x = memory k x) ->
  space kend k' d l ts us /\ forall v, vaddr v -> entry k' d v = entry k d v.
Proof using.
  intros Hs Hi H1 H2 Hm. destruct (space_parts kend _ _ _ _ _ Hs) as (Hdp & _ & Ht & Hu & _). destruct (Hu i p Hi) as (Hpp & Hpl & Hpd & Hpt).
  apply (space_ext kend k k' d l l ts us Hs).
  - apply (kmem_ok_ext kend k); [apply Hs|done|done|]. intros a x Ha Hx. apply Hm. pose proof (ok_pages _ _ _ (sp_free _ _ _ _ _ _ Hs)) as HF. rewrite Forall_forall in HF.
    apply (apart kend a p x (HF a Ha) Hpp); [by intros ->|done].
  - apply Hs.
  - intros x Hx. apply Hm, (apart kend d p x Hdp Hpp); [congruence|done].
  - intros j t x Hj Hx. apply Hm, (apart kend t p x); [by apply (Ht j)|done| |done]. intros ->. by apply (Hpt j).
Qed.

Lemma init_step l0 k l s T init sz :
  inv l0 k l (s :: T) -> NoDup l0 -> Forall (page_ok kend) l0 -> as_size s = 0 -> (2 <= length l)%nat -> 0 <= sz < 4096 -> init + sz <= kend ->
  exists k' l' s', inituvm (as_dir s) init sz k = (Ok tt, k') /\ inv l0 k' l' (s' :: T) /\ seen s' = (as_dir s, 4096)
  /\ (forall v, 0 <= v < 4096 -> ubyte k' (as_dir s) v = if v <? sz then memory k (init + v) else 0)
  /\ (forall x, x < kend -> memory k' x = memory k x).
Proof using Hend Hdata.
  intros HI Hn Hp0 H0 Hlen Hsz Hin. pose proof (vi_spaces _ _ _ _ _ _ HI) as HS. apply Forall_cons_1 in HS as [[Hs Hr Hfl Hke] _]. rewrite H0 in Hfl.
  assert (Eu : as_pages s = ∅) by (apply map_eq; intros i; rewrite lookup_empty; apply (filled_none (as_pages s) 0 i Hfl); change (pages 0) with 0; lia).
  rewrite Eu in Hs. destruct l as [|p l1]; [cbn in Hlen; lia|].
  destruct (map_round kend Hend k (as_dir s) p l1 (as_tables s) ∅ 0 (fun m => memset m p 0 PGSIZE) (Z.lor PTE_W PTE_U) Hs ltac:(unfold KERNBASE; lia) eq_refl (lookup_empty _) ltac:(by vm_compute))
    as (k1 & Hka & Hp1 & r & k3 & l3 & ts3 & Hrun & Hf3 & HP3 & Hd3 & Hpp & Hpn & Hres).
  { intros x Hx. rewrite memset_spec by (unfold PGSIZE; lia). unfold in_page in Hx. zcases; cbn [andb]; done || lia. }
  destruct Hres as [(-> & Hs3 & Hb3 & He3)|(_ & -> & Hnt & _)].
  2:{ exfalso. pose proof (same_size (as_dir s) l1 [] (as_tables s) ts3 ∅ HP3) as Hz. assert (Hsub : dom ts3 ⊆ dom (as_tables s)).
      { intros i Hi. pose proof (Hd3 i Hi) as Hi'. apply elem_of_union in Hi' as [|Hi']; [done|]. apply elem_of_singleton in Hi' as ->. done. }
      pose proof (subseteq_size _ _ Hsub). cbn [length] in *. lia. }
  set (k4 := set_memory (memmove (memory k3) p init sz) k3). set (us := <[0 / 4096 := p]> (∅ : gmap Z Z)) in *.
  assert (Hus : us !! 0 = Some p) by apply lookup_insert_eq.
  assert (Hm4 : forall x, memory k4 x = copied (memory k3) p init sz x) by (intros x; cbn; apply memmove_copied; lia).
  assert (Hout : forall x, ~ in_page p x -> memory k4 x = memory k3 x).
  { intros x Hx. rewrite Hm4. unfold copied. unfold in_page, PGSIZE in Hx. zcases; cbn [andb]; done || lia. }
  destruct (poke_page k3 k4 (as_dir s) l3 ts3 us 0 p Hs3 Hus eq_refl eq_refl Hout) as [Hs4 He4].
  set (s' := mkAspace (as_dir s) 4096 ts3 us).
  assert (Hg : good kend data k4 l3 s').
  { split; cbn; [exact Hs4|unfold KERNBASE; lia| |].
    - intros i. change (pages 4096) with 1. unfold us. change (0 / 4096) with 0. destruct (decide (i = 0)) as [->|Hne]; [rewrite lookup_insert_eq; split; [lia|by eexists]|].
      rewrite lookup_insert_ne, lookup_empty by congruence. split; [by intros [? ?]|lia].
    - intros v Hv. rewrite He4, He3 by (unfold vaddr, KERNBASE in *; lia). rewrite (proj2 (Z.eqb_neq _ _)); [by apply Hke|].
      pose proof (Z.div_le_mono KERNBASE v 4096 ltac:(lia) ltac:(lia)). unfold KERNBASE in *. change (0x80000000 / 4096) with 524288 in *. change (0 / 4096) with 0. lia. }
  assert (HPo : l3 ++ own s' ≡ₚ (p :: l1) ++ own s).
  { unfold own, s'. cbn [as_dir as_tables as_pages]. rewrite Eu. unfold us. rewrite (owned_user (as_dir s) ts3 ∅ _ p (lookup_empty _)). rewrite <- Permutation_middle, HP3. reflexivity. }
  assert (Hf4 : frames k k4 ((p :: l1) ++ own s)).
  { intros x Hx. rewrite Hout by (apply Hx; left). apply Hf3. intros q Hq. apply Hx. revert Hq. unfold own, owned. rewrite !elem_of_cons, !elem_of_app, !elem_of_cons, elem_of_app. tauto. }
  assert (Hlow : forall x, x < kend -> memory k4 x = memory k x).
  { intros x Hx. apply Hf4. intros q Hq Hqx. rewrite <- owns_one, elem_of_app in Hq. assert (Hq0 : q ∈ l0).
    { rewrite <- (vi_conserved _ _ _ _ _ _ HI), elem_of_app. change (s :: T) with ([s] ++ T). rewrite owns_app, elem_of_app. tauto. }
    rewrite Forall_forall in Hp0. destruct (Hp0 q Hq0) as (_ & Hge & _). unfold in_page in Hqx. lia. }
  exists k4, l3, s'. split; [|split; [|split; [reflexivity|split; [|exact Hlow]]]].
  - unfold inituvm. rewrite (proj2 (Z.leb_gt _ _)) by (unfold PGSIZE; lia). rewrite (bind_ok _ _ _ _ _ Hka). unfold fill. rewrite modify_then. rewrite (bind_ok _ _ _ _ _ Hrun). reflexivity.
  - apply (others_good kend data l0 k (p :: l1) [s] T k4 l3 [s']); [done|done|done|apply Hs4|by rewrite !owns_one|by rewrite owns_one|by constructor].
  - intros v Hv. assert (Ev : v / 4096 = 0) by (apply Z.div_small; lia). assert (Hvv : vaddr v) by (unfold vaddr; lia).
    assert (Ee : entry k4 (as_dir s) v = pte_of (V2P p) (Z.lor PTE_W PTE_U)) by (rewrite He4, He3, Ev by exact Hvv; reflexivity).
    destruct (mapped_byte kend Hend k4 k4 (as_dir s) l3 ts3 us 0 p (Z.lor PTE_W PTE_U) v Hs4 Hus (frames_refl _ _) ltac:(by vm_compute) Ee) as (_ & _ & Hub). rewrite Hub, Hm4, (Z.mod_small v 4096) by lia.
    unfold copied. destruct (Z.ltb_spec v sz).
    + rewrite (proj2 (Z.leb_le _ _)), (proj2 (Z.ltb_lt _ _)) by lia. cbn [andb]. replace (init + (p + v - p)) with (init + v) by lia.
      rewrite <- (Hlow (init + v)) by lia. symmetry. apply Hout. destruct Hpp as (_ & Hge & _). unfold in_page, PGSIZE. lia.
    + rewrite (proj2 (Z.ltb_ge (p + v) _)), andb_false_r by lia. rewrite Hb3 by lia. rewrite memset_spec by (unfold PGSIZE; lia). unfold PGSIZE. by rewrite (proj2 (Z.leb_le _ _)), (proj2 (Z.ltb_lt _ _)) by lia.
Qed.

(** The pages between two addresses, as [freerange] leaves them on the free list. *)
Definition range_pages (a b : Z) : list Z := rev (pages_from (PGROUNDUP a) (Z.to_nat ((b - PGROUNDUP a) / PGSIZE))).

Lemma range_pages_spec a b v : kend <= a -> a <= b -> b <= KERNBASE + PHYSTOP -> v ∈ range_pages a b -> page_ok kend v /\ a <= v /\ v + PGSIZE <= b.
Proof using Hend.
  intros Ha Hab Hb Hv. unfold range_pages in Hv. rewrite list_elem_of_In, <- in_rev, <- list_elem_of_In in Hv. apply pages_from_spec in Hv as (i & Hi & ->).
  destruct (PGROUNDUP_spec a) as [Hm Hr]; [unfold KERNBASE in *; lia|unfold KERNBASE, PHYSTOP, PGSIZE in *; lia|].
  assert (Hq : i < (b - PGROUNDUP a) / PGSIZE) by lia. assert (Hl : (i + 1) * PGSIZE <= b - PGROUNDUP a).
  { pose proof (Z.mul_div_le (b - PGROUNDUP a) PGSIZE ltac:(unfold PGSIZE; lia)). unfold PGSIZE in *. lia. }
  unfold page_ok, PGSIZE in *. rewrite Z_mod_plus_full. repeat split; try done; lia.
Qed.

(** [freerange] above the pages there are. *)
Lemma freerange_inv l0 k l S a b : inv l0 k l S -> NoDup l0 -> kend <= a -> a <= b -> b <= KERNBASE + PHYSTOP -> (forall v, v ∈ l0 -> v + PGSIZE <= a) ->
  exists k', freerange kend a b k = (Ok tt, k') /\ inv (range_pages a b ++ l0) k' (range_pages a b ++ l) S /\ NoDup (range_pages a b ++ l0)
  /\ forall x, x < a -> memory k' x = memory k x.
Proof using Hend.
  intros HI Hn Ha Hab Hb Hl0. assert (Hl : forall v, v ∈ l -> v ∈ l0) by (intros v Hv; rewrite <- (vi_conserved _ _ _ _ _ _ HI), elem_of_app; by left).
  destruct (freerange_ok kend a b k l (vi_free _ _ _ _ _ _ HI)) as (k' & Hrun & Hk' & _ & Hm); [done|lia|done|done|intros v Hv; left; by apply Hl0, Hl|].
  fold (range_pages a b) in Hk'. assert (Hnew : NoDup (range_pages a b ++ l0)).
  { pose proof (ok_nodup _ _ _ Hk') as H. apply NoDup_app in H as (H1 & _ & _). apply NoDup_app. split; [done|]. split; [|done].
    intros v Hv Hv'. destruct (range_pages_spec a b v Ha Hab Hb Hv) as (_ & H & _). pose proof (Hl0 v Hv'). unfold PGSIZE in *. lia. }
  exists k'. split; [done|]. split; [|split; [done|intros x Hx; apply Hm; lia]].
  apply (inv_frame l0 k l S); [done|done|done|by rewrite <- app_assoc, (vi_conserved _ _ _ _ _ _ HI)|].
  intros q x Hq Hx. apply Hm. left. assert (Hq0 : q ∈ l0) by (rewrite <- (vi_conserved _ _ _ _ _ _ HI), elem_of_app; by right).
  pose proof (Hl0 q Hq0). unfold in_page, PGSIZE in *. lia.
Qed.

Lemma kinit1_inv k b : freelist k = 0 -> kend <= b -> b <= KERNBASE + PHYSTOP ->
  exists k', kinit1 kend kend b k = (Ok tt, k') /\ inv (range_pages kend b) k' (range_pages kend b) [] /\ NoDup (range_pages kend b)
  /\ forall x, x < kend -> memory k' x = memory k x.
Proof using Hend.
  intros Hf Hab Hb. unfold kinit1. rewrite !modify_then. set (k1 := set_use_lock false (set_klock false k)).
  assert (HI : inv [] k1 [] []) by (split; [split; [exact Hf|constructor|constructor|reflexivity]|constructor|reflexivity]).
  destruct (freerange_inv [] k1 [] [] kend b HI (NoDup_nil_2) ltac:(lia) Hab Hb) as (k' & Hrun & HI' & Hn & Hm); [by intros v ?%elem_of_nil|].
  rewrite !app_nil_r in HI', Hn. by exists k'.
Qed.

Lemma kinit2_inv l0 k l S a b : inv l0 k l S -> NoDup l0 -> kend <= a -> a <= b -> b <= KERNBASE + PHYSTOP -> (forall v, v ∈ l0 -> v + PGSIZE <= a) ->
  exists k', kinit2 kend a b k = (Ok tt, k') /\ inv (range_pages a b ++ l0) k' (range_pages a b ++ l) S /\ NoDup (range_pages a b ++ l0)
  /\ forall x, x < a -> memory k' x = memory k x.
Proof using Hend.
  intros HI Hn Ha Hab Hb Hl. destruct (freerange_inv l0 k l S a b HI Hn Ha Hab Hb Hl) as (k1 & Hrun & HI1 & Hn1 & Hm).
  exists (set_use_lock true k1). unfold kinit2. rewrite (bind_ok _ _ _ _ _ Hrun). split; [done|]. split; [|done].
  apply (inv_low _ k1); done.
Qed.

(** With 65 free pages a new address space is had. *)
Lemma setup_enough l0 k l S : inv l0 k l S -> NoDup l0 -> Forall (page_ok kend) l0 -> (65 <= length l)%nat ->
  exists k' l' s, setupkvm kend data k = (Ok (as_dir s), k') /\ as_dir s <> 0 /\ as_size s = 0 /\ inv l0 k' l' (s :: S) /\ (length l <= length l' + 65)%nat
  /\ forall x, x < kend -> memory k' x = memory k x.
Proof using Hend Hdata.
  intros HI Hn Hp Hlen. destruct (setupkvm_space kend Hend data Hdata k l (vi_free _ _ _ _ _ _ HI)) as (d & k' & l' & Hrun & Hf & Hr).
  destruct Hr as [(_ & _ & _ & H)|(Hd & ts & Hs & HP & Hdom & He)]; [lia|]. exists k', l', (mkAspace d 0 ts ∅).
  do 3 (split; [done|]). split; [by apply (setup_inv kend data l0 Hn Hp k l)|]. split.
  - apply Permutation_length in HP. unfold owned in HP. rewrite length_app in HP. cbn [length] in HP. rewrite length_app, !size_vals, dom_empty_L, size_empty in HP.
    pose proof (subseteq_size _ _ Hdom) as Hsz. pose proof (ktables_kmap data Hdata). lia.
  - intros x Hx. apply Hf. intros q Hq Hqx. assert (Hq0 : q ∈ l0) by (rewrite <- (vi_conserved _ _ _ _ _ _ HI), elem_of_app; by left).
    rewrite Forall_forall in Hp. destruct (Hp q Hq0) as (_ & Hge & _). unfold in_page in Hqx. lia.
Qed.

End Pages.

(** ** The first process *)

(** [userinit] in terms of what it asks of the rest of the kernel. *)
Lemma userinit_env {E} {EE : Env E} trapret forkret_addr (s : Proc.pstate E) x rest ks pd dir e1 e2 e3 e4 :
  ptable s = x :: rest -> state x = UNUSED -> held s = [] ->
  e_kalloc (env s) = (Ok ks, e1) -> ks <> 0 -> e_setupkvm e1 = (Ok pd, e2) -> pd <> 0 -> e_inituvm pd e2 = (Ok tt, e3) -> e_namei_root e3 = (Ok dir, e4) ->
  exists s' p, userinit trapret forkret_addr s = (Ok tt, s') /\ ptable s' = p :: rest /\ held s' = [] /\ initproc s' = Some 0%nat /\ env s' = e4
  /\ state p = RUNNABLE /\ pid p = nextpid s /\ pgdir p = pd /\ kstack p = ks /\ sz p = 4096 /\ cwd p = dir
  /\ tf p = mkTf 0 0 35 35 0 0 27 FL_IF 4096 35 /\ ctx p = mkCtx 0 0 0 0 forkret_addr trapret.
Proof.
  intros Ht Hx Hh Hk Hks Hset Hpd Hin Hnm.
  assert (Hfind : find_from (is_state UNUSED) (ptable s) 0 = Some 0%nat) by (rewrite Ht; cbn [find_from]; unfold is_state at 1; rewrite Hx; reflexivity).
  assert (Hslot : ptable s !! 0%nat = Some x) by by rewrite Ht.
  unfold userinit. rewrite (bind_ok _ _ _ _ _ (allocproc_ok trapret forkret_addr s 0 x ks e1 Hh Hfind Hslot Hk Hks)).
  destruct s. cbn in Ht, Hh. subst. cbn [ptable] in Hslot. pcbn. set (y := new_proc _ _ _ _ _ x). pstep1.
  erewrite (bind_ok (call e_setupkvm)) by (unfold call, zoom; pcbn; by rewrite Hset). pcbn. pstep1.
  rewrite (proj2 (Z.eqb_neq _ _) Hpd). erewrite (bind_ok (call (e_inituvm pd))) by (unfold call, zoom; pcbn; by rewrite Hin). pcbn. do 3 pstep1.
  erewrite (bind_ok (call e_namei_root)) by (unfold call, zoom; pcbn; by rewrite Hnm). pcbn. do 3 pstep1.
  eexists _, _. split; [eapply release_run; [reflexivity|solve_held]|]. done.
Qed.

Section First.
Context (im : image) (trapret forkret_addr : Z).
Context (Hend : KERNBASE < kend im) (Hdata : kdata im mod 4096 = 0 /\ KERNLINK < kdata im < KERNBASE + PHYSTOP).
Context (Hsize : 0 <= initcode_size im < 4096) (Hinit : initcode im + initcode_size im <= kend im).
Abbreviation inv := (vm_inv (kend im) (kdata im)).

(** An inode cache in which nothing is used. *)
Definition icache_empty (f : fstate) : Prop := iclock f = false /\ icache f <> [] /\ Forall (fun x => i_ref x = 0) (icache f).

Lemma find_inode_empty dev inum l : forall i e, Forall (fun x => i_ref x = 0) l -> find_inode l dev inum i (Some e) = (None, Some e).
Proof using. induction l as [|x l IH]; intros i e H; [done|]. apply Forall_cons_1 in H as [H1 H2]. cbn [find_inode]. rewrite H1. by apply IH. Qed.

(** The root directory gets the first entry of the cache. *)
Lemma namei_root rd cwd f : icache_empty f ->
  exists f', namei rd cwd [47] f = (Ok (Some 0%nat), f') /\ exists x l, icache f' = x :: l /\ i_ref x = 1 /\ i_dev x = ROOTDEV /\ i_inum x = ROOTINO.
Proof using.
  intros (Hl & Hne & HF). destruct f as [sb0 il ic fl0 fp fw fo]. cbn [iclock icache] in *. subst il. destruct ic as [|x l]; [done|].
  apply Forall_cons_1 in HF as [Hx HF]. assert (Hf : find_inode (x :: l) ROOTDEV ROOTINO 0 None = (None, Some 0%nat)) by (cbn [find_inode]; rewrite Hx; by apply find_inode_empty).
  set (f' := mkF sb0 false (set_valid false (set_ref 1 (set_inum ROOTINO (set_dev ROOTDEV x))) :: l) fl0 fp fw fo). exists f'. split; [|by eexists _, l].
  assert (Hi : iget ROOTDEV ROOTINO (mkF sb0 false (x :: l) fl0 fp fw fo) = (Ok 0%nat, f')).
  { unfold iget, acquire_ic, acquire_flag, modify, bind, get, gets. cbn [iclock set_iclock icache]. rewrite Hf. reflexivity. }
  unfold namei, namex. cbn [Z.eqb Pos.eqb]. erewrite bind_ok by (rewrite (bind_ok _ _ _ _ _ Hi); reflexivity). reflexivity.
Qed.

(** The first process: the only one, ready to run [initcode] at address 0. *)
Record first_process (s : Proc.pstate kern) (p : proc) : Prop := mkFirst {
  fp_state : state p = RUNNABLE;
  fp_size : sz p = 4096;
  fp_cwd : cwd p = Some 0%nat;
  fp_tf : tf p = mkTf 0 0 35 35 0 0 27 FL_IF 4096 35;
  fp_ctx : ctx p = mkCtx 0 0 0 0 forkret_addr trapret;
  fp_init : initproc s = Some 0%nat;
}.

Lemma userinit_run s x rest l0 l S :
  ptable s = x :: rest -> state x = UNUSED -> held s = [] -> icache_empty (fsys (env s)) ->
  inv l0 (km (env s)) l S -> NoDup l0 -> Forall (page_ok (kend im)) l0 -> (68 <= length l)%nat ->
  exists s' p I l0' l', @userinit _ (kernel_env im) trapret forkret_addr s = (Ok tt, s')
  /\ ptable s' = p :: rest /\ held s' = [] /\ pid p = nextpid s /\ first_process s' p
  /\ l0 ≡ₚ kstack p :: l0' /\ inv l0' (km (env s')) l' (I :: S) /\ seen I = (pgdir p, 4096)
  /\ forall v, 0 <= v < 4096 -> ubyte (km (env s')) (pgdir p) v = if v <? initcode_size im then memory (km (env s)) (initcode im + v) else 0.
Proof using Hend Hdata Hsize Hinit.
  intros Ht Hx Hh Hic HI Hn Hp Hlen. destruct l as [|ks l1]; [cbn in Hlen; lia|]. cbn [length] in Hlen.
  destruct (inv_take (kend im) (kdata im) Hend l0 _ ks l1 S HI Hn) as (k1 & l0' & Hka & Hks & Hm1 & _ & HP1 & Hn1 & HI1).
  assert (Hp1 : Forall (page_ok (kend im)) l0') by (rewrite HP1 in Hp; by apply Forall_cons_1 in Hp as [_ Hp]).
  destruct (setup_enough (kend im) (kdata im) Hend Hdata l0' k1 l1 S HI1 Hn1 Hp1 ltac:(lia)) as (k2 & l2 & s0 & Hset & Hd & Hz & HI2 & Hl2 & Hm2).
  destruct (init_step (kend im) (kdata im) Hend Hdata l0' k2 l2 s0 S (initcode im) (initcode_size im) HI2 Hn1 Hp1 Hz ltac:(lia) Hsize Hinit) as (k3 & l3 & I & Hin & HI3 & Hsn & Hub & Hm3).
  destruct (namei_root (dev_read im) 0 _ Hic) as (f' & Hnm & _).
  set (e1 := set_km k1 (env s)). set (e2 := set_km k2 e1). set (e3 := set_km k3 e2).
  destruct (@userinit_env _ (kernel_env im) trapret forkret_addr s x rest ks (as_dir s0) (Some 0%nat) e1 e2 e3 (set_fsys f' e3) Ht Hx Hh)
    as (s' & p & Hrun & Hpt & Hh' & Hi & He & Hst & Hpid & Hpd & Hkp & Hsz & Hcwd & Htf & Hctx).
  - cbn; unfold onmem, zoom; by rewrite Hka.
  - done.
  - cbn; unfold onmem, zoom. cbn [km e1 set_km]. by rewrite Hset.
  - done.
  - cbn; unfold onmem, zoom. cbn [km e1 e2 set_km]. by rewrite Hin.
  - cbn; unfold onfs, zoom. cbn [fsys e1 e2 e3 set_km]. by rewrite Hnm.
  - exists s', p, I, l0', l3. rewrite Hpd, Hkp, He. change (km (set_fsys f' e3)) with k3. do 4 (split; [done|]). split; [by split|]. do 3 (split; [done|]).
    intros v Hv. rewrite Hub by exact Hv. destruct (Z.ltb_spec v (initcode_size im)); [|done]. rewrite Hm2, Hm1 by lia. done.
Qed.
End First.

(** ** Devices *)

Lemma each_uartputc l : forall s, exists s', each uartputc l s = (Ok tt, s') /\ irqs s' = irqs s.
Proof.
  induction l as [|c l IH]; intros s; cbn [each]; [by exists s|]. destruct (uartputc_run c s) as (s1 & Hrun & (E & _) & _).
  rewrite (bind_ok _ _ _ _ _ Hrun). destruct (IH s1) as (s2 & Hrun2 & E2). exists s2. split; [done|]. rewrite E2, E. by destruct s.
Qed.

(** The serial port's interrupt is asked for when there is one. *)
Lemma uartinit_run s : exists s' l, uartinit s = (Ok tt, s') /\ irqs s' = irqs s ++ l /\ (l = [] \/ l = [(IRQ_COM1, 0)]).
Proof.
  unfold uartinit, out_com. rewrite !modify_then. set (t := set_com1 _ _). assert (Ht : irqs t = irqs s) by by destruct s.
  assert (Hr : in_lsr t = (Ok 0xFF, t) \/ exists r t', in_lsr t = (Ok r, t') /\ r <> 0xFF /\ irqs t' = irqs t).
  { unfold in_lsr. mrun. destruct (com_absent (com1 t)); [by left|right]. eexists _, _. split; [reflexivity|]. split; [|by destruct t].
    destruct (hd true (com_tx (com1 t))), (com_in (com1 t)); discriminate. }
  destruct Hr as [Hr|(r & t1 & Hr & Hne & Ht1)]; rewrite (bind_ok _ _ _ _ _ Hr).
  { exists t, []. split; [done|]. split; [by rewrite app_nil_r|by left]. }
  rewrite (proj2 (Z.eqb_neq _ _) Hne), modify_then. set (t2 := set_uart true t1).
  assert (Hc : exists c t3, in_com t2 = (Ok c, t3) /\ irqs t3 = irqs t2) by (unfold in_com; mrun; destruct (com_in (com1 t2)); eexists _, _; split; [reflexivity|done|reflexivity|by destruct t2]).
  destruct Hc as (c & t3 & Hc & Ht3). rewrite (bind_ok _ _ _ _ _ Hc). unfold Console.ioapicenable. rewrite modify_then. set (t4 := set_irqs _ t3).
  destruct (each_uartputc (text "xv6..." ++ [10]) t4) as (s' & Hrun & E). exists s', [(IRQ_COM1, 0)]. split; [exact Hrun|]. split; [|by right].
  rewrite E. change (irqs t4) with (irqs t3 ++ [(IRQ_COM1, 0)]). change (irqs t2) with (irqs t1) in Ht3. congruence.
Qed.

Lemma probe1_run n : forall s, exists b, probe1 n s = (Ok tt, set_havedisk1 b s).
Proof.
  induction n as [|n IH]; intros s; cbn [probe1]; [exists (havedisk1 s); by destruct s|]. rewrite gets_then. destruct (negb _); [by exists true|apply IH].
Qed.

Lemma ideinit_run n s : inflight (hw s) = None -> exists s', ideinit n s = (Ok tt, s') /\ ide_irqs s' = ide_irqs s ++ [(IRQ_IDE, n - 1)] /\ bc s' = bc s.
Proof.
  intros Hi. unfold ideinit. rewrite !modify_then. set (t := set_ide_irqs _ _).
  assert (Hw : idewait false t = (Ok 0, t)) by (unfold idewait, ata_status; mrun; change (hw t) with (hw s); rewrite Hi; by destruct (failed (hw s))).
  rewrite (bind_ok _ _ _ _ _ Hw). unfold Ide.outb. rewrite modify_then. match goal with |- context [bind (probe1 ?n) _ ?u] => destruct (probe1_run n u) as (b & Hp) end.
  rewrite (bind_ok _ _ _ _ _ Hp). eexists. split; [reflexivity|]. by destruct s.
Qed.

Lemma enable_one s irq cpu : 0 <= irq < 224 -> 0 <= cpu < 256 ->
  exists s', enable [(irq, cpu)] s = (Ok tt, s') /\ forall j, routed s' j = if j =? irq then Some (T_IRQ0 + irq, cpu) else routed s j.
Proof.
  intros Hi Hc. destruct (ioapicenable_run s irq cpu Hi Hc) as (s' & Hrun & H). exists s'. split; [|done]. cbn [enable]. by rewrite (bind_ok _ _ _ _ _ Hrun).
Qed.

(** A device routine that asks for the interrupts [l]. *)
Lemma on_cons_run {A} (m : M cons A) s a c l io : m (s_cons s) = (Ok a, c) -> irqs c = irqs (s_cons s) ++ l -> enable l (s_io s) = (Ok tt, io) ->
  on_cons m s = (Ok a, set_io io (set_cons c s)).
Proof.
  intros Hm Hc He. unfold on_cons. rewrite gets_then. erewrite bind_ok by (unfold zoom; rewrite Hm; reflexivity). rewrite gets_then. cbn [set_cons s_cons]. rewrite Hc, drop_app_length.
  erewrite bind_ok by (unfold on_io, zoom; cbn [set_cons s_io]; rewrite He; reflexivity). reflexivity.
Qed.

Lemma on_ide_run {A} (m : M ide A) s a c l io : m (s_ide s) = (Ok a, c) -> ide_irqs c = ide_irqs (s_ide s) ++ l -> enable l (s_io s) = (Ok tt, io) ->
  on_ide m s = (Ok a, set_io io (set_ide c s)).
Proof.
  intros Hm Hc He. unfold on_ide. rewrite gets_then. erewrite bind_ok by (unfold zoom; rewrite Hm; reflexivity). rewrite gets_then. cbn [set_ide s_ide]. rewrite Hc, drop_app_length.
  erewrite bind_ok by (unfold on_io, zoom; cbn [set_ide s_io]; rewrite He; reflexivity). reflexivity.
Qed.

(** ** The other processors *)

Lemma others_count n : length (filter (fun j => j <> 0%nat) (seq 0 n)) = (n - 1)%nat.
Proof.
  assert (H : forall n i, (0 < i)%nat -> length (filter (fun j => j <> 0%nat) (seq i n)) = n).
  { clear n. induction n as [|n IH]; intros i Hi; [done|]. cbn [seq]. rewrite filter_cons_True by lia. cbn. by rewrite IH by lia. }
  destruct n as [|n]; [done|]. cbn [seq]. rewrite filter_cons_False by (by intros []). rewrite H; lia.
Qed.

(** [startothers] takes a page for the stack of each of them. *)
Lemma startothers_inv kend data other_start other_size mpenter pgdir delay answers fuel ids l0 l S b :
  KERNLINK <= kend -> 0 <= mpenter < 2 ^ 32 -> 0 <= other_size <= 4096 -> vm_inv kend data l0 (bkm b) l S -> NoDup l0 ->
  Forall (fun a => 0 <= a < 256) ids -> (length ids <= length l)%nat -> (forall j, (answers j + 2 <= fuel)%nat) ->
  exists b' stacks l0', startothers other_start other_size mpenter pgdir delay answers fuel 0 ids b = (Ok tt, b')
  /\ l0 ≡ₚ stacks ++ l0' /\ NoDup l0' /\ vm_inv kend data l0' (bkm b') (drop (length stacks) l) S /\ length stacks = (length ids - 1)%nat
  /\ (forall j, (0 < j < length ids)%nat -> bstarted b' j = true) /\ (forall x, KERNLINK <= x -> memory (bkm b') x = memory (bkm b) x).
Proof.
  intros Hend Hm Hsz HI Hn Hids Hlen Hans. unfold startothers.
  set (b1 := mkBsp (set_memory (memmove (memory (bkm b)) ap_code other_start other_size) (bkm b)) (blap b) (bstarted b)).
  assert (Hm1 : forall x, KERNLINK <= x -> memory (bkm b1) x = memory (bkm b) x).
  { intros x Hx. cbn. rewrite memmove_copied by lia. unfold copied. change ap_code with 0x80007000. unfold KERNLINK, KERNBASE, EXTMEM in Hx. zcases; cbn [andb]; done || lia. }
  assert (HI1 : vm_inv kend data l0 (bkm b1) l S) by (apply (inv_low kend data l0 (bkm b)); [done|done|done|done|intros x Hx; apply Hm1; lia]).
  destruct (startothers_loop_run kend mpenter pgdir delay answers fuel 0 Hend Hm ids 0 b1 l (vi_free _ _ _ _ _ _ HI1) Hids Hlen Hans) as (b' & u & Hrun & Hk' & Hu & Hst & _ & Hmem & Hul).
  rewrite others_count in Hul.
  assert (Hm2 : forall x, KERNLINK <= x -> memory (bkm b') x = memory (bkm b1) x).
  { intros x Hx. apply Hmem. unfold launch_area. unfold KERNLINK, KERNBASE, EXTMEM in Hx. lia. }
  set (l0' := drop (length u) l ++ owns S). assert (HP : l0 ≡ₚ u ++ l0').
  { rewrite <- (vi_conserved _ _ _ _ _ _ HI). unfold l0'. rewrite app_assoc. rewrite Hu at 1. by rewrite take_drop. }
  assert (Hn' : NoDup l0') by (rewrite HP in Hn; by apply NoDup_app in Hn as (_ & _ & Hn)).
  exists b', u, l0'. split; [exact Hrun|]. do 2 (split; [done|]). split; [|split; [done|split; [intros j Hj; apply Hst; lia|intros x Hx; by rewrite Hm2, Hm1]]].
  apply (inv_frame kend data l0 (bkm b1) l S); try done. intros q x Hq Hx. apply Hm2. pose proof (owns_pages kend data _ _ _ _ HI1) as HF. rewrite Forall_forall in HF.
  destruct (HF q Hq) as (_ & Hge & _). unfold in_page in Hx. lia.
Qed.

(** ** The whole of [main] *)

Section Booting.
Context (im : image) (gdt_addr idt_addr trapret forkret_addr : Z) (vectors : nat -> Z).
Context (other_start other_size mpenter_addr pgdir_addr : Z) (delay : Z -> nat) (answers : nat -> nat) (fuel : nat).
Abbreviation top := (Kalloc.P2V (4 * 1024 * 1024)).
Abbreviation boot := (main im gdt_addr idt_addr trapret forkret_addr vectors other_start other_size mpenter_addr pgdir_addr delay answers fuel).

(** What the linker promises: the kernel leaves at least 73 pages below 4 megabytes, and
    the code of the first process lies in it. *)
Record linked : Prop := mkLinked {
  ln_end : KERNLINK <= kend im /\ kend im + 74 * 4096 <= top;
  ln_data : kdata im mod 4096 = 0 /\ KERNLINK < kdata im < KERNBASE + PHYSTOP;
  ln_init : KERNLINK <= initcode im /\ initcode im + initcode_size im <= kend im /\ 0 <= initcode_size im < 4096;
  ln_other : 0 <= other_size <= 4096;
  ln_addrs : 0 <= mpenter_addr < 2 ^ 32 /\ 0 <= gdt_addr < 2 ^ 32 /\ 0 <= idt_addr < 2 ^ 32;
}.

(** The machine when [main] starts: zeroed data, idle devices, a table of processors. *)
Record power_on (s : sys) (mp : mpstate) : Prop := mkPowerOn {
  po_free : freelist (kmem_of s) = 0;
  po_procs : ptable (s_ps s) = replicate NPROC proc_zero;
  po_held : held (s_ps s) = [];
  po_inodes : icache_empty (fsys (env (s_ps s)));
  po_gdt : length (gdt (c_segs (s_cpu s))) = NSEGS;
  po_mp : mpinit fuel (s_mp s) = (Ok tt, mp);
  po_cpus : 1 <= ncpu mp <= NCPU /\ length (apicids mp) = Z.to_nat NCPU /\ Forall (fun a => 0 <= a < 256) (apicids mp);
  po_ioapic : IRQ_IDE <= Z.land (Z.shiftr (io_ver (s_io s)) 16) 255;
  po_bufs : cold (bc (s_ide s));
  po_disk : inflight (hw (s_ide s)) = None;
  po_delay : (delay (BCAST + INIT + LEVEL) < fuel)%nat;
  po_answers : forall j, (answers j + 2 <= fuel)%nat;
}.

Lemma low_pages : linked -> (73 <= length (range_pages (kend im) top))%nat.
Proof using.
  intros [[H1 H2] _ _ _ _]. unfold range_pages. rewrite length_rev, length_pages_from. destruct (PGROUNDUP_spec (kend im)) as [_ H].
  - unfold KERNLINK, KERNBASE, EXTMEM in *. lia.
  - change top with 0x80400000 in *. unfold PGSIZE. lia.
  - assert (73 <= (top - PGROUNDUP (kend im)) / PGSIZE) by (apply Z.div_le_lower_bound; unfold PGSIZE in *; lia). lia.
Qed.

Lemma high_pages : (68 <= length (range_pages top (KERNBASE + PHYSTOP)))%nat.
Proof using. unfold range_pages. rewrite length_rev, length_pages_from. apply Nat.leb_le. by vm_compute. Qed.

Lemma kernel_end : linked -> KERNBASE < kend im /\ kend im <= top /\ top <= KERNBASE + PHYSTOP.
Proof using.
  intros [[H1 H2] _ _ _ _]. change top with 0x80400000 in *. unfold KERNLINK, KERNBASE, EXTMEM, PHYSTOP in *. lia.
Qed.

(** Each page of the two ranges is one the allocator may hold, and is there once. *)
Lemma low_pages_ok : linked ->
  NoDup (range_pages (kend im) top) /\ forall v, v ∈ range_pages (kend im) top -> page_ok (kend im) v /\ v + PGSIZE <= top.
Proof using.
  intros HL. destruct (kernel_end HL) as (He & Ht & Hp). split.
  - destruct (kinit1_inv (kend im) (kdata im) He (mkKmem (fun _ => 0) false false 0) top eq_refl Ht Hp) as (_ & _ & _ & H & _). exact H.
  - intros v Hv. by destruct (range_pages_spec (kend im) He (kend im) top v (Z.le_refl _) Ht Hp Hv) as (H1 & _ & H2).
Qed.

Lemma high_pages_ok : linked ->
  (68 <= length (range_pages top (KERNBASE + PHYSTOP)))%nat /\ Forall (page_ok (kend im)) (range_pages top (KERNBASE + PHYSTOP)).
Proof using.
  intros HL. destruct (kernel_end HL) as (He & Ht & Hp). split; [exact high_pages|]. apply Forall_forall. intros v Hv.
  by destruct (range_pages_spec (kend im) He top (KERNBASE + PHYSTOP) v Ht Hp (Z.le_refl _) Hv) as (H1 & _ & _).
Qed.

Lemma lapicinit_returns l : (delay (BCAST + INIT + LEVEL) < fuel)%nat -> exists l', lapicinit delay fuel l = (Ok tt, l').
Proof using.
  intros H. destruct (Z.eq_dec (Lapic.lapic l) 0) as [E|E]; [exists l; by apply lapicinit_none|]. destruct (lapicinit_run delay fuel l E H) as (r & Hr & _). by eexists.
Qed.

Lemma zoom_ok {S T A} (proj : S -> T) (inj : T -> S -> S) (m : M T A) s a t : m (proj s) = (Ok a, t) -> zoom proj inj m s = (Ok a, inj t s).
Proof using. intros H. unfold zoom. by rewrite H. Qed.

Ltac ycbn :=
  cbv beta iota zeta delta [set_kmem set_ps set_cpu set_mp set_io set_cons set_ide set_idt set_kpgdir kmem_of];
  cbn [s_ps s_cpu s_others s_mp s_io s_cons s_ide s_idt s_kpgdir c_segs c_lap c_started fst snd bkm blap bstarted].
Ltac ystep H := erewrite bind_ok by (repeat apply zoom_ok; exact H); ycbn.

(** What is left of [main] once the devices are set up. *)
Abbreviation last_steps := (
  ids <- gets (fun s => take (Z.to_nat (ncpu (s_mp s))) (apicids (s_mp s))) ;;
  on_bsp (startothers other_start other_size mpenter_addr pgdir_addr delay answers fuel 0 ids) ;;
  on_km (kinit2 (kend im) top (Kalloc.P2V PHYSTOP)) ;;
  on_ps (@userinit _ (kernel_env im) trapret forkret_addr) ;;
  on_cpu (mpmain idt_addr)).

(** The kernel has its page table and the devices are ready. *)
Record devices_ready (s : sys) (mp : mpstate) (s1 : sys) (K : aspace) (l : list Z) : Prop := mkReady {
  dr_inv : vm_inv (kend im) (kdata im) (range_pages (kend im) top) (kmem_of s1) l [K];
  dr_kernel : seen K = (s_kpgdir s1, 0);
  dr_free : (8 <= length l)%nat;
  dr_mem : forall x, x < kend im -> memory (kmem_of s1) x = memory (kmem_of s) x;
  dr_procs : ptable (s_ps s1) = ptable (s_ps s);
  dr_held : held (s_ps s1) = [];
  dr_next : nextpid (s_ps s1) = nextpid (s_ps s);
  dr_fs : fsys (env (s_ps s1)) = fsys (env (s_ps s));
  dr_mp : s_mp s1 = mp;
  dr_idt : s_idt s1 = tvinit vectors;
  dr_cr3 : scr3 (c_segs (s_cpu s1)) = V2P (s_kpgdir s1);
  dr_gdt : gdtr (c_segs (s_cpu s1)) = (47, gdt_addr);
  dr_others : s_others s1 = s_others s;
  dr_irqs : forall irq, irq <> IRQ_COM1 -> 0 <= irq <= IRQ_IDE -> routed (s_io s1) irq =
    if irq =? IRQ_KBD then Some (T_IRQ0 + IRQ_KBD, 0) else if irq =? IRQ_IDE then Some (T_IRQ0 + IRQ_IDE, ncpu mp - 1) else None;
}.

Lemma main_devices s mp : linked -> power_on s mp -> exists s1 K l, boot s = last_steps s1 /\ devices_ready s mp s1 K l.
Proof using.
  intros HL HP. pose proof (low_pages HL) as Hlow. destruct HL as [[He1 He2] Hdata (Hi1 & Hi2 & Hi3) Hot (Hme & Hg & Hid)].
  destruct HP as [Hfree Hpt Hheld Hino Hgdt Hmp (Hn1 & Hn2 & Hn3) Hio Hcold Hdisk Hdel Hans].
  destruct s as [ps [sg lap st] ot mp0 io co id idt kp]. cbn [s_ps s_cpu s_others s_mp s_io s_cons s_ide s_idt s_kpgdir c_segs c_lap c_started] in *. unfold kmem_of in *. cbn [s_ps] in *.
  assert (Hend : KERNBASE < kend im) by (unfold KERNLINK, KERNBASE, EXTMEM in *; lia).
  destruct (kinit1_inv (kend im) (kdata im) Hend (km (env ps)) top Hfree) as (k1 & R1 & HI1 & HN1 & M1); [unfold KERNBASE; lia|by vm_compute|].
  destruct (setup_enough (kend im) (kdata im) Hend Hdata _ k1 _ [] HI1 HN1) as (k2 & l2 & K & R2 & HK & HKz & HI2 & HL2 & M2); [|lia|].
  { apply Forall_forall. intros v Hv. apply (range_pages_spec (kend im) Hend (kend im) top v); [lia|lia|by vm_compute|done]. }
  set (sg1 := mkSegs (gdt sg) (ss0 sg) (ts_esp0 sg) (iomb sg) (gdtr sg) (idtr sg) (tr sg) (V2P (as_dir K))).
  set (lap1 := mkLap (Mp.lapic mp) (lregs lap) (busy lap) (sent lap) (lports lap) (lmem lap)).
  destruct (lapicinit_returns lap1 Hdel) as (lap2 & R5). destruct (seginit_ok gdt_addr 0 sg1 Hg Hgdt) as (sg2 & R6 & HS2).
  destruct (picinit lap2) as [r7 lap3] eqn:R7. assert (r7 = Ok tt) as -> by (unfold picinit in R7; by injection R7 as <- _).
  destruct (ioapicinit_run io (ioapicid mp)) as (io1 & R8 & IO1). destruct (enable_one io1 IRQ_KBD 0 ltac:(by vm_compute) ltac:(lia)) as (io2 & R9 & IO2).
  set (co1 := Console.set_irqs (irqs co ++ [(IRQ_KBD, 0)]) (Console.set_locking true (Console.set_cons_lock false co))).
  destruct (uartinit_run co1) as (co2 & lu & R10 & EQ10 & Hlu).
  assert (exists io3, enable lu io2 = (Ok tt, io3) /\ forall j, j <> IRQ_COM1 -> routed io3 j = routed io2 j) as (io3 & R11 & IO3).
  { destruct Hlu as [-> | ->]; [by exists io2|]. destruct (enable_one io2 IRQ_COM1 0 ltac:(by vm_compute) ltac:(lia)) as (io3 & R & H). exists io3. split; [done|].
    intros j Hj. by rewrite H, (proj2 (Z.eqb_neq _ _) Hj). }
  destruct (binit_rel (bc id) 0 Hcold) as (bc1 & R12 & _). destruct (ideinit_run (ncpu mp) (set_bc bc1 id) Hdisk) as (id2 & R13 & EQ13 & _).
  assert (Hcpu : 0 <= ncpu mp - 1 < 256) by (clear - Hn1; unfold NCPU in Hn1; lia).
  destruct (enable_one io3 IRQ_IDE (ncpu mp - 1) ltac:(clear; by vm_compute) Hcpu) as (io4 & R14 & IO4).
  unfold main, on_km, on_cpu, on_segs, on_lap, on_mp, on_io, on_kern, on_ps.
  ystep R1. erewrite bind_ok by (apply zoom_ok; unfold kvmalloc; erewrite bind_ok by exact R2; reflexivity). ycbn.
  rewrite modify_then. ycbn. erewrite bind_ok by (do 2 apply zoom_ok; reflexivity). ycbn. fold sg1.
  ystep Hmp. ystep R5. ystep R6. ystep R7. rewrite gets_then. ycbn. ystep R8.
  erewrite bind_ok by (eapply (on_cons_run consoleinit _ tt co1 [(IRQ_KBD, 0)] io2); [reflexivity|reflexivity|exact R9]). ycbn.
  erewrite bind_ok by (eapply (on_cons_run uartinit _ tt co2 lu io3); [exact R10|exact EQ10|exact R11]). ycbn.
  erewrite bind_ok by (apply zoom_ok; reflexivity). ycbn. rewrite modify_then. ycbn. erewrite bind_ok by (apply zoom_ok; reflexivity). ycbn.
  erewrite bind_ok by (eapply (on_ide_run (onbc binit) _ tt (set_bc bc1 id) [] io3); [apply zoom_ok; exact R12|by rewrite app_nil_r|reflexivity]). ycbn.
  erewrite bind_ok by (do 2 apply zoom_ok; reflexivity). ycbn. rewrite gets_then. ycbn.
  erewrite bind_ok by (eapply (on_ide_run (ideinit (ncpu mp)) _ tt id2 [(IRQ_IDE, ncpu mp - 1)] io4); [exact R13|exact EQ13|exact R14]). ycbn.
  eexists (mkSys _ _ _ _ _ _ _ _ _), K, l2. split; [reflexivity|]. split; cbn [s_ps s_cpu s_others s_mp s_io s_idt s_kpgdir c_segs].
  - done.
  - unfold seen. by rewrite HKz.
  - clear - HL2 Hlow. lia.
  - intros x Hx. cbn. rewrite M2, M1 by exact Hx. done.
  - done.
  - cbn. by rewrite Hheld.
  - done.
  - done.
  - done.
  - done.
  - exact (f_equal scr3 (f_equal snd (eq_sym R6))).
  - apply HS2.
  - done.
  - intros irq Hne Hr. rewrite IO4, IO3, IO2, IO1 by (exact Hne || (clear - Hr Hio; lia)).
    destruct (Z.eqb_spec irq IRQ_IDE) as [->|_]; [done|]. by destruct (irq =? IRQ_KBD).
Qed.

(** C4: on a machine as the boot loader leaves it, [main] comes to its call of [scheduler]
    without a panic.  Every page of memory above the kernel is then on the free list, or
    in the address space of the kernel or of the first process, or a kernel stack, and in
    one of these only.  The processor runs on the kernel's page table with its own tables;
    the process table holds one runnable process whose memory is the code of
    [initcode.S] followed by zeros; and the keyboard and the disk interrupt the processors
    they should, with every other line masked but the serial port's. *)
Theorem main_boots s mp : linked -> power_on s mp ->
  exists s' p I K free stacks, boot s = (Ok tt, s')
  /\ range_pages top (KERNBASE + PHYSTOP) ++ range_pages (kend im) top ≡ₚ free ++ owns [I; K] ++ kstack p :: stacks
  /\ vm_inv (kend im) (kdata im) (free ++ owns [I; K]) (kmem_of s') free [I; K]
  /\ seen K = (s_kpgdir s', 0) /\ seen I = (pgdir p, 4096)
  /\ ptable (s_ps s') = p :: replicate (NPROC - 1) proc_zero /\ pid p = nextpid (s_ps s) /\ first_process trapret forkret_addr (s_ps s') p
  /\ (forall v, 0 <= v < 4096 -> ubyte (kmem_of s') (pgdir p) v = if v <? initcode_size im then memory (kmem_of s) (initcode im + v) else 0)
  /\ scr3 (c_segs (s_cpu s')) = V2P (s_kpgdir s') /\ gdtr (c_segs (s_cpu s')) = (47, gdt_addr) /\ idtr (c_segs (s_cpu s')) = (2047, idt_addr)
  /\ s_idt s' = tvinit vectors
  /\ (forall irq, irq <> IRQ_COM1 -> 0 <= irq <= IRQ_IDE -> routed (s_io s') irq =
         if irq =? IRQ_KBD then Some (T_IRQ0 + IRQ_KBD, 0) else if irq =? IRQ_IDE then Some (T_IRQ0 + IRQ_IDE, ncpu mp - 1) else None)
  /\ (forall j, (0 < j < Z.to_nat (ncpu mp))%nat -> s_others s' j = true) /\ c_started (s_cpu s') = true.
Proof using.
  intros HL HP. destruct (main_devices s mp HL HP) as (s1 & K & l & -> & [HI HK Hlen Hmem Hpt Hheld Hnext Hfs Hmp Hidt Hcr3 Hgdt Hot Hirq]).
  destruct (low_pages_ok HL) as [HN0 Hlp]. destruct (high_pages_ok HL) as [Hhl Hhp]. destruct HL as [[He1 He2] Hdata (Hi1 & Hi2 & Hi3) Hsz (Hme & Hg & Hid)].
  destruct HP as [_ Hpt0 _ Hino _ _ (Hn1 & Hn2 & Hn3) _ _ _ _ Hans].
  assert (Hend : KERNBASE < kend im) by (unfold KERNLINK, KERNBASE, EXTMEM in He1 |- *; lia).
  assert (Htop : KERNBASE + PHYSTOP = Kalloc.P2V PHYSTOP) by (by vm_compute). assert (Htop' : top <= KERNBASE + PHYSTOP) by (by vm_compute).
  set (ids := take (Z.to_nat (ncpu mp)) (apicids mp)). assert (Hidl : length ids = Z.to_nat (ncpu mp)) by (unfold ids; rewrite length_take, Hn2; lia).
  set (b := mkBsp (kmem_of s1) (c_lap (s_cpu s1)) (s_others s1)).
  destruct (startothers_inv (kend im) (kdata im) other_start other_size mpenter_addr pgdir_addr delay answers fuel ids _ l [K] b He1 Hme Hsz HI HN0) as (b' & stacks & l1 & R1 & HP1 & HN1 & HI1 & Hls & Hst & HM1);
    [by apply Forall_take|unfold NCPU in Hn1; lia|done|].
  destruct (kinit2_inv (kend im) (kdata im) Hend l1 (bkm b') _ [K] top (KERNBASE + PHYSTOP) HI1 HN1) as (k2 & R2 & HI2 & HN2 & HM2); [lia|lia|lia| |].
  { intros v Hv. apply (Hlp v). rewrite HP1, elem_of_app. by right. }
  revert HI2 HN2 Hhl Hhp. generalize (range_pages top (KERNBASE + PHYSTOP)) as hi. intros hi HI2 HN2 Hhl Hhp.
  set (ps2 := set_env (set_km k2 (env (s_ps s1))) (s_ps s1)).
  destruct (userinit_run im trapret forkret_addr Hend Hdata Hi3 Hi2 ps2 proc_zero (replicate (NPROC - 1) proc_zero) (hi ++ l1) (hi ++ drop (length stacks) l) [K]) as (ps3 & p & I & l3 & free & R3 & Hp3 & Hh3 & Hpid & Hfp & HP3 & HI3 & HsI & Hub).
  - change (ptable ps2) with (ptable (s_ps s1)). by rewrite Hpt, Hpt0.
  - done.
  - exact Hheld.
  - change (fsys (env ps2)) with (fsys (env (s_ps s1))). by rewrite Hfs.
  - exact HI2.
  - exact HN2.
  - apply Forall_app. split; [done|]. apply Forall_forall. intros v Hv. apply (Hlp v). rewrite HP1, elem_of_app. by right.
  - rewrite length_app. lia.
  - rewrite gets_then, Hmp. fold ids. unfold on_bsp, on_km, on_ps, on_cpu, on_segs.
    ystep R1. rewrite <- Htop. ystep R2. ystep R3.
    exists (mkSys ps3 (mkCpust (mkSegs (gdt (c_segs (s_cpu s1))) (ss0 (c_segs (s_cpu s1))) (ts_esp0 (c_segs (s_cpu s1))) (iomb (c_segs (s_cpu s1))) (gdtr (c_segs (s_cpu s1)))
                                   (table_of (pseudo idt_addr 2048)) (tr (c_segs (s_cpu s1))) (scr3 (c_segs (s_cpu s1)))) (blap b') true)
                  (bstarted b') (s_mp s1) (s_io s1) (s_cons s1) (s_ide s1) (s_idt s1) (s_kpgdir s1)), p, I, K, free, stacks.
    split; [done|]. split; [|split].
    + rewrite HP1, (Permutation_app_comm stacks l1), app_assoc, HP3, <- (vi_conserved _ _ _ _ _ _ HI3). cbn [app]. by rewrite app_assoc, <- Permutation_middle.
    + by destruct HI3.
    + cbn [s_ps s_cpu s_others s_io s_idt s_kpgdir c_segs c_started scr3 gdtr idtr]. do 2 (split; [done|]). split; [exact Hp3|]. split; [by rewrite Hpid, <- Hnext|].
      split; [done|]. split.
      { intros v Hv. unfold kmem_of. cbn [s_ps]. rewrite Hub by exact Hv. destruct (Z.ltb_spec v (initcode_size im)) as [Hlt|]; [|done].
        change (km (env ps2)) with k2. rewrite HM2, HM1 by lia. apply Hmem. lia. }
      do 2 (split; [done|]). split; [by rewrite table_of_pseudo|]. do 2 (split; [done|]). split; [|done]. intros j Hj. apply Hst. lia.
Qed.
End Booting.

(** ** A machine *)

Module MainRuns.
(** A BIOS with the pointer in the extended data area: one processor, one I/O
    controller. *)
Definition bios_bytes : list Z :=
  [95; 77; 80; 95; 0x10; 0xFC; 0x09; 0; 1; 4; 139; 0; 0; 0; 0; 0]
  ++ [80; 67; 77; 80; 72; 0; 4; 163] ++ replicate 28 0 ++ [0; 0; 0xE0; 0xFE] ++ replicate 4 0
  ++ replicate 20 0 ++ [2; 1; 0; 0; 0; 0; 0; 0].
Definition bios : mem := fun a =>
  if a =? 0x8000040E then 0xC0 else if a =? 0x8000040F then 0x9F else
  if (0x8009FC00 <=? a) && (a <? 0x8009FC58) then nth (Z.to_nat (a - 0x8009FC00)) bios_bytes 0 else 0.
Definition im : image := mkImage 0x80120000 0x80108000 0x8010b460 44 (fun _ => None) (fun _ => None).
Definition no_inode : inode := mkInode 0 0 0 (mkSleeplock false false 0) false 0 0 0 0 0 (replicate 13 0).
Definition kern0 : kern :=
  mkKern (mkKmem (fun a => a mod 251) false false 0)
    (mkF (mkSb 0 0 0 0 0 0 0) false (replicate 50 no_inode) (mkL (mkLog false 0 0 0 false 1 0 []) (mkBlk (fun _ => []) (fun _ => []) [] []) []) 0 [] [])
    false [] ∅ false [] [] 0.
Definition machine : sys :=
  mkSys (mkP (replicate NPROC proc_zero) [] 1 None None 0 false 0 0 0 0 [] kern0)
    (mkCpust (mkSegs (replicate NSEGS (SEG 0 0 0 0)) 0 0 0 (0, 0) (0, 0) 0 0) (mkLap 0 (fun _ => 0) 0 [] [] (fun _ => 0)) false)
    (fun _ => false) (mkMp bios [0] 0 0 0 0 []) (mkIo 0x01000000 0x00170011 (fun _ => 0) false) (ConsoleInv.Runs.prompt 0 [])
    (mkIde cold_cache false (fun _ => None) None false (mkAta (fun _ => 0) None [] false (fun _ => []) true) []) [] 0.
Abbreviation boot1 := (main im 0x80113000 0x80114000 0x80105bd6 0x801034b0 (fun n => 0x80106000 + Z.of_nat n) 0x8010b48c 138 0x80102f10 0x80109000 (fun _ => 3%nat) (fun _ => 0%nat) 10).

Lemma machine_on : power_on (fun _ => 3%nat) (fun _ => 0%nat) 10 machine (snd (mpinit 10 (mkMp bios [0] 0 0 0 0 []))).
Proof.
  split.
  - done.
  - done.
  - done.
  - split; [done|]. split; [done|]. by apply Forall_replicate.
  - done.
  - apply injective_projections; [by vm_compute|reflexivity].
  - vm_compute. split; [split; discriminate|]. split; [done|]. constructor; [split; [discriminate|done]|constructor].
  - by vm_compute.
  - by intros b _.
  - done.
  - apply Nat.ltb_lt. by vm_compute.
  - intros j. lia.
Qed.

Lemma main_boots_witness : exists s p, boot1 machine = (Ok tt, s) /\ ptable (s_ps s) = p :: replicate 63 proc_zero /\ pid p = 1
  /\ ubyte (kmem_of s) (pgdir p) 3 = (0x8010b460 + 3) mod 251.
Proof.
  destruct (main_boots im 0x80113000 0x80114000 0x80105bd6 0x801034b0 (fun n => 0x80106000 + Z.of_nat n) 0x8010b48c 138 0x80102f10 0x80109000 (fun _ => 3%nat) (fun _ => 0%nat) 10 machine (snd (mpinit 10 (mkMp bios [0] 0 0 0 0 []))))
    as (s & p & I & K & free & stacks & Hrun & _ & _ & _ & _ & Hpt & Hpid & _ & Hub & _); [|exact machine_on|].
  - split; vm_compute; repeat split; discriminate.
  - exists s, p. split; [exact Hrun|]. split; [exact Hpt|]. split; [exact Hpid|]. rewrite Hub by lia. reflexivity.
Defined.
End MainRuns.
