(* ===== verification/KernelTests.v ===== *)
(** The kernel under the repository's own tests.

    A system for the programs of [Usys] made of the kernel of [Sysfile], [Syscall],
    [Kernel] and what is below them: a call puts its arguments on the user stack and its
    strings and buffer in user memory, as the stubs of [src/usys.S] and the callers do,
    runs [syscall], and takes the result from [eax] and the buffer.  Module [ExitWait]
    runs [exit] and [wait] on the same kernel. *)

From Stdlib Require Import ZArith Lia.
From stdpp Require Import base list strings gmap.
From S2P Require Import Prelude Kstring Bytes Kalloc Vm Blk Log Sleeplock Fs Pipe File Proc Procinfo Syscall Kernel Exec Sysfile KernelInv Sched ProcInv ProcSpec.
From S2P Require Import Ulib Console Usys Sh Uprogs Mkfs Forktest Usertests.
Local Open Scope Z_scope.
Local Abbreviation mem := Prelude.mem.

(** ** System calls from user memory *)

(** Where the caller's stack, its two strings and its buffer lie, in an address space of
    [0x10000] bytes. *)
Definition stack : Z := 0x3000.
Definition path1 : Z := 0x1000.
Definition path2 : Z := 0x2000.
Definition buffer : Z := 0x4000.

(** The bytes at [a] up to their end, zero after them. *)
Definition bytes_at (a : Z) (l : list Z) (x : Z) : Z := nth (Z.to_nat (x - a)) l 0.
Definition user_memory (args s1 s2 b : list Z) : mem := fun x =>
  if x <? path2 then bytes_at path1 s1 x else
  if x <? stack then bytes_at path2 s2 x else
  if x <? buffer then bytes_at stack (le_bytes 4 0 ++ flat_map (le_bytes 4) args) x else
  bytes_at buffer b x.

Section Calls.
Context (im : image).
#[local] Instance here : Env kern := kernel_env im.

(** [int $T_SYSCALL] with [num] in [eax]. *)
Definition trap_call (num : Z) (args s1 s2 b : list Z) : M (sstate kern) Syscall.outcome :=
  (modify (set_um (user_memory args s1 s2 b)) ;;
   upd_my (fun p => set_tf (mkTf 0 num 0 0 64 0 27 0 stack 0) p) ;;
   syscall 0 0 0 [] (calls im 0 (ret tt)) 10)%kernel.

(** The kernel's state, or what it has done other than return from a call. *)
Definition world : Type := sstate kern + res Syscall.outcome.

Definition do_call (num : Z) (args s1 s2 b : list Z) (w : world) : Z * world :=
  match w with
  | inr e => (-1, inr e)
  | inl s =>
      match trap_call num args s1 s2 b s with
      | (Ok (Syscall.Return r), s') => (s32 (u32 r), inl s')
      | (e, _) => (-1, inr e)
      end
  end.
(** The first [n] bytes of the buffer after a call that returned [n]. *)
Definition buffer_of (n : Z) (w : world) : list Z :=
  match w with inl s => ubytes (um s) buffer n | inr _ => [] end.

Definition kcall (X : Type) (c : Usys.call X) (_ : unit) (w : world) : X * unit * world :=
  let plain num args s1 s2 b := let '(r, w) := do_call num args s1 s2 b w in (r, tt, w) in
  match c in Usys.call X return X * unit * world with
  | Wait => plain 3 [] [] [] []
  | Usys.Pipe =>
      let '(r, w) := do_call 4 [buffer] [] [] [] w in
      let b := buffer_of 8 w in ((r, (get32 b 0, get32 b 4)), tt, w)
  | Read fd n => let '(r, w) := do_call 5 [fd; buffer; n] [] [] [] w in ((r, buffer_of r w), tt, w)
  | Write fd b => plain 16 [fd; buffer; Z.of_nat (length b)] [] [] b
  | Close fd => plain 21 [fd] [] [] []
  | Kill pid => plain 6 [pid] [] [] []
  | Open path mode => plain 15 [path1; mode] path [] []
  | Mknod path major minor => plain 17 [path1; major; minor] path [] []
  | Unlink path => plain 18 [path1] path [] []
  | Fstat fd =>
      let '(r, w) := do_call 8 [fd; buffer] [] [] [] w in
      let b := buffer_of 20 w in
      ((r, mkUstat (s16 (get16 b 0)) (s32 (get32 b 4)) (get32 b 8) (s16 (get16 b 12)) (get32 b 16)), tt, w)
  | Usys.Link old new => plain 19 [path1; path2] old new []
  | Mkdir path => plain 20 [path1] path [] []
  | Chdir path => plain 9 [path1] path [] []
  | Dup fd => plain 10 [fd] [] [] []
  | Getpid => plain 11 [] [] [] []
  | Sbrk n => plain 12 [n] [] [] []
  | Sleep_ticks n => plain 13 [n] [] [] []
  | Uptime => plain 14 [] [] [] []
  | Read_at fd a n => plain 5 [fd; a; n] [] [] []
  | Link_at old a => plain 19 [path1; a] old [] []
  | Count_num_of_digits _ | Get_parent_id | Get_children _ | Get_time | Load _ | Sleep_at _ | Inb _ => (-1, tt, inr (UB "not a call of these programs"))
  | Set_path _ | Set_sleep _ | Change_process_level _ _ | Set_process_ticket _ _ | Set_process_remaining_priority _ _
  | Print_processes_info | Barrier_init _ | Barrier_wait | Reentrant_spinlock_test | Store _ _ | Outb _ _ => (tt, tt, inr (UB "not a call of these programs"))
  end.

Definition kernel_system : system unit world :=
  mkSystem kcall (fun _ => (None, inr (UB "fork"))) (fun _ _ _ _ => None).
End Calls.

(** ** A machine to run them on *)

Module Machine.
(** A console that keeps what is written to it. *)
Definition console_write (_ : nat) (b : list Z) : FM Z :=
  (modify (fun s => set_fout (fout s ++ [text_of b]) s) ;; ret (Z.of_nat (length b)))%kernel.
Definition im : image := mkImage 0x80120000 0x80108000 0x8010b460 44 (fun _ => None) (fun major => if major =? 1 then Some console_write else None).

(** The disk [mkfs] makes of four files. *)
Definition host (name : list Z) : option (list (list Z)) := Some [name ++ [10]].
Definition disk_image : list block :=
  let s := snd (Mkfs.main 1000 (fun _ => true) host [text "mkfs"; text "fs.img"; text "README"; text "_cat"; text "_echo"; text "_init"] Mkfs.start) in
  map (fun n => img s (Z.of_nat n)) (seq 0 1000).
Definition no_inode : inode := mkInode 0 0 0 (mkSleeplock false false 0) false 0 0 0 0 0 (replicate 13 0).
Definition no_file : file := mkFile FD_NONE 0 false false 0 0 0.
Definition power_up : kern :=
  let d := disk_image in
  let blocks n := nth (Z.to_nat n) d [] in
  mkKern (mkKmem (fun _ => 0) false false 0)
    (mkF (mkSb 0 0 0 0 0 0 0) false (replicate 50 no_inode) (mkL (mkLog false 0 0 0 false 1 0 (replicate 30 0)) (mkBlk blocks blocks [] []) []) 1 [] [])
    false (replicate 100 no_file) ∅ false [] [] 0.
(** [iinit] and [initlog], as the first process does, and its working directory. *)
Definition mounted : kern :=
  snd ((onfs (iinit ROOTDEV) ;; onfs (onlog (initlog ROOTDEV)) ;; onfs (namei (dev_read im) 0 [47]) ;; ret tt)%kernel power_up).
Definition first : proc := set_cwd (Some 0%nat) (set_state RUNNING (set_kstack 1 (set_pgdir 1 (set_pid 1 (set_sz 0x10000 proc_zero))))).
Definition booted : world :=
  inl (mkS (mkP (first :: replicate 63 proc_zero) [] 2 (Some 0%nat) (Some 0%nat) 0 true 0 0 0 0 [] mounted) (fun _ => 0)).
(** What was written to the console after the message of [iinit]; nothing when a call did
    not return. *)
Definition said (w : world) : option string :=
  match w with inl s => Some (String.concat EmptyString (tail (fout (fsys (env (Syscall.ps s)))))) | inr _ => None end.
End Machine.

(** ** The tests *)

Section Suite.
Local Open Scope prog_scope.

(** What [init] does before it starts a shell: descriptors 0, 1 and 2 are the console. *)
Definition open_console : prog unit :=
  sys (Mknod (text "console") 1 1) ;; sys (Open (text "console") O_RDWR) ;; sys (Dup 0) ;; sys (Dup 0) ;; Return tt.

(** Tests that use one process, in the order of [usertests.c]. *)
Definition suite (buf : list Z) : prog (list Z) :=
  open_console ;;
  argptest ;;
  opentest ;;
  buf <- writetest buf ;;
  iputtest ;;
  dirtest ;;
  rmdot ;;
  fourteen ;;
  buf <- bigfile 100 buf ;;
  buf <- subdir buf ;;
  buf <- linktest buf ;;
  buf <- unlinkread buf ;;
  dirfile ;;
  Return buf.
End Suite.

Definition transcript : string :=
  String.concat "
" ["arg test passed"; "open test"; "open test ok"; "small file test"; "creat small succeeded; ok"; "writes ok"; "open small succeeded ok"; "read succeeded ok";
   "small file test ok"; "iput test"; "iput test ok"; "mkdir test"; "mkdir test ok"; "rmdot test"; "rmdot ok"; "fourteen test"; "fourteen ok";
   "bigfile test"; "bigfile test ok"; "subdir test"; "subdir ok"; "linktest"; "linktest ok"; "unlinkread test"; "unlinkread ok"; "dir vs file"; "dir vs file OK"; EmptyString].

(** the kernel passes the repository's own tests.  On the disk [mkfs] makes, with the
    log recovered and the root directory found, the first process runs twelve tests of
    [usertests.c] through [syscall]: each call returns, without a panic and without
    sleeping, and the console shows that every test succeeded.  The tests try every call
    of [sysfile.c] on files and directories and most of the ways in which it must fail. *)
Theorem kernel_passes_tests :
  match run (kernel_system Machine.im) (suite (replicate (Z.to_nat 8192) 0)) tt Machine.booted with
  | (Returned _, _, w) => Machine.said w = Some transcript
  | _ => False
  end.
Proof. vm_compute. reflexivity. Qed.

(** ** [exit] and [wait] over the kernel

    The states of [ProcSpec.Runs], with the kernel of [Kernel] below the table: the
    child's stack and page directory are pages, and the directory both processes are
    in is the first cached inode. *)
Module ExitWait.
#[local] Instance kernel_here : Env kern := kernel_env Machine.im.

Definition resting : kern :=
  mkKern (mkKmem (fun _ => 0) false false 0)
    (mkF (mkSb 0 0 0 0 0 0 0) false (replicate 50 (mkInode 1 1 2 (mkSleeplock false false 0) false 0 0 0 0 0 (replicate 13 0)))
       (mkL (mkLog false 0 30 0 false 1 0 (replicate 30 0)) (mkBlk (fun _ => []) (fun _ => []) [] []) []) 2 [] [])
    false (replicate 100 Machine.no_file) ∅ false [] [] 0.
Definition paged (p : proc) : proc := if is_state UNUSED p then p else set_kstack 0x80200000 (set_pgdir 0x80300000 p).
Definition over_kernel (s : pstate unit) : pstate kern :=
  mkP (map paged (ptable s)) [] (nextpid s) (initproc s) (cpu_proc s) 0 false 0 0 0 0 [] resting.
Definition child_runs : pstate kern := over_kernel Runs.child_runs.
Definition slot (i : nat) : proc := nth i (ptable child_runs) proc_zero.

Lemma paged_same p :
  pid (paged p) = pid p /\ state (paged p) = state p /\ parent (paged p) = parent p /\ ofile (paged p) = ofile p
  /\ (state p <> UNUSED -> kstack (paged p) <> 0 /\ pgdir (paged p) <> 0).
Proof.
  unfold paged. destruct (is_state UNUSED p) eqn:E; [|by repeat split].
  do 4 (split; [done|]). intros Hu. by apply is_state_spec in E.
Qed.

Lemma paged_lookup (l : list proc) i p : map paged l !! i = Some p -> exists p0, l !! i = Some p0 /\ p = paged p0.
Proof. rewrite list_lookup_fmap. destruct (l !! i) as [p0|]; intros [= <-]; eauto. Qed.

Lemma paged_table l n cur ini : table_ok l n cur ini -> table_ok (map paged l) n cur ini.
Proof.
  intros [H1 H2 H3 H4 H5 H6 H7 H8 H9].
  assert (Hact : forall p, active p -> active (paged p)) by (intros p; unfold active; by destruct (paged_same p) as (_ & -> & _)).
  assert (Hin : forall k, (exists q, l !! k = Some q /\ active q) -> exists q, map paged l !! k = Some q /\ active q).
  { intros k (q & Hq & Ha). exists (paged q). rewrite list_lookup_fmap, Hq. auto. }
  split.
  - by rewrite length_map.
  - intros i j p q Hp Hq. apply paged_lookup in Hp as (p0 & Hp & ->), Hq as (q0 & Hq & ->).
    destruct (paged_same p0) as (-> & _), (paged_same q0) as (-> & _). by apply (H2 i j p0 q0).
  - intros i p (p0 & Hp & ->)%paged_lookup. destruct (paged_same p0) as (-> & -> & _). by apply (H3 i).
  - intros i p (p0 & Hp & ->)%paged_lookup. destruct (paged_same p0) as (_ & -> & _). by apply (H4 i).
  - intros i p (p0 & Hp & ->)%paged_lookup. destruct (paged_same p0) as (_ & -> & _). by apply (H5 i).
  - intros i p (p0 & Hp & ->)%paged_lookup. destruct (paged_same p0) as (_ & -> & _ & _ & H). done.
  - intros i p k (p0 & Hp & ->)%paged_lookup. destruct (paged_same p0) as (_ & -> & -> & _). intros Hk.
    destruct (H7 i p0 k Hp Hk) as [? ?]. auto.
  - intros i p (p0 & Hp & ->)%paged_lookup. unfold active. destruct (paged_same p0) as (_ & -> & _ & -> & _). by apply (H8 i).
  - auto.
Qed.

Lemma over_kernel_ok s : kstate_ok s -> kstate_ok (over_kernel s).
Proof.
  intros [Ht Hh Hc Hn]. split; [by apply paged_table|done| |done].
  intros i Hi. destruct (Hc i Hi) as (p & Hp & Hs). exists (paged p). cbn [over_kernel ptable]. rewrite list_lookup_fmap, Hp.
  split; [done|]. by destruct (paged_same p) as (_ & -> & _).
Qed.

Lemma zombie_child_ok : kstate_ok child_runs.
Proof. exact (over_kernel_ok _ Runs.child_runs_ok). Qed.

(** The kernel below after the clean-up of [exit]. *)
Definition cleaned : kern := snd (exit_env (slot 1) 0 resting).


Lemma child_pages_freed : fst (reap_env (slot 1) cleaned) = Ok tt.
Proof. vm_compute. reflexivity. Qed.
End ExitWait.
